(* ===== verification/_CoqProject ===== *)
-Q . S2P
Prelude.v
Types.v
Errors.v
CacheControlHeader.v
StatusMonitor.v
AbortHandler.v
OTAStatusControl.v
ECUStatus.v
BootController.v
Updater.v
OTACore.v
Servicer.v
CacheIndex.v
CacheStreaming.v
OTACache.v
SharedMemory.v
RetryTaskMap.v
Downloader.v
CertStore.v
LegacyCSV.v
LegacyMetadata.v
SlotPaths.v
StandbySlot.v
ShardedDict.v
DeltaGen.v
FileSystem.v
StatusFiles.v
CopyTree.v
OTAConfigFiles.v
TextLines.v
GrubCfg.v
GrubMenu.v
GrubBoot.v
PersistFiles.v
CmdHelper.v
SlotHooks.v
RpiBoot.v
JetsonText.v
FirmwarePackage.v
JetsonCommon.v
JetsonCboot.v
JetsonUefi.v
Dpi.v
PartitionBoot.v
DownloadResources.v
UpdateLibs.v
PartitionImage.v
ProxyPools.v
ProxyServer.v
ClientUpdate.v
Configs.v
Processes.v
ProtoWrapper.v
ProtoStreamer.v
ScanPool.v
LogFilter.v
SlotMeta.v
ApiCaller.v
LinuxHelpers.v
ImageV1.v
