(* ===== verification/Prelude.v ===== *)
(** * Verification of OTAClient

    OTAClient updates the software of an ECU over the air on an A/B slot
    layout.  It runs as several processes: the core process performs updates
    ([src/src/otaclient/ota_core], with the boot controllers of
    [src/src/otaclient/boot_control]), the gRPC process answers status and
    request calls for this ECU and its sub ECUs ([src/src/otaclient/grpc]), and
    the OTA proxy ([src/src/ota_proxy]) serves and caches the files of an update
    for the ECUs behind it.

    ** Files, in the order they build on each other

    - [Prelude]: records with update notation, Python dicts as association
      lists, the [str] functions the sources use, the state-and-exception monad
      [PyM] with its frame rules ([keeps], [raises_only]), the hint database
      [ota], and lemmas on lists and options.
    - [Types]: [otaclient/_types.py]; statuses, phases, requests, responses and
      the status record.
    - [Errors]: [otaclient/errors.py] and [ota_core/_common.py]; the exception
      classes as data, with codes and failure types inherited as in Python, and
      the translation of exceptions into reportable errors.
    - [CacheControlHeader]: [ota_proxy/cache_control_header.py]; parser and
      exporters of the header between clients and proxies.
    - [StatusMonitor]: [otaclient/_status_monitor.py]; each report handler and
      the collector thread's round with the push to the shared memory.
    - [AbortHandler]: [ota_core/_abort_handler.py]; the handler's methods as
      functions on its state, and the interleaving of the handler thread, the
      updater ([OTAUpdaterBase.execute] of [ota_core/_updater.py]) and the request
      loop as a step relation, one step per section under the condition
      variable.
    - [OTAStatusControl]: [boot_control/_ota_status_control.py]; the status files
      of both slots, and [init_control], what a boot makes of them.
    - [ECUStatus]: [grpc/api_v2/ecu_status.py], the status summaries of
      [otaclient_api/v2/_types.py] and the conversion of
      [grpc/api_v2/_types.py]; the storage, its update operations, the overall
      report and the export.
    - [BootController]: [boot_control/_base.py]; the template methods over any
      platform, an instance of the class [PlatformHooks].
    - [Updater]: [ota_core/_updater.py], [ota_core/_updater_base.py]; a session's
      set-up, its phases, [execute] with its except clauses.  The bodies of the
      image-specific phases are an instance of the class [UpdaterOps].
    - [OTACore]: [ota_core/_main.py]; start-up, [update], [client_update] and the
      request loop, over [Updater], [BootController] and [AbortHandler], and the
      end of [update] statement by statement beside the abort thread.
    - [Servicer]: [grpc/api_v2/servicer.py], [grpc/api_v2/ecu_tracker.py]; the API
      handlers over the queues to [OTACore] and the storage of [ECUStatus], the
      forwarding of a request over a tree of ECUs, and the status polling.
    - [CacheIndex]: [ota_proxy/cache_index.py], [ota_proxy/db.py]; the in-memory
      index, the write-behind thread and the preload.
    - [CacheStreaming]: [ota_proxy/cache_streaming.py]; the provider, the cache
      writer and the subscriber of one file as a step relation.
    - [OTACache]: [ota_proxy/ota_cache.py]; [retrieve_file] and every path it
      takes, over [CacheIndex], [CacheStreaming] and [CacheControlHeader].
    - [SharedMemory]: [otaclient_common/_shm.py]; the one-message channel between
      the core process and the others, byte by byte.
    - [RetryTaskMap]: [otaclient_common/retry_task_map.py]; the thread pool with
      retries as a step relation of its threads.
    - [Downloader]: [otaclient_common/downloader.py]; one download with its
      retry, range requests and checks, and the pool of downloaders.
    - [CertStore]: [ota_metadata/utils/cert_store.py]; loading CA chains and
      verifying a certificate against them.
    - [LegacyCSV]: [ota_metadata/legacy2/csv_parser.py]; the patterns of the CSV
      lines as matchers and the filling of the file table in batches.
    - [LegacyMetadata]: [ota_metadata/legacy2/metadata_jwt.py] and [metadata.py];
      [metadata.jwt], its verification, the metafiles and the resources, over
      [CertStore], [LegacyCSV] and any downloader that is a [VerifiedFetch], of
      which [Downloader] is an instance.
    - [SlotPaths], [StandbySlot]: how paths below the standby slot's mount point
      are resolved; [create_standby/update_slot.py] and
      [ota_metadata/file_table/utils.py], the tasks that build the new root file
      system, over a file system of paths and inodes.
    - [ShardedDict]: [otaclient_common/thread_safe_container.py], an instance of
      the class [ThreadSafeDict].
    - [DeltaGen]: [create_standby/delta_gen.py], [resume_ota.py]; the scan of a
      slot, the workers that collect resources from it, over any
      [ThreadSafeDict].
    - [FileSystem]: the file system of the boot controllers (paths, inodes,
      symbolic links, faults) and [otaclient_common/_io.py] over it.
    - [CopyTree]: [copytree_identical] of [otaclient_common/common.py].
    - [OTAConfigFiles]: [boot_control/_ota_config_files.py]; the config files of
      an image, their installation and the roll-back around the boot switch.
    - [TextLines]: lines, words and searches on text, shared by the files that
      read the output of commands or configuration files.
    - [GrubCfg], [GrubMenu], [GrubBoot]: [boot_control/_grub_common.py],
      [boot_control/_grub_new.py] and the texts of [boot_control/configs.py]; the
      slots and fstab, the managed [grub.cfg] and [/etc/default/grub], and the
      GRUB controller with its start-up, an instance of [PlatformHooks].
    - [PersistFiles]: [otaclient_common/persist_file_handling.py] and the user and
      group databases of [otaclient_common/linux.py].
    - [CmdHelper]: [otaclient_common/cmdhelper.py], the command wrappers of
      [common.py] and [linux.py], and [boot_control/_slot_mnt_helper.py], over the
      class [CmdEnv] of environments that run commands.
    - [StatusFiles], [SlotHooks]: the status files of [OTAStatusControl] on the
      file system, and the hooks that the controllers with status files in the
      slots have in common.
    - [RpiBoot]: [boot_control/_rpi_boot.py], an instance of [PlatformHooks].
    - [JetsonText], [FirmwarePackage], [JetsonCommon], [JetsonCboot],
      [JetsonUefi]: [boot_control/_jetson_common.py], [_firmware_package.py],
      [_jetson_cboot.py] and [_jetson_uefi.py]; the two controllers are instances
      of [PlatformHooks].
    - [Dpi]: [boot_control/_dpi.py]; one run of the installer of partition
      images, with its protocol.
    - [PartitionBoot]: [boot_control/_partition_image.py], [selecter.py]; the
      controller of partition images over the class [DPIProtocol], of which
      [Dpi] is an instance, and the choice of a controller.
    - [DownloadResources]: [ota_core/_download_resources.py]; resumable
      downloads, slices and the generator that dispatches them.
    - [UpdateLibs]: [ota_core/_update_libs.py] and the mixins of
      [_updater_base.py]; the delta calculation over [DeltaGen] with its
      resumption, and the download of the resources with its reports.
    - [PartitionImage]: [ota_core/_partition_image.py]; the updater of partition
      images over [PartitionBoot] and [DownloadResources].
    - [ProxyPools], [ProxyServer]: the thread pools and the file reading of
      [ota_proxy/cache_streaming.py]; [server_app.py], [external_cache.py] and the
      start and close of [ota_cache.py], over [OTACache].
    - [ClientUpdate]: [client_package.py] and [ota_core/_client_updater.py], over
      [LegacyMetadata].
    - [Configs], [Processes]: [otaclient/configs]; [main.py] and
      [_otaproxy_ctx.py].
    - [ProtoWrapper], [ProtoStreamer], [ApiCaller]:
      [otaclient_common/proto_wrapper.py] with the messages of
      [otaclient_api/v2/_types.py], [proto_streamer.py] and
      [otaclient_api/v2/api_caller.py].
    - [ScanPool]: the threads of [create_standby/delta_gen.py].
    - [LogFilter], [LinuxHelpers]: [otaclient_common/_logging.py]; the rest of
      [linux.py], file digests and ids.
    - [SlotMeta]: [create_standby/utils.py], the saved file tables of
      [ota_metadata/file_table/utils.py], and what an update keeps for the next
      one, with the BSP check of [ota_core/_updater.py].
    - [ImageV1]: [ota_metadata/v1.py], [utils/detect_ota_image_ver.py] and the
      metadata phase of a version 1 image, over the interface [OtaImageLibs] of
      the package ota-image-libs and any [VerifiedFetch].

    ** What the theorems show

    - Boots: from the moment an update starts, the old slot can only boot to
      [FAILURE] on every platform and after every failure; a completed update
      boots the new slot to [SUCCESS] with the version it was given, or to
      [FAILURE] when the finalization fails; statuses survive reboots
      unchanged; a recorded abort is reported once; the failure information is
      restored by the next boot and never outlives its status ([BootController],
      [OTAStatusControl]).
    - Sessions: [update] always settles in a status that is not busy, with that
      status reported once and, unless an abort is in progress, last, in every
      interleaving with the abort thread, or reboots; its failure is reported
      again after a
      restart; a completed abort is never overwritten; the request loop answers
      each request and never starts two operations within the hold time
      ([OTACore], with the frame lemmas of [Updater]).
    - Aborts: in every interleaving no abort action runs inside a protected
      zone, an accepted abort is never lost and can always complete
      ([AbortHandler]).
    - Status: the collector only counts the reports of the current session,
      sums the progress exactly and publishes consistent copies; the storage of
      all ECUs classifies them by their last reports and does not forget the
      ECUs that accepted an update ([StatusMonitor], [ECUStatus]).
    - API: the servicer reports an ECU as accepting exactly when its core
      started the operation; a response holds the answers of all ECUs it
      concerns, and in a tree of ECUs exactly of those whose path is in the
      request; an abort reaches every sub ECU ([Servicer]).
    - Helpers: the shared memory is a register of the last message that fits
      ([SharedMemory]); a run of the thread pool that ends without an exception
      has processed every item exactly once, keeps its limits and does not get
      stuck ([RetryTaskMap]).
    - Proxy: headers round-trip, also from one proxy to the next; the index
      stays within its limit and the table within the index; a subscriber
      streams a prefix, and at its normal end the whole, of the remote file;
      cached files are complete unless the consumer left early; ranged answers
      complete the client's file; a file reported as corrupted is not served
      again ([CacheControlHeader], [CacheIndex], [CacheStreaming], [OTACache]).
    - Downloads: a download that returns has written the bytes of the expected
      size and digest, an interrupted one continues where it stopped, no two
      threads share a downloader ([Downloader]).
    - Metadata: no metadata is used before the certificate and the signature of
      [metadata.jwt] are verified, all metafiles are downloaded against the
      verified hashes; of the certificates that are not self-issued the store
      accepts exactly what a loaded chain supports; a file table filled from the
      CSV files is consistent, lines round-trip ([CertStore], [LegacyCSV],
      [LegacyMetadata]).  All metadata of a version 1 image is reached by
      digests from an index that a certificate of the CA store has signed; an
      untrusted signer, a payload of the other kind and a foreign BSP version
      are refused ([ImageV1]).
    - Standby slot: in whatever order the tasks run, a run that ends without
      an exception leaves every entry of the file table on the slot, with its
      content, permissions and hard links, and a run with free paths, the
      directories above them and readable resources does end so; every resource
      is collected, still asked for, or could not be moved; the working
      directories are spared ([StandbySlot], [DeltaGen], [ShardedDict]).
    - GRUB: after an update the next boot, and only the next, starts the new
      slot, whose menu entry names its own kernel and root file system; the
      start-up takes over the boot control once and keeps a managed
      configuration; the slots, fstab and [/etc/default/grub] come out as
      described; config files are installed all or not at all ([GrubBoot],
      [GrubMenu], [GrubCfg], [OTAConfigFiles]).
    - Files and mounts: a directory copied by [copytree_identical] is the
      source's copy unless a link is in its way; a private directory is owned
      and not writable by others along its whole path; a persistent entry
      arrives with its content, with its owners mapped by name and with its mode
      but for the set-id bits; when mounting the standby slot returns,
      the slot's device is mounted there ([CopyTree], [FileSystem],
      [PersistFiles], [CmdHelper]).
    - Raspberry Pi and Jetson: the commands that switch the boot are the last
      of an update and run in their order; what the firmware boots after a
      finalization that succeeds or fails; a firmware update that is under way
      and a switch of the slots exclude each other
      ([RpiBoot], [JetsonCboot], [JetsonUefi], [FirmwarePackage]).
    - Partition images: only a trial boot that is committed makes an update a
      success, a staged image is left alone until the reboot it waits for, and
      the status of the controller refines what the installer reports ([Dpi],
      [PartitionBoot]).  An image is handed over only complete and only after
      the boot record; every failure settles ([PartitionImage]).
    - Resources: the delta of both modes accounts for every resource of the
      image, in any order of the threads; the scan ends as long as a worker is
      left, having processed each file once; each resource is dispatched once;
      an interrupted download is kept for the next session; the table of an
      update is found by the next one ([UpdateLibs], [ScanPool],
      [DownloadResources], [SlotMeta]).
    - Proxy server: every request is answered with one well-formed response,
      the one specified for the cache's answer, or a beginning of it when
      sending fails, and gives its slot back; the requests and the pools stay
      within their limits; a writer that was dropped never runs; the index that
      is loaded has its files ([ProxyServer], [ProxyPools]).
    - Client update: a client that is launched is the package that the
      downloaded manifest offers to the device and has its digest; every failure
      settles; the waits end ([ClientUpdate]).
    - Processes: the proxy is started and stopped as its control thread says
      and not after the shutdown; the main process leaves nothing behind; only
      the gateway caches ([Processes], [Configs]).
    - Messages: a message that is read and exported reads the same in all
      annotated fields, a wrapper that is exported and read is the same, a call
      carries request and response unchanged, streams are read back up to
      where they are cut off, redacted fields never show, durations add up
      ([ProtoWrapper], [ProtoStreamer], [ApiCaller]).
    - Some theorems record behaviour that differs from what a comment or the
      design says: [aborting_reported_last], [client_update_stuck], [abandoned_stream_cached_truncated],
      [abort_kills_next_session], [queued_abort_blocks_handler],
      [rollback_after_update_fails], [flush_drops_rewritten_key],
      [disabled_cache_skips_external], [new_session_keeps_traceback],
      [late_response_shifts_answers], [entry_retries_forgotten],
      [self_issued_cert_accepted], [quote_ending_symlink_rejected],
      [persist_entries_not_unescaped], [failed_move_loses_resource],
      [missing_dir_link_not_copied], [dir_links_lost_through_link],
      [setuid_bit_lost], [unannotated_field_dropped], [kernels_not_comparable],
      [hook_shebang_not_first], [removal_follows_parent_link],
      [linked_parent_world_writable], [linked_tmp_made_in_running_system],
      [skipped_firmware_fails_update], [log_message_fails_switched_update],
      [indented_tnspec_misread], [failed_boot_copy_leaves_switched],
      [esp_left_mounted], [failed_update_trial_not_switching],
      [v1_stall_reported_as_interrupted], [download_dir_removed_before_resume],
      [metrics_miss_last_report], [manifest_unverified],
      [manifest_filename_escapes], [unreadable_config_raises],
      [empty_message_ends_stream], [dead_workers_block_scan],
      [suppressed_lines_overcounted], [unchecked_table_accepted].

    ** Modelling choices

    Threads that share state are interleaved by step relations; what runs in
    one thread is a function in [PyM], whose exceptions are the values of
    [Errors.pyexn].  Clock readings, file-system outcomes, network outcomes and
    the results of platform tools are arguments of the definitions or members
    of the classes [PlatformHooks], [UpdaterOps], [CmdEnv], [DpiEnv] and
    [DPIProtocol], so the theorems hold for all of them.  The only laws assumed are those stated
    in these classes, in [MountEnv] (what mount commands do to the table of
    mounts), [NvBootEnv] (what [nvbootctrl] does to the slots, and that the
    other commands but [nv_update_engine] leave them), [FileEnv]
    (files are read back), [SqliteDb] (a backup is as good as its
    source) and in [OTACore.env_ok], that unpickling undoes pickling, and that
    a set of finished calls holds each of them once.  SHA-256, HMAC, [pickle],
    ES256, base64, JSON and YAML with their validation, zstd, the schema of
    ota-image-libs, aiohttp, protobuf ([PbLib], with its phase numbers), gRPC
    and the remote server are parameters.  The recursive
    functions with a fuel argument are the binary search and the batching of
    [CacheIndex], the reading loops of [Downloader], [DeltaGen], [ProxyPools]
    and [LinuxHelpers], the reader of a stream in [ProtoStreamer], the walk
    along a chain in [CertStore] and the walks along a path in [FileSystem] and
    [SlotPaths]; they get the length of their list, which each step shrinks (the
    walk along a chain: the bound of the source's own loop; the walks along a
    path: the forty links that the kernel follows).  Waiting for the sub ECUs gets the rounds
    that fit into its timeout ([wait_bounded]), and a batch of metafiles the
    attempts of its pool.

    Simplifications: writes to the status files succeed (they are atomic
    replacements on a mounted file system); JSON values are kept parsed, with
    parse failures as inputs; the disk usage percentage is computed exactly
    and not in floating point; log messages, metrics and tracebacks' texts are
    left out; the files of a cache do not change while one lookup runs.

    ** Not modelled

    - Logging to the servers, metrics and their counters, and the text of log
      messages: input and output only.
    - The creation of processes, queues and servers ([main] before its loop,
      [grpc/api_v2/main.py], the command line entries): wiring.
    - The classes generated by protobuf and gRPC, and the comparison of message
      wrappers.
    - Constants that only name paths, sizes for humans, and the time that is
      slept between retries. *)

From stdpp Require Import base gmap strings list fin_maps sets pretty.
From Stdlib Require Import ZArith Ascii String Lia.

Open Scope Z_scope.

Create HintDb ota discriminated.

(** ** Functional record update

    A record type declares its field list once, as an instance of [Eta];
    [r <| f := v |>] then rebuilds the record with the field [f] replaced, so
    that projections of the result reduce by computation. *)

Class Eta (R : Type) := eta : R -> R.
Class Updater {R T : Type} (proj : R -> T) := upd : T -> R -> R.
Arguments upd {R T} proj {_} v r /.

Ltac solve_updater :=
  lazymatch goal with
  | |- @Updater ?R ?T ?proj =>
      let inst := constr:(_ : Eta R) in
      let inst := eval cbv delta [eta] in inst in
      let h := (eval hnf in inst) in
      let v := fresh "v" in
      let r := fresh "r" in
      change (T -> R -> R); intros v r;
      let body := (eval cbv beta in (h r)) in
      let p := (eval pattern (proj r) in body) in
      lazymatch p with
      | ?g _ => let res := (eval cbv beta in (g v)) in exact res
      end
  end.

#[export] Hint Extern 0 (Updater _) => solve_updater : typeclass_instances.

Notation "r <| f := v |>" := (upd f v r)
  (at level 1, f at next level, left associativity,
   format "r  <| f  :=  v |>").


(** ** Results, exceptions and state

    A Python call either returns a value or raises an exception.  [result]
    is that outcome; [PyM S E] is a computation over a mutable state [S] that
    may raise [E].  As in Python, the mutations made before an exception
    stay: the state is threaded through both outcomes. *)

Inductive result (E A : Type) : Type :=
| Ok (a : A)
| Raise (e : E).
Arguments Ok {E A} a.
Arguments Raise {E A} e.

Definition is_ok {E A} (r : result E A) : bool :=
  match r with Ok _ => true | Raise _ => false end.

Definition PyM (S E A : Type) : Type := S -> S * result E A.

#[global] Instance pym_ret S E : MRet (PyM S E) := fun A a s => (s, Ok a).
#[global] Instance pym_bind S E : MBind (PyM S E) :=
  fun A B k m s =>
    match m s with
    | (s', Ok a) => k a s'
    | (s', Raise e) => (s', Raise e)
    end.

(** The primitive computations, and the [try] forms of the language. *)
Definition raise {S E A} (e : E) : PyM S E A := fun s => (s, Raise e).
Definition get {S E} : PyM S E S := fun s => (s, Ok s).
Definition gets {S E A} (f : S -> A) : PyM S E A := fun s => (s, Ok (f s)).
Definition modify {S E} (f : S -> S) : PyM S E unit := fun s => (f s, Ok tt).

(** [try m except e: h e] *)
Definition try_except {S E E' A} (m : PyM S E A) (h : E -> PyM S E' A) : PyM S E' A :=
  fun s => match m s with
           | (s', Ok a) => (s', Ok a)
           | (s', Raise e) => h e s'
           end.

(** [try m finally f]: [f] runs on both outcomes; an exception of [f] wins. *)
Definition try_finally {S E A} (m : PyM S E A) (f : PyM S E unit) : PyM S E A :=
  fun s => match m s with
           | (s', r) => match f s' with
                        | (s'', Ok _) => (s'', r)
                        | (s'', Raise e) => (s'', Raise e)
                        end
           end.

(** A call whose outcome is fixed by the environment. *)
Definition from_result {S E A} (r : result E A) : PyM S E A := fun s => (s, r).

Lemma pym_bind_ret_l {S E A B} (a : A) (k : A -> PyM S E B) s :
  (mret a ≫= k) s = k a s.
Proof. reflexivity. Qed.

Lemma pym_bind_assoc {S E A B C} (m : PyM S E A) (k : A -> PyM S E B)
    (h : B -> PyM S E C) s :
  ((m ≫= k) ≫= h) s = (m ≫= (fun a => k a ≫= h)) s.
Proof. unfold mbind, pym_bind. by destruct (m s) as [? [?|?]]. Qed.

(** A sequence that returns: both parts returned. *)
Lemma from_result_ok {S E A} (r : result E A) (s s' : S) a : from_result r s = (s', Ok a) -> r = Ok a /\ s' = s.
Proof. unfold from_result. destruct r; intros H; by simplify_eq/=. Qed.

Lemma pym_bind_ok {S E A B} (m : PyM S E A) (k : A -> PyM S E B) s s' b :
  (m ≫= k) s = (s', Ok b) -> exists s1 a, m s = (s1, Ok a) /\ k a s1 = (s', Ok b).
Proof. unfold mbind, pym_bind. destruct (m s) as [s1 [a|e]]; [eauto|done]. Qed.

Lemma try_finally_ok {S E A} (m : PyM S E A) (g : S -> S) s :
  try_finally m (modify g) s = (g (fst (m s)), snd (m s)).
Proof. unfold try_finally, modify. by destruct (m s). Qed.

(** A [try] whose handler never returns. *)
Lemma try_except_ok {S E E' A} (m : PyM S E A) (h : E -> PyM S E' A) s s' a :
  (forall e s1 a1, snd (h e s1) <> Ok a1) -> try_except m h s = (s', Ok a) -> m s = (s', Ok a).
Proof.
  intros Hh. unfold try_except. destruct (m s) as [s1 [b|e]]; [by intros [= -> ->]|]. intros H.
  destruct (Hh e s1 a). by rewrite H.
Qed.

(** ** Frame and exception reasoning

    [keeps R m]: whatever its outcome, [m] only moves the state along the
    preorder [R].  [raises_only P m]: every exception of [m] satisfies [P]. *)

Definition keeps {S E A} (R : S -> S -> Prop) (m : PyM S E A) : Prop :=
  forall s, R s (fst (m s)).

Definition raises_only {S E A} (P : E -> Prop) (m : PyM S E A) : Prop :=
  forall s e, snd (m s) = Raise e -> P e.

Section Frame.
Context {S : Type} (R : S -> S -> Prop) `{HR : !PreOrder R}.

Lemma keeps_ret {E A} (a : A) : keeps R (mret a : PyM S E A).
Proof. intros s. reflexivity. Qed.

Lemma keeps_get {E} : keeps R (get : PyM S E S).
Proof. intros s. reflexivity. Qed.

Lemma keeps_gets {E A} (f : S -> A) : keeps R (gets f : PyM S E A).
Proof. intros s. reflexivity. Qed.

Lemma keeps_raise {E A} (e : E) : keeps R (raise e : PyM S E A).
Proof. intros s. reflexivity. Qed.

(** ... when what follows is known only for results of [m]. *)
Lemma keeps_bind_when {E A B} (m : PyM S E A) (k : A -> PyM S E B) :
  keeps R m -> (forall s s' a, m s = (s', Ok a) -> R s' (fst (k a s'))) -> keeps R (m ≫= k).
Proof using HR.
  intros Hm Hk s. specialize (Hm s). unfold mbind, pym_bind. destruct (m s) as [s' [a|e]] eqn:E1; [|done].
  etransitivity; [exact Hm|]. by eapply Hk.
Qed.

Lemma keeps_from_result {E A} (r : result E A) : keeps R (from_result r).
Proof. intros s. reflexivity. Qed.

Lemma keeps_modify {E} (f : S -> S) : (forall s, R s (f s)) -> keeps R (modify f : PyM S E unit).
Proof. intros H s. apply H. Qed.

Lemma keeps_bind {E A B} (m : PyM S E A) (k : A -> PyM S E B) :
  keeps R m -> (forall a, keeps R (k a)) -> keeps R (m ≫= k).
Proof.
  intros Hm Hk s. unfold mbind, pym_bind. specialize (Hm s).
  destruct (m s) as [s' [a|e]]; simpl in *; [|done]. etransitivity; [exact Hm|apply Hk].
Qed.

Lemma keeps_try_except {E E' A} (m : PyM S E A) (h : E -> PyM S E' A) :
  keeps R m -> (forall e, keeps R (h e)) -> keeps R (try_except m h).
Proof.
  intros Hm Hh s. unfold try_except. specialize (Hm s).
  destruct (m s) as [s' [a|e]]; simpl in *; [done|]. etransitivity; [exact Hm|apply Hh].
Qed.

Lemma keeps_try_finally {E A} (m : PyM S E A) (f : PyM S E unit) :
  keeps R m -> keeps R f -> keeps R (try_finally m f).
Proof.
  intros Hm Hf s. unfold try_finally. specialize (Hm s). destruct (m s) as [s' r].
  specialize (Hf s'). destruct (f s') as [s'' [?|?]]; simpl in *; etransitivity; eassumption.
Qed.
End Frame.

Lemma keeps_weaken {S E A} (R R' : S -> S -> Prop) (m : PyM S E A) :
  (forall s s', R s s' -> R' s s') -> keeps R m -> keeps R' m.
Proof. intros H Hm s. apply H, Hm. Qed.

Lemma raises_ret {S E A} (P : E -> Prop) (a : A) : raises_only P (mret a : PyM S E A).
Proof. by intros s e. Qed.

Lemma raises_modify {S E} (P : E -> Prop) (f : S -> S) : raises_only P (modify f : PyM S E unit).
Proof. by intros s e. Qed.

Lemma raises_raise {S E A} (P : E -> Prop) (e : E) : P e -> raises_only P (raise e : PyM S E A).
Proof. intros H s e' He. injection He as <-. exact H. Qed.

Lemma raises_bind {S E A B} (P : E -> Prop) (m : PyM S E A) (k : A -> PyM S E B) :
  raises_only P m -> (forall a, raises_only P (k a)) -> raises_only P (m ≫= k).
Proof.
  intros Hm Hk s e. unfold mbind, pym_bind. specialize (Hm s e).
  destruct (m s) as [s' [a|e']]; simpl in *; [apply Hk|intros [= ->]; by apply Hm].
Qed.

Lemma raises_try_except {S E E' A} (P : E' -> Prop) (m : PyM S E A) (h : E -> PyM S E' A) :
  (forall e, raises_only P (h e)) -> raises_only P (try_except m h).
Proof.
  intros Hh s e. unfold try_except. destruct (m s) as [s' [a|e']]; simpl; [done|apply Hh].
Qed.

#[export] Hint Resolve keeps_ret keeps_get keeps_gets keeps_raise keeps_from_result keeps_modify
  keeps_bind keeps_try_except keeps_try_finally raises_ret raises_modify raises_raise raises_bind
  raises_try_except : ota.

(** ** Python strings

    A [str] is a [string] whose characters stand for the code points below
    256; the methods below are those the sources call. *)

(** [str.isspace] on one character. *)
Definition is_space (a : ascii) : bool :=
  let n := N_of_ascii a in
  ((9 <=? n) && (n <=? 13) || (28 <=? n) && (n <=? 32) || (n =? 133) || (n =? 160))%N.

Fixpoint str_forallb (p : ascii -> bool) (s : string) : bool :=
  match s with
  | EmptyString => true
  | String a s' => p a && str_forallb p s'
  end.

(** [c not in s], for a character [c]. *)
Definition no_char (c : ascii) (s : string) : bool :=
  str_forallb (fun a => negb (Ascii.eqb a c)) s.

Fixpoint lstrip_by (p : ascii -> bool) (s : string) : string :=
  match s with
  | EmptyString => EmptyString
  | String a s' => if p a then lstrip_by p s' else s
  end.

Fixpoint rstrip_by (p : ascii -> bool) (s : string) : string :=
  match s with
  | EmptyString => EmptyString
  | String a s' =>
      match rstrip_by p s' with
      | EmptyString => if p a then EmptyString else String a EmptyString
      | r => String a r
      end
  end.

(** [s.strip()] and [s.strip(c)] for a one-character [c]. *)
Definition strip (s : string) : string := rstrip_by is_space (lstrip_by is_space s).
Definition strip_char (c : ascii) (s : string) : string :=
  rstrip_by (Ascii.eqb c) (lstrip_by (Ascii.eqb c) s).

(** [s.split(c)] for a one-character separator. *)
Fixpoint py_split (c : ascii) (s : string) : list string :=
  match s with
  | EmptyString => [EmptyString]
  | String a s' =>
      if Ascii.eqb a c then EmptyString :: py_split c s'
      else match py_split c s' with
           | h :: t => String a h :: t
           | [] => [String a EmptyString]
           end
  end.

(** [s.split(c, maxsplit=1)], as the head and the optional rest. *)
Fixpoint py_split1 (c : ascii) (s : string) : string * option string :=
  match s with
  | EmptyString => (EmptyString, None)
  | String a s' =>
      if Ascii.eqb a c then (EmptyString, Some s')
      else let '(k, v) := py_split1 c s' in (String a k, v)
  end.

(** [s.startswith(p)] *)
Fixpoint startswith (p s : string) : bool :=
  match p, s with
  | EmptyString, _ => true
  | String a p', String b s' => Ascii.eqb a b && startswith p' s'
  | String _ _, EmptyString => false
  end.

Definition upper_char (a : ascii) : ascii :=
  let n := N_of_ascii a in
  if ((97 <=? n) && (n <=? 122))%N then ascii_of_N (n - 32)%N else a.

Fixpoint str_map (f : ascii -> ascii) (s : string) : string :=
  match s with
  | EmptyString => EmptyString
  | String a s' => String (f a) (str_map f s')
  end.

(** [s.upper()] and [s.lower()] on ASCII letters. *)
Definition upper (s : string) : string := str_map upper_char s.
Definition lower_char (a : ascii) : ascii :=
  let n := N_of_ascii a in
  if ((65 <=? n) && (n <=? 90))%N then ascii_of_N (n + 32)%N else a.
Definition lower (s : string) : string := str_map lower_char s.

(** [s[:n]] and [s[n:]] for a nonnegative [n]. *)
Fixpoint str_take (n : nat) (s : string) : string :=
  match n, s with
  | S n', String a s' => String a (str_take n' s')
  | _, _ => EmptyString
  end.
Fixpoint str_drop (n : nat) (s : string) : string :=
  match n, s with
  | S n', String _ s' => str_drop n' s'
  | _, _ => s
  end.

(** [str.isdecimal] on one character. *)
Definition is_digit (a : ascii) : bool :=
  let n := N_of_ascii a in ((48 <=? n) && (n <=? 57))%N.

(** [int(s)]: decimal digits with single underscores between them, after
    white space and a sign. *)
Fixpoint int_body (digit_before : bool) (acc : Z) (s : string) : option Z :=
  match s with
  | EmptyString => if digit_before then Some acc else None
  | String a s' =>
      if is_digit a then int_body true (10 * acc + (Z.of_N (N_of_ascii a) - 48)) s'
      else if Ascii.eqb a "_" && digit_before then int_body false acc s'
      else None
  end.

Definition py_int (s : string) : option Z :=
  match strip s with
  | String "-"%char s' => Z.opp <$> int_body false 0 s'
  | String "+"%char s' => int_body false 0 s'
  | s' => int_body false 0 s'
  end.

(** The truth value of a [str]. *)
Definition str_truthy (s : string) : bool :=
  match s with EmptyString => false | _ => true end.

Definition opt_str_truthy (o : option string) : bool :=
  match o with Some s => str_truthy s | None => false end.

(** [o or d] for an optional string. *)
Definition opt_str_or (o : option string) (d : string) : string :=
  match o with Some s => if str_truthy s then s else d | None => d end.

Lemma str_app_nil_r s : (s +:+ EmptyString)%string = s.
Proof. induction s as [|a s IH]; [done|]. change (String a (s +:+ "") = String a s). by f_equal. Qed.

Lemma str_app_assoc s1 s2 s3 : ((s1 +:+ s2) +:+ s3 = s1 +:+ (s2 +:+ s3))%string.
Proof.
  induction s1 as [|a s1 IH]; [done|].
  change (String a ((s1 +:+ s2) +:+ s3) = String a (s1 +:+ (s2 +:+ s3))). by f_equal.
Qed.

Lemma length_str_app s t : String.length (s +:+ t)%string = (String.length s + String.length t)%nat.
Proof. induction s as [|a s IH]; simpl; [done|]. by rewrite <- IH. Qed.

Lemma length_str_drop n s : String.length (str_drop n s) = (String.length s - n)%nat.
Proof. revert s; induction n as [|n IH]; intros [|a s]; simpl; try lia. apply IH. Qed.

Lemma length_str_take n s : String.length (str_take n s) = Nat.min n (String.length s).
Proof.
  revert s; induction n as [|n IH]; intros [|a s]; simpl; [lia..|].
  by rewrite IH.
Qed.

Lemma str_take_drop n s : (str_take n s +:+ str_drop n s)%string = s.
Proof.
  revert s; induction n as [|n IH]; intros [|a s]; simpl; try done.
  change (String a (str_take n s +:+ str_drop n s) = String a s). by rewrite IH.
Qed.

Lemma str_forallb_app p s1 s2 :
  str_forallb p (s1 +:+ s2)%string = str_forallb p s1 && str_forallb p s2.
Proof.
  induction s1 as [|a s1 IH]; [done|].
  change (p a && str_forallb p (s1 +:+ s2) = (p a && str_forallb p s1) && str_forallb p s2)%string.
  by rewrite IH, andb_assoc.
Qed.

Lemma str_forallb_lstrip p q s :
  str_forallb q s = true -> str_forallb q (lstrip_by p s) = true.
Proof.
  induction s as [|a s IH]; simpl; [done|].
  rewrite andb_true_iff; intros [Ha Hs]. destruct (p a); simpl; [auto|].
  by rewrite Ha, Hs.
Qed.

Lemma str_forallb_rstrip p q s :
  str_forallb q s = true -> str_forallb q (rstrip_by p s) = true.
Proof.
  induction s as [|a s IH]; simpl; [done|].
  rewrite andb_true_iff; intros [Ha Hs]. specialize (IH Hs).
  destruct (rstrip_by p s); [destruct (p a); simpl; by rewrite ?Ha|].
  simpl in *. by rewrite Ha.
Qed.

Lemma rstrip_by_idemp p s : rstrip_by p (rstrip_by p s) = rstrip_by p s.
Proof.
  induction s as [|a s IH]; simpl; [done|].
  destruct (rstrip_by p s) as [|b r] eqn:E.
  - destruct (p a) eqn:Ha; simpl; [done|]. by rewrite Ha.
  - change (match rstrip_by p (String b r) with
            | EmptyString => if p a then EmptyString else String a EmptyString
            | r0 => String a r0 end = String a (String b r)). by rewrite IH.
Qed.

(** A string without trailing [p]-characters keeps none of those appended. *)
Lemma rstrip_by_snoc p s c :
  p c = true -> rstrip_by p (s +:+ String c EmptyString)%string = rstrip_by p s.
Proof.
  intros Hc. induction s as [|a s IH].
  - simpl. by rewrite Hc.
  - change (match rstrip_by p (s +:+ String c "")%string with
            | EmptyString => if p a then EmptyString else String a EmptyString
            | r => String a r end = rstrip_by p (String a s)).
    rewrite IH. done.
Qed.

Lemma rstrip_by_app p s1 s2 :
  rstrip_by p s2 = s2 -> s2 <> EmptyString ->
  rstrip_by p (s1 +:+ s2)%string = (s1 +:+ s2)%string.
Proof.
  intros H2 Hne. induction s1 as [|a s1 IH]; [done|].
  change (match rstrip_by p (s1 +:+ s2)%string with
          | EmptyString => if p a then EmptyString else String a EmptyString
          | r => String a r end = String a (s1 +:+ s2)%string).
  rewrite IH. destruct s1; [|done]. by destruct s2.
Qed.

Lemma lstrip_by_id p s :
  match s with String a _ => p a = false | _ => True end -> lstrip_by p s = s.
Proof. destruct s as [|a s]; simpl; [done|]. by intros ->. Qed.

Lemma py_split_nonempty c s : py_split c s <> [].
Proof. destruct s as [|a s]; simpl; [done|]. destruct (Ascii.eqb a c); [done|]. by destruct (py_split c s). Qed.

Lemma py_split_no_char c s : no_char c s = true -> py_split c s = [s].
Proof.
  induction s as [|a s IH]; simpl; [done|].
  unfold no_char in *; simpl. rewrite andb_true_iff, negb_true_iff. intros [-> Hs].
  by rewrite (IH Hs).
Qed.

Lemma py_split_app c s t :
  no_char c s = true -> py_split c (s +:+ String c t)%string = s :: py_split c t.
Proof.
  unfold no_char. induction s as [|a s IH]; intros H.
  - simpl. by rewrite Ascii.eqb_refl.
  - simpl in H. apply andb_true_iff in H as [Ha Hs]. apply negb_true_iff in Ha.
    change (py_split c (String a (s +:+ String c t)%string) = String a s :: py_split c t).
    simpl. rewrite Ha, (IH Hs). done.
Qed.

Lemma py_split_elems c s : Forall (fun x => no_char c x = true) (py_split c s).
Proof.
  induction s as [|a s IH]; simpl; [by constructor|].
  destruct (Ascii.eqb a c) eqn:E; [by constructor|].
  destruct (py_split c s) as [|h t].
  - constructor; [|done]. unfold no_char; simpl. by rewrite E.
  - inversion IH; subst. constructor; [|done]. unfold no_char in *; simpl. by rewrite E.
Qed.

Lemma py_split1_no_char c s : no_char c s = true -> py_split1 c s = (s, None).
Proof.
  unfold no_char. induction s as [|a s IH]; simpl; [done|].
  rewrite andb_true_iff, negb_true_iff. intros [-> Hs]. by rewrite (IH Hs).
Qed.

Lemma py_split1_app c s t :
  no_char c s = true -> py_split1 c (s +:+ String c t)%string = (s, Some t).
Proof.
  unfold no_char. induction s as [|a s IH]; intros H.
  - simpl. by rewrite Ascii.eqb_refl.
  - simpl in H. apply andb_true_iff in H as [Ha Hs]. apply negb_true_iff in Ha.
    change (py_split1 c (String a (s +:+ String c t)%string) = (String a s, Some t)).
    simpl. by rewrite Ha, (IH Hs).
Qed.

(** The rest of a split is a suffix: it keeps a property of all characters,
    and has no trailing [p]-character when the whole has none. *)
Lemma py_split1_forallb q c s k v :
  py_split1 c s = (k, Some v) -> str_forallb q s = true -> str_forallb q v = true.
Proof.
  revert k. induction s as [|a s IH]; simpl; intros k H; [done|].
  destruct (Ascii.eqb a c); [injection H as <- <-|destruct (py_split1 c s) as [k' o] eqn:E].
  - rewrite andb_true_iff. by intros [_ ?].
  - injection H as <- ->. rewrite andb_true_iff. intros [_ ?]. by apply (IH k').
Qed.

Lemma rstrip_by_tail p a s : rstrip_by p (String a s) = String a s -> rstrip_by p s = s.
Proof.
  simpl. destruct (rstrip_by p s) as [|b r] eqn:E; [|by intros [=]].
  destruct (p a); [done|]. by intros [=].
Qed.

Lemma py_split1_rstrip p c s k v :
  py_split1 c s = (k, Some v) -> rstrip_by p s = s -> rstrip_by p v = v.
Proof.
  revert k. induction s as [|a s IH]; intros k H Hr; [done|].
  apply rstrip_by_tail in Hr. simpl in H.
  destruct (Ascii.eqb a c); [by injection H as <- <-|].
  destruct (py_split1 c s) as [k' o] eqn:E. injection H as <- ->. by apply (IH k').
Qed.

(** ** Python dictionaries with their insertion order

    Where the order of a [dict] is observable (iteration, export) it is an
    association list: assigning an existing key keeps its place, a new key
    goes last. *)

Definition pydict (V : Type) : Type := list (string * V).

Fixpoint dict_get {V} (k : string) (d : pydict V) : option V :=
  match d with
  | [] => None
  | (k', v) :: d' => if String.eqb k k' then Some v else dict_get k d'
  end.

Fixpoint dict_set {V} (k : string) (v : V) (d : pydict V) : pydict V :=
  match d with
  | [] => [(k, v)]
  | (k', v') :: d' => if String.eqb k k' then (k', v) :: d' else (k', v') :: dict_set k v d'
  end.

(** [d.pop(k, None)] *)
Definition dict_del {V} (k : string) (d : pydict V) : pydict V :=
  List.filter (fun kv => negb (String.eqb k (fst kv))) d.

(** [d.update(e)] *)
Definition dict_update {V} (d e : pydict V) : pydict V :=
  fold_left (fun acc kv => dict_set (fst kv) (snd kv) acc) e d.

Definition dict_mem {V} (k : string) (d : pydict V) : bool :=
  match dict_get k d with Some _ => true | None => false end.

Definition dict_keys {V} (d : pydict V) : list string := map fst d.

Definition dict_wf {V} (d : pydict V) : Prop := NoDup (dict_keys d).

Lemma dict_get_set_eq {V} k (v : V) d : dict_get k (dict_set k v d) = Some v.
Proof.
  induction d as [|[k' v'] d IH]; simpl; [by rewrite String.eqb_refl|].
  destruct (String.eqb k k') eqn:E; simpl; by rewrite E.
Qed.

Lemma dict_get_set_ne {V} k k' (v : V) d :
  k <> k' -> dict_get k' (dict_set k v d) = dict_get k' d.
Proof.
  intros Hne. induction d as [|[k0 v0] d IH]; simpl.
  - destruct (String.eqb_spec k' k); congruence.
  - destruct (String.eqb_spec k k0); simpl.
    + subst. destruct (String.eqb_spec k' k0); congruence.
    + by rewrite IH.
Qed.

Lemma dict_get_set {V} k k' (v : V) d :
  dict_get k' (dict_set k v d) = if String.eqb k k' then Some v else dict_get k' d.
Proof.
  destruct (String.eqb_spec k k') as [->|]; [apply dict_get_set_eq|].
  by apply dict_get_set_ne.
Qed.

Lemma dict_get_None {V} k (d : pydict V) : dict_get k d = None <-> k ∉ dict_keys d.
Proof.
  induction d as [|[k' v] d IH]; simpl; [set_solver|].
  rewrite not_elem_of_cons. destruct (String.eqb_spec k k') as [->|Hne].
  - split; [done|]. by intros [? _].
  - rewrite IH. tauto.
Qed.

Lemma dict_get_Some_mem {V} k (v : V) d : dict_get k d = Some v -> k ∈ dict_keys d.
Proof.
  intros H. destruct (decide (k ∈ dict_keys d)) as [|Hn]; [done|].
  apply dict_get_None in Hn. congruence.
Qed.

Lemma dict_keys_set_old {V} k (v : V) d :
  k ∈ dict_keys d -> dict_keys (dict_set k v d) = dict_keys d.
Proof.
  unfold dict_keys. induction d as [|[k' v'] d IH]; simpl; [set_solver|].
  rewrite elem_of_cons. destruct (String.eqb_spec k k') as [->|Hne]; simpl; [done|].
  intros [->|Hin]; [done|]. f_equal. by apply IH.
Qed.

Lemma dict_set_new {V} k (v : V) d : k ∉ dict_keys d -> dict_set k v d = d ++ [(k, v)].
Proof.
  unfold dict_keys. induction d as [|[k' v'] d IH]; simpl; [done|].
  rewrite not_elem_of_cons. intros [Hk Hd].
  rewrite (proj2 (String.eqb_neq k k')) by done. by rewrite IH.
Qed.

Lemma dict_keys_set_new {V} k (v : V) d :
  k ∉ dict_keys d -> dict_keys (dict_set k v d) = dict_keys d ++ [k].
Proof. intros Hk. rewrite dict_set_new by done. unfold dict_keys. by rewrite map_app. Qed.

Lemma elem_of_dict_keys_set {V} k k' (v : V) d :
  k' ∈ dict_keys (dict_set k v d) <-> k' = k \/ k' ∈ dict_keys d.
Proof.
  destruct (decide (k ∈ dict_keys d)).
  - rewrite dict_keys_set_old by done. set_solver.
  - rewrite dict_keys_set_new by done. set_solver.
Qed.

Lemma dict_set_wf {V} k (v : V) d : dict_wf d -> dict_wf (dict_set k v d).
Proof.
  unfold dict_wf. intros Hd. destruct (decide (k ∈ dict_keys d)) as [Hin|Hin].
  - by rewrite dict_keys_set_old.
  - rewrite dict_keys_set_new by done.
    apply NoDup_app. split_and!; [done| |apply NoDup_singleton]. set_solver.
Qed.

Lemma dict_update_wf {V} (d e : pydict V) : dict_wf d -> dict_wf (dict_update d e).
Proof.
  unfold dict_update. revert d. induction e as [|[k v] e IH]; simpl; [done|].
  intros d Hd. by apply IH, dict_set_wf.
Qed.

Lemma dict_get_In {V} k (v : V) d : dict_get k d = Some v -> (k, v) ∈ d.
Proof.
  induction d as [|[k' v'] d IH]; simpl; [done|].
  destruct (String.eqb_spec k k') as [->|]; [intros [= ->]|]; set_solver.
Qed.

Lemma dict_In_get {V} k (v : V) d : dict_wf d -> (k, v) ∈ d -> dict_get k d = Some v.
Proof.
  unfold dict_wf. induction d as [|[k' v'] d IH]; simpl; [set_solver|].
  rewrite NoDup_cons. intros [Hk Hd] [[= -> ->]|Hin]%elem_of_cons.
  - by rewrite String.eqb_refl.
  - destruct (String.eqb_spec k k') as [->|]; [|by apply IH].
    exfalso. apply Hk. unfold dict_keys. apply list_elem_of_In, in_map_iff.
    exists (k', v). split; [done|]. by apply list_elem_of_In.
Qed.

Lemma dict_get_del {V} k k' (d : pydict V) :
  dict_get k' (dict_del k d) = if String.eqb k k' then None else dict_get k' d.
Proof.
  unfold dict_del. induction d as [|[k0 v0] d IH]; simpl; [by destruct (String.eqb k k')|].
  destruct (String.eqb_spec k k0) as [->|]; simpl.
  - rewrite IH. destruct (String.eqb_spec k0 k'); [done|].
    by rewrite (proj2 (String.eqb_neq k' k0)) by congruence.
  - destruct (String.eqb_spec k' k0) as [->|]; [|done].
    by rewrite (proj2 (String.eqb_neq k k0)) by congruence.
Qed.

(** ** Hint databases and tactics of the development *)

Create Rewrite HintDb ota.
#[export] Hint Resolve dict_set_wf dict_update_wf rstrip_by_idemp
  str_forallb_lstrip str_forallb_rstrip : ota.
#[export] Hint Rewrite @dict_get_set_eq @dict_get_del length_str_drop length_str_take : ota.

(** ** Decimal numbers

    [str] of a nonnegative [int], read back by [int] and by the digits of a
    pattern. *)

Fixpoint dec_value (acc : Z) (s : string) : Z :=
  match s with
  | EmptyString => acc
  | String a s' => dec_value (10 * acc + (Z.of_N (N_of_ascii a) - 48)) s'
  end.

Lemma pretty_N_char_digit x :
  (x < 10)%N -> is_digit (pretty_N_char x) = true /\
  Z.of_N (N_of_ascii (pretty_N_char x)) - 48 = Z.of_N x.
Proof.
  intros Hx. destruct x as [|p]; [done|].
  assert (Hp : (p < 10)%positive) by lia. clear Hx. revert p Hp.
  do 4 (intros p; destruct p as [p|p|]; intros Hp; try done; revert p Hp); lia.
Qed.

Lemma pretty_N_go_digits x s :
  str_forallb is_digit (pretty_N_go x s) = str_forallb is_digit s /\
  dec_value 0 (pretty_N_go x s) = dec_value (Z.of_N x) s /\
  (String.length s <= String.length (pretty_N_go x s))%nat /\
  ((0 < x)%N -> (String.length s < String.length (pretty_N_go x s))%nat).
Proof.
  revert s. induction (N.lt_wf_0 x) as [x _ IH]; intros s.
  destruct (decide (x = 0%N)) as [->|Hx]; [split_and!; [done|done|done|lia]|].
  rewrite !pretty_N_go_step by lia.
  destruct (pretty_N_char_digit (x `mod` 10)%N) as [Hd Hv]; [by apply N.mod_lt|].
  destruct (IH (x `div` 10)%N (N.div_lt x 10 ltac:(lia) ltac:(lia))
              (String (pretty_N_char (x `mod` 10)) s)) as (-> & -> & Hl & _).
  simpl in Hl. split_and!; [simpl; by rewrite Hd| |lia|lia].
  cbn [dec_value]. rewrite Hv. f_equal. rewrite (N.div_mod x 10) at 3 by lia. lia.
Qed.

Lemma pretty_Z_digits z :
  0 <= z -> str_forallb is_digit (pretty z) = true /\ dec_value 0 (pretty z) = z /\
  pretty z <> EmptyString.
Proof.
  intros Hz. destruct z as [|p|p]; [by vm_compute|..|lia].
  change (pretty (Z.pos p)) with (pretty (N.pos p)). unfold pretty, pretty_N.
  destruct (decide (N.pos p = 0%N)) as [|Hx]; [done|].
  destruct (pretty_N_go_digits (N.pos p) EmptyString) as (-> & -> & _ & Hl).
  split_and!; [done..|]. intros He. specialize (Hl ltac:(lia)). rewrite He in Hl. simpl in Hl. lia.
Qed.

Lemma int_body_digits b acc s :
  str_forallb is_digit s = true -> (b = true \/ s <> EmptyString) ->
  int_body b acc s = Some (dec_value acc s).
Proof.
  revert b acc. induction s as [|a s IH]; intros b acc Hs Hb; simpl in *.
  { by destruct Hb as [->|]. }
  apply andb_true_iff in Hs as [-> Hs]. apply IH; auto.
Qed.

Lemma is_digit_not_space a : is_digit a = true -> is_space a = false.
Proof.
  unfold is_digit, is_space. generalize (N_of_ascii a). intros n H.
  apply andb_true_iff in H as [H1%N.leb_le H2%N.leb_le].
  repeat match goal with |- context [(?x <=? ?y)%N] => destruct (N.leb_spec x y); try lia end;
    repeat match goal with |- context [(?x =? ?y)%N] => destruct (N.eqb_spec x y); try lia end; done.
Qed.

Lemma rstrip_by_none p s : str_forallb (fun a => negb (p a)) s = true -> rstrip_by p s = s.
Proof.
  induction s as [|a s IH]; [done|]. cbn [str_forallb rstrip_by]. intros H.
  apply andb_true_iff in H as [Ha%negb_true_iff Hs]. rewrite IH by done. rewrite Ha. by destruct s.
Qed.

Lemma str_forallb_impl (p q : ascii -> bool) s :
  (forall a, p a = true -> q a = true) -> str_forallb p s = true -> str_forallb q s = true.
Proof.
  intros Hpq. induction s as [|a s IH]; [done|]. cbn [str_forallb].
  intros [Ha Hs]%andb_true_iff. by rewrite Hpq, IH.
Qed.

(** [int(str(z)) == z] *)
Lemma py_int_pretty z : 0 <= z -> py_int (pretty z) = Some z.
Proof.
  intros Hz. destruct (pretty_Z_digits z Hz) as (Hd & Hv & Hne). unfold py_int, strip.
  destruct (pretty z) as [|a s] eqn:Es; [done|]. assert (Ha := Hd). cbn [str_forallb] in Ha.
  apply andb_true_iff in Ha as [Ha _]. cbn [lstrip_by]. rewrite (is_digit_not_space a Ha).
  rewrite rstrip_by_none.
  2:{ revert Hd. apply str_forallb_impl. intros b Hb. by rewrite is_digit_not_space. }
  assert (H : int_body false 0 (String a s) = Some z).
  { rewrite int_body_digits by auto. by rewrite Hv. }
  revert Ha H. clear. destruct a as [[] [] [] [] [] [] [] []]; vm_compute is_digit; done.
Qed.

(** Split the booleans of a guard into the propositions they decide. *)
Ltac split_bools :=
  repeat match goal with
  | H : _ && _ = true |- _ => apply andb_true_iff in H as [? ?]
  | H : _ || _ = false |- _ => apply orb_false_iff in H as [? ?]
  | H : negb _ = true |- _ => apply negb_true_iff in H
  | H : negb _ = false |- _ => apply negb_false_iff in H
  | H : (_ =? _) = true |- _ => apply Z.eqb_eq in H
  | H : (_ =? _) = false |- _ => apply Z.eqb_neq in H
  | H : (_ <=? _) = true |- _ => apply Z.leb_le in H
  | H : (_ <=? _) = false |- _ => apply Z.leb_gt in H
  | H : (_ <? _) = true |- _ => apply Z.ltb_lt in H
  | H : (_ <? _) = false |- _ => apply Z.ltb_ge in H
  | H : String.eqb _ _ = true |- _ => apply String.eqb_eq in H
  | H : String.eqb _ _ = false |- _ => apply String.eqb_neq in H
  end.

(** Case analysis on every [match] and [if] of the goal. *)
Ltac break_goal :=
  repeat match goal with
  | |- context [match ?x with _ => _ end] =>
      lazymatch x with
      | context [match _ with _ => _ end] => fail
      | _ => let E := fresh "E" in destruct x eqn:E; simplify_eq/=
      end
  end.
