(* ===== verification/Types.v ===== *)
(** * Internal data types of otaclient

    Models [src/src/otaclient/_types.py]: the status enums, the status record
    the processes share, and the IPC requests and responses.  A [StrEnum] is
    an inductive type; its name strings, which the status files and the API
    conversion use, are functions of their own. *)

From stdpp Require Import base strings list.
From Stdlib Require Import ZArith String.
From S2P Require Import Prelude.

Inductive UpdatePhase : Type :=
| PHASE_INITIALIZING
| PROCESSING_METADATA
| CALCULATING_DELTA
| DOWNLOADING_OTA_FILES
| APPLYING_UPDATE
| PROCESSING_POSTUPDATE
| FINALIZING_UPDATE
| DOWNLOADING_OTA_CLIENT.

Inductive OTAStatus : Type :=
| INITIALIZED
| SUCCESS
| FAILURE
| UPDATING
| ROLLBACKING
| ROLLBACK_FAILURE
| CLIENT_UPDATING
| ABORTING
| ABORTED.

Inductive FailureType : Type :=
| NO_FAILURE
| RECOVERABLE
| UNRECOVERABLE.

Inductive AbortState : Type :=
| AS_NONE
| AS_REQUESTED
| AS_ABORTING
| AS_ABORTED
| AS_FINAL_PHASE
| AS_CRITICAL_ZONE.

Inductive IPCResEnum : Type :=
| ACCEPT
| REJECT_BUSY
| REJECT_ABORT
| REJECT_OTHER.

#[export] Instance UpdatePhase_eq_dec : EqDecision UpdatePhase.
Proof. solve_decision. Defined.
#[export] Instance OTAStatus_eq_dec : EqDecision OTAStatus.
Proof. solve_decision. Defined.
#[export] Instance FailureType_eq_dec : EqDecision FailureType.
Proof. solve_decision. Defined.
#[export] Instance AbortState_eq_dec : EqDecision AbortState.
Proof. solve_decision. Defined.
#[export] Instance IPCResEnum_eq_dec : EqDecision IPCResEnum.
Proof. solve_decision. Defined.

(** [status.name] *)
Definition OTAStatus_name (s : OTAStatus) : string :=
  match s with
  | INITIALIZED => "INITIALIZED"
  | SUCCESS => "SUCCESS"
  | FAILURE => "FAILURE"
  | UPDATING => "UPDATING"
  | ROLLBACKING => "ROLLBACKING"
  | ROLLBACK_FAILURE => "ROLLBACK_FAILURE"
  | CLIENT_UPDATING => "CLIENT_UPDATING"
  | ABORTING => "ABORTING"
  | ABORTED => "ABORTED"
  end.

Definition all_OTAStatus : list OTAStatus :=
  [INITIALIZED; SUCCESS; FAILURE; UPDATING; ROLLBACKING; ROLLBACK_FAILURE;
   CLIENT_UPDATING; ABORTING; ABORTED].

(** [OTAStatus[name]]; [None] is the [KeyError]. *)
Definition OTAStatus_of_name (n : string) : option OTAStatus :=
  List.find (fun s => String.eqb (OTAStatus_name s) n) all_OTAStatus.

Definition FailureType_value (f : FailureType) : string :=
  match f with
  | NO_FAILURE => "NO_FAILURE"
  | RECOVERABLE => "RECOVERABLE"
  | UNRECOVERABLE => "UNRECOVERABLE"
  end.

(** [FailureType(value)]; [None] is the [ValueError]. *)
Definition FailureType_of_value (v : string) : option FailureType :=
  List.find (fun f => String.eqb (FailureType_value f) v)
    [NO_FAILURE; RECOVERABLE; UNRECOVERABLE].

Record VersionDetail : Type := mkVersionDetail {
  release_name : string;
  release_id : string;
  image_id : string;
}.

#[export] Instance VersionDetail_eq_dec : EqDecision VersionDetail.
Proof. solve_decision. Defined.

Record UpdateMeta : Type := mkUpdateMeta {
  update_firmware_version : string;
  image_size_uncompressed : Z;
  image_file_entries : Z;
  total_download_files_num : Z;
  total_download_files_size : Z;
  total_remove_files_num : Z;
}.

Record UpdateProgress : Type := mkUpdateProgress {
  downloaded_files_num : Z;
  downloaded_bytes : Z;
  downloaded_files_size : Z;
  downloading_errors : Z;
  removed_files_num : Z;
  processed_files_num : Z;
  processed_files_size : Z;
}.

Record UpdateTiming : Type := mkUpdateTiming {
  update_start_timestamp : Z;
  delta_generate_start_timestamp : Z;
  download_start_timestamp : Z;
  update_apply_start_timestamp : Z;
  post_update_start_timestamp : Z;
}.

#[export] Instance eta_UpdateMeta : Eta UpdateMeta := fun r =>
  mkUpdateMeta (update_firmware_version r) (image_size_uncompressed r)
    (image_file_entries r) (total_download_files_num r) (total_download_files_size r)
    (total_remove_files_num r).
#[export] Instance eta_UpdateProgress : Eta UpdateProgress := fun r =>
  mkUpdateProgress (downloaded_files_num r) (downloaded_bytes r) (downloaded_files_size r)
    (downloading_errors r) (removed_files_num r) (processed_files_num r)
    (processed_files_size r).
#[export] Instance eta_UpdateTiming : Eta UpdateTiming := fun r =>
  mkUpdateTiming (update_start_timestamp r) (delta_generate_start_timestamp r)
    (download_start_timestamp r) (update_apply_start_timestamp r)
    (post_update_start_timestamp r).

(** [UpdateMeta()], [UpdateProgress()], [UpdateTiming()] *)
Definition new_UpdateMeta : UpdateMeta := mkUpdateMeta EmptyString 0 0 0 0 0.
Definition new_UpdateProgress : UpdateProgress := mkUpdateProgress 0 0 0 0 0 0 0.
Definition new_UpdateTiming : UpdateTiming := mkUpdateTiming 0 0 0 0 0.

(** The class attributes [ecu_id] and [otaclient_version] are process
    constants; they are parameters of the API conversion that reads them. *)
Record OTAClientStatus : Type := mkOTAClientStatus {
  firmware_version : string;
  version_detail : option VersionDetail;
  ota_status : OTAStatus;
  session_id : string;
  update_phase : UpdatePhase;
  update_meta : option UpdateMeta;
  update_progress : option UpdateProgress;
  update_timing : option UpdateTiming;
  failure_type : FailureType;
  failure_reason : string;
  failure_traceback : string;
}.

#[export] Instance eta_OTAClientStatus : Eta OTAClientStatus := fun r =>
  mkOTAClientStatus (firmware_version r) (version_detail r) (ota_status r) (session_id r)
    (update_phase r) (update_meta r) (update_progress r) (update_timing r)
    (failure_type r) (failure_reason r) (failure_traceback r).

(** [OTAClientStatus()] *)
Definition new_OTAClientStatus : OTAClientStatus :=
  mkOTAClientStatus EmptyString None INITIALIZED EmptyString PHASE_INITIALIZING
    None None None NO_FAILURE EmptyString EmptyString.

(** ** IPC messages of the request queues *)

Record IPCResponse : Type := mkIPCResponse {
  resp_res : IPCResEnum;
  resp_session_id : string;
  resp_msg : string;
}.

Record UpdateRequestV2 : Type := mkUpdateRequestV2 {
  ur_request_id : string;
  ur_session_id : string;
  ur_version : string;
  ur_url_base : string;
  ur_cookies_json : string;
  ur_release_name : string;
  ur_release_id : string;
  ur_image_id : string;
}.

Record AbortRequestV2 : Type := mkAbortRequestV2 {
  ar_request_id : string;
  ar_session_id : string;
}.

(** [IPCRequest] and its subclasses. *)
Inductive IPCRequest : Type :=
| ReqUpdate (r : UpdateRequestV2)
| ReqClientUpdate (r : UpdateRequestV2)
| ReqAbort (r : AbortRequestV2)
| ReqRollback (request_id session_id : string)
| ReqPlain (request_id session_id : string).

Definition req_session_id (r : IPCRequest) : string :=
  match r with
  | ReqUpdate u | ReqClientUpdate u => ur_session_id u
  | ReqAbort a => ar_session_id a
  | ReqRollback _ s | ReqPlain _ s => s
  end.

(** ** The names read back *)

Lemma OTAStatus_name_of s : OTAStatus_of_name (OTAStatus_name s) = Some s.
Proof. by destruct s. Qed.

Lemma OTAStatus_name_upper s : upper (OTAStatus_name s) = OTAStatus_name s.
Proof. by destruct s. Qed.

Lemma OTAStatus_name_truthy s : str_truthy (OTAStatus_name s) = true.
Proof. by destruct s. Qed.

Lemma FailureType_value_of f : FailureType_of_value (FailureType_value f) = Some f.
Proof. by destruct f. Qed.

#[export] Hint Rewrite OTAStatus_name_of OTAStatus_name_upper FailureType_value_of : ota.
