(* ===== verification/Errors.v ===== *)
(** * OTA errors and exceptions

    Models [src/src/otaclient/errors.py] (the error codes, the class hierarchy
    with its inherited class attributes, the failure reason put into the
    status report, [raise_as_ota_error]) and
    [src/src/otaclient/ota_core/_common.py] (the handlers that translate
    download, proxy and cookie failures into these errors).  Python exceptions
    are values of [pyexn]; the classes the sources distinguish are the
    constructors of [exn_class]. *)

From stdpp Require Import base strings list option pretty.
From Stdlib Require Import ZArith NArith Ascii String Lia.
#[local] Set Warnings "-register-all".
From S2P Require Import Prelude Types.

(** ** Error codes *)

Inductive FailureCategory : Type := USER | SYSTEM.

Inductive OTAErrorCode : Type :=
| E_UNSPECIFIC
| E_INVALID_OTAUPDATE_REQUEST
| E_UPDATE_REQUEST_COOKIE_INVALID
| E_OTA_IMAGE_NOT_FOUND
| E_OTA_BUSY
| E_INVALID_STATUS_FOR_OTAROLLBACK
| E_OTA_IMAGE_INVALID
| E_METADATAJWT_CERT_VERIFICATION_FAILED
| E_METADATAJWT_INVALID
| E_BOOTCONTROL_BSP_VERSION_COMPATIBILITY_FAILED
| E_CLIENT_UPDATE_SAME_VERSIONS
| E_OTA_ABORTED
| E_OTA_ERR_UNRECOVERABLE
| E_BOOTCONTROL_PLATFORM_UNSUPPORTED
| E_NETWORK
| E_OTA_ERR_RECOVERABLE
| E_DOWNLOAD_STALLED
| E_STANDBY_SLOT_INSUFFICIENT_SPACE
| E_OTAMETA_DOWNLOAD_FAILED
| E_OTA_RESOURCE_DOWNLOAD_FAILED
| E_OTACLIENT_PACKAGE_DOWNLOAD_FAILED
| E_UPPER_OTAPROXY_UNREACHABLE
| E_OTACLIENT_STARTUP_FAILED
| E_OTAPROXY_FAILED_TO_START
| E_CA_CERT_NOT_INSTALLED
| E_CLIENT_UPDATE_FAILED
| E_PREUPDATE_FAILED
| E_UPDATEDELTA_GENERATION_FAILED
| E_APPLY_OTAUPDATE_FAILED
| E_POSTUPDATE_FAILED
| E_BOOTCONTROL_STARTUP_ERR
| E_BOOTCONTROL_PREUPDATE_FAILED
| E_BOOTCONTROL_STANDBY_SLOT_PREPARE_FAILED
| E_BOOTCONTROL_SLOT_MOUNT_FAILED
| E_BOOTCONTROL_POSTUPDATE_FAILED
| E_BOOTCONTROL_BOOT_CONFIG_UPDATE_FAILED
| E_BOOTCONTROL_FIRMWARE_UPDATE_FAILED
| E_BOOTCONTROL_SWITCH_BOOT_FAILED
| E_BOOTCONTROL_PREROLLBACK_FAILED
| E_BOOTCONTROL_POSTROLLBACK_FAILED.

Definition errcode_value (c : OTAErrorCode) : N :=
  match c with
  | E_UNSPECIFIC => 0
  | E_INVALID_OTAUPDATE_REQUEST => 400
  | E_UPDATE_REQUEST_COOKIE_INVALID => 401
  | E_OTA_IMAGE_NOT_FOUND => 404
  | E_OTA_BUSY => 409
  | E_INVALID_STATUS_FOR_OTAROLLBACK => 412
  | E_OTA_IMAGE_INVALID => 422
  | E_METADATAJWT_CERT_VERIFICATION_FAILED => 460
  | E_METADATAJWT_INVALID => 461
  | E_BOOTCONTROL_BSP_VERSION_COMPATIBILITY_FAILED => 462
  | E_CLIENT_UPDATE_SAME_VERSIONS => 470
  | E_OTA_ABORTED => 499
  | E_OTA_ERR_UNRECOVERABLE => 500
  | E_BOOTCONTROL_PLATFORM_UNSUPPORTED => 501
  | E_NETWORK => 502
  | E_OTA_ERR_RECOVERABLE => 503
  | E_DOWNLOAD_STALLED => 504
  | E_STANDBY_SLOT_INSUFFICIENT_SPACE => 507
  | E_OTAMETA_DOWNLOAD_FAILED => 520
  | E_OTA_RESOURCE_DOWNLOAD_FAILED => 521
  | E_OTACLIENT_PACKAGE_DOWNLOAD_FAILED => 522
  | E_UPPER_OTAPROXY_UNREACHABLE => 523
  | E_OTACLIENT_STARTUP_FAILED => 530
  | E_OTAPROXY_FAILED_TO_START => 531
  | E_CA_CERT_NOT_INSTALLED => 532
  | E_CLIENT_UPDATE_FAILED => 533
  | E_PREUPDATE_FAILED => 540
  | E_UPDATEDELTA_GENERATION_FAILED => 541
  | E_APPLY_OTAUPDATE_FAILED => 542
  | E_POSTUPDATE_FAILED => 543
  | E_BOOTCONTROL_STARTUP_ERR => 550
  | E_BOOTCONTROL_PREUPDATE_FAILED => 551
  | E_BOOTCONTROL_STANDBY_SLOT_PREPARE_FAILED => 552
  | E_BOOTCONTROL_SLOT_MOUNT_FAILED => 553
  | E_BOOTCONTROL_POSTUPDATE_FAILED => 554
  | E_BOOTCONTROL_BOOT_CONFIG_UPDATE_FAILED => 555
  | E_BOOTCONTROL_FIRMWARE_UPDATE_FAILED => 556
  | E_BOOTCONTROL_SWITCH_BOOT_FAILED => 557
  | E_BOOTCONTROL_PREROLLBACK_FAILED => 558
  | E_BOOTCONTROL_POSTROLLBACK_FAILED => 559
  end%N.


#[export] Instance OTAErrorCode_eq_dec : EqDecision OTAErrorCode.
Proof. solve_decision. Defined.

Definition all_OTAErrorCode : list OTAErrorCode :=
  [E_UNSPECIFIC; E_INVALID_OTAUPDATE_REQUEST; E_UPDATE_REQUEST_COOKIE_INVALID; E_OTA_IMAGE_NOT_FOUND; E_OTA_BUSY; E_INVALID_STATUS_FOR_OTAROLLBACK; E_OTA_IMAGE_INVALID; E_METADATAJWT_CERT_VERIFICATION_FAILED; E_METADATAJWT_INVALID; E_BOOTCONTROL_BSP_VERSION_COMPATIBILITY_FAILED; E_CLIENT_UPDATE_SAME_VERSIONS; E_OTA_ABORTED; E_OTA_ERR_UNRECOVERABLE; E_BOOTCONTROL_PLATFORM_UNSUPPORTED; E_NETWORK; E_OTA_ERR_RECOVERABLE; E_DOWNLOAD_STALLED; E_STANDBY_SLOT_INSUFFICIENT_SPACE; E_OTAMETA_DOWNLOAD_FAILED; E_OTA_RESOURCE_DOWNLOAD_FAILED; E_OTACLIENT_PACKAGE_DOWNLOAD_FAILED; E_UPPER_OTAPROXY_UNREACHABLE; E_OTACLIENT_STARTUP_FAILED; E_OTAPROXY_FAILED_TO_START; E_CA_CERT_NOT_INSTALLED; E_CLIENT_UPDATE_FAILED; E_PREUPDATE_FAILED; E_UPDATEDELTA_GENERATION_FAILED; E_APPLY_OTAUPDATE_FAILED; E_POSTUPDATE_FAILED; E_BOOTCONTROL_STARTUP_ERR; E_BOOTCONTROL_PREUPDATE_FAILED; E_BOOTCONTROL_STANDBY_SLOT_PREPARE_FAILED; E_BOOTCONTROL_SLOT_MOUNT_FAILED; E_BOOTCONTROL_POSTUPDATE_FAILED; E_BOOTCONTROL_BOOT_CONFIG_UPDATE_FAILED; E_BOOTCONTROL_FIRMWARE_UPDATE_FAILED; E_BOOTCONTROL_SWITCH_BOOT_FAILED; E_BOOTCONTROL_PREROLLBACK_FAILED; E_BOOTCONTROL_POSTROLLBACK_FAILED].

Definition category (c : OTAErrorCode) : FailureCategory :=
  if ((400 <=? errcode_value c) && (errcode_value c <? 500))%N then USER else SYSTEM.

(** [f"{n:0>3}"]: right-aligned decimal, filled with zeros to width 3. *)
Definition to_errcode_str (c : OTAErrorCode) : string :=
  let d := pretty (errcode_value c) in
  ((match 3 - String.length d with 1 => "0" | 2 => "00" | _ => "" end)%nat +:+ d)%string.

(** ** The error classes, by the sections of the source *)

Definition NETWORK_ERR_DEFAULT_DESC : string :=
  "network unstable, please check the network connection".
Definition RECOVERABLE_DEFAULT_DESC : string :=
  "recoverable OTA error(unrelated to network) detected, please retry after reboot device or restart otaclient".
Definition UNRECOVERABLE_DEFAULT_DESC : string :=
  "unrecoverable OTA error, please contact technical support".

Inductive NetworkErrorClass : Type :=
| NetworkError
| OTAMetaDownloadFailed
| OTAClientPackageDownloadFailed
| OTAResourceDownloadFailed
| DownloadStalled
| UpperOTAProxyUnreachable.

Definition network_errcode (c : NetworkErrorClass) : OTAErrorCode :=
  match c with
  | NetworkError => E_NETWORK
  | OTAMetaDownloadFailed => E_OTAMETA_DOWNLOAD_FAILED
  | OTAClientPackageDownloadFailed => E_OTACLIENT_PACKAGE_DOWNLOAD_FAILED
  | OTAResourceDownloadFailed => E_OTA_RESOURCE_DOWNLOAD_FAILED
  | DownloadStalled => E_DOWNLOAD_STALLED
  | UpperOTAProxyUnreachable => E_UPPER_OTAPROXY_UNREACHABLE
  end.

Definition network_description (c : NetworkErrorClass) : string :=
  match c with
  | NetworkError =>
      NETWORK_ERR_DEFAULT_DESC
  | OTAMetaDownloadFailed =>
      "failed to download OTA meta due to " +:+ NETWORK_ERR_DEFAULT_DESC
  | OTAClientPackageDownloadFailed =>
      "failed to download OTAClient package due to " +:+ NETWORK_ERR_DEFAULT_DESC
  | OTAResourceDownloadFailed =>
      "failed to download OTA image resources due to " +:+ NETWORK_ERR_DEFAULT_DESC
  | DownloadStalled =>
      "downloading made no progress for too long, please check the network connection to the OTA image server or upper otaproxy"
  | UpperOTAProxyUnreachable =>
      "upper otaproxy is not reachable, please check the main ECU's otaproxy and the in-vehicle network"
  end%string.

Inductive RecoverableErrorClass : Type :=
| OTAErrorRecoverable
| OTABusy
| InvalidStatusForOTARollback
| OTAImageInvalid
| OTAImageNotFound
| UpdateRequestCookieInvalid
| ClientUpdateSameVersions
| ClientUpdateFailed
| OTAAbortSignal
| BootControlBSPVersionCompatibilityFailed.

Definition recoverable_errcode (c : RecoverableErrorClass) : OTAErrorCode :=
  match c with
  | OTAErrorRecoverable => E_OTA_ERR_RECOVERABLE
  | OTABusy => E_OTA_BUSY
  | InvalidStatusForOTARollback => E_INVALID_STATUS_FOR_OTAROLLBACK
  | OTAImageInvalid => E_OTA_IMAGE_INVALID
  | OTAImageNotFound => E_OTA_IMAGE_NOT_FOUND
  | UpdateRequestCookieInvalid => E_UPDATE_REQUEST_COOKIE_INVALID
  | ClientUpdateSameVersions => E_CLIENT_UPDATE_SAME_VERSIONS
  | ClientUpdateFailed => E_CLIENT_UPDATE_FAILED
  | OTAAbortSignal => E_OTA_ABORTED
  | BootControlBSPVersionCompatibilityFailed => E_BOOTCONTROL_BSP_VERSION_COMPATIBILITY_FAILED
  end.

Definition recoverable_description (c : RecoverableErrorClass) : string :=
  match c with
  | OTAErrorRecoverable =>
      RECOVERABLE_DEFAULT_DESC
  | OTABusy =>
      "on-going OTA operation(update or rollback) detected, this request has been ignored"
  | InvalidStatusForOTARollback =>
      "previous OTA is not succeeded, reject OTA rollback"
  | OTAImageInvalid =>
      "failed to complete OTA as OTA image is broken"
  | OTAImageNotFound =>
      "failed to complete OTA as OTA image(or some of its files) is not found(HTTP 404), please check the OTA image URL"
  | UpdateRequestCookieInvalid =>
      "failed to complete OTA as cookie is invalid"
  | ClientUpdateSameVersions =>
      "client package version is the same, skip client update"
  | ClientUpdateFailed =>
      "failed to update client package, please check the log for more details"
  | OTAAbortSignal =>
      "OTA abort signal, cleanup pending"
  | BootControlBSPVersionCompatibilityFailed =>
      "boot_control BSP version compatibility check failed"
  end%string.

Inductive UnrecoverableErrorClass : Type :=
| OTAErrorUnrecoverable
| BootControlPlatformUnsupported
| BootControlStartupFailed
| BootControlPreUpdateFailed
| BootControlPostUpdateFailed
| BootControlPreRollbackFailed
| BootControlPostRollbackFailed
| StandbySlotInsufficientSpace
| InvalidUpdateRequest
| MetadataJWTInvalid
| MetadataJWTVerficationFailed
| CACertNotInstalled
| OTAProxyFailedToStart
| UpdateDeltaGenerationFailed
| ApplyOTAUpdateFailed
| OTAClientStartupFailed
| PreUpdateFailed
| PostUpdateFailed.

Definition unrecoverable_errcode (c : UnrecoverableErrorClass) : OTAErrorCode :=
  match c with
  | OTAErrorUnrecoverable => E_OTA_ERR_UNRECOVERABLE
  | BootControlPlatformUnsupported => E_BOOTCONTROL_PLATFORM_UNSUPPORTED
  | BootControlStartupFailed => E_BOOTCONTROL_STARTUP_ERR
  | BootControlPreUpdateFailed => E_BOOTCONTROL_PREUPDATE_FAILED
  | BootControlPostUpdateFailed => E_BOOTCONTROL_POSTUPDATE_FAILED
  | BootControlPreRollbackFailed => E_BOOTCONTROL_PREROLLBACK_FAILED
  | BootControlPostRollbackFailed => E_BOOTCONTROL_POSTROLLBACK_FAILED
  | StandbySlotInsufficientSpace => E_STANDBY_SLOT_INSUFFICIENT_SPACE
  | InvalidUpdateRequest => E_INVALID_OTAUPDATE_REQUEST
  | MetadataJWTInvalid => E_METADATAJWT_INVALID
  | MetadataJWTVerficationFailed => E_METADATAJWT_CERT_VERIFICATION_FAILED
  | CACertNotInstalled => E_CA_CERT_NOT_INSTALLED
  | OTAProxyFailedToStart => E_OTAPROXY_FAILED_TO_START
  | UpdateDeltaGenerationFailed => E_UPDATEDELTA_GENERATION_FAILED
  | ApplyOTAUpdateFailed => E_APPLY_OTAUPDATE_FAILED
  | OTAClientStartupFailed => E_OTACLIENT_STARTUP_FAILED
  | PreUpdateFailed => E_PREUPDATE_FAILED
  | PostUpdateFailed => E_POSTUPDATE_FAILED
  end.

Definition unrecoverable_description (c : UnrecoverableErrorClass) : string :=
  match c with
  | OTAErrorUnrecoverable =>
      UNRECOVERABLE_DEFAULT_DESC
  | BootControlPlatformUnsupported =>
      UNRECOVERABLE_DEFAULT_DESC +:+ ": bootloader for this ECU is not supported"
  | BootControlStartupFailed =>
      UNRECOVERABLE_DEFAULT_DESC +:+ ": boot controller startup failed"
  | BootControlPreUpdateFailed =>
      UNRECOVERABLE_DEFAULT_DESC +:+ ": boot_control pre_update process failed"
  | BootControlPostUpdateFailed =>
      UNRECOVERABLE_DEFAULT_DESC +:+ ": boot_control post_update process failed"
  | BootControlPreRollbackFailed =>
      UNRECOVERABLE_DEFAULT_DESC +:+ ": boot_control pre_rollback process failed"
  | BootControlPostRollbackFailed =>
      UNRECOVERABLE_DEFAULT_DESC +:+ ": boot_control post_rollback process failed"
  | StandbySlotInsufficientSpace =>
      UNRECOVERABLE_DEFAULT_DESC +:+ ": insufficient space at standby slot"
  | InvalidUpdateRequest =>
      "incoming OTA update request is invalid, please check the request"
  | MetadataJWTInvalid =>
      "verfication for metadata.jwt is OK but metadata.jwt's content is invalid, please check the OTA image"
  | MetadataJWTVerficationFailed =>
      "certificate verification failed for OTA metadata.jwt, please check the OTA image is signed for this ECU"
  | CACertNotInstalled =>
      UNRECOVERABLE_DEFAULT_DESC +:+ ": no CA cert is installed on this ECU, cannot verify OTA image"
  | OTAProxyFailedToStart =>
      UNRECOVERABLE_DEFAULT_DESC +:+ ": otaproxy is required for multiple ECU update but otaproxy failed to start"
  | UpdateDeltaGenerationFailed =>
      UNRECOVERABLE_DEFAULT_DESC +:+ ": failed to calculate and/or prepare update delta"
  | ApplyOTAUpdateFailed =>
      UNRECOVERABLE_DEFAULT_DESC +:+ ": failed to apply OTA update to standby slot"
  | OTAClientStartupFailed =>
      UNRECOVERABLE_DEFAULT_DESC +:+ ": failed to start otaclient instance"
  | PreUpdateFailed =>
      UNRECOVERABLE_DEFAULT_DESC +:+ ": failed to prepare standby slot for applying update"
  | PostUpdateFailed =>
      UNRECOVERABLE_DEFAULT_DESC +:+ ": failed to finish post-update process(persist files, OTA image metadata) on standby slot"
  end%string.

Inductive BootControlErrorClass : Type :=
| BootControlStandbySlotPrepareFailed
| BootControlSlotMountFailed
| BootControlBootConfigUpdateFailed
| BootControlFirmwareUpdateFailed
| BootControlSwitchBootFailed.

Definition bootcontrol_errcode (c : BootControlErrorClass) : OTAErrorCode :=
  match c with
  | BootControlStandbySlotPrepareFailed => E_BOOTCONTROL_STANDBY_SLOT_PREPARE_FAILED
  | BootControlSlotMountFailed => E_BOOTCONTROL_SLOT_MOUNT_FAILED
  | BootControlBootConfigUpdateFailed => E_BOOTCONTROL_BOOT_CONFIG_UPDATE_FAILED
  | BootControlFirmwareUpdateFailed => E_BOOTCONTROL_FIRMWARE_UPDATE_FAILED
  | BootControlSwitchBootFailed => E_BOOTCONTROL_SWITCH_BOOT_FAILED
  end.

Definition bootcontrol_description (c : BootControlErrorClass) : string :=
  match c with
  | BootControlStandbySlotPrepareFailed =>
      UNRECOVERABLE_DEFAULT_DESC +:+ ": boot_control failed to prepare(format) standby slot device"
  | BootControlSlotMountFailed =>
      UNRECOVERABLE_DEFAULT_DESC +:+ ": boot_control failed to mount slots"
  | BootControlBootConfigUpdateFailed =>
      UNRECOVERABLE_DEFAULT_DESC +:+ ": boot_control failed to update boot configurations(fstab, bootloader config, kernel files) for standby slot"
  | BootControlFirmwareUpdateFailed =>
      UNRECOVERABLE_DEFAULT_DESC +:+ ": boot_control failed to update firmware"
  | BootControlSwitchBootFailed =>
      UNRECOVERABLE_DEFAULT_DESC +:+ ": boot_control failed to switch boot to standby slot"
  end%string.

Inductive OTAErrorClass : Type :=
| OTAErrorBase
| Net (c : NetworkErrorClass)
| Rec (c : RecoverableErrorClass)
| Unrec (c : UnrecoverableErrorClass)
| BootCtl (c : BootControlErrorClass).

#[export] Instance NetworkErrorClass_eq_dec : EqDecision NetworkErrorClass.
Proof. solve_decision. Defined.
#[export] Instance RecoverableErrorClass_eq_dec : EqDecision RecoverableErrorClass.
Proof. solve_decision. Defined.
#[export] Instance UnrecoverableErrorClass_eq_dec : EqDecision UnrecoverableErrorClass.
Proof. solve_decision. Defined.
#[export] Instance BootControlErrorClass_eq_dec : EqDecision BootControlErrorClass.
Proof. solve_decision. Defined.
#[export] Instance OTAErrorClass_eq_dec : EqDecision OTAErrorClass.
Proof. solve_decision. Defined.

(** The class attributes [failure_errcode] and [failure_description]. *)
Definition failure_errcode (c : OTAErrorClass) : OTAErrorCode :=
  match c with
  | OTAErrorBase => E_UNSPECIFIC
  | Net c => network_errcode c
  | Rec c => recoverable_errcode c
  | Unrec c => unrecoverable_errcode c
  | BootCtl c => bootcontrol_errcode c
  end.

Definition failure_description (c : OTAErrorClass) : string :=
  match c with
  | OTAErrorBase => "no description available for this error"
  | Net c => network_description c
  | Rec c => recoverable_description c
  | Unrec c => unrecoverable_description c
  | BootCtl c => bootcontrol_description c
  end.

(** The base class of each class below [OTAError]. *)
Definition parent (c : OTAErrorClass) : option OTAErrorClass :=
  match c with
  | OTAErrorBase => None
  | Net NetworkError => Some OTAErrorBase
  | Net OTAMetaDownloadFailed => Some (Net NetworkError)
  | Net OTAClientPackageDownloadFailed => Some (Net NetworkError)
  | Net OTAResourceDownloadFailed => Some (Net NetworkError)
  | Net DownloadStalled => Some (Net NetworkError)
  | Net UpperOTAProxyUnreachable => Some (Net NetworkError)
  | Rec OTAErrorRecoverable => Some OTAErrorBase
  | Rec OTABusy => Some (Rec OTAErrorRecoverable)
  | Rec InvalidStatusForOTARollback => Some (Rec OTAErrorRecoverable)
  | Rec OTAImageInvalid => Some (Rec OTAErrorRecoverable)
  | Rec OTAImageNotFound => Some (Rec OTAImageInvalid)
  | Rec UpdateRequestCookieInvalid => Some (Rec OTAErrorRecoverable)
  | Rec ClientUpdateSameVersions => Some (Rec OTAErrorRecoverable)
  | Rec ClientUpdateFailed => Some (Rec OTAErrorRecoverable)
  | Rec OTAAbortSignal => Some (Rec OTAErrorRecoverable)
  | Rec BootControlBSPVersionCompatibilityFailed => Some (Rec OTAErrorRecoverable)
  | Unrec OTAErrorUnrecoverable => Some OTAErrorBase
  | Unrec BootControlPlatformUnsupported => Some (Unrec OTAErrorUnrecoverable)
  | Unrec BootControlStartupFailed => Some (Unrec OTAErrorUnrecoverable)
  | Unrec BootControlPreUpdateFailed => Some (Unrec OTAErrorUnrecoverable)
  | Unrec BootControlPostUpdateFailed => Some (Unrec OTAErrorUnrecoverable)
  | Unrec BootControlPreRollbackFailed => Some (Unrec OTAErrorUnrecoverable)
  | Unrec BootControlPostRollbackFailed => Some (Unrec OTAErrorUnrecoverable)
  | Unrec StandbySlotInsufficientSpace => Some (Unrec OTAErrorUnrecoverable)
  | Unrec InvalidUpdateRequest => Some (Unrec OTAErrorUnrecoverable)
  | Unrec MetadataJWTInvalid => Some (Unrec OTAErrorUnrecoverable)
  | Unrec MetadataJWTVerficationFailed => Some (Unrec OTAErrorUnrecoverable)
  | Unrec CACertNotInstalled => Some (Unrec MetadataJWTVerficationFailed)
  | Unrec OTAProxyFailedToStart => Some (Unrec OTAErrorUnrecoverable)
  | Unrec UpdateDeltaGenerationFailed => Some (Unrec OTAErrorUnrecoverable)
  | Unrec ApplyOTAUpdateFailed => Some (Unrec OTAErrorUnrecoverable)
  | Unrec OTAClientStartupFailed => Some (Unrec OTAErrorUnrecoverable)
  | Unrec PreUpdateFailed => Some (Unrec OTAErrorUnrecoverable)
  | Unrec PostUpdateFailed => Some (Unrec OTAErrorUnrecoverable)
  | BootCtl BootControlStandbySlotPrepareFailed => Some (Unrec BootControlPreUpdateFailed)
  | BootCtl BootControlSlotMountFailed => Some (Unrec BootControlPreUpdateFailed)
  | BootCtl BootControlBootConfigUpdateFailed => Some (Unrec BootControlPostUpdateFailed)
  | BootCtl BootControlFirmwareUpdateFailed => Some (Unrec BootControlPostUpdateFailed)
  | BootCtl BootControlSwitchBootFailed => Some (Unrec BootControlPostUpdateFailed)
  end.

Definition class_name (c : OTAErrorClass) : string :=
  match c with
  | OTAErrorBase => "OTAError"
  | Net NetworkError => "NetworkError"
  | Net OTAMetaDownloadFailed => "OTAMetaDownloadFailed"
  | Net OTAClientPackageDownloadFailed => "OTAClientPackageDownloadFailed"
  | Net OTAResourceDownloadFailed => "OTAResourceDownloadFailed"
  | Net DownloadStalled => "DownloadStalled"
  | Net UpperOTAProxyUnreachable => "UpperOTAProxyUnreachable"
  | Rec OTAErrorRecoverable => "OTAErrorRecoverable"
  | Rec OTABusy => "OTABusy"
  | Rec InvalidStatusForOTARollback => "InvalidStatusForOTARollback"
  | Rec OTAImageInvalid => "OTAImageInvalid"
  | Rec OTAImageNotFound => "OTAImageNotFound"
  | Rec UpdateRequestCookieInvalid => "UpdateRequestCookieInvalid"
  | Rec ClientUpdateSameVersions => "ClientUpdateSameVersions"
  | Rec ClientUpdateFailed => "ClientUpdateFailed"
  | Rec OTAAbortSignal => "OTAAbortSignal"
  | Rec BootControlBSPVersionCompatibilityFailed => "BootControlBSPVersionCompatibilityFailed"
  | Unrec OTAErrorUnrecoverable => "OTAErrorUnrecoverable"
  | Unrec BootControlPlatformUnsupported => "BootControlPlatformUnsupported"
  | Unrec BootControlStartupFailed => "BootControlStartupFailed"
  | Unrec BootControlPreUpdateFailed => "BootControlPreUpdateFailed"
  | Unrec BootControlPostUpdateFailed => "BootControlPostUpdateFailed"
  | Unrec BootControlPreRollbackFailed => "BootControlPreRollbackFailed"
  | Unrec BootControlPostRollbackFailed => "BootControlPostRollbackFailed"
  | Unrec StandbySlotInsufficientSpace => "StandbySlotInsufficientSpace"
  | Unrec InvalidUpdateRequest => "InvalidUpdateRequest"
  | Unrec MetadataJWTInvalid => "MetadataJWTInvalid"
  | Unrec MetadataJWTVerficationFailed => "MetadataJWTVerficationFailed"
  | Unrec CACertNotInstalled => "CACertNotInstalled"
  | Unrec OTAProxyFailedToStart => "OTAProxyFailedToStart"
  | Unrec UpdateDeltaGenerationFailed => "UpdateDeltaGenerationFailed"
  | Unrec ApplyOTAUpdateFailed => "ApplyOTAUpdateFailed"
  | Unrec OTAClientStartupFailed => "OTAClientStartupFailed"
  | Unrec PreUpdateFailed => "PreUpdateFailed"
  | Unrec PostUpdateFailed => "PostUpdateFailed"
  | BootCtl BootControlStandbySlotPrepareFailed => "BootControlStandbySlotPrepareFailed"
  | BootCtl BootControlSlotMountFailed => "BootControlSlotMountFailed"
  | BootCtl BootControlBootConfigUpdateFailed => "BootControlBootConfigUpdateFailed"
  | BootCtl BootControlFirmwareUpdateFailed => "BootControlFirmwareUpdateFailed"
  | BootCtl BootControlSwitchBootFailed => "BootControlSwitchBootFailed"
  end.

(** The method resolution order: the class and its ancestors (the hierarchy
    is at most four levels deep). *)
Fixpoint ancestors (fuel : nat) (c : OTAErrorClass) : list OTAErrorClass :=
  match fuel with
  | O => [c]
  | S fuel => c :: match parent c with Some p => ancestors fuel p | None => [] end
  end.

Definition mro (c : OTAErrorClass) : list OTAErrorClass := ancestors 4 c.

Definition issubclass (c d : OTAErrorClass) : bool := bool_decide (d ∈ mro c).

(** [failure_type] is set by four classes and inherited by the others. *)
Definition own_failure_type (c : OTAErrorClass) : option FailureType :=
  match c with
  | OTAErrorBase | Net NetworkError | Rec OTAErrorRecoverable => Some RECOVERABLE
  | Unrec OTAErrorUnrecoverable => Some UNRECOVERABLE
  | _ => None
  end.

Definition class_failure_type (c : OTAErrorClass) : FailureType :=
  default RECOVERABLE (head (omap own_failure_type (mro c))).

(** ** Python exceptions

    [exn_class] lists the classes the sources tell apart; the OSError
    constructors carry [errno].  [requests]' [HTTPError] is an [OSError]
    without [errno], built with the response it was raised for, if any (its
    status code is kept). *)
Inductive exn_class : Type :=
| XOTA (c : OTAErrorClass) (module : string)
| XHTTPError (response : option Z)
| XOSError (errno : option Z)
| XConnectionError (errno : option Z)
| XValueError
| XAttributeError
| XOther (name : string)
| XSystemExit (code : Z).

(** Positional arguments of an exception, as the sources build them. *)
Inductive pyarg : Type := AStr (s : string) | AInt (n : Z).

Inductive pyexn : Type :=
| PyExn (cls : exn_class) (args : list pyarg) (cause context : option pyexn).

Definition exn_cls (e : pyexn) : exn_class := let (c, _, _, _) := e in c.
Definition exn_args (e : pyexn) : list pyarg := let (_, a, _, _) := e in a.
Definition exn_cause (e : pyexn) : option pyexn := let (_, _, c, _) := e in c.
Definition exn_context (e : pyexn) : option pyexn := let (_, _, _, c) := e in c.

(** [repr] of a [str]: quoted by the apostrophe unless the text has one and
    no double quote; backslash, the quote, the control characters and the
    other unprintable code points are escaped. *)
Definition hex_digit (n : N) : ascii :=
  ascii_of_N (if (n <? 10)%N then 48 + n else 87 + n)%N.

Definition char_repr (quote a : ascii) : string :=
  let n := N_of_ascii a in
  if bool_decide (a = "\"%char) || bool_decide (a = quote) then
    String "\" (String a EmptyString)
  else if (n =? 9)%N then "\t" else if (n =? 10)%N then "\n" else if (n =? 13)%N then "\r"
  else if ((n <? 32) || (127 <=? n) && (n <=? 160) || (n =? 173))%N then
    String "\" (String "x" (String (hex_digit (n / 16)) (String (hex_digit (n mod 16)) EmptyString)))
  else String a EmptyString.

Fixpoint str_concat_map (f : ascii -> string) (s : string) : string :=
  match s with
  | EmptyString => EmptyString
  | String a s' => (f a +:+ str_concat_map f s')%string
  end.

Definition double_quote : ascii := ascii_of_N 34.

Definition str_repr (s : string) : string :=
  let quote := if negb (no_char "'" s) && no_char double_quote s then double_quote else "'"%char in
  String quote (str_concat_map (char_repr quote) s +:+ String quote EmptyString)%string.

Definition arg_str (a : pyarg) : string := match a with AStr s => s | AInt n => pretty n end.
Definition arg_repr (a : pyarg) : string := match a with AStr s => str_repr s | AInt n => pretty n end.

Fixpoint join_with (sep : string) (l : list string) : string :=
  match l with
  | [] => EmptyString
  | [x] => x
  | x :: l => (x +:+ sep +:+ join_with sep l)%string
  end.

(** [str] of a tuple with zero or at least two elements. *)
Definition args_str (l : list pyarg) : string :=
  ("(" +:+ join_with ", " (map arg_repr l) +:+ ")")%string.

Definition exn_class_name (c : exn_class) : string :=
  match c with
  | XOTA c _ => class_name c
  | XHTTPError _ => "HTTPError"
  | XOSError _ => "OSError"
  | XConnectionError _ => "ConnectionError"
  | XValueError => "ValueError"
  | XAttributeError => "AttributeError"
  | XOther n => n
  | XSystemExit _ => "SystemExit"
  end.

(** [repr(e)] *)
Definition exn_repr (e : pyexn) : string :=
  (exn_class_name (exn_cls e) +:+ args_str (exn_args e))%string.

(** [isinstance(e, Exception)]: all but [SystemExit]. *)
Definition is_exception (e : pyexn) : bool :=
  match exn_cls e with XSystemExit _ => false | _ => true end.

(** The class of an [OTAError]. *)
Definition ota_class (e : pyexn) : option OTAErrorClass :=
  match exn_cls e with XOTA c _ => Some c | _ => None end.

Definition is_ota_error (e : pyexn) : bool := bool_decide (is_Some (ota_class e)).

(** [isinstance(e, OSError)], with its [errno]. *)
Definition oserror_errno (e : pyexn) : option (option Z) :=
  match exn_cls e with
  | XOSError n | XConnectionError n => Some n
  | XHTTPError _ => Some None
  | _ => None
  end.

(** [c(msg, module=m)], raised with [from e] or bare. *)
Definition ota_error (c : OTAErrorClass) (msg m : string) (from : option pyexn) : pyexn :=
  PyExn (XOTA c m) [AStr msg] from from.

(** ** The failure reason *)

Definition MAX_FAILURE_DETAIL_LEN : nat := 256.

Definition failure_errcode_str (c : OTAErrorClass) : string :=
  ("E" +:+ to_errcode_str (failure_errcode c))%string.

Definition failure_detail (args : list pyarg) : string :=
  match args with
  | [] => EmptyString
  | _ =>
      let d := match args with [a] => arg_str a | _ => args_str args end in
      if (MAX_FAILURE_DETAIL_LEN <? String.length d)%nat
      then (str_take (MAX_FAILURE_DETAIL_LEN - 3) d +:+ "...")%string
      else d
  end.

Definition get_failure_reason (c : OTAErrorClass) (args : list pyarg) : string :=
  let reason := (failure_errcode_str c +:+ ": " +:+ failure_description c)%string in
  let d := failure_detail args in
  if str_truthy d then (reason +:+ "; detail: " +:+ d)%string else reason.

(** [str(e)] *)
Definition exn_str (e : pyexn) : string :=
  match exn_args e with [] => EmptyString | [a] => arg_str a | l => args_str l end.

(** [with raise_as_ota_error(error_cls, err_msg, module): body] *)
Definition raise_as_ota_error {S A} (error_cls : OTAErrorClass) (err_msg module : string)
    (body : PyM S pyexn A) : PyM S pyexn A :=
  try_except body (fun e =>
    if is_ota_error e || negb (is_exception e) then raise e
    else raise (ota_error error_cls (err_msg +:+ ": " +:+ exn_repr e)%string module (Some e))).

Lemma raise_as_ok {S A} cls msg m (body : PyM S pyexn A) s s' a :
  raise_as_ota_error cls msg m body s = (s', Ok a) -> body s = (s', Ok a).
Proof. apply try_except_ok. intros e s1 a1. by destruct (_ || _). Qed.

(** ** Translating failures: [_common.py] *)

Definition ENOSPC : Z := 28.
Definition common_module : string := "otaclient.ota_core._common".

(** [download_exception_handler], on the exception of the finished future. *)
Definition download_exception_handler (exc : option pyexn) : result pyexn bool :=
  match exc with
  | None => Ok true
  | Some exc =>
      let no_space :=
        if bool_decide (oserror_errno exc = Some (Some ENOSPC)) then
          Raise (ota_error (Unrec StandbySlotInsufficientSpace)
            ("download failed due to space insufficient: " +:+ exn_repr exc)%string
            common_module None)
        else Ok false in
      match exn_cls exc with
      | XHTTPError None => Ok false
      | XHTTPError (Some code) =>
          if bool_decide (code ∈ [403; 401]) then
            Raise (ota_error (Rec UpdateRequestCookieInvalid)
              ("download failed with critical HTTP error: None, " +:+ exn_repr exc)%string
              common_module None)
          else if code =? 404 then
            Raise (ota_error (Rec OTAImageNotFound)
              ("download failed with 404 on some file(s): " +:+ exn_repr exc)%string
              common_module None)
          else no_space
      | _ => no_space
      end
  end.

(** [is_caused_by_enospc]: the walk along [__cause__ or __context__]. *)
Fixpoint caused_by_enospc (depth : nat) (exc : option pyexn) : bool :=
  match depth, exc with
  | O, _ | _, None => false
  | S depth, Some e =>
      bool_decide (oserror_errno e = Some (Some ENOSPC))
      || caused_by_enospc depth
           (match exn_cause e with Some c => Some c | None => exn_context e end)
  end.

Definition is_caused_by_enospc (e : pyexn) : bool := caused_by_enospc 8 (Some e).

(** [handle_upper_proxy], on the outcome of [ensure_otaproxy_start]. *)
Definition handle_upper_proxy (proxy : string) (ensure_otaproxy_start : result pyexn unit) :
    result pyexn unit :=
  match ensure_otaproxy_start with
  | Ok _ => Ok tt
  | Raise e =>
      match exn_cls e with
      | XConnectionError _ =>
          Raise (ota_error (Net UpperOTAProxyUnreachable)
            ("otaproxy@" +:+ proxy +:+ " is not online after 180s")%string common_module (Some e))
      | _ => Raise e
      end
  end.

(** What [json.loads] makes of the cookies: a [ValueError], an object, or a
    value of another type (named). *)
Inductive json_loaded : Type :=
| JInvalid (e : pyexn)
| JObject (d : pydict string)
| JOther (type_name : string).

Definition prepare_cookies (loaded : json_loaded) : result pyexn (pydict string) :=
  match loaded with
  | JInvalid e =>
      Raise (ota_error (Unrec InvalidUpdateRequest) "cookie is invalid: not a valid json"
        common_module (Some e))
  | JOther n =>
      Raise (ota_error (Unrec InvalidUpdateRequest)
        ("cookie is invalid: expecting json object, got " +:+ n)%string common_module None)
  | JObject d => Ok d
  end.

(** ** Lemmas *)

Lemma to_errcode_str_length c : String.length (to_errcode_str c) = 3%nat.
Proof. by destruct c. Qed.

Lemma elem_all_OTAErrorCode c : c ∈ all_OTAErrorCode.
Proof. apply list_elem_of_In. destruct c; simpl; tauto. Qed.

Lemma to_errcode_str_inj c d : to_errcode_str c = to_errcode_str d -> c = d.
Proof.
  assert (Hall : Forall (fun c => Forall (fun d => to_errcode_str c = to_errcode_str d -> c = d)
            all_OTAErrorCode) all_OTAErrorCode).
  { apply (bool_decide_unpack _). by vm_compute. }
  rewrite Forall_forall in Hall. specialize (Hall c (elem_all_OTAErrorCode c)).
  rewrite Forall_forall in Hall. apply Hall, elem_all_OTAErrorCode.
Qed.

Lemma failure_detail_length args :
  (String.length (failure_detail args) <= MAX_FAILURE_DETAIL_LEN)%nat.
Proof.
  unfold failure_detail. destruct args as [|a args]; [simpl; lia|]. cbv zeta.
  generalize (match args with [] => arg_str a | _ :: _ => args_str (a :: args) end). intros d.
  destruct (MAX_FAILURE_DETAIL_LEN <? String.length d)%nat eqn:E; [|by apply Nat.ltb_ge in E].
  rewrite length_str_app, length_str_take. change (String.length "...") with 3%nat.
  unfold MAX_FAILURE_DETAIL_LEN. lia.
Qed.

Lemma failure_description_length c : (String.length (failure_description c) <= 178)%nat.
Proof. by destruct c as [|[]|[]|[]|[]]; vm_compute; lia. Qed.

Lemma failure_errcode_str_length c : String.length (failure_errcode_str c) = 4%nat.
Proof. unfold failure_errcode_str. by rewrite length_str_app, to_errcode_str_length. Qed.

Lemma str_take_app_exact s t n : n = String.length s -> str_take n (s +:+ t)%string = s.
Proof.
  intros ->. induction s as [|a s IH]; [by destruct t|].
  change (String a (str_take (String.length s) (s +:+ t)) = String a s). by rewrite IH.
Qed.

Lemma failure_reason_prefix c args :
  str_take 4 (get_failure_reason c args) = failure_errcode_str c.
Proof.
  unfold get_failure_reason. destruct (str_truthy _); rewrite ?str_app_assoc;
    by rewrite str_take_app_exact by (by rewrite failure_errcode_str_length).
Qed.

(** ** Properties *)

(** The failure reason identifies the failure: two failure reasons that
    start with the same four characters come from errors with the same error
    code, and the four characters are the prefix [E] and the three digits of
    that code. *)
Theorem failure_reason_identifies_code c d args args' :
  str_take 4 (get_failure_reason c args) = str_take 4 (get_failure_reason d args') <->
  failure_errcode c = failure_errcode d.
Proof.
  rewrite !failure_reason_prefix. unfold failure_errcode_str. split; [|by intros ->].
  intros [= H]. by apply to_errcode_str_inj.
Qed.

(** The failure reason is short enough for the shared memory: whatever
    the detail message, it has at most 450 characters. *)
Theorem failure_reason_bounded c args :
  (String.length (get_failure_reason c args) <= 450)%nat.
Proof.
  unfold get_failure_reason. destruct (str_truthy _); rewrite ?length_str_app, failure_errcode_str_length;
    pose proof (failure_description_length c); pose proof (failure_detail_length args);
    unfold MAX_FAILURE_DETAIL_LEN in *; simpl; lia.
Qed.

(** The inherited class attributes: an error is unrecoverable exactly
    when its class derives from [OTAErrorUnrecoverable], every class derives
    from [OTAError], and the sub-classes of the boot control failures keep
    being caught as such. *)
Theorem failure_type_by_hierarchy c :
  (class_failure_type c = UNRECOVERABLE <-> issubclass c (Unrec OTAErrorUnrecoverable) = true) /\
  issubclass c OTAErrorBase = true /\
  (forall b, c = BootCtl b ->
     issubclass c (Unrec BootControlPreUpdateFailed) = true \/
     issubclass c (Unrec BootControlPostUpdateFailed) = true).
Proof.
  split_and!; [destruct c as [|[]|[]|[]|[]]; by vm_compute|by destruct c as [|[]|[]|[]|[]]|].
  intros [] ->; by (left + right).
Qed.
