(* ===== verification/CacheControlHeader.v ===== *)
(** * The [Ota-File-Cache-Control] header

    Models [src/src/ota_proxy/cache_control_header.py]: the directives a client
    and an upper proxy exchange about the caching of one OTA file, their
    parser into [OTAFileCacheControl], the parser into a dictionary, and the
    two exporters.  The directive values are Python values, because the
    parser assigns a string to any directive written as [k=v] and [True] to
    any directive written alone. *)

From stdpp Require Import base strings list sets.
From Stdlib Require Import ZArith Ascii String Lia.
From S2P Require Import Prelude.

(** The values a directive takes: a [bool], a [str] or [None]. *)
Inductive dir_value : Type :=
| VBool (b : bool)
| VStr (s : string)
| VNone.

#[export] Instance dir_value_eq_dec : EqDecision dir_value.
Proof. solve_decision. Defined.

(** The truth value of a directive, as [if not v] reads it. *)
Definition truthy (v : dir_value) : bool :=
  match v with
  | VBool b => b
  | VStr s => str_truthy s
  | VNone => false
  end.

(** [f"{v}"] *)
Definition str_of_value (v : dir_value) : string :=
  match v with
  | VBool true => "True"
  | VBool false => "False"
  | VStr s => s
  | VNone => "None"
  end.

Definition VALID_DIRECTORIES : list string :=
  ["no_cache"; "retry_caching"; "file_sha256"; "file_compression_alg"]%string.
Definition HEADER_LOWERCASE : string := "ota-file-cache-control".
Definition HEADER_DIR_SEPARATOR : ascii := ","%char.

Definition is_valid_dir (k : string) : bool := bool_decide (k ∈ VALID_DIRECTORIES).

Record OTAFileCacheControl : Type := mkOTAFileCacheControl {
  no_cache : dir_value;
  retry_caching : dir_value;
  file_sha256 : dir_value;
  file_compression_alg : dir_value;
}.

#[export] Instance eta_OTAFileCacheControl : Eta OTAFileCacheControl := fun r =>
  mkOTAFileCacheControl (no_cache r) (retry_caching r) (file_sha256 r) (file_compression_alg r).

(** [OTAFileCacheControl()] *)
Definition default_cache_control : OTAFileCacheControl :=
  mkOTAFileCacheControl (VBool false) (VBool false) VNone VNone.

(** [setattr(res, k, v)] for a valid directive [k]. *)
Definition set_directive (k : string) (v : dir_value) (r : OTAFileCacheControl) :
    OTAFileCacheControl :=
  if String.eqb k "no_cache" then r <| no_cache := v |>
  else if String.eqb k "retry_caching" then r <| retry_caching := v |>
  else if String.eqb k "file_sha256" then r <| file_sha256 := v |>
  else if String.eqb k "file_compression_alg" then r <| file_compression_alg := v |>
  else r.

(** One element of the comma-separated list: [k, *v = c.strip().split("=", maxsplit=1)],
    then [v[0] if v else True]. *)
Definition split_directive (c : string) : string * dir_value :=
  let '(k, v) := py_split1 "="%char (strip c) in
  (k, match v with Some s => VStr s | None => VBool true end).

Definition parse_header (input : string) : OTAFileCacheControl :=
  if negb (str_truthy input) then default_cache_control
  else
    fold_left
      (fun res c =>
         let '(k, v) := split_directive c in
         if negb (is_valid_dir k) then res else set_directive k v res)
      (py_split HEADER_DIR_SEPARATOR (strip input))
      default_cache_control.

Definition parse_header_asdict (input : string) : pydict dir_value :=
  if negb (str_truthy input) then []
  else
    fold_left
      (fun res c =>
         let '(k, v) := split_directive c in
         if negb (is_valid_dir k) then res else dict_set k v res)
      (py_split HEADER_DIR_SEPARATOR (strip input))
      [].

(** What the exporter writes for one directive, before the separator. *)
Definition directive_token (k : string) (v : dir_value) : string :=
  match v with
  | VBool true => k
  | _ => (k +:+ "=" +:+ str_of_value v)%string
  end.

Definition export_kwargs_as_header_string (kwargs : pydict dir_value) : string :=
  match kwargs with
  | [] => EmptyString
  | _ =>
      strip_char HEADER_DIR_SEPARATOR
        (fold_left
           (fun buffer kv =>
              let '(k, v) := kv in
              if negb (is_valid_dir k) then buffer
              else if negb (truthy v) then buffer
              else (buffer +:+ directive_token k v
                      +:+ String HEADER_DIR_SEPARATOR EmptyString)%string)
           kwargs EmptyString)
  end.

Definition update_header_str (input : string) (kwargs : pydict dir_value) : string :=
  match kwargs with
  | [] => input
  | _ => export_kwargs_as_header_string (dict_update (parse_header_asdict input) kwargs)
  end.

(** ** Auxiliary notions of the proofs *)

(** A directive that the exporter writes. *)
Definition exported (kv : string * dir_value) : bool :=
  is_valid_dir (fst kv) && truthy (snd kv).

(** A value the header syntax can carry: no separator inside, no trailing
    space.  The empty string is never written. *)
Definition wf_value (v : dir_value) : Prop :=
  match v with
  | VStr s => no_char HEADER_DIR_SEPARATOR s = true /\ rstrip_by is_space s = s
  | _ => True
  end.

Definition comma : string := String HEADER_DIR_SEPARATOR EmptyString.

Fixpoint join_tokens (ts : list string) : string :=
  match ts with
  | [] => EmptyString
  | [t] => t
  | t :: ts' => (t +:+ String HEADER_DIR_SEPARATOR (join_tokens ts'))%string
  end.

(** A token as it stands between separators. *)
Definition wf_token (t : string) : Prop :=
  no_char HEADER_DIR_SEPARATOR t = true /\ rstrip_by is_space t = t /\
  match t with String a _ => is_space a = false | EmptyString => False end.

(** The directives as a function of the dictionary. *)
Definition apply_directives (d : pydict dir_value) (r : OTAFileCacheControl) :
    OTAFileCacheControl :=
  fold_left (fun acc kv => set_directive (fst kv) (snd kv) acc) d r.

Lemma valid_dir_cases k :
  is_valid_dir k = true ->
  k = "no_cache"%string \/ k = "retry_caching"%string \/ k = "file_sha256"%string
  \/ k = "file_compression_alg"%string.
Proof. intros H%bool_decide_eq_true. unfold VALID_DIRECTORIES in H. set_solver. Qed.

Lemma wf_token_nonempty t : wf_token t -> t <> EmptyString.
Proof. by destruct t; [intros (_ & _ & [])|]. Qed.

Lemma no_char_rstrip c s : no_char c s = true -> rstrip_by (Ascii.eqb c) s = s.
Proof.
  intros H. apply rstrip_by_none. unfold no_char in H.
  induction s as [|a s IH]; simpl in *; [done|].
  apply andb_true_iff in H as [Ha Hs]. rewrite (IH Hs), Ascii.eqb_sym. by rewrite Ha.
Qed.

(** The token written for a carried value is well formed and reads back. *)
Lemma directive_token_wf k v :
  is_valid_dir k = true -> truthy v = true -> wf_value v -> wf_token (directive_token k v).
Proof.
  intros Hk Hv Hwf.
  destruct v as [[]|s|]; simpl in *; try done.
  - apply valid_dir_cases in Hk as [-> | [-> | [-> | ->]]]; by vm_compute.
  - destruct Hwf as [Hc Hs]. unfold wf_token.
    assert (s <> EmptyString) by (by destruct s).
    assert (Hkc : no_char HEADER_DIR_SEPARATOR (k +:+ "=")%string = true).
    { apply valid_dir_cases in Hk as [-> | [-> | [-> | ->]]]; by vm_compute. }
    rewrite <- str_app_assoc. split_and!.
    + unfold no_char in *. by rewrite str_forallb_app, Hkc, Hc.
    + by apply rstrip_by_app.
    + apply valid_dir_cases in Hk as [-> | [-> | [-> | ->]]]; by vm_compute.
Qed.

Lemma strip_wf_token t : wf_token t -> strip t = t.
Proof.
  intros (_ & Hr & Hl). unfold strip. rewrite lstrip_by_id; [done|].
  by destruct t.
Qed.

Lemma split_directive_token k v :
  is_valid_dir k = true -> truthy v = true -> wf_value v ->
  split_directive (directive_token k v) = (k, v).
Proof.
  intros Hk Hv Hwf. unfold split_directive.
  rewrite strip_wf_token by by apply directive_token_wf.
  assert (Hke : no_char "="%char k = true).
  { apply valid_dir_cases in Hk as [-> | [-> | [-> | ->]]]; by vm_compute. }
  destruct v as [[]|s|]; simpl in *; try done.
  - by rewrite py_split1_no_char.
  - change (k +:+ "=" +:+ s)%string with (k +:+ String "="%char s)%string.
    by rewrite py_split1_app.
Qed.

Lemma concat_join ts :
  ts <> [] ->
  foldr (fun t acc => (t +:+ String HEADER_DIR_SEPARATOR acc)%string) EmptyString ts =
  (join_tokens ts +:+ comma)%string.
Proof.
  induction ts as [|t ts IH]; [done|]. intros _. destruct ts as [|t' ts]; [done|].
  change (t +:+ String HEADER_DIR_SEPARATOR
     (foldr (fun t acc => t +:+ String HEADER_DIR_SEPARATOR acc) "" (t' :: ts)) =
     (t +:+ String HEADER_DIR_SEPARATOR (join_tokens (t' :: ts))) +:+ comma)%string.
  rewrite IH by done. rewrite str_app_assoc. done.
Qed.

Lemma join_tokens_nonempty ts : ts <> [] -> Forall wf_token ts -> join_tokens ts <> EmptyString.
Proof.
  intros Hne Hwf. destruct ts as [|t ts]; [done|].
  inversion Hwf as [|? ? Ht _]; subst. apply wf_token_nonempty in Ht.
  by destruct ts, t.
Qed.

Lemma join_tokens_rstrip p ts :
  Forall wf_token ts -> Forall (fun t => rstrip_by p t = t) ts ->
  rstrip_by p (join_tokens ts) = join_tokens ts.
Proof.
  intros Hwf Hp. induction ts as [|t ts IH]; [done|].
  inversion Hwf as [|? ? Ht Hts]; subst. inversion Hp as [|? ? Hpt Hpts]; subst.
  destruct ts as [|t' ts]; [done|].
  change (join_tokens (t :: t' :: ts)) with (t +:+ (comma +:+ join_tokens (t' :: ts)))%string.
  rewrite <- str_app_assoc. apply rstrip_by_app; [by apply IH|].
  by apply join_tokens_nonempty.
Qed.

Lemma join_tokens_lstrip p ts :
  Forall (fun t => match t with String a _ => p a = false | _ => False end) ts ->
  lstrip_by p (join_tokens ts) = join_tokens ts.
Proof.
  intros H. apply lstrip_by_id. destruct H as [|t ts Ht Hts]; [done|].
  destruct t; [done|]. by destruct ts.
Qed.

Lemma split_join ts :
  ts <> [] -> Forall wf_token ts -> py_split HEADER_DIR_SEPARATOR (join_tokens ts) = ts.
Proof.
  intros Hne Hwf. induction ts as [|t ts IH]; [done|].
  inversion Hwf as [|? ? Ht Hts]; subst. destruct Ht as [Hc _].
  destruct ts as [|t' ts]; [by apply py_split_no_char|].
  change (join_tokens (t :: t' :: ts)) with
    (t +:+ String HEADER_DIR_SEPARATOR (join_tokens (t' :: ts)))%string.
  rewrite py_split_app by done. f_equal. by apply IH.
Qed.

(** The exporter writes the tokens of the exported directives, joined. *)
Definition tokens_of (kw : pydict dir_value) : list string :=
  map (fun kv => directive_token (fst kv) (snd kv)) (List.filter exported kw).

Lemma export_fold kw buf :
  fold_left
    (fun buffer kv => let '(k, v) := kv in
       if negb (is_valid_dir k) then buffer else if negb (truthy v) then buffer
       else (buffer +:+ directive_token k v +:+ String HEADER_DIR_SEPARATOR EmptyString)%string)
    kw buf =
  (buf +:+ foldr (fun t acc => t +:+ String HEADER_DIR_SEPARATOR acc) "" (tokens_of kw))%string.
Proof.
  revert buf. induction kw as [|[k v] kw IH]; intros buf; simpl; [by rewrite str_app_nil_r|].
  rewrite IH. unfold tokens_of, exported; simpl.
  destruct (is_valid_dir k), (truthy v); simpl; try done.
  rewrite !str_app_assoc. done.
Qed.

Lemma tokens_wf kw :
  Forall (fun kv => wf_value (snd kv)) kw -> Forall wf_token (tokens_of kw).
Proof.
  intros H. unfold tokens_of. induction H as [|[k v] kw Hv Hkw IH]; simpl; [constructor|].
  unfold exported at 1; simpl.
  destruct (is_valid_dir k) eqn:Hk; [|done]. destruct (truthy v) eqn:Ht; [|done]. simpl.
  constructor; [by apply directive_token_wf|done].
Qed.

Lemma export_tokens kw :
  Forall (fun kv => wf_value (snd kv)) kw ->
  export_kwargs_as_header_string kw = join_tokens (tokens_of kw).
Proof.
  intros Hwf. destruct kw as [|kv0 kw0]; [done|]. set (kw := kv0 :: kw0) in *.
  unfold export_kwargs_as_header_string. change (kv0 :: kw0) with kw.
  rewrite export_fold. change ("" +:+ ?x)%string with x.
  pose proof (tokens_wf kw Hwf) as Ht.
  destruct (tokens_of kw) as [|t ts] eqn:E; [done|].
  rewrite concat_join by done. rewrite <- E in *. unfold strip_char.
  assert (Hc : Forall (fun t => rstrip_by (Ascii.eqb HEADER_DIR_SEPARATOR) t = t) (tokens_of kw)).
  { eapply Forall_impl; [done|]. intros t' (H & _). by apply no_char_rstrip. }
  rewrite lstrip_by_id.
  - unfold comma. rewrite rstrip_by_snoc by apply Ascii.eqb_refl. by apply join_tokens_rstrip.
  - rewrite E in *. inversion Ht as [|? ? Hwt _]; subst.
    destruct t as [|a t]; [by destruct Hwt as (_ & _ & [])|].
    destruct Hwt as (Hn & _). unfold no_char in Hn. simpl in Hn.
    apply andb_true_iff in Hn as [Hn _]. apply negb_true_iff in Hn.
    rewrite Ascii.eqb_sym in Hn. by destruct ts.
Qed.

Lemma fold_dict_set_app {V} (l acc : pydict V) :
  NoDup (dict_keys (acc ++ l)) ->
  fold_left (fun a kv => dict_set (fst kv) (snd kv) a) l acc = acc ++ l.
Proof.
  revert acc. induction l as [|[k v] l IH]; intros acc H; simpl; [by rewrite app_nil_r|].
  assert (Hk : k ∉ dict_keys acc).
  { unfold dict_keys in *. rewrite map_app in H. apply NoDup_app in H as (_ & H & _).
    intros Hk. apply (H k Hk). simpl. set_solver. }
  rewrite dict_set_new by done. rewrite IH; rewrite <- app_assoc; done.
Qed.

Lemma parse_tokens kw acc :
  Forall (fun kv => wf_value (snd kv)) kw ->
  fold_left
    (fun res c => let '(k, v) := split_directive c in
       if negb (is_valid_dir k) then res else dict_set k v res) (tokens_of kw) acc =
  fold_left (fun a kv => dict_set (fst kv) (snd kv) a) (List.filter exported kw) acc.
Proof.
  intros H. unfold tokens_of. revert acc.
  induction H as [|[k v] kw Hv Hkw IH]; intros acc; simpl; [done|].
  change (exported (k, v)) with (is_valid_dir k && truthy v).
  destruct (is_valid_dir k) eqn:Hk; [|apply IH]. destruct (truthy v) eqn:Ht; [|apply IH].
  simpl.
  rewrite split_directive_token by done. rewrite Hk. simpl. apply IH.
Qed.

Lemma filter_exported_wf kw : dict_wf kw -> dict_wf (List.filter exported kw).
Proof.
  unfold dict_wf, dict_keys. induction kw as [|[k v] kw IH]; simpl; [done|].
  rewrite NoDup_cons. intros [Hk Hkw]. destruct (exported (k, v)); [|by apply IH].
  simpl. rewrite NoDup_cons. split; [|by apply IH]. intros Hin. apply Hk.
  apply list_elem_of_In, in_map_iff in Hin as ([k' v'] & <- & Hin).
  apply filter_In in Hin as [Hin _]. apply list_elem_of_In, in_map_iff. by exists (k', v').
Qed.

(** What is exported reads back as the exported directives. *)
Lemma parse_export_dict kw :
  dict_wf kw -> Forall (fun kv => wf_value (snd kv)) kw ->
  parse_header_asdict (export_kwargs_as_header_string kw) = List.filter exported kw.
Proof.
  intros Hd Hwf. rewrite export_tokens by done. pose proof (tokens_wf kw Hwf) as Ht.
  unfold parse_header_asdict.
  destruct (tokens_of kw) as [|t ts] eqn:E.
  { unfold tokens_of in E. apply map_eq_nil in E. by rewrite E. }
  assert (Hj : str_truthy (join_tokens (t :: ts)) = true).
  { pose proof (join_tokens_nonempty (t :: ts)) as Hj.
    destruct (join_tokens (t :: ts)); [|done]. exfalso. by apply Hj. }
  rewrite Hj. cbn [negb].
  assert (Hs : strip (join_tokens (t :: ts)) = join_tokens (t :: ts)).
  { unfold strip. rewrite join_tokens_lstrip.
    - apply join_tokens_rstrip; [done|]. eapply Forall_impl; [done|]. by intros ? (_ & ? & _).
    - eapply Forall_impl; [done|]. by intros [|??] (_ & _ & ?). }
  rewrite Hs, split_join by done. rewrite <- E, parse_tokens by done.
  rewrite fold_dict_set_app; [done|]. by apply filter_exported_wf.
Qed.

(** Every value of a parsed header is one the syntax carries. *)
Lemma split_directive_wf c :
  no_char HEADER_DIR_SEPARATOR c = true -> wf_value (snd (split_directive c)).
Proof.
  intros Hc. unfold split_directive.
  destruct (py_split1 "="%char (strip c)) as [k [v|]] eqn:E; simpl; [|done]. split.
  - unfold no_char in *. eapply py_split1_forallb; [done|].
    unfold strip. auto with ota.
  - eapply py_split1_rstrip; [done|]. unfold strip. apply rstrip_by_idemp.
Qed.

Lemma dict_set_Forall {V} (P : V -> Prop) k v (d : pydict V) :
  P v -> Forall (fun kv => P (snd kv)) d -> Forall (fun kv => P (snd kv)) (dict_set k v d).
Proof.
  intros Hv. induction 1 as [|[k' v'] d Hv' Hd IH]; simpl; [by repeat constructor|].
  destruct (String.eqb k k'); constructor; done.
Qed.

Lemma parse_header_asdict_inv input :
  dict_wf (parse_header_asdict input) /\
  Forall (fun kv => wf_value (snd kv)) (parse_header_asdict input).
Proof.
  unfold parse_header_asdict. destruct (str_truthy input); simpl;
    [|split; [apply NoDup_nil_2|constructor]].
  pose proof (py_split_elems HEADER_DIR_SEPARATOR (strip input)) as H.
  assert (Hacc : dict_wf (@nil (string * dir_value)) /\
            Forall (fun kv : string * dir_value => wf_value (snd kv)) []).
  { split; [apply NoDup_nil_2|constructor]. }
  revert Hacc. generalize (@nil (string * dir_value)).
  induction H as [|c cs Hc Hcs IH]; simpl; [done|]. intros acc [Hw Hf]. apply IH.
  pose proof (split_directive_wf c Hc) as Hv.
  destruct (split_directive c) as [k v]. destruct (is_valid_dir k); simpl; [|done].
  split; [by apply dict_set_wf|by apply dict_set_Forall].
Qed.

Lemma dict_update_Forall {V} (P : V -> Prop) (d e : pydict V) :
  Forall (fun kv => P (snd kv)) d -> Forall (fun kv => P (snd kv)) e ->
  Forall (fun kv => P (snd kv)) (dict_update d e).
Proof.
  unfold dict_update. intros Hd He. revert d Hd.
  induction He as [|[k v] e Hv He IH]; simpl; [done|]. intros d Hd.
  by apply IH, dict_set_Forall.
Qed.

(** Reassigning a directive forgets the earlier value; distinct directives
    are independent fields. *)
Lemma set_directive_twice k v v' r :
  set_directive k v (set_directive k v' r) = set_directive k v r.
Proof. unfold set_directive. repeat case_match; done. Qed.

Lemma set_directive_comm k k' v v' r :
  k <> k' -> is_valid_dir k = true -> is_valid_dir k' = true ->
  set_directive k v (set_directive k' v' r) = set_directive k' v' (set_directive k v r).
Proof.
  intros Hne Hk Hk'.
  apply valid_dir_cases in Hk as [-> | [-> | [-> | ->]]];
    apply valid_dir_cases in Hk' as [-> | [-> | [-> | ->]]]; done.
Qed.

Lemma apply_directives_set d k v r :
  is_valid_dir k = true -> Forall (fun kv => is_valid_dir (fst kv) = true) d -> dict_wf d ->
  apply_directives (dict_set k v d) r = set_directive k v (apply_directives d r).
Proof.
  intros Hk Hd. revert r. induction d as [|[k' v'] d IH]; intros r Hw; simpl; [done|].
  inversion Hd as [|? ? Hk' Hd']; subst. unfold dict_wf in Hw; simpl in Hw.
  apply NoDup_cons in Hw as [Hnin Hw].
  destruct (String.eqb_spec k k') as [->|Hne]; simpl in *.
  - clear IH. unfold apply_directives at 1; simpl. unfold apply_directives; simpl.
    change (fold_left _ d ?x) with (apply_directives d x).
    rewrite <- (set_directive_twice k' v v' r) at 1.
    generalize (set_directive k' v' r). clear r.
    induction d as [|[k1 v1] d IH]; intros r; simpl; [done|].
    inversion Hd' as [|? ? Hk1 Hd1]; subst. simpl in *.
    apply not_elem_of_cons in Hnin as [? Hnin]. apply NoDup_cons in Hw as [_ Hw].
    unfold apply_directives; simpl. rewrite set_directive_comm by done.
    apply IH; [by constructor|done..].
  - unfold apply_directives in *; simpl. by rewrite IH.
Qed.

(** The two parsers agree: [parse_header] is the default policy with the
    directives of [_parse_header_asdict] assigned to it. *)
Lemma parse_header_asdict_equiv input :
  parse_header input = apply_directives (parse_header_asdict input) default_cache_control.
Proof.
  unfold parse_header, parse_header_asdict. destruct (str_truthy input); simpl; [|done].
  change default_cache_control with (apply_directives [] default_cache_control) at 1.
  assert (Hacc : dict_wf (@nil (string * dir_value)) /\
            Forall (fun kv : string * dir_value => is_valid_dir (fst kv) = true) []).
  { split; [apply NoDup_nil_2|constructor]. }
  revert Hacc. generalize (@nil (string * dir_value)).
  induction (py_split HEADER_DIR_SEPARATOR (strip input)) as [|c cs IH]; simpl; [done|].
  intros acc [Hw Hv]. destruct (split_directive c) as [k v].
  destruct (is_valid_dir k) eqn:Hk; simpl; [|by apply IH].
  rewrite <- apply_directives_set by done. apply IH. split; [by apply dict_set_wf|].
  clear -Hk Hv. induction Hv as [|[k' v'] d Hk' Hd IH]; simpl; [by repeat constructor|].
  destruct (String.eqb k k'); by constructor.
Qed.

(** ** Properties *)

(** Round trip: for keyword arguments with distinct keys whose string
    values contain no comma and no trailing space, exporting them to a header
    string and parsing that string back yields exactly the directives that
    are valid and truthy, in their order. *)
Theorem export_parse_roundtrip kw :
  dict_wf kw -> Forall (fun kv => wf_value (snd kv)) kw ->
  parse_header_asdict (export_kwargs_as_header_string kw) = List.filter exported kw.
Proof. apply parse_export_dict. Qed.

Lemma export_parse_roundtrip_witness :
  parse_header_asdict
    (export_kwargs_as_header_string
       [("file_sha256", VStr "0a=1b"); ("no_cache", VBool false);
        ("unknown", VBool true); ("retry_caching", VBool true)]%string) =
  [("file_sha256", VStr "0a=1b"); ("retry_caching", VBool true)]%string.
Proof.
  rewrite export_parse_roundtrip; [done| |].
  - vm_compute. apply (bool_decide_unpack _). by vm_compute.
  - repeat constructor.
Defined.

(** [update_header_str] updates: for any input header and any nonempty
    keyword arguments the header syntax can carry, the directives of the
    updated header are those of the input overridden by the arguments, less
    the invalid and the falsy ones (so passing [False] removes one). *)
Theorem update_header_str_parse input kw :
  kw <> [] -> Forall (fun kv => wf_value (snd kv)) kw ->
  parse_header_asdict (update_header_str input kw) =
  List.filter exported (dict_update (parse_header_asdict input) kw).
Proof.
  intros Hne Hkw. destruct (parse_header_asdict_inv input) as [Hw Hf].
  unfold update_header_str. destruct kw as [|kv kw]; [done|].
  apply parse_export_dict; [by apply dict_update_wf|by apply dict_update_Forall].
Qed.

Lemma update_header_str_parse_witness :
  parse_header_asdict
    (update_header_str " file_sha256=abc , no_cache"%string
       [("no_cache", VBool false); ("file_compression_alg", VStr "zst")]%string) =
  [("file_sha256", VStr "abc"); ("file_compression_alg", VStr "zst")]%string.
Proof. rewrite update_header_str_parse; [done|done|repeat constructor]. Defined.
