(* ===== verification/StatusMonitor.v ===== *)
(** * The status monitor

    Models [src/src/otaclient/_status_monitor.py]: the reports the OTA
    components enqueue, the handlers that fold a report into the process's
    [OTAClientStatus], and the collector thread that pushes the status to the
    shared memory.  [time.time()] and [time.perf_counter()] are arguments of
    the step; a failed shared-memory write is an outcome of the step. *)

From stdpp Require Import base strings list option sets.
From Stdlib Require Import ZArith String Lia.
From S2P Require Import Prelude Types.

Inductive ProgressType : Type :=
| PREPARE_LOCAL_COPY
| DOWNLOAD_REMOTE_COPY
| APPLY_DELTA
| APPLY_REMOVE_DELTA.

#[export] Instance ProgressType_eq_dec : EqDecision ProgressType.
Proof. solve_decision. Defined.

Record UpdateProgressReport : Type := mkUpdateProgressReport {
  operation : ProgressType;
  processed_file_num : Z;
  processed_file_size : Z;
  rep_downloaded_bytes : Z;
  rep_errors : Z;
}.

Record OTAStatusChangeReport : Type := mkOTAStatusChangeReport {
  new_ota_status : OTAStatus;
  rep_failure_type : FailureType;
  rep_failure_reason : string;
  rep_failure_traceback : string;
}.

#[export] Instance eta_OTAStatusChangeReport : Eta OTAStatusChangeReport := fun r =>
  mkOTAStatusChangeReport (new_ota_status r) (rep_failure_type r) (rep_failure_reason r)
    (rep_failure_traceback r).

Record OTAUpdatePhaseChangeReport : Type := mkOTAUpdatePhaseChangeReport {
  new_update_phase : UpdatePhase;
  trigger_timestamp : Z;
}.

(** [SetUpdateMetaReport] extends [UpdateMeta] with one field. *)
Record SetUpdateMetaReport : Type := mkSetUpdateMetaReport {
  rep_meta : UpdateMeta;
  metadata_downloaded_bytes : Z;
}.

Inductive report_payload : Type :=
| PSetOTAClientMeta (fw : string) (detail : option VersionDetail)
| PUpdateProgress (r : UpdateProgressReport)
| PStatusChange (r : OTAStatusChangeReport)
| PPhaseChange (r : OTAUpdatePhaseChangeReport)
| PSetUpdateMeta (r : SetUpdateMetaReport).

Record StatusReport : Type := mkStatusReport {
  payload : report_payload;
  report_session_id : string;
}.

(** [OTAStatusChangeReport(new_ota_status=s)] *)
Definition status_change (s : OTAStatus) : OTAStatusChangeReport :=
  mkOTAStatusChangeReport s NO_FAILURE EmptyString EmptyString.

(** ** Handlers: each returns the new status and whether the report is valid *)

Definition on_session_finished (st : OTAClientStatus) (p : OTAStatusChangeReport) :
    OTAClientStatus * bool :=
  let st := st
    <| session_id := EmptyString |>
    <| update_phase := PHASE_INITIALIZING |>
    <| update_meta := Some new_UpdateMeta |>
    <| update_progress := Some new_UpdateProgress |>
    <| update_timing := Some new_UpdateTiming |>
    <| ota_status := new_ota_status p |> in
  if bool_decide (new_ota_status p ∈ [FAILURE; ROLLBACK_FAILURE]) then
    (st <| failure_type := rep_failure_type p |>
        <| failure_reason := rep_failure_reason p |>
        <| failure_traceback := rep_failure_traceback p |>, true)
  else
    (st <| failure_type := NO_FAILURE |>
        <| failure_reason := EmptyString |>
        <| failure_traceback := EmptyString |>, true).

Definition on_new_ota_session (now : Z) (st : OTAClientStatus) (p : OTAStatusChangeReport) :
    OTAClientStatus * bool :=
  (st <| ota_status := new_ota_status p |>
      <| update_phase := PHASE_INITIALIZING |>
      <| update_meta := Some new_UpdateMeta |>
      <| update_progress := Some new_UpdateProgress |>
      <| update_timing := Some (new_UpdateTiming <| update_start_timestamp := now |>) |>
      <| failure_type := NO_FAILURE |>
      <| failure_reason := EmptyString |>, true).

Definition on_update_phase_changed (st : OTAClientStatus) (p : OTAUpdatePhaseChangeReport) :
    OTAClientStatus * bool :=
  match update_timing st with
  | None => (st, false)
  | Some timing =>
      let phase := new_update_phase p in
      let t := trigger_timestamp p in
      let timing' :=
        match phase with
        | PROCESSING_POSTUPDATE => timing <| post_update_start_timestamp := t |>
        | DOWNLOADING_OTA_FILES => timing <| download_start_timestamp := t |>
        | CALCULATING_DELTA => timing <| delta_generate_start_timestamp := t |>
        | APPLYING_UPDATE => timing <| update_apply_start_timestamp := t |>
        | _ => timing
        end in
      (st <| update_timing := Some timing' |> <| update_phase := phase |>, true)
  end.

Definition add_progress (up : UpdateProgress) (p : UpdateProgressReport) : UpdateProgress :=
  match operation p with
  | PREPARE_LOCAL_COPY | APPLY_DELTA =>
      up <| processed_files_num := processed_files_num up + processed_file_num p |>
         <| processed_files_size := processed_files_size up + processed_file_size p |>
  | DOWNLOAD_REMOTE_COPY =>
      up <| processed_files_num := processed_files_num up + processed_file_num p |>
         <| processed_files_size := processed_files_size up + processed_file_size p |>
         <| downloaded_bytes := downloaded_bytes up + rep_downloaded_bytes p |>
         <| downloaded_files_num := downloaded_files_num up + processed_file_num p |>
         <| downloaded_files_size := downloaded_files_size up + processed_file_size p |>
         <| downloading_errors := downloading_errors up + rep_errors p |>
  | APPLY_REMOVE_DELTA =>
      up <| removed_files_num := removed_files_num up + processed_file_num p |>
  end.

Definition on_update_progress (st : OTAClientStatus) (p : UpdateProgressReport) :
    OTAClientStatus * bool :=
  match update_progress st with
  | None => (st, false)
  | Some up => (st <| update_progress := Some (add_progress up p) |>, true)
  end.

(** [if v: setattr(update_meta, k, v)], field by field. *)
Definition merge_meta (m r : UpdateMeta) : UpdateMeta :=
  let pick (old new : Z) := if new =? 0 then old else new in
  mkUpdateMeta
    (if str_truthy (update_firmware_version r) then update_firmware_version r
     else update_firmware_version m)
    (pick (image_size_uncompressed m) (image_size_uncompressed r))
    (pick (image_file_entries m) (image_file_entries r))
    (pick (total_download_files_num m) (total_download_files_num r))
    (pick (total_download_files_size m) (total_download_files_size r))
    (pick (total_remove_files_num m) (total_remove_files_num r)).

Definition on_update_meta (st : OTAClientStatus) (p : SetUpdateMetaReport) :
    OTAClientStatus * bool :=
  match update_meta st, update_progress st with
  | Some m, Some up =>
      let up' :=
        if metadata_downloaded_bytes p =? 0 then up
        else up <| downloaded_bytes := downloaded_bytes up + metadata_downloaded_bytes p |> in
      (st <| update_meta := Some (merge_meta m (rep_meta p)) |>
          <| update_progress := Some up' |>, true)
  | _, _ => (st, false)
  end.

(** [s[-n:]] *)
Definition py_suffix (n : Z) (s : string) : string :=
  if n <=? 0 then str_drop (Z.to_nat (- n)) s
  else str_drop (String.length s - Z.to_nat n) s.

Definition truncate_traceback (max_traceback_size : Z) (p : OTAStatusChangeReport) :
    OTAStatusChangeReport :=
  let tb := rep_failure_traceback p in
  if str_truthy tb && (max_traceback_size <? Z.of_nat (String.length tb))
  then p <| rep_failure_traceback := py_suffix max_traceback_size tb |>
  else p.

Definition load_report (max_traceback_size now : Z) (status : option OTAClientStatus)
    (report : StatusReport) : OTAClientStatus * bool :=
  let st := match status with Some st => st | None => new_OTAClientStatus end in
  match payload report with
  | PSetOTAClientMeta fw detail =>
      let st := st <| firmware_version := fw |> in
      (match detail with
       | Some d => st <| version_detail := Some d |>
       | None => st
       end, true)
  | PStatusChange p =>
      let p := truncate_traceback max_traceback_size p in
      if bool_decide (new_ota_status p ∈ [UPDATING; ROLLBACKING; CLIENT_UPDATING]) then
        on_new_ota_session now (st <| session_id := report_session_id report |>) p
      else if bool_decide (new_ota_status p = ABORTING) then
        (st <| ota_status := new_ota_status p |>, true)
      else
        on_session_finished (st <| session_id := EmptyString |>) p
  | pl =>
      if negb (String.eqb (report_session_id report) (session_id st)) then (st, false)
      else
        match pl with
        | PPhaseChange p => on_update_phase_changed st p
        | PUpdateProgress p => on_update_progress st p
        | PSetUpdateMeta p => on_update_meta st p
        | _ => (st, false)
        end
  end.

(** ** The collector thread *)

Record collector : Type := mkCollector {
  col_status : option OTAClientStatus;
  col_next_shm_push : Z;
  col_latest_status_pushed : bool;
  col_shm : option OTAClientStatus;     (** what [write_msg] last wrote *)
}.

#[export] Instance eta_collector : Eta collector := fun r =>
  mkCollector (col_status r) (col_next_shm_push r) (col_latest_status_pushed r) (col_shm r).

(** [_status] is [None] and nothing is pushed when the thread starts. *)
Definition new_collector : collector := mkCollector None 0 false None.

(** One round of the loop: what [get_nowait] gave, the clocks, and whether a
    push of this round succeeds. *)
Record round_input : Type := mkRound {
  rd_report : option StatusReport;      (** [None]: [queue.Empty] *)
  rd_now : Z;                           (** [time.perf_counter()] *)
  rd_time : Z;                          (** [int(time.time())] *)
  rd_push_ok : bool;
}.

Definition is_status_change (r : StatusReport) : bool :=
  match payload r with PStatusChange _ => true | _ => false end.

Definition collector_round (max_traceback_size shm_push_interval : Z)
    (c : collector) (i : round_input) : collector :=
  let '(c, valid_report) :=
    match rd_report i with
    | None => (c, None)
    | Some r =>
        let '(st, ok) := load_report max_traceback_size (rd_time i) (col_status c) r in
        let c := c <| col_status := Some st |> in
        if ok then (c <| col_latest_status_pushed := false |>, Some r) else (c, None)
    end in
  match col_status c with
  | None => c
  | Some st =>
      if ((col_next_shm_push c <? rd_now i) && negb (col_latest_status_pushed c))
         || (match valid_report with Some r => is_status_change r | None => false end)
      then
        if rd_push_ok i then
          c <| col_shm := Some st |>
            <| col_next_shm_push := rd_now i + shm_push_interval |>
            <| col_latest_status_pushed := true |>
        else c
      else c
  end.

Definition collector_run (mx iv : Z) (c : collector) (l : list round_input) : collector :=
  fold_left (collector_round mx iv) l c.

(** ** Facts about one report *)

Lemma load_report_false mx now st r st' :
  load_report mx now (Some st) r = (st', false) -> st' = st.
Proof.
  unfold load_report, on_new_ota_session, on_session_finished, on_update_phase_changed,
    on_update_progress, on_update_meta.
  destruct (payload r); cbv zeta; intros H; repeat case_match; by simplify_eq.
Qed.

Lemma truncate_traceback_length mx p :
  0 < mx ->
  Z.of_nat (String.length (rep_failure_traceback (truncate_traceback mx p))) <= mx.
Proof.
  intros Hmx. unfold truncate_traceback.
  destruct (str_truthy (rep_failure_traceback p)) eqn:E; simpl.
  - destruct (Z.ltb_spec mx (Z.of_nat (String.length (rep_failure_traceback p)))); simpl; [|lia].
    unfold py_suffix. destruct (Z.leb_spec mx 0); [lia|].
    rewrite length_str_drop. lia.
  - destruct (rep_failure_traceback p); simpl in *; [lia|done].
Qed.

Lemma truncate_traceback_status mx p :
  new_ota_status (truncate_traceback mx p) = new_ota_status p.
Proof. unfold truncate_traceback. by case_match. Qed.

(** The traceback is the only unbounded field of a status. *)
Definition traceback_bounded (mx : Z) (st : OTAClientStatus) : Prop :=
  Z.of_nat (String.length (failure_traceback st)) <= mx.

Lemma load_report_traceback mx now st r :
  0 < mx -> (forall s, st = Some s -> traceback_bounded mx s) ->
  traceback_bounded mx (fst (load_report mx now st r)).
Proof.
  intros Hmx Hst.
  assert (H0 : traceback_bounded mx (match st with Some s => s | None => new_OTAClientStatus end)).
  { destruct st; [by apply Hst|]. unfold traceback_bounded; simpl; lia. }
  clear Hst. unfold load_report. revert H0.
  generalize (match st with Some s => s | None => new_OTAClientStatus end). intros s H0.
  unfold traceback_bounded in *.
  destruct (payload r) as [fw d|p|p|p|p]; cbv zeta.
  - by destruct d.
  - case_match; [done|]. unfold on_update_progress. by case_match.
  - case_match; [done|]. case_match; [done|].
    unfold on_session_finished. case_match; simpl.
    + by apply truncate_traceback_length.
    + lia.
  - case_match; [done|]. unfold on_update_phase_changed. by case_match.
  - case_match; [done|]. unfold on_update_meta. by repeat case_match.
Qed.

(** ** Facts about the collector *)

(** What the pushed flag promises to the readers of the shared memory. *)
Definition shm_consistent (c : collector) : Prop :=
  col_latest_status_pushed c = true -> col_shm c = col_status c /\ is_Some (col_status c).

Lemma collector_round_consistent mx iv c i :
  shm_consistent c -> shm_consistent (collector_round mx iv c i).
Proof.
  unfold shm_consistent, collector_round. intros Hc.
  destruct (rd_report i) as [r|].
  - destruct (load_report mx (rd_time i) (col_status c) r) as [st ok] eqn:E.
    destruct ok; simpl; repeat case_match; simpl; try done; intros Hp.
    all: destruct (Hc Hp) as [Hs [s Hs']]; rewrite Hs' in E;
      apply load_report_false in E as ->; rewrite Hs, Hs'; by eauto.
  - destruct (col_status c) eqn:E; simpl; repeat case_match; simpl; try done.
    all: rewrite ?E in *; eauto.
Qed.

Definition progress_reports (s : string) (l : list UpdateProgressReport) : list StatusReport :=
  map (fun p => mkStatusReport (PUpdateProgress p) s) l.

(** Folding reports of the ongoing session in arrival order. *)
Definition load_reports (mx now : Z) (st : OTAClientStatus) (l : list StatusReport) :
    OTAClientStatus :=
  fold_left (fun s r => fst (load_report mx now (Some s) r)) l st.

Definition sumZ {A} (f : A -> Z) (l : list A) : Z := foldr (fun x acc => f x + acc) 0 l.

(** The share of a progress report in each counter. *)
Definition counts_processed (p : UpdateProgressReport) : bool :=
  match operation p with APPLY_REMOVE_DELTA => false | _ => true end.
Definition counts_downloaded (p : UpdateProgressReport) : bool :=
  match operation p with DOWNLOAD_REMOTE_COPY => true | _ => false end.
Definition counts_removed (p : UpdateProgressReport) : bool :=
  match operation p with APPLY_REMOVE_DELTA => true | _ => false end.

(** The counters a progress report is expected to leave, as sums. *)
Definition expected_progress (up : UpdateProgress) (l : list UpdateProgressReport) :
    UpdateProgress :=
  let sel (b : UpdateProgressReport -> bool) (f : UpdateProgressReport -> Z) :=
    sumZ f (List.filter b l) in
  mkUpdateProgress
    (downloaded_files_num up + sel counts_downloaded processed_file_num)
    (downloaded_bytes up + sel counts_downloaded rep_downloaded_bytes)
    (downloaded_files_size up + sel counts_downloaded processed_file_size)
    (downloading_errors up + sel counts_downloaded rep_errors)
    (removed_files_num up + sel counts_removed processed_file_num)
    (processed_files_num up + sel counts_processed processed_file_num)
    (processed_files_size up + sel counts_processed processed_file_size).

Lemma expected_progress_cons up p l :
  expected_progress (add_progress up p) l = expected_progress up (p :: l).
Proof.
  unfold expected_progress, add_progress, counts_downloaded, counts_removed, counts_processed.
  simpl. destruct (operation p); simpl; f_equal; unfold sumZ; simpl; lia.
Qed.

Lemma fold_progress up l : fold_left add_progress l up = expected_progress up l.
Proof.
  revert up. induction l as [|p l IH]; intros up; simpl.
  - unfold expected_progress, sumZ; simpl. rewrite !Z.add_0_r. by destruct up.
  - by rewrite IH, expected_progress_cons.
Qed.

Lemma load_report_progress mx now st up p :
  update_progress st = Some up ->
  load_report mx now (Some st) (mkStatusReport (PUpdateProgress p) (session_id st)) =
  (st <| update_progress := Some (add_progress up p) |>, true).
Proof.
  intros Hup. unfold load_report, on_update_progress. cbn [payload report_session_id].
  by rewrite String.eqb_refl, Hup.
Qed.

Lemma load_reports_progress mx now st up l :
  update_progress st = Some up ->
  load_reports mx now st (progress_reports (session_id st) l) =
  st <| update_progress := Some (fold_left add_progress l up) |>.
Proof.
  revert st up. induction l as [|p l IH]; intros st up Hup.
  - destruct st; simpl in *; by subst.
  - change (progress_reports (session_id st) (p :: l)) with
      (mkStatusReport (PUpdateProgress p) (session_id st) :: progress_reports (session_id st) l).
    unfold load_reports; cbn [fold_left]. rewrite (load_report_progress _ _ _ up) by done.
    exact (IH (st <| update_progress := Some (add_progress up p) |>) (add_progress up p) eq_refl).
Qed.

(** ** Properties *)

(** Whatever the order of reports, clocks and shared-memory failures,
    whenever the collector considers the latest status pushed, the shared
    memory holds exactly the status the collector has. *)
Theorem collector_shm_consistent mx iv l :
  shm_consistent (collector_run mx iv new_collector l).
Proof.
  unfold collector_run. assert (H : shm_consistent new_collector) by done.
  revert H. generalize new_collector.
  induction l as [|i l IH]; simpl; [done|]. intros c Hc.
  by apply IH, collector_round_consistent.
Qed.

(** An OTA status change is pushed in the very round that reads it when
    the write succeeds, whatever the push interval says. *)
Theorem status_change_pushed_at_once mx iv c i r p :
  rd_report i = Some r -> payload r = PStatusChange p -> rd_push_ok i = true ->
  let c' := collector_round mx iv c i in
  col_shm c' = Some (fst (load_report mx (rd_time i) (col_status c) r)) /\
  col_latest_status_pushed c' = true /\
  col_next_shm_push c' = rd_now i + iv.
Proof.
  intros Hr Hp Hok. cbv zeta. unfold collector_round. rewrite Hr.
  destruct (load_report mx (rd_time i) (col_status c) r) as [st ok] eqn:E.
  assert (ok = true) as ->.
  { unfold load_report in E. rewrite Hp in E. cbv zeta in E.
    unfold on_new_ota_session, on_session_finished in E. repeat case_match; by simplify_eq. }
  simpl. unfold is_status_change. rewrite Hp, orb_true_r, Hok. done.
Qed.

Lemma status_change_pushed_at_once_witness :
  let i := mkRound (Some (mkStatusReport (PStatusChange (status_change UPDATING)) "s1")) 5 100 true in
  let c' := collector_round 512 10 (mkCollector (Some new_OTAClientStatus) 50 true None) i in
  option_map ota_status (col_shm c') = Some UPDATING /\ col_next_shm_push c' = 15.
Proof.
  cbv zeta.
  destruct (status_change_pushed_at_once 512 10
    (mkCollector (Some new_OTAClientStatus) 50 true None)
    (mkRound (Some (mkStatusReport (PStatusChange (status_change UPDATING)) "s1")) 5 100 true)
    _ _ eq_refl eq_refl eq_refl) as (H & _ & H').
  split; [by rewrite H|by rewrite H'].
Defined.

(** Reports of a session other than the current one leave the whole
    status unchanged and are reported as invalid: progress, phase and
    metadata of an old session never leak into a new one. *)
Theorem foreign_session_dropped mx now st r :
  report_session_id r <> session_id st ->
  match payload r with PPhaseChange _ | PUpdateProgress _ | PSetUpdateMeta _ => True | _ => False end ->
  load_report mx now (Some st) r = (st, false).
Proof.
  intros Hne Hk. unfold load_report.
  rewrite (proj2 (String.eqb_neq _ _) Hne). by destruct (payload r).
Qed.

Lemma foreign_session_dropped_witness :
  load_report 512 7 (Some (new_OTAClientStatus <| session_id := "new"%string |>))
    (mkStatusReport (PPhaseChange (mkOTAUpdatePhaseChangeReport APPLYING_UPDATE 3)) "old") =
  (new_OTAClientStatus <| session_id := "new"%string |>, false).
Proof. by apply foreign_session_dropped. Defined.

(** Progress accounting: after any sequence of progress reports of the
    current session, every counter of the status is its old value plus the
    sum of the reported amounts of the operations that count for it
    (processed: local copy, download, apply; downloaded: download only;
    removed: remove only), and nothing else changes. *)
Theorem progress_counters_sum mx now st up l :
  update_progress st = Some up ->
  load_reports mx now st (progress_reports (session_id st) l) =
  st <| update_progress := Some (expected_progress up l) |>.
Proof. intros H. by rewrite (load_reports_progress mx now st up l H), fold_progress. Qed.

Lemma progress_counters_sum_witness :
  let st := new_OTAClientStatus <| update_progress := Some new_UpdateProgress |> in
  option_map processed_files_num (update_progress
    (load_reports 512 0 st
      (progress_reports (session_id st)
        [mkUpdateProgressReport DOWNLOAD_REMOTE_COPY 2 10 5 1;
         mkUpdateProgressReport APPLY_REMOVE_DELTA 7 0 0 0;
         mkUpdateProgressReport PREPARE_LOCAL_COPY 3 4 0 0]))) = Some 5.
Proof. cbv zeta. by rewrite (progress_counters_sum 512 0 _ new_UpdateProgress). Defined.

(** The traceback kept in the status never exceeds the configured size,
    for every sequence of reports the collector processes. *)
Theorem traceback_always_bounded mx iv l :
  0 < mx ->
  forall st, col_status (collector_run mx iv new_collector l) = Some st -> traceback_bounded mx st.
Proof.
  intros Hmx. unfold collector_run.
  assert (H : forall st, col_status new_collector = Some st -> traceback_bounded mx st) by done.
  revert H. generalize new_collector.
  induction l as [|i l IH]; simpl; [done|]. intros c Hc. apply IH. intros st.
  unfold collector_round. destruct (rd_report i) as [r|].
  - pose proof (load_report_traceback mx (rd_time i) (col_status c) r Hmx Hc) as Hb.
    destruct (load_report mx (rd_time i) (col_status c) r) as [s ok]; simpl in Hb.
    destruct ok; simpl; repeat case_match; simpl; by intros [= <-].
  - destruct (col_status c) eqn:E; repeat case_match; simpl; rewrite ?E; auto.
Qed.

Lemma traceback_always_bounded_witness :
  let l := [mkRound (Some (mkStatusReport
    (PStatusChange (mkOTAStatusChangeReport FAILURE RECOVERABLE "r" "abcdef")) "")) 1 1 true] in
  exists st, col_status (collector_run 3 1 new_collector l) = Some st /\
    failure_traceback st = "def"%string /\ traceback_bounded 3 st.
Proof.
  cbv zeta. eexists. split; [reflexivity|]. split; [reflexivity|].
  apply (traceback_always_bounded 3 1
    [mkRound (Some (mkStatusReport
      (PStatusChange (mkOTAStatusChangeReport FAILURE RECOVERABLE "r" "abcdef")) "")) 1 1 true]);
    [lia|reflexivity].
Defined.

(** Only a failed session leaves failure information: a report of a
    finished session resets the session, its phase and its counters, and
    keeps the reported failure exactly for [FAILURE] and [ROLLBACK_FAILURE]. *)
Theorem session_finished_status mx now st r p :
  payload r = PStatusChange p ->
  new_ota_status p ∉ [UPDATING; ROLLBACKING; CLIENT_UPDATING; ABORTING] ->
  let st' := fst (load_report mx now st r) in
  ota_status st' = new_ota_status p /\ session_id st' = EmptyString /\
  update_phase st' = PHASE_INITIALIZING /\
  update_progress st' = Some new_UpdateProgress /\
  (failure_type st', failure_reason st') =
    (if bool_decide (new_ota_status p ∈ [FAILURE; ROLLBACK_FAILURE])
     then (rep_failure_type p, rep_failure_reason p) else (NO_FAILURE, EmptyString)).
Proof.
  intros Hp Hn. cbv zeta. unfold load_report. rewrite Hp. cbv zeta.
  rewrite truncate_traceback_status.
  rewrite bool_decide_eq_false_2 by set_solver. rewrite bool_decide_eq_false_2 by set_solver.
  unfold on_session_finished. rewrite truncate_traceback_status.
  unfold truncate_traceback. repeat case_match; done.
Qed.

Lemma session_finished_status_witness :
  let st' := fst (load_report 512 9 (Some (new_OTAClientStatus <| session_id := "s"%string |>))
    (mkStatusReport (PStatusChange (status_change SUCCESS)) "s")) in
  ota_status st' = SUCCESS /\ session_id st' = EmptyString.
Proof.
  cbv zeta. destruct (session_finished_status 512 9
    (Some (new_OTAClientStatus <| session_id := "s"%string |>))
    (mkStatusReport (PStatusChange (status_change SUCCESS)) "s") (status_change SUCCESS) eq_refl)
    as (H1 & H2 & _); [|by split].
  apply (bool_decide_unpack _). by vm_compute.
Defined.

(** The start of a session clears the failure type and reason but not
    the traceback: the traceback of the previous failure is still in the
    status of the new session. *)
Theorem new_session_keeps_traceback mx now st r p :
  payload r = PStatusChange p ->
  new_ota_status p ∈ [UPDATING; ROLLBACKING; CLIENT_UPDATING] ->
  let st' := fst (load_report mx now (Some st) r) in
  failure_type st' = NO_FAILURE /\ failure_reason st' = EmptyString /\
  failure_traceback st' = failure_traceback st.
Proof.
  intros Hp Hn. cbv zeta. unfold load_report. rewrite Hp. cbv zeta.
  rewrite truncate_traceback_status.
  rewrite bool_decide_eq_true_2 by set_solver. done.
Qed.

Lemma new_session_keeps_traceback_witness :
  failure_traceback (fst (load_report 512 9
    (Some (new_OTAClientStatus <| failure_traceback := "tb"%string |>))
    (mkStatusReport (PStatusChange (status_change UPDATING)) "s"))) = "tb"%string.
Proof.
  destruct (new_session_keeps_traceback 512 9
    (new_OTAClientStatus <| failure_traceback := "tb"%string |>)
    (mkStatusReport (PStatusChange (status_change UPDATING)) "s") (status_change UPDATING) eq_refl)
    as (_ & _ & H); [|exact H].
  apply (bool_decide_unpack _). by vm_compute.
Defined.
