(* ===== verification/AbortHandler.v ===== *)
(** * The abort handler

    Models [src/src/otaclient/ota_core/_abort_handler.py]: the state machine
    that decides when an abort request may stop a running OTA update, the
    zone transitions the updater thread makes
    ([src/src/otaclient/ota_core/_updater.py], [execute]), and the thread that
    performs the abort.  The methods are functions on the handler's state;
    the threads are interleaved by the step relation [step], one step per
    section guarded by the condition variable (or per unguarded action). *)

From stdpp Require Import base strings list option relations sets.
From Stdlib Require Import ZArith String Lia.
From S2P Require Import Prelude Types Errors StatusMonitor.

(** [OTAAbortSignal(msg, module=__name__)] *)
Definition abort_signal (msg : string) : pyexn :=
  ota_error (Rec OTAAbortSignal) msg "otaclient.ota_core._abort_handler" None.

Record AbortHandler : Type := mkAbortHandler {
  ah_state : AbortState;
  ah_session_id : string;
  ah_abort_queue : list AbortRequestV2;
  ah_resp_queue : list IPCResponse;
}.

#[export] Instance eta_AbortHandler : Eta AbortHandler := fun r =>
  mkAbortHandler (ah_state r) (ah_session_id r) (ah_abort_queue r) (ah_resp_queue r).

(** [AbortHandler.__init__] *)
Definition new_AbortHandler : AbortHandler := mkAbortHandler AS_NONE EmptyString [] [].

Definition set_session (sid : string) (h : AbortHandler) : AbortHandler :=
  h <| ah_session_id := sid |> <| ah_state := AS_NONE |>.

Definition abort_in_progress (s : AbortState) : bool :=
  bool_decide (s ∈ [AS_ABORTING; AS_ABORTED]).

Definition enter_critical_zone : PyM AbortHandler pyexn unit :=
  h ← get;
  if abort_in_progress (ah_state h)
  then raise (abort_signal "cannot enter critical zone: abort in progress")
  else modify (fun h => h <| ah_state := AS_CRITICAL_ZONE |>).

Definition exit_critical_zone : PyM AbortHandler pyexn unit :=
  h ← get;
  if bool_decide (ah_state h = AS_REQUESTED) then
    _ ← modify (fun h => h <| ah_state := AS_ABORTING |>);
    raise (abort_signal "abort queued during critical zone, now executing")
  else if abort_in_progress (ah_state h) then
    raise (abort_signal "abort in progress")
  else modify (fun h => h <| ah_state := AS_NONE |>).

(** [with handler.critical_zone(): body] *)
Definition critical_zone {A} (body : PyM AbortHandler pyexn A) :
    PyM AbortHandler pyexn A :=
  _ ← enter_critical_zone;
  try_finally body exit_critical_zone.

Definition enter_final_phase : PyM AbortHandler pyexn unit :=
  h ← get;
  if abort_in_progress (ah_state h)
  then raise (abort_signal "cannot enter final phase: abort in progress")
  else modify (fun h => h <| ah_state := AS_FINAL_PHASE |>).

Definition submit (r : AbortRequestV2) (h : AbortHandler) : AbortHandler :=
  h <| ah_abort_queue := ah_abort_queue h ++ [r] |>.

(** [get_response]: [None] is the timeout on an empty response queue. *)
Definition get_response (h : AbortHandler) : AbortHandler * option IPCResponse :=
  match ah_resp_queue h with
  | [] => (h, None)
  | r :: q => (h <| ah_resp_queue := q |>, Some r)
  end.

Definition put_response (res : IPCResEnum) (msg : string) (r : AbortRequestV2)
    (h : AbortHandler) : AbortHandler :=
  h <| ah_resp_queue := ah_resp_queue h ++ [mkIPCResponse res (ar_session_id r) msg] |>.

(** The section of [_handle] under the condition variable.  The boolean says
    whether [_perform_abort] is called next (the path NONE -> ABORTING). *)
Definition handle_request (live_ota_status : OTAStatus) (r : AbortRequestV2)
    (h : AbortHandler) : AbortHandler * bool :=
  if negb (bool_decide (live_ota_status = UPDATING)) then
    (put_response REJECT_ABORT "Cannot abort: no active OTA update in progress" r h, false)
  else if bool_decide (ah_state h = AS_FINAL_PHASE) then
    (put_response REJECT_ABORT "Cannot abort: update is in FINAL_PHASE" r h, false)
  else if bool_decide (ah_state h ∈ [AS_ABORTING; AS_ABORTED; AS_REQUESTED]) then
    (put_response ACCEPT "Abort already in progress" r h, false)
  else if bool_decide (ah_state h = AS_CRITICAL_ZONE) then
    (put_response ACCEPT "Abort queued, will proceed after critical zone exits" r
       (h <| ah_state := AS_REQUESTED |>), false)
  else
    (put_response ACCEPT "Abort accepted, aborting update immediately" r
       (h <| ah_state := AS_ABORTING |>), true).

(** ** The interleaved system

    The handler thread: the loop of [_run], with [_perform_abort] as its four
    actions.  [locked] tells whether it runs under the condition variable's
    lock (the deferred path of [_run]) or not (called from [_handle]). *)
Inductive handler_pc : Type :=
| H_get
| H_handle (r : AbortRequestV2)
| H_check
| H_report (locked : bool)
| H_on_abort (locked : bool)
| H_set_aborted (locked : bool)
| H_kill (locked : bool)
| H_dead.

(** The updater thread, by the phases of [execute] and the handlers of
    [OTAClient.update]. *)
Inductive updater_pc : Type :=
| U_idle           (** no session *)
| U_metadata       (** before the critical zone *)
| U_critical       (** inside [with critical_zone()]: pre-update *)
| U_in_update      (** between the zone and the final phase *)
| U_final          (** post-update and finalizing *)
| U_error          (** an exception reached the handlers of [execute] *)
| U_unwind         (** [OTAAbortSignal] is propagating *)
| U_failed         (** another error is propagating out of [execute] *)
| U_done           (** [update] returned *)
| U_rebooted.      (** the update is complete and the ECU reboots *)

Record system : Type := mkSystem {
  s_h : AbortHandler;
  s_live : OTAStatus;
  s_reports : list StatusReport;
  s_on_abort_calls : nat;
  s_killed : bool;
  s_accepted : bool;        (** an abort of this session got [ACCEPT] *)
  s_hpc : handler_pc;
  s_upc : updater_pc;
}.

#[export] Instance eta_system : Eta system := fun r =>
  mkSystem (s_h r) (s_live r) (s_reports r) (s_on_abort_calls r) (s_killed r) (s_accepted r)
    (s_hpc r) (s_upc r).

Definition holds_lock (p : handler_pc) : bool :=
  match p with
  | H_report b | H_on_abort b | H_set_aborted b | H_kill b => b
  | _ => false
  end.

Definition report_status (sid : string) (st : OTAStatus) (s : system) : system :=
  s <| s_reports := s_reports s ++ [mkStatusReport (PStatusChange (status_change st)) sid] |>.

(** Whether the last response of a handled request is an [ACCEPT]. *)
Definition last_accept (h : AbortHandler) : bool :=
  match last (ah_resp_queue h) with
  | Some r => bool_decide (resp_res r = ACCEPT)
  | None => false
  end.

(** The statuses that make [OTAClient.is_busy]. *)
Definition busy_status (st : OTAStatus) : bool :=
  bool_decide (st ∈ [UPDATING; ROLLBACKING; CLIENT_UPDATING; ABORTING]).

(** The start of [OTAClient.update] up to the first phase. *)
Definition start_session (sid : string) (s : system) : system :=
  report_status sid UPDATING
    (s <| s_h := set_session sid (s_h s) |> <| s_live := UPDATING |>
       <| s_accepted := false |> <| s_upc := U_metadata |>).

Inductive handler_step : system -> system -> Prop :=
| hs_get s r q :
    s_hpc s = H_get -> ah_abort_queue (s_h s) = r :: q ->
    handler_step s (s <| s_h := (s_h s) <| ah_abort_queue := q |> |> <| s_hpc := H_handle r |>)
| hs_handle s r h' b :
    s_hpc s = H_handle r -> handle_request (s_live s) r (s_h s) = (h', b) ->
    handler_step s
      (s <| s_h := h' |> <| s_accepted := s_accepted s || last_accept h' |>
         <| s_hpc := if b then H_report false else H_check |>)
| hs_check_abort s :
    s_hpc s = H_check -> ah_state (s_h s) = AS_ABORTING ->
    handler_step s (s <| s_hpc := H_report true |>)
| hs_check_next s :
    s_hpc s = H_check -> ah_state (s_h s) ∉ [AS_REQUESTED; AS_ABORTING] ->
    handler_step s (s <| s_hpc := H_get |>)
| hs_report s b :
    s_hpc s = H_report b ->
    handler_step s
      ((report_status (ah_session_id (s_h s)) ABORTING s) <| s_hpc := H_on_abort b |>)
| hs_on_abort s b :
    s_hpc s = H_on_abort b ->
    handler_step s
      (s <| s_on_abort_calls := S (s_on_abort_calls s) |> <| s_hpc := H_set_aborted b |>)
| hs_on_abort_raises s b :
    s_hpc s = H_on_abort b ->
    handler_step s (s <| s_hpc := H_dead |>)
| hs_set_aborted s b :
    s_hpc s = H_set_aborted b ->
    handler_step s
      (s <| s_h := (s_h s) <| ah_state := AS_ABORTED |> |> <| s_hpc := H_kill b |>)
| hs_kill s b :
    s_hpc s = H_kill b ->
    handler_step s (s <| s_killed := true |> <| s_hpc := if b then H_get else H_check |>).

(** The updater's steps; the zone transitions and the reads of the state take
    the lock. *)
Inductive updater_step : system -> system -> Prop :=
| us_enter_critical s h' r :
    s_upc s = U_metadata -> holds_lock (s_hpc s) = false ->
    enter_critical_zone (s_h s) = (h', r) ->
    updater_step s (s <| s_h := h' |> <| s_upc := if is_ok r then U_critical else U_unwind |>)
| us_exit_critical s h' r (body_ok : bool) :
    s_upc s = U_critical -> holds_lock (s_hpc s) = false ->
    exit_critical_zone (s_h s) = (h', r) ->
    updater_step s
      (s <| s_h := h' |>
         <| s_upc := if is_ok r then (if body_ok then U_in_update else U_error) else U_unwind |>)
| us_enter_final s h' r :
    s_upc s = U_in_update -> holds_lock (s_hpc s) = false ->
    enter_final_phase (s_h s) = (h', r) ->
    updater_step s (s <| s_h := h' |> <| s_upc := if is_ok r then U_final else U_unwind |>)
| us_error s :
    s_upc s ∈ [U_metadata; U_in_update; U_final] ->
    updater_step s (s <| s_upc := U_error |>)
| us_execute_except s :
    s_upc s = U_error -> holds_lock (s_hpc s) = false ->
    updater_step s
      (s <| s_upc := if abort_in_progress (ah_state (s_h s)) then U_unwind else U_failed |>)
| us_unwind s :
    s_upc s = U_unwind ->
    updater_step s
      (report_status (ah_session_id (s_h s)) ABORTED
         (s <| s_live := ABORTED |> <| s_upc := U_done |>))
| us_failed s :
    s_upc s = U_failed -> holds_lock (s_hpc s) = false ->
    updater_step s
      (let st := if abort_in_progress (ah_state (s_h s)) then ABORTED else FAILURE in
       report_status (ah_session_id (s_h s)) st (s <| s_live := st |> <| s_upc := U_done |>))
| us_reboot s :
    s_upc s = U_final -> updater_step s (s <| s_upc := U_rebooted |>).

(** The request loop's side: submitting a request, reading a response. *)
Inductive main_step : system -> system -> Prop :=
| ms_submit s r : main_step s (s <| s_h := submit r (s_h s) |>)
| ms_get_response s : main_step s (s <| s_h := fst (get_response (s_h s)) |>).

(** A step of a running session, and a step that starts a new session. *)
Definition step (s s' : system) : Prop :=
  handler_step s s' \/ updater_step s s' \/ main_step s s'.

Inductive restart_step : system -> system -> Prop :=
| rs_start s sid :
    s_upc s ∈ [U_idle; U_done] -> busy_status (s_live s) = false ->
    holds_lock (s_hpc s) = false ->
    restart_step s (start_session sid s).

(** A session starts when the handler is waiting for requests. *)
Definition session_start (s : system) : Prop :=
  exists s0 sid, s_hpc s0 = H_get /\ s_killed s0 = false /\ s = start_session sid s0.

Definition session_reachable (s : system) : Prop :=
  exists s0, session_start s0 /\ rtc step s0 s.

(** ** The invariant of a session *)

Definition performing (p : handler_pc) : bool :=
  match p with H_report _ | H_on_abort _ | H_set_aborted _ | H_kill _ => true | _ => false end.

Definition in_zone (st : AbortState) : bool :=
  match st with AS_CRITICAL_ZONE | AS_REQUESTED => true | _ => false end.
Definition is_final (st : AbortState) : bool :=
  match st with AS_FINAL_PHASE => true | _ => false end.
Definition abort_pending (st : AbortState) : bool :=
  match st with AS_REQUESTED | AS_ABORTING | AS_ABORTED => true | _ => false end.
Definition pc_critical (p : updater_pc) : bool :=
  match p with U_critical => true | _ => false end.
Definition pc_final (p : updater_pc) : bool :=
  match p with U_final | U_rebooted => true | _ => false end.
Definition pc_early (p : updater_pc) : bool :=
  match p with U_metadata | U_in_update => true | _ => false end.

(** Where the handler thread is, given the state: while an abort is being
    performed, or is requested, the thread is at the matching place. *)
Definition handler_at (st : AbortState) (hp : handler_pc) (killed : bool) : bool :=
  match st with
  | AS_ABORTING =>
      match hp with
      | H_report _ | H_on_abort _ | H_set_aborted _ | H_check | H_dead => true
      | _ => false
      end
  | AS_ABORTED => match hp with H_kill _ => true | _ => killed && negb (performing hp) end
  | AS_REQUESTED => match hp with H_check => true | _ => false end
  | _ => negb (performing hp)
  end.

Definition ctrl_ok (st : AbortState) (up : updater_pc) (hp : handler_pc)
    (killed accepted : bool) (on_abort_calls : nat) : bool :=
  Bool.eqb (pc_critical up) (in_zone st)
  && implb (pc_final up) (is_final st)
  && implb (pc_early up) (negb (is_final st))
  && handler_at st hp killed
  && implb accepted (abort_pending st)
  && implb (killed || match hp with H_set_aborted _ | H_kill _ => true | _ => false end)
       (0 <? on_abort_calls)%nat
  && implb killed (match st with AS_ABORTED => true | _ => false end).

Definition session_inv (s : system) : Prop :=
  ctrl_ok (ah_state (s_h s)) (s_upc s) (s_hpc s) (s_killed s) (s_accepted s)
    (s_on_abort_calls s) = true.

(** The updater's phase as the state machine of the handler sees it. *)
Lemma enter_critical_zone_spec h h' r :
  enter_critical_zone h = (h', r) ->
  (ah_state h ∈ [AS_ABORTING; AS_ABORTED] /\ h' = h /\ is_ok r = false) \/
  ((ah_state h ∉ [AS_ABORTING; AS_ABORTED]) /\ h' = h <| ah_state := AS_CRITICAL_ZONE |> /\
   is_ok r = true).
Proof.
  unfold enter_critical_zone, abort_in_progress, mbind, pym_bind, get. simpl.
  case_bool_decide; intros [= <- <-]; auto.
Qed.

Lemma exit_critical_zone_spec h h' r :
  exit_critical_zone h = (h', r) ->
  (ah_state h = AS_REQUESTED /\ h' = h <| ah_state := AS_ABORTING |> /\ is_ok r = false) \/
  (ah_state h ∈ [AS_ABORTING; AS_ABORTED] /\ h' = h /\ is_ok r = false) \/
  ((ah_state h ∉ [AS_REQUESTED; AS_ABORTING; AS_ABORTED]) /\ h' = h <| ah_state := AS_NONE |> /\
   is_ok r = true).
Proof.
  unfold exit_critical_zone, abort_in_progress, mbind, pym_bind, get, modify. simpl.
  case_bool_decide; [|case_bool_decide]; intros [= <- <-]; set_solver.
Qed.

Lemma enter_final_phase_spec h h' r :
  enter_final_phase h = (h', r) ->
  (ah_state h ∈ [AS_ABORTING; AS_ABORTED] /\ h' = h /\ is_ok r = false) \/
  ((ah_state h ∉ [AS_ABORTING; AS_ABORTED]) /\ h' = h <| ah_state := AS_FINAL_PHASE |> /\
   is_ok r = true).
Proof.
  unfold enter_final_phase, abort_in_progress, mbind, pym_bind, get. simpl.
  case_bool_decide; intros [= <- <-]; auto.
Qed.

Lemma last_accept_put res msg r h :
  last_accept (put_response res msg r h) = bool_decide (res = ACCEPT).
Proof. unfold last_accept, put_response. simpl. by rewrite last_snoc. Qed.

(** What [_handle] does to the state, and when it accepts. *)
Lemma handle_request_spec live r h h' b :
  handle_request live r h = (h', b) ->
  ah_session_id h' = ah_session_id h /\ ah_abort_queue h' = ah_abort_queue h /\
  ((b = false /\ ah_state h' = ah_state h /\
    (last_accept h' = true -> ah_state h ∈ [AS_ABORTING; AS_ABORTED; AS_REQUESTED])) \/
   (b = false /\ ah_state h = AS_CRITICAL_ZONE /\ ah_state h' = AS_REQUESTED) \/
   (b = true /\ ah_state h = AS_NONE /\ ah_state h' = AS_ABORTING)).
Proof.
  unfold handle_request. intros H.
  destruct (bool_decide (live = UPDATING)); simpl in H.
  2: { injection H as <- <-. rewrite last_accept_put. split_and!; [done..|].
       left. split_and!; [done..|]. by intros Hx%bool_decide_eq_true. }
  destruct (ah_state h) eqn:E; simpl in H; injection H as <- <-;
    rewrite ?last_accept_put; simpl; rewrite ?E; (split; [done|split; [done|]]).
  all: first [ by right; left | by right; right
    | left; split_and!; [done..|]; first [ by intros Hx%bool_decide_eq_true | set_solver ] ].
Qed.

Lemma session_start_inv s : session_start s -> session_inv s.
Proof.
  intros (s0 & sid & Hp & Hk & ->). unfold session_inv; simpl. by rewrite Hp, Hk.
Qed.

(** Evaluate the control predicate on every remaining case. *)
Ltac solve_ctrl :=
  unfold session_inv, ctrl_ok in *; simpl in *;
  repeat match goal with H : s_hpc _ = _ |- _ => rewrite H in *; clear H end;
  repeat match goal with H : s_upc _ = _ |- _ => rewrite H in *; clear H end;
  repeat match goal with H : ah_state _ = _ |- _ => rewrite H in *; clear H end;
  repeat match goal with
  | |- context [ah_state ?x] => destruct (ah_state x); simpl in *; try discriminate
  | |- context [s_upc ?x] => destruct (s_upc x); simpl in *; try discriminate
  | |- context [s_hpc ?x] => destruct (s_hpc x); simpl in *; try discriminate
  | |- context [s_killed ?x] => destruct (s_killed x); simpl in *; try discriminate
  | |- context [s_accepted ?x] => destruct (s_accepted x); simpl in *; try discriminate
  | |- context [s_on_abort_calls ?x] => destruct (s_on_abort_calls x); simpl in *; try discriminate
  | |- context [last_accept ?x] => destruct (last_accept x); simpl in *; try discriminate
  | _ : context [ah_state ?x] |- _ => destruct (ah_state x); simpl in *; try discriminate
  | _ : context [s_upc ?x] |- _ => destruct (s_upc x); simpl in *; try discriminate
  | _ : context [s_hpc ?x] |- _ => destruct (s_hpc x); simpl in *; try discriminate
  | _ : context [s_killed ?x] |- _ => destruct (s_killed x); simpl in *; try discriminate
  | _ : context [s_accepted ?x] |- _ => destruct (s_accepted x); simpl in *; try discriminate
  | _ : context [s_on_abort_calls ?x] |- _ => destruct (s_on_abort_calls x); simpl in *; try discriminate
  end; rewrite ?andb_false_r in *; simpl in *; try done; try set_solver.

Lemma handler_step_inv s s' : session_inv s -> handler_step s s' -> session_inv s'.
Proof.
  intros Hi Hs. destruct Hs as [s r q Hp Hq|s r h' b Hp Hh|s Hp Hst|s Hp Hst|s b Hp|s b Hp|s b Hp
    |s b Hp|s b Hp].
  - solve_ctrl.
  - apply handle_request_spec in Hh as (_ & _ & [(-> & E & Ha)|[(-> & E & E')|(-> & E & E')]]).
    + unfold session_inv in *; simpl. rewrite E. rewrite Hp in Hi.
      destruct (last_accept h'); [|rewrite orb_false_r]; solve_ctrl.
      all: specialize (Ha eq_refl); set_solver.
    + unfold session_inv in *; simpl. rewrite E'. rewrite E, Hp in Hi. solve_ctrl.
    + unfold session_inv in *; simpl. rewrite E'. rewrite E, Hp in Hi. solve_ctrl.
  - solve_ctrl.
  - solve_ctrl.
  - solve_ctrl.
  - solve_ctrl.
  - solve_ctrl.
  - solve_ctrl.
  - destruct b; solve_ctrl.
Qed.

Lemma updater_step_inv s s' : session_inv s -> updater_step s s' -> session_inv s'.
Proof.
  intros Hi Hs. destruct Hs as [s h' r Hp Hl Hz|s h' r ok Hp Hl Hz|s h' r Hp Hl Hz|s Hp|s Hp Hl
    |s Hp|s Hp Hl|s Hp].
  - apply enter_critical_zone_spec in Hz as [(Hst & -> & E)|(Hst & -> & E)]; rewrite E.
    + solve_ctrl.
    + solve_ctrl.
  - apply exit_critical_zone_spec in Hz as [(Hst & -> & E)|[(Hst & -> & E)|(Hst & -> & E)]];
      rewrite E.
    + solve_ctrl.
    + solve_ctrl.
    + destruct ok; solve_ctrl.
     
  - apply enter_final_phase_spec in Hz as [(Hst & -> & E)|(Hst & -> & E)]; rewrite E.
    + solve_ctrl.
    + solve_ctrl.
  - set_unfold in Hp. destruct Hp as [Hp|[Hp|Hp]]; solve_ctrl.
  - unfold abort_in_progress. case_bool_decide; solve_ctrl.
  - solve_ctrl.
  - solve_ctrl.
  - solve_ctrl.
Qed.

Lemma main_step_inv s s' : session_inv s -> main_step s s' -> session_inv s'.
Proof.
  intros Hi Hs. destruct Hs; unfold session_inv in *; simpl; [done|].
  unfold get_response. by destruct (ah_resp_queue (s_h s)).
Qed.

Lemma session_reachable_inv s : session_reachable s -> session_inv s.
Proof.
  intros (s0 & H0%session_start_inv & Hs). induction Hs as [s|s0 s1 s2 Hs _ IH]; [done|].
  apply IH. destruct Hs as [Hs|[Hs|Hs]];
    eauto using handler_step_inv, updater_step_inv, main_step_inv.
Qed.

Create HintDb abort.
#[export] Hint Resolve session_reachable_inv : abort.
#[export] Hint Constructors handler_step updater_step main_step : abort.

(** From every action of [_perform_abort] the thread reaches the kill. *)
Definition abort_completes (s : system) : Prop :=
  exists s', rtc step s s' /\ s_killed s' = true /\
    (s_on_abort_calls s <= s_on_abort_calls s')%nat.

Lemma abort_completes_step s s' :
  step s s' -> (s_on_abort_calls s <= s_on_abort_calls s')%nat ->
  abort_completes s' -> abort_completes s.
Proof.
  intros Hs Hn (s2 & Hr & Hk & Hn'). exists s2. split_and!; [by eapply rtc_l|done|lia].
Qed.

Lemma kill_completes s b : s_hpc s = H_kill b -> abort_completes s.
Proof.
  intros H. exists (s <| s_killed := true |> <| s_hpc := if b then H_get else H_check |>).
  split_and!; [|done|done]. apply rtc_once. left. by constructor.
Qed.

Lemma set_aborted_completes s b : s_hpc s = H_set_aborted b -> abort_completes s.
Proof.
  intros H. eapply abort_completes_step; [left; by apply (hs_set_aborted _ b)|done|].
  by apply (kill_completes _ b).
Qed.

Lemma on_abort_completes s b : s_hpc s = H_on_abort b -> abort_completes s.
Proof.
  intros H. eapply abort_completes_step; [left; by apply (hs_on_abort _ b)|simpl; lia|].
  by apply (set_aborted_completes _ b).
Qed.

Lemma report_completes s b : s_hpc s = H_report b -> abort_completes s.
Proof.
  intros H. eapply abort_completes_step; [left; by apply (hs_report _ b)|done|].
  by apply (on_abort_completes _ b).
Qed.

Lemma aborting_completes s :
  session_inv s -> ah_state (s_h s) = AS_ABORTING -> s_hpc s <> H_dead -> abort_completes s.
Proof.
  intros Hi Hst Hd. unfold session_inv, ctrl_ok in Hi. rewrite Hst in Hi.
  destruct (s_hpc s) eqn:Hp; simpl in Hi; rewrite ?andb_false_r in Hi; try done.
  - eapply abort_completes_step; [left; by apply hs_check_abort|done|].
    by apply (report_completes _ true).
  - by eapply report_completes.
  - by eapply on_abort_completes.
  - by eapply set_aborted_completes.
Qed.

(** A queued abort runs when the updater leaves the zone. *)
Lemma requested_completes s :
  session_inv s -> ah_state (s_h s) = AS_REQUESTED -> abort_completes s.
Proof.
  intros Hi Hst. pose proof Hi as Hi'. unfold session_inv, ctrl_ok in Hi'. rewrite Hst in Hi'.
  destruct (s_hpc s) eqn:Hp; simpl in Hi'; rewrite ?andb_false_r in Hi'; try done.
  destruct (s_upc s) eqn:Hu; simpl in Hi'; try done.
  set (s1 := s <| s_h := (s_h s) <| ah_state := AS_ABORTING |> |> <| s_upc := U_unwind |>).
  assert (Hstep : updater_step s s1).
  { pose proof (us_exit_critical s) as Hx. rewrite Hp in Hx.
    unfold exit_critical_zone, mbind, pym_bind, get in Hx. rewrite Hst in Hx. simpl in Hx.
    by apply (Hx _ _ true Hu eq_refl eq_refl). }
  eapply abort_completes_step; [right; left; exact Hstep|done|].
  apply aborting_completes; [by eapply updater_step_inv|done|]. simpl. by rewrite Hp.
Qed.

(** Two reachable states of a session: an abort accepted at once, and one
    queued in the critical zone. *)
Definition example_system : system :=
  mkSystem new_AbortHandler INITIALIZED [] 0 false false H_get U_idle.

Definition example_request : AbortRequestV2 := mkAbortRequestV2 "r" "s".

Definition example_aborting : system :=
  mkSystem
    (mkAbortHandler AS_ABORTING "s" []
       [mkIPCResponse ACCEPT "s" "Abort accepted, aborting update immediately"])
    UPDATING [mkStatusReport (PStatusChange (status_change UPDATING)) "s"] 0 false true
    (H_report false) U_metadata.

Definition example_queued : system :=
  mkSystem
    (mkAbortHandler AS_REQUESTED "s" []
       [mkIPCResponse ACCEPT "s" "Abort queued, will proceed after critical zone exits"])
    UPDATING [mkStatusReport (PStatusChange (status_change UPDATING)) "s"] 0 false true
    H_check U_critical.

Lemma example_aborting_reachable : session_reachable example_aborting.
Proof.
  eexists. split; [exists example_system, "s"%string; split_and!; reflexivity|].
  eapply rtc_l; [right; right; apply (ms_submit _ example_request)|].
  eapply rtc_l; [left; apply (hs_get _ example_request []); reflexivity|].
  eapply rtc_l; [left; eapply hs_handle; reflexivity|apply rtc_refl].
Defined.

Lemma example_queued_reachable : session_reachable example_queued.
Proof.
  eexists. split; [exists example_system, "s"%string; split_and!; reflexivity|].
  eapply rtc_l; [right; left; eapply us_enter_critical; reflexivity|].
  eapply rtc_l; [right; right; apply (ms_submit _ example_request)|].
  eapply rtc_l; [left; apply (hs_get _ example_request []); reflexivity|].
  eapply rtc_l; [left; eapply hs_handle; reflexivity|apply rtc_refl].
Defined.

(** ** Properties *)

(** C4. Mutual exclusion: in a running session, while the abort is being
    performed (and once the process is signalled to exit), the updater is
    neither inside the critical zone nor in the final phase. *)
Theorem abort_never_in_protected_zone s :
  session_reachable s ->
  performing (s_hpc s) = true \/ s_killed s = true ->
  s_upc s ∉ [U_critical; U_final; U_rebooted].
Proof.
  intros Hi%session_reachable_inv Hp Hu. unfold session_inv, ctrl_ok in Hi.
  rewrite !elem_of_cons, elem_of_nil in Hu.
  destruct Hp as [Hp|Hp]; destruct Hu as [Hu|[Hu|[Hu|[]]]];
    rewrite Hu in Hi; simpl in Hi;
    destruct (ah_state (s_h s)), (s_hpc s), (s_killed s); simpl in *;
    rewrite ?andb_false_r in Hi; done.
Qed.

Lemma abort_never_in_protected_zone_witness :
  s_upc example_aborting ∉ [U_critical; U_final; U_rebooted].
Proof.
  apply abort_never_in_protected_zone; [apply example_aborting_reachable|by left].
Defined.

(** C16. An accepted abort is not lost: in a running session, once a request
    got [ACCEPT], the abort stays pending, and the updater never enters (or
    completes) the final phase. *)
Theorem accepted_abort_not_lost s :
  session_reachable s -> s_accepted s = true ->
  abort_pending (ah_state (s_h s)) = true /\ s_upc s <> U_final /\ s_upc s <> U_rebooted.
Proof.
  intros Hi%session_reachable_inv Ha. unfold session_inv, ctrl_ok in Hi. rewrite Ha in Hi.
  destruct (ah_state (s_h s)), (s_upc s); simpl in *; rewrite ?andb_false_r in Hi; done.
Qed.

Lemma accepted_abort_not_lost_witness :
  abort_pending (ah_state (s_h example_queued)) = true /\
  s_upc example_queued <> U_final /\ s_upc example_queued <> U_rebooted.
Proof. apply accepted_abort_not_lost; [apply example_queued_reachable|done]. Defined.

(** An accepted abort can always complete: from every reachable state of
    a session with an accepted abort whose handler thread is alive, the
    threads can run to the point where the boot controller recorded the
    abort and the process is signalled. *)
Theorem accepted_abort_completes s :
  session_reachable s -> s_accepted s = true -> s_hpc s <> H_dead ->
  exists s', rtc step s s' /\ s_killed s' = true /\ (0 < s_on_abort_calls s')%nat.
Proof.
  intros Hr Ha Hd. pose proof (session_reachable_inv s Hr) as Hi.
  assert (H : abort_completes s).
  { pose proof Hi as Hi'. unfold session_inv, ctrl_ok in Hi'. rewrite Ha in Hi'.
    destruct (ah_state (s_h s)) eqn:Hst; simpl in Hi'; rewrite ?andb_false_r in Hi'; try done.
    - by apply requested_completes.
    - by apply aborting_completes.
    - destruct (s_hpc s) eqn:Hp; [..|by eapply kill_completes|done].
      all: destruct (s_killed s) eqn:Hk; simpl in Hi'; rewrite ?andb_false_r in Hi'; try done.
      all: exists s; split_and!; [apply rtc_refl|done|done]. }
  destruct H as (s' & Hs & Hk & _). exists s'. split_and!; [done|done|].
  assert (Hi2 : session_inv s').
  { apply session_reachable_inv. destruct Hr as (s0 & H0 & Hs0). exists s0.
    split; [done|by etrans]. }
  unfold session_inv, ctrl_ok in Hi2. rewrite Hk in Hi2.
  destruct (s_on_abort_calls s'); [|lia]. simpl in Hi2. by rewrite andb_false_r in Hi2.
Qed.

Lemma accepted_abort_completes_witness :
  exists s', rtc step example_queued s' /\ s_killed s' = true /\ (0 < s_on_abort_calls s')%nat.
Proof. apply accepted_abort_completes; [apply example_queued_reachable|done|done]. Defined.

(** Every request gets exactly one response, addressed to its session,
    and the answer is the documented one: rejected unless an update is
    running, rejected in the final phase (state untouched), accepted and
    queued in the critical zone, accepted and started at once otherwise. *)
Theorem handle_request_response live r h :
  exists msg,
    ah_resp_queue (fst (handle_request live r h)) =
      ah_resp_queue h ++
      [mkIPCResponse
         (if bool_decide (live <> UPDATING) || is_final (ah_state h) then REJECT_ABORT else ACCEPT)
         (ar_session_id r) msg] /\
    ah_state (fst (handle_request live r h)) =
      (if bool_decide (live <> UPDATING) then ah_state h
       else match ah_state h with
            | AS_NONE => AS_ABORTING
            | AS_CRITICAL_ZONE => AS_REQUESTED
            | st => st
            end) /\
    snd (handle_request live r h) =
      bool_decide (live = UPDATING) && bool_decide (ah_state h = AS_NONE).
Proof.
  unfold handle_request.
  destruct (decide (live = UPDATING)) as [->|Hl].
  - rewrite (bool_decide_eq_true_2 (UPDATING = UPDATING)) by done.
    rewrite (bool_decide_eq_false_2 (UPDATING <> UPDATING)) by tauto.
    destruct (ah_state h) eqn:E; simpl; rewrite ?E; eexists; split_and!; done.
  - rewrite (bool_decide_eq_false_2 (live = UPDATING)) by done.
    rewrite (bool_decide_eq_true_2 (live <> UPDATING)) by done.
    simpl. eexists; split_and!; done.
Qed.

(** A queued abort blocks the handler thread: while an abort waits for
    the critical zone to end, the thread takes no step, so a further abort
    request stays in its queue unanswered (the request loop gives up after its
    timeout and rejects it) and the branch of [_handle] that would accept it
    as already in progress is not reached. *)
Theorem queued_abort_blocks_handler s :
  session_reachable s -> ah_state (s_h s) = AS_REQUESTED ->
  (forall s', ~ handler_step s s') /\
  (forall r, snd (get_response (submit r (s_h s))) = snd (get_response (s_h s))).
Proof.
  intros Hi%session_reachable_inv Hst. unfold session_inv, ctrl_ok in Hi. rewrite Hst in Hi.
  split; [|by intros r; unfold get_response; simpl; destruct (ah_resp_queue (s_h s))].
  intros s' Hs. destruct (s_hpc s) eqn:Hp; simpl in Hi; rewrite ?andb_false_r in Hi; try done.
  inversion Hs; subst; try congruence. rewrite Hst in *. set_solver.
Qed.

Lemma queued_abort_blocks_handler_witness :
  (forall s', ~ handler_step example_queued s').
Proof. apply queued_abort_blocks_handler; [apply example_queued_reachable|done]. Defined.

(** Leaving the running session breaks the exclusion: after an abort was
    accepted, a new session can start before the process is signalled (the
    live status is then [ABORTED], which does not count as busy), and the
    pending abort then terminates the process while the new session is
    inside its critical zone. *)
Theorem abort_kills_next_session :
  exists s0 s1 s2 s3,
    session_reachable s0 /\ s_accepted s0 = true /\ s_killed s0 = false /\
    restart_step s0 s1 /\ rtc step s1 s2 /\
    s_upc s2 = U_critical /\ handler_step s2 s3 /\
    s_killed s2 = false /\ s_killed s3 = true /\ s_upc s3 = U_critical.
Proof.
  do 4 eexists. split_and!.
  - eexists. split; [exists example_system, "s"%string; split_and!; reflexivity|].
    eapply rtc_l; [right; right; apply (ms_submit _ example_request)|].
    eapply rtc_l; [left; apply (hs_get _ example_request []); reflexivity|].
    eapply rtc_l; [left; eapply hs_handle; reflexivity|].
    eapply rtc_l; [right; left; eapply us_enter_critical; reflexivity|].
    eapply rtc_l; [right; left; eapply us_unwind; reflexivity|].
    apply rtc_once. left. eapply hs_report; reflexivity.
  - reflexivity.
  - reflexivity.
  - apply (rs_start _ "t"); [simpl; set_solver|reflexivity..].
  - eapply rtc_l; [right; left; eapply us_enter_critical; reflexivity|].
    eapply rtc_l; [left; eapply hs_on_abort; reflexivity|].
    apply rtc_once. left. eapply hs_set_aborted; reflexivity.
  - reflexivity.
  - eapply hs_kill; reflexivity.
  - reflexivity.
  - reflexivity.
  - reflexivity.
Qed.
