(* ===== verification/OTAStatusControl.v ===== *)
(** * OTA status files

    Models [src/src/otaclient/boot_control/_ota_status_control.py]: the status
    files each slot carries ([status], [slot_in_use], [version],
    [version_detail], [failure_info]), what is written to them around an
    update, and what the booted OTA status is when otaclient starts again.
    The files are read and written through [read_str_from_file],
    [write_str_to_file_atomic] and [remove_file] of
    [src/src/otaclient_common/_io.py].

    An atomic write replaces the file by a new one: the [st_ino] and the
    [st_mtime_ns] of the status file are those of its last write, taken from
    a counter, so two writes never have the same pair.  [json.dumps] and
    [json.loads] are inverse on the flat objects used here: a JSON file holds
    the object itself. *)

From stdpp Require Import base strings list option sets pretty.
From Stdlib Require Import ZArith String Lia.
From S2P Require Import Prelude Types.

(** ** The files of one slot *)

Inductive jval : Type :=
| JStr (s : string)
| JInt (n : Z).

(** The content of a JSON file: the object [json.loads] reads, or a text that
    is not a JSON object. *)
Inductive json_file (V : Type) : Type :=
| JsonObject (o : pydict V)
| NotAnObject (text : string).
Arguments JsonObject {V} o.
Arguments NotAnObject {V} text.

(** The part of [os.stat_result] the failure info binds to. *)
Record stat_result : Type := mkStat { st_ino : Z; st_mtime_ns : Z }.
Definition stat_of_write (n : Z) : stat_result := mkStat n n.

Record status_dir : Type := mkStatusDir {
  sd_exists : bool;
  sd_status : option string;
  sd_status_stat : stat_result;
  sd_slot_in_use : option string;
  sd_version : option string;
  sd_version_detail : option (json_file string);
  sd_failure_info : option (json_file jval);
}.

#[export] Instance eta_status_dir : Eta status_dir := fun r =>
  mkStatusDir (sd_exists r) (sd_status r) (sd_status_stat r) (sd_slot_in_use r)
    (sd_version r) (sd_version_detail r) (sd_failure_info r).

Definition absent_dir : status_dir := mkStatusDir false None (mkStat 0 0) None None None None.

(** The state of [OTAStatusFilesControl]: the directories of both slots, the
    stamp of the next write, and the live [_ota_status]. *)
Record control : Type := mkControl {
  active_slot : string;
  standby_slot : string;
  cur_dir : status_dir;
  stb_dir : status_dir;
  next_stamp : Z;
  booted_status : OTAStatus;
}.

#[export] Instance eta_control : Eta control := fun r =>
  mkControl (active_slot r) (standby_slot r) (cur_dir r) (stb_dir r) (next_stamp r)
    (booted_status r).

(** [read_str_from_file(f, _default="")] *)
Definition read_str_default (f : option string) : string :=
  match f with Some s => strip s | None => EmptyString end.

(** [write_str_to_file_atomic] on the status file. *)
Definition write_status (st : OTAStatus) (stamp : Z) (d : status_dir) : status_dir :=
  d <| sd_status := Some (OTAStatus_name st) |> <| sd_status_stat := stat_of_write stamp |>.

Definition store_current_status (st : OTAStatus) (c : control) : control :=
  c <| cur_dir := write_status st (next_stamp c) (cur_dir c) |>
    <| next_stamp := next_stamp c + 1 |>.

Definition store_standby_status (st : OTAStatus) (c : control) : control :=
  c <| stb_dir := write_status st (next_stamp c) (stb_dir c) |>
    <| next_stamp := next_stamp c + 1 |>.

Definition store_current_slot_in_use (slot : string) (c : control) : control :=
  c <| cur_dir := (cur_dir c) <| sd_slot_in_use := Some slot |> |>.

Definition store_standby_slot_in_use (slot : string) (c : control) : control :=
  c <| stb_dir := (stb_dir c) <| sd_slot_in_use := Some slot |> |>.

Definition load_current_slot_in_use (c : control) : option string :=
  let res := read_str_default (sd_slot_in_use (cur_dir c)) in
  if str_truthy res then Some res else None.

Definition load_current_status (c : control) : option OTAStatus :=
  let s := upper (read_str_default (sd_status (cur_dir c))) in
  if str_truthy s then OTAStatus_of_name s else None.

Definition store_standby_version (v : string) (c : control) : control :=
  c <| stb_dir := (stb_dir c) <| sd_version := Some v |> |>.

Definition store_standby_version_detail (d : VersionDetail) (c : control) : control :=
  c <| stb_dir := (stb_dir c) <| sd_version_detail := Some (JsonObject
         [("release_name", release_name d); ("release_id", release_id d);
          ("image_id", image_id d)]%string) |> |>.

Definition is_switching_boot (c : control) : bool :=
  let is_updating_or_rollbacking :=
    match load_current_status c with
    | Some UPDATING | Some ROLLBACKING => true
    | _ => false
    end in
  let is_switching_slot := bool_decide (load_current_slot_in_use c = Some (active_slot c)) in
  is_updating_or_rollbacking && is_switching_slot.

(** ** Start-up *)

(** What the injected [finalize_switching_boot] does: it returns a verdict,
    or the process ends in it because the platform reboots once more. *)
Inductive finalize_outcome : Type :=
| FinalizeOk
| FinalizeFailed
| FinalizeReboots.

Definition load_slot_in_use_file (force_initialize : bool) (c : control) : control :=
  match (if force_initialize then None else load_current_slot_in_use c) with
  | None => store_current_slot_in_use (active_slot c) c
  | Some _ => c
  end.

Definition failed_status (loaded : OTAStatus) : OTAStatus :=
  match loaded with ROLLBACKING => ROLLBACK_FAILURE | _ => FAILURE end.

Definition load_status_file (force_initialize dynamic_app : bool)
    (finalize : finalize_outcome) (c : control) : control :=
  match (if force_initialize then None else load_current_status c) with
  | None =>
      (store_current_status INITIALIZED c) <| booted_status := INITIALIZED |>
  | Some loaded =>
      if dynamic_app then c <| booted_status := SUCCESS |>
      else if bool_decide (loaded = ABORTED) then
        store_current_status INITIALIZED (c <| booted_status := ABORTED |>)
      else if negb (bool_decide (loaded ∈ [UPDATING; ROLLBACKING])) then
        c <| booted_status := loaded |>
      else
        let c := c <| booted_status := loaded |> in
        if is_switching_boot c then
          match finalize with
          | FinalizeOk => store_current_status SUCCESS (c <| booted_status := SUCCESS |>)
          | FinalizeFailed =>
              store_current_status (failed_status loaded)
                (c <| booted_status := failed_status loaded |>)
          | FinalizeReboots => c
          end
        else
          store_current_status (failed_status loaded)
            (c <| booted_status := failed_status loaded |>)
  end.

(** [OTAStatusFilesControl.__init__] *)
Definition init_control (force_initialize dynamic_app : bool) (finalize : finalize_outcome)
    (active standby : string) (cur stb : status_dir) (stamp : Z) : control :=
  let c := mkControl active standby (cur <| sd_exists := true |>) stb stamp INITIALIZED in
  load_status_file force_initialize dynamic_app finalize
    (load_slot_in_use_file force_initialize c).

(** The start-up asks the platform to finalize only for a slot that is
    switching boot. *)
Definition calls_finalize (force_initialize dynamic_app : bool) (c : control) : bool :=
  match (if force_initialize then None else load_current_status c) with
  | None => false
  | Some loaded =>
      negb dynamic_app && bool_decide (loaded ∈ [UPDATING; ROLLBACKING]) && is_switching_boot c
  end.

(** [OTAStatusFilesControl.__init__] with the platform's
    [finalize_switching_boot]; when that raises, the exception leaves the
    files as a reboot in the middle would. *)
Definition init_control_run {S E} (force_initialize dynamic_app : bool) (finalize : PyM S E bool) :
    PyM (control * S) E unit := fun '(c, s) =>
  let start fin := init_control force_initialize dynamic_app fin (active_slot c) (standby_slot c)
                     (cur_dir c) (stb_dir c) (next_stamp c) in
  let c1 := load_slot_in_use_file force_initialize (c <| cur_dir := (cur_dir c) <| sd_exists := true |> |>) in
  if calls_finalize force_initialize dynamic_app c1 then
    match finalize s with
    | (s', Ok true) => (start FinalizeOk, s', Ok tt)
    | (s', Ok false) => (start FinalizeFailed, s', Ok tt)
    | (s', Raise e) => (start FinalizeReboots, s', Raise e)
    end
  else (start FinalizeOk, s, Ok tt).

(** ** The operations around an update *)

Definition remove_failure_info (d : status_dir) : status_dir := d <| sd_failure_info := None |>.

Definition pre_update_current (c : control) : control :=
  let c := store_current_status FAILURE c in
  let c := store_current_slot_in_use (standby_slot c) c in
  c <| cur_dir := remove_failure_info (cur_dir c) |>.

Definition post_update_standby (version : string) (detail : option VersionDetail)
    (c : control) : control :=
  let c := c <| stb_dir := (stb_dir c) <| sd_exists := true |> |> in
  let c := store_standby_status UPDATING c in
  let c := store_standby_version version c in
  let c := match detail with
           | Some d => store_standby_version_detail d c
           | None => c
           end in
  let c := store_standby_slot_in_use (standby_slot c) c in
  c <| stb_dir := remove_failure_info (stb_dir c) |>.

Definition pre_rollback_current (c : control) : control := store_current_status FAILURE c.

Definition post_rollback_standby (c : control) : control :=
  store_standby_status ROLLBACKING
    (c <| stb_dir := (stb_dir c) <| sd_exists := true |> |>).

Definition MAX_VERSION_STRING_LEN : nat := 2048.
Definition DEFAULT_VERSION_STR : string := EmptyString.

Definition load_version_from (d : status_dir) : string :=
  match sd_version d with
  | Some v => str_take MAX_VERSION_STRING_LEN (strip v)
  | None => DEFAULT_VERSION_STR
  end.

Definition load_active_slot_version (c : control) : string := load_version_from (cur_dir c).
Definition load_standby_slot_version (c : control) : string := load_version_from (stb_dir c).

(** [_data.get(k, "")] *)
Definition json_get_str (k : string) (o : pydict string) : string :=
  default EmptyString (dict_get k o).

Definition load_version_detail_from_dir (d : status_dir) : option VersionDetail :=
  match sd_version_detail d with
  | Some (JsonObject o) =>
      Some (mkVersionDetail (json_get_str "release_name" o) (json_get_str "release_id" o)
              (json_get_str "image_id" o))
  | _ => None
  end.

Definition on_failure (c : control) : control :=
  let c := store_current_status FAILURE c in
  if sd_exists (stb_dir c) then store_standby_status FAILURE c else c.

Definition on_abort (c : control) : control := store_current_status ABORTED c.

(** ** Failure info *)

Definition store_failure_info (ft : FailureType) (reason : string) (c : control) : control :=
  let c := store_current_status FAILURE c in
  let status_stat := sd_status_stat (cur_dir c) in
  c <| cur_dir := (cur_dir c) <| sd_failure_info := Some (JsonObject
         [("failure_type", JStr (FailureType_value ft)); ("failure_reason", JStr reason);
          ("status_ino", JInt (st_ino status_stat));
          ("status_mtime_ns", JInt (st_mtime_ns status_stat))]%string) |> |>.

(** [_data[k] != n]; [None] is the [KeyError]. *)
Definition json_differs (k : string) (n : Z) (o : pydict jval) : option bool :=
  v ← dict_get k o; Some (match v with JInt m => negb (m =? n) | JStr _ => true end).

(** [str(v)] *)
Definition str_of_jval (v : jval) : string :=
  match v with JStr s => s | JInt n => pretty n end.

Definition load_booted_failure_info (c : control) : option (FailureType * string) :=
  if negb (bool_decide (booted_status c ∈ [FAILURE; ROLLBACK_FAILURE])) then None
  else
    match sd_failure_info (cur_dir c), sd_status (cur_dir c) with
    | Some (JsonObject o), Some _ =>
        let stat := sd_status_stat (cur_dir c) in
        ino_differs ← json_differs "status_ino" (st_ino stat) o;
        if (ino_differs : bool) then None
        else
          mtime_differs ← json_differs "status_mtime_ns" (st_mtime_ns stat) o;
          if (mtime_differs : bool) then None
          else
            ft ← dict_get "failure_type" o;
            ft ← match ft with JStr v => FailureType_of_value v | JInt _ => None end;
            reason ← dict_get "failure_reason" o;
            Some (ft, str_of_jval reason)
    | _, _ => None
    end.

(** ** Lemmas *)

Lemma strip_status_name st : strip (OTAStatus_name st) = OTAStatus_name st.
Proof. by destruct st. Qed.

Lemma load_store_current_status st c : load_current_status (store_current_status st c) = Some st.
Proof. by destruct st. Qed.

(** The booted status only depends on the current slot's own files. *)
Lemma load_current_status_dir c c' :
  sd_status (cur_dir c) = sd_status (cur_dir c') -> load_current_status c = load_current_status c'.
Proof. unfold load_current_status. by intros ->. Qed.

Lemma load_slot_in_use_file_status fi c :
  load_current_status (load_slot_in_use_file fi c) = load_current_status c /\
  sd_status_stat (cur_dir (load_slot_in_use_file fi c)) = sd_status_stat (cur_dir c) /\
  sd_failure_info (cur_dir (load_slot_in_use_file fi c)) = sd_failure_info (cur_dir c) /\
  sd_version (cur_dir (load_slot_in_use_file fi c)) = sd_version (cur_dir c) /\
  sd_version_detail (cur_dir (load_slot_in_use_file fi c)) = sd_version_detail (cur_dir c) /\
  sd_status (cur_dir (load_slot_in_use_file fi c)) = sd_status (cur_dir c).
Proof. unfold load_slot_in_use_file. by destruct fi, (load_current_slot_in_use c). Qed.

(** Without a call of [finalize], its outcome does not matter. *)
Lemma init_control_no_finalize force dyn fin fin' a b cur stb n :
  calls_finalize force dyn
    (load_slot_in_use_file force (mkControl a b (cur <| sd_exists := true |>) stb n INITIALIZED)) = false ->
  init_control force dyn fin a b cur stb n = init_control force dyn fin' a b cur stb n.
Proof.
  unfold init_control, load_status_file, calls_finalize.
  set (c := load_slot_in_use_file _ _). destruct (if force then None else _) as [loaded|]; [|done].
  destruct dyn; [done|]. cbn [negb andb].
  destruct (bool_decide (loaded = ABORTED)); [done|].
  destruct (bool_decide (loaded ∈ _)); [|done]. cbn [negb andb].
  change (is_switching_boot (c <| booted_status := loaded |>)) with (is_switching_boot c).
  by intros ->.
Qed.

(** A start-up that finds a settled status keeps it, and its file. *)
Definition settled (st : OTAStatus) : bool :=
  bool_decide (st ∉ [UPDATING; ROLLBACKING; ABORTED]).

Lemma boot_settled fin a b cur stb n st :
  load_current_status (mkControl a b cur stb n INITIALIZED) = Some st -> settled st = true ->
  let c := init_control false false fin a b cur stb n in
  booted_status c = st /\ sd_status (cur_dir c) = sd_status cur /\
  sd_status_stat (cur_dir c) = sd_status_stat cur /\
  sd_failure_info (cur_dir c) = sd_failure_info cur.
Proof.
  intros Hl Hst%bool_decide_eq_true. cbv zeta. unfold init_control, load_status_file.
  set (c0 := mkControl a b (cur <| sd_exists := true |>) stb n INITIALIZED).
  destruct (load_slot_in_use_file_status false c0) as (E1 & E2 & E3 & _ & _ & E6).
  rewrite E1. change (load_current_status c0) with
    (load_current_status (mkControl a b cur stb n INITIALIZED)). rewrite Hl.
  rewrite bool_decide_eq_false_2 by set_solver.
  rewrite bool_decide_eq_false_2 by set_solver. simpl. by rewrite E2, E3, E6.
Qed.

(** A start-up on [ABORTED] reports it and leaves [INITIALIZED]. *)
Lemma boot_aborted fin a b cur stb n :
  load_current_status (mkControl a b cur stb n INITIALIZED) = Some ABORTED ->
  let c := init_control false false fin a b cur stb n in
  booted_status c = ABORTED /\ load_current_status c = Some INITIALIZED.
Proof.
  intros Hl. cbv zeta. unfold init_control, load_status_file.
  set (c0 := mkControl a b (cur <| sd_exists := true |>) stb n INITIALIZED).
  destruct (load_slot_in_use_file_status false c0) as (E1 & _). rewrite E1.
  change (load_current_status c0) with
    (load_current_status (mkControl a b cur stb n INITIALIZED)). rewrite Hl.
  rewrite bool_decide_eq_true_2 by done. by rewrite load_store_current_status.
Qed.

(** A start-up on a status of an unfinished switch decides by the slot and by
    the platform's finalization. *)
Lemma boot_switching fin a b cur stb n st :
  load_current_status (mkControl a b cur stb n INITIALIZED) = Some st ->
  st ∈ [UPDATING; ROLLBACKING] ->
  sd_slot_in_use cur = Some a -> strip a = a -> str_truthy a = true ->
  init_control false false fin a b cur stb n =
  let c := mkControl a b (cur <| sd_exists := true |>) stb n st in
  match fin with
  | FinalizeOk => store_current_status SUCCESS (c <| booted_status := SUCCESS |>)
  | FinalizeFailed =>
      store_current_status (failed_status st) (c <| booted_status := failed_status st |>)
  | FinalizeReboots => c
  end.
Proof.
  intros Hl Hst Hs Ha Ht. unfold init_control.
  set (c0 := mkControl a b (cur <| sd_exists := true |>) stb n INITIALIZED).
  assert (Hu : load_current_slot_in_use c0 = Some a).
  { unfold load_current_slot_in_use, c0; simpl. by rewrite Hs; simpl; rewrite Ha, Ht. }
  assert (Hload : load_current_status c0 = Some st) by exact Hl.
  unfold load_slot_in_use_file. rewrite Hu. unfold load_status_file. rewrite Hload.
  rewrite bool_decide_eq_false_2 by set_solver.
  rewrite (bool_decide_eq_true_2 (st ∈ _)) by done. cbn [negb]. cbv zeta.
  assert (Hsw : is_switching_boot (c0 <| booted_status := st |>) = true).
  { unfold is_switching_boot.
    change (load_current_status (c0 <| booted_status := st |>)) with (load_current_status c0).
    change (load_current_slot_in_use (c0 <| booted_status := st |>)) with
      (load_current_slot_in_use c0).
    rewrite Hload, Hu. rewrite bool_decide_eq_true_2 by done.
    rewrite !elem_of_cons, elem_of_nil in Hst. by destruct Hst as [-> | [-> | []]]. }
  rewrite Hsw. by destruct fin.
Qed.

Lemma boot_not_switching fin a b cur stb n st :
  load_current_status (mkControl a b cur stb n INITIALIZED) = Some st ->
  st ∈ [UPDATING; ROLLBACKING] ->
  (exists s, load_current_slot_in_use (mkControl a b cur stb n INITIALIZED) = Some s /\ s <> a) ->
  booted_status (init_control false false fin a b cur stb n) = failed_status st.
Proof.
  intros Hl Hst (s & Hs & Hne). unfold init_control.
  set (c0 := mkControl a b (cur <| sd_exists := true |>) stb n INITIALIZED).
  assert (Hu : load_current_slot_in_use c0 = Some s) by exact Hs.
  assert (Hload : load_current_status c0 = Some st) by exact Hl.
  unfold load_slot_in_use_file. rewrite Hu. unfold load_status_file. rewrite Hload.
  rewrite bool_decide_eq_false_2 by set_solver.
  rewrite (bool_decide_eq_true_2 (st ∈ _)) by done. cbn [negb]. cbv zeta.
  assert (Hsw : is_switching_boot (c0 <| booted_status := st |>) = false).
  { unfold is_switching_boot.
    change (load_current_slot_in_use (c0 <| booted_status := st |>)) with
      (load_current_slot_in_use c0).
    rewrite Hu. rewrite (bool_decide_eq_false_2 (Some s = _)) by (simpl; congruence).
    by rewrite andb_false_r. }
  by rewrite Hsw.
Qed.

(** The status a boot leaves for the next boot. *)
Definition next_boot_status (st : OTAStatus) : OTAStatus :=
  match st with ABORTED => INITIALIZED | st => st end.

Lemma load_status_of_dir a b cur stb n st s0 :
  sd_status cur = Some (OTAStatus_name st) ->
  load_current_status (mkControl a b cur stb n s0) = Some st.
Proof.
  intros H. unfold load_current_status; simpl. rewrite H; simpl.
  by rewrite strip_status_name, OTAStatus_name_upper, OTAStatus_name_truthy, OTAStatus_name_of.
Qed.

(** What a boot that is not cut short by a reboot leaves in the status file. *)
Lemma boot_leaves fin a b cur stb n :
  fin <> FinalizeReboots ->
  let c := init_control false false fin a b cur stb n in
  load_current_status c = Some (next_boot_status (booted_status c)) /\
  booted_status c ∉ [UPDATING; ROLLBACKING].
Proof.
  intros Hfin. cbv zeta. unfold init_control.
  set (c1 := load_slot_in_use_file false _). unfold load_status_file.
  destruct (load_current_status c1) as [st|] eqn:El.
  2: { split; [done|]. simpl. set_solver. }
  case_bool_decide; [split; [done|simpl; set_solver]|].
  destruct (bool_decide (st ∈ [UPDATING; ROLLBACKING])) eqn:E; cbn [negb]; cbv zeta.
  - apply bool_decide_eq_true in E.
    assert (failed_status st ∈ [FAILURE; ROLLBACK_FAILURE]) as Hf.
    { destruct st; simpl; set_solver. }
    destruct (is_switching_boot _); [destruct fin; [| |done]|];
      rewrite load_store_current_status; simpl; (split; [|set_solver]);
      destruct st; simpl; done.
  - apply bool_decide_eq_false in E. simpl. split; [|done].
    rewrite <- (load_current_status_dir c1) by done. rewrite El. f_equal.
    destruct st; simpl; done.
Qed.

(** ** Properties *)

Definition names_slot (a : string) : Prop := strip a = a /\ str_truthy a = true.

(** A complete update succeeds: from any running slot, whatever happened
    to the standby slot in between, after [pre_update_current] and
    [post_update_standby] the first boot into the other slot whose
    finalization succeeds reports [SUCCESS] with the new version and version
    detail, and every later boot of that slot reports [SUCCESS] too. *)
Theorem update_then_boot_succeeds c stb version detail :
  names_slot (standby_slot c) ->
  let c1 := post_update_standby version (Some detail)
              (pre_update_current c <| stb_dir := stb |>) in
  let c2 := init_control false false FinalizeOk (standby_slot c) (active_slot c)
              (stb_dir c1) (cur_dir c1) (next_stamp c1) in
  booted_status c2 = SUCCESS /\
  load_active_slot_version c2 = str_take MAX_VERSION_STRING_LEN (strip version) /\
  load_version_detail_from_dir (cur_dir c2) = Some detail /\
  forall fin, booted_status (init_control false false fin (standby_slot c) (active_slot c)
              (cur_dir c2) (stb_dir c2) (next_stamp c2)) = SUCCESS.
Proof.
  intros [Hs Ht]. cbv zeta.
  set (c1 := post_update_standby version (Some detail) _).
  rewrite (boot_switching FinalizeOk _ _ (stb_dir c1) _ _ UPDATING); cbv zeta;
    [|by apply load_status_of_dir|set_solver|done..].
  split_and!; [done|done|by destruct detail|]. intros fin.
  eapply boot_settled; [by apply load_status_of_dir|done].
Qed.

Definition example_control : control :=
  mkControl "sda2" "sda3" (mkStatusDir true (Some "SUCCESS"%string) (mkStat 1 1)
    (Some "sda2"%string) (Some "1.0"%string) None None) absent_dir 2 SUCCESS.

Lemma update_then_boot_succeeds_witness :
  let c1 := post_update_standby "2.0" (Some (mkVersionDetail "r" "i" "m"))
              (pre_update_current example_control <| stb_dir := absent_dir |>) in
  let c2 := init_control false false FinalizeOk "sda3" "sda2"
              (stb_dir c1) (cur_dir c1) (next_stamp c1) in
  booted_status c2 = SUCCESS /\ load_active_slot_version c2 = "2.0"%string.
Proof.
  cbv zeta.
  destruct (update_then_boot_succeeds example_control absent_dir "2.0"
    (mkVersionDetail "r" "i" "m") (conj eq_refl eq_refl)) as (H1 & H2 & _).
  split; [exact H1|exact H2].
Defined.

(** An update that does not switch is a failure: once the update began,
    a boot that comes back to the old slot reports [FAILURE], whether the
    update was complete or interrupted at any point after the start. *)
Theorem interrupted_update_boots_failure c c' fin :
  cur_dir c' = cur_dir (pre_update_current c) ->
  booted_status (init_control false false fin (active_slot c) (standby_slot c)
    (cur_dir c') (stb_dir c') (next_stamp c')) = FAILURE.
Proof.
  intros Hc. rewrite Hc.
  eapply boot_settled; [by apply load_status_of_dir|done].
Qed.

Lemma interrupted_update_boots_failure_witness :
  booted_status (init_control false false FinalizeOk "sda2" "sda3"
    (cur_dir (post_update_standby "2.0" None (pre_update_current example_control)))
    (stb_dir (post_update_standby "2.0" None (pre_update_current example_control)))
    (next_stamp (post_update_standby "2.0" None (pre_update_current example_control)))) = FAILURE.
Proof. by apply (interrupted_update_boots_failure example_control). Defined.

(** A first boot into the new slot whose finalization fails is reported
    as [FAILURE] by that boot and by every later one. *)
Theorem failed_finalization_boots_failure c stb version detail fin :
  names_slot (standby_slot c) ->
  let c1 := post_update_standby version detail (pre_update_current c <| stb_dir := stb |>) in
  let c2 := init_control false false FinalizeFailed (standby_slot c) (active_slot c)
              (stb_dir c1) (cur_dir c1) (next_stamp c1) in
  booted_status c2 = FAILURE /\
  booted_status (init_control false false fin (standby_slot c) (active_slot c)
              (cur_dir c2) (stb_dir c2) (next_stamp c2)) = FAILURE.
Proof.
  intros [Hs Ht]. cbv zeta.
  set (c1 := post_update_standby version detail _).
  rewrite (boot_switching FinalizeFailed _ _ (stb_dir c1) _ _ UPDATING); cbv zeta;
    [|by apply load_status_of_dir; destruct detail|set_solver|by destruct detail|done..].
  split; [done|]. eapply boot_settled; [by apply load_status_of_dir|done].
Qed.

Lemma failed_finalization_boots_failure_witness :
  let c1 := post_update_standby "2.0" None (pre_update_current example_control <| stb_dir := absent_dir |>) in
  booted_status (init_control false false FinalizeFailed "sda3" "sda2"
              (stb_dir c1) (cur_dir c1) (next_stamp c1)) = FAILURE.
Proof.
  cbv zeta.
  exact (proj1 (failed_finalization_boots_failure example_control absent_dir "2.0" None
    FinalizeOk (conj eq_refl eq_refl))).
Defined.

(** The booted status is stable: for any files whatsoever, a second boot
    of the same slot reports what the first one reported, except that an
    [ABORTED] is reported once and [INITIALIZED] afterwards. *)
Theorem reboot_status_stable fin fin' a b cur stb n :
  fin <> FinalizeReboots ->
  let c1 := init_control false false fin a b cur stb n in
  let c2 := init_control false false fin' a b (cur_dir c1) (stb_dir c1) (next_stamp c1) in
  booted_status c2 = next_boot_status (booted_status c1).
Proof.
  intros Hfin. cbv zeta. destruct (boot_leaves fin a b cur stb n Hfin) as [Hl Hn].
  set (c1 := init_control false false fin a b cur stb n) in *.
  eapply boot_settled.
  - rewrite <- Hl. by apply load_current_status_dir.
  - apply bool_decide_eq_true. destruct (booted_status c1); simpl; set_solver.
Qed.

Lemma reboot_status_stable_witness :
  let c1 := init_control false false FinalizeOk "a" "b"
              (absent_dir <| sd_status := Some "aborted "%string |>) absent_dir 5 in
  booted_status c1 = ABORTED /\
  booted_status (init_control false false FinalizeOk "a" "b" (cur_dir c1) (stb_dir c1)
    (next_stamp c1)) = INITIALIZED.
Proof.
  cbv zeta. split; [by vm_compute|].
  by rewrite (reboot_status_stable FinalizeOk FinalizeOk "a" "b"
    (absent_dir <| sd_status := Some "aborted "%string |>) absent_dir 5).
Defined.

(** What [store_failure_info] persisted is what a boot of the slot restores. *)
Lemma failure_info_survives_boot c ft reason fin a b stb n :
  let c1 := store_failure_info ft reason c in
  booted_status (init_control false false fin a b (cur_dir c1) stb n) = FAILURE /\
  load_booted_failure_info (init_control false false fin a b (cur_dir c1) stb n) = Some (ft, reason).
Proof.
  cbv zeta. set (c1 := store_failure_info ft reason c).
  destruct (boot_settled fin a b (cur_dir c1) stb n FAILURE) as (Hb & Hs & Hst & Hf);
    [by apply load_status_of_dir|done|]. split; [done|].
  unfold load_booted_failure_info. rewrite Hb, Hs, Hst, Hf. simpl.
  rewrite Z.eqb_refl. cbn [negb mbind option_bind]. simpl.
  by destruct ft.
Qed.

(** Failure information round trip: what [store_failure_info] persisted
    is what the next boot of the slot restores. *)
Theorem failure_info_roundtrip c ft reason fin :
  let c1 := store_failure_info ft reason c in
  let c2 := init_control false false fin (active_slot c) (standby_slot c)
              (cur_dir c1) (stb_dir c1) (next_stamp c1) in
  load_booted_failure_info c2 = Some (ft, reason).
Proof. apply failure_info_survives_boot. Qed.

(** Stale failure information is ignored: if the status file was written
    again after [store_failure_info] (by anything that keeps the counter of
    writes growing), the next boot restores nothing. *)
Theorem stale_failure_info_ignored c ft reason cur' n fin :
  next_stamp c + 1 <= st_ino (sd_status_stat cur') ->
  sd_failure_info cur' = sd_failure_info (cur_dir (store_failure_info ft reason c)) ->
  st_ino (sd_status_stat cur') <= n ->
  load_booted_failure_info (init_control false false fin (active_slot c) (standby_slot c)
    cur' (stb_dir c) n) = None.
Proof.
  intros Hlt Hf Hn. unfold init_control.
  set (c1 := load_slot_in_use_file false _).
  destruct (load_slot_in_use_file_status false
    (mkControl (active_slot c) (standby_slot c) (cur' <| sd_exists := true |>) (stb_dir c) n
       INITIALIZED)) as (_ & E2 & E3 & _). fold c1 in E2, E3. simpl in E2, E3.
  assert (Hns : next_stamp c1 = n).
  { unfold c1, load_slot_in_use_file. by case_match. }
  assert (Hkeep : forall st c2, c2 = c1 \/ c2 = c1 <| booted_status := st |> \/
      (exists s, c2 = store_current_status s c1 <| booted_status := st |>) ->
      sd_failure_info (cur_dir c2) = sd_failure_info cur' /\
      next_stamp c + 1 <= st_ino (sd_status_stat (cur_dir c2))).
  { intros st c2 [->|[->|[s ->]]]; simpl; rewrite ?E2, ?E3, ?Hns; split; done || lia. }
  assert (Hstale : forall c2, sd_failure_info (cur_dir c2) = sd_failure_info cur' ->
      next_stamp c + 1 <= st_ino (sd_status_stat (cur_dir c2)) ->
      load_booted_failure_info c2 = None).
  { intros c2 Hf2 Hge. unfold load_booted_failure_info.
    destruct (bool_decide _); [|done]. cbn [negb]. rewrite Hf2, Hf. simpl.
    destruct (sd_status (cur_dir c2)); [|done].
    rewrite (proj2 (Z.eqb_neq (next_stamp c) _)) by lia. done. }
  unfold load_status_file. cbv zeta.
  repeat case_match; eapply Hstale;
    (eapply Hkeep; first [by left | by right; left | by right; right; eexists]).
Qed.

Lemma stale_failure_info_ignored_witness :
  load_booted_failure_info (init_control false false FinalizeOk "sda2" "sda3"
    (write_status FAILURE 3 (cur_dir (store_failure_info RECOVERABLE "net" example_control)))
    absent_dir 4) = None.
Proof.
  apply (stale_failure_info_ignored example_control RECOVERABLE "net"); [simpl; lia|done|simpl; lia].
Defined.

(** The rollback operations cannot complete after an update: the slot
    that an update left records the other slot as the one in use, so a boot
    back into it after [post_rollback_standby] is always reported as
    [ROLLBACK_FAILURE], whatever the finalization would say. *)
Theorem rollback_after_update_fails c1 c fin :
  names_slot (standby_slot c1) -> standby_slot c1 <> active_slot c1 ->
  active_slot c = standby_slot c1 -> standby_slot c = active_slot c1 ->
  stb_dir c = cur_dir (pre_update_current c1) ->
  let c2 := post_rollback_standby (pre_rollback_current c) in
  booted_status (init_control false false fin (standby_slot c) (active_slot c)
    (stb_dir c2) (cur_dir c2) (next_stamp c2)) = ROLLBACK_FAILURE.
Proof.
  intros [Hs Ht] Hne Ha Hb Hd. cbv zeta.
  rewrite (boot_not_switching fin _ _ _ _ _ ROLLBACKING); [done|by apply load_status_of_dir|set_solver|].
  exists (standby_slot c1). split; [|congruence].
  unfold load_current_slot_in_use, post_rollback_standby, pre_rollback_current. simpl.
  rewrite Hd. simpl. by rewrite Hs, Ht.
Qed.

Lemma rollback_after_update_fails_witness :
  let c := mkControl "sda3" "sda2" absent_dir (cur_dir (pre_update_current example_control)) 9 SUCCESS in
  let c2 := post_rollback_standby (pre_rollback_current c) in
  booted_status (init_control false false FinalizeOk "sda2" "sda3"
    (stb_dir c2) (cur_dir c2) (next_stamp c2)) = ROLLBACK_FAILURE.
Proof.
  cbv zeta.
  exact (rollback_after_update_fails example_control
    (mkControl "sda3" "sda2" absent_dir (cur_dir (pre_update_current example_control)) 9 SUCCESS)
    FinalizeOk (conj eq_refl eq_refl) ltac:(discriminate) eq_refl eq_refl eq_refl).
Defined.
