(* ===== verification/ECUStatus.v ===== *)
(** * The ECU status storage

    Models [src/src/otaclient/grpc/api_v2/ecu_status.py] (the status of all
    the ECUs an ECU knows of, the overall report derived from it and the
    export to the status API), the status summaries of
    [src/src/otaclient_api/v2/_types.py], and the conversion of the local
    status in [src/src/otaclient/grpc/api_v2/_types.py].

    [int(time.time())] is an argument of the operations.  The numeric values
    of the protobuf enum [UpdatePhase] come from the [otaclient_pb2] package,
    which is not in the repository: they are the parameter [phase_value]. *)

From stdpp Require Import base gmap strings list option sets fin_sets.
From Stdlib Require Import ZArith String Lia.
From S2P Require Import Prelude Types.

(** [Duration(seconds=n)] *)
Abbreviation duration := Z (only parsing).

(** ** API messages *)

Record UpdateStatus : Type := mkUpdateStatus {
  us_phase : UpdatePhase;
  us_update_firmware_version : string;
  us_total_files_size_uncompressed : Z;
  us_total_files_num : Z;
  us_update_start_timestamp : Z;
  us_total_download_files_num : Z;
  us_total_download_files_size : Z;
  us_downloaded_files_num : Z;
  us_downloaded_bytes : Z;
  us_downloaded_files_size : Z;
  us_downloading_errors : Z;
  us_processed_files_num : Z;
  us_processed_files_size : Z;
  us_total_elapsed_time : duration;
  us_delta_generating_elapsed_time : duration;
  us_downloading_elapsed_time : duration;
  us_update_applying_elapsed_time : duration;
}.

Record StatusResponseEcuV2 : Type := mkStatusResponseEcuV2 {
  ecu_id : string;
  ecu_firmware_version : string;
  ecu_otaclient_version : string;
  ecu_ota_status : OTAStatus;
  ecu_failure_type : FailureType;
  ecu_failure_reason : string;
  ecu_update_status : option UpdateStatus;   (** [None]: the message's default *)
  ecu_release_name : string;
  ecu_release_id : string;
  ecu_image_id : string;
}.

Definition is_in_update (s : StatusResponseEcuV2) : bool :=
  bool_decide (ecu_ota_status s = UPDATING).
Definition is_in_client_update (s : StatusResponseEcuV2) : bool :=
  bool_decide (ecu_ota_status s = CLIENT_UPDATING).
Definition is_aborting (s : StatusResponseEcuV2) : bool :=
  bool_decide (ecu_ota_status s = ABORTING).
Definition is_failed (s : StatusResponseEcuV2) : bool :=
  bool_decide (ecu_ota_status s = FAILURE).
Definition is_success (s : StatusResponseEcuV2) : bool :=
  bool_decide (ecu_ota_status s = SUCCESS).

(** The phase of a message whose update status is unset is the enum's
    default, [INITIALIZING]. *)
Definition phase_of (s : StatusResponseEcuV2) : UpdatePhase :=
  match ecu_update_status s with Some u => us_phase u | None => PHASE_INITIALIZING end.

Definition requires_network (phase_value : UpdatePhase -> Z) (s : StatusResponseEcuV2) : bool :=
  bool_decide (ecu_ota_status s = UPDATING)
  && (phase_value (phase_of s) <=? phase_value DOWNLOADING_OTA_FILES).

Record StatusResponse : Type := mkStatusResponse {
  resp_available_ecu_ids : list string;
  resp_ecu_v2 : list StatusResponseEcuV2;
}.

(** ** Conversion of the local status *)

(** [x or float("inf")]: [None] is infinity. *)
Definition or_inf (t : Z) : option Z := if t =? 0 then None else Some t.

(** [int(max(min(now, until) - since, 0))] *)
Definition elapsed (now : Z) (until since : option Z) : Z :=
  match since with
  | None => 0
  | Some s => Z.max (match until with Some u => Z.min now u | None => now end - s) 0
  end.

(** [_calculate_elapsed_time], as the three durations it assigns. *)
Definition calculate_elapsed_time (now : Z) (t : UpdateTiming) : duration * duration * duration :=
  let delta := or_inf (delta_generate_start_timestamp t) in
  let download := or_inf (download_start_timestamp t) in
  let apply := or_inf (update_apply_start_timestamp t) in
  let post := or_inf (post_update_start_timestamp t) in
  (elapsed now download delta, elapsed now apply download, elapsed now post apply).

Definition convert_to_apiv2_status (my_ecu_id otaclient_version : string) (now : Z)
    (st : OTAClientStatus) : StatusResponseEcuV2 :=
  let detail := default (mkVersionDetail "" "" "") (version_detail st) in
  let base update :=
    mkStatusResponseEcuV2 my_ecu_id (firmware_version st) otaclient_version (ota_status st)
      (failure_type st) (failure_reason st) update
      (release_name detail) (release_id detail) (image_id detail) in
  match ota_status st, update_meta st, update_progress st, update_timing st with
  | UPDATING, Some m, Some p, Some t =>
      let started := update_start_timestamp t in
      let total := if started <=? 0 then 0 else now - started in
      let '(d_delta, d_download, d_apply) := calculate_elapsed_time now t in
      base (Some (mkUpdateStatus
        (update_phase st) (update_firmware_version m) (image_size_uncompressed m)
        (image_file_entries m) (if started <=? 0 then 0 else started)
        (total_download_files_num m) (total_download_files_size m)
        (downloaded_files_num p) (downloaded_bytes p) (downloaded_files_size p)
        (downloading_errors p) (processed_files_num p) (processed_files_size p)
        total d_delta d_download d_apply))
  | _, _, _, _ => base None
  end.

(** ** The storage *)

(** Configuration constants: [cfg] and the module's own. *)
Definition ECU_UNREACHABLE_TIMEOUT : Z := 20 * 60.
Definition PAUSED_OVERALL_ECUS_STATUS_CHANGE_ON_UPDATE_REQ_ACKED : Z := 60.
Definition DISCONNECTED_ECU_TIMEOUT_FACTOR : Z := 3.
Definition IDLE_POLLING_INTERVAL : Z := 10.
Definition ACTIVE_POLLING_INTERVAL : Z := 1.

Record ecu_flags : Type := mkFlags {
  any_child_ecu_in_update : bool;
  any_requires_network : bool;
  all_success : bool;
}.

Record ECUStatusState : Type := mkECUStatusState {
  ecu_status_flags : ecu_flags;
  storage_last_updated_timestamp : Z;
  available_ecu_ids : list string;
  all_ecus_status_v2 : pydict StatusResponseEcuV2;
  all_ecus_last_contact_timestamp : pydict Z;
  properties_last_update_timestamp : Z;
  lost_ecus_id : gset string;
  failed_ecus_id : gset string;
  in_update_ecus_id : gset string;
  in_update_child_ecus_id : gset string;
  success_ecus_id : gset string;
  last_update_request_received_timestamp : Z;
}.

#[export] Instance eta_ecu_flags : Eta ecu_flags := fun r =>
  mkFlags (any_child_ecu_in_update r) (any_requires_network r) (all_success r).
#[export] Instance eta_ECUStatusState : Eta ECUStatusState := fun r =>
  mkECUStatusState (ecu_status_flags r) (storage_last_updated_timestamp r)
    (available_ecu_ids r) (all_ecus_status_v2 r) (all_ecus_last_contact_timestamp r)
    (properties_last_update_timestamp r) (lost_ecus_id r) (failed_ecus_id r)
    (in_update_ecus_id r) (in_update_child_ecus_id r) (success_ecus_id r)
    (last_update_request_received_timestamp r).

(** [dict.fromkeys(l)], as its keys. *)
Definition dict_fromkeys (l : list string) : list string :=
  dict_keys (fold_left (fun d k => dict_set k tt d) l []).

(** [ECUStatusStorage.__init__] *)
Definition new_storage (flags : ecu_flags) (available : list string) : ECUStatusState :=
  mkECUStatusState flags 0 (dict_fromkeys available) [] [] 0 ∅ ∅ ∅ ∅ ∅ 0.

Definition dict_values {V} (d : pydict V) : list V := map snd d.

(** [{s.ecu_id for s in l if p s}] *)
Definition ids_where (p : StatusResponseEcuV2 -> bool) (l : list StatusResponseEcuV2) :
    gset string :=
  list_to_set (map ecu_id (List.filter p l)).

Section Storage.
Context (my_ecu_id : string) (phase_value : UpdatePhase -> Z).

Definition is_ecu_lost (e : string) (cur_timestamp : Z) (st : ECUStatusState) : bool :=
  match dict_get e (all_ecus_last_contact_timestamp st) with
  | None => true
  | Some t => t + ECU_UNREACHABLE_TIMEOUT <? cur_timestamp
  end.

Definition generate_overall_status_report (now : Z) (st : ECUStatusState) : ECUStatusState :=
  let lost : gset string :=
    list_to_set (List.filter (fun e => is_ecu_lost e now st)
                   (dict_keys (all_ecus_last_contact_timestamp st))) in
  let statuses := dict_values (all_ecus_status_v2 st) in
  let tracked (s : StatusResponseEcuV2) :=
    bool_decide (ecu_id s ∈ available_ecu_ids st) in
  let reachable (s : StatusResponseEcuV2) := bool_decide (ecu_id s ∉ lost) in
  let in_update :=
    ids_where (fun s => tracked s && (is_in_update s || is_in_client_update s || is_aborting s)
                        && reachable s) statuses in
  let in_update_child := in_update ∖ {[my_ecu_id]} in
  let failed := ids_where (fun s => tracked s && is_failed s && reachable s) statuses in
  let network :=
    existsb (requires_network phase_value)
      (List.filter (fun s => tracked s && reachable s) statuses) in
  let success := ids_where (fun s => tracked s && is_success s && reachable s) statuses in
  st <| properties_last_update_timestamp := now |>
     <| lost_ecus_id := lost |>
     <| in_update_ecus_id := in_update |>
     <| in_update_child_ecus_id := in_update_child |>
     <| failed_ecus_id := failed |>
     <| success_ecus_id := success |>
     <| ecu_status_flags :=
          mkFlags (bool_decide (in_update_child <> ∅)) network
            (bool_decide (success = list_to_set (available_ecu_ids st))) |>.

(** One round of [_loop_updating_properties]: the loop's own variable
    [last_storage_update] and the state. *)
Definition loop_updating_properties_round (now : Z) (s : Z * ECUStatusState) :
    Z * ECUStatusState :=
  let '(last_storage_update, st) := s in
  if negb (last_storage_update =? storage_last_updated_timestamp st)
     && (last_update_request_received_timestamp st
           + PAUSED_OVERALL_ECUS_STATUS_CHANGE_ON_UPDATE_REQ_ACKED <? now)
  then (storage_last_updated_timestamp st, generate_overall_status_report now st)
  else s.

Definition store_ecu_status (now : Z) (e : string) (s : StatusResponseEcuV2)
    (st : ECUStatusState) : ECUStatusState :=
  st <| all_ecus_status_v2 := dict_set e s (all_ecus_status_v2 st) |>
     <| all_ecus_last_contact_timestamp :=
          dict_set e now (all_ecus_last_contact_timestamp st) |>.

Definition update_from_child_ecu (now : Z) (resp : StatusResponse) (st : ECUStatusState) :
    ECUStatusState :=
  fold_left (fun st s => store_ecu_status now (ecu_id s) s st) (resp_ecu_v2 resp)
    (st <| storage_last_updated_timestamp := now |>).

Definition update_from_local_ecu (otaclient_version : string) (now : Z)
    (local_status : OTAClientStatus) (st : ECUStatusState) : ECUStatusState :=
  store_ecu_status now my_ecu_id
    (convert_to_apiv2_status my_ecu_id otaclient_version now local_status)
    (st <| storage_last_updated_timestamp := now |>).

Definition on_ecus_accept_update_request (now : Z) (ecus_accept_update : gset string)
    (st : ECUStatusState) : ECUStatusState :=
  let in_update := in_update_ecus_id st ∪ ecus_accept_update in
  let in_update_child := in_update ∖ {[my_ecu_id]} in
  st <| last_update_request_received_timestamp := now |>
     <| lost_ecus_id := lost_ecus_id st ∖ ecus_accept_update |>
     <| failed_ecus_id := failed_ecus_id st ∖ ecus_accept_update |>
     <| success_ecus_id := success_ecus_id st ∖ ecus_accept_update |>
     <| in_update_ecus_id := in_update |>
     <| in_update_child_ecus_id := in_update_child |>
     <| ecu_status_flags := mkFlags (bool_decide (in_update_child <> ∅)) true false |>.

Definition get_polling_interval (st : ECUStatusState) : Z :=
  if bool_decide (in_update_ecus_id st <> ∅) then ACTIVE_POLLING_INTERVAL
  else IDLE_POLLING_INTERVAL.

(** The entry of one contacted ECU in the export, if it is recent enough. *)
Definition export_entry (st : ECUStatusState) (e : string) : list StatusResponseEcuV2 :=
  let timeout :=
    default 0 (dict_get e (all_ecus_last_contact_timestamp st))
    + DISCONNECTED_ECU_TIMEOUT_FACTOR * get_polling_interval st in
  if timeout <? storage_last_updated_timestamp st then []
  else match dict_get e (all_ecus_status_v2 st) with
       | Some s => [s]
       | None => []
       end.

(** [export]; [None] is [LocalECUStatusNotReady]. *)
Definition export (st : ECUStatusState) : option StatusResponse :=
  if bool_decide (my_ecu_id ∈ available_ecu_ids st)
     && negb (dict_mem my_ecu_id (all_ecus_status_v2 st))
  then None
  else
    Some (mkStatusResponse (available_ecu_ids st)
      (flat_map (export_entry st) (dict_keys (all_ecus_last_contact_timestamp st)))).

(** ** The invariant of the storage *)

Record storage_wf (st : ECUStatusState) : Prop := mkStorageWf {
  wf_available : NoDup (available_ecu_ids st);
  wf_status : dict_wf (all_ecus_status_v2 st);
  wf_contact : dict_wf (all_ecus_last_contact_timestamp st);
  wf_keys : forall e, e ∈ dict_keys (all_ecus_status_v2 st)
                      <-> e ∈ dict_keys (all_ecus_last_contact_timestamp st);
  wf_ids : forall e s, dict_get e (all_ecus_status_v2 st) = Some s -> ecu_id s = e;
}.

(** The operations on the storage, and a run of them. *)
Inductive storage_op : Type :=
| OpChild (now : Z) (resp : StatusResponse)
| OpLocal (now : Z) (version : string) (local : OTAClientStatus)
| OpAccept (now : Z) (ecus : gset string)
| OpRound (now : Z).

Definition op_time (o : storage_op) : Z :=
  match o with OpChild n _ | OpLocal n _ _ | OpAccept n _ | OpRound n => n end.

Definition apply_op (s : Z * ECUStatusState) (o : storage_op) : Z * ECUStatusState :=
  match o with
  | OpChild now resp => (fst s, update_from_child_ecu now resp (snd s))
  | OpLocal now v l => (fst s, update_from_local_ecu v now l (snd s))
  | OpAccept now ecus => (fst s, on_ecus_accept_update_request now ecus (snd s))
  | OpRound now => loop_updating_properties_round now s
  end.

Definition run_ops (s : Z * ECUStatusState) (l : list storage_op) : Z * ECUStatusState :=
  fold_left apply_op l s.

Lemma store_ecu_status_wf now e s st :
  ecu_id s = e -> storage_wf st -> storage_wf (store_ecu_status now e s st).
Proof.
  intros He []. constructor; simpl; auto with ota.
  - intros e'. rewrite !elem_of_dict_keys_set, wf_keys0. done.
  - intros e' s'. rewrite dict_get_set.
    destruct (String.eqb_spec e e') as [<-|]; [by intros [= <-]|by apply wf_ids0].
Qed.

Lemma convert_ecu_id v now l : ecu_id (convert_to_apiv2_status my_ecu_id v now l) = my_ecu_id.
Proof. unfold convert_to_apiv2_status, calculate_elapsed_time. by repeat case_match. Qed.

Lemma touch_wf now st :
  storage_wf st -> storage_wf (st <| storage_last_updated_timestamp := now |>).
Proof. by intros []; constructor. Qed.

Lemma apply_op_wf s o : storage_wf (snd s) -> storage_wf (snd (apply_op s o)).
Proof.
  intros Hw. destruct s as [lsu st]; simpl in *. destruct o as [now resp|now v l|now ecus|now]; simpl.
  - unfold update_from_child_ecu. apply touch_wf with (now := now) in Hw. revert Hw.
    generalize (st <| storage_last_updated_timestamp := now |>).
    induction (resp_ecu_v2 resp) as [|s l IH]; simpl; [done|].
    intros st' Hw. by apply IH, store_ecu_status_wf.
  - apply store_ecu_status_wf; [apply convert_ecu_id|by apply touch_wf].
  - destruct Hw. by constructor.
  - destruct (negb _ && _); [|done]. simpl. destruct Hw. by constructor.
Qed.

Lemma run_ops_wf s l : storage_wf (snd s) -> storage_wf (snd (run_ops s l)).
Proof.
  revert s. unfold run_ops. induction l as [|o l IH]; simpl; [done|].
  intros s Hs. by apply IH, apply_op_wf.
Qed.

Lemma new_storage_wf flags av : storage_wf (new_storage flags av).
Proof.
  constructor; simpl; try done; try apply NoDup_nil_2.
  unfold dict_fromkeys. set (d := fold_left _ _ _).
  assert (H : dict_wf d).
  { subst d. assert (H : dict_wf (@nil (string * unit))) by apply NoDup_nil_2.
    revert H. generalize (@nil (string * unit)).
    induction av as [|k av IH]; simpl; [done|]. intros d Hd. by apply IH, dict_set_wf. }
  exact H.
Qed.

Lemma elem_of_ids_where p l e :
  e ∈ ids_where p l <-> exists s, s ∈ l /\ p s = true /\ ecu_id s = e.
Proof.
  unfold ids_where. rewrite elem_of_list_to_set, list_elem_of_In, in_map_iff.
  setoid_rewrite filter_In. setoid_rewrite <- list_elem_of_In. naive_solver.
Qed.

Lemma elem_of_values st s :
  storage_wf st ->
  s ∈ dict_values (all_ecus_status_v2 st) <->
  dict_get (ecu_id s) (all_ecus_status_v2 st) = Some s.
Proof.
  intros Hw. unfold dict_values. rewrite list_elem_of_In, in_map_iff. split.
  - intros ([e s'] & Hs & Hin%list_elem_of_In). simpl in Hs. subst s'.
    apply dict_In_get in Hin; [|apply Hw]. pose proof (wf_ids st Hw _ _ Hin) as He. by rewrite He.
  - intros Hg%dict_get_In. exists (ecu_id s, s). split; [done|by apply list_elem_of_In].
Qed.

(** Membership in a set of the report, by ECU. *)
Lemma elem_of_report p st e :
  storage_wf st ->
  e ∈ ids_where p (dict_values (all_ecus_status_v2 st)) <->
  exists s, dict_get e (all_ecus_status_v2 st) = Some s /\ p s = true.
Proof.
  intros Hw. rewrite elem_of_ids_where. split.
  - intros (s & Hs & Hp & He). apply elem_of_values in Hs; [|done]. subst e. eauto.
  - intros (s & Hg & Hp). pose proof (wf_ids st Hw _ _ Hg). subst e.
    exists s. split_and!; [by apply elem_of_values|done|done].
Qed.

Lemma elem_of_lost now st e :
  e ∈ lost_ecus_id (generate_overall_status_report now st) <->
  e ∈ dict_keys (all_ecus_last_contact_timestamp st) /\ is_ecu_lost e now st = true.
Proof.
  simpl. rewrite elem_of_list_to_set, !list_elem_of_In, filter_In. done.
Qed.

(** An ECU counts in the report when it is tracked and reachable. *)
Definition counted (now : Z) (st : ECUStatusState) (e : string) (s : StatusResponseEcuV2) : Prop :=
  dict_get e (all_ecus_status_v2 st) = Some s /\ e ∈ available_ecu_ids st /\
  is_ecu_lost e now st = false.

Lemma elem_of_report_where p now st e :
  storage_wf st ->
  e ∈ ids_where
        (fun s => bool_decide (ecu_id s ∈ available_ecu_ids st) && p s &&
                  bool_decide (ecu_id s ∉ lost_ecus_id (generate_overall_status_report now st)))
        (dict_values (all_ecus_status_v2 st)) <->
  exists s, counted now st e s /\ p s = true.
Proof.
  intros Hw. rewrite elem_of_report by done. unfold counted.
  split; intros (s & H).
  - destruct H as [Hg H]. split_bools. pose proof (wf_ids st Hw _ _ Hg) as He.
    repeat match goal with H : bool_decide _ = true |- _ => apply bool_decide_eq_true in H end.
    rewrite He in *. exists s. split_and!; try done.
    match goal with H : _ ∉ lost_ecus_id _ |- _ => rewrite elem_of_lost in H; rename H into Hl end.
    destruct (is_ecu_lost e now st); [|done]. exfalso. apply Hl. split; [|done].
    apply (wf_keys st Hw). by eapply dict_get_Some_mem.
  - destruct H as [(Hg & Ha & Hl) Hp]. exists s. split; [done|].
    pose proof (wf_ids st Hw _ _ Hg) as He. rewrite He.
    rewrite !andb_true_iff, !bool_decide_eq_true. split_and!; try done.
    rewrite elem_of_lost. intros [_ ?]. congruence.
Qed.

Definition in_update_status (s : StatusResponseEcuV2) : bool :=
  is_in_update s || is_in_client_update s || is_aborting s.

Lemma report_in_update now st e :
  storage_wf st ->
  e ∈ in_update_ecus_id (generate_overall_status_report now st) <->
  exists s, counted now st e s /\ in_update_status s = true.
Proof. intros Hw. by apply (elem_of_report_where in_update_status). Qed.

Lemma report_failed now st e :
  storage_wf st ->
  e ∈ failed_ecus_id (generate_overall_status_report now st) <->
  exists s, counted now st e s /\ is_failed s = true.
Proof. intros Hw. by apply (elem_of_report_where is_failed). Qed.

Lemma report_success now st e :
  storage_wf st ->
  e ∈ success_ecus_id (generate_overall_status_report now st) <->
  exists s, counted now st e s /\ is_success s = true.
Proof. intros Hw. by apply (elem_of_report_where is_success). Qed.

Lemma status_exclusive s :
  (in_update_status s = true -> is_failed s = false /\ is_success s = false) /\
  (is_failed s = true -> is_success s = false).
Proof.
  unfold in_update_status, is_in_update, is_in_client_update, is_aborting, is_failed, is_success.
  by destruct (ecu_ota_status s).
Qed.

(** What an accepted update request promises until the pause is over. *)
Definition accepted_kept (t : Z) (ecus : gset string) (st : ECUStatusState) : Prop :=
  t <= last_update_request_received_timestamp st /\
  ecus ⊆ in_update_ecus_id st /\
  ecus ## failed_ecus_id st /\ ecus ## success_ecus_id st /\ ecus ## lost_ecus_id st /\
  all_success (ecu_status_flags st) = false /\
  any_requires_network (ecu_status_flags st) = true.

Lemma accept_request_kept now ecus st :
  accepted_kept now ecus (on_ecus_accept_update_request now ecus st).
Proof. unfold accepted_kept; simpl. split_and!; try done; try lia; set_solver. Qed.

Lemma store_keeps_report now e s st :
  let st' := store_ecu_status now e s st in
  last_update_request_received_timestamp st' = last_update_request_received_timestamp st /\
  in_update_ecus_id st' = in_update_ecus_id st /\ failed_ecus_id st' = failed_ecus_id st /\
  success_ecus_id st' = success_ecus_id st /\ lost_ecus_id st' = lost_ecus_id st /\
  ecu_status_flags st' = ecu_status_flags st.
Proof. done. Qed.

Lemma accepted_kept_op t ecus s o :
  t <= op_time o <= t + PAUSED_OVERALL_ECUS_STATUS_CHANGE_ON_UPDATE_REQ_ACKED ->
  accepted_kept t ecus (snd s) -> accepted_kept t ecus (snd (apply_op s o)).
Proof.
  intros Ht Hk. destruct s as [lsu st]. destruct o as [now resp|now v l|now ecus'|now]; simpl in *.
  - unfold update_from_child_ecu.
    assert (Hk' : accepted_kept t ecus (st <| storage_last_updated_timestamp := now |>)) by done.
    revert Hk'. generalize (st <| storage_last_updated_timestamp := now |>).
    induction (resp_ecu_v2 resp) as [|x l IH]; simpl; [done|]. intros st' Hk'. by apply IH.
  - done.
  - destruct Hk as (? & ? & ? & ? & ? & ? & ?). unfold accepted_kept; simpl.
    split_and!; try done; try lia; set_solver.
  - destruct Hk as (Hl & Hk).
    rewrite (proj2 (Z.ltb_ge _ now)) by lia. rewrite andb_false_r. done.
Qed.

Lemma elem_of_export_entry st e s :
  storage_wf st ->
  s ∈ export_entry st e <->
  dict_get e (all_ecus_status_v2 st) = Some s /\
  default 0 (dict_get e (all_ecus_last_contact_timestamp st))
    + DISCONNECTED_ECU_TIMEOUT_FACTOR * get_polling_interval st
    >= storage_last_updated_timestamp st.
Proof.
  intros Hw. unfold export_entry. destruct (Z.ltb_spec
    (default 0 (dict_get e (all_ecus_last_contact_timestamp st))
     + DISCONNECTED_ECU_TIMEOUT_FACTOR * get_polling_interval st)
    (storage_last_updated_timestamp st)).
  - split; [by intros ?%elem_of_nil|]. intros [_ ?]. lia.
  - destruct (dict_get e (all_ecus_status_v2 st)) as [s'|].
    + rewrite list_elem_of_singleton. split; [intros ->; split; [done|lia]|by intros [[= ->] _]].
    + split; [by intros ?%elem_of_nil|by intros [? _]].
Qed.

Lemma NoDup_flat_map_keys {A} (g : A -> string) (f : string -> list A) l :
  (forall e, map g (f e) = [] \/ map g (f e) = [e]) -> NoDup l -> NoDup (map g (flat_map f l)).
Proof.
  intros Hf. induction 1 as [|e l He Hl IH]; simpl; [apply NoDup_nil_2|].
  rewrite map_app. destruct (Hf e) as [-> | ->]; [done|].
  apply NoDup_cons. split; [|done]. intros Hin. apply He. clear -Hf Hin.
  induction l as [|e' l IH]; simpl in *; [done|]. rewrite map_app in Hin.
  apply elem_of_app in Hin as [Hin|Hin]; [|set_solver].
  destruct (Hf e') as [E|E]; rewrite E in Hin; set_solver.
Qed.

(** ** Properties *)

(** C20. The overall report classifies: for every storage reachable from the
    start, the sets it computes contain exactly the tracked, reachable ECUs
    in the matching status, so no ECU is in two of the sets of updating,
    failed and succeeded ECUs, and none of them is lost. *)
Theorem report_classifies flags av l now :
  let st := snd (run_ops (0, new_storage flags av) l) in
  let st' := generate_overall_status_report now st in
  (forall e, e ∈ in_update_ecus_id st' <-> exists s, counted now st e s /\ in_update_status s = true) /\
  (forall e, e ∈ failed_ecus_id st' <-> exists s, counted now st e s /\ is_failed s = true) /\
  (forall e, e ∈ success_ecus_id st' <-> exists s, counted now st e s /\ is_success s = true) /\
  in_update_ecus_id st' ## failed_ecus_id st' /\ in_update_ecus_id st' ## success_ecus_id st' /\
  failed_ecus_id st' ## success_ecus_id st' /\
  (in_update_ecus_id st' ∪ failed_ecus_id st' ∪ success_ecus_id st') ## lost_ecus_id st'.
Proof.
  cbv zeta. set (st := snd (run_ops _ l)).
  assert (Hw : storage_wf st) by apply run_ops_wf, new_storage_wf.
  pose proof (fun e => report_in_update now st e Hw) as H1.
  pose proof (fun e => report_failed now st e Hw) as H2.
  pose proof (fun e => report_success now st e Hw) as H3.
  split_and!; [done..| | | |].
  - intros e (s & (Hg & _) & Hs)%H1 (s' & (Hg' & _) & Hs')%H2.
    rewrite Hg in Hg'. injection Hg' as <-. destruct (status_exclusive s) as [Hx _].
    destruct (Hx Hs). congruence.
  - intros e (s & (Hg & _) & Hs)%H1 (s' & (Hg' & _) & Hs')%H3.
    rewrite Hg in Hg'. injection Hg' as <-. destruct (status_exclusive s) as [Hx _].
    destruct (Hx Hs). congruence.
  - intros e (s & (Hg & _) & Hs)%H2 (s' & (Hg' & _) & Hs')%H3.
    rewrite Hg in Hg'. injection Hg' as <-. destruct (status_exclusive s) as [_ Hx].
    rewrite (Hx Hs) in Hs'. done.
  - intros e [[He|He]%elem_of_union|He]%elem_of_union [_ Hl]%elem_of_lost;
      [apply H1 in He as (s & (_ & _ & Hc) & _)|apply H2 in He as (s & (_ & _ & Hc) & _)
      |apply H3 in He as (s & (_ & _ & Hc) & _)]; congruence.
Qed.

(** The [all_success] flag of the report is set exactly when every
    available ECU reported [SUCCESS] and was in contact within the
    unreachable timeout. *)
Theorem report_all_success flags av l now :
  let st := snd (run_ops (0, new_storage flags av) l) in
  all_success (ecu_status_flags (generate_overall_status_report now st)) = true <->
  forall e, e ∈ available_ecu_ids st ->
    exists s t, dict_get e (all_ecus_status_v2 st) = Some s /\ ecu_ota_status s = SUCCESS /\
      dict_get e (all_ecus_last_contact_timestamp st) = Some t /\
      now <= t + ECU_UNREACHABLE_TIMEOUT.
Proof.
  cbv zeta. set (st := snd (run_ops _ l)).
  assert (Hw : storage_wf st) by apply run_ops_wf, new_storage_wf.
  set (st' := generate_overall_status_report now st).
  assert (Hs : forall e, e ∈ success_ecus_id st' <-> exists s, counted now st e s /\ is_success s = true)
    by (intros e; by apply report_success).
  change (all_success (ecu_status_flags st')) with
    (bool_decide (success_ecus_id st' = list_to_set (available_ecu_ids st))).
  rewrite bool_decide_eq_true. unfold counted, is_ecu_lost, is_success in Hs. split.
  - intros Heq e He.
    assert (Hin : e ∈ success_ecus_id st') by (rewrite Heq; by apply elem_of_list_to_set).
    apply Hs in Hin as (s & (Hg & _ & Hl) & Hsucc%bool_decide_eq_true).
    destruct (dict_get e (all_ecus_last_contact_timestamp st)) as [t|]; [|done].
    apply Z.ltb_ge in Hl. exists s, t. by split_and!.
  - intros Hall. apply set_eq. intros e. rewrite elem_of_list_to_set. split.
    + by intros (s & (_ & He & _) & _)%Hs.
    + intros He. apply Hs. destruct (Hall e He) as (s & t & Hg & Hsucc & Ht & Hle).
      exists s. rewrite Ht. split_and!; [done..| |by apply bool_decide_eq_true].
      apply Z.ltb_ge. lia.
Qed.

(** After ECUs accepted an update request, and until the pause is over,
    no status report that arrives and no round of the report loop moves them
    out of the updating set, and the overall flags keep saying that an update
    is on-going. *)
Theorem accepted_ecus_kept_in_update s now ecus l :
  (forall o, o ∈ l -> now <= op_time o <= now + PAUSED_OVERALL_ECUS_STATUS_CHANGE_ON_UPDATE_REQ_ACKED) ->
  accepted_kept now ecus (snd (run_ops (apply_op s (OpAccept now ecus)) l)).
Proof.
  intros Hl.
  assert (Hk : accepted_kept now ecus (snd (apply_op s (OpAccept now ecus))))
    by apply accept_request_kept.
  revert Hk. generalize (apply_op s (OpAccept now ecus)). unfold run_ops.
  induction l as [|o l IH]; simpl; [done|]. intros s' Hk. apply IH.
  - intros o' Ho'. apply Hl. set_solver.
  - apply accepted_kept_op; [|done]. apply Hl. set_solver.
Qed.

(** The status API export: it is refused exactly while the local ECU is
    tracked without a collected status; otherwise it lists, once each, the
    ECUs whose last contact is within three polling intervals of the last
    update of the storage, with their latest status. *)
Theorem export_lists_recent flags av l :
  let st := snd (run_ops (0, new_storage flags av) l) in
  match export st with
  | None => my_ecu_id ∈ available_ecu_ids st /\ dict_get my_ecu_id (all_ecus_status_v2 st) = None
  | Some r =>
      resp_available_ecu_ids r = available_ecu_ids st /\
      NoDup (map ecu_id (resp_ecu_v2 r)) /\
      forall s, s ∈ resp_ecu_v2 r <->
        dict_get (ecu_id s) (all_ecus_status_v2 st) = Some s /\
        exists t, dict_get (ecu_id s) (all_ecus_last_contact_timestamp st) = Some t /\
          storage_last_updated_timestamp st
            <= t + DISCONNECTED_ECU_TIMEOUT_FACTOR * get_polling_interval st
  end.
Proof.
  cbv zeta. set (st := snd (run_ops _ l)).
  assert (Hw : storage_wf st) by apply run_ops_wf, new_storage_wf.
  assert (Hok : NoDup (map ecu_id (flat_map (export_entry st)
                   (dict_keys (all_ecus_last_contact_timestamp st))))).
  { apply NoDup_flat_map_keys; [|apply Hw]. intros e. unfold export_entry.
    case_match; [by left|]. destruct (dict_get e (all_ecus_status_v2 st)) eqn:E; [right|by left].
    simpl. by rewrite (wf_ids st Hw _ _ E). }
  assert (Hiff : forall s, s ∈ flat_map (export_entry st)
                   (dict_keys (all_ecus_last_contact_timestamp st)) <->
      dict_get (ecu_id s) (all_ecus_status_v2 st) = Some s /\
      exists t, dict_get (ecu_id s) (all_ecus_last_contact_timestamp st) = Some t /\
        storage_last_updated_timestamp st
          <= t + DISCONNECTED_ECU_TIMEOUT_FACTOR * get_polling_interval st).
  { intros s. rewrite list_elem_of_In, in_flat_map. split.
    - intros (e & He%list_elem_of_In & Hs%list_elem_of_In).
      apply elem_of_export_entry in Hs as [Hg Ht]; [|done].
      pose proof (wf_ids st Hw _ _ Hg). subst e. split; [done|].
      destruct (dict_get (ecu_id s) (all_ecus_last_contact_timestamp st)) as [t|] eqn:Et.
      + exists t. split; [done|]. simpl in Ht. lia.
      + by apply dict_get_None in Et.
    - intros (Hg & t & Ht & Hle). exists (ecu_id s). split.
      + apply list_elem_of_In. by eapply dict_get_Some_mem.
      + apply list_elem_of_In, elem_of_export_entry; [done|]. split; [done|].
        rewrite Ht. simpl. lia. }
  unfold export, dict_mem.
  destruct (bool_decide (my_ecu_id ∈ available_ecu_ids st)) eqn:Ea; [|done].
  apply bool_decide_eq_true in Ea.
  by destruct (dict_get my_ecu_id (all_ecus_status_v2 st)).
Qed.

End Storage.

Lemma accepted_ecus_kept_in_update_witness :
  accepted_kept 100 {["p1"%string]} (snd (run_ops "main" (fun _ => 0)
    (apply_op "main" (fun _ => 0) (0, new_storage (mkFlags false false true) ["main"; "p1"]%string)
       (OpAccept 100 {["p1"%string]}))
    [OpChild 130 (mkStatusResponse []
       [mkStatusResponseEcuV2 "p1" "" "" SUCCESS NO_FAILURE "" None "" "" ""]); OpRound 150])).
Proof.
  apply accepted_ecus_kept_in_update. intros o Ho.
  rewrite !elem_of_cons, elem_of_nil in Ho.
  destruct Ho as [-> | [-> | []]]; unfold PAUSED_OVERALL_ECUS_STATUS_CHANGE_ON_UPDATE_REQ_ACKED; simpl; lia.
Defined.

(** The timestamps of an update as its phases set them. *)
Definition timing_ordered (now : Z) (t : UpdateTiming) : Prop :=
  0 < update_start_timestamp t <= delta_generate_start_timestamp t /\
  delta_generate_start_timestamp t <= download_start_timestamp t /\
  download_start_timestamp t <= update_apply_start_timestamp t /\
  update_apply_start_timestamp t <= post_update_start_timestamp t /\
  post_update_start_timestamp t <= now.

(** The reported phase durations are never negative, and when the phases
    started in order they add up to at most the total elapsed time. *)
Theorem elapsed_times_bounded my v now st u t :
  update_timing st = Some t ->
  ecu_update_status (convert_to_apiv2_status my v now st) = Some u ->
  0 <= us_delta_generating_elapsed_time u /\ 0 <= us_downloading_elapsed_time u /\
  0 <= us_update_applying_elapsed_time u /\
  (timing_ordered now t ->
   us_delta_generating_elapsed_time u + us_downloading_elapsed_time u
     + us_update_applying_elapsed_time u <= us_total_elapsed_time u).
Proof.
  intros Ht. unfold convert_to_apiv2_status, calculate_elapsed_time, elapsed, or_inf, timing_ordered.
  rewrite Ht. destruct (ota_status st), (update_meta st), (update_progress st); simpl; try done.
  intros [= <-]. simpl.
  repeat match goal with |- context [?a =? 0] => destruct (Z.eqb_spec a 0) end;
    repeat match goal with |- context [?a <=? 0] => destruct (Z.leb_spec a 0) end;
    split_and!; lia.
Qed.

Lemma elapsed_times_bounded_witness :
  let st := new_OTAClientStatus <| ota_status := UPDATING |>
      <| update_meta := Some new_UpdateMeta |> <| update_progress := Some new_UpdateProgress |>
      <| update_timing := Some (mkUpdateTiming 10 20 30 0 0) |> in
  exists u, ecu_update_status (convert_to_apiv2_status "e" "v" 100 st) = Some u /\
    us_downloading_elapsed_time u = 70 /\ 0 <= us_downloading_elapsed_time u.
Proof.
  cbv zeta. eexists. split; [reflexivity|]. split; [reflexivity|].
  eapply (elapsed_times_bounded "e" "v" 100 (new_OTAClientStatus <| ota_status := UPDATING |>
      <| update_meta := Some new_UpdateMeta |> <| update_progress := Some new_UpdateProgress |>
      <| update_timing := Some (mkUpdateTiming 10 20 30 0 0) |>)); reflexivity.
Defined.
