(* ===== verification/BootController.v ===== *)
(** * The boot controller's update flow

    Models [src/src/otaclient/boot_control/_base.py]: [BootControllerBase],
    the template methods every boot controller inherits.  The platform's part
    (the abstract methods, the slot mounts) is the interface [PlatformHooks]:
    a hook runs on the platform's own state and on the standby slot's status
    directory, which it may change (formatting the slot does), but it cannot
    reach the status files of the active slot.  The one law of the interface
    is that the post-update hook leaves the status files of the standby slot,
    written just before it, as they are. *)

From stdpp Require Import base strings list option relations sets.
From Stdlib Require Import ZArith String Lia.
From S2P Require Import Prelude Types Errors OTAStatusControl.

Record boot_controller (P : Type) : Type := mkBootController {
  bc_status : control;
  bc_platform : P;
}.
Arguments mkBootController {P} _ _.
Arguments bc_status {P} _.
Arguments bc_platform {P} _.

#[export] Instance eta_boot_controller P : Eta (boot_controller P) := fun r =>
  mkBootController (bc_status r) (bc_platform r).

(** A platform operation. *)
Definition hook (P : Type) : Type := PyM (P * status_dir) pyexn unit.

(** [Cfg] stands for [OTAConfigFiles]. *)
Class PlatformHooks (P Cfg : Type) : Type := {
  hook_module : string;
  default_config : Cfg;
  pre_update_prepare_standby (erase_standby : bool) : hook P;
  mount_standby : hook P;
  mount_active : hook P;
  pre_update_platform_specific (standby_as_ref erase_standby : bool) : hook P;
  post_update_platform_specific (update_version : string) (ota_config_files : Cfg) : hook P;
  umount_all : P -> P;
  post_hook_keeps_status : forall v cfg p d,
    snd (fst (post_update_platform_specific v cfg (p, d))) = d;
}.

Section Controller.
Context {P Cfg : Type} `{HP : !PlatformHooks P Cfg}.

Abbreviation BC := (PyM (boot_controller P) pyexn).

(** Calling a hook on the controller. *)
Definition run_hook (h : hook P) : BC unit := fun bc =>
  match h (bc_platform bc, stb_dir (bc_status bc)) with
  | (p, d, r) => (mkBootController ((bc_status bc) <| stb_dir := d |>) p, r)
  end.

Definition on_status (f : control -> control) : BC unit :=
  modify (fun bc => bc <| bc_status := f (bc_status bc) |>).

(** The [except] clauses shared by the two template methods. *)
Definition as_boot_control_error {A} (cls : OTAErrorClass) (what : string) (m : BC A) : BC A :=
  try_except m (fun e =>
    if is_ota_error e || negb (is_exception e) then raise e
    else raise (ota_error cls (what +:+ exn_repr e)%string hook_module (Some e))).

Definition pre_update (standby_as_ref erase_standby : bool) : BC unit :=
  as_boot_control_error (Unrec BootControlPreUpdateFailed) "failed on pre_update: "
    (_ ← on_status pre_update_current;
     _ ← raise_as_ota_error (BootCtl BootControlStandbySlotPrepareFailed)
           "failed to prepare standby slot device" hook_module
           (run_hook (pre_update_prepare_standby erase_standby));
     _ ← raise_as_ota_error (BootCtl BootControlSlotMountFailed)
           "failed to mount slots" hook_module
           (_ ← run_hook mount_standby; run_hook mount_active);
     run_hook (pre_update_platform_specific standby_as_ref erase_standby)).

Definition bc_umount_all : BC unit :=
  modify (fun bc => bc <| bc_platform := umount_all (bc_platform bc) |>).

Definition post_update (update_version : string) (version_detail : option VersionDetail)
    (ota_config_files : option Cfg) : BC unit :=
  as_boot_control_error (Unrec BootControlPostUpdateFailed) "failed on post_update: "
    (_ ← on_status (post_update_standby update_version version_detail);
     _ ← run_hook (post_update_platform_specific update_version
                     (default default_config ota_config_files));
     bc_umount_all).

Definition on_operation_failure : BC unit := _ ← on_status on_failure; bc_umount_all.

Definition bc_on_abort : BC unit := on_status on_abort.

(** ** Frame lemmas: what no hook can reach *)

(** The slots stay, and the active slot's files change only through the
    status control. *)
Definition same_active (bc bc' : boot_controller P) : Prop :=
  active_slot (bc_status bc') = active_slot (bc_status bc) /\
  standby_slot (bc_status bc') = standby_slot (bc_status bc) /\
  cur_dir (bc_status bc') = cur_dir (bc_status bc).

#[export] Instance same_active_preorder : PreOrder same_active.
Proof.
  split; [by intros bc; split_and!|]. intros a b c (H1 & H2 & H3) (G1 & G2 & G3).
  split_and!; congruence.
Qed.

Lemma run_hook_same_active h : keeps same_active (run_hook h).
Proof. intros bc. unfold run_hook. by destruct (h _) as [[p d] r]. Qed.

Lemma umount_same_active : keeps same_active bc_umount_all.
Proof. by intros bc. Qed.

Lemma raise_as_keeps {S A} (R : S -> S -> Prop) `{!PreOrder R} c msg m (body : PyM S pyexn A) :
  keeps R body -> keeps R (raise_as_ota_error c msg m body).
Proof.
  intros H. apply keeps_try_except; [done|done|]. intros e.
  destruct (_ || _); by apply keeps_raise.
Qed.

Lemma as_boot_control_error_keeps {A} (R : boot_controller P -> boot_controller P -> Prop)
    `{!PreOrder R} c what (m : BC A) :
  keeps R m -> keeps R (as_boot_control_error c what m).
Proof.
  intros H. apply keeps_try_except; [done|done|]. intros e.
  destruct (_ || _); by apply keeps_raise.
Qed.

Lemma post_update_same_active v d cfg : keeps same_active (post_update v d cfg).
Proof.
  apply as_boot_control_error_keeps; [apply _|].
  apply keeps_bind; [apply _| |intros _; apply keeps_bind; [apply _| |intros _]].
  - intros bc. unfold same_active; simpl. by destruct d.
  - apply run_hook_same_active.
  - apply umount_same_active.
Qed.

(** Every exception that leaves a template method is an [OTAError] (or is not
    an [Exception] at all). *)
Definition reportable (e : pyexn) : Prop := is_ota_error e = true \/ is_exception e = false.

Lemma is_ota_error_ota c msg m f : is_ota_error (ota_error c msg m f) = true.
Proof. done. Qed.

Lemma as_boot_control_error_raises {A} c what (m : BC A) :
  raises_only reportable (as_boot_control_error c what m).
Proof.
  apply raises_try_except. intros e. destruct (_ || _) eqn:E; apply raises_raise; [|by left].
  apply orb_true_iff in E as [E|E]; [by left|right; by apply negb_true_iff].
Qed.

Lemma pre_update_raises a b : raises_only reportable (pre_update a b).
Proof. apply as_boot_control_error_raises. Qed.

Lemma post_update_raises v d cfg : raises_only reportable (post_update v d cfg).
Proof. apply as_boot_control_error_raises. Qed.

Lemma as_boot_control_error_after {A} (R : boot_controller P -> boot_controller P -> Prop)
    c what f (k : BC A) bc :
  keeps R k -> R (f bc) (fst (as_boot_control_error c what (_ ← modify f; k) bc)).
Proof.
  intros Hk. specialize (Hk (f bc)).
  unfold as_boot_control_error, try_except, mbind, pym_bind, modify.
  destruct (k (f bc)) as [bc' [a|e]]; [done|]. by destruct (_ || _).
Qed.

(** Whatever the outcome of [pre_update], the active slot records the update. *)
Lemma pre_update_marks_active a b bc :
  same_active (bc <| bc_status := pre_update_current (bc_status bc) |>) (fst (pre_update a b bc)).
Proof.
  apply (as_boot_control_error_after same_active _ _
    (fun bc => bc <| bc_status := pre_update_current (bc_status bc) |>)).
  repeat (apply keeps_bind; [apply _| |intros _]);
    repeat (apply raise_as_keeps; [apply _|]); try apply keeps_bind; try apply _;
    intros; apply run_hook_same_active.
Qed.

(** A [post_update] that returns left the standby slot as the status control
    wrote it. *)
Lemma post_update_ok v d cfg bc bc' :
  post_update v d cfg bc = (bc', Ok tt) ->
  stb_dir (bc_status bc') = stb_dir (post_update_standby v d (bc_status bc)).
Proof.
  unfold post_update, as_boot_control_error, try_except, on_status, run_hook, bc_umount_all.
  unfold mbind, pym_bind, modify. cbn [bc_status bc_platform upd].
  match goal with |- context [post_update_platform_specific v ?c (?p, ?d0)] =>
    pose proof (post_hook_keeps_status v c p d0) as Hl;
    destruct (post_update_platform_specific v c (p, d0)) as [[p' d'] [[]|e]]
  end; simpl in Hl; subst d'; [by intros [= <-]|].
  simpl. by destruct (_ || _).
Qed.
End Controller.

(** ** Properties *)

(** What may happen to a controller between the start of an update and the
    next boot: hooks and template methods that keep the active slot's files,
    and the cleanup after a failure. *)
Inductive after_start {P Cfg} `{!PlatformHooks P Cfg} :
    boot_controller P -> boot_controller P -> Prop :=
| as_hook h bc : after_start bc (fst (run_hook h bc))
| as_post_update v d cfg bc : after_start bc (fst (post_update v d cfg bc))
| as_failure bc : after_start bc (fst (on_operation_failure bc)).

(** The status recorded on the active slot, with the slots of the ECU. *)
Definition active_records {P} (a b : string) (st : OTAStatus) (bc : boot_controller P) : Prop :=
  active_slot (bc_status bc) = a /\ standby_slot (bc_status bc) = b /\
  sd_status (cur_dir (bc_status bc)) = Some (OTAStatus_name st).

Lemma same_active_records {P} a b st (bc bc' : boot_controller P) :
  same_active bc bc' -> active_records a b st bc -> active_records a b st bc'.
Proof. intros (H1 & H2 & H3) (G1 & G2 & G3). repeat split; congruence. Qed.

Lemma after_start_records {P Cfg} `{!PlatformHooks P Cfg} a b (bc bc' : boot_controller P) :
  after_start bc bc' -> active_records a b FAILURE bc -> active_records a b FAILURE bc'.
Proof.
  intros [h bc0|v d cfg bc0|bc0] Hr.
  - eapply same_active_records; [apply run_hook_same_active|done].
  - eapply same_active_records; [apply post_update_same_active|done].
  - destruct Hr as (H1 & H2 & H3). unfold active_records; simpl.
    unfold on_failure. simpl. by destruct (sd_exists _).
Qed.

Section Properties.
Context {P Cfg : Type} `{HP : !PlatformHooks P Cfg}.

(** The next boot of the active (old) slot, and of the standby (new) slot. *)
Definition boot_active (fin : finalize_outcome) (bc : boot_controller P) : control :=
  let c := bc_status bc in
  init_control false false fin (active_slot c) (standby_slot c) (cur_dir c) (stb_dir c) (next_stamp c).

Definition boot_standby (fin : finalize_outcome) (bc : boot_controller P) : control :=
  let c := bc_status bc in
  init_control false false fin (standby_slot c) (active_slot c) (stb_dir c) (cur_dir c) (next_stamp c).

(** C1. On every platform, once [pre_update] was called (whether it
    succeeded or raised), any sequence of platform operations, of
    [post_update] calls with any outcome and of failure cleanups leads to a
    boot of the old slot that reports [FAILURE]; and [pre_update] itself only
    raises errors the status API can report.  The writes of the status files
    themselves succeed here. *)
Theorem started_update_never_boots_old_slot_as_success standby_as_ref erase bc bc' fin :
  rtc after_start (fst (pre_update standby_as_ref erase bc)) bc' ->
  booted_status (boot_active fin bc') = FAILURE /\
  raises_only reportable (pre_update standby_as_ref erase).
Proof.
  intros Hs. split; [|apply pre_update_raises].
  pose proof (pre_update_marks_active standby_as_ref erase bc) as Hm.
  assert (Hr : active_records (active_slot (bc_status bc)) (standby_slot (bc_status bc)) FAILURE
    (fst (pre_update standby_as_ref erase bc))).
  { eapply same_active_records; [exact Hm|done]. }
  revert Hs Hr. generalize (fst (pre_update standby_as_ref erase bc)). clear Hm. intros bc1 Hs Hr.
  assert (Hr' : active_records (active_slot (bc_status bc)) (standby_slot (bc_status bc)) FAILURE bc').
  { revert Hr. induction Hs as [|x y z Hxy _ IH]; [done|]. intros Hr.
    by eapply IH, after_start_records. }
  destruct Hr' as (_ & _ & Hst). by eapply boot_settled; [apply load_status_of_dir|].
Qed.

(** C17. On every platform, an update whose [pre_update] and [post_update]
    returned boots the standby slot, when its finalization succeeds, with
    [SUCCESS] and the version passed to [post_update], whatever the platform
    did to the standby slot in between. *)
Theorem completed_update_boots_standby standby_as_ref erase v d cfg bc bc1 bc2 bc3 :
  names_slot (standby_slot (bc_status bc)) ->
  pre_update standby_as_ref erase bc = (bc1, Ok tt) -> same_active bc1 bc2 ->
  post_update v d cfg bc2 = (bc3, Ok tt) ->
  booted_status (boot_standby FinalizeOk bc3) = SUCCESS /\
  load_active_slot_version (boot_standby FinalizeOk bc3) =
    str_take MAX_VERSION_STRING_LEN (strip v) /\
  booted_status (boot_standby FinalizeFailed bc3) = FAILURE.
Proof.
  intros [Hs Ht] H1 (_ & G2 & _) H3.
  pose proof (pre_update_marks_active standby_as_ref erase bc) as (_ & M2 & _). rewrite H1 in M2.
  pose proof (post_update_ok v d cfg bc2 bc3 H3) as Hd.
  pose proof (post_update_same_active v d cfg bc2) as (_ & K2 & _). rewrite H3 in K2.
  simpl in K2, M2. rewrite M2 in G2. rewrite G2 in K2.
  unfold boot_standby.
  assert (Hl : forall b c n, load_current_status
      (mkControl (standby_slot (bc_status bc3)) b (stb_dir (bc_status bc3)) c n INITIALIZED) = Some UPDATING).
  { intros. apply load_status_of_dir. rewrite Hd. by destruct d. }
  assert (Hu : sd_slot_in_use (stb_dir (bc_status bc3)) = Some (standby_slot (bc_status bc3))).
  { rewrite Hd, K2. unfold post_update_standby. destruct d; simpl; by rewrite G2. }
  rewrite <- K2 in Hs, Ht.
  rewrite (boot_switching FinalizeOk _ _ _ _ _ UPDATING) by (done || set_solver).
  rewrite (boot_switching FinalizeFailed _ _ _ _ _ UPDATING) by (done || set_solver).
  cbv zeta. split_and!; [done| |done].
  unfold load_active_slot_version, load_version_from; simpl. rewrite Hd. by destruct d.
Qed.

(** An abort recorded by the boot controller is reported as [ABORTED] by
    the next boot of the slot and as [INITIALIZED] by the one after it. *)
Theorem aborted_update_boots_aborted bc fin fin' :
  let c1 := boot_active fin (fst (bc_on_abort bc)) in
  let c2 := init_control false false fin' (active_slot (bc_status bc)) (standby_slot (bc_status bc))
              (cur_dir c1) (stb_dir c1) (next_stamp c1) in
  booted_status c1 = ABORTED /\ booted_status c2 = INITIALIZED.
Proof.
  cbv zeta.
  assert (Hb : booted_status (boot_active fin (fst (bc_on_abort bc))) = ABORTED /\
               load_current_status (boot_active fin (fst (bc_on_abort bc))) = Some INITIALIZED).
  { by apply boot_aborted, load_status_of_dir. }
  destruct Hb as [-> Hl]. split; [done|].
  eapply boot_settled; [|done]. rewrite <- Hl. by apply load_current_status_dir.
Qed.
End Properties.

(** ** A platform that formats the standby slot, and the properties on it *)

Definition example_format (erase : bool) : hook bool := fun s =>
  if erase then ((true, absent_dir), Ok tt) else (s, Ok tt).

#[local] Instance example_platform : PlatformHooks bool unit := {|
  hook_module := "example";
  default_config := tt;
  pre_update_prepare_standby := example_format;
  mount_standby := mret tt;
  mount_active := mret tt;
  pre_update_platform_specific := fun _ _ =>
    raise (PyExn (XOSError (Some 5)) [AStr "I/O error"] None None);
  post_update_platform_specific := fun _ _ => mret tt;
  umount_all := fun p => p;
  post_hook_keeps_status := fun _ _ _ _ => eq_refl;
|}.

#[local] Instance example_good_platform : PlatformHooks bool unit := {|
  hook_module := "example";
  default_config := tt;
  pre_update_prepare_standby := example_format;
  mount_standby := mret tt;
  mount_active := mret tt;
  pre_update_platform_specific := fun _ _ => mret tt;
  post_update_platform_specific := fun _ _ => mret tt;
  umount_all := fun p => p;
  post_hook_keeps_status := fun _ _ _ _ => eq_refl;
|}.

Lemma started_update_never_boots_old_slot_as_success_witness :
  let bc := mkBootController example_control false in
  booted_status (boot_active FinalizeOk
    (fst (on_operation_failure (HP := example_platform)
       (fst (pre_update (HP := example_platform) false true bc))))) = FAILURE.
Proof.
  cbv zeta.
  apply (started_update_never_boots_old_slot_as_success (HP := example_platform) false true
           (mkBootController example_control false)).
  apply rtc_once. apply as_failure.
Defined.

Lemma completed_update_boots_standby_witness :
  let bc := mkBootController example_control false in
  let bc1 := fst (pre_update (HP := example_good_platform) false true bc) in
  let bc3 := fst (post_update (HP := example_good_platform) "2.0" None None bc1) in
  booted_status (boot_standby FinalizeOk bc3) = SUCCESS /\
  load_active_slot_version (boot_standby FinalizeOk bc3) = "2.0"%string /\
  booted_status (boot_standby FinalizeFailed bc3) = FAILURE.
Proof.
  cbv zeta.
  apply (completed_update_boots_standby (HP := example_good_platform) false true "2.0" None None
           (mkBootController example_control false)
           (fst (pre_update (HP := example_good_platform) false true
              (mkBootController example_control false)))
           (fst (pre_update (HP := example_good_platform) false true
              (mkBootController example_control false)))).
  - split; reflexivity.
  - reflexivity.
  - repeat split.
  - reflexivity.
Defined.
