(* ===== verification/Updater.v ===== *)
(** * The updater

    Models [OTAUpdaterBase] ([src/src/otaclient/ota_core/_updater.py]) with the
    initializer and the finalization of
    [src/src/otaclient/ota_core/_updater_base.py]: the phases of an update and
    the error handling of [execute], on the state of the core process.  The
    work inside the phases (metadata, delta calculation, downloads, applying,
    persisting files, the reboot command) is the interface [UpdaterOps]: what
    each operation may touch is stated as a law ([session_frame]), and the
    abort-handler thread, which runs next to it, may move the abort state
    during any of them. *)

From stdpp Require Import base strings list option sets.
From Stdlib Require Import ZArith String Lia.
From S2P Require Import Prelude Types Errors StatusMonitor AbortHandler OTAStatusControl BootController.

(** What [OTAClient.__init__] sets once the boot controller started. *)
Record ready (P : Type) : Type := mkReady {
  rd_boot : boot_controller P;
  rd_download_threads : Z;
  rd_ca_chains_store : bool;
  rd_ca_store : bool;
}.
Arguments mkReady {P} _ _ _ _.
Arguments rd_boot {P} _.
Arguments rd_download_threads {P} _.
Arguments rd_ca_chains_store {P} _.
Arguments rd_ca_store {P} _.

#[export] Instance eta_ready P : Eta (ready P) := fun r =>
  mkReady (rd_boot r) (rd_download_threads r) (rd_ca_chains_store r) (rd_ca_store r).

(** The state of [OTAClient].  [oc_ready] is [None] when the start-up
    returned early: the attributes are then missing. *)
Record OTAClient (P : Type) : Type := mkOTAClient {
  oc_live : OTAStatus;
  oc_aborted_deadline : option Z;
  oc_started : bool;
  oc_proxy : option string;
  oc_abort : AbortHandler;
  oc_reports : list StatusReport;
  oc_ready : option (ready P);
  oc_shutdown_requested : bool;
}.
Arguments mkOTAClient {P} _ _ _ _ _ _ _ _.
Arguments oc_live {P} _.
Arguments oc_aborted_deadline {P} _.
Arguments oc_started {P} _.
Arguments oc_proxy {P} _.
Arguments oc_abort {P} _.
Arguments oc_reports {P} _.
Arguments oc_ready {P} _.
Arguments oc_shutdown_requested {P} _.

#[export] Instance eta_OTAClient P : Eta (OTAClient P) := fun r =>
  mkOTAClient (oc_live r) (oc_aborted_deadline r) (oc_started r) (oc_proxy r) (oc_abort r)
    (oc_reports r) (oc_ready r) (oc_shutdown_requested r).

(** The abort state of the process, and whether an abort is in progress. *)
Definition aborting {P} (s : OTAClient P) : bool := abort_in_progress (ah_state (oc_abort s)).

Definition boot_of {P} (s : OTAClient P) : option control :=
  (fun r => bc_status (rd_boot r)) <$> oc_ready s.

Definition is_status_payload (r : StatusReport) : bool :=
  match payload r with PStatusChange _ => true | _ => false end.

(** ** What the work of a phase may touch *)

(** The moves of the abort-handler thread while the updater makes no zone
    transition of its own (the steps of [AbortHandler.handler_step]). *)
Definition handler_moves (a b : AbortState) : bool :=
  match a with
  | AS_NONE => bool_decide (b ∈ [AS_NONE; AS_ABORTING; AS_ABORTED])
  | AS_ABORTING => bool_decide (b ∈ [AS_ABORTING; AS_ABORTED])
  | AS_CRITICAL_ZONE => bool_decide (b ∈ [AS_CRITICAL_ZONE; AS_REQUESTED])
  | a => bool_decide (b = a)
  end.

(** [AS_ABORTED] is set after the boot controller recorded the abort. *)
Definition abort_recorded {P} (s : OTAClient P) : Prop :=
  ah_state (oc_abort s) = AS_ABORTED ->
  forall c, boot_of s = Some c -> sd_status (cur_dir c) = Some (OTAStatus_name ABORTED).

(** A frame: the process's own fields are left alone, the report queue only
    grows, by no status-change report unless an abort is in progress, and an
    abort that is complete stays recorded.  [A] bounds the moves of the abort
    state. *)
Record frame_by {P} (A : AbortState -> AbortState -> bool) (s s' : OTAClient P) : Prop := {
  sf_live : oc_live s' = oc_live s;
  sf_deadline : oc_aborted_deadline s' = oc_aborted_deadline s;
  sf_proxy : oc_proxy s' = oc_proxy s;
  sf_ready : is_Some (oc_ready s') <-> is_Some (oc_ready s);
  sf_reports : exists l, oc_reports s' = oc_reports s ++ l /\
    (aborting s' = false -> forallb (fun r => negb (is_status_payload r)) l = true);
  sf_abort : A (ah_state (oc_abort s)) (ah_state (oc_abort s')) = true;
  sf_recorded : abort_recorded s -> abort_recorded s';
}.

Definition aborting_stays (a b : AbortState) : bool :=
  implb (abort_in_progress a) (abort_in_progress b).

(** The work of a phase: only the abort handler moves next to it. *)
Abbreviation session_frame := (frame_by handler_moves).

(** A part of the session with the updater's own zone transitions. *)
Abbreviation exec_frame := (frame_by aborting_stays).

Lemma handler_moves_refl a : handler_moves a a = true.
Proof. by destruct a. Qed.

Lemma handler_moves_stays a b : handler_moves a b = true -> aborting_stays a b = true.
Proof. by destruct a, b. Qed.

Lemma frame_by_preorder {P} (A : AbortState -> AbortState -> bool) :
  (forall a, A a a = true) ->
  (forall a b c, A a b = true -> A b c = true -> A a c = true) ->
  (forall a b, A a b = true -> aborting_stays a b = true) ->
  PreOrder (@frame_by P A).
Proof.
  intros Hrefl Htrans Hstay. split.
  - intros s. split; try done. exists []. by rewrite app_nil_r.
  - intros a b c [A1 A2 A4 A5 (l & A6 & A6') A7 A8] [B1 B2 B4 B5 (l' & B6 & B6') B7 B8].
    split; try congruence; try by rewrite B5.
    + exists (l ++ l'). rewrite B6, A6, app_assoc. split; [done|]. intros Hc.
      rewrite forallb_app, (B6' Hc), andb_true_r. apply A6'.
      apply Hstay in B7. unfold aborting, aborting_stays in *. rewrite Hc in B7.
      by destruct (abort_in_progress _).
    + by eapply Htrans.
    + tauto.
Qed.

#[export] Instance session_frame_preorder P : PreOrder (@frame_by P handler_moves).
Proof.
  apply frame_by_preorder; [apply handler_moves_refl|by intros [] [] []|apply handler_moves_stays].
Qed.

#[export] Instance exec_frame_preorder P : PreOrder (@frame_by P aborting_stays).
Proof. apply frame_by_preorder; [by intros []|by intros [] [] []|done]. Qed.

Lemma session_exec_frame {P} (s s' : OTAClient P) : session_frame s s' -> exec_frame s s'.
Proof. intros [? ? ? ? ? ? ?]. split; try done. by apply handler_moves_stays. Qed.

(** Inside the critical zone: the zone is not left, and the frame holds. *)
Definition zone_frame {P} (s s' : OTAClient P) : Prop :=
  in_zone (ah_state (oc_abort s)) = true ->
  exec_frame s s' /\ in_zone (ah_state (oc_abort s')) = true.

#[export] Instance zone_frame_preorder P : PreOrder (@zone_frame P).
Proof.
  split; [by intros s|]. intros a b c H1 H2 Hz. destruct (H1 Hz) as [E1 Z1].
  destruct (H2 Z1) as [E2 Z2]. split; [by etransitivity|done].
Qed.

Lemma session_zone_frame {P} (s s' : OTAClient P) : session_frame s s' -> zone_frame s s'.
Proof.
  intros H Hz. split; [by apply session_exec_frame|].
  pose proof (sf_abort _ _ _ H) as Ha. by destruct (ah_state (oc_abort s)), (ah_state (oc_abort s')).
Qed.

(** ** The interface to the work of the phases *)

Class UpdaterOps (P Cfg : Type) : Type := {
  op_phase_time : UpdatePhase -> Z;
  op_setup : PyM (OTAClient P) pyexn unit;
  op_process_metadata : PyM (OTAClient P) pyexn unit;
  op_can_use_in_place_mode : PyM (OTAClient P) pyexn bool;
  op_save_file_table (use_inplace_mode : bool) : PyM (OTAClient P) pyexn unit;
  op_calculate_delta : PyM (OTAClient P) pyexn (Z * Z);
  op_download_delta_resources : PyM (OTAClient P) pyexn unit;
  op_update_slot : PyM (OTAClient P) pyexn unit;
  op_process_persistents : PyM (OTAClient P) pyexn Cfg;
  op_wait_sub_ecus : PyM (OTAClient P) pyexn unit;
  op_finalizing_update : PyM (OTAClient P) pyexn unit;
  op_setup_frame : keeps session_frame op_setup;
  op_process_metadata_frame : keeps session_frame op_process_metadata;
  op_can_use_in_place_mode_frame : keeps session_frame op_can_use_in_place_mode;
  op_save_file_table_frame : forall b, keeps session_frame (op_save_file_table b);
  op_calculate_delta_frame : keeps session_frame op_calculate_delta;
  op_download_delta_resources_frame : keeps session_frame op_download_delta_resources;
  op_update_slot_frame : keeps session_frame op_update_slot;
  op_process_persistents_frame : keeps session_frame op_process_persistents;
  op_wait_sub_ecus_frame : keeps session_frame op_wait_sub_ecus;
  op_finalizing_update_frame : keeps session_frame op_finalizing_update;
  (** [finalizing_update] is declared [NoReturn]: the process ends in it. *)
  op_finalizing_update_no_return : forall s,
    exists e, snd (op_finalizing_update s) = Raise e /\ is_exception e = false;
}.

#[export] Hint Resolve op_setup_frame op_process_metadata_frame op_can_use_in_place_mode_frame
  op_save_file_table_frame op_calculate_delta_frame op_download_delta_resources_frame
  op_update_slot_frame op_process_persistents_frame op_wait_sub_ecus_frame
  op_finalizing_update_frame : ota.

(** ** Primitive actions on the process state *)

Section Actions.
Context {P : Type}.
Abbreviation OC := (PyM (OTAClient P) pyexn).

(** [self._status_report_queue.put_nowait(...)] *)
Definition put_report (r : StatusReport) : OC unit :=
  modify (fun s => s <| oc_reports := oc_reports s ++ [r] |>).

(** A zone transition of the abort handler. *)
Definition on_abort_handler {A} (m : PyM AbortHandler pyexn A) : OC A := fun s =>
  match m (oc_abort s) with (h, r) => (s <| oc_abort := h |>, r) end.

(** [self.<name>], for the attributes the start-up sets. *)
Definition attribute {A} (name : string) (f : ready P -> A) : OC A := fun s =>
  match oc_ready s with
  | Some r => (s, Ok (f r))
  | None =>
      (s, Raise (PyExn XAttributeError
         [AStr ("'OTAClient' object has no attribute '" +:+ name +:+ "'")%string] None None))
  end.

(** A call of a boot controller method. *)
Definition on_boot {A} (m : PyM (boot_controller P) pyexn A) : OC A := fun s =>
  match oc_ready s with
  | Some r =>
      match m (rd_boot r) with
      | (bc, res) => (s <| oc_ready := Some (r <| rd_boot := bc |>) |>, res)
      end
  | None =>
      (s, Raise (PyExn XAttributeError
         [AStr "'OTAClient' object has no attribute 'boot_controller'"] None None))
  end.

(** [with self._abort_handler.critical_zone(): body] *)
Definition in_critical_zone {A} (body : OC A) : OC A :=
  _ ← on_abort_handler enter_critical_zone;
  try_finally body (on_abort_handler exit_critical_zone).
End Actions.

(** ** The phases of [OTAUpdaterBase] *)

Definition updater_module : string := "otaclient.ota_core._updater".

Section Phases.
Context {P Cfg : Type} `{HP : !PlatformHooks P Cfg} `{HU : !UpdaterOps P Cfg}.
Abbreviation OC := (PyM (OTAClient P) pyexn).

(** [self._report_phase(phase)], and the reports written out likewise. *)
Definition report_phase (sid : string) (p : UpdatePhase) : OC unit :=
  put_report (mkStatusReport
    (PPhaseChange (mkOTAUpdatePhaseChangeReport p (op_phase_time p))) sid).

Definition report_meta (sid : string) (m : UpdateMeta) : OC unit :=
  put_report (mkStatusReport (PSetUpdateMeta (mkSetUpdateMetaReport m 0)) sid).

(** [OTAUpdateInitializer.__init__] *)
Definition initialize_update (r : UpdateRequestV2) : OC unit :=
  let sid := ur_session_id r in
  _ ← report_phase sid PHASE_INITIALIZING;
  _ ← report_meta sid (new_UpdateMeta <| update_firmware_version := ur_version r |>);
  op_setup.

Definition pre_update_phase : OC unit :=
  use_inplace_mode ← op_can_use_in_place_mode;
  _ ← on_boot (pre_update use_inplace_mode (negb use_inplace_mode));
  op_save_file_table use_inplace_mode.

(** The [except] clauses around [update_slot]. *)
Definition apply_update : OC unit :=
  try_except op_update_slot (fun e =>
    if is_ota_error e || negb (is_exception e) then raise e
    else if is_caused_by_enospc e then
      raise (ota_error (Unrec StandbySlotInsufficientSpace)
        ("no space left on standby slot when applying update: " +:+ exn_repr e)%string
        updater_module (Some e))
    else
      raise (ota_error (Unrec ApplyOTAUpdateFailed)
        ("failed to apply update to standby slot: " +:+ exn_repr e)%string
        updater_module (Some e))).

Definition in_update (sid : string) : OC unit :=
  delta ← op_calculate_delta;
  _ ← report_phase sid DOWNLOADING_OTA_FILES;
  _ ← report_meta sid (new_UpdateMeta <| total_download_files_num := fst delta |>
                         <| total_download_files_size := snd delta |>);
  _ ← op_download_delta_resources;
  _ ← report_phase sid APPLYING_UPDATE;
  apply_update.

Definition request_version_detail (r : UpdateRequestV2) : option VersionDetail :=
  if str_truthy (ur_release_name r) && str_truthy (ur_release_id r) && str_truthy (ur_image_id r)
  then Some (mkVersionDetail (ur_release_name r) (ur_release_id r) (ur_image_id r))
  else None.

Definition post_update_phase (r : UpdateRequestV2) : OC unit :=
  _ ← report_phase (ur_session_id r) PROCESSING_POSTUPDATE;
  cfg ← op_process_persistents;
  on_boot (post_update (ur_version r) (request_version_detail r) (Some cfg)).

(** [_finalize_update_and_reboot] *)
Definition finalize_update (sid : string) : OC unit :=
  _ ← report_phase sid FINALIZING_UPDATE;
  _ ← op_wait_sub_ecus;
  op_finalizing_update.

Definition is_abort_signal (e : pyexn) : bool :=
  bool_decide (ota_class e = Some (Rec OTAAbortSignal)).

(** The [except] clauses of [execute]. *)
Definition execute_except (e : pyexn) : OC unit :=
  if is_abort_signal e || negb (is_exception e) then raise e
  else
    s ← get;
    if aborting s then
      raise (ota_error (Rec OTAAbortSignal) "abort in progress" updater_module (Some e))
    else
      _ ← on_boot on_operation_failure;
      if is_ota_error e then raise e
      else raise (ota_error (Unrec ApplyOTAUpdateFailed)
             ("unspecific error, update failed: " +:+ exn_repr e)%string updater_module (Some e)).

Definition execute (r : UpdateRequestV2) : OC unit :=
  try_except
    (_ ← op_process_metadata;
     _ ← in_critical_zone
           (raise_as_ota_error (Unrec PreUpdateFailed) "pre-update failed" updater_module
              pre_update_phase);
     _ ← in_update (ur_session_id r);
     _ ← on_abort_handler enter_final_phase;
     _ ← raise_as_ota_error (Unrec PostUpdateFailed) "post-update failed" updater_module
           (post_update_phase r);
     finalize_update (ur_session_id r))
    execute_except.
End Phases.

(** ** The frame of a session *)

Section Frames.
Context {P Cfg : Type} `{HP : !PlatformHooks P Cfg} `{HU : !UpdaterOps P Cfg}.
Abbreviation OC := (PyM (OTAClient P) pyexn).

Lemma put_report_frame (r : StatusReport) :
  is_status_payload r = false -> keeps session_frame (put_report r : OC unit).
Proof.
  intros Hr s. split; try done; simpl; [|apply handler_moves_refl].
  exists [r]. split; [done|]. intros _. simpl. by rewrite Hr.
Qed.

Lemma report_phase_frame sid p : keeps session_frame (report_phase sid p : OC unit).
Proof. by apply put_report_frame. Qed.

Lemma report_meta_frame sid m : keeps session_frame (report_meta sid m : OC unit).
Proof. by apply put_report_frame. Qed.

Hint Resolve report_phase_frame report_meta_frame : ota.

Lemma initialize_update_frame r : keeps session_frame (initialize_update r).
Proof. unfold initialize_update. eauto 10 with ota typeclass_instances. Qed.

Lemma apply_update_frame : keeps session_frame apply_update.
Proof.
  apply keeps_try_except; [apply _|apply op_update_slot_frame|]. intros e.
  destruct (_ || _), (is_caused_by_enospc e); by apply keeps_raise, _.
Qed.

Hint Resolve apply_update_frame : ota.

Lemma in_update_frame sid : keeps session_frame (in_update sid).
Proof. unfold in_update. repeat (apply keeps_bind; [apply _| |intros ?]); eauto with ota. Qed.

Lemma finalize_update_frame sid : keeps session_frame (finalize_update sid).
Proof. unfold finalize_update. repeat (apply keeps_bind; [apply _| |intros ?]); eauto with ota. Qed.

(** A boot controller method that keeps the active slot's files. *)
Lemma on_boot_frame {A} (m : PyM (boot_controller P) pyexn A) :
  keeps same_active m -> keeps session_frame (on_boot m).
Proof.
  intros Hm s. unfold on_boot. destruct (oc_ready s) as [r|] eqn:Er; [|done].
  specialize (Hm (rd_boot r)). destruct (m (rd_boot r)) as [bc res] eqn:E. simpl in Hm |- *.
  split; simpl; [done|done|done|by rewrite Er; split; eauto|by exists []; rewrite app_nil_r
                |apply handler_moves_refl|].
  intros Hr Hs c [= <-]. simpl. destruct Hm as (_ & _ & ->).
  apply Hr; [done|]. unfold boot_of. by rewrite Er.
Qed.

(** Any boot controller method, while no abort is complete. *)
Lemma on_boot_exec_frame {A} (m : PyM (boot_controller P) pyexn A) s :
  ah_state (oc_abort s) <> AS_ABORTED -> exec_frame s (fst (on_boot m s)).
Proof.
  intros Hne. unfold on_boot. destruct (oc_ready s) as [r|] eqn:Er; [|done].
  destruct (m (rd_boot r)) as [bc res]. simpl.
  split; simpl; [done|done|done|by rewrite Er; split; eauto|by exists []; rewrite app_nil_r
                |by destruct (ah_state _)|by intros _ Hs].
Qed.

Lemma on_boot_same_abort {A} (m : PyM (boot_controller P) pyexn A) s :
  oc_abort (fst (on_boot m s)) = oc_abort s.
Proof.
  unfold on_boot. destruct (oc_ready s); [|done]. by destruct (m _).
Qed.

Lemma pre_update_phase_zone : keeps zone_frame pre_update_phase.
Proof.
  unfold pre_update_phase. apply keeps_bind; [apply _| |intros b; apply keeps_bind; [apply _| |intros _]].
  - eapply keeps_weaken, op_can_use_in_place_mode_frame. apply session_zone_frame.
  - intros s Hz. rewrite on_boot_same_abort. split; [|done]. apply on_boot_exec_frame.
    by destruct (ah_state (oc_abort s)).
  - eapply keeps_weaken, op_save_file_table_frame. apply session_zone_frame.
Qed.

(** Changing only the abort state. *)
Lemma abort_state_frame (s : OTAClient P) h :
  aborting_stays (ah_state (oc_abort s)) (ah_state h) = true ->
  (ah_state h = AS_ABORTED -> ah_state (oc_abort s) = AS_ABORTED) ->
  exec_frame s (s <| oc_abort := h |>).
Proof.
  intros Ha Hb. split; try done; simpl; [by exists []; rewrite app_nil_r|].
  intros Hr Hs c Hc. apply Hr; [by apply Hb|done].
Qed.

Lemma in_critical_zone_frame {A} (body : OC A) :
  keeps zone_frame body -> keeps exec_frame (in_critical_zone body).
Proof.
  intros Hb s. unfold in_critical_zone, mbind, pym_bind, on_abort_handler.
  unfold enter_critical_zone at 1, mbind, pym_bind, get, raise, modify.
  destruct (abort_in_progress (ah_state (oc_abort s))) eqn:Ea.
  { simpl. by apply abort_state_frame; [destruct (ah_state _)|]. }
  set (s1 := s <| oc_abort := _ |>). cbn [fst snd].
  assert (H1 : exec_frame s s1) by (apply abort_state_frame; [by destruct (ah_state _)|done]).
  destruct (Hb s1 eq_refl) as [H2 Hz]. unfold try_finally. destruct (body s1) as [s2 r]. simpl in H2, Hz.
  etransitivity; [exact H1|]. etransitivity; [exact H2|].
  unfold exit_critical_zone, mbind, pym_bind, get, raise, modify.
  destruct (ah_state (oc_abort s2)) eqn:E2; try done; simpl;
    by apply abort_state_frame; rewrite E2.
Qed.

Lemma enter_final_phase_frame : keeps exec_frame (on_abort_handler enter_final_phase : OC unit).
Proof.
  intros s. unfold on_abort_handler, enter_final_phase, mbind, pym_bind, get, raise, modify.
  destruct (abort_in_progress (ah_state (oc_abort s))) eqn:Ea; simpl;
    (apply abort_state_frame; [|done]); simpl; by destruct (ah_state (oc_abort s)).
Qed.

Lemma post_update_phase_frame r : keeps session_frame (post_update_phase r).
Proof.
  unfold post_update_phase. repeat (apply keeps_bind; [apply _| |intros ?]); eauto with ota.
  apply on_boot_frame, post_update_same_active.
Qed.

Lemma execute_except_frame e : keeps exec_frame (execute_except e).
Proof.
  unfold execute_except. destruct (_ || _); [by apply keeps_raise, _|].
  intros s. unfold mbind at 1, pym_bind at 1, get. destruct (aborting s) eqn:Ea; [done|].
  unfold mbind, pym_bind. pose proof (on_boot_exec_frame on_operation_failure s) as Hf.
  destruct (on_boot on_operation_failure s) as [s' [[]|e']]; simpl in Hf.
  - destruct (is_ota_error e); simpl; apply Hf; intros Hs;
      unfold aborting in Ea; by rewrite Hs in Ea.
  - apply Hf. intros Hs; unfold aborting in Ea; by rewrite Hs in Ea.
Qed.

Lemma execute_frame r : keeps exec_frame (execute r).
Proof.
  apply keeps_try_except; [apply _| |apply execute_except_frame].
  assert (Hw : forall A (m : OC A), keeps session_frame m -> keeps exec_frame m)
    by (intros A m; apply keeps_weaken, session_exec_frame).
  apply keeps_bind; [apply _|apply Hw; eauto with ota|intros _].
  apply keeps_bind; [apply _|apply in_critical_zone_frame, raise_as_keeps, pre_update_phase_zone; apply _|intros _].
  apply keeps_bind; [apply _|apply Hw, in_update_frame|intros _].
  apply keeps_bind; [apply _|apply enter_final_phase_frame|intros _].
  apply keeps_bind; [apply _|apply Hw, raise_as_keeps, post_update_phase_frame; apply _|intros _].
  apply Hw, finalize_update_frame.
Qed.

(** [execute] never returns: it ends in an exception, or in the reboot. *)
Lemma bind_never_ok {S E A B} (m : PyM S E A) (k : A -> PyM S E B) :
  (forall a s, is_ok (snd (k a s)) = false) -> forall s, is_ok (snd ((m ≫= k) s)) = false.
Proof.
  intros Hk s. unfold mbind, pym_bind. destruct (m s) as [s' [a|e]]; [apply Hk|done].
Qed.

Lemma finalize_update_never_ok sid s : is_ok (snd (finalize_update sid s)) = false.
Proof.
  revert s. do 2 (apply bind_never_ok; intros _). intros s.
  by destruct (op_finalizing_update_no_return s) as (e & -> & _).
Qed.

Lemma execute_except_never_ok e s : is_ok (snd (execute_except e s)) = false.
Proof.
  unfold execute_except. destruct (_ || _); [done|]. revert s. apply bind_never_ok. intros s' s.
  destruct (aborting s'); [done|]. revert s. apply bind_never_ok. intros _ s.
  by destruct (is_ota_error e).
Qed.

Lemma execute_never_ok r s : is_ok (snd (execute r s)) = false.
Proof.
  unfold execute, try_except.
  match goal with |- context [match ?m with _ => _ end] => destruct m as [s' [[]|e]] eqn:E end.
  - exfalso. revert E.
    match goal with |- ?m = _ -> _ => assert (is_ok (snd m) = false) as Hm end.
    { revert s. do 5 (apply bind_never_ok; intros _). apply finalize_update_never_ok. }
    intros Heq. by rewrite Heq in Hm.
  - apply execute_except_never_ok.
Qed.
End Frames.
