(* ===== verification/OTACore.v ===== *)
(** * The core process

    Models [src/src/otaclient/ota_core/_main.py]: [OTAClient] with its start-up,
    the two operations it runs in threads ([update], [client_update]) and the
    request loop ([main]).  The image-specific updaters are instances of
    [UpdaterOps]; the outcomes of the network probes are inputs. *)

From stdpp Require Import base strings list option sets relations.
From Stdlib Require Import ZArith String Lia.
From S2P Require Import Prelude Types Errors StatusMonitor AbortHandler OTAStatusControl BootController Updater.

Definition OP_CHECK_INTERVAL : Z := 1.
Definition HOLD_REQ_HANDLING_ON_ACK_REQUEST : Z := 16.
Definition HOLD_REQ_HANDLING_ON_ACK_CLIENT_UPDATE_REQUEST : Z := 4.
Definition ABORTED_STATUS_REPORT_DURATION : Z := 5 * 60.
Definition main_module : string := "otaclient.ota_core._main".

(** What a session finds outside the process: the probe of the upper proxy,
    the cookies as [json.loads] reads them, the kind of image the server
    hosts, the kind of boot controller, and the updaters. *)
Record session_env (P Cfg : Type) : Type := mkSessionEnv {
  se_upper_proxy : result pyexn unit;
  se_cookies : json_loaded;
  se_is_image_v1 : result pyexn bool;
  se_partition_layout : bool;
  se_legacy : UpdaterOps P Cfg;
  se_v1 : UpdaterOps P Cfg;
  se_partition : UpdateRequestV2 -> PyM (OTAClient P) pyexn unit;
  se_client_updater : UpdateRequestV2 -> PyM (OTAClient P) pyexn unit;
  se_dynamic_client : bool;
  se_downloaded_dynamic_app : bool;
  se_traceback : pyexn -> string;
}.
Arguments se_upper_proxy {P Cfg} _.
Arguments se_cookies {P Cfg} _.
Arguments se_is_image_v1 {P Cfg} _.
Arguments se_partition_layout {P Cfg} _.
Arguments se_legacy {P Cfg} _.
Arguments se_v1 {P Cfg} _.
Arguments se_partition {P Cfg} _.
Arguments se_client_updater {P Cfg} _.
Arguments se_dynamic_client {P Cfg} _.
Arguments se_downloaded_dynamic_app {P Cfg} _.
Arguments se_traceback {P Cfg} _.

(** What the updaters that are not built from [UpdaterOps] promise: the
    partition updater runs to the reboot or to an exception, in the frame of
    a session, and so does the client updater, which may also return. *)
Record env_ok {P Cfg} (env : session_env P Cfg) : Prop := {
  partition_frame : forall r, keeps exec_frame (se_partition env r);
  partition_never_ok : forall r s, is_ok (snd (se_partition env r s)) = false;
  client_updater_frame : forall r, keeps exec_frame (se_client_updater env r);
}.

Section Core.
Context {P Cfg : Type} `{HP : !PlatformHooks P Cfg}.
Abbreviation OC := (PyM (OTAClient P) pyexn).

Definition set_live (st : OTAStatus) : OC unit := modify (fun s => s <| oc_live := st |>).

(** A status-change report without failure information. *)
Definition report_ota_status (st : OTAStatus) (sid : string) : OC unit :=
  put_report (mkStatusReport (PStatusChange (status_change st)) sid).

Definition failure_report (ft : FailureType) (reason tb : string) : StatusReport :=
  mkStatusReport (PStatusChange (mkOTAStatusChangeReport FAILURE ft reason tb)) EmptyString.

(** [_on_failure] *)
Definition report_failure (tb : pyexn -> string) (e : pyexn) (ft : FailureType) (reason : string) :
    OC unit := put_report (failure_report ft reason (tb e)).

(** [create_downloader_pool]: the argument [self._download_threads] is read
    first, then the cookies are checked. *)
Definition create_downloader_pool (loaded : json_loaded) : OC unit :=
  _ ← attribute "_download_threads" rd_download_threads;
  _ ← from_result (prepare_cookies loaded);
  mret tt.

Definition ensure_upper_proxy (env : session_env P Cfg) : OC unit :=
  p ← gets oc_proxy;
  match p with
  | Some p => if str_truthy p then from_result (handle_upper_proxy p (se_upper_proxy env)) else mret tt
  | None => mret tt
  end.

Definition no_ca_error : pyexn :=
  ota_error (Unrec CACertNotInstalled) "no CA chains are installed, reject any OTA update"
    main_module None.

(** The [try] body of [update]: the updater is chosen and executed. *)
Definition run_updater (env : session_env P Cfg) (r : UpdateRequestV2) : OC unit :=
  _ ← ensure_upper_proxy env;
  _ ← create_downloader_pool (se_cookies env);
  v1 ← from_result (se_is_image_v1 env);
  if (v1 : bool) then
    ca_store ← attribute "ca_store" rd_ca_store;
    if negb ca_store then raise no_ca_error
    else if se_partition_layout env then se_partition env r
    else _ ← initialize_update (HU := se_v1 env) r; execute (HU := se_v1 env) r
  else
    ca_chains_store ← attribute "ca_chains_store" rd_ca_chains_store;
    if negb ca_chains_store then raise no_ca_error
    else if se_partition_layout env then
      raise (ota_error (Rec OTAImageInvalid)
        "a legacy OTA image cannot be applied to a partition-based layout; this ECU takes the partition-based payload of a v1 OTA image"
        main_module None)
    else _ ← initialize_update (HU := se_legacy env) r; execute (HU := se_legacy env) r.

(** [_ota_err] of the [except Exception] clause. *)
Definition as_ota_error (e : pyexn) : OTAErrorClass * list pyarg :=
  match exn_cls e with
  | XOTA c _ => (c, exn_args e)
  | _ => (Unrec OTAErrorUnrecoverable,
          [AStr ("unexpected error during OTA update: " +:+ exn_repr e)%string])
  end.

(** The [except] clauses of [update]. *)
Definition update_except (env : session_env P Cfg) (sid : string) (e : pyexn) : OC unit :=
  if negb (is_exception e) then raise e
  else if is_abort_signal e then
    _ ← set_live ABORTED; report_ota_status ABORTED sid
  else
    let '(cls, args) := as_ota_error e in
    s ← get;
    if aborting s then
      _ ← set_live ABORTED; report_ota_status ABORTED sid
    else
      _ ← set_live FAILURE;
      let reason := get_failure_reason cls args in
      let ft := class_failure_type cls in
      _ ← report_failure (se_traceback env) e ft reason;
      try_except (on_boot (on_status (store_failure_info ft reason))) (fun e =>
        if is_exception e then mret tt else raise e).

(** [_exit_from_dynamic_client] *)
Definition exit_from_dynamic_client (env : session_env P Cfg) : OC unit :=
  if se_dynamic_client env then modify (fun s => s <| oc_shutdown_requested := true |>)
  else mret tt.

Definition update (env : session_env P Cfg) (r : UpdateRequestV2) : OC unit :=
  let sid := ur_session_id r in
  _ ← modify (fun s => s <| oc_abort := set_session sid (oc_abort s) |>);
  _ ← set_live UPDATING;
  _ ← report_ota_status UPDATING sid;
  try_finally
    (try_except (run_updater env r) (update_except env sid))
    (exit_from_dynamic_client env).

Definition client_update (env : session_env P Cfg) (r : UpdateRequestV2) : OC unit :=
  if se_downloaded_dynamic_app env then mret tt
  else
    let sid := ur_session_id r in
    _ ← set_live CLIENT_UPDATING;
    _ ← report_ota_status CLIENT_UPDATING sid;
    _ ← ensure_upper_proxy env;
    _ ← create_downloader_pool (se_cookies env);
    try_except
      (ca_chains_store ← attribute "ca_chains_store" rd_ca_chains_store;
       if negb ca_chains_store then raise no_ca_error
       else _ ← attribute "boot_controller" rd_boot; se_client_updater env r)
      (fun e =>
         if is_ota_error e then _ ← set_live SUCCESS; report_ota_status SUCCESS sid
         else if is_exception e then modify (fun s => s <| oc_shutdown_requested := true |>)
         else raise e).

(** ** Start-up: [OTAClient.__init__] *)

Definition new_OTAClient (proxy : option string) : OTAClient P :=
  mkOTAClient INITIALIZED None false proxy new_AbortHandler [] None false.

(** A start-up failure is reported; the constructor then returns. *)
Definition startup_failure (tb : pyexn -> string) (e : pyexn) (cls : OTAErrorClass)
    (args : list pyarg) (s : OTAClient P) : OTAClient P :=
  s <| oc_reports := oc_reports s ++
         [failure_report (class_failure_type cls) (get_failure_reason cls args) (tb e)] |>.

(** [get_type] is the outcome of [get_boot_controller], [make] that of the
    boot controller's constructor, [failure_info_ok] whether reading the
    failure info raised. *)
Definition start_up (proxy : option string) (tb : pyexn -> string) (get_type : result pyexn unit)
    (make : result pyexn (boot_controller P)) (download_threads monotonic : Z)
    (ca_chains_store ca_store failure_info_ok : bool) : OTAClient P :=
  let s := new_OTAClient proxy in
  match get_type with
  | Raise e =>
      startup_failure tb e (Unrec BootControlPlatformUnsupported)
        [AStr ("failed to determine boot controller: " +:+ exn_repr e)%string] s
  | Ok _ =>
      match make with
      | Raise e =>
          match exn_cls e with
          | XOTA c _ => startup_failure tb e c (exn_args e) s
          | _ => startup_failure tb e (Unrec BootControlStartupFailed)
                   [AStr ("boot controller startup failed: " +:+ exn_repr e)%string] s
          end
      | Ok bc =>
          let c := bc_status bc in
          let booted := booted_status c in
          let '(ft, reason) :=
            if failure_info_ok then default (NO_FAILURE, EmptyString) (load_booted_failure_info c)
            else (NO_FAILURE, EmptyString) in
          s <| oc_ready := Some (mkReady bc download_threads ca_chains_store ca_store) |>
            <| oc_live := booted |>
            <| oc_aborted_deadline :=
                 if bool_decide (booted = ABORTED)
                 then Some (monotonic + ABORTED_STATUS_REPORT_DURATION) else None |>
            <| oc_reports :=
                 [mkStatusReport (PSetOTAClientMeta (load_active_slot_version c)
                    (load_version_detail_from_dir (cur_dir c))) EmptyString;
                  mkStatusReport (PStatusChange
                    (mkOTAStatusChangeReport booted ft reason EmptyString)) EmptyString] |>
            <| oc_started := true |>
      end
  end.

(** ** The request loop *)

Definition is_busy (s : OTAClient P) : bool := busy_status (oc_live s).

Definition expire_aborted_status_report (now : Z) (s : OTAClient P) : OTAClient P :=
  match oc_aborted_deadline s with
  | None => s
  | Some deadline =>
      if now <? deadline then s
      else
        let s := s <| oc_aborted_deadline := None |> in
        if bool_decide (oc_live s <> ABORTED) then s
        else
          s <| oc_live := INITIALIZED |>
            <| oc_reports := oc_reports s ++
                 [mkStatusReport (PStatusChange (status_change INITIALIZED)) EmptyString] |>
  end.
End Core.

(** The state of [main]: the process, [_allow_request_after], the responses
    sent and the threads started, in order. *)
Record main_state (P : Type) : Type := mkMainState {
  m_core : OTAClient P;
  m_allow_request_after : Z;
  m_responses : list IPCResponse;
  m_started : list (Z * IPCRequest);
}.
Arguments mkMainState {P} _ _ _ _.
Arguments m_core {P} _.
Arguments m_allow_request_after {P} _.
Arguments m_responses {P} _.
Arguments m_started {P} _.

#[export] Instance eta_main_state P : Eta (main_state P) := fun r =>
  mkMainState (m_core r) (m_allow_request_after r) (m_responses r) (m_started r).

Section Main.
Context {P : Type}.

Definition respond (r : IPCResponse) (m : main_state P) : main_state P :=
  m <| m_responses := m_responses m ++ [r] |>.

(** An accepted request: the thread is started, the response sent, further
    requests held. *)
Definition accept_request (now hold : Z) (q : IPCRequest) (m : main_state P) : main_state P :=
  let m := m <| m_started := m_started m ++ [(now, q)] |> in
  let m := respond (mkIPCResponse ACCEPT (req_session_id q) EmptyString) m in
  m <| m_allow_request_after := now + hold |>
    <| m_core := (m_core m) <| oc_aborted_deadline := None |> |>.

(** One round of the loop: [now] and [monotonic] are the clock readings,
    [handled] runs the abort-handler thread while the loop waits for its
    response, [repr] renders messages. *)
Definition main_round (repr : IPCRequest -> OTAClient P -> string)
    (handled : AbortHandler -> AbortHandler) (now monotonic : Z)
    (request : option IPCRequest) (m : main_state P) : main_state P :=
  let m := m <| m_core := expire_aborted_status_report monotonic (m_core m) |> in
  match request with
  | None => m
  | Some (ReqAbort a) =>
      let h := handled (submit a (oc_abort (m_core m))) in
      let '(h, resp) := get_response h in
      let m := m <| m_core := (m_core m) <| oc_abort := h |> |> in
      respond (default (mkIPCResponse REJECT_ABORT (ar_session_id a)
                 "abort handler did not respond in time") resp) m
  | Some q =>
      if (now <? m_allow_request_after m) || is_busy (m_core m) then
        respond (mkIPCResponse REJECT_BUSY (req_session_id q) (repr q (m_core m))) m
      else
        match q with
        | ReqUpdate _ => accept_request now HOLD_REQ_HANDLING_ON_ACK_REQUEST q m
        | ReqClientUpdate _ => accept_request now HOLD_REQ_HANDLING_ON_ACK_CLIENT_UPDATE_REQUEST q m
        | _ => respond (mkIPCResponse REJECT_OTHER (req_session_id q) (repr q (m_core m))) m
        end
  end.
End Main.

Section MainLemmas.
Context {P : Type}.

Lemma expire_keeps_busy t (s : OTAClient P) :
  is_busy s = true -> oc_live (expire_aborted_status_report t s) = oc_live s.
Proof.
  intros Hb. unfold expire_aborted_status_report. destruct (oc_aborted_deadline s); [|done].
  destruct (t <? _); [done|]. simpl. rewrite bool_decide_eq_true_2; [done|].
  intros Hl. unfold is_busy in Hb. by rewrite Hl in Hb.
Qed.

Lemma main_round_busy repr handled now mono q (m : main_state P) :
  is_busy (m_core m) = true ->
  m_started (main_round repr handled now mono (Some q) m) = m_started m.
Proof.
  intros Hb. unfold main_round.
  assert (Hb' : is_busy (expire_aborted_status_report mono (m_core m)) = true)
    by (unfold is_busy; by rewrite expire_keeps_busy).
  destruct q; simpl; rewrite ?Hb', ?orb_true_r; try done.
  by destruct (get_response _).
Qed.
End MainLemmas.

(** ** Lemmas *)

Section Lemmas.
Context {P Cfg : Type} `{HP : !PlatformHooks P Cfg}.
Abbreviation OC := (PyM (OTAClient P) pyexn).

Lemma attribute_frame {A} n (f : ready P -> A) : keeps exec_frame (attribute n f).
Proof. intros s. unfold attribute. by destruct (oc_ready s). Qed.

Lemma create_downloader_pool_frame j : keeps exec_frame (create_downloader_pool j : OC unit).
Proof.
  unfold create_downloader_pool. apply keeps_bind; [apply _|apply attribute_frame|intros _].
  apply keeps_bind; [apply _|by apply keeps_from_result, _|intros _]. by apply keeps_ret, _.
Qed.

Lemma ensure_upper_proxy_frame (env : session_env P Cfg) : keeps exec_frame (ensure_upper_proxy env).
Proof.
  apply keeps_bind; [apply _|by apply keeps_gets, _|]. intros [p|]; [|by apply keeps_ret, _].
  destruct (str_truthy p); [by apply keeps_from_result, _|by apply keeps_ret, _].
Qed.

Lemma session_frame_execute (HU : UpdaterOps P Cfg) r :
  keeps exec_frame (_ ← initialize_update r; execute r).
Proof.
  apply keeps_bind; [apply _| |intros _; apply execute_frame].
  eapply keeps_weaken, initialize_update_frame. apply session_exec_frame.
Qed.

Lemma run_updater_frame (env : session_env P Cfg) r :
  env_ok env -> keeps exec_frame (run_updater env r).
Proof.
  intros He. unfold run_updater.
  apply keeps_bind; [apply _|apply ensure_upper_proxy_frame|intros _].
  apply keeps_bind; [apply _|apply create_downloader_pool_frame|intros _].
  apply keeps_bind; [apply _|by apply keeps_from_result, _|].
  intros []; (apply keeps_bind; [apply _|apply attribute_frame|intros []]);
    cbn [negb]; try by apply keeps_raise, _.
  - destruct (se_partition_layout env); [by apply partition_frame|apply session_frame_execute].
  - destruct (se_partition_layout env); [by apply keeps_raise, _|apply session_frame_execute].
Qed.

Lemma run_updater_never_ok (env : session_env P Cfg) r s :
  env_ok env -> is_ok (snd (run_updater env r s)) = false.
Proof.
  intros He. revert s. unfold run_updater. do 2 (apply bind_never_ok; intros _).
  apply bind_never_ok. intros []; apply bind_never_ok; intros [] s; cbn [negb]; try done.
  - destruct (se_partition_layout env); [by apply partition_never_ok|].
    revert s. apply bind_never_ok. intros _. apply execute_never_ok.
  - destruct (se_partition_layout env); [done|].
    revert s. apply bind_never_ok. intros _. apply execute_never_ok.
Qed.

(** The state in which the [try] body of [update] starts. *)
Definition update_started (r : UpdateRequestV2) (s : OTAClient P) : OTAClient P :=
  s <| oc_abort := set_session (ur_session_id r) (oc_abort s) |> <| oc_live := UPDATING |>
    <| oc_reports := oc_reports s ++
         [mkStatusReport (PStatusChange (status_change UPDATING)) (ur_session_id r)] |>.

(** The run of [update], up to its [except] clauses. *)
Lemma update_run (env : session_env P Cfg) r s :
  env_ok env ->
  exists s1 e, run_updater env r (update_started r s) = (s1, Raise e) /\
    exec_frame (update_started r s) s1 /\
    update env r s = try_finally (update_except env (ur_session_id r) e)
                       (exit_from_dynamic_client env) s1.
Proof.
  intros He. pose proof (run_updater_never_ok env r (update_started r s) He) as Hno.
  pose proof (run_updater_frame env r He (update_started r s)) as Hf.
  assert (Hu : update env r s = try_finally (try_except (run_updater env r)
    (update_except env (ur_session_id r))) (exit_from_dynamic_client env) (update_started r s))
    by reflexivity.
  destruct (run_updater env r (update_started r s)) as [s1 [[]|e]] eqn:E; [done|].
  exists s1, e. split_and!; [done|done|]. rewrite Hu.
  unfold try_finally, try_except. by rewrite E.
Qed.

(** What a status report at the end of the queue says. *)
Definition last_reported (s : OTAClient P) : option OTAStatusChangeReport :=
  match last (oc_reports s) with
  | Some (mkStatusReport (PStatusChange r) _) => Some r
  | _ => None
  end.

Lemma last_reported_snoc (s : OTAClient P) l r sid :
  oc_reports s = l ++ [mkStatusReport (PStatusChange r) sid] -> last_reported s = Some r.
Proof. intros H. unfold last_reported. by rewrite H, last_snoc. Qed.

(** The two ways the [except] clauses of [update] end. *)
Definition aborted_state (sid : string) (s : OTAClient P) : OTAClient P :=
  s <| oc_live := ABORTED |>
    <| oc_reports := oc_reports s ++ [mkStatusReport (PStatusChange (status_change ABORTED)) sid] |>.

Definition failed_state (tb : pyexn -> string) (e : pyexn) (s : OTAClient P) : OTAClient P :=
  let '(cls, args) := as_ota_error e in
  let ft := class_failure_type cls in
  let reason := get_failure_reason cls args in
  s <| oc_live := FAILURE |>
    <| oc_reports := oc_reports s ++ [failure_report ft reason (tb e)] |>
    <| oc_ready := (fun r => r <| rd_boot := (rd_boot r) <| bc_status :=
         store_failure_info ft reason (bc_status (rd_boot r)) |> |>) <$> oc_ready s |>.

Lemma update_except_cases (env : session_env P Cfg) sid e s :
  update_except env sid e s =
  if negb (is_exception e) then (s, Raise e)
  else if is_abort_signal e || aborting s then (aborted_state sid s, Ok tt)
  else (failed_state (se_traceback env) e s, Ok tt).
Proof.
  unfold update_except, failed_state. destruct (negb (is_exception e)); [done|].
  destruct (is_abort_signal e); [done|]. destruct (as_ota_error e) as [cls args].
  unfold mbind at 1, pym_bind at 1, get. simpl. destruct (aborting s); [done|].
  unfold try_except, on_boot, set_live, report_failure, put_report, mbind, pym_bind, modify; simpl.
  destruct (oc_ready s) as [rd|] eqn:E; by simpl.
Qed.

Lemma exit_from_dynamic_client_ok (env : session_env P Cfg) s :
  exit_from_dynamic_client env s =
  (if se_dynamic_client env then s <| oc_shutdown_requested := true |> else s, Ok tt).
Proof. unfold exit_from_dynamic_client. by destruct (se_dynamic_client env). Qed.

(** The end of [update] as one equation. *)
Lemma update_ends (env : session_env P Cfg) r s :
  env_ok env ->
  exists s1 e, exec_frame (update_started r s) s1 /\
    let '(s2, res) := update_except env (ur_session_id r) e s1 in
    update env r s =
      (if se_dynamic_client env then s2 <| oc_shutdown_requested := true |> else s2, res).
Proof.
  intros He. destruct (update_run env r s He) as (s1 & e & _ & Hf & Hu). exists s1, e.
  split; [done|]. rewrite Hu. unfold try_finally.
  destruct (update_except env (ur_session_id r) e s1) as [s2 res].
  by rewrite exit_from_dynamic_client_ok.
Qed.
End Lemmas.

(** ** The end of an update beside the abort thread

    The [except] clauses of [update], statement by statement, interleaved with
    the thread of the abort handler: what [update_except] does in one go. *)

Inductive tail_pc : Type :=
| T_except (e : pyexn)                      (** [e] reached the [except] clauses *)
| T_live (st : OTAStatus) (rep : StatusReport) (store : option (FailureType * string))
| T_report (rep : StatusReport) (store : option (FailureType * string))
| T_store (ft : FailureType) (reason : string)
| T_finally
| T_done.

Record tail (P : Type) : Type := mkTail {
  tl_core : OTAClient P;
  tl_pc : tail_pc;
  tl_hpc : handler_pc;
  tl_killed : bool;
}.
Arguments mkTail {P} _ _ _ _.
Arguments tl_core {P} _.
Arguments tl_pc {P} _.
Arguments tl_hpc {P} _.
Arguments tl_killed {P} _.

#[export] Instance eta_tail P : Eta (tail P) := fun r => mkTail (tl_core r) (tl_pc r) (tl_hpc r) (tl_killed r).

Section Tail.
Context {P Cfg : Type} `{HP : !PlatformHooks P Cfg}.
Context (env : session_env P Cfg) (sid : string).

Definition status_report (st : OTAStatus) (sid : string) : StatusReport := mkStatusReport (PStatusChange (status_change st)) sid.

(** The next statement of the update thread. *)
Definition tail_next (pc : tail_pc) (s : OTAClient P) : OTAClient P * tail_pc :=
  match pc with
  | T_except e =>
      if is_abort_signal e then (s, T_live ABORTED (status_report ABORTED sid) None)
      else
        let '(cls, args) := as_ota_error e in
        if aborting s then (s, T_live ABORTED (status_report ABORTED sid) None)
        else
          let ft := class_failure_type cls in
          let reason := get_failure_reason cls args in
          (s, T_live FAILURE (failure_report ft reason (se_traceback env e)) (Some (ft, reason)))
  | T_live st rep store => (s <| oc_live := st |>, T_report rep store)
  | T_report rep store =>
      (fst (put_report rep s), match store with Some (ft, reason) => T_store ft reason | None => T_finally end)
  | T_store ft reason => (fst (on_boot (on_status (store_failure_info ft reason)) s), T_finally)
  | T_finally => (fst (exit_from_dynamic_client env s), T_done)
  | T_done => (s, T_done)
  end.

(** Only the read of the abort handler's state takes its lock. *)
Definition takes_lock (pc : tail_pc) : bool :=
  match pc with T_except e => negb (is_abort_signal e) | _ => false end.

(** The steps of the abort thread: [AbortHandler.handler_step] on the process,
    with the boot controller's [on_abort]. *)
Inductive tail_handler : tail P -> tail P -> Prop :=
| th_get c r q :
    tl_hpc c = H_get -> ah_abort_queue (oc_abort (tl_core c)) = r :: q ->
    tail_handler c (c <| tl_core := (tl_core c) <| oc_abort := (oc_abort (tl_core c)) <| ah_abort_queue := q |> |> |>
                      <| tl_hpc := H_handle r |>)
| th_handle c r h' b :
    tl_hpc c = H_handle r -> handle_request (oc_live (tl_core c)) r (oc_abort (tl_core c)) = (h', b) ->
    tail_handler c (c <| tl_core := (tl_core c) <| oc_abort := h' |> |> <| tl_hpc := if b then H_report false else H_check |>)
| th_check_abort c :
    tl_hpc c = H_check -> ah_state (oc_abort (tl_core c)) = AS_ABORTING -> tail_handler c (c <| tl_hpc := H_report true |>)
| th_check_next c :
    tl_hpc c = H_check -> ah_state (oc_abort (tl_core c)) ∉ [AS_REQUESTED; AS_ABORTING] -> tail_handler c (c <| tl_hpc := H_get |>)
| th_report c b :
    tl_hpc c = H_report b ->
    tail_handler c (c <| tl_core := fst (put_report (status_report ABORTING (ah_session_id (oc_abort (tl_core c)))) (tl_core c)) |>
                      <| tl_hpc := H_on_abort b |>)
| th_on_abort c b s' res :
    tl_hpc c = H_on_abort b -> on_boot bc_on_abort (tl_core c) = (s', res) ->
    tail_handler c (c <| tl_core := s' |> <| tl_hpc := if is_ok res then H_set_aborted b else H_dead |>)
| th_set_aborted c b :
    tl_hpc c = H_set_aborted b ->
    tail_handler c (c <| tl_core := (tl_core c) <| oc_abort := (oc_abort (tl_core c)) <| ah_state := AS_ABORTED |> |> |>
                      <| tl_hpc := H_kill b |>)
| th_kill c b :
    tl_hpc c = H_kill b -> tail_handler c (c <| tl_killed := true |> <| tl_hpc := if b then H_get else H_check |>).

Inductive tail_step : tail P -> tail P -> Prop :=
| ts_update c s' pc' :
    tl_pc c <> T_done -> (takes_lock (tl_pc c) = true -> holds_lock (tl_hpc c) = false) ->
    tail_next (tl_pc c) (tl_core c) = (s', pc') -> tail_step c (c <| tl_core := s' |> <| tl_pc := pc' |>)
| ts_handler c c' : tail_handler c c' -> tail_step c c'
| ts_submit c r : tail_step c (c <| tl_core := (tl_core c) <| oc_abort := submit r (oc_abort (tl_core c)) |> |>).

(** Whether the [ABORTING] report of this abort is out. *)
Definition abort_reported (st : AbortState) (hp : handler_pc) : bool :=
  match hp with
  | H_on_abort _ | H_set_aborted _ | H_kill _ | H_dead => abort_in_progress st
  | H_report _ => false
  | _ => match st with AS_ABORTED => true | _ => false end
  end.

Definition is_aborting_report (r : StatusReport) : Prop := exists sid, r = status_report ABORTING sid.

(** The reports of the tail: what the [except] clauses reported, and what the
    abort thread did, in any order. *)
Inductive tail_reports : option StatusReport -> bool -> list StatusReport -> Prop :=
| TR_none : tail_reports None false []
| TR_own rep : tail_reports (Some rep) false [rep]
| TR_abort ab : is_aborting_report ab -> tail_reports None true [ab]
| TR_own_abort rep ab : is_aborting_report ab -> tail_reports (Some rep) true [rep; ab]
| TR_abort_own rep ab : is_aborting_report ab -> tail_reports (Some rep) true [ab; rep].

(** How far the [except] clauses are: the live status, and the report made. *)
Definition tail_own (st0 : OTAStatus) (pc : tail_pc) (live : OTAStatus) (own : option StatusReport) : Prop :=
  let settled rep := match payload rep with
                     | PStatusChange c => new_ota_status c = ABORTED \/ new_ota_status c = FAILURE
                     | _ => False
                     end in
  let carries rep := match payload rep with PStatusChange c => new_ota_status c = live | _ => False end in
  match pc with
  | T_except _ => live = st0 /\ own = None
  | T_live st rep _ => own = None /\ settled rep /\ match payload rep with PStatusChange c => new_ota_status c = st | _ => False end
  | T_report rep _ => own = None /\ settled rep /\ carries rep
  | T_store _ _ | T_finally | T_done => exists rep, own = Some rep /\ settled rep /\ carries rep
  end.

Record tail_inv (s1 : OTAClient P) (c : tail P) : Prop := mkTailInv {
  ti_handler : handler_at (ah_state (oc_abort (tl_core c))) (tl_hpc c) (tl_killed c) = true;
  ti_reports : exists l own ab, oc_reports (tl_core c) = oc_reports s1 ++ l /\ tail_reports own ab l /\
    tail_own (oc_live s1) (tl_pc c) (oc_live (tl_core c)) own /\
    (ab = true -> abort_reported (ah_state (oc_abort (tl_core c))) (tl_hpc c) = true);
}.

(** The other thread's steps do not touch what the update thread has done. *)
Lemma tail_own_next st0 pc (s s' : OTAClient P) pc' own :
  tail_next pc s = (s', pc') -> tail_own st0 pc (oc_live s) own ->
  oc_abort s' = oc_abort s /\
  exists own' l', oc_reports s' = oc_reports s ++ l' /\ tail_own st0 pc' (oc_live s') own' /\
    ((l' = [] /\ own' = own) \/ exists rep, own = None /\ l' = [rep] /\ own' = Some rep).
Proof using Type.
  intros Hn Ho. destruct pc as [e|st rep store|rep store|ft reason| |]; cbn in Hn.
  - destruct Ho as [_ ->].
    assert (Hs : s' = s /\ exists st rep store, pc' = T_live st rep store /\
      match payload rep with PStatusChange c => new_ota_status c = st /\ (st = ABORTED \/ st = FAILURE) | _ => False end).
    { destruct (is_abort_signal e); [injection Hn as <- <-; split; [done|do 3 eexists; split; [reflexivity|cbn; auto]]|].
      destruct (as_ota_error e) as [cls args].
      destruct (aborting s); injection Hn as <- <-; (split; [done|do 3 eexists; split; [reflexivity|cbn; auto]]). }
    destruct Hs as (-> & st & rep & store & -> & Hp). split; [done|]. exists None, []. rewrite app_nil_r. split_and!; [done| |by left].
    cbn. destruct (payload rep); try done. destruct Hp as [-> Hp]. done.
  - injection Hn as <- <-. split; [done|]. exists own, []. rewrite app_nil_r. split_and!; [done| |by left].
    destruct Ho as (-> & Hs & Hc). cbn. split_and!; [done|done|]. by destruct (payload rep).
  - destruct Ho as (-> & Hs & Hc). injection Hn as <- <-. split; [done|]. exists (Some rep), [rep]. split_and!; [done| |right; by exists rep].
    cbn. destruct store as [[ft reason]|]; by exists rep.
  - unfold on_boot in Hn. destruct (oc_ready s) as [rd|]; [destruct (on_status _ (rd_boot rd))|]; injection Hn as <- <-;
      (split; [done|]; exists own, []; rewrite app_nil_r; split_and!; [done|exact Ho|by left]).
  - unfold exit_from_dynamic_client in Hn. destruct (se_dynamic_client env); injection Hn as <- <-;
      (split; [done|]; exists own, []; rewrite app_nil_r; split_and!; [done|exact Ho|by left]).
  - injection Hn as <- <-. split; [done|]. exists own, []. rewrite app_nil_r. split_and!; [done|exact Ho|by left].
Qed.

Lemma tail_update_inv s1 c s' pc' :
  tail_inv s1 c -> tail_next (tl_pc c) (tl_core c) = (s', pc') -> tail_inv s1 (c <| tl_core := s' |> <| tl_pc := pc' |>).
Proof using Type.
  intros [Hh (l & own & ab & Hl & Hr & Ho & Ha)] Hn.
  destruct (tail_own_next _ _ _ _ _ _ Hn Ho) as (Hab & own' & l' & Hl' & Ho' & Hcase).
  split; cbn; rewrite ?Hab; [done|]. exists (l ++ l'), own', ab. rewrite Hl', Hl, app_assoc. split_and!; [done| |done|done].
  destruct Hcase as [[-> ->]|(rep & -> & -> & ->)]; [by rewrite app_nil_r|].
  inversion Hr; subst; cbn; by constructor.
Qed.

Lemma tail_handler_inv s1 c c' : tail_inv s1 c -> tail_handler c c' -> tail_inv s1 c'.
Proof using Type.
  intros [Hh (l & own & ab & Hl & Hr & Ho & Ha)] Hs.
  assert (Hkeep : forall d, oc_reports (tl_core d) = oc_reports (tl_core c) -> tl_pc d = tl_pc c -> oc_live (tl_core d) = oc_live (tl_core c) ->
    handler_at (ah_state (oc_abort (tl_core d))) (tl_hpc d) (tl_killed d) = true ->
    (abort_reported (ah_state (oc_abort (tl_core c))) (tl_hpc c) = true -> abort_reported (ah_state (oc_abort (tl_core d))) (tl_hpc d) = true) ->
    tail_inv s1 d).
  { intros d Hd1 Hd2 Hd3 Hd4 Hd5. split; [done|]. exists l, own, ab. rewrite Hd1, Hd2, Hd3. split_and!; [done..|]. auto. }
  destruct Hs as [c r q Hp Hq|c r h' b Hp Hq|c Hp Hst|c Hp Hst|c b Hp|c b s' res Hp Hb|c b Hp|c b Hp]; rewrite Hp in *.
  - apply Hkeep; cbn; try done; by destruct (ah_state (oc_abort (tl_core c))).
  - apply handle_request_spec in Hq as (_ & _ & [(-> & E & _)|[(-> & E & E')|(-> & E & E')]]); apply Hkeep; cbn; rewrite ?Hp, ?E, ?E'; try done;
      by destruct (ah_state (oc_abort (tl_core c))).
  - apply Hkeep; cbn; rewrite ?Hst; try done.
  - apply Hkeep; cbn; try done; destruct (ah_state (oc_abort (tl_core c))); set_solver.
  - assert (Hst : ah_state (oc_abort (tl_core c)) = AS_ABORTING).
    { destruct (ah_state (oc_abort (tl_core c))); try done; cbn in Hh; by rewrite ?andb_false_r in Hh. }
    destruct ab; [by specialize (Ha eq_refl)|]. split; cbn; rewrite ?Hst; [done|].
    exists (l ++ [status_report ABORTING (ah_session_id (oc_abort (tl_core c)))]), own, true. rewrite Hl, <- app_assoc. split_and!; [done| |done|done].
    inversion Hr; subst; cbn; constructor; by eexists.
  - assert (Hst : ah_state (oc_abort (tl_core c)) = AS_ABORTING).
    { destruct (ah_state (oc_abort (tl_core c))); try done; cbn in Hh; by rewrite ?andb_false_r in Hh. }
    assert (Hsame : oc_abort s' = oc_abort (tl_core c) /\ oc_reports s' = oc_reports (tl_core c) /\ oc_live s' = oc_live (tl_core c)).
    { unfold on_boot in Hb. destruct (oc_ready (tl_core c)) as [rd|]; [destruct (bc_on_abort (rd_boot rd))|]; by injection Hb as <- <-. }
    destruct Hsame as (H1 & H2 & H3). apply Hkeep; cbn; rewrite ?H1, ?Hst; try done; by destruct res.
  - assert (Hst : ah_state (oc_abort (tl_core c)) = AS_ABORTING).
    { destruct (ah_state (oc_abort (tl_core c))); try done; cbn in Hh; by rewrite ?andb_false_r in Hh. }
    apply Hkeep; cbn; done.
  - assert (Hst : ah_state (oc_abort (tl_core c)) = AS_ABORTED).
    { destruct (ah_state (oc_abort (tl_core c))); try done; cbn in Hh; by rewrite ?andb_false_r in Hh. }
    apply Hkeep; cbn; rewrite ?Hst; try done; by destruct b.
Qed.

Lemma tail_inv_reachable s1 c c' : tail_inv s1 c -> rtc tail_step c c' -> tail_inv s1 c'.
Proof using Type.
  intros Hi Hs. induction Hs as [c|c c1 c2 H _ IH]; [done|]. apply IH. destruct H as [c s' pc' _ _ Hn|c c' Hh|c r].
  - by apply tail_update_inv.
  - by eapply tail_handler_inv.
  - destruct Hi as [Hh Hr]. by split.
Qed.

(** The abort thread gives the lock back. *)
Lemma lock_given_back c : tl_pc c <> T_done -> exists c', rtc tail_step c c' /\ tl_pc c' = tl_pc c /\ holds_lock (tl_hpc c') = false.
Proof using Type.
  intros _. destruct (holds_lock (tl_hpc c)) eqn:Hl; [|by exists c].
  assert (Hkill : forall d, tl_hpc d = H_kill true -> exists d', rtc tail_step d d' /\ tl_pc d' = tl_pc d /\ holds_lock (tl_hpc d') = false).
  { intros d Hd. eexists. split; [apply rtc_once, ts_handler, (th_kill _ true Hd)|done]. }
  assert (Hset : forall d, tl_hpc d = H_set_aborted true -> exists d', rtc tail_step d d' /\ tl_pc d' = tl_pc d /\ holds_lock (tl_hpc d') = false).
  { intros d Hd. pose proof (th_set_aborted d true Hd) as Hs. match type of Hs with tail_handler _ ?x => destruct (Hkill x eq_refl) as (d' & H1 & H2 & H3) end.
    exists d'. split; [eapply rtc_l; [by apply ts_handler|exact H1]|done]. }
  assert (Hon : forall d, tl_hpc d = H_on_abort true -> exists d', rtc tail_step d d' /\ tl_pc d' = tl_pc d /\ holds_lock (tl_hpc d') = false).
  { intros d Hd. destruct (on_boot bc_on_abort (tl_core d)) as [s' res] eqn:Hb. pose proof (th_on_abort d true s' res Hd Hb) as Hs. destruct res.
    - match type of Hs with tail_handler _ ?x => destruct (Hset x eq_refl) as (d' & H1 & H2 & H3) end.
      exists d'. split; [eapply rtc_l; [by apply ts_handler|exact H1]|done].
    - eexists. split; [apply rtc_once, ts_handler, Hs|done]. }
  destruct (tl_hpc c) as [| | |b|b|b|b|] eqn:Hp; try done; cbn in Hl; subst b; [|by apply Hon|by apply Hset|by apply Hkill].
  pose proof (th_report c true Hp) as Hs. match type of Hs with tail_handler _ ?x => destruct (Hon x eq_refl) as (d' & H1 & H2 & H3) end.
  exists d'. split; [eapply rtc_l; [by apply ts_handler|exact H1]|done].
Qed.

(** How many statements are left. *)
Definition tail_left (pc : tail_pc) : nat :=
  match pc with T_except _ => 5 | T_live _ _ _ => 4 | T_report _ _ => 3 | T_store _ _ => 2 | T_finally => 1 | T_done => 0 end.

Lemma tail_ends c : exists c', rtc tail_step c c' /\ tl_pc c' = T_done.
Proof using Type.
  remember (tail_left (tl_pc c)) as n eqn:En. revert c En. induction n as [n IH] using lt_wf_ind. intros c En.
  destruct (decide (tail_left (tl_pc c) = 0%nat)) as [H0|H0]; [exists c; split; [done|]; by destruct (tl_pc c)|].
  assert (Hnd : tl_pc c <> T_done) by (intros E; by rewrite E in H0).
  destruct (lock_given_back c Hnd) as (c1 & Hs1 & Hpc & Hlock).
  destruct (tail_next (tl_pc c1) (tl_core c1)) as [s' pc'] eqn:Hn.
  assert (Hlt : (tail_left pc' < n)%nat).
  { subst n. rewrite Hpc in Hn. destruct (tl_pc c) as [e|st rep store|rep [[ft reason]|]|ft reason| |]; cbn in Hn; try done.
    - destruct (is_abort_signal e); [injection Hn as <- <-; cbn; lia|]. destruct (as_ota_error e). destruct (aborting (tl_core c1)); injection Hn as <- <-; cbn; lia.
    - injection Hn as <- <-; cbn; lia.
    - injection Hn as <- <-; cbn; lia.
    - injection Hn as <- <-; cbn; lia.
    - injection Hn as <- <-; cbn; lia.
    - injection Hn as <- <-; cbn; lia. }
  pose proof (ts_update c1 s' pc' ltac:(by rewrite Hpc) (fun _ => Hlock) Hn) as Hs2.
  destruct (IH _ Hlt (c1 <| tl_core := s' |> <| tl_pc := pc' |>) ltac:(by cbn)) as (c' & Hs3 & Hd).
  exists c'. split; [|done]. etransitivity; [exact Hs1|]. eapply rtc_l; [exact Hs2|exact Hs3].
Qed.

(** Without the abort thread the statements are [update_except]. *)
Lemma tail_alone e (s : OTAClient P) hp k :
  is_exception e = true -> holds_lock hp = false ->
  rtc tail_step (mkTail s (T_except e) hp k)
    (mkTail (fst (try_finally (update_except env sid e) (exit_from_dynamic_client env) s)) T_done hp k).
Proof using Type.
  intros He Hl. unfold try_finally. rewrite update_except_cases, He. cbn [negb].
  assert (Hstep : forall s pc s' pc', pc <> T_done -> tail_next pc s = (s', pc') -> tail_step (mkTail s pc hp k) (mkTail s' pc' hp k)).
  { intros s2 pc s3 pc' Hd Hn. by apply (ts_update (mkTail s2 pc hp k) s3 pc'). }
  assert (Hfin : forall s2, rtc tail_step (mkTail s2 T_finally hp k) (mkTail (fst (exit_from_dynamic_client env s2)) T_done hp k))
    by (intros s2; apply rtc_once, Hstep; done).
  assert (Habort : tail_next (T_except e) s = (s, T_live ABORTED (status_report ABORTED sid) None) ->
    rtc tail_step (mkTail s (T_except e) hp k) (mkTail (fst (exit_from_dynamic_client env (aborted_state sid s))) T_done hp k)).
  { intros Hn. eapply rtc_l; [by apply Hstep|]. eapply rtc_l; [apply Hstep; [done|reflexivity]|].
    eapply rtc_l; [apply Hstep; [done|reflexivity]|]. apply (Hfin (aborted_state sid s)). }
  destruct (is_abort_signal e || aborting s) eqn:Ea.
  - match goal with |- rtc _ _ (mkTail ?x _ _ _) => replace x with (fst (exit_from_dynamic_client env (aborted_state sid s)))
      by (by rewrite exit_from_dynamic_client_ok) end.
    apply Habort. cbn. destruct (is_abort_signal e); [done|]. cbn in Ea. destruct (as_ota_error e). by rewrite Ea.
  - apply orb_false_iff in Ea as [Es Ea].
    match goal with |- rtc _ _ (mkTail ?x _ _ _) => replace x with (fst (exit_from_dynamic_client env (failed_state (se_traceback env) e s)))
      by (by rewrite exit_from_dynamic_client_ok) end.
    unfold failed_state. destruct (as_ota_error e) as [cls args] eqn:Eo.
    eapply rtc_l; [apply Hstep; [done|cbn; rewrite Es, Eo, Ea; reflexivity]|].
    eapply rtc_l; [apply Hstep; [done|reflexivity]|]. eapply rtc_l; [apply Hstep; [done|reflexivity]|].
    eapply rtc_l; [apply Hstep; [done|reflexivity]|].
    match goal with |- rtc _ (mkTail ?x _ _ _) (mkTail (fst (exit_from_dynamic_client env ?y)) _ _ _) => replace x with y; [apply Hfin|] end.
    unfold on_boot. destruct s as [lv dl st px ah rp [rd|] sh]; done.
Qed.
End Tail.

(** ** Properties *)

Section Properties.
Context {P Cfg : Type} `{HP : !PlatformHooks P Cfg}.

(** C6. An update always settles, also while the abort thread runs beside its
    end.  Whatever the phases do, the updater either leaves the process to the
    reboot, with the status still [UPDATING], or an [Exception] reaches the
    [except] clauses of [update]; from there on, wherever the abort thread is by
    then ([handler_at] its state), in every interleaving with it and with the
    requests that come in, the clauses can always be completed, and then the live status is [ABORTED] or [FAILURE] (not busy) and
    was reported exactly once.  That report is the last one, or else an abort is
    in progress, and the one other report since is the abort thread's
    [ABORTING], which can come before or after it. *)
Theorem update_settles (env : session_env P Cfg) r s :
  env_ok env ->
  exists s1 e, run_updater env r (update_started r s) = (s1, Raise e) /\ oc_live s1 = UPDATING /\
    (is_exception e = false -> exists s', update env r s = (s', Raise e) /\ oc_live s' = UPDATING) /\
    (is_exception e = true -> forall hp killed c,
       handler_at (ah_state (oc_abort s1)) hp killed = true ->
       rtc (tail_step env (ur_session_id r)) (mkTail s1 (T_except e) hp killed) c ->
       (exists c', rtc (tail_step env (ur_session_id r)) c c' /\ tl_pc c' = T_done) /\
       (tl_pc c = T_done ->
        is_busy (tl_core c) = false /\ (oc_live (tl_core c) = ABORTED \/ oc_live (tl_core c) = FAILURE) /\
        exists own rep rsid l, own = mkStatusReport (PStatusChange rep) rsid /\ new_ota_status rep = oc_live (tl_core c) /\
          oc_reports (tl_core c) = oc_reports s1 ++ l /\
          (l = [own] \/ aborting (tl_core c) = true /\ exists ab, is_aborting_report ab /\ (l = [own; ab] \/ l = [ab; own])))).
Proof.
  intros He. destruct (update_run env r s He) as (s1 & e & Hrun & Hf & Hu). pose proof (sf_live _ _ _ Hf) as Hlive. cbn in Hlive.
  exists s1, e. split_and!; [done|done| |].
  - intros Hx. rewrite Hu. unfold try_finally. rewrite update_except_cases, Hx. cbn. rewrite exit_from_dynamic_client_ok.
    eexists. split; [reflexivity|]. by destruct (se_dynamic_client env).
  - intros Hx hp killed c Hh Hs. split; [apply tail_ends|]. intros Hd.
    assert (Hi : tail_inv s1 (mkTail s1 (T_except e) hp killed)).
    { split; [done|]. exists [], None, false. rewrite app_nil_r. split_and!; [done|constructor|done|done]. }
    destruct (tail_inv_reachable _ _ _ _ _ Hi Hs) as [Hat (l & own & ab & Hl & Hr & Ho & Ha)]. rewrite Hd in Ho.
    destruct Ho as (own' & -> & Hst & Hc). destruct own' as [[| |rep| | ] rsid]; try done. cbn in Hst, Hc.
    split_and!; [unfold is_busy; rewrite <- Hc; by destruct Hst as [-> | ->]|by rewrite <- Hc|].
    exists (mkStatusReport (PStatusChange rep) rsid), rep, rsid, l. split_and!; [done..|].
    assert (Hab : ab = true -> aborting (tl_core c) = true).
    { intros E. specialize (Ha E). unfold aborting. revert Ha. unfold abort_reported. by destruct (tl_hpc c), (ah_state (oc_abort (tl_core c))). }
    inversion Hr; subst; [by left|right|right]; (split; [by apply Hab|]); eexists; (split; [done|]); auto.
Qed.

(** C15. A failure survives a restart: when [update] ended in [FAILURE], the
    next start of the process on the same slot reports [FAILURE] with the
    failure type and the failure reason of the report sent at the failure.  No
    abort is accepted while [update] ends (for that, see [update_settles]). *)
Theorem failed_update_restored (env : session_env P Cfg) r s s' rd fin (p : P) proxy tb n m ca1 ca2 :
  env_ok env -> update env r s = (s', Ok tt) -> oc_live s' = FAILURE -> oc_ready s' = Some rd ->
  exists rep rep',
    last_reported s' = Some rep /\
    last_reported (start_up proxy tb (Ok tt)
      (Ok (mkBootController (boot_active fin (rd_boot rd)) p)) n m ca1 ca2 true) = Some rep' /\
    new_ota_status rep' = FAILURE /\
    rep_failure_type rep' = rep_failure_type rep /\
    rep_failure_reason rep' = rep_failure_reason rep.
Proof.
  intros He Hu Hl Hrd. destruct (update_ends env r s He) as (s1 & e & _ & Hu').
  rewrite update_except_cases in Hu'. destruct (negb (is_exception e)); [congruence|].
  destruct (_ || _); [rewrite Hu in Hu'; destruct (se_dynamic_client env); by simplify_eq/=|].
  unfold failed_state in Hu'. destruct (as_ota_error e) as [cls args].
  destruct (oc_ready s1) as [rd1|] eqn:E1;
    [|rewrite Hu in Hu'; destruct (se_dynamic_client env); by simplify_eq/=].
  set (ft := class_failure_type cls) in *. set (reason := get_failure_reason cls args) in *.
  assert (Hrd' : rd_boot rd = (rd_boot rd1) <| bc_status :=
            store_failure_info ft reason (bc_status (rd_boot rd1)) |>)
    by (rewrite Hu in Hu'; destruct (se_dynamic_client env); by simplify_eq/=).
  assert (Hrep : exists l, oc_reports s' = l ++ [failure_report ft reason (se_traceback env e)])
    by (rewrite Hu in Hu'; exists (oc_reports s1); destruct (se_dynamic_client env); by simplify_eq/=).
  destruct Hrep as [l Hrep]. unfold boot_active. rewrite Hrd'. cbv zeta. cbn [bc_status upd].
  set (c := bc_status (rd_boot rd1)).
  destruct (failure_info_survives_boot c ft reason fin
    (active_slot (store_failure_info ft reason c)) (standby_slot (store_failure_info ft reason c))
    (stb_dir (store_failure_info ft reason c)) (next_stamp (store_failure_info ft reason c)))
    as [Hb Hi].
  do 2 eexists. split; [by eapply last_reported_snoc|]. unfold start_up. cbn [bc_status].
  rewrite Hb, Hi. simpl. split; [reflexivity|]. done.
Qed.

(** The updater never overwrites a completed abort: however [update]
    ends, if the abort handler completed an abort of the session (state
    [ABORTED]), the status file of the slot says [ABORTED]. *)
Theorem update_keeps_abort_record (env : session_env P Cfg) r s :
  env_ok env -> abort_recorded (fst (update env r s)).
Proof.
  intros He. destruct (update_ends env r s He) as (s1 & e & Hf & Hu).
  assert (Hr : abort_recorded s1) by (apply (sf_recorded _ _ _ Hf); by intros ?).
  rewrite update_except_cases in Hu.
  destruct (negb (is_exception e)); [rewrite Hu; by destruct (se_dynamic_client env)|].
  destruct (is_abort_signal e || aborting s1) eqn:Ea;
    [rewrite Hu; by destruct (se_dynamic_client env)|].
  apply orb_false_iff in Ea as [_ Ea].
  assert (Hne : ah_state (oc_abort s1) <> AS_ABORTED)
    by (intros Hs; unfold aborting in Ea; by rewrite Hs in Ea).
  unfold failed_state in Hu. destruct (as_ota_error e). rewrite Hu.
  destruct (se_dynamic_client env); intros Hs; by destruct Hne.
Qed.

(** A client update can leave the process busy for good: the docstring
    says that no exception escapes, but a request whose cookies are not valid
    JSON escapes [client_update] with the live status [CLIENT_UPDATING], and
    every later update request is then rejected as busy. *)
Theorem client_update_stuck (env : session_env P Cfg) r s rd je :
  se_downloaded_dynamic_app env = false -> oc_proxy s = None -> oc_ready s = Some rd ->
  se_cookies env = JInvalid je ->
  exists s' e, client_update env r s = (s', Raise e) /\ is_exception e = true /\
    forall repr handled now mono q m, m_core m = s' ->
      m_started (main_round repr handled now mono (Some (ReqUpdate q)) m) = m_started m.
Proof.
  intros Hd Hp Hr Hc. unfold client_update. rewrite Hd.
  unfold set_live, report_ota_status, put_report, ensure_upper_proxy, create_downloader_pool,
    attribute, from_result, mbind, pym_bind, modify, gets. simpl. rewrite Hp. simpl. rewrite Hr. simpl.
  rewrite Hc. simpl. do 2 eexists. split_and!; [reflexivity|done|].
  intros repr handled now mono q m Hm. 
  apply (main_round_busy repr handled now mono (ReqUpdate q)). by rewrite Hm.
Qed.

(** An [ABORTED] status is reported for its whole duration and then
    replaced once: the request loop turns the status loaded at start-up into
    [INITIALIZED] exactly in the first round at or after the deadline, and it
    never touches the status of a running operation. *)
Theorem aborted_status_expires (s : OTAClient P) t :
  (forall d, oc_aborted_deadline s = Some d -> t < d -> expire_aborted_status_report t s = s) /\
  (forall d, oc_aborted_deadline s = Some d -> d <= t -> oc_live s = ABORTED ->
     oc_live (expire_aborted_status_report t s) = INITIALIZED /\
     exists rep, last_reported (expire_aborted_status_report t s) = Some rep /\
       new_ota_status rep = INITIALIZED /\
     forall t', expire_aborted_status_report t' (expire_aborted_status_report t s) =
       expire_aborted_status_report t s) /\
  (is_busy s = true -> oc_live (expire_aborted_status_report t s) = oc_live s).
Proof.
  unfold expire_aborted_status_report. split_and!.
  - intros d -> Hlt. by rewrite (proj2 (Z.ltb_lt t d) Hlt).
  - intros d -> Hle Hl. rewrite (proj2 (Z.ltb_ge t d) Hle). simpl. rewrite Hl. simpl.
    split; [done|]. eexists. split_and!; [by eapply last_reported_snoc|done|done].
  - intros Hb. by apply expire_keeps_busy.
Qed.
End Properties.

(** *** The request loop over many rounds *)

Section MainRun.
Context {P : Type}.

(** One round's inputs; [mi_threads] is what the other threads did to the
    process since the last round. *)
Record main_input : Type := mkMainInput {
  mi_threads : OTAClient P -> OTAClient P;
  mi_handled : AbortHandler -> AbortHandler;
  mi_now : Z;
  mi_monotonic : Z;
  mi_request : option IPCRequest;
}.

Definition main_run (repr : IPCRequest -> OTAClient P -> string) (m : main_state P)
    (l : list main_input) : main_state P :=
  foldl (fun m i => main_round repr (mi_handled i) (mi_now i) (mi_monotonic i) (mi_request i)
                      (m <| m_core := mi_threads i (m_core m) |>)) m l.

(** [main] starts with [_allow_request_after = 0]. *)
Definition main_init (s : OTAClient P) : main_state P := mkMainState s 0 [] [].

Definition hold_of (q : IPCRequest) : Z :=
  match q with
  | ReqUpdate _ => HOLD_REQ_HANDLING_ON_ACK_REQUEST
  | _ => HOLD_REQ_HANDLING_ON_ACK_CLIENT_UPDATE_REQUEST
  end.

(** Each start is held back from the one before it, and only updates and
    client updates are started. *)
Fixpoint spaced (l : list (Z * IPCRequest)) : Prop :=
  match l with
  | (t1, q1) :: (((t2, _) :: _) as l') => t1 + hold_of q1 <= t2 /\ spaced l'
  | _ => True
  end.

Definition is_operation (q : IPCRequest) : bool :=
  match q with ReqUpdate _ | ReqClientUpdate _ => true | _ => false end.

Definition main_inv (m : main_state P) : Prop :=
  spaced (m_started m) /\
  (forall t q, last (m_started m) = Some (t, q) -> m_allow_request_after m = t + hold_of q) /\
  Forall (fun tq => is_operation (snd tq) = true) (m_started m).

Lemma spaced_snoc l t q :
  spaced l -> (forall t0 q0, last l = Some (t0, q0) -> t0 + hold_of q0 <= t) ->
  spaced (l ++ [(t, q)]).
Proof.
  induction l as [|[t1 q1] l IH]; [done|]. destruct l as [|[t2 q2] l].
  - intros _ H. simpl. split; [by apply H|done].
  - intros [H1 H2] H. simpl. split; [done|]. apply IH; [done|]. intros. by apply H.
Qed.

Lemma main_inv_same (m m' : main_state P) :
  m_started m' = m_started m -> m_allow_request_after m' = m_allow_request_after m ->
  main_inv m -> main_inv m'.
Proof. intros H1 H2 (A & B & C). unfold main_inv. by rewrite H1, H2. Qed.

Lemma accept_request_inv now q (m : main_state P) :
  is_operation q = true -> m_allow_request_after m <= now ->
  main_inv m -> main_inv (accept_request now (hold_of q) q m).
Proof.
  intros Hq Hn (A & B & C). unfold main_inv. simpl. split_and!.
  - apply spaced_snoc; [done|]. intros t0 q0 Hl. rewrite <- (B _ _ Hl). done.
  - intros t0 q0. rewrite last_snoc. by intros [= <- <-].
  - apply Forall_app. split; [done|]. by constructor.
Qed.

Lemma main_round_inv repr handled now mono req (m : main_state P) :
  main_inv m -> main_inv (main_round repr handled now mono req m).
Proof.
  intros Hi. unfold main_round.
  assert (Hi' : main_inv (m <| m_core := expire_aborted_status_report mono (m_core m) |>))
    by (by eapply main_inv_same; [..|exact Hi]).
  revert Hi'. generalize (m <| m_core := expire_aborted_status_report mono (m_core m) |>).
  clear m Hi. intros m Hi. destruct req as [q|]; [|done].
  assert (Hrej : forall r, main_inv (respond r m)) by (intros r; by eapply main_inv_same; [..|exact Hi]).
  destruct ((now <? m_allow_request_after m) || is_busy (m_core m)) eqn:Eb.
  - destruct q; simpl; try done. destruct (get_response _). by eapply main_inv_same; [..|exact Hi].
  - apply orb_false_iff in Eb as [Eb%Z.ltb_ge _]. destruct q as [u|u|a|i1 i2|i1 i2]; simpl; try done.
    + by apply (accept_request_inv now (ReqUpdate u)).
    + by apply (accept_request_inv now (ReqClientUpdate u)).
    + destruct (get_response _). by eapply main_inv_same; [..|exact Hi].
Qed.

(** The request loop starts one operation at a time: in every run of the
    loop, whatever the other threads do to the process in between, only
    update and client update requests are started, and a request is started
    only after the hold time of the one started before it (16 s after an
    update, 4 s after a client update). *)
Theorem accepted_requests_spaced (s : OTAClient P) repr l :
  spaced (m_started (main_run repr (main_init s) l)) /\
  Forall (fun tq => is_operation (snd tq) = true) (m_started (main_run repr (main_init s) l)).
Proof.
  cut (main_inv (main_run repr (main_init s) l)); [by intros (A & _ & B)|].
  assert (H0 : main_inv (main_init s)) by (split_and!; [done|done|constructor]).
  revert H0. generalize (main_init s). unfold main_run.
  induction l as [|i l IH]; simpl; [done|]. intros m Hm. apply IH, main_round_inv.
  by eapply main_inv_same; [..|exact Hm].
Qed.

(** Every request is answered exactly once, and started only when it is
    accepted: a request that is not an abort is answered with its own session
    id, with [REJECT_BUSY] while it comes too early or an operation is
    running, else [ACCEPT] for an update or client update, which starts it,
    and [REJECT_OTHER] for anything else; an abort request never starts an
    operation. *)
Theorem request_answered_once (m : main_state P) repr handled now mono q :
  exists resp, let m' := main_round repr handled now mono (Some q) m in
    m_responses m' = m_responses m ++ [resp] /\
    match q with
    | ReqAbort _ => m_started m' = m_started m
    | _ =>
        resp_session_id resp = req_session_id q /\
        resp_res resp =
          (if (now <? m_allow_request_after m)
              || is_busy (expire_aborted_status_report mono (m_core m)) then REJECT_BUSY
           else if is_operation q then ACCEPT else REJECT_OTHER) /\
        m_started m' = m_started m ++ (if bool_decide (resp_res resp = ACCEPT) then [(now, q)] else [])
    end.
Proof.
  cbv zeta. unfold main_round. cbn [m_core m_allow_request_after upd].
  destruct q as [u|u|a|i1 i2|i1 i2]; cbn [is_operation];
    [| |destruct (get_response _) as [h o]; by eexists; split; [reflexivity|]|..];
    destruct ((now <? m_allow_request_after m) || is_busy _);
    eexists; split_and!; try reflexivity; simpl; by rewrite ?app_nil_r.
Qed.
End MainRun.

(** ** Witnesses: an updater whose download fails, and one that completes *)

Definition example_download_error : pyexn :=
  ota_error (Net DownloadStalled) "no progress" "example" None.

Definition example_ops (download : result pyexn unit) : UpdaterOps bool unit.
Proof.
  refine {|
    op_phase_time := fun _ => 0;
    op_setup := mret tt;
    op_process_metadata := mret tt;
    op_can_use_in_place_mode := mret false;
    op_save_file_table := fun _ => mret tt;
    op_calculate_delta := mret (10, 1000);
    op_download_delta_resources := from_result download;
    op_update_slot := mret tt;
    op_process_persistents := mret tt;
    op_wait_sub_ecus := mret tt;
    op_finalizing_update := raise (PyExn (XSystemExit 1) [] None None);
  |}; try (intros; (apply keeps_ret || apply keeps_from_result || apply keeps_raise); apply _).
  intros s. eexists. split; reflexivity.
Defined.

Definition example_env (download : result pyexn unit) : session_env bool unit :=
  mkSessionEnv bool unit (Ok tt) (JObject []) (Ok false) false (example_ops download)
    (example_ops download) (fun _ => raise example_download_error) (fun _ => mret tt)
    false false (fun _ => EmptyString).

Lemma example_env_ok download : env_ok (example_env download).
Proof. split; intros; [apply keeps_raise, _|done|apply keeps_ret, _]. Defined.

Definition example_request_v2 : UpdateRequestV2 :=
  mkUpdateRequestV2 "req" "session" "2.0" "http://example/" "{}" "" "" "".

Definition example_client : OTAClient bool :=
  start_up None (fun _ => EmptyString) (Ok tt) (Ok (mkBootController example_control false))
    4 100 true true true.

Definition failed_client : OTAClient bool :=
  fst (update (HP := example_good_platform) (example_env (Raise example_download_error))
         example_request_v2 example_client).

Example failed_client_status : oc_live failed_client = FAILURE.
Proof. by vm_compute. Qed.

(** A failed download, at the [except] clauses of [update]. *)
Definition failing_client : OTAClient bool :=
  fst (run_updater (HP := example_good_platform) (example_env (Raise example_download_error)) example_request_v2
         (update_started example_request_v2 example_client)).

(** The order of the reports is not the order of the events: an abort accepted
    between the check of [update] and its [FAILURE] is reported after it, so the
    last report says [ABORTING] while the live status is [FAILURE]. *)
Example aborting_reported_last :
  exists c own, rtc (tail_step (example_env (Raise example_download_error)) "session")
      (mkTail failing_client (T_except example_download_error) H_get false) c /\
    tl_pc c = T_done /\ oc_live (tl_core c) = FAILURE /\
    oc_reports (tl_core c) = oc_reports failing_client ++ [own; status_report ABORTING "session"].
Proof.
  eexists _, _. split.
  - eapply rtc_l; [apply (ts_submit _ _ _ (mkAbortRequestV2 "abort" "session"))|].
    eapply rtc_l; [apply ts_update; [done|done|vm_compute; reflexivity]|].
    eapply rtc_l; [apply ts_handler, th_get; [done|vm_compute; reflexivity]|].
    eapply rtc_l; [apply ts_handler; eapply th_handle; [done|vm_compute; reflexivity]|].
    eapply rtc_l; [apply ts_update; [done|done|vm_compute; reflexivity]|].
    eapply rtc_l; [apply ts_update; [done|done|vm_compute; reflexivity]|].
    eapply rtc_l; [apply ts_handler; eapply th_report; vm_compute; reflexivity|].
    eapply rtc_l; [apply ts_update; [done|done|vm_compute; reflexivity]|].
    eapply rtc_l; [apply ts_update; [done|done|vm_compute; reflexivity]|].
    apply rtc_refl.
  - vm_compute. split_and!; reflexivity.
Qed.

(** The failed download settles. *)
Lemma update_settles_witness :
  exists s1 e, run_updater (HP := example_good_platform) (example_env (Raise example_download_error)) example_request_v2
      (update_started example_request_v2 example_client) = (s1, Raise e) /\
    forall c, rtc (tail_step (example_env (Raise example_download_error)) "session")
        (mkTail s1 (T_except e) H_get false) c -> tl_pc c = T_done ->
      oc_live (tl_core c) = ABORTED \/ oc_live (tl_core c) = FAILURE.
Proof.
  destruct (update_settles (HP := example_good_platform) (example_env (Raise example_download_error))
    example_request_v2 example_client (example_env_ok _)) as (s1 & e & Hr & Hl & _ & H).
  assert (Hx : is_exception e = true).
  { apply (f_equal (fun x => match snd x with Raise e => is_exception e | Ok _ => false end)) in Hr. cbn in Hr. rewrite <- Hr. vm_compute. reflexivity. }
  assert (Hh : handler_at (ah_state (oc_abort s1)) H_get false = true).
  { apply (f_equal (fun x => handler_at (ah_state (oc_abort (fst x))) H_get false)) in Hr. cbn [fst] in Hr. rewrite <- Hr. vm_compute. reflexivity. }
  exists s1, e. split; [exact Hr|]. intros c Hs Hd. exact (proj1 (proj2 (proj2 (H Hx H_get false c Hh Hs) Hd))).
Defined.

Lemma failed_update_restored_witness :
  exists rd rep rep',
    oc_ready failed_client = Some rd /\
    last_reported failed_client = Some rep /\
    last_reported (start_up None (fun _ => EmptyString) (Ok tt)
      (Ok (mkBootController (boot_active FinalizeOk (rd_boot rd)) false)) 4 100 true true true) =
      Some rep' /\
    new_ota_status rep' = FAILURE /\
    rep_failure_type rep' = rep_failure_type rep /\ rep_failure_reason rep' = rep_failure_reason rep.
Proof.
  eexists.
  edestruct (failed_update_restored (HP := example_good_platform)
    (example_env (Raise example_download_error)) example_request_v2 example_client
    failed_client) as (rep & rep' & H);
    [apply example_env_ok|vm_compute; reflexivity|vm_compute; reflexivity| |].
  2: { exists rep, rep'. split; [|exact H]. vm_compute. reflexivity. }
  vm_compute. reflexivity.
Defined.

Lemma update_keeps_abort_record_witness :
  abort_recorded failed_client.
Proof. apply (update_keeps_abort_record (HP := example_good_platform)), example_env_ok. Defined.

Lemma client_update_stuck_witness :
  exists s' e,
    client_update
      (mkSessionEnv bool unit (Ok tt) (JInvalid (PyExn XValueError [] None None)) (Ok false) false
         (example_ops (Ok tt)) (example_ops (Ok tt)) (fun _ => mret tt) (fun _ => mret tt)
         false false (fun _ => EmptyString))
      example_request_v2 example_client = (s', Raise e) /\ is_exception e = true.
Proof.
  destruct (oc_ready example_client) as [rd|] eqn:E; [|vm_compute in E; discriminate].
  edestruct (client_update_stuck
    (mkSessionEnv bool unit (Ok tt) (JInvalid (PyExn XValueError [] None None)) (Ok false) false
         (example_ops (Ok tt)) (example_ops (Ok tt)) (fun _ => mret tt) (fun _ => mret tt)
         false false (fun _ => EmptyString)) example_request_v2 example_client rd)
    as (s' & e & H1 & H2 & _); [reflexivity|reflexivity|exact E|reflexivity|].
  exists s', e. split; [exact H1|exact H2].
Defined.
