(* ===== verification/Servicer.v ===== *)
(** * The gRPC front end of an ECU

    Models [src/src/otaclient/grpc/api_v2/servicer.py] (the handlers of the OTA
    service API: dispatching update, client update and abort requests to the
    directly connected sub ECUs and to the local core process, and merging the
    answers), the message helpers of [src/src/otaclient_api/v2/_types.py], the
    outcome classes of [src/src/otaclient_api/v2/api_caller.py], and
    [src/src/otaclient/grpc/api_v2/ecu_tracker.py] (polling the status of the sub
    ECUs and of the local process into the ECU status storage).

    The two queues to the core process are lists; what the core puts into the
    response queue while a handler waits is an argument of the handler.  The
    answers of the sub ECUs are those of the function [remote_call]; the calls
    run concurrently, so their results are merged in any order. *)

From stdpp Require Import base gmap strings list option sets fin_sets.
From Stdlib Require Import ZArith String Lia.
#[local] Set Warnings "-register-all".
From S2P Require Import Prelude Types Errors StatusMonitor AbortHandler OTAStatusControl ECUStatus BootController Updater OTACore.

(** ** Messages *)

Inductive AbortFailureType : Type := ABORT_NO_FAILURE | ABORT_FAILURE.

#[export] Instance AbortFailureType_eq_dec : EqDecision AbortFailureType.
Proof. solve_decision. Defined.

Record ECUContact : Type := mkECUContact {
  ct_ecu_id : string;
  ct_ip_addr : string;
  ct_port : Z;
}.

(** [UpdateRequestEcu] and [ClientUpdateRequestEcu] wrap the same message. *)
Record UpdateRequestEcu : Type := mkUpdateRequestEcu {
  rq_ecu_id : string;
  rq_version : string;
  rq_url : string;
  rq_cookies : string;
  rq_release_name : string;
  rq_release_id : string;
  rq_image_id : string;
}.

Record UpdateRequest : Type := mkUpdateRequest {
  rq_ecu : list UpdateRequestEcu;
  rq_request_id : string;
}.

#[export] Instance eta_UpdateRequest : Eta UpdateRequest := fun r =>
  mkUpdateRequest (rq_ecu r) (rq_request_id r).

Record UpdateResponseEcu : Type := mkUpdateResponseEcu {
  re_ecu_id : string;
  re_result : FailureType;
}.

#[export] Instance UpdateResponseEcu_eq_dec : EqDecision UpdateResponseEcu.
Proof. solve_decision. Defined.

(** The list of answers of an [UpdateResponse] or a [ClientUpdateResponse]. *)
Abbreviation UpdateResponse := (list UpdateResponseEcu).

Record AbortResponseEcu : Type := mkAbortResponseEcu {
  ab_ecu_id : string;
  ab_result : AbortFailureType;
  ab_message : string;
}.

Abbreviation AbortResponse := (list AbortResponseEcu).

Definition find_ecu (ecu_id : string) (l : list UpdateRequestEcu) : option UpdateRequestEcu :=
  List.find (fun e => String.eqb (rq_ecu_id e) ecu_id) l.

Definition if_contains_ecu (ecu_id : string) (r : UpdateRequest) : bool :=
  match find_ecu ecu_id (rq_ecu r) with Some _ => true | None => false end.

(** [add_ecu] and [merge_from] *)
Definition add_ecu {A} (e : A) (response : list A) : list A := response ++ [e].
Definition merge_from {A} (other response : list A) : list A := response ++ other.

Definition ecus_acked_update (response : UpdateResponse) : gset string :=
  list_to_set (map re_ecu_id
    (List.filter (fun e => bool_decide (re_result e = NO_FAILURE)) response)).

(** ** The servicer and its queues *)

(** What a queue to the core process can hold; a message that is not an
    [IPCResponse] is known by its type's name. *)
Inductive ipc_item : Type :=
| IPCItem (r : IPCResponse)
| OtherItem (type_name : string).

Record servicer : Type := mkServicer {
  sv_op_queue : list IPCRequest;
  sv_resp_queue : list ipc_item;
  sv_storage : ECUStatusState;
}.

#[export] Instance eta_servicer : Eta servicer := fun r =>
  mkServicer (sv_op_queue r) (sv_resp_queue r) (sv_storage r).

(** [op_queue.put_nowait(request)], then [resp_queue.get(timeout=...)] where
    [arrived] is put into the queue before the timeout; [None] is [Empty]. *)
Definition ask_core (request : IPCRequest) (arrived : list ipc_item) (s : servicer) :
    servicer * option ipc_item :=
  let s := s <| sv_op_queue := sv_op_queue s ++ [request] |> in
  match sv_resp_queue s ++ arrived with
  | [] => (s, None)
  | i :: q => (s <| sv_resp_queue := q |>, Some i)
  end.

(** The two API methods over [_handle_update_request]. *)
Inductive request_kind : Type := KUpdate | KClientUpdate.

Section Handlers.
Context (my_ecu_id : string).

(** The result [_dispatch_local_request] reports for what it took from the
    queue. *)
Definition local_result (request : IPCRequest) (item : option ipc_item) : FailureType :=
  match item with
  | None => UNRECOVERABLE
  | Some (OtherItem _) => RECOVERABLE
  | Some (IPCItem r) =>
      if negb (String.eqb (resp_session_id r) (req_session_id request)) then RECOVERABLE
      else if bool_decide (resp_res r = ACCEPT) then NO_FAILURE
      else RECOVERABLE
  end.

Definition dispatch_local_request (request : IPCRequest) (arrived : list ipc_item) (s : servicer) :
    servicer * UpdateResponseEcu :=
  let '(s, item) := ask_core request arrived s in
  (s, mkUpdateResponseEcu my_ecu_id (local_result request item)).

Definition create_local_request (kind : request_kind) (req_ecu : UpdateRequestEcu)
    (request_id session_id : string) : IPCRequest :=
  let r := mkUpdateRequestV2 request_id session_id (rq_version req_ecu) (rq_url req_ecu)
             (rq_cookies req_ecu) (rq_release_name req_ecu) (rq_release_id req_ecu)
             (rq_image_id req_ecu) in
  match kind with KUpdate => ReqUpdate r | KClientUpdate => ReqClientUpdate r end.

(** Merging the finished calls: [None] is [ECUNoResponse]. *)
Definition merge_done (done : list (ECUContact * option UpdateResponse))
    (acked : gset string) (response : UpdateResponse) : gset string * UpdateResponse :=
  fold_left (fun '(acked, response) '(contact, result) =>
    match result with
    | Some resp => (acked ∪ ecus_acked_update resp, merge_from resp response)
    | None => (acked, add_ecu (mkUpdateResponseEcu (ct_ecu_id contact) RECOVERABLE) response)
    end) done (acked, response).

(** What follows the calls to the sub ECUs: the local request, and the
    notification of the storage.  [gen_session_id] makes a session id of a
    version; [now] is the time the storage is notified. *)
Definition handle_local_part (gen_session_id : string -> string) (kind : request_kind)
    (arrived : list ipc_item) (now : Z) (request : UpdateRequest) (acked : gset string)
    (response : UpdateResponse) (s : servicer) : servicer * UpdateResponse :=
  let '(s, acked, response) :=
    match find_ecu my_ecu_id (rq_ecu request) with
    | Some req_ecu =>
        let local_request := create_local_request kind req_ecu (rq_request_id request)
                               (gen_session_id (rq_version req_ecu)) in
        let '(s, resp) := dispatch_local_request local_request arrived s in
        (s, if bool_decide (re_result resp = NO_FAILURE) then acked ∪ {[my_ecu_id]} else acked,
         add_ecu resp response)
    | None => (s, acked, response)
    end in
  (if bool_decide (acked = ∅) then s
   else s <| sv_storage := on_ecus_accept_update_request my_ecu_id now acked (sv_storage s) |>,
   response).

Section Update.
Context (sub_ecus : list ECUContact) (ecu_info_loaded : bool).
(** The generators of ids, the calls to the sub ECUs and the order in which
    their results are taken ([asyncio.wait] returns a set). *)
Context (new_request_id : string) (gen_session_id : string -> string).
Context (remote_call : ECUContact -> UpdateRequest -> option UpdateResponse).
Context (done_order : list (ECUContact * option UpdateResponse) ->
                      list (ECUContact * option UpdateResponse)).

(** [if not request.request_id: request.request_id = gen_request_id()] *)
Definition with_request_id (request : UpdateRequest) : UpdateRequest :=
  if str_truthy (rq_request_id request) then request
  else request <| rq_request_id := new_request_id |>.

(** The calls that are made, each with its result. *)
Definition sub_ecu_calls (request : UpdateRequest) : list (ECUContact * option UpdateResponse) :=
  map (fun c => (c, remote_call c request))
    (List.filter (fun c => if_contains_ecu (ct_ecu_id c) request) sub_ecus).

(** [_handle_update_request] with an empty set of acknowledged ECUs, as both
    API methods call it. *)
Definition handle_update_request (kind : request_kind) (arrived : list ipc_item) (now : Z)
    (request : UpdateRequest) (s : servicer) : servicer * UpdateResponse :=
  let request := with_request_id request in
  if negb ecu_info_loaded then
    (s, map (fun e => mkUpdateResponseEcu (rq_ecu_id e) UNRECOVERABLE) (rq_ecu request))
  else
    let '(acked, response) := merge_done (done_order (sub_ecu_calls request)) ∅ [] in
    handle_local_part gen_session_id kind arrived now request acked response s.

Definition sv_update : list ipc_item -> Z -> UpdateRequest -> servicer -> servicer * UpdateResponse :=
  handle_update_request KUpdate.
Definition sv_client_update :
    list ipc_item -> Z -> UpdateRequest -> servicer -> servicer * UpdateResponse :=
  handle_update_request KClientUpdate.
End Update.

(** ** Aborts *)

(** [_handle_abort_request] *)
Definition handle_abort_request (request : AbortRequestV2) (arrived : list ipc_item) (s : servicer) :
    servicer * AbortResponseEcu :=
  let '(s, item) := ask_core (ReqAbort request) arrived s in
  (s, match item with
      | None => mkAbortResponseEcu my_ecu_id ABORT_FAILURE "Failed to process abort request: Empty()"
      | Some (OtherItem n) =>
          mkAbortResponseEcu my_ecu_id ABORT_FAILURE ("Unexpected response type: " +:+ n)
      | Some (IPCItem r) =>
          if negb (String.eqb (resp_session_id r) (ar_session_id request)) then
            mkAbortResponseEcu my_ecu_id ABORT_FAILURE
              ("Mismatched session_id: " +:+ resp_session_id r)
          else if bool_decide (resp_res r = ACCEPT) then
            mkAbortResponseEcu my_ecu_id ABORT_NO_FAILURE (resp_msg r)
          else mkAbortResponseEcu my_ecu_id ABORT_FAILURE (resp_msg r)
      end)%string.

(** The outcomes of [OTAClientCall.abort_call]. *)
Inductive abort_outcome : Type :=
| AbortAnswered (r : AbortResponse)
| AbortNotSupported                 (** [ECUAbortNotSupported] *)
| AbortNoResponse (msg : string).   (** [ECUNoResponse] *)

Definition merge_abort_done (done : list (ECUContact * abort_outcome)) (response : AbortResponse) :
    AbortResponse :=
  fold_left (fun response '(contact, result) =>
    match result with
    | AbortAnswered r => merge_from r response
    | AbortNotSupported =>
        add_ecu (mkAbortResponseEcu (ct_ecu_id contact) ABORT_FAILURE
                   ("ECU " +:+ ct_ecu_id contact +:+
                    " does not support the abort endpoint (UNIMPLEMENTED)")%string) response
    | AbortNoResponse msg =>
        add_ecu (mkAbortResponseEcu (ct_ecu_id contact) ABORT_FAILURE msg) response
    end) done response.

(** [abort]: [session_id] is [gen_session_id("__abort")]. *)
Definition sv_abort (sub_ecus : list ECUContact) (new_request_id session_id : string)
    (abort_call : ECUContact -> string -> abort_outcome)
    (done_order : list (ECUContact * abort_outcome) -> list (ECUContact * abort_outcome))
    (arrived : list ipc_item) (request_id : string) (s : servicer) : servicer * AbortResponse :=
  let request_id := if str_truthy request_id then request_id else new_request_id in
  let response :=
    merge_abort_done (done_order (map (fun c => (c, abort_call c request_id)) sub_ecus)) [] in
  let '(s, local_response) :=
    handle_abort_request (mkAbortRequestV2 request_id session_id) arrived s in
  (s, add_ecu local_response response).

(** [status] *)
Definition sv_status (s : servicer) : option StatusResponse := export my_ecu_id (sv_storage s).
End Handlers.

(** [rollback]: the support is removed. *)
Definition sv_rollback (ecus : list string) : list (string * FailureType * string) :=
  map (fun e => (e, RECOVERABLE, "rollback API support is removed"%string)) ecus.

(** ** The ECU tracker *)

(** What a polling task does before its next round. *)
Inductive poll_wait : Type :=
| SleepFor (tenths : Z)      (** [asyncio.sleep], in tenths of a second *)
| PollingWaiter.

Definition ACTIVE_POLL_SUB_ON_STARTUP : Z := 10.
Definition ACTIVE_POLL_LOCAL_ON_STARTUP : Z := 1.

(** [_startup_matrix], a dict whose default is [True]. *)
Abbreviation startup_matrix := (gmap string bool).
Definition starting (e : string) (m : startup_matrix) : bool := default true (m !! e).

Definition next_wait (tenths : Z) (e : string) (m : startup_matrix) : poll_wait :=
  if starting e m then SleepFor tenths else PollingWaiter.

Definition find_ecu_v2 (e : string) (r : StatusResponse) : option StatusResponseEcuV2 :=
  List.find (fun s => String.eqb (ecu_id s) e) (resp_ecu_v2 r).

(** One round of [_polling_direct_subecu_status]; [None] is [ECUNoResponse]. *)
Definition polling_direct_subecu_round (contact : ECUContact) (now : Z)
    (result : option StatusResponse) (ms : startup_matrix * ECUStatusState) :
    startup_matrix * ECUStatusState * poll_wait :=
  let e := ct_ecu_id contact in
  let '(m, st) :=
    match result with
    | Some resp =>
        (if starting e (fst ms) && bool_decide (is_Some (find_ecu_v2 e resp))
         then <[e := false]> (fst ms) else fst ms,
         update_from_child_ecu now resp (snd ms))
    | None => ms
    end in
  (m, st, next_wait ACTIVE_POLL_SUB_ON_STARTUP e m).

(** One round of [_polling_local_ecu_status]; [None]: [sync_msg] raises, as it
    does until the first status is written. *)
Definition polling_local_ecu_round (my_ecu_id otaclient_version : string) (now : Z)
    (result : option OTAClientStatus) (ms : startup_matrix * ECUStatusState) :
    startup_matrix * ECUStatusState * poll_wait :=
  let '(m, st) :=
    match result with
    | Some status =>
        (<[my_ecu_id := false]> (fst ms),
         update_from_local_ecu my_ecu_id otaclient_version now status (snd ms))
    | None => ms
    end in
  (m, st, next_wait ACTIVE_POLL_LOCAL_ON_STARTUP my_ecu_id m).

(** ** A tree of ECUs *)

(** An ECU: whether the calls to it succeed, its state, what its core answers
    in time, and its sub ECUs. *)
Inductive ecu_node : Type :=
| ECUNode (id : string) (up : bool) (s : servicer) (arrived : list ipc_item) (subs : list ecu_node).

Definition node_id (t : ecu_node) : string := let 'ECUNode id _ _ _ _ := t in id.
Definition node_up (t : ecu_node) : bool := let 'ECUNode _ up _ _ _ := t in up.

(** [update] of the root: each call to a sub ECU is [update] there. *)
Fixpoint update_tree (gen_session_id : string -> string) (kind : request_kind) (now : Z)
    (request : UpdateRequest) (t : ecu_node) : UpdateResponse :=
  let 'ECUNode id _ s arrived subs := t in
  let done := flat_map (fun u =>
    if if_contains_ecu (node_id u) request
    then [(mkECUContact (node_id u) EmptyString 0,
           if node_up u then Some (update_tree gen_session_id kind now request u) else None)]
    else []) subs in
  let '(acked, response) := merge_done done ∅ [] in
  snd (handle_local_part id gen_session_id kind arrived now request acked response s).

(** The ECUs that answer a request sent to the root, or are answered for: a
    requested ECU whose calling ECUs are requested and respond. *)
Inductive addressed (request : UpdateRequest) : ecu_node -> string -> Prop :=
| addr_local id up s a subs :
    if_contains_ecu id request = true -> addressed request (ECUNode id up s a subs) id
| addr_down id up s a subs u :
    u ∈ subs -> node_up u = false -> if_contains_ecu (node_id u) request = true ->
    addressed request (ECUNode id up s a subs) (node_id u)
| addr_sub id up s a subs u e :
    u ∈ subs -> node_up u = true -> if_contains_ecu (node_id u) request = true ->
    addressed request u e -> addressed request (ECUNode id up s a subs) e.

(** ** Lemmas *)

(** The answers of one call, as they enter the response. *)
Definition done_answers (d : ECUContact * option UpdateResponse) : UpdateResponse :=
  match snd d with
  | Some r => r
  | None => [mkUpdateResponseEcu (ct_ecu_id (fst d)) RECOVERABLE]
  end.

Lemma merge_done_response done acked response :
  snd (merge_done done acked response) = response ++ flat_map done_answers done.
Proof.
  revert acked response. induction done as [|[c [r|]] done IH]; intros acked response; simpl;
    [by rewrite app_nil_r|..]; unfold merge_done in *; simpl; rewrite IH;
    unfold merge_from, add_ecu, done_answers; simpl; by rewrite <- app_assoc.
Qed.

Lemma elem_of_ecus_acked_update e response :
  e ∈ ecus_acked_update response <-> mkUpdateResponseEcu e NO_FAILURE ∈ response.
Proof.
  unfold ecus_acked_update. rewrite elem_of_list_to_set, list_elem_of_In, in_map_iff.
  setoid_rewrite filter_In. rewrite list_elem_of_In. split.
  - intros ([e' r] & <- & Hin & Hr%bool_decide_eq_true). simpl in *. by subst.
  - intros Hin. exists (mkUpdateResponseEcu e NO_FAILURE). by rewrite bool_decide_eq_true.
Qed.

(** The acknowledged set is kept in step with the response. *)
Lemma merge_done_acked done acked response :
  acked = ecus_acked_update response ->
  fst (merge_done done acked response) = ecus_acked_update (snd (merge_done done acked response)).
Proof.
  revert acked response. induction done as [|[c [r|]] done IH]; intros acked response Ha; simpl;
    [done|..]; unfold merge_done in *; simpl; apply IH; subst; apply leibniz_equiv; intros e;
    rewrite ?elem_of_union, !elem_of_ecus_acked_update; unfold merge_from, add_ecu;
    rewrite elem_of_app; [done|].
  rewrite list_elem_of_singleton. naive_solver.
Qed.

Lemma local_answer_acked id r response :
  (if bool_decide (r = NO_FAILURE) then ecus_acked_update response ∪ {[id]}
   else ecus_acked_update response) =
  ecus_acked_update (add_ecu (mkUpdateResponseEcu id r) response).
Proof.
  apply leibniz_equiv. intros e. unfold add_ecu.
  rewrite elem_of_ecus_acked_update, elem_of_app, list_elem_of_singleton.
  destruct r; simpl; rewrite ?elem_of_union, ?elem_of_singleton, elem_of_ecus_acked_update;
    naive_solver.
Qed.

Lemma ask_core_storage q arrived s : sv_storage (fst (ask_core q arrived s)) = sv_storage s.
Proof. unfold ask_core. simpl. by destruct (_ ++ _). Qed.

Lemma handle_local_part_spec id gen kind arrived now request response s :
  let '(s', response') :=
    handle_local_part id gen kind arrived now request (ecus_acked_update response) response s in
  (exists l, response' = response ++ l /\
     map re_ecu_id l = (if if_contains_ecu id request then [id] else [])) /\
  sv_storage s' = (if bool_decide (ecus_acked_update response' = ∅) then sv_storage s
                   else on_ecus_accept_update_request id now (ecus_acked_update response')
                          (sv_storage s)).
Proof.
  unfold handle_local_part, if_contains_ecu.
  destruct (find_ecu id (rq_ecu request)) as [req|].
  - unfold dispatch_local_request. set (q := create_local_request kind req _ _).
    pose proof (ask_core_storage q arrived s) as Hs. destruct (ask_core q arrived s) as [s1 item].
    cbn [re_result]. rewrite local_answer_acked. simpl in Hs. rewrite <- Hs.
    split; [by eexists|]. by destruct (bool_decide _).
  - split; [exists []; by rewrite app_nil_r|]. by destruct (bool_decide _).
Qed.

(** Induction over a tree, with the hypothesis for every sub ECU. *)
Lemma ecu_node_ind' (Q : ecu_node -> Prop) :
  (forall id up s a subs, Forall Q subs -> Q (ECUNode id up s a subs)) -> forall t, Q t.
Proof.
  intros Hn. fix IH 1. intros [id up s a subs]. apply Hn.
  induction subs as [|u subs IHs]; constructor; [apply IH|exact IHs].
Qed.

(** The calls of a node in the tree. *)
Definition tree_calls gen kind now request (subs : list ecu_node) :
    list (ECUContact * option UpdateResponse) :=
  flat_map (fun u =>
    if if_contains_ecu (node_id u) request
    then [(mkECUContact (node_id u) EmptyString 0,
           if node_up u then Some (update_tree gen kind now request u) else None)]
    else []) subs.

(** The answers of a node: those of its calls, then its own. *)
Lemma update_tree_node gen kind now request id up s a subs :
  exists l, update_tree gen kind now request (ECUNode id up s a subs) =
      flat_map done_answers (tree_calls gen kind now request subs) ++ l /\
    map re_ecu_id l = (if if_contains_ecu id request then [id] else []).
Proof.
  simpl. fold (tree_calls gen kind now request subs).
  pose proof (merge_done_response (tree_calls gen kind now request subs) ∅ []) as Hr.
  pose proof (merge_done_acked (tree_calls gen kind now request subs) ∅ [] eq_refl) as Ha.
  destruct (merge_done _ ∅ []) as [acked response]. simpl in Hr, Ha. subst.
  pose proof (handle_local_part_spec id gen kind a now request
    (flat_map done_answers (tree_calls gen kind now request subs)) s) as Hl.
  destruct (handle_local_part _ _ _ _ _ _ _ _ s) as [s' response']. by destruct Hl as [Hl _].
Qed.

(** ** Properties *)

Section Properties.
Context (my_ecu_id : string) (sub_ecus : list ECUContact).
Context (new_request_id : string) (gen_session_id : string -> string).
Context (remote_call : ECUContact -> UpdateRequest -> option UpdateResponse).
Context (done_order : list (ECUContact * option UpdateResponse) ->
                      list (ECUContact * option UpdateResponse)).

(** An update or client update request is answered for every ECU it
    concerns: in whatever order the calls to the sub ECUs finish, the response
    holds the answers of each requested sub ECU that responded, a
    [RECOVERABLE] failure for each one that did not, and one answer of the
    local ECU when it is requested; and the status storage is told of exactly
    the ECUs whose answer in the response is [NO_FAILURE]. *)
Theorem update_response_complete kind arrived now request s :
  (forall l, done_order l ≡ₚ l) ->
  let '(s', response) :=
    handle_update_request my_ecu_id sub_ecus true new_request_id gen_session_id remote_call
      done_order kind arrived now request s in
  let request' := with_request_id new_request_id request in
  (exists l, response ≡ₚ flat_map done_answers (sub_ecu_calls sub_ecus remote_call request') ++ l /\
     map re_ecu_id l = (if if_contains_ecu my_ecu_id request' then [my_ecu_id] else [])) /\
  (forall e, e ∈ in_update_ecus_id (sv_storage s') <->
     e ∈ in_update_ecus_id (sv_storage s) \/ mkUpdateResponseEcu e NO_FAILURE ∈ response).
Proof.
  intros Hperm. unfold handle_update_request. simpl negb. cbv iota zeta.
  set (request' := with_request_id new_request_id request).
  set (calls := sub_ecu_calls sub_ecus remote_call request').
  pose proof (merge_done_response (done_order calls) ∅ []) as Hr.
  pose proof (merge_done_acked (done_order calls) ∅ [] eq_refl) as Ha.
  destruct (merge_done (done_order calls) ∅ []) as [acked response]. simpl in Hr, Ha. subst acked.
  pose proof (handle_local_part_spec my_ecu_id gen_session_id kind arrived now request' response s) as Hl.
  destruct (handle_local_part _ _ _ _ _ _ _ _ s) as [s' response']. destruct Hl as [(l & -> & Hl) Hs].
  split.
  - exists l. split; [|done]. by rewrite Hr, (Hperm calls).
  - intros e. rewrite Hs, <- elem_of_ecus_acked_update. destruct (bool_decide_reflect (ecus_acked_update (response ++ l) = ∅)) as [->|_]; simpl; set_solver.
Qed.
End Properties.

(** Who answers a request in a tree of ECUs: the response of the root
    holds an answer for an ECU exactly when the request names the ECU and
    every ECU on the path to it, and the calls on the path succeed (a direct
    sub ECU that does not respond is answered for by its caller).  So an ECU
    behind one that is not in the request gets none. *)
Theorem tree_answers_addressed gen kind now request t e :
  e ∈ map re_ecu_id (update_tree gen kind now request t) <-> addressed request t e.
Proof.
  revert t e. apply (ecu_node_ind' (fun t => forall e, _ <-> addressed request t e)).
  intros id up s a subs IH e. rewrite Forall_forall in IH.
  destruct (update_tree_node gen kind now request id up s a subs) as (l & -> & Hl).
  rewrite map_app, elem_of_app, Hl. split.
  - intros [Hin|Hin].
    + apply list_elem_of_In, in_map_iff in Hin as (x & <- & Hx).
      apply in_flat_map in Hx as (d & Hd & Hx). apply in_flat_map in Hd as (u & Hu & Hd).
      apply list_elem_of_In in Hu. destruct (if_contains_ecu (node_id u) request) eqn:Ec; [|done].
      destruct Hd as [<-|[]]. unfold done_answers in Hx. simpl in Hx.
      destruct (node_up u) eqn:Eu; simpl in Hx.
      * eapply addr_sub; [done..|]. apply IH; [done|]. apply list_elem_of_In, in_map_iff. eauto.
      * destruct Hx as [<-|[]]. by apply addr_down.
    + destruct (if_contains_ecu id request) eqn:Ec; [|by apply elem_of_nil in Hin].
      apply list_elem_of_singleton in Hin as ->. by constructor.
  - intros Ha. inversion Ha as [? ? ? ? ? Hc|? ? ? ? ? u Hu Hup Hc|? ? ? ? ? u ? Hu Hup Hc Hs]; subst.
    + right. rewrite Hc. by apply list_elem_of_singleton.
    + left. apply list_elem_of_In, in_map_iff. eexists. split; [|apply in_flat_map].
      2: { eexists. split; [apply in_flat_map; exists u; split; [by apply list_elem_of_In|]|].
           - rewrite Hc. by left.
           - unfold done_answers. simpl. rewrite Hup. by left. }
      done.
    + left. apply (IH u Hu) in Hs. apply list_elem_of_In, in_map_iff in Hs as (x & <- & Hx).
      apply list_elem_of_In, in_map_iff. exists x. split; [done|]. apply in_flat_map.
      eexists. split; [apply in_flat_map; exists u; split; [by apply list_elem_of_In|]|].
      * rewrite Hc. by left.
      * unfold done_answers. simpl. by rewrite Hup.
Qed.

(** The tree is what [handle_update_request] does at each ECU when the calls
    to the sub ECUs end in their own [update]. *)
Definition node_contact (u : ecu_node) : ECUContact := mkECUContact (node_id u) EmptyString 0.

Definition tree_call gen kind now (subs : list ecu_node) (c : ECUContact) (request : UpdateRequest) :
    option UpdateResponse :=
  match List.find (fun u => String.eqb (node_id u) (ct_ecu_id c)) subs with
  | Some u => if node_up u then Some (update_tree gen kind now request u) else None
  | None => None
  end.

Lemma find_node subs u :
  NoDup (map node_id subs) -> u ∈ subs ->
  List.find (fun v => String.eqb (node_id v) (node_id u)) subs = Some u.
Proof.
  induction subs as [|v subs IH]; simpl; intros Hn Hu; [by apply elem_of_nil in Hu|].
  apply NoDup_cons in Hn as [Hv Hn]. apply elem_of_cons in Hu as [<-|Hu].
  - by rewrite String.eqb_refl.
  - destruct (String.eqb_spec (node_id v) (node_id u)) as [E|_]; [|by apply IH].
    exfalso. apply Hv. rewrite E. apply list_elem_of_In, in_map, list_elem_of_In, Hu.
Qed.

Lemma update_tree_handle nid gen kind now request id up s a subs :
  NoDup (map node_id subs) -> str_truthy (rq_request_id request) = true ->
  update_tree gen kind now request (ECUNode id up s a subs) =
  snd (handle_update_request id (map node_contact subs) true nid gen (tree_call gen kind now subs)
         (fun l => l) kind a now request s).
Proof.
  intros Hn Hid. unfold handle_update_request, with_request_id. rewrite Hid. simpl negb. cbv iota zeta.
  cut (sub_ecu_calls (map node_contact subs) (tree_call gen kind now subs) request =
       tree_calls gen kind now request subs).
  { intros ->. simpl. fold (tree_calls gen kind now request subs).
    by destruct (merge_done (tree_calls gen kind now request subs) ∅ []). }
  assert (Hf : forall u, u ∈ subs -> tree_call gen kind now subs (node_contact u) request =
    if node_up u then Some (update_tree gen kind now request u) else None).
  { intros u Hu. unfold tree_call. simpl. by rewrite find_node. }
  unfold sub_ecu_calls, tree_calls. revert Hf. generalize (tree_call gen kind now subs).
  clear Hn. induction subs as [|u subs IH]; intros f Hf; [done|]. simpl.
  destruct (if_contains_ecu (node_id u) request); simpl.
  - rewrite (Hf u) by set_solver. f_equal. apply IH. intros v Hv. apply Hf. set_solver.
  - apply IH. intros v Hv. apply Hf. set_solver.
Qed.

(** ** The servicer and the core process *)

Section WithCore.
Context {P : Type}.

(** What one round of the core's loop adds to the response queue. *)
Definition answered_in_round repr handled now mono q (m : main_state P) : list ipc_item :=
  map IPCItem (drop (List.length (m_responses m))
                 (m_responses (main_round repr handled now mono (Some q) m))).

(** C38. The two processes agree: when the response queue is empty and the
    core takes the request of the servicer in time, the ECU is reported with
    [NO_FAILURE] exactly when the core started the operation (it reports
    [RECOVERABLE] otherwise), and the response queue is empty again. *)
Theorem dispatch_matches_core my_ecu_id repr handled now mono q (m : main_state P) s :
  is_operation q = true -> sv_resp_queue s = [] ->
  let m' := main_round repr handled now mono (Some q) m in
  let '(s', r) := dispatch_local_request my_ecu_id q (answered_in_round repr handled now mono q m) s in
  re_ecu_id r = my_ecu_id /\
  re_result r = (if bool_decide (List.length (m_started m') = S (List.length (m_started m)))
                 then NO_FAILURE else RECOVERABLE) /\
  sv_resp_queue s' = [].
Proof.
  intros Hq Hs. cbv zeta. unfold dispatch_local_request, ask_core, answered_in_round. simpl.
  rewrite Hs. unfold main_round.
  destruct q as [u|u|a|x y|x y]; try done; simpl; destruct (_ || _); simpl;
    rewrite drop_app_length; simpl; rewrite String.eqb_refl; simpl; (split; [done|]); (split; [|done]);
    rewrite ?length_app; simpl;
    first [by rewrite bool_decide_eq_true_2 by lia | by rewrite bool_decide_eq_false_2 by lia].
Qed.

(** The servicer over a run of requests, each with the response the core
    gives it in time. *)
Fixpoint dispatch_run (my_ecu_id : string) (l : list (IPCRequest * IPCResponse)) (s : servicer) :
    servicer * list FailureType :=
  match l with
  | [] => (s, [])
  | (q, r) :: l =>
      let '(s, a) := dispatch_local_request my_ecu_id q [IPCItem r] s in
      let '(s, results) := dispatch_run my_ecu_id l s in
      (s, re_result a :: results)
  end.

(** One late answer of the core breaks the servicer for good: once a
    response arrived after its request had timed out, every later request is
    answered with [RECOVERABLE], though the core answered it in time and
    whatever it answered, because each one reads the response before its own. *)
Theorem late_response_shifts_answers my_ecu_id stale l s :
  sv_resp_queue s = [IPCItem stale] ->
  Forall (fun qr => resp_session_id (snd qr) = req_session_id (fst qr)) l ->
  NoDup (resp_session_id stale :: map (fun qr => req_session_id (fst qr)) l) ->
  snd (dispatch_run my_ecu_id l s) = repeat RECOVERABLE (List.length l) /\
  exists last, sv_resp_queue (fst (dispatch_run my_ecu_id l s)) = [IPCItem last].
Proof.
  revert stale s. induction l as [|[q r] l IH]; intros stale s Hs Hr Hn; [by eauto|].
  apply Forall_cons in Hr as [Hq Hr]. simpl in Hq, Hn.
  apply NoDup_cons in Hn as [Hne Hn]. apply not_elem_of_cons in Hne as [Hne _].
  simpl. unfold dispatch_local_request, ask_core. simpl. rewrite Hs. simpl.
  set (s1 := mkServicer (sv_op_queue s ++ [q]) [IPCItem r] (sv_storage s)).
  destruct (IH r s1 eq_refl Hr) as [Hres (last & Hlast)]; [by rewrite Hq|].
  destruct (dispatch_run my_ecu_id l s1) as [s2 res]. simpl in *. subst res.
  apply String.eqb_neq in Hne. rewrite Hne. simpl. split; [done|]. by exists last.
Qed.
End WithCore.

(** ** Aborts and polling *)

Definition abort_answers (d : ECUContact * abort_outcome) : AbortResponse := merge_abort_done [d] [].

Lemma merge_abort_done_app done response :
  merge_abort_done done response = response ++ flat_map abort_answers done.
Proof.
  revert response. induction done as [|[c [r| |msg]] done IH]; intros response; simpl;
    [by rewrite app_nil_r|..]; unfold merge_abort_done in *; simpl; rewrite IH;
    unfold merge_from, add_ecu; simpl; by rewrite <- app_assoc.
Qed.

(** An abort request goes to every sub ECU and to the local core,
    whatever ECUs it names: the response holds the answers of all of them (an
    [ABORT_FAILURE] for a sub ECU that does not respond or does not know the
    call), and last the local one, which is [ABORT_NO_FAILURE] exactly when
    the response taken from the core accepts this very session. *)
Theorem abort_reaches_all my_ecu_id sub_ecus nid sid abort_call done_order arrived rid s :
  (forall l, done_order l ≡ₚ l) ->
  let '(s', response) :=
    sv_abort my_ecu_id sub_ecus nid sid abort_call done_order arrived rid s in
  let rid' := if str_truthy rid then rid else nid in
  exists others own, response = others ++ [own] /\
    others ≡ₚ flat_map (fun c => abort_answers (c, abort_call c rid')) sub_ecus /\
    sv_op_queue s' = sv_op_queue s ++ [ReqAbort (mkAbortRequestV2 rid' sid)] /\
    ab_ecu_id own = my_ecu_id /\
    (ab_result own = ABORT_NO_FAILURE <->
     exists r, head (sv_resp_queue s ++ arrived) = Some (IPCItem r) /\
       resp_session_id r = sid /\ resp_res r = ACCEPT).
Proof.
  intros Hperm. unfold sv_abort. set (rid' := if str_truthy rid then rid else nid). cbv zeta.
  unfold handle_abort_request, ask_core. simpl.
  rewrite merge_abort_done_app, (app_nil_l (flat_map _ _)).
  set (calls := map (fun c => (c, abort_call c rid')) sub_ecus).
  assert (Ho : flat_map abort_answers (done_order calls) ≡ₚ
    flat_map (fun c => abort_answers (c, abort_call c rid')) sub_ecus).
  { rewrite (Hperm calls). unfold calls. rewrite !flat_map_concat_map, map_map. done. }
  destruct (sv_resp_queue s ++ arrived) as [|[r|n] q]; simpl; eexists _, _;
    (split; [reflexivity|]); (split; [exact Ho|]); (split; [done|]).
  - split; [done|]. split; [done|]. by intros (? & ? & _).
  - destruct (String.eqb_spec (resp_session_id r) sid) as [E|E]; simpl;
      [destruct (bool_decide_reflect (resp_res r = ACCEPT)); simpl|];
      (split; [done|]); split; try done; first [by exists r | by intros (? & [= <-] & ? & ?)].
  - split; [done|]. split; [done|]. by intros (? & ? & _).
Qed.

(** A run of the polling of one sub ECU. *)
Definition poll_run (contact : ECUContact) (l : list (Z * option StatusResponse))
    (ms : startup_matrix * ECUStatusState) : startup_matrix * ECUStatusState :=
  fold_left (fun ms '(now, r) => fst (polling_direct_subecu_round contact now r ms)) l ms.

Definition reports_itself (contact : ECUContact) (r : option StatusResponse) : bool :=
  match r with Some resp => bool_decide (is_Some (find_ecu_v2 (ct_ecu_id contact) resp)) | None => false end.

(** The polling of a sub ECU stays at its start-up rate exactly until the
    first response in which the sub ECU itself appears. *)
Theorem startup_polling_until_first_report contact l now r st :
  snd (polling_direct_subecu_round contact now r (poll_run contact l (∅, st))) =
  (if existsb (reports_itself contact) (map snd l ++ [r]) then PollingWaiter
   else SleepFor ACTIVE_POLL_SUB_ON_STARTUP).
Proof.
  assert (Hstep : forall now r ms,
    starting (ct_ecu_id contact) (fst (fst (polling_direct_subecu_round contact now r ms))) =
    starting (ct_ecu_id contact) (fst ms) && negb (reports_itself contact r)).
  { intros n x [m st']. unfold polling_direct_subecu_round, reports_itself. destruct x as [resp|]; simpl.
    - destruct (starting (ct_ecu_id contact) m) eqn:E; simpl; [|by rewrite E].
      destruct (bool_decide _); simpl; [|by rewrite E]. unfold starting. by rewrite lookup_insert_eq.
    - by rewrite andb_true_r. }
  assert (Hwait : forall now r ms, snd (polling_direct_subecu_round contact now r ms) =
    next_wait ACTIVE_POLL_SUB_ON_STARTUP (ct_ecu_id contact)
      (fst (fst (polling_direct_subecu_round contact now r ms)))).
  { intros n [x|] [m st']; unfold polling_direct_subecu_round; simpl; by repeat case_match. }
  assert (Hrun : forall l ms, starting (ct_ecu_id contact) (fst (poll_run contact l ms)) =
    starting (ct_ecu_id contact) (fst ms) && negb (existsb (reports_itself contact) (map snd l))).
  { clear -Hstep. unfold poll_run. induction l as [|[n x] l IH]; intros ms; simpl;
      [by rewrite andb_true_r|]. by rewrite IH, Hstep, negb_orb, andb_assoc. }
  rewrite Hwait. unfold next_wait. rewrite Hstep, Hrun. simpl.
  rewrite existsb_app. simpl. rewrite orb_false_r. unfold starting. rewrite lookup_empty. simpl.
  by destruct (existsb _ _), (reports_itself contact r).
Qed.

(** ** Witnesses *)

Definition example_servicer : servicer :=
  mkServicer [] [] (new_storage (mkFlags false false false) ["main"; "sub"]%string).

Definition example_ecu (e : string) : UpdateRequestEcu :=
  mkUpdateRequestEcu e "1.0" "http://x" "{}" "" "" "".

Definition example_request : UpdateRequest :=
  mkUpdateRequest [example_ecu "main"; example_ecu "sub"] "r1".

Definition example_accept : ipc_item := IPCItem (mkIPCResponse ACCEPT "s1" "").

Lemma update_response_complete_witness :
  let '(s', response) :=
    handle_update_request "main" [mkECUContact "sub" "" 0] true "" (fun _ => "s1"%string)
      (fun _ _ => None) (fun l => l) KUpdate [example_accept] 10 example_request example_servicer in
  (forall e, e ∈ in_update_ecus_id (sv_storage s') <->
     e ∈ in_update_ecus_id (sv_storage example_servicer) \/
     mkUpdateResponseEcu e NO_FAILURE ∈ response).
Proof.
  exact (proj2 (update_response_complete "main" [mkECUContact "sub" "" 0] "" (fun _ => "s1"%string)
    (fun _ _ => None) (fun l => l) KUpdate [example_accept] 10 example_request example_servicer
    (fun l => Permutation_refl l))).
Defined.

Definition example_update : IPCRequest := ReqUpdate example_request_v2.

Lemma dispatch_matches_core_witness :
  re_result (snd (dispatch_local_request "main" example_update
    (answered_in_round (fun _ _ => ""%string) (fun h => h) 10 10 example_update (main_init example_client))
    example_servicer)) = NO_FAILURE.
Proof.
  exact (proj1 (proj2 (dispatch_matches_core "main" (fun _ _ => ""%string) (fun h => h) 10 10
    example_update (main_init example_client) example_servicer eq_refl eq_refl))).
Defined.

Lemma late_response_shifts_answers_witness :
  snd (dispatch_run "main"
    [(example_update, mkIPCResponse ACCEPT "session" "")]
    (example_servicer <| sv_resp_queue := [IPCItem (mkIPCResponse REJECT_BUSY "s0" "")] |>)) =
  [RECOVERABLE].
Proof.
  exact (proj1 (late_response_shifts_answers "main" (mkIPCResponse REJECT_BUSY "s0" "")
    [(example_update, mkIPCResponse ACCEPT "session" "")]
    (example_servicer <| sv_resp_queue := [IPCItem (mkIPCResponse REJECT_BUSY "s0" "")] |>)
    eq_refl ltac:(repeat constructor)
    ltac:(apply (bool_decide_unpack _); vm_compute; exact I))).
Defined.

Lemma abort_reaches_all_witness :
  exists others own,
    snd (sv_abort "main" [mkECUContact "sub" "" 0] "" "s1" (fun _ _ => AbortNotSupported)
           (fun l => l) [example_accept] "r" example_servicer) = others ++ [own] /\
    ab_ecu_id own = "main"%string.
Proof.
  destruct (abort_reaches_all "main" [mkECUContact "sub" "" 0] "" "s1" (fun _ _ => AbortNotSupported)
    (fun l => l) [example_accept] "r" example_servicer (fun l => Permutation_refl l))
    as (others & own & H1 & _ & _ & H2 & _).
  exists others, own. exact (conj H1 H2).
Defined.
