(* ===== verification/CacheIndex.v ===== *)
(** * The cache index of the OTA proxy

    Models [src/src/ota_proxy/cache_index.py] (the in-memory index, the batching
    DB writer, the preload at start-up) with the table row and the header
    export of [src/src/ota_proxy/db.py] and the limits of
    [src/src/ota_proxy/config.py].  The SQLite table is a finite map from the
    primary key to the row: [INSERT OR REPLACE] and [DELETE ... IN]; a failing
    statement leaves the table unchanged.  The DB writer thread takes its
    steps between the calls of the other threads. *)

From stdpp Require Import base gmap strings list option sets sorting.
From Stdlib Require Import ZArith String Lia.
From S2P Require Import Prelude CacheControlHeader.

(** ** Configuration *)

Definition MAX_INDEX_ENTRIES : N := 600000.
Definition DB_FLUSH_BATCH_SIZE : nat := 128.
Definition URL_BASED_HASH_PREFIX : string := "URL_".

(** [list(cfg.BUCKET_FILE_SIZE_DICT)] *)
Definition bucket_size_list : list Z :=
  [0; 1 * 1024; 2 * 1024; 4 * 1024; 8 * 1024; 16 * 1024; 32 * 1024; 256 * 1024;
   1 * 1024 ^ 2; 8 * 1024 ^ 2; 16 * 1024 ^ 2; 32 * 1024 ^ 2].

(** ** Rows and index entries *)

Record CacheMeta : Type := mkCacheMeta {
  cm_file_sha256 : string;
  cm_url : string;
  cm_bucket_idx : Z;
  cm_last_access : Z;
  cm_cache_size : Z;
  cm_file_compression_alg : option string;
  cm_content_encoding : option string;
}.

#[export] Instance eta_CacheMeta : Eta CacheMeta := fun r =>
  mkCacheMeta (cm_file_sha256 r) (cm_url r) (cm_bucket_idx r) (cm_last_access r)
    (cm_cache_size r) (cm_file_compression_alg r) (cm_content_encoding r).

Definition HEADER_CONTENT_ENCODING : string := "content-encoding".

(** [_build_index_entry_headers]; a header is set once, so the multidict is a
    dict here. *)
Definition build_index_entry_headers (file_sha256 : string)
    (content_encoding file_compression_alg : option string) : pydict string :=
  (if opt_str_truthy content_encoding
   then [(HEADER_CONTENT_ENCODING, opt_str_or content_encoding EmptyString)] else []) ++
  (if str_truthy file_sha256 && negb (startswith URL_BASED_HASH_PREFIX file_sha256)
   then [(HEADER_LOWERCASE, export_kwargs_as_header_string
           [("file_sha256", VStr file_sha256);
            ("file_compression_alg", VStr (opt_str_or file_compression_alg EmptyString))]%string)]
   else []).

(** [CacheMeta.export_headers_to_client] *)
Definition export_headers_to_client (m : CacheMeta) : pydict string :=
  build_index_entry_headers (cm_file_sha256 m) (cm_content_encoding m) (cm_file_compression_alg m).

Record CacheIndexEntry : Type := mkCacheIndexEntry {
  ie_cache_size : Z;
  ie_headers : pydict string;
}.

Definition index_entry_of (m : CacheMeta) : CacheIndexEntry :=
  mkCacheIndexEntry (cm_cache_size m)
    (build_index_entry_headers (cm_file_sha256 m) (cm_content_encoding m)
       (cm_file_compression_alg m)).

Abbreviation db_table := (gmap string CacheMeta).

(** ** The DB writer *)

(** [bisect.bisect_right(a, x)]: the binary search of the standard library. *)
Fixpoint bisect_right_go (fuel : nat) (a : list Z) (x : Z) (lo hi : nat) : nat :=
  match fuel with
  | O => lo
  | S fuel =>
      if (lo <? hi)%nat then
        let mid := ((lo + hi) / 2)%nat in
        if x <? nth mid a 0 then bisect_right_go fuel a x lo mid
        else bisect_right_go fuel a x (S mid) hi
      else lo
  end.

Definition bisect_right (a : list Z) (x : Z) : nat :=
  bisect_right_go (List.length a) a x 0 (List.length a).

Definition bucket_of (cache_size : Z) : Z := Z.of_nat (bisect_right bucket_size_list cache_size) - 1.

Inductive db_item : Type :=
| ItemWrite (m : CacheMeta)
| ItemDelete (file_sha256 : string)
| ItemStop.

Record CacheDBWriter : Type := mkCacheDBWriter {
  w_queue : list db_item;
  w_write_batch : list CacheMeta;
  w_delete_batch : list string;
  w_db : db_table;
  w_stopped : bool;
}.

#[export] Instance eta_CacheDBWriter : Eta CacheDBWriter := fun r =>
  mkCacheDBWriter (w_queue r) (w_write_batch r) (w_delete_batch r) (w_db r) (w_stopped r).

Definition put_item (i : db_item) (w : CacheDBWriter) : CacheDBWriter :=
  w <| w_queue := w_queue w ++ [i] |>.

(** [register_entry], [CacheDBWriter.remove_entry], [CacheDBWriter.close] *)
Definition register_entry (m : CacheMeta) : CacheDBWriter -> CacheDBWriter := put_item (ItemWrite m).
Definition writer_remove_entry (k : string) : CacheDBWriter -> CacheDBWriter := put_item (ItemDelete k).
Definition writer_close : CacheDBWriter -> CacheDBWriter := put_item ItemStop.

(** [orm_insert_entries(rows, or_option="replace")] *)
Definition insert_entries (rows : list CacheMeta) (db : db_table) : db_table :=
  foldl (fun db m => <[cm_file_sha256 m := m]> db) db rows.

(** [DELETE FROM t WHERE file_sha256 IN (...)] *)
Definition delete_entries (ks : list string) (db : db_table) : db_table :=
  foldl (fun db k => delete k db) db ks.

(** [_flush_to_db]; the booleans tell whether the two statements succeed. *)
Definition flush_to_db (insert_ok delete_ok : bool) (write_batch : list CacheMeta)
    (delete_batch : list string) (db : db_table) : db_table :=
  let db :=
    match write_batch with
    | [] => db
    | _ =>
        let rows := map (fun m => m <| cm_bucket_idx := bucket_of (cm_cache_size m) |>) write_batch in
        if insert_ok then insert_entries rows db else db
    end in
  match delete_batch with
  | [] => db
  | _ => if delete_ok then delete_entries delete_batch db else db
  end.

Definition writer_flush (insert_ok delete_ok : bool) (w : CacheDBWriter) : CacheDBWriter :=
  w <| w_db := flush_to_db insert_ok delete_ok (w_write_batch w) (w_delete_batch w) (w_db w) |>
    <| w_write_batch := [] |> <| w_delete_batch := [] |>.

(** One iteration of the loop of [start_thread].  On an empty queue the wait
    times out. *)
Definition writer_round (insert_ok delete_ok : bool) (w : CacheDBWriter) : CacheDBWriter :=
  if w_stopped w then w
  else
    match w_queue w with
    | ItemStop :: q =>
        (writer_flush insert_ok delete_ok w) <| w_queue := q |> <| w_stopped := true |>
    | i :: q =>
        let w := w <| w_queue := q |> in
        let w := match i with
                 | ItemWrite m => w <| w_write_batch := w_write_batch w ++ [m] |>
                 | ItemDelete k => w <| w_delete_batch := w_delete_batch w ++ [k] |>
                 | ItemStop => w
                 end in
        if (DB_FLUSH_BATCH_SIZE <=? List.length (w_write_batch w) + List.length (w_delete_batch w))%nat
        then writer_flush insert_ok delete_ok w else w
    | [] =>
        if (0 <? List.length (w_write_batch w) + List.length (w_delete_batch w))%nat
        then writer_flush insert_ok delete_ok w else w
    end.

(** ** The index *)

(** [ci_writer] is [None] when the DB could not be initialized. *)
Record CacheIndex : Type := mkCacheIndex {
  ci_index : gmap string CacheIndexEntry;
  ci_entries_exceeded_warned : bool;
  ci_writer : option CacheDBWriter;
}.

#[export] Instance eta_CacheIndex : Eta CacheIndex := fun r =>
  mkCacheIndex (ci_index r) (ci_entries_exceeded_warned r) (ci_writer r).

Definition lookup_entry (k : string) (c : CacheIndex) : option CacheIndexEntry := ci_index c !! k.

Definition remove_entry (k : string) (c : CacheIndex) : CacheIndex :=
  c <| ci_index := delete k (ci_index c) |>
    <| ci_writer := writer_remove_entry k <$> ci_writer c |>.

Definition commit_entry (now : Z) (m : CacheMeta) (c : CacheIndex) : CacheIndex * bool :=
  let m := m <| cm_last_access := now |> in
  if (MAX_INDEX_ENTRIES <=? N.of_nat (size (ci_index c)))%N
  then (c <| ci_entries_exceeded_warned := true |>, false)
  else
    (c <| ci_index := <[cm_file_sha256 m := index_entry_of m]> (ci_index c) |>
       <| ci_writer := register_entry m <$> ci_writer c |>, true).

Definition close_index (c : CacheIndex) : CacheIndex :=
  c <| ci_writer := writer_close <$> ci_writer c |>.

(** ** Start-up *)

(** The loop of [_preload_from_db] over the rows, most recent first:
    [file_exists] says which cache files are present. *)
Fixpoint preload_rows (max : N) (file_exists : string -> bool) (rows : list CacheMeta)
    (count : N) (res : gmap string CacheIndexEntry) (to_remove : list string) :
    gmap string CacheIndexEntry * list string :=
  match rows with
  | [] => (res, to_remove)
  | row :: rows =>
      let key := cm_file_sha256 row in
      if (count <? max)%N then
        if negb (cm_cache_size row =? 0) && negb (file_exists key)
        then preload_rows max file_exists rows count res (to_remove ++ [key])
        else preload_rows max file_exists rows (N.succ count) (<[key := index_entry_of row]> res) to_remove
      else preload_rows max file_exists rows count res (to_remove ++ [key])
  end.

Definition preload_from_db (file_exists : string -> bool) (rows : list CacheMeta) :
    gmap string CacheIndexEntry * list string :=
  preload_rows MAX_INDEX_ENTRIES file_exists rows 0 ∅ [].

(** [_preload_cleanup_cache_db_entries]: the batches of 128 keys delete what
    one statement over all of them would. *)
Definition PRELOAD_BATCH_REMOVE : nat := 128.

Fixpoint batched {A} (fuel n : nat) (l : list A) : list (list A) :=
  match fuel, l with
  | O, _ | _, [] => []
  | S fuel, _ => take n l :: batched fuel n (drop n l)
  end.

Definition preload_cleanup_cache_db_entries (exceed : list string) (db : db_table) : db_table :=
  foldl (fun db b => delete_entries b db) db (batched (List.length exceed) PRELOAD_BATCH_REMOVE exceed).

(** What the DB file turns out to be at start-up. *)
Inductive db_file : Type :=
| DBBroken                                 (** missing, corrupt or failing the check *)
| DBOk (table : db_table) (rows : list CacheMeta)
                                           (** with the rows the [SELECT] returns *)
| DBUnusable.                              (** even re-creating it fails *)

(** [CacheIndex.__init__] *)
Definition init_index (force_init_db : bool) (file_exists : string -> bool) (f : db_file) :
    CacheIndex :=
  let new_writer db := Some (mkCacheDBWriter [] [] [] db false) in
  match f with
  | DBUnusable => mkCacheIndex ∅ false None
  | DBBroken => mkCacheIndex ∅ false (new_writer ∅)
  | DBOk table rows =>
      if force_init_db then mkCacheIndex ∅ false (new_writer ∅)
      else
        let '(res, exceed) := preload_from_db file_exists rows in
        mkCacheIndex res false
          (new_writer (match exceed with
                       | [] => table
                       | _ => preload_cleanup_cache_db_entries exceed table
                       end))
  end.

(** ** Lemmas on the table *)

Lemma insert_entries_dom rows db k :
  k ∈ dom (insert_entries rows db) <-> k ∈ map cm_file_sha256 rows \/ k ∈ dom db.
Proof.
  revert db. induction rows as [|m rows IH]; intros db; cbn [insert_entries foldl map].
  - set_solver.
  - change (k ∈ dom (insert_entries rows (<[cm_file_sha256 m:=m]> db)) <->
      k ∈ cm_file_sha256 m :: map cm_file_sha256 rows \/ k ∈ dom db).
    rewrite IH, dom_insert, elem_of_cons. set_solver.
Qed.

Lemma delete_entries_lookup ks db k :
  delete_entries ks db !! k = if decide (k ∈ ks) then None else db !! k.
Proof.
  revert db. induction ks as [|k' ks IH]; intros db; [done|].
  change (delete_entries (k' :: ks) db) with (delete_entries ks (delete k' db)). rewrite IH.
  destruct (decide (k ∈ ks)) as [H|H]; [by rewrite decide_True by set_solver|].
  destruct (decide (k = k')) as [->|Hne].
  - rewrite lookup_delete_eq, decide_True by set_solver. done.
  - rewrite lookup_delete_ne by congruence. by rewrite decide_False by set_solver.
Qed.

Lemma delete_entries_dom ks db k :
  k ∈ dom (delete_entries ks db) <-> (k ∉ ks) /\ k ∈ dom db.
Proof.
  rewrite !elem_of_dom, delete_entries_lookup. destruct (decide (k ∈ ks)).
  - split; [by intros [? ?]|by intros [? ?]].
  - split; [by intros; split|by intros [? ?]].
Qed.

(** Which keys a flush whose deletion succeeds leaves in the table. *)
Lemma flush_to_db_dom ins wb ds db k :
  k ∈ dom (flush_to_db ins true wb ds db) ->
  (k ∉ ds) /\ (k ∈ map cm_file_sha256 wb \/ k ∈ dom db).
Proof.
  unfold flush_to_db. set (db' := match wb with [] => db | _ => _ end).
  assert (H : k ∈ dom db' -> k ∈ map cm_file_sha256 wb \/ k ∈ dom db).
  { subst db'. destruct wb as [|m wb]; [by right|]. destruct ins; [|by right].
    rewrite insert_entries_dom, map_map. simpl. done. }
  destruct ds as [|d ds]; [split; [set_solver|by apply H]|].
  rewrite delete_entries_dom. intros [H1 H2]. split; [done|by apply H].
Qed.

(** ** The index stays within its limit *)

Inductive index_op : Type :=
| OpCommit (now : Z) (m : CacheMeta)
| OpRemove (k : string)
| OpWriterRound (insert_ok : bool)
| OpClose.

(** An operation of a client, or an iteration of the writer thread (whose
    delete statements succeed). *)
Definition apply_index_op (c : CacheIndex) (o : index_op) : CacheIndex :=
  match o with
  | OpCommit now m => fst (commit_entry now m c)
  | OpRemove k => remove_entry k c
  | OpWriterRound ins => c <| ci_writer := writer_round ins true <$> ci_writer c |>
  | OpClose => close_index c
  end.

Definition run_index_ops (c : CacheIndex) (l : list index_op) : CacheIndex := foldl apply_index_op c l.

Definition within_limit (c : CacheIndex) : Prop := (N.of_nat (size (ci_index c)) <= MAX_INDEX_ENTRIES)%N.

Lemma preload_rows_size max fe rows count res rem :
  (N.of_nat (size res) <= count)%N -> (count <= max)%N ->
  (N.of_nat (size (fst (preload_rows max fe rows count res rem))) <= max)%N.
Proof.
  revert count res rem. induction rows as [|row rows IH]; intros count res rem Hs Hc; simpl; [lia|].
  destruct (count <? max)%N eqn:E; [|by apply IH]. apply N.ltb_lt in E.
  destruct (_ && _); [by apply IH|]. apply IH; [|lia].
  rewrite map_size_insert. destruct (res !! _); simpl; lia.
Qed.

Lemma init_index_within_limit force fe f : within_limit (init_index force fe f).
Proof.
  unfold within_limit, init_index. destruct f as [|table rows|]; simpl; try (rewrite map_size_empty; lia).
  destruct force; simpl; [rewrite map_size_empty; lia|].
  pose proof (preload_rows_size MAX_INDEX_ENTRIES fe rows 0 ∅ []) as H.
  unfold preload_from_db. destruct (preload_rows _ _ _ _ _ _) as [res exceed]. simpl in *.
  apply H; [rewrite map_size_empty; lia|lia].
Qed.

Lemma apply_index_op_within_limit c o : within_limit c -> within_limit (apply_index_op c o).
Proof.
  unfold within_limit. destruct o as [now m|k| |]; simpl; try done.
  - unfold commit_entry. destruct (MAX_INDEX_ENTRIES <=? _)%N eqn:E; simpl; [done|].
    apply N.leb_gt in E. intros _. rewrite map_size_insert. destruct (ci_index c !! _); simpl; lia.
  - rewrite map_size_delete. destruct (ci_index c !! k); simpl; lia.
Qed.

(** ** The table stays within the index *)

Definition item_key (i : db_item) : option string :=
  match i with
  | ItemWrite m => Some (cm_file_sha256 m)
  | ItemDelete k => Some k
  | ItemStop => None
  end.

(** The last queued operation on a key. *)
Fixpoint last_on (k : string) (q : list db_item) : option db_item :=
  match q with
  | [] => None
  | i :: q =>
      match last_on k q with
      | Some j => Some j
      | None => if bool_decide (item_key i = Some k) then Some i else None
      end
  end.

(** A key that is not in the index is on its way out of the table: its last
    queued operation is a deletion, or a deletion is pending, or it is
    neither pending nor stored. *)
Definition leaving (k : string) (w : CacheDBWriter) : Prop :=
  match last_on k (w_queue w) with
  | Some i => i = ItemDelete k
  | None =>
      k ∈ w_delete_batch w \/ (k ∉ map cm_file_sha256 (w_write_batch w)) /\ k ∉ dom (w_db w)
  end.

Definition table_within (c : CacheIndex) : Prop :=
  forall w k, ci_writer c = Some w -> k ∉ dom (ci_index c) -> leaving k w.

Lemma last_on_snoc k q i :
  last_on k (q ++ [i]) = if bool_decide (item_key i = Some k) then Some i else last_on k q.
Proof.
  induction q as [|j q IH]; simpl; [done|]. rewrite IH.
  destruct (bool_decide (item_key i = Some k)); [done|]. by destruct (last_on k q).
Qed.

Lemma leaving_put_other k i w : item_key i <> Some k -> leaving k w -> leaving k (put_item i w).
Proof.
  intros Hi. unfold leaving. simpl. by rewrite last_on_snoc, bool_decide_eq_false_2.
Qed.

Lemma leaving_flush k ins w : leaving k w -> leaving k (writer_flush ins true w).
Proof.
  unfold leaving. simpl. destruct (last_on k (w_queue w)); [done|]. intros H. right.
  split; [set_solver|]. intros [Hd Hk]%flush_to_db_dom. destruct H as [H|[H1 H2]]; [done|].
  destruct Hk; done.
Qed.

(** Taking the head of the queue into a batch. *)
Lemma leaving_take k i q w :
  w_queue w = i :: q -> i <> ItemStop -> leaving k w ->
  leaving k
    match i with
    | ItemWrite m => w <| w_queue := q |> <| w_write_batch := w_write_batch w ++ [m] |>
    | ItemDelete k' => w <| w_queue := q |> <| w_delete_batch := w_delete_batch w ++ [k'] |>
    | ItemStop => w <| w_queue := q |>
    end.
Proof.
  intros Hq Hi. unfold leaving. rewrite Hq. simpl. destruct i as [m|k'|]; [..|done]; simpl.
  - destruct (last_on k q); [done|]. case_bool_decide as E; [done|].
    intros [H|[H1 H2]]; [by left|right]. split; [|done]. rewrite map_app, elem_of_app. simpl.
    rewrite list_elem_of_singleton. intros [H|H]; [done|congruence].
  - destruct (last_on k q); [done|]. case_bool_decide as E.
    + injection E as ->. intros _. left. set_solver.
    + intros [H|H]; [left; set_solver|by right].
Qed.

Lemma leaving_round k ins w : leaving k w -> leaving k (writer_round ins true w).
Proof.
  intros H. unfold writer_round. destruct (w_stopped w); [done|].
  destruct (w_queue w) as [|i q] eqn:Hq.
  - destruct (0 <? _)%nat; [by apply leaving_flush|done].
  - destruct i as [m|k'|].
    + pose proof (leaving_take k _ _ _ Hq ltac:(done) H) as H'. simpl in H'. cbv zeta.
      destruct (_ <=? _)%nat; [by apply leaving_flush|done].
    + pose proof (leaving_take k _ _ _ Hq ltac:(done) H) as H'. simpl in H'. cbv zeta.
      destruct (_ <=? _)%nat; [by apply leaving_flush|done].
    + assert (H' : leaving k (w <| w_queue := q |>)).
      { unfold leaving in *. rewrite Hq in H. simpl in *. by destruct (last_on k q). }
      apply (leaving_flush _ ins) in H'. unfold leaving in *. simpl in *. done.
Qed.

Lemma apply_index_op_table_within c o : table_within c -> table_within (apply_index_op c o).
Proof.
  intros Hc w k. destruct o as [now m|k'|ins|]; simpl.
  - unfold commit_entry. destruct (_ <=? _)%N; simpl; [apply Hc|].
    destruct (ci_writer c) as [w0|] eqn:Ew; simpl; [|done]. intros [= <-].
    rewrite dom_insert, not_elem_of_union, not_elem_of_singleton. intros [Hk1 Hk2].
    apply leaving_put_other; [simpl; congruence|by apply Hc].
  - destruct (ci_writer c) as [w0|] eqn:Ew; simpl; [|done]. intros [= <-]. rewrite dom_delete.
    intros Hk. destruct (decide (k = k')) as [->|Hne].
    + unfold leaving. simpl. by rewrite last_on_snoc, bool_decide_eq_true_2.
    + apply leaving_put_other; [simpl; congruence|]. apply Hc; [done|set_solver].
  - destruct (ci_writer c) as [w0|] eqn:Ew; simpl; [|done]. intros [= <-] Hk.
    apply leaving_round. by apply Hc.
  - destruct (ci_writer c) as [w0|] eqn:Ew; simpl; [|done]. intros [= <-] Hk.
    apply leaving_put_other; [done|]. by apply Hc.
Qed.

(** ** The preload *)

(** What one pass over distinct rows yields: the keys are split between the
    index and the list to remove, and nothing else enters either. *)
Lemma preload_rows_split max fe rows count res rem :
  NoDup (map cm_file_sha256 rows) ->
  (forall k, k ∈ map cm_file_sha256 rows -> (k ∉ dom res) /\ k ∉ rem) ->
  let '(res', rem') := preload_rows max fe rows count res rem in
  (forall k, k ∈ dom res' \/ k ∈ rem' <-> k ∈ dom res \/ k ∈ rem \/ k ∈ map cm_file_sha256 rows) /\
  (forall k, k ∈ dom res' -> k ∈ rem' -> k ∈ dom res /\ k ∈ rem) /\
  (forall k e, res' !! k = Some e -> res !! k = Some e \/
     exists row, row ∈ rows /\ cm_file_sha256 row = k /\ e = index_entry_of row /\
       (cm_cache_size row = 0 \/ fe k = true)).
Proof.
  revert count res rem. induction rows as [|row rows IH]; intros count res rem Hnd Hfresh;
    cbn [preload_rows map] in *.
  { split_and!; [intros k; rewrite elem_of_nil; tauto|tauto|by left]. }
  apply NoDup_cons in Hnd as [Hni Hnd]. set (key := cm_file_sha256 row) in *.
  assert (Hkey : (key ∉ dom res) /\ key ∉ rem) by (apply Hfresh, elem_of_cons; by left).
  assert (Hfr : forall k, k ∈ map cm_file_sha256 rows -> (k ∉ dom res) /\ (k ∉ rem) /\ k <> key).
  { intros k Hk. destruct (Hfresh k) as [? ?]; [by apply elem_of_cons; right|].
    split_and!; [done|done|by intros ->]. }
  assert (Hrow : forall k e, (exists row', row' ∈ rows /\ cm_file_sha256 row' = k /\
      e = index_entry_of row' /\ (cm_cache_size row' = 0 \/ fe k = true)) ->
    exists row', row' ∈ row :: rows /\ cm_file_sha256 row' = k /\
      e = index_entry_of row' /\ (cm_cache_size row' = 0 \/ fe k = true)).
  { intros k e (row' & ? & ?). exists row'. split; [by apply elem_of_cons; right|done]. }
  assert (Hrem : let '(res', rem') := preload_rows max fe rows count res (rem ++ [key]) in
    (forall k, k ∈ dom res' \/ k ∈ rem' <->
       k ∈ dom res \/ k ∈ rem \/ k ∈ key :: map cm_file_sha256 rows) /\
    (forall k, k ∈ dom res' -> k ∈ rem' -> k ∈ dom res /\ k ∈ rem) /\
    (forall k e, res' !! k = Some e -> res !! k = Some e \/
       exists row', row' ∈ row :: rows /\ cm_file_sha256 row' = k /\ e = index_entry_of row' /\
         (cm_cache_size row' = 0 \/ fe k = true))).
  { specialize (IH count res (rem ++ [key]) Hnd).
    destruct (preload_rows max fe rows count res (rem ++ [key])) as [res' rem'].
    destruct IH as (H1 & H2 & H3).
    { intros k Hk. destruct (Hfr k Hk) as (? & ? & ?). split; [done|].
      rewrite elem_of_app, list_elem_of_singleton. tauto. }
    split_and!.
    - intros k. rewrite H1, elem_of_app, list_elem_of_singleton, elem_of_cons. tauto.
    - intros k Hk1 Hk2. destruct (H2 k Hk1 Hk2) as [Hd Hr].
      rewrite elem_of_app, list_elem_of_singleton in Hr. destruct Hr as [Hr| ->]; tauto.
    - intros k e He. destruct (H3 k e He); [by left|right; by apply Hrow]. }
  destruct (count <? max)%N; [|exact Hrem].
  destruct (negb (cm_cache_size row =? 0) && negb (fe key)) eqn:Ef; [exact Hrem|]. clear Hrem.
  specialize (IH (N.succ count) (<[key:=index_entry_of row]> res) rem Hnd).
  destruct (preload_rows max fe rows (N.succ count) _ rem) as [res' rem'].
  destruct IH as (H1 & H2 & H3).
  { intros k Hk. destruct (Hfr k Hk) as (? & ? & ?). split; [|done].
    rewrite dom_insert, elem_of_union, elem_of_singleton. tauto. }
  split_and!.
  - intros k. rewrite H1, dom_insert, elem_of_union, elem_of_singleton, elem_of_cons. tauto.
  - intros k Hk1 Hk2. destruct (H2 k Hk1 Hk2) as [Hd Hr].
    rewrite dom_insert, elem_of_union, elem_of_singleton in Hd. destruct Hd as [->|Hd]; tauto.
  - intros k e He. destruct (H3 k e He) as [Hi|Hr]; [|right; by apply Hrow].
    destruct (decide (k = key)) as [->|Hne].
    + rewrite lookup_insert_eq in Hi. injection Hi as <-. right. exists row.
      split_and!; [apply elem_of_cons; by left|done|done|].
      apply andb_false_iff in Ef as [Ef|Ef]; apply negb_false_iff in Ef; [left; lia|by right].
    + rewrite lookup_insert_ne in Hi by congruence. by left.
Qed.

Lemma batched_concat {A} n fuel (l : list A) :
  (0 < n)%nat -> (List.length l <= fuel)%nat -> List.concat (batched fuel n l) = l.
Proof.
  intros Hn. revert l. induction fuel as [|fuel IH]; intros l Hl; simpl.
  - by destruct l; [|simpl in Hl; lia].
  - destruct l as [|x l]; [done|]. simpl. rewrite IH; [apply take_drop|].
    rewrite length_drop. simpl in *. lia.
Qed.

Lemma cleanup_dom exceed db k :
  k ∈ dom (preload_cleanup_cache_db_entries exceed db) <-> (k ∉ exceed) /\ k ∈ dom db.
Proof.
  unfold preload_cleanup_cache_db_entries.
  assert (H : forall bs db, foldl (fun db b => delete_entries b db) db bs = delete_entries (List.concat bs) db).
  { induction bs as [|b bs IH]; intros db0; simpl; [done|]. rewrite IH.
    unfold delete_entries. by rewrite foldl_app. }
  rewrite H, batched_concat by (unfold PRELOAD_BATCH_REMOVE; lia). apply delete_entries_dom.
Qed.

(** The rows a [SELECT *] returns: each row of the table once. *)
Definition selects (table : db_table) (rows : list CacheMeta) : Prop :=
  NoDup (map cm_file_sha256 rows) /\
  forall k, k ∈ dom table <-> k ∈ map cm_file_sha256 rows.

Lemma init_index_syncs fe table rows w :
  selects table rows ->
  ci_writer (init_index false fe (DBOk table rows)) = Some w ->
  dom (w_db w) = dom (ci_index (init_index false fe (DBOk table rows))) /\
  forall k e, ci_index (init_index false fe (DBOk table rows)) !! k = Some e ->
    exists row, row ∈ rows /\ cm_file_sha256 row = k /\ e = index_entry_of row /\
      (cm_cache_size row = 0 \/ fe k = true).
Proof.
  intros [Hnd Hsel]. unfold init_index, preload_from_db.
  pose proof (preload_rows_split MAX_INDEX_ENTRIES fe rows 0 ∅ [] Hnd) as H.
  destruct (preload_rows MAX_INDEX_ENTRIES fe rows 0 ∅ []) as [res exceed].
  destruct H as (H1 & H2 & H3); [intros k _; by rewrite dom_empty, elem_of_empty, elem_of_nil; split; intros ?|].
  simpl. intros [= <-]. simpl. setoid_rewrite dom_empty in H1. setoid_rewrite elem_of_empty in H1.
  setoid_rewrite elem_of_nil in H1. split.
  - apply set_eq. intros k. destruct exceed as [|x exceed].
    + rewrite Hsel. specialize (H1 k). rewrite elem_of_nil in H1. tauto.
    + rewrite cleanup_dom, Hsel. specialize (H1 k). split; [tauto|].
      intros Hk. split; [|tauto]. intros Hk'. destruct (H2 k Hk Hk') as [Hd _].
      by rewrite dom_empty, elem_of_empty in Hd.
  - intros k e He. destruct (H3 k e He) as [Hx|Hx]; [by rewrite lookup_empty in Hx|done].
Qed.

Lemma init_index_table_within fe table rows :
  selects table rows -> table_within (init_index false fe (DBOk table rows)).
Proof.
  intros Hsel w k Hw Hk. destruct (init_index_syncs fe table rows w Hsel Hw) as [Hd _].
  rewrite <- Hd in Hk. revert Hw Hk. unfold init_index.
  destruct (preload_from_db fe rows) as [res exceed]. simpl. intros [= <-] Hk.
  unfold leaving; simpl in *. right. split; [set_solver|done].
Qed.

(** *** Flushing a batch *)

(** The items of a batch, applied one by one in the order of the queue. *)
Definition replay_item (db : db_table) (i : db_item) : db_table :=
  match i with
  | ItemWrite m =>
      <[cm_file_sha256 m := m <| cm_bucket_idx := bucket_of (cm_cache_size m) |>]> db
  | ItemDelete k => delete k db
  | ItemStop => db
  end.

Definition writes_of (l : list db_item) : list CacheMeta :=
  omap (fun i => match i with ItemWrite m => Some m | _ => None end) l.
Definition deletes_of (l : list db_item) : list string :=
  omap (fun i => match i with ItemDelete k => Some k | _ => None end) l.

(** No key is written after it was deleted. *)
Fixpoint no_write_after_delete (l : list db_item) : Prop :=
  match l with
  | [] => True
  | ItemDelete k :: l => (k ∉ map cm_file_sha256 (writes_of l)) /\ no_write_after_delete l
  | _ :: l => no_write_after_delete l
  end.

Lemma flush_to_db_ok wb ds db :
  flush_to_db true true wb ds db =
  delete_entries ds (insert_entries
    (map (fun m => m <| cm_bucket_idx := bucket_of (cm_cache_size m) |>) wb) db).
Proof. by destruct wb, ds. Qed.

Lemma insert_entries_delete rows k db :
  k ∉ map cm_file_sha256 rows ->
  insert_entries rows (delete k db) = delete k (insert_entries rows db).
Proof.
  revert db. induction rows as [|m rows IH]; intros db Hk; [done|]. simpl in Hk.
  change (insert_entries rows (<[cm_file_sha256 m:=m]> (delete k db)) =
          delete k (insert_entries rows (<[cm_file_sha256 m:=m]> db))).
  rewrite <- IH by set_solver. f_equal. rewrite delete_insert_ne; [done|set_solver].
Qed.

Lemma delete_entries_cons k ks db : delete_entries (k :: ks) db = delete_entries ks (delete k db).
Proof. done. Qed.

(** ** Properties *)

(** The index never exceeds its limit: after any start-up and any
    sequence of commits, removals and writer iterations it has at most
    [MAX_INDEX_ENTRIES] entries. *)
Theorem index_within_limit force fe f l :
  within_limit (run_index_ops (init_index force fe f) l).
Proof.
  generalize (init_index_within_limit force fe f). generalize (init_index force fe f).
  induction l as [|o l IH]; intros c Hc; simpl; [done|]. by apply IH, apply_index_op_within_limit.
Qed.

(** The preload brings the index and the table together: every entry of
    the index is a row of the table whose cache file is there (or needs
    none), and after the cleanup the table holds exactly the keys of the
    index. *)
Theorem preload_syncs_table fe table rows w :
  selects table rows ->
  ci_writer (init_index false fe (DBOk table rows)) = Some w ->
  dom (w_db w) = dom (ci_index (init_index false fe (DBOk table rows))) /\
  forall k e, ci_index (init_index false fe (DBOk table rows)) !! k = Some e ->
    exists row, row ∈ rows /\ cm_file_sha256 row = k /\ e = index_entry_of row /\
      (cm_cache_size row = 0 \/ fe k = true).
Proof. apply init_index_syncs. Qed.

(** The persisted table never outlives the index: from a start-up, after
    any sequence of operations, once the writer has worked off its queue the
    table has no key that the index has not (so the next start-up finds no
    row for a removed file), even where an insertion failed. *)
Theorem table_within_index fe table rows l w k :
  selects table rows ->
  ci_writer (run_index_ops (init_index false fe (DBOk table rows)) l) = Some w ->
  w_queue w = [] -> w_write_batch w = [] -> w_delete_batch w = [] ->
  k ∈ dom (w_db w) -> k ∈ dom (ci_index (run_index_ops (init_index false fe (DBOk table rows)) l)).
Proof.
  intros Hsel Hw Hq Hwb Hdb Hk.
  assert (Ht : table_within (run_index_ops (init_index false fe (DBOk table rows)) l)).
  { clear Hw. generalize (init_index_table_within fe table rows Hsel).
    generalize (init_index false fe (DBOk table rows)).
    induction l as [|o l IH]; intros c Hc; simpl; [done|]. by apply IH, apply_index_op_table_within. }
  destruct (decide (k ∈ dom (ci_index (run_index_ops (init_index false fe (DBOk table rows)) l))))
    as [|Hn]; [done|].
  specialize (Ht w k Hw Hn). unfold leaving in Ht. rewrite Hq, Hwb, Hdb in Ht. simpl in Ht.
  destruct Ht as [Ht|[_ Ht]]; set_solver.
Qed.

(** Batching: applying the writes of a batch and then its deletions gives
    the table that applying them one by one in the order of the queue gives,
    provided no key is written after it was deleted in the batch. *)
Theorem flush_is_replay l db :
  no_write_after_delete l ->
  flush_to_db true true (writes_of l) (deletes_of l) db = foldl replay_item db l.
Proof.
  rewrite flush_to_db_ok. revert db. induction l as [|i l IH]; intros db Hl; [done|].
  destruct i as [m|k|]; [by apply IH| |by apply IH].
  destruct Hl as [Hk Hl]. change (foldl replay_item db (ItemDelete k :: l))
    with (foldl replay_item (delete k db) l). rewrite <- IH by done.
  change (deletes_of (ItemDelete k :: l)) with (k :: deletes_of l).
  change (writes_of (ItemDelete k :: l)) with (writes_of l).
  rewrite delete_entries_cons. f_equal. symmetry. apply insert_entries_delete. by rewrite map_map.
Qed.

(** Where a key is deleted and written again in one batch (what retrying
    the caching of a file queues), the order of the queue is not kept: the
    flush drops the row that the in-order processing, which the class
    documentation promises, would store. *)
Theorem flush_drops_rewritten_key m db :
  let k := cm_file_sha256 m in
  let l := [ItemDelete k; ItemWrite m] in
  flush_to_db true true (writes_of l) (deletes_of l) db !! k = None /\
  is_Some (foldl replay_item db l !! k).
Proof.
  cbv zeta. simpl. split; [by rewrite lookup_delete_eq|]. rewrite lookup_insert_eq. eauto.
Qed.

(** The bucket index of a row is the bucket of its size: for every
    non-negative size the binary search finds the last bucket whose lower
    bound does not exceed it. *)
Theorem bucket_of_bounds n :
  0 <= n ->
  exists lo, bucket_size_list !! Z.to_nat (bucket_of n) = Some lo /\ 0 <= bucket_of n <= 11 /\
    lo <= n /\
    forall hi, bucket_size_list !! S (Z.to_nat (bucket_of n)) = Some hi -> n < hi.
Proof.
  intros Hn. unfold bucket_of, bisect_right. simpl.
  repeat match goal with
  | |- context [n <? ?z] => destruct (Z.ltb_spec n z); try lia
  end; simpl; eexists; (split; [reflexivity|]); (split; [lia|]); (split; [lia|]);
    intros hi [= <-]; lia.
Qed.

(** ** Witnesses *)

Definition example_row (k : string) (n : Z) : CacheMeta := mkCacheMeta k "http://x/f" 0 10 n None None.

Definition example_table : db_table :=
  {["k1"%string := example_row "k1" 5; "k2"%string := example_row "k2" 7]}.

Definition example_rows : list CacheMeta := [example_row "k1" 5; example_row "k2" 7].

Lemma example_selects : selects example_table example_rows.
Proof.
  split; [apply (bool_decide_unpack _); vm_compute; exact I|].
  intros k. unfold example_table. rewrite dom_insert, dom_singleton. simpl.
  rewrite !elem_of_cons, elem_of_nil. set_solver.
Qed.

(** The file of [k2] is missing. *)
Definition example_exists (k : string) : bool := bool_decide (k = "k1"%string).

Lemma preload_syncs_table_witness :
  exists w, ci_writer (init_index false example_exists (DBOk example_table example_rows)) = Some w /\
    dom (w_db w) = dom (ci_index (init_index false example_exists (DBOk example_table example_rows))).
Proof.
  eexists. split; [reflexivity|].
  exact (proj1 (preload_syncs_table example_exists example_table example_rows _ example_selects eq_refl)).
Defined.

Lemma table_within_index_witness :
  exists w,
    ci_writer (run_index_ops (init_index false example_exists (DBOk example_table example_rows))
      [OpCommit 20 (example_row "k3" 9); OpRemove "k1"; OpWriterRound true; OpWriterRound true;
       OpWriterRound true]) = Some w /\
    "k3"%string ∈ dom (ci_index (run_index_ops
      (init_index false example_exists (DBOk example_table example_rows))
      [OpCommit 20 (example_row "k3" 9); OpRemove "k1"; OpWriterRound true; OpWriterRound true;
       OpWriterRound true])).
Proof.
  eexists. split; [reflexivity|].
  eapply (table_within_index example_exists example_table example_rows _ _ "k3" example_selects);
    [reflexivity|reflexivity|reflexivity|reflexivity|].
  apply elem_of_dom. vm_compute. eexists. reflexivity.
Defined.

Lemma flush_is_replay_witness :
  flush_to_db true true [example_row "a" 5] ["b"%string] ∅ =
  foldl replay_item ∅ [ItemWrite (example_row "a" 5); ItemDelete "b"].
Proof.
  apply (flush_is_replay [ItemWrite (example_row "a" 5); ItemDelete "b"]).
  split; [apply not_elem_of_nil|exact I].
Defined.

Lemma bucket_of_bounds_witness :
  exists lo, bucket_size_list !! Z.to_nat (bucket_of 300000) = Some lo /\ lo <= 300000.
Proof.
  destruct (bucket_of_bounds 300000 ltac:(lia)) as (lo & H1 & _ & H2 & _). exists lo. exact (conj H1 H2).
Defined.
