(* ===== verification/CacheStreaming.v ===== *)
(** * Caching while streaming

    Models [src/src/ota_proxy/cache_streaming.py]: the cache tracker with its
    one-way flags, the provider that tees a remote file to its client and to
    the cache-writing thread ([CacheWriterPool.stream_writing_cache],
    [provider_write_file_in_thread], [provider_write_once_in_thread],
    [provider_handle_empty_file]), the subscriber thread that follows the
    growing cache file ([subscriber_stream_cache_in_thread]), and the register
    of trackers.  The threads are interleaved by the relation [sstep], one step
    per access to the shared tracker, queue or file.  [f.write] buffers: a
    reader sees only the flushed prefix of what was written. *)

From stdpp Require Import base gmap strings list option relations sets.
From Stdlib Require Import ZArith String Lia Strings.Byte.
From S2P Require Import Prelude CacheControlHeader CacheIndex.

Abbreviation bytes := (list Byte.byte).

(** ** The tracker *)

Record CacheTrackerEvents : Type := mkEvents {
  ev_started : bool;
  ev_finished : bool;
  ev_failed : bool;
}.

#[export] Instance eta_CacheTrackerEvents : Eta CacheTrackerEvents := fun r =>
  mkEvents (ev_started r) (ev_finished r) (ev_failed r).

Definition new_events : CacheTrackerEvents := mkEvents false false false.
Definition set_writer_failed (e : CacheTrackerEvents) : CacheTrackerEvents :=
  e <| ev_started := true |> <| ev_failed := true |>.
Definition set_writer_started (e : CacheTrackerEvents) : CacheTrackerEvents :=
  e <| ev_started := true |>.
Definition set_writer_finished (e : CacheTrackerEvents) : CacheTrackerEvents :=
  e <| ev_started := true |> <| ev_finished := true |>.

(** [tk_file] is everything written to the temporary file ([None] before it
    is created), [tk_flushed] the number of its bytes a reader can see;
    [tk_saved] is the file at [save_path]; [tk_committed] the entry handed to
    the index. *)
Record CacheTracker : Type := mkTracker {
  tk_events : CacheTrackerEvents;
  tk_file : option bytes;
  tk_flushed : nat;
  tk_bytes_written : nat;
  tk_cache_meta : CacheMeta;
  tk_committed : option CacheMeta;
  tk_saved : option bytes;
}.

#[export] Instance eta_CacheTracker : Eta CacheTracker := fun r =>
  mkTracker (tk_events r) (tk_file r) (tk_flushed r) (tk_bytes_written r) (tk_cache_meta r)
    (tk_committed r) (tk_saved r).

Definition new_tracker (m : CacheMeta) (saved : option bytes) : CacheTracker :=
  mkTracker new_events None 0 0 m None saved.

(** [os.link(fpath, save_path)], an existing file is kept. *)
Definition link_file (t : CacheTracker) : CacheTracker :=
  match tk_saved t with
  | Some _ => t
  | None => t <| tk_saved := tk_file t |>
  end.

(** [_finalize_cache]; [commit] is the outcome of the commit callback ([None]
    when it raises). *)
Definition finalize_cache (below_soft_limit : bool) (commit : option bool) (t : CacheTracker) :
    CacheTracker :=
  if negb below_soft_limit then t
  else
    match commit with
    | Some true => link_file (t <| tk_committed := Some (tk_cache_meta t) |>)
    | _ => t
    end.

Definition set_cache_size (n : nat) (t : CacheTracker) : CacheTracker :=
  t <| tk_cache_meta := (tk_cache_meta t) <| cm_cache_size := Z.of_nat n |> |>.

Definition on_events (f : CacheTrackerEvents -> CacheTrackerEvents) (t : CacheTracker) : CacheTracker :=
  t <| tk_events := f (tk_events t) |>.

(** [provider_write_once_in_thread]; [io_ok] tells whether opening and
    writing the file succeeds. *)
Definition provider_write_once_in_thread (below_hard_limit io_ok below_soft_limit : bool)
    (commit : option bool) (data : bytes) (t : CacheTracker) : CacheTracker :=
  if negb below_hard_limit || negb io_ok then on_events set_writer_failed t
  else
    let t := t <| tk_file := Some data |> <| tk_flushed := List.length data |>
               <| tk_bytes_written := List.length data |> in
    let t := on_events set_writer_finished (set_cache_size (List.length data) t) in
    finalize_cache below_soft_limit commit t.

(** [provider_handle_empty_file] *)
Definition provider_handle_empty_file (commit : option bool) (t : CacheTracker) : CacheTracker :=
  let t := on_events set_writer_finished t in
  match commit with
  | Some true => t <| tk_committed := Some (tk_cache_meta t) |>
  | _ => t
  end.

(** [subscriber_wait_for_provider] once the provider started (or timed out):
    [None] is [CacheProviderNotReady]. *)
Definition subscriber_wait_for_provider (timed_out : bool) (e : CacheTrackerEvents) : option bool :=
  if negb (ev_started e) && timed_out then None
  else if ev_failed e then None
  else Some (ev_finished e).

(** ** The register: a weak-value dictionary *)

Definition get_tracker (k : string) (reg : gmap string CacheTracker) : option CacheTracker :=
  match reg !! k with
  | Some t => if ev_failed (tk_events t) then None else Some t
  | None => None
  end.

Definition register_tracker (k : string) (t : CacheTracker) (reg : gmap string CacheTracker) :
    gmap string CacheTracker := <[k := t]> reg.

(** ** The interleaved system *)

(** The provider coroutine after its second chunk. *)
Inductive provider_pc : Type :=
| P_stream       (** fetching and teeing *)
| P_ended        (** the remote delivered everything *)
| P_failed       (** the remote failed: [CacheStreamingFailed] *)
| P_abandoned.   (** the generator was closed by its consumer *)

(** The writer thread. *)
Inductive writer_pc : Type :=
| W_pending      (** submitted, waiting for a thread *)
| W_loop         (** in the [while data := input_que.get()] loop *)
| W_closing      (** left the loop: the file is flushed and closed next *)
| W_finish       (** the file is closed: the flags are set next *)
| W_done.

(** The subscriber thread and how it ended. *)
Inductive subscriber_pc : Type :=
| S_check        (** the loop condition is checked next *)
| S_flags        (** the interruption and failure flags are checked next *)
| S_read         (** the file is read next *)
| S_complete     (** the loop condition ended the loop *)
| S_cut.         (** returned early: interrupted, provider failed or timeout *)

Record ssys : Type := mkSsys {
  ss_tracker : CacheTracker;
  ss_queue : list (option bytes);
  ss_source : list bytes;         (** what the remote still delivers *)
  ss_teed : bytes;                (** what was put into the queue *)
  ss_sent : bytes;                (** what was yielded to the client *)
  ss_ppc : provider_pc;
  ss_wpc : writer_pc;
  ss_spc : subscriber_pc;
  ss_out : bytes;                 (** what the subscriber forwarded *)
}.

#[export] Instance eta_ssys : Eta ssys := fun r =>
  mkSsys (ss_tracker r) (ss_queue r) (ss_source r) (ss_teed r) (ss_sent r) (ss_ppc r) (ss_wpc r)
    (ss_spc r) (ss_out r).

Definition failed (s : ssys) : bool := ev_failed (tk_events (ss_tracker s)).
Definition finished (s : ssys) : bool := ev_finished (tk_events (ss_tracker s)).

(** The bytes a reader of the temporary file sees. *)
Definition visible (t : CacheTracker) : bytes := take (tk_flushed t) (default [] (tk_file t)).

Inductive provider_step : ssys -> ssys -> Prop :=
| ps_chunk s c cs :
    ss_ppc s = P_stream -> ss_source s = c :: cs ->
    provider_step s
      (s <| ss_source := cs |> <| ss_sent := ss_sent s ++ c |>
         <| ss_queue := if failed s then ss_queue s else ss_queue s ++ [Some c] |>
         <| ss_teed := if failed s then ss_teed s else ss_teed s ++ c |>)
| ps_end s :
    ss_ppc s = P_stream -> ss_source s = [] ->
    provider_step s (s <| ss_queue := ss_queue s ++ [None] |> <| ss_ppc := P_ended |>)
| ps_fail s :
    ss_ppc s = P_stream ->
    provider_step s
      (s <| ss_tracker := on_events set_writer_failed (ss_tracker s) |>
         <| ss_queue := ss_queue s ++ [None] |> <| ss_ppc := P_failed |>)
| ps_abandon s :
    ss_ppc s = P_stream ->
    provider_step s (s <| ss_queue := ss_queue s ++ [None] |> <| ss_ppc := P_abandoned |>).

Inductive cache_writer_step : ssys -> ssys -> Prop :=
| ws_start s :
    ss_wpc s = W_pending ->
    cache_writer_step s
      (s <| ss_tracker := on_events set_writer_started ((ss_tracker s) <| tk_file := Some [] |>) |>
         <| ss_wpc := W_loop |>)
| ws_not_started s :
    (** opening the file fails, or the pool drops the writer *)
    ss_wpc s = W_pending ->
    cache_writer_step s
      (s <| ss_tracker := on_events set_writer_failed (ss_tracker s) |> <| ss_wpc := W_done |>)
| ws_write s c q f :
    ss_wpc s = W_loop -> ss_queue s = Some c :: q -> c <> [] -> failed s = false ->
    tk_file (ss_tracker s) = Some f ->
    cache_writer_step s
      (s <| ss_queue := q |>
         <| ss_tracker := (ss_tracker s) <| tk_file := Some (f ++ c) |>
              <| tk_bytes_written := tk_bytes_written (ss_tracker s) + List.length c |>%nat |>)
| ws_abort s c q :
    (** the failed flag is set, the hard limit is reached, or writing fails *)
    ss_wpc s = W_loop -> ss_queue s = Some c :: q -> c <> [] ->
    cache_writer_step s
      (s <| ss_queue := q |> <| ss_tracker := on_events set_writer_failed (ss_tracker s) |>
         <| ss_wpc := W_done |>)
| ws_last s o q :
    ss_wpc s = W_loop -> ss_queue s = o :: q -> (o = None \/ o = Some []) ->
    cache_writer_step s (s <| ss_queue := q |> <| ss_wpc := W_closing |>)
| ws_flush s n :
    ss_wpc s = W_loop -> (tk_flushed (ss_tracker s) <= n <= tk_bytes_written (ss_tracker s))%nat ->
    cache_writer_step s (s <| ss_tracker := (ss_tracker s) <| tk_flushed := n |> |>)
| ws_close s :
    ss_wpc s = W_closing ->
    cache_writer_step s
      (s <| ss_tracker := (ss_tracker s) <| tk_flushed := tk_bytes_written (ss_tracker s) |> |>
         <| ss_wpc := W_finish |>)
| ws_finish s below_soft commit :
    ss_wpc s = W_finish ->
    cache_writer_step s
      (let t := on_events set_writer_finished
                  (set_cache_size (tk_bytes_written (ss_tracker s)) (ss_tracker s)) in
       s <| ss_tracker := if ev_failed (tk_events t) then t else finalize_cache below_soft commit t |>
         <| ss_wpc := W_done |>).

Inductive subscriber_step : ssys -> ssys -> Prop :=
| ss_loop_ends s :
    ss_spc s = S_check -> finished s = true ->
    (tk_bytes_written (ss_tracker s) <= List.length (ss_out s))%nat ->
    subscriber_step s (s <| ss_spc := S_complete |>)
| ss_loop_goes_on s :
    ss_spc s = S_check ->
    (finished s = false \/ (List.length (ss_out s) < tk_bytes_written (ss_tracker s))%nat) ->
    subscriber_step s (s <| ss_spc := S_flags |>)
| ss_stop s :
    (** the interrupt event or the failed flag is set *)
    ss_spc s = S_flags -> subscriber_step s (s <| ss_spc := S_cut |>)
| ss_go s :
    ss_spc s = S_flags -> failed s = false -> subscriber_step s (s <| ss_spc := S_read |>)
| ss_got s data n :
    ss_spc s = S_read -> (0 < n)%nat ->
    data = take n (drop (List.length (ss_out s)) (visible (ss_tracker s))) -> data <> [] ->
    subscriber_step s (s <| ss_out := ss_out s ++ data |> <| ss_spc := S_check |>)
| ss_wait s :
    ss_spc s = S_read ->
    drop (List.length (ss_out s)) (visible (ss_tracker s)) = [] ->
    subscriber_step s (s <| ss_spc := S_check |>)
| ss_timeout s :
    ss_spc s = S_read ->
    drop (List.length (ss_out s)) (visible (ss_tracker s)) = [] ->
    subscriber_step s (s <| ss_spc := S_cut |>).

Definition sstep (s s' : ssys) : Prop :=
  provider_step s s' \/ cache_writer_step s s' \/ subscriber_step s s'.

(** After the first two chunks, which are in the queue. *)
Definition stream_start (m : CacheMeta) (c1 c2 : bytes) (rest : list bytes) : ssys :=
  mkSsys (new_tracker m None) [Some c1; Some c2] rest (c1 ++ c2) (c1 ++ c2) P_stream W_pending
    S_check [].

(** [stream_writing_cache] by the chunks the remote delivers: the empty file,
    the file of one chunk, and the streamed file. *)
Inductive caching_path : Type :=
| CacheEmpty
| CacheOnce (data : bytes)
| CacheStream (s : ssys).

Definition stream_writing_cache (m : CacheMeta) (chunks : list bytes) : caching_path :=
  match chunks with
  | [] | [] :: _ => CacheEmpty
  | [c] => CacheOnce c
  | c1 :: c2 :: rest => CacheStream (stream_start m c1 c2 rest)
  end.

(** ** The invariant of a stream *)

Definition file_of (s : ssys) : bytes := default [] (tk_file (ss_tracker s)).

(** The data still in the queue. *)
Definition pending (q : list (option bytes)) : bytes := List.concat (omap id q).

(** The writer has not left its loop. *)
Definition writing (p : writer_pc) : bool :=
  match p with W_pending | W_loop => true | _ => false end.

(** The writer left its loop at the end marker. *)
Definition closed_by_marker (s : ssys) : bool :=
  match ss_wpc s with W_closing | W_finish => true | W_done => finished s | _ => false end.

Record stream_inv (total : bytes) (s : ssys) : Prop := {
  si_written : tk_bytes_written (ss_tracker s) = List.length (file_of s);
  si_pending_file : ss_wpc s = W_pending -> file_of s = [];
  si_out : ss_out s `prefix_of` file_of s;
  si_queue : writing (ss_wpc s) = true -> file_of s ++ pending (ss_queue s) = ss_teed s;
  si_file : file_of s `prefix_of` ss_teed s;
  si_chunks : Forall (fun c => c <> Some []) (ss_queue s);
  si_source : Forall (fun c => c <> []) (ss_source s);
  si_stream_queue : ss_ppc s = P_stream -> None ∉ ss_queue s;
  si_marker : writing (ss_wpc s) = true -> ss_ppc s <> P_stream ->
    exists cs, ss_queue s = map Some cs ++ [None];
  si_closed : closed_by_marker s = true -> ss_ppc s <> P_stream /\ file_of s = ss_teed s;
  si_finished : finished s = true -> ss_wpc s = W_done;
  si_total : ss_sent s ++ List.concat (ss_source s) = total;
  si_teed : ss_teed s `prefix_of` ss_sent s /\ (failed s = false -> ss_teed s = ss_sent s);
  si_failed : ss_ppc s = P_failed -> failed s = true;
  si_ended : ss_ppc s = P_ended -> ss_source s = [];
  si_complete : ss_spc s = S_complete -> finished s = true /\ ss_out s = file_of s;
  si_saved : forall g, tk_saved (ss_tracker s) = Some g ->
    finished s = true /\ failed s = false /\ g = file_of s /\
    exists m, tk_committed (ss_tracker s) = Some m /\ cm_cache_size m = Z.of_nat (List.length g);
  si_cause : failed s = true -> ss_ppc s = P_failed \/ (ss_wpc s = W_done /\ finished s = false);
}.

Lemma pending_app q q' : pending (q ++ q') = pending q ++ pending q'.
Proof. unfold pending. by rewrite omap_app, List.concat_app. Qed.

Lemma marker_of_stream (q : list (option bytes)) :
  None ∉ q -> exists cs, q ++ [None] = map Some cs ++ [None].
Proof.
  intros Hq. exists (omap id q). f_equal. induction q as [|o q IH]; [done|].
  rewrite not_elem_of_cons in Hq. destruct Hq as [H1 H2]. destruct o as [c|]; [|done].
  simpl. f_equal. by apply IH.
Qed.

Lemma stream_start_inv m c1 c2 rest :
  Forall (fun c => c <> []) (c1 :: c2 :: rest) ->
  stream_inv (List.concat (c1 :: c2 :: rest)) (stream_start m c1 c2 rest).
Proof.
  rewrite !Forall_cons. intros (H1 & H2 & Hr).
  split; unfold stream_start, file_of, finished, failed, closed_by_marker, pending; simpl; try done.
  - intros _. by rewrite app_nil_r.
  - apply prefix_nil.
  - repeat constructor; congruence.
  - intros _. rewrite !elem_of_cons, elem_of_nil. intros [?|[?|[]]]; done.
  - by rewrite <- app_assoc.
Qed.

(** The fields of the invariant, with the state's observations unfolded. *)
Ltac open_inv Hi :=
  destruct Hi as [I1 I2 I3 I4 I5 I6 I7 I8 I9 I10 I11 I12 I13 I14 I15 I16 I17 I18];
  unfold closed_by_marker, file_of, finished, failed in *; simpl in *.
Ltac close_inv := split; unfold closed_by_marker, file_of, finished, failed; simpl; try done.

(** The provider's last item, whatever ends the stream. *)
Lemma provider_ends_inv total s p t :
  ss_ppc s = P_stream -> p <> P_stream ->
  (p = P_ended -> ss_source s = []) ->
  (p = P_failed -> ev_failed (tk_events t) = true) ->
  (t = ss_tracker s \/ t = on_events set_writer_failed (ss_tracker s) /\ p = P_failed) ->
  stream_inv total s ->
  stream_inv total (s <| ss_tracker := t |> <| ss_queue := ss_queue s ++ [None] |> <| ss_ppc := p |>).
Proof.
  intros Hp Hne Hend Hfail Ht Hi.
  assert (Hns : tk_saved (ss_tracker s) = None).
  { destruct (tk_saved (ss_tracker s)) as [g|] eqn:E; [|done].
    destruct (si_saved _ _ Hi g E) as (Hfin & _).
    destruct (si_closed _ _ Hi) as [Hx _]; [|done].
    unfold closed_by_marker. by rewrite (si_finished _ _ Hi Hfin). }
  open_inv Hi. destruct Ht as [-> | [-> Hpf]]; close_inv;
    try (apply Forall_app; by split; [|repeat constructor]);
    try (intros Hw _; by apply marker_of_stream, I8);
    try (intros Hc; split; [done|by apply I10]);
    try (intros Hw; specialize (I4 Hw); by rewrite pending_app, app_nil_r);
    try (split; [apply I13|done]); try (by rewrite Hns); [|by left].
  intros H. destruct (I18 H) as [?|?]; [congruence|by right].
Qed.

Lemma provider_step_inv total s s' :
  provider_step s s' -> stream_inv total s -> stream_inv total s'.
Proof.
  intros Hs Hi. destruct Hs as [s c cs Hp Hsrc|s Hp Hsrc|s Hp|s Hp].
  - assert (Hc : closed_by_marker s = false).
    { destruct (closed_by_marker s) eqn:E; [|done]. by destruct (si_closed _ _ Hi E). }
    open_inv Hi. rewrite Hsrc in I7, I12. apply Forall_cons in I7 as [Hc0 I7].
    destruct (ev_failed (tk_events (ss_tracker s))) eqn:Ef; close_inv; rewrite ?Ef.
    + simpl in I12. by rewrite <- app_assoc.
    + split; [by apply prefix_app_r, I13|done].
    + intros Hx. by rewrite Hp in Hx.
    + intros g Hg. destruct (I17 g Hg) as (_ & ? & _). done.
    + intros _. by apply I18.
    + intros Hw. specialize (I4 Hw). rewrite pending_app, app_assoc, I4.
      unfold pending; simpl. by rewrite app_nil_r.
    + by apply prefix_app_r.
    + apply Forall_app. split; [done|]. constructor; [congruence|done].
    + intros _. rewrite elem_of_app, list_elem_of_singleton. intros [H|H]; [by apply I8|done].
    + by rewrite Hc.
    + simpl in I12. by rewrite <- app_assoc.
    + destruct I13 as [_ ->]; done.
    + intros Hx. by rewrite Hp in Hx.
    + intros Hx. by rewrite Hp in Hx.
    + intros g Hg. by destruct (I17 g Hg) as (? & _ & ?).
    + done.
  - by apply (provider_ends_inv total s P_ended (ss_tracker s)); try done; left.
  - by apply (provider_ends_inv total s P_failed (on_events set_writer_failed (ss_tracker s)));
      try done; right.
  - by apply (provider_ends_inv total s P_abandoned (ss_tracker s)); try done; left.
Qed.

(** A failure keeps its cause while the writer is running. *)
Ltac solve_cause :=
  try match goal with
  | I18 : _ -> _ = P_failed \/ _ |- _ -> _ = P_failed \/ _ =>
      intros H; first
        [ destruct (I18 H) as [?|[? _]]; [by left|discriminate]
        | right; by split ]
  end.

Lemma cache_writer_step_inv total s s' :
  cache_writer_step s s' -> stream_inv total s -> stream_inv total s'.
Proof.
  intros Hs Hi.
  assert (Hsv : writing (ss_wpc s) = true -> tk_saved (ss_tracker s) = None /\ finished s = false).
  { intros Hw. assert (finished s = false) as Hf.
    { destruct (finished s) eqn:E; [|done]. by rewrite (si_finished _ _ Hi E) in Hw. }
    split; [|done]. destruct (tk_saved (ss_tracker s)) as [g|] eqn:E; [|done].
    destruct (si_saved _ _ Hi g E) as (H & _). congruence. }
  destruct Hs as [s Hw|s Hw|s c q f Hw Hq Hc Hf Hfile|s c q Hw Hq Hc|s o q Hw Hq Ho|s n Hw Hn|s Hw|s b cm Hw];
    open_inv Hi; rewrite Hw in *; simpl in *;
    try (destruct (Hsv eq_refl) as [Hsv1 Hsv2]); clear Hsv.
  - (* start *)
    rewrite (I2 eq_refl) in *. close_inv; solve_cause.
    by rewrite Hsv2.
  - (* not started *)
    close_inv; solve_cause; try congruence. split; [apply I13|done].
  - (* write *)
    rewrite Hfile, Hq in *. simpl in *. apply Forall_cons in I6 as [_ I6].
    specialize (I4 eq_refl). change (pending (Some c :: q)) with (c ++ pending q) in I4. close_inv; solve_cause.
    + rewrite length_app. lia.
    + by apply prefix_app_r.
    + intros _. by rewrite <- app_assoc.
    + exists (pending q). by rewrite <- app_assoc.
    + set_solver.
    + intros _ Hp. destruct (I9 eq_refl Hp) as [[|c' cs] Hcs]; [done|]. simplify_eq/=. by exists cs.
    + intros H. destruct (I16 H) as [? _]. congruence.
    + intros g Hg. congruence.
  - (* abort *)
    rewrite Hq in *. apply Forall_cons in I6 as [_ I6]. close_inv; solve_cause.
    + set_solver.
    + by rewrite Hsv2.
    + split; [apply I13|done].
    + intros g Hg. congruence.
  - (* the end marker *)
    rewrite Hq in *. apply Forall_cons in I6 as [Ho' I6]. destruct Ho as [-> | ->]; [|done].
    assert (Hp : ss_ppc s <> P_stream) by (intros Hp; apply (I8 Hp); set_solver).
    destruct (I9 eq_refl Hp) as [[|c' cs] Hcs]; [|done]. simplify_eq/=. close_inv; solve_cause.
    + intros _. split; [done|]. specialize (I4 eq_refl). unfold pending in I4. simpl in I4.
      by rewrite app_nil_r in I4.
    + by rewrite Hsv2.
  - (* flush *) close_inv; solve_cause.
  - (* close *) close_inv; solve_cause. intros H. discriminate (I11 H).
  - (* finish *)
    assert (Hfin : ev_finished (tk_events (ss_tracker s)) = false).
    { destruct (ev_finished _) eqn:E; [|done]. by specialize (I11 eq_refl). }
    assert (Hns : tk_saved (ss_tracker s) = None).
    { destruct (tk_saved _) as [g|] eqn:E; [|done]. destruct (I17 g eq_refl) as (H & _). congruence. }
    destruct (I10 eq_refl) as [Hp Hft].
    destruct (ev_failed (tk_events (ss_tracker s))) eqn:Ef;
      [|destruct b; [destruct cm as [[]|]|]]; unfold finalize_cache, link_file; simpl;
      rewrite ?Hns; close_inv; rewrite ?Hns, ?Ef; solve_cause; try done;
      try (split; [apply I13|done]); try (split; [apply I13|intros _; by apply I13]);
      try (intros H; split; [done|by apply I16]).
    intros g Hg. split_and!; try done.
    + destruct (tk_file _); simplify_eq/=; done.
    + eexists. split; [done|]. simpl. rewrite I1. by destruct (tk_file _); simplify_eq/=.
Qed.

Lemma subscriber_step_inv total s s' :
  subscriber_step s s' -> stream_inv total s -> stream_inv total s'.
Proof.
  intros Hs Hi.
  destruct Hs as [s Hp Hf Hle|s Hp Hgo|s Hp|s Hp Hf|s data n Hp Hn Hd Hne|s Hp Hd|s Hp Hd];
    try by (open_inv Hi; close_inv).
  - open_inv Hi. close_inv. intros _. split; [done|].
    rewrite I1 in Hle. destruct I3 as [r Hr]. rewrite Hr in Hle |- *. rewrite length_app in Hle.
    destruct r; [by rewrite app_nil_r|simpl in Hle; lia].
  - open_inv Hi. close_inv. subst data. destruct I3 as [r Hr].
    unfold visible. rewrite Hr. set (o := ss_out s).
    rewrite skipn_firstn_comm. rewrite drop_app_length. rewrite take_take.
    exists (drop (Nat.min n (tk_flushed (ss_tracker s) - List.length o)) r).
    by rewrite <- app_assoc, take_drop.
Qed.

Lemma stream_reachable_inv m c1 c2 rest s :
  Forall (fun c => c <> []) (c1 :: c2 :: rest) ->
  rtc sstep (stream_start m c1 c2 rest) s ->
  stream_inv (List.concat (c1 :: c2 :: rest)) s.
Proof.
  intros Hc Hs. pose proof (stream_start_inv m c1 c2 rest Hc) as Hi. revert Hi.
  generalize (List.concat (c1 :: c2 :: rest)). intros total.
  induction Hs as [|x y z Hxy _ IH]; [done|]. intros Hi. apply IH.
  destruct Hxy as [H|[H|H]]; [by eapply provider_step_inv|by eapply cache_writer_step_inv|
    by eapply subscriber_step_inv].
Qed.

(** ** Properties *)

(** A subscriber never forwards wrong data: at every moment of every
    interleaving of provider, writer and subscriber, what the subscriber (and
    what the provider's own client) received is a prefix of the remote file. *)
Theorem subscriber_streams_prefix m c1 c2 rest s :
  Forall (fun c => c <> []) (c1 :: c2 :: rest) ->
  rtc sstep (stream_start m c1 c2 rest) s ->
  ss_out s `prefix_of` List.concat (c1 :: c2 :: rest) /\
  ss_sent s `prefix_of` List.concat (c1 :: c2 :: rest).
Proof.
  intros Hc Hs. pose proof (stream_reachable_inv m c1 c2 rest s Hc Hs) as Hi. split.
  - rewrite <- (si_total _ _ Hi). apply prefix_app_r.
    etrans; [apply (si_out _ _ Hi)|]. etrans; [apply (si_file _ _ Hi)|apply (si_teed _ _ Hi)].
  - rewrite <- (si_total _ _ Hi). by apply prefix_app_r.
Qed.

(** A subscriber that leaves its loop because the writer finished has
    forwarded the whole remote file, when the remote delivered it to the
    end. *)
Theorem subscriber_complete m c1 c2 rest s :
  Forall (fun c => c <> []) (c1 :: c2 :: rest) ->
  rtc sstep (stream_start m c1 c2 rest) s ->
  ss_spc s = S_complete -> ss_ppc s = P_ended ->
  ss_out s = List.concat (c1 :: c2 :: rest).
Proof.
  intros Hc Hs Hsp Hpp. pose proof (stream_reachable_inv m c1 c2 rest s Hc Hs) as Hi.
  destruct (si_complete _ _ Hi Hsp) as [Hfin ->].
  destruct (si_closed _ _ Hi) as [_ ->];
    [unfold closed_by_marker; by rewrite (si_finished _ _ Hi Hfin)|].
  assert (Hf : failed s = false).
  { destruct (failed s) eqn:E; [|done]. destruct (si_cause _ _ Hi E) as [H|[_ H]]; congruence. }
  rewrite (proj2 (si_teed _ _ Hi) Hf), <- (si_total _ _ Hi), (si_ended _ _ Hi Hpp).
  by rewrite app_nil_r.
Qed.

(** C11. Only complete files enter the cache: unless the consumer of the
    provider's stream closed it early, a file linked into the cache directory
    is the whole remote file, and the committed entry has its size.  This is
    the path of a file of at least two chunks, none of them empty. *)
Theorem cached_file_complete m c1 c2 rest s g :
  Forall (fun c => c <> []) (c1 :: c2 :: rest) ->
  rtc sstep (stream_start m c1 c2 rest) s ->
  tk_saved (ss_tracker s) = Some g -> ss_ppc s <> P_abandoned ->
  g = List.concat (c1 :: c2 :: rest) /\
  exists e, tk_committed (ss_tracker s) = Some e /\ cm_cache_size e = Z.of_nat (List.length g).
Proof.
  intros Hc Hs Hg Hpp. pose proof (stream_reachable_inv m c1 c2 rest s Hc Hs) as Hi.
  destruct (si_saved _ _ Hi g Hg) as (Hfin & Hf & Hgf & He). split; [|done].
  destruct (si_closed _ _ Hi) as [Hps Hft];
    [unfold closed_by_marker; by rewrite (si_finished _ _ Hi Hfin)|].
  rewrite Hgf, Hft, (proj2 (si_teed _ _ Hi) Hf), <- (si_total _ _ Hi).
  destruct (ss_ppc s) eqn:E; [done| | |done].
  - rewrite (si_ended _ _ Hi E). by rewrite app_nil_r.
  - by rewrite (si_failed _ _ Hi E) in Hf.
Qed.

(** ** Runs *)

Definition example_meta : CacheMeta := mkCacheMeta "hash" "http://x/f" 0 0 0 None None.

Definition example_start : ssys :=
  stream_start example_meta [x01; x02] [x03] [[x04]].

Ltac run_provider t := eapply rtc_l; [left; eapply t; (reflexivity || discriminate)|simpl].
Ltac run_writer t := eapply rtc_l; [right; left; eapply t; (reflexivity || discriminate)|simpl].
Ltac run_subscriber t := eapply rtc_l; [right; right; eapply t; (reflexivity || discriminate)|simpl].

(** The writer takes the first two chunks. *)
Ltac run_first_chunks :=
  run_writer ws_start; run_writer ws_write; run_writer ws_write.

(** A stream closed early by its consumer (the generator is closed,
    which is not an [Exception]) is taken for a complete one: the writer
    commits the entry and links the truncated file into the cache. *)
Theorem abandoned_stream_cached_truncated :
  exists s g, rtc sstep example_start s /\ ss_ppc s = P_abandoned /\
    tk_saved (ss_tracker s) = Some g /\ is_Some (tk_committed (ss_tracker s)) /\
    g <> List.concat [[x01; x02]; [x03]; [x04]].
Proof.
  do 2 eexists. split.
  { unfold example_start, stream_start. run_first_chunks. run_provider ps_abandon.
    eapply rtc_l; [right; left; eapply ws_last; [reflexivity|reflexivity|by left]|simpl].
    run_writer ws_close.
    eapply rtc_l; [right; left; eapply (ws_finish _ true (Some true)); reflexivity|simpl].
    apply rtc_refl. }
  split_and!; [reflexivity|reflexivity|by eexists|discriminate].
Qed.

(** A run in which the stream is cached and a subscriber gets it whole. *)
Definition example_end : ssys.
Proof.
  refine (mkSsys _ [] [] [x01; x02; x03; x04] [x01; x02; x03; x04] P_ended W_done S_complete
            [x01; x02; x03; x04]).
  exact (mkTracker (mkEvents true true false) (Some [x01; x02; x03; x04]) 4 4
    (example_meta <| cm_cache_size := 4 |>) (Some (example_meta <| cm_cache_size := 4 |>))
    (Some [x01; x02; x03; x04])).
Defined.

Lemma example_run : rtc sstep example_start example_end.
Proof.
  unfold example_start, stream_start. run_first_chunks.
  run_provider ps_chunk. run_writer ws_write. run_provider ps_end.
  eapply rtc_l; [right; left; eapply ws_last; [reflexivity|reflexivity|by left]|simpl].
  run_writer ws_close.
  eapply rtc_l; [right; left; eapply (ws_finish _ true (Some true)); reflexivity|simpl].
  eapply rtc_l; [right; right; eapply ss_loop_goes_on; [reflexivity|right; simpl; lia]|simpl].
  run_subscriber ss_go.
  eapply rtc_l; [right; right; eapply (ss_got _ _ 100); [reflexivity|lia|reflexivity|discriminate]|simpl].
  eapply rtc_l; [right; right; eapply ss_loop_ends; [reflexivity|reflexivity|simpl; lia]|simpl].
  apply rtc_refl.
Qed.

Lemma example_chunks : Forall (fun c : bytes => c <> []) [[x01; x02]; [x03]; [x04]].
Proof. repeat constructor; discriminate. Qed.

Lemma subscriber_streams_prefix_witness :
  ss_out example_end `prefix_of` [x01; x02; x03; x04].
Proof. exact (proj1 (subscriber_streams_prefix _ _ _ _ _ example_chunks example_run)). Defined.

Lemma subscriber_complete_witness : ss_out example_end = [x01; x02; x03; x04].
Proof. exact (subscriber_complete _ _ _ _ _ example_chunks example_run eq_refl eq_refl). Defined.

Lemma cached_file_complete_witness :
  exists e, tk_committed (ss_tracker example_end) = Some e /\ cm_cache_size e = 4.
Proof.
  exact (proj2 (cached_file_complete _ _ _ _ _ [x01; x02; x03; x04] example_chunks example_run
    eq_refl ltac:(discriminate))).
Defined.
