(* ===== verification/OTACache.v ===== *)
(** * The OTA proxy's request handling

    Models [src/src/ota_proxy/ota_cache.py]: where [OTACache.retrieve_file]
    takes a file from (external device cache, local cache, NFS cache, a new or
    an on-going caching, the remote), the answers to ranged requests from
    whole cached copies, the cleanup on a reported corruption, and the disk
    usage limits.  The remote, the SHA-256 of a URL and what a subscriber
    reads are parameters; files are their contents, read whole or from an
    offset (how they are cut into chunks is the subject of [CacheStreaming]). *)

From stdpp Require Import base gmap strings list option sets pretty.
From Stdlib Require Import ZArith String Ascii Lia Strings.Byte.
From S2P Require Import Prelude CacheControlHeader Errors CacheIndex CacheStreaming.

Definition DISK_USE_LIMIT_SOFT_P : Z := 75.
Definition DISK_USE_LIMIT_HARD_P : Z := 80.
Definition EXTERNAL_CACHE_STORAGE_COMPRESS_ALG : string := "zst".
Definition HEADER_RANGE : string := "range".
Definition HEADER_CONTENT_RANGE : string := "content-range".

(** The text of a parsed directive.  A bare [file_sha256] directive is the
    boolean [True] in Python, on which every path operation raises a
    [TypeError]; such a header is outside the model. *)
Definition dir_str (v : dir_value) : string := match v with VStr s => s | _ => EmptyString end.

(** ** Ranges *)

(** The longest prefix of decimal digits, as a number, with what follows. *)
Fixpoint parse_digits (acc : Z) (s : string) : Z * string :=
  match s with
  | String a s' =>
      if is_digit a then parse_digits (10 * acc + (Z.of_N (N_of_ascii a) - 48)) s' else (acc, s)
  | EmptyString => (acc, s)
  end.

(** [_range_start]: the full match of the pattern [\s*bytes=(\d+)-\s*]. *)
Definition range_start (range_header : string) : option Z :=
  let s := lstrip_by is_space range_header in
  if startswith "bytes=" s then
    match str_drop 6 s with
    | String a s' =>
        if is_digit a then
          let '(n, rest) := parse_digits 0 (String a s') in
          match rest with
          | String "-"%char tail => if str_forallb is_space tail then Some n else None
          | _ => None
          end
        else None
    | EmptyString => None
    end
  else None.

Definition content_range (start size : Z) : string :=
  ("bytes " +:+ pretty start +:+ "-" +:+ pretty (size - 1) +:+ "/" +:+ pretty size)%string.

(** ** State and answers *)

Inductive fs_node : Type :=
| Regular (content : bytes)
| NotRegular.

(** The flags [_storage_below_*_limit_event]. *)
Record OTACache : Type := mkOTACache {
  oca_closed : bool;
  oca_cache_enabled : bool;
  oca_upper_proxy : string;
  oca_index : CacheIndex;
  oca_files : gmap string fs_node;                     (** below the base dir *)
  oca_external : option (gmap string fs_node);
  oca_nfs : option (gmap string fs_node);
  oca_trackers : gmap string CacheTracker;
  oca_below_soft : bool;
  oca_below_hard : bool;
}.

#[export] Instance eta_OTACache : Eta OTACache := fun r =>
  mkOTACache (oca_closed r) (oca_cache_enabled r) (oca_upper_proxy r) (oca_index r) (oca_files r)
    (oca_external r) (oca_nfs r) (oca_trackers r) (oca_below_soft r) (oca_below_hard r).

Inductive source : Type :=
| FromExternal | FromLocal | FromNFS | FromSubscribed | FromProvider | FromRemote.

#[export] Instance source_eq_dec : EqDecision source.
Proof. solve_decision. Defined.

Record answer : Type := mkAnswer {
  an_source : source;
  an_body : bytes;
  an_headers : pydict string;
}.

(** [int(used / total * 100)], for [0 <= used], [0 < total]. *)
Definition used_percent (used total : Z) : Z := used * 100 / total.

(** One round of [_background_check_free_space]; [None]: the cache folder
    disappeared. *)
Definition check_free_space (disk_usage : option (Z * Z)) (o : OTACache) : OTACache :=
  match disk_usage with
  | None => o <| oca_below_soft := false |> <| oca_below_hard := false |>
  | Some (used, total) =>
      let p := used_percent used total in
      if p <=? DISK_USE_LIMIT_SOFT_P then o <| oca_below_soft := true |> <| oca_below_hard := true |>
      else if p <=? DISK_USE_LIMIT_HARD_P
      then o <| oca_below_soft := false |> <| oca_below_hard := true |>
      else o <| oca_below_soft := false |> <| oca_below_hard := false |>
  end.

(** [create_cachemeta_for_request] *)
Definition create_cachemeta_for_request (cache_identifier : string)
    (compression_alg : option string) (resp_headers : pydict string) : CacheMeta :=
  let upper := parse_header (default EmptyString (dict_get HEADER_LOWERCASE resp_headers)) in
  let opt s := if str_truthy s then Some s else None in
  let '(sha, alg) :=
    if truthy (CacheControlHeader.file_sha256 upper)
    then (str_of_value (CacheControlHeader.file_sha256 upper),
          if truthy (CacheControlHeader.file_compression_alg upper)
          then Some (str_of_value (CacheControlHeader.file_compression_alg upper)) else None)
    else (cache_identifier, opt (opt_str_or compression_alg EmptyString)) in
  mkCacheMeta sha EmptyString 0 0 0 alg (dict_get HEADER_CONTENT_ENCODING resp_headers).

Section Retrieve.
(** The hexadecimal SHA-256 of a text; the remote's answer (or exception) to
    the request as it is sent on; what a subscriber of a tracker gets. *)
Context (sha256_hex : string -> string).
Context (remote : pydict string -> result pyexn (bytes * pydict string)).
Context (subscribe : CacheTracker -> result pyexn bytes).

Abbreviation OM := (PyM OTACache pyexn).

Definition url_based_hash (raw_url : string) : string :=
  (URL_BASED_HASH_PREFIX +:+ sha256_hex raw_url)%string.

(** [cache_policy.file_sha256 or url_based_hash(raw_url)] *)
Definition cache_identifier_of (raw_url : string) (pol : OTAFileCacheControl) : string :=
  if truthy (CacheControlHeader.file_sha256 pol) then dir_str (CacheControlHeader.file_sha256 pol)
  else url_based_hash raw_url.

Definition retrieve_file_by_downloading (headers : pydict string) : OM answer :=
  r ← from_result (remote headers);
  mret (mkAnswer FromRemote (fst r) (snd r)).

Definition retrieve_file_by_cache_lookup (raw_url : string) (pol : OTAFileCacheControl) :
    OM (option answer) :=
  o ← get;
  if negb (oca_cache_enabled o) || truthy (no_cache pol) || truthy (retry_caching pol) then mret None
  else
    let id := cache_identifier_of raw_url pol in
    match lookup_entry id (oca_index o) with
    | None => mret None
    | Some e =>
        if ie_cache_size e =? 0 then mret (Some (mkAnswer FromLocal [] (ie_headers e)))
        else
          match oca_files o !! id with
          | None => mret None
          | Some NotRegular =>
              _ ← modify (fun o => o <| oca_files := delete id (oca_files o) |>
                                     <| oca_index := remove_entry id (oca_index o) |>);
              mret None
          | Some (Regular f) => mret (Some (mkAnswer FromLocal f (ie_headers e)))
          end
    end.

(** [cache_file.with_suffix(".zst")] of a name without a dot. *)
Definition zst_name (id : string) : string :=
  (id +:+ "." +:+ EXTERNAL_CACHE_STORAGE_COMPRESS_ALG)%string.

Definition external_header (id : string) (alg : pydict dir_value) : pydict string :=
  [(HEADER_LOWERCASE,
    export_kwargs_as_header_string ([("file_sha256"%string, VStr id)] ++ alg))].

Definition retrieve_file_by_external_cache (src : source) (pol : OTAFileCacheControl)
    (dir : gmap string fs_node) : option answer :=
  if truthy (no_cache pol) || truthy (retry_caching pol)
     || negb (truthy (CacheControlHeader.file_sha256 pol)) then None
  else
    let id := dir_str (CacheControlHeader.file_sha256 pol) in
    match dir !! zst_name id with
    | Some (Regular f) =>
        Some (mkAnswer src f (external_header id
                [("file_compression_alg"%string, VStr EXTERNAL_CACHE_STORAGE_COMPRESS_ALG)]))
    | _ =>
        match dir !! id with
        | Some (Regular f) => Some (mkAnswer src f (external_header id []))
        | _ => None
        end
    end.

(** The part of a whole copy from [start], with its [content-range]. *)
Definition rest_of_file (src : source) (start : Z) (f : bytes) (headers : pydict string) :
    option answer :=
  let size := Z.of_nat (List.length f) in
  if (0 <=? start) && (start <? size)
  then Some (mkAnswer src (drop (Z.to_nat start) f)
               (dict_set HEADER_CONTENT_RANGE (content_range start size) headers))
  else None.

Definition retrieve_range_by_cache_lookup (raw_url : string) (pol : OTAFileCacheControl) (start : Z)
    (o : OTACache) : option answer :=
  if negb (oca_cache_enabled o) || truthy (no_cache pol) then None
  else
    let id := cache_identifier_of raw_url pol in
    match lookup_entry id (oca_index o) with
    | None => None
    | Some e =>
        if ie_cache_size e =? 0 then None
        else
          match oca_files o !! id with
          | Some (Regular f) =>
              if negb (Z.of_nat (List.length f) =? ie_cache_size e) then None
              else rest_of_file FromLocal start f (ie_headers e)
          | _ => None
          end
    end.

Definition retrieve_range_by_external_cache (src : source) (pol : OTAFileCacheControl)
    (dir : gmap string fs_node) (start : Z) : option answer :=
  if truthy (no_cache pol) || truthy (retry_caching pol)
     || negb (truthy (CacheControlHeader.file_sha256 pol)) then None
  else
    let id := dir_str (CacheControlHeader.file_sha256 pol) in
    match dir !! zst_name id with
    | Some (Regular _) => retrieve_file_by_external_cache src pol dir
    | _ =>
        match dir !! id with
        | Some (Regular f) => rest_of_file src start f (external_header id [])
        | _ => None
        end
    end.

Definition retrieve_range_by_cache (raw_url : string) (pol : OTAFileCacheControl)
    (range_header : string) (o : OTACache) : option answer :=
  start ← range_start range_header;
  match (dir ← oca_external o; retrieve_range_by_external_cache FromExternal pol dir start) with
  | Some a => Some a
  | None =>
      match retrieve_range_by_cache_lookup raw_url pol start o with
      | Some a => Some a
      | None => dir ← oca_nfs o; retrieve_range_by_external_cache FromNFS pol dir start
      end
  end.

(** Forgetting a cached file: the index entry and the file. *)
Definition drop_entry (id : string) (o : OTACache) : OTACache :=
  o <| oca_index := remove_entry id (oca_index o) |> <| oca_files := delete id (oca_files o) |>.

(** [_drop_cache_entry_reported_corrupted] *)
Definition drop_cache_entry_reported_corrupted (id : string) : OM unit :=
  o ← get;
  if negb (oca_cache_enabled o) then mret tt
  else match get_tracker id (oca_trackers o) with
       | Some _ => mret tt
       | None => modify (drop_entry id)
       end.

Definition set_tracker (id : string) (t : CacheTracker) : OM unit :=
  modify (fun o => o <| oca_trackers := register_tracker id t (oca_trackers o) |>).

(** [_retrieve_file_by_new_caching]; the caching itself goes on in the
    returned stream. *)
Definition retrieve_file_by_new_caching (raw_url : string) (pol : OTAFileCacheControl)
    (headers : pydict string) : OM (option answer) :=
  o ← get;
  if negb (oca_cache_enabled o) || truthy (no_cache pol) || negb (oca_below_hard o) then mret None
  else
    let id := cache_identifier_of raw_url pol in
    let alg := if truthy (CacheControlHeader.file_sha256 pol)
               then (if truthy (CacheControlHeader.file_compression_alg pol)
                     then Some (dir_str (CacheControlHeader.file_compression_alg pol)) else None)
               else None in
    match get_tracker id (oca_trackers o) with
    | Some t =>
        body ← from_result (subscribe t);
        mret (Some (mkAnswer FromSubscribed body (export_headers_to_client (tk_cache_meta t))))
    | None =>
        let blank := create_cachemeta_for_request id alg [] in
        _ ← set_tracker id (new_tracker blank None);
        try_except
          (_ ← (if truthy (retry_caching pol) then modify (drop_entry id) else mret tt);
           a ← retrieve_file_by_downloading headers;
           _ ← set_tracker id (new_tracker (create_cachemeta_for_request id alg (an_headers a)) None);
           mret (Some (mkAnswer FromProvider (an_body a) (an_headers a))))
          (fun e =>
             _ ← (if is_exception e
                  then set_tracker id (on_events set_writer_failed (new_tracker blank None))
                  else mret tt);
             raise e)
    end.

Definition from_option {A} (o : option A) (k : OM A) : OM A :=
  match o with Some a => mret a | None => k end.

Definition retrieve_file (raw_url : string) (headers : pydict string) : OM answer :=
  o ← get;
  if oca_closed o then
    raise (PyExn (XOther "BaseOTACacheError") [AStr "ota cache pool is closed"] None None)
  else
    let pol := parse_header (default EmptyString (dict_get HEADER_LOWERCASE headers)) in
    let headers := if str_truthy (oca_upper_proxy o) then headers
                   else dict_del HEADER_LOWERCASE headers in
    match dict_get HEADER_RANGE headers with
    | Some range =>
        if truthy (retry_caching pol) then
          _ ← drop_cache_entry_reported_corrupted (cache_identifier_of raw_url pol);
          retrieve_file_by_downloading headers
        else
          from_option (retrieve_range_by_cache raw_url pol range o)
            (retrieve_file_by_downloading headers)
    | None =>
        if negb (oca_cache_enabled o) || truthy (no_cache pol) then
          retrieve_file_by_downloading headers
        else
          from_option (dir ← oca_external o; retrieve_file_by_external_cache FromExternal pol dir)
            (local ← (if truthy (retry_caching pol) then mret None
                      else retrieve_file_by_cache_lookup raw_url pol);
             from_option local
               (from_option (dir ← oca_nfs o; retrieve_file_by_external_cache FromNFS pol dir)
                  (cached ← retrieve_file_by_new_caching raw_url pol headers;
                   from_option cached (retrieve_file_by_downloading headers))))
    end.
End Retrieve.

(** ** Lemmas *)

Lemma rest_of_file_spec src start f h a :
  rest_of_file src start f h = Some a ->
  0 <= start < Z.of_nat (List.length f) /\
  take (Z.to_nat start) f ++ an_body a = f /\
  dict_get HEADER_CONTENT_RANGE (an_headers a) =
    Some (content_range start (Z.of_nat (List.length f))) /\ an_source a = src.
Proof.
  unfold rest_of_file. destruct (_ && _) eqn:E; [|done]. intros [= <-].
  apply andb_true_iff in E as [E1%Z.leb_le E2%Z.ltb_lt]. simpl.
  split_and!; [lia|lia|apply take_drop|apply dict_get_set_eq|done].
Qed.

Section Properties.
Context (sha256_hex : string -> string).
Context (remote : pydict string -> result pyexn (bytes * pydict string)).
Context (subscribe : CacheTracker -> result pyexn bytes).

(** What a range answer is made of: the rest of a whole copy, or a whole
    compressed copy. *)
Definition is_rest (start : Z) (f : bytes) (a : answer) : Prop :=
  0 <= start < Z.of_nat (List.length f) /\ take (Z.to_nat start) f ++ an_body a = f /\
  dict_get HEADER_CONTENT_RANGE (an_headers a) =
    Some (content_range start (Z.of_nat (List.length f))).

Lemma range_external_spec src pol dir start a :
  retrieve_range_by_external_cache src pol dir start = Some a ->
  (exists f, dir !! dir_str (CacheControlHeader.file_sha256 pol) = Some (Regular f) /\
     is_rest start f a) \/
  (dir !! zst_name (dir_str (CacheControlHeader.file_sha256 pol)) = Some (Regular (an_body a)) /\
   dict_get HEADER_CONTENT_RANGE (an_headers a) = None).
Proof.
  unfold retrieve_range_by_external_cache. destruct (_ || _) eqn:Ep; [done|].
  set (id := dir_str (CacheControlHeader.file_sha256 pol)).
  destruct (dir !! zst_name id) as [[f|]|] eqn:Ez.
  - unfold retrieve_file_by_external_cache. rewrite Ep. fold id. rewrite Ez. intros [= <-].
    right. by split.
  - destruct (dir !! id) as [[f|]|] eqn:Ei; [|done|done]. intros Ha.
    destruct (rest_of_file_spec _ _ _ _ _ Ha) as (H1 & H2 & H3 & _). left. by exists f.
  - destruct (dir !! id) as [[f|]|] eqn:Ei; [|done|done]. intros Ha.
    destruct (rest_of_file_spec _ _ _ _ _ Ha) as (H1 & H2 & H3 & _). left. by exists f.
Qed.

Lemma range_lookup_spec raw_url pol start o a :
  retrieve_range_by_cache_lookup sha256_hex raw_url pol start o = Some a ->
  exists f e, let id := cache_identifier_of sha256_hex raw_url pol in
    oca_files o !! id = Some (Regular f) /\ lookup_entry id (oca_index o) = Some e /\
    ie_cache_size e = Z.of_nat (List.length f) /\ is_rest start f a.
Proof.
  unfold retrieve_range_by_cache_lookup. destruct (_ || _); [done|]. cbv zeta.
  set (id := cache_identifier_of sha256_hex raw_url pol).
  destruct (lookup_entry id (oca_index o)) as [e|] eqn:Ee; [|done].
  destruct (ie_cache_size e =? 0); [done|].
  destruct (oca_files o !! id) as [[f|]|] eqn:Ef; [|done|done].
  destruct (Z.eqb_spec (Z.of_nat (List.length f)) (ie_cache_size e)) as [Hs|]; [|done]. simpl.
  intros Ha. destruct (rest_of_file_spec _ _ _ _ _ Ha) as (H1 & H2 & H3 & _).
  exists f, e. by split_and!.
Qed.

(** A range answered from a cache completes the client's file: when a
    ranged request is answered from the caches, the client asked for the file
    from some [start], and either the answer is a 206 whose body continues
    the first [start] bytes of a whole copy to exactly that copy (of the size
    the index recorded, for the local cache), with the matching
    [content-range], or it is a whole compressed copy without one. *)
Theorem range_answer_completes_file raw_url pol range o a :
  retrieve_range_by_cache sha256_hex raw_url pol range o = Some a ->
  exists start, range_start range = Some start /\
    ((exists f e, let id := cache_identifier_of sha256_hex raw_url pol in
        oca_files o !! id = Some (Regular f) /\ lookup_entry id (oca_index o) = Some e /\
        ie_cache_size e = Z.of_nat (List.length f) /\ is_rest start f a) \/
     exists dir, (oca_external o = Some dir \/ oca_nfs o = Some dir) /\
       ((exists f, dir !! dir_str (CacheControlHeader.file_sha256 pol) = Some (Regular f) /\
          is_rest start f a) \/
        (dir !! zst_name (dir_str (CacheControlHeader.file_sha256 pol)) = Some (Regular (an_body a)) /\
         dict_get HEADER_CONTENT_RANGE (an_headers a) = None))).
Proof.
  unfold retrieve_range_by_cache. destruct (range_start range) as [start|]; [|done]. simpl.
  intros Ha. exists start. split; [done|].
  destruct (dir ← oca_external o; retrieve_range_by_external_cache FromExternal pol dir start)
    as [a'|] eqn:E1.
  - injection Ha as ->. destruct (oca_external o) as [dir|] eqn:Ed; [|done]. simpl in E1.
    right. exists dir. split; [by left|]. by eapply range_external_spec.
  - destruct (retrieve_range_by_cache_lookup sha256_hex raw_url pol start o) as [a'|] eqn:E2.
    + injection Ha as ->. left. by apply range_lookup_spec.
    + destruct (oca_nfs o) as [dir|] eqn:Ed; [|done]. simpl in Ha.
      right. exists dir. split; [by right|]. by eapply range_external_spec.
Qed.

(** The policy of a request, by its header. *)
Definition policy_of (headers : pydict string) : OTAFileCacheControl :=
  parse_header (default EmptyString (dict_get HEADER_LOWERCASE headers)).

Lemma downloading_source hs o o' a :
  retrieve_file_by_downloading remote hs o = (o', Ok a) -> an_source a = FromRemote.
Proof.
  unfold retrieve_file_by_downloading, mbind, pym_bind, from_result, mret, pym_ret.
  destruct (remote hs); [|done]. by intros [= <- <-].
Qed.

Lemma external_retry_none src pol (dirs : option (gmap string fs_node)) :
  truthy (retry_caching pol) = true ->
  (dir ← dirs; retrieve_file_by_external_cache src pol dir) = None.
Proof.
  intros Hr. destruct dirs as [dir|]; [|done]. simpl. unfold retrieve_file_by_external_cache.
  by rewrite Hr, orb_true_r.
Qed.

(** What [_retrieve_file_by_new_caching] answers with. *)
Lemma new_caching_answer raw_url pol hs o o' a :
  retrieve_file_by_new_caching sha256_hex remote subscribe raw_url pol hs o = (o', Ok (Some a)) ->
  (an_source a = FromSubscribed \/ an_source a = FromProvider) /\
  (an_source a = FromProvider -> truthy (retry_caching pol) = true ->
     let id := cache_identifier_of sha256_hex raw_url pol in
     lookup_entry id (oca_index o') = None /\ oca_files o' !! id = None).
Proof.
  unfold retrieve_file_by_new_caching. unfold mbind at 1, pym_bind at 1, get.
  destruct (_ || _); [done|]. cbv zeta. set (id := cache_identifier_of sha256_hex raw_url pol).
  destruct (get_tracker id (oca_trackers o)) as [t|].
  - unfold mbind, pym_bind, from_result, mret, pym_ret. destruct (subscribe t); [|done].
    intros [= <- <-]. split; [by left|done].
  - unfold set_tracker, try_except, retrieve_file_by_downloading, mbind, pym_bind, from_result,
      mret, pym_ret, modify, raise.
    destruct (truthy (retry_caching pol)) eqn:Er; destruct (remote hs) as [r|e];
      try (by destruct (is_exception e)); intros [= <- <-]; (split; [by right|]); [|done].
    intros _ _. unfold lookup_entry. simpl. by rewrite !lookup_delete_eq.
Qed.

(** A client that reports a corrupted file never gets it again from this
    proxy's caches: a request with [retry_caching] is answered by the remote,
    by a new caching of the file or by an on-going one, never from the
    external, local or NFS cache; and when it becomes the provider, the old
    entry and file are gone. *)
Theorem retry_caching_bypasses_caches raw_url headers o o' a :
  truthy (retry_caching (policy_of headers)) = true ->
  retrieve_file sha256_hex remote subscribe raw_url headers o = (o', Ok a) ->
  an_source a ∈ [FromRemote; FromProvider; FromSubscribed] /\
  (an_source a = FromProvider ->
     let id := cache_identifier_of sha256_hex raw_url (policy_of headers) in
     lookup_entry id (oca_index o') = None /\ oca_files o' !! id = None).
Proof.
  intros Hr. unfold retrieve_file. unfold mbind at 1, pym_bind at 1, get.
  destruct (oca_closed o); [done|]. fold (policy_of headers).
  set (pol := policy_of headers) in *. cbv zeta. set (hs := if str_truthy _ then _ else _).
  destruct (dict_get HEADER_RANGE hs) as [range|].
  { rewrite Hr. unfold mbind at 1, pym_bind at 1. destruct (drop_cache_entry_reported_corrupted _ o) as [o1 [[]|e]];
      [|done]. intros Ha. apply downloading_source in Ha. rewrite Ha. split; [set_solver|done]. }
  destruct (_ || _) eqn:Eb.
  { intros Ha. apply downloading_source in Ha. rewrite Ha. split; [set_solver|done]. }
  rewrite !external_retry_none by done. cbn [from_option]. rewrite Hr.
  unfold mbind at 1, pym_bind at 1, mret at 1, pym_ret at 1. cbn [from_option].
  unfold mbind at 1, pym_bind at 1.
  destruct (retrieve_file_by_new_caching sha256_hex remote subscribe raw_url pol hs o)
    as [o1 [[a1|]|e]] eqn:En; [| |done].
  - intros [= <- <-]. destruct (new_caching_answer _ _ _ _ _ _ En) as [Hs Hd].
    split; [set_solver|]. intros H. by apply Hd.
  - intros Ha. apply downloading_source in Ha. rewrite Ha. split; [set_solver|done].
Qed.

(** With the cache disabled, a request that is not ranged goes straight
    to the remote, even where an external cache holds the file (the comment
    in [retrieve_file] says that it is still tried). *)
Theorem disabled_cache_skips_external raw_url headers o :
  oca_closed o = false -> oca_cache_enabled o = false ->
  dict_get HEADER_RANGE headers = None ->
  retrieve_file sha256_hex remote subscribe raw_url headers o =
  retrieve_file_by_downloading remote
    (if str_truthy (oca_upper_proxy o) then headers else dict_del HEADER_LOWERCASE headers) o.
Proof.
  intros Hc He Hr. unfold retrieve_file, mbind at 1, pym_bind at 1, get. rewrite Hc. simpl.
  assert (Hr' : dict_get HEADER_RANGE (if str_truthy (oca_upper_proxy o) then headers
      else dict_del HEADER_LOWERCASE headers) = None).
  { destruct (str_truthy _); [done|]. by rewrite dict_get_del. }
  by rewrite Hr', He.
Qed.
End Properties.

(** ** The header between two proxies *)

(** What the policy header of an entry parses to. *)
Lemma parse_entry_header sha al :
  wf_value (VStr sha) -> wf_value (VStr al) -> str_truthy sha = true ->
  let pol := parse_header (export_kwargs_as_header_string
    [("file_sha256"%string, VStr sha); ("file_compression_alg"%string, VStr al)]) in
  CacheControlHeader.file_sha256 pol = VStr sha /\
  CacheControlHeader.file_compression_alg pol = (if str_truthy al then VStr al else VNone).
Proof.
  intros Hs Ha Ht. cbv zeta. rewrite parse_header_asdict_equiv, parse_export_dict.
  - simpl. unfold exported. simpl. rewrite Ht. destruct (str_truthy al); by split.
  - apply (bool_decide_unpack _). by vm_compute.
  - constructor; [done|]. by constructor; [|constructor].
Qed.

Lemma dict_get_entry_headers sha enc alg :
  dict_get HEADER_CONTENT_ENCODING (build_index_entry_headers sha enc alg) =
    (if opt_str_truthy enc then Some (opt_str_or enc EmptyString) else None) /\
  dict_get HEADER_LOWERCASE (build_index_entry_headers sha enc alg) =
    (if str_truthy sha && negb (startswith URL_BASED_HASH_PREFIX sha)
     then Some (export_kwargs_as_header_string
                  [("file_sha256"%string, VStr sha);
                   ("file_compression_alg"%string, VStr (opt_str_or alg EmptyString))])
     else None).
Proof. unfold build_index_entry_headers. by destruct (opt_str_truthy enc), (_ && _). Qed.

Lemma opt_str_or_truthy o : opt_str_or (if opt_str_truthy o then Some (opt_str_or o EmptyString) else None)
  EmptyString = opt_str_or o EmptyString.
Proof. destruct o as [s|]; simpl; [|done]. destruct (str_truthy s) eqn:E; simpl; [|done]. by rewrite E. Qed.

Lemma opt_str_or_some s : opt_str_or (if str_truthy s then Some s else None) EmptyString = s.
Proof. by destruct s. Qed.

(** Round trip of the cache information between proxies: from the
    headers one proxy sends with a file, the next one builds a cache entry
    with the same SHA-256, compression algorithm and content encoding,
    whatever the request it sent itself had; for an entry known only by its
    URL the next proxy keeps its own identifier and algorithm. *)
Theorem header_chain_roundtrip id alg m :
  wf_value (VStr (cm_file_sha256 m)) ->
  wf_value (VStr (opt_str_or (cm_file_compression_alg m) EmptyString)) ->
  let m' := create_cachemeta_for_request id alg (export_headers_to_client m) in
  opt_str_or (cm_content_encoding m') EmptyString = opt_str_or (cm_content_encoding m) EmptyString /\
  (if str_truthy (cm_file_sha256 m) && negb (startswith URL_BASED_HASH_PREFIX (cm_file_sha256 m))
   then cm_file_sha256 m' = cm_file_sha256 m /\
        opt_str_or (cm_file_compression_alg m') EmptyString =
          opt_str_or (cm_file_compression_alg m) EmptyString
   else cm_file_sha256 m' = id /\
        opt_str_or (cm_file_compression_alg m') EmptyString = opt_str_or alg EmptyString).
Proof.
  intros Hs Ha. cbv zeta. unfold create_cachemeta_for_request, export_headers_to_client.
  destruct (dict_get_entry_headers (cm_file_sha256 m) (cm_content_encoding m)
              (cm_file_compression_alg m)) as [He Hh].
  rewrite He, Hh. destruct (str_truthy (cm_file_sha256 m) && _) eqn:Et.
  2: { change (parse_header (default EmptyString None)) with default_cache_control. cbn -[opt_str_or].
       split_and!; [apply opt_str_or_truthy|done|apply opt_str_or_some]. }
  apply andb_true_iff in Et as [Et _]. unfold default, Datatypes.id.
  destruct (parse_entry_header _ _ Hs Ha Et) as [Hp1 Hp2]. rewrite Hp1, Hp2. cbn [truthy]. rewrite Et.
  cbn -[opt_str_or]. split_and!; [apply opt_str_or_truthy|done|].
  set (al := opt_str_or (cm_file_compression_alg m) EmptyString).
  destruct (str_truthy al) eqn:Ea; cbn -[opt_str_or].
  - rewrite Ea. etrans; [|apply opt_str_or_some]. by rewrite Ea.
  - by destruct al.
Qed.

(** ** Witnesses *)

Definition example_policy : string := "file_sha256=ab".
Definition example_file : bytes := [x61; x62; x63; x64]%byte.

Definition example_cache : OTACache :=
  mkOTACache false true EmptyString
    (mkCacheIndex {["ab"%string := mkCacheIndexEntry 4 []]} false None)
    {["ab"%string := Regular example_file]} None None ∅ true true.

Definition example_remote (_ : pydict string) : result pyexn (bytes * pydict string) :=
  Ok ([x61]%byte, []).

Lemma range_answer_completes_file_witness :
  exists a, retrieve_range_by_cache id EmptyString (parse_header example_policy)
              "bytes=1-" example_cache = Some a /\
    exists start, range_start "bytes=1-" = Some start /\ an_body a = [x62; x63; x64]%byte.
Proof.
  eexists. split; [vm_compute; reflexivity|].
  destruct (range_answer_completes_file id EmptyString (parse_header example_policy) "bytes=1-"
              example_cache _ eq_refl) as (start & Hs & _).
  exists start. split; [exact Hs|reflexivity].
Defined.

Definition example_retry : pydict string :=
  [(HEADER_LOWERCASE, "file_sha256=ab,retry_caching"%string)].

Lemma retry_caching_bypasses_caches_witness :
  exists o' a, retrieve_file id example_remote (fun _ => Ok []) EmptyString example_retry
                 example_cache = (o', Ok a) /\
    an_source a = FromProvider /\ oca_files o' !! "ab"%string = None.
Proof.
  set (r := retrieve_file id example_remote (fun _ => Ok []) EmptyString example_retry example_cache).
  assert (Hr : r = (fst r, Ok (mkAnswer FromProvider [x61]%byte []))) by (vm_compute; reflexivity).
  exists (fst r), (mkAnswer FromProvider [x61]%byte []). split; [exact Hr|]. split; [reflexivity|].
  exact (proj2 (proj2 (retry_caching_bypasses_caches id example_remote (fun _ => Ok []) EmptyString
    example_retry example_cache _ _ eq_refl Hr) eq_refl)).
Defined.

Lemma disabled_cache_skips_external_witness :
  retrieve_file id example_remote (fun _ => Ok []) EmptyString
    [(HEADER_LOWERCASE, example_policy)]
    (example_cache <| oca_cache_enabled := false |>
                   <| oca_external := Some {["ab"%string := Regular example_file]} |>) =
  (example_cache <| oca_cache_enabled := false |>
                 <| oca_external := Some {["ab"%string := Regular example_file]} |>,
   Ok (mkAnswer FromRemote [x61]%byte [])).
Proof.
  exact (disabled_cache_skips_external id example_remote (fun _ => Ok []) EmptyString
    [(HEADER_LOWERCASE, example_policy)]
    (example_cache <| oca_cache_enabled := false |>
                   <| oca_external := Some {["ab"%string := Regular example_file]} |>)
    eq_refl eq_refl eq_refl).
Defined.

Lemma header_chain_roundtrip_witness :
  cm_file_sha256 (create_cachemeta_for_request "zz" None
    (export_headers_to_client (mkCacheMeta "ab" EmptyString 0 0 4 (Some "zst"%string) None))) = "ab"%string.
Proof.
  exact (proj1 (proj2 (header_chain_roundtrip "zz" None
    (mkCacheMeta "ab" EmptyString 0 0 4 (Some "zst"%string) None) (conj eq_refl eq_refl)
    (conj eq_refl eq_refl)))).
Defined.
