(* ===== verification/SharedMemory.v ===== *)
(** * The shared-memory channel

    Models [src/src/otaclient_common/_shm.py]: the writer and the reader of the
    one-message shared memory through which the core process publishes its
    status and its metrics.  [pickle] and HMAC-SHA512 are parameters; the
    memory is a list of bytes of fixed length.  A write is its two stores: the
    locked message, then the byte that opens it. *)

From stdpp Require Import base list option.
From Stdlib Require Import ZArith NArith Lia Strings.Byte String.
From S2P Require Import Prelude.

Abbreviation bytes := (list Byte.byte).

#[export] Instance byte_eq_decision : EqDecision Byte.byte := Byte.byte_eq_dec.

Definition RWLOCK_LEN : nat := 1.
Definition PAYLOAD_LEN_BYTES : nat := 4.
Definition RWLOCK_LOCKED : Byte.byte := xab.
Definition RWLOCK_OPEN : Byte.byte := x54.
Definition DIGEST_SIZE : nat := 64.
Definition MIN_ENCAP_MSG_LEN : nat := RWLOCK_LEN + DIGEST_SIZE + PAYLOAD_LEN_BYTES.

(** [buf[a:b]] *)
Definition slice (a b : nat) (buf : bytes) : bytes := take (b - a) (drop a buf).

(** [buf[:len(data)] = data], for data that fits. *)
Definition store_prefix (data buf : bytes) : bytes := data ++ drop (List.length data) buf.

Definition byte_of (n : N) : Byte.byte := default x00 (Byte.of_N n).

(** [n.to_bytes(len, "big", signed=False)]; [None] is [OverflowError]. *)
Fixpoint be_bytes (len : nat) (n : N) : bytes :=
  match len with
  | O => []
  | S len => be_bytes len (n / 256) ++ [byte_of (n mod 256)]
  end.

Definition to_bytes (len : nat) (n : N) : option bytes :=
  if (n <? 256 ^ N.of_nat len)%N then Some (be_bytes len n) else None.

(** [int.from_bytes(b, "big", signed=False)] *)
Definition from_bytes (b : bytes) : N :=
  fold_left (fun acc x => (256 * acc + Byte.to_N x)%N) b 0%N.

Inductive shm_error : Type :=
| RWBusy (msg : string)
| ValueError
| OverflowError
| UnpickleError.

(** [MPSharedMemoryWriter] and [MPSharedMemoryReader]: the limits and the
    memory; [mem_size] is the length of the memory. *)
Record shm_writer : Type := mkShmWriter {
  sw_buf : bytes;
  sw_msg_max_size : nat;
}.

#[export] Instance eta_shm_writer : Eta shm_writer := fun r =>
  mkShmWriter (sw_buf r) (sw_msg_max_size r).

(** [MPSharedMemoryWriter.__init__] with [create]: the new memory is zeroed.
    A [msg_max_size] of 0 is no limit. *)
Definition create_writer (size : nat) (msg_max_size : option nat) : option shm_writer :=
  if (size <? MIN_ENCAP_MSG_LEN)%nat then None
  else
    let max := (size - MIN_ENCAP_MSG_LEN)%nat in
    Some (mkShmWriter (repeat x00 size)
            (match msg_max_size with
             | Some (S _ as n) => Nat.min max n
             | _ => max
             end)).

Section Channel.
Context {T : Type} (dumps : T -> bytes) (loads : bytes -> option T).
Context (cal_hmac : bytes -> bytes).

(** The first store of [write_msg]. *)
Definition write_msg_locked (obj : T) (w : shm_writer) : result shm_error shm_writer :=
  let pickled := dumps obj in
  let pickled_len := List.length pickled in
  if (sw_msg_max_size w <? pickled_len)%nat then Raise ValueError
  else
    match to_bytes PAYLOAD_LEN_BYTES (N.of_nat pickled_len) with
    | None => Raise OverflowError
    | Some len_bytes =>
        let msg := RWLOCK_LOCKED :: cal_hmac pickled ++ len_bytes ++ pickled in
        if (List.length (sw_buf w) <? List.length msg)%nat then Raise ValueError
        else Ok (w <| sw_buf := store_prefix msg (sw_buf w) |>)
    end.

Definition write_msg (obj : T) (w : shm_writer) : result shm_error shm_writer :=
  match write_msg_locked obj w with
  | Ok w => Ok (w <| sw_buf := store_prefix [RWLOCK_OPEN] (sw_buf w) |>)
  | Raise e => Raise e
  end.

Definition verify_msg (raw_msg expected : bytes) : bool := bool_decide (cal_hmac raw_msg = expected).

(** [sync_msg] on the reader's view of the memory; its [msg_max_size] is that
    of the whole memory. *)
Definition sync_msg (buffer : bytes) : result shm_error T :=
  let msg_max_size := Z.of_nat (List.length buffer) - Z.of_nat MIN_ENCAP_MSG_LEN in
  let rwlock := slice 0 RWLOCK_LEN buffer in
  if negb (bool_decide (rwlock = [RWLOCK_OPEN])) then
    if bool_decide (rwlock = [RWLOCK_LOCKED]) then Raise (RWBusy "write in progress, abort")
    else Raise (RWBusy "no msg has been written yet")
  else
    let cursor := RWLOCK_LEN in
    let input_hmac := slice cursor (cursor + DIGEST_SIZE) buffer in
    let cursor := (cursor + DIGEST_SIZE)%nat in
    let payload_len := from_bytes (slice cursor (cursor + PAYLOAD_LEN_BYTES) buffer) in
    let cursor := (cursor + PAYLOAD_LEN_BYTES)%nat in
    if (msg_max_size <? Z.of_N payload_len) then Raise ValueError
    else
      let payload := slice cursor (cursor + N.to_nat payload_len) buffer in
      if verify_msg payload input_hmac then
        match loads payload with Some obj => Ok obj | None => Raise UnpickleError end
      else Raise ValueError.

(** A run of writes; a failing one raises and leaves the memory as it is. *)
Definition write_all (l : list T) (w : shm_writer) : shm_writer :=
  fold_left (fun w obj => match write_msg obj w with Ok w' => w' | Raise _ => w end) l w.

(** Whether [write_msg] accepts a message: the writer's limit. *)
Definition fits (max : nat) (obj : T) : bool := (List.length (dumps obj) <=? max)%nat.
End Channel.

(** ** Lemmas *)

Lemma be_bytes_length len n : List.length (be_bytes len n) = len.
Proof. revert n. induction len as [|len IH]; intros n; simpl; [done|]. rewrite length_app, IH. simpl. lia. Qed.

Lemma byte_of_to_N n : (n < 256)%N -> Byte.to_N (byte_of n) = n.
Proof.
  intros Hn. unfold byte_of. destruct (Byte.of_N n) as [b|] eqn:E; simpl.
  - by apply Byte.to_of_N in E.
  - exfalso. apply Byte.of_N_None_iff in E. lia.
Qed.

Lemma from_be_bytes len n : (n < 256 ^ N.of_nat len)%N -> from_bytes (be_bytes len n) = n.
Proof.
  unfold from_bytes. revert n. induction len as [|len IH]; intros n Hn; simpl.
  - simpl in Hn. lia.
  - rewrite fold_left_app. simpl. rewrite IH, byte_of_to_N.
    + symmetry. apply N.div_mod'.
    + by apply N.mod_lt.
    + apply N.Div0.div_lt_upper_bound. rewrite Nat2N.inj_succ, N.pow_succ_r' in Hn. lia.
Qed.

Lemma slice_middle a b (l m r : bytes) :
  a = List.length l -> b = (a + List.length m)%nat -> slice a b (l ++ m ++ r) = m.
Proof. intros -> ->. unfold slice. rewrite drop_app_length, Nat.add_comm, Nat.add_sub. apply take_app_length. Qed.

Lemma store_prefix_length data buf :
  (List.length data <= List.length buf)%nat -> List.length (store_prefix data buf) = List.length buf.
Proof. intros H. unfold store_prefix. rewrite length_app, length_drop. lia. Qed.

Section Register.
Context {T : Type} (dumps : T -> bytes) (loads : bytes -> option T) (cal_hmac : bytes -> bytes).
Context (Hpickle : forall x, loads (dumps x) = Some x).
Context (Hhmac : forall m, List.length (cal_hmac m) = DIGEST_SIZE).

(** The memory after a complete write. *)
Definition written (obj : T) (rest : bytes) : bytes :=
  RWLOCK_OPEN :: cal_hmac (dumps obj) ++
    be_bytes PAYLOAD_LEN_BYTES (N.of_nat (List.length (dumps obj))) ++ dumps obj ++ rest.

Lemma sync_written obj rest :
  (N.of_nat (List.length (dumps obj)) < 256 ^ N.of_nat PAYLOAD_LEN_BYTES)%N ->
  sync_msg loads cal_hmac (written obj rest) = Ok obj.
Proof.
  intros Hlen. unfold sync_msg.
  assert (Hsize : List.length (written obj rest) =
    (MIN_ENCAP_MSG_LEN + List.length (dumps obj) + List.length rest)%nat).
  { unfold written. rewrite length_cons, !length_app, Hhmac, be_bytes_length. unfold MIN_ENCAP_MSG_LEN, RWLOCK_LEN. lia. }
  assert (Hmac : slice RWLOCK_LEN (RWLOCK_LEN + DIGEST_SIZE) (written obj rest) = cal_hmac (dumps obj)).
  { apply (slice_middle _ _ [_]); [done|by rewrite Hhmac]. }
  assert (Hpl : slice (RWLOCK_LEN + DIGEST_SIZE) (RWLOCK_LEN + DIGEST_SIZE + PAYLOAD_LEN_BYTES)
            (written obj rest) = be_bytes PAYLOAD_LEN_BYTES (N.of_nat (List.length (dumps obj)))).
  { apply (slice_middle _ _ (_ :: cal_hmac (dumps obj)));
      [by rewrite length_cons, Hhmac|by rewrite be_bytes_length]. }
  assert (Hp : slice (RWLOCK_LEN + DIGEST_SIZE + PAYLOAD_LEN_BYTES)
            (RWLOCK_LEN + DIGEST_SIZE + PAYLOAD_LEN_BYTES + List.length (dumps obj))
            (written obj rest) = dumps obj).
  { unfold written. rewrite (app_assoc (cal_hmac (dumps obj))).
    apply (slice_middle _ _ (_ :: _)); [|done]. by rewrite length_cons, length_app, Hhmac, be_bytes_length. }
  rewrite Hmac, Hpl, from_be_bytes, Nat2N.id, Hp, Hsize by done.
  assert (Hlock : slice 0 RWLOCK_LEN (written obj rest) = [RWLOCK_OPEN]) by done.
  rewrite Hlock. rewrite (proj2 (Z.ltb_ge _ _)) by lia.
  unfold verify_msg. rewrite (bool_decide_eq_true_2 (cal_hmac _ = _)) by done. simpl.
  by rewrite Hpickle.
Qed.

(** What the two stores of a write make of the memory. *)
Lemma write_msg_written obj w w' :
  write_msg_locked dumps cal_hmac obj w = Ok w' ->
  (N.of_nat (List.length (dumps obj)) < 256 ^ N.of_nat PAYLOAD_LEN_BYTES)%N /\
  List.length (sw_buf w') = List.length (sw_buf w) /\ sw_msg_max_size w' = sw_msg_max_size w /\
  (exists tl, sw_buf w' = RWLOCK_LOCKED :: tl) /\
  exists rest, store_prefix [RWLOCK_OPEN] (sw_buf w') = written obj rest.
Proof.
  unfold write_msg_locked, to_bytes. destruct (_ <? _)%nat; [done|].
  destruct (N.ltb_spec (N.of_nat (List.length (dumps obj))) (256 ^ N.of_nat PAYLOAD_LEN_BYTES)%N)
    as [Hlt|]; [|done].
  set (msg := RWLOCK_LOCKED :: _). destruct (Nat.ltb_spec (List.length (sw_buf w)) (List.length msg))
    as [|Hle]; [done|]. intros [= <-]. cbn [sw_buf sw_msg_max_size upd].
  split; [done|].
  split; [by apply store_prefix_length|]. split; [done|].
  split; [by eexists|]. exists (drop (List.length msg) (sw_buf w)).
  unfold store_prefix, written, msg. rewrite <- app_comm_cons. simpl drop.
  by rewrite drop_0, <- !app_assoc.
Qed.

Lemma write_msg_fits obj w :
  (N.of_nat (List.length (sw_buf w)) < 256 ^ N.of_nat PAYLOAD_LEN_BYTES)%N ->
  (sw_msg_max_size w + MIN_ENCAP_MSG_LEN <= List.length (sw_buf w))%nat ->
  match write_msg_locked dumps cal_hmac obj w with Ok _ => true | Raise _ => false end =
  fits dumps (sw_msg_max_size w) obj.
Proof.
  intros Hb Hm. unfold write_msg_locked, to_bytes, fits.
  destruct (Nat.ltb_spec (sw_msg_max_size w) (List.length (dumps obj))) as [H|H].
  - symmetry. by apply Nat.leb_gt.
  - rewrite (proj2 (N.ltb_lt _ _)) by (unfold MIN_ENCAP_MSG_LEN in Hm; lia).
    destruct (Nat.ltb_spec (List.length (sw_buf w))
      (List.length (RWLOCK_LOCKED :: cal_hmac (dumps obj) ++
         be_bytes PAYLOAD_LEN_BYTES (N.of_nat (List.length (dumps obj))) ++ dumps obj))) as [H'|H'].
    + exfalso. rewrite length_cons, !length_app, Hhmac, be_bytes_length in H'.
      unfold MIN_ENCAP_MSG_LEN, RWLOCK_LEN in Hm. lia.
    + symmetry. by apply Nat.leb_le.
Qed.

Definition read_of (l : list T) (max : nat) : result shm_error T :=
  match list.last (List.filter (fits dumps max) l) with
  | Some obj => Ok obj
  | None => Raise (RWBusy "no msg has been written yet")
  end.

(** The memory holds what the writes [l] left. *)
Definition holds (size max : nat) (l : list T) (w : shm_writer) : Prop :=
  sync_msg loads cal_hmac (sw_buf w) = read_of l max /\ List.length (sw_buf w) = size /\
  sw_msg_max_size w = max /\ (max + MIN_ENCAP_MSG_LEN <= size)%nat.

Lemma write_msg_holds size max l obj w :
  (N.of_nat size < 256 ^ N.of_nat PAYLOAD_LEN_BYTES)%N -> holds size max l w ->
  holds size max (l ++ [obj])
    (match write_msg dumps cal_hmac obj w with Ok w' => w' | Raise _ => w end).
Proof.
  intros Hsize (Hs & Hlen & Hm & Hmax). pose proof (write_msg_fits obj w) as Hf.
  rewrite Hlen, Hm in Hf. specialize (Hf Hsize Hmax). unfold write_msg, holds, read_of.
  rewrite filter_app. simpl. rewrite <- Hf.
  destruct (write_msg_locked dumps cal_hmac obj w) as [w1|err] eqn:E.
  - apply write_msg_written in E as (Hlt & Hl & Hm1 & _ & (rest & Hr)).
    cbn [sw_buf sw_msg_max_size upd]. split_and!; [| |congruence|done].
    + rewrite Hr, sync_written by done. by rewrite list.last_snoc.
    + rewrite store_prefix_length; [lia|]. simpl. unfold MIN_ENCAP_MSG_LEN, RWLOCK_LEN in Hmax. lia.
  - by rewrite app_nil_r.
Qed.

Lemma write_all_holds size max l l0 w :
  (N.of_nat size < 256 ^ N.of_nat PAYLOAD_LEN_BYTES)%N -> holds size max l0 w ->
  holds size max (l0 ++ l) (write_all dumps cal_hmac l w).
Proof.
  intros Hsize. revert l0 w. induction l as [|obj l IH]; intros l0 w Hw; simpl; [by rewrite app_nil_r|].
  change (obj :: l) with ([obj] ++ l). rewrite app_assoc. apply IH. by apply write_msg_holds.
Qed.

(** C40. The channel is a register of one value: after any run of writes on a
    new shared memory, each of any size, a read returns the last object that
    fits the writer's limit (a larger one raises and leaves the memory as it
    is), and says that nothing was written when there is none; between the two
    stores of a write, a read is refused as busy. *)
Theorem shm_is_register size max w l :
  (N.of_nat size < 256 ^ N.of_nat PAYLOAD_LEN_BYTES)%N -> create_writer size max = Some w ->
  let w' := write_all dumps cal_hmac l w in
  sync_msg loads cal_hmac (sw_buf w') = read_of l (sw_msg_max_size w) /\
  forall obj w2, write_msg_locked dumps cal_hmac obj w' = Ok w2 ->
    sync_msg loads cal_hmac (sw_buf w2) = Raise (RWBusy "write in progress, abort").
Proof.
  intros Hsize Hw. cbv zeta. split.
  - apply (write_all_holds size (sw_msg_max_size w) l []); [done|]. unfold create_writer in Hw.
    destruct (Nat.ltb_spec size MIN_ENCAP_MSG_LEN) as [|Hle]; [done|]. injection Hw as <-.
    unfold holds. simpl sw_buf. rewrite repeat_length.
    destruct size as [|size]; [by unfold MIN_ENCAP_MSG_LEN, RWLOCK_LEN in *; lia|].
    split_and!; [done..|]. destruct max as [[|n]|]; cbn [sw_msg_max_size]; lia.
  - intros obj w2 H2. by apply write_msg_written in H2 as (_ & _ & _ & (tl & ->) & _).
Qed.
End Register.

(** ** Witnesses *)

Definition example_hmac (_ : bytes) : bytes := repeat x00 64.

Lemma shm_is_register_witness :
  exists w, create_writer 100 None = Some w /\
    sync_msg Some example_hmac (sw_buf (write_all (T := bytes) (fun b => b) example_hmac [[x61]; [x62]] w)) =
    Ok [x62]%byte.
Proof.
  eexists. split; [reflexivity|].
  exact (proj1 (shm_is_register (fun b => b) Some example_hmac (fun _ => eq_refl) (fun _ => eq_refl)
    100 None _ [[x61]; [x62]]%byte eq_refl eq_refl)).
Defined.
