(* ===== verification/RetryTaskMap.v ===== *)
(** * The thread pool with retries

    Models [src/src/otaclient_common/retry_task_map.py]: [ensure_tasks] runs a
    function on every item of an iterable in a thread pool, submits failing
    items again, and yields the finished futures to its caller.  The
    dispatcher thread, the workers, the done callbacks, the watchdog and the
    generator are interleaved by the relation [rstep], one step per access to
    the shared state.  An item is known by its identity, what the function does
    to it on each run is any outcome.  A shut-down pool drops the queued work
    at any later moment. *)

From stdpp Require Import base list option relations.
From Stdlib Require Import ZArith List Lia Permutation.
From S2P Require Import Prelude.

Section RetryTaskMap.
Context {A : Type} `{!EqDecision A}.
Context (max_concurrent max_workers : nat).
Context (max_total_retry max_retry_on_entry : option nat).

(** ** Data *)

Inductive rtm_exc : Type :=
| ExcTotalRetry (n : nat)
| ExcEntryRetry (item : A) (n : nat)
| ExcDispatcher
| ExcWatchdog
| ExcInterrupted.

(** [_RetryOnEntryTracker]: the counts by entry, the latest registered last. *)
Fixpoint tracker_get (x : A) (l : list (A * nat)) : nat :=
  match l with
  | [] => 0%nat
  | (y, n) :: l => if decide (x = y) then n else tracker_get x l
  end.

Definition register (max_entries : nat) (x : A) (l : list (A * nat)) : list (A * nat) * nat :=
  let n := S (tracker_get x l) in
  let l := List.filter (fun '(y, _) => negb (bool_decide (x = y))) l ++ [(x, n)] in
  (if (max_entries <? List.length l)%nat then tail l else l, n).

(** Where the dispatcher thread is. *)
Inductive dispatcher_pc : Type :=
| D_next | D_acquire (item : A) | D_submit (item : A) | D_done.

(** Where the done callback of a future is. *)
Inductive cb_stage : Type :=
| CB_start      (** before it looks at the pool's state *)
| CB_put        (** about to put the future into the queue *)
| CB_after      (** the future is in the queue *)
| CB_retry.     (** waiting to submit the item again *)

Record callback : Type := mkCallback {
  cb_item : A;
  cb_ok : bool;
  cb_stage_of : cb_stage;
}.

Inductive generator_pc : Type :=
| G_loop | G_body | G_get | G_done | G_raised (e : rtm_exc).

Record rtm : Type := mkRtm {
  r_items : list A;                 (** what the iterable still yields *)
  r_count : Z;                      (** [_tasks_count] of the dispatcher *)
  r_dpc : dispatcher_pc;
  r_total_task_num : Z;
  r_semaphore : nat;
  r_queued : list A;
  r_running : list A;
  r_cbs : list callback;
  r_fut_queue : list (A * bool);    (** futures with whether they succeeded *)
  r_retry_counter : nat;            (** how often [next] was called *)
  r_tracker : list (A * nat);
  r_exc : option rtm_exc;
  r_shutdown : bool;
  r_gpc : generator_pc;
  r_finished_tasks : nat;
  r_yielded : list (A * bool);
  r_resubmitted : nat;              (** how many items were submitted again *)
}.

#[export] Instance eta_rtm : Eta rtm := fun r =>
  mkRtm (r_items r) (r_count r) (r_dpc r) (r_total_task_num r) (r_semaphore r) (r_queued r)
    (r_running r) (r_cbs r) (r_fut_queue r) (r_retry_counter r) (r_tracker r) (r_exc r)
    (r_shutdown r) (r_gpc r) (r_finished_tasks r) (r_yielded r) (r_resubmitted r).

(** [ensure_tasks] when its threads start. *)
Definition rtm_start (items : list A) : rtm :=
  mkRtm items (-1) D_next 0 max_concurrent [] [] [] [] 0 [] None false G_loop 0 [] 0.

(** Storing the exception, then [_rtm_shutdown]. *)
Definition rtm_shutdown (e : rtm_exc) (s : rtm) : rtm :=
  s <| r_exc := Some e |> <| r_shutdown := true |>.

Definition limit_exceeded (limit : option nat) (n : nat) : bool :=
  match limit with Some m => (m <? n)%nat | None => false end.

(** ** Steps *)

Inductive dispatcher_step : rtm -> rtm -> Prop :=
| ds_next s x l :
    r_dpc s = D_next -> r_items s = x :: l -> r_shutdown s = false ->
    dispatcher_step s
      (s <| r_items := l |> <| r_count := (if r_count s <? 0 then 1 else r_count s + 1) |>
         <| r_dpc := D_acquire x |>)
| ds_stop s x l :
    r_dpc s = D_next -> r_items s = x :: l -> r_shutdown s = true ->
    dispatcher_step s (s <| r_dpc := D_done |>)
| ds_raise s :
    (** the iterable raises *)
    r_dpc s = D_next ->
    dispatcher_step s (rtm_shutdown ExcDispatcher s <| r_dpc := D_done |>)
| ds_acquire s x n :
    r_dpc s = D_acquire x -> r_semaphore s = S n ->
    dispatcher_step s (s <| r_semaphore := n |> <| r_dpc := D_submit x |>)
| ds_submit s x :
    r_dpc s = D_submit x -> r_shutdown s = false ->
    dispatcher_step s (s <| r_queued := r_queued s ++ [x] |> <| r_dpc := D_next |>)
| ds_submit_fails s x :
    r_dpc s = D_submit x -> r_shutdown s = true ->
    dispatcher_step s (s <| r_dpc := D_done |>)
| ds_end s :
    r_dpc s = D_next -> r_items s = [] ->
    dispatcher_step s (s <| r_total_task_num := r_count s |> <| r_dpc := D_done |>).

Inductive worker_step : rtm -> rtm -> Prop :=
| wk_take s x q :
    r_queued s = x :: q -> (List.length (r_running s) < max_workers)%nat ->
    worker_step s (s <| r_queued := q |> <| r_running := r_running s ++ [x] |>)
| wk_done s l1 x l2 ok :
    r_running s = l1 ++ x :: l2 ->
    worker_step s (s <| r_running := l1 ++ l2 |>
                     <| r_cbs := r_cbs s ++ [mkCallback x ok CB_start] |>).

(** [_task_done_cb_at_thread] *)
Inductive callback_step : rtm -> rtm -> Prop :=
| cb_on_shutdown s l1 x ok l2 :
    r_cbs s = l1 ++ mkCallback x ok CB_start :: l2 -> r_shutdown s = true ->
    callback_step s (s <| r_cbs := l1 ++ l2 |> <| r_semaphore := S (r_semaphore s) |>)
| cb_checked s l1 x ok l2 :
    r_cbs s = l1 ++ mkCallback x ok CB_start :: l2 -> r_shutdown s = false ->
    callback_step s (s <| r_cbs := l1 ++ mkCallback x ok CB_put :: l2 |>)
| cb_puts s l1 x ok l2 :
    r_cbs s = l1 ++ mkCallback x ok CB_put :: l2 ->
    callback_step s (s <| r_cbs := l1 ++ mkCallback x ok CB_after :: l2 |>
                       <| r_fut_queue := r_fut_queue s ++ [(x, ok)] |>)
| cb_success s l1 x l2 :
    r_cbs s = l1 ++ mkCallback x true CB_after :: l2 ->
    callback_step s (s <| r_cbs := l1 ++ l2 |> <| r_semaphore := S (r_semaphore s) |>)
| cb_total_exceeded s l1 x l2 :
    r_cbs s = l1 ++ mkCallback x false CB_after :: l2 ->
    limit_exceeded max_total_retry (S (r_retry_counter s)) = true ->
    callback_step s
      (rtm_shutdown (ExcTotalRetry (S (r_retry_counter s))) s
         <| r_cbs := l1 ++ l2 |> <| r_retry_counter := S (r_retry_counter s) |>)
| cb_entry_exceeded s l1 x l2 t n :
    r_cbs s = l1 ++ mkCallback x false CB_after :: l2 ->
    limit_exceeded max_total_retry (S (r_retry_counter s)) = false ->
    register max_concurrent x (r_tracker s) = (t, n) ->
    limit_exceeded max_retry_on_entry n = true ->
    callback_step s
      (rtm_shutdown (ExcEntryRetry x n) s
         <| r_cbs := l1 ++ l2 |> <| r_retry_counter := S (r_retry_counter s) |>
         <| r_tracker := t |>)
| cb_backoff s l1 x l2 t n :
    r_cbs s = l1 ++ mkCallback x false CB_after :: l2 ->
    limit_exceeded max_total_retry (S (r_retry_counter s)) = false ->
    register max_concurrent x (r_tracker s) = (t, n) ->
    limit_exceeded max_retry_on_entry n = false ->
    callback_step s
      (s <| r_cbs := l1 ++ mkCallback x false CB_retry :: l2 |>
         <| r_retry_counter := S (r_retry_counter s) |> <| r_tracker := t |>)
| cb_resubmit s l1 x ok l2 :
    r_cbs s = l1 ++ mkCallback x ok CB_retry :: l2 -> r_shutdown s = false ->
    callback_step s
      (s <| r_cbs := l1 ++ l2 |> <| r_queued := r_queued s ++ [x] |>
         <| r_resubmitted := S (r_resubmitted s) |>)
| cb_resubmit_fails s l1 x ok l2 :
    r_cbs s = l1 ++ mkCallback x ok CB_retry :: l2 -> r_shutdown s = true ->
    callback_step s (s <| r_cbs := l1 ++ l2 |> <| r_semaphore := S (r_semaphore s) |>).

(** [_fut_gen] *)
Inductive generator_step : rtm -> rtm -> Prop :=
| gs_exit s :
    r_gpc s = G_loop -> r_finished_tasks s <> 0%nat ->
    Z.of_nat (r_finished_tasks s) = r_total_task_num s ->
    generator_step s (s <| r_gpc := G_done |>)
| gs_enter s :
    r_gpc s = G_loop ->
    (r_finished_tasks s = 0%nat \/ Z.of_nat (r_finished_tasks s) <> r_total_task_num s) ->
    generator_step s (s <| r_gpc := G_body |>)
| gs_no_task s :
    r_gpc s = G_body -> r_total_task_num s < 0 -> generator_step s (s <| r_gpc := G_done |>)
| gs_raise s :
    r_gpc s = G_body -> 0 <= r_total_task_num s -> r_shutdown s = true ->
    generator_step s
      (s <| r_gpc := G_raised (default ExcInterrupted (r_exc s)) |> <| r_fut_queue := [] |>
         <| r_exc := None |>)
| gs_go s :
    r_gpc s = G_body -> 0 <= r_total_task_num s -> r_shutdown s = false ->
    generator_step s (s <| r_gpc := G_get |>)
| gs_yield s x ok q :
    r_gpc s = G_get -> r_fut_queue s = (x, ok) :: q ->
    generator_step s
      (s <| r_gpc := G_loop |> <| r_fut_queue := q |> <| r_yielded := r_yielded s ++ [(x, ok)] |>
         <| r_finished_tasks := (if ok then S (r_finished_tasks s) else r_finished_tasks s) |>)
| gs_sleep s :
    r_gpc s = G_get -> r_fut_queue s = [] -> generator_step s (s <| r_gpc := G_loop |>).

(** The watchdog, a shutdown by the owner of the pool, and the draining of
    the work queue after a shutdown. *)
Inductive pool_step : rtm -> rtm -> Prop :=
| ps_watchdog s : pool_step s (rtm_shutdown ExcWatchdog s)
| ps_shutdown s : pool_step s (s <| r_shutdown := true |>)
| ps_drain s x q :
    r_shutdown s = true -> r_queued s = x :: q -> pool_step s (s <| r_queued := q |>).

Definition rtm_progress (s s' : rtm) : Prop :=
  dispatcher_step s s' \/ worker_step s s' \/ callback_step s s' \/ generator_step s s'.

Definition rstep (s s' : rtm) : Prop := rtm_progress s s' \/ pool_step s s'.

(** ** The invariants *)

Definition ok_items (l : list (A * bool)) : list A := map fst (List.filter snd l).

(** The item of a callback, until its success is in the queue. *)
Definition cb_pending (c : callback) : list A :=
  match cb_stage_of c, cb_ok c with CB_after, true => [] | _, _ => [cb_item c] end.

Definition dpc_items (p : dispatcher_pc) : list A :=
  match p with D_acquire x | D_submit x => [x] | _ => [] end.

(** Every item that is not lost to a shutdown, where it is. *)
Definition accounted (s : rtm) : list A :=
  ok_items (r_yielded s) ++ ok_items (r_fut_queue s) ++ flat_map cb_pending (r_cbs s) ++
  r_queued s ++ r_running s ++ dpc_items (r_dpc s) ++ r_items s.

(** The tasks that hold the semaphore. *)
Definition in_flight (s : rtm) : nat :=
  ((match r_dpc s with D_submit _ => 1 | _ => 0 end) + List.length (r_queued s) +
   List.length (r_running s) + List.length (r_cbs s))%nat.

Definition is_retrying (c : callback) : bool :=
  match cb_stage_of c with CB_retry => true | _ => false end.

Definition retries_granted (s : rtm) : nat :=
  (r_resubmitted s + List.length (List.filter is_retrying (r_cbs s)))%nat.

(** Where the dispatcher and the generator are. *)
Record control_inv (items : list A) (s : rtm) : Prop := {
  ri_count : exists d, (d + List.length (r_items s) = List.length items)%nat /\
    r_count s = (if (d =? 0)%nat then -1 else Z.of_nat d);
  ri_total : r_total_task_num s = 0 \/
    (r_dpc s = D_done /\ r_items s = [] /\ r_total_task_num s = r_count s);
  ri_dispatched : r_dpc s = D_done -> r_shutdown s = false ->
    r_items s = [] /\ r_total_task_num s = r_count s;
  ri_finished : r_finished_tasks s = List.length (ok_items (r_yielded s));
  ri_done : r_gpc s = G_done -> r_total_task_num s < 0 \/
    (r_finished_tasks s <> 0%nat /\ Z.of_nat (r_finished_tasks s) = r_total_task_num s);
  ri_raised : forall e, r_gpc s = G_raised e -> r_shutdown s = true;
}.

Record rtm_inv (items : list A) (s : rtm) : Prop := {
  ri_items : exists lost, accounted s ++ lost ≡ₚ items /\ (r_shutdown s = false -> lost = []);
  ri_semaphore : (r_semaphore s + in_flight s <= max_concurrent)%nat /\
    (r_shutdown s = false -> (r_semaphore s + in_flight s)%nat = max_concurrent);
  ri_control : control_inv items s;
  ri_retries : (retries_granted s <= r_retry_counter s)%nat /\
    (forall m, max_total_retry = Some m -> (retries_granted s <= m)%nat);
}.

Lemma ok_items_app l l' : ok_items (l ++ l') = ok_items l ++ ok_items l'.
Proof. unfold ok_items. by rewrite filter_app, map_app. Qed.

Lemma limit_not_exceeded limit n m : limit_exceeded limit n = false -> limit = Some m -> (n <= m)%nat.
Proof. intros H ->. by apply Nat.ltb_ge in H. Qed.

(** A step moves items, and loses some only when the pool is shut down. *)
Definition flows (s s' : rtm) : Prop :=
  exists dropped, accounted s ≡ₚ accounted s' ++ dropped /\ (r_shutdown s' = false -> dropped = []).

Ltac flow_with d :=
  exists d; simpl; split;
  [ unfold accounted; simpl;
    repeat match goal with H : _ = _ |- _ => rewrite H; clear H end;
    rewrite ?flat_map_app, ?ok_items_app; simpl; solve_Permutation
  | first [done | congruence] ].

Lemma dispatcher_flows s s' : dispatcher_step s s' -> flows s s'.
Proof.
  intros Hs. destruct Hs.
  all: try (by flow_with (@nil A)).
  - by flow_with [x].
Qed.

Lemma worker_flows s s' : worker_step s s' -> flows s s'.
Proof.
  intros Hs. destruct Hs; [by flow_with (@nil A)|]. destruct ok; by flow_with (@nil A).
Qed.

Lemma callback_flows s s' : callback_step s s' -> flows s s'.
Proof.
  intros Hs. destruct Hs; try (destruct ok); try (by flow_with (@nil A)); by flow_with [x].
Qed.

Lemma generator_flows s s' : generator_step s s' -> flows s s'.
Proof.
  intros Hs. destruct Hs; try (destruct ok); try (by flow_with (@nil A)).
  by flow_with (ok_items (r_fut_queue s)).
Qed.

Lemma pool_flows s s' : pool_step s s' -> flows s s'.
Proof. intros Hs. destruct Hs; try (by flow_with (@nil A)). by flow_with [x]. Qed.

Lemma shutdown_stays s s' : rstep s s' -> r_shutdown s = true -> r_shutdown s' = true.
Proof. intros [[Hs|[Hs|[Hs|Hs]]]|Hs]; by destruct Hs. Qed.

Lemma step_items items s s' :
  rstep s s' ->
  (exists lost, accounted s ++ lost ≡ₚ items /\ (r_shutdown s = false -> lost = [])) ->
  exists lost, accounted s' ++ lost ≡ₚ items /\ (r_shutdown s' = false -> lost = []).
Proof.
  intros Hs (lost & Hl & Hn).
  assert (Hf : flows s s').
  { destruct Hs as [[H|[H|[H|H]]]|H];
      eauto using dispatcher_flows, worker_flows, callback_flows, generator_flows, pool_flows. }
  destruct Hf as (dropped & Hd & Hdn). exists (dropped ++ lost).
  split; [by rewrite app_assoc, <- Hd|].
  intros Hsh. rewrite (Hdn Hsh), Hn; [done|].
  destruct (r_shutdown s) eqn:E; [|done]. by rewrite (shutdown_stays _ _ Hs E) in Hsh.
Qed.

(** The semaphore counts. *)
Lemma step_semaphore s s' :
  rstep s s' ->
  (r_semaphore s + in_flight s <= max_concurrent)%nat /\
    (r_shutdown s = false -> (r_semaphore s + in_flight s)%nat = max_concurrent) ->
  (r_semaphore s' + in_flight s' <= max_concurrent)%nat /\
    (r_shutdown s' = false -> (r_semaphore s' + in_flight s')%nat = max_concurrent).
Proof.
  intros Hs. unfold in_flight.
  destruct Hs as [[Hs|[Hs|[Hs|Hs]]]|Hs]; destruct Hs; simpl;
    repeat match goal with H : ?f s = _ |- _ => rewrite H; clear H end;
    rewrite ?length_app; simpl; rewrite ?length_app; simpl; intros [Hle Heq]; split;
    try (intros Hsh; try done; specialize (Heq Hsh)); try (specialize (Heq eq_refl)); lia.
Qed.

(** What the retries cost. *)
Lemma step_retries s s' :
  rstep s s' ->
  (retries_granted s <= r_retry_counter s)%nat /\
    (forall m, max_total_retry = Some m -> (retries_granted s <= m)%nat) ->
  (retries_granted s' <= r_retry_counter s')%nat /\
    (forall m, max_total_retry = Some m -> (retries_granted s' <= m)%nat).
Proof.
  intros Hs. unfold retries_granted.
  destruct Hs as [[Hs|[Hs|[Hs|Hs]]]|Hs]; destruct Hs as [];
    repeat match goal with H : r_cbs s = _ |- _ => rewrite H; clear H end; simpl;
    rewrite ?filter_app, ?length_app; simpl; rewrite ?filter_app, ?length_app; simpl;
    intros [Hle Hm]; split; try lia;
    intros m Em; specialize (Hm m Em);
    repeat match goal with H : limit_exceeded max_total_retry _ = false |- _ =>
      pose proof (limit_not_exceeded _ _ _ H Em); clear H end; lia.
Qed.

(** The steps of the workers, the callbacks and the pool leave the dispatcher
    and the generator where they are. *)
Definition same_control (s s' : rtm) : Prop :=
  r_items s' = r_items s /\ r_count s' = r_count s /\ r_dpc s' = r_dpc s /\
  r_total_task_num s' = r_total_task_num s /\ r_finished_tasks s' = r_finished_tasks s /\
  r_yielded s' = r_yielded s /\ r_gpc s' = r_gpc s.

Lemma other_same_control s s' :
  worker_step s s' \/ callback_step s s' \/ pool_step s s' -> same_control s s'.
Proof. intros [Hs|[Hs|Hs]]; destruct Hs; by split_and!. Qed.

Lemma same_control_keeps items s s' :
  same_control s s' -> (r_shutdown s = true -> r_shutdown s' = true) ->
  control_inv items s -> control_inv items s'.
Proof.
  intros (E1 & E2 & E3 & E4 & E5 & E6 & E7) Hsh [Hc Ht Hd Hf Hg Hr].
  constructor; rewrite ?E1, ?E2, ?E3, ?E4, ?E5, ?E6, ?E7; try done.
  - intros H1 H2. apply Hd; [done|]. destruct (r_shutdown s); [by rewrite Hsh in H2|done].
  - intros e He. eauto.
Qed.

Lemma dispatcher_control items s s' :
  dispatcher_step s s' -> control_inv items s -> control_inv items s'.
Proof.
  intros Hs [(d & Hd & Hc) Ht Hdis Hf Hg Hr].
  assert (H0 : r_dpc s <> D_done -> r_total_task_num s = 0)
    by (intros Hn; destruct Ht as [|(? & _)]; [done|by destruct Hn]).
  assert (Hn : r_dpc s <> D_done) by (destruct Hs; congruence).
  specialize (H0 Hn). clear Ht Hn.
  destruct Hs as [s x l Hp Hi Hsh|s x l Hp Hi Hsh|s Hp|s x n Hp Hse|s x Hp Hsh|s x Hp Hsh|s Hp Hi];
    constructor; simpl; try assumption; try (by left); try (by intros; congruence); try (by eauto).
  - exists (S d). rewrite Hi in Hd. simpl in Hd. split; [lia|]. rewrite Hc.
    destruct d; simpl; [done|]. by destruct (Z.ltb_spec (Z.pos (Pos.of_succ_nat d)) 0); lia.
  - intros Hgd. destruct (Hg Hgd) as [|[Hz Hfz]]; lia.
Qed.

Lemma generator_control items s s' :
  generator_step s s' -> control_inv items s -> control_inv items s'.
Proof.
  intros Hs [Hc Ht Hd Hf Hg Hr].
  destruct Hs; constructor; simpl; try assumption; try (by eauto); try (by intros; congruence).
  all: try (by intros _; auto).
  rewrite ok_items_app, length_app, Hf. destruct ok; simpl; lia.
Qed.

Lemma step_inv items s s' : rstep s s' -> rtm_inv items s -> rtm_inv items s'.
Proof.
  intros Hs [Hi Hsem Hc Hre]. constructor;
    [by eapply step_items|by eapply step_semaphore| |by eapply step_retries].
  destruct Hs as [[H|[H|[H|H]]]|H]; [by eapply dispatcher_control| | |by eapply generator_control|];
    (apply (same_control_keeps items s s'); [apply other_same_control; by auto| |done]);
    intros Hsh; (eapply shutdown_stays; [|done]); unfold rstep, rtm_progress; auto.
Qed.

Lemma reachable_inv items s : rtc rstep (rtm_start items) s -> rtm_inv items s.
Proof.
  intros Hr. assert (H0 : rtm_inv items (rtm_start items)).
  { constructor.
    - exists []. by rewrite app_nil_r.
    - unfold in_flight. simpl. lia.
    - constructor; simpl; try done; [|by left]. by exists 0%nat.
    - unfold retries_granted. simpl. split; [lia|]. intros. lia. }
  revert H0. induction Hr as [|s1 s2 s3 H12 _ IH]; eauto using step_inv.
Qed.

(** ** Properties *)

(** C12. When [ensure_tasks] ends without raising, every item was processed:
    in every interleaving, with any failures and retries, once the generator
    has returned, the successful futures it yielded are those of the items of
    the iterable, each exactly once. *)
Theorem ensure_tasks_complete items s :
  rtc rstep (rtm_start items) s -> r_gpc s = G_done -> ok_items (r_yielded s) ≡ₚ items.
Proof.
  intros Hr Hg. apply reachable_inv in Hr as [(lost & Hl & _) _ [(d & Hd & Hc) Ht _ Hf Hgd _] _].
  assert (Hlen : List.length (ok_items (r_yielded s)) = List.length items).
  { destruct Ht as [Ht|(_ & Hi & Ht)]; [destruct (Hgd Hg) as [|[? ?]]; lia|].
    rewrite Hi in Hd. simpl in Hd. rewrite <- Hf.
    destruct (Nat.eqb_spec d 0); destruct (Hgd Hg) as [|[? ?]]; try lia.
    assert (Hn : (List.length (ok_items (r_yielded s)) <= List.length items)%nat); [|lia].
    rewrite <- Hl. unfold accounted. rewrite !length_app. lia. }
  assert (Hrest : exists rest, ok_items (r_yielded s) ++ rest ≡ₚ items)
    by (unfold accounted in Hl; rewrite <- app_assoc in Hl; eauto).
  destruct Hrest as [rest Hrest]. pose proof (Permutation_length Hrest) as Hpl.
  rewrite length_app, Hlen in Hpl. destruct rest; [by rewrite app_nil_r in Hrest|simpl in Hpl; lia].
Qed.

(** The limits hold: at every moment at most [max_concurrent] tasks are
    queued, running or being handled after their run, and at most
    [max_total_retry] items were ever submitted again. *)
Theorem task_limits items s :
  rtc rstep (rtm_start items) s ->
  (List.length (r_queued s) + List.length (r_running s) + List.length (r_cbs s) <= max_concurrent)%nat /\
  forall m, max_total_retry = Some m -> (r_resubmitted s <= m)%nat.
Proof.
  intros Hr. apply reachable_inv in Hr as [_ [Hs _] _ [_ Hre]]. unfold in_flight in Hs.
  unfold retries_granted in Hre. split; [lia|]. intros m Hm. specialize (Hre m Hm). lia.
Qed.

Lemma busy_can_step s :
  (0 < max_workers)%nat -> r_shutdown s = false ->
  (0 < List.length (r_queued s) + List.length (r_running s) + List.length (r_cbs s))%nat ->
  exists s', worker_step s s' \/ callback_step s s'.
Proof.
  intros Hw Hsh Hn. destruct (r_cbs s) as [|[x ok st] l] eqn:Ec.
  - destruct (r_running s) as [|x l] eqn:Er.
    + destruct (r_queued s) as [|x q] eqn:Eq; [simpl in Hn; lia|].
      eexists. left. eapply wk_take; [exact Eq|]. rewrite Er. done.
    + eexists. left. by eapply (wk_done s [] x l true).
  - destruct st.
    + eexists. right. by eapply (cb_checked s [] x ok l).
    + eexists. right. by eapply (cb_puts s [] x ok l).
    + destruct ok; [eexists; right; by eapply (cb_success s [] x l)|].
      destruct (limit_exceeded max_total_retry (S (r_retry_counter s))) eqn:E1;
        [eexists; right; by eapply (cb_total_exceeded s [] x l)|].
      destruct (register max_concurrent x (r_tracker s)) as [t n] eqn:E2.
      destruct (limit_exceeded max_retry_on_entry n) eqn:E3;
        eexists; right; [by eapply (cb_entry_exceeded s [] x l)|by eapply (cb_backoff s [] x l)].
    + eexists. right. by eapply (cb_resubmit s [] x ok l).
Qed.

(** C39. The pool does not get stuck: while it is not shut down, either some
    thread of the pool can go on, or a finished future waits for the
    generator, or the generator's end condition holds.  So no task is lost
    and no permit of the semaphore leaks. *)
Theorem no_deadlock items s :
  (0 < max_concurrent)%nat -> (0 < max_workers)%nat ->
  rtc rstep (rtm_start items) s -> r_shutdown s = false ->
  (exists s', dispatcher_step s s' \/ worker_step s s' \/ callback_step s s') \/
  r_fut_queue s <> [] \/
  r_total_task_num s < 0 \/
  (r_finished_tasks s <> 0%nat /\ Z.of_nat (r_finished_tasks s) = r_total_task_num s).
Proof.
  intros Hmc Hmw Hr Hsh.
  apply reachable_inv in Hr as [(lost & Hl & Hlost) [_ Hs] [(d & Hd & Hc) _ Hdis Hf _ _] _].
  rewrite (Hlost Hsh), app_nil_r in Hl. specialize (Hs Hsh). unfold in_flight in Hs.
  destruct (decide (0 < List.length (r_queued s) + List.length (r_running s) + List.length (r_cbs s))%nat)
    as [Hb|Hb].
  { destruct (busy_can_step s Hmw Hsh Hb) as [s' Hs']. left. exists s'. tauto. }
  destruct (r_dpc s) as [|x|x|] eqn:Ed.
  - left. destruct (r_items s) as [|x l] eqn:Ei; eexists; left; [by eapply ds_end|by eapply ds_next].
  - left. destruct (r_semaphore s) as [|n] eqn:Es; [lia|]. eexists. left. by eapply ds_acquire.
  - left. eexists. left. by eapply ds_submit.
  - right. destruct (r_fut_queue s) as [|f q] eqn:Eq; [right|by left].
    destruct (Hdis eq_refl Hsh) as [Hi Ht]. rewrite Hi in Hd. simpl in Hd.
    apply Permutation_length in Hl. unfold accounted in Hl.
    rewrite Eq, Ed, Hi, !length_app in Hl. simpl in Hl.
    assert (Hz : List.length (flat_map cb_pending (r_cbs s)) = 0%nat)
      by (destruct (r_cbs s); [done|simpl in Hb; lia]).
    rewrite Ht, Hc. destruct (Nat.eqb_spec d 0); lia.
Qed.
End RetryTaskMap.

(** The count of retries on an entry starts over once enough other entries
    failed: with two concurrent tasks, an entry that fails, waits while two
    others fail, and fails again is counted as failing for the first time. *)
Example entry_retries_forgotten :
  fold_left (fun acc x => register 2 x (fst acc)) [0%nat; 1%nat; 2%nat; 0%nat] ([], 0%nat) =
  ([(2, 1); (0, 1)]%nat, 1%nat).
Proof. reflexivity. Qed.

(** ** Witnesses *)

(** One item that fails once and then succeeds. *)
Definition example_rtm_end : rtm (A := nat) :=
  mkRtm [] 1 D_done 1 1 [] [] [] [] 1 [(7%nat, 1%nat)] None false G_done 1
    [(7%nat, false); (7%nat, true)] 1.

Ltac rstep_by k :=
  eapply rtc_l; [left; k; first [reflexivity | done | (simpl; lia) | (left; reflexivity)
                               | (right; simpl; lia)]|simpl].

Lemma example_rtm_run : rtc (rstep 1 1 (Some 3%nat) None) (rtm_start 1 [7%nat]) example_rtm_end.
Proof.
  unfold rtm_start.
  rstep_by ltac:(left; eapply ds_next). rstep_by ltac:(left; eapply ds_acquire).
  rstep_by ltac:(left; eapply ds_submit). rstep_by ltac:(left; eapply ds_end).
  rstep_by ltac:(right; left; eapply wk_take).
  rstep_by ltac:(right; left; eapply (wk_done _ _ [] _ [] false)).
  rstep_by ltac:(right; right; left; eapply (cb_checked _ _ _ _ [])).
  rstep_by ltac:(right; right; left; eapply (cb_puts _ _ _ _ [])).
  rstep_by ltac:(right; right; left; eapply (cb_backoff _ _ _ _ [])).
  rstep_by ltac:(right; right; left; eapply (cb_resubmit _ _ _ _ [])).
  rstep_by ltac:(right; left; eapply wk_take).
  rstep_by ltac:(right; left; eapply (wk_done _ _ [] _ [] true)).
  rstep_by ltac:(right; right; left; eapply (cb_checked _ _ _ _ [])).
  rstep_by ltac:(right; right; left; eapply (cb_puts _ _ _ _ [])).
  rstep_by ltac:(right; right; left; eapply (cb_success _ _ _ _ [])).
  do 2 (rstep_by ltac:(right; right; right; eapply gs_enter);
        rstep_by ltac:(right; right; right; eapply gs_go);
        rstep_by ltac:(right; right; right; eapply gs_yield)).
  rstep_by ltac:(right; right; right; eapply gs_exit). apply rtc_refl.
Qed.

Lemma ensure_tasks_complete_witness : ok_items (r_yielded example_rtm_end) ≡ₚ [7%nat].
Proof. exact (ensure_tasks_complete 1 1 (Some 3%nat) None [7%nat] example_rtm_end example_rtm_run eq_refl). Defined.

Lemma task_limits_witness : (r_resubmitted example_rtm_end <= 3)%nat.
Proof. exact (proj2 (task_limits 1 1 (Some 3%nat) None [7%nat] example_rtm_end example_rtm_run) 3%nat eq_refl). Defined.

Lemma no_deadlock_witness :
  (exists s', dispatcher_step (rtm_start 1 [7%nat]) s' \/ worker_step 1 (rtm_start 1 [7%nat]) s' \/
     callback_step 1 (Some 3%nat) None (rtm_start 1 [7%nat]) s') \/
  r_fut_queue (rtm_start 1 [7%nat]) <> [] \/ r_total_task_num (rtm_start 1 [7%nat]) < 0 \/
  (r_finished_tasks (rtm_start 1 [7%nat]) <> 0%nat /\
   Z.of_nat (r_finished_tasks (rtm_start 1 [7%nat])) = r_total_task_num (rtm_start 1 [7%nat])).
Proof.
  exact (no_deadlock 1 1 (Some 3%nat) None [7%nat] (rtm_start 1 [7%nat]) ltac:(lia) ltac:(lia)
    (rtc_refl _ _) eq_refl).
Defined.
