(* ===== verification/Downloader.v ===== *)
(** * The downloader

    Models [src/src/otaclient_common/downloader.py]: [Downloader.download] with
    its resumption of an interrupted download, the retry of
    [retry_on_digest_mismatch], the cache-control header exchanged with an
    otaproxy, and the pool of downloaders.  The HTTP exchange and the zstd
    stream are parameters; a digest object is the bytes fed into it, and its
    [hexdigest] a function of them.  The local file system does not fail; an
    error while a chunk is written has the effect of one while it is read. *)

From stdpp Require Import base gmap strings list option sets pretty.
From Stdlib Require Import ZArith String Ascii Lia Strings.Byte.
From S2P Require Import Prelude CacheControlHeader Errors CacheIndex CacheStreaming OTACache.

Definition HEADER_RANGE_LOWER : string := "range".
Definition HEADER_CONTENT_RANGE_LOWER : string := "content-range".

Record DownloadResult : Type := mkDownloadResult {
  dr_retry_count : nat;
  dr_download_size : Z;
  dr_traffic_on_wire : Z;
}.

(** ** Exceptions *)

Definition partial_download (msg : string) : pyexn :=
  PyExn (XOther "PartialDownload") [AStr msg] None None.
Definition hash_verification_error (msg : string) : pyexn :=
  PyExn (XOther "HashVerificationError") [AStr msg] None None.
Definition broken_decompression_error (msg : string) (cause : pyexn) : pyexn :=
  PyExn (XOther "BrokenDecompressionError") [AStr msg] (Some cause) (Some cause).

Definition is_named (n : string) (e : pyexn) : bool :=
  match exn_cls e with XOther m => String.eqb m n | _ => false end.

(** The exceptions [retry_on_digest_mismatch] catches. *)
Definition is_partial (e : pyexn) : bool := is_named "PartialDownload" e.
Definition triggers_cache_retry (e : pyexn) : bool :=
  is_partial e || is_named "HashVerificationError" e || is_named "BrokenDecompressionError" e.

(** ** Integers and ranges *)

Record http_response : Type := mkHttpResponse {
  hr_status_code : Z;
  hr_headers : pydict string;        (** names in lower case: a [CIDict] *)
  hr_retries : nat;                  (** length of the retry history *)
  hr_chunks : list bytes;
  hr_failure : option pyexn;         (** raised after the chunks *)
}.

(** [_range_honoured] *)
Definition range_honoured (resp : http_response) (resume_from : Z) : bool :=
  if negb (hr_status_code resp =? 206) then false
  else
    let content_range := default EmptyString (dict_get HEADER_CONTENT_RANGE_LOWER (hr_headers resp)) in
    let '(unit, spec) := py_split1 " "%char content_range in
    match py_int (fst (py_split1 "-"%char (default EmptyString spec))) with
    | None => false
    | Some start => String.eqb (lower unit) "bytes" && (start =? resume_from)
    end.

(** [resumable_bytes]; [None]: there is no such file. *)
Definition resumable_bytes (file : option bytes) (size : Z) : Z :=
  match file with
  | None => 0
  | Some f =>
      let have := Z.of_nat (List.length f) in
      if (0 <? have) && (have <? size) then have else 0
  end.

(** [_hash_existing]: the bytes fed into the digest, or [PartialDownload].
    Each round reads at least one byte, so [up_to] rounds are enough. *)
Fixpoint hash_existing_loop (fuel chunk_size remaining : nat) (rest digest : bytes) : option bytes :=
  match remaining, fuel with
  | O, _ => Some digest
  | S _, O => None
  | S _, S fuel =>
      match take (Nat.min chunk_size remaining) rest with
      | [] => None
      | chunk =>
          hash_existing_loop fuel chunk_size (remaining - List.length chunk)
            (drop (List.length chunk) rest) (digest ++ chunk)
      end
  end.

Definition hash_existing (file : bytes) (up_to chunk_size : nat) : option bytes :=
  hash_existing_loop up_to chunk_size up_to file [].

(** ** The cache-control header *)

(** [inject_cache_retry_directory], on the headers. *)
Definition inject_cache_retry_directory (headers : option (pydict string)) : pydict string :=
  let parsed := default [] headers in
  let policy := default EmptyString (dict_get HEADER_LOWERCASE parsed) in
  dict_del HEADER_LOWERCASE parsed ++
    [(HEADER_LOWERCASE, update_header_str policy [("retry_caching"%string, VBool true)])].

Definition opt_value (o : option string) : dir_value :=
  match o with Some s => VStr s | None => VNone end.

(** [inject_cache_control_header_in_req] *)
Definition inject_cache_control_header_in_req (digest : string) (headers : option (pydict string))
    (compression_alg : option string) : pydict string :=
  let prepared := default [] headers in
  let policy := default EmptyString (dict_get HEADER_LOWERCASE prepared) in
  dict_del HEADER_LOWERCASE prepared ++
    [(HEADER_LOWERCASE, update_header_str policy
        [("file_sha256"%string, VStr digest);
         ("file_compression_alg"%string, opt_value compression_alg)])].

(** [check_cache_policy_in_resp]: the compression algorithm to use; the digest
    of the caller is kept. *)
Definition check_cache_policy_in_resp (compression_alg digest : option string)
    (resp_headers : pydict string) : result pyexn (option string) :=
  let policy_str := default EmptyString (dict_get HEADER_LOWERCASE resp_headers) in
  if negb (str_truthy policy_str) then Ok compression_alg
  else
    let policy := parse_header policy_str in
    if opt_str_truthy digest && truthy (CacheControlHeader.file_sha256 policy)
       && negb (bool_decide (opt_value digest = CacheControlHeader.file_sha256 policy))
    then Raise (hash_verification_error "digest in cache_policy doesn't match")
    else
      let alg := CacheControlHeader.file_compression_alg policy in
      Ok (if truthy alg && negb (bool_decide (opt_value compression_alg = alg))
          then Some (str_of_value alg) else compression_alg).

(** ** Downloading *)

Record dl_args : Type := mkDlArgs {
  da_url : string;
  da_size : option Z;
  da_digest : option string;
  da_headers : option (pydict string);
  da_compression_alg : option string;
  da_resume_from : Z;
}.

#[export] Instance eta_dl_args : Eta dl_args := fun r =>
  mkDlArgs (da_url r) (da_size r) (da_digest r) (da_headers r) (da_compression_alg r)
    (da_resume_from r).

(** The file at [dst] and the counter of the downloader. *)
Record dl_state : Type := mkDlState {
  dl_dst : option bytes;
  dl_downloaded_bytes : Z;
}.

#[export] Instance eta_dl_state : Eta dl_state := fun r =>
  mkDlState (dl_dst r) (dl_downloaded_bytes r).

Definition z_truthy (z : Z) : bool := negb (z =? 0).
Definition opt_z_truthy (o : option Z) : bool := match o with Some z => z_truthy z | None => false end.

(** What the zstd library raises while decompressing. *)
Inductive zstd_failure : Type := ZstdError (e : pyexn) | StreamError (e : pyexn).

(** What follows the first ["://"]. *)
Fixpoint after_scheme (s : string) : option string :=
  if startswith "://" s then Some (str_drop 3 s)
  else match s with String _ s' => after_scheme s' | EmptyString => None end.

(** [urlsplit(url)._replace(scheme="http").geturl()], for a URL with a scheme. *)
Definition to_http (url : string) : string :=
  match after_scheme url with Some rest => ("http://" +:+ rest)%string | None => url end.

Section Download.
Context (hexdigest : bytes -> string).
Context (chunk_size : nat) (proxies : bool) (force_http : bool).
(** The answer to the [n]th request of the downloader. *)
Context (http_get : nat -> string -> option (pydict string) -> result pyexn http_response).
(** The chunks a zstd stream decompresses to, each with the bytes read from
    the wire so far, and how it ends. *)
Context (decompress : http_response -> list (bytes * Z) * option zstd_failure).

Abbreviation DL := (PyM dl_state pyexn).

(** [raise_for_status] *)
Definition raise_for_status (resp : http_response) : DL unit :=
  let c := hr_status_code resp in
  if (400 <=? c) && (c <? 600) then raise (PyExn (XHTTPError (Some c)) [] None None)
  else mret tt.

Definition has_decompressor (alg : option string) : bool :=
  match alg with Some a => String.eqb a "zst" || String.eqb a "zstd" | None => false end.

(** The stream the loops of [download] read: chunks with the traffic they
    add, and the exception that ends them, if any. *)
Definition body_stream (alg : option string) (resp : http_response) :
    list (bytes * Z) * option pyexn :=
  if has_decompressor alg then
    let '(chunks, failure) := decompress resp in
    (snd (fold_left (fun '(before, acc) '(c, tell) => (tell, acc ++ [(c, tell - before)]))
            chunks (0, [])),
     match failure with
     | None => None
     | Some (ZstdError e) =>
         Some (broken_decompression_error
                 ("failure during decompressing file stream: " +:+ exn_repr e)%string e)
     | Some (StreamError e) => Some e
     end)
  else (map (fun c => (c, Z.of_nat (List.length c))) (hr_chunks resp), hr_failure resp).

Definition write_chunk (c : bytes) (traffic : Z) (s : dl_state) : dl_state :=
  s <| dl_dst := Some (default [] (dl_dst s) ++ c) |>
    <| dl_downloaded_bytes := dl_downloaded_bytes s + traffic |>.

(** The loop over the chunks: the digest, the size and the traffic. *)
Fixpoint save_chunks (chunks : list (bytes * Z)) (digest : bytes) (size traffic : Z) :
    DL (bytes * Z * Z) :=
  match chunks with
  | [] => mret (digest, size, traffic)
  | (c, t) :: chunks =>
      _ ← modify (write_chunk c t);
      save_chunks chunks (digest ++ c) (size + Z.of_nat (List.length c)) (traffic + t)
  end.

Definition raise_opt (e : option pyexn) : DL unit :=
  match e with Some e => raise e | None => mret tt end.

(** The part of [dst] that is continued, fed into the digest. *)
Definition digest_existing (resume_from : Z) : DL bytes :=
  if z_truthy resume_from then
    f ← gets dl_dst;
    match f with
    | None => raise (PyExn (XOSError (Some 2)) [] None None)
    | Some f =>
        match hash_existing f (Z.to_nat resume_from) chunk_size with
        | Some d => mret d
        | None => raise (partial_download "the file to resume is shorter than the bytes reported")
        end
    end
  else mret [].

Definition request_headers (a : dl_args) (resume_from : Z) : option (pydict string) :=
  let prepared :=
    if opt_str_truthy (da_digest a) && proxies
    then Some (inject_cache_control_header_in_req (default EmptyString (da_digest a))
                 (da_headers a) (da_compression_alg a))
    else da_headers a in
  if z_truthy resume_from
  then Some (dict_set HEADER_RANGE_LOWER ("bytes=" +:+ pretty resume_from +:+ "-")%string
               (default [] prepared))
  else prepared.

(** [download] without its decorator; the [n]th request is made. *)
Definition download_once (n : nat) (a : dl_args) : DL DownloadResult :=
  let resume_from :=
    if z_truthy (da_resume_from a) && opt_str_truthy (da_compression_alg a) then 0
    else da_resume_from a in
  part ← digest_existing resume_from;
  resp ← from_result (http_get n (if force_http then to_http (da_url a) else da_url a)
                        (request_headers a resume_from));
  _ ← raise_for_status resp;
  let resumed := (0 <? resume_from) && range_honoured resp resume_from in
  let digest := if resumed then part else [] in
  _ ← modify (fun s => s <| dl_dst :=
        Some (if resumed then take (Z.to_nat resume_from) (default [] (dl_dst s)) else []) |>);
  alg ← from_result (check_cache_policy_in_resp (da_compression_alg a) (da_digest a) (hr_headers resp));
  let '(chunks, failure) := body_stream alg resp in
  saved ← save_chunks chunks digest 0 0;
  _ ← raise_opt failure;
  let '(digest, size, traffic) := saved in
  let file_size := size + (if resumed then resume_from else 0) in
  if opt_z_truthy (da_size a) && negb (bool_decide (da_size a = Some file_size)) then
    raise (partial_download "detect partial downloading")
  else if opt_str_truthy (da_digest a) && negb (bool_decide (da_digest a = Some (hexdigest digest)))
  then raise (hash_verification_error "hash verification failed")
  else mret (mkDownloadResult (hr_retries resp) file_size traffic).

(** [_resumable_part] *)
Definition resumable_part (a : dl_args) (file : option bytes) : Z :=
  if negb (opt_z_truthy (da_size a)) || opt_str_truthy (da_compression_alg a) then 0
  else resumable_bytes file (default 0 (da_size a)).

(** [download], decorated by [retry_on_digest_mismatch]. *)
Definition download (a : dl_args) : DL DownloadResult :=
  try_except (download_once 0 a) (fun e =>
    if triggers_cache_retry e then
      f ← gets dl_dst;
      let resume_from := if is_partial e then resumable_part a f else 0 in
      download_once 1 (a <| da_headers := Some (inject_cache_retry_directory (da_headers a)) |>
                         <| da_resume_from := resume_from |>)
    else raise e).
End Download.

(** ** The pool of downloaders *)

(** The bytes each instance downloaded, and the two maps between instances
    and threads; [INSTANCE_AVAILABLE_ID] is 0, no thread's id. *)
Record dl_pool : Type := mkDlPool {
  dp_instances : list Z;
  dp_idx_thread : list Z;
  dp_thread_idx : gmap Z nat;
  dp_total : Z;
}.

#[export] Instance eta_dl_pool : Eta dl_pool := fun r =>
  mkDlPool (dp_instances r) (dp_idx_thread r) (dp_thread_idx r) (dp_total r).

Definition INSTANCE_AVAILABLE_ID : Z := 0.

(** [DownloaderPool.__init__] *)
Definition new_pool (instance_num : nat) : dl_pool :=
  mkDlPool (replicate instance_num 0) (replicate instance_num INSTANCE_AVAILABLE_ID) ∅ 0.

Inductive pool_error : Type := NoIdleInstance | IndexError.

Definition instance_at (idx : nat) (p : dl_pool) : result pool_error nat :=
  match dp_instances p !! idx with Some _ => Ok idx | None => Raise IndexError end.

Fixpoint first_available (l : list Z) : option nat :=
  match l with
  | [] => None
  | t :: l => if t =? INSTANCE_AVAILABLE_ID then Some 0%nat else S <$> first_available l
  end.

(** [get_instance], called by the thread [tid]. *)
Definition get_instance (tid : Z) (p : dl_pool) : dl_pool * result pool_error nat :=
  match dp_thread_idx p !! tid with
  | Some idx => (p, instance_at idx p)
  | None =>
      match first_available (dp_idx_thread p) with
      | None => (p, Raise NoIdleInstance)
      | Some idx =>
          (p <| dp_idx_thread := <[idx := tid]> (dp_idx_thread p) |>
             <| dp_thread_idx := <[tid := idx]> (dp_thread_idx p) |>, instance_at idx p)
      end
  end.

Definition release_instance (tid : Z) (p : dl_pool) : dl_pool :=
  match dp_thread_idx p !! tid with
  | Some idx =>
      p <| dp_thread_idx := delete tid (dp_thread_idx p) |>
        <| dp_idx_thread := <[idx := INSTANCE_AVAILABLE_ID]> (dp_idx_thread p) |>
  | None => p
  end.

Definition release_all_instances (p : dl_pool) : dl_pool :=
  p <| dp_idx_thread := replicate (List.length (dp_idx_thread p)) INSTANCE_AVAILABLE_ID |>
    <| dp_thread_idx := ∅ |>.

Definition sum_z (l : list Z) : Z := foldr Z.add 0 l.

(** The property [total_downloaded_bytes]. *)
Definition total_downloaded_bytes (p : dl_pool) : dl_pool * Z :=
  let sum := sum_z (dp_instances p) in
  let p := if z_truthy sum then p <| dp_total := sum |> else p in
  (p, dp_total p).

Definition pool_shutdown (p : dl_pool) : dl_pool :=
  (fst (total_downloaded_bytes p)) <| dp_instances := [] |>.

(** [DownloadPoolWatchdogFuncContext] *)
Record watchdog_ctx : Type := mkWatchdogCtx {
  wd_downloaded_bytes : Z;
  wd_previous_active_timestamp : Z;
}.

(** [downloading_watchdog], given the total of the pool: [None] is
    [DownloadInactiveTimeout]. *)
Definition downloading_watchdog (max_idle_timeout now downloaded : Z) (ctx : watchdog_ctx) :
    option watchdog_ctx :=
  if wd_downloaded_bytes ctx <? downloaded then Some (mkWatchdogCtx downloaded now)
  else if max_idle_timeout <? now - wd_previous_active_timestamp ctx then None
  else Some ctx.

(** ** Lemmas on the digest of the part *)

Lemma hash_existing_loop_spec fuel chunk remaining rest digest :
  (0 < chunk)%nat -> (remaining <= fuel)%nat ->
  hash_existing_loop fuel chunk remaining rest digest =
  if (remaining <=? List.length rest)%nat then Some (digest ++ take remaining rest) else None.
Proof.
  intros Hc. revert remaining rest digest.
  induction fuel as [|fuel IH]; intros remaining rest digest Hf.
  { destruct remaining; [|lia]. simpl. by rewrite take_0, app_nil_r. }
  destruct remaining as [|r]; [by simpl; rewrite take_0, app_nil_r|].
  cbn [hash_existing_loop]. set (k := Nat.min chunk (S r)).
  assert (Hk : (0 < k <= S r)%nat) by (unfold k; lia).
  destruct (take k rest) as [|x c] eqn:Et.
  - destruct rest as [|y rest]; [done|]. destruct k; [lia|done].
  - rewrite <- Et. assert (Hl : List.length (take k rest) = Nat.min k (List.length rest))
      by apply length_take.
    assert (Hp : (0 < List.length (take k rest))%nat) by (rewrite Et; simpl; lia).
    rewrite IH by lia. rewrite length_drop.
    destruct (Nat.leb_spec (S r - List.length (take k rest)) (List.length rest - List.length (take k rest)));
      destruct (Nat.leb_spec (S r) (List.length rest)); try lia; [|done].
    f_equal. rewrite <- app_assoc. f_equal.
    replace (List.length (take k rest)) with k by lia.
    rewrite take_drop_commute. replace (k + (S r - k))%nat with (S r) by lia.
    rewrite <- (take_drop k (take (S r) rest)) at 2. by rewrite take_take, Nat.min_l by lia.
Qed.

Lemma hash_existing_spec file up_to chunk :
  (0 < chunk)%nat ->
  hash_existing file up_to chunk =
  if (up_to <=? List.length file)%nat then Some (take up_to file) else None.
Proof. intros Hc. unfold hash_existing. by rewrite hash_existing_loop_spec. Qed.

(** ** What is on disk after a download *)

Section DownloadLemmas.
Context (hexdigest : bytes -> string) (chunk_size : nat) (proxies force_http : bool).
Context (http_get : nat -> string -> option (pydict string) -> result pyexn http_response).
Context (decompress : http_response -> list (bytes * Z) * option zstd_failure).
Context (Hchunk : (0 < chunk_size)%nat).

(** The bytes the loop over the chunks saves. *)
Definition saved_bytes (chunks : list (bytes * Z)) : bytes := List.concat (map fst chunks).

Lemma save_chunks_spec chunks digest size traffic f n :
  exists n' t,
    save_chunks chunks digest size traffic (mkDlState (Some f) n) =
      (mkDlState (Some (f ++ saved_bytes chunks)) n',
       Ok (digest ++ saved_bytes chunks, size + Z.of_nat (List.length (saved_bytes chunks)), t)).
Proof.
  revert digest size traffic f n.
  induction chunks as [|[c tr] chunks IH]; intros digest size traffic f n.
  - exists n, traffic. unfold saved_bytes. simpl. by rewrite !app_nil_r, Z.add_0_r.
  - simpl. unfold mbind, pym_bind, modify, write_chunk. simpl.
    destruct (IH (digest ++ c) (size + Z.of_nat (List.length c)) (traffic + tr) (f ++ c) (n + tr))
      as (n' & t' & H).
    unfold eta_dl_state in *. simpl in *. exists n', t'. unfold saved_bytes in *. simpl.
    rewrite length_app, Nat2Z.inj_add, Z.add_assoc, !(app_assoc _ c). exact H.
Qed.

Lemma digest_existing_ok k s s' part :
  digest_existing chunk_size k s = (s', Ok part) ->
  s' = s /\ (0 < k -> exists f, dl_dst s = Some f /\ (Z.to_nat k <= List.length f)%nat /\
    part = take (Z.to_nat k) f).
Proof.
  unfold digest_existing. destruct (z_truthy k) eqn:Ek.
  - unfold mbind, pym_bind, gets. destruct (dl_dst s) as [f|] eqn:Ef; [|done].
    rewrite hash_existing_spec by done. destruct (Nat.leb_spec (Z.to_nat k) (List.length f)); [|done].
    intros [= <- <-]. split; [done|]. intros _. by exists f.
  - intros [= <- <-]. split; [done|]. unfold z_truthy in Ek.
    apply negb_false_iff, Z.eqb_eq in Ek. lia.
Qed.

(** A request that returns: the file is what the digest was computed over,
    and the checks passed. *)
Lemma download_once_ok n a s s' r :
  download_once hexdigest chunk_size proxies force_http http_get decompress n a s = (s', Ok r) ->
  exists f, dl_dst s' = Some f /\ dr_download_size r = Z.of_nat (List.length f) /\
    (opt_z_truthy (da_size a) = true -> da_size a = Some (Z.of_nat (List.length f))) /\
    (opt_str_truthy (da_digest a) = true -> da_digest a = Some (hexdigest f)).
Proof.
  unfold download_once. set (k := if z_truthy (da_resume_from a) && _ then 0 else da_resume_from a).
  intros H. apply pym_bind_ok in H as (s1 & part & Ed & H).
  apply digest_existing_ok in Ed as [-> Hpart].
  apply pym_bind_ok in H as (s1 & resp & Eg & H). injection Eg as <- _.
  apply pym_bind_ok in H as (s1 & [] & Er & H).
  assert (s1 = s) as -> by (unfold raise_for_status in Er; destruct (_ && _) in Er; by inversion Er).
  set (resumed := (0 <? k) && range_honoured resp k) in H. set (d := if resumed then part else []) in H.
  apply pym_bind_ok in H as (s1 & [] & Em & H).
  assert (Hs1 : dl_dst s1 = Some d /\ Z.of_nat (List.length d) = (if resumed then k else 0)).
  { injection Em as <-. unfold d, resumed. simpl.
    destruct (Z.ltb_spec 0 k) as [Hk|]; simpl; [|done].
    destruct (range_honoured resp k); [|done].
    destruct (Hpart Hk) as (f & -> & Hle & ->). simpl. split; [done|]. rewrite length_take. lia. }
  clear Em Er Hpart. destruct Hs1 as [Hd Hlen]. destruct s1 as [dst cnt]. simpl in Hd. subst dst.
  apply pym_bind_ok in H as (s1 & alg & Ea & H). injection Ea as <- _.
  destruct (body_stream decompress alg resp) as [chunks failure].
  apply pym_bind_ok in H as (s1 & saved & Es & H).
  destruct (save_chunks_spec chunks d 0 0 d cnt) as (m & tr & Hs). rewrite Hs in Es.
  injection Es as <- <-.
  apply pym_bind_ok in H as (s1 & [] & Ef & H). destruct failure as [e|]; [done|]. injection Ef as <-.
  assert (Hsz : 0 + Z.of_nat (List.length (saved_bytes chunks)) + (if resumed then k else 0) =
                Z.of_nat (List.length (d ++ saved_bytes chunks))) by (rewrite length_app; lia).
  rewrite Hsz in H. exists (d ++ saved_bytes chunks). revert H.
  destruct (opt_z_truthy (da_size a)) eqn:Ez, (opt_str_truthy (da_digest a)) eqn:Eh; cbn [andb];
    repeat case_bool_decide; cbn [negb]; try done; intros [= <- <-]; done.
Qed.
End DownloadLemmas.

(** ** Ranges: what the downloader asks for and what an otaproxy answers *)

Lemma parse_digits_dec acc s t :
  str_forallb is_digit s = true ->
  match t with String a _ => is_digit a = false | EmptyString => True end ->
  parse_digits acc (s +:+ t)%string = (dec_value acc s, t).
Proof.
  intros Hs Ht. revert acc. induction s as [|a s IH]; intros acc.
  - destruct t as [|a t]; [done|]. simpl. by rewrite Ht.
  - apply andb_true_iff in Hs as [Ha Hs].
    change ((String a s) +:+ t)%string with (String a (s +:+ t))%string.
    cbn [parse_digits dec_value]. rewrite Ha. by apply IH.
Qed.

Lemma is_digit_not a c : is_digit c = false -> is_digit a = true -> Ascii.eqb a c = false.
Proof. intros Hc Ha. destruct (Ascii.eqb_spec a c) as [->|]; congruence. Qed.

(** The otaproxy reads back the offset of the request. *)
Lemma range_start_request k :
  0 <= k -> range_start ("bytes=" +:+ pretty k +:+ "-")%string = Some k.
Proof.
  intros Hk. destruct (pretty_Z_digits k Hk) as (Hd & Hv & Hne). unfold range_start.
  change (lstrip_by is_space ("bytes=" +:+ pretty k +:+ "-"))%string
    with ("bytes=" +:+ pretty k +:+ "-")%string.
  change (startswith "bytes=" ("bytes=" +:+ pretty k +:+ "-")) with true.
  change (str_drop 6 ("bytes=" +:+ pretty k +:+ "-")) with (pretty k +:+ "-")%string.
  pose proof (parse_digits_dec 0 (pretty k) "-" Hd eq_refl) as Hp. rewrite Hv in Hp.
  destruct (pretty k) as [|a s]; [done|]. cbn [str_forallb] in Hd.
  apply andb_true_iff in Hd as [Ha _].
  change (String a s +:+ "-")%string with (String a (s +:+ "-"))%string in *.
  cbv beta iota. rewrite Ha, Hp. reflexivity.
Qed.

(** The downloader accepts the [Content-Range] of the otaproxy. *)
Lemma range_honoured_content_range resp k size :
  0 <= k -> hr_status_code resp = 206 ->
  dict_get HEADER_CONTENT_RANGE_LOWER (hr_headers resp) = Some (content_range k size) ->
  range_honoured resp k = true.
Proof.
  intros Hk Hs Hh. unfold range_honoured. rewrite Hs, Hh. cbn [negb Z.eqb Pos.eqb default].
  destruct (pretty_Z_digits k Hk) as (Hd & _ & _). unfold content_range.
  set (tail := (pretty (size - 1) +:+ "/" +:+ pretty size)%string).
  change ("bytes " +:+ pretty k +:+ "-" +:+ tail)%string
    with ("bytes" +:+ String " " (pretty k +:+ String "-" tail))%string.
  unfold id. rewrite (py_split1_app " ") by done. cbn [default fst]. unfold id.
  rewrite py_split1_app.
  - cbn [fst]. rewrite py_int_pretty by done. by rewrite Z.eqb_refl.
  - revert Hd. apply str_forallb_impl. intros a Ha. by rewrite is_digit_not.
Qed.

(** ** Properties *)

Section DownloadProperties.
Context (hexdigest : bytes -> string) (chunk_size : nat) (proxies force_http : bool).
Context (http_get : nat -> string -> option (pydict string) -> result pyexn http_response).
Context (decompress : http_response -> list (bytes * Z) * option zstd_failure).

(** Whatever request it was that returned. *)
Lemma download_ok a s s' r :
  (0 < chunk_size)%nat ->
  download hexdigest chunk_size proxies force_http http_get decompress a s = (s', Ok r) ->
  exists n a' s1, da_size a' = da_size a /\ da_digest a' = da_digest a /\
    download_once hexdigest chunk_size proxies force_http http_get decompress n a' s1 = (s', Ok r).
Proof.
  intros Hc. unfold download, try_except.
  destruct (download_once hexdigest chunk_size proxies force_http http_get decompress 0 a s)
    as [s1 [r1|e]] eqn:E1.
  - intros [= <- <-]. by exists 0%nat, a, s.
  - destruct (triggers_cache_retry e); [|done]. intros H.
    apply pym_bind_ok in H as (s2 & f & E2 & H). injection E2 as <- <-. exists 1%nat. eexists _, s1. split_and!; [| |exact H]; done.
Qed.

(** C7. A download that returns left the file that was asked for: whether by
    its first request or by the retry, resumed or from the start, the file at
    the destination has the size that was given and the digest that was
    given, and the size reported is its length. *)
Theorem download_verified a s s' r :
  (0 < chunk_size)%nat ->
  download hexdigest chunk_size proxies force_http http_get decompress a s = (s', Ok r) ->
  exists f, dl_dst s' = Some f /\ dr_download_size r = Z.of_nat (List.length f) /\
    (opt_z_truthy (da_size a) = true -> da_size a = Some (Z.of_nat (List.length f))) /\
    (opt_str_truthy (da_digest a) = true -> da_digest a = Some (hexdigest f)).
Proof.
  intros Hc H. apply download_ok in H as (n & a' & s1 & Hs & Hd & H); [|done].
  apply download_once_ok in H; [|done]. by rewrite <- Hs, <- Hd.
Qed.

(** The cache-control header of an answer, if there is one, names no other
    digest and no compression. *)
Definition policy_agrees (digest : string) (headers : pydict string) : Prop :=
  let policy := parse_header (default EmptyString (dict_get HEADER_LOWERCASE headers)) in
  (truthy (CacheControlHeader.file_sha256 policy) = true -> CacheControlHeader.file_sha256 policy = VStr digest) /\
  truthy (CacheControlHeader.file_compression_alg policy) = false.

(** A server of [f], directly or behind proxies, that answers a ranged request:
    one that honours ranges sends the rest of the file from the offset in the
    header as a 206 with its [Content-Range]; one that does not sends the whole
    file as a 200. *)
Definition answers_range (honours : bool) (n : nat) (url : string) (f : bytes) : Prop :=
  forall headers range start,
    dict_get HEADER_RANGE_LOWER headers = Some range -> range_start range = Some start ->
    0 <= start < Z.of_nat (List.length f) ->
    exists resp, http_get n url (Some headers) = Ok resp /\ hr_failure resp = None /\
      policy_agrees (hexdigest f) (hr_headers resp) /\
      if honours then
        hr_status_code resp = 206 /\ List.concat (hr_chunks resp) = drop (Z.to_nat start) f /\
        dict_get HEADER_CONTENT_RANGE_LOWER (hr_headers resp) = Some (content_range start (Z.of_nat (List.length f)))
      else hr_status_code resp = 200 /\ List.concat (hr_chunks resp) = f.

Lemma policy_agrees_plain f a headers :
  policy_agrees (hexdigest f) headers -> da_digest a = Some (hexdigest f) -> da_compression_alg a = None ->
  check_cache_policy_in_resp (da_compression_alg a) (da_digest a) headers = Ok None.
Proof.
  intros [H1 H2] Hd Ha. unfold check_cache_policy_in_resp. rewrite Hd, Ha. destruct (negb (str_truthy _)); [done|].
  cbv zeta. cbn [opt_value] in *. rewrite H2. cbn [andb]. destruct (truthy (CacheControlHeader.file_sha256 _)) eqn:Et.
  - rewrite (H1 eq_refl), bool_decide_true by done. cbn [negb]. by rewrite andb_false_r.
  - by rewrite andb_false_r.
Qed.

Lemma save_plain_chunks chunks digest size traffic f n :
  save_chunks (map (fun c : bytes => (c, Z.of_nat (List.length c))) chunks) digest size traffic (mkDlState (Some f) n) =
    (mkDlState (Some (f ++ List.concat chunks)) (n + Z.of_nat (List.length (List.concat chunks))),
     Ok (digest ++ List.concat chunks, size + Z.of_nat (List.length (List.concat chunks)),
         traffic + Z.of_nat (List.length (List.concat chunks)))).
Proof.
  revert digest size traffic f n. induction chunks as [|c chunks IH]; intros digest size traffic f n; cbn [map save_chunks List.concat].
  - by rewrite !app_nil_r, !Z.add_0_r.
  - unfold mbind, pym_bind, modify, write_chunk, eta_dl_state. cbn [dl_dst dl_downloaded_bytes upd default].
    rewrite length_app, Nat2Z.inj_add, !Z.add_assoc, !app_assoc. apply IH.
Qed.

(** A request for the rest of a file of which [k] bytes are on disk. *)
Lemma resumed_request_completes honours n a f k cnt :
  (0 < chunk_size)%nat -> 0 < k < Z.of_nat (List.length f) ->
  answers_range honours n (if force_http then to_http (da_url a) else da_url a) f ->
  da_compression_alg a = None -> da_size a = Some (Z.of_nat (List.length f)) ->
  da_digest a = Some (hexdigest f) -> da_resume_from a = k ->
  exists s' r,
    download_once hexdigest chunk_size proxies force_http http_get decompress n a
      (mkDlState (Some (take (Z.to_nat k) f)) cnt) = (s', Ok r) /\ dl_dst s' = Some f /\
    dr_traffic_on_wire r = Z.of_nat (List.length f) - (if honours then k else 0).
Proof.
  intros Hc Hk Hsrv Halg Hsize Hdig Hres. unfold download_once. rewrite Hres, Halg.
  cbn [opt_str_truthy]. rewrite andb_false_r.
  assert (Hkt : z_truthy k = true) by (unfold z_truthy; destruct (Z.eqb_spec k 0); [lia|done]).
  assert (Hlk : List.length (take (Z.to_nat k) f) = Z.to_nat k) by (rewrite length_take; lia).
  unfold mbind at 1, pym_bind at 1, digest_existing. rewrite Hkt.
  unfold mbind at 1, pym_bind at 1, gets. cbn [dl_dst].
  rewrite hash_existing_spec, Hlk, Nat.leb_refl, take_take, Nat.min_id by done.
  unfold mret at 1, pym_ret at 1.
  unfold request_headers at 1. rewrite Hkt.
  match goal with |- context [Some (dict_set HEADER_RANGE_LOWER ?v ?h)] =>
    destruct (Hsrv (dict_set HEADER_RANGE_LOWER v h) v k) as (resp & Hget & Hf & Hpol & Hans);
    [apply dict_get_set_eq|apply range_start_request; lia|lia|] end.
  unfold mbind at 1, pym_bind at 1, from_result at 1. rewrite Hget.
  unfold mbind at 1, pym_bind at 1, raise_for_status.
  replace ((400 <=? hr_status_code resp) && (hr_status_code resp <? 600)) with false by (destruct honours; by destruct Hans as [-> _]).
  unfold mret at 1, pym_ret at 1.
  replace (0 <? k) with true by (symmetry; apply Z.ltb_lt; lia). cbn [andb].
  assert (Hhon : range_honoured resp k = honours).
  { destruct honours; [destruct Hans as (Hs & _ & Hcr); by eapply range_honoured_content_range; [lia|..]|].
    destruct Hans as [Hs _]. unfold range_honoured. by rewrite Hs. }
  rewrite Hhon. unfold mbind at 1, pym_bind at 1, modify at 1. unfold eta_dl_state. cbn [dl_dst dl_downloaded_bytes default].
  rewrite <- Halg. rewrite (policy_agrees_plain f a) by done.
  unfold mbind at 1, pym_bind at 1, from_result at 1. unfold body_stream. cbn [has_decompressor].
  unfold mbind at 1, pym_bind at 1. cbv beta iota zeta.
  match goal with |- context [save_chunks ?c ?d ?z ?t ?s0] =>
    replace s0 with (mkDlState (Some d) cnt)
      by (destruct honours; simpl; unfold id; by rewrite ?take_take, ?Nat.min_id) end.
  rewrite save_plain_chunks, Hf. unfold mbind at 1, pym_bind at 1, raise_opt at 1.
  unfold mret at 1, pym_ret at 1. cbv beta iota zeta. rewrite Hsize, Hdig.
  assert (Hall : (if honours then take (Z.to_nat k) f else []) ++ List.concat (hr_chunks resp) = f).
  { destruct honours; destruct Hans as (_ & Hb); [destruct Hb as [-> _]; apply take_drop|by rewrite Hb]. }
  assert (Hl : Z.of_nat (List.length f) = Z.of_nat (List.length (List.concat (hr_chunks resp))) + (if honours then k else 0)).
  { rewrite <- Hall at 1. rewrite length_app. destruct honours; cbn [List.length]; lia. }
  rewrite !bool_decide_eq_true_2 by (f_equal; first [by rewrite Hall | lia]). rewrite !andb_false_r.
  eexists _, _. split_and!; [reflexivity|simpl; by rewrite Hall|simpl; lia].
Qed.

(** C26. An interrupted download is completed by its retry, from where it
    stopped when the server can: the first request of a plain file ended with
    fewer bytes than the file has, what is on disk is the beginning of it, and
    the server answers the retry without another failure, either with the rest
    from the offset that the request names or, ignoring the range, with the
    whole file, and with no cache-control header that names another digest or
    a compression.  Then the download returns with the whole file on disk, and
    a server that honours the range has sent only the missing bytes. *)
Theorem interrupted_download_resumed honours a s s1 e f k :
  (0 < chunk_size)%nat ->
  download_once hexdigest chunk_size proxies force_http http_get decompress 0 a s = (s1, Raise e) ->
  is_partial e = true -> dl_dst s1 = Some (take k f) -> (0 < k < List.length f)%nat ->
  da_compression_alg a = None -> da_size a = Some (Z.of_nat (List.length f)) ->
  da_digest a = Some (hexdigest f) ->
  answers_range honours 1 (if force_http then to_http (da_url a) else da_url a) f ->
  exists s' r, download hexdigest chunk_size proxies force_http http_get decompress a s = (s', Ok r) /\
    dl_dst s' = Some f /\ dr_download_size r = Z.of_nat (List.length f) /\
    dr_traffic_on_wire r = Z.of_nat (List.length f) - (if honours then Z.of_nat k else 0).
Proof.
  intros Hc H1 He Hd Hk Halg Hsize Hdig Hsrv.
  assert (Hlk : List.length (take k f) = k) by (rewrite length_take; lia).
  unfold download, try_except. rewrite H1. unfold triggers_cache_retry. rewrite He. cbn [orb].
  unfold mbind at 1, pym_bind at 1, gets. rewrite Hd. cbv beta iota zeta.
  unfold resumable_part. rewrite Halg, Hsize. cbn [opt_z_truthy opt_str_truthy default].
  unfold z_truthy. destruct (Z.eqb_spec (Z.of_nat (List.length f)) 0) as [|_]; [lia|]. cbn [negb orb].
  unfold resumable_bytes, id. rewrite Hlk.
  replace ((0 <? Z.of_nat k) && (Z.of_nat k <? Z.of_nat (List.length f))) with true
    by (symmetry; apply andb_true_iff; rewrite !Z.ltb_lt; lia).
  match goal with |- context [download_once _ _ _ _ _ _ 1 ?a' _] =>
    destruct (resumed_request_completes honours 1 a' f (Z.of_nat k) (dl_downloaded_bytes s1)) as (s' & r & H & Hf & Ht);
    [done|lia|exact Hsrv|exact Halg|exact Hsize|exact Hdig|reflexivity|] end.
  rewrite Nat2Z.id in H. destruct s1 as [dst cnt]. simpl in Hd, H. subst dst.
  exists s', r. split_and!; [exact H|exact Hf| |exact Ht].
  destruct (download_once_ok _ _ _ _ _ _ Hc _ _ _ _ _ H) as (f' & Hf' & -> & _). congruence.
Qed.
End DownloadProperties.

(** ** The pool: one instance per thread *)

(** The two maps of the pool are inverse to each other. *)
Record pool_inv (p : dl_pool) : Prop := mkPoolInv {
  pi_maps : forall tid idx, dp_thread_idx p !! tid = Some idx <->
              dp_idx_thread p !! idx = Some tid /\ tid <> INSTANCE_AVAILABLE_ID;
  pi_len : dp_instances p = [] \/ List.length (dp_instances p) = List.length (dp_idx_thread p);
}.

(** What the threads and the main thread do with the pool; a download adds to
    the counter of an instance. *)
Inductive dpool_step : dl_pool -> dl_pool -> Prop :=
| ps_get tid p : tid <> INSTANCE_AVAILABLE_ID -> dpool_step p (fst (get_instance tid p))
| ps_release tid p : dpool_step p (release_instance tid p)
| ps_release_all p : dpool_step p (release_all_instances p)
| ps_download idx n p :
    dpool_step p (p <| dp_instances := alter (Z.add n) idx (dp_instances p) |>)
| ps_total p : dpool_step p (fst (total_downloaded_bytes p))
| ps_shutdown p : dpool_step p (pool_shutdown p).

Lemma first_available_spec l :
  match first_available l with
  | Some i => l !! i = Some INSTANCE_AVAILABLE_ID
  | None => INSTANCE_AVAILABLE_ID ∉ l
  end.
Proof.
  induction l as [|t l IH]; simpl; [set_solver|].
  destruct (Z.eqb_spec t INSTANCE_AVAILABLE_ID) as [->|Hn]; [done|].
  destruct (first_available l); simpl; [done|set_solver].
Qed.

Lemma new_pool_inv n : pool_inv (new_pool n).
Proof.
  split.
  - intros tid idx. simpl. rewrite lookup_empty, lookup_replicate. naive_solver.
  - right. simpl. by rewrite !length_replicate.
Qed.

Lemma get_instance_inv tid p :
  tid <> INSTANCE_AVAILABLE_ID -> pool_inv p -> pool_inv (fst (get_instance tid p)).
Proof.
  intros Ht [Hm Hl]. unfold get_instance. destruct (dp_thread_idx p !! tid) as [i|] eqn:Et; [by split|].
  pose proof (first_available_spec (dp_idx_thread p)) as Hf.
  destruct (first_available (dp_idx_thread p)) as [i|]; [|by split].
  split; simpl; [|by rewrite length_insert].
  intros t j. apply lookup_lt_Some in Hf as Hlt.
  destruct (decide (t = tid)) as [->|Hne].
  - rewrite lookup_insert_eq. split.
    + intros [= <-]. by rewrite list_lookup_insert_eq.
    + intros [Hj _]. destruct (decide (i = j)) as [->|Hij]; [done|].
      rewrite list_lookup_insert_ne in Hj by done.
      assert (dp_thread_idx p !! tid = Some j) by (by apply Hm). congruence.
  - rewrite lookup_insert_ne by done. rewrite Hm.
    destruct (decide (i = j)) as [->|Hij].
    + rewrite list_lookup_insert_eq by done. rewrite Hf. naive_solver.
    + by rewrite list_lookup_insert_ne.
Qed.

Lemma release_instance_inv tid p : pool_inv p -> pool_inv (release_instance tid p).
Proof.
  intros [Hm Hl]. unfold release_instance.
  destruct (dp_thread_idx p !! tid) as [i|] eqn:Et; [|by split].
  apply Hm in Et as [Hi Ht]. apply lookup_lt_Some in Hi as Hlt.
  split; simpl; [|by rewrite length_insert].
  intros t j. destruct (decide (t = tid)) as [->|Hne].
  - rewrite lookup_delete_eq. split; [done|]. intros [Hj _].
    destruct (decide (i = j)) as [->|Hij].
    + rewrite list_lookup_insert_eq in Hj by done. congruence.
    + rewrite list_lookup_insert_ne in Hj by done.
      assert (H1 : dp_thread_idx p !! tid = Some j) by (by apply Hm).
      assert (H2 : dp_thread_idx p !! tid = Some i) by (by apply Hm). congruence.
  - rewrite lookup_delete_ne by done. rewrite Hm.
    destruct (decide (i = j)) as [->|Hij].
    + rewrite list_lookup_insert_eq by done. rewrite Hi. naive_solver.
    + by rewrite list_lookup_insert_ne.
Qed.

Lemma total_inv p : pool_inv p -> pool_inv (fst (total_downloaded_bytes p)).
Proof.
  intros [Hm Hl]. unfold total_downloaded_bytes. by destruct (z_truthy _).
Qed.

Lemma dpool_step_inv p p' : pool_inv p -> dpool_step p p' -> pool_inv p'.
Proof.
  intros Hi Hs. revert Hi. destruct Hs as [tid q Ht|tid q|q|i n q|q|q]; intros Hi.
  - by apply get_instance_inv.
  - by apply release_instance_inv.
  - destruct Hi as [_ Hl]. split; simpl; [|by rewrite length_replicate].
    intros t j. rewrite lookup_empty, lookup_replicate. naive_solver.
  - destruct Hi as [Hm Hl]. split; simpl; [exact Hm|]. rewrite length_alter.
    destruct Hl as [->|Hl]; [by left|by right].
  - by apply total_inv.
  - destruct (total_inv q Hi) as [Hm _]. split; simpl; [exact Hm|by left].
Qed.

Lemma reachable_pool_inv n p : rtc dpool_step (new_pool n) p -> pool_inv p.
Proof.
  intros H. apply rtc_ind_r with (P := pool_inv) in H; [done|apply new_pool_inv|].
  intros q q' _ Hs Hq. by eapply dpool_step_inv.
Qed.

Lemma get_instance_ok tid p p' i :
  get_instance tid p = (p', Ok i) ->
  tid <> INSTANCE_AVAILABLE_ID -> dp_thread_idx p' !! tid = Some i.
Proof.
  unfold get_instance, instance_at. destruct (dp_thread_idx p !! tid) as [j|] eqn:Et.
  - destruct (dp_instances p !! j); [|done]. intros [= <- <-]. done.
  - destruct (first_available (dp_idx_thread p)) as [j|]; [|done].
    destruct (dp_instances p !! j); [|done]. intros [= <- <-] _. simpl. apply lookup_insert_eq.
Qed.

(** Threads do not share a downloader: on every pool that the threads,
    the releases and the shutdown can lead to, two threads that get an
    instance one after the other get the same one exactly when they are the
    same thread; and a thread is told that no instance is idle only when it
    holds none and every instance is held by some other thread. *)
Theorem threads_do_not_share_downloader n p t1 t2 :
  rtc dpool_step (new_pool n) p ->
  t1 <> INSTANCE_AVAILABLE_ID -> t2 <> INSTANCE_AVAILABLE_ID ->
  (forall p1 p2 i j, get_instance t1 p = (p1, Ok i) -> get_instance t2 p1 = (p2, Ok j) ->
     (i = j <-> t1 = t2)) /\
  (snd (get_instance t1 p) = Raise NoIdleInstance ->
     dp_thread_idx p !! t1 = None /\
     forall idx, (idx < List.length (dp_idx_thread p))%nat ->
       exists t, t <> t1 /\ dp_thread_idx p !! t = Some idx).
Proof.
  intros Hr%reachable_pool_inv H1 H2. split.
  - intros p1 p2 i j G1 G2. pose proof (get_instance_ok _ _ _ _ G1 H1) as L1.
    pose proof (get_instance_ok _ _ _ _ G2 H2) as L2. split.
    + intros ->. pose proof (get_instance_inv t1 p H1 Hr) as I1. rewrite G1 in I1. simpl in I1.
      pose proof (get_instance_inv t2 p1 H2 I1) as I2. rewrite G2 in I2. simpl in I2.
      assert (dp_thread_idx p2 !! t1 = Some j).
      { revert G2. unfold get_instance. destruct (dp_thread_idx p1 !! t2) as [k|] eqn:E2.
        - intros [= <- _]. done.
        - destruct (first_available _); [|done]. intros [= <- _]. simpl.
          rewrite lookup_insert_ne; [done|]. intros ->. congruence. }
      apply (pi_maps _ I2) in H as [H _]. apply (pi_maps _ I2) in L2 as [L2 _]. congruence.
    + intros <-. revert G2. unfold get_instance. rewrite L1. unfold instance_at.
      destruct (dp_instances p1 !! i); [|done]. by intros [= _ ->].
  - unfold get_instance, instance_at. destruct (dp_thread_idx p !! t1) as [k|] eqn:E1.
    { by destruct (dp_instances p !! k). }
    pose proof (first_available_spec (dp_idx_thread p)) as Hf.
    destruct (first_available (dp_idx_thread p)) as [k|]; [by destruct (dp_instances p !! k)|].
    intros _. split; [done|]. intros idx [t Ht]%lookup_lt_is_Some_2. exists t.
    assert (Hl : dp_thread_idx p !! t = Some idx).
    { apply (pi_maps _ Hr). split; [done|]. intros ->. apply Hf. by eapply list_elem_of_lookup_2. }
    split; [|done]. intros ->. congruence.
Qed.

(** ** Concrete runs *)

Definition example_file : bytes := [x61; x62; x63; x64]%byte.
Definition example_hexdigest (b : bytes) : string := string_of_list_byte b.

(** The first request is cut after two bytes; the second is answered as the
    otaproxy answers a range. *)
Definition example_get (n : nat) (url : string) (headers : option (pydict string)) :
    result pyexn http_response :=
  match n with
  | O => Ok (mkHttpResponse 200 [] 0 [[x61; x62]%byte] None)
  | _ =>
      match (h ← headers; r ← dict_get HEADER_RANGE_LOWER h; start ← range_start r;
             rest_of_file FromExternal start example_file []) with
      | Some a => Ok (mkHttpResponse 206 (an_headers a) 0 [an_body a] None)
      | None => Ok (mkHttpResponse 200 [] 0 [example_file] None)
      end
  end.

Definition example_args : dl_args :=
  mkDlArgs "http://ecu/abcd" (Some 4) (Some "abcd"%string) None None 0.

Lemma example_answers_range url : answers_range example_hexdigest example_get true 1 url example_file.
Proof.
  intros headers range start Hh Hs Hb. unfold example_get. simpl. rewrite Hh. simpl. rewrite Hs. simpl.
  destruct (rest_of_file FromExternal start example_file []) as [a|] eqn:Ea.
  - eexists. split; [reflexivity|]. unfold rest_of_file in Ea. destruct (_ && _); [|done]. injection Ea as <-.
    simpl. split_and!; try done. apply app_nil_r.
  - unfold rest_of_file in Ea. destruct (_ && _) eqn:E; [done|].
    exfalso. apply andb_false_iff in E as [E%Z.leb_gt|E%Z.ltb_ge]; simpl in *; lia.
Qed.

Lemma download_verified_witness :
  exists s' r, download example_hexdigest 1 false false example_get (fun _ => ([], None))
      example_args (mkDlState None 0) = (s', Ok r) /\ dl_dst s' = Some example_file /\
    exists f, dl_dst s' = Some f /\ Some "abcd"%string = Some (example_hexdigest f).
Proof.
  destruct (download example_hexdigest 1 false false example_get (fun _ => ([], None))
              example_args (mkDlState None 0)) as [s' [r|e]] eqn:E; [|vm_compute in E; discriminate].
  exists s', r. split; [reflexivity|].
  destruct (download_verified example_hexdigest 1 false false example_get (fun _ => ([], None))
              example_args (mkDlState None 0) s' r ltac:(lia) E) as (f & Hf & _ & _ & Hd).
  split; [vm_compute in E; injection E as <- _; reflexivity|].
  exists f. split; [exact Hf|exact (Hd eq_refl)].
Defined.

Lemma interrupted_download_resumed_witness :
  exists s' r, download example_hexdigest 1 false false example_get (fun _ => ([], None))
      example_args (mkDlState None 0) = (s', Ok r) /\
    dl_dst s' = Some example_file /\ dr_download_size r = 4 /\ dr_traffic_on_wire r = 4 - 2.
Proof.
  exact (interrupted_download_resumed example_hexdigest 1 false false example_get (fun _ => ([], None))
           true example_args (mkDlState None 0) _ _ example_file 2 ltac:(lia) eq_refl eq_refl eq_refl
           ltac:(simpl; lia) eq_refl eq_refl eq_refl (example_answers_range _)).
Defined.

Lemma threads_do_not_share_downloader_witness :
  snd (get_instance 7 (fst (get_instance 5 (new_pool 1)))) = Raise NoIdleInstance /\
  dp_thread_idx (fst (get_instance 5 (new_pool 1))) !! 7 = None.
Proof.
  split; [reflexivity|].
  refine (proj1 (proj2 (threads_do_not_share_downloader 1 (fst (get_instance 5 (new_pool 1))) 7 5
                          _ _ _) eq_refl)).
  - apply rtc_once. by apply ps_get.
  - done.
  - done.
Defined.
