(* ===== verification/CertStore.v ===== *)
(** * The stores of CA certificates

    Models [src/src/ota_metadata/utils/cert_store.py]: the CA chains loaded
    from the certificate directory and the verification of a certificate
    against them, and the map of CA stores of the v1 images.  The signature
    check of [cryptography] and the [CACertStore] of [ota_image_libs] are
    parameters; a certificate is its subject, its issuer and its period. *)

From stdpp Require Import base gmap strings list option sets.
From Stdlib Require Import ZArith String Ascii Lia.
From S2P Require Import Prelude Errors.

Record Certificate : Type := mkCertificate {
  crt_subject : string;
  crt_issuer : string;
  crt_not_valid_before : Z;
  crt_not_valid_after : Z;
  crt_serial : Z;
}.

#[export] Instance Certificate_eq_dec : EqDecision Certificate.
Proof. solve_decision. Defined.

Definition self_issued (c : Certificate) : bool := String.eqb (crt_issuer c) (crt_subject c).

(** [CAChain]: a dict by subject, with the prefix of the files. *)
Record CAChain : Type := mkCAChain {
  chain_prefix : string;
  chain_certs : pydict Certificate;
}.

#[export] Instance eta_CAChain : Eta CAChain := fun r => mkCAChain (chain_prefix r) (chain_certs r).

Definition set_chain_prefix (prefix : string) (ch : CAChain) : CAChain :=
  ch <| chain_prefix := prefix |>.

Definition add_cert (c : Certificate) (ch : CAChain) : CAChain :=
  ch <| chain_certs := dict_set (crt_subject c) c (chain_certs ch) |>.

Definition add_certs (cs : list Certificate) (ch : CAChain) : CAChain :=
  fold_left (fun ch c => add_cert c ch) cs ch.

(** [internal_check]: [false] is the [ValueError]. *)
Definition internal_check (ch : CAChain) : bool :=
  existsb (fun kc => self_issued (snd kc)) (chain_certs ch).

Inductive cert_error : Type :=
| NotWithinPeriod
| UnknownIssuer (issuer : string)      (** the [KeyError] *)
| SignatureInvalid                     (** raised by [verify_directly_issued_by] *)
| NotVerified.

Definition within_period (now : Z) (c : Certificate) : bool :=
  (now <=? crt_not_valid_after c) && (crt_not_valid_before c <=? now).

Section Verify.
(** [verify_directly_issued_by] returns. *)
Context (issued_by : Certificate -> Certificate -> bool).

(** The loop of [CAChain.verify]. *)
Fixpoint chain_walk (ch : CAChain) (rounds : nat) (start : Certificate) : result cert_error unit :=
  match rounds with
  | O => Raise NotVerified
  | S rounds =>
      if self_issued start then Ok tt
      else
        match dict_get (crt_issuer start) (chain_certs ch) with
        | None => Raise (UnknownIssuer (crt_issuer start))
        | Some issuer =>
            if issued_by start issuer then chain_walk ch rounds issuer else Raise SignatureInvalid
        end
  end.

(** [CAChain.verify] *)
Definition chain_verify (now : Z) (ch : CAChain) (c : Certificate) : result cert_error unit :=
  if negb (within_period now c) then Raise NotWithinPeriod
  else chain_walk ch (List.length (chain_certs ch) + 1) c.

(** [CAChainStore.verify]: the first chain that verifies. *)
Fixpoint verify_chains (now : Z) (store : pydict CAChain) (c : Certificate) : option CAChain :=
  match store with
  | [] => None
  | (_, ch) :: store =>
      match chain_verify now ch c with Ok _ => Some ch | Raise _ => verify_chains now store c end
  end.

Definition store_verify (now : Z) (store : pydict CAChain) (c : Certificate) : option CAChain :=
  if negb (within_period now c) then None else verify_chains now store c.
End Verify.

Definition add_chain (ch : CAChain) (store : pydict CAChain) : pydict CAChain :=
  dict_set (chain_prefix ch) ch store.

(** ** Loading *)

(** [\w] and [[\w\-]] of a [str] pattern. *)
Definition is_word (a : ascii) : bool :=
  let n := N_of_ascii a in
  ((48 <=? n) && (n <=? 57) || (65 <=? n) && (n <=? 90) || (97 <=? n) && (n <=? 122) || (n =? 95)
   || (n =? 170) || (n =? 178) || (n =? 179) || (n =? 181) || (n =? 185) || (n =? 186)
   || (188 <=? n) && (n <=? 190) || (192 <=? n) && (n <=? 214) || (216 <=? n) && (n <=? 246)
   || (248 <=? n))%N.
Definition is_name_char (a : ascii) : bool := is_word a || Ascii.eqb a "-".

(** The longest prefix of characters that satisfy [p], and what follows. *)
Fixpoint str_span (p : ascii -> bool) (s : string) : string * string :=
  match s with
  | String a s' => if p a then let '(k, r) := str_span p s' in (String a k, r) else (EmptyString, s)
  | EmptyString => (EmptyString, EmptyString)
  end.

(** [CERT_NAME_PA.match]: the group [chain]. *)
Definition cert_name_chain (name : string) : option string :=
  let '(chain, r) := str_span is_name_char name in
  match r with
  | String "."%char r =>
      let '(kind, r) := str_span is_name_char r in
      if str_truthy chain && str_truthy kind && startswith ".pem" r then Some chain else None
  | _ => None
  end.

Definition endswith (p s : string) : bool :=
  (String.length p <=? String.length s)%nat &&
  String.eqb (str_drop (String.length s - String.length p) s) p.

(** The glob [<prefix>.*.pem]. *)
Definition glob_chain (prefix name : string) : bool :=
  startswith (prefix +:+ ".")%string name &&
  endswith ".pem" (str_drop (String.length prefix + 1) name).

(** [sorted] of a set of strings. *)
Fixpoint insert_sorted (s : string) (l : list string) : list string :=
  match l with
  | [] => [s]
  | t :: l' =>
      match String.compare s t with
      | Lt => s :: l
      | Eq => l
      | Gt => t :: insert_sorted s l'
      end
  end.

Definition sorted_set (l : list string) : list string := foldr insert_sorted [] l.

Section Load.
Context {content : Type} (load_pem : content -> option Certificate).

(** The [try] of the loop of [load_ca_cert_chains]; [None]: an exception. *)
Fixpoint load_certs (files : list content) (ch : CAChain) : option CAChain :=
  match files with
  | [] => Some ch
  | f :: files => c ← load_pem f; load_certs files (add_cert c ch)
  end.

Definition load_chain (cert_dir : pydict content) (prefix : string) : option CAChain :=
  let files := List.filter (fun nf => glob_chain prefix (fst nf)) cert_dir in
  ch ← load_certs (map snd files) (set_chain_prefix prefix (mkCAChain EmptyString []));
  if internal_check ch then Some ch else None.

(** The prefixes of the certificates of the directory. *)
Definition chain_prefixes (cert_dir : pydict content) : list string :=
  sorted_set (omap (fun nf => cert_name_chain (fst nf))
                (List.filter (fun nf => endswith ".pem" (fst nf)) cert_dir)).

(** [load_ca_cert_chains]; [None] is [CACertStoreInvalid]. *)
Definition load_ca_cert_chains (cert_dir : pydict content) : option (pydict CAChain) :=
  match chain_prefixes cert_dir with
  | [] => None
  | prefixes =>
      let store := fold_left (fun store p =>
        match load_chain cert_dir p with Some ch => add_chain ch store | None => store end)
        prefixes [] in
      match store with [] => None | _ => Some store end
  end.

(** [CAStoreMap]: the stores of [ota_image_libs] by file name. *)
Context {CACertStore : Type} (store_of : Certificate -> option CACertStore).
Context (ca_store_accepts : CACertStore -> Certificate -> list Certificate -> bool).

Fixpoint ca_store_map_verify (stores : pydict CACertStore) (c : Certificate)
    (interm_cas : option (list Certificate)) : option CACertStore :=
  match stores with
  | [] => None
  | (_, st) :: stores =>
      if ca_store_accepts st c (default [] interm_cas) then Some st
      else ca_store_map_verify stores c interm_cas
  end.

(** [Path.suffix in [".pem", ".crt"]] *)
Definition cert_suffix (name : string) : bool :=
  (4 <? String.length name)%nat && (endswith ".pem" name || endswith ".crt" name).

Definition load_root (stores : pydict CACertStore) (nf : string * content) : pydict CACertStore :=
  if negb (cert_suffix (fst nf)) then stores
  else
    match load_pem (snd nf) with
    | None => stores
    | Some c =>
        if negb (self_issued c) then stores
        else match store_of c with Some st => dict_set (fst nf) st stores | None => stores end
    end.

(** [load_ca_store] *)
Definition load_ca_store (cert_dir : pydict content) : option (pydict CACertStore) :=
  match fold_left load_root cert_dir [] with [] => None | stores => Some stores end.
End Load.

(** ** Properties *)

(** The keys of a chain are the subjects of its certificates. *)
Definition chain_wf (ch : CAChain) : Prop :=
  dict_wf (chain_certs ch) /\
  forall k c, dict_get k (chain_certs ch) = Some c -> crt_subject c = k.

Lemma add_cert_wf c ch : chain_wf ch -> chain_wf (add_cert c ch).
Proof.
  intros [Hw Hk]. split; simpl; [by apply dict_set_wf|].
  intros k c'. rewrite dict_get_set. destruct (String.eqb_spec (crt_subject c) k) as [<-|]; [by intros [= <-]|].
  apply Hk.
Qed.

Section VerifyProperties.
Context (issued_by : Certificate -> Certificate -> bool).

(** [trusted ch n c]: [n] signed links of the chain lead from [c] to a
    self-issued certificate. *)
Inductive trusted (ch : CAChain) : nat -> Certificate -> Prop :=
| trusted_root c : self_issued c = true -> trusted ch 0 c
| trusted_link n c issuer :
    self_issued c = false -> dict_get (crt_issuer c) (chain_certs ch) = Some issuer ->
    issued_by c issuer = true -> trusted ch n issuer -> trusted ch (S n) c.

Lemma chain_walk_sound ch rounds c :
  chain_walk issued_by ch rounds c = Ok tt -> exists n, trusted ch n c.
Proof.
  revert c. induction rounds as [|rounds IH]; intros c; simpl; [done|].
  destruct (self_issued c) eqn:Es; [intros _; exists 0%nat; by constructor|].
  destruct (dict_get _ _) as [i|] eqn:Ei; [|done]. destruct (issued_by c i) eqn:Eb; [|done].
  intros [n Hn]%IH. exists (S n). by econstructor.
Qed.

Lemma chain_walk_complete ch n c rounds :
  trusted ch n c -> (n < rounds)%nat -> chain_walk issued_by ch rounds c = Ok tt.
Proof.
  intros Ht. revert rounds. induction Ht as [c Hs|n c i Hs Hi Hb _ IH]; intros [|rounds] Hl; simpl;
    try lia; rewrite Hs; [done|]. rewrite Hi, Hb. apply IH. lia.
Qed.

(** The number of links is a function of the certificate. *)
Lemma trusted_fun ch n m c : trusted ch n c -> trusted ch m c -> n = m.
Proof.
  intros Hn. revert m. induction Hn as [c Hs|n c i Hs Hi Hb _ IH]; intros m Hm; inversion Hm; subst;
    try congruence. f_equal. apply IH. congruence.
Qed.

(** The issuers on the way: certificates of the chain, all different. *)
Lemma trusted_issuers ch n c :
  trusted ch n c ->
  exists l, List.length l = n /\ NoDup l /\ (forall x, x ∈ l -> x ∈ map snd (chain_certs ch)) /\
    forall x, x ∈ l -> exists m, (m < n)%nat /\ trusted ch m x.
Proof.
  induction 1 as [c Hs|n c i Hs Hi Hb Ht (l & Hl & Hd & Hin & Hlt)].
  { exists []. split_and!; [done|constructor|set_solver|set_solver]. }
  exists (i :: l). split_and!.
  - simpl. lia.
  - constructor; [|done]. intros Hi'. destruct (Hlt i Hi') as (m & Hm & Htm).
    pose proof (trusted_fun _ _ _ _ Ht Htm). lia.
  - intros x [->|Hx]%elem_of_cons; [|auto].
    apply dict_get_In in Hi. apply list_elem_of_fmap. by exists (crt_issuer c, i).
  - intros x [->|Hx]%elem_of_cons; [exists n; split; [lia|done]|].
    destruct (Hlt x Hx) as (m & ? & ?). exists m. split; [lia|done].
Qed.

Lemma trusted_bound ch n c : trusted ch n c -> (n <= List.length (chain_certs ch))%nat.
Proof.
  intros (l & <- & Hd & Hin & _)%trusted_issuers.
  rewrite <- (length_map snd (chain_certs ch)). apply NoDup_incl_length.
  - by apply NoDup_ListNoDup.
  - intros x Hx. apply list_elem_of_In, Hin. by apply list_elem_of_In.
Qed.

(** The rounds of the loop, one more than the chain has certificates, always
    suffice. *)
Lemma chain_verify_spec now ch c :
  chain_verify issued_by now ch c = Ok tt <->
  within_period now c = true /\ exists n, trusted ch n c.
Proof.
  unfold chain_verify. destruct (within_period now c); simpl; [|naive_solver]. split.
  - intros H. split; [done|]. by apply chain_walk_sound in H.
  - intros [_ [n Hn]]. eapply chain_walk_complete; [exact Hn|].
    apply trusted_bound in Hn. lia.
Qed.

Lemma verify_chains_first now store c :
  match verify_chains issued_by now store c with
  | Some ch => exists k, (k, ch) ∈ store /\ chain_verify issued_by now ch c = Ok tt
  | None => forall k ch, (k, ch) ∈ store -> chain_verify issued_by now ch c <> Ok tt
  end.
Proof.
  induction store as [|[k ch] store IH]; simpl; [set_solver|].
  destruct (chain_verify issued_by now ch c) as [[]|e] eqn:E.
  - exists k. split; [left|done].
  - destruct (verify_chains issued_by now store c) as [ch'|].
    + destruct IH as (k' & Hin & Hv). exists k'. split; [by right|done].
    + intros k' ch' [[= -> ->]|Hin]%elem_of_cons; [congruence|by eapply IH].
Qed.

(** [signed_by ch c]: a certificate of the chain issued [c], and signed links
    of the chain lead from there to a root certificate of it. *)
Inductive signed_by (ch : CAChain) : Certificate -> Prop :=
| signed_by_root c root :
    dict_get (crt_issuer c) (chain_certs ch) = Some root -> issued_by c root = true -> self_issued root = true ->
    signed_by ch c
| signed_by_interm c interm :
    dict_get (crt_issuer c) (chain_certs ch) = Some interm -> issued_by c interm = true ->
    self_issued interm = false -> signed_by ch interm -> signed_by ch c.

Lemma signed_by_trusted ch c :
  self_issued c = false -> signed_by ch c <-> exists n, trusted ch n c.
Proof.
  intros Hs. split.
  - intros H. revert Hs. induction H as [c r Hg Hb Hr|c i Hg Hb Hi _ IH]; intros Hs.
    + exists 1%nat. econstructor; [done..|]. by constructor.
    + destruct (IH Hi) as [n Hn]. exists (S n). by econstructor.
  - intros [n Hn]. induction Hn as [c Hc|n c i Hc Hg Hb Hn IH]; [congruence|].
    destruct (self_issued i) eqn:Ei; [by eapply signed_by_root|]. by eapply signed_by_interm; eauto.
Qed.

Lemma verify_chains_spec now store c ch :
  verify_chains issued_by now store c = Some ch <->
  exists before k after, store = before ++ (k, ch) :: after /\ chain_verify issued_by now ch c = Ok tt /\
    forall k' ch', (k', ch') ∈ before -> chain_verify issued_by now ch' c <> Ok tt.
Proof.
  induction store as [|[k0 ch0] store IH]; simpl.
  { split; [done|]. by intros ([|] & k & after & ? & _). }
  destruct (chain_verify issued_by now ch0 c) as [[]|e] eqn:E.
  - split.
    + intros [= <-]. exists [], k0, store. split_and!; [done..|]. by intros k' ch' ?%not_elem_of_nil.
    + intros ([|x before] & k & after & He & Hv & Hb); injection He as <- He; [by subst|].
      destruct (Hb k0 ch0); [left|done].
  - rewrite IH. split.
    + intros (before & k & after & -> & Hv & Hb). exists ((k0, ch0) :: before), k, after.
      split_and!; [done..|]. intros k' ch' [[= -> ->]|Hin]%elem_of_cons; [congruence|by eapply Hb].
    + intros ([|x before] & k & after & He & Hv & Hb); injection He as <- He; [congruence|].
      exists before, k, after. split_and!; [done..|]. intros k' ch' Hin. apply (Hb k'). by right.
Qed.

(** C23. For a certificate that does not name itself as its issuer, the store
    keeps its documented contract: it is verified if and only if it is within
    its validity period and a certificate of an installed chain issued it,
    from which signed links of that chain, however many, lead to a root
    certificate of the chain; the result is the first such chain.  A chain
    whose issuers form a cycle rejects.  (What happens to a self-issued
    certificate is [self_issued_cert_accepted].) *)
Theorem store_verify_spec now store c ch :
  self_issued c = false ->
  store_verify issued_by now store c = Some ch <->
  within_period now c = true /\
  exists before k after, store = before ++ (k, ch) :: after /\ signed_by ch c /\
    forall k' ch', (k', ch') ∈ before -> ~ signed_by ch' c.
Proof.
  intros Hs. unfold store_verify. destruct (within_period now c) eqn:Hp; simpl; [|naive_solver].
  assert (Hv : forall x, chain_verify issued_by now x c = Ok tt <-> signed_by x c)
    by (intros x; rewrite chain_verify_spec, signed_by_trusted by done; naive_solver).
  rewrite verify_chains_spec. setoid_rewrite Hv. naive_solver.
Qed.

(** A certificate that names itself as its issuer is accepted without
    any check against the CA: whatever chains are installed, one of them
    "verifies" a self-issued certificate within its validity period, also
    when the certificate is in no chain and signed by no one in it. *)
Theorem self_issued_cert_accepted now store c :
  store <> [] -> self_issued c = true -> within_period now c = true ->
  exists ch, store_verify issued_by now store c = Some ch /\ exists k, (k, ch) ∈ store.
Proof.
  intros Hne Hs Hp. unfold store_verify. rewrite Hp. simpl.
  pose proof (verify_chains_first now store c) as H.
  destruct (verify_chains issued_by now store c) as [ch|].
  - destruct H as (k & Hin & _). eauto.
  - destruct store as [|[k ch] store]; [done|]. exfalso. apply (H k ch); [left|].
    apply chain_verify_spec. split; [done|]. exists 0%nat. by constructor.
Qed.

(** What acceptance means for every other certificate: a certificate of one
    of the installed chains signed it, and the chain leads to a root in it. *)
Lemma store_verify_sound now store c ch :
  store_verify issued_by now store c = Some ch -> self_issued c = false ->
  within_period now c = true /\ (exists k, (k, ch) ∈ store) /\
  exists issuer root n, issued_by c issuer = true /\
    dict_get (crt_issuer c) (chain_certs ch) = Some issuer /\ trusted ch n issuer /\
    self_issued root = true /\ exists k, (k, root) ∈ chain_certs ch.
Proof.
  unfold store_verify. destruct (within_period now c); [|done]. simpl. intros Hv Hs.
  pose proof (verify_chains_first now store c) as H. rewrite Hv in H.
  destruct H as (k & Hin & [_ [n Hn]]%chain_verify_spec). split_and!; [done|by exists k|].
  inversion Hn as [|m c' i Hs' Hi Hb Ht]; subst; [congruence|].
  assert (Hroot : exists root k, self_issued root = true /\ (k, root) ∈ chain_certs ch).
  { apply dict_get_In in Hi. clear - Ht Hi. revert Hi. generalize (crt_issuer c) as key.
    induction Ht as [r Hr|n r i Hr Hi' Hb' _ IH]; intros key Hin; [by exists r, key|].
    apply (IH (crt_issuer r)). by apply dict_get_In in Hi'. }
  destruct Hroot as (root & k' & Hr & Hrin). exists i, root, m. eauto 10.
Qed.
End VerifyProperties.

(** ** Loading *)

Section LoadProperties.
Context {content : Type} (load_pem : content -> option Certificate).

Definition from_dir (cert_dir : pydict content) (prefix : string) (c : Certificate) : Prop :=
  exists name f, (name, f) ∈ cert_dir /\ glob_chain prefix name = true /\ load_pem f = Some c.

Lemma load_certs_spec (P : Certificate -> Prop) files ch ch' :
  load_certs load_pem files ch = Some ch' -> chain_wf ch ->
  (forall k c, (k, c) ∈ chain_certs ch -> P c) ->
  (forall f c, f ∈ files -> load_pem f = Some c -> P c) ->
  chain_wf ch' /\ chain_prefix ch' = chain_prefix ch /\ forall k c, (k, c) ∈ chain_certs ch' -> P c.
Proof.
  revert ch. induction files as [|f files IH]; intros ch; simpl.
  - by intros [= <-].
  - destruct (load_pem f) as [c|] eqn:Ef; [|done]. simpl. intros H Hw Hp Hf.
    apply IH in H as (H1 & H2 & H3); [by rewrite H2|by apply add_cert_wf| |].
    + intros k c' Hin. simpl in Hin. apply dict_In_get in Hin.
      * rewrite dict_get_set in Hin. destruct (String.eqb (crt_subject c) k).
        { injection Hin as <-. apply (Hf f); [left|done]. }
        apply dict_get_In in Hin. by eapply Hp.
      * apply dict_set_wf, Hw.
    + intros f' c' Hin. apply Hf. by right.
Qed.

(** A chain that is loaded is complete in itself. *)
Definition chain_ok (cert_dir : pydict content) (prefix : string) (ch : CAChain) : Prop :=
  chain_wf ch /\ chain_prefix ch = prefix /\
  (exists k root, (k, root) ∈ chain_certs ch /\ self_issued root = true) /\
  forall k c, (k, c) ∈ chain_certs ch -> from_dir cert_dir prefix c.

Lemma load_chain_ok cert_dir prefix ch :
  load_chain load_pem cert_dir prefix = Some ch -> chain_ok cert_dir prefix ch.
Proof.
  unfold load_chain. destruct (load_certs _ _ _) as [ch'|] eqn:El; [|done]. simpl.
  destruct (internal_check ch') eqn:Ec; [|done]. intros [= ->].
  apply load_certs_spec with (P := from_dir cert_dir prefix) in El as (Hw & Hp & Hf).
  - split_and!; [done..| |done]. unfold internal_check in Ec. apply existsb_exists in Ec as ([k r] & Hin & Hr).
    exists k, r. split; [by apply list_elem_of_In|done].
  - split; [constructor|by intros k c].
  - intros k c Hin. simpl in Hin. by apply not_elem_of_nil in Hin.
  - intros f c Hin Hl. apply list_elem_of_fmap in Hin as ([n f'] & -> & Hin).
    apply list_elem_of_In, filter_In in Hin as [Hin Hg]. exists n, f'.
    split_and!; [by apply list_elem_of_In|done|done].
Qed.

(** The CA chains that are loaded: loading returns a store only with at
    least one chain in it, and each chain is stored under its own prefix, is
    indexed by the subjects of its certificates, has a root certificate, and
    holds only certificates of files of the directory named after it. *)
Theorem loaded_chains_ok cert_dir store :
  load_ca_cert_chains load_pem cert_dir = Some store ->
  store <> [] /\ dict_wf store /\
  forall p ch, dict_get p store = Some ch -> chain_ok cert_dir p ch.
Proof.
  unfold load_ca_cert_chains. destruct (chain_prefixes cert_dir) as [|p0 ps]; [done|].
  set (step := fun store p => match load_chain load_pem cert_dir p with
                              | Some ch => add_chain ch store | None => store end).
  assert (Hinv : forall ps st, dict_wf st /\ (forall p ch, dict_get p st = Some ch -> chain_ok cert_dir p ch) ->
            dict_wf (fold_left step ps st) /\
            forall p ch, dict_get p (fold_left step ps st) = Some ch -> chain_ok cert_dir p ch).
  { clear. intros ps. induction ps as [|p ps IH]; intros st Hst; [done|]. simpl. apply IH.
    unfold step. destruct (load_chain load_pem cert_dir p) as [ch|] eqn:El; [|done].
    apply load_chain_ok in El as Hok. destruct Hst as [Hw Hst]. unfold add_chain. split; [by apply dict_set_wf|].
    intros q ch'. rewrite dict_get_set. destruct (String.eqb_spec (chain_prefix ch) q) as [<-|]; [|apply Hst].
    intros [= <-]. destruct Hok as (? & Hp & ?). by rewrite Hp. }
  destruct (Hinv (p0 :: ps) []) as [Hw Hs]; [split; [constructor|by intros ? ?]|].
  fold step. destruct (fold_left step (p0 :: ps) []) as [|x st]; [done|]. by intros [= <-].
Qed.
End LoadProperties.

(** ** Concrete stores *)

Definition example_root : Certificate := mkCertificate "root" "root" 0 100 1.
Definition example_interm : Certificate := mkCertificate "interm" "root" 0 100 2.
Definition example_leaf : Certificate := mkCertificate "sign" "interm" 0 100 3.
Definition example_forged : Certificate := mkCertificate "forged" "forged" 0 100 4.

(** The signatures of the example: each issuer signed what names it. *)
Definition example_issued (c i : Certificate) : bool := (crt_serial c =? crt_serial i + 1).

Definition example_dir : pydict Certificate :=
  [("dev.root.pem", example_root); ("dev.intermediate.pem", example_interm); ("readme", example_leaf)]%string.

Definition example_store : pydict CAChain := default [] (load_ca_cert_chains Some example_dir).

Lemma loaded_chains_ok_witness :
  exists ch, dict_get "dev" example_store = Some ch /\ chain_ok Some example_dir "dev" ch /\
    store_verify example_issued 50 example_store example_leaf = Some ch.
Proof.
  destruct (loaded_chains_ok Some example_dir example_store eq_refl) as (_ & _ & H).
  eexists. split; [vm_compute; reflexivity|]. split; [by apply H|vm_compute; reflexivity].
Defined.

Lemma self_issued_cert_accepted_witness :
  (forall k ch k' c, (k, ch) ∈ example_store -> (k', c) ∈ chain_certs ch ->
     example_issued example_forged c = false) /\
  exists ch, store_verify example_issued 50 example_store example_forged = Some ch.
Proof.
  split.
  { intros k ch k' c Hk Hc. vm_compute in Hk.
    apply list_elem_of_singleton in Hk as [= -> ->]. simpl in Hc.
    apply elem_of_cons in Hc as [[= -> ->]|Hc]; [done|].
    by apply list_elem_of_singleton in Hc as [= -> ->]. }
  destruct (self_issued_cert_accepted example_issued 50 example_store example_forged
    ltac:(discriminate) eq_refl eq_refl) as (ch & H & _). exists ch. exact H.
Defined.

Lemma store_verify_spec_witness :
  exists ch, store_verify example_issued 50 example_store example_leaf = Some ch /\ signed_by example_issued ch example_leaf.
Proof.
  eexists. split; [vm_compute; reflexivity|].
  destruct (proj1 (store_verify_spec example_issued 50 example_store example_leaf _ eq_refl) eq_refl)
    as (_ & before & k & after & He & Hs & _). exact Hs.
Defined.
