(* ===== verification/LegacyCSV.v ===== *)
(** * The CSV metafiles of a legacy OTA image

    Models [src/src/ota_metadata/legacy2/csv_parser.py] and the resource table
    of [rs_table.py]: the lines of [dirs.txt], [symlinks.txt], [regulars.txt]
    and [persistents.txt], and the loops that fill the file table and the
    resource table in batches.  The patterns are written out as the matches
    Python's engine finds: greedy, with the backtracking they need.  A table
    is the list of its rows. *)

From stdpp Require Import base gmap strings list option sets.
From Stdlib Require Import ZArith String Ascii Lia.
From S2P Require Import Prelude Errors CertStore.

Inductive csv_error : Type :=
| AssertionError (line : string)       (** the pattern does not match *)
| ValueError.                          (** [int(_, 8)] or [bytes.fromhex] *)

Definition S_IFDIR : Z := 16384.
Definition S_IFLNK : Z := 40960.
Definition S_IFREG : Z := 32768.

Definition ENTRIES_PROCESS_BATCH_SIZE : Z := 8192.

(** ** Rows *)

Record DigestSize : Type := mkDigestSize { ds_digest : list N; ds_size : Z }.
#[export] Instance DigestSize_eq_dec : EqDecision DigestSize.
Proof. solve_decision. Defined.

Record inode_row : Type := mkInode {
  in_id : Z;
  in_mode : Z;
  in_uid : Z;
  in_gid : Z;
  in_links_count : option Z;
}.
#[export] Instance eta_inode_row : Eta inode_row := fun r =>
  mkInode (in_id r) (in_mode r) (in_uid r) (in_gid r) (in_links_count r).

Record dir_row : Type := mkDirRow { dir_path : string; dir_inode : Z }.
Record nonregular_row : Type := mkNonRegular { nr_path : string; nr_meta : string; nr_inode : Z }.
Record regular_row : Type := mkRegular { rg_path : string; rg_inode : Z; rg_resource : Z }.
Record ResourceTable : Type := mkResource {
  rst_digest : list N;
  rst_path : option string;
  rst_original_size : Z;
  rst_compression_alg : option string;
}.

(** ** Lines *)

(** [s.replace(r"'\''", "'")] *)
Fixpoint de_escape (s : string) : string :=
  match s with
  | String "'" (String "\" (String "'" (String "'" r))) => String "'" (de_escape r)
  | String a r => String a (de_escape r)
  | EmptyString => EmptyString
  end.

(** [s[1:-1]] *)
Definition str_inner (s : string) : string := str_take (String.length s - 2) (str_drop 1 s).

Definition not_newline (a : ascii) : bool := negb (Ascii.eqb a "010").

(** [(\d+),] *)
Definition num_field (s : string) : option (string * string) :=
  let '(d, r) := str_span is_digit s in
  match r with
  | String ","%char r => if str_truthy d then Some (d, r) else None
  | _ => None
  end.

(** [(?P<mode>\d+),(?P<uid>\d+),(?P<gid>\d+),] *)
Definition head_fields (s : string) : option (string * string * string * string) :=
  '(mode, s) ← num_field s; '(uid, s) ← num_field s; '(gid, s) ← num_field s;
  Some (mode, uid, gid, s).

(** [int(s, 8)] of a string of digits. *)
Fixpoint int8_body (acc : Z) (s : string) : option Z :=
  match s with
  | EmptyString => Some acc
  | String a s' =>
      let d := Z.of_N (N_of_ascii a) - 48 in
      if d <? 8 then int8_body (8 * acc + d) s' else None
  end.

Definition int8 (s : string) : result csv_error Z :=
  match int8_body 0 s with Some z => Ok z | None => Raise ValueError end.

(** [int(s)] of a string of digits. *)
Definition int10 (s : string) : Z := dec_value 0 s.

Definition or_assert {A} (line : string) (m : option A) : result csv_error A :=
  match m with Some a => Ok a | None => Raise (AssertionError line) end.

Definition rbind {E A B} (m : result E A) (k : A -> result E B) : result E B :=
  match m with Ok a => k a | Raise e => Raise e end.
Local Notation "'let?' x ':=' m 'in' k" := (rbind m (fun x => k))
  (at level 10, x pattern, m at level 100, k at level 200).

(** [parse_dirs_csv_line] *)
Definition parse_dirs_csv_line (line : string) (inode : Z) : result csv_error (dir_row * inode_row) :=
  let? (mode, uid, gid, path) := or_assert line (head_fields (strip line)) in
  let? mode := int8 mode in
  Ok (mkDirRow (de_escape (str_inner (fst (str_span not_newline path)))) inode,
      mkInode inode (Z.lor mode S_IFDIR) (int10 uid) (int10 gid) None).

(** [.*'], up to the last quote: what is before and what is after it. *)
Fixpoint upto_last_quote (s : string) : option (string * string) :=
  match s with
  | EmptyString => None
  | String a s' =>
      match upto_last_quote s' with
      | Some (t, r) => Some (String a t, r)
      | None => if Ascii.eqb a "'" then Some (EmptyString, s') else None
      end
  end.

(** [.+'] *)
Definition nonempty_upto_last_quote (s : string) : option (string * string) :=
  match s with
  | EmptyString => None
  | String a s' => '(t, r) ← upto_last_quote s'; Some (String a t, r)
  end.

(** [(?P<link>.+)((?<!\')',')(?P<target>.+)'], the separator as late as
    possible; [prev]: the character before. *)
Fixpoint symlink_split (prev : option ascii) (s : string) : option (string * string) :=
  match s with
  | EmptyString => None
  | String a s' =>
      match symlink_split (Some a) s' with
      | Some (link, target) => Some (String a link, target)
      | None =>
          match prev with
          | Some p =>
              if negb (Ascii.eqb p "'") && startswith "','" s then
                '(target, _) ← nonempty_upto_last_quote (str_drop 3 s); Some (EmptyString, target)
              else None
          | None => None
          end
      end
  end.

Definition symlink_match (line : string) : option (string * string * string * string * string) :=
  '(mode, uid, gid, r) ← head_fields line;
  match r with
  | String "'"%char r =>
      '(link, target) ← symlink_split None (fst (str_span not_newline r));
      Some (mode, uid, gid, link, target)
  | _ => None
  end.

(** [parse_symlinks_csv_line]; the target is kept as text, its UTF-8 encoding
    is the [meta] of the row. *)
Definition parse_symlinks_csv_line (line : string) (inode : Z) :
    result csv_error (nonregular_row * inode_row) :=
  let? (mode, uid, gid, link, target) := or_assert line (symlink_match (strip line)) in
  let? mode := int8 mode in
  Ok (mkNonRegular (de_escape link) (de_escape target) inode,
      mkInode inode (Z.lor mode S_IFLNK) (int10 uid) (int10 gid) None).

(** The groups of [REGINF_CSV_PATTERN]. *)
Record reg_match : Type := mkRegMatch {
  rm_mode : string;
  rm_uid : string;
  rm_gid : string;
  rm_nlink : string;
  rm_hash : string;
  rm_path : string;
  rm_size : option string;
  rm_inode : option string;
  rm_compressed_alg : option string;
}.

(** [(,(group)?<rest>)?]: the group, and what follows when it was entered. *)
Definition opt_group (p : ascii -> bool) (s : option string) : option string * option string :=
  match s with
  | Some (String ","%char r) =>
      let '(d, r) := str_span p r in (if str_truthy d then Some d else None, Some r)
  | _ => (None, None)
  end.

Definition reginf_match (line : string) : option reg_match :=
  '(mode, uid, gid, r) ← head_fields line;
  '(nlink, r) ← num_field r;
  let '(hash, r) := str_span is_word r in
  if str_truthy hash && startswith ",'" r then
    let '(segment, _) := str_span not_newline (str_drop 2 r) in
    '(path, r) ← nonempty_upto_last_quote segment;
    let '(size, r) := opt_group is_digit (Some r) in
    let '(inode, r) := opt_group is_digit r in
    let '(alg, _) := opt_group is_word r in
    Some (mkRegMatch mode uid gid nlink hash path size inode alg)
  else None.

Definition parse_regular_csv_line (line : string) : result csv_error reg_match :=
  or_assert line (reginf_match (strip line)).

Definition hex_value (a : ascii) : option N :=
  let n := N_of_ascii a in
  if ((48 <=? n) && (n <=? 57))%N then Some (n - 48)%N
  else if ((97 <=? n) && (n <=? 102))%N then Some (n - 87)%N
  else if ((65 <=? n) && (n <=? 70))%N then Some (n - 55)%N
  else None.

Definition is_ascii_space (a : ascii) : bool :=
  let n := N_of_ascii a in ((9 <=? n) && (n <=? 13) || (n =? 32))%N.

(** [bytes.fromhex]; white space between bytes is skipped. *)
Fixpoint from_hex (s : string) : option (list N) :=
  match s with
  | EmptyString => Some []
  | String a s1 =>
      if is_ascii_space a then from_hex s1
      else
        match s1 with
        | String b s' => x ← hex_value a; y ← hex_value b; r ← from_hex s'; Some ((16 * x + y)%N :: r)
        | EmptyString => None
        end
  end.

(** [bytes.hex] *)
Fixpoint hex_of (l : list N) : string :=
  match l with
  | [] => EmptyString
  | n :: l => String (hex_digit (n / 16)) (String (hex_digit (n mod 16)) (hex_of l))
  end.

Definition fromhex (s : string) : result csv_error (list N) :=
  match from_hex s with Some b => Ok b | None => Raise ValueError end.

Lemma hex_value_digit n : (n < 16)%N -> hex_value (hex_digit n) = Some n.
Proof.
  intros Hn. destruct n as [|p]; [done|]. assert (Hp : (p < 16)%positive) by lia. clear Hn. revert p Hp.
  do 4 (intros p; destruct p as [p|p|]; intros Hp; try done; revert p Hp); lia.
Qed.

Lemma hex_digit_not_space n : (n < 16)%N -> is_ascii_space (hex_digit n) = false.
Proof.
  intros Hn. destruct n as [|p]; [done|]. assert (Hp : (p < 16)%positive) by lia. clear Hn. revert p Hp.
  do 4 (intros p; destruct p as [p|p|]; intros Hp; try done; revert p Hp); lia.
Qed.

(** [bytes.fromhex(b.hex()) == b] *)
Lemma from_hex_of l : Forall (fun n => n < 256)%N l -> from_hex (hex_of l) = Some l.
Proof.
  induction 1 as [|n l Hn _ IH]; [done|]. cbn [hex_of from_hex].
  assert (H1 : (n / 16 < 16)%N) by (apply N.Div0.div_lt_upper_bound; lia).
  assert (H2 : (n mod 16 < 16)%N) by (apply N.mod_lt; lia).
  rewrite hex_digit_not_space, !hex_value_digit, IH by done.
  cbn. do 2 f_equal. rewrite (N.div_mod n 16) at 3 by lia. lia.
Qed.

Lemma hex_of_inj l l' :
  Forall (fun n => n < 256)%N l -> Forall (fun n => n < 256)%N l' -> hex_of l = hex_of l' -> l = l'.
Proof. intros H H' He. apply from_hex_of in H, H'. congruence. Qed.

(** [parser_create_file_table_rs_entry] *)
Definition parser_create_file_table_rs_entry (ma : reg_match) : result csv_error DigestSize :=
  let? d := fromhex (rm_hash ma) in
  Ok (mkDigestSize d (match rm_size ma with Some s => int10 s | None => 0 end)).

(** [parse_create_file_table_row]: the path, the id the inode gets when it is
    hard-linked, its attributes, and the resource. *)
Record new_row : Type := mkNewRow {
  nw_path : string;
  nw_inode_id : option Z;
  nw_mode : Z;
  nw_uid : Z;
  nw_gid : Z;
  nw_rs : ResourceTable;
}.

Definition parse_create_file_table_row (ma : reg_match) : result csv_error new_row :=
  let? mode := int8 (rm_mode ma) in
  let? d := fromhex (rm_hash ma) in
  let path := de_escape (rm_path ma) in
  let size := int10 <$> rm_size ma in
  let inode := match size with Some _ => int10 <$> rm_inode ma | None => None end in
  let alg := match size with
             | Some _ => Some (default EmptyString (rm_compressed_alg ma))
             | None => None
             end in
  Ok (mkNewRow path
        (match inode with Some i => if i =? 0 then None else Some (- i) | None => None end)
        (Z.lor mode S_IFREG) (int10 (rm_uid ma)) (int10 (rm_gid ma))
        (mkResource d (if opt_str_truthy alg then None else Some path) (default 0 size) alg)).

(** [parse_persists_csv_line] *)
Definition parse_persists_csv_line (line : string) : string := de_escape (str_inner (strip line)).

(** ** Tables *)

Record ft_db : Type := mkFtDb {
  db_dirs : list dir_row;
  db_nonregular : list nonregular_row;
  db_regular : list regular_row;
  db_inode : list inode_row;
  db_resource : list (Z * DigestSize);
  db_rs : list ResourceTable;
}.

#[export] Instance eta_ft_db : Eta ft_db := fun r =>
  mkFtDb (db_dirs r) (db_nonregular r) (db_regular r) (db_inode r) (db_resource r) (db_rs r).

Definition empty_db : ft_db := mkFtDb [] [] [] [] [] [].

Definition insert_inodes (l : list inode_row) (db : ft_db) : ft_db :=
  db <| db_inode := db_inode db ++ l |>.
Definition insert_dirs (l : list dir_row) (db : ft_db) : ft_db :=
  db <| db_dirs := db_dirs db ++ l |>.
Definition insert_nonregulars (l : list nonregular_row) (db : ft_db) : ft_db :=
  db <| db_nonregular := db_nonregular db ++ l |>.
Definition insert_regulars (l : list regular_row) (db : ft_db) : ft_db :=
  db <| db_regular := db_regular db ++ l |>.

(** [INSERT OR IGNORE] by the primary key [digest]. *)
Definition rs_insert_ignore (rs : list ResourceTable) (r : ResourceTable) : list ResourceTable :=
  if existsb (fun r' => bool_decide (rst_digest r' = rst_digest r)) rs then rs else rs ++ [r].
Definition insert_resources (l : list ResourceTable) (db : ft_db) : ft_db :=
  db <| db_rs := fold_left rs_insert_ignore l (db_rs db) |>.

Abbreviation CSV := (PyM ft_db csv_error).

(** The loop of [parse_dirs_from_csv_file] and of
    [parse_symlinks_from_csv_file], which differ in the parser and the table. *)
Section Loop.
Context {row : Type} (parse : string -> Z -> result csv_error (row * inode_row)).
Context (insert_rows : list row -> ft_db -> ft_db).

Definition insert_batch (batch : list row) (inode_batch : list inode_row) : CSV unit :=
  modify (fun db => insert_inodes inode_batch (insert_rows batch db)).

Fixpoint csv_loop (lines : list string) (idx batch_cnt inode_start : Z) (batch : list row)
    (inode_batch : list inode_row) : CSV (Z * Z) :=
  match lines with
  | [] => _ ← insert_batch batch inode_batch; mret (idx, inode_start)
  | line :: lines =>
      let idx := idx + 1 in
      new ← from_result (parse line inode_start);
      let inode_start := inode_start + 1 in
      let batch := batch ++ [fst new] in
      let inode_batch := inode_batch ++ [snd new] in
      let this_batch := idx / ENTRIES_PROCESS_BATCH_SIZE in
      if batch_cnt <? this_batch then
        _ ← insert_batch batch inode_batch;
        csv_loop lines idx this_batch inode_start [] []
      else csv_loop lines idx batch_cnt inode_start batch inode_batch
  end.
End Loop.

Definition parse_dirs_from_csv_file (lines : list string) (inode_start : Z) : CSV (Z * Z) :=
  csv_loop parse_dirs_csv_line insert_dirs lines 0 0 inode_start [] [].

Definition parse_symlinks_from_csv_file (lines : list string) (inode_start : Z) : CSV (Z * Z) :=
  csv_loop parse_symlinks_csv_line insert_nonregulars lines 0 0 inode_start [] [].

(** Dicts in insertion order, by a decidable key. *)
Section ADict.
Context {K V : Type} `{EqDecision K}.

Fixpoint adict_get (k : K) (d : list (K * V)) : option V :=
  match d with
  | [] => None
  | (k', v) :: d => if bool_decide (k = k') then Some v else adict_get k d
  end.

(** [d.setdefault(k, v)] *)
Definition adict_setdefault (k : K) (v : V) (d : list (K * V)) : V * list (K * V) :=
  match adict_get k d with Some v' => (v', d) | None => (v, d ++ [(k, v)]) end.

Definition adict_update (k : K) (f : V -> V) (d : list (K * V)) : list (K * V) :=
  map (fun kv => if bool_decide (fst kv = k) then (fst kv, f (snd kv)) else kv) d.
End ADict.

(** The local variables of [parse_regulars_from_csv_file]. *)
Record reg_loop : Type := mkRegLoop {
  rl_digest_resources : list (DigestSize * Z);
  rl_hardlinked_inode : list (Z * inode_row);
  rl_count : Z;
  rl_batch_cnt : Z;
  rl_inode_start : Z;
  rl_batch : list regular_row;
  rl_batch_rs : list ResourceTable;
  rl_batch_inode : list inode_row;
}.

#[export] Instance eta_reg_loop : Eta reg_loop := fun r =>
  mkRegLoop (rl_digest_resources r) (rl_hardlinked_inode r) (rl_count r) (rl_batch_cnt r)
    (rl_inode_start r) (rl_batch r) (rl_batch_rs r) (rl_batch_inode r).

Definition count_link (i : inode_row) : inode_row :=
  i <| in_links_count := Some (match in_links_count i with None => 1 | Some n => n + 1 end) |>.

(** One line, up to the batch. *)
Definition regular_line (ds : DigestSize) (nw : new_row) (l : reg_loop) : reg_loop :=
  let '(resource_id, digests) :=
    adict_setdefault ds (Z.of_nat (List.length (rl_digest_resources l))) (rl_digest_resources l) in
  let l := l <| rl_digest_resources := digests |> in
  let new_inode id := mkInode id (nw_mode nw) (nw_uid nw) (nw_gid nw) None in
  let '(inode_id, l) :=
    match nw_inode_id nw with
    | Some id =>
        let '(_, hard) := adict_setdefault id (new_inode id) (rl_hardlinked_inode l) in
        (id, l <| rl_hardlinked_inode := adict_update id count_link hard |>)
    | None =>
        let id := rl_inode_start l in
        (id, l <| rl_batch_inode := rl_batch_inode l ++ [new_inode id] |>
               <| rl_inode_start := id + 1 |>)
    end in
  l <| rl_batch := rl_batch l ++ [mkRegular (nw_path nw) inode_id resource_id] |>
    <| rl_batch_rs := rl_batch_rs l ++ [nw_rs nw] |>.

Definition insert_regular_batch (l : reg_loop) (db : ft_db) : ft_db :=
  insert_resources (rl_batch_rs l) (insert_inodes (rl_batch_inode l) (insert_regulars (rl_batch l) db)).

Definition reset_batch (l : reg_loop) : reg_loop :=
  l <| rl_batch := [] |> <| rl_batch_rs := [] |> <| rl_batch_inode := [] |>.

Fixpoint regulars_loop (lines : list string) (l : reg_loop) : CSV reg_loop :=
  match lines with
  | [] => mret l
  | line :: lines =>
      let l := l <| rl_count := rl_count l + 1 |> in
      ma ← from_result (parse_regular_csv_line line);
      ds ← from_result (parser_create_file_table_rs_entry ma);
      nw ← from_result (parse_create_file_table_row ma);
      let l := regular_line ds nw l in
      let this_batch := rl_count l / ENTRIES_PROCESS_BATCH_SIZE in
      if rl_batch_cnt l <? this_batch then
        _ ← modify (insert_regular_batch l);
        regulars_loop lines (reset_batch (l <| rl_batch_cnt := this_batch |>))
      else regulars_loop lines l
  end.

Definition finish_regulars (l : reg_loop) (db : ft_db) : ft_db :=
  let db := insert_regular_batch l db in
  let db := insert_inodes (map snd (rl_hardlinked_inode l)) db in
  db <| db_resource := db_resource db ++ map (fun kv => (snd kv, fst kv)) (rl_digest_resources l) |>.

(** [parse_regulars_from_csv_file] *)
Definition parse_regulars_from_csv_file (lines : list string) (inode_start : Z) : CSV (Z * Z) :=
  l ← regulars_loop lines (mkRegLoop [] [] 0 0 inode_start [] [] []);
  _ ← modify (finish_regulars l);
  mret (rl_count l, rl_inode_start l).

(** ** The batches do not matter *)

(** What inserting rows into a table promises: one batch after the other is
    one batch, and it does not touch the inode table. *)
Class TableInsert {row : Type} (insert_rows : list row -> ft_db -> ft_db) : Prop := {
  insert_rows_app a b db : insert_rows (a ++ b) db = insert_rows b (insert_rows a db);
  insert_rows_inodes r i db : insert_inodes i (insert_rows r db) = insert_rows r (insert_inodes i db);
  insert_rows_nil db : insert_rows [] db = db;
}.

Lemma insert_inodes_app a b db : insert_inodes (a ++ b) db = insert_inodes b (insert_inodes a db).
Proof. unfold insert_inodes. simpl. by rewrite app_assoc. Qed.

#[export] Instance insert_dirs_table : TableInsert insert_dirs.
Proof.
  split; intros; unfold insert_dirs, insert_inodes; simpl; [by rewrite app_assoc|done|].
  rewrite app_nil_r. by destruct db.
Qed.

#[export] Instance insert_nonregulars_table : TableInsert insert_nonregulars.
Proof.
  split; intros; unfold insert_nonregulars, insert_inodes; simpl; [by rewrite app_assoc|done|].
  rewrite app_nil_r. by destruct db.
Qed.

(** All lines, each with the next inode number. *)
Fixpoint parse_all {row} (parse : string -> Z -> result csv_error (row * inode_row))
    (lines : list string) (start : Z) : result csv_error (list (row * inode_row)) :=
  match lines with
  | [] => Ok []
  | line :: lines =>
      let? new := parse line start in
      let? news := parse_all parse lines (start + 1) in
      Ok (new :: news)
  end.

Lemma csv_loop_spec {row} parse (insert_rows : list row -> ft_db -> ft_db) `{!TableInsert insert_rows}
    lines idx cnt start batch ibatch db :
  match parse_all parse lines start with
  | Ok news =>
      csv_loop parse insert_rows lines idx cnt start batch ibatch db =
        (insert_inodes (ibatch ++ map snd news) (insert_rows (batch ++ map fst news) db),
         Ok (idx + Z.of_nat (List.length lines), start + Z.of_nat (List.length lines)))
  | Raise e => exists db', csv_loop parse insert_rows lines idx cnt start batch ibatch db = (db', Raise e)
  end.
Proof.
  revert idx cnt start batch ibatch db.
  induction lines as [|line lines IH]; intros idx cnt start batch ibatch db.
  - simpl. rewrite !app_nil_r, !Z.add_0_r. reflexivity.
  - cbn [parse_all csv_loop]. unfold mbind, pym_bind, from_result.
    destruct (parse line start) as [[new inode]|e]; cbn [rbind fst snd]; [|by eexists].
    destruct (cnt <? _).
    + unfold insert_batch, modify.
      match goal with |- context [csv_loop parse insert_rows lines ?i ?c ?s [] [] ?d] =>
        specialize (IH i c s [] [] d) end.
      destruct (parse_all parse lines (start + 1)) as [news|e]; simpl in *; [|exact IH].
      rewrite IH. f_equal; [|f_equal; f_equal; lia].
      rewrite <- insert_rows_inodes, <- insert_inodes_app, <- insert_rows_app.
      by rewrite <- !app_assoc.
    + specialize (IH (idx + 1) cnt (start + 1) (batch ++ [new]) (ibatch ++ [inode]) db).
      destruct (parse_all parse lines (start + 1)) as [news|e]; simpl in *; [|exact IH].
      rewrite IH, <- !app_assoc. f_equal. f_equal. f_equal; lia.
Qed.

(** ** The invariant of the regular files *)

Section ADictLemmas.
Context {K V : Type} `{EqDecision K}.
Implicit Types (k : K) (v : V) (d : list (K * V)).

Lemma adict_get_Some k v d : adict_get k d = Some v -> (k, v) ∈ d.
Proof.
  induction d as [|[k' v'] d IH]; simpl; [done|]. case_bool_decide as Hk.
  - intros [= ->]. subst. left.
  - intros Hr%IH. by right.
Qed.

Lemma adict_get_None k d : adict_get k d = None -> k ∉ map fst d.
Proof.
  induction d as [|[k' v'] d IH]; simpl; [set_solver|]. case_bool_decide; [done|].
  intros Hr%IH. set_solver.
Qed.

Lemma adict_update_keys k f d : map fst (adict_update k f d) = map fst d.
Proof.
  unfold adict_update. rewrite map_map. apply map_ext. intros [k' v']. simpl. by case_bool_decide.
Qed.

Lemma adict_update_elem k f d k' v' :
  (k', v') ∈ adict_update k f d ->
  exists v, (k', v) ∈ d /\ v' = if bool_decide (k' = k) then f v else v.
Proof.
  unfold adict_update. intros ([k0 v0] & He & Hin)%list_elem_of_fmap. simpl in He.
  revert He. case_bool_decide; intros [= -> ->]; exists v0.
  - by rewrite bool_decide_eq_true_2.
  - by rewrite bool_decide_eq_false_2.
Qed.
End ADictLemmas.

(** The directory entries that refer to an inode. *)
Definition links (k : Z) (rows : list regular_row) : Z :=
  Z.of_nat (List.length (List.filter (fun r => rg_inode r =? k) rows)).

Lemma links_app k rows r :
  links k (rows ++ [r]) = links k rows + (if rg_inode r =? k then 1 else 0).
Proof.
  unfold links. rewrite List.filter_app, length_app. simpl. destruct (rg_inode r =? k); simpl; lia.
Qed.

Lemma links_zero k rows : (forall r, r ∈ rows -> rg_inode r <> k) -> links k rows = 0.
Proof.
  intros H. unfold links. induction rows as [|r rows IH]; [done|]. simpl.
  destruct (Z.eqb_spec (rg_inode r) k) as [He|]; [destruct (H r); [left|done]|].
  apply IH. intros r' Hr. apply H. by right.
Qed.

Record reg_inv (start0 : Z) (l : reg_loop) (D : ft_db) : Prop := mkRegInv {
  ri_ids : NoDup (map in_id (db_inode D));
  ri_range : forall i, i ∈ db_inode D -> start0 <= in_id i < rl_inode_start l;
  ri_start : 0 < start0 <= rl_inode_start l;
  ri_hard_keys : NoDup (map fst (rl_hardlinked_inode l));
  ri_hard : forall k i, (k, i) ∈ rl_hardlinked_inode l ->
    k < 0 /\ in_id i = k /\ in_links_count i = Some (links k (db_regular D));
  ri_reg : forall r, r ∈ db_regular D ->
    (rg_inode r ∈ map in_id (db_inode D) \/ rg_inode r ∈ map fst (rl_hardlinked_inode l)) /\
    exists ds, (ds, rg_resource r) ∈ rl_digest_resources l;
  ri_digests : map snd (rl_digest_resources l) =
    map Z.of_nat (seq 0 (List.length (rl_digest_resources l)));
  ri_rs : forall ds id, (ds, id) ∈ rl_digest_resources l ->
    exists r, r ∈ db_rs D /\ rst_digest r = ds_digest ds;
  ri_count : rl_count l = Z.of_nat (List.length (db_regular D));
}.

Lemma rs_insert_ignore_has rs r :
  (exists r', r' ∈ rs_insert_ignore rs r /\ rst_digest r' = rst_digest r) /\
  forall r', r' ∈ rs -> r' ∈ rs_insert_ignore rs r.
Proof.
  unfold rs_insert_ignore. destruct (existsb _ rs) eqn:E.
  - apply existsb_exists in E as (r' & Hin & Hd%bool_decide_eq_true). split; [|done].
    exists r'. by rewrite list_elem_of_In.
  - split; [exists r; split; [set_solver|done]|set_solver].
Qed.

(** The resource of a line. *)
Lemma setdefault_digest ds (digests : list (DigestSize * Z)) :
  map snd digests = map Z.of_nat (seq 0 (List.length digests)) ->
  let '(id, digests') := adict_setdefault ds (Z.of_nat (List.length digests)) digests in
  (ds, id) ∈ digests' /\ (forall x, x ∈ digests -> x ∈ digests') /\
  (forall x, x ∈ digests' -> x ∈ digests \/ x = (ds, id)) /\
  map snd digests' = map Z.of_nat (seq 0 (List.length digests')).
Proof.
  intros Hd. unfold adict_setdefault. destruct (adict_get ds digests) as [id|] eqn:E.
  - split_and!; [by apply adict_get_Some|done|by left|done].
  - split_and!; [set_solver|set_solver|set_solver|].
    by rewrite map_app, length_app, seq_app, map_app, Hd.
Qed.

(** The hard-linked inode of a line. *)
Lemma setdefault_hard id inode (hard : list (Z * inode_row)) rows :
  NoDup (map fst hard) -> id < 0 -> in_id inode = id -> in_links_count inode = None ->
  (forall k i, (k, i) ∈ hard -> k < 0 /\ in_id i = k /\ in_links_count i = Some (links k rows)) ->
  (id ∉ map fst hard -> links id rows = 0) ->
  let hard' := adict_update id count_link (snd (adict_setdefault id inode hard)) in
  NoDup (map fst hard') /\ id ∈ map fst hard' /\ (forall k, k ∈ map fst hard -> k ∈ map fst hard') /\
  forall k i, (k, i) ∈ hard' -> k < 0 /\ in_id i = k /\
    in_links_count i = Some (links k rows + if id =? k then 1 else 0).
Proof.
  intros Hnd Hneg Hid Hnone Hh Hzero. simpl. unfold adict_setdefault.
  destruct (adict_get id hard) as [i0|] eqn:E; simpl; rewrite adict_update_keys.
  - apply adict_get_Some in E. split_and!; [done| |done|].
    + apply list_elem_of_fmap. by exists (id, i0).
    + intros k i (v & Hv & ->)%adict_update_elem. destruct (Hh k v Hv) as (H1 & H2 & H3).
      case_bool_decide as Hk; simpl.
      * rewrite H3, Hk, Z.eqb_refl. split_and!; [lia|congruence|done].
      * destruct (Z.eqb_spec id k); [congruence|]. rewrite Z.add_0_r. by split_and!.
  - apply adict_get_None in E. rewrite map_app. simpl. split_and!; [|set_solver|set_solver|].
    + apply NoDup_app. split_and!; [done|set_solver|apply NoDup_singleton].
    + intros k i (v & Hv & ->)%adict_update_elem. apply elem_of_app in Hv as [Hv|Hv].
      * destruct (Hh k v Hv) as (H1 & H2 & H3). rewrite bool_decide_eq_false_2.
        { destruct (Z.eqb_spec id k) as [->|]; [|rewrite Z.add_0_r; by split_and!].
          destruct E. apply list_elem_of_fmap. by exists (k, v). }
        intros ->. apply E. apply list_elem_of_fmap. by exists (id, v).
      * apply list_elem_of_singleton in Hv as [= -> ->]. rewrite bool_decide_eq_true_2 by done.
        simpl. rewrite Hnone, Z.eqb_refl, Hzero by done. by split_and!.
Qed.

(** The rows of the tables once the current batch is inserted. *)
Lemma batch_rows l db :
  db_regular (insert_regular_batch l db) = db_regular db ++ rl_batch l /\
  db_inode (insert_regular_batch l db) = db_inode db ++ rl_batch_inode l /\
  db_rs (insert_regular_batch l db) = fold_left rs_insert_ignore (rl_batch_rs l) (db_rs db).
Proof. done. Qed.

Lemma regular_line_inv start0 ds nw l db :
  reg_inv start0 l (insert_regular_batch l db) ->
  (forall id, nw_inode_id nw = Some id -> id < 0) -> rst_digest (nw_rs nw) = ds_digest ds ->
  let l' := regular_line ds nw (l <| rl_count := rl_count l + 1 |>) in
  reg_inv start0 l' (insert_regular_batch l' db).
Proof.
  intros Hi Hneg Hdig. cbv zeta. destruct (batch_rows l db) as (Er & Ei & Es).
  destruct Hi as [I1 I2 I3 I4 I5 I6 I7 I8 I9]. rewrite ?Er, ?Ei, ?Es in *. clear Er Ei Es.
  pose proof (setdefault_digest ds _ I7) as Hd. unfold regular_line. cbn [rl_digest_resources].
  simpl. destruct (adict_setdefault ds _ (rl_digest_resources l)) as [rid digests].
  destruct Hd as (D1 & D2 & D3 & D4). set (rs0 := fold_left rs_insert_ignore (rl_batch_rs l) (db_rs db)) in *.
  destruct (rs_insert_ignore_has rs0 (nw_rs nw)) as [(r' & Hr' & Hr'd) Hkeep].
  assert (Hrs : forall ds' id, (ds', id) ∈ digests ->
            exists r, r ∈ rs_insert_ignore rs0 (nw_rs nw) /\ rst_digest r = ds_digest ds').
  { intros ds' id [Hin|[= -> ->]]%D3.
    - destruct (I8 ds' id Hin) as (r & Hr & ?). exists r. split; [by apply Hkeep|done].
    - exists r'. split; [done|congruence]. }
  destruct (nw_inode_id nw) as [id|] eqn:En.
  - specialize (Hneg id eq_refl).
    pose proof (setdefault_hard id (mkInode id (nw_mode nw) (nw_uid nw) (nw_gid nw) None)
      (rl_hardlinked_inode l) (db_regular db ++ rl_batch l) I4 Hneg eq_refl eq_refl I5) as Hh.
    destruct (adict_setdefault id _ (rl_hardlinked_inode l)) as [i0 hard]. simpl in Hh.
    destruct Hh as (H1 & H2 & H3 & H4).
    { intros Hnin. apply links_zero. intros r Hr He. destruct (I6 r Hr) as [[Hin|Hin] _]; [|congruence].
      apply list_elem_of_fmap in Hin as (i & Heq & Hin). apply I2 in Hin. lia. }
    split; simpl; rewrite ?app_assoc, ?fold_left_app; try done.
    + intros k i Hin. rewrite links_app. simpl. by apply H4.
    + intros r [Hr|Hr]%elem_of_app.
      * destruct (I6 r Hr) as [[?|?] [ds' ?]]; split; eauto.
      * apply list_elem_of_singleton in Hr as ->. simpl. eauto.
    + rewrite length_app. simpl. lia.
  - split; simpl; rewrite ?app_assoc, ?fold_left_app; try done.
    + rewrite map_app. apply NoDup_app. split_and!; [done| |apply NoDup_singleton].
      intros x Hx Hs%list_elem_of_singleton. apply list_elem_of_fmap in Hx as (i & -> & Hin).
      apply I2 in Hin. simpl in Hs. lia.
    + intros i [Hin|Hin]%elem_of_app; [apply I2 in Hin; lia|].
      apply list_elem_of_singleton in Hin as ->. simpl. lia.
    + lia.
    + intros k i Hin. rewrite links_app. simpl. destruct (I5 k i Hin) as (? & ? & ?).
      destruct (Z.eqb_spec (rl_inode_start l) k); [lia|]. by rewrite Z.add_0_r.
    + intros r [Hr|Hr]%elem_of_app.
      * destruct (I6 r Hr) as [[?|?] [ds' ?]]; split; eauto. left. rewrite map_app. set_solver.
      * apply list_elem_of_singleton in Hr as ->. simpl. split; [left; rewrite map_app; set_solver|eauto].
    + rewrite length_app. simpl. lia.
Qed.

Lemma str_span_forallb p s : str_forallb p (fst (str_span p s)) = true.
Proof.
  induction s as [|a s IH]; [done|]. simpl. destruct (p a) eqn:Ea; [|done].
  destruct (str_span p s). simpl in *. by rewrite Ea.
Qed.

Lemma dec_value_nonneg acc s : str_forallb is_digit s = true -> 0 <= acc -> 0 <= dec_value acc s.
Proof.
  revert acc. induction s as [|a s IH]; intros acc Hs Ha; simpl; [done|].
  apply andb_true_iff in Hs as [Hd Hs]. apply IH; [done|].
  unfold is_digit in Hd. apply andb_true_iff in Hd as [Hd%N.leb_le _]. lia.
Qed.

Lemma opt_group_forallb p s d r : opt_group p s = (Some d, r) -> str_forallb p d = true.
Proof.
  unfold opt_group. destruct s as [[|a s]|]; [done| |done].
  destruct (Ascii.eqb_spec a ",") as [->|Hne].
  - pose proof (str_span_forallb p s) as H. destruct (str_span p s) as [d' r']. simpl in H.
    destruct (str_truthy d'); intros [= <- _]; done.
  - destruct a as [[] [] [] [] [] [] [] []]; done.
Qed.

Lemma reginf_match_inode line ma i :
  reginf_match line = Some ma -> rm_inode ma = Some i -> str_forallb is_digit i = true.
Proof.
  unfold reginf_match. destruct (head_fields line) as [[[[mode uid] gid] r]|]; [|done]. cbn [mbind option_bind].
  destruct (num_field r) as [[nlink r']|]; [|done]. cbn [mbind option_bind].
  destruct (str_span is_word r') as [hash r2]. destruct (_ && _); [|done].
  destruct (str_span not_newline _) as [seg r3].
  destruct (nonempty_upto_last_quote seg) as [[path r4]|]; [|done]. cbn [mbind option_bind].
  destruct (opt_group is_digit (Some r4)) as [size r5]. destruct (opt_group is_digit r5) as [inode r6] eqn:E.
  destruct (opt_group is_word r6) as [alg r7]. intros [= <-]. simpl. intros ->.
  by eapply opt_group_forallb.
Qed.

(** What the parsers of one line give the loop. *)
Lemma regular_parsed line ma ds nw :
  parse_regular_csv_line line = Ok ma -> parser_create_file_table_rs_entry ma = Ok ds ->
  parse_create_file_table_row ma = Ok nw ->
  (forall id, nw_inode_id nw = Some id -> id < 0) /\ rst_digest (nw_rs nw) = ds_digest ds.
Proof.
  unfold parse_regular_csv_line, or_assert. destruct (reginf_match (strip line)) as [ma'|] eqn:Em; [|done].
  intros [= ->]. unfold parser_create_file_table_rs_entry, parse_create_file_table_row.
  destruct (int8 (rm_mode ma)) as [m|e]; [|done]. destruct (fromhex (rm_hash ma)) as [d|e]; [|done].
  simpl. intros [= <-] [= <-]. simpl. split; [|done]. intros id.
  destruct (rm_size ma) as [sz|]; [|done]. simpl. destruct (rm_inode ma) as [i|] eqn:Ei; [|done]. simpl.
  apply (reginf_match_inode _ _ _ Em) in Ei. apply (dec_value_nonneg 0) in Ei; [|done].
  unfold int10. destruct (Z.eqb_spec (dec_value 0 i) 0); [done|]. intros [= <-]. lia.
Qed.

Lemma reg_inv_flush start0 l db n :
  reg_inv start0 l (insert_regular_batch l db) ->
  reg_inv start0 (reset_batch (l <| rl_batch_cnt := n |>))
    (insert_regular_batch (reset_batch (l <| rl_batch_cnt := n |>)) (insert_regular_batch l db)).
Proof.
  intros []. split; simpl; rewrite ?app_nil_r; try done.
Qed.

Lemma regulars_loop_inv start0 lines l db db' l' :
  reg_inv start0 l (insert_regular_batch l db) -> regulars_loop lines l db = (db', Ok l') ->
  reg_inv start0 l' (insert_regular_batch l' db') /\ db_dirs db' = db_dirs db /\
  db_nonregular db' = db_nonregular db /\ db_resource db' = db_resource db /\
  rl_count l' = rl_count l + Z.of_nat (List.length lines).
Proof.
  revert l db. induction lines as [|line lines IH]; intros l db Hi.
  { intros [= <- <-]. split_and!; try done. simpl. lia. }
  cbn [regulars_loop]. intros H.
  apply pym_bind_ok in H as (s1 & ma & E1 & H). injection E1 as <- Ema.
  apply pym_bind_ok in H as (s1 & ds & E2 & H). injection E2 as <- Eds.
  apply pym_bind_ok in H as (s1 & nw & E3 & H). injection E3 as <- Enw.
  destruct (regular_parsed _ _ _ _ Ema Eds Enw) as [Hneg Hdig].
  pose proof (regular_line_inv start0 ds nw l db Hi Hneg Hdig) as Hi'. cbv zeta in Hi', H.
  set (l1 := regular_line ds nw (l <| rl_count := rl_count l + 1 |>)) in *.
  assert (Hc : rl_count l1 = rl_count l + 1).
  { unfold l1, regular_line. destruct (adict_setdefault _ _ _). destruct (nw_inode_id nw); [|done].
    by destruct (adict_setdefault _ _ _). }
  destruct (rl_batch_cnt l1 <? _).
  - apply pym_bind_ok in H as (s1 & [] & E & H). injection E as <-.
    apply IH in H; [|by apply reg_inv_flush].
    destruct H as (H1 & H2 & H3 & H4 & H5). split_and!; try done. rewrite H5. simpl in *. lia.
  - apply IH in H; [|done]. destruct H as (H1 & H2 & H3 & H4 & H5).
    split_and!; try done. rewrite H5. simpl. lia.
Qed.

(** ** The file table of an image *)

(** The part of [OTAMetadata._prepare_ota_image_metadata] that parses the
    downloaded metafiles: the numbers of entries. *)
Definition parse_metafiles (regulars dirs symlinks : list string) : CSV (Z * Z * Z) :=
  reg ← parse_regulars_from_csv_file regulars 1;
  dir ← parse_dirs_from_csv_file dirs (snd reg);
  sym ← parse_symlinks_from_csv_file symlinks (snd dir);
  mret (fst reg, fst dir, fst sym).

Definition has_inode (db : ft_db) (id : Z) : Prop := id ∈ map in_id (db_inode db).

(** The file table is consistent: keys are unique and references resolve. *)
Record file_table_ok (db : ft_db) (next : Z) : Prop := mkFileTableOk {
  ft_ids : NoDup (map in_id (db_inode db));
  ft_range : forall i, i ∈ db_inode db -> in_id i < next;
  ft_resources : NoDup (map fst (db_resource db));
  ft_regular : forall r, r ∈ db_regular db ->
    has_inode db (rg_inode r) /\
    exists ds, (rg_resource r, ds) ∈ db_resource db /\
      exists rs, rs ∈ db_rs db /\ rst_digest rs = ds_digest ds;
  ft_dirs : forall d, d ∈ db_dirs db -> has_inode db (dir_inode d);
  ft_nonregular : forall n, n ∈ db_nonregular db -> has_inode db (nr_inode n);
  ft_links : forall i, i ∈ db_inode db -> in_id i < 0 ->
    in_links_count i = Some (links (in_id i) (db_regular db));
}.

Lemma map_fst_swap {A B} (l : list (A * B)) : map fst (map (fun kv => (snd kv, fst kv)) l) = map snd l.
Proof. rewrite map_map. by apply map_ext. Qed.

Lemma NoDup_of_nat_seq n : NoDup (map Z.of_nat (seq 0 n)).
Proof. apply (NoDup_fmap Z.of_nat), NoDup_seq. Qed.

Lemma reg_inv_finish start0 l db :
  reg_inv start0 l (insert_regular_batch l db) ->
  db_dirs db = [] -> db_nonregular db = [] -> db_resource db = [] ->
  file_table_ok (finish_regulars l db) (rl_inode_start l).
Proof.
  intros [I1 I2 I3 I4 I5 I6 I7 I8 I9] Hd Hn Hr. destruct (batch_rows l db) as (Er & Ei & Es).
  rewrite ?Er, ?Ei, ?Es in *. clear Er Ei Es.
  assert (Hkeys : map in_id (map snd (rl_hardlinked_inode l)) = map fst (rl_hardlinked_inode l)).
  { rewrite map_map. apply map_ext_in. intros [k i] Hin%list_elem_of_In. simpl. apply I5 in Hin. tauto. }
  assert (Hmem : forall i, i ∈ map snd (rl_hardlinked_inode l) -> exists k, (k, i) ∈ rl_hardlinked_inode l).
  { intros i ([k i'] & -> & Hin)%list_elem_of_fmap. by exists k. }
  split; simpl; rewrite ?Hd, ?Hn, ?Hr, ?map_fst_swap; simpl.
  - rewrite map_app, Hkeys. apply NoDup_app. split_and!; [done| |done].
    intros x Hx ([k i] & -> & Hin)%list_elem_of_fmap. apply I5 in Hin as (? & ? & _). simpl in *.
    apply list_elem_of_fmap in Hx as (j & Hj & Hin'). apply I2 in Hin'. lia.
  - intros i [Hin|Hin]%elem_of_app; [apply I2 in Hin; lia|].
    apply Hmem in Hin as (k & Hin). apply I5 in Hin as (? & ? & _). lia.
  - rewrite map_fst_swap, I7. apply NoDup_of_nat_seq.
  - intros r Hin. destruct (I6 r Hin) as [H1 [ds H2]]. split.
    + unfold has_inode. simpl. rewrite map_app, Hkeys. set_solver.
    + exists ds. split; [|by eapply I8].
      apply list_elem_of_fmap. by exists (ds, rg_resource r).
  - intros d Hin. by apply not_elem_of_nil in Hin.
  - intros d Hin. by apply not_elem_of_nil in Hin.
  - intros i [Hin|Hin]%elem_of_app Hneg; [apply I2 in Hin; lia|].
    apply Hmem in Hin as (k & Hin). by apply I5 in Hin as (? & -> & ?).
Qed.

Lemma regulars_file_ok lines db n next :
  parse_regulars_from_csv_file lines 1 empty_db = (db, Ok (n, next)) ->
  file_table_ok db next /\ n = Z.of_nat (List.length lines) /\
  Z.of_nat (List.length (db_regular db)) = n /\ db_dirs db = [] /\ db_nonregular db = [] /\ 0 < next.
Proof.
  unfold parse_regulars_from_csv_file. intros H.
  apply pym_bind_ok in H as (db1 & l & E & H). apply pym_bind_ok in H as (db2 & [] & E2 & H).
  injection E2 as <-. injection H as <- <- <-.
  apply (regulars_loop_inv 1) in E as (Hi & Hd & Hn & Hr & Hc).
  - split; [by apply reg_inv_finish with 1|]. split_and!; [done| |done|done|apply ri_start in Hi; lia].
    apply ri_count in Hi. simpl in *. lia.
  - split; simpl; try done; try lia; try apply NoDup_nil_2; intros; by set_solver.
Qed.

(** A parser that gives the entry and its inode the number it is called with. *)
Class NumbersRows {row : Type} (parse : string -> Z -> result csv_error (row * inode_row))
    (row_inode : row -> Z) : Prop :=
  numbers_rows line k r i : parse line k = Ok (r, i) ->
    row_inode r = k /\ in_id i = k /\ 0 <= in_uid i /\ 0 <= in_gid i.

Lemma num_field_digits s d r : num_field s = Some (d, r) -> str_forallb is_digit d = true.
Proof.
  unfold num_field. pose proof (str_span_forallb is_digit s) as H.
  destruct (str_span is_digit s) as [d' r']. simpl in H. destruct r' as [|a r']; [done|].
  destruct a as [[] [] [] [] [] [] [] []]; try done. destruct (str_truthy d'); [|done].
  by intros [= <- _].
Qed.

Lemma head_fields_digits s mode uid gid r :
  head_fields s = Some (mode, uid, gid, r) ->
  str_forallb is_digit mode = true /\ str_forallb is_digit uid = true /\ str_forallb is_digit gid = true.
Proof.
  unfold head_fields. destruct (num_field s) as [[m s1]|] eqn:E1; [|done]. cbn [mbind option_bind].
  destruct (num_field s1) as [[u s2]|] eqn:E2; [|done]. cbn [mbind option_bind].
  destruct (num_field s2) as [[g s3]|] eqn:E3; [|done]. cbn [mbind option_bind].
  intros [= <- <- <- <-]. split_and!; by eapply num_field_digits.
Qed.

#[export] Instance dirs_numbered : NumbersRows parse_dirs_csv_line dir_inode.
Proof.
  intros line k r i. unfold parse_dirs_csv_line, or_assert.
  destruct (head_fields (strip line)) as [[[[mode uid] gid] path]|] eqn:E; [|done]. simpl.
  destruct (int8 mode); [|done]. simpl. intros [= <- <-]. simpl.
  apply head_fields_digits in E as (_ & Hu & Hg). split_and!; try done; by apply dec_value_nonneg.
Qed.

#[export] Instance symlinks_numbered : NumbersRows parse_symlinks_csv_line nr_inode.
Proof.
  intros line k r i. unfold parse_symlinks_csv_line, or_assert.
  destruct (symlink_match (strip line)) as [[[[[mode uid] gid] link] target]|] eqn:E; [|done]. simpl.
  destruct (int8 mode); [|done]. simpl. intros [= <- <-]. simpl. unfold symlink_match in E.
  destruct (head_fields (strip line)) as [[[[mode' uid'] gid'] path]|] eqn:Eh; [|done].
  cbn [mbind option_bind] in E. destruct path as [|c path]; [done|].
  destruct c as [[] [] [] [] [] [] [] []]; try done.
  destruct (symlink_split _ _) as [[? ?]|]; [|done]. injection E as -> -> -> -> ->.
  apply head_fields_digits in Eh as (_ & Hu & Hg). split_and!; try done; by apply dec_value_nonneg.
Qed.

Lemma parse_all_numbers {row} parse (row_inode : row -> Z) `{!NumbersRows parse row_inode} lines start news :
  parse_all parse lines start = Ok news ->
  List.length news = List.length lines /\
  map in_id (map snd news) = seqZ start (Z.of_nat (List.length lines)) /\
  map row_inode (map fst news) = seqZ start (Z.of_nat (List.length lines)).
Proof.
  revert start news. induction lines as [|line lines IH]; intros start news; simpl; [by intros [= <-]|].
  destruct (parse line start) as [[r i]|e] eqn:E; [|done]. simpl.
  destruct (parse_all parse lines (start + 1)) as [news'|e] eqn:E'; [|done]. simpl. intros [= <-]. simpl.
  apply numbers_rows in E as (-> & -> & _). apply IH in E' as (-> & -> & ->).
  split_and!; [done|..]; rewrite (seqZ_cons start) by lia; repeat f_equal; lia.
Qed.

Lemma insert_numbered_ok (db db' : ft_db) next n inodes :
  file_table_ok db next -> 0 < next -> map in_id inodes = seqZ next n -> 0 <= n ->
  db_inode db' = db_inode db ++ inodes -> db_regular db' = db_regular db ->
  db_resource db' = db_resource db -> db_rs db' = db_rs db ->
  (forall d, d ∈ db_dirs db' -> d ∈ db_dirs db \/ dir_inode d ∈ seqZ next n) ->
  (forall d, d ∈ db_nonregular db' -> d ∈ db_nonregular db \/ nr_inode d ∈ seqZ next n) ->
  file_table_ok db' (next + n).
Proof.
  intros [F1 F2 F3 F4 F5 F6 F7] Hpos Hids Hn Ei Er Es Ers Hdirs Hnon.
  assert (Hmore : forall id, has_inode db id -> has_inode db' id).
  { intros id. unfold has_inode. rewrite Ei, map_app. set_solver. }
  assert (Hnew : forall id, id ∈ seqZ next n -> has_inode db' id).
  { intros id Hid. unfold has_inode. rewrite Ei, map_app, Hids. set_solver. }
  assert (Hin : forall i, i ∈ inodes -> next <= in_id i < next + n).
  { intros i Hi. apply elem_of_seqZ. rewrite <- Hids. apply list_elem_of_fmap. by exists i. }
  split; rewrite ?Er, ?Es, ?Ers, ?Ei.
  - rewrite map_app, Hids. apply NoDup_app. split_and!; [done| |apply NoDup_seqZ].
    intros x (i & -> & Hi)%list_elem_of_fmap Hx%elem_of_seqZ. apply F2 in Hi. lia.
  - intros i [Hi|Hi]%elem_of_app; [apply F2 in Hi; lia|apply Hin in Hi; lia].
  - done.
  - intros r Hr. destruct (F4 r Hr) as [? ?]. split; [by apply Hmore|done].
  - intros d [Hd|Hd]%Hdirs; auto.
  - intros d [Hd|Hd]%Hnon; auto.
  - intros i [Hi|Hi]%elem_of_app Hneg; [by apply F7|]. apply Hin in Hi. lia.
Qed.

(** C13. The file table made from the metafiles of a legacy image is
    consistent: when the three files parse, the counts are the numbers of
    lines and of rows, every inode has its own id, every directory, symlink
    and regular file refers to an inode of the table, every regular file to a
    resource whose digest the resource table knows, resource ids are unique,
    and the link count of a hard-linked inode is the number of regular files
    that share it. *)
Theorem file_table_consistent regulars dirs symlinks db n d s :
  parse_metafiles regulars dirs symlinks empty_db = (db, Ok (n, d, s)) ->
  (exists next, file_table_ok db next) /\
  n = Z.of_nat (List.length regulars) /\ d = Z.of_nat (List.length dirs) /\
  s = Z.of_nat (List.length symlinks) /\
  List.length (db_regular db) = List.length regulars /\ List.length (db_dirs db) = List.length dirs /\
  List.length (db_nonregular db) = List.length symlinks.
Proof.
  unfold parse_metafiles. intros H. apply pym_bind_ok in H as (db1 & [n1 next1] & E1 & H).
  apply regulars_file_ok in E1 as (Hok1 & Hn & Hl & Hd1 & Hnr1 & Hpos).
  apply pym_bind_ok in H as (db2 & [n2 next2] & E2 & H). cbn [fst snd] in E2, H.
  apply pym_bind_ok in H as (db3 & [n3 next3] & E3 & H). cbn [fst snd] in E3, H.
  injection H as <- <- <- <-. unfold parse_dirs_from_csv_file in E2. unfold parse_symlinks_from_csv_file in E3.
  pose proof (csv_loop_spec parse_dirs_csv_line insert_dirs dirs 0 0 next1 [] [] db1) as L2.
  destruct (parse_all parse_dirs_csv_line dirs next1) as [news2|e] eqn:P2;
    [|destruct L2 as [? L2]; congruence].
  rewrite L2 in E2. injection E2 as <- <- <-. apply (parse_all_numbers _ dir_inode) in P2 as (N2 & I2 & R2).
  match type of E3 with csv_loop _ _ _ _ _ ?st _ _ ?db2 = _ => set (dbd := db2) in *;
    pose proof (csv_loop_spec parse_symlinks_csv_line insert_nonregulars symlinks 0 0 st [] [] dbd) as L3 end.
  destruct (parse_all parse_symlinks_csv_line symlinks _) as [news3|e] eqn:P3;
    [|destruct L3 as [? L3]; congruence].
  rewrite L3 in E3. injection E3 as <- <- <-. apply (parse_all_numbers _ nr_inode) in P3 as (N3 & I3 & R3).
  assert (Hok2 : file_table_ok dbd (next1 + Z.of_nat (List.length dirs))).
  { apply (insert_numbered_ok db1 dbd next1 _ (map snd news2)); try done; try lia; simpl; [|by left].
    intros r [Hr|Hr]%elem_of_app; [by left|]. right. rewrite <- R2. apply list_elem_of_fmap. by exists r. }
  split_and!.
  - eexists. apply (insert_numbered_ok dbd _ (next1 + Z.of_nat (List.length dirs)) (Z.of_nat (List.length symlinks)) (map snd news3));
      [exact Hok2|lia|exact I3|lia|done..|by left|].
    simpl. rewrite Hnr1. intros r Hr. right. rewrite <- R3. apply list_elem_of_fmap. by exists r.
  - done.
  - lia.
  - lia.
  - simpl. lia.
  - simpl. rewrite Hd1. simpl. by rewrite length_map.
  - simpl. rewrite Hnr1. simpl. by rewrite length_map.
Qed.

(** ** Round trips of the lines

    What a generator of the metafiles writes: a path is quoted, and each
    quote in it is written as a quoted quote, as a shell would. *)
Fixpoint escape (s : string) : string :=
  match s with
  | EmptyString => EmptyString
  | String a r => if Ascii.eqb a "'" then ("'\''" +:+ escape r)%string else String a (escape r)
  end.

Lemma de_escape_other a r : a <> "'"%char -> de_escape (String a r) = String a (de_escape r).
Proof. intros Ha. destruct a as [[] [] [] [] [] [] [] []]; try done. Qed.

Lemma de_escape_escape s : de_escape (escape s) = s.
Proof.
  induction s as [|a r IH]; [done|]. cbn [escape]. destruct (Ascii.eqb_spec a "'") as [->|Ha].
  - change (de_escape ("'\''" +:+ escape r)) with (String "'" (de_escape (escape r))). by rewrite IH.
  - by rewrite de_escape_other, IH.
Qed.

Fixpoint last_char (s : string) : option ascii :=
  match s with
  | EmptyString => None
  | String a EmptyString => Some a
  | String _ r => last_char r
  end.

Lemma last_char_cons a r : r <> EmptyString -> last_char (String a r) = last_char r.
Proof. by destruct r. Qed.

Lemma escape_nonempty s : s <> EmptyString -> escape s <> EmptyString.
Proof. destruct s as [|a r]; [done|]. intros _. cbn [escape]. by destruct (Ascii.eqb a "'"). Qed.

Lemma last_char_escape s : last_char (escape s) = last_char s.
Proof.
  induction s as [|a r IH]; [done|]. destruct (decide (r = EmptyString)) as [->|Hr].
  { cbn [escape]. by destruct (Ascii.eqb_spec a "'") as [->|]. }
  rewrite (last_char_cons a r Hr), <- IH. cbn [escape]. pose proof (escape_nonempty r Hr).
  destruct (Ascii.eqb a "'").
  - change ("'\''" +:+ escape r)%string with (String "'" (String "\" (String "'" (String "'" (escape r))))).
    by rewrite !last_char_cons.
  - by rewrite last_char_cons.
Qed.

Lemma str_span_all p s : str_forallb p s = true -> str_span p s = (s, EmptyString).
Proof.
  induction s as [|a s IH]; [done|]. simpl. intros [-> Hs]%andb_true_iff. by rewrite IH.
Qed.

Lemma str_span_app p s r :
  str_forallb p s = true -> match r with String a _ => p a = false | EmptyString => True end ->
  str_span p (s +:+ r)%string = (s, r).
Proof.
  intros Hs Hr. induction s as [|a s IH].
  - change (EmptyString +:+ r)%string with r. destruct r as [|a r]; [done|]. simpl. by rewrite Hr.
  - apply andb_true_iff in Hs as [Ha Hs]. change (String a s +:+ r)%string with (String a (s +:+ r))%string.
    simpl. by rewrite Ha, IH.
Qed.

Lemma num_field_app d r :
  str_forallb is_digit d = true -> d <> EmptyString -> num_field (d +:+ String "," r)%string = Some (d, r).
Proof.
  intros Hd Hne. unfold num_field. rewrite str_span_app by done. by destruct d.
Qed.

(** [mode,uid,gid,] before a line's entry. *)
Definition print_head (mode uid gid r : string) : string :=
  (mode +:+ String "," (uid +:+ String "," (gid +:+ String "," r)))%string.

Definition numeral (d : string) : Prop := str_forallb is_digit d = true /\ d <> EmptyString.

Lemma head_fields_print mode uid gid r :
  numeral mode -> numeral uid -> numeral gid -> head_fields (print_head mode uid gid r) = Some (mode, uid, gid, r).
Proof.
  intros [? ?] [? ?] [? ?]. unfold head_fields, print_head. rewrite num_field_app by done. cbn [mbind option_bind].
  rewrite num_field_app by done. cbn [mbind option_bind]. by rewrite num_field_app.
Qed.

(** The white space around a line does not matter. *)
Lemma strip_line s t :
  match s with String a _ => is_space a = false | EmptyString => False end ->
  rstrip_by is_space t = t -> t <> EmptyString ->
  strip ((s +:+ t) +:+ String "010" EmptyString)%string = (s +:+ t)%string.
Proof.
  intros Hs Ht Hne. unfold strip. rewrite lstrip_by_id.
  - rewrite rstrip_by_snoc by done. by apply rstrip_by_app.
  - by destruct s.
Qed.

Lemma print_head_strip mode uid gid r t :
  numeral mode -> rstrip_by is_space t = t -> t <> EmptyString ->
  strip (print_head mode uid gid (r +:+ t) +:+ String "010" EmptyString)%string = print_head mode uid gid (r +:+ t).
Proof.
  intros [Hm Hne] Ht Htne.
  assert (E : print_head mode uid gid (r +:+ t) = (print_head mode uid gid r +:+ t)%string).
  { unfold print_head. rewrite !str_app_assoc.
    change (String "," (uid +:+ String "," (gid +:+ String "," r)) +:+ t)%string
      with (String "," ((uid +:+ String "," (gid +:+ String "," r)) +:+ t))%string.
    rewrite str_app_assoc.
    change (String "," (gid +:+ String "," r) +:+ t)%string with (String "," ((gid +:+ String "," r) +:+ t))%string.
    by rewrite str_app_assoc. }
  rewrite E. apply strip_line; [|done..]. unfold print_head. destruct mode as [|a mode]; [done|].
  apply andb_true_iff in Hm as [Ha _]. by apply is_digit_not_space.
Qed.

Lemma upto_last_quote_app s r :
  no_char "'" r = true -> upto_last_quote (s +:+ String "'" r)%string = Some (s, r).
Proof.
  intros Hr. assert (Hn : upto_last_quote r = None).
  { induction r as [|a r IH]; [done|]. unfold no_char in Hr. simpl in Hr.
    apply andb_true_iff in Hr as [Ha%negb_true_iff Hr]. simpl. by rewrite (IH Hr), Ha. }
  induction s as [|a s IH].
  - change (EmptyString +:+ String "'" r)%string with (String "'" r). simpl. by rewrite Hn.
  - change (String a s +:+ String "'" r)%string with (String a (s +:+ String "'" r))%string.
    simpl. by rewrite IH.
Qed.

Lemma nonempty_upto_last_quote_app s r :
  s <> EmptyString -> no_char "'" r = true ->
  nonempty_upto_last_quote (s +:+ String "'" r)%string = Some (s, r).
Proof.
  intros Hs Hr. destruct s as [|a s]; [done|].
  change (String a s +:+ String "'" r)%string with (String a (s +:+ String "'" r))%string.
  unfold nonempty_upto_last_quote. by rewrite upto_last_quote_app.
Qed.

Lemma symlink_split_cons prev a s :
  symlink_split prev (String a s) =
  match symlink_split (Some a) s with
  | Some (link, target) => Some (String a link, target)
  | None =>
      match prev with
      | Some p =>
          if negb (Ascii.eqb p "'") && startswith "','" (String a s) then
            '(target, _) ← nonempty_upto_last_quote (str_drop 3 (String a s)); Some (EmptyString, target)
          else None
      | None => None
      end
  end.
Proof. reflexivity. Qed.

(** There is no separator inside an escaped path: a quote that is followed by
    a comma and a quote is the last of an escaped one. *)
Lemma symlink_split_escape prev t : symlink_split (Some prev) (escape t +:+ "'")%string = None.
Proof.
  revert prev. induction t as [|a t IH]; intros prev.
  - change (escape "" +:+ "'")%string with "'"%string. simpl. by rewrite andb_false_r.
  - cbn [escape]. destruct (Ascii.eqb_spec a "'") as [->|Ha].
    + change (("'\''" +:+ escape t) +:+ "'")%string
        with (String "'" (String "\" (String "'" (String "'" (escape t +:+ "'")))))%string.
      rewrite !symlink_split_cons, IH. cbn [startswith Ascii.eqb Bool.eqb andb].
      by rewrite !andb_false_r.
    + change (String a (escape t) +:+ "'")%string with (String a (escape t +:+ "'"))%string.
      rewrite symlink_split_cons, IH. cbn [startswith].
      replace (Ascii.eqb "'" a) with false by (symmetry; apply Ascii.eqb_neq; congruence).
      cbn [andb]. by rewrite andb_false_r.
Qed.

(** A target that does not begin with a comma and a quote is not mistaken for
    a separator together with the quote before it. *)
Lemma symlink_split_at l t :
  l <> "'"%char -> t <> EmptyString -> startswith ",'" t = false ->
  symlink_split (Some l) (String "'" (String "," (String "'" (escape t +:+ "'"))))%string =
  Some (EmptyString, escape t).
Proof.
  intros Hl Ht Hc. rewrite !symlink_split_cons, symlink_split_escape.
  assert (Hin : startswith "','" (String "'" (escape t +:+ "'")) = true ->
                nonempty_upto_last_quote (str_drop 3 (String "'" (escape t +:+ "'"))) = None).
  { destruct t as [|a t]; [done|]. cbn [escape]. destruct (Ascii.eqb_spec a "'") as [->|Ha]; [done|].
    change (String a (escape t) +:+ "'")%string with (String a (escape t +:+ "'"))%string.
    cbn [startswith] in *. destruct (Ascii.eqb "," a); [|done]. cbn [andb] in *.
    destruct t as [|b t]; [done|]. cbn [escape].
    destruct (Ascii.eqb_spec b "'") as [->|Hb]; [done|].
    change (String b (escape t) +:+ "'")%string with (String b (escape t +:+ "'"))%string.
    cbn [startswith]. replace (Ascii.eqb "'" b) with false by (symmetry; apply Ascii.eqb_neq; congruence).
    done. }
  destruct (startswith "','" (String "'" (escape t +:+ "'"))).
  - rewrite (Hin eq_refl). rewrite (proj2 (Ascii.eqb_neq l "'") Hl). cbn.
    rewrite nonempty_upto_last_quote_app; [done|by apply escape_nonempty|done].
  - rewrite (proj2 (Ascii.eqb_neq l "'") Hl). cbn.
    rewrite nonempty_upto_last_quote_app; [done|by apply escape_nonempty|done].
Qed.

Lemma symlink_split_link link l t :
  last_char link = Some l -> l <> "'"%char -> t <> EmptyString -> startswith ",'" t = false ->
  symlink_split None (link +:+ "','" +:+ escape t +:+ "'")%string = Some (link, escape t).
Proof.
  intros Hlast Hl Ht Hc. generalize (@None ascii) as prev.
  induction link as [|a link IH]; intros prev; [done|].
  change (String a link +:+ "','" +:+ escape t +:+ "'")%string
    with (String a (link +:+ "','" +:+ escape t +:+ "'"))%string.
  rewrite symlink_split_cons. destruct link as [|b link].
  - injection Hlast as ->.
    change (EmptyString +:+ "','" +:+ escape t +:+ "'")%string
      with (String "'" (String "," (String "'" (escape t +:+ "'"))))%string.
    by rewrite symlink_split_at.
  - rewrite last_char_cons in Hlast by done. by rewrite (IH Hlast).
Qed.

Definition no_newline (s : string) : Prop := str_forallb not_newline s = true.

Lemma escape_no_newline s : no_newline s -> no_newline (escape s).
Proof.
  unfold no_newline. induction s as [|a s IH]; [done|]. cbn [escape str_forallb].
  intros [Ha Hs]%andb_true_iff. destruct (Ascii.eqb a "'").
  - rewrite str_forallb_app, (IH Hs). done.
  - cbn [str_forallb]. by rewrite Ha, (IH Hs).
Qed.

Definition print_symlink (mode uid gid link target : string) : string :=
  (print_head mode uid gid (("'" +:+ escape link +:+ "','" +:+ escape target) +:+ "'")
     +:+ String "010" EmptyString)%string.

(** A symlink line is read back: for every link and target without a
    line break, the link not ending in a quote and the target not beginning
    with a comma and a quote, the line a generator writes for them parses to
    that link and that target, whatever quotes, commas and backslashes they
    contain, with the inode's number, owner and mode. *)
Theorem symlink_line_roundtrip mode uid gid link l target inode m :
  numeral mode -> numeral uid -> numeral gid -> int8 mode = Ok m ->
  no_newline link -> no_newline target -> last_char link = Some l -> l <> "'"%char ->
  target <> EmptyString -> startswith ",'" target = false ->
  parse_symlinks_csv_line (print_symlink mode uid gid link target) inode =
  Ok (mkNonRegular link target inode,
      mkInode inode (Z.lor m S_IFLNK) (dec_value 0 uid) (dec_value 0 gid) None).
Proof.
  intros Hm Hu Hg Hi Hnl Hnt Hl Hne Ht Hc. unfold parse_symlinks_csv_line, print_symlink.
  rewrite print_head_strip by done. unfold symlink_match. rewrite head_fields_print by done.
  cbn [mbind option_bind].
  change (("'" +:+ escape link +:+ "','" +:+ escape target) +:+ "'")%string
    with (String "'" ((escape link +:+ "','" +:+ escape target) +:+ "'"))%string.
  cbv beta iota. rewrite !str_app_assoc, str_span_all.
  - cbn [fst]. rewrite (symlink_split_link (escape link) l) by (by rewrite ?last_char_escape).
    cbn [mbind option_bind or_assert rbind]. rewrite Hi. cbn [rbind]. by rewrite !de_escape_escape.
  - apply escape_no_newline in Hnl, Hnt. unfold no_newline in *.
    by rewrite !str_forallb_app, Hnl, Hnt.
Qed.

Lemma symlink_split_quote_end prev link S :
  last_char link = Some "'"%char -> symlink_split (Some "'"%char) S = None ->
  symlink_split prev (escape link +:+ S)%string = None.
Proof.
  intros Hl HS. revert prev. induction link as [|a link IH]; intros prev; [done|].
  assert (Htail : symlink_split (Some "'"%char) (escape link +:+ S)%string = None \/ a <> "'"%char).
  { destruct (Ascii.eqb_spec a "'") as [->|]; [left|by right].
    destruct link as [|b link]; [exact HS|]. apply IH. exact Hl. }
  cbn [escape]. destruct (Ascii.eqb_spec a "'") as [->|Ha].
  - destruct Htail as [Htail|]; [|done].
    change (("'\''" +:+ escape link) +:+ S)%string
      with (String "'" (String "\" (String "'" (String "'" (escape link +:+ S)))))%string.
    rewrite !symlink_split_cons, Htail. cbn [startswith Ascii.eqb Bool.eqb andb negb].
    destruct prev; by rewrite ?andb_false_r.
  - destruct link as [|b link]; [by injection Hl as ->|]. rewrite last_char_cons in Hl by done.
    change (String a (escape (String b link)) +:+ S)%string
      with (String a (escape (String b link) +:+ S))%string.
    rewrite symlink_split_cons, (IH Hl). destruct prev as [p|]; [|done]. cbn [startswith].
    replace (Ascii.eqb "'" a) with false by (symmetry; apply Ascii.eqb_neq; congruence).
    by rewrite andb_false_r.
Qed.

(** A symlink whose own path ends in a quote is refused: the line a
    generator writes for it does not match, whatever its target (one that
    does not begin with a comma and a quote), so an image that holds such a
    symlink cannot be installed. *)
Theorem quote_ending_symlink_rejected mode uid gid link target inode :
  numeral mode -> numeral uid -> numeral gid -> no_newline link -> no_newline target ->
  last_char link = Some "'"%char -> startswith ",'" target = false -> target <> EmptyString ->
  parse_symlinks_csv_line (print_symlink mode uid gid link target) inode =
  Raise (AssertionError (print_symlink mode uid gid link target)).
Proof.
  intros Hm Hu Hg Hnl Hnt Hl Hc Ht. unfold parse_symlinks_csv_line.
  assert (E : symlink_match (strip (print_symlink mode uid gid link target)) = None).
  { unfold print_symlink. rewrite print_head_strip by done. unfold symlink_match.
    rewrite head_fields_print by done. cbn [mbind option_bind].
    change (("'" +:+ escape link +:+ "','" +:+ escape target) +:+ "'")%string
      with (String "'" ((escape link +:+ "','" +:+ escape target) +:+ "'"))%string.
    cbv beta iota. rewrite !str_app_assoc, str_span_all.
    2:{ apply escape_no_newline in Hnl, Hnt. unfold no_newline in *. by rewrite !str_forallb_app, Hnl, Hnt. }
    cbn [fst]. rewrite symlink_split_quote_end; [done|done|].
    change ("','" +:+ escape target +:+ "'")%string
      with (String "'" (String "," (String "'" (escape target +:+ "'"))))%string.
    pose proof (symlink_split_at "a" target ltac:(done) Ht Hc) as H. rewrite symlink_split_cons in H |- *.
    destruct (symlink_split (Some "'"%char) (String "," (String "'" (escape target +:+ "'")))%string)
      as [[? ?]|]; [done|]. done. }
  by rewrite E.
Qed.

(** ** Regular files *)

Definition print_opt (o : option string) : string := default EmptyString o.

Definition print_regular (mode uid gid nlink hash path : string) (size inode alg : option string) : string :=
  (print_head mode uid gid (nlink +:+ String "," (hash +:+ ",'" +:+ escape path +:+ String "'"
     (String "," (print_opt size +:+ String "," (print_opt inode +:+ String "," (print_opt alg)))))))%string.

Definition opt_all (p : ascii -> bool) (o : option string) : Prop :=
  match o with Some s => str_forallb p s = true /\ s <> EmptyString | None => True end.

Lemma opt_group_print p o r :
  opt_all p o -> match r with String a _ => p a = false | EmptyString => True end ->
  opt_group p (Some (String "," (print_opt o +:+ r)))%string = (o, Some r).
Proof.
  intros Ho Hr. unfold opt_group. destruct o as [s|]; cbn [print_opt default].
  - destruct Ho as [Hs Hne]. unfold id. rewrite str_span_app by done. by destruct s.
  - rewrite (str_span_app p EmptyString r) by done. done.
Qed.

Lemma is_word_not_quote a : is_word a = true -> Ascii.eqb a "'" = false.
Proof. destruct (Ascii.eqb_spec a "'") as [->|]; [done|done]. Qed.

Lemma is_digit_word a : is_digit a = true -> is_word a = true.
Proof.
  unfold is_digit, is_word. intros H. by rewrite H.
Qed.

Lemma print_opt_no_quote p o :
  (forall a, p a = true -> is_word a = true) -> opt_all p o -> no_char "'" (print_opt o) = true.
Proof.
  intros Hp. destruct o as [s|]; [|done]. intros [Hs _]. cbn [print_opt default]. unfold id, no_char.
  revert Hs. apply str_forallb_impl. intros a Ha. by rewrite is_word_not_quote by auto.
Qed.

Lemma regular_tail_no_newline size inode alg :
  opt_all is_digit size -> opt_all is_digit inode -> opt_all is_word alg ->
  no_newline (String "'" (String "," (print_opt size +:+ String "," (print_opt inode +:+ String "," (print_opt alg))))).
Proof.
  assert (Hw : forall o, opt_all is_word o -> str_forallb not_newline (print_opt o) = true).
  { intros [s|]; [|done]. intros [Hs _]. cbn [print_opt default]. unfold id. revert Hs.
    apply str_forallb_impl. intros a Ha. unfold not_newline. by destruct (Ascii.eqb_spec a "010") as [->|]. }
  assert (Hd : forall o, opt_all is_digit o -> opt_all is_word o).
  { intros [s|]; [|done]. intros [Hs Hne]. split; [|done]. revert Hs. apply str_forallb_impl, is_digit_word. }
  intros Hs%Hd%Hw Hi%Hd%Hw Ha%Hw. unfold no_newline. cbn [str_forallb].
  rewrite str_forallb_app, Hs. cbn [str_forallb]. by rewrite str_forallb_app, Hi.
Qed.

(** A line of [regulars.txt] is read back, whatever quotes, commas and
    backslashes its path contains: every field a generator writes, the
    optional size, inode and compression included, comes back, and the path
    is the one that was written. *)
Theorem regular_line_roundtrip mode uid gid nlink hash path size inode alg :
  numeral mode -> numeral uid -> numeral gid -> numeral nlink ->
  str_forallb is_word hash = true -> hash <> EmptyString ->
  path <> EmptyString -> no_newline path ->
  opt_all is_digit size -> opt_all is_digit inode -> opt_all is_word alg ->
  exists ma, reginf_match (print_regular mode uid gid nlink hash path size inode alg) = Some ma /\
    de_escape (rm_path ma) = path /\ rm_hash ma = hash /\ rm_size ma = size /\
    rm_inode ma = inode /\ rm_compressed_alg ma = alg /\ rm_mode ma = mode /\
    rm_uid ma = uid /\ rm_gid ma = gid.
Proof.
  intros Hm Hu Hg [Hn1 Hn2] Hh Hhne Hp Hnl Hs Hi Ha. unfold print_regular, reginf_match.
  rewrite head_fields_print by done. cbn [mbind option_bind]. rewrite num_field_app by done.
  cbn [mbind option_bind]. rewrite str_span_app by done.
  replace (str_truthy hash) with true by (by destruct hash).
  set (tail := String "," (print_opt size +:+ String "," (print_opt inode +:+ String "," (print_opt alg)))%string).
  change (startswith ",'" (",'" +:+ escape path +:+ String "'" tail)) with true. cbn [andb].
  change (str_drop 2 (",'" +:+ escape path +:+ String "'" tail))
    with (escape path +:+ String "'" tail)%string.
  rewrite str_span_all.
  2:{ rewrite str_forallb_app, (escape_no_newline path Hnl).
      apply (regular_tail_no_newline size inode alg Hs Hi Ha). }
  rewrite nonempty_upto_last_quote_app; [|by apply escape_nonempty|].
  2:{ unfold tail, no_char. cbn [str_forallb Ascii.eqb Bool.eqb negb andb]. rewrite !str_forallb_app.
      cbn [str_forallb Ascii.eqb Bool.eqb negb andb]. rewrite str_forallb_app.
      cbn [str_forallb Ascii.eqb Bool.eqb negb andb].
      rewrite (print_opt_no_quote is_digit size is_digit_word Hs : str_forallb _ _ = true).
      rewrite (print_opt_no_quote is_digit inode is_digit_word Hi : str_forallb _ _ = true).
      by rewrite (print_opt_no_quote is_word alg (fun a H => H) Ha : str_forallb _ _ = true). }
  cbn [mbind option_bind]. unfold tail. rewrite (opt_group_print is_digit size) by done.
  rewrite (opt_group_print is_digit inode) by done.
  rewrite <- (str_app_nil_r (print_opt alg)), (opt_group_print is_word alg) by done.
  eexists. split; [reflexivity|]. simpl. by rewrite de_escape_escape.
Qed.

(** ** Concrete metafiles *)

Definition example_regulars : list string :=
  ["0644,1000,1000,2,ab01,'a',5,7"; "0644,1000,1000,2,ab01,'b',5,7"; "0755,0,0,1,cd02,'c',9,,zst"]%string.
Definition example_dirs : list string := ["0755,0,0,'/'"]%string.
Definition example_symlinks : list string := ["0777,0,0,'l','a'"]%string.

Definition example_db : ft_db :=
  fst (parse_metafiles example_regulars example_dirs example_symlinks empty_db).

Lemma file_table_consistent_witness :
  exists db, parse_metafiles example_regulars example_dirs example_symlinks empty_db = (db, Ok (3, 1, 1)) /\
    map rg_inode (db_regular db) = [-7; -7; 1] /\ (exists next, file_table_ok db next).
Proof.
  assert (E : parse_metafiles example_regulars example_dirs example_symlinks empty_db =
              (example_db, Ok (3, 1, 1))) by (vm_compute; reflexivity).
  exists example_db. split; [exact E|]. split; [vm_compute; reflexivity|].
  exact (proj1 (file_table_consistent example_regulars example_dirs example_symlinks _ 3 1 1 E)).
Defined.

Definition quote_path : string := "it's, a ','link".

Ltac concrete := first [split; [vm_compute; reflexivity|discriminate] | discriminate | exact I | vm_compute; reflexivity].

Lemma symlink_line_roundtrip_witness :
  parse_symlinks_csv_line (print_symlink "0777" "0" "10" quote_path "it's") 4 =
  Ok (mkNonRegular quote_path "it's" 4,
      mkInode 4 (Z.lor 511 S_IFLNK) (dec_value 0 "0") (dec_value 0 "10") None).
Proof. apply (symlink_line_roundtrip "0777" "0" "10" quote_path "k" "it's" 4 511); concrete. Defined.

Lemma quote_ending_symlink_rejected_witness :
  parse_symlinks_csv_line (print_symlink "0777" "0" "10" "it'" "target") 4 =
  Raise (AssertionError (print_symlink "0777" "0" "10" "it'" "target")).
Proof. apply (quote_ending_symlink_rejected "0777" "0" "10" "it'" "target" 4); concrete. Defined.

Lemma regular_line_roundtrip_witness :
  exists ma,
    reginf_match (print_regular "0644" "0" "0" "1" "ab01" quote_path (Some "5"%string) None None) = Some ma /\
    de_escape (rm_path ma) = quote_path.
Proof.
  destruct (regular_line_roundtrip "0644" "0" "0" "1" "ab01" quote_path (Some "5"%string) None None)
    as (ma & H & Hp & _); try concrete.
  exists ma. split; [exact H|exact Hp].
Defined.
