(* ===== verification/LegacyMetadata.v ===== *)
(** * The metadata of a legacy OTA image

    Models [src/src/ota_metadata/legacy2/metadata_jwt.py] and [metadata.py]:
    the parsing and the verification of [metadata.jwt], the generator
    [OTAMetadata.download_metafiles] with the downloads it asks for, and the
    download information of one resource.  The generator is written as the
    sequence of what it does between its [yield]s; [fetch] is the caller,
    which downloads what is asked for.  Base64, JSON text, the certificate
    library, the integer conversion of pydantic and [urljoin] are parameters. *)

From stdpp Require Import base gmap strings list option sets.
From Stdlib Require Import ZArith String Ascii Lia.
From S2P Require Import Prelude CacheControlHeader Errors CacheIndex CacheStreaming OTACache Downloader CertStore LegacyCSV.

(** [DownloadInfo] *)
Record DownloadInfo : Type := mkDownloadInfo {
  di_url : string;
  di_dst : string;
  di_original_size : Z;
  di_digest_alg : option string;
  di_digest : option string;
  di_compression_alg : option string;
  di_resume : bool;
}.

(** What downloading promises to the metadata: what was downloaded has the
    digest that was asked for. *)
Class VerifiedFetch (hexdigest : string -> string) (fetch : DownloadInfo -> result pyexn string) : Prop :=
  fetch_verified i content d :
    fetch i = Ok content -> di_digest i = Some d -> d <> EmptyString -> hexdigest content = d.

Definition sign_cert_invalid : pyexn := PyExn (XOther "SignCertInvalid") [] None None.
Definition image_metadata_invalid (msg : string) : pyexn :=
  PyExn (XOther "ImageMetadataInvalid") [AStr msg] None None.
Definition no_ca_store_available : pyexn := PyExn (XOther "NoCAStoreAvailable") [] None None.

(** ** The claims of [metadata.jwt] *)

#[local] Set Warnings "-register-all".
Inductive json : Type :=
| JNull
| JBool (b : bool)
| JInt (n : Z)
| JFloat (text : string)
| JStr (s : string)
| JArray (l : list json)
| JObject (fields : list (string * json)).

Record MetaFile : Type := mkMetaFile { mf_file : string; mf_hash : string }.

(** [MetafilesV1.check_field_name_is_member] *)
Definition is_metafile (k : string) : bool :=
  bool_decide (k ∈ ["regular"; "directory"; "symboliclink"; "persistent"; "certificate"]%string).

Definition SCHEME_VERSION : Z := 1.
Definition VERSION_KEY : string := "version".

(** [str(v) == str(SCHEME_VERSION)] *)
Definition is_scheme_version (v : json) : bool :=
  match v with JInt n => n =? SCHEME_VERSION | JStr s => String.eqb s "1" | _ => false end.

Inductive claim_value : Type := CFile (m : MetaFile) | CValue (v : json).

(** [MetadataJWTClaimsLayout] *)
Record claims : Type := mkClaims {
  cl_version : Z;
  cl_total_regular_size : Z;
  cl_rootfs_directory : string;
  cl_compressed_rootfs_directory : string;
  cl_certificate : MetaFile;
  cl_directory : MetaFile;
  cl_symboliclink : MetaFile;
  cl_regular : MetaFile;
  cl_persistent : MetaFile;
}.

Definition as_file (c : option claim_value) : option MetaFile :=
  match c with Some (CFile m) => Some m | _ => None end.
Definition as_str (c : option claim_value) : option string :=
  match c with Some (CValue (JStr s)) => Some s | _ => None end.

Section Claims.
(** The conversion of pydantic to an [int] field. *)
Context (to_int : json -> option Z).

(** [model_validate] on the collected fields. *)
Definition model_validate (d : pydict claim_value) : option claims :=
  let int_of k := match dict_get k d with Some (CValue v) => to_int v | _ => None end in
  version ← int_of "version"%string;
  total ← (if dict_mem "total_regular_size" d then int_of "total_regular_size"%string else Some 0);
  rootfs ← as_str (dict_get "rootfs_directory" d);
  compressed ← (if dict_mem "compressed_rootfs_directory" d
                then as_str (dict_get "compressed_rootfs_directory" d) else Some EmptyString);
  certificate ← as_file (dict_get "certificate" d);
  directory ← as_file (dict_get "directory" d);
  symboliclink ← as_file (dict_get "symboliclink" d);
  regular ← as_file (dict_get "regular" d);
  persistent ← as_file (dict_get "persistent" d);
  Some (mkClaims version total rootfs compressed certificate directory symboliclink regular persistent).

(** The inner loop, over the items of one object. *)
Fixpoint collect_fields (field_dict items : list (string * json)) (acc : pydict claim_value) :
    result pyexn (pydict claim_value) :=
  match items with
  | [] => Ok acc
  | (k, v) :: items =>
      if is_metafile k then
        match v, dict_get "hash" field_dict with
        | JStr f, Some (JStr h) => Ok (dict_set k (CFile (mkMetaFile f h)) acc)
        | _, None => Raise (PyExn (XOther "KeyError") [AStr "hash"] None None)
        | _, _ => Raise (PyExn (XOther "ValidationError") [] None None)
        end
      else if String.eqb k VERSION_KEY && negb (is_scheme_version v)
      then Raise (image_metadata_invalid "expecting version 1")
      else collect_fields field_dict items (dict_set k (CValue v) acc)
  end.

Fixpoint collect_claims (l : list json) (acc : pydict claim_value) : result pyexn (pydict claim_value) :=
  match l with
  | [] => Ok acc
  | JObject fields :: l =>
      match collect_fields fields fields acc with
      | Ok acc => collect_claims l acc
      | Raise e => Raise e
      end
  | _ :: _ => Raise (PyExn XAttributeError [] None None)
  end.

(** [parse_payload], given what [json.loads] returned, if it did. *)
Definition parse_payload (payload : option json) : result pyexn claims :=
  match payload with
  | None => Raise (image_metadata_invalid "metadata.jwt doesn't contain valid json payload")
  | Some (JArray ((_ :: _) as l)) =>
      match collect_claims l [] with
      | Raise e => Raise e
      | Ok d =>
          match model_validate d with
          | Some c => Ok c
          | None => Raise (image_metadata_invalid "metadata.jwt payload validation failed")
          end
      end
  | Some _ => Raise (image_metadata_invalid "metadata.jwt v1 is a list of JSON object")
  end.
End Claims.

(** ** The parser and the session *)

(** [MetadataJWTParser], once built. *)
Record jwt_parser : Type := mkJwtParser {
  jp_metadata_bytes : string;
  jp_metadata_signature : string;
  jp_metadata_jwt : claims;
}.

(** [OTAMetadata]; the databases are those of the session directory. *)
Record OTAMetadata : Type := mkOTAMetadata {
  om_metadata_jwt : option claims;
  om_total_regulars_num : Z;
  om_total_dirs_num : Z;
  om_total_symlinks_num : Z;
  om_total_regulars_size : Z;
  om_db : ft_db;
  om_persists : option string;            (** [persists.txt] of the session *)
  om_asked : list DownloadInfo;           (** what was yielded so far *)
}.

#[export] Instance eta_OTAMetadata : Eta OTAMetadata := fun r =>
  mkOTAMetadata (om_metadata_jwt r) (om_total_regulars_num r) (om_total_dirs_num r)
    (om_total_symlinks_num r) (om_total_regulars_size r) (om_db r) (om_persists r) (om_asked r).

(** [OTAMetadata.__init__] *)
Definition new_OTAMetadata (store : pydict CAChain) : result pyexn OTAMetadata :=
  match store with
  | [] => Raise no_ca_store_available
  | _ => Ok (mkOTAMetadata None 0 0 0 0 empty_db None [])
  end.

Definition ENTRY_POINT : string := "metadata.jwt".
Definition DIGEST_ALG : string := "sha256".
Definition PERSIST_META_FNAME : string := "persists.txt".

(** The lines of a text file, by universal newlines. *)
Fixpoint universal_newlines (s : string) : string :=
  match s with
  | String "013" (String "010" r) => String "010" (universal_newlines r)
  | String "013" r => String "010" (universal_newlines r)
  | String a r => String a (universal_newlines r)
  | EmptyString => EmptyString
  end.

Definition text_lines (s : string) : list string :=
  let l := py_split "010" (universal_newlines s) in
  match list.last l with Some EmptyString => removelast l | _ => l end.

Section Metadata.
Context (b64 : string -> option string) (json_loads : string -> option json).
Context (to_int : json -> option Z).
Context (load_pem : string -> option Certificate).
Context (issued_by : Certificate -> Certificate -> bool).
(** [cert.public_key().verify(signature, data, ES256)] returns. *)
Context (signature_ok : Certificate -> string -> string -> bool).
Context (urljoin : string -> string -> string).
Context (base_url : string) (now : Z) (store : pydict CAChain).

Abbreviation MD := (PyM OTAMetadata pyexn).

Definition urljoin_ensure_base (base url : string) : string :=
  urljoin (rstrip_by (Ascii.eqb "/") base +:+ "/")%string url.

Definition b64_error : pyexn := PyExn XValueError [] None None.

(** [MetadataJWTParser.__init__] *)
Definition new_jwt_parser (metadata_jwt : string) : result pyexn jwt_parser :=
  match py_split "." metadata_jwt with
  | header :: payload :: signature :: _ =>
      match b64 signature, b64 header, b64 payload with
      | Some sg, Some _, Some body =>
          match parse_payload to_int (json_loads body) with
          | Ok c => Ok (mkJwtParser (header +:+ "." +:+ payload)%string sg c)
          | Raise e => Raise e
          end
      | _, _, _ => Raise b64_error
      end
  | _ => Raise (PyExn (XOther "IndexError") [] None None)
  end.

(** [verify_metadata_cert] *)
Definition verify_metadata_cert (cert : string) : result pyexn unit :=
  match store with
  | [] => Raise no_ca_store_available
  | _ =>
      match load_pem cert with
      | None => Raise sign_cert_invalid
      | Some c =>
          match store_verify issued_by now store c with
          | Some _ => Ok tt
          | None => Raise sign_cert_invalid
          end
      end
  end.

(** [verify_metadata_signature] *)
Definition verify_metadata_signature (p : jwt_parser) (cert : string) : result pyexn unit :=
  match load_pem cert with
  | Some c =>
      if signature_ok c (jp_metadata_signature p) (jp_metadata_bytes p) then Ok tt
      else Raise (image_metadata_invalid "failed to verify metadata against sign cert")
  | None => Raise (image_metadata_invalid "failed to verify metadata against sign cert")
  end.

(** The caller: downloads what is asked for. *)
Context (fetch : DownloadInfo -> result pyexn string).

Definition ask (l : list DownloadInfo) : MD unit := modify (fun m => m <| om_asked := om_asked m ++ l |>).

Definition metafile_info (f : MetaFile) (dst : string) : DownloadInfo :=
  mkDownloadInfo (urljoin_ensure_base base_url (mf_file f)) dst 0 (Some DIGEST_ALG) (Some (mf_hash f)) None false.

(** [_prepare_metadata] *)
Definition prepare_metadata : MD unit :=
  let entry := mkDownloadInfo (urljoin_ensure_base base_url ENTRY_POINT) ENTRY_POINT 0 None None None false in
  _ ← ask [entry];
  text ← from_result (fetch entry);
  parser ← from_result (new_jwt_parser text);
  let jwt := jp_metadata_jwt parser in
  let cert_info := metafile_info (cl_certificate jwt) (mf_file (cl_certificate jwt)) in
  _ ← ask [cert_info];
  cert_bytes ← from_result (fetch cert_info);
  _ ← from_result (verify_metadata_cert cert_bytes);
  _ ← from_result (verify_metadata_signature parser cert_bytes);
  modify (fun m => m <| om_total_regulars_size := cl_total_regular_size jwt |>
                     <| om_metadata_jwt := Some jwt |>).

(** The property [metadata_jwt]. *)
Definition get_metadata_jwt : MD claims :=
  jwt ← gets om_metadata_jwt;
  match jwt with
  | Some jwt => mret jwt
  | None => raise (PyExn XValueError [AStr "metadata_jwt is not ready yet!"] None None)
  end.

Definition csv_exn (e : csv_error) : pyexn :=
  match e with
  | AssertionError line => PyExn (XOther "AssertionError") [AStr line] None None
  | ValueError => PyExn XValueError [] None None
  end.

(** Parsing into the databases of the session. *)
Definition run_csv {A} (m : CSV A) : MD A := fun st =>
  let '(db, r) := m (om_db st) in
  (st <| om_db := db |>, match r with Ok a => Ok a | Raise e => Raise (csv_exn e) end).

(** [_prepare_ota_image_metadata] *)
Definition prepare_ota_image_metadata : MD unit :=
  jwt ← get_metadata_jwt;
  let regular := metafile_info (cl_regular jwt) (mf_file (cl_regular jwt)) in
  let dir := metafile_info (cl_directory jwt) (mf_file (cl_directory jwt)) in
  let symlink := metafile_info (cl_symboliclink jwt) (mf_file (cl_symboliclink jwt)) in
  _ ← ask [regular; dir; symlink];
  regulars ← from_result (fetch regular);
  dirs ← from_result (fetch dir);
  symlinks ← from_result (fetch symlink);
  reg ← run_csv (parse_regulars_from_csv_file (text_lines regulars) 1);
  _ ← modify (fun m => m <| om_total_regulars_num := fst reg |>);
  dr ← run_csv (parse_dirs_from_csv_file (text_lines dirs) (snd reg));
  _ ← modify (fun m => m <| om_total_dirs_num := fst dr |>);
  sym ← run_csv (parse_symlinks_from_csv_file (text_lines symlinks) (snd dr));
  modify (fun m => m <| om_total_symlinks_num := fst sym |>).

(** [_prepare_persist_meta] *)
Definition prepare_persist_meta : MD unit :=
  jwt ← get_metadata_jwt;
  let info := metafile_info (cl_persistent jwt) PERSIST_META_FNAME in
  _ ← ask [info];
  text ← from_result (fetch info);
  modify (fun m => m <| om_persists := Some text |>).

(** [download_metafiles]; the download directory is removed on every path. *)
Definition download_metafiles (only_metadata_verification : bool) : MD unit :=
  _ ← prepare_metadata;
  if only_metadata_verification then mret tt
  else
    _ ← prepare_ota_image_metadata;
    prepare_persist_meta.

(** [iter_persist_entries] *)
Definition iter_persist_entries (m : OTAMetadata) : option (list string) :=
  (fun t => map (fun line => str_inner (strip line)) (text_lines t)) <$> om_persists m.
End Metadata.

(** ** Resources *)

Definition SUPORTED_COMPRESSION_TYPES : list string := ["zst"; "zstd"]%string.

Section Resource.
Context (urljoin : string -> string -> string).
(** [quote(os.path.relpath(path, "/"))] *)
Context (quoted_relpath : string -> string).

(** [ResourceMeta]: the URLs, and the resource table. *)
Record ResourceMeta : Type := mkResourceMeta {
  rmeta_data_dir_url : string;
  rmeta_compressed_data_dir_url : option string;
  rmeta_copy_dst : string;
  rmeta_rs : list ResourceTable;
}.

Definition new_ResourceMeta (base_url copy_dst : string) (jwt : claims) (rs : list ResourceTable) : ResourceMeta :=
  mkResourceMeta (urljoin_ensure_base urljoin base_url (cl_rootfs_directory jwt))
    (if str_truthy (cl_compressed_rootfs_directory jwt)
     then Some (urljoin_ensure_base urljoin base_url (cl_compressed_rootfs_directory jwt)) else None)
    copy_dst rs.

Definition find_resource (digest : list N) (rs : list ResourceTable) : option ResourceTable :=
  List.find (fun r => bool_decide (rst_digest r = digest)) rs.

(** The file stored under its own path. *)
Definition plain_download_info (rm : ResourceMeta) (r : ResourceTable) : result pyexn DownloadInfo :=
  match rst_path r with
  | Some (String _ _ as path) =>
      Ok (mkDownloadInfo (urljoin_ensure_base urljoin (rmeta_data_dir_url rm) (quoted_relpath path))
            (rmeta_copy_dst rm +:+ "/" +:+ hex_of (rst_digest r))%string
            (rst_original_size r) (Some DIGEST_ALG) (Some (hex_of (rst_digest r))) None false)
  | _ => Raise (PyExn (XOther "AssertionError") [] None None)
  end.

(** [get_download_info] *)
Definition get_download_info (rm : ResourceMeta) (digest : list N) : result pyexn DownloadInfo :=
  match find_resource digest (rmeta_rs rm) with
  | None => Raise (PyExn XAttributeError [] None None)
  | Some r =>
      let digest_str := hex_of (rst_digest r) in
      match rmeta_compressed_data_dir_url rm, rst_compression_alg r with
      | Some (String _ _ as url), Some alg =>
          if bool_decide (alg ∈ SUPORTED_COMPRESSION_TYPES) then
            Ok (mkDownloadInfo (urljoin_ensure_base urljoin url (digest_str +:+ "." +:+ alg)%string)
                  (rmeta_copy_dst rm +:+ "/" +:+ digest_str)%string
                  (rst_original_size r) (Some DIGEST_ALG) (Some digest_str) (Some alg) false)
          else plain_download_info rm r
      | _, _ => plain_download_info rm r
      end
  end.
End Resource.

(** ** Properties *)

Section MetadataProperties.
Context (b64 : string -> option string) (json_loads : string -> option json) (to_int : json -> option Z).
Context (load_pem : string -> option Certificate) (issued_by : Certificate -> Certificate -> bool).
Context (signature_ok : Certificate -> string -> string -> bool).
Context (urljoin : string -> string -> string) (base_url : string) (now : Z) (store : pydict CAChain).
Context (fetch : DownloadInfo -> result pyexn string).

Local Abbreviation prepare := (prepare_metadata b64 json_loads to_int load_pem issued_by signature_ok
  urljoin base_url now store fetch).
Local Abbreviation run := (download_metafiles b64 json_loads to_int load_pem issued_by signature_ok
  urljoin base_url now store fetch).

(** The claims come from a [metadata.jwt] that a certificate the CA store
    accepts has signed. *)
Definition trusted_claims (jwt : claims) : Prop :=
  exists text parser cert_text cert chain,
    new_jwt_parser b64 json_loads to_int text = Ok parser /\ jp_metadata_jwt parser = jwt /\
    fetch (metafile_info urljoin base_url (cl_certificate jwt) (mf_file (cl_certificate jwt))) = Ok cert_text /\
    load_pem cert_text = Some cert /\ store_verify issued_by now store cert = Some chain /\
    signature_ok cert (jp_metadata_signature parser) (jp_metadata_bytes parser) = true.

(** Nothing of the image has been looked at. *)
Definition untouched (m m' : OTAMetadata) : Prop :=
  om_metadata_jwt m' = om_metadata_jwt m /\ om_db m' = om_db m /\ om_persists m' = om_persists m.

Lemma prepare_metadata_spec m m' r :
  prepare m = (m', r) ->
  match r with
  | Ok _ => exists jwt, om_metadata_jwt m' = Some jwt /\ trusted_claims jwt /\
      om_db m' = om_db m /\ om_persists m' = om_persists m
  | Raise _ => untouched m m'
  end.
Proof.
  unfold prepare_metadata. unfold mbind at 1, pym_bind at 1, ask at 1, modify at 1.
  unfold mbind at 1, pym_bind at 1, from_result at 1. destruct (fetch _) as [text|e] eqn:Ef;
    [|by intros [= <- <-]].
  unfold mbind at 1, pym_bind at 1, from_result at 1.
  destruct (new_jwt_parser b64 json_loads to_int text) as [parser|e] eqn:Ep; [|by intros [= <- <-]].
  unfold mbind at 1, pym_bind at 1, ask at 1, modify at 1.
  unfold mbind at 1, pym_bind at 1, from_result at 1. destruct (fetch (metafile_info _ _ _ _)) as [cert_text|e] eqn:Ec;
    [|by intros [= <- <-]].
  unfold mbind at 1, pym_bind at 1, from_result at 1.
  destruct (verify_metadata_cert load_pem issued_by now store cert_text) as [[]|e] eqn:Ev; [|by intros [= <- <-]].
  unfold mbind at 1, pym_bind at 1, from_result at 1.
  destruct (verify_metadata_signature load_pem signature_ok parser cert_text) as [[]|e] eqn:Es; [|by intros [= <- <-]].
  intros [= <- <-]. simpl. eexists. split; [done|]. split; [|done].
  unfold verify_metadata_cert in Ev. destruct store as [|x st] eqn:Est; [done|]. rewrite <- Est in *.
  unfold verify_metadata_signature in Es.
  destruct (load_pem cert_text) as [cert|] eqn:El; [|done].
  destruct (store_verify issued_by now store cert) as [ch|] eqn:Esv; [|done].
  destruct (signature_ok cert _ _) eqn:Eok; [|done].
  exists text, parser, cert_text, cert, ch. by split_and!.
Qed.

Lemma csv_part_keeps {A} (m : CSV A) : keeps (fun x y => om_metadata_jwt y = om_metadata_jwt x) (run_csv m).
Proof. intros st. unfold run_csv. by destruct (m (om_db st)). Qed.

#[local] Instance same_jwt_preorder :
  PreOrder (fun x y : OTAMetadata => om_metadata_jwt y = om_metadata_jwt x).
Proof. split; [done|]. intros x y z H1 H2. congruence. Qed.

(** After the verification, the claims do not change. *)
Lemma image_metadata_keeps :
  keeps (fun x y => om_metadata_jwt y = om_metadata_jwt x)
    (_ ← prepare_ota_image_metadata urljoin base_url fetch; prepare_persist_meta urljoin base_url fetch).
Proof.
  unfold prepare_ota_image_metadata, prepare_persist_meta, get_metadata_jwt, ask.
  repeat first [ apply keeps_bind; [exact _| |intros] | apply keeps_from_result; exact _
               | apply keeps_gets; exact _ | apply csv_part_keeps
               | apply keeps_modify; intros; reflexivity | apply keeps_ret; exact _
               | apply keeps_raise; exact _
               | match goal with |- keeps _ (match ?x with _ => _ end) => destruct x end ].
Qed.

(** C3. The metadata of an image is trusted before it is used: whatever way
    [download_metafiles] ends, either the claims it left are those of a
    [metadata.jwt] whose signature verifies with a certificate that the CA
    store accepts, the one named in the claims, or it left none, and then it
    failed, and the file table and the list of persistent files are as
    before. *)
Theorem metadata_trusted_before_use only m m' r :
  om_metadata_jwt m = None -> run only m = (m', r) ->
  (exists jwt, om_metadata_jwt m' = Some jwt /\ trusted_claims jwt) \/
  ((exists e, r = Raise e) /\ untouched m m').
Proof.
  intros Hn. unfold download_metafiles. unfold mbind at 1, pym_bind at 1.
  destruct (prepare m) as [m1 [[]|e]] eqn:Ep; apply prepare_metadata_spec in Ep.
  - destruct Ep as (jwt & Hj & Ht & _). intros H. left. exists jwt. split; [|done].
    destruct only; [by injection H as <- <-|].
    pose proof (image_metadata_keeps m1) as Hk. cbv beta in Hk. rewrite H in Hk. simpl in Hk. congruence.
  - intros [= <- <-]. right. eauto.
Qed.

Lemma run_csv_ok {A} (m : CSV A) st st' a :
  run_csv m st = (st', Ok a) -> exists db, m (om_db st) = (db, Ok a) /\ st' = st <| om_db := db |>.
Proof.
  unfold run_csv. destruct (m (om_db st)) as [db [x|e]]; [|done]. intros [= <- <-]. eauto.
Qed.

Context (hexdigest : string -> string) `{!VerifiedFetch hexdigest fetch}.

(** The text of a metafile that was downloaded, by its hash in the claims. *)
Definition has_hash (f : MetaFile) (text : string) : Prop :=
  mf_hash f <> EmptyString -> hexdigest text = mf_hash f.

Lemma fetch_metafile f dst text : fetch (metafile_info urljoin base_url f dst) = Ok text -> has_hash f text.
Proof. intros H Hne. by eapply fetch_verified. Qed.

(** C22. The file table is that of the signed image: when
    [download_metafiles] returns on a new session, the file table is what
    parsing three texts gives, the texts and the list of persistent files
    have the hashes of the signed claims, and the reported numbers of
    entries are those of the lines. *)
Theorem downloaded_metafiles_match_claims m m' :
  om_db m = empty_db -> run false m = (m', Ok tt) ->
  exists jwt regulars dirs symlinks persists,
    om_metadata_jwt m' = Some jwt /\ trusted_claims jwt /\
    has_hash (cl_regular jwt) regulars /\ has_hash (cl_directory jwt) dirs /\
    has_hash (cl_symboliclink jwt) symlinks /\ has_hash (cl_persistent jwt) persists /\
    parse_metafiles (text_lines regulars) (text_lines dirs) (text_lines symlinks) empty_db =
      (om_db m', Ok (om_total_regulars_num m', om_total_dirs_num m', om_total_symlinks_num m')) /\
    om_persists m' = Some persists.
Proof.
  intros Hdb H. unfold download_metafiles in H. apply pym_bind_ok in H as (m1 & [] & E & H).
  apply prepare_metadata_spec in E as (jwt & Hj & Ht & Hd1 & _). rewrite Hdb in Hd1.
  apply pym_bind_ok in H as (m2 & [] & E & H). unfold prepare_ota_image_metadata in E.
  apply pym_bind_ok in E as (s1 & jwt1 & E1 & E). unfold get_metadata_jwt in E1.
  apply pym_bind_ok in E1 as (s0 & j & E0 & E1). injection E0 as <- <-. rewrite Hj in E1. injection E1 as <- <-.
  apply pym_bind_ok in E as (s1 & [] & E1 & E). injection E1 as <-.
  apply pym_bind_ok in E as (s1 & regulars & E1 & E). injection E1 as <- F1.
  apply pym_bind_ok in E as (s1 & dirs & E1 & E). injection E1 as <- F2.
  apply pym_bind_ok in E as (s1 & symlinks & E1 & E). injection E1 as <- F3.
  apply pym_bind_ok in E as (s1 & [n next] & E1 & E). apply run_csv_ok in E1 as (db1 & P1 & ->).
  apply pym_bind_ok in E as (s1 & [] & E1 & E). injection E1 as <-.
  apply pym_bind_ok in E as (s1 & [d next2] & E1 & E). apply run_csv_ok in E1 as (db2 & P2 & ->).
  apply pym_bind_ok in E as (s1 & [] & E1 & E). injection E1 as <-.
  apply pym_bind_ok in E as (s1 & [sy next3] & E1 & E). apply run_csv_ok in E1 as (db3 & P3 & ->).
  injection E as <-. cbn in P1, P2, P3. rewrite Hd1 in P1.
  unfold prepare_persist_meta in H. apply pym_bind_ok in H as (s1 & j & E1 & H).
  unfold get_metadata_jwt in E1. apply pym_bind_ok in E1 as (s0 & j0 & E0 & E1). injection E0 as <- <-.
  cbn in E1. rewrite Hj in E1. injection E1 as <- <-.
  apply pym_bind_ok in H as (s1 & [] & E1 & H). injection E1 as <-.
  apply pym_bind_ok in H as (s1 & persists & E1 & H). injection E1 as <- F4. injection H as <-.
  exists jwt, regulars, dirs, symlinks, persists. cbn.
  split_and!; try done; try (by eapply fetch_metafile).
  unfold parse_metafiles, mbind, pym_bind, mret, pym_ret. rewrite P1. cbn. rewrite P2. cbn. by rewrite P3.
Qed.
End MetadataProperties.

(** ** The downloader as the caller *)

Section FetchByDownload.
Context (hexdigest : bytes -> string) (chunk_size : nat) (proxies force_http : bool).
Context (http_get : nat -> string -> option (pydict string) -> result pyexn http_response).
Context (decompress : http_response -> list (bytes * Z) * option zstd_failure).

(** A new file at the destination, read as text. *)
Definition fetch_by_download (i : DownloadInfo) : result pyexn string :=
  let args := mkDlArgs (di_url i) (Some (di_original_size i)) (di_digest i) None (di_compression_alg i) 0 in
  match download hexdigest chunk_size proxies force_http http_get decompress args (mkDlState None 0) with
  | (s, Ok _) => Ok (string_of_list_byte (default [] (dl_dst s)))
  | (_, Raise e) => Raise e
  end.

(** The downloader keeps the promise the metadata relies on. *)
#[export] Instance download_is_verified :
  (0 < chunk_size)%nat ->
  VerifiedFetch (fun text => hexdigest (list_byte_of_string text)) fetch_by_download.
Proof.
  intros Hc i content d. unfold fetch_by_download.
  destruct (download _ _ _ _ _ _ _ _) as [s [r|e]] eqn:E; [|done]. intros [= <-] Hd Hne.
  apply download_ok in E as (n & a' & s1 & _ & Hdig & E); [|done].
  apply download_once_ok in E as (f & Hf & _ & _ & Hv); [|done]. rewrite Hf. cbn [default]. unfold id.
  rewrite list_byte_of_string_of_list_byte. rewrite Hdig in Hv. cbn in Hv. rewrite Hd in Hv.
  specialize (Hv ltac:(by destruct d)). by injection Hv as ->.
Qed.
End FetchByDownload.

(** ** A concrete session *)

(** Each metafile is its own hash, so that a server can answer by it. *)
Definition example_claims_json : json :=
  let entry k f h := JObject [(k, JStr f); ("hash"%string, JStr h)] in
  JArray [JObject [("version"%string, JInt 1)];
          entry "directory"%string "dirs.txt"%string "0755,0,0,'/'"%string;
          entry "symboliclink"%string "symlinks.txt"%string "0777,0,0,'l','a'"%string;
          entry "regular"%string "regulars.txt"%string "0644,0,0,1,ab01,'a',5,7"%string;
          entry "persistent"%string "persistents.txt"%string "'/etc/hosts'"%string;
          entry "certificate"%string "sign.pem"%string "cert"%string;
          JObject [("rootfs_directory"%string, JStr "data"%string)]].

Definition example_to_int (v : json) : option Z := match v with JInt n => Some n | _ => None end.
Definition example_json_loads (_ : string) : option json := Some example_claims_json.
Definition example_load_pem (t : string) : option Certificate :=
  if String.eqb t "cert" then Some example_leaf else None.
Definition example_fetch (i : DownloadInfo) : result pyexn string :=
  Ok (default "header.payload.signature"%string (di_digest i)).

#[export] Instance example_fetch_verified : VerifiedFetch id example_fetch.
Proof. intros i content d [= <-] -> _. reflexivity. Qed.

Definition example_start : OTAMetadata := mkOTAMetadata None 0 0 0 0 empty_db None [].
Local Abbreviation example_run := (download_metafiles Some example_json_loads example_to_int example_load_pem
  example_issued (fun _ _ _ => true) String.append "http://image" 50 example_store example_fetch false example_start).
Definition example_session : OTAMetadata := fst example_run.

Lemma example_run_ok : example_run = (example_session, Ok tt).
Proof. vm_compute. reflexivity. Qed.

Lemma metadata_trusted_before_use_witness :
  exists jwt, om_metadata_jwt example_session = Some jwt /\ mf_file (cl_regular jwt) = "regulars.txt"%string.
Proof.
  destruct (metadata_trusted_before_use Some example_json_loads example_to_int example_load_pem example_issued
    (fun _ _ _ => true) String.append "http://image" 50 example_store example_fetch false
    example_start example_session (Ok tt) eq_refl example_run_ok) as [(jwt & Hj & _)|[[e He] _]].
  - exists jwt. split; [exact Hj|]. vm_compute in Hj. injection Hj as <-. reflexivity.
  - discriminate.
Defined.

Lemma downloaded_metafiles_match_claims_witness :
  exists jwt regulars, om_metadata_jwt example_session = Some jwt /\
    id regulars = mf_hash (cl_regular jwt) /\ om_total_regulars_num example_session = 1.
Proof.
  destruct (downloaded_metafiles_match_claims Some example_json_loads example_to_int example_load_pem example_issued
    (fun _ _ _ => true) String.append "http://image" 50 example_store example_fetch id
    example_start example_session eq_refl example_run_ok)
    as (jwt & regulars & _ & _ & _ & Hj & _ & Hh & _).
  exists jwt, regulars. split; [exact Hj|]. split; [|vm_compute; reflexivity].
  apply Hh. vm_compute in Hj. injection Hj as <-. discriminate.
Defined.

(** The list of persistent files is not un-escaped, unlike the other paths. *)
Example persist_entries_not_unescaped :
  iter_persist_entries (example_session <| om_persists := Some "'/etc/it'\''s'"%string |>) =
    Some ["/etc/it'\''s"]%string /\
  parse_persists_csv_line "'/etc/it'\''s'" = "/etc/it's"%string.
Proof. split; vm_compute; reflexivity. Qed.
