(* ===== verification/SlotPaths.v ===== *)
(** * Path resolution on the standby slot

    What the operating system does with a path below the mount point of the
    slot: the directories on the way are looked up one after the other, a
    symbolic link on the way is followed, a missing one is [ENOENT], a file
    [ENOTDIR].  Used by the model of
    [src/src/ota_metadata/file_table/utils.py].

    A path is cut into parts that start with the slash, so the path of a node
    is its parts put together; the mount point itself is [/].  An absolute
    link, or a [..] at the mount point, leads out of the slot: links are
    resolved by the running system, whose root is not the slot. *)

From stdpp Require Import base strings list option.
From Stdlib Require Import ZArith String Ascii Lia.
From S2P Require Import Prelude.

#[local] Open Scope string_scope.

(** What is at a path. *)
Inductive kind : Type :=
| KDir
| KLink (target : string)
| KOther.

(** Where a path leads. *)
Inductive place : Type :=
| Here (p : string)
| Outside
| Bad (errno : Z).

Definition absolute (s : string) : bool :=
  match s with String c _ => Ascii.eqb c "/" | EmptyString => false end.

(** [/a/b] is [/a] and [/b]. *)
Fixpoint cut_path (s : string) : list string :=
  match s with
  | EmptyString => []
  | String c r =>
      match cut_path r with
      | [] => [String c EmptyString]
      | p :: ps => if absolute p then String c EmptyString :: p :: ps else String c p :: ps
      end
  end.

Fixpoint join_parts (l : list string) : string :=
  match l with [] => EmptyString | c :: l => c ++ join_parts l end.

Definition is_dot (c : string) : bool := String.eqb c "/" || String.eqb c "/.".
Definition is_dotdot (c : string) : bool := String.eqb c "/..".

(** The parts of a [Path]: empty ones and dots are dropped, [..] stays. *)
Definition path_parts (s : string) : list string := List.filter (fun c => negb (is_dot c)) (cut_path s).

Definition root_name (p : string) : string := match p with EmptyString => "/" | _ => p end.
Definition path_of (l : list string) : string := root_name (join_parts l).

(** [Path(p).relative_to("/")] raises for a path whose root is not [/]: a
    relative path, and one that starts with exactly two slashes. *)
Definition below_root (s : string) : bool :=
  match s with
  | String a (String b (String c _)) =>
      Ascii.eqb a "/" && (negb (Ascii.eqb b "/") || Ascii.eqb c "/")
  | String a (String b EmptyString) => Ascii.eqb a "/" && negb (Ascii.eqb b "/")
  | String a EmptyString => Ascii.eqb a "/"
  | EmptyString => false
  end.

(** As many links as the kernel follows. *)
Definition MAX_LINKS : nat := 40.
Definition E_NOENT : Z := 2.
Definition E_NOTDIR : Z := 20.
Definition E_LOOP : Z := 40.

Section Walk.
Context (look : string -> option kind) (follow : bool).

(** [follow]: whether a link at the end of the path is followed. *)
Fixpoint walk_path (links : nat) : string -> list string -> place :=
  fix go (cur : string) (parts : list string) : place :=
    match parts with
    | [] => Here cur
    | c :: rest =>
        if is_dot c then go cur rest
        else if is_dotdot c then
          match cur with
          | EmptyString => Outside
          | _ => go (join_parts (removelast (cut_path cur))) rest
          end
        else
          let p := cur ++ c in
          let last := match rest with [] => true | _ => false end in
          match look p with
          | Some KDir => go p rest
          | Some (KLink t) =>
              if last && negb follow then Here p
              else if absolute t then Outside
              else match links with
                   | O => Bad E_LOOP
                   | S links => walk_path links cur (app (cut_path ("/" ++ t)) rest)
                   end
          | Some KOther => if last then Here p else Bad E_NOTDIR
          | None => if last then Here p else Bad E_NOENT
          end
    end.

Definition locate (parts : list string) : place :=
  match walk_path MAX_LINKS EmptyString parts with Here p => Here (root_name p) | x => x end.
End Walk.

(** ** Canonical paths *)

Definition plain_part (c : string) : bool := absolute c && negb (is_dot c) && negb (is_dotdot c).

(** No dots, no doubled or trailing slash. *)
Definition canonical_path (p : string) : bool :=
  below_root p && String.eqb (path_of (path_parts p)) p && forallb plain_part (path_parts p).

(** The directories above a path, the outermost first; not the root. *)
Definition above_parts (l : list string) : list string := map (fun k => path_of (take k l)) (seq 1 (List.length l - 1)).
Definition above (p : string) : list string := above_parts (path_parts p).

Definition is_link_kind (k : option kind) : Prop := match k with Some (KLink _) => True | _ => False end.

Section Lemmas.
Lemma append_assoc (a b c : string) : a ++ (b ++ c) = (a ++ b) ++ c.
Proof. induction a as [|x a IH]; [done|]. change (String x (a ++ (b ++ c)) = String x ((a ++ b) ++ c)). by rewrite IH. Qed.

Lemma append_nil (a : string) : a ++ EmptyString = a.
Proof. induction a as [|x a IH]; [done|]. change (String x (a ++ EmptyString) = String x a). by rewrite IH. Qed.

Lemma plain_not_dot c : plain_part c = true -> is_dot c = false /\ is_dotdot c = false /\ absolute c = true.
Proof. unfold plain_part. rewrite !andb_true_iff, !negb_true_iff. tauto. Qed.

Lemma join_nonempty c l : plain_part c = true -> exists x r, join_parts (c :: l) = String x r.
Proof. intros (_ & _ & H)%plain_not_dot. destruct c as [|x c]; [done|]. by exists x, (c ++ join_parts l). Qed.

Lemma path_of_join c l : plain_part c = true -> path_of (c :: l) = join_parts (c :: l).
Proof. intros H. unfold path_of. by destruct (join_nonempty c l H) as (x & r & ->). Qed.

Lemma in_above l a :
  a ∈ above_parts l <-> exists k, (1 <= k < List.length l)%nat /\ a = path_of (take k l).
Proof.
  unfold above_parts. rewrite list_elem_of_fmap. setoid_rewrite elem_of_seq. split.
  - intros (k & -> & Hk). exists k. split; [lia|done].
  - intros (k & Hk & ->). exists k. split; [done|lia].
Qed.

(** Above a shorter path there is less. *)
Lemma above_take n l a : a ∈ above_parts (take n l) -> a ∈ above_parts l.
Proof.
  rewrite !in_above. intros (k & Hk & ->). exists k. rewrite length_take in Hk. split; [lia|].
  by rewrite take_take, Nat.min_l by lia.
Qed.

Lemma take_plain n l : forallb plain_part l = true -> forallb plain_part (take n l) = true.
Proof.
  rewrite !forallb_forall. intros H c Hc. apply H. rewrite <- (take_drop n l). apply in_or_app. by left.
Qed.

(** Without links on the way, the path leads to itself or nowhere. *)
Lemma walk_lands look follow links cur l :
  forallb plain_part l = true -> l <> [] ->
  (forall k, (1 <= k < List.length l)%nat -> ~ is_link_kind (look (cur ++ join_parts (take k l)))) ->
  (follow = true -> ~ is_link_kind (look (cur ++ join_parts l))) ->
  walk_path look follow links cur l = Here (cur ++ join_parts l) \/
  exists n, walk_path look follow links cur l = Bad n.
Proof.
  revert cur. induction l as [|c rest IH]; intros cur Hp Hne Hab Hl; [done|].
  cbn in Hp. apply andb_true_iff in Hp as [Hc Hp]. apply plain_not_dot in Hc as (Hd & Hdd & _).
  destruct links as [|links]; cbn -[cut_path join_parts]; rewrite Hd, Hdd.
  all: destruct rest as [|c' rest].
  all: try (cbn [join_parts]; rewrite append_nil; cbn [join_parts] in Hl; rewrite append_nil in Hl;
    destruct (look (cur ++ c)) as [[|t|]|]; cbn; try (by left);
    destruct follow; [by destruct (Hl eq_refl)|by left]).
  all: assert (H1 : ~ is_link_kind (look (cur ++ c)))
    by (specialize (Hab 1%nat ltac:(cbn; lia)); cbn in Hab; by rewrite append_nil in Hab).
  all: destruct (look (cur ++ c)) as [[|t|]|]; cbn [andb]; [|by destruct H1|by right; eexists|by right; eexists].
  all: replace (cur ++ join_parts (c :: c' :: rest)) with ((cur ++ c) ++ join_parts (c' :: rest))
    by (by rewrite <- append_assoc).
  all: apply IH; [done|done| |].
  all: try (intros k Hk; specialize (Hab (S k) ltac:(cbn in *; lia)); cbn [take join_parts] in Hab;
    by rewrite append_assoc in Hab).
  all: intros Hf; specialize (Hl Hf); cbn [join_parts] in Hl |- *; by rewrite append_assoc in Hl.
Qed.

(** With the directories above it there, the path leads to itself. *)
Lemma walk_here look follow links cur l :
  forallb plain_part l = true -> l <> [] ->
  (forall k, (1 <= k < List.length l)%nat -> look (cur ++ join_parts (take k l)) = Some KDir) ->
  (follow = true -> ~ is_link_kind (look (cur ++ join_parts l))) ->
  walk_path look follow links cur l = Here (cur ++ join_parts l).
Proof.
  revert cur. induction l as [|c rest IH]; intros cur Hp Hne Hab Hl; [done|].
  cbn in Hp. apply andb_true_iff in Hp as [Hc Hp]. apply plain_not_dot in Hc as (Hd & Hdd & _).
  destruct links as [|links]; cbn -[cut_path join_parts]; rewrite Hd, Hdd.
  all: destruct rest as [|c' rest].
  all: try (cbn [join_parts]; rewrite append_nil; cbn [join_parts] in Hl; rewrite append_nil in Hl;
    destruct (look (cur ++ c)) as [[|t|]|]; cbn; try done;
    destruct follow; [by destruct (Hl eq_refl)|done]).
  all: assert (H1 : look (cur ++ c) = Some KDir)
    by (specialize (Hab 1%nat ltac:(cbn; lia)); cbn in Hab; by rewrite append_nil in Hab).
  all: rewrite H1.
  all: replace (cur ++ join_parts (c :: c' :: rest)) with ((cur ++ c) ++ join_parts (c' :: rest))
    by (by rewrite <- append_assoc).
  all: apply IH; [done|done| |].
  all: try (intros k Hk; specialize (Hab (S k) ltac:(cbn in *; lia)); cbn [take join_parts] in Hab;
    by rewrite append_assoc in Hab).
  all: intros Hf; specialize (Hl Hf); cbn [join_parts] in Hl |- *; by rewrite append_assoc in Hl.
Qed.

(** A missing directory above the path is [ENOENT]. *)
Lemma walk_missing look follow links cur l m :
  forallb plain_part l = true -> (1 <= m < List.length l)%nat ->
  (forall k, (1 <= k < m)%nat -> look (cur ++ join_parts (take k l)) = Some KDir) ->
  look (cur ++ join_parts (take m l)) = None ->
  walk_path look follow links cur l = Bad E_NOENT.
Proof.
  revert cur m. induction l as [|c rest IH]; intros cur m Hp Hm Hab Hn; [cbn in Hm; lia|].
  cbn in Hp. apply andb_true_iff in Hp as [Hc Hp]. apply plain_not_dot in Hc as (Hd & Hdd & _).
  destruct rest as [|c' rest]; [cbn in Hm; lia|].
  destruct (decide (m = 1%nat)) as [->|Hne].
  - cbn in Hn. rewrite append_nil in Hn.
    destruct links as [|links]; cbn -[cut_path]; by rewrite Hd, Hdd, Hn.
  - assert (H1 : look (cur ++ c) = Some KDir)
      by (specialize (Hab 1%nat ltac:(cbn; lia)); cbn in Hab; by rewrite append_nil in Hab).
    destruct m as [|m]; [lia|].
    assert (Hgo : walk_path look follow links cur (c :: c' :: rest) = walk_path look follow links (cur ++ c) (c' :: rest))
      by (destruct links as [|links]; cbn -[cut_path]; by rewrite Hd, Hdd, H1).
    rewrite Hgo. apply (IH _ m); [done|cbn in *; lia| |].
    + intros k Hk. specialize (Hab (S k) ltac:(cbn in *; lia)). cbn [take join_parts] in Hab. by rewrite append_assoc in Hab.
    + cbn [take join_parts] in Hn. by rewrite append_assoc in Hn.
Qed.

Lemma take_cons_plain k l : (1 <= k)%nat -> (1 <= List.length l)%nat -> forallb plain_part l = true -> path_of (take k l) = join_parts (take k l).
Proof.
  intros Hk Hl Hp. destruct l as [|c l]; [cbn in Hl; lia|]. destruct k as [|k]; [lia|]. cbn in Hp.
  apply andb_true_iff in Hp as [Hc _]. by apply path_of_join.
Qed.

Lemma path_of_plain l : forallb plain_part l = true -> l <> [] -> path_of l = join_parts l.
Proof. destruct l as [|c l]; [done|]. intros Hp _. cbn in Hp. apply andb_true_iff in Hp as [Hc _]. by apply path_of_join. Qed.

Lemma root_name_path_of l : root_name (path_of l) = path_of l.
Proof. unfold path_of. by destruct (join_parts l). Qed.

Lemma locate_lands look follow l :
  forallb plain_part l = true ->
  (forall a, a ∈ above_parts l -> ~ is_link_kind (look a)) -> (follow = true -> ~ is_link_kind (look (path_of l))) ->
  locate look follow l = Here (path_of l) \/ exists n, locate look follow l = Bad n.
Proof.
  intros Hp Hab Hl. destruct (decide (l = [])) as [->|Hne]; [by left|]. unfold locate.
  destruct (walk_lands look follow MAX_LINKS EmptyString l Hp Hne) as [->|[n ->]].
  - intros k Hk. cbn. rewrite <- take_cons_plain by (done || lia). apply Hab, in_above. by exists k.
  - cbn. by rewrite <- path_of_plain.
  - left. done.
  - right. by exists n.
Qed.

Lemma locate_here look follow l :
  forallb plain_part l = true ->
  (forall a, a ∈ above_parts l -> look a = Some KDir) -> (follow = true -> ~ is_link_kind (look (path_of l))) ->
  locate look follow l = Here (path_of l).
Proof.
  intros Hp Hab Hl. destruct (decide (l = [])) as [->|Hne]; [done|]. unfold locate.
  rewrite (walk_here look follow MAX_LINKS EmptyString l Hp Hne); [done| |].
  - intros k Hk. cbn. rewrite <- take_cons_plain by (done || lia). apply Hab, in_above. by exists k.
  - cbn. by rewrite <- path_of_plain.
Qed.

(** A directory above the path is missing, and those above that are there. *)
Lemma locate_missing look follow l m :
  forallb plain_part l = true -> (1 <= m < List.length l)%nat ->
  (forall k, (1 <= k < m)%nat -> look (path_of (take k l)) = Some KDir) -> look (path_of (take m l)) = None ->
  locate look follow l = Bad E_NOENT.
Proof.
  intros Hp Hm Hab Hn. unfold locate. rewrite (walk_missing look follow MAX_LINKS EmptyString l m Hp Hm); [done| |].
  - intros k Hk. cbn. rewrite <- take_cons_plain by (done || lia). by apply Hab.
  - cbn. by rewrite <- take_cons_plain by (done || lia).
Qed.

Lemma canonical_parts p :
  canonical_path p = true -> below_root p = true /\ path_of (path_parts p) = p /\ forallb plain_part (path_parts p) = true.
Proof. unfold canonical_path. rewrite !andb_true_iff, String.eqb_eq. tauto. Qed.

Lemma take_not_root k l : (1 <= k)%nat -> (1 <= List.length l)%nat -> forallb plain_part l = true -> path_of (take k l) <> "/".
Proof.
  intros Hk Hl Hp. rewrite take_cons_plain by done. destruct l as [|c l]; [cbn in Hl; lia|]. destruct k as [|k]; [lia|].
  cbn in Hp |- *. apply andb_true_iff in Hp as [(Hd & _ & Ha)%plain_not_dot _]. destruct c as [|x [|y c]]; [done| |done].
  cbn in Ha. apply Ascii.eqb_eq in Ha as ->. done.
Qed.
End Lemmas.

(** A relative link above the path is followed; an absolute one leads to the
    root of the running system. *)
Example locate_through_link :
  let look p := if String.eqb p "/lib" then Some (KLink "usr/lib") else if String.eqb p "/abs" then Some (KLink "/usr")
                else if String.eqb p "/usr" || String.eqb p "/usr/lib" then Some KDir else None in
  locate look false (path_parts "/lib/x") = Here "/usr/lib/x" /\
  locate look false (path_parts "/usr/lib/../x") = Here "/usr/x" /\
  locate look false (path_parts "/abs/x") = Outside /\
  locate look false (path_parts "/usr/none/x") = Bad E_NOENT.
Proof. vm_compute. split_and!; reflexivity. Qed.
