(* ===== verification/StandbySlot.v ===== *)
(** * Building the standby slot

    Models [src/src/otaclient/create_standby/update_slot.py] and the
    [prepare_*] functions of [src/src/ota_metadata/file_table/utils.py]: the
    directories, the symlinks and the regular files of the file table are
    made on the standby slot, the latter by a pool of workers, from the
    resource directory, which is on the same file system.

    The slot is the tree below its mount point, by canonical path; regular
    files are references to inodes, so that hard links share one.  Every
    operation looks its path up as in [SlotPaths]: the directories above it
    have to be there, and links on the way are followed.  A task of the pool
    is one step: tasks write to their own path and to inodes of their own,
    except for the hard-link groups, which are under a lock, and the content
    of a resource is never written.  The tasks of the pool are run in any
    order.  An [OSError] of the environment at an entry is an input, and so is
    the outcome of an operation that a link leads out of the slot. *)

From stdpp Require Import base gmap strings list option sets.
From Stdlib Require Import ZArith String Ascii Lia Strings.Byte.
From S2P Require Import Prelude CacheControlHeader Errors CacheIndex CacheStreaming LegacyCSV SlotPaths.

(** ** Entries of the file table *)

Abbreviation xattrs := (pydict bytes).

Record DirRow : Type := mkDirEntry {
  de_path : string; de_mode : Z; de_uid : Z; de_gid : Z; de_xattrs : xattrs;
}.

Record NonRegularFileRow : Type := mkNonRegularEntry {
  ne_path : string; ne_mode : Z; ne_uid : Z; ne_gid : Z; ne_xattrs : xattrs;
  ne_meta : option string;
}.

Record RegularFileRow : Type := mkRegularEntry {
  re_path : string;
  re_mode : Z;
  re_uid : Z;
  re_gid : Z;
  re_xattrs : xattrs;
  re_digest : string;             (** in hex *)
  re_size : Z;
  re_contents : option bytes;
  re_inode_id : Z;
  re_links_count : option Z;
}.

(** ** The file system of the slot *)

Record inode : Type := mkFsInode {
  fi_content : bytes;
  fi_mode : Z;
  fi_uid : Z;
  fi_gid : Z;
  fi_xattrs : xattrs;
}.
#[export] Instance eta_inode : Eta inode := fun r =>
  mkFsInode (fi_content r) (fi_mode r) (fi_uid r) (fi_gid r) (fi_xattrs r).

Inductive fnode : Type :=
| NDir (mode uid gid : Z) (x : xattrs)
| NSymlink (target : string) (uid gid : Z) (x : xattrs)
| NChar (mode uid gid : Z) (x : xattrs)
| NFile (ino : nat).

Record slot : Type := mkSlot {
  sl_paths : gmap string fnode;
  sl_inodes : gmap nat inode;
  sl_next : nat;                          (** inode numbers from here on are free *)
  sl_resources : gmap string nat;         (** the resource directory *)
  sl_hardlink_group : gmap Z string;      (** [_hardlink_group] *)
  sl_reports : list Z;                    (** put into [_internal_que] *)
}.
#[export] Instance eta_slot : Eta slot := fun r =>
  mkSlot (sl_paths r) (sl_inodes r) (sl_next r) (sl_resources r) (sl_hardlink_group r) (sl_reports r).

Definition os_error (errno : Z) : pyexn := PyExn (XOSError (Some errno)) [] None None.
Definition assertion_error : pyexn := PyExn (XOther "AssertionError") [] None None.

(** [stat.S_ISLNK], [stat.S_ISCHR] *)
Definition S_IFMT : Z := 61440.
Definition S_IFCHR : Z := 8192.
Definition is_lnk (mode : Z) : bool := Z.land mode S_IFMT =? S_IFLNK.
Definition is_chr (mode : Z) : bool := Z.land mode S_IFMT =? S_IFCHR.

(** What is at a path; the mount point is a directory. *)
Definition kind_at (paths : gmap string fnode) (p : string) : option kind :=
  match paths !! p with
  | Some (NDir _ _ _ _) => Some KDir
  | Some (NSymlink t _ _ _) => Some (KLink t)
  | Some _ => Some KOther
  | None => if String.eqb p "/" then Some KDir else None
  end.

(** The outside: whether the environment fails at a path, the umask of the
    process, the [errno] of an operation that leaves the slot (none when it
    succeeds), and whether a path out of the slot is a directory. *)
Record fs_env : Type := mkFsEnv {
  fe_fault : string -> bool;
  fe_umask : Z;
  fe_outside : string -> option Z;
  fe_outside_dir : string -> bool;
}.

Section Prepare.
Context (fe : fs_env).

Abbreviation SL := (PyM slot pyexn).

Definition fault (path : string) : SL unit :=
  if fe_fault fe path then raise (os_error 5) else mret tt.

(** [fpath_on_target]: [relative_to] raises. *)
Definition fpath_on_target (path : string) : SL (list string) :=
  if below_root path then mret (path_parts path)
  else raise (PyExn XValueError [AStr path] None None).

Definition outside (path : string) : SL unit :=
  match fe_outside fe path with None => mret tt | Some n => raise (os_error n) end.

(** An operation at the place the path leads to. *)
Definition at_place (follow : bool) (parts : list string) (op : string -> SL unit) : SL unit :=
  s ← get;
  match locate (kind_at (sl_paths s)) follow parts with
  | Here p => op p
  | Outside => outside (path_of parts)
  | Bad n => raise (os_error n)
  end.

(** [chown] and [chmod] of the node at the path: [chown] is skipped where the
    source skips it. *)
Definition inode_perm (chown : bool) (mode uid gid : Z) (i : inode) : inode :=
  (if chown then i <| fi_uid := uid |> <| fi_gid := gid |> else i) <| fi_mode := mode |>.

Definition set_perm (chown : bool) (mode uid gid : Z) (p : string) (s : slot) : slot :=
  let put n := s <| sl_paths := <[p := n]> (sl_paths s) |> in
  match sl_paths s !! p with
  | Some (NFile ino) => s <| sl_inodes := alter (inode_perm chown mode uid gid) ino (sl_inodes s) |>
  | Some (NDir _ u g x) => put (NDir mode (if chown then uid else u) (if chown then gid else g) x)
  | Some (NChar _ u g x) => put (NChar mode (if chown then uid else u) (if chown then gid else g) x)
  | Some (NSymlink _ _ _ _) => s
  | None => put (NDir mode uid gid [])    (** the mount point *)
  end.

(** [_set_xattr] does not follow a link at the path. *)
Definition set_xattr (x : xattrs) (p : string) (s : slot) : slot :=
  let put n := s <| sl_paths := <[p := n]> (sl_paths s) |> in
  match sl_paths s !! p with
  | Some (NFile ino) => s <| sl_inodes := alter (fun i => i <| fi_xattrs := dict_update (fi_xattrs i) x |>) ino (sl_inodes s) |>
  | Some (NDir m u g x') => put (NDir m u g (dict_update x' x))
  | Some (NChar m u g x') => put (NChar m u g (dict_update x' x))
  | Some (NSymlink t u g x') => put (NSymlink t u g (dict_update x' x))
  | None => s
  end.

(** ** Directories *)

(** [os.mkdir]: whatever is there is in the way. *)
Definition new_dir : fnode := NDir (16384 + Z.land 511 (Z.lnot (fe_umask fe))) 0 0 [].
Definition os_mkdir (parts : list string) : SL unit :=
  at_place false parts (fun p =>
    s ← get;
    match kind_at (sl_paths s) p with
    | None => modify (fun s => s <| sl_paths := <[p := new_dir]> (sl_paths s) |>)
    | Some _ => raise (os_error 17)
    end).

Definition is_directory (parts : list string) (s : slot) : bool :=
  match locate (kind_at (sl_paths s)) true parts with
  | Here p => match kind_at (sl_paths s) p with Some KDir => true | _ => false end
  | Outside => fe_outside_dir fe (path_of parts)
  | Bad _ => false
  end.

Definition is_enoent (e : pyexn) : bool :=
  match e with PyExn (XOSError (Some n)) _ _ _ => n =? E_NOENT | _ => false end.

(** The [except OSError] of [Path.mkdir] with [exist_ok]. *)
Definition unless_dir (parts : list string) (e : pyexn) : SL unit :=
  s ← get; if is_directory parts s then mret tt else raise e.

(** [Path.mkdir(parents=True, exist_ok=True)] of the first [n] parts. *)
Fixpoint mkdir_parts (parts : list string) (n : nat) : SL unit :=
  let here := take n parts in
  try_except (os_mkdir here) (fun e =>
    if is_enoent e then
      match n with
      | O => raise e
      | S m =>
          _ ← mkdir_parts parts m;
          try_except (os_mkdir here) (fun e' => if is_enoent e' then raise e' else unless_dir here e')
      end
    else unless_dir here e).

(** [prepare_dir] *)
Definition prepare_dir (e : DirRow) : SL unit :=
  parts ← fpath_on_target (de_path e);
  _ ← fault (de_path e);
  _ ← mkdir_parts parts (List.length parts);
  _ ← at_place true parts (fun p => modify (set_perm true (de_mode e) (de_uid e) (de_gid e) p));
  match de_xattrs e with
  | [] => mret tt
  | x => at_place false parts (fun p => modify (set_xattr x p))
  end.

(** ** Links and devices *)

(** [symlink_to] and [os.mknod], with the owner and the attributes: anything
    at the path is in the way, a link at the path is not followed. *)
Definition make_node (path : string) (parts : list string) (n : fnode) : SL unit :=
  _ ← fault path;
  at_place false parts (fun p =>
    s ← get;
    match kind_at (sl_paths s) p with
    | None => modify (fun s => s <| sl_paths := <[p := n]> (sl_paths s) |>)
    | Some _ => raise (os_error 17)
    end).

(** [prepare_non_regular] *)
Definition prepare_non_regular (e : NonRegularFileRow) : SL unit :=
  parts ← fpath_on_target (ne_path e);
  if is_lnk (ne_mode e) then
    match ne_meta e with
    | Some (String _ _ as target) =>
        make_node (ne_path e) parts (NSymlink target (ne_uid e) (ne_gid e) (ne_xattrs e))
    | _ => raise assertion_error
    end
  else if is_chr (ne_mode e) then
    make_node (ne_path e) parts (NChar (ne_mode e) (ne_uid e) (ne_gid e) (ne_xattrs e))
  else mret tt.

(** ** Regular files *)

(** [PrepareEntryFailed] *)
Definition prepare_entry_failed (e : RegularFileRow) (cause : pyexn) : pyexn :=
  PyExn (XOther "PrepareEntryFailed") [AStr (re_path e)] (Some cause) (Some cause).

(** [unlink(missing_ok=True)]: of what is at the path, a link itself. *)
Definition unlink_missing_ok (parts : list string) : SL unit :=
  s ← get;
  match locate (kind_at (sl_paths s)) false parts with
  | Here p =>
      match kind_at (sl_paths s) p with
      | None => mret tt
      | Some KDir => raise (os_error 21)
      | Some _ => modify (fun s => s <| sl_paths := delete p (sl_paths s) |>)
      end
  | Outside => outside (path_of parts)
  | Bad n => if n =? E_NOENT then mret tt else raise (os_error n)
  end.

Definition on_prepare_failure {A} (e : RegularFileRow) (parts : list string) (m : SL A) : SL A :=
  try_except m (fun cause => _ ← unlink_missing_ok parts; raise (prepare_entry_failed e cause)).

(** [touch(exist_ok=True)] makes the file, as root; then the content is
    written, if there is one to write. *)
Definition touched (mode : Z) : inode := mkFsInode [] mode 0 0 [].
Definition unwritable (errno : Z) (content : option bytes) : SL unit :=
  match content with Some _ => raise (os_error errno) | None => mret tt end.
Definition touch_and_write (mode : Z) (content : option bytes) (p : string) : SL unit :=
  s ← get;
  match sl_paths s !! p with
  | None =>
      if String.eqb p "/" then unwritable 21 content
      else modify (fun s =>
        s <| sl_paths := <[p := NFile (sl_next s)]> (sl_paths s) |>
          <| sl_inodes := <[sl_next s := (touched mode) <| fi_content := default [] content |>]> (sl_inodes s) |>
          <| sl_next := S (sl_next s) |>)
  | Some (NFile ino) =>
      match content with
      | Some c => modify (fun s => s <| sl_inodes := alter (fun i => i <| fi_content := c |>) ino (sl_inodes s) |>)
      | None => mret tt
      end
  | Some (NDir _ _ _ _) => unwritable 21 content
  | Some (NChar _ _ _ _) => unwritable 6 content
  | Some (NSymlink _ _ _ _) => raise (os_error E_LOOP)
  end.

(** The owner, unless it is root, the mode and the extended attributes. *)
Definition write_new_file (e : RegularFileRow) (parts : list string) (content : option bytes) : SL string :=
  _ ← fault (re_path e);
  _ ← at_place true parts (fun p =>
    _ ← touch_and_write (re_mode e) content p;
    modify (set_perm (negb ((re_uid e =? 0) && (re_gid e =? 0))) (re_mode e) (re_uid e) (re_gid e) p));
  _ ← match re_xattrs e with
      | [] => mret tt
      | x => at_place false parts (fun p => modify (set_xattr x p))
      end;
  mret (re_path e).

(** The content of a resource. *)
Definition read_resource (digest : string) : SL bytes :=
  s ← get;
  match (ino ← sl_resources s !! digest; sl_inodes s !! ino) with
  | Some i => mret (fi_content i)
  | None => raise (os_error 2)
  end.

(** [prepare_regular_copy] *)
Definition prepare_regular_copy (e : RegularFileRow) (digest : string) : SL string :=
  parts ← fpath_on_target (re_path e);
  on_prepare_failure e parts (content ← read_resource digest; write_new_file e parts (Some content)).

Definition contents_truthy (e : RegularFileRow) : bool :=
  match re_contents e with Some (_ :: _) => true | _ => false end.

(** [prepare_regular_inlined] *)
Definition prepare_regular_inlined (e : RegularFileRow) : SL string :=
  parts ← fpath_on_target (re_path e);
  on_prepare_failure e parts
    (if contents_truthy e || (re_size e =? 0)
     then write_new_file e parts (if contents_truthy e then re_contents e else None)
     else raise assertion_error).

(** [os.link] of a node, then the owner and the mode unless they are skipped. *)
Definition link_to (e : RegularFileRow) (parts : list string) (src : fnode) (skip_permission : bool) : SL string :=
  _ ← fault (re_path e);
  s ← get;
  match locate (kind_at (sl_paths s)) false parts with
  | Here p =>
      match kind_at (sl_paths s) p with
      | None =>
          _ ← modify (fun s =>
            let s := s <| sl_paths := <[p := src]> (sl_paths s) |> in
            if skip_permission then s
            else set_xattr (re_xattrs e) p (set_perm true (re_mode e) (re_uid e) (re_gid e) p s));
          mret (re_path e)
      | Some _ => raise (os_error 17)
      end
  | Outside => raise (os_error 18)
  | Bad n => raise (os_error n)
  end.

(** [prepare_regular_hardlink] from the resource directory, or from the path
    of the head of the hard-link group. *)
Definition prepare_from_resource (e : RegularFileRow) (digest : string) : SL string :=
  parts ← fpath_on_target (re_path e);
  on_prepare_failure e parts
    (s ← get;
     match sl_resources s !! digest with
     | Some ino => link_to e parts (NFile ino) false
     | None => raise (os_error 2)
     end).

Definition prepare_from_head (e : RegularFileRow) (head : string) : SL string :=
  parts ← fpath_on_target (re_path e);
  on_prepare_failure e parts
    (s ← get;
     match locate (kind_at (sl_paths s)) false (path_parts head) with
     | Here h =>
         match sl_paths s !! h with
         | Some (NDir _ _ _ _) => raise (os_error 1)
         | Some n => link_to e parts n true
         | None => raise (os_error 2)
         end
     | Outside =>
         match locate (kind_at (sl_paths s)) false parts with
         | Outside => _ ← outside (re_path e); mret (re_path e)
         | _ => raise (os_error 18)
         end
     | Bad n => raise (os_error n)
     end).

(** ** The workers *)

Definition put_size_report (size : Z) : SL unit :=
  modify (fun s => s <| sl_reports := sl_reports s ++ [size] |>).

Definition inlined (e : RegularFileRow) : bool := contents_truthy e || (re_size e =? 0).

Definition set_head (e : RegularFileRow) (path : string) : SL unit :=
  modify (fun s => s <| sl_hardlink_group := <[re_inode_id e := path]> (sl_hardlink_group s) |>).

(** [_process_hardlinked_file_at_thread] *)
Definition process_hardlinked_file (e : RegularFileRow) (first_to_prepare : bool) : SL unit :=
  head ← gets (fun s => sl_hardlink_group s !! re_inode_id e);
  match head with
  | Some head =>
      _ ← prepare_from_head e head;
      if first_to_prepare then mret tt else put_size_report (re_size e)
  | None =>
      if inlined e then
        p ← prepare_regular_inlined e; _ ← set_head e p; put_size_report (re_size e)
      else if first_to_prepare then
        p ← prepare_from_resource e (re_digest e); set_head e p
      else
        p ← prepare_regular_copy e (re_digest e); _ ← set_head e p; put_size_report (re_size e)
  end.

(** [_process_normal_file_at_thread] *)
Definition process_normal_file (e : RegularFileRow) (first_to_prepare : bool) : SL unit :=
  if inlined e then _ ← prepare_regular_inlined e; put_size_report (re_size e)
  else if first_to_prepare then _ ← prepare_from_resource e (re_digest e); mret tt
  else _ ← prepare_regular_copy e (re_digest e); put_size_report (re_size e).

(** What [_process_regular_file_entries] submits for an entry. *)
Definition is_hardlinked (e : RegularFileRow) : bool :=
  match re_links_count e with Some n => 1 <? n | None => false end.

Definition process_file (t : RegularFileRow * bool) : SL unit :=
  if is_hardlinked (fst t) then process_hardlinked_file (fst t) (snd t)
  else process_normal_file (fst t) (snd t).

(** The tasks, in the order of the file table: the first one of each digest
    may take the resource itself. *)
Fixpoint submit_tasks (prepared : gset string) (entries : list RegularFileRow) :
    list (RegularFileRow * bool) :=
  match entries with
  | [] => []
  | e :: entries =>
      (e, bool_decide (re_digest e ∉ prepared)) :: submit_tasks ({[re_digest e]} ∪ prepared) entries
  end.

(** A task of the pool, with its done callback: the first exception is kept. *)
Definition run_task (t : RegularFileRow * bool) (s : slot) (first_exc : option pyexn) :
    slot * option pyexn :=
  match process_file t s with
  | (s, Ok _) => (s, first_exc)
  | (s, Raise e) => (s, match first_exc with Some _ => first_exc | None => Some e end)
  end.

Fixpoint run_tasks (tasks : list (RegularFileRow * bool)) (s : slot) (first_exc : option pyexn) :
    slot * option pyexn :=
  match tasks with
  | [] => (s, first_exc)
  | t :: tasks => let '(s, exc) := run_task t s first_exc in run_tasks tasks s exc
  end.

Definition update_standby_slot_failed (e : pyexn) : pyexn :=
  PyExn (XOther "UpdateStandbySlotFailed") [AStr (exn_repr e)] (Some e) (Some e).

Fixpoint process_entries {A} (prepare : A -> SL unit) (l : list A) : SL unit :=
  match l with
  | [] => mret tt
  | e :: l =>
      _ ← try_except (prepare e) (fun exc => raise (update_standby_slot_failed exc));
      process_entries prepare l
  end.

(** [_process_regular_file_entries], and the check of [update_slot] after it:
    the tasks that ran, in the order in which they ran. *)
Definition process_regular_file_entries (ran : list (RegularFileRow * bool)) : SL unit := fun s =>
  match run_tasks ran s None with
  | (s, Some exc) => (s, Raise (update_standby_slot_failed exc))
  | (s, None) => (s, Ok tt)
  end.

Definition update_slot (dirs : list DirRow) (nonregulars : list NonRegularFileRow)
    (ran : list (RegularFileRow * bool)) : SL unit :=
  _ ← process_entries prepare_dir dirs;
  _ ← process_entries prepare_non_regular nonregulars;
  process_regular_file_entries ran.
End Prepare.

(** ** What the slot holds in the end *)

(** [chown], [chmod] and [setxattr] of the inode of an entry. *)
Definition apply_perm (e : RegularFileRow) (i : inode) : inode :=
  (inode_perm true (re_mode e) (re_uid e) (re_gid e) i) <| fi_xattrs := dict_update (fi_xattrs i) (re_xattrs e) |>.

(** No link on the way to the path. *)
Definition along (paths : gmap string fnode) (p : string) : Prop :=
  canonical_path p = true /\ forall a, a ∈ above p -> ~ is_link_kind (kind_at paths a).

(** The directories above the path are there. *)
Definition parents_there (paths : gmap string fnode) (p : string) : Prop :=
  forall a, a ∈ above p -> kind_at paths a = Some KDir.

Section Correct.
Context (fe : fs_env).
(** The slot before the regular files, and what the resources hold. *)
Context (s0 : slot) (resource : string -> bytes).

Definition expected (e : RegularFileRow) : bytes :=
  if inlined e then default [] (re_contents e) else resource (re_digest e).

(** The inode at the path of an entry. *)
Definition at_inode (s : slot) (e : RegularFileRow) (ino : nat) : Prop :=
  sl_paths s !! re_path e = Some (NFile ino).

Definition as_entry (e : RegularFileRow) (i : inode) : Prop :=
  fi_content i = expected e /\ fi_mode i = re_mode e /\ fi_uid i = re_uid e /\ fi_gid i = re_gid e.

(** The entry is on the slot. *)
Definition on_slot (s : slot) (e : RegularFileRow) : Prop :=
  exists ino i, at_inode s e ino /\ sl_inodes s !! ino = Some i /\ as_entry e i.

(** Entries of one hard-link group are one inode of the file table. *)
Definition groups_agree (l : list RegularFileRow) : Prop :=
  forall e e', e ∈ l -> e' ∈ l -> is_hardlinked e = true -> is_hardlinked e' = true ->
    re_inode_id e = re_inode_id e' -> expected e = expected e' /\ re_mode e = re_mode e' /\
    re_uid e = re_uid e' /\ re_gid e = re_gid e'.

(** The slot before: free inode numbers, resources in inodes of their own,
    no hard-link group yet. *)
Record start_ok : Prop := mkStartOk {
  so_next : forall ino, is_Some (sl_inodes s0 !! ino) -> (ino < sl_next s0)%nat;
  so_resources : forall d ino, sl_resources s0 !! d = Some ino ->
    exists i, sl_inodes s0 !! ino = Some i /\ fi_content i = resource d;
  so_distinct : forall d d' ino, sl_resources s0 !! d = Some ino -> sl_resources s0 !! d' = Some ino -> d = d';
  so_groups : sl_hardlink_group s0 = ∅;
}.

Abbreviation task := (RegularFileRow * bool)%type.

(** After the tasks [done]. *)
Record slot_inv (done : list task) (s : slot) : Prop := mkSlotInv {
  si_entries : forall t, t ∈ done -> on_slot s (fst t);
  si_paths : forall p, p ∉ map (fun t => re_path (fst t)) done -> sl_paths s !! p = sl_paths s0 !! p;
  si_resources : sl_resources s = sl_resources s0;
  si_contents : forall d ino, sl_resources s0 !! d = Some ino ->
    exists i, sl_inodes s !! ino = Some i /\ fi_content i = resource d;
  si_next : forall ino, is_Some (sl_inodes s !! ino) -> (ino < sl_next s)%nat;
  si_taken : forall t d ino, t ∈ done -> sl_resources s0 !! d = Some ino -> at_inode s (fst t) ino ->
    exists e1, (e1, true) ∈ done /\ re_digest e1 = d;
  si_heads : forall id head, sl_hardlink_group s !! id = Some head ->
    exists t, t ∈ done /\ is_hardlinked (fst t) = true /\ re_inode_id (fst t) = id /\ head = re_path (fst t);
  si_grouped : forall t, t ∈ done -> is_hardlinked (fst t) = true ->
    exists head ino, sl_hardlink_group s !! re_inode_id (fst t) = Some head /\
      sl_paths s !! head = Some (NFile ino) /\ at_inode s (fst t) ino;
}.

Lemma slot_inv_start : start_ok -> slot_inv [] s0.
Proof.
  intros [H1 H2 H3 H4]. split; try done; try (intros; by set_solver).
  intros id head. rewrite H4, lookup_empty. done.
Qed.

(** The file-system effect of a task that returned: the path of the entry
    refers to an inode that is new, the resource itself, or the head's. *)
Inductive placed (e : RegularFileRow) (first : bool) (s s' : slot) : Prop :=
| placed_new content :
    content = expected e -> sl_paths s' = <[re_path e := NFile (sl_next s)]> (sl_paths s) ->
    (exists i, sl_inodes s' = <[sl_next s := i]> (sl_inodes s) /\ as_entry e i) ->
    sl_next s' = S (sl_next s) -> placed e first s s'
| placed_resource ino i :
    first = true -> inlined e = false -> sl_resources s !! re_digest e = Some ino ->
    sl_paths s' = <[re_path e := NFile ino]> (sl_paths s) ->
    sl_inodes s !! ino = Some i -> sl_inodes s' = <[ino := apply_perm e i]> (sl_inodes s) ->
    sl_next s' = sl_next s -> placed e first s s'
| placed_link head ino :
    is_hardlinked e = true -> sl_hardlink_group s !! re_inode_id e = Some head ->
    sl_paths s !! head = Some (NFile ino) ->
    sl_paths s' = <[re_path e := NFile ino]> (sl_paths s) ->
    sl_inodes s' = sl_inodes s -> sl_next s' = sl_next s -> placed e first s s'.

Lemma on_prepare_failure_ok {A} e parts (m : PyM slot pyexn A) s s' a :
  on_prepare_failure fe e parts m s = (s', Ok a) -> m s = (s', Ok a).
Proof.
  unfold on_prepare_failure, try_except. destruct (m s) as [s1 [x|exc]]; [done|]. intros H.
  by apply pym_bind_ok in H as (s2 & [] & _ & H).
Qed.

Lemma fault_ok p s s' u : fault fe p s = (s', Ok u) -> s' = s.
Proof. unfold fault. destruct (fe_fault fe p); [done|]. by intros [= <-]. Qed.

Lemma fpath_ok p s s' parts : fpath_on_target p s = (s', Ok parts) -> s' = s /\ parts = path_parts p.
Proof. unfold fpath_on_target. destruct (below_root p); [|done]. by intros [= <- <-]. Qed.

(** Where an entry's path leads. *)
Lemma locate_row follow paths p :
  along paths p -> (follow = true -> ~ is_link_kind (kind_at paths p)) ->
  locate (kind_at paths) follow (path_parts p) = Here p \/ exists n, locate (kind_at paths) follow (path_parts p) = Bad n.
Proof.
  intros [(_ & Hp & Hplain)%canonical_parts Hab] Hl. rewrite <- Hp in Hl.
  destruct (locate_lands (kind_at paths) follow _ Hplain Hab Hl) as [H|H]; [left|by right]. by rewrite Hp in H.
Qed.

Lemma locate_row_here follow paths p :
  canonical_path p = true -> parents_there paths p -> (follow = true -> ~ is_link_kind (kind_at paths p)) ->
  locate (kind_at paths) follow (path_parts p) = Here p.
Proof.
  intros (_ & Hp & Hplain)%canonical_parts Hab Hl. rewrite <- Hp in Hl.
  pose proof (locate_here (kind_at paths) follow _ Hplain Hab Hl) as H. by rewrite Hp in H.
Qed.

Lemma at_place_ok follow p op s s' :
  at_place fe follow (path_parts p) op s = (s', Ok tt) -> along (sl_paths s) p ->
  (follow = true -> ~ is_link_kind (kind_at (sl_paths s) p)) -> op p s = (s', Ok tt).
Proof.
  intros H Ha Hl. unfold at_place in H. apply pym_bind_ok in H as (s1 & x & E & H). injection E as <- <-.
  by destruct (locate_row follow _ _ Ha Hl) as [E|[n E]]; rewrite E in H.
Qed.

Lemma kind_none paths p : kind_at paths p = None <-> paths !! p = None /\ p <> "/"%string.
Proof.
  unfold kind_at. destruct (paths !! p) as [[| | |]|]; try (split; [done|by intros [? _]]).
  destruct (String.eqb_spec p "/"); split; try done; by intros [_ ?].
Qed.

(** Nothing on the way to a path changes where it leads. *)
Lemma along_ext paths paths' p :
  along paths p -> (forall a, a ∈ above p -> is_link_kind (kind_at paths' a) -> is_link_kind (kind_at paths a)) ->
  along paths' p.
Proof. intros [Hc Ha] H. split; [done|]. intros a Hin Hl. by apply (Ha a Hin), H. Qed.

Lemma insert_not_link paths p n a :
  (forall t u g x, n <> NSymlink t u g x) -> is_link_kind (kind_at (<[p := n]> paths) a) -> is_link_kind (kind_at paths a).
Proof.
  intros Hn. unfold kind_at. destruct (decide (a = p)) as [->|Hne].
  - rewrite lookup_insert_eq. destruct n; try done. by destruct (Hn target uid gid x).
  - by rewrite lookup_insert_ne.
Qed.

Lemma write_new_file_ok e c s s' p :
  write_new_file fe e (path_parts (re_path e)) c s = (s', Ok p) ->
  along (sl_paths s) (re_path e) -> kind_at (sl_paths s) (re_path e) = None ->
  p = re_path e /\ sl_resources s' = sl_resources s /\ sl_hardlink_group s' = sl_hardlink_group s /\
  sl_paths s' = <[re_path e := NFile (sl_next s)]> (sl_paths s) /\
  (exists x, sl_inodes s' = <[sl_next s := mkFsInode (default [] c) (re_mode e) (re_uid e) (re_gid e) x]> (sl_inodes s)) /\
  sl_next s' = S (sl_next s).
Proof.
  unfold write_new_file. intros H Ha Hk. pose proof Hk as [Hn Hr]%kind_none.
  apply pym_bind_ok in H as (s1 & [] & Hf%fault_ok & H). subst s1.
  apply pym_bind_ok in H as (s1 & [] & H1 & H). apply at_place_ok in H1; [|done|intros _ Hx; by rewrite Hk in Hx].
  apply pym_bind_ok in H1 as (s2 & [] & H2 & H1). unfold touch_and_write in H2.
  apply pym_bind_ok in H2 as (s3 & x & E & H2). injection E as <- <-. rewrite Hn in H2.
  apply String.eqb_neq in Hr. rewrite Hr in H2. injection H2 as <-. unfold modify in H1. injection H1 as <-.
  unfold set_perm in H. cbn [sl_paths upd] in H. rewrite lookup_insert_eq in H.
  match type of H with _ ?x = _ => set (s4 := x) in H end.
  assert (E4 : sl_resources s4 = sl_resources s /\ sl_hardlink_group s4 = sl_hardlink_group s /\
    sl_paths s4 = <[re_path e := NFile (sl_next s)]> (sl_paths s) /\
    sl_inodes s4 = <[sl_next s := mkFsInode (default [] c) (re_mode e) (re_uid e) (re_gid e) []]> (sl_inodes s) /\
    sl_next s4 = S (sl_next s)).
  { subst s4. cbn. split_and!; try done. rewrite alter_insert_eq. f_equal. unfold inode_perm, touched.
    destruct (Z.eqb_spec (re_uid e) 0) as [->|]; [destruct (Z.eqb_spec (re_gid e) 0) as [->|]|]; done. }
  clearbody s4. destruct E4 as (E1 & E2 & E3 & E4 & E5).
  apply pym_bind_ok in H as (s5 & [] & H5 & H). injection H as <- <-.
  destruct (re_xattrs e) as [|x0 xs]; [injection H5 as <-; split_and!; try done; by eexists|].
  apply at_place_ok in H5; [|rewrite E3; eapply along_ext; [exact Ha|]; intros a _; by apply insert_not_link|done].
  unfold modify in H5. injection H5 as <-. unfold set_xattr. rewrite E3, lookup_insert_eq. cbn.
  rewrite E1, E2, E4, E5. split_and!; try done. rewrite alter_insert_eq. by eexists.
Qed.

Lemma link_to_ok e src skip s s' p :
  link_to fe e (path_parts (re_path e)) (NFile src) skip s = (s', Ok p) -> along (sl_paths s) (re_path e) ->
  p = re_path e /\ sl_resources s' = sl_resources s /\ sl_hardlink_group s' = sl_hardlink_group s /\
  sl_next s' = sl_next s /\ sl_paths s' = <[re_path e := NFile src]> (sl_paths s) /\
  sl_inodes s' = if skip then sl_inodes s else alter (apply_perm e) src (sl_inodes s).
Proof.
  unfold link_to. intros H Ha. apply pym_bind_ok in H as (s1 & [] & Hf%fault_ok & H). subst s1.
  apply pym_bind_ok in H as (s1 & x & E & H). injection E as <- <-.
  destruct (locate_row false _ _ Ha) as [E|[n E]]; [done|rewrite E in H|by rewrite E in H].
  destruct (kind_at _ _); [done|].
  apply pym_bind_ok in H as (s1 & [] & E1 & H). injection E1 as <-. injection H as <- <-.
  destruct skip; [done|]. unfold set_perm. cbn. rewrite lookup_insert_eq. unfold set_xattr. cbn.
  rewrite lookup_insert_eq. cbn. split_and!; try done. apply map_eq. intros j.
  destruct (decide (j = src)) as [->|]; [rewrite !lookup_alter_eq; by destruct (sl_inodes s !! src)|by rewrite !lookup_alter_ne].
Qed.

Lemma read_resource_ok d s s' c :
  read_resource d s = (s', Ok c) ->
  s' = s /\ exists ino i, sl_resources s !! d = Some ino /\ sl_inodes s !! ino = Some i /\ c = fi_content i.
Proof.
  unfold read_resource. intros H. apply pym_bind_ok in H as (s1 & x & E & H). injection E as <- <-.
  destruct (sl_resources s !! d) as [ino|]; [|done]. simpl in H.
  destruct (sl_inodes s !! ino) as [i|] eqn:Ei; [|done]. injection H as <- <-. eauto 10.
Qed.

(** The frame of the three ways to prepare a file. *)
Definition prepared (e : RegularFileRow) (first : bool) (p : string) (s s' : slot) : Prop :=
  p = re_path e /\ sl_resources s' = sl_resources s /\ sl_hardlink_group s' = sl_hardlink_group s /\
  placed e first s s'.

Definition resources_hold (s : slot) : Prop :=
  forall d ino i, sl_resources s !! d = Some ino -> sl_inodes s !! ino = Some i -> fi_content i = resource d.

Lemma new_file_prepared e c first s s' p :
  write_new_file fe e (path_parts (re_path e)) c s = (s', Ok p) ->
  along (sl_paths s) (re_path e) -> kind_at (sl_paths s) (re_path e) = None ->
  default [] c = expected e -> prepared e first p s s'.
Proof.
  intros H Ha Hp Hc. apply write_new_file_ok in H as (-> & H1 & H2 & H3 & [x H4] & H5); [|done|done].
  split_and!; try done. eapply placed_new; try done. eexists. split; [exact H4|]. by split_and!.
Qed.

Lemma inlined_prepared e first s s' p :
  prepare_regular_inlined fe e s = (s', Ok p) -> along (sl_paths s) (re_path e) -> kind_at (sl_paths s) (re_path e) = None ->
  inlined e = true -> prepared e first p s s'.
Proof.
  intros H Ha Hp Hi. apply pym_bind_ok in H as (s1 & parts & [-> ->]%fpath_ok & H%on_prepare_failure_ok).
  fold (inlined e) in H. rewrite Hi in H. eapply new_file_prepared; [done|done|done|].
  unfold expected. rewrite Hi. unfold contents_truthy. by destruct (re_contents e) as [[|]|].
Qed.

Lemma copy_prepared e first s s' p :
  prepare_regular_copy fe e (re_digest e) s = (s', Ok p) ->
  along (sl_paths s) (re_path e) -> kind_at (sl_paths s) (re_path e) = None ->
  inlined e = false -> resources_hold s -> prepared e first p s s'.
Proof.
  intros H Ha Hp Hi Hr. apply pym_bind_ok in H as (s1 & parts & [-> ->]%fpath_ok & H%on_prepare_failure_ok).
  apply pym_bind_ok in H as (s1 & c & E & H). apply read_resource_ok in E as (-> & ino & i & Hd & Hino & ->).
  eapply new_file_prepared; [done|done|done|]. unfold expected. rewrite Hi. by eapply Hr.
Qed.

Lemma resource_prepared e s s' p :
  prepare_from_resource fe e (re_digest e) s = (s', Ok p) -> along (sl_paths s) (re_path e) -> inlined e = false ->
  (forall d ino, sl_resources s !! d = Some ino -> is_Some (sl_inodes s !! ino)) ->
  prepared e true p s s'.
Proof.
  intros H Ha Hi Hr. apply pym_bind_ok in H as (s1 & parts & [-> ->]%fpath_ok & H%on_prepare_failure_ok).
  apply pym_bind_ok in H as (s1 & x & E & H). injection E as <- <-.
  destruct (sl_resources s !! re_digest e) as [ino|] eqn:Hd; [|done].
  apply link_to_ok in H as (-> & H1 & H2 & H3 & H4 & H5); [|done].
  destruct (Hr _ _ Hd) as [i Hino]. split_and!; try done.
  eapply placed_resource; try done. rewrite H5. apply map_eq. intros j.
  destruct (decide (j = ino)) as [->|].
  - by rewrite lookup_alter_eq, lookup_insert_eq, Hino.
  - by rewrite lookup_alter_ne, lookup_insert_ne.
Qed.

Lemma head_prepared e first head ino s s' p :
  prepare_from_head fe e head s = (s', Ok p) -> along (sl_paths s) (re_path e) -> along (sl_paths s) head ->
  sl_paths s !! head = Some (NFile ino) -> is_hardlinked e = true ->
  sl_hardlink_group s !! re_inode_id e = Some head ->
  prepared e first p s s' /\ sl_paths s' = <[re_path e := NFile ino]> (sl_paths s).
Proof.
  intros H Ha Hah Hn Hh Hg. apply pym_bind_ok in H as (s1 & parts & [-> ->]%fpath_ok & H%on_prepare_failure_ok).
  apply pym_bind_ok in H as (s1 & x & E & H). injection E as <- <-.
  destruct (locate_row false _ _ Hah) as [E|[n E]]; [done|rewrite E in H|by rewrite E in H]. rewrite Hn in H.
  apply link_to_ok in H as (-> & H1 & H2 & H3 & H4 & H5); [|done].
  split; [|done]. split_and!; try done. by eapply placed_link.
Qed.

Lemma placed_ext e first s s1 s' :
  sl_paths s' = sl_paths s1 -> sl_inodes s' = sl_inodes s1 -> sl_next s' = sl_next s1 ->
  placed e first s s1 -> placed e first s s'.
Proof.
  intros Hp Hi Hn []; [eapply placed_new|eapply placed_resource|eapply placed_link];
    rewrite ?Hp, ?Hi, ?Hn; eassumption.
Qed.

Definition groups_after (e : RegularFileRow) (s : slot) : gmap Z string :=
  if is_hardlinked e then
    match sl_hardlink_group s !! re_inode_id e with
    | Some _ => sl_hardlink_group s
    | None => <[re_inode_id e := re_path e]> (sl_hardlink_group s)
    end
  else sl_hardlink_group s.

(** The effect of a task that returned. *)
Definition task_effect (e : RegularFileRow) (first : bool) (s s' : slot) : Prop :=
  placed e first s s' /\ sl_resources s' = sl_resources s /\ sl_hardlink_group s' = groups_after e s /\
  (is_hardlinked e = true -> forall head, sl_hardlink_group s !! re_inode_id e = Some head ->
     exists ino, sl_paths s !! head = Some (NFile ino) /\ sl_paths s' = <[re_path e := NFile ino]> (sl_paths s)).

Lemma put_report_ok n s s' u :
  put_size_report n s = (s', Ok u) ->
  sl_paths s' = sl_paths s /\ sl_inodes s' = sl_inodes s /\ sl_next s' = sl_next s /\
  sl_resources s' = sl_resources s /\ sl_hardlink_group s' = sl_hardlink_group s.
Proof. by intros [= <-]. Qed.

Lemma prepared_normal e first p s s1 s' n u :
  is_hardlinked e = false -> prepared e first p s s1 ->
  (s' = s1 \/ put_size_report n s1 = (s', Ok u)) -> task_effect e first s s'.
Proof.
  unfold task_effect, groups_after. intros -> (_ & Hr & Hg & Hpl) [->|H].
  - done.
  - apply put_report_ok in H as (? & ? & ? & ? & ?). split_and!; [by eapply placed_ext|congruence..|done].
Qed.

Lemma prepared_new_head e first p s s1 s2 s' n u v :
  is_hardlinked e = true -> sl_hardlink_group s !! re_inode_id e = None -> prepared e first p s s1 ->
  set_head e p s1 = (s2, Ok u) -> (s' = s2 \/ put_size_report n s2 = (s', Ok v)) -> task_effect e first s s'.
Proof.
  unfold task_effect, groups_after. intros Hh Hn (-> & Hr & Hg & Hpl) Hset Hd. rewrite Hh, Hn.
  assert (E : sl_paths s' = sl_paths s1 /\ sl_inodes s' = sl_inodes s1 /\ sl_next s' = sl_next s1 /\
              sl_resources s' = sl_resources s1 /\
              sl_hardlink_group s' = <[re_inode_id e := re_path e]> (sl_hardlink_group s1)).
  { unfold set_head, modify in Hset. inversion Hset; subst s2 u. destruct Hd as [->|Hd]; [done|].
    by apply put_report_ok in Hd. }
  destruct E as (? & ? & ? & ? & ?). split_and!; [by eapply placed_ext|congruence..|by intros _ head].
Qed.

Lemma process_file_effect e first s s' :
  process_file fe (e, first) s = (s', Ok tt) -> along (sl_paths s) (re_path e) -> kind_at (sl_paths s) (re_path e) = None ->
  (forall head, sl_hardlink_group s !! re_inode_id e = Some head ->
     along (sl_paths s) head /\ exists ino, sl_paths s !! head = Some (NFile ino)) ->
  resources_hold s -> (forall d ino, sl_resources s !! d = Some ino -> is_Some (sl_inodes s !! ino)) ->
  task_effect e first s s'.
Proof.
  intros H Ha Hp Hheads Hr Hs. unfold process_file in H. cbn [fst snd] in H.
  destruct (is_hardlinked e) eqn:Eh.
  - unfold process_hardlinked_file in H. apply pym_bind_ok in H as (s1 & g & E & H). injection E as <- <-.
    destruct (sl_hardlink_group s !! re_inode_id e) as [head|] eqn:Eg.
    + apply pym_bind_ok in H as (s1 & p & E & H). destruct (Hheads head eq_refl) as (Hah & ino & Hino).
      apply (head_prepared e first head ino) in E; [|done..]. destruct E as [(_ & Hres & Hg & Hpl) Hl]. unfold task_effect, groups_after. rewrite Eh, Eg.
      assert (E : sl_paths s' = sl_paths s1 /\ sl_inodes s' = sl_inodes s1 /\ sl_next s' = sl_next s1 /\
                  sl_resources s' = sl_resources s1 /\ sl_hardlink_group s' = sl_hardlink_group s1).
      { destruct first; [by injection H as <-|by apply put_report_ok in H]. }
      destruct E as (Hp' & ? & ? & ? & ?). split_and!; [by eapply placed_ext|congruence..|].
      intros _ h [= <-]. exists ino. by rewrite Hp'.
    + destruct (inlined e) eqn:Ei; [|destruct first].
      * apply pym_bind_ok in H as (s1 & p & E & H). apply (inlined_prepared e first) in E; [|done..].
        apply pym_bind_ok in H as (s2 & [] & E2 & H). eapply prepared_new_head; eauto.
      * apply pym_bind_ok in H as (s1 & p & E & H). apply resource_prepared in E; [|done..].
        eapply (prepared_new_head e true p s s1 s' s' 0); eauto.
      * apply pym_bind_ok in H as (s1 & p & E & H). apply (copy_prepared e false) in E; [|done..].
        apply pym_bind_ok in H as (s2 & [] & E2 & H). eapply prepared_new_head; eauto.
  - unfold process_normal_file in H. destruct (inlined e) eqn:Ei; [|destruct first].
    + apply pym_bind_ok in H as (s1 & p & E & H). apply (inlined_prepared e first) in E; [|done..].
      eapply prepared_normal; eauto.
    + apply pym_bind_ok in H as (s1 & p & E & H). apply resource_prepared in E; [|done..].
      injection H as <-. eapply (prepared_normal e true p s s1 s1 0 tt); eauto.
    + apply pym_bind_ok in H as (s1 & p & E & H). apply (copy_prepared e false) in E; [|done..].
      eapply prepared_normal; eauto.
  Unshelve. all: exact tt.
Qed.

Section Step.
Context (e : RegularFileRow) (first : bool) (done : list task) (s s' : slot).
Context (Hstart : start_ok) (Hinv : slot_inv done s).
Context (Hpath : re_path e ∉ map (fun t => re_path (fst t)) done) (Habs : sl_paths s0 !! re_path e = None).
Context (Hfirst : first = true -> forall e1, (e1, true) ∈ done -> re_digest e1 <> re_digest e).
Context (Hagree : groups_agree (e :: map fst done)).
Context (Heff : task_effect e first s s').

Lemma done_path t : t ∈ done -> re_path (fst t) <> re_path e.
Proof. intros Ht Heq. apply Hpath. apply list_elem_of_fmap. by exists t. Qed.

Lemma placed_paths : exists ino, sl_paths s' = <[re_path e := NFile ino]> (sl_paths s).
Proof. destruct Heff as [[] _]; eauto. Qed.

Lemma other_path p : p <> re_path e -> sl_paths s' !! p = sl_paths s !! p.
Proof. intros Hne. destruct placed_paths as [ino ->]. by rewrite lookup_insert_ne. Qed.

Lemma done_inode t ino : t ∈ done -> at_inode s' (fst t) ino <-> at_inode s (fst t) ino.
Proof. intros Ht. unfold at_inode. by rewrite other_path by (by apply done_path). Qed.

Lemma head_path id head : sl_hardlink_group s !! id = Some head -> sl_paths s' !! head = sl_paths s !! head.
Proof.
  intros (t & Ht & _ & _ & ->)%(si_heads _ _ Hinv). by apply other_path, done_path.
Qed.

Lemma resource_inode d ino : sl_resources s !! d = Some ino -> (ino < sl_next s)%nat.
Proof.
  rewrite (si_resources _ _ Hinv). intros (i & Hi & _)%(si_contents _ _ Hinv). by apply (si_next _ _ Hinv).
Qed.

(** The inodes of the entries made so far are left alone. *)
Lemma done_content t ino : t ∈ done -> at_inode s (fst t) ino -> sl_inodes s' !! ino = sl_inodes s !! ino.
Proof.
  intros Ht Hat. destruct Heff as [[c Hc Hp [i [Hi _]] Hn|j i Hf _ Hd Hp Hj Hi Hn|head j _ Hg Hh Hp Hi Hn] _].
  - destruct (si_entries _ _ Hinv t Ht) as (k & ik & Hk & Hik & _).
    assert (ino = k) as -> by (unfold at_inode in *; congruence).
    rewrite Hi, lookup_insert_ne; [done|]. intros <-.
    assert (sl_next s < sl_next s)%nat by (apply (si_next _ _ Hinv); eauto). lia.
  - rewrite Hi, lookup_insert_ne; [done|]. intros <-. rewrite (si_resources _ _ Hinv) in Hd.
    destruct (si_taken _ _ Hinv t _ _ Ht Hd Hat) as (e1 & Hin & Hdig). by destruct (Hfirst Hf e1 Hin).
  - by rewrite Hi.
Qed.

Lemma new_on_slot : on_slot s' e.
Proof.
  destruct Heff as [[c Hc Hp [i [Hi Ha]] Hn|j i Hf Hnl Hd Hp Hj Hi Hn|head j Hl Hg Hh Hp Hi Hn] _].
  - exists (sl_next s), i. unfold at_inode. rewrite Hp, Hi, !lookup_insert_eq. done.
  - exists j, (apply_perm e i). unfold at_inode. rewrite Hp, Hi, !lookup_insert_eq. split_and!; try done.
    rewrite (si_resources _ _ Hinv) in Hd. destruct (si_contents _ _ Hinv _ _ Hd) as (i' & Hi' & Hc).
    split_and!; try done. unfold expected. rewrite Hnl. simpl. congruence.
  - destruct (si_heads _ _ Hinv _ _ Hg) as (t & Ht & Htl & Hid & ->).
    destruct (si_entries _ _ Hinv t Ht) as (k & i & Hk & Hik & Ha).
    assert (j = k) as -> by (unfold at_inode in *; congruence).
    exists k, i. unfold at_inode. rewrite Hp, Hi, lookup_insert_eq. split_and!; try done.
    destruct (Hagree e (fst t)) as (E1 & E2 & E3 & E4); [left|right; by apply list_elem_of_fmap_2|done..|].
    unfold as_entry. by rewrite E1, E2, E3, E4.
Qed.

Lemma new_taken d ino :
  sl_resources s0 !! d = Some ino -> at_inode s' e ino ->
  exists e1, (e1, true) ∈ (e, first) :: done /\ re_digest e1 = d.
Proof.
  intros Hd Hat. unfold at_inode in Hat. rewrite <- (si_resources _ _ Hinv) in Hd.
  destruct Heff as [[c Hc Hp [i [Hi Ha]] Hn|j i Hf Hnl Hd' Hp Hj Hi Hn|head j Hl Hg Hh Hp Hi Hn] _];
    rewrite Hp, lookup_insert_eq in Hat; injection Hat as <-.
  - apply resource_inode in Hd. lia.
  - exists e. rewrite Hf. split; [left|].
    rewrite (si_resources _ _ Hinv) in Hd, Hd'. by eapply so_distinct.
  - destruct (si_heads _ _ Hinv _ _ Hg) as (t & Ht & _ & _ & ->).
    rewrite (si_resources _ _ Hinv) in Hd.
    destruct (si_taken _ _ Hinv t d j Ht Hd Hh) as (e1 & Hin & ?). exists e1. split; [by right|done].
Qed.

Lemma slot_inv_step : slot_inv ((e, first) :: done) s'.
Proof.
  destruct Heff as (Hplaced & Hres & Hgrp & Hlink).
  split.
  - intros t [->|Ht]%elem_of_cons; [exact new_on_slot|].
    destruct (si_entries _ _ Hinv t Ht) as (ino & i & Hat & Hi & Ha). exists ino, i.
    rewrite done_inode by done. by rewrite (done_content t).
  - intros p Hp. simpl in Hp. rewrite other_path by set_solver. apply (si_paths _ _ Hinv). set_solver.
  - by rewrite Hres, (si_resources _ _ Hinv).
  - intros d ino Hd. destruct (si_contents _ _ Hinv d ino Hd) as (i & Hi & Hc).
    rewrite <- (si_resources _ _ Hinv) in Hd. pose proof (resource_inode _ _ Hd) as Hlt.
    destruct Hplaced as [c _ Hp [i' [Hi' Ha]] Hn|j i' Hf Hnl Hd' Hp Hj Hi' Hn|head j Hl Hg Hh Hp Hi' Hn]; rewrite Hi'.
    + rewrite lookup_insert_ne by lia. eauto.
    + destruct (decide (ino = j)) as [->|]; [|rewrite lookup_insert_ne; eauto].
      rewrite lookup_insert_eq. exists (apply_perm e i'). split; [done|]. simpl. congruence.
    + eauto.
  - intros ino. destruct Hplaced as [c _ Hp [i' [Hi' Ha]] Hn|j i' Hf Hnl Hd' Hp Hj Hi' Hn|head j Hl Hg Hh Hp Hi' Hn];
      rewrite Hi', Hn.
    + intros [Hx|[Hx Hy]]%lookup_insert_is_Some; [lia|]. apply (si_next _ _ Hinv) in Hy. lia.
    + intros [<-|[_ Hy]]%lookup_insert_is_Some; apply (si_next _ _ Hinv); eauto.
    + apply (si_next _ _ Hinv).
  - intros t d ino [->|Ht]%elem_of_cons Hd Hat; [by eapply new_taken|].
    apply done_inode in Hat; [|done]. destruct (si_taken _ _ Hinv t d ino Ht Hd Hat) as (e1 & ? & ?).
    exists e1. split; [by right|done].
  - intros id head. rewrite Hgrp. unfold groups_after. intros Hg.
    assert (Hcase : sl_hardlink_group s !! id = Some head \/
                    is_hardlinked e = true /\ re_inode_id e = id /\ head = re_path e).
    { destruct (is_hardlinked e); [|by left]. destruct (sl_hardlink_group s !! re_inode_id e); [by left|].
      apply lookup_insert_Some in Hg as [[? ?]|[? ?]]; [right|left]; done. }
    destruct Hcase as [(t & ? & ? & ? & ?)%(si_heads _ _ Hinv)|(? & ? & ?)].
    + exists t. split_and!; [by right|done..].
    + exists (e, first). split_and!; [left|done..].
  - intros t [->|Ht]%elem_of_cons Hl; rewrite Hgrp; unfold groups_after.
    + simpl in *. rewrite Hl. destruct (sl_hardlink_group s !! re_inode_id e) as [head|] eqn:Eg.
      * destruct (Hlink Hl head eq_refl) as (ino & Hh & Hp). exists head, ino. rewrite Eg.
        unfold at_inode. rewrite (head_path _ _ Eg), Hp, lookup_insert_eq. done.
      * destruct placed_paths as [ino Hp]. exists (re_path e), ino. unfold at_inode.
        by rewrite lookup_insert_eq, Hp, lookup_insert_eq.
    + destruct (si_grouped _ _ Hinv t Ht Hl) as (head & ino & Hg & Hh & Hat). exists head, ino.
      rewrite done_inode by done. rewrite (head_path _ _ Hg). split_and!; try done.
      destruct (is_hardlinked e); [|done]. destruct (sl_hardlink_group s !! re_inode_id e) eqn:Eg; [done|].
      rewrite lookup_insert_ne; [done|]. congruence.
Qed.
End Step.

(** What the order of the tasks does not change. *)
Definition firsts (tasks : list task) : list string :=
  map (fun t => re_digest (fst t)) (List.filter snd tasks).

Record tasks_ok (tasks : list task) : Prop := mkTasksOk {
  tk_paths : NoDup (map (fun t => re_path (fst t)) tasks);
  tk_along : forall t, t ∈ tasks -> along (sl_paths s0) (re_path (fst t));
  tk_absent : forall t, t ∈ tasks -> kind_at (sl_paths s0) (re_path (fst t)) = None;
  tk_firsts : NoDup (firsts tasks);
  tk_agree : groups_agree (map fst tasks);
}.

Lemma firsts_perm l l' : Permutation l l' -> Permutation (firsts l) (firsts l').
Proof.
  unfold firsts. induction 1 as [|x l l' _ IH|x y l|l l' l'' _ IH1 _ IH2]; simpl; [done|..].
  - by destruct (snd x); simpl; rewrite IH.
  - destruct (snd x), (snd y); simpl; try done. apply Permutation_swap.
  - by rewrite IH1.
Qed.

#[global] Instance tasks_ok_perm : Proper (Permutation ==> impl) tasks_ok.
Proof.
  intros l l' Hp [T1 T0 T2 T3 T4]. split.
  - by rewrite <- Hp.
  - intros t Ht. apply T0. by rewrite Hp.
  - intros t Ht. apply T2. by rewrite Hp.
  - by rewrite <- (firsts_perm _ _ Hp).
  - intros x y Hx Hy. apply T4; [revert Hx|revert Hy]; by rewrite Hp.
Qed.

Lemma run_tasks_failed tasks s exc : snd (run_tasks fe tasks s (Some exc)) = Some exc.
Proof.
  revert s. induction tasks as [|t tasks IH]; intros s; [done|]. simpl. unfold run_task.
  destruct (process_file fe t s) as [s1 [u|e]]; apply IH.
Qed.

Lemma run_tasks_ok tasks s s' :
  run_tasks fe tasks s None = (s', None) ->
  match tasks with
  | [] => s' = s
  | t :: tasks => exists s1, process_file fe t s = (s1, Ok tt) /\
                    run_tasks fe tasks s1 None = (s', None)
  end.
Proof.
  destruct tasks as [|t tasks]; simpl; [by intros [= <-]|]. unfold run_task.
  destruct (process_file fe t s) as [s1 [[]|e]]; [eauto|].
  intros H. pose proof (run_tasks_failed tasks s1 e) as Hf. by rewrite H in Hf.
Qed.

Lemma resources_hold_inv done s :
  slot_inv done s -> resources_hold s /\
  forall d ino, sl_resources s !! d = Some ino -> is_Some (sl_inodes s !! ino).
Proof.
  intros Hi. split.
  - intros d ino i. rewrite (si_resources _ _ Hi). intros (i' & Hi' & Hc)%(si_contents _ _ Hi). congruence.
  - intros d ino. rewrite (si_resources _ _ Hi). intros (i' & Hi' & Hc)%(si_contents _ _ Hi). eauto.
Qed.

(** The hypotheses of a step, from those on all tasks. *)
Lemma next_task_ok t tasks done :
  tasks_ok (done ++ t :: tasks) ->
  (re_path (fst t) ∉ map (fun t => re_path (fst t)) done) /\
  (snd t = true -> forall e1, (e1, true) ∈ done -> re_digest e1 <> re_digest (fst t)) /\
  groups_agree (fst t :: map fst done).
Proof.
  intros [T1 _ T2 T3 T4]. rewrite map_app in T1. apply NoDup_app in T1 as (_ & T1 & _).
  split_and!.
  - intros Hin. apply (T1 _ Hin). simpl. left.
  - intros Ht e1 Hin Heq. unfold firsts in T3. rewrite List.filter_app, map_app in T3.
    apply NoDup_app in T3 as (_ & T3 & _). apply (T3 (re_digest e1)).
    + apply list_elem_of_fmap. exists (e1, true). split; [done|].
      apply list_elem_of_In, filter_In. split; [by apply list_elem_of_In|done].
    + simpl. rewrite Ht. simpl. rewrite Heq. left.
  - intros e e' He He'. apply T4; rewrite map_app; simpl; set_solver.
Qed.

(** The tasks put no link in the way, and nothing on the paths to come. *)
Lemma along_inv done s p : slot_inv done s -> along (sl_paths s0) p -> along (sl_paths s) p.
Proof.
  intros Hi Ha. eapply along_ext; [exact Ha|]. intros a _.
  destruct (decide (a ∈ map (fun t => re_path (fst t)) done)) as [Hin|Hin].
  - apply list_elem_of_fmap in Hin as (t & -> & Ht). destruct (si_entries _ _ Hi t Ht) as (ino & i & Hat & _).
    unfold at_inode in Hat. unfold kind_at at 1. by rewrite Hat.
  - unfold kind_at. by rewrite (si_paths _ _ Hi).
Qed.

Lemma kind_inv done s p :
  slot_inv done s -> p ∉ map (fun t => re_path (fst t)) done -> kind_at (sl_paths s) p = kind_at (sl_paths s0) p.
Proof. intros Hi Hp. unfold kind_at. by rewrite (si_paths _ _ Hi). Qed.

Lemma heads_inv done s tasks :
  slot_inv done s -> tasks_ok (done ++ tasks) ->
  forall id head, sl_hardlink_group s !! id = Some head ->
    along (sl_paths s) head /\ exists ino, sl_paths s !! head = Some (NFile ino).
Proof.
  intros Hi Hok id head (t & Ht & _ & _ & ->)%(si_heads _ _ Hi). split.
  - eapply along_inv; [exact Hi|]. apply (tk_along _ Hok). apply elem_of_app. by left.
  - destruct (si_entries _ _ Hi t Ht) as (ino & i & Hat & _). by exists ino.
Qed.

(** What a task needs, from the invariant. *)
Lemma next_task_paths e first tasks done s :
  tasks_ok (done ++ (e, first) :: tasks) -> slot_inv done s ->
  along (sl_paths s) (re_path e) /\ kind_at (sl_paths s) (re_path e) = None /\ sl_paths s0 !! re_path e = None.
Proof.
  intros Hok Hi. destruct (next_task_ok _ _ _ Hok) as (N1 & _ & _). cbn [fst] in N1.
  assert (Hin : (e, first) ∈ done ++ (e, first) :: tasks) by set_solver.
  pose proof (tk_absent _ Hok _ Hin) as Hk. split_and!.
  - eapply along_inv; [exact Hi|]. exact (tk_along _ Hok _ Hin).
  - by rewrite (kind_inv _ _ _ Hi N1).
  - by apply kind_none in Hk as [? _].
Qed.

Lemma run_tasks_inv tasks done s s' :
  start_ok -> tasks_ok (done ++ tasks) -> slot_inv done s ->
  run_tasks fe tasks s None = (s', None) ->
  exists done', Permutation done' (done ++ tasks) /\ slot_inv done' s'.
Proof.
  intros Hst. revert done s. induction tasks as [|[e first] tasks IH]; intros done s Hok Hi H;
    apply run_tasks_ok in H.
  - subst. exists done. by rewrite app_nil_r.
  - destruct H as (s1 & Hp & H). destruct (next_task_ok _ _ _ Hok) as (N1 & N2 & N3). cbn [fst snd] in *.
    destruct (next_task_paths _ _ _ _ _ Hok Hi) as (Hal & Hk & Habs).
    destruct (resources_hold_inv _ _ Hi) as [R1 R2].
    apply process_file_effect in Hp; [|done|done|by eapply heads_inv|done..].
    apply (IH ((e, first) :: done)) in H as (done' & Hperm & Hi').
    + exists done'. split; [|done]. rewrite Hperm. simpl. by rewrite Permutation_middle.
    + revert Hok. apply tasks_ok_perm. simpl. by rewrite Permutation_middle.
    + by eapply slot_inv_step.
Qed.

(** ** With the environment's help, no task fails *)

Lemma fault_free p s : fe_fault fe p = false -> fault fe p s = (s, Ok tt).
Proof. unfold fault. by intros ->. Qed.

Lemma fpath_returns p s : canonical_path p = true -> fpath_on_target p s = (s, Ok (path_parts p)).
Proof. intros (Hb & _ & _)%canonical_parts. unfold fpath_on_target. by rewrite Hb. Qed.

Lemma at_place_returns follow p op s :
  canonical_path p = true -> parents_there (sl_paths s) p -> (follow = true -> ~ is_link_kind (kind_at (sl_paths s) p)) ->
  at_place fe follow (path_parts p) op s = op p s.
Proof.
  intros Hc Hp Hl. unfold at_place, mbind, pym_bind, get. by rewrite (locate_row_here follow (sl_paths s) p Hc Hp Hl).
Qed.

(** Making a node keeps the directories. *)
Lemma parents_insert paths p q n :
  parents_there paths p -> kind_at paths q = None -> parents_there (<[q := n]> paths) p.
Proof.
  intros Hp Hq a Ha. specialize (Hp a Ha). destruct (decide (a = q)) as [->|Hne]; [congruence|].
  revert Hp. unfold kind_at. by rewrite lookup_insert_ne.
Qed.

(** Nothing is at the entry's path, and the directories above it are there. *)
Definition ready (e : RegularFileRow) (s : slot) : Prop :=
  fe_fault fe (re_path e) = false /\ canonical_path (re_path e) = true /\
  parents_there (sl_paths s) (re_path e) /\ kind_at (sl_paths s) (re_path e) = None.

Lemma write_new_file_returns e c s :
  ready e s -> exists s', write_new_file fe e (path_parts (re_path e)) c s = (s', Ok (re_path e)).
Proof.
  intros (Hf & Hc & Hp & Hk). pose proof Hk as [Hn Hr]%kind_none. apply String.eqb_neq in Hr.
  unfold write_new_file. unfold mbind at 1, pym_bind at 1. rewrite fault_free by done.
  unfold mbind at 1, pym_bind at 1. rewrite at_place_returns; [|done|done|intros _ Hx; by rewrite Hk in Hx].
  unfold mbind at 1, pym_bind at 1, touch_and_write. unfold mbind at 1, pym_bind at 1, get. rewrite Hn, Hr.
  unfold modify, set_perm. cbn [sl_paths upd]. rewrite lookup_insert_eq. cbv beta iota.
  destruct (re_xattrs e) as [|x xs]; [by eexists|]. unfold mbind at 1, pym_bind at 1.
  rewrite at_place_returns; [by eexists|done| |done]. cbn [sl_paths upd]. by apply parents_insert.
Qed.

Lemma link_to_returns e n skip s :
  ready e s -> exists s', link_to fe e (path_parts (re_path e)) n skip s = (s', Ok (re_path e)).
Proof.
  intros (Hf & Hc & Hp & Hk). unfold link_to. unfold mbind at 1, pym_bind at 1. rewrite fault_free by done.
  unfold mbind at 1, pym_bind at 1, get. rewrite (locate_row_here false (sl_paths s) _ Hc Hp) by done. rewrite Hk. by eexists.
Qed.

Lemma on_prepare_returns {A} e parts (m : PyM slot pyexn A) s s' a :
  m s = (s', Ok a) -> on_prepare_failure fe e parts m s = (s', Ok a).
Proof. intros H. unfold on_prepare_failure, try_except. by rewrite H. Qed.

Lemma prepare_returns e first s ino i :
  ready e s ->
  (inlined e = false -> sl_resources s !! re_digest e = Some ino /\ sl_inodes s !! ino = Some i) ->
  (inlined e = true -> exists s', prepare_regular_inlined fe e s = (s', Ok (re_path e))) /\
  (inlined e = false -> exists s',
     (if first : bool then prepare_from_resource fe e (re_digest e)
      else prepare_regular_copy fe e (re_digest e)) s = (s', Ok (re_path e))).
Proof.
  intros Hready Hr. pose proof Hready as (_ & Hc & _ & _). split; intros Hi.
  - destruct (write_new_file_returns e (if contents_truthy e then re_contents e else None) s Hready) as [s' H].
    exists s'. unfold prepare_regular_inlined, mbind, pym_bind. rewrite fpath_returns by done.
    apply on_prepare_returns. fold (inlined e). by rewrite Hi.
  - destruct (Hr Hi) as [Hd Hino]. destruct first.
    + destruct (link_to_returns e (NFile ino) false s Hready) as [s' H]. exists s'.
      unfold prepare_from_resource. unfold mbind at 1, pym_bind at 1. rewrite fpath_returns by done.
      apply on_prepare_returns. unfold mbind, pym_bind, get. by rewrite Hd.
    + destruct (write_new_file_returns e (Some (fi_content i)) s Hready) as [s' H]. exists s'.
      unfold prepare_regular_copy. unfold mbind at 1, pym_bind at 1. rewrite fpath_returns by done. apply on_prepare_returns.
      unfold mbind at 1, pym_bind at 1, read_resource. unfold mbind at 1, pym_bind at 1, get.
      rewrite Hd. cbn [mbind option_bind]. by rewrite Hino.
Qed.

Lemma process_file_returns e first done s :
  slot_inv done s -> ready e s ->
  (forall t, t ∈ done -> canonical_path (re_path (fst t)) = true /\ parents_there (sl_paths s) (re_path (fst t))) ->
  (inlined e = false -> is_Some (sl_resources s0 !! re_digest e)) ->
  exists s', process_file fe (e, first) s = (s', Ok tt).
Proof.
  intros Hi Hready Hdone Hr. pose proof Hready as (_ & Hc & _ & _).
  assert (Hr' : exists ino i, inlined e = false ->
            sl_resources s !! re_digest e = Some ino /\ sl_inodes s !! ino = Some i).
  { destruct (inlined e); [by exists 0%nat, (mkFsInode [] 0 0 0 [])|].
    destruct (Hr eq_refl) as [ino Hino]. destruct (si_contents _ _ Hi _ _ Hino) as (i & Hi' & _).
    exists ino, i. by rewrite (si_resources _ _ Hi). }
  destruct Hr' as (ino & i & Hr'). destruct (prepare_returns e first s ino i Hready Hr') as [P1 P2].
  unfold process_file. cbn [fst snd]. destruct (is_hardlinked e) eqn:Eh.
  - unfold process_hardlinked_file. unfold mbind at 1, pym_bind at 1, gets.
    destruct (sl_hardlink_group s !! re_inode_id e) as [head|] eqn:Eg.
    + destruct (si_heads _ _ Hi _ _ Eg) as (t & Ht & _ & _ & ->).
      destruct (si_entries _ _ Hi t Ht) as (j & ij & Hj & _). unfold at_inode in Hj.
      destruct (link_to_returns e (NFile j) true s Hready) as [s' H]. destruct (Hdone t Ht) as [Hct Hpt].
      assert (H' : prepare_from_head fe e (re_path (fst t)) s = (s', Ok (re_path e))).
      { unfold prepare_from_head. unfold mbind at 1, pym_bind at 1. rewrite fpath_returns by done.
        apply on_prepare_returns. unfold mbind, pym_bind, get.
        rewrite (locate_row_here false (sl_paths s) _ Hct Hpt) by done. by rewrite Hj. }
      unfold mbind, pym_bind. rewrite H'. destruct first; by eexists.
    + destruct (inlined e).
      * destruct (P1 eq_refl) as [s' H]. unfold mbind at 1, pym_bind at 1. rewrite H. by eexists.
      * destruct (P2 eq_refl) as [s' H]. destruct first; unfold mbind at 1, pym_bind at 1; rewrite H; by eexists.
  - unfold process_normal_file. destruct (inlined e).
    + destruct (P1 eq_refl) as [s' H]. unfold mbind at 1, pym_bind at 1. rewrite H. by eexists.
    + destruct (P2 eq_refl) as [s' H]. destruct first; unfold mbind at 1, pym_bind at 1; rewrite H; by eexists.
Qed.

Lemma parents_inv done tasks s p :
  slot_inv done s -> tasks_ok (done ++ tasks) -> parents_there (sl_paths s0) p -> parents_there (sl_paths s) p.
Proof.
  intros Hi Hok Hp a Ha. specialize (Hp a Ha). rewrite (kind_inv done s); [done|done|].
  intros (t & -> & Ht)%list_elem_of_fmap. by rewrite (tk_absent _ Hok) in Hp by (apply elem_of_app; by left).
Qed.

Lemma run_tasks_return tasks done s :
  start_ok -> tasks_ok (done ++ tasks) -> slot_inv done s ->
  (forall t, t ∈ done ++ tasks -> parents_there (sl_paths s0) (re_path (fst t))) ->
  (forall t, t ∈ tasks -> fe_fault fe (re_path (fst t)) = false /\
     (inlined (fst t) = false -> is_Some (sl_resources s0 !! re_digest (fst t)))) ->
  exists s', run_tasks fe tasks s None = (s', None).
Proof.
  intros Hst. revert done s. induction tasks as [|[e first] tasks IH]; intros done s Hok Hi Hpar Hall.
  { by exists s. }
  destruct (next_task_ok _ _ _ Hok) as (N1 & N2 & N3). cbn [fst snd] in *.
  destruct (Hall (e, first)) as [Hf Hr]; [left|]. cbn [fst] in Hf, Hr.
  destruct (next_task_paths _ _ _ _ _ Hok Hi) as (Hal & Hk & Habs).
  assert (Hready : ready e s).
  { split_and!; [done|apply Hal| |done]. eapply parents_inv; [done|done|]. apply (Hpar (e, first)). set_solver. }
  destruct (process_file_returns e first done s Hi Hready) as [s1 H1]; [|done|].
  { intros t Ht. split; [apply (tk_along _ Hok); set_solver|]. eapply parents_inv; [done|done|]. apply Hpar. set_solver. }
  destruct (resources_hold_inv _ _ Hi) as [R1 R2].
  simpl. unfold run_task. rewrite H1. apply process_file_effect in H1; [|done|done|by eapply heads_inv|done..].
  apply (IH ((e, first) :: done)).
  - revert Hok. apply tasks_ok_perm. simpl. by rewrite Permutation_middle.
  - by eapply slot_inv_step.
  - intros t Ht. apply Hpar. set_solver.
  - intros t Ht. apply Hall. by right.
Qed.
End Correct.

Lemma submit_tasks_entries prepared entries : map fst (submit_tasks prepared entries) = entries.
Proof. revert prepared. induction entries as [|e l IH]; intros pr; simpl; [done|]. by rewrite IH. Qed.

(** One task per digest may take the resource. *)
Lemma submit_tasks_firsts prepared entries :
  NoDup (firsts (submit_tasks prepared entries)) /\
  forall d, d ∈ firsts (submit_tasks prepared entries) -> d ∉ prepared.
Proof.
  revert prepared. induction entries as [|e l IH]; intros pr; simpl.
  { split; [constructor|]. intros d Hd. by apply not_elem_of_nil in Hd. }
  destruct (IH ({[re_digest e]} ∪ pr)) as [H1 H2]. unfold firsts in *. simpl. case_bool_decide as Hd; simpl.
  - split.
    + constructor; [|done]. intros Hin. apply H2 in Hin. set_solver.
    + intros d [->|Hin]%elem_of_cons; [done|]. apply H2 in Hin. set_solver.
  - split; [done|]. intros d Hin. apply H2 in Hin. set_solver.
Qed.

Lemma submitted_ok s0 resource entries ran :
  NoDup (map re_path entries) ->
  (forall e, e ∈ entries -> along (sl_paths s0) (re_path e) /\ kind_at (sl_paths s0) (re_path e) = None) ->
  groups_agree resource entries -> Permutation ran (submit_tasks ∅ entries) ->
  tasks_ok s0 resource ran.
Proof.
  intros Hnd Habs Hag Hperm. rewrite Hperm. clear ran Hperm.
  assert (Hp : map (fun t => re_path (fst t)) (submit_tasks ∅ entries) = map re_path entries).
  { rewrite <- (submit_tasks_entries ∅ entries) at 2. by rewrite map_map. }
  split.
  - by rewrite Hp.
  - intros t Ht. apply Habs. rewrite <- (submit_tasks_entries ∅ entries). by apply list_elem_of_fmap_2.
  - intros t Ht. apply Habs. rewrite <- (submit_tasks_entries ∅ entries). by apply list_elem_of_fmap_2.
  - apply submit_tasks_firsts.
  - by rewrite submit_tasks_entries.
Qed.

(** ** Directories and other entries *)

(** Only the tree changed. *)
Definition same_inodes (s s' : slot) : Prop :=
  sl_inodes s' = sl_inodes s /\ sl_next s' = sl_next s /\ sl_resources s' = sl_resources s /\
  sl_hardlink_group s' = sl_hardlink_group s.

Lemma start_ok_same s s' resource : same_inodes s s' -> start_ok s resource -> start_ok s' resource.
Proof. intros (E1 & E2 & E3 & E4) [H1 H2 H3 H4]. split; rewrite ?E1, ?E2, ?E3, ?E4; done. Qed.

Definition is_link_node (n : option fnode) : Prop := match n with Some (NSymlink _ _ _ _) => True | _ => False end.

Lemma link_kind paths p : is_link_kind (kind_at paths p) <-> is_link_node (paths !! p).
Proof. unfold kind_at. destruct (paths !! p) as [[| | |]|]; try done. by destruct (String.eqb p "/"). Qed.

(** Directories that were missing were made, where [made] says; nothing else
    changed, but for the path [k]. *)
Definition framed (made : string -> Prop) (k : string -> Prop) (s s' : slot) : Prop :=
  forall p, ~ k p -> sl_paths s' !! p = sl_paths s !! p \/
    made p /\ kind_at (sl_paths s) p = None /\ kind_at (sl_paths s') p = Some KDir.

Lemma kind_same paths paths' p : paths' !! p = paths !! p -> kind_at paths' p = kind_at paths p.
Proof. unfold kind_at. by intros ->. Qed.

Lemma framed_trans made1 made2 k1 k2 s s1 s2 :
  framed made1 k1 s s1 -> framed made2 k2 s1 s2 ->
  framed (fun p => made1 p \/ made2 p) (fun p => k1 p \/ k2 p) s s2.
Proof.
  intros H1 H2 p Hp. assert (Hk : ~ k1 p /\ ~ k2 p) by tauto.
  destruct (H1 p (proj1 Hk)) as [E1|(M1 & N1 & D1)], (H2 p (proj2 Hk)) as [E2|(M2 & N2 & D2)].
  - left. congruence.
  - right. split_and!; [tauto| |done]. by rewrite <- (kind_same _ _ _ E1).
  - right. split_and!; [tauto|done|]. by rewrite (kind_same _ _ _ E2).
  - congruence.
Qed.

Lemma framed_mono made made' (k k' : string -> Prop) s s' :
  framed made k s s' -> (forall p, made p -> made' p) -> (forall p, k p -> k' p) -> framed made' k' s s'.
Proof. intros H Hm Hk p Hp. destruct (H p) as [?|(? & ? & ?)]; [by intros ?%Hk|by left|right; auto]. Qed.

(** No link appears. *)
Lemma framed_link made k s s' p :
  framed made k s s' -> ~ k p -> is_link_kind (kind_at (sl_paths s') p) -> is_link_kind (kind_at (sl_paths s) p).
Proof. intros H Hk Hl. destruct (H p Hk) as [E|(_ & _ & E)]; [by rewrite (kind_same _ _ _ E) in Hl|by rewrite E in Hl]. Qed.

(** What preparing one entry promises, when no link is on the way to its path
    (nor at it, where a link would be followed): it makes missing directories
    at most, where [made] says, and leaves [post] at the path. *)
Definition way_clear (through : bool) (k : string) (s : slot) : Prop :=
  along (sl_paths s) k /\ (through = true -> ~ is_link_kind (kind_at (sl_paths s) k)).

Class Prepares {A} (prepare : A -> PyM slot pyexn unit) (key : A -> string) (through : bool)
    (made : A -> string -> Prop) (post : A -> option fnode -> Prop) : Prop := {
  prepares a s s' : prepare a s = (s', Ok tt) -> way_clear through (key a) s ->
    same_inodes s s' /\ framed (made a) (fun p => p = key a) s s' /\ post a (sl_paths s' !! key a);
  made_post a b p : made b p -> post a None -> False;
}.

Section Entries.
Context {A} (prepare : A -> PyM slot pyexn unit) (key : A -> string) (through : bool)
  (made : A -> string -> Prop) (post : A -> option fnode -> Prop) `{HPr : !Prepares prepare key through made post}.

(** The way to the other entries stays clear. *)
Lemma way_kept a b s s' :
  prepare a s = (s', Ok tt) -> way_clear through (key a) s -> key a <> key b ->
  (key a ∈ above (key b) -> forall n, post a n -> ~ is_link_node n) ->
  way_clear through (key b) s -> way_clear through (key b) s'.
Proof using HPr.
  intros H Ha Hne Hleaf [Hal Hl]. destruct (prepares a s s' H Ha) as (_ & Hf & Hp). split.
  - eapply along_ext; [exact Hal|]. intros x Hx Hlx. destruct (decide (x = key a)) as [->|Hxa].
    + apply link_kind in Hlx. by destruct (Hleaf Hx _ Hp).
    + by eapply framed_link.
  - intros Ht Hlx. apply (Hl Ht). eapply framed_link; [exact Hf| |exact Hlx]. intros E. by apply Hne.
Qed.

Lemma process_entries_ok l s s' :
  process_entries prepare l s = (s', Ok tt) -> NoDup (map key l) ->
  (forall a, a ∈ l -> way_clear through (key a) s) ->
  (forall a b n, a ∈ l -> b ∈ l -> key a ∈ above (key b) -> post a n -> ~ is_link_node n) ->
  same_inodes s s' /\ framed (fun p => exists a, a ∈ l /\ made a p) (fun p => p ∈ map key l) s s' /\
  forall a, a ∈ l -> post a (sl_paths s' !! key a).
Proof using HPr.
  revert s. induction l as [|a l IH]; intros s; simpl.
  { intros [= <-] _ _ _. split_and!; [done|intros p _; by left|]. intros a Ha. by apply not_elem_of_nil in Ha. }
  intros H [Hn Hnd]%NoDup_cons Hway Hleaf. apply pym_bind_ok in H as (s1 & [] & E & H).
  unfold try_except in E. destruct (prepare a s) as [s2 [[]|e]] eqn:Ea; [|done]. injection E as ->.
  assert (Hne : forall b, b ∈ l -> key a <> key b) by (intros b Hb E; apply Hn; rewrite E; by apply list_elem_of_fmap_2).
  pose proof (prepares a s s1 Ea (Hway a ltac:(left))) as (F1 & P1 & Q1).
  apply IH in H as (F2 & P2 & Q2); [|done| |].
  - split_and!.
    + unfold same_inodes in *. intuition congruence.
    + eapply framed_mono; [eapply framed_trans; [exact P1|exact P2]|..]; set_solver.
    + intros b [->|Hb]%elem_of_cons; [|by apply Q2]. destruct (P2 (key a) Hn) as [->|((b & Hb & Hm) & Hk & _)]; [done|].
      apply kind_none in Hk as [Hk _]. rewrite Hk in Q1. by destruct (made_post a b _ Hm).
  - intros b Hb. apply (way_kept a b s s1 Ea); [apply Hway; left|by apply Hne| |apply Hway; by right].
    intros Hab n. apply (Hleaf a b n); [left|by right|done].
  - intros x y n Hx Hy. apply (Hleaf x y n); by right.
Qed.
End Entries.

Section PrepareOk.
Context (fe : fs_env).

(** *** Making a directory and those above it *)

Section Mkdir.
Context (parts : list string) (Hplain : forallb plain_part parts = true).

Abbreviation upto k := (path_of (take k parts)).

Definition no_links (n : nat) (s : slot) : Prop := forall k, (1 <= k <= n)%nat -> ~ is_link_kind (kind_at (sl_paths s) (upto k)).

Lemma above_upto n a : a ∈ above_parts (take n parts) -> exists k, (1 <= k < n)%nat /\ a = upto k.
Proof using Type.
  rewrite in_above. intros (j & Hj & ->). rewrite length_take in Hj. exists j. split; [lia|]. by rewrite take_take, Nat.min_l by lia.
Qed.

Lemma locate_upto follow n s :
  no_links n s -> locate (kind_at (sl_paths s)) follow (take n parts) = Here (upto n) \/
    exists e, locate (kind_at (sl_paths s)) follow (take n parts) = Bad e.
Proof using Hplain.
  intros Hl. destruct n as [|n]; [by left|]. apply locate_lands; [by apply take_plain| |intros _; apply Hl; lia].
  intros a (k & Hk & ->)%above_upto. apply Hl. lia.
Qed.

Lemma os_mkdir_cases n s :
  no_links n s ->
  (os_mkdir fe (take n parts) s = (s <| sl_paths := <[upto n := new_dir fe]> (sl_paths s) |>, Ok tt) /\
   kind_at (sl_paths s) (upto n) = None) \/
  exists e, os_mkdir fe (take n parts) s = (s, Raise (os_error e)).
Proof using Hplain.
  intros Hl. unfold os_mkdir, at_place, mbind, pym_bind, get.
  destruct (locate_upto false n s Hl) as [E|[e E]]; rewrite E; [|right; by exists e].
  destruct (kind_at (sl_paths s) (upto n)); [right; by eexists|by left].
Qed.

Lemma unless_dir_cases n e s :
  no_links n s ->
  (unless_dir fe (take n parts) e s = (s, Ok tt) /\ kind_at (sl_paths s) (upto n) = Some KDir) \/
  unless_dir fe (take n parts) e s = (s, Raise e).
Proof using Hplain.
  intros Hl. unfold unless_dir, is_directory, mbind, pym_bind, get.
  destruct (locate_upto true n s Hl) as [E|[x E]]; rewrite E; [|by right].
  destruct (kind_at (sl_paths s) (upto n)) as [[| |]|]; [by left|by right..].
Qed.

Definition made_upto (n : nat) (p : string) : Prop := exists k, (1 <= k <= n)%nat /\ p = upto k.

(** What making directories does to the slot. *)
Definition mkdir_effect (n : nat) (s s' : slot) (r : result pyexn unit) : Prop :=
  same_inodes s s' /\ framed (made_upto n) (fun _ => False) s s' /\
  (r = Ok tt -> kind_at (sl_paths s') (upto n) = Some KDir).

Lemma mkdir_effect_same n s r : (r = Ok tt -> kind_at (sl_paths s) (upto n) = Some KDir) -> mkdir_effect n s s r.
Proof using Type. intros H. split_and!; [done|intros p _; by left|done]. Qed.

Lemma mkdir_effect_made n s :
  kind_at (sl_paths s) (upto n) = None ->
  mkdir_effect n s (s <| sl_paths := <[upto n := new_dir fe]> (sl_paths s) |>) (Ok tt).
Proof using Type.
  intros Hk. assert (Hn : (1 <= n)%nat).
  { destruct n; [|lia]. apply kind_none in Hk as [_ Hk]. by destruct Hk. }
  assert (Hd : kind_at (<[upto n := new_dir fe]> (sl_paths s)) (upto n) = Some KDir)
    by (unfold kind_at; by rewrite lookup_insert_eq).
  split_and!; [done| |done]. intros p _. cbn. destruct (decide (p = upto n)) as [->|].
  - right. split_and!; [exists n; split; [lia|done]|done|done].
  - left. by rewrite lookup_insert_ne.
Qed.

Lemma mkdir_effect_trans m n s s1 s2 r :
  (m <= n)%nat -> mkdir_effect m s s1 (Ok tt) -> mkdir_effect n s1 s2 r -> mkdir_effect n s s2 r.
Proof using Type.
  intros Hmn (F1 & P1 & _) (F2 & P2 & Q2). split_and!; [unfold same_inodes in *; intuition congruence| |done].
  eapply framed_mono; [eapply framed_trans; [exact P1|exact P2]| |by intros p [[]|[]]].
  intros p [(k & Hk & ->)|?]; [|done]. exists k. split; [lia|done].
Qed.

Lemma no_links_kept m n s s1 r : mkdir_effect m s s1 r -> no_links n s -> no_links n s1.
Proof using Type. intros (_ & P & _) H k Hk Hl. apply (H k Hk). eapply framed_link; [exact P|by intros []|exact Hl]. Qed.

Lemma mkdir_parts_effect n s :
  no_links n s -> mkdir_effect n s (fst (mkdir_parts fe parts n s)) (snd (mkdir_parts fe parts n s)).
Proof using Hplain.
  revert s. induction n as [|m IH]; intros s Hl.
  - cbn [mkdir_parts]. unfold try_except. destruct (os_mkdir_cases 0 s Hl) as [[E Hk]|[e E]]; rewrite E; [by apply mkdir_effect_made|].
    destruct (is_enoent (os_error e)); [by apply mkdir_effect_same|].
    destruct (unless_dir_cases 0 (os_error e) s Hl) as [[E' Hk]|E']; rewrite E'; by apply mkdir_effect_same.
  - cbn [mkdir_parts]. unfold try_except. destruct (os_mkdir_cases (S m) s Hl) as [[E Hk]|[e E]]; rewrite E; [by apply mkdir_effect_made|].
    destruct (is_enoent (os_error e)).
    + unfold mbind, pym_bind. specialize (IH s ltac:(intros k Hk; apply Hl; lia)).
      destruct (mkdir_parts fe parts m s) as [s1 [[]|e1]]; cbn [fst snd] in IH |- *.
      * pose proof (no_links_kept _ (S m) _ _ _ IH Hl) as Hl1.
        eapply (mkdir_effect_trans m); [lia|exact IH|].
        destruct (os_mkdir_cases (S m) s1 Hl1) as [[E1 Hk]|[e1 E1]]; rewrite E1; [by apply mkdir_effect_made|].
        destruct (is_enoent (os_error e1)); [by apply mkdir_effect_same|].
        destruct (unless_dir_cases (S m) (os_error e1) s1 Hl1) as [[E' Hk]|E']; rewrite E'; by apply mkdir_effect_same.
      * destruct IH as (F & P & _). split_and!; [done| |done]. eapply framed_mono; [exact P| |done].
        intros p (k & Hk & ->). exists k. split; [lia|done].
    + destruct (unless_dir_cases (S m) (os_error e) s Hl) as [[E' Hk]|E']; rewrite E'; by apply mkdir_effect_same.
Qed.

(** Nothing but directories in the way. *)
Definition only_dirs (n : nat) (s : slot) : Prop :=
  forall k, (k <= n)%nat -> kind_at (sl_paths s) (upto k) = None \/ kind_at (sl_paths s) (upto k) = Some KDir.

Lemma first_missing n s :
  only_dirs n s -> (forall k, (k <= n)%nat -> kind_at (sl_paths s) (upto k) = Some KDir) \/
  exists m, (1 <= m <= n)%nat /\ (forall k, (k < m)%nat -> kind_at (sl_paths s) (upto k) = Some KDir) /\
    kind_at (sl_paths s) (upto m) = None.
Proof using Type.
  intros H. induction n as [|n IH].
  - left. intros k Hk. replace k with 0%nat by lia. destruct (H 0%nat ltac:(lia)) as [E|E]; [|done].
    apply kind_none in E as [_ E]. by destruct E.
  - destruct IH as [IH|(m & Hm & Ha & Hn)]; [intros k Hk; apply H; lia| |right; exists m; split; [lia|done]].
    destruct (H (S n) ltac:(lia)) as [E|E]; [right; exists (S n); split_and!; [lia|lia| |done]; intros k Hk; apply IH; lia|].
    left. intros k Hk. destruct (decide (k = S n)) as [->|]; [done|apply IH; lia].
Qed.

Lemma mkdir_below_dirs n s :
  (n <= List.length parts)%nat -> only_dirs n s -> (forall k, (k < n)%nat -> kind_at (sl_paths s) (upto k) = Some KDir) ->
  exists s', (forall g, try_except (os_mkdir fe (take n parts)) (fun e => if is_enoent e then g e else unless_dir fe (take n parts) e) s = (s', Ok tt)) /\
    forall k, (k <= n)%nat -> kind_at (sl_paths s') (upto k) = Some KDir.
Proof using Hplain.
  intros Hn Hd Ha.
  assert (Hat : forall follow, locate (kind_at (sl_paths s)) follow (take n parts) = Here (upto n)).
  { intros follow. apply locate_here; [by apply take_plain| |].
    - intros a (k & Hk & ->)%above_upto. apply Ha. lia.
    - intros _ Hl. by destruct (Hd n ltac:(lia)) as [E|E]; rewrite E in Hl. }
  destruct (Hd n ltac:(lia)) as [E|E].
  - eexists. split; [intros g; unfold try_except, os_mkdir, at_place, mbind, pym_bind, get, modify; rewrite Hat, E; reflexivity|].
    intros k Hk. cbn. unfold kind_at. destruct (decide (upto k = upto n)) as [->|Hne]; [by rewrite lookup_insert_eq|].
    rewrite lookup_insert_ne by done. apply Ha. destruct (decide (k = n)) as [->|]; [done|lia].
  - exists s. split.
    + intros g. unfold try_except, os_mkdir, at_place, mbind, pym_bind, get. rewrite Hat, E.
      cbn [is_enoent os_error raise E_NOENT Z.eqb Pos.eqb].
      unfold unless_dir, is_directory, mbind, pym_bind, get. by rewrite Hat, E.
    + intros k Hk. destruct (decide (k = n)) as [->|]; [done|apply Ha; lia].
Qed.

Lemma mkdir_parts_returns n s :
  (n <= List.length parts)%nat -> only_dirs n s ->
  exists s', mkdir_parts fe parts n s = (s', Ok tt) /\ forall k, (k <= n)%nat -> kind_at (sl_paths s') (upto k) = Some KDir.
Proof using Hplain.
  revert s. induction n as [|m IH]; intros s Hn Hd.
  { destruct (mkdir_below_dirs 0 s Hn Hd) as (s' & H & Hk); [lia|]. exists s'. split; [apply H|done]. }
  assert (Hdm : only_dirs m s) by (intros k Hk; apply Hd; lia).
  destruct (first_missing m s Hdm) as [Ha|(j & Hj & Ha & Hmiss)].
  { destruct (mkdir_below_dirs (S m) s Hn Hd) as (s' & H & Hk); [intros k Hk; apply Ha; lia|]. exists s'. split; [|done].
    cbn [mkdir_parts]. apply H. }
  cbn [mkdir_parts]. unfold try_except at 1.
  assert (E : os_mkdir fe (take (S m) parts) s = (s, Raise (os_error E_NOENT))).
  { unfold os_mkdir, at_place, mbind, pym_bind, get.
    assert (Ht : forall k, (k <= S m)%nat -> take k (take (S m) parts) = take k parts) by (intros k Hk; by rewrite take_take, Nat.min_l by lia).
    rewrite (locate_missing (kind_at (sl_paths s)) false (take (S m) parts) j); [done|by apply take_plain|rewrite length_take; lia| |].
    - intros k Hk. rewrite Ht by lia. apply Ha. lia.
    - by rewrite Ht by lia. }
  rewrite E. cbn [is_enoent os_error E_NOENT Z.eqb Pos.eqb].
  destruct (IH s ltac:(lia) Hdm) as (s1 & H1 & Hk1). unfold mbind, pym_bind. rewrite H1.
  assert (Hd1 : only_dirs (S m) s1).
  { intros k Hk. destruct (decide (k = S m)) as [->|]; [|right; apply Hk1; lia].
    assert (Hl : no_links m s) by (intros i Hi Hx; destruct (Hdm i ltac:(lia)) as [E0|E0]; by rewrite E0 in Hx).
    pose proof (mkdir_parts_effect m s Hl) as (_ & P & _). rewrite H1 in P. cbn [fst] in P.
    destruct (P (upto (S m)) ltac:(tauto)) as [E0|(_ & _ & E0)]; [|by right].
    rewrite (kind_same _ _ _ E0). apply Hd. lia. }
  destruct (mkdir_below_dirs (S m) s1 Hn Hd1) as (s' & H & Hk); [intros k Hk; apply Hk1; lia|].
  exists s'. split; [|done]. apply (H (fun e' => raise e')).
Qed.
End Mkdir.

Lemma set_perm_dir m u g p s :
  kind_at (sl_paths s) p = Some KDir ->
  exists x, set_perm true m u g p s = s <| sl_paths := <[p := NDir m u g x]> (sl_paths s) |>.
Proof.
  unfold kind_at, set_perm. destruct (sl_paths s !! p) as [[| | |]|]; try done; intros _; by eexists.
Qed.

(** The attributes of a directory row. *)
Definition dir_row (e : DirRow) (s s' : slot) : Prop :=
  exists x, s' = s <| sl_paths := <[de_path e := NDir (de_mode e) (de_uid e) (de_gid e) x]> (sl_paths s) |>.

Lemma dir_attributes e s s1 s' :
  kind_at (sl_paths s) (de_path e) = Some KDir -> along (sl_paths s) (de_path e) ->
  at_place fe true (path_parts (de_path e)) (fun p => modify (set_perm true (de_mode e) (de_uid e) (de_gid e) p)) s = (s1, Ok tt) ->
  match de_xattrs e with
  | [] => mret tt
  | x => at_place fe false (path_parts (de_path e)) (fun p => modify (set_xattr x p))
  end s1 = (s', Ok tt) -> dir_row e s s'.
Proof.
  intros Hk Ha H1 H2. apply at_place_ok in H1; [|done|intros _ Hl; by rewrite Hk in Hl]. unfold modify in H1.
  destruct (set_perm_dir (de_mode e) (de_uid e) (de_gid e) _ _ Hk) as [x E]. rewrite E in H1. injection H1 as <-.
  destruct (de_xattrs e) as [|y ys]; [injection H2 as <-; by exists x|].
  apply at_place_ok in H2; [|cbn; eapply along_ext; [exact Ha|]; intros a _; by apply insert_not_link|done].
  unfold modify, set_xattr in H2. cbn [sl_paths upd] in H2. rewrite lookup_insert_eq in H2. injection H2 as <-.
  eexists. cbn. by rewrite insert_insert_eq.
Qed.

Lemma mkdir_row p s s' :
  canonical_path p = true -> mkdir_parts fe (path_parts p) (List.length (path_parts p)) s = (s', Ok tt) ->
  way_clear true p s ->
  same_inodes s s' /\ framed (fun q => q = p \/ q ∈ above p) (fun _ => False) s s' /\ kind_at (sl_paths s') p = Some KDir.
Proof.
  intros Hc H [[_ Hal] Hl]. pose proof Hc as (_ & Hp & Hplain)%canonical_parts.
  assert (Hfull : path_of (take (List.length (path_parts p)) (path_parts p)) = p) by (by rewrite firstn_all).
  assert (Hno : no_links (path_parts p) (List.length (path_parts p)) s).
  { intros k Hk. destruct (decide (k = List.length (path_parts p))) as [->|Hne]; [rewrite Hfull; by apply Hl|].
    apply Hal, in_above. exists k. split; [lia|done]. }
  pose proof (mkdir_parts_effect _ Hplain _ _ Hno) as (F & P & Q). rewrite H in F, P, Q. cbn [fst snd] in F, P, Q.
  split_and!; [done| |by rewrite <- Hfull; apply Q]. eapply framed_mono; [exact P| |done].
  intros q (k & Hk & ->). destruct (decide (k = List.length (path_parts p))) as [->|Hne]; [by left|right].
  apply in_above. exists k. split; [lia|done].
Qed.

#[export] Instance prepare_dir_ok : Prepares (prepare_dir fe) de_path true (fun e p => p ∈ above (de_path e))
  (fun e n => exists x, n = Some (NDir (de_mode e) (de_uid e) (de_gid e) x)).
Proof.
  split; [|by intros a b p _ [x Hx]]. intros e s s' H Hw. pose proof Hw as [[Hc Hal] Hl]. unfold prepare_dir in H.
  apply pym_bind_ok in H as (s1 & parts & [-> ->]%fpath_ok & H). apply pym_bind_ok in H as (s1 & [] & Hf%fault_ok & H). subst s1.
  apply pym_bind_ok in H as (s1 & [] & Hm & H). apply mkdir_row in Hm as (F1 & P1 & K1); [|done|done].
  apply pym_bind_ok in H as (s2 & [] & H2 & H).
  eapply dir_attributes in H; [|exact K1| |exact H2].
  - destruct H as [x ->]. cbn. split_and!; [unfold same_inodes in *; cbn; intuition congruence| |exists x; by rewrite lookup_insert_eq].
    intros p Hp. destruct (P1 p) as [E|([->|Hin] & Hn & Hd)]; [by intros []|left; cbn; by rewrite lookup_insert_ne|done|right].
    split_and!; [done|done|]. cbn. unfold kind_at. rewrite lookup_insert_ne by done. exact Hd.
  - eapply along_ext; [by split|]. intros a _. eapply framed_link; [exact P1|by intros []].
Qed.

Lemma make_node_ok p n s s' :
  make_node fe p (path_parts p) n s = (s', Ok tt) -> along (sl_paths s) p ->
  s' = s <| sl_paths := <[p := n]> (sl_paths s) |>.
Proof.
  unfold make_node. intros H Ha. apply pym_bind_ok in H as (s1 & [] & Hf%fault_ok & H). subst s1.
  apply at_place_ok in H; [|done|done]. apply pym_bind_ok in H as (s1 & x & E & H). injection E as <- <-.
  destruct (kind_at (sl_paths s) p); [done|]. by injection H as <-.
Qed.

#[export] Instance prepare_non_regular_ok : Prepares (prepare_non_regular fe) ne_path false (fun _ _ => False)
  (fun e n => is_lnk (ne_mode e) = true ->
     exists target, ne_meta e = Some target /\ n = Some (NSymlink target (ne_uid e) (ne_gid e) (ne_xattrs e))).
Proof.
  split; [|done]. intros e s s' H [Hal _]. unfold prepare_non_regular in H.
  apply pym_bind_ok in H as (s1 & parts & [-> ->]%fpath_ok & H).
  assert (Hput : forall n, make_node fe (ne_path e) (path_parts (ne_path e)) n s = (s', Ok tt) ->
    same_inodes s s' /\ framed (fun _ => False) (fun p => p = ne_path e) s s' /\ sl_paths s' !! ne_path e = Some n).
  { intros n Hm. apply make_node_ok in Hm as ->; [|done]. cbn. rewrite lookup_insert_eq. split_and!; [done| |done].
    intros p Hp. left. cbn. by rewrite lookup_insert_ne. }
  destruct (is_lnk (ne_mode e)).
  - destruct (ne_meta e) as [[|c t]|]; try done. apply Hput in H as (F & P & Q). split_and!; [done|done|].
    intros _. rewrite Q. by eexists.
  - destruct (is_chr (ne_mode e)).
    + apply Hput in H as (F & P & Q). by split_and!.
    + injection H as <-. split_and!; [done|intros p _; by left|done].
Qed.
End PrepareOk.

(** The image is a tree: entries with paths of their own, nothing below a
    path that is not a directory's.  On the slot, none of the regular files is
    there yet, and no link is where the image has a directory. *)
Definition row_paths (dirs : list DirRow) (nonregulars : list NonRegularFileRow) (entries : list RegularFileRow) : list string :=
  map de_path dirs ++ map ne_path nonregulars ++ map re_path entries.

Record image_ok (s : slot) (resource : string -> bytes) (dirs : list DirRow)
    (nonregulars : list NonRegularFileRow) (entries : list RegularFileRow) : Prop := mkImageOk {
  im_start : start_ok s resource;
  im_paths : NoDup (map de_path dirs ++ map ne_path nonregulars ++ map re_path entries);
  im_absent : forall e, e ∈ entries -> sl_paths s !! re_path e = None;
  im_groups : groups_agree resource entries;
  im_canonical : forall p, p ∈ row_paths dirs nonregulars entries -> canonical_path p = true;
  im_leaves : forall n, n ∈ map ne_path nonregulars ++ map re_path entries ->
    n <> "/"%string /\ forall p, p ∈ row_paths dirs nonregulars entries -> n ∉ above p;
  im_links : forall p a, p ∈ row_paths dirs nonregulars entries -> a ∈ above p -> ~ is_link_node (sl_paths s !! a);
  im_dirs : forall d, d ∈ dirs -> ~ is_link_node (sl_paths s !! de_path d);
}.

Section Image.
Context (fe : fs_env) (resource : string -> bytes) (dirs : list DirRow) (nonregulars : list NonRegularFileRow)
  (entries : list RegularFileRow) (s s1 s2 : slot).
Context (Him : image_ok s resource dirs nonregulars entries).

Abbreviation rows := (row_paths dirs nonregulars entries).

Lemma dir_in d : d ∈ dirs -> de_path d ∈ rows.
Proof using Type. intros H. apply elem_of_app. left. by apply list_elem_of_fmap_2. Qed.
Lemma nonregular_in n : n ∈ nonregulars -> ne_path n ∈ map ne_path nonregulars ++ map re_path entries.
Proof using Type. intros H. apply elem_of_app. left. by apply list_elem_of_fmap_2. Qed.
Lemma entry_in e : e ∈ entries -> re_path e ∈ map ne_path nonregulars ++ map re_path entries.
Proof using Type. intros H. apply elem_of_app. right. by apply list_elem_of_fmap_2. Qed.
Lemma leaf_in p : p ∈ map ne_path nonregulars ++ map re_path entries -> p ∈ rows.
Proof using Type. intros H. apply elem_of_app. by right. Qed.

(** The paths of the three tables are apart. *)
Lemma rows_apart :
  NoDup (map de_path dirs) /\ NoDup (map ne_path nonregulars) /\ NoDup (map re_path entries) /\
  (forall p, p ∈ map ne_path nonregulars ++ map re_path entries -> p ∉ map de_path dirs) /\
  (forall e, e ∈ entries -> re_path e ∉ map ne_path nonregulars).
Proof using Him.
  pose proof (im_paths _ _ _ _ _ Him) as Hnd. apply NoDup_app in Hnd as (N1 & D1 & Hnd). apply NoDup_app in Hnd as (N2 & D2 & N3).
  split_and!; [done..| |].
  - intros p Hp Hin. by apply (D1 p Hin).
  - intros e He Hin. apply (D2 _ Hin). by apply list_elem_of_fmap_2.
Qed.

Lemma dirs_way d : d ∈ dirs -> way_clear true (de_path d) s.
Proof using Him.
  intros Hd. split; [split; [apply (im_canonical _ _ _ _ _ Him); by apply dir_in|]|].
  - intros a Ha. rewrite link_kind. apply (im_links _ _ _ _ _ Him (de_path d)); [by apply dir_in|done].
  - intros _. rewrite link_kind. by apply (im_dirs _ _ _ _ _ Him).
Qed.

Context (E1 : process_entries (prepare_dir fe) dirs s = (s1, Ok tt)).

Lemma after_dirs :
  same_inodes s s1 /\ framed (fun p => exists d, d ∈ dirs /\ p ∈ above (de_path d)) (fun p => p ∈ map de_path dirs) s s1 /\
  forall d, d ∈ dirs -> exists x, sl_paths s1 !! de_path d = Some (NDir (de_mode d) (de_uid d) (de_gid d) x).
Proof using Him E1.
  destruct rows_apart as (N1 & _). apply (process_entries_ok _ _ _ _ _ (HPr := prepare_dir_ok fe) _ _ _ E1 N1); [apply dirs_way|].
  intros a b n _ _ _ [x ->]. by intros [].
Qed.

(** The way to the links and files is clear, and they are not there. *)
Lemma leaves_way p : p ∈ map ne_path nonregulars ++ map re_path entries -> along (sl_paths s1) p.
Proof using Him E1.
  intros Hp. destruct after_dirs as (_ & P & Q). split; [apply (im_canonical _ _ _ _ _ Him); by apply leaf_in|].
  intros a Ha Hl. destruct (decide (a ∈ map de_path dirs)) as [Hin|Hin].
  - apply list_elem_of_fmap in Hin as (d & -> & Hd). destruct (Q d Hd) as [x Hx]. rewrite link_kind, Hx in Hl. by destruct Hl.
  - eapply framed_link in Hl; [|exact P|exact Hin]. rewrite link_kind in Hl.
    by apply (im_links _ _ _ _ _ Him p a (leaf_in _ Hp) Ha).
Qed.

Lemma leaves_same p : p ∈ map ne_path nonregulars ++ map re_path entries -> sl_paths s1 !! p = sl_paths s !! p.
Proof using Him E1.
  intros Hp. destruct after_dirs as (_ & P & _). destruct rows_apart as (_ & _ & _ & D & _).
  destruct (P p (D p Hp)) as [E|((d & Hd & Hin) & _)]; [done|].
  by destruct (proj2 (im_leaves _ _ _ _ _ Him p Hp) _ (dir_in d Hd)).
Qed.

(** The directories that are there stay, and those of the image are there. *)
Lemma dirs_there a : kind_at (sl_paths s) a = Some KDir \/ a ∈ map de_path dirs -> kind_at (sl_paths s1) a = Some KDir.
Proof using Him E1.
  intros H. destruct after_dirs as (_ & P & Q). destruct (decide (a ∈ map de_path dirs)) as [Hin|Hin].
  - apply list_elem_of_fmap in Hin as (d & -> & Hd). destruct (Q d Hd) as [x Hx]. unfold kind_at. by rewrite Hx.
  - destruct H as [H|H]; [|done]. destruct (P a Hin) as [E|(_ & _ & E)]; [by rewrite (kind_same _ _ _ E)|done].
Qed.

Context (E2 : process_entries (prepare_non_regular fe) nonregulars s1 = (s2, Ok tt)).

Lemma after_nonregulars :
  same_inodes s1 s2 /\ (forall p, p ∉ map ne_path nonregulars -> sl_paths s2 !! p = sl_paths s1 !! p) /\
  forall n, n ∈ nonregulars -> is_lnk (ne_mode n) = true ->
    exists target, ne_meta n = Some target /\ sl_paths s2 !! ne_path n = Some (NSymlink target (ne_uid n) (ne_gid n) (ne_xattrs n)).
Proof using Him E1 E2.
  destruct rows_apart as (_ & N2 & _).
  destruct (process_entries_ok _ _ _ _ _ (HPr := prepare_non_regular_ok fe) _ _ _ E2 N2) as (F & P & Q).
  - intros n Hn. split; [by apply leaves_way, nonregular_in|done].
  - intros a b n Ha Hb Hin _. destruct (im_leaves _ _ _ _ _ Him _ (nonregular_in a Ha)) as [_ Hl].
    by destruct (Hl _ (leaf_in _ (nonregular_in b Hb))).
  - split_and!; [done| |done]. intros p Hp. by destruct (P p Hp) as [E|((a & _ & []) & _)].
Qed.

(** What the regular files find. *)
Lemma files_start : start_ok s2 resource /\ sl_resources s2 = sl_resources s.
Proof using Him E1 E2.
  destruct after_dirs as (F1 & _), after_nonregulars as (F2 & _).
  split; [apply (start_ok_same _ _ _ F2), (start_ok_same _ _ _ F1), (im_start _ _ _ _ _ Him)|].
  destruct F1 as (_ & _ & G1 & _), F2 as (_ & _ & G2 & _). congruence.
Qed.

Lemma files_way e : e ∈ entries -> along (sl_paths s2) (re_path e) /\ kind_at (sl_paths s2) (re_path e) = None.
Proof using Him E1 E2.
  intros He. destruct after_nonregulars as (_ & P & _). destruct rows_apart as (_ & _ & _ & _ & D). pose proof (entry_in e He) as Hin. split.
  - eapply along_ext; [by apply leaves_way|]. intros a Ha. rewrite (kind_same (sl_paths s1)); [done|]. apply P.
    intros Hx. destruct (im_leaves _ _ _ _ _ Him a) as [_ Hl]; [apply elem_of_app; by left|].
    by destruct (Hl _ (leaf_in _ Hin)).
  - apply kind_none. split; [|by apply (im_leaves _ _ _ _ _ Him)]. rewrite P by (by apply D).
    rewrite leaves_same by done. by apply (im_absent _ _ _ _ _ Him).
Qed.

(** The directories above an entry of the image, once the rows are made. *)
Lemma parents_made p :
  p ∈ rows -> (forall a, a ∈ above p -> kind_at (sl_paths s) a = Some KDir \/ a ∈ map de_path dirs) ->
  parents_there (sl_paths s1) p /\ parents_there (sl_paths s2) p.
Proof using Him E1 E2.
  intros Hp H. destruct after_nonregulars as (_ & P & _). split; intros a Ha; specialize (H a Ha); apply dirs_there in H; [done|].
  rewrite (kind_same (sl_paths s1)); [done|]. apply P. intros Hx.
  destruct (im_leaves _ _ _ _ _ Him a) as [_ Hl]; [apply elem_of_app; by left|]. by destruct (Hl _ Hp).
Qed.
End Image.


(** Preparing returns on a slot where [free] holds of the entry, and keeps it
    for the others. *)
Class PrepareReturns {A} (prepare : A -> PyM slot pyexn unit) (key : A -> string) (free : A -> slot -> Prop) : Prop := {
  prepare_does_return a s : free a s -> exists s', prepare a s = (s', Ok tt);
  free_kept a b s s' : free a s -> free b s -> key a <> key b -> prepare a s = (s', Ok tt) -> free b s';
}.

Lemma process_entries_return {A} (prepare : A -> PyM slot pyexn unit) key free `{!PrepareReturns prepare key free} l s :
  NoDup (map key l) -> (forall a, a ∈ l -> free a s) ->
  exists s', process_entries prepare l s = (s', Ok tt).
Proof.
  revert s. induction l as [|a l IH]; intros s; simpl; [by eexists|].
  intros [Hn Hnd]%NoDup_cons Hf. destruct (prepare_does_return a s) as [s1 H1]; [apply Hf; left|].
  unfold mbind, pym_bind, try_except. rewrite H1.
  apply IH; [done|]. intros b Hb. apply (free_kept a b s s1); [apply Hf; left|apply Hf; by right| |done].
  intros E. apply Hn. rewrite E. by apply list_elem_of_fmap_2.
Qed.

(** Nothing in the way of the entries, and the environment does not fail. *)
Definition dir_or_none (k : option kind) : Prop := match k with None | Some KDir => True | _ => False end.

Definition dir_free (fe : fs_env) (e : DirRow) (s : slot) : Prop :=
  fe_fault fe (de_path e) = false /\ canonical_path (de_path e) = true /\
  forall a, a = "/"%string \/ a ∈ above (de_path e) \/ a = de_path e -> dir_or_none (kind_at (sl_paths s) a).
Definition non_regular_free (fe : fs_env) (e : NonRegularFileRow) (s : slot) : Prop :=
  fe_fault fe (ne_path e) = false /\ canonical_path (ne_path e) = true /\
  parents_there (sl_paths s) (ne_path e) /\ kind_at (sl_paths s) (ne_path e) = None /\
  (is_lnk (ne_mode e) = true -> opt_str_truthy (ne_meta e) = true).

Section Returns.
Context (fe : fs_env).

Lemma dir_or_none_link k : dir_or_none k -> ~ is_link_kind k.
Proof. destruct k as [[| |]|]; intros [] ; by intros []. Qed.

Lemma dir_free_way e s : dir_free fe e s -> way_clear true (de_path e) s.
Proof.
  intros (_ & Hc & Hd). split; [split; [done|]|].
  - intros a Ha. apply dir_or_none_link, Hd. auto.
  - intros _. apply dir_or_none_link, Hd. auto.
Qed.

Lemma dir_free_upto e s : dir_free fe e s -> only_dirs (path_parts (de_path e)) (List.length (path_parts (de_path e))) s.
Proof.
  intros (_ & Hc & Hd) k Hk. pose proof Hc as (_ & Hp & _)%canonical_parts.
  assert (H : dir_or_none (kind_at (sl_paths s) (path_of (take k (path_parts (de_path e)))))).
  { apply Hd. destruct (decide (k = 0%nat)) as [->|]; [by left|].
    destruct (decide (k = List.length (path_parts (de_path e)))) as [->|]; [right; right; by rewrite firstn_all|].
    right. left. apply in_above. exists k. split; [lia|done]. }
  destruct (kind_at _ _) as [[| |]|]; try done; auto.
Qed.

#[export] Instance prepare_dir_returns : PrepareReturns (prepare_dir fe) de_path (dir_free fe).
Proof.
  split.
  - intros e s Hfree. pose proof Hfree as (Hf & Hc & Hd). pose proof Hc as (_ & Hp & Hplain)%canonical_parts.
    destruct (mkdir_parts_returns fe _ Hplain _ s (le_n _) (dir_free_upto e s Hfree)) as (s1 & H1 & Hk).
    assert (Hk1 : kind_at (sl_paths s1) (de_path e) = Some KDir) by (specialize (Hk _ (le_n _)); by rewrite firstn_all, Hp in Hk).
    assert (Hpar : parents_there (sl_paths s1) (de_path e)) by (intros a (k & Hk' & ->)%in_above; apply Hk; lia).
    unfold prepare_dir. unfold mbind at 1, pym_bind at 1. rewrite fpath_returns by done.
    unfold mbind at 1, pym_bind at 1. rewrite fault_free by done. unfold mbind at 1, pym_bind at 1. rewrite H1.
    unfold mbind at 1, pym_bind at 1. rewrite at_place_returns; [|done|done|intros _ Hx; by rewrite Hk1 in Hx].
    unfold modify. destruct (set_perm_dir (de_mode e) (de_uid e) (de_gid e) _ _ Hk1) as [x ->].
    destruct (de_xattrs e); [by eexists|]. rewrite at_place_returns; [by eexists|done| |done].
    intros a Ha. cbn. unfold kind_at. destruct (decide (a = de_path e)) as [->|]; [by rewrite lookup_insert_eq|].
    rewrite lookup_insert_ne by done. by apply Hpar.
  - intros a b s s' Ha (Hf & Hc & Hd) Hne H. split_and!; [done|done|]. intros p Hp.
    destruct (prepares a s s' H (dir_free_way _ _ Ha)) as (_ & P & [x Q]).
    destruct (decide (p = de_path a)) as [->|Hpa]; [unfold kind_at; by rewrite Q|].
    destruct (P p Hpa) as [E|(_ & _ & E)]; [rewrite (kind_same _ _ _ E); by apply Hd|by rewrite E].
Qed.

Lemma make_node_returns p n s :
  fe_fault fe p = false -> canonical_path p = true -> parents_there (sl_paths s) p -> kind_at (sl_paths s) p = None ->
  exists s', make_node fe p (path_parts p) n s = (s', Ok tt).
Proof.
  intros Hf Hc Hp Hk. unfold make_node. unfold mbind at 1, pym_bind at 1. rewrite fault_free by done.
  rewrite at_place_returns by done. unfold mbind, pym_bind, get. rewrite Hk. by eexists.
Qed.

#[export] Instance prepare_non_regular_returns :
  PrepareReturns (prepare_non_regular fe) ne_path (non_regular_free fe).
Proof.
  split.
  - intros e s (Hf & Hc & Hp & Hk & Hm). unfold prepare_non_regular. unfold mbind at 1, pym_bind at 1. rewrite fpath_returns by done.
    destruct (is_lnk (ne_mode e)).
    + specialize (Hm eq_refl). destruct (ne_meta e) as [[|c t]|]; try done. by apply make_node_returns.
    + destruct (is_chr (ne_mode e)); [by apply make_node_returns|by eexists].
  - intros a b s s' (_ & Hca & Hpa & Hka & _) (Hf & Hc & Hp & Hk & Hm) Hne H.
    assert (Hw : way_clear false (ne_path a) s).
    { split; [|done]. split; [done|]. intros x Hx Hl. by rewrite (Hpa x Hx) in Hl. }
    destruct (prepares a s s' H Hw) as (_ & P & _).
    assert (Hsame : forall p, p <> ne_path a -> kind_at (sl_paths s') p = kind_at (sl_paths s) p).
    { intros p Hpn. apply kind_same. by destruct (P p Hpn) as [E|([] & _)]. }
    split_and!; [done|done| |by rewrite Hsame by (by intros E; apply Hne)|done].
    intros x Hx. rewrite Hsame; [by apply Hp|]. intros ->. by rewrite (Hp _ Hx) in Hka.
Qed.
End Returns.


(** ** A concrete image *)

Definition example_entries : list RegularFileRow :=
  [mkRegularEntry "/a" 33188 0 0 [] "d1" 2 None 1 None;
   mkRegularEntry "/d/b" 33261 5 5 [] "d1" 2 None (-7) (Some 2);
   mkRegularEntry "/d/s/c" 33261 5 5 [] "d1" 2 None (-7) (Some 2);
   mkRegularEntry "/e" 33188 0 0 [] "d0" 0 None 2 None]%string.
(** A directory is before the one above it. *)
Definition example_image_dirs : list DirRow :=
  [mkDirEntry "/d/s" 16832 3 3 []; mkDirEntry "/" 16877 0 0 []; mkDirEntry "/d" 16877 5 5 []]%string.
Definition example_image_links : list NonRegularFileRow :=
  [mkNonRegularEntry "/d/l" 41471 0 0 [] (Some "b")]%string.
Definition calm_env : fs_env := mkFsEnv (fun _ => false) 18 (fun _ => None) (fun _ => false).

Definition example_resource (d : string) : bytes := if String.eqb d "d1" then [x61; x62]%byte else [].
Definition example_slot : slot :=
  mkSlot ∅ {[0%nat := mkFsInode [x61; x62]%byte 0 0 0 []]} 1 {["d1"%string := 0%nat]} ∅ [].

(** The tasks are run in the opposite order. *)
Definition example_ran : list (RegularFileRow * bool) := rev (submit_tasks ∅ example_entries).

Lemma example_image_ok :
  image_ok example_slot example_resource example_image_dirs example_image_links example_entries.
Proof.
  split.
  - split.
    + intros ino [i Hi]. simpl in *. apply lookup_singleton_Some in Hi as [<- _]. lia.
    + intros d ino Hd. simpl in *. apply lookup_singleton_Some in Hd as [<- <-].
      exists (mkFsInode [x61; x62]%byte 0 0 0 []). split; [apply lookup_singleton_eq|done].
    + intros d d' ino H1 H2. simpl in *. apply lookup_singleton_Some in H1 as [<- _].
      by apply lookup_singleton_Some in H2 as [<- _].
    + done.
  - vm_compute. repeat (constructor; [set_solver|]). constructor.
  - intros e _. apply lookup_empty.
  - intros e e' He He' Hl Hl' Hid. unfold example_entries in *.
    repeat (apply elem_of_cons in He as [->|He]; [|]); try done; try (by apply not_elem_of_nil in He);
    repeat (apply elem_of_cons in He' as [->|He']; [|]); try done; by apply not_elem_of_nil in He'.
  - apply Forall_forall. vm_compute. repeat constructor.
  - intros n Hn. assert (Hall : forallb (fun n => negb (String.eqb n "/") &&
        forallb (fun p => bool_decide (n ∉ above p)) (row_paths example_image_dirs example_image_links example_entries))
        (map ne_path example_image_links ++ map re_path example_entries) = true) by (vm_compute; reflexivity).
    rewrite forallb_forall in Hall. specialize (Hall n ltac:(by apply list_elem_of_In)).
    apply andb_true_iff in Hall as [Hr Ha]. apply negb_true_iff, String.eqb_neq in Hr. split; [done|].
    intros p Hp. rewrite forallb_forall in Ha. specialize (Ha p ltac:(by apply list_elem_of_In)). by apply bool_decide_eq_true in Ha.
  - intros p a _ _ H. cbn in H. by rewrite lookup_empty in H.
  - intros d _ H. cbn in H. by rewrite lookup_empty in H.
Qed.

Lemma example_ran_perm : Permutation example_ran (submit_tasks ∅ example_entries).
Proof. unfold example_ran. symmetry. apply Permutation_rev. Qed.



(** Without the rows of the directories the first file fails: its parent is
    missing. *)
Example missing_parent_fails :
  snd (update_slot calm_env [] [] (submit_tasks ∅ [mkRegularEntry "/d/b" 33261 5 5 [] "d1" 2 None 1 None]) example_slot) =
  Raise (update_standby_slot_failed (prepare_entry_failed (mkRegularEntry "/d/b" 33261 5 5 [] "d1" 2 None 1 None) (os_error E_NOENT))).
Proof. vm_compute. reflexivity. Qed.

(** A directory row at a link to a directory is made at the target of the
    link, as [mkdir] and [chown] follow it. *)
Example dir_row_through_link :
  let s := example_slot <| sl_paths := {["/l"%string := NSymlink "d" 0 0 []; "/d"%string := NDir 16877 0 0 []]} |> in
  fst (prepare_dir calm_env (mkDirEntry "/l" 16832 3 3 []) s) =
  s <| sl_paths := {["/l"%string := NSymlink "d" 0 0 []; "/d"%string := NDir 16832 3 3 []]} |>.
Proof. vm_compute. reflexivity. Qed.
