(* ===== verification/ShardedDict.v ===== *)
(** * The thread-safe dict of the resources

    Models [src/src/otaclient_common/thread_safe_container.py] and
    [src/src/otaclient/create_standby/_common.py]: a dict in shards, each
    under its lock, so that one operation on a key is one step, and the
    interface it offers to the delta generators. *)

From stdpp Require Import base gmap strings list option sets fin_maps.
From Stdlib Require Import ZArith Lia.
From S2P Require Import Prelude.

(** What a client of the dict relies on: it is a map, seen through [td_view]. *)
Class ThreadSafeDict (D K V : Type) `{Countable K} : Type := {
  td_view : D -> gmap K V;
  td_ok : D -> Prop;
  td_contains : K -> D -> bool;
  td_pop : K -> D -> D * option V;         (** [None]: [KeyError] *)
  td_contains_spec d k : td_ok d -> td_contains k d = bool_decide (is_Some (td_view d !! k));
  td_pop_spec d k : td_ok d -> td_ok (fst (td_pop k d)) /\ snd (td_pop k d) = td_view d !! k /\
    td_view (fst (td_pop k d)) = delete k (td_view d);
}.

Definition DEFAULT_SET_SHARD_NUMS : nat := 128.

Section Sharded.
Context {K V : Type} `{Countable K}.
(** [_shard_index], below [num_of_shards]. *)
Context (num_of_shards : nat) (shard_index : K -> nat).

Abbreviation ShardedThreadSafeDict := (list (gmap K V)).

(** [__init__] *)
Definition new_sharded : ShardedThreadSafeDict := replicate num_of_shards ∅.

Definition shard_of (k : K) (d : ShardedThreadSafeDict) : gmap K V :=
  default ∅ (d !! shard_index k).

Definition sharded_contains (k : K) (d : ShardedThreadSafeDict) : bool :=
  bool_decide (is_Some (shard_of k d !! k)).

Definition sharded_len (d : ShardedThreadSafeDict) : nat := sum_list (map size d).

(** [__iter__] and [items] *)
Definition sharded_items (d : ShardedThreadSafeDict) : list (K * V) := List.concat (map map_to_list d).
Definition sharded_iter (d : ShardedThreadSafeDict) : list K := map fst (sharded_items d).
Definition sharded_values (d : ShardedThreadSafeDict) : list V := map snd (sharded_items d).

Definition sharded_setitem (k : K) (v : V) (d : ShardedThreadSafeDict) : ShardedThreadSafeDict :=
  alter (insert k v) (shard_index k) d.

(** [__getitem__]: [None] is [KeyError]. *)
Definition sharded_getitem (k : K) (d : ShardedThreadSafeDict) : option V := shard_of k d !! k.

Definition check_and_add (k : K) (v : V) (d : ShardedThreadSafeDict) : ShardedThreadSafeDict * bool :=
  if sharded_contains k d then (d, false) else (sharded_setitem k v d, true).

Definition from_iterable (l : list (K * V)) : ShardedThreadSafeDict :=
  fold_left (fun d kv => sharded_setitem (fst kv) (snd kv) d) l new_sharded.

Definition sharded_pop (k : K) (d : ShardedThreadSafeDict) : ShardedThreadSafeDict * option V :=
  (alter (delete k) (shard_index k) d, shard_of k d !! k).

Definition sharded_pop_default (k : K) (default_value : V) (d : ShardedThreadSafeDict) :
    ShardedThreadSafeDict * V :=
  let '(d, v) := sharded_pop k d in (d, default default_value v).

Definition sharded_clear (d : ShardedThreadSafeDict) : ShardedThreadSafeDict := map (fun _ => ∅) d.

(** ** The dict is a map *)

Context (Hindex : forall k, (shard_index k < num_of_shards)%nat).

(** Every key is in its own shard. *)
Definition sharded_ok (d : ShardedThreadSafeDict) : Prop :=
  List.length d = num_of_shards /\
  forall i m k, d !! i = Some m -> is_Some (m !! k) -> shard_index k = i.

(** The map it stands for. *)
Definition sharded_view (d : ShardedThreadSafeDict) : gmap K V := foldr union ∅ d.

Lemma foldr_union_lookup (d : list (gmap K V)) k v :
  foldr union ∅ d !! k = Some v -> exists i m, d !! i = Some m /\ m !! k = Some v.
Proof.
  induction d as [|m d IH]; simpl; [by rewrite lookup_empty|].
  rewrite lookup_union_Some_raw. intros [Hm|[_ Hd]].
  - by exists 0%nat, m.
  - destruct (IH Hd) as (i & m' & ? & ?). by exists (S i), m'.
Qed.

Lemma foldr_union_is_Some (d : list (gmap K V)) k i m :
  d !! i = Some m -> is_Some (m !! k) -> is_Some (foldr union ∅ d !! k).
Proof.
  revert i. induction d as [|m' d IH]; intros i Hi Hk; [done|]. simpl.
  rewrite lookup_union_is_Some. destruct i as [|i]; simpl in Hi.
  - injection Hi as ->. by left.
  - right. by eapply IH.
Qed.

Lemma sharded_view_lookup d k : sharded_ok d -> sharded_view d !! k = shard_of k d !! k.
Proof.
  intros [Hl Hk]. unfold sharded_view, shard_of.
  destruct (foldr union ∅ d !! k) as [v|] eqn:E.
  - apply foldr_union_lookup in E as (i & m & Hi & Hm).
    rewrite (Hk i m k Hi) by eauto. by rewrite Hi.
  - destruct (lookup_lt_is_Some_2 d (shard_index k)) as [m Hm]; [rewrite Hl; apply Hindex|].
    rewrite Hm. simpl. unfold id. destruct (m !! k) as [v|] eqn:Ek; [|done].
    destruct (foldr_union_is_Some d k _ m Hm) as [v' Hv]; [eauto|]. congruence.
Qed.

Lemma new_sharded_ok : sharded_ok new_sharded /\ sharded_view new_sharded = ∅.
Proof.
  assert (Ho : sharded_ok new_sharded).
  { split; [apply length_replicate|]. intros i m k [-> _]%lookup_replicate [v Hv]. by rewrite lookup_empty in Hv. }
  split; [done|]. apply map_eq. intros k. rewrite sharded_view_lookup by done. unfold shard_of, new_sharded.
  rewrite lookup_empty. destruct (replicate num_of_shards ∅ !! shard_index k) as [m|] eqn:E; simpl.
  - apply lookup_replicate in E as [-> _]. apply lookup_empty.
  - apply lookup_empty.
Qed.

(** An operation on the shard of a key, and the same on the map. *)
Lemma sharded_alter (f : gmap K V -> gmap K V) k d :
  (forall m k', k' <> k -> f m !! k' = m !! k') -> sharded_ok d ->
  sharded_ok (alter f (shard_index k) d) /\
  forall k', sharded_view (alter f (shard_index k) d) !! k' =
    if decide (k' = k) then f (shard_of k d) !! k else sharded_view d !! k'.
Proof.
  intros Hf [Hl Hk].
  assert (Ho : sharded_ok (alter f (shard_index k) d)).
  { split; [by rewrite length_alter|]. intros i m k' Hi Hs.
    rewrite list_lookup_alter in Hi. destruct (decide (shard_index k = i)) as [<-|]; [|by apply (Hk i m)].
    destruct (decide (k' = k)) as [->|Hne]; [done|].
    destruct (d !! shard_index k) as [m0|] eqn:Em; [|done]. simpl in Hi. injection Hi as <-.
    rewrite Hf in Hs by done. by apply (Hk _ m0). }
  split; [done|]. intros k'. rewrite sharded_view_lookup by done. unfold shard_of.
  destruct (decide (k' = k)) as [->|Hne].
  - rewrite list_lookup_alter_eq.
    destruct (lookup_lt_is_Some_2 d (shard_index k)) as [m Hm]; [rewrite Hl; apply Hindex|].
    by rewrite Hm.
  - rewrite sharded_view_lookup by done. unfold shard_of.
    destruct (decide (shard_index k' = shard_index k)) as [Heq|Hi].
    + rewrite Heq, list_lookup_alter_eq. destruct (d !! shard_index k) as [m|]; simpl; [|done].
      unfold id. by apply Hf.
    + by rewrite list_lookup_alter_ne.
Qed.

Lemma sharded_setitem_spec k v d :
  sharded_ok d -> sharded_ok (sharded_setitem k v d) /\
  sharded_view (sharded_setitem k v d) = <[k := v]> (sharded_view d).
Proof.
  intros Ho. destruct (sharded_alter (insert k v) k d) as [Ho' Hv]; [|done|].
  { intros m k' Hne. by rewrite lookup_insert_ne. }
  split; [done|]. apply map_eq. intros k'. unfold sharded_setitem. rewrite Hv.
  destruct (decide (k' = k)) as [->|Hne]; [by rewrite !lookup_insert_eq|by rewrite lookup_insert_ne].
Qed.

Lemma sharded_pop_spec k d :
  sharded_ok d -> sharded_ok (fst (sharded_pop k d)) /\ snd (sharded_pop k d) = sharded_view d !! k /\
  sharded_view (fst (sharded_pop k d)) = delete k (sharded_view d).
Proof.
  intros Ho. destruct (sharded_alter (delete k) k d) as [Ho' Hv]; [|done|].
  { intros m k' Hne. by rewrite lookup_delete_ne. }
  split; [done|]. split; [simpl; by rewrite sharded_view_lookup|]. apply map_eq. intros k'. simpl. rewrite Hv.
  destruct (decide (k' = k)) as [->|Hne]; [by rewrite !lookup_delete_eq|by rewrite lookup_delete_ne].
Qed.

Lemma sharded_contains_spec k d :
  sharded_ok d -> sharded_contains k d = bool_decide (is_Some (sharded_view d !! k)).
Proof. intros Ho. unfold sharded_contains. by rewrite sharded_view_lookup. Qed.

#[export] Instance sharded_is_dict : ThreadSafeDict (list (gmap K V)) K V := {
  td_view := sharded_view;
  td_ok := sharded_ok;
  td_contains := sharded_contains;
  td_pop := sharded_pop;
  td_contains_spec d k := sharded_contains_spec k d;
  td_pop_spec d k := sharded_pop_spec k d;
}.

(** The shards have no key in common. *)
Lemma sharded_tail_disjoint (d : list (gmap K V)) :
  (forall i j m m' k, d !! i = Some m -> d !! j = Some m' -> is_Some (m !! k) -> is_Some (m' !! k) -> i = j) ->
  match d with [] => True | m :: d' => m ##ₘ foldr union ∅ d' end.
Proof.
  destruct d as [|m d]; [done|]. intros Hd. apply map_disjoint_spec. intros k v v' Hm Hv.
  apply foldr_union_lookup in Hv as (i & m' & Hi & Hm').
  assert (0%nat = S i) by (by eapply (Hd 0%nat (S i) m m' k)). done.
Qed.

Lemma disjoint_union_items (m m' : gmap K V) :
  m ##ₘ m' -> Permutation (map_to_list m ++ map_to_list m') (map_to_list (m ∪ m')).
Proof.
  intros Hd. apply NoDup_Permutation.
  - apply NoDup_app. split_and!; [apply NoDup_map_to_list| |apply NoDup_map_to_list].
    intros [k v] H1%elem_of_map_to_list H2%elem_of_map_to_list. by eapply map_disjoint_spec.
  - apply NoDup_map_to_list.
  - intros [k v]. rewrite elem_of_app, !elem_of_map_to_list, lookup_union_Some by done. done.
Qed.

Lemma concat_items (d : list (gmap K V)) :
  (forall i j m m' k, d !! i = Some m -> d !! j = Some m' -> is_Some (m !! k) -> is_Some (m' !! k) -> i = j) ->
  Permutation (sharded_items d) (map_to_list (foldr union ∅ d)).
Proof.
  unfold sharded_items. induction d as [|m d IH]; intros Hd; simpl; [by rewrite map_to_list_empty|].
  rewrite IH.
  - apply disjoint_union_items. apply (sharded_tail_disjoint (m :: d)), Hd.
  - intros i j m1 m2 k Hi Hj H1 H2. assert (S i = S j) by (by eapply (Hd (S i) (S j) m1 m2 k)). lia.
Qed.

(** The sharded dict is a map: every operation on it is that operation
    on the map it stands for (setting, reading, popping with and without a
    default, adding unless present, clearing), iterating gives each key of
    the map once, and its length is the number of keys. *)
Theorem sharded_dict_refines_map d k v :
  sharded_ok d ->
  sharded_getitem k d = sharded_view d !! k /\
  sharded_view (sharded_setitem k v d) = <[k := v]> (sharded_view d) /\
  (let '(d', old) := sharded_pop k d in
   old = sharded_view d !! k /\ sharded_view d' = delete k (sharded_view d) /\ sharded_ok d') /\
  (let '(d', x) := sharded_pop_default k v d in
   x = default v (sharded_view d !! k) /\ sharded_view d' = delete k (sharded_view d)) /\
  (let '(d', added) := check_and_add k v d in
   sharded_ok d' /\ added = bool_decide (sharded_view d !! k = None) /\
   sharded_view d' = if added then <[k := v]> (sharded_view d) else sharded_view d) /\
  Permutation (sharded_items d) (map_to_list (sharded_view d)) /\
  sharded_len d = size (sharded_view d).
Proof.
  intros Ho. destruct (sharded_setitem_spec k v d Ho) as [O1 V1]. destruct (sharded_pop_spec k d Ho) as (O2 & P2 & V2).
  assert (Hitems : Permutation (sharded_items d) (map_to_list (sharded_view d))).
  { apply concat_items. destruct Ho as [_ Hk]. intros i j m m' x Hi Hj H1 H2.
    rewrite <- (Hk i m x Hi H1). by rewrite <- (Hk j m' x Hj H2). }
  split_and!.
  - unfold sharded_getitem. by rewrite sharded_view_lookup.
  - done.
  - by destruct (sharded_pop k d).
  - unfold sharded_pop_default. destruct (sharded_pop k d). simpl in *. by rewrite P2.
  - unfold check_and_add. rewrite sharded_contains_spec by done.
    destruct (sharded_view d !! k) as [x|] eqn:E.
    + rewrite bool_decide_eq_true_2 by eauto. split_and!; [done| |done]. by rewrite bool_decide_eq_false_2.
    + rewrite bool_decide_eq_false_2 by (intros [? ?]; done). split_and!; [done| |done].
      by rewrite bool_decide_eq_true_2.
  - done.
  - apply Permutation_length in Hitems. rewrite length_map_to_list in Hitems. rewrite <- Hitems.
    unfold sharded_len, sharded_items. clear. induction d as [|m d IH]; [done|]. simpl.
    rewrite length_app, length_map_to_list, IH. done.
Qed.

Lemma from_iterable_spec l :
  sharded_ok (from_iterable l) /\
  sharded_view (from_iterable l) = fold_left (fun m kv => <[fst kv := snd kv]> m) l ∅.
Proof.
  unfold from_iterable. destruct new_sharded_ok as [Ho Hv]. rewrite <- Hv. clear Hv.
  generalize dependent new_sharded. induction l as [|[k v] l IH]; intros d Ho; [done|]. simpl.
  destruct (sharded_setitem_spec k v d Ho) as [Ho' <-]. by apply IH.
Qed.
End Sharded.

(** [ResourcesDigestWithSize._shard_index]: the digest as a big-endian
    number, modulo the number of shards. *)
Definition digest_index (num_of_shards : nat) (key : list N) : nat :=
  N.to_nat (fold_left (fun acc b => 256 * acc + b) key 0 mod N.of_nat num_of_shards)%N.

Lemma digest_index_lt num_of_shards key :
  (0 < num_of_shards)%nat -> (digest_index num_of_shards key < num_of_shards)%nat.
Proof.
  intros Hn. unfold digest_index.
  pose proof (N.mod_lt (fold_left (fun acc b => 256 * acc + b)%N key 0%N) (N.of_nat num_of_shards)). lia.
Qed.

Definition example_dict : list (gmap (list N) Z) :=
  from_iterable 4 (digest_index 4) [([1]%N, 10); ([5]%N, 20); ([2]%N, 30)].

Lemma sharded_dict_refines_map_witness :
  sharded_len example_dict = size (sharded_view example_dict) /\
  sharded_getitem (digest_index 4) [5]%N example_dict = sharded_view example_dict !! [5]%N.
Proof.
  destruct (sharded_dict_refines_map 4 (digest_index 4) (fun k => digest_index_lt 4 k ltac:(lia))
    example_dict [5]%N 7
    (proj1 (from_iterable_spec 4 (digest_index 4) (fun k => digest_index_lt 4 k ltac:(lia)) _)))
    as (H1 & _ & _ & _ & _ & _ & H2).
  split; [exact H2|exact H1].
Defined.
