(* ===== verification/DeltaGen.v ===== *)
(** * Collecting the resources on the slots

    Models [src/src/otaclient/create_standby/delta_gen.py], [resume_ota.py]
    and the shortest-path store of [utils.py]: the scan of the delta source,
    the workers that collect resources from it in the four modes, the clean-up
    of the base slot, and the re-use of what an interrupted update left.

    A file of the delta source or of the resource directory is its content;
    resources are named by the digest of their content.  The items of the
    workers' queue are processed in any order; an item is one step, since
    workers share nothing but the dict of digests, whose [pop] is atomic, and
    each path is queued once.  Errors of the file system are inputs. *)

From stdpp Require Import base gmap strings list option sets.
From Stdlib Require Import ZArith String Ascii Lia Strings.Byte.
From S2P Require Import Prelude CacheControlHeader Errors CacheIndex CacheStreaming LegacyCSV ShardedDict.

(** ** Paths *)

(** A canonical path: its components from the root. *)
Abbreviation cpath := (list string).

Fixpoint path_str (p : cpath) : string :=
  match p with [] => EmptyString | c :: p => ("/" +:+ c +:+ path_str p)%string end.

(** [str(p)] *)
Definition str_of_path (p : cpath) : string := match p with [] => "/" | _ => path_str p end.

(** [reversed(p.parents)] *)
Definition parents (p : cpath) : list cpath := map (fun i => take i p) (seq 0 (List.length p)).

Definition MAX_FOLDER_DEEPTH : nat := 35.
Definition MAX_FILENUM_PER_FOLDER : nat := N.to_nat 8192.

Definition OTA_RESOURCES_STORE : string := "/.ota-resources".
Definition OTA_META_STORE : string := "/.ota-meta".
Definition CLEANUP_ENTRY : list cpath := [["lost+found"]; ["tmp"]; ["run"]]%string.
Definition FULL_SCAN_PATHS : list cpath :=
  [["lib"]; ["var"; "lib"]; ["usr"]; ["opt"; "nvidia"]; ["home"; "autoware"; "autoware.proj"]]%string.
Definition EXCLUDE_PATHS : list cpath :=
  [["tmp"]; ["dev"]; ["proc"]; ["sys"]; ["lost+found"]; ["media"]; ["mnt"]; ["run"]; ["srv"]]%string.

(** [is_ota_working_dir] *)
Definition is_ota_working_dir (p : cpath) : bool :=
  startswith OTA_RESOURCES_STORE (str_of_path p) || startswith OTA_META_STORE (str_of_path p).

(** ** [TopDownCommonShortestPath] *)

Definition add_path (p : cpath) (store : gset cpath) : gset cpath :=
  if existsb (fun q => bool_decide (q ∈ store)) (parents p) then store else {[p]} ∪ store.

Definition add_paths (ps : list cpath) (store : gset cpath) : gset cpath :=
  fold_left (fun s p => add_path p s) ps store.

(** ** The scan *)

Record CheckDirResult : Type := mkCheckDirResult {
  dir_should_be_removed : bool;
  dir_should_be_fully_scan : bool;
}.

Definition dir_should_be_process (r : CheckDirResult) : bool :=
  dir_should_be_fully_scan r || negb (dir_should_be_removed r).

(** The loop over the parents: [None] is the early return. *)
Fixpoint check_parents (ps : list cpath) : option bool :=
  match ps with
  | [] => Some false
  | p :: ps =>
      if bool_decide (p ∈ FULL_SCAN_PATHS) then Some true
      else if bool_decide (p ∈ EXCLUDE_PATHS) then None
      else check_parents ps
  end.

(** [_check_if_need_to_process_dir]; [in_image]: the directories of the new
    image. *)
Definition check_if_need_to_process_dir (in_image : cpath -> bool) (p : cpath) : CheckDirResult :=
  match p with
  | [] => mkCheckDirResult false false
  | _ =>
      if (MAX_FOLDER_DEEPTH <? List.length p)%nat then mkCheckDirResult true false
      else
        match check_parents (parents p) with
        | None => mkCheckDirResult true false
        | Some full => mkCheckDirResult (negb (in_image p)) full
        end
  end.

#[local] Set Warnings "-register-all".
(** What [os.walk] finds; a symlink to a directory is listed with the
    directories. *)
Inductive node : Type :=
| NFileOf (content : bytes)
| NLinkOf (to_dir : bool)
| NOther
| NDirOf (entries : list (string * node)).

Definition is_dirname (n : node) : bool :=
  match n with NDirOf _ => true | NLinkOf d => d | _ => false end.

(** What a scan does, in order. *)
Inductive action : Type :=
| AQueue (p : cpath) (fully_scan : bool)      (** put into the workers' queue *)
| AUnlink (p : cpath)
| ARemoveDir (p : cpath).                     (** [_dirs_to_remove.add_path] *)

(** The files of one directory, in place: what is over the limit is removed,
    as is what is no regular file or empty. *)
Definition scan_files_inplace (p : cpath) (fully : bool) (filenames : list (string * node)) : list action :=
  map (fun f => AUnlink (p ++ [fst f])) (drop MAX_FILENUM_PER_FOLDER filenames) ++
  map (fun f => match snd f with
                | NFileOf (_ :: _) => AQueue (p ++ [fst f]) fully
                | _ => AUnlink (p ++ [fst f])
                end) (take MAX_FILENUM_PER_FOLDER filenames).

(** One directory of [InPlaceDeltaGenFullDiskScan._calculate_delta]: its
    actions, and whether the walk goes on below it. *)
Definition scan_dir_inplace (in_image : cpath -> bool) (p : cpath) (entries : list (string * node)) :
    list action * bool :=
  if is_ota_working_dir p then ([], true)
  else
    let r := check_if_need_to_process_dir in_image p in
    let removed := if dir_should_be_removed r then [ARemoveDir p] else [] in
    if negb (dir_should_be_process r) then (removed, false)
    else
      (removed ++
       omap (fun f => match snd f with NLinkOf true => Some (AUnlink (p ++ [fst f])) | _ => None end) entries ++
       scan_files_inplace p (dir_should_be_fully_scan r)
         (List.filter (fun f => negb (is_dirname (snd f))) entries), true).

(** One directory of [RebuildDeltaGenFullDiskScan._calculate_delta]: nothing
    on the source is touched. *)
Definition scan_dir_rebuild (in_image : cpath -> bool) (p : cpath) (entries : list (string * node)) :
    list action * bool :=
  if is_ota_working_dir p then ([], true)
  else
    let r := check_if_need_to_process_dir in_image p in
    if negb (dir_should_be_process r) then ([], false)
    else
      (omap (fun f => match snd f with
                      | NFileOf (_ :: _) => Some (AQueue (p ++ [fst f]) (dir_should_be_fully_scan r))
                      | _ => None
                      end)
         (take MAX_FILENUM_PER_FOLDER (List.filter (fun f => negb (is_dirname (snd f))) entries)), true).

(** [os.walk], top down, not following links. *)
Section Walk.
Context (visit : cpath -> list (string * node) -> list action * bool).

Fixpoint walk (p : cpath) (n : node) : list action :=
  match n with
  | NDirOf entries =>
      let '(here, descend) := visit p entries in
      here ++
      if descend then
        (fix go (l : list (string * node)) : list action :=
           match l with
           | [] => []
           | (name, sub) :: l => walk (p ++ [name]) sub ++ go l
           end) entries
      else []
  | _ => []
  end.
End Walk.

(** [_calculate_delta] in the two modes. *)
Definition calculate_delta_inplace (in_image : cpath -> bool) (root : node) : list action :=
  walk (scan_dir_inplace in_image) [] root.
Definition calculate_delta_rebuild (in_image : cpath -> bool) (root : node) : list action :=
  walk (scan_dir_rebuild in_image) [] root.

Definition removed_dirs (l : list action) : list cpath :=
  omap (fun a => match a with ARemoveDir p => Some p | _ => None end) l.

(** [_cleanup_base]: the directories that are removed. *)
Definition cleanup_base (l : list action) : list cpath :=
  List.filter (fun p => negb (is_ota_working_dir p))
    (elements (add_paths (removed_dirs l) (add_paths CLEANUP_ENTRY ∅))).

(** The walk of [InPlaceDeltaWithBaseFileTable._cleanup_base]: files and links
    go, directories that are not in the image go with all below them. *)
Definition cleanup_files (p : cpath) (entries : list (string * node)) : list action :=
  omap (fun f => match snd f with NDirOf _ => None | _ => Some (AUnlink (p ++ [fst f])) end)
    (List.filter (fun f => is_dirname (snd f)) entries ++
     List.filter (fun f => negb (is_dirname (snd f))) entries).

Definition cleanup_dir_base (in_image : cpath -> bool) (p : cpath) (entries : list (string * node)) :
    list action * bool :=
  if is_ota_working_dir p then ([], true)
  else
    match p with
    | [] => (cleanup_files p entries, true)
    | _ =>
        if (MAX_FOLDER_DEEPTH <? List.length p)%nat then ([ARemoveDir p], false)
        else if in_image p then (cleanup_files p entries, true)
        else ([ARemoveDir p], false)
    end.

Definition cleanup_base_by_table (in_image : cpath -> bool) (root : node) : list action :=
  walk (cleanup_dir_base in_image) [] root.

(** ** Reading and reporting: [ProcessFileHelper] *)

(** [verify_file]: the buffer is filled and hashed until nothing is read. *)
Fixpoint read_loop (fuel buffer : nat) (rest hashed : bytes) (size : Z) : option (bytes * Z) :=
  match take buffer rest with
  | [] => Some (hashed, size)
  | chunk =>
      match fuel with
      | O => None
      | S fuel =>
          read_loop fuel buffer (drop (List.length chunk) rest) (hashed ++ chunk)
            (size + Z.of_nat (List.length chunk))
      end
  end.

Record report_helper : Type := mkReportHelper {
  rh_next_report : Z;
  rh_file_num : Z;             (** the merged payload *)
  rh_file_size : Z;
  rh_sent : list (Z * Z);      (** the reports put into the queue *)
}.

(** [report_one_file] *)
Definition report_one_file (interval now : Z) (sizes : list Z) (force : bool) (h : report_helper) :
    report_helper :=
  let num := rh_file_num h + Z.of_nat (List.length sizes) in
  let size := rh_file_size h + foldr Z.add 0 sizes in
  if force || (rh_next_report h <? now)
  then mkReportHelper (now + interval) 0 0 (rh_sent h ++ [(num, size)])
  else mkReportHelper (rh_next_report h) num size (rh_sent h).

(** The loop of the [_report_uploader_thread]s, over the entries taken from
    the queue and the time of each; [skip_empty]: the last report is only sent
    when it counts something. *)
Fixpoint uploader_loop (interval : Z) (entries : list (Z * Z)) (next_push num size : Z)
    (sent : list (Z * Z)) : Z * Z * list (Z * Z) :=
  match entries with
  | [] => (num, size, sent)
  | (entry, now) :: entries =>
      let num := num + 1 in
      let size := size + entry in
      if next_push <? now then uploader_loop interval entries (now + interval) 0 0 (sent ++ [(num, size)])
      else uploader_loop interval entries next_push num size sent
  end.

Definition report_uploader (skip_empty : bool) (interval : Z) (entries : list (Z * Z)) : list (Z * Z) :=
  let '(num, size, sent) := uploader_loop interval entries 0 0 0 [] in
  if skip_empty && (num <=? 0) then sent else sent ++ [(num, size)].

(** ** The workers *)

Section Workers.
Context (sha256 : bytes -> list N).
(** The dict of the digests that are still to be collected. *)
Context {D : Type} `{!ThreadSafeDict D (list N) Z}.
(** Failures of the environment: opening or reading a file, moving it. *)
Context (read_fails replace_fails : string -> bool).
(** The regular files of the new image. *)
Context (in_table : string -> bool).

Record delta_state : Type := mkDeltaState {
  dg_src : gmap string bytes;        (** files of the delta source, by path *)
  dg_dst : gmap string bytes;        (** the resource directory, by name *)
  dg_check : D;                      (** [_resources_to_check] *)
  dg_reported : list Z;
}.

#[export] Instance eta_delta_state : Eta delta_state := fun r =>
  mkDeltaState (dg_src r) (dg_dst r) (dg_check r) (dg_reported r).

(** [pop], then the move of the file to the resource directory. *)
Definition collect (d : list N) (p : string) (content : bytes) (moved : bool) (st : delta_state) : delta_state :=
  let '(check, found) := td_pop d (dg_check st) in
  let st := st <| dg_check := check |> in
  match found with
  | None => st
  | Some _ =>
      if moved then
        st <| dg_dst := <[hex_of d := content]> (dg_dst st) |>
           <| dg_reported := dg_reported st ++ [Z.of_nat (List.length content)] |>
      else st
  end.

(** An item of [InPlaceDeltaGenFullDiskScan._process_file_thread_worker]; in
    the end the file is removed from the source. *)
Definition process_inplace (item : string * bool) (st : delta_state) : delta_state :=
  let '(p, fully_scan) := item in
  let st' :=
    match dg_src st !! p with
    | Some content =>
        if negb fully_scan && negb (in_table p) then st
        else if read_fails p then st
        else collect (sha256 content) p content (negb (replace_fails p)) st
    | None => st
    end in
  st' <| dg_src := delete p (dg_src st') |>.

(** An item of [RebuildDeltaGenFullDiskScan._process_file_thread_worker]; a
    resource that is there already is not replaced. *)
Definition process_rebuild (item : string * bool) (st : delta_state) : delta_state :=
  let '(p, fully_scan) := item in
  match dg_src st !! p with
  | Some content =>
      if negb fully_scan && negb (in_table p) then st
      else if read_fails p then st
      else
        let d := sha256 content in
        match dg_dst st !! hex_of d with
        | Some _ => st <| dg_check := fst (td_pop d (dg_check st)) |>
        | None => collect d p content (negb (replace_fails p)) st
        end
  | None => st
  end.

(** The loop over the paths recorded for a digest by the base file table: the
    first file that has the digest ends it. *)
Fixpoint first_with_digest (d : list N) (paths : list string) (src : gmap string bytes) :
    option (string * bytes) :=
  match paths with
  | [] => None
  | p :: paths =>
      match src !! p with
      | Some content =>
          if negb (read_fails p) && bool_decide (sha256 content = d) then Some (p, content)
          else first_with_digest d paths src
      | None => first_with_digest d paths src
      end
  end.

Definition non_empty (src : gmap string bytes) : gmap string bytes :=
  filter (fun pc => snd pc <> []) src.

(** An item of [InPlaceDeltaWithBaseFileTable._process_file_thread_worker]. *)
Definition process_inplace_base (item : list N * list string) (st : delta_state) : delta_state :=
  let '(d, paths) := item in
  let st' :=
    match first_with_digest d paths (non_empty (dg_src st)) with
    | Some (p, content) => collect d p content (negb (replace_fails p)) st
    | None => st
    end in
  st' <| dg_src := foldr delete (dg_src st') paths |>.

(** An item of [RebuildDeltaWithBaseFileTable._process_file_thread_worker]. *)
Definition process_rebuild_base (item : list N * list string) (st : delta_state) : delta_state :=
  let '(d, paths) := item in
  match first_with_digest d paths (dg_src st) with
  | Some (p, content) => collect d p content (negb (replace_fails p)) st
  | None => st
  end.

(** [DeltaWithBaseFileTable._calculate_delta]: the items for digests that are
    still needed. *)
Definition base_items (items : list (list N * list string)) (check : D) : list (list N * list string) :=
  List.filter (fun it => td_contains (fst it) check) items.

(** ** Re-using the resources of an interrupted update *)

Definition EMPTY_FILE_SHA256 : string := "e3b0c44298fc1c149afbf4c8996fb92427ae41e4649b934ca495991b7852b855".

Definition remove_entry_of (name : string) (st : delta_state) : delta_state :=
  st <| dg_dst := delete name (dg_dst st) |>.

(** [ResourceScanner.resume_ota], for one file of the resource directory, with
    the task it submits. *)
Definition resume_entry (name : string) (st : delta_state) : delta_state :=
  if String.eqb name EMPTY_FILE_SHA256 then st
  else
    match from_hex name with
    | None => remove_entry_of name st
    | Some d =>
        if negb (td_contains d (dg_check st)) then remove_entry_of name st
        else
          match dg_dst st !! name with
          | Some content =>
              if read_fails name then st
              else if bool_decide (sha256 content = d) then
                let '(check, found) := td_pop d (dg_check st) in
                let st := st <| dg_check := check |> in
                match found with
                | Some _ => st <| dg_reported := dg_reported st ++ [Z.of_nat (List.length content)] |>
                | None => st
                end
              else remove_entry_of name st
          | None => st
          end
    end.

Definition resume_ota (names : list string) (st : delta_state) : delta_state :=
  fold_left (fun st n => resume_entry n st) names st.

(** [ResourceStreamer.resume_ota], for one file of the resource directory of
    the other slot; [all]: the digests needed when it started. *)
Definition stream_entry (all : list N -> bool) (src : gmap string bytes) (name : string) (st : delta_state) :
    delta_state :=
  if String.eqb name EMPTY_FILE_SHA256 then st
  else
    match from_hex name with
    | None => st
    | Some d =>
        if negb (all d) then st
        else
          match src !! name with
          | Some content =>
              if read_fails name then st
              else if bool_decide (sha256 content = d) then
                let '(check, found) := td_pop d (dg_check st) in
                let st := st <| dg_check := check |> in
                match found with
                | Some _ =>
                    if replace_fails name then st
                    else st <| dg_dst := <[name := content]> (dg_dst st) |>
                            <| dg_reported := dg_reported st ++ [Z.of_nat (List.length content)] |>
                | None => st
                end
              else st
          | None => st
          end
    end.

Definition stream_ota (all : list N -> bool) (src : gmap string bytes) (names : list string)
    (st : delta_state) : delta_state :=
  fold_left (fun st n => stream_entry all src n st) names st.
End Workers.

(** ** The resources are accounted for *)

Section Accounting.
Context (sha256 : bytes -> list N) (Hsha : forall c, Forall (fun n => n < 256)%N (sha256 c)).
Context {D : Type} `{!ThreadSafeDict D (list N) Z}.
Context (read_fails replace_fails : string -> bool) (in_table : string -> bool).
(** The digests of the new image. *)
Context (needed : gset (list N)).
(** The files that are there to be collected. *)
Context (file_at : string -> bytes -> Prop).

Abbreviation state := (@delta_state D).

(** The resource is in the resource directory. *)
Definition has_resource (d : list N) (st : state) : Prop :=
  exists c, dg_dst st !! hex_of d = Some c /\ sha256 c = d.

Definition still_needed (d : list N) (st : state) : Prop := is_Some (td_view (dg_check st) !! d).

(** A file with the digest could not be moved into the resource directory. *)
Definition move_failed (d : list N) : Prop :=
  exists p c, file_at p c /\ sha256 c = d /\ replace_fails p = true.

Record accounted (st : state) : Prop := mkAccounted {
  ac_ok : td_ok (dg_check st);
  ac_src : forall p c, dg_src st !! p = Some c -> file_at p c;
  ac_digests : forall d, d ∈ needed -> still_needed d st \/ has_resource d st \/ move_failed d;
}.

(** A digest that is popped when its resource is in place, or could not be
    moved there. *)
Lemma pop_accounted d (st st' : state) :
  accounted st -> dg_check st' = fst (td_pop d (dg_check st)) -> dg_src st' = dg_src st ->
  has_resource d st' \/ move_failed d ->
  (forall d', has_resource d' st -> has_resource d' st') -> accounted st'.
Proof.
  intros [Ho Hs Ha] Hc Hsrc Hd Hk. destruct (td_pop_spec (dg_check st) d Ho) as (Ho' & _ & Hv).
  split; [by rewrite Hc|by rewrite Hsrc|]. intros d' Hd'. unfold still_needed. rewrite Hc, Hv.
  destruct (decide (d' = d)) as [->|Hne]; [by right|]. rewrite lookup_delete_ne by done.
  destruct (Ha d' Hd') as [?|[?|?]]; auto.
Qed.

(** A digest that was not in the dict is popped in vain. *)
Lemma pop_missing d (st st' : state) :
  accounted st -> snd (td_pop d (dg_check st)) = None -> dg_check st' = fst (td_pop d (dg_check st)) ->
  dg_src st' = dg_src st -> dg_dst st' = dg_dst st -> accounted st'.
Proof.
  intros [Ho Hsr Ha] Hn Hc Hsrc Hd. destruct (td_pop_spec (dg_check st) d Ho) as (Ho' & Hs & Hv).
  rewrite Hs in Hn. split; [by rewrite Hc|by rewrite Hsrc|]. intros d' Hd'. unfold still_needed, has_resource. rewrite Hc, Hv, Hd.
  destruct (decide (d' = d)) as [->|Hne].
  - destruct (Ha d Hd') as [[v Hv']|?]; [congruence|by right].
  - rewrite lookup_delete_ne by done. by apply Ha.
Qed.

Lemma accounted_src (st : state) src : src ⊆ dg_src st -> accounted st -> accounted (st <| dg_src := src |>).
Proof. intros Hsub [Ho Hs Ha]. split; [done| |done]. intros p c Hp. apply Hs. by eapply lookup_weaken. Qed.

(** A resource that is put in place does not displace another one. *)
Lemma insert_resource_keeps d content (st : state) d' dst :
  sha256 content = d -> has_resource d' st -> dst = <[hex_of d := content]> (dg_dst st) ->
  exists c, dst !! hex_of d' = Some c /\ sha256 c = d'.
Proof.
  intros Hd (c & Hc & Hh) ->. destruct (decide (hex_of d' = hex_of d)) as [He|Hne].
  - rewrite He, lookup_insert_eq. exists content. split; [done|].
    rewrite <- Hd in He. rewrite <- Hh in He. apply hex_of_inj in He; [congruence|apply Hsha..].
  - rewrite lookup_insert_ne by done. eauto.
Qed.

Lemma collect_accounted d p content (st : state) :
  sha256 content = d -> file_at p content -> accounted st ->
  accounted (collect d p content (negb (replace_fails p)) st).
Proof.
  intros Hd Hf Ha. unfold collect. destruct (td_pop d (dg_check st)) as [check found] eqn:Ep.
  destruct found as [v|].
  - destruct (replace_fails p) eqn:Er; cbn [negb].
    + apply (pop_accounted d st); [done|by rewrite Ep|done|right|done]. by exists p, content.
    + apply (pop_accounted d st); [done|by rewrite Ep|done|left|].
      * exists content. simpl. by rewrite lookup_insert_eq.
      * intros d' Hh. by eapply (insert_resource_keeps d content).
  - apply (pop_missing d st); by rewrite ?Ep.
Qed.

Lemma collect_src d p content moved (st : state) : dg_src (collect d p content moved st) = dg_src st.
Proof. unfold collect. by destruct (td_pop d (dg_check st)) as [check [v|]], moved. Qed.

Lemma first_with_digest_ok d paths src p c :
  first_with_digest sha256 read_fails d paths src = Some (p, c) -> sha256 c = d /\ src !! p = Some c.
Proof.
  induction paths as [|q paths IH]; simpl; [done|]. destruct (src !! q) as [content|] eqn:Eq; [|done].
  destruct (_ && _) eqn:E; [|done]. intros [= <- <-]. by apply andb_true_iff in E as [_ E%bool_decide_eq_true].
Qed.

(** What a worker, in any mode, does to an item. *)
Inductive delta_step : state -> state -> Prop :=
| ds_inplace p full st :
    delta_step st (process_inplace sha256 read_fails replace_fails in_table (p, full) st)
| ds_rebuild p full st :
    (forall c, dg_src st !! p = Some c -> is_Some (dg_dst st !! hex_of (sha256 c)) -> has_resource (sha256 c) st) ->
    delta_step st (process_rebuild sha256 read_fails replace_fails in_table (p, full) st)
| ds_inplace_base d paths st :
    delta_step st (process_inplace_base sha256 read_fails replace_fails (d, paths) st)
| ds_rebuild_base d paths st :
    delta_step st (process_rebuild_base sha256 read_fails replace_fails (d, paths) st)
| ds_stream all src name st :
    (forall d, from_hex name = Some d -> name = hex_of d) -> (forall c, src !! name = Some c -> file_at name c) ->
    delta_step st (stream_entry sha256 read_fails replace_fails all src name st).

Lemma foldr_delete_sub (paths : list string) (m : gmap string bytes) : foldr delete m paths ⊆ m.
Proof. induction paths as [|p paths IH]; simpl; [done|]. etransitivity; [apply delete_subseteq|exact IH]. Qed.

Lemma delta_step_accounted st st' : delta_step st st' -> accounted st -> accounted st'.
Proof.
  intros [p full s|p full s Hdst|d paths s|d paths s|all src name s Hn Hf] Ha.
  - unfold process_inplace. cbv zeta. apply accounted_src; [apply delete_subseteq|].
    destruct (dg_src s !! p) as [c|] eqn:Ec; [|done]. destruct (_ && _); [done|]. destruct (read_fails p); [done|].
    apply collect_accounted; [done|by apply (ac_src _ Ha)|done].
  - unfold process_rebuild. destruct (dg_src s !! p) as [c|] eqn:Ec; [|done].
    destruct (_ && _); [done|]. destruct (read_fails p); [done|].
    destruct (dg_dst s !! hex_of (sha256 c)) as [c'|] eqn:Ed.
    + apply (pop_accounted (sha256 c) s); [done|done|done| |done]. left. apply (Hdst c); [done|eauto].
    + apply collect_accounted; [done|by apply (ac_src _ Ha)|done].
  - unfold process_inplace_base. cbv zeta. apply accounted_src; [apply foldr_delete_sub|].
    destruct (first_with_digest _ _ d paths _) as [[p c]|] eqn:E; [|done].
    apply first_with_digest_ok in E as [Hd Hin]. apply collect_accounted; [done| |done]. apply (ac_src _ Ha).
    unfold non_empty in Hin. by apply map_lookup_filter_Some in Hin as [Hin _].
  - unfold process_rebuild_base. destruct (first_with_digest _ _ d paths _) as [[p c]|] eqn:E; [|done].
    apply first_with_digest_ok in E as [Hd Hin]. apply collect_accounted; [done| |done]. by apply (ac_src _ Ha).
  - unfold stream_entry. destruct (String.eqb name EMPTY_FILE_SHA256); [done|].
    destruct (from_hex name) as [d|] eqn:Eh; [|done]. destruct (negb (all d)); [done|].
    destruct (src !! name) as [c|] eqn:Es; [|done]. destruct (read_fails name); [done|].
    case_bool_decide as Hd; [|done]. destruct (td_pop d (dg_check s)) as [check found] eqn:Ep.
    destruct found as [v|]; [|by apply (pop_missing d s); rewrite ?Ep]. destruct (replace_fails name) eqn:Er.
    + apply (pop_accounted d s); [done|by rewrite Ep|done|right|done]. exists name, c. auto.
    + rewrite (Hn d eq_refl). apply (pop_accounted d s); [done|by rewrite Ep|done|left|].
      * exists c. simpl. by rewrite lookup_insert_eq.
      * intros d' Hh. by eapply (insert_resource_keeps d c).
Qed.

(** *** Resuming *)

(** What was found so far is what was looked at. *)
Definition resumed (seen : list string) (st : state) : Prop :=
  td_ok (dg_check st) /\ (forall p c, dg_src st !! p = Some c -> file_at p c) /\
  forall d, d ∈ needed -> still_needed d st \/ (has_resource d st /\ hex_of d ∈ seen).

Lemma resumed_remove seen name st :
  resumed seen st -> name ∉ seen -> resumed (name :: seen) (remove_entry_of name st).
Proof.
  intros (Ho & Hsr & Hr) Hn. split_and!; [done|done|]. intros d Hd. destruct (Hr d Hd) as [?|[(c & Hc & Hh) Hin]]; [by left|].
  right. split; [|by right]. exists c. simpl. rewrite lookup_delete_ne; [done|]. intros ->. done.
Qed.

Lemma resumed_more seen name st : resumed seen st -> resumed (name :: seen) st.
Proof.
  intros (Ho & Hsr & Hr). split_and!; [done|done|]. intros d Hd. destruct (Hr d Hd) as [?|[? ?]]; [by left|].
  right. split; [done|by right].
Qed.

Lemma resume_entry_ok seen name st :
  resumed seen st -> name ∉ seen -> (forall d, from_hex name = Some d -> name = hex_of d) ->
  resumed (name :: seen) (resume_entry sha256 read_fails name st).
Proof.
  intros Hr Hn Hname. unfold resume_entry.
  destruct (String.eqb name EMPTY_FILE_SHA256); [by apply resumed_more|].
  destruct (from_hex name) as [d|] eqn:Eh; [|by apply resumed_remove].
  destruct (negb (td_contains d (dg_check st))); [by apply resumed_remove|].
  destruct (dg_dst st !! name) as [c|] eqn:Ec; [|by apply resumed_more].
  destruct (read_fails name); [by apply resumed_more|].
  case_bool_decide as Hd; [|by apply resumed_remove].
  destruct Hr as (Ho & Hsr & Hr). destruct (td_pop_spec (dg_check st) d Ho) as (Ho' & Hs & Hv).
  destruct (td_pop d (dg_check st)) as [check found] eqn:Ep. simpl in Ho', Hs, Hv.
  assert (Hst : resumed (name :: seen) (st <| dg_check := check |>)).
  { split_and!; [done|done|]. intros d' Hd'. unfold still_needed, has_resource. simpl. rewrite Hv.
    destruct (decide (d' = d)) as [->|Hne].
    - right. rewrite <- (Hname d eq_refl). split; [by exists c|left].
    - rewrite lookup_delete_ne by done. destruct (Hr d' Hd') as [?|[? ?]]; [by left|].
      right. split; [done|by right]. }
  destruct found; exact Hst.
Qed.

Lemma resume_accounted names st :
  td_ok (dg_check st) -> (forall p c, dg_src st !! p = Some c -> file_at p c) ->
  (forall d, d ∈ needed -> still_needed d st) -> NoDup names ->
  (forall name d, name ∈ names -> from_hex name = Some d -> name = hex_of d) ->
  accounted (resume_ota sha256 read_fails names st).
Proof.
  intros Ho Hsr Hall Hnd Hc. unfold resume_ota.
  assert (H : forall seen names st, resumed seen st -> NoDup names -> (forall n, n ∈ names -> n ∉ seen) ->
            (forall name d, name ∈ names -> from_hex name = Some d -> name = hex_of d) ->
            exists seen', resumed seen' (fold_left (fun st n => resume_entry sha256 read_fails n st) names st)).
  { clear. intros seen names. revert seen. induction names as [|n names IH]; intros seen st Hr Hnd Hs Hc.
    { by exists seen. }
    apply NoDup_cons in Hnd as [Hn Hnd]. simpl. apply (IH (n :: seen)).
    - apply resume_entry_ok; [done|apply Hs; left|]. intros d. apply Hc. left.
    - done.
    - intros n' Hn' [->|Hin]%elem_of_cons; [done|]. apply (Hs n'); [by right|done].
    - intros name d Hin. apply Hc. by right. }
  destruct (H [] names st) as [seen (Ho' & Hsr' & Hr')]; [|done|set_solver|done|].
  - split_and!; [done|done|]. intros d Hd. left. by apply Hall.
  - split; [done|done|]. intros d Hd. destruct (Hr' d Hd) as [?|[? _]]; auto.
Qed.

(** No resource is forgotten: when a session has scanned what an
    interrupted one left, and workers in any of the modes have processed any
    items in any order, every digest of the new image is still in the dict, and
    so will be downloaded, or the resource directory holds, under its name, a
    file with that digest, or moving a file with that digest failed. *)
Theorem resources_accounted names st st' :
  td_ok (dg_check st) -> (forall p c, dg_src st !! p = Some c -> file_at p c) -> (forall d, d ∈ needed -> still_needed d st) -> NoDup names ->
  (forall name d, name ∈ names -> from_hex name = Some d -> name = hex_of d) ->
  rtc delta_step (resume_ota sha256 read_fails names st) st' ->
  forall d, d ∈ needed -> still_needed d st' \/ has_resource d st' \/ move_failed d.
Proof.
  intros Ho Hsr Hall Hnd Hc Hr. apply (resume_accounted names st) in Hall; [|done..].
  assert (Ha : accounted st').
  { induction Hr as [|x y z Hs _ IH]; [done|]. apply IH. by eapply delta_step_accounted. }
  apply Ha.
Qed.

(** A resource whose file cannot be moved is lost for the session: the
    digest has been taken from the dict before, so it will not be downloaded,
    the file is removed from the slot, and it is not in the resource
    directory, although the session goes on as if it were. *)
Theorem failed_move_loses_resource p full c (st : state) :
  accounted st -> dg_src st !! p = Some c -> full = true -> read_fails p = false -> replace_fails p = true ->
  still_needed (sha256 c) st -> ~ has_resource (sha256 c) st ->
  let st' := process_inplace sha256 read_fails replace_fails in_table (p, full) st in
  ~ still_needed (sha256 c) st' /\ ~ has_resource (sha256 c) st' /\ dg_src st' !! p = None.
Proof.
  intros [Ho _ _] Hp -> Hread Hrep [v Hv] Hh. unfold process_inplace. rewrite Hp. simpl. rewrite Hread, Hrep.
  unfold collect. destruct (td_pop_spec (dg_check st) (sha256 c) Ho) as (_ & Hs & Hv').
  destruct (td_pop (sha256 c) (dg_check st)) as [check found] eqn:Ep. simpl in Hs, Hv'. rewrite Hv in Hs. subst found.
  unfold still_needed, has_resource. simpl. rewrite Hv', lookup_delete_eq. split_and!.
  - by intros [? ?].
  - exact Hh.
  - apply lookup_delete_eq.
Qed.
End Accounting.

(** ** What the clean-up removes *)

Definition covers (store : gset cpath) (x : cpath) : Prop := exists q, q ∈ store /\ q `prefix_of` x.

(** Storing only the shortest paths does not change what is covered. *)
Lemma covers_add_path p store x : covers (add_path p store) x <-> covers store x \/ p `prefix_of` x.
Proof.
  unfold add_path. destruct (existsb _ (parents p)) eqn:E.
  - apply existsb_exists in E as (q & Hq & Hin%bool_decide_eq_true).
    apply in_map_iff in Hq as (i & <- & _). split; [by left|]. intros [?|Hp]; [done|].
    exists (take i p). split; [done|]. etransitivity; [|exact Hp]. exists (drop i p). by rewrite take_drop.
  - split.
    + intros (q & [->%elem_of_singleton|Hq]%elem_of_union & Hx); [by right|left; by exists q].
    + intros [(q & Hq & Hx)|Hp]; [exists q|exists p]; split; set_solver.
Qed.

Lemma covers_add_paths ps store x :
  covers (add_paths ps store) x <-> covers store x \/ exists p, p ∈ ps /\ p `prefix_of` x.
Proof.
  revert store. unfold add_paths. induction ps as [|p ps IH]; intros store; simpl.
  { split; [by left|]. intros [?|(p & Hp & _)]; [done|]. by apply not_elem_of_nil in Hp. }
  rewrite IH, covers_add_path. split.
  - intros [[?|?]|(q & ? & ?)]; [by left|right; exists p; split; [left|done]|right; exists q; split; [by right|done]].
  - intros [?|(q & [->|Hq]%elem_of_cons & ?)]; [by left; left|by left; right|right; eauto].
Qed.

Lemma add_paths_elem ps store p : p ∈ add_paths ps store -> p ∈ ps \/ p ∈ store.
Proof.
  revert store. unfold add_paths. induction ps as [|q ps IH]; intros store; simpl; [by right|].
  intros [?|Hs]%IH; [left; by right|]. unfold add_path in Hs. destruct (existsb _ _); [by right|].
  apply elem_of_union in Hs as [->%elem_of_singleton|?]; [left; left|by right].
Qed.

(** Induction over a tree. *)
Section NodeInd.
Context (P : node -> Prop) (Hf : forall c, P (NFileOf c)) (Hl : forall b, P (NLinkOf b)) (Ho : P NOther).
Context (Hd : forall l, Forall (fun e => P (snd e)) l -> P (NDirOf l)).

Fixpoint node_ind' (n : node) : P n :=
  match n with
  | NFileOf c => Hf c
  | NLinkOf b => Hl b
  | NOther => Ho
  | NDirOf l =>
      Hd l ((fix go (l : list (string * node)) : Forall (fun e => P (snd e)) l :=
               match l with
               | [] => Forall_nil_2 _
               | e :: l => Forall_cons_2 _ e l (node_ind' (snd e)) (go l)
               end) l)
  end.
End NodeInd.

Lemma walk_forall (Q : action -> Prop) visit :
  (forall p entries, Forall Q (fst (visit p entries))) -> forall n p, Forall Q (walk visit p n).
Proof.
  intros Hv n. induction n as [c|b| |l IH] using node_ind'; intros p; simpl; try constructor.
  pose proof (Hv p l) as Hh. destruct (visit p l) as [here descend]. simpl in Hh.
  apply Forall_app. split; [done|]. destruct descend; [|constructor].
  clear Hh. induction IH as [|[name sub] l Hsub _ IHl]; [constructor|].
  apply Forall_app. split; [apply Hsub|exact IHl].
Qed.

(** An action that touches nothing in the working directories. *)
Definition harmless (a : action) : Prop :=
  match a with
  | AQueue p _ | AUnlink p => exists dir name, p = dir ++ [name] /\ is_ota_working_dir dir = false
  | ARemoveDir p => p <> [] /\ is_ota_working_dir p = false
  end.

Lemma scan_dir_inplace_harmless in_image p entries : Forall harmless (fst (scan_dir_inplace in_image p entries)).
Proof.
  unfold scan_dir_inplace. destruct (is_ota_working_dir p) eqn:Ep; [constructor|].
  set (r := check_if_need_to_process_dir in_image p).
  assert (Hrem : Forall harmless (if dir_should_be_removed r then [ARemoveDir p] else [])).
  { destruct (dir_should_be_removed r) eqn:Er; [|constructor]. constructor; [|constructor].
    split; [|done]. intros ->. done. }
  destruct (negb _); simpl; [done|]. rewrite !Forall_app. split_and!; [done|..].
  - apply Forall_forall. intros a ([name n] & Hin & Ha)%list_elem_of_omap. simpl in Ha.
    destruct n as [| [] | |]; try done. injection Ha as <-. by exists p, name.
  - unfold scan_files_inplace. rewrite Forall_app. split; apply Forall_forall;
      intros a ([name n] & -> & Hin)%list_elem_of_fmap; simpl; [by exists p, name|].
    destruct n as [[|]| | |]; by exists p, name.
Qed.

Lemma cleanup_dir_base_harmless in_image p entries : Forall harmless (fst (cleanup_dir_base in_image p entries)).
Proof.
  unfold cleanup_dir_base. destruct (is_ota_working_dir p) eqn:Ep; [constructor|].
  assert (Hc : Forall harmless (cleanup_files p entries)).
  { apply Forall_forall. intros a ([name n] & Hin & Ha)%list_elem_of_omap. simpl in Ha.
    destruct n; try done; injection Ha as <-; by exists p, name. }
  assert (Hr : p <> [] -> Forall harmless [ARemoveDir p]) by (intros; by repeat constructor).
  destruct p as [|c p]; [done|]. destruct (_ <? _)%nat; [by apply Hr|]. destruct (in_image _); [done|by apply Hr].
Qed.

(** The paths below a directory that a clean-up or an action removes. *)
Definition touches (a : action) (x : cpath) : Prop :=
  match a with
  | AQueue p _ | AUnlink p => p = x
  | ARemoveDir p => p `prefix_of` x
  end.

Definition in_ota_working_dir (x : cpath) : Prop :=
  exists c rest, x = c :: rest /\ rest <> [] /\ (c = ".ota-resources" \/ c = ".ota-meta")%string.

Lemma working_dir_head c p : (c = ".ota-resources" \/ c = ".ota-meta")%string -> is_ota_working_dir (c :: p) = true.
Proof.
  assert (Hs : forall a t, startswith a (a +:+ t)%string = true).
  { intros a t. induction a as [|x a IH]; [done|].
    change (Ascii.eqb x x && startswith a (a +:+ t) = true)%string. by rewrite Ascii.eqb_refl. }
  intros [->| ->]; unfold is_ota_working_dir, str_of_path.
  - change (path_str (".ota-resources"%string :: p)) with (OTA_RESOURCES_STORE +:+ path_str p)%string.
    by rewrite Hs.
  - change (path_str (".ota-meta"%string :: p)) with (OTA_META_STORE +:+ path_str p)%string.
    by rewrite Hs, orb_true_r.
Qed.

Lemma harmless_spares a x : harmless a -> in_ota_working_dir x -> ~ touches a x.
Proof.
  intros Ha (c & rest & -> & Hne & Hc) Ht.
  assert (Hdir : forall dir name, dir ++ [name] = c :: rest -> is_ota_working_dir dir = true).
  { intros [|c' dir] name He; simpl in He; injection He as -> He; [by subst rest|]. by apply working_dir_head. }
  destruct a as [p f|p|p]; simpl in *.
  - destruct Ha as (dir & name & -> & Hw). rewrite (Hdir dir name Ht) in Hw. done.
  - destruct Ha as (dir & name & -> & Hw). rewrite (Hdir dir name Ht) in Hw. done.
  - destruct Ha as [Hp Hw]. destruct Ht as [t Ht]. destruct p as [|c' p]; [done|].
    simpl in Ht. injection Ht as <- _. rewrite working_dir_head in Hw by done. done.
Qed.

(** The working directories of the update are spared: no file that the
    in-place scan queues or unlinks, no file or directory that the clean-up
    by a base file table removes, and no directory that the clean-up after
    the scan removes is or contains anything inside [/.ota-resources] or
    [/.ota-meta]; and the clean-up after the scan removes exactly what lies
    below the directories the scan found unwanted and below [/lost+found],
    [/tmp] and [/run], although it keeps only the shortest of their paths. *)
Theorem working_dirs_spared in_image root :
  (forall a x, a ∈ calculate_delta_inplace in_image root ++ cleanup_base_by_table in_image root ->
     in_ota_working_dir x -> ~ touches a x) /\
  (forall p x, p ∈ cleanup_base (calculate_delta_inplace in_image root) ->
     in_ota_working_dir x -> ~ p `prefix_of` x) /\
  (forall x, (exists p, p ∈ cleanup_base (calculate_delta_inplace in_image root) /\ p `prefix_of` x) <->
     exists p, (p ∈ removed_dirs (calculate_delta_inplace in_image root) \/ p ∈ CLEANUP_ENTRY) /\ p `prefix_of` x).
Proof.
  set (l := calculate_delta_inplace in_image root).
  assert (Hl : Forall harmless l) by (apply walk_forall, scan_dir_inplace_harmless).
  assert (Hrem : forall p, p ∈ removed_dirs l \/ p ∈ CLEANUP_ENTRY -> harmless (ARemoveDir p)).
  { intros p [Hp|Hp].
    - apply list_elem_of_omap in Hp as (a & Ha & He). destruct a; try done. injection He as ->.
      by apply (proj1 (Forall_forall _ _) Hl).
    - unfold CLEANUP_ENTRY in Hp. repeat (apply elem_of_cons in Hp as [->|Hp]; [done|]).
      by apply not_elem_of_nil in Hp. }
  assert (Hsub : forall p, p ∈ elements (add_paths (removed_dirs l) (add_paths CLEANUP_ENTRY ∅)) ->
            p ∈ removed_dirs l \/ p ∈ CLEANUP_ENTRY).
  { intros p Hp%elem_of_elements. apply add_paths_elem in Hp as [?|Hp]; [by left|].
    apply add_paths_elem in Hp as [?|Hp]; [by right|]. by apply not_elem_of_empty in Hp. }
  assert (Hclean : forall p, p ∈ cleanup_base l <->
            p ∈ add_paths (removed_dirs l) (add_paths CLEANUP_ENTRY ∅)).
  { intros p. unfold cleanup_base. rewrite list_elem_of_In, filter_In, <- list_elem_of_In, elem_of_elements.
    split; [by intros [? _]|]. intros Hp. split; [done|].
    apply elem_of_elements, Hsub, Hrem in Hp as [_ ->]. done. }
  split_and!.
  - intros a x [Ha|Ha]%elem_of_app; apply harmless_spares; [by apply (proj1 (Forall_forall _ _) Hl)|].
    revert a Ha. apply Forall_forall, walk_forall, cleanup_dir_base_harmless.
  - intros p x Hp%Hclean. apply elem_of_elements, Hsub, Hrem in Hp. by apply (harmless_spares (ARemoveDir p)).
  - intros x. transitivity (covers (add_paths (removed_dirs l) (add_paths CLEANUP_ENTRY ∅)) x).
    + split; intros (p & Hp & Hx); exists p; (split; [by apply Hclean|done]).
    + rewrite !covers_add_paths. split.
      * intros [[(q & Hq & _)|(p & Hp & Hx)]|(p & Hp & Hx)].
        -- by apply not_elem_of_empty in Hq.
        -- exists p. split; [by right|done].
        -- exists p. split; [by left|done].
      * intros (p & [Hp|Hp] & Hx); [right; eauto|left; right; eauto].
Qed.

(** ** Reading and reporting lose nothing *)

(** The hash is over the whole file, and the loop ends: each round reads. *)
Lemma read_loop_spec fuel buffer rest hashed size :
  (0 < buffer)%nat -> (List.length rest <= fuel)%nat ->
  read_loop fuel buffer rest hashed size = Some (hashed ++ rest, size + Z.of_nat (List.length rest)).
Proof.
  intros Hb. revert rest hashed size. induction fuel as [|fuel IH]; intros rest hashed size Hl.
  - destruct rest; [|simpl in Hl; lia]. cbn [read_loop]. rewrite take_nil, app_nil_r. f_equal. f_equal. simpl. lia.
  - cbn [read_loop]. destruct (take buffer rest) as [|x c] eqn:Et.
    + destruct rest as [|y rest]; [|destruct buffer; [lia|done]]. rewrite app_nil_r. f_equal. f_equal. simpl. lia.
    + rewrite <- Et. assert (Hlen : List.length (take buffer rest) = Nat.min buffer (List.length rest)) by apply length_take.
      assert (Hpos : (0 < List.length (take buffer rest))%nat) by (rewrite Et; simpl; lia).
      rewrite IH by (rewrite length_drop; lia). rewrite length_drop, <- app_assoc.
      f_equal. f_equal; [|lia]. f_equal. rewrite Hlen.
      destruct (Nat.le_ge_cases buffer (List.length rest)).
      * rewrite Nat.min_l by done. apply take_drop.
      * rewrite Nat.min_r, drop_all, app_nil_r by done. by apply take_ge.
Qed.

Definition sum_fst (l : list (Z * Z)) : Z := foldr (fun x acc => fst x + acc) 0 l.
Definition sum_snd (l : list (Z * Z)) : Z := foldr (fun x acc => snd x + acc) 0 l.

Lemma sums_app l l' : sum_fst (l ++ l') = sum_fst l + sum_fst l' /\ sum_snd (l ++ l') = sum_snd l + sum_snd l'.
Proof. induction l as [|x l [IH1 IH2]]; simpl; [lia|]. rewrite IH1, IH2. lia. Qed.

Lemma uploader_loop_sums interval entries next num size sent :
  let '(num', size', sent') := uploader_loop interval entries next num size sent in
  num' + sum_fst sent' = num + sum_fst sent + Z.of_nat (List.length entries) /\
  size' + sum_snd sent' = size + sum_snd sent + sum_fst entries /\
  (0 <= num -> (num = 0 -> size = 0) -> 0 <= num' /\ (num' = 0 -> size' = 0)).
Proof.
  revert next num size sent. induction entries as [|[e now] entries IH]; intros next num size sent; simpl; [lia|].
  destruct (next <? now).
  - specialize (IH (now + interval) 0 0 (sent ++ [(num + 1, size + e)])).
    destruct (uploader_loop interval entries (now + interval) 0 0 _) as [[n' s'] st'].
    destruct (sums_app sent [(num + 1, size + e)]) as [E1 E2]. rewrite E1, E2 in IH. simpl in IH. lia.
  - specialize (IH next (num + 1) (size + e) sent).
    destruct (uploader_loop interval entries next _ _ sent) as [[n' s'] st']. lia.
Qed.

(** The progress reports add up: over a whole run, the reports that the
    uploader threads of the resume and of the slot update put into the queue
    count every processed file once and sum the sizes, whenever they are
    sent; the workers' [report_one_file], forced at the end, does the same
    for what it merged. *)
Theorem reports_add_up interval entries skip_empty :
  sum_fst (report_uploader skip_empty interval entries) = Z.of_nat (List.length entries) /\
  sum_snd (report_uploader skip_empty interval entries) = sum_fst entries /\
  forall now h sizes, let h' := report_one_file interval now sizes true h in
    rh_file_num h' = 0 /\ rh_file_size h' = 0 /\
    sum_fst (rh_sent h') = sum_fst (rh_sent h) + rh_file_num h + Z.of_nat (List.length sizes) /\
    sum_snd (rh_sent h') = sum_snd (rh_sent h) + rh_file_size h + foldr Z.add 0 sizes.
Proof.
  unfold report_uploader. pose proof (uploader_loop_sums interval entries 0 0 0 []) as H.
  destruct (uploader_loop interval entries 0 0 0 []) as [[num size] sent]. simpl in H.
  destruct H as (H1 & H2 & H3). destruct H3 as [H3 H4]; [lia|lia|].
  destruct (sums_app sent [(num, size)]) as [E1 E2]. simpl in E1, E2. split_and!.
  - destruct skip_empty; simpl; [destruct (Z.leb_spec num 0)|]; rewrite ?E1; lia.
  - destruct skip_empty; simpl; [destruct (Z.leb_spec num 0)|]; rewrite ?E2; lia.
  - intros now h sizes. unfold report_one_file. simpl.
    destruct (sums_app (rh_sent h) [(rh_file_num h + Z.of_nat (List.length sizes), rh_file_size h + foldr Z.add 0 sizes)])
      as [-> ->]. simpl. lia.
Qed.

(** ** A concrete session *)

Definition example_index_lt (k : list N) : (digest_index 4 k < 4)%nat := digest_index_lt 4 k ltac:(lia).
Definition example_dict_class : ThreadSafeDict (list (gmap (list N) Z)) (list N) Z :=
  sharded_is_dict 4 (digest_index 4) example_index_lt.

(** A hash of one byte: the length. *)
Definition example_sha (c : bytes) : list N := [N.of_nat (List.length c) mod 256]%N.

Lemma example_sha_bytes c : Forall (fun n => n < 256)%N (example_sha c).
Proof. constructor; [apply N.mod_lt; lia|constructor]. Qed.

(** Digests 1 and 2 are needed; an interrupted update left 1, the slot has 2. *)
Definition example_delta : @delta_state (list (gmap (list N) Z)) :=
  mkDeltaState {["/a"%string := [x61; x62]%byte]} {["01"%string := [x61]%byte; "old"%string := [x61]%byte]}
    (from_iterable 4 (digest_index 4) [([1]%N, 1); ([2]%N, 2)]) [].

Definition example_needed : gset (list N) := {[ [1]%N; [2]%N ]}.

Lemma example_check_ok : @td_ok _ _ _ _ _ example_dict_class (dg_check example_delta).
Proof. exact (proj1 (from_iterable_spec 4 (digest_index 4) example_index_lt _)). Qed.

Lemma example_all_needed d : d ∈ example_needed -> @still_needed _ example_dict_class d example_delta.
Proof.
  unfold example_needed. rewrite elem_of_union, !elem_of_singleton.
  intros [->| ->]; eexists; vm_compute; reflexivity.
Qed.

Definition example_resumed := @resume_ota example_sha _ example_dict_class (fun _ => false) ["01"; "old"]%string example_delta.
Definition example_collected :=
  @process_inplace example_sha _ example_dict_class (fun _ => false) (fun _ => false) (fun _ => true) ("/a"%string, true) example_resumed.

Lemma resources_accounted_witness :
  [2]%N ∈ example_needed /\
  (@still_needed _ example_dict_class [2]%N example_collected \/ @has_resource example_sha _ [2]%N example_collected \/
   move_failed example_sha (fun _ => false) (fun p c => dg_src example_delta !! p = Some c) [2]%N) /\
  dg_dst example_collected = {["01"%string := [x61]%byte; "02"%string := [x61; x62]%byte]}.
Proof.
  split; [set_solver|]. split; [|vm_compute; reflexivity].
  apply (@resources_accounted example_sha example_sha_bytes _ example_dict_class (fun _ => false) (fun _ => false)
    (fun _ => true) example_needed (fun p c => dg_src example_delta !! p = Some c) ["01"; "old"]%string example_delta
    example_collected).
  - exact example_check_ok.
  - done.
  - exact example_all_needed.
  - repeat constructor; set_solver.
  - intros name d Hn. repeat (apply elem_of_cons in Hn as [->|Hn]; [|]); [| |by apply not_elem_of_nil in Hn];
      vm_compute; [intros [= <-]; reflexivity|discriminate].
  - apply rtc_once. by apply ds_inplace.
  - set_solver.
Defined.

Lemma failed_move_loses_resource_witness :
  let st' := @process_inplace example_sha _ example_dict_class (fun _ => false) (fun _ => true) (fun _ => true)
               ("/a"%string, true) example_delta in
  ~ @still_needed _ example_dict_class [2]%N st' /\ ~ @has_resource example_sha _ [2]%N st'.
Proof.
  destruct (@failed_move_loses_resource example_sha _ example_dict_class (fun _ => false) (fun _ => true)
    (fun _ => true) example_needed (fun p c => dg_src example_delta !! p = Some c) "/a" true [x61; x62]%byte
    example_delta) as (H1 & H2 & _).
  - split; [exact example_check_ok|done|]. intros d Hd. left. by apply example_all_needed.
  - reflexivity.
  - reflexivity.
  - reflexivity.
  - reflexivity.
  - apply example_all_needed. set_solver.
  - intros (c & Hc & _). vm_compute in Hc. discriminate.
  - split; [exact H1|exact H2].
Defined.
