(* ===== verification/FileSystem.v ===== *)
(** * Files, links and directories

    The part of a POSIX file system the boot controllers work on, and the
    helpers of [src/src/otaclient_common/_io.py] over it.  A path is the list
    of its components below [/]; a regular file is an inode, so hard links
    share it; a symbolic link holds its target.  Writing a file atomically is
    the creation of a new inode that replaces what the path named: the
    temporary file has a random name and is gone afterwards, on every path.
    [fault] marks the paths at which the environment fails ([EIO], [ENOSPC]). *)

From stdpp Require Import base gmap strings list option sets fin_maps.
From Stdlib Require Import ZArith Ascii String Lia.
From S2P Require Import Prelude Errors.

Abbreviation path := (list string).

Record ifile : Type := mkIFile {
  if_content : string;
  if_mode : Z;
}.

Inductive fs_node : Type :=
| FsFile (ino : nat)
| FsDir (uid mode : Z)
| FsLink (target : string).

#[export] Instance fs_node_eq_dec : EqDecision fs_node.
Proof. solve_decision. Defined.

Record fsys : Type := mkFsys {
  fs_nodes : gmap path fs_node;
  fs_inodes : gmap nat ifile;
  fs_next : nat;
}.

#[export] Instance eta_fsys : Eta fsys := fun r =>
  mkFsys (fs_nodes r) (fs_inodes r) (fs_next r).

Definition fs_get (s : fsys) (p : path) : option fs_node :=
  match p with [] => Some (FsDir 0 493) | _ => fs_nodes s !! p end.

(** [os.path.realpath]: [..] and links are resolved; no path with a cycle of
    links is found (40 links are followed, as the kernel does). *)
Fixpoint realpath_go (links : nat) (link_at : path -> option string) : path -> path -> option path :=
  fix go (seen rest : path) {struct rest} : option path :=
    match rest with
    | [] => Some seen
    | c :: rest =>
        if bool_decide (c = "" \/ c = ".")%string then go seen rest
        else if bool_decide (c = "..")%string then go (removelast seen) rest
        else
          match link_at (seen ++ [c]) with
          | Some t =>
              match links with
              | O => None
              | S links => realpath_go links link_at (if startswith "/" t then [] else seen) (py_split "/" t ++ rest)
              end
          | None => go (seen ++ [c]) rest
          end
    end.

Definition MAXSYMLINKS : nat := 40.
Definition link_at (s : fsys) (p : path) : option string :=
  match fs_get s p with Some (FsLink t) => Some t | _ => None end.
Definition realpath (s : fsys) (p : path) : option path := realpath_go MAXSYMLINKS (link_at s) [] p.

(** The node a path names itself ([lstat]): its parent is resolved. *)
Definition located (s : fsys) (p : path) : option path :=
  match list.last p with
  | Some c => (fun d => d ++ [c]) <$> realpath s (removelast p)
  | None => Some []
  end.

Definition lstat (s : fsys) (p : path) : option fs_node := located s p ≫= fs_get s.
Definition stat (s : fsys) (p : path) : option fs_node := realpath s p ≫= fs_get s.

Definition is_symlink (s : fsys) (p : path) : bool :=
  match lstat s p with Some (FsLink _) => true | _ => false end.
Definition is_file (s : fsys) (p : path) : bool :=
  match stat s p with Some (FsFile _) => true | _ => false end.
Definition is_dir (s : fsys) (p : path) : bool :=
  match stat s p with Some (FsDir _ _) => true | _ => false end.
Definition exists_at (s : fsys) (p : path) : bool := bool_decide (is_Some (stat s p)).

(** The content of the file a path names, through links. *)
Definition node_content (s : fsys) (n : option fs_node) : option string :=
  match n with Some (FsFile ino) => if_content <$> fs_inodes s !! ino | _ => None end.
Definition read_file (s : fsys) (p : path) : option string := node_content s (stat s p).

Definition os_exn (errno : Z) : pyexn := PyExn (XOSError (Some errno)) [] None None.
Definition ENOENT : Z := 2.
Definition EIO : Z := 5.
Definition EEXIST : Z := 17.
Definition ENOTDIR : Z := 20.
Definition EISDIR : Z := 21.
Definition ELOOP : Z := 40.

Definition put_node (p : path) (n : fs_node) (s : fsys) : fsys := s <| fs_nodes := <[p := n]> (fs_nodes s) |>.

(** A new file at [p], in place of what was there. *)
Definition put_new_file (p : path) (f : ifile) (s : fsys) : fsys :=
  put_node p (FsFile (fs_next s)) s <| fs_inodes := <[fs_next s := f]> (fs_inodes s) |>
                                    <| fs_next := S (fs_next s) |>.

Section Io.
Context (fault : path -> bool).
Abbreviation FS := (PyM fsys pyexn).

(** Where a new entry at [p] goes: its parent has to be a directory. *)
Definition entry_place (p : path) : FS path :=
  s ← get;
  if fault p then raise (os_exn EIO)
  else
    match located s p with
    | None => raise (os_exn ELOOP)
    | Some q =>
        match fs_get s (removelast q) with
        | Some (FsDir _ _) => mret q
        | Some _ => raise (os_exn ENOTDIR)
        | None => raise (os_exn ENOENT)
        end
    end.

(** A temporary file, written, then renamed to [p]. *)
Definition replace_by_new (p : path) (f : ifile) : FS unit :=
  q ← entry_place p;
  s ← get;
  match fs_get s q with
  | Some (FsDir _ _) => raise (os_exn EISDIR)
  | _ => modify (put_new_file q f)
  end.

Definition DEFAULT_FILE_MODE : Z := 420.

Definition write_str_to_file_atomic (p : path) (text : string) (follow_symlink : bool) : FS unit :=
  s ← get;
  match (if follow_symlink then realpath s p else Some p) with
  | None => raise (os_exn ELOOP)
  | Some p => replace_by_new p (mkIFile text DEFAULT_FILE_MODE)
  end.

Definition read_str_from_file (p : path) (default_text : option string) : FS string :=
  s ← get;
  if fault p then raise (os_exn EIO)
  else
    match stat s p with
    | Some (FsDir _ _) => raise (os_exn EISDIR)
    | Some _ => mret (strip (default EmptyString (read_file s p)))
    | None => match default_text with Some t => mret t | None => raise (os_exn ENOENT) end
    end.

Definition symlink_to (p : path) (target : string) : FS unit :=
  q ← entry_place p;
  s ← get;
  match fs_get s q with
  | Some _ => raise (os_exn EEXIST)
  | None => modify (put_node q (FsLink target))
  end.

Definition symlink_atomic (src : path) (target : string) : FS unit :=
  s ← get;
  if bool_decide (lstat s src = Some (FsLink target)) then mret tt
  else if negb (is_symlink s src) && negb (exists_at s src) then symlink_to src target
  else
    q ← entry_place src;
    match fs_get s q with
    | Some (FsDir _ _) => raise (os_exn EISDIR)
    | _ => modify (put_node q (FsLink target))
    end.

(** [shutil.copy] to a temporary file, which then replaces [dst]; with
    [follow_symlinks=False] a link is copied as a link. *)
Definition copyfile_atomic (src dst : path) (follow_symlink : bool) : FS unit :=
  s ← get;
  if fault src then raise (os_exn EIO)
  else if negb follow_symlink && is_symlink s src then
    match lstat s src with
    | Some (FsLink t) =>
        q ← entry_place dst;
        match fs_get s q with
        | Some (FsDir _ _) => raise (os_exn EISDIR)
        | _ => modify (put_node q (FsLink t))
        end
    | _ => raise (os_exn ENOENT)
    end
  else
    match stat s src with
    | Some (FsFile ino) => replace_by_new dst (default (mkIFile EmptyString DEFAULT_FILE_MODE) (fs_inodes s !! ino))
    | Some _ => raise (os_exn EISDIR)
    | None => raise (os_exn ENOENT)
    end.

(** What is at [p] and, when it is a directory, below it. *)
Definition remove_tree (p : path) (s : fsys) : fsys :=
  s <| fs_nodes := filter (fun kv => ~ p `prefix_of` kv.1) (fs_nodes s) |>.
Definition remove_node (p : path) (s : fsys) : fsys := s <| fs_nodes := delete p (fs_nodes s) |>.

(** [remove_file], which ignores errors. *)
Definition remove_file (p : path) : FS unit :=
  s ← get;
  if fault p then mret tt
  else
    match located s p with
    | None => mret tt
    | Some q =>
        match fs_get s q with
        | Some (FsDir _ _) => modify (remove_tree q)
        | Some _ => modify (remove_node q)
        | None => mret tt
        end
    end.

(** [os.link], of a regular file. *)
Definition os_link (src dst : path) : FS unit :=
  s ← get;
  match lstat s src with
  | Some (FsFile ino) =>
      q ← entry_place dst;
      match fs_get s q with
      | Some _ => raise (os_exn EEXIST)
      | None => modify (put_node q (FsFile ino))
      end
  | Some _ => raise (os_exn 1)
  | None => raise (os_exn ENOENT)
  end.

(** [Path.mkdir(parents=True, exist_ok=True)] *)
Fixpoint mkdir_go (seen rest : path) : FS unit :=
  match rest with
  | [] => mret tt
  | c :: rest =>
      s ← get;
      match stat s (seen ++ [c]) with
      | Some (FsDir _ _) => mkdir_go (seen ++ [c]) rest
      | Some _ => raise (os_exn EEXIST)
      | None =>
          q ← entry_place (seen ++ [c]);
          match fs_get s q with
          | Some _ => raise (os_exn EEXIST)
          | None => _ ← modify (put_node q (FsDir 0 493)); mkdir_go (seen ++ [c]) rest
          end
      end
  end.
Definition mkdir_parents (p : path) : FS unit := mkdir_go [] p.

(** [Path.mkdir(exist_ok=True)] *)
Definition mkdir_exist_ok (p : path) : FS unit :=
  s ← get;
  if is_dir s p then mret tt
  else
    q ← entry_place p;
    match fs_get s q with
    | Some _ => raise (os_exn EEXIST)
    | None => modify (put_node q (FsDir 0 493))
    end.

(** [os.replace] of a file or link; two names of one file stay as they are. *)
Definition os_replace (src dst : path) : FS unit :=
  s ← get;
  q ← entry_place src;
  match fs_get s q with
  | Some (FsDir _ _) => raise (os_exn EISDIR)
  | None => raise (os_exn ENOENT)
  | Some n =>
      d ← entry_place dst;
      match fs_get s d with
      | Some (FsDir _ _) => raise (os_exn EISDIR)
      | Some (FsFile i) => if bool_decide (n = FsFile i) then mret tt else modify (fun s => put_node d n (remove_node q s))
      | _ => modify (fun s => put_node d n (remove_node q s))
      end
  end.

(** [Path.write_text], in place. *)
Definition write_text (p : path) (text : string) : FS unit :=
  s ← get;
  match realpath s p with
  | None => raise (os_exn ELOOP)
  | Some q =>
      q ← entry_place q;
      match fs_get s q with
      | Some (FsFile i) =>
          modify (fun s => s <| fs_inodes := alter (fun f => mkIFile text (if_mode f)) i (fs_inodes s) |>)
      | Some _ => raise (os_exn EISDIR)
      | None => modify (put_new_file q (mkIFile text DEFAULT_FILE_MODE))
      end
  end.

Definition chmod (p : path) (mode : Z) : FS unit :=
  s ← get;
  match realpath s p ≫= (fun q => n ← fs_get s q; Some (q, n)) with
  | Some (_, FsFile ino) =>
      modify (fun s => s <| fs_inodes := alter (fun f => mkIFile (if_content f) mode) ino (fs_inodes s) |>)
  | Some (q, FsDir uid _) => modify (put_node q (FsDir uid mode))
  | _ => raise (os_exn ENOENT)
  end.

(** [iterdir], by name. *)
Definition dir_names (s : fsys) (d : path) : list string :=
  omap (fun kv => match list.last kv.1 with
                  | Some c => if bool_decide (removelast kv.1 = d) then Some c else None
                  | None => None
                  end) (map_to_list (fs_nodes s)).
End Io.

(** ** [ensure_private_dir] *)

Section Private.
(** The paths have no links above their mount point. *)
Context (ismount : path -> bool) (euid umask : Z).

Definition permission_error (msg : string) : pyexn := PyExn (XOther "PermissionError") [AStr msg] None None.

(** Owned by root or by this process, and writable by nobody else. *)
Definition is_private (uid mode : Z) : bool :=
  ((uid =? 0) || (uid =? euid)) && (Z.land mode 18 =? 0).

(** [_mount_point_of]: the number of leading components of the mount point. *)
Fixpoint mount_point_of (n : nat) (p : path) : nat :=
  match n with
  | O => O
  | S n' => if ismount (take n p) then n else mount_point_of n' p
  end.

(** The loop over the components, from [n] on. *)
Fixpoint check_components (fuel n : nat) (p : path) (mode : Z) (create : bool) : PyM fsys pyexn unit :=
  match fuel with
  | O => mret tt
  | S fuel =>
      let d := take n p in
      s ← get;
      match fs_get s d with
      | Some (FsLink _) => raise (permission_error "is a symlink")
      | Some (FsFile _) => raise (permission_error "is not a directory")
      | Some (FsDir uid m) =>
          if is_private uid m then check_components fuel (S n) p mode create
          else raise (permission_error "is not a private directory")
      | None =>
          if create then
            _ ← modify (put_node d (FsDir euid (Z.ldiff (if bool_decide (d = p) then mode else 493) umask)));
            check_components fuel (S n) p mode create
          else mret tt
      end
  end.

Definition ensure_private_dir (p : path) (mode : Z) (create : bool) : PyM fsys pyexn path :=
  if negb (Z.land mode 18 =? 0) then raise (PyExn XValueError [] None None)
  else
    let top := mount_point_of (List.length p) p in
    _ ← check_components (S (List.length p - top)) top p mode create;
    mret p.
End Private.

(** ** The invariant of the file system *)

(** What is in a directory is in a directory; the inodes in use are known. *)
Record fs_wf (s : fsys) : Prop := mkFsWf {
  wf_root : fs_nodes s !! [] = None;
  wf_parent : forall p c n, fs_nodes s !! (p ++ [c]) = Some n -> exists u m, fs_get s p = Some (FsDir u m);
  wf_inode : forall p i, fs_nodes s !! p = Some (FsFile i) -> (i < fs_next s)%nat /\ is_Some (fs_inodes s !! i);
}.

(** The content at a path that is not a link. *)
Definition read_at (s : fsys) (p : path) : option string := node_content s (fs_get s p).

(** Components as [iterdir] gives them, none of them a link. *)
Definition is_name (c : string) : Prop := c <> EmptyString /\ c <> "."%string /\ c <> ".."%string.
Definition plain (s : fsys) (p : path) : Prop :=
  Forall is_name p /\
  forall q t, q `prefix_of` p -> fs_get s q <> Some (FsLink t).

Lemma realpath_go_plain links la seen rest :
  Forall is_name rest -> (forall q, q `prefix_of` rest -> q <> [] -> la (seen ++ q) = None) ->
  realpath_go links la seen rest = Some (seen ++ rest).
Proof.
  revert seen. induction rest as [|c rest IH]; intros seen Hn Hl; destruct links as [|links];
    cbn [realpath_go]; try (by rewrite app_nil_r).
  all: inversion Hn as [|? ? (Hc1 & Hc2 & Hc3) Hr]; subst.
  all: rewrite bool_decide_eq_false_2 by naive_solver; rewrite bool_decide_eq_false_2 by done.
  all: rewrite (Hl [c]) by (done || by exists rest).
  all: assert (Hnext : forall q, q `prefix_of` rest -> q <> [] -> la ((seen ++ [c]) ++ q) = None).
  1, 3: intros q [k ->] _; rewrite <- app_assoc; apply Hl; [by exists k|done].
  all: specialize (IH (seen ++ [c]) Hr Hnext); cbn [realpath_go] in IH.
  all: rewrite <- app_assoc in IH; cbn [app] in IH; done.
Qed.

Lemma realpath_plain s p : plain s p -> realpath s p = Some p.
Proof.
  intros [Hn Hl]. apply realpath_go_plain; [done|]. intros q Hq _. unfold link_at.
  destruct (fs_get s _) as [[]|] eqn:E; try done. by destruct (Hl q target Hq).
Qed.

Lemma plain_prefix s p q : plain s p -> q `prefix_of` p -> plain s q.
Proof.
  intros [Hn Hl] Hq. split; [|intros r t Hr; apply Hl; by trans q].
  destruct Hq as [k ->]. by apply Forall_app in Hn as [? _].
Qed.

Lemma prefix_snoc_cases {A} (q p : list A) c : q `prefix_of` p ++ [c] -> q `prefix_of` p \/ q = p ++ [c].
Proof.
  intros [k Hk]. destruct k as [|x k _] using rev_ind; [right; by rewrite app_nil_r in Hk|].
  rewrite app_assoc in Hk. apply app_inj_tail in Hk as [-> _]. left. by exists k.
Qed.

Lemma plain_snoc s p c :
  plain s p -> is_name c -> (forall t, fs_get s (p ++ [c]) <> Some (FsLink t)) -> plain s (p ++ [c]).
Proof.
  intros [Hn Hl] Hc Ht. split; [apply Forall_app; split; [done|by constructor]|].
  intros q t [Hq | ->]%prefix_snoc_cases; [by apply Hl|done].
Qed.

Lemma located_plain s p c : plain s p -> located s (p ++ [c]) = Some (p ++ [c]).
Proof.
  intros Hp. unfold located. rewrite last_snoc, removelast_last. by rewrite realpath_plain.
Qed.

Lemma stat_plain s p : plain s p -> stat s p = fs_get s p.
Proof. intros Hp. unfold stat. by rewrite realpath_plain. Qed.

Lemma lstat_plain s p c : plain s p -> lstat s (p ++ [c]) = fs_get s (p ++ [c]).
Proof. intros Hp. unfold lstat. by rewrite located_plain. Qed.

Lemma fs_get_cons s p : p <> [] -> fs_get s p = fs_nodes s !! p.
Proof. by destruct p. Qed.

Lemma fs_get_put s p n q : p <> [] -> fs_get (put_node p n s) q = if decide (q = p) then Some n else fs_get s q.
Proof.
  intros Hp. destruct q as [|c q]; [by rewrite decide_False by done|].
  cbn. destruct (decide _) as [->|Hq]; [by rewrite lookup_insert_eq|by rewrite lookup_insert_ne].
Qed.

Lemma fs_get_new s p f q :
  p <> [] -> fs_get (put_new_file p f s) q = if decide (q = p) then Some (FsFile (fs_next s)) else fs_get s q.
Proof. intros Hp. by apply (fs_get_put s). Qed.

Lemma read_at_new s p f q :
  fs_wf s -> p <> [] ->
  read_at (put_new_file p f s) q = if decide (q = p) then Some (if_content f) else read_at s q.
Proof.
  intros Hwf Hp. unfold read_at. rewrite fs_get_new by done. destruct (decide _) as [->|Hq].
  - cbn. by rewrite lookup_insert_eq.
  - destruct (fs_get s q) as [[i| |]|] eqn:E; try done. cbn.
    destruct q as [|c q]; [done|]. destruct (wf_inode s Hwf _ _ E) as [Hi _].
    rewrite lookup_insert_ne; [done|]. lia.
Qed.

Lemma put_node_wf s p n :
  fs_wf s -> p <> [] -> (exists u m, fs_get s (removelast p) = Some (FsDir u m)) ->
  match fs_get s p with Some (FsDir _ _) => exists u m, n = FsDir u m | _ => True end ->
  (forall i, n = FsFile i -> (i < fs_next s)%nat /\ is_Some (fs_inodes s !! i)) ->
  fs_wf (put_node p n s).
Proof.
  intros [Hroot Hpar Hino] Hp Hd Hold Hn. split; cbn.
  - by rewrite lookup_insert_ne.
  - intros q c n' Hq. rewrite fs_get_put by done.
    assert (Hqd : exists u m, fs_get s q = Some (FsDir u m)).
    { destruct (decide (q ++ [c] = p)) as [<-|Hne].
      - by rewrite removelast_last in Hd.
      - rewrite lookup_insert_ne in Hq by done. by eapply Hpar. }
    destruct (decide (q = p)) as [->|]; [|done].
    destruct Hqd as (u & m & Hqd). rewrite Hqd in Hold. destruct Hold as (u' & m' & ->). eauto.
  - intros q i Hq. destruct (decide (p = q)) as [<-|Hne].
    + rewrite lookup_insert_eq in Hq. simplify_eq. by apply Hn.
    + rewrite lookup_insert_ne in Hq by done. by eapply Hino.
Qed.

Lemma put_new_file_wf s p f :
  fs_wf s -> p <> [] -> (exists u m, fs_get s (removelast p) = Some (FsDir u m)) ->
  (forall u m, fs_get s p <> Some (FsDir u m)) -> fs_wf (put_new_file p f s).
Proof.
  intros Hwf Hp Hd Hold. pose proof Hwf as [Hroot Hpar Hino].
  set (s1 := s <| fs_inodes := <[fs_next s := f]> (fs_inodes s) |> <| fs_next := S (fs_next s) |>).
  assert (Hs1 : fs_wf s1).
  { split; [done|done|]. intros q i Hq. destruct (Hino q i Hq) as [Hi Hs]. cbn. split; [lia|].
    rewrite lookup_insert_ne by lia. done. }
  change (fs_wf (put_node p (FsFile (fs_next s)) s1)). apply put_node_wf; try done.
  - change (fs_get s1 p) with (fs_get s p). destruct (fs_get s p) as [[| u m |]|] eqn:E; try done. by destruct (Hold u m).
  - intros i [= <-]. cbn. split; [lia|]. by rewrite lookup_insert_eq.
Qed.

(** What the operations do to a file system without surprises: the parent is
    no link. *)
Lemma replace_by_new_ok fault p c f s s' :
  plain s p -> replace_by_new fault (p ++ [c]) f s = (s', Ok tt) ->
  s' = put_new_file (p ++ [c]) f s /\ (exists u m, fs_get s p = Some (FsDir u m)) /\
  (forall u m, fs_get s (p ++ [c]) <> Some (FsDir u m)).
Proof.
  intros Hp H. unfold replace_by_new in H. apply pym_bind_ok in H as (s1 & q & H1 & H).
  unfold entry_place in H1. apply pym_bind_ok in H1 as (s2 & ? & Hg & H1). injection Hg as <- <-.
  destruct (fault _); [done|]. rewrite (located_plain s p c Hp), removelast_last in H1.
  destruct (fs_get s p) as [[| u m |]|] eqn:Ed; try done. injection H1 as <- <-.
  apply pym_bind_ok in H as (s2 & ? & Hg & H). injection Hg as <- <-.
  destruct (fs_get s (p ++ [c])) as [[]|] eqn:E; try done; injection H as <-;
    (split; [done|split; [eauto|congruence]]).
Qed.

Lemma no_link_plain s s' p :
  plain s p -> (forall q t, fs_get s' q = Some (FsLink t) -> fs_get s q = Some (FsLink t)) -> plain s' p.
Proof. intros [Hn Hl] H. split; [done|]. intros q t Hq E. by apply (Hl q t Hq), H. Qed.

Lemma plain_new s p f q : p <> [] -> plain s q -> plain (put_new_file p f s) q.
Proof.
  intros Hp Hq. apply (no_link_plain s); [done|]. intros r t. rewrite fs_get_new by done.
  by destruct (decide _).
Qed.

(** What removing an entry leaves. *)
Lemma remove_tree_get p s q : fs_get (remove_tree p s) q = if bool_decide (p `prefix_of` q /\ q <> []) then None else fs_get s q.
Proof.
  unfold remove_tree. destruct q as [|c q]; cbn [fs_get fs_nodes upd].
  - by rewrite bool_decide_eq_false_2 by naive_solver.
  - rewrite map_lookup_filter. destruct (fs_nodes s !! (c :: q)) as [n|]; cbn; [|by destruct (bool_decide _)].
    case_bool_decide as Hp.
    + rewrite option_guard_False by naive_solver. done.
    + rewrite option_guard_True by naive_solver. done.
Qed.

Lemma remove_node_get p s q : p <> [] -> fs_get (remove_node p s) q = if decide (q = p) then None else fs_get s q.
Proof.
  intros Hp. destruct q as [|c q]; [by rewrite decide_False by done|]. cbn.
  destruct (decide _) as [->|Hq]; [by rewrite lookup_delete_eq|by rewrite lookup_delete_ne].
Qed.

Lemma remove_node_wf s p n : fs_wf s -> p <> [] -> fs_get s p = Some n -> (forall u m, n <> FsDir u m) -> fs_wf (remove_node p s).
Proof.
  intros [Hr Hp Hi] Hne Hn Hd. split; cbn.
  - by rewrite lookup_delete_ne.
  - intros q c x Hx. apply lookup_delete_Some in Hx as [_ Hx]. destruct (Hp _ _ _ Hx) as (u & m & Hq).
    exists u, m. rewrite remove_node_get by done. destruct (decide _) as [->|]; [|done].
    rewrite Hn in Hq. injection Hq as ->. by destruct (Hd u m).
  - intros q i Hx. apply lookup_delete_Some in Hx as [_ Hx]. eauto.
Qed.

Record removed_only (s s' : fsys) (p : path) : Prop := mkRemovedOnly {
  ro_inodes : fs_inodes s' = fs_inodes s;
  ro_less : forall q n, fs_get s' q = Some n -> fs_get s q = Some n;
  ro_below : forall q, ~ p `prefix_of` q -> fs_get s' q = fs_get s q;
}.

Lemma removed_only_tree s p : removed_only s (remove_tree p s) p.
Proof.
  split; [done| |].
  - intros q n. rewrite remove_tree_get. by destruct (bool_decide _).
  - intros q Hq. rewrite remove_tree_get. by rewrite bool_decide_eq_false_2 by naive_solver.
Qed.

Lemma removed_only_node s p : p <> [] -> removed_only s (remove_node p s) p.
Proof.
  intros Hp. split; [done| |].
  - intros q n. rewrite remove_node_get by done. by destruct (decide _).
  - intros q Hq. rewrite remove_node_get by done. rewrite decide_False; [done|]. by intros ->.
Qed.

Lemma removed_only_refl s p : removed_only s s p.
Proof. by split. Qed.

(** ** [ensure_private_dir] *)

Section PrivateProperties.
Context (ismount : path -> bool) (euid umask : Z).

Lemma created_private m : Z.land m 18 = 0 -> is_private euid euid (Z.ldiff m umask) = true.
Proof.
  intros H. unfold is_private. rewrite Z.eqb_refl, orb_true_r. cbn. apply Z.eqb_eq.
  apply Z.bits_inj_0. intros k. rewrite Z.land_spec, Z.ldiff_spec.
  assert (Z.testbit (Z.land m 18) k = false) as Hk by (rewrite H; apply Z.bits_0).
  rewrite Z.land_spec in Hk. by destruct (Z.testbit m k), (Z.testbit 18 k), (Z.testbit umask k).
Qed.

(** What the loop over [fuel] components from [n] on leaves: nothing that was
    there changes, only components of [p] are made, all are private at its
    end, and an exception names one that is not, with nothing made below it. *)
Record checked (fuel n : nat) (p : path) (create : bool) (s s' : fsys) (r : result pyexn unit) : Prop := mkChecked {
  ck_kept : forall q x, fs_get s q = Some x -> fs_get s' q = Some x;
  ck_made : forall q, fs_get s q = None -> fs_get s' q <> None -> create = true /\ q `prefix_of` p;
  ck_private : r = Ok tt -> create = true -> forall k, (n <= k < n + fuel)%nat ->
    exists u m, fs_get s' (take k p) = Some (FsDir u m) /\ is_private euid u m = true;
  ck_refused : forall e, r = Raise e -> exists k x, (n <= k < n + fuel)%nat /\ fs_get s' (take k p) = Some x /\
    (forall u m, x = FsDir u m -> is_private euid u m = false) /\
    (forall q, fs_get s q = None -> fs_get s' q <> None -> exists j, (n <= j < k)%nat /\ q = take j p);
}.

Lemma checked_stop fuel n p create s x e :
  fs_get s (take n p) = Some x -> (forall u m, x = FsDir u m -> is_private euid u m = false) ->
  checked (S fuel) n p create s s (Raise e).
Proof.
  intros Hx Hnp. split; [done|congruence|done|]. intros e' _. exists n, x. split_and!; [lia|lia|done|done|congruence].
Qed.

Lemma checked_next fuel n p create s s' r u m :
  fs_get s (take n p) = Some (FsDir u m) -> is_private euid u m = true ->
  checked fuel (S n) p create s s' r -> checked (S fuel) n p create s s' r.
Proof.
  intros E Hpriv [H1 H2 H3 H4]. split; [done|done| |].
  - intros Hr Hc k Hk. destruct (decide (k = n)) as [->|]; [eauto|]. apply H3; [done|done|lia].
  - intros e Hr. destruct (H4 e Hr) as (k & x & Hk & Hx & Hnp & Hq). exists k, x.
    split_and!; [lia|lia|done|done|]. intros q Hq1 Hq2. destruct (Hq q Hq1 Hq2) as (j & Hj & ->).
    exists j. split; [lia|done].
Qed.

Lemma checked_make fuel n p s s' r m :
  fs_get s (take n p) = None -> Z.land m 18 = 0 ->
  checked fuel (S n) p true (put_node (take n p) (FsDir euid (Z.ldiff m umask)) s) s' r ->
  checked (S fuel) n p true s s' r.
Proof.
  intros E Hm [H1 H2 H3 H4].
  assert (Hnp : take n p <> []) by (intros E0; rewrite E0 in E; done).
  assert (Hput : forall q, q <> take n p ->
            fs_get (put_node (take n p) (FsDir euid (Z.ldiff m umask)) s) q = fs_get s q).
  { intros q Hq. rewrite fs_get_put by done. by rewrite decide_False. }
  split.
  - intros q x Hx. apply H1. rewrite Hput; [done|congruence].
  - intros q Hq1 Hq2. destruct (decide (q = take n p)) as [->|Hne].
    + split; [done|]. exists (drop n p). by rewrite take_drop.
    + apply H2; [|done]. by rewrite Hput.
  - intros Hr Hc k Hk. destruct (decide (k = n)) as [->|]; [|apply H3; [done|done|lia]].
    exists euid, (Z.ldiff m umask). split; [|by apply created_private].
    apply H1. rewrite fs_get_put by done. by rewrite decide_True.
  - intros e Hr. destruct (H4 e Hr) as (k & x & Hk & Hx & Hp & Hq). exists k, x.
    split_and!; [lia|lia|done|done|]. intros q Hq1 Hq2. destruct (decide (q = take n p)) as [->|Hne].
    + exists n. split; [lia|done].
    + destruct (Hq q) as (j & Hj & ->); [by rewrite Hput|done|exists j; split; [lia|done]].
Qed.

Lemma check_components_checked fuel n p mode create s s' r :
  Z.land mode 18 = 0 ->
  check_components euid umask fuel n p mode create s = (s', r) -> checked fuel n p create s s' r.
Proof.
  intros Hmode. revert n s. induction fuel as [|fuel IH]; intros n s H.
  { injection H as <- <-. split; [done|congruence|lia|done]. }
  cbn [check_components] in H. unfold mbind at 1, pym_bind at 1, get in H.
  destruct (fs_get s (take n p)) as [[i | u m | t]|] eqn:E.
  - injection H as <- <-. by apply (checked_stop _ _ _ _ _ (FsFile i)).
  - destruct (is_private euid u m) eqn:Epriv; [by eapply checked_next, IH|].
    injection H as <- <-. apply (checked_stop _ _ _ _ _ (FsDir u m)); [done|]. by intros ? ? [= <- <-].
  - injection H as <- <-. by apply (checked_stop _ _ _ _ _ (FsLink t)).
  - destruct create; [|injection H as <- <-; split; [done|congruence|done|done]].
    unfold mbind at 1, pym_bind at 1, modify in H. eapply checked_make, IH; [done| |exact H].
    by destruct (bool_decide _).
Qed.

Lemma mount_point_of_le n p : (mount_point_of ismount n p <= n)%nat.
Proof. induction n as [|n IH]; cbn; [done|]. destruct (ismount _); lia. Qed.

(** [ensure_private_dir] returns only for a directory that nobody but root
    and this process can redirect: every component from its mount point down is
    then a real directory, owned by root or the process and writable by no one
    else.  Whatever it returns or raises, nothing that existed is changed and
    only components of the path are made; and a refusal names a component that
    is no such directory, with nothing made below it. *)
Theorem private_dir_ensured p mode s s' r :
  ensure_private_dir ismount euid umask p mode true s = (s', r) ->
  let top := mount_point_of ismount (List.length p) p in
  (forall q x, fs_get s q = Some x -> fs_get s' q = Some x) /\
  (forall q, fs_get s q = None -> fs_get s' q <> None -> q `prefix_of` p) /\
  (forall d, r = Ok d -> forall k, (top <= k <= List.length p)%nat ->
     exists u m, fs_get s' (take k p) = Some (FsDir u m) /\ is_private euid u m = true) /\
  (forall e, r = Raise e -> Z.land mode 18 = 0 ->
     exists k x, (top <= k <= List.length p)%nat /\ fs_get s' (take k p) = Some x /\
       (forall u m, x = FsDir u m -> is_private euid u m = false) /\
       (forall q, fs_get s q = None -> fs_get s' q <> None -> exists j, (j < k)%nat /\ q = take j p)).
Proof.
  intros H top. unfold ensure_private_dir in H.
  destruct (Z.eqb_spec (Z.land mode 18) 0) as [Hm|Hm]; cbn [negb] in H;
    [|injection H as <- <-; split_and!; congruence].
  fold top in H. unfold mbind, pym_bind in H.
  pose proof (mount_point_of_le (List.length p) p) as Htop. fold top in Htop.
  destruct (check_components _ _ _ _ _ _ _ s) as [s1 r1] eqn:E.
  apply check_components_checked in E as [H1 H2 H3 H4]; [|done].
  assert (s1 = s') as <- by (by destruct r1; injection H).
  split_and!; [done|intros q Hq1 Hq2; by apply H2| |].
  - intros d Hr k Hk. destruct r1 as [[]|]; [|congruence]. apply H3; [done|done|lia].
  - intros e Hr _. destruct r1 as [|e1]; [injection H as <-; congruence|].
    destruct (H4 e1 eq_refl) as (k & x & Hk & Hx & Hnp & Hq). exists k, x. split_and!; [lia|lia|done|done|].
    intros q Hq1 Hq2. destruct (Hq q Hq1 Hq2) as (j & Hj & ->). exists j. split; [lia|done].
Qed.
End PrivateProperties.

(** ** A concrete directory *)

(** Deciding that a given file system is well formed and a path plain. *)
Definition fs_wfb (s : fsys) : bool :=
  forallb (fun '(p, n) =>
    negb (bool_decide (p = [])) &&
    match fs_get s (removelast p) with Some (FsDir _ _) => true | _ => false end &&
    match n with FsFile i => bool_decide (i < fs_next s)%nat && bool_decide (is_Some (fs_inodes s !! i)) | _ => true end)
    (map_to_list (fs_nodes s)).

Lemma fs_wfb_ok s : fs_wfb s = true -> fs_wf s.
Proof.
  intros H. assert (Hn : forall p n, fs_nodes s !! p = Some n ->
    p <> [] /\ (exists u m, fs_get s (removelast p) = Some (FsDir u m)) /\
    (forall i, n = FsFile i -> (i < fs_next s)%nat /\ is_Some (fs_inodes s !! i))).
  { intros p n Hp. unfold fs_wfb in H. rewrite forallb_forall in H. specialize (H (p, n)).
    rewrite <- list_elem_of_In, elem_of_map_to_list in H. specialize (H Hp). cbn in H.
    apply andb_true_iff in H as [[Ha%negb_true_iff Hb]%andb_true_iff Hc]. rewrite bool_decide_eq_false in Ha. split_and!; [done| |].
    - destruct (fs_get s (removelast p)) as [[]|]; try done. eauto.
    - intros i ->. apply andb_true_iff in Hc as [H1 H2]. by rewrite bool_decide_eq_true in H1, H2. }
  split.
  - destruct (fs_nodes s !! []) as [n|] eqn:E; [|done]. by destruct (Hn _ _ E).
  - intros p c n Hp. destruct (Hn _ _ Hp) as (_ & Hd & _). by rewrite removelast_last in Hd.
  - intros p i Hp. destruct (Hn _ _ Hp) as (_ & _ & Hi). by apply Hi.
Qed.

Definition is_nameb (c : string) : bool := str_truthy c && negb (String.eqb c ".") && negb (String.eqb c "..").
Definition plainb (s : fsys) (p : path) : bool :=
  forallb is_nameb p &&
  forallb (fun k => match fs_get s (take k p) with Some (FsLink _) => false | _ => true end) (seq 0 (S (List.length p))).

Lemma plainb_ok s p : plainb s p = true -> plain s p.
Proof.
  intros [Hn Hl]%andb_true_iff. split.
  - rewrite forallb_forall in Hn. apply Forall_forall. intros c Hc%list_elem_of_In. apply Hn in Hc.
    unfold is_nameb in Hc. apply andb_true_iff in Hc as [[H1 H2%negb_true_iff]%andb_true_iff H3%negb_true_iff].
    split_and!; [by intros ->|by apply String.eqb_neq|by apply String.eqb_neq].
  - intros q t [r ->] Hq. rewrite forallb_forall in Hl. specialize (Hl (List.length q)).
    rewrite take_app_length, Hq in Hl. assert (false = true) by (apply Hl, in_seq; rewrite length_app; lia). done.
Qed.

(** Files and directories, for examples. *)
Definition put_dirs (l : list path) (s : fsys) : fsys := fold_left (fun s p => put_node p (FsDir 0 493) s) l s.
Definition put_files (l : list (path * string)) (s : fsys) : fsys :=
  fold_left (fun s pt => put_new_file (fst pt) (mkIFile (snd pt) 420) s) l s.

Definition example_fs : fsys := mkFsys {[ ["run"%string] := FsDir 0 493 ]} ∅ 0.

Lemma private_dir_ensured_witness :
  exists s', ensure_private_dir (fun p => bool_decide (p = ["run"%string])) 1000 63 ["run"; "ota"]%string 493 true example_fs
             = (s', Ok ["run"; "ota"]%string) /\
  forall k, (1 <= k <= 2)%nat -> exists u m, fs_get s' (take k ["run"; "ota"]%string) = Some (FsDir u m) /\ is_private 1000 u m = true.
Proof.
  eexists. split; [vm_compute; reflexivity|].
  refine (proj1 (proj2 (proj2 (private_dir_ensured (fun p => bool_decide (p = ["run"%string])) 1000 63 ["run"; "ota"]%string 493
    example_fs _ (Ok ["run"; "ota"]%string) _))) _ eq_refl). vm_compute; reflexivity.
Defined.
