(* ===== verification/StatusFiles.v ===== *)
(** * The OTA status files on the file system

    Where the files of [src/src/otaclient/boot_control/_ota_status_control.py]
    are: reading the directory of a slot as the [status_dir] of
    [OTAStatusControl], and writing back what its initialization changed. *)

From stdpp Require Import base gmap strings list option.
From Stdlib Require Import ZArith Ascii String Lia.
From S2P Require Import Prelude Types Errors OTAStatusControl FileSystem.

Definition OTA_STATUS_FNAME : string := "status".
Definition SLOT_IN_USE_FNAME : string := "slot_in_use".
Definition OTA_VERSION_FNAME : string := "version".
Definition OTA_VERSION_DETAIL_FNAME : string := "version_detail".
Definition OTA_FAILURE_INFO_FNAME : string := "failure_info".

Section Files.
Context (fault : path -> bool).
(** How the JSON files are read. *)
Context (parse_version_detail : string -> json_file string) (parse_failure_info : string -> json_file jval).

(** The status files in the directory [d]. *)
Definition status_dir_at (s : fsys) (d : path) : status_dir :=
  mkStatusDir (is_dir s d) (read_file s (d ++ [OTA_STATUS_FNAME]))
    (match stat s (d ++ [OTA_STATUS_FNAME]) with
     | Some (FsFile ino) => stat_of_write (Z.of_nat ino)
     | _ => mkStat 0 0
     end)
    (read_file s (d ++ [SLOT_IN_USE_FNAME])) (read_file s (d ++ [OTA_VERSION_FNAME]))
    (parse_version_detail <$> read_file s (d ++ [OTA_VERSION_DETAIL_FNAME]))
    (parse_failure_info <$> read_file s (d ++ [OTA_FAILURE_INFO_FNAME])).

(** The files the status control has written are those of the directory. *)
Definition store_changed (p : path) (old new : option string) : PyM fsys pyexn unit :=
  if bool_decide (new = old) then mret tt
  else match new with
       | Some t => write_str_to_file_atomic fault p t true
       | None => mret tt
       end.

Definition store_status_dir (d : path) (old new : status_dir) : PyM fsys pyexn unit :=
  _ ← (if sd_exists new && negb (sd_exists old) then mkdir_parents fault d else mret tt);
  _ ← store_changed (d ++ [SLOT_IN_USE_FNAME]) (sd_slot_in_use old) (sd_slot_in_use new);
  store_changed (d ++ [OTA_STATUS_FNAME]) (sd_status old) (sd_status new).
End Files.
