(* ===== verification/CopyTree.v ===== *)
(** * Making one directory tree identical to another

    Models [copytree_identical] of [src/src/otaclient_common/common.py], which
    the boot controllers use to carry a directory to the other slot.  A tree
    has regular files, symbolic links and directories; [os.walk] lists a link
    to a directory among the directories, so whether a link leads to one, at a
    path below the source or the destination, is an input ([copy_env]).  A link
    of the destination that leads to a directory is followed to a directory
    outside of the two trees, whose entries are kept too.  What an exception
    leaves behind is not kept. *)

From stdpp Require Import base strings list option sets gmap.
From Stdlib Require Import ZArith String Lia.
#[local] Set Warnings "-register-all".
From S2P Require Import Prelude Errors FileSystem.

Record fstat : Type := mkFStat { fst_uid : Z; fst_gid : Z; fst_mode : Z }.

Inductive tree : Type :=
| TFile (content : string) (st : fstat)
| TLink (target : string)
| TDir (st : fstat) (entries : list (string * tree)).

Definition is_directory (t : option tree) : bool :=
  match t with Some (TDir _ _) => true | _ => false end.
Definition is_file_or_symlink (t : option tree) : bool :=
  match t with Some (TFile _ _) | Some (TLink _) => true | _ => false end.
Definition tree_is_symlink (t : option tree) : bool :=
  match t with Some (TLink _) => true | _ => false end.
Definition tree_entries (t : option tree) : pydict tree :=
  match t with Some (TDir _ d) => d | _ => [] end.

(** The directories outside of the two trees. *)
Abbreviation elsewhere := (gmap nat (pydict tree)).

(** What a copy meets: which links below the source, and in the end below the
    destination, lead to a directory; where a link that the destination has at
    first leads, to a directory outside of the two trees or, with the [errno]
    of going through it, to none; and what [rmtree(ignore_errors=True)] cannot
    remove of the directory at a path. *)
Record copy_env : Type := mkCopyEnv {
  src_isdir : path -> bool;
  dst_isdir : path -> bool;
  leads : path -> result Z nat;
  rmtree_leaves : path -> tree -> option tree;
}.

Section Copy.
Context (env : copy_env).

(** A link to a directory: what is at the destination is removed first, by
    [unlink] without [missing_ok] unless it is a directory. *)
Definition copy_dir_link (p : path) (target : string) (n : string) (d : pydict tree) : result pyexn (pydict tree) :=
  match dict_get n d with
  | None => Raise (os_exn ENOENT)
  | Some (TDir _ _ as x) =>
      match rmtree_leaves env (p ++ [n]) x with
      | None => Ok (dict_set n (TLink target) d)
      | Some _ => Raise (os_exn EEXIST)
      end
  | Some _ => Ok (dict_set n (TLink target) d)
  end.

(** The links to directories, made in whatever directory the path of the
    destination leads to. *)
Fixpoint copy_dir_links (p : path) (entries : list (string * tree)) (dst : option tree) (out : elsewhere) :
    result pyexn (option tree * elsewhere) :=
  match entries with
  | [] => Ok (dst, out)
  | (n, TLink target) :: entries =>
      if src_isdir env (p ++ [n]) then
        match dst with
        | Some (TDir st d) =>
            match copy_dir_link p target n d with
            | Ok d => copy_dir_links p entries (Some (TDir st d)) out
            | Raise e => Raise e
            end
        | Some (TLink _) =>
            match leads env p with
            | Ok i =>
                match copy_dir_link p target n (default ([] : pydict tree) (out !! i : option (pydict tree))) with
                | Ok d => copy_dir_links p entries dst (<[i:=d]> out)
                | Raise e => Raise e
                end
            | Raise errno => Raise (os_exn errno)
            end
        | Some (TFile _ _) => Raise (os_exn ENOTDIR)
        | None => Raise (os_exn ENOENT)
        end
      else copy_dir_links p entries dst out
  | _ :: entries => copy_dir_links p entries dst out
  end.

(** A file over what is left of a directory: [shutil.copy] copies it into the
    directory (where the link of such a name leads, which is not followed
    here), and the directory gets the owner and the mode. *)
Definition copy_into (n c : string) (st : fstat) (left : tree) : result pyexn tree :=
  match left with
  | TDir _ d =>
      match dict_get n d with
      | Some (TDir _ _) => Raise (os_exn EISDIR)
      | Some (TLink _) => Ok (TDir st d)
      | Some (TFile _ st0) => Ok (TDir st (dict_set n (TFile c (mkFStat (fst_uid st0) (fst_gid st0) (fst_mode st))) d))
      | None => Ok (TDir st (dict_set n (TFile c (mkFStat 0 0 (fst_mode st))) d))
      end
  | _ => Ok (TFile c st)
  end.

(** One file of the directory, a link to anything else among them. *)
Definition copy_file (p : path) (n : string) (src : tree) (d : pydict tree) : result pyexn (pydict tree) :=
  let left := match dict_get n d with Some (TDir _ _ as x) => rmtree_leaves env (p ++ [n]) x | _ => None end in
  match left, src with
  | None, _ => Ok (dict_set n src d)
  | Some x, TFile c st => match copy_into n c st x with Ok x => Ok (dict_set n x d) | Raise e => Raise e end
  | Some _, _ => Raise (os_exn EEXIST)
  end.

Fixpoint copy_files (p : path) (entries : list (string * tree)) (d : pydict tree) : result pyexn (pydict tree) :=
  match entries with
  | [] => Ok d
  | (n, x) :: entries =>
      if match x with TFile _ _ => true | TLink _ => negb (src_isdir env (p ++ [n])) | TDir _ _ => false end then
        match copy_file p n x d with Ok d => copy_files p entries d | Raise e => Raise e end
      else copy_files p entries d
  end.

(** Phase 1: populating the destination.  A link in the place of a directory
    is replaced by an empty directory after the links have been made. *)
Fixpoint populate (p : path) (src : tree) (dst : option tree) (out : elsewhere) : result pyexn (tree * elsewhere) :=
  match src with
  | TDir src_st entries =>
      match copy_dir_links p entries dst out with
      | Raise e => Raise e
      | Ok (dst, out) =>
          let '(st, d) := match dst with Some (TDir st d) => (st, d) | _ => (src_st, []) end in
          match copy_files p entries d with
          | Raise e => Raise e
          | Ok d =>
              match (fix subdirs (l : list (string * tree)) (d : pydict tree) (out : elsewhere) :
                         result pyexn (pydict tree * elsewhere) :=
                       match l with
                       | [] => Ok (d, out)
                       | (n, sub) :: l =>
                           match sub with
                           | TDir _ _ =>
                               match populate (p ++ [n]) sub (dict_get n d) out with
                               | Ok (t, out) => subdirs l (dict_set n t d) out
                               | Raise e => Raise e
                               end
                           | _ => subdirs l d out
                           end
                       end) entries d out with
              | Ok (d, out) => Ok (TDir st d, out)
              | Raise e => Raise e
              end
          end
      end
  | _ => Ok (src, out)
  end.

(** Phase 2: what the source does not have is removed. *)
Fixpoint prune (p : path) (dst : tree) (src : option tree) : option tree :=
  match dst with
  | TFile _ _ => if is_file_or_symlink src then Some dst else None
  | TLink _ =>
      if dst_isdir env p then (if tree_is_symlink src then Some dst else None)
      else if is_file_or_symlink src then Some dst else None
  | TDir st d =>
      if is_directory src then
        Some (TDir st ((fix kept (l : list (string * tree)) : list (string * tree) :=
                          match l with
                          | [] => []
                          | (n, t) :: l =>
                              match prune (p ++ [n]) t (dict_get n (tree_entries src)) with
                              | Some t => (n, t) :: kept l
                              | None => kept l
                              end
                          end) d))
      else rmtree_leaves env p dst
  end.

Definition copytree_identical (src : tree) (dst : option tree) (out : elsewhere) : result pyexn (tree * elsewhere) :=
  match src with
  | TDir src_st _ =>
      let dst := match dst with
                 | Some (TDir st d) => TDir st d
                 | _ => TDir (mkFStat 0 0 (fst_mode src_st)) []
                 end in
      match populate [] src (Some dst) out with
      | Ok (t, out) => match prune [] t (Some src) with Some t => Ok (t, out) | None => Raise (os_exn ENOENT) end
      | Raise e => Raise e
      end
  | _ => Raise (PyExn XValueError [] None None)
  end.
End Copy.

(** ** The destination is identical *)

(** What a path of a tree names; the owner and the mode of a directory that
    was there already are not changed. *)
Inductive entry_kind : Type :=
| KFile (content : string) (st : fstat)
| KLink (target : string)
| KDir.

Definition kind_of (t : tree) : entry_kind :=
  match t with TFile c st => KFile c st | TLink l => KLink l | TDir _ _ => KDir end.

Fixpoint kind_at (t : tree) (p : path) : option entry_kind :=
  match p with
  | [] => Some (kind_of t)
  | n :: p => match dict_get n (tree_entries (Some t)) with Some t => kind_at t p | None => None end
  end.

Section TreeInd.
Context (P : tree -> Prop).
Context (Hfile : forall c st, P (TFile c st)) (Hlink : forall l, P (TLink l)).
Context (Hdir : forall st d, Forall (fun nt => P (snd nt)) d -> P (TDir st d)).

Fixpoint tree_ind' (t : tree) : P t :=
  match t with
  | TFile c st => Hfile c st
  | TLink l => Hlink l
  | TDir st d =>
      Hdir st d ((fix go (l : list (string * tree)) : Forall (fun nt => P (snd nt)) l :=
                    match l with
                    | [] => List.Forall_nil _
                    | nt :: l => List.Forall_cons _ _ _ (tree_ind' (snd nt)) (go l)
                    end) d)
  end.
End TreeInd.

(** No directory has a name twice. *)
Fixpoint tree_wf (t : tree) : Prop :=
  match t with
  | TDir _ d => dict_wf d /\ (fix go (l : list (string * tree)) : Prop :=
                                match l with [] => True | nt :: l => tree_wf (snd nt) /\ go l end) d
  | _ => True
  end.

Lemma tree_wf_dir st d : tree_wf (TDir st d) <-> dict_wf d /\ Forall (fun nt => tree_wf (snd nt)) d.
Proof.
  cbn [tree_wf]. assert (H : forall l : list (string * tree),
    (fix go (l : list (string * tree)) : Prop :=
       match l with [] => True | nt :: l => tree_wf (snd nt) /\ go l end) l
    <-> Forall (fun nt => tree_wf (snd nt)) l).
  { induction l as [|nt l IH]; [done|]. rewrite List.Forall_cons_iff, <- IH. done. }
  by rewrite H.
Qed.

Lemma wf_entry d n t : Forall (fun nt : string * tree => tree_wf (snd nt)) d -> dict_get n d = Some t -> tree_wf t.
Proof. intros H Ht%dict_get_In%list_elem_of_In. rewrite List.Forall_forall in H. by apply (H _ Ht). Qed.

Definition wf_entries (d : pydict tree) : Prop := dict_wf d /\ Forall (fun nt : string * tree => tree_wf (snd nt)) d.

Lemma wf_set d n t : wf_entries d -> tree_wf t -> wf_entries (dict_set n t d).
Proof.
  intros [Hd Hf] Ht. split; [by apply dict_set_wf|]. clear Hd.
  induction d as [|[m x] d IH]; cbn; [by repeat constructor|].
  inversion Hf; subst. destruct (String.eqb _ _); constructor; auto.
Qed.

(** [t] has everything [src] has. *)
Definition covers (src t : tree) : Prop := forall p k, kind_at src p = Some k -> kind_at t p = Some k.

(** [rmtree] removes every directory. *)
Definition all_removed (env : copy_env) : Prop := forall p t, rmtree_leaves env p t = None.

(** No link to a directory is at the destination where the source has a directory. *)
Definition no_link_in_the_way (env : copy_env) (p : path) (src : tree) (dst : option tree) : Prop :=
  forall q l, kind_at src q = Some KDir -> dst ≫= (fun x => kind_at x q) = Some (KLink l) ->
  exists errno, leads env (p ++ q) = Raise errno.

Section CopyProperties.
Context (env : copy_env) (Hrm : all_removed env).

Lemma copy_dir_link_ok p target n d d' : copy_dir_link env p target n d = Ok d' -> d' = dict_set n (TLink target) d.
Proof.
  unfold copy_dir_link. destruct (dict_get n d) as [[| |]|]; try done; [by intros [= <-]..|].
  rewrite Hrm. by intros [= <-].
Qed.

Lemma copy_file_ok p n x d : copy_file env p n x d = Ok (dict_set n x d).
Proof. unfold copy_file. destruct (dict_get n d) as [[| |]|]; try done. by rewrite Hrm. Qed.

(** The links to directories among the entries of the source. *)
Definition is_dir_link (p : path) (e : string * tree) : bool :=
  match snd e with TLink _ => src_isdir env (p ++ [fst e]) | _ => false end.

Lemma copy_dir_links_ok p l dst out dst' out' :
  (forall x, dst = Some (TLink x) -> exists errno, leads env p = Raise errno) ->
  copy_dir_links env p l dst out = Ok (dst', out') -> NoDup (map fst l) ->
  wf_entries (tree_entries dst) ->
  out' = out /\ wf_entries (tree_entries dst') /\ is_directory dst' = is_directory dst /\
  (forall n target, (n, TLink target) ∈ l -> src_isdir env (p ++ [n]) = true ->
     dict_get n (tree_entries dst') = Some (TLink target)) /\
  (forall n, (forall x, (n, x) ∈ l -> is_dir_link p (n, x) = false) -> dict_get n (tree_entries dst') = dict_get n (tree_entries dst)).
Proof.
  revert dst. induction l as [|[n t] l IH]; intros dst Hw H Hnd Hwf.
  { injection H as <- <-. split_and!; [done|apply Hwf|done|set_solver|done]. }
  inversion Hnd as [|? ? Hn Hl]; subst.
  assert (Hskip : is_dir_link p (n, t) = false -> copy_dir_links env p l dst out = Ok (dst', out') ->
    out' = out /\ wf_entries (tree_entries dst') /\ is_directory dst' = is_directory dst /\
    (forall m target, (m, TLink target) ∈ (n, t) :: l -> src_isdir env (p ++ [m]) = true ->
       dict_get m (tree_entries dst') = Some (TLink target)) /\
    (forall m, (forall x, (m, x) ∈ (n, t) :: l -> is_dir_link p (m, x) = false) ->
       dict_get m (tree_entries dst') = dict_get m (tree_entries dst))).
  { intros Hf Hl'. destruct (IH _ Hw Hl' Hl Hwf) as (H0 & H1 & H2 & H3 & H4). split_and!; [done|apply H1|done|..].
    - intros m tg Hm Hi. apply elem_of_cons in Hm as [Hm|Hm]; [|by apply H3]. simplify_eq. unfold is_dir_link in Hf. cbn in Hf. congruence.
    - intros m Hm. apply H4. intros x Hx. apply Hm. by right. }
  destruct t as [c st|target|st d]; cbn [copy_dir_links] in H; [by apply Hskip| |by apply Hskip].
  destruct (src_isdir env (p ++ [n])) eqn:En; [clear Hskip|by apply Hskip].
  destruct dst as [[|x|st d]|]; [done| |..|done].
  { destruct (Hw x eq_refl) as [errno He]. by rewrite He in H. }
  destruct (copy_dir_link env p target n d) as [d1|] eqn:Ed; [|done]. apply copy_dir_link_ok in Ed as ->.
  apply IH in H as (H0 & H1 & H2 & H3 & H4); [|done|done|by apply wf_set].
  split_and!; [done|apply H1|done|..].
  - intros m tg Hm Hi. apply elem_of_cons in Hm as [Hm|Hm]; [|by apply H3]. simplify_eq.
    rewrite H4; [cbn; apply dict_get_set_eq|]. intros y Hy. destruct Hn. apply list_elem_of_fmap. by exists (n, y).
  - intros m Hm. rewrite H4 by (intros y Hy; apply Hm; by right). cbn. apply dict_get_set_ne. intros ->.
    specialize (Hm (TLink target) ltac:(by left)). unfold is_dir_link in Hm. cbn in Hm. congruence.
Qed.

Lemma copy_files_ok p l d d' :
  NoDup (map fst l) -> wf_entries d -> Forall (fun nt => tree_wf (snd nt)) l -> copy_files env p l d = Ok d' ->
  wf_entries d' /\
  (forall n x, (n, x) ∈ l -> is_directory (Some x) = false -> is_dir_link p (n, x) = false -> dict_get n d' = Some x) /\
  (forall n, (forall x, (n, x) ∈ l -> is_directory (Some x) = true \/ is_dir_link p (n, x) = true) -> dict_get n d' = dict_get n d).
Proof.
  revert d. induction l as [|[n x] l IH]; intros d Hnd Hwf Hwl H.
  { injection H as <-. split_and!; [apply Hwf|set_solver|done]. }
  inversion Hnd as [|? ? Hn Hl]; inversion Hwl as [|? ? Hx Hwl']; subst. cbn [copy_files] in H.
  set (b := match x with TFile _ _ => true | TLink _ => negb (src_isdir env (p ++ [n])) | TDir _ _ => false end) in H.
  assert (Hb : b = negb (is_directory (Some x)) && negb (is_dir_link p (n, x))) by (by destruct x).
  destruct b.
  - symmetry in Hb. apply andb_true_iff in Hb as [Hb1%negb_true_iff Hb2%negb_true_iff]. rewrite copy_file_ok in H.
    destruct (IH _ Hl (wf_set _ n x Hwf Hx) Hwl' H) as (H1 & H2 & H3). split_and!; [apply H1|..].
    + intros m y Hm Hd Hk. apply elem_of_cons in Hm as [Hm|Hm]; [|by apply H2]. simplify_eq.
      rewrite H3; [apply dict_get_set_eq|]. intros y Hy. destruct Hn. apply list_elem_of_fmap. by exists (n, y).
    + intros m Hm. rewrite H3 by (intros y Hy; apply Hm; by right). apply dict_get_set_ne. intros ->.
      destruct (Hm x ltac:(by left)); congruence.
  - destruct (IH _ Hl Hwf Hwl' H) as (H1 & H2 & H3). split_and!; [apply H1|..].
    + intros m y Hm Hd Hk. apply elem_of_cons in Hm as [Hm|Hm]; [|by apply H2]. simplify_eq. by rewrite Hd, Hk in Hb.
    + intros m Hm. apply H3. intros y Hy. apply Hm. by right.
Qed.

(** The loop over the real sub-directories. *)
Definition subdirs (p : path) : list (string * tree) -> pydict tree -> elsewhere -> result pyexn (pydict tree * elsewhere) :=
  fix subdirs (l : list (string * tree)) (d : pydict tree) (out : elsewhere) : result pyexn (pydict tree * elsewhere) :=
    match l with
    | [] => Ok (d, out)
    | (n, sub) :: l =>
        match sub with
        | TDir _ _ =>
            match populate env (p ++ [n]) sub (dict_get n d) out with
            | Ok (t, out) => subdirs l (dict_set n t d) out
            | Raise e => Raise e
            end
        | _ => subdirs l d out
        end
    end.

Lemma populate_dir p src_st entries dst out :
  populate env p (TDir src_st entries) dst out =
  match copy_dir_links env p entries dst out with
  | Raise e => Raise e
  | Ok (dst, out) =>
      let '(st, d) := match dst with Some (TDir st d) => (st, d) | _ => (src_st, []) end in
      match copy_files env p entries d with
      | Raise e => Raise e
      | Ok d =>
          match subdirs p entries d out with
          | Ok (d, out) => Ok (TDir st d, out)
          | Raise e => Raise e
          end
      end
  end.
Proof. reflexivity. Qed.

Definition populates (src : tree) : Prop := forall p dst out t out',
  tree_wf src -> match dst with Some x => tree_wf x | None => True end -> no_link_in_the_way env p src dst ->
  populate env p src dst out = Ok (t, out') -> tree_wf t /\ covers src t /\ out' = out.

Lemma subdirs_ok p l d out d' out' :
  Forall (fun nt => populates (snd nt)) l -> Forall (fun nt => tree_wf (snd nt)) l -> NoDup (map fst l) ->
  wf_entries d -> (forall n st es, (n, TDir st es) ∈ l -> no_link_in_the_way env (p ++ [n]) (TDir st es) (dict_get n d)) ->
  subdirs p l d out = Ok (d', out') ->
  wf_entries d' /\ out' = out /\
  (forall n st es, (n, TDir st es) ∈ l -> exists t, dict_get n d' = Some t /\ covers (TDir st es) t) /\
  (forall n, (forall st es, (n, TDir st es) ∉ l) -> dict_get n d' = dict_get n d).
Proof.
  revert d. induction l as [|[n sub] l IH]; intros d Hpop Hwfl Hnd Hwf Hway H.
  { injection H as <- <-. split_and!; [apply Hwf|done|set_solver|done]. }
  inversion Hpop as [|? ? Hp Hpl]; inversion Hwfl as [|? ? Hw Hwl]; inversion Hnd as [|? ? Hn Hndl]; subst.
  assert (Hskip : (forall st es, sub <> TDir st es) -> subdirs p l d out = Ok (d', out') ->
    wf_entries d' /\ out' = out /\
    (forall m st es, (m, TDir st es) ∈ (n, sub) :: l -> exists t, dict_get m d' = Some t /\ covers (TDir st es) t) /\
    (forall m, (forall st es, (m, TDir st es) ∉ (n, sub) :: l) -> dict_get m d' = dict_get m d)).
  { intros Hx Hl. destruct (IH d Hpl Hwl Hndl Hwf ltac:(intros; apply Hway; by right) Hl) as (H1 & H0 & H2 & H3).
    split_and!; [apply H1|done|..].
    - intros m st es Hm. apply elem_of_cons in Hm as [Hm|Hm]; [|by eapply H2]. simplify_eq. by destruct (Hx st es).
    - intros m Hm. apply H3. set_solver. }
  destruct sub as [c st|target|st es]; cbn [subdirs] in H; [by apply Hskip|by apply Hskip|]. clear Hskip.
  destruct (populate _ _ _ _ _) as [[t out1]|] eqn:E; [|done].
  destruct (Hp (p ++ [n]) (dict_get n d) out t out1) as (Ht & Hc & ->); [done| |apply Hway; by left|done|].
  { destruct (dict_get n d) eqn:Ed; [|done]. by eapply wf_entry; [apply Hwf|]. }
  assert (Hother : forall m st' es', (m, TDir st' es') ∈ l -> n <> m).
  { intros m st' es' Hm ->. apply Hn, list_elem_of_fmap. by exists (m, TDir st' es'). }
  destruct (IH _ Hpl Hwl Hndl (wf_set _ n t Hwf Ht)) with (2 := H) as (H1 & H0 & H2 & H3).
  { intros m st' es' Hm. rewrite dict_get_set_ne; [apply Hway; by right|]. by eapply Hother. }
  split_and!; [apply H1|done|..].
  - intros m st' es' Hm. apply elem_of_cons in Hm as [Hm|Hm]; [|by eapply H2]. simplify_eq. exists t.
    split; [|done]. rewrite H3; [apply dict_get_set_eq|]. intros st' es' Hin. by destruct (Hother _ _ _ Hin).
  - intros m Hm. rewrite H3 by set_solver. apply dict_get_set_ne. intros ->. by apply (Hm st es); left.
Qed.

Lemma covers_dir st es st' d :
  (forall n x, dict_get n es = Some x -> exists y, dict_get n d = Some y /\ covers x y) ->
  covers (TDir st es) (TDir st' d).
Proof.
  intros H [|n q] k Hk; cbn in *; [done|]. destruct (dict_get n es) as [x|] eqn:E; [|done].
  destruct (H n x E) as (y & -> & Hc). by apply Hc.
Qed.

Lemma covers_same t : covers t t.
Proof. by intros p k. Qed.

(** The way below an entry of the directory is the way to the entry. *)
Lemma way_below p st es n sub dst :
  no_link_in_the_way env p (TDir st es) dst -> dict_get n es = Some sub ->
  no_link_in_the_way env (p ++ [n]) sub (dict_get n (tree_entries dst)).
Proof.
  intros Hway Hn q l Hq Hl. specialize (Hway (n :: q) l). cbn in Hway. rewrite Hn in Hway.
  rewrite <- app_assoc. apply Hway; [done|]. destruct dst as [[| |st0 d0]|]; [done|done| |done]. cbn in *. by destruct (dict_get n d0).
Qed.

Lemma populate_ok src : populates src.
Proof.
  induction src as [c st|l|src_st es IH] using tree_ind'; intros p dst out t out' Hs Hd Hway H;
    [injection H as <- <-; split_and!; [done|apply covers_same|done]..|].
  apply tree_wf_dir in Hs as [Hes Hsub]. rewrite populate_dir in H.
  destruct (copy_dir_links _ _ _ _ _) as [[dst1 out1]|] eqn:E1; [|done].
  assert (Hdst : wf_entries (tree_entries dst)).
  { destruct dst as [[| |st0 d0]|]; try (split; constructor). by apply tree_wf_dir in Hd. }
  assert (Hw : forall x, dst = Some (TLink x) -> exists errno, leads env p = Raise errno).
  { intros x ->. destruct (Hway [] x eq_refl eq_refl) as [errno He]. rewrite app_nil_r in He. by exists errno. }
  destruct (copy_dir_links_ok _ _ _ _ _ _ Hw E1 Hes Hdst) as (-> & W1 & Hdir & Hlinks & Hkept).
  set (d1 := tree_entries dst1) in *.
  assert (exists st1, match dst1 with Some (TDir st d) => (st, d) | _ => (src_st, []) end = (st1, d1)) as (st1 & Est).
  { unfold d1. destruct dst1 as [[]|]; eauto. }
  rewrite Est in H. destruct (copy_files _ _ _ _) as [d2|] eqn:E2; [|done].
  destruct (copy_files_ok p es d1 d2 Hes W1 Hsub E2) as (W2 & Hf & Hk2).
  destruct (subdirs _ _ _ _) as [[d3 out3]|] eqn:E3; [|done]. injection H as <- <-.
  assert (Huniq : forall n x y, (n, x) ∈ es -> (n, y) ∈ es -> x = y).
  { intros n x y Hx Hy. assert (Hg := dict_In_get n x es Hes Hx). assert (Hg' := dict_In_get n y es Hes Hy). congruence. }
  assert (Hbelow : forall n st es', (n, TDir st es') ∈ es -> no_link_in_the_way env (p ++ [n]) (TDir st es') (dict_get n d2)).
  { intros n st es' Hin. rewrite Hk2, Hkept.
    - eapply way_below; [exact Hway|]. by apply dict_In_get.
    - intros x Hx. by rewrite (Huniq n x _ Hx Hin).
    - intros x Hx. left. by rewrite (Huniq n x _ Hx Hin). }
  destruct (subdirs_ok _ _ _ _ _ _ IH Hsub Hes W2 Hbelow E3) as (W3 & -> & Hd3 & Hk3).
  split_and!; [by apply tree_wf_dir| |done]. apply covers_dir. intros n x Hx%dict_get_In.
  destruct (is_directory (Some x)) eqn:Edir; [destruct x as [| |st es']; try done; by apply Hd3|].
  exists x. split; [|apply covers_same].
  rewrite Hk3 by (intros st es' Hin; by rewrite (Huniq n x _ Hx Hin) in Edir).
  destruct (is_dir_link p (n, x)) eqn:El; [|by apply Hf].
  rewrite Hk2 by (intros y Hy; rewrite (Huniq n y x Hy Hx); by right).
  destruct x as [|target|]; try done. by apply Hlinks.
Qed.

(** The loop of phase 2 over the entries of a directory. *)
Definition kept (p : path) (s : pydict tree) : list (string * tree) -> list (string * tree) :=
  fix kept (l : list (string * tree)) : list (string * tree) :=
    match l with
    | [] => []
    | (n, t) :: l =>
        match prune env (p ++ [n]) t (dict_get n s) with
        | Some t => (n, t) :: kept l
        | None => kept l
        end
    end.

Lemma dict_get_kept p s l n :
  dict_wf l ->
  dict_get n (kept p s l) = match dict_get n l with
                            | Some t => prune env (p ++ [n]) t (dict_get n s)
                            | None => None
                            end.
Proof.
  revert n. induction l as [|[m t] l IH]; intros n Hnd; [done|]. inversion Hnd as [|? ? Hm Hl]; subst.
  cbn [kept dict_get]. fold (kept p s l).
  assert (Hnone : dict_get m (kept p s l) = None).
  { rewrite IH by done. destruct (dict_get m l) eqn:E; [|done]. by apply dict_get_Some_mem in E. }
  destruct (String.eqb_spec n m) as [->|Hne].
  - destruct (prune _ _ t _) eqn:E; cbn [dict_get]; [by rewrite String.eqb_refl|by rewrite Hnone].
  - destruct (prune _ _ t _) eqn:E; cbn [dict_get]; [|by apply IH].
    destruct (String.eqb_spec n m); [done|by apply IH].
Qed.

Lemma prune_none p t : prune env p t None = None.
Proof. destruct t; cbn; [done|by destruct (dst_isdir env p)|apply Hrm]. Qed.

Lemma prune_ok t : forall p src, tree_wf t -> covers src t ->
  exists t', prune env p t (Some src) = Some t' /\ forall q, kind_at t' q = kind_at src q.
Proof.
  induction t as [c st|l|st d IH] using tree_ind'; intros p src Hwf Hc;
    pose proof (Hc [] _ eq_refl) as H0; destruct src as [c' st'|l'|st' s]; cbn in H0; try done; simplify_eq.
  - eexists. split; [reflexivity|done].
  - cbn [prune]. destruct (dst_isdir env p); eexists; (split; [reflexivity|done]).
  - apply tree_wf_dir in Hwf as [Hd Hf]. eexists. split; [reflexivity|].
    change (forall q, kind_at (TDir st (kept p s d)) q = kind_at (TDir st' s) q).
    intros [|n q]; [done|]. cbn [kind_at tree_entries]. rewrite dict_get_kept by done.
    destruct (dict_get n d) as [t|] eqn:Et.
    + destruct (dict_get n s) as [x|] eqn:Ex; [|by rewrite prune_none].
      rewrite List.Forall_forall in IH. pose proof (IH _ (proj1 (list_elem_of_In _ _) (dict_get_In _ _ _ Et))) as IHt. cbn [snd] in IHt.
      destruct (IHt (p ++ [n]) x) as (t' & -> & Ht'); [by eapply wf_entry| |done].
      intros r k Hr. specialize (Hc (n :: r) k). cbn [kind_at tree_entries] in Hc. rewrite Et, Ex in Hc. by apply Hc.
    + destruct (dict_get n s) as [x|] eqn:Ex; [|done]. specialize (Hc [n] (kind_of x)). cbn [kind_at tree_entries] in Hc.
      rewrite Et, Ex in Hc. by specialize (Hc eq_refl).
Qed.

(** C27. A [copytree_identical] that returns has made the destination
    identical to the source: every path names a file of the same content, owner
    and mode, a link to the same target, or a directory, exactly when it does
    in the source; and nothing outside of the destination has changed.  This is
    so whatever was there before, as long as no link to a directory is in the
    place of a directory of the source, and as long as what has to be removed
    can be: [rmtree] is called with [ignore_errors]. *)
Theorem copytree_makes_identical src dst out t out' :
  tree_wf src -> match dst with Some x => tree_wf x | None => True end ->
  (forall q l, q <> [] -> kind_at src q = Some KDir -> dst ≫= (fun x => kind_at x q) = Some (KLink l) ->
   exists errno, leads env q = Raise errno) ->
  copytree_identical env src dst out = Ok (t, out') ->
  (forall p, kind_at t p = kind_at src p) /\ out' = out.
Proof.
  intros Hs Hd Hway H. unfold copytree_identical in H. destruct src as [| |src_st es]; [done|done|].
  set (dst1 := match dst with Some (TDir st d) => TDir st d | _ => TDir (mkFStat 0 0 (fst_mode src_st)) [] end) in H.
  assert (Hd1 : tree_wf dst1).
  { unfold dst1. destruct dst as [[| |]|]; try done; by apply tree_wf_dir; split; constructor. }
  assert (Hw1 : no_link_in_the_way env [] (TDir src_st es) (Some dst1)).
  { intros q l Hq Hl. destruct q as [|n q]; [unfold dst1 in Hl; by destruct dst as [[| |]|]|].
    apply (Hway (n :: q) l); [done|done|]. unfold dst1 in Hl. by destruct dst as [[| |]|]. }
  destruct (populate _ _ _ _ _) as [[t1 out1]|] eqn:E; [|done].
  destruct (populate_ok _ _ (Some dst1) _ t1 _ Hs Hd1 Hw1 E) as (Ht1 & Hc & ->).
  destruct (prune_ok t1 [] _ Ht1 Hc) as (t' & Hp & Hk). rewrite Hp in H. by injection H as <- <-.
Qed.

(** A link to a directory cannot be carried to a destination that has nothing
    of that name: the removal of what is not there raises. *)
Theorem missing_dir_link_not_copied n target st src_st d out :
  src_isdir env [n] = true -> dict_get n d = None ->
  copytree_identical env (TDir src_st [(n, TLink target)]) (Some (TDir st d)) out = Raise (os_exn ENOENT).
Proof. intros Hn Hd. unfold copytree_identical. rewrite populate_dir. cbn. rewrite Hn. unfold copy_dir_link. by rewrite Hd. Qed.

(** Where the destination has a link to a directory in the place of a directory
    of the source, the links of that directory are made where it leads, in the
    place of what is there, and then the link is replaced by an empty
    directory: the copy returns, and they are missing. *)
Theorem dir_links_lost_through_link m n target l x src_st sub_st st i d (out : elsewhere) :
  src_isdir env [m; n] = true -> leads env [m] = Ok i -> out !! i = Some d -> dict_get n d = Some x ->
  exists t, copytree_identical env (TDir src_st [(m, TDir sub_st [(n, TLink target)])]) (Some (TDir st [(m, TLink l)])) out =
            Ok (t, <[i:=dict_set n (TLink target) d]> out) /\
    kind_at (TDir src_st [(m, TDir sub_st [(n, TLink target)])]) [m; n] = Some (KLink target) /\ kind_at t [m; n] = None.
Proof.
  intros Hn Hl Hi Hx.
  assert (E : copy_dir_link env [m] target n d = Ok (dict_set n (TLink target) d)).
  { unfold copy_dir_link. rewrite Hx. destruct x; try done. by rewrite Hrm. }
  assert (Ep : populate env [m] (TDir sub_st [(n, TLink target)]) (Some (TLink l)) out =
    Ok (TDir sub_st [], <[i:=dict_set n (TLink target) d]> out)).
  { rewrite populate_dir. cbn [copy_dir_links app]. rewrite Hn, Hl, Hi. cbn [default from_option id]. rewrite E. cbn. by rewrite Hn. }
  assert (Er : populate env [] (TDir src_st [(m, TDir sub_st [(n, TLink target)])]) (Some (TDir st [(m, TLink l)])) out =
    Ok (TDir st [(m, TDir sub_st [])], <[i:=dict_set n (TLink target) d]> out)).
  { rewrite populate_dir. cbn [copy_dir_links copy_files]. unfold subdirs at 1. cbn [dict_get app]. rewrite String.eqb_refl, Ep.
    cbn [dict_set]. by rewrite String.eqb_refl. }
  unfold copytree_identical. rewrite Er. cbn. rewrite !String.eqb_refl. cbn. eexists. split_and!; [reflexivity|by rewrite ?String.eqb_refl|].
  cbn. by rewrite String.eqb_refl.
Qed.
End CopyProperties.

(** ** A concrete copy *)

(** No link leads to a directory. *)
Definition no_links_env : copy_env := mkCopyEnv (fun _ => false) (fun _ => false) (fun _ => Raise ENOENT) (fun _ _ => None).

Definition example_stat : fstat := mkFStat 0 0 420.
Definition example_src : tree :=
  TDir example_stat [("ecu_info.yaml", TFile "a" example_stat); ("cur", TLink "sub");
                     ("sub", TDir example_stat [("x", TFile "b" example_stat)])]%string.
Definition example_dst : tree :=
  TDir example_stat [("old", TFile "c" example_stat); ("cur", TLink "elsewhere");
                     ("ecu_info.yaml", TDir example_stat []); ("sub", TLink "old")]%string.
(** The link at [sub] of the destination leads to a file. *)
Definition example_env : copy_env :=
  mkCopyEnv (fun p => bool_decide (p = ["cur"%string]) || bool_decide (p = ["sub"; "cur"]%string)) (fun _ => false)
    (fun p => if bool_decide (p = ["cur"%string]) then Ok 0%nat else Raise ENOTDIR) (fun _ _ => None).

Lemma copytree_makes_identical_witness :
  exists t, copytree_identical example_env example_src (Some example_dst) ∅ = Ok (t, ∅) /\
            forall p, kind_at t p = kind_at example_src p.
Proof.
  destruct (copytree_identical example_env example_src (Some example_dst) ∅) as [[t out]|] eqn:E;
    [|vm_compute in E; discriminate].
  destruct (copytree_makes_identical example_env (fun _ _ => eq_refl) example_src (Some example_dst) ∅ t out) as [H ->]; [| | |exact E|].
  - cbn [tree_wf example_src example_dst snd]. split_and!; try exact I; apply (bool_decide_unpack (NoDup _)); vm_compute; exact I.
  - cbn [tree_wf example_src example_dst snd]. split_and!; try exact I; apply (bool_decide_unpack (NoDup _)); vm_compute; exact I.
  - intros q l Hq Hk _. exists ENOTDIR. unfold example_env, leads. case_bool_decide as Hc; [|reflexivity]. subst q. discriminate Hk.
  - exists t. split; [reflexivity|exact H].
Defined.

Lemma missing_dir_link_not_copied_witness :
  copytree_identical example_env (TDir example_stat [("cur"%string, TLink "sub")]) (Some (TDir example_stat [])) ∅
  = Raise (os_exn ENOENT).
Proof. apply missing_dir_link_not_copied; reflexivity. Defined.

Definition linked_env : copy_env := mkCopyEnv (src_isdir example_env) (fun _ => false) (fun _ => Ok 0%nat) (fun _ _ => None).

Lemma dir_links_lost_through_link_witness :
  exists t, copytree_identical linked_env
      (TDir example_stat [("sub", TDir example_stat [("cur", TLink "v2")])])%string
      (Some (TDir example_stat [("sub", TLink "/data")]))%string {[0%nat := [("cur"%string, TLink "v1")]]} =
    Ok (t, <[0%nat := [("cur"%string, TLink "v2")]]> {[0%nat := [("cur"%string, TLink "v1")]]}) /\ kind_at t ["sub"; "cur"]%string = None.
Proof.
  destruct (dir_links_lost_through_link linked_env (fun _ _ => eq_refl) "sub" "cur" "v2" "/data" (TLink "v1") example_stat example_stat example_stat
    0 [("cur"%string, TLink "v1")] {[0%nat := [("cur"%string, TLink "v1")]]}) as (t & Hr & _ & Hk); try reflexivity.
  exists t. split; [exact Hr|exact Hk].
Defined.
