(* ===== verification/OTAConfigFiles.v ===== *)
(** * The OTA config files of an ECU

    Models [src/src/otaclient/boot_control/_ota_config_files.py]: which of
    [ecu_info.yaml] and [proxy_info.yaml] of the OTA image are installed for
    the next boot, their installation into a [/boot/ota] directory (a tree of
    [CopyTree]), and the backup that undoes it, with the routine of
    [_grub_new.py] that installs them around the switch of the boot slot.
    What the YAML loaders accept, whether a file decodes as UTF-8 and where a
    link leads are inputs. *)

From stdpp Require Import base strings list option sets.
From Stdlib Require Import ZArith Ascii String Lia.
From S2P Require Import Prelude Errors FileSystem CopyTree.

Record OTAConfigFiles : Type := mkOTAConfigFiles {
  cfg_ecu_info : option string;
  cfg_proxy_info : option string;
}.

#[export] Instance eta_OTAConfigFiles : Eta OTAConfigFiles := fun r =>
  mkOTAConfigFiles (cfg_ecu_info r) (cfg_proxy_info r).

Definition ECU_INFO_FNAME : string := "ecu_info.yaml".
Definition PROXY_INFO_FNAME : string := "proxy_info.yaml".
Definition OTA_DPATH : path := ["boot"; "ota"]%string.
Definition no_config_files : OTAConfigFiles := mkOTAConfigFiles None None.

Definition iter_files (c : OTAConfigFiles) : list (string * string) :=
  match cfg_ecu_info c with Some t => [(ECU_INFO_FNAME, t)] | None => [] end ++
  match cfg_proxy_info c with Some t => [(PROXY_INFO_FNAME, t)] | None => [] end.

(** ** What the image's files are installed from *)

(** [os.path.normpath], component by component. *)
Definition norm_step (seen : path) (c : string) : path :=
  if bool_decide (c = "" \/ c = ".")%string then seen
  else if bool_decide (c = "..")%string then removelast seen
  else seen ++ [c].

(** [PurePosixPath(os.path.normpath(entry))], when it starts at [/]: two
    leading slashes are a root of their own. *)
Definition absolute_path (entry : string) : option path :=
  match entry with
  | String "/" (String "/" (String "/" r)) => Some (fold_left norm_step (py_split "/" r) [])
  | String "/" (String "/" _) => None
  | String "/" r => Some (fold_left norm_step (py_split "/" r) [])
  | _ => None
  end.

Definition is_persisted (fpath : path) (persist_entries : list string) : bool :=
  existsb (fun e => match absolute_path e with
                    | Some p => bool_decide (p `prefix_of` fpath)
                    | None => false
                    end) persist_entries.

Section Load.
Context (decodes : string -> bool).
(** [load_ecu_info], up to the id; [load_proxy_info]. *)
Context (load_ecu_info : string -> option string) (load_proxy_info : string -> bool).

Definition read_image_file (e : option tree) : option string :=
  match e with Some (TFile t _) => if decodes t then Some t else None | _ => None end.

Definition load_one (image_ota : option tree) (persist_entries : list string) (fname : string) : option string :=
  if is_persisted (OTA_DPATH ++ [fname]) persist_entries then None
  else read_image_file (dict_get fname (tree_entries image_ota)).

Definition load_ota_config_files_from_image (image_ota : option tree) (persist_entries : list string)
    (current_ecu_id : string) : OTAConfigFiles :=
  if tree_is_symlink image_ota then no_config_files
  else
    let ecu_info := load_one image_ota persist_entries ECU_INFO_FNAME in
    let proxy_info := load_one image_ota persist_entries PROXY_INFO_FNAME in
    let proxy_info :=
      match proxy_info with Some t => if load_proxy_info t then Some t else None | None => None end in
    match ecu_info with
    | None => mkOTAConfigFiles None proxy_info
    | Some t =>
        match load_ecu_info t with
        | None => mkOTAConfigFiles None proxy_info
        | Some id =>
            if String.eqb id current_ecu_id then mkOTAConfigFiles (Some t) proxy_info else no_config_files
        end
    end.
End Load.

(** ** Installing and restoring *)

Section Install.
(** Writing (or, for a backup, reading) this file fails. *)
Context (write_fails read_fails restore_fails : string -> bool).
(** The content of the file a link in the directory leads to. *)
Context (link_content : string -> option string).

Definition installed_stat : fstat := mkFStat 0 0 DEFAULT_FILE_MODE.

Definition entry_content (e : option tree) : option string :=
  match e with
  | Some (TFile t _) => Some t
  | Some (TLink l) => link_content l
  | _ => None
  end.

(** What a reader of [fname] in the directory sees. *)
Definition config_content (d : option tree) (fname : string) : option string :=
  entry_content (dict_get fname (tree_entries d)).

Definition put_entry (fname : string) (e : tree) (d : option tree) : option tree :=
  match d with Some (TDir st es) => Some (TDir st (dict_set fname e es)) | _ => d end.
Definition del_entry (fname : string) (d : option tree) : option tree :=
  match d with Some (TDir st es) => Some (TDir st (dict_del fname es)) | _ => d end.

(** Replacing what is at [fname] by a new file. *)
Definition replace_config (fails : string -> bool) (fname text : string) : PyM (option tree) pyexn unit :=
  d ← get;
  if fails fname then raise (os_exn EIO)
  else if is_directory (dict_get fname (tree_entries d)) then raise (os_exn EISDIR)
  else modify (put_entry fname (TFile text installed_stat)).

Fixpoint install_files (l : list (string * string)) : PyM (option tree) pyexn unit :=
  match l with
  | [] => mret tt
  | (fname, text) :: l => _ ← replace_config write_fails fname text; install_files l
  end.

Definition install_ota_config_files (c : OTAConfigFiles) : PyM (option tree) pyexn unit :=
  match iter_files c with
  | [] => mret tt
  | l =>
      d ← get;
      match d with
      | Some (TDir _ _) => install_files l
      | Some _ => raise (os_exn EEXIST)
      | None => _ ← modify (fun _ => Some (TDir (mkFStat 0 0 493) [])); install_files l
      end
  end.

Fixpoint backup_files (l : list (string * string)) (d : option tree) : result pyexn (pydict (option string)) :=
  match l with
  | [] => Ok []
  | (fname, _) :: l =>
      let content := config_content d fname in
      if bool_decide (is_Some content) && read_fails fname then Raise (os_exn EIO)
      else
        match backup_files l d with
        | Ok b => Ok ((fname, content) :: b)
        | Raise e => Raise e
        end
  end.
Definition backup_ota_config_files (c : OTAConfigFiles) (d : option tree) : result pyexn (pydict (option string)) :=
  backup_files (iter_files c) d.

Definition restore_one (b : string * option string) (d : option tree) : option tree :=
  let '(fname, content) := b in
  if restore_fails fname || is_directory (dict_get fname (tree_entries d)) then d
  else
    match content with
    | None => del_entry fname d
    | Some t => put_entry fname (TFile t installed_stat) d
    end.
Definition restore_ota_config_files (b : pydict (option string)) (d : option tree) : option tree :=
  fold_left (fun d x => restore_one x d) b d.

(** [_install_new_ota_config_files_and_switch_boot], around any switch of the
    boot slot. *)
Definition grub_new_module : string := "otaclient.boot_control._grub_new".

Definition on_ota_dir {P A} (m : PyM (option tree) pyexn A) : PyM (option tree * P) pyexn A := fun s =>
  let '(d, r) := m (fst s) in (d, snd s, r).
Definition on_platform {P A} (m : PyM P pyexn A) : PyM (option tree * P) pyexn A := fun s =>
  let '(p, r) := m (snd s) in (fst s, p, r).

Definition install_new_ota_config_files_and_switch_boot {P} (grub_reboot_to_standby : PyM P pyexn unit)
    (c : OTAConfigFiles) : PyM (option tree * P) pyexn unit :=
  d ← gets fst;
  backup ← from_result (backup_ota_config_files c d);
  try_except
    (_ ← raise_as_ota_error (BootCtl BootControlBootConfigUpdateFailed)
           "failed to install the OTA config files to the boot partition" grub_new_module
           (on_ota_dir (install_ota_config_files c));
     raise_as_ota_error (BootCtl BootControlSwitchBootFailed)
       "failed to configure grub-reboot to standby slot" grub_new_module
       (on_platform grub_reboot_to_standby))
    (fun e =>
       if negb (is_exception e) then raise e
       else
         _ ← modify (fun s => (match backup with [] => fst s | _ => restore_ota_config_files backup (fst s) end, snd s));
         raise e).

(** [preserve_ota_dir_and_install_config_files] *)
Definition preserve_ota_dir_and_install_config_files (cenv : copy_env)
    (active_ota standby_ota : option tree) (c : OTAConfigFiles) : result pyexn (option tree) :=
  match active_ota with
  | Some (TDir _ _ as src) =>
      match copytree_identical cenv src standby_ota ∅ with
      | Ok (t, _) =>
          match install_ota_config_files c (Some t) with
          | (d, Ok _) => Ok d
          | (_, Raise e) => Raise e
          end
      | Raise e => Raise e
      end
  | _ => Ok standby_ota
  end.
End Install.

(** ** Which files are installed *)

Section LoadProperties.
Context (decodes : string -> bool).
Context (load_ecu_info : string -> option string) (load_proxy_info : string -> bool).

(** Only config files that are meant for this ECU are taken from an image:
    a loaded file is a regular, decodable file of the image that no persist
    entry covers and that its loader accepts; the loaded [ecu_info.yaml] has
    the running ECU's id; and when the image's [ecu_info.yaml] is for another
    ECU, neither file is taken. *)
Theorem loaded_config_is_for_this_ecu image persists id :
  let c := load_ota_config_files_from_image decodes load_ecu_info load_proxy_info image persists id in
  (forall t, cfg_ecu_info c = Some t ->
     load_ecu_info t = Some id /\ load_one decodes image persists ECU_INFO_FNAME = Some t) /\
  (forall t, cfg_proxy_info c = Some t ->
     load_proxy_info t = true /\ load_one decodes image persists PROXY_INFO_FNAME = Some t) /\
  (forall t id', load_one decodes image persists ECU_INFO_FNAME = Some t -> load_ecu_info t = Some id' ->
     id' <> id -> c = no_config_files) /\
  (forall fname t, load_one decodes image persists fname = Some t ->
     is_persisted (OTA_DPATH ++ [fname]) persists = false /\ decodes t = true /\
     exists st, dict_get fname (tree_entries image) = Some (TFile t st)).
Proof.
  cbn zeta. unfold load_ota_config_files_from_image.
  destruct (load_one decodes image persists ECU_INFO_FNAME) as [e|] eqn:Ee;
    destruct (load_one decodes image persists PROXY_INFO_FNAME) as [q|] eqn:Eq.
  all: destruct (tree_is_symlink image); split_and!; try done.
  all: try (intros fname t; unfold load_one; destruct (is_persisted _ _); [done|];
            destruct (dict_get fname _) as [[| |]|]; cbn; try done;
            destruct (decodes _) eqn:?; intros; simplify_eq; eauto).
  all: repeat match goal with
       | |- context [load_ecu_info ?x] => destruct (load_ecu_info x) eqn:?
       | |- context [load_proxy_info ?x] => destruct (load_proxy_info x) eqn:?
       | |- context [String.eqb ?x ?y] => destruct (String.eqb_spec x y)
       end; intros; simplify_eq/=; eauto.
Qed.
End LoadProperties.

(** ** A failed switch leaves the config files as they were *)

Section RestoreProperties.
Context (write_fails read_fails restore_fails : string -> bool).
Context (link_content : string -> option string).

Abbreviation content := (config_content link_content).

Lemma content_put fname t d n :
  is_directory d = true ->
  content (put_entry fname (TFile t installed_stat) d) n = if String.eqb fname n then Some t else content d n.
Proof.
  destruct d as [[| |st es]|]; try done. intros _. unfold config_content. cbn.
  rewrite dict_get_set. by destruct (String.eqb fname n).
Qed.

Lemma content_del fname d n :
  content (del_entry fname d) n = if String.eqb fname n then None else content d n.
Proof.
  destruct d as [[| |st es]|]; unfold config_content; cbn; try by destruct (String.eqb fname n).
  rewrite dict_get_del. by destruct (String.eqb fname n).
Qed.

(** The files installed by a run of [install_files], whether it ends or not. *)
Lemma install_files_content l d d' r n :
  is_directory d = true -> install_files write_fails l d = (d', r) ->
  is_directory d' = true /\
  (n ∉ map fst l -> content d' n = content d n) /\
  is_directory (dict_get n (tree_entries d')) = is_directory (dict_get n (tree_entries d)) /\
  (r = Ok tt -> NoDup (map fst l) -> forall t, (n, t) ∈ l -> content d' n = Some t).
Proof.
  revert d. induction l as [|[f t] l IH]; intros d Hd H.
  { injection H as <- <-. split_and!; [done|done|done|set_solver]. }
  cbn [install_files] in H. unfold mbind, pym_bind in H. unfold replace_config in H.
  unfold mbind, pym_bind, get in H. destruct (write_fails f); [injection H as <- <-; split_and!; done|].
  destruct (is_directory (dict_get f (tree_entries d))) eqn:Ef; [injection H as <- <-; split_and!; done|].
  cbn [modify] in H.
  assert (Hd1 : is_directory (put_entry f (TFile t installed_stat) d) = true) by (by destruct d as [[]|]).
  destruct (IH _ Hd1 H) as (H1 & H2 & H3 & H4). split_and!; [done| | |].
  - intros Hn. rewrite H2 by set_solver. rewrite content_put by done.
    destruct (String.eqb_spec f n); [set_solver|done].
  - rewrite H3. destruct d as [[| |st es]|]; try done. cbn in *. rewrite dict_get_set.
    destruct (String.eqb_spec f n) as [<-|]; [by rewrite Ef|done].
  - intros Hr Hnd u Hu. inversion Hnd as [|? ? Hf Hl]; subst. apply elem_of_cons in Hu as [Hu|Hu]; [|by apply H4].
    simplify_eq. rewrite H2 by done. rewrite content_put by done. by rewrite String.eqb_refl.
Qed.

Lemma restore_content b d n :
  is_directory d = true -> NoDup (map fst b) -> (forall f, restore_fails f = false) ->
  (forall f, is_directory (dict_get f (tree_entries d)) = true -> dict_get f b <> Some None -> dict_get f b = None) ->
  content (restore_ota_config_files restore_fails b d) n =
  match dict_get n b with Some c => c | None => content d n end.
Proof.
  unfold restore_ota_config_files. revert d. induction b as [|[f c] b IH]; intros d Hd Hnd Hok Hdir; [done|].
  inversion Hnd as [|? ? Hf Hb]; subst. cbn [fold_left map fst].
  assert (Hfb : dict_get f b = None) by (by apply dict_get_None).
  set (d1 := restore_one restore_fails (f, c) d).
  assert (H1 : is_directory d1 = true /\ forall m, content d1 m = if String.eqb f m then c else content d m).
  { unfold d1, restore_one. rewrite Hok. cbn [orb].
    destruct (is_directory (dict_get f (tree_entries d))) eqn:Ef.
    - split; [done|]. intros m. destruct (String.eqb_spec f m) as [<-|]; [|done].
      specialize (Hdir f Ef). cbn [dict_get] in Hdir. rewrite String.eqb_refl in Hdir.
      destruct c as [c|]; [by specialize (Hdir ltac:(done))|].
      unfold config_content. by destruct (dict_get f (tree_entries d)) as [[]|].
    - destruct c as [c|]; (split; [by destruct d as [[]|]|]); intros m; [by apply content_put|apply content_del]. }
  assert (H2 : forall m, is_directory (dict_get m (tree_entries d1)) = true -> is_directory (dict_get m (tree_entries d)) = true).
  { intros m. unfold d1, restore_one. destruct (_ || _); [done|]. destruct d as [[| |st es]|]; try done.
    destruct c; cbn; rewrite ?dict_get_set, ?dict_get_del; by destruct (String.eqb f m). }
  destruct H1 as [H1 H3]. rewrite IH; [|done|done|done|].
  - cbn [dict_get]. destruct (String.eqb_spec n f) as [->|Hne].
    + rewrite Hfb, H3. by rewrite String.eqb_refl.
    + destruct (dict_get n b); [done|]. rewrite H3. by destruct (String.eqb_spec f n).
  - intros m Hm Hne. specialize (Hdir m (H2 m Hm)). cbn [dict_get] in Hdir.
    destruct (String.eqb_spec m f) as [E|E]; [by rewrite E|by apply Hdir].
Qed.

Lemma backup_files_content l d b n :
  backup_files read_fails link_content l d = Ok b ->
  map fst b = map fst l /\ (n ∈ map fst l -> dict_get n b = Some (content d n)).
Proof.
  revert b. induction l as [|[f t] l IH]; intros b H; cbn [backup_files] in H; [injection H as <-; split; [done|set_solver]|].
  destruct (_ && _); [done|]. destruct (backup_files _ _ _ _) as [b1|] eqn:E; [|done]. injection H as <-.
  destruct (IH b1 eq_refl) as [H1 H2]. split; [cbn; by rewrite H1|]. intros Hn. cbn [dict_get].
  destruct (String.eqb_spec n f) as [->|]; [done|]. apply H2. set_solver.
Qed.

Lemma iter_files_NoDup c : NoDup (map fst (iter_files c)).
Proof.
  unfold iter_files. destruct (cfg_ecu_info c), (cfg_proxy_info c); cbn;
    repeat constructor; rewrite ?list_elem_of_singleton; try set_solver; done.
Qed.

(** What [/boot/ota] can be: missing, or a directory. *)
Definition dir_or_missing (d : option tree) : Prop := d = None \/ is_directory d = true.

Lemma install_content c d d' r n :
  dir_or_missing d -> install_ota_config_files write_fails c d = (d', r) ->
  (iter_files c = [] /\ d' = d /\ r = Ok tt \/ is_directory d' = true) /\
  (n ∉ map fst (iter_files c) -> content d' n = content d n) /\
  is_directory (dict_get n (tree_entries d')) = is_directory (dict_get n (tree_entries d)) /\
  (r = Ok tt -> forall t, (n, t) ∈ iter_files c -> content d' n = Some t).
Proof.
  intros Hd H. pose proof (iter_files_NoDup c) as Hnd. unfold install_ota_config_files in H.
  destruct (iter_files c) as [|x l] eqn:El.
  { injection H as <- <-. split_and!; [by left|done|done|set_solver]. }
  unfold mbind, pym_bind, get in H. destruct Hd as [-> | Hd].
  - cbn [modify] in H. apply (install_files_content _ _ _ _ n) in H as (H1 & H2 & H3 & H4); [|done].
    split_and!; [by right|done|done|intros Hr; by apply H4].
  - destruct d as [[| |st es]|]; try done.
    apply (install_files_content _ _ _ _ n) in H as (H1 & H2 & H3 & H4); [|done].
    split_and!; [by right|done|done|intros Hr; by apply H4].
Qed.

Lemma raise_as_ota_error_run {S A} cls msg m (body : PyM S pyexn A) s s' r :
  raise_as_ota_error cls msg m body s = (s', r) ->
  exists r0, body s = (s', r0) /\ (forall a, r = Ok a <-> r0 = Ok a).
Proof.
  unfold raise_as_ota_error, try_except. destruct (body s) as [s1 [a|e]]; intros H.
  - injection H as <- <-. by exists (Ok a).
  - exists (Raise e). destruct (_ || _); injection H as <- <-; by split.
Qed.

(** C19. Installing the new config files and switching the boot slot is all or
    nothing for the readers of [/boot/ota]: when either fails with an
    exception every file there reads as before (as long as the restoring
    itself can write), and when the routine returns the files of the image are
    read and all others are unchanged. *)
Theorem config_install_all_or_nothing {P} (switch : PyM P pyexn unit) c d p d' p' r :
  dir_or_missing d -> (forall f, restore_fails f = false) ->
  install_new_ota_config_files_and_switch_boot write_fails read_fails restore_fails link_content switch c (d, p)
    = ((d', p'), r) ->
  match r with
  | Raise e => is_exception e = true -> forall n, content d' n = content d n
  | Ok _ => forall n, content d' n = match dict_get n (iter_files c) with Some t => Some t | None => content d n end
  end.
Proof.
  intros Hd Hok H. unfold install_new_ota_config_files_and_switch_boot, mbind, pym_bind, gets, from_result in H.
  cbn [fst] in H. destruct (backup_ota_config_files _ _ c d) as [b|e] eqn:Eb; [|injection H as <- <- <-; done].
  pose proof (fun n => backup_files_content _ _ _ n Eb) as Hb.
  unfold try_except in H.
  destruct (raise_as_ota_error (BootCtl BootControlBootConfigUpdateFailed) _ _ _ (d, p)) as [[d1 p1] r1] eqn:E1.
  apply raise_as_ota_error_run in E1 as (r0 & E1 & Hr01). unfold on_ota_dir in E1. cbn [fst snd] in E1.
  destruct (install_ota_config_files write_fails c d) as [d2 r2] eqn:Ei. injection E1 as -> <- ->.
  pose proof (fun n => install_content c d d1 r0 n Hd Ei) as Hi.
  assert (Hrestored : forall n, content (match b with [] => d1 | _ => restore_ota_config_files restore_fails b d1 end) n = content d n).
  { intros n. destruct (Hb n) as [Hkeys Hn]. destruct (Hi n) as (Hdir1 & Hkeep & _ & _).
    destruct Hdir1 as [(E & -> & _)|Hdir1]; [rewrite E in Hkeys; by destruct b|].
    assert (Hall : content (restore_ota_config_files restore_fails b d1) n = content d n).
    { rewrite restore_content; [|done|rewrite Hkeys; apply iter_files_NoDup|done|].
      - destruct (dict_get n b) as [c0|] eqn:En.
        + apply dict_get_Some_mem in En as Hm. unfold dict_keys in Hm. rewrite Hkeys in Hm. by specialize (Hn Hm); simplify_eq.
        + apply Hkeep. rewrite <- Hkeys. by apply dict_get_None.
      - intros f Hf Hne. destruct (dict_get f b) as [c0|] eqn:Ef; [|done]. exfalso. apply Hne. f_equal.
        destruct (Hb f) as [_ Hbf]. apply dict_get_Some_mem in Ef as Hm. unfold dict_keys in Hm. rewrite Hkeys in Hm.
        rewrite (Hbf Hm) in Ef. injection Ef as <-.
        destruct (Hi f) as (_ & _ & Hdf & _). rewrite Hf in Hdf. unfold config_content.
        by destruct (dict_get f (tree_entries d)) as [[]|]. }
    destruct b; [by destruct (iter_files c)|done]. }
  destruct r1 as [[]|e1].
  - assert (r0 = Ok tt) as -> by (by apply Hr01).
    destruct (raise_as_ota_error (BootCtl BootControlSwitchBootFailed) _ _ _ _) as [[d2' p2] r2] eqn:E2.
    apply raise_as_ota_error_run in E2 as (r3 & E2 & Hr23). unfold on_platform in E2. cbn [fst snd] in E2.
    destruct (switch p) as [p3 r4] eqn:Es. injection E2 as <- <- <-. destruct r2 as [[]|e2].
    + injection H as <- <- <-. intros n. destruct (Hi n) as (_ & Hkeep & _ & Hinst).
      destruct (dict_get n (iter_files c)) as [t|] eqn:En.
      * apply Hinst; [done|]. by apply dict_get_In.
      * apply Hkeep. by apply dict_get_None.
    + destruct (is_exception e2) eqn:Ex; cbn [negb] in H; injection H as <- <- <-; [by intros _ n|congruence].
  - destruct (is_exception e1) eqn:Ex; cbn [negb] in H; injection H as <- <- <-; [by intros _ n|congruence].
Qed.
End RestoreProperties.

(** ** Concrete runs *)

Definition example_boot_ota : option tree :=
  Some (TDir example_stat [(ECU_INFO_FNAME, TFile "old" example_stat); ("other"%string, TFile "x" example_stat)]).
Definition example_new_files : OTAConfigFiles := mkOTAConfigFiles (Some "new"%string) (Some "proxy"%string).
Definition example_switch_fails : PyM unit pyexn unit := raise (os_exn EIO).

Lemma config_install_all_or_nothing_witness :
  exists d' e, install_new_ota_config_files_and_switch_boot (fun _ => false) (fun _ => false) (fun _ => false)
                 (fun _ => None) example_switch_fails example_new_files (example_boot_ota, tt) = ((d', tt), Raise e) /\
  forall n, config_content (fun _ => None) d' n = config_content (fun _ => None) example_boot_ota n.
Proof.
  destruct (install_new_ota_config_files_and_switch_boot (fun _ => false) (fun _ => false) (fun _ => false)
    (fun _ => None) example_switch_fails example_new_files (example_boot_ota, tt)) as [[d' []] r] eqn:E.
  destruct r as [u|e]; [vm_compute in E; discriminate|]. exists d', e. split; [done|].
  apply (config_install_all_or_nothing (fun _ => false) (fun _ => false) (fun _ => false) (fun _ => None)
    example_switch_fails example_new_files example_boot_ota tt d' tt (Raise e) (or_intror eq_refl) (fun _ => eq_refl) E).
  vm_compute in E. injection E as _ <-. reflexivity.
Defined.
