(* ===== verification/TextLines.v ===== *)
(** * Lines and fields of text files

    The [str] methods the sources read configuration texts with
    ([splitlines], [find], [split] at white space), and the lemmas that undo
    the joining of lines and fields.  Nothing here belongs to one component. *)

From stdpp Require Import base strings list option.
From Stdlib Require Import ZArith Ascii String Lia.
From S2P Require Import Prelude.

(** The characters [str.splitlines] ends a line at. *)
Definition is_linebreak (a : ascii) : bool :=
  let n := N_of_ascii a in ((10 <=? n) && (n <=? 13) || (28 <=? n) && (n <=? 30) || (n =? 133))%N.

Fixpoint splitlines (s : string) : list string :=
  match s with
  | EmptyString => []
  | String "013" (String "010" r) => EmptyString :: splitlines r
  | String a r =>
      if is_linebreak a then EmptyString :: splitlines r
      else match splitlines r with
           | [] => [String a EmptyString]
           | l :: ls => String a l :: ls
           end
  end.

(** [s.find(sub)], [None] for -1. *)
Fixpoint str_find (sub s : string) : option nat :=
  if startswith sub s then Some O
  else match s with EmptyString => None | String _ s => S <$> str_find sub s end.

(** [s.split()]: the runs of characters that are no white space. *)
Fixpoint words_go (cur s : string) : list string :=
  match s with
  | EmptyString => if str_truthy cur then [cur] else []
  | String a s =>
      if is_space a then (if str_truthy cur then cur :: words_go EmptyString s else words_go EmptyString s)
      else words_go (cur +:+ String a EmptyString)%string s
  end.
Definition words (s : string) : list string := words_go EmptyString s.

Definition newline : string := String "010" EmptyString.

(** [sep.join(l)] *)
Fixpoint str_join (sep : string) (l : list string) : string :=
  match l with
  | [] => EmptyString
  | [x] => x
  | x :: l => (x +:+ sep +:+ str_join sep l)%string
  end.

(** Every line of [l], each ended by a newline. *)
Definition unlines (l : list string) : string := str_join newline (l ++ [EmptyString]).

(** ** Prefixes *)

Lemma str_drop_app s t : str_drop (String.length s) (s +:+ t)%string = t.
Proof.
  induction s as [|a s IH]; [by destruct t|].
  change (String a s +:+ t)%string with (String a (s +:+ t))%string. by cbn.
Qed.

Lemma str_take_app s t : str_take (String.length s) (s +:+ t)%string = s.
Proof.
  induction s as [|a s IH]; [by destruct t|].
  change (String a s +:+ t)%string with (String a (s +:+ t))%string. cbn. by rewrite IH.
Qed.

Lemma str_take_all s : str_take (String.length s) s = s.
Proof. induction s as [|a s IH]; [done|]. cbn. by rewrite IH. Qed.

Lemma startswith_app s t : startswith s (s +:+ t)%string = true.
Proof.
  induction s as [|a s IH]; [by destruct t|].
  change (String a s +:+ t)%string with (String a (s +:+ t))%string. cbn. by rewrite Ascii.eqb_refl.
Qed.

(** ** Lines *)

Definition one_line (s : string) : Prop := str_forallb (fun a => negb (is_linebreak a)) s = true.

Lemma linebreak_space a : is_linebreak a = true -> is_space a = true.
Proof. unfold is_linebreak, is_space. rewrite !orb_true_iff, !andb_true_iff, !N.leb_le, !N.eqb_eq. lia. Qed.

Lemma one_line_app s t : one_line (s +:+ t)%string <-> one_line s /\ one_line t.
Proof. unfold one_line. by rewrite str_forallb_app, andb_true_iff. Qed.

Lemma splitlines_char a r :
  is_linebreak a = false ->
  splitlines (String a r) = match splitlines r with [] => [String a EmptyString] | l :: ls => String a l :: ls end.
Proof.
  intros Ha. cbn [splitlines]. rewrite Ha. destruct a as [[] [] [] [] [] [] [] []]; try reflexivity. discriminate Ha.
Qed.

Lemma splitlines_cons line s :
  one_line line -> splitlines (line +:+ newline +:+ s)%string = line :: splitlines s.
Proof.
  induction line as [|a line IH]; intros H; [done|].
  apply andb_true_iff in H as [Ha%negb_true_iff Hl].
  change (String a line +:+ newline +:+ s)%string with (String a (line +:+ newline +:+ s))%string.
  rewrite splitlines_char by done. by rewrite IH.
Qed.

Lemma splitlines_one line : one_line line -> line <> EmptyString -> splitlines line = [line].
Proof.
  induction line as [|a line IH]; intros H Hne; [done|].
  apply andb_true_iff in H as [Ha%negb_true_iff Hl]. rewrite splitlines_char by done.
  destruct line as [|b line]; [done|]. by rewrite IH.
Qed.

Lemma unlines_cons x l : unlines (x :: l) = (x +:+ newline +:+ unlines l)%string.
Proof. unfold unlines. cbn [app]. by destruct l. Qed.

Lemma unlines_snoc l x : unlines (l ++ [x]) = (unlines l +:+ x +:+ newline)%string.
Proof.
  induction l as [|y l IH]; [by rewrite app_nil_l, unlines_cons|].
  change ((y :: l) ++ [x]) with (y :: (l ++ [x])). by rewrite !unlines_cons, IH, !str_app_assoc.
Qed.

Lemma splitlines_unlines l : Forall one_line l -> splitlines (unlines l) = l.
Proof.
  induction 1 as [|x l Hx Hl IH]; [done|]. by rewrite unlines_cons, splitlines_cons, IH.
Qed.

(** Lines of a text have no line break. *)
Lemma splitlines_one_line s : Forall one_line (splitlines s).
Proof.
  assert (H : forall n s, (String.length s <= n)%nat -> Forall one_line (splitlines s)).
  { clear s. induction n as [|n IH]; intros [|a s] Hn; cbn in Hn; try lia; [constructor..|].
    destruct (is_linebreak a) eqn:Ea.
    - assert (Hc : splitlines (String a s) = EmptyString :: splitlines s \/
                   exists r, s = String "010" r /\ splitlines (String a s) = EmptyString :: splitlines r).
      { cbn [splitlines]. rewrite Ea.
        destruct a as [[] [] [] [] [] [] [] []]; try (by left); try discriminate Ea.
        destruct s as [|b r]; [by left|]. destruct b as [[] [] [] [] [] [] [] []]; try (by left). right. eauto. }
      destruct Hc as [-> | (r & -> & ->)]; constructor; try done; apply IH; cbn in Hn; lia.
    - rewrite splitlines_char by done. specialize (IH s ltac:(lia)).
      destruct (splitlines s) as [|l ls]; [repeat constructor; unfold one_line; cbn; by rewrite Ea|].
      inversion IH as [|? ? Hl Hls]; subst. constructor; [|done]. unfold one_line in *. cbn. by rewrite Ea, Hl. }
  by apply (H (String.length s)).
Qed.

(** ** Finding a line *)

Lemma startswith_line line s r :
  no_char "010" line = true ->
  startswith (line +:+ newline)%string (s +:+ newline +:+ r)%string =
  startswith (line +:+ newline)%string (s +:+ newline)%string.
Proof.
  revert s. induction line as [|a line IH]; intros s H; [by destruct s|].
  apply andb_true_iff in H as [Ha%negb_true_iff Hl].
  change (String a line +:+ newline)%string with (String a (line +:+ newline))%string.
  destruct s as [|b s].
  - change (EmptyString +:+ newline +:+ r)%string with (String "010" r).
    change (EmptyString +:+ newline)%string with (String "010" EmptyString). cbn [startswith]. by rewrite Ha.
  - change (String b s +:+ newline +:+ r)%string with (String b (s +:+ newline +:+ r))%string.
    change (String b s +:+ newline)%string with (String b (s +:+ newline))%string.
    cbn [startswith]. by rewrite IH.
Qed.

Lemma find_line line s r :
  no_char "010" line = true ->
  str_find (line +:+ newline)%string (s +:+ newline)%string = None ->
  str_find (line +:+ newline)%string (s +:+ newline +:+ r)%string =
  (fun n => String.length s + 1 + n)%nat <$> str_find (line +:+ newline)%string r.
Proof.
  intros Hl. induction s as [|b s IH]; intros H.
  - change (EmptyString +:+ newline +:+ r)%string with (String "010" r). change (EmptyString +:+ newline)%string with newline in H.
    pose proof (startswith_line line EmptyString r Hl) as Hs.
    change (EmptyString +:+ newline +:+ r)%string with (String "010" r) in Hs. change (EmptyString +:+ newline)%string with newline in Hs.
    cbn [str_find] in *. unfold newline at 2 in H. cbn [str_find] in H. fold newline in H. rewrite Hs.
    destruct (startswith (line +:+ newline) newline); [done|]. by destruct (str_find _ r).
  - pose proof (startswith_line line (String b s) r Hl) as Hs.
    change (String b s +:+ newline +:+ r)%string with (String b (s +:+ newline +:+ r))%string in *.
    change (String b s +:+ newline)%string with (String b (s +:+ newline))%string in *.
    cbn [str_find] in *. rewrite Hs. destruct (startswith _ (String b (s +:+ newline))); [done|].
    destruct (str_find _ (s +:+ newline)) eqn:E; [done|]. rewrite IH by done. by destruct (str_find _ r).
Qed.

Lemma find_here sub r : str_find sub (sub +:+ r)%string = Some O.
Proof.
  assert (H : startswith sub (sub +:+ r)%string = true).
  { induction sub as [|a sub IH]; [by destruct r|].
    change (String a sub +:+ r)%string with (String a (sub +:+ r))%string. cbn. by rewrite Ascii.eqb_refl. }
  destruct (sub +:+ r)%string; cbn [str_find]; by rewrite H.
Qed.

(** ** Fields *)

Definition is_field (s : string) : Prop := str_forallb (fun a => negb (is_space a)) s = true /\ s <> EmptyString.

Lemma words_go_field cur f sep s :
  str_forallb (fun a => negb (is_space a)) f = true -> is_space sep = true ->
  words_go cur (f +:+ String sep s)%string =
  if str_truthy (cur +:+ f)%string then (cur +:+ f)%string :: words_go EmptyString s else words_go EmptyString s.
Proof.
  revert cur. induction f as [|a f IH]; intros cur Hf Hs.
  - change (EmptyString +:+ String sep s)%string with (String sep s). cbn [words_go]. by rewrite Hs, str_app_nil_r.
  - apply andb_true_iff in Hf as [Ha%negb_true_iff Hf].
    change (String a f +:+ String sep s)%string with (String a (f +:+ String sep s))%string.
    cbn [words_go]. rewrite Ha, IH by done. by rewrite str_app_assoc.
Qed.

Lemma words_go_last cur f :
  str_forallb (fun a => negb (is_space a)) f = true ->
  words_go cur f = if str_truthy (cur +:+ f)%string then [(cur +:+ f)%string] else [].
Proof.
  revert cur. induction f as [|a f IH]; intros cur Hf; [by rewrite str_app_nil_r|].
  apply andb_true_iff in Hf as [Ha%negb_true_iff Hf]. cbn [words_go]. rewrite Ha, IH by done. by rewrite str_app_assoc.
Qed.

Lemma words_join sep l :
  is_space sep = true -> Forall is_field l -> words (str_join (String sep EmptyString) l) = l.
Proof.
  intros Hs. unfold words. induction 1 as [|x l [Hx Hne] Hl IH]; [done|]. destruct l as [|y l].
  - cbn [str_join]. rewrite words_go_last by done. by destruct x.
  - change (str_join (String sep EmptyString) (x :: y :: l))
      with (x +:+ String sep (str_join (String sep EmptyString) (y :: l)))%string.
    rewrite words_go_field by done. destruct x as [|a x]; [done|]. change (EmptyString +:+ String a x)%string with (String a x).
    cbn [str_truthy]. by rewrite IH.
Qed.

Lemma words_fields s : Forall is_field (words s).
Proof.
  unfold words. assert (H : forall cur, str_forallb (fun a => negb (is_space a)) cur = true -> Forall is_field (words_go cur s)); [|by apply H].
  induction s as [|a s IH]; intros cur Hc; cbn [words_go].
  - destruct cur as [|b cur]; [constructor|]. repeat constructor; [done|done].
  - destruct (is_space a) eqn:Ea.
    + destruct cur as [|b cur]; cbn [str_truthy]; [by apply IH|]. constructor; [by split|by apply IH].
    + apply IH. rewrite str_forallb_app, Hc. cbn. by rewrite Ea.
Qed.

Lemma field_one_line s : is_field s -> one_line s.
Proof.
  intros [H _]. revert H. apply str_forallb_impl. intros a. rewrite !negb_true_iff. intros Ha.
  destruct (is_linebreak a) eqn:E; [|done]. by rewrite (linebreak_space a E) in Ha.
Qed.

(** ** Stripping *)

Lemma length_lstrip_by p s : (String.length (lstrip_by p s) <= String.length s)%nat.
Proof. induction s as [|b s IH]; [done|]. cbn. destruct (p b); cbn; lia. Qed.

Lemma length_rstrip_by p s : (String.length (rstrip_by p s) <= String.length s)%nat.
Proof.
  induction s as [|b s IH]; [done|]. cbn. destruct (rstrip_by p s); [destruct (p b)|]; cbn in *; lia.
Qed.

Lemma strip_head a s : strip (String a s) = String a s -> is_space a = false.
Proof.
  intros H. destruct (is_space a) eqn:E; [|done]. unfold strip in H. cbn [lstrip_by] in H. rewrite E in H.
  pose proof (length_rstrip_by is_space (lstrip_by is_space s)) as H1. pose proof (length_lstrip_by is_space s) as H2.
  rewrite H in H1. cbn in H1. lia.
Qed.

Lemma strip_no_space s : str_forallb (fun a => negb (is_space a)) s = true -> strip s = s.
Proof.
  intros H. unfold strip. rewrite lstrip_by_id; [by apply rstrip_by_none|]. destruct s; [done|].
  by apply andb_true_iff in H as [H%negb_true_iff _].
Qed.

Lemma strip_idemp s : strip (strip s) = strip s.
Proof.
  unfold strip. assert (H : lstrip_by is_space (rstrip_by is_space (lstrip_by is_space s)) = rstrip_by is_space (lstrip_by is_space s)).
  { destruct (lstrip_by is_space s) as [|a t] eqn:E; [done|].
    assert (Ha : is_space a = false).
    { clear -E. induction s as [|b s IH]; [done|]. cbn in E. destruct (is_space b) eqn:Eb; [by apply IH|]. by injection E as <- _. }
    cbn [rstrip_by]. destruct (rstrip_by is_space t); rewrite ?Ha; cbn; by rewrite ?Ha. }
  by rewrite H, rstrip_by_idemp.
Qed.

Lemma strip_keeps_head a s : is_space a = false -> exists t, strip (String a s) = String a t.
Proof.
  intros Ha. unfold strip. cbn [lstrip_by]. rewrite Ha. cbn [rstrip_by].
  destruct (rstrip_by is_space s); rewrite ?Ha; eauto.
Qed.

Lemma strip_line_end s : strip (s +:+ newline)%string = strip s.
Proof.
  unfold strip. destruct (lstrip_by is_space s) as [|b t] eqn:E.
  - assert (H : lstrip_by is_space (s +:+ newline)%string = EmptyString).
    { clear -E. induction s as [|a s IH]; [done|].
      change (String a s +:+ newline)%string with (String a (s +:+ newline))%string. cbn [lstrip_by] in *.
      destruct (is_space a); [by apply IH|done]. }
    by rewrite H.
  - assert (H : lstrip_by is_space (s +:+ newline)%string = (String b t +:+ newline)%string).
    { clear -E. induction s as [|a s IH]; [done|].
      change (String a s +:+ newline)%string with (String a (s +:+ newline))%string. cbn [lstrip_by] in *.
      destruct (is_space a); [by apply IH|]. by injection E as -> ->. }
    rewrite H. apply rstrip_by_snoc. done.
Qed.
