(* ===== verification/GrubCfg.v ===== *)
(** * The texts of the GRUB boot controller

    Models the text processing of
    [src/src/otaclient/boot_control/_grub_common.py] and [_grub_new.py]: the
    managed [grub.cfg] with its footer and checksum, the state it is found in
    at start-up, the slot ids, [/etc/fstab], [/etc/default/grub] and the menu
    entries taken from the output of [grub-mkconfig].  Hash functions and the
    parser of version strings are parameters. *)

From stdpp Require Import base strings list option sets.
From Stdlib Require Import ZArith Ascii String Lia.
From S2P Require Import Prelude TextLines CertStore.

(** ** The managed [grub.cfg] *)

Definition OTA_MANAGED_CFG_HEADER : string :=
  ("# OTAClient managed configuration file, DO NOT EDIT!" +:+ newline +:+
   "# Manual edits to this file will NOT be preserved across OTA!" +:+ newline)%string.
Definition footer_head_line : string := "# ------ OTA managed metadata ------ #".
Definition footer_tail_line : string := "# ------ End of OTA managed metadata ------ #".
Definition FOOTER_HEAD : string := (footer_head_line +:+ newline)%string.
Definition FOOTER_TAIL : string := (footer_tail_line +:+ newline)%string.

Record OTAManagedCfg : Type := mkOTAManagedCfg {
  mc_raw_contents : string;
  mc_grub_version : string;
  mc_checksum : string;
  mc_otaclient_version : string;
}.

Section ManagedCfg.
(** [hashlib.new(algorithm, text).hexdigest()], for the algorithms there are. *)
Context (hash_new : string -> option (string -> string)).

Definition sha256 (text : string) : string :=
  match hash_new "sha256" with Some h => h text | None => EmptyString end.

(** [OTAManagedCfg(...)] with [__post_init__]. *)
Definition new_OTAManagedCfg (raw_contents grub_version otaclient_version : string) : OTAManagedCfg :=
  let raw := strip raw_contents in
  mkOTAManagedCfg raw grub_version ("sha256:" +:+ sha256 raw)%string otaclient_version.

Fixpoint parse_footer (lines : list string) (res : pydict string) : option (pydict string) :=
  match lines with
  | [] => Some res
  | line :: lines =>
      if startswith "# ------" line then parse_footer lines res
      else
        let line := strip line in
        if negb (startswith "#" line) then None
        else
          let line := strip (lstrip_by (Ascii.eqb "#") line) in
          let '(k, v) := py_split1 ":" line in
          parse_footer lines (dict_set (strip k) (strip (default EmptyString v)) res)
  end.

Definition validate_managed_config (text : string) : option OTAManagedCfg :=
  if negb (startswith OTA_MANAGED_CFG_HEADER text) then None
  else
    let text := str_drop (String.length OTA_MANAGED_CFG_HEADER) text in
    match str_find FOOTER_HEAD text, str_find FOOTER_TAIL text with
    | Some footer_start, Some footer_end =>
        let stop := (footer_end + String.length FOOTER_TAIL)%nat in
        match parse_footer (splitlines (str_drop footer_start (str_take stop text))) [] with
        | None => None
        | Some metadata =>
            let checksum := dict_get "checksum" metadata in
            let grub_version := dict_get "grub_version" metadata in
            let otaclient_version := dict_get "otaclient_version" metadata in
            if opt_str_truthy checksum && opt_str_truthy grub_version && opt_str_truthy otaclient_version then
              let content := strip (str_take footer_start text) in
              match py_split1 ":" (default EmptyString checksum) with
              | (algorithm, Some expected_digest) =>
                  match hash_new algorithm with
                  | Some h =>
                      if String.eqb (h content) expected_digest then
                        Some (new_OTAManagedCfg content (default EmptyString grub_version)
                                (default EmptyString otaclient_version))
                      else None
                  | None => None
                  end
              | (_, None) => None
              end
            else None
        end
    | _, _ => None
    end.

Definition footer_lines (c : OTAManagedCfg) : list string :=
  ["# otaclient_version: " +:+ mc_otaclient_version c; "# grub_version: " +:+ mc_grub_version c;
   "# checksum: " +:+ mc_checksum c]%string.

Definition export_cfg (c : OTAManagedCfg) : string :=
  (OTA_MANAGED_CFG_HEADER +:+ mc_raw_contents c +:+ newline +:+
   FOOTER_HEAD +:+ unlines (footer_lines c) +:+ FOOTER_TAIL)%string.

(** ** The state of [grub.cfg] at start-up *)

Inductive GrubBootControlSetupCase : Type :=
| FRESH | MIGRATE_FROM_OLD | ALREADY_NEW | GRUB_REGENERATE_REQUESTED.

(** What is at [/boot/grub/grub.cfg]: a link, nothing, a file that cannot be
    read, or a text. *)
Inductive grub_cfg_file : Type :=
| GLink | GMissing | GUnreadable | GText (text : string).

Definition GRUB_CFG_MIN_REQUIRED_OTACLIENT_VERSION : string := "3.14.1".

(** Comparison of release tuples. *)
Fixpoint tuple_lt (a b : list Z) : bool :=
  match a, b with
  | [], [] => false
  | [], _ :: _ => true
  | _ :: _, [] => false
  | x :: a, y :: b => (x <? y) || (x =? y) && tuple_lt a b
  end.
Definition tuple_le (a b : list Z) : bool := negb (tuple_lt b a).

(** [packaging.version.Version(v).release], for a valid version string. *)
Context (release_tuple : string -> option (list Z)).
Context (running_version : string).

Definition detect_boot_control_setup_case (f : grub_cfg_file) : GrubBootControlSetupCase :=
  match f with
  | GLink => MIGRATE_FROM_OLD
  | GMissing | GUnreadable => FRESH
  | GText text =>
      match validate_managed_config text with
      | None => FRESH
      | Some managed =>
          match release_tuple (mc_otaclient_version managed) with
          | None | Some [] => FRESH
          | Some cfg_release =>
              match release_tuple GRUB_CFG_MIN_REQUIRED_OTACLIENT_VERSION with
              | None | Some [] => ALREADY_NEW
              | Some min_release =>
                  if tuple_le min_release cfg_release then ALREADY_NEW
                  else
                    match release_tuple running_version with
                    | None | Some [] => GRUB_REGENERATE_REQUESTED
                    | Some running => if tuple_lt running min_release then ALREADY_NEW else GRUB_REGENERATE_REQUESTED
                    end
              end
          end
      end
  end.
End ManagedCfg.

(** ** Slot ids *)

Inductive OTASlotBootID : Type := slot_a | slot_b.
#[export] Instance OTASlotBootID_eq_dec : EqDecision OTASlotBootID.
Proof. solve_decision. Defined.

Definition slot_id_str (i : OTASlotBootID) : string :=
  match i with slot_a => "ota-slot_a" | slot_b => "ota-slot_b" end.
Definition LEGACY_OTA_PARTITION_FNAME : string := "ota-partition".
Definition LEGACY_SLOT_ID_PREFIX : string := "ota-partition.sda".

Definition slot_mapping : Type := OTASlotBootID -> string.

Definition from_old_slot_id (m : slot_mapping) (fallback : OTASlotBootID) (old_value : string) : OTASlotBootID :=
  let legacy_target := (LEGACY_OTA_PARTITION_FNAME +:+ "." +:+ old_value)%string in
  if String.eqb legacy_target (m slot_a) then slot_a
  else if String.eqb legacy_target (m slot_b) then slot_b
  else fallback.

Definition to_old_slot_id (m : slot_mapping) (fallback : OTASlotBootID) (new_value : string) : string :=
  let drop_prefix s := str_drop (String.length LEGACY_OTA_PARTITION_FNAME + 1) s in
  if String.eqb new_value (slot_id_str slot_a) then drop_prefix (m slot_a)
  else if String.eqb new_value (slot_id_str slot_b) then drop_prefix (m slot_b)
  else drop_prefix (m fallback).

Record PartitionInfo : Type := mkPartitionInfo { pi_dev : string; pi_uuid : string; pi_parttype : string }.
Record SlotInfo : Type := mkSlotInfo { si_dev : string; si_uuid : string; si_slot_id : option OTASlotBootID }.
Definition from_partinfo (p : PartitionInfo) (i : option OTASlotBootID) : SlotInfo :=
  mkSlotInfo (pi_dev p) (pi_uuid p) i.

Record ABPartition : Type := mkABPartition {
  ab_is_uefi : bool;
  ab_boot_partition : SlotInfo;
  ab_slot_a : SlotInfo;
  ab_slot_b : SlotInfo;
  ab_current_slot : OTASlotBootID;
  ab_standby_slot : OTASlotBootID;
  ab_old_slot_id_mapping : slot_mapping;
  ab_efi_partition : option SlotInfo;
}.

Definition EFI_PARTTYPE : string := "c12a7328-f81f-11d2-ba4b-00a0c93ec93b".

(** [DEV_PATH_PA]: [^/dev/(\w*[a-z])(\d+)$]; the group [partition_id].  The
    digits at the end belong to it as far as a lower-case letter precedes
    them. *)
Definition is_lower (a : ascii) : bool := let n := N_of_ascii a in ((97 <=? n) && (n <=? 122))%N.

Fixpoint str_rev (s acc : string) : string :=
  match s with EmptyString => acc | String a s => str_rev s (String a acc) end.

Definition dev_partition_id (dev : string) : option string :=
  if startswith "/dev/" dev then
    let '(digits, rest) := str_span is_digit (str_rev (str_drop 5 dev) EmptyString) in
    match digits, rest with
    | String _ _, String a rest =>
        if is_lower a && str_forallb is_word rest then Some (str_rev digits EmptyString) else None
    | _, _ => None
    end
  else None.

(** [GrubBootControllerError] *)
Inductive grub_error : Type := GrubBootControllerError (msg : string).

(** [_list_partitions], from the children [lsblk] lists; [None]: [lsblk] fails
    or lists no block device. *)
Fixpoint collect_partitions (children : list PartitionInfo) (parts : pydict PartitionInfo) :
    result grub_error (pydict PartitionInfo) :=
  match children with
  | [] => Ok parts
  | c :: children =>
      match dev_partition_id (pi_dev c) with
      | None => Raise (GrubBootControllerError "unexpected device path format")
      | Some i => collect_partitions children (dict_set i c parts)
      end
  end.

Definition list_partitions (lsblk : option (list PartitionInfo)) : result grub_error (pydict PartitionInfo) :=
  match lsblk with
  | None => Raise (GrubBootControllerError "failed to detect boot device family tree")
  | Some children => collect_partitions children []
  end.

Definition detect_boot_slots_uefi (parts : pydict PartitionInfo) (active : string) : result grub_error ABPartition :=
  match dict_get "1" parts, dict_get "2" parts, dict_get "3" parts, dict_get "4" parts with
  | Some p1, Some p2, Some p3, Some p4 =>
      if bool_decide (active = "3" \/ active = "4")%string then
        Ok (mkABPartition true (from_partinfo p2 None) (from_partinfo p3 (Some slot_a))
              (from_partinfo p4 (Some slot_b))
              (if String.eqb active "3" then slot_a else slot_b)
              (if String.eqb active "4" then slot_a else slot_b)
              (fun i => match i with slot_a => LEGACY_SLOT_ID_PREFIX +:+ "3" | slot_b => LEGACY_SLOT_ID_PREFIX +:+ "4" end)%string
              (Some (from_partinfo p1 None)))
      else Raise (GrubBootControllerError "booted from unexpected partition")
  | _, _, _, _ => Raise (GrubBootControllerError "unexpected layout for UEFI booted system")
  end.

Definition detect_boot_slots_bios (parts : pydict PartitionInfo) (active : string) : result grub_error ABPartition :=
  match dict_get "1" parts, dict_get "2" parts, dict_get "3" parts with
  | Some p1, Some p2, Some p3 =>
      if bool_decide (active = "2" \/ active = "3")%string then
        Ok (mkABPartition false (from_partinfo p1 None) (from_partinfo p2 (Some slot_a))
              (from_partinfo p3 (Some slot_b))
              (if String.eqb active "2" then slot_a else slot_b)
              (if String.eqb active "3" then slot_a else slot_b)
              (fun i => match i with slot_a => LEGACY_SLOT_ID_PREFIX +:+ "2" | slot_b => LEGACY_SLOT_ID_PREFIX +:+ "3" end)%string
              None)
      else Raise (GrubBootControllerError "booted from unexpected partition")
  | _, _, _ => Raise (GrubBootControllerError "unexpected layout for legacy BIOS booted system")
  end.

(** [detect_boot_slots], from the device of the running root file system. *)
Definition detect_boot_slots (rootfs_dev : option string) (lsblk : option (list PartitionInfo)) :
    result grub_error ABPartition :=
  match rootfs_dev with
  | None => Raise (GrubBootControllerError "failed to detect current rootfs dev")
  | Some dev =>
      match dev_partition_id dev with
      | None => Raise (GrubBootControllerError "unexpected rootfs dev")
      | Some active =>
          match list_partitions lsblk with
          | Raise e => Raise e
          | Ok parts =>
              match dict_get "1" parts with
              | None => Raise (GrubBootControllerError "missing first partition")
              | Some p1 =>
                  if String.eqb (lower (pi_parttype p1)) EFI_PARTTYPE then detect_boot_slots_uefi parts active
                  else detect_boot_slots_bios parts active
              end
          end
      end
  end.

Definition get_slot_info (ab : ABPartition) (i : OTASlotBootID) : SlotInfo :=
  match i with slot_a => ab_slot_a ab | slot_b => ab_slot_b ab end.

(** ** The managed config reads back *)

(** What can stand as a value of the footer: one line, no white space around
    it, and no comment sign. *)
Definition footer_value (v : string) : Prop :=
  one_line v /\ strip v = v /\ no_char "#" v = true /\ v <> EmptyString.

Lemma lstrip_by_head p a s : lstrip_by p (String a s) = String a s -> p a = false.
Proof.
  cbn. destruct (p a); [|done]. intros E. pose proof (length_lstrip_by p s) as H. rewrite E in H. cbn in H. lia.
Qed.

Lemma lstrip_by_keep p a s t : lstrip_by p (String a s) = String a s -> lstrip_by p (String a t) = String a t.
Proof. intros H%lstrip_by_head. cbn. by rewrite H. Qed.

Lemma strip_prefixed k v :
  lstrip_by is_space k = k -> k <> EmptyString -> strip v = v -> v <> EmptyString -> strip (k +:+ v)%string = (k +:+ v)%string.
Proof.
  intros Hk Hne Hv Hvne. unfold strip in *.
  assert (Hl : lstrip_by is_space (k +:+ v)%string = (k +:+ v)%string).
  { destruct k as [|a k]; [done|]. by apply (lstrip_by_keep _ _ k). }
  rewrite Hl. apply rstrip_by_app; [|done]. rewrite <- Hv at 2. rewrite <- Hv at 1. by rewrite rstrip_by_idemp.
Qed.

Lemma strip_space_left a v : is_space a = true -> strip (String a v) = strip v.
Proof. intros Ha. unfold strip. cbn [lstrip_by]. by rewrite Ha. Qed.

(** One line of the footer gives one field. *)
Lemma parse_footer_line k v lines res :
  (forall v, startswith "# ------" ("# " +:+ k +:+ ": " +:+ v)%string = false) ->
  no_char ":" k = true -> lstrip_by is_space k = k -> strip k = k -> k <> EmptyString -> footer_value v ->
  parse_footer (("# " +:+ k +:+ ": " +:+ v)%string :: lines) res = parse_footer lines (dict_set k v res).
Proof.
  intros Hdash Hcolon Hlk Hk Hkne (Hone & Hv & _ & Hvne). cbn [parse_footer]. rewrite Hdash.
  assert (Hline : strip ("# " +:+ k +:+ ": " +:+ v)%string = ("# " +:+ k +:+ ": " +:+ v)%string).
  { rewrite <- (str_app_assoc k), <- (str_app_assoc "# "). by apply strip_prefixed. }
  rewrite Hline. change (startswith "#" ("# " +:+ k +:+ ": " +:+ v)%string) with true. cbn [negb].
  change (lstrip_by (Ascii.eqb "#") ("# " +:+ k +:+ ": " +:+ v)%string) with (String " " (k +:+ ": " +:+ v))%string.
  rewrite strip_space_left by done.
  assert (Hrest : strip (k +:+ ": " +:+ v)%string = (k +:+ ": " +:+ v)%string).
  { rewrite <- (str_app_assoc k). apply strip_prefixed; try done; destruct k as [|a k]; try done.
    by apply (lstrip_by_keep _ _ k). }
  rewrite Hrest. change (": " +:+ v)%string with (String ":" (String " " v)).
  rewrite (py_split1_app ":" k (String " " v)) by done. cbn [default]. unfold id.
  by rewrite Hk, strip_space_left, Hv.
Qed.

Lemma find_lines line ls r :
  no_char "010" line = true ->
  Forall (fun l => str_find (line +:+ newline)%string (l +:+ newline)%string = None) ls ->
  str_find (line +:+ newline)%string (unlines ls +:+ r)%string =
  (fun n => String.length (unlines ls) + n)%nat <$> str_find (line +:+ newline)%string r.
Proof.
  intros Hl. induction 1 as [|x ls Hx Hls IH].
  - change (unlines [] +:+ r)%string with r. by destruct (str_find _ r).
  - rewrite unlines_cons, !str_app_assoc, find_line, IH by done. rewrite !length_str_app.
    destruct (str_find _ r); cbn; [|done]. f_equal. lia.
Qed.

Lemma find_hash_none t s : no_char "#" s = true -> str_find (String "#" t) s = None.
Proof.
  induction s as [|a s IH]; intros H; [done|]. apply andb_true_iff in H as [Ha%negb_true_iff Hs].
  cbn [str_find startswith]. rewrite Ascii.eqb_sym, Ha. cbn [andb]. by rewrite IH.
Qed.

Lemma footer_line_no_tail k v :
  no_char "#" k = true -> no_char "#" v = true ->
  startswith footer_tail_line (String "#" (k +:+ v +:+ newline))%string = false ->
  str_find FOOTER_TAIL ((String "#" k +:+ v) +:+ newline)%string = None.
Proof.
  intros Hk Hv Hs. rewrite str_app_assoc.
  change (String "#" k +:+ v +:+ newline)%string with (String "#" (k +:+ v +:+ newline))%string.
  cbn [str_find].
  assert (Hs' : startswith FOOTER_TAIL (String "#" (k +:+ v +:+ newline))%string = false).
  { destruct (startswith FOOTER_TAIL _) eqn:E; [|done]. rewrite <- Hs. clear Hs. symmetry.
    unfold FOOTER_TAIL in E. revert E. generalize footer_tail_line as f.
    generalize (String "#" (k +:+ v +:+ newline))%string as t. induction t as [|a t IH]; intros [|b f]; try done.
    change (String b f +:+ newline)%string with (String b (f +:+ newline))%string. cbn. destruct (Ascii.eqb b a); [|done]. apply IH. }
  rewrite Hs'. unfold FOOTER_TAIL, footer_tail_line.
  change (S <$> str_find (String "#" (" ------ End of OTA managed metadata ------ #" +:+ newline))%string (k +:+ v +:+ newline)%string = None).
  rewrite find_hash_none; [done|]. unfold no_char in *. by rewrite !str_forallb_app, Hk, Hv.
Qed.

Section Roundtrip.
Context (hash_new : string -> option (string -> string)).
Context (h : string -> string) (Hsha : hash_new "sha256" = Some h).
(** A hex digest. *)
Context (Hhex : forall t, str_forallb (fun a => is_digit a || is_lower a) (h t) = true).

Lemma hex_char a : is_digit a || is_lower a = true -> is_space a = false /\ is_linebreak a = false /\ Ascii.eqb a "#" = false.
Proof.
  intros H. assert (Hn : (48 <= N_of_ascii a <= 57 \/ 97 <= N_of_ascii a <= 122)%N).
  { revert H. unfold is_digit, is_lower. rewrite orb_true_iff, !andb_true_iff, !N.leb_le. lia. }
  clear H. unfold is_space, is_linebreak.
  assert (Ha : a <> "#"%char) by (intros ->; change (N_of_ascii "#") with 35%N in Hn; lia).
  rewrite !orb_false_iff, !andb_false_iff, !N.leb_gt, !N.eqb_neq. split_and!; try lia. by apply Ascii.eqb_neq.
Qed.

Lemma checksum_value t : footer_value ("sha256:" +:+ h t)%string.
Proof.
  pose proof (Hhex t) as Ht. split_and!.
  - apply one_line_app. split; [done|]. revert Ht. apply str_forallb_impl. intros a Ha. by apply hex_char in Ha as (_ & -> & _).
  - unfold strip. change (lstrip_by is_space ("sha256:" +:+ h t)) with ("sha256:" +:+ h t)%string.
    apply rstrip_by_none. rewrite str_forallb_app. apply andb_true_iff. split; [done|].
    revert Ht. apply str_forallb_impl. intros a Ha. by apply hex_char in Ha as (-> & _ & _).
  - unfold no_char. rewrite str_forallb_app. apply andb_true_iff. split; [done|].
    revert Ht. apply str_forallb_impl. intros a Ha. by apply hex_char in Ha as (_ & _ & ->).
  - done.
Qed.

Lemma footer_lines_ok c v g :
  footer_value v -> footer_value g ->
  mc_otaclient_version c = v -> mc_grub_version c = g -> (exists t, mc_checksum c = "sha256:" +:+ h t)%string ->
  Forall (fun l => str_find FOOTER_TAIL (l +:+ newline)%string = None) (footer_lines c) /\
  Forall one_line (footer_lines c) /\
  parse_footer (footer_head_line :: footer_lines c ++ [footer_tail_line]) [] =
    Some [("otaclient_version", v); ("grub_version", g); ("checksum", mc_checksum c)]%string.
Proof.
  intros Hv Hg Ev Eg (t & Ec). unfold footer_lines. rewrite Ev, Eg, Ec.
  assert (Hfind : forall k v, footer_value v -> no_char "#" k = true ->
            (forall v, startswith footer_tail_line (String "#" (k +:+ v +:+ newline))%string = false) ->
            str_find FOOTER_TAIL ((String "#" k +:+ v) +:+ newline)%string = None).
  { intros k x (_ & _ & Hx & _) Hk Hs. by apply footer_line_no_tail. }
  split_and!.
  - constructor; [|constructor; [|constructor; [|constructor]]].
    + by apply (Hfind " otaclient_version: "%string).
    + by apply (Hfind " grub_version: "%string).
    + apply (Hfind " checksum: "%string); [apply checksum_value|done|done].
  - assert (Hone : forall k v, str_forallb (fun a => negb (is_linebreak a)) k = true -> footer_value v -> one_line (k +:+ v)%string).
    { intros k x Hk (Hx & _). apply one_line_app. by split. }
    constructor; [|constructor; [|constructor; [|constructor]]].
    + apply (Hone "# otaclient_version: "%string); [vm_compute; reflexivity|done].
    + apply (Hone "# grub_version: "%string); [vm_compute; reflexivity|done].
    + apply (Hone "# checksum: "%string); [vm_compute; reflexivity|apply checksum_value].
  - assert (L1 : forall l res, parse_footer (("# otaclient_version: " +:+ v)%string :: l) res
                               = parse_footer l (dict_set "otaclient_version" v res)).
    { intros l res. by apply (parse_footer_line "otaclient_version"). }
    assert (L2 : forall l res, parse_footer (("# grub_version: " +:+ g)%string :: l) res
                               = parse_footer l (dict_set "grub_version" g res)).
    { intros l res. by apply (parse_footer_line "grub_version"). }
    assert (L3 : forall l res, parse_footer (("# checksum: " +:+ "sha256:" +:+ h t)%string :: l) res
                               = parse_footer l (dict_set "checksum" ("sha256:" +:+ h t)%string res)).
    { intros l res. apply (parse_footer_line "checksum"); try done. apply checksum_value. }
    cbn [app].
    change (parse_footer (footer_head_line :: ?l) []) with (parse_footer l []). rewrite L1, L2, L3. reflexivity.
Qed.

Lemma validate_export raw g v :
  footer_value g -> footer_value v ->
  str_find FOOTER_HEAD (strip raw +:+ newline)%string = None ->
  str_find FOOTER_TAIL (strip raw +:+ newline)%string = None ->
  let c := new_OTAManagedCfg hash_new raw g v in
  validate_managed_config hash_new (export_cfg c) = Some c.
Proof.
  intros Hg Hv Hhead Htail c. set (raw' := strip raw) in *.
  assert (Hraw : strip raw' = raw') by apply strip_idemp.
  assert (Hck : mc_checksum c = ("sha256:" +:+ h raw')%string).
  { unfold c, new_OTAManagedCfg, sha256. cbn [mc_checksum]. by rewrite Hsha. }
  destruct (footer_lines_ok c v g Hv Hg eq_refl eq_refl (ex_intro _ raw' Hck)) as (Hnone & Hone & Hparse).
  set (rest := unlines (footer_head_line :: footer_lines c ++ [footer_tail_line])).
  set (body := unlines (raw' :: footer_head_line :: footer_lines c)).
  assert (Hrest : rest = (FOOTER_HEAD +:+ unlines (footer_lines c) +:+ FOOTER_TAIL)%string).
  { unfold rest. rewrite unlines_cons, unlines_snoc. unfold FOOTER_HEAD. by rewrite str_app_assoc. }
  assert (Hbody : (body +:+ FOOTER_TAIL = raw' +:+ newline +:+ rest)%string).
  { unfold body. rewrite Hrest, !unlines_cons. unfold FOOTER_HEAD. by rewrite !str_app_assoc. }
  assert (Htext : export_cfg c = (OTA_MANAGED_CFG_HEADER +:+ raw' +:+ newline +:+ rest)%string) by (by rewrite Hrest).
  unfold validate_managed_config. rewrite Htext, startswith_app. cbn [negb]. rewrite str_drop_app.
  assert (Hstart : str_find FOOTER_HEAD (raw' +:+ newline +:+ rest)%string = Some (String.length raw' + 1)%nat).
  { unfold FOOTER_HEAD at 1. rewrite find_line by done. rewrite Hrest. fold FOOTER_HEAD. rewrite find_here. cbn. f_equal. lia. }
  assert (Hend : str_find FOOTER_TAIL (raw' +:+ newline +:+ rest)%string = Some (String.length body)).
  { rewrite <- Hbody. unfold FOOTER_TAIL at 1, body. rewrite find_lines; [|done|].
    - fold FOOTER_TAIL. rewrite <- (str_app_nil_r FOOTER_TAIL) at 2. rewrite find_here. cbn. f_equal. lia.
    - constructor; [done|constructor; [vm_compute; reflexivity|done]]. }
  rewrite Hstart, Hend.
  replace (String.length body + String.length FOOTER_TAIL)%nat with (String.length (raw' +:+ newline +:+ rest)%string)
    by (by rewrite <- Hbody, length_str_app).
  rewrite str_take_all.
  assert (Hlen : String.length (raw' +:+ newline)%string = (String.length raw' + 1)%nat) by (by rewrite length_str_app).
  rewrite <- Hlen, <- str_app_assoc, str_drop_app, str_take_app.
  unfold rest at 1. rewrite splitlines_unlines; [|constructor; [vm_compute; reflexivity|apply Forall_app; split; [done|]]].
  2: { constructor; [vm_compute; reflexivity|constructor]. }
  rewrite Hparse. cbn [dict_get String.eqb Ascii.eqb Bool.eqb]. rewrite Hck.
  assert (Hne : forall x, footer_value x -> opt_str_truthy (Some x) = true) by (intros [|? ?] (_ & _ & _ & Hx); done).
  change (dict_get "checksum" [("otaclient_version", v); ("grub_version", g); ("checksum", ("sha256:" +:+ h raw')%string)]%string)
    with (Some ("sha256:" +:+ h raw')%string).
  change (dict_get "grub_version" [("otaclient_version", v); ("grub_version", g); ("checksum", ("sha256:" +:+ h raw')%string)]%string)
    with (Some g).
  change (dict_get "otaclient_version" [("otaclient_version", v); ("grub_version", g); ("checksum", ("sha256:" +:+ h raw')%string)]%string)
    with (Some v).
  rewrite (Hne _ (checksum_value raw')), (Hne _ Hg), (Hne _ Hv). cbn [andb default]. unfold id.
  change ("sha256:" +:+ h raw')%string with ("sha256" +:+ String ":" (h raw'))%string.
  rewrite py_split1_app by (vm_compute; reflexivity). rewrite Hsha, strip_line_end, Hraw, String.eqb_refl.
  unfold c, new_OTAManagedCfg. by rewrite Hraw.
Qed.

Lemma exported_detected release_tuple raw g v r :
  footer_value g -> footer_value v -> release_tuple v = Some r -> r <> [] ->
  str_find FOOTER_HEAD (strip raw +:+ newline)%string = None ->
  str_find FOOTER_TAIL (strip raw +:+ newline)%string = None ->
  let c := new_OTAManagedCfg hash_new raw g v in
  detect_boot_control_setup_case hash_new release_tuple v (GText (export_cfg c)) = ALREADY_NEW.
Proof.
  intros Hg Hv Hr Hne Hhead Htail c. cbn [detect_boot_control_setup_case].
  unfold c. rewrite (validate_export raw g v) by done. cbn [mc_otaclient_version new_OTAManagedCfg]. rewrite Hr.
  destruct r as [|x r]; [done|].
  destruct (release_tuple GRUB_CFG_MIN_REQUIRED_OTACLIENT_VERSION) as [[|y m]|]; try done.
  unfold tuple_le. by destruct (tuple_lt (x :: r) (y :: m)).
Qed.

(** A [grub.cfg] written by the controller is recognised as its own: what
    [export] renders is validated again, to the same contents, versions and
    checksum, for every content without the footer's marker lines; and when
    the running version is a valid version string, the next start finds a
    system that is set up, so that it neither bootstraps the boot control
    again nor resets the OTA status files. *)
Theorem written_cfg_recognised release_tuple raw g v r :
  footer_value g -> footer_value v -> release_tuple v = Some r -> r <> [] ->
  str_find FOOTER_HEAD (strip raw +:+ newline)%string = None ->
  str_find FOOTER_TAIL (strip raw +:+ newline)%string = None ->
  let c := new_OTAManagedCfg hash_new raw g v in
  validate_managed_config hash_new (export_cfg c) = Some c /\
  detect_boot_control_setup_case hash_new release_tuple v (GText (export_cfg c)) = ALREADY_NEW.
Proof.
  intros Hg Hv Hr Hne Hhead Htail c. split; [by apply validate_export|by eapply exported_detected].
Qed.
End Roundtrip.

(** ** The slots *)

Lemma collect_partitions_ids children parts parts' :
  collect_partitions children parts = Ok parts' ->
  (forall i p, dict_get i parts = Some p -> dev_partition_id (pi_dev p) = Some i) ->
  forall i p, dict_get i parts' = Some p -> dev_partition_id (pi_dev p) = Some i.
Proof.
  revert parts. induction children as [|c children IH]; intros parts H Hp; cbn in H; [by injection H as <-|].
  destruct (dev_partition_id (pi_dev c)) as [j|] eqn:E; [|done]. apply (IH _ H). intros i p.
  rewrite dict_get_set. destruct (String.eqb_spec j i) as [<-|]; [intros [= <-]; done|apply Hp].
Qed.

(** The A/B layout found at start-up: the current and the standby slot are
    the two different slots, the current one is the partition the running root
    file system is on and the standby one is another partition of the disk;
    and an id of either slot survives the translation to the old controller's
    format and back. *)
Theorem detected_slots_ok dev lsblk ab :
  detect_boot_slots (Some dev) lsblk = Ok ab ->
  ab_standby_slot ab <> ab_current_slot ab /\
  dev_partition_id (si_dev (get_slot_info ab (ab_current_slot ab))) = dev_partition_id dev /\
  dev_partition_id (si_dev (get_slot_info ab (ab_standby_slot ab))) <> dev_partition_id dev /\
  (forall i fallback, from_old_slot_id (ab_old_slot_id_mapping ab) fallback
                        (to_old_slot_id (ab_old_slot_id_mapping ab) fallback (slot_id_str i)) = i).
Proof.
  unfold detect_boot_slots. destruct (dev_partition_id dev) as [active|] eqn:Ea; [|done].
  destruct (list_partitions lsblk) as [parts|] eqn:El; [|done].
  assert (Hids : forall i p, dict_get i parts = Some p -> dev_partition_id (pi_dev p) = Some i).
  { destruct lsblk as [children|]; [|done]. by apply (collect_partitions_ids children [] parts El). }
  destruct (dict_get "1" parts) as [p1|] eqn:E1; [|done].
  destruct (String.eqb _ _).
  - unfold detect_boot_slots_uefi. rewrite E1. destruct (dict_get "2" parts), (dict_get "3" parts) as [p3|] eqn:E3, (dict_get "4" parts) as [p4|] eqn:E4; try done.
    apply Hids in E3, E4. destruct (bool_decide_reflect (active = "3" \/ active = "4")%string) as [[-> | ->]|]; [| |done];
      intros [= <-]; cbn -[from_old_slot_id to_old_slot_id]; rewrite E3, E4; (split_and!; [done|done|done|]); intros [] f; reflexivity.
  - unfold detect_boot_slots_bios. rewrite E1. destruct (dict_get "2" parts) as [p2|] eqn:E2, (dict_get "3" parts) as [p3|] eqn:E3; try done.
    apply Hids in E2, E3. destruct (bool_decide_reflect (active = "2" \/ active = "3")%string) as [[-> | ->]|]; [| |done];
      intros [= <-]; cbn -[from_old_slot_id to_old_slot_id]; rewrite E2, E3; (split_and!; [done|done|done|]); intros [] f; reflexivity.
Qed.

(** ** [/etc/fstab] *)

Record fstab_entry : Type := mkFstabEntry {
  fe_file_system : string;
  fe_mount_point : string;
  fe_type : string;
  fe_options : string;
  fe_dump : string;
  fe_pass : string;
}.

#[export] Instance eta_fstab_entry : Eta fstab_entry := fun r =>
  mkFstabEntry (fe_file_system r) (fe_mount_point r) (fe_type r) (fe_options r) (fe_dump r) (fe_pass r).

Definition fstab_groups (e : fstab_entry) : list string :=
  [fe_file_system e; fe_mount_point e; fe_type e; fe_options e; fe_dump e; fe_pass e].

(** The pattern of a valid entry, on a stripped line. *)
Definition fstab_entry_match (line : string) : option fstab_entry :=
  match words line with
  | [a; b; c; d; e; f] =>
      if str_forallb is_digit e && str_forallb is_digit f then Some (mkFstabEntry a b c d e f) else None
  | _ => None
  end.

Definition read_fstab_line (entries : pydict fstab_entry) (line : string) : pydict fstab_entry :=
  let line := strip line in
  if startswith "#" line then entries
  else match fstab_entry_match line with
       | Some m => dict_set (fe_mount_point m) m entries
       | None => entries
       end.

Definition read_fstab_dict (text : string) : pydict fstab_entry :=
  fold_left read_fstab_line (splitlines text) [].

Definition tab : string := String "009" EmptyString.
Definition print_fstab_entry (e : fstab_entry) : string := str_join tab (fstab_groups e).

Definition CANONICAL_ROOT : string := "/".
Definition BOOT_DPATH : string := "/boot".
Definition EFI_DPATH : string := "/boot/efi".

Definition uuid_spec (uuid : string) : string := ("UUID=" +:+ uuid)%string.

Definition is_special (mp : string) : bool := bool_decide (mp ∈ [CANONICAL_ROOT; BOOT_DPATH; EFI_DPATH]).

(** The entries of [_generate_fstab], in order. *)
Definition fstab_entries (ab : ABPartition) (base : pydict fstab_entry) (reference : pydict fstab_entry)
    (slot_fsuuid : string) : list fstab_entry :=
  [match dict_get CANONICAL_ROOT reference with
   | Some ma => ma <| fe_file_system := uuid_spec slot_fsuuid |>
   | None => mkFstabEntry (uuid_spec slot_fsuuid) "/" "ext4" "errors=remount-ro" "0" "1"
   end;
   match dict_get BOOT_DPATH reference with
   | Some ma => ma
   | None => mkFstabEntry (uuid_spec (si_uuid (ab_boot_partition ab))) "/boot" "ext4" "defaults" "0" "1"
   end] ++
  match ab_efi_partition ab with
  | Some efi =>
      [match dict_get EFI_DPATH reference with
       | Some ma => ma
       | None => mkFstabEntry (uuid_spec (si_uuid efi)) "/boot/efi" "vfat" "defaults" "0" "1"
       end]
  | None => []
  end ++
  map snd (List.filter (fun me => negb (is_special (fst me))) base).

Definition generate_fstab (ab : ABPartition) (base_fstab : string) (reference_fstab : option string)
    (slot_fsuuid : string) : string :=
  let reference_dict :=
    match reference_fstab with
    | Some t => if str_truthy t then read_fstab_dict t else []
    | None => []
    end in
  unlines (map print_fstab_entry (fstab_entries ab (read_fstab_dict base_fstab) reference_dict slot_fsuuid)).

(** What an entry read from a file, and one to be written, has. *)
Definition entry_ok (e : fstab_entry) : Prop :=
  Forall is_field (fstab_groups e) /\ startswith "#" (fe_file_system e) = false /\
  str_forallb is_digit (fe_dump e) = true /\ str_forallb is_digit (fe_pass e) = true.

Definition fstab_ok (d : pydict fstab_entry) : Prop :=
  dict_wf d /\ forall mp e, (mp, e) ∈ d -> fe_mount_point e = mp /\ entry_ok e.

Lemma words_head_hash s w ws : strip s = s -> startswith "#" s = false -> words s = w :: ws -> startswith "#" w = false.
Proof.
  intros Hs Hh Hw. destruct s as [|a s]; [done|].
  assert (Ha : is_space a = false) by (by apply (strip_head a s)).
  assert (Hgo : forall cur s w ws, words_go (String a cur) s = w :: ws -> exists r, w = String a r).
  { clear. intros cur s. revert cur. induction s as [|b s IH]; intros cur w ws H; cbn [words_go str_truthy] in H.
    - injection H as <- _. eauto.
    - destruct (is_space b); [injection H as <- _; eauto|]. by apply (IH _ w ws) in H. }
  unfold words in Hw. cbn [words_go] in Hw. rewrite Ha in Hw. apply (Hgo EmptyString) in Hw as [r ->].
  cbn in *. by rewrite andb_true_r in *.
Qed.

Lemma read_fstab_line_ok d line : fstab_ok d -> fstab_ok (read_fstab_line d line).
Proof.
  intros [Hwf Hd]. unfold read_fstab_line. destruct (startswith "#" (strip line)) eqn:Eh; [by split|].
  unfold fstab_entry_match. destruct (words (strip line)) as [|a [|b [|c [|o [|e [|f [|]]]]]]] eqn:Ew; try by split.
  destruct (_ && _) eqn:Edig; [|by split]. apply andb_true_iff in Edig as [He Hf].
  pose proof (words_fields (strip line)) as Hw. rewrite Ew in Hw.
  split; [by apply dict_set_wf|]. intros mp x Hx.
  apply dict_In_get in Hx; [|by apply dict_set_wf]. rewrite dict_get_set in Hx. cbn [fe_mount_point] in Hx.
  destruct (String.eqb_spec b mp) as [<-|]; [|by apply Hd, dict_get_In].
  injection Hx as <-. split; [done|]. split_and!; try done. cbn.
  eapply words_head_hash; [apply strip_idemp|exact Eh|exact Ew].
Qed.

Lemma read_fstab_dict_ok text : fstab_ok (read_fstab_dict text).
Proof.
  unfold read_fstab_dict. generalize (splitlines text) as lines.
  assert (H : forall lines d, fstab_ok d -> fstab_ok (fold_left read_fstab_line lines d)).
  { induction lines as [|l lines IH]; intros d Hd; [done|]. cbn. apply IH. by apply read_fstab_line_ok. }
  intros lines. apply H. split; [constructor|]. intros mp e He. by apply not_elem_of_nil in He.
Qed.

Lemma print_entry_strip e : entry_ok e -> strip (print_fstab_entry e) = print_fstab_entry e.
Proof.
  intros (Hf & _ & _ & _). unfold fstab_groups in Hf.
  inversion_clear Hf as [|? ? [Ha Hane] H1]. inversion_clear H1 as [|? ? Hb H2]. inversion_clear H2 as [|? ? Hc H3].
  inversion_clear H3 as [|? ? Hd H4]. inversion_clear H4 as [|? ? He H5]. inversion_clear H5 as [|? ? [Hz Hzne] _].
  unfold print_fstab_entry, fstab_groups, strip.
  assert (Hl : lstrip_by is_space (str_join tab (fstab_groups e)) = str_join tab (fstab_groups e)).
  { cbn [str_join fstab_groups]. destruct (fe_file_system e) as [|a r]; [done|].
    apply andb_true_iff in Ha as [Ha%negb_true_iff _].
    change (String a r +:+ ?t)%string with (String a (r +:+ t))%string. cbn. by rewrite Ha. }
  unfold fstab_groups in Hl. rewrite Hl. cbn [str_join]. do 5 (rewrite <- (str_app_assoc _ tab)).
  rewrite <- !str_app_assoc. apply rstrip_by_app; [|done]. by apply rstrip_by_none.
Qed.

Lemma read_printed_entry d e : entry_ok e -> read_fstab_line d (print_fstab_entry e) = dict_set (fe_mount_point e) e d.
Proof.
  intros He. unfold read_fstab_line. rewrite print_entry_strip by done.
  destruct He as (Hf & Hh & Hd & Hp).
  assert (Hs : startswith "#" (print_fstab_entry e) = false).
  { unfold print_fstab_entry. cbn [str_join fstab_groups]. inversion_clear Hf as [|? ? [_ Hne] _].
    destruct (fe_file_system e) as [|a r]; [done|].
    change (String a r +:+ ?t)%string with (String a (r +:+ t))%string. cbn in *. by rewrite andb_true_r in *. }
  rewrite Hs. unfold fstab_entry_match, print_fstab_entry, tab. rewrite words_join by done.
  cbn [fstab_groups]. rewrite Hd, Hp. by destruct e.
Qed.

Lemma read_printed_entries l d :
  Forall entry_ok l ->
  fold_left read_fstab_line (map print_fstab_entry l) d = fold_left (fun d e => dict_set (fe_mount_point e) e d) l d.
Proof.
  intros H. revert d. induction H as [|e l He Hl IH]; intros d; [done|]. cbn [map fold_left]. by rewrite read_printed_entry, IH.
Qed.

Lemma fold_dict_set_new l d :
  NoDup (dict_keys d ++ map fe_mount_point l) ->
  fold_left (fun d e => dict_set (fe_mount_point e) e d) l d = d ++ map (fun e => (fe_mount_point e, e)) l.
Proof.
  revert d. induction l as [|e l IH]; intros d Hnd; [by rewrite app_nil_r|]. cbn.
  assert (Hnew : fe_mount_point e ∉ dict_keys d).
  { apply NoDup_app in Hnd as (_ & H & _). intros Hin. apply (H _ Hin). by left. }
  rewrite dict_set_new by done. rewrite IH; [by rewrite <- app_assoc|].
  unfold dict_keys in *. rewrite map_app, <- app_assoc. done.
Qed.

Lemma print_entry_one_line e : entry_ok e -> one_line (print_fstab_entry e).
Proof.
  intros (Hf & _). unfold print_fstab_entry. generalize dependent (fstab_groups e). clear. intros l.
  induction 1 as [|x l Hx Hl IH]; [done|]. destruct l as [|y l]; [by apply field_one_line|].
  change (str_join tab (x :: y :: l)) with (x +:+ tab +:+ str_join tab (y :: l))%string.
  apply one_line_app. split; [by apply field_one_line|]. by apply one_line_app.
Qed.

(** What [_generate_fstab] writes is read back entry by entry. *)
Lemma read_unlines_entries l :
  Forall entry_ok l -> NoDup (map fe_mount_point l) ->
  read_fstab_dict (unlines (map print_fstab_entry l)) = map (fun e => (fe_mount_point e, e)) l.
Proof.
  intros Hl Hnd. unfold read_fstab_dict. rewrite splitlines_unlines.
  - rewrite read_printed_entries by done. by rewrite fold_dict_set_new.
  - apply Forall_fmap. eapply Forall_impl; [exact Hl|]. intros e. apply print_entry_one_line.
Qed.

Definition no_space (s : string) : Prop := str_forallb (fun a => negb (is_space a)) s = true.

Lemma uuid_spec_field u : no_space u -> is_field (uuid_spec u).
Proof. intros Hu. split; [|done]. unfold uuid_spec. by rewrite str_forallb_app, Hu. Qed.

Lemma dict_get_ok d mp e : fstab_ok d -> dict_get mp d = Some e -> fe_mount_point e = mp /\ entry_ok e.
Proof. intros [_ Hd] He. by apply Hd, dict_get_In. Qed.

(** The first entries, one for each special mount point. *)
Lemma special_entry reference mp e :
  fstab_ok reference -> fe_mount_point e = mp -> entry_ok e ->
  let x := match dict_get mp reference with Some ma => ma | None => e end in
  fe_mount_point x = mp /\ entry_ok x.
Proof.
  intros Hr Hm He x. unfold x. destruct (dict_get mp reference) as [ma|] eqn:E; [|done].
  by apply (dict_get_ok _ _ _ Hr).
Qed.

Lemma special_root reference mp fsys e :
  fstab_ok reference -> is_field fsys -> startswith "#" fsys = false -> fe_mount_point e = mp -> entry_ok e ->
  let x := match dict_get mp reference with Some ma => ma <| fe_file_system := fsys |> | None => e end in
  fe_mount_point x = mp /\ entry_ok x.
Proof.
  intros Hr Hf Hh Hm He x. unfold x. destruct (dict_get mp reference) as [ma|] eqn:E; [|done].
  destruct (dict_get_ok _ _ _ Hr E) as [H1 (H2 & H3 & H4)]. split; [done|].
  split; [|by split]. inversion_clear H2. by constructor.
Qed.

Lemma default_entry_ok fsys mp ty opts :
  is_field fsys -> startswith "#" fsys = false -> is_field mp -> is_field ty -> is_field opts ->
  entry_ok (mkFstabEntry fsys mp ty opts "0" "1").
Proof.
  intros H1 H2 H3 H4 H5. split_and!; [|done|done|done]. unfold fstab_groups. cbn.
  repeat (constructor; [done|]). constructor.
Qed.

Lemma other_entries base :
  fstab_ok base ->
  Forall entry_ok (map snd (List.filter (fun me => negb (is_special (fst me))) base)) /\
  map (fun e => (fe_mount_point e, e))
    (map snd (List.filter (fun me => negb (is_special (fst me))) base)) =
  List.filter (fun me => negb (is_special (fst me))) base.
Proof.
  intros [_ Hb]. induction base as [|[mp e] base IH]; [by split; [constructor|]|].
  destruct IH as [IH1 IH2]; [intros mp' e' H; apply Hb; by right|].
  destruct (Hb mp e ltac:(by left)) as [Hm He].
  cbn [List.filter fst]. destruct (negb _); [|done]. cbn [map snd]. split; [by constructor|]. by rewrite IH2, Hm.
Qed.

Lemma dict_get_filter {V} (p : string -> bool) (d : pydict V) k :
  dict_get k (List.filter (fun kv => p (fst kv)) d) = if p k then dict_get k d else None.
Proof.
  induction d as [|[k' v] d IH]; [by destruct (p k)|]. cbn [List.filter fst dict_get].
  destruct (p k') eqn:E; cbn [dict_get]; destruct (String.eqb_spec k k') as [->|]; by rewrite ?IH, ?E.
Qed.

Lemma dict_keys_filter_NoDup {V} (p : string * V -> bool) (d : pydict V) : dict_wf d -> dict_wf (List.filter p d).
Proof.
  unfold dict_wf, dict_keys. induction d as [|[k v] d IH]; intros Hnd; [constructor|].
  inversion Hnd as [|? ? Hk Hd]; subst. cbn [List.filter]. destruct (p (k, v)); [|by apply IH].
  cbn [map fst]. constructor; [|by apply IH]. intros Hin. apply Hk.
  apply list_elem_of_In, in_map_iff in Hin as (x & <- & Hx). apply filter_In in Hx as [Hx _].
  apply list_elem_of_In, in_map_iff. by exists x.
Qed.

(** The [/etc/fstab] made for a slot is read back as intended: the root
    entry names the slot's own file system with the options of the reference
    slot, [/boot] and, on a UEFI system, [/boot/efi] come right after it in
    this order, taken from the reference slot when it has them, and every
    other mount point of the slot's image is kept as it was. *)
Theorem generated_fstab_ok ab base reference uuid :
  no_space uuid -> no_space (si_uuid (ab_boot_partition ab)) ->
  (forall efi, ab_efi_partition ab = Some efi -> no_space (si_uuid efi)) ->
  let ref := match reference with Some t => read_fstab_dict t | None => [] end in
  let d := read_fstab_dict (generate_fstab ab base reference uuid) in
  (exists root, dict_get "/" d = Some root /\ fe_file_system root = uuid_spec uuid /\
     forall r, dict_get "/" ref = Some r -> root = r <| fe_file_system := uuid_spec uuid |>) /\
  (exists boot, dict_get "/boot" d = Some boot /\ (forall r, dict_get "/boot" ref = Some r -> boot = r)) /\
  (forall efi, ab_efi_partition ab = Some efi ->
     exists e, dict_get "/boot/efi" d = Some e /\ (forall r, dict_get "/boot/efi" ref = Some r -> e = r)) /\
  (exists others, dict_keys d = ["/"; "/boot"]%string ++
     match ab_efi_partition ab with Some _ => ["/boot/efi"%string] | None => [] end ++ others) /\
  (forall mp, mp ∉ ["/"; "/boot"; "/boot/efi"]%string -> dict_get mp d = dict_get mp (read_fstab_dict base)).
Proof.
  intros Hu Hbu Heu ref d.
  assert (Hrefd : match reference with Some t => if str_truthy t then read_fstab_dict t else [] | None => [] end = ref).
  { unfold ref. destruct reference as [[|? ?]|]; done. }
  assert (Href : fstab_ok ref).
  { unfold ref. destruct reference; [apply read_fstab_dict_ok|]. split; [constructor|]. intros ? ? H. by apply not_elem_of_nil in H. }
  pose proof (read_fstab_dict_ok base) as Hbase. destruct (other_entries _ Hbase) as [Ho1 Ho2].
  set (root := match dict_get "/" ref with
               | Some ma => ma <| fe_file_system := uuid_spec uuid |>
               | None => mkFstabEntry (uuid_spec uuid) "/" "ext4" "errors=remount-ro" "0" "1"
               end).
  set (boot := match dict_get "/boot" ref with
               | Some ma => ma
               | None => mkFstabEntry (uuid_spec (si_uuid (ab_boot_partition ab))) "/boot" "ext4" "defaults" "0" "1"
               end).
  set (others := List.filter (fun me => negb (is_special (fst me))) (read_fstab_dict base)) in *.
  assert (Hroot : fe_mount_point root = "/"%string /\ entry_ok root).
  { unfold root. apply (special_root ref "/" (uuid_spec uuid)); try done. by apply default_entry_ok. }
  assert (Hboot : fe_mount_point boot = "/boot"%string /\ entry_ok boot).
  { unfold boot. apply special_entry; [done|done|]. by apply default_entry_ok. }
  assert (Hefi : exists efis, fstab_entries ab (read_fstab_dict base) ref uuid = root :: boot :: efis ++ map snd others /\
            Forall entry_ok efis /\
            match ab_efi_partition ab with
            | Some _ => exists e, efis = [e] /\ fe_mount_point e = "/boot/efi"%string /\ (forall r, dict_get "/boot/efi" ref = Some r -> e = r)
            | None => efis = []
            end).
  { unfold fstab_entries. destruct (ab_efi_partition ab) as [efi|]; [|exists []; by split_and!]. eexists [_].
    split; [reflexivity|]. destruct (special_entry ref "/boot/efi" (mkFstabEntry (uuid_spec (si_uuid efi)) "/boot/efi" "vfat" "defaults" "0" "1") Href eq_refl) as [H1 H2].
    { apply default_entry_ok; try done. by apply uuid_spec_field, Heu. }
    split; [constructor; [exact H2|constructor]|]. eexists. split; [reflexivity|]. split; [exact H1|]. intros r Hr. unfold EFI_DPATH. by rewrite Hr. }
  destruct Hefi as (efis & Hents & Hefok & Hefi).
  assert (Hoth : map fe_mount_point (map snd others) = dict_keys others).
  { apply (f_equal (map fst)) in Ho2. rewrite map_map in Ho2. exact Ho2. }
  assert (Hspecial : forall mp, mp ∈ dict_keys others -> mp ∉ ["/"; "/boot"; "/boot/efi"]%string).
  { intros mp Hmp Hin. unfold others, dict_keys in Hmp. apply list_elem_of_In, in_map_iff in Hmp as (x & <- & Hx).
    apply filter_In in Hx as [_ Hx]. apply negb_true_iff, bool_decide_eq_false in Hx. by apply Hx. }
  assert (Hefkeys : map fe_mount_point efis = match ab_efi_partition ab with Some _ => ["/boot/efi"%string] | None => [] end).
  { destruct (ab_efi_partition ab); [destruct Hefi as (e & -> & He & _); cbn; by rewrite He|by subst]. }
  assert (Hd : d = ("/"%string, root) :: ("/boot"%string, boot) :: map (fun e => (fe_mount_point e, e)) efis ++ others).
  { unfold d, generate_fstab. rewrite Hrefd, Hents. rewrite read_unlines_entries.
    - cbn [map]. rewrite map_app, Ho2. destruct Hroot as [-> _], Hboot as [-> _]. done.
    - constructor; [apply Hroot|]. constructor; [apply Hboot|]. by apply Forall_app.
    - cbn [map]. destruct Hroot as [-> _], Hboot as [-> _]. rewrite map_app, Hefkeys, Hoth.
      assert (Hnd : NoDup (dict_keys others)) by (apply dict_keys_filter_NoDup, Hbase).
      destruct (ab_efi_partition ab); cbn [app]; repeat (constructor; [set_solver|]); done. }
  rewrite Hd. split_and!.
  - exists root. split_and!; [done| |]; unfold root; [by destruct (dict_get "/" ref)|by intros r ->].
  - exists boot. split; [done|]. unfold boot. by intros r ->.
  - intros efi Hef. rewrite Hef in Hefi. destruct Hefi as (e & -> & He & Her). exists e. split; [|done].
    cbn [map app]. rewrite He. reflexivity.
  - exists (dict_keys others). unfold dict_keys. cbn [map fst]. rewrite map_app, map_map. cbn [fst].
    rewrite <- Hefkeys. done.
  - intros mp Hmp. cbn [dict_get].
    assert (Hne : mp <> "/"%string /\ mp <> "/boot"%string /\ mp <> "/boot/efi"%string) by set_solver.
    destruct Hne as (N1 & N2 & N3). rewrite (proj2 (String.eqb_neq _ _) N1), (proj2 (String.eqb_neq _ _) N2).
    assert (Hefs : map (fun e => (fe_mount_point e, e)) efis = [] \/ exists e, map (fun e => (fe_mount_point e, e)) efis = [("/boot/efi"%string, e)]).
    { destruct (ab_efi_partition ab); [destruct Hefi as (e & -> & He & _); right; exists e; cbn; by rewrite He|left; by subst]. }
    assert (Hgo : dict_get mp others = dict_get mp (read_fstab_dict base)).
    { etrans; [apply (dict_get_filter (fun k => negb (is_special k)))|].
      cbn beta. unfold is_special. by rewrite bool_decide_eq_false_2. }
    destruct Hefs as [-> | [e ->]]; cbn [app dict_get]; [done|]. by rewrite (proj2 (String.eqb_neq _ _) N3).
Qed.

(** ** Examples *)

Definition example_cfg_hash (alg : string) : option (string -> string) :=
  if String.eqb alg "sha256" then Some (fun _ => "0a1b"%string) else None.

Lemma written_cfg_recognised_witness :
  let c := new_OTAManagedCfg example_cfg_hash "set timeout=0" "2.12" "3.14.2" in
  validate_managed_config example_cfg_hash (export_cfg c) = Some c /\
  detect_boot_control_setup_case example_cfg_hash (fun _ => Some [3; 14; 2]) "3.14.2" (GText (export_cfg c)) = ALREADY_NEW.
Proof.
  apply (written_cfg_recognised example_cfg_hash (fun _ => "0a1b"%string) eq_refl (fun _ => eq_refl)
           (fun _ => Some [3; 14; 2]) "set timeout=0" "2.12" "3.14.2" [3; 14; 2]).
  - split_and!; [done|vm_compute; reflexivity|done|done].
  - split_and!; [done|vm_compute; reflexivity|done|done].
  - done.
  - done.
  - vm_compute. reflexivity.
  - vm_compute. reflexivity.
Defined.

Definition example_lsblk : list PartitionInfo :=
  [mkPartitionInfo "/dev/sda1" "u1" EFI_PARTTYPE; mkPartitionInfo "/dev/sda2" "u2" "x";
   mkPartitionInfo "/dev/sda3" "u3" "x"; mkPartitionInfo "/dev/sda4" "u4" "x"]%string.

Lemma detected_slots_ok_witness :
  exists ab, detect_boot_slots (Some "/dev/sda4"%string) (Some example_lsblk) = Ok ab /\
    ab_standby_slot ab <> ab_current_slot ab /\ ab_current_slot ab = slot_b.
Proof.
  destruct (detect_boot_slots (Some "/dev/sda4"%string) (Some example_lsblk)) as [ab|e] eqn:E.
  - exists ab. split; [done|]. split.
    + by destruct (detected_slots_ok _ _ _ E).
    + vm_compute in E. by injection E as <-.
  - exfalso. by vm_compute in E.
Defined.

Definition example_bios_ab : ABPartition := mkABPartition false
  (mkSlotInfo "/dev/sda1" "bbb" None) (mkSlotInfo "/dev/sda2" "aaa" (Some slot_a))
  (mkSlotInfo "/dev/sda3" "ccc" (Some slot_b)) slot_a slot_b (fun _ => ""%string) None.

Lemma generated_fstab_ok_witness :
  exists root, dict_get "/" (read_fstab_dict (generate_fstab example_bios_ab "LABEL=x /data ext4 ro 0 2"
      (Some "UUID=aaa / ext4 rw 0 1"%string) "ccc")) = Some root /\ fe_file_system root = "UUID=ccc"%string.
Proof.
  destruct (generated_fstab_ok example_bios_ab "LABEL=x /data ext4 ro 0 2"
              (Some "UUID=aaa / ext4 rw 0 1"%string) "ccc") as [(root & H1 & H2 & _) _].
  - reflexivity.
  - reflexivity.
  - done.
  - exists root. split; [exact H1|exact H2].
Defined.
