(* ===== verification/GrubMenu.v ===== *)
(** * GRUB options, kernels and menu entries

    Models the rest of the text processing of
    [src/src/otaclient/boot_control/_grub_new.py]: [/etc/default/grub], the
    choice of the kernel of a slot, and the extraction and the rewriting of a
    menu entry from the output of [grub-mkconfig].  The regular expressions
    are matchers: each of them has one way to match at a position, since what
    follows a repeated class of characters is outside the class. *)

From stdpp Require Import base strings list option sets.
From Stdlib Require Import ZArith Ascii String Lia.
From S2P Require Import Prelude TextLines CertStore GrubCfg.

(** ** [/etc/default/grub] *)

Definition GRUB_DEFAULT_OPTIONS : pydict string :=
  [("GRUB_TIMEOUT_STYLE", "menu"); ("GRUB_TIMEOUT", "0"); ("GRUB_DISABLE_SUBMENU", "y");
   ("GRUB_DISABLE_OS_PROBER", "true"); ("GRUB_DISABLE_RECOVERY", "true"); ("GRUB_DEFAULT", "saved")]%string.
Definition GRUB_BLACKLIST_OPTIONS : list string := ["GRUB_SAVEDEFAULT"]%string.

Definition grub_option_line (res : pydict string) (line : string) : pydict string :=
  let line := strip line in
  if negb (str_truthy line) || startswith "#" line then res
  else
    match py_split1 "=" line with
    | (k, Some v) => dict_set (strip k) (strip v) res
    | (_, None) => res
    end.

Definition parse_grub_options (text : string) : pydict string := fold_left grub_option_line (splitlines text) [].

Definition merge_grub_options (d : pydict string) : pydict string :=
  fold_left (fun d k => dict_del k d) GRUB_BLACKLIST_OPTIONS (dict_update d GRUB_DEFAULT_OPTIONS).

Definition print_option (kv : string * string) : string := (fst kv +:+ "=" +:+ snd kv)%string.

Definition update_grub_default (text : string) : string :=
  (OTA_MANAGED_CFG_HEADER +:+ unlines (map print_option (merge_grub_options (parse_grub_options text))))%string.

(** ** The kernel of a slot *)

Definition VMLINUZ_PREFIX : string := "vmlinuz-".
Definition INITRD_PREFIX : string := "initrd.img-".

Inductive ver_seg : Type := VInt (n : Z) | VStr (s : string).

(** [re.split(r"[.\-]", ver)] *)
Definition split_version (ver : string) : list string := mjoin (py_split "-" <$> py_split "." ver).

Definition parse_kernel_ver_key (ver : string) : list ver_seg :=
  (fun seg => match py_int seg with Some n => VInt n | None => VStr seg end) <$> split_version ver.

(** The order of strings, by code points. *)
Fixpoint str_lt (a b : string) : bool :=
  match a, b with
  | EmptyString, String _ _ => true
  | String x a, String y b => (N_of_ascii x <? N_of_ascii y)%N || Ascii.eqb x y && str_lt a b
  | _, EmptyString => false
  end.

(** [a > b] on tuples; [None]: an [int] meets a [str] and the comparison
    raises [TypeError]. *)
Fixpoint key_gt (a b : list ver_seg) : option bool :=
  match a, b with
  | [], _ => Some false
  | _ :: _, [] => Some true
  | VInt x :: a, VInt y :: b => if x =? y then key_gt a b else Some (y <? x)
  | VStr x :: a, VStr y :: b => if String.eqb x y then key_gt a b else Some (str_lt y x)
  | _, _ => None
  end.

Inductive kernel_choice : Type :=
| KernelVer (ver : string)
| NoKernel                 (** [GrubBootControllerError] *)
| KernelTypeError.

(** [candidates.sort(key=...)] raises [TypeError] exactly when two of the
    keys cannot be compared: a sort that ends has compared the neighbours of
    its result, and keys in ascending order are comparable ([key_chain]). *)
Definition all_comparable (candidates : list string) : bool :=
  forallb (fun a => forallb (fun b =>
    match key_gt (parse_kernel_ver_key a) (parse_kernel_ver_key b) with Some _ => true | None => false end)
    candidates) candidates.

(** The first of [candidates.sort(key=..., reverse=True)]: the greatest key,
    the earliest file on equal keys. *)
Fixpoint highest_version (best : string) (candidates : list string) : kernel_choice :=
  match candidates with
  | [] => KernelVer best
  | c :: candidates =>
      match key_gt (parse_kernel_ver_key c) (parse_kernel_ver_key best) with
      | None => KernelTypeError
      | Some true => highest_version c candidates
      | Some false => highest_version best candidates
      end
  end.

(** [detect_slot_kernel_ver], from the file names of the slot's [/boot]. *)
Definition kernel_candidates (names : list string) : list string :=
  omap (fun n => if startswith VMLINUZ_PREFIX n then
                   let ver := str_drop (String.length VMLINUZ_PREFIX) n in
                   if bool_decide ((INITRD_PREFIX +:+ ver)%string ∈ names) then Some ver else None
                 else None) names.

Definition detect_slot_kernel_ver (names : list string) : kernel_choice :=
  match kernel_candidates names with
  | [] => NoKernel
  | c :: candidates => if all_comparable (c :: candidates) then highest_version c candidates else KernelTypeError
  end.

(** ** Menu entries *)

(** [^\s*menuentry\s] at the beginning of a line: what follows it, and whether
    that is the beginning of a line. *)
Definition match_head (s : string) : option (string * bool) :=
  let r := lstrip_by is_space s in
  if startswith "menuentry" r then
    match str_drop 9 r with
    | String c r => if is_space c then Some (r, Ascii.eqb c "010") else None
    | EmptyString => None
    end
  else None.

(** [MENUENTRY_HEAD_PA.finditer]: the text from the start of each match on. *)
Fixpoint menuentry_heads (fuel : nat) (bol : bool) (s : string) : list string :=
  match fuel with
  | O => []
  | S fuel =>
      match (if bol then match_head s else None) with
      | Some (r, bol) => s :: menuentry_heads fuel bol r
      | None =>
          match s with
          | EmptyString => []
          | String a r => menuentry_heads fuel (Ascii.eqb a "010") r
          end
      end
  end.

(** The text up to the brace that closes the first one, by counting. *)
Fixpoint close_brace (depth : nat) (s : string) : option string :=
  match s with
  | EmptyString => None
  | String a s =>
      let depth' := if Ascii.eqb a "{" then S depth else if Ascii.eqb a "}" then (depth - 1)%nat else depth in
      if Ascii.eqb a "}" && bool_decide (depth' = O) then Some (String a EmptyString)
      else String a <$> close_brace depth' s
  end.

Definition menuentry_block (s : string) : option string :=
  match str_find "{" s with
  | Some n => (fun b => str_take n s +:+ b)%string <$> close_brace 0 (str_drop n s)
  | None => None
  end.

(** [^\s*<word>\s*(?P<fpath>[^\s]+)] at the beginning of a line: the text before
    the group, the group, the rest. *)
Definition match_fpath (word s : string) : option (string * string * string) :=
  let r := lstrip_by is_space s in
  if startswith word r then
    let r2 := lstrip_by is_space (str_drop (String.length word) r) in
    let '(g, rest) := str_span (fun a => negb (is_space a)) r2 in
    if str_truthy g then Some (str_take (String.length s - String.length r2) s, g, rest) else None
  else None.

(** The first match, with the text in front of it. *)
Fixpoint search_fpath (bol : bool) (word s : string) : option (string * string * string) :=
  match (if bol then match_fpath word s else None) with
  | Some m => Some m
  | None =>
      match s with
      | EmptyString => None
      | String a r => search_fpath (Ascii.eqb a "010") word r
      end
  end.

(** [\brecovery\b] *)
Fixpoint search_recovery (prev_word : bool) (s : string) : bool :=
  let here :=
    negb prev_word && startswith "recovery" s &&
    match str_drop 8 s with String c _ => negb (is_word c) | EmptyString => true end in
  here || match s with EmptyString => false | String a r => search_recovery (is_word a) r end.

(** [vmlinuz-(?P<ver>[\.\w-]+)$] *)
Fixpoint search_linux_version (s : string) : option string :=
  let ver := str_drop (String.length VMLINUZ_PREFIX) s in
  if startswith VMLINUZ_PREFIX s && str_truthy ver &&
     str_forallb (fun a => is_name_char a || Ascii.eqb a ".") ver
  then Some ver
  else match s with EmptyString => None | String _ r => search_linux_version r end.

(** The checks of the loop of [_find_menuentry] on one block. *)
Definition entry_kernel_ver (block : string) : option string :=
  match search_fpath true "linux" block with
  | None => None
  | Some (before, fpath, rest) =>
      if search_recovery false (fst (py_split1 "010" rest)) then None
      else search_linux_version (before +:+ fpath)%string
  end.

Fixpoint find_in_heads (kernel_ver : string) (heads : list string) : option string :=
  match heads with
  | [] => None
  | h :: heads =>
      match menuentry_block h with
      | None => None
      | Some block =>
          if bool_decide (entry_kernel_ver block = Some kernel_ver) then Some block
          else find_in_heads kernel_ver heads
      end
  end.

(** [_find_menuentry]; [None] is the [ValueError], of a broken entry too. *)
Definition find_menuentry (text kernel_ver : string) : option string :=
  find_in_heads kernel_ver (menuentry_heads (S (String.length text)) true text).

Definition fixup_fpath (slot_id : string) (fpath : string) : string :=
  if startswith ("/" +:+ slot_id)%string fpath then fpath
  else ("/" +:+ slot_id +:+ "/" +:+ lstrip_by (Ascii.eqb "/") fpath)%string.

(** A title or an id: in quotes of either kind, or up to the next white space;
    with the rest. *)
Definition match_title (s : string) : option (string * string) :=
  let quoted :=
    match s with
    | String q r =>
        if Ascii.eqb q "'" || Ascii.eqb q (ascii_of_N 34) then
          match py_split1 q r with
          | (t, Some rest) => Some (String q (t +:+ String q EmptyString)%string, rest)
          | (_, None) => None
          end
        else None
    | EmptyString => None
    end in
  match quoted with
  | Some m => Some m
  | None =>
      let '(g, rest) := str_span (fun a => negb (is_space a)) s in
      if str_truthy g then Some (g, rest) else None
  end.

(** Replacing the group [\s+ <title>] after [before] characters. *)
Definition replace_title_at (n : nat) (new entry : string) : option string :=
  match str_drop n entry with
  | String c _ =>
      if is_space c then
        let r := lstrip_by is_space (str_drop n entry) in
        match match_title r with
        | Some (_, rest) => Some (str_take (String.length entry - String.length r) entry +:+ new +:+ rest)%string
        | None => None
        end
      else None
  | EmptyString => None
  end.

(** [MENUENTRY_TITLE_PA.sub] *)
Definition replace_title (new entry : string) : string :=
  let r := lstrip_by is_space entry in
  if startswith "menuentry" r then
    default entry (replace_title_at (String.length entry - String.length r + 9) new entry)
  else entry.

(** [MENUENTRY_ID_PA.sub]: the first option of the line that an id follows. *)
Definition MENUENTRY_ID_OPTION : string := "$menuentry_id_option".
Fixpoint replace_id_from (fuel n : nat) (new entry : string) : option string :=
  match fuel with
  | O => None
  | S fuel =>
      let found :=
        if startswith MENUENTRY_ID_OPTION (str_drop n entry)
        then replace_title_at (n + String.length MENUENTRY_ID_OPTION) new entry else None in
      match found with
      | Some e => Some e
      | None =>
          match str_drop n entry with
          | EmptyString => None
          | String a _ => if Ascii.eqb a "010" then None else replace_id_from fuel (S n) new entry
          end
      end
  end.
Definition replace_id (new entry : string) : string :=
  let r := lstrip_by is_space entry in
  if startswith "menuentry" r then
    default entry (replace_id_from (S (String.length entry)) (String.length entry - String.length r + 9) new entry)
  else entry.

(** [LINUX_PA_MULTILINE.sub], [INITRD_PA_MULTILINE.sub] *)
Fixpoint replace_fpaths (fuel : nat) (bol : bool) (word : string) (f : string -> string) (s : string) : string :=
  match fuel with
  | O => s
  | S fuel =>
      match (if bol then match_fpath word s else None) with
      | Some (before, g, rest) => (before +:+ f g +:+ replace_fpaths fuel false word f rest)%string
      | None =>
          match s with
          | EmptyString => EmptyString
          | String a r => String a (replace_fpaths fuel (Ascii.eqb a "010") word f r)
          end
      end
  end.

Definition fixup_menuentry (slot_boot_id entry : string) : string :=
  let quoted_id := ("'" +:+ slot_boot_id +:+ "'")%string in
  let entry := replace_id quoted_id (replace_title quoted_id entry) in
  let entry := replace_fpaths (S (String.length entry)) true "linux" (fixup_fpath slot_boot_id) entry in
  let entry := replace_fpaths (S (String.length entry)) true "initrd" (fixup_fpath slot_boot_id) entry in
  let entry := rstrip_by (Ascii.eqb "}") (rstrip_by is_space entry) in
  (entry +:+ newline +:+ String "009" ("echo 'Booting from " +:+ slot_boot_id +:+ " ...'") +:+
   newline +:+ "}" +:+ newline)%string.

Definition generate_menuentry (text slot_boot_id kernel_ver : string) : option string :=
  fixup_menuentry slot_boot_id <$> find_menuentry text kernel_ver.

(** A concrete output of [grub-mkconfig]. *)
Definition example_mkconfig : string := unlines
  ["set timeout=0"; "menuentry 'Ubuntu' --class ubuntu $menuentry_id_option 'gnulinux-simple' {";
   String "009" "if [ x = y ]; then { insmod gzio }; fi";
   String "009" "linux /vmlinuz-5.19.0-50-generic root=UUID=aa ro  quiet";
   String "009" "initrd /initrd.img-5.19.0-50-generic"; "}";
   "menuentry 'Ubuntu (recovery mode)' $menuentry_id_option 'gnulinux-recovery' {";
   String "009" "linux /vmlinuz-6.2.0-26-generic root=UUID=aa ro recovery nomodeset"; "}";
   "menuentry 'Ubuntu, 6.2' $menuentry_id_option 'gnulinux-6.2' {";
   String "009" "linux /vmlinuz-6.2.0-26-generic root=UUID=aa ro"; "}"]%string.

Example generated_entry :
  generate_menuentry example_mkconfig "ota-slot_a" "5.19.0-50-generic" = Some (unlines
  ["menuentry 'ota-slot_a' --class ubuntu $menuentry_id_option 'ota-slot_a' {";
   String "009" "if [ x = y ]; then { insmod gzio }; fi";
   String "009" "linux /ota-slot_a/vmlinuz-5.19.0-50-generic root=UUID=aa ro  quiet";
   String "009" "initrd /ota-slot_a/initrd.img-5.19.0-50-generic"; "";
   String "009" "echo 'Booting from ota-slot_a ...'"; "}"]%string).
Proof. vm_compute. reflexivity. Qed.

Example recovery_entry_skipped :
  entry_kernel_ver <$> find_menuentry example_mkconfig "6.2.0-26-generic" = Some (Some "6.2.0-26-generic"%string).
Proof. vm_compute. reflexivity. Qed.

Example no_entry_found : generate_menuentry example_mkconfig "ota-slot_a" "6.5.0" = None.
Proof. vm_compute. reflexivity. Qed.

(** ** The options are merged once and for all *)

(** What a parsed option is made of. *)
Definition option_ok (kv : string * string) : Prop :=
  let '(k, v) := kv in
  one_line k /\ strip k = k /\ no_char "=" k = true /\ startswith "#" k = false /\
  one_line v /\ strip v = v.
Definition options_ok (d : pydict string) : Prop := dict_wf d /\ Forall option_ok d.

Lemma one_line_strip s : one_line s -> one_line (strip s).
Proof. intros H. by apply str_forallb_rstrip, str_forallb_lstrip. Qed.

Lemma py_split1_head_no_char c s : no_char c (fst (py_split1 c s)) = true.
Proof.
  induction s as [|a s IH]; [done|]. cbn. destruct (Ascii.eqb a c) eqn:E; [done|].
  destruct (py_split1 c s) as [k v]. cbn in *. by rewrite E, IH.
Qed.

Lemma py_split1_all q c s k v : py_split1 c s = (k, Some v) -> str_forallb q s = true -> str_forallb q k = true /\ str_forallb q v = true.
Proof.
  revert k v. induction s as [|a s IH]; intros k v H Hs; [done|]. apply andb_true_iff in Hs as [Ha Hs]. cbn in H.
  destruct (Ascii.eqb a c); [by injection H as <- <-|]. destruct (py_split1 c s) as [k' [v'|]]; [|done]. injection H as <- <-.
  destruct (IH k' v' eq_refl Hs) as [Hk Hv]. split; [cbn; by rewrite Ha, Hk|done].
Qed.

Lemma grub_option_line_ok d line : one_line line -> options_ok d -> options_ok (grub_option_line d line).
Proof.
  intros Hl [Hwf Hd]. unfold grub_option_line. destruct (_ || _) eqn:E; [done|].
  apply orb_false_iff in E as [Et Eh]. destruct (py_split1 "=" (strip line)) as [k [v|]] eqn:Es; [|done].
  pose proof (one_line_strip _ Hl) as Hol.
  assert (Hok : option_ok (strip k, strip v)).
  { assert (Hkv : one_line k /\ one_line v) by (by eapply py_split1_all). destruct Hkv as [Hk Hv].
    assert (Hkh : no_char "=" k = true) by (pose proof (py_split1_head_no_char "=" (strip line)) as H; by rewrite Es in H).
    split_and!; [by apply one_line_strip|apply strip_idemp| | |by apply one_line_strip|apply strip_idemp].
    - by apply str_forallb_rstrip, str_forallb_lstrip.
    - destruct (strip line) as [|a r] eqn:El; [done|].
      assert (Ha : is_space a = false) by (apply (strip_head a r); rewrite <- El; apply strip_idemp).
      cbn in Es. destruct (Ascii.eqb a "="); [by injection Es as <- _|].
      destruct (py_split1 "=" r) as [k' v']. injection Es as <- ->.
      destruct (strip_keeps_head a k' Ha) as [t ->]. cbn in *. by rewrite andb_true_r in *. }
  split; [by apply dict_set_wf|]. clear -Hok Hd.
  induction Hd as [|[k' v'] d Hkv Hd IH]; cbn; [constructor; [done|constructor]|].
  destruct (String.eqb_spec (strip k) k') as [<-|]; by constructor.
Qed.

Lemma parse_grub_options_ok text : options_ok (parse_grub_options text).
Proof.
  unfold parse_grub_options. pose proof (splitlines_one_line text) as Hl.
  assert (H : forall d, options_ok d -> options_ok (fold_left grub_option_line (splitlines text) d)).
  { induction Hl as [|l ls Hl Hls IH]; intros d Hd; [done|]. cbn [fold_left]. by apply IH, grub_option_line_ok. }
  apply H. split; constructor.
Qed.

Lemma options_ok_update d e : options_ok d -> Forall option_ok e -> options_ok (dict_update d e).
Proof.
  intros [Hwf Hd] He. split; [by apply dict_update_wf|]. unfold dict_update. clear Hwf. revert d Hd.
  induction He as [|[k v] e Hkv He IH]; intros d Hd; [done|]. cbn. apply IH.
  induction Hd as [|[k' v'] d Hkv' Hd' IHd]; cbn; [constructor; [done|constructor]|].
  destruct (String.eqb_spec k k') as [<-|]; by constructor.
Qed.

Lemma merged_options_ok d : options_ok d -> options_ok (merge_grub_options d).
Proof.
  intros Hd. assert (Hu : options_ok (dict_update d GRUB_DEFAULT_OPTIONS)).
  { apply options_ok_update; [done|]. repeat (constructor; [vm_compute; by split_and!|]). constructor. }
  unfold merge_grub_options, GRUB_BLACKLIST_OPTIONS. cbn [fold_left]. destruct Hu as [Hwf Hf].
  unfold dict_del. split; [by apply dict_keys_filter_NoDup|].
  apply List.Forall_forall. intros x Hx%filter_In. rewrite List.Forall_forall in Hf. by apply Hf, Hx.
Qed.

(** A printed option is read back. *)
Lemma read_printed_option d k v : option_ok (k, v) -> grub_option_line d (print_option (k, v)) = dict_set k v d.
Proof.
  intros (Hk1 & Hk & Hke & Hkh & Hv1 & Hv). unfold grub_option_line, print_option. cbn [fst snd].
  assert (Hs : strip (k +:+ "=" +:+ v)%string = (k +:+ "=" +:+ v)%string).
  { assert (Hkeq : lstrip_by is_space (k +:+ "=")%string = (k +:+ "=")%string).
    { destruct k as [|a k]; [done|]. apply (lstrip_by_keep _ _ EmptyString). cbn. by rewrite (strip_head a k Hk). }
    destruct (decide (v = EmptyString)) as [->|Hne].
    - rewrite str_app_nil_r. unfold strip. rewrite Hkeq. by apply rstrip_by_app.
    - rewrite <- str_app_assoc. apply strip_prefixed; [done| |done|done]. by destruct k. }
  rewrite Hs.
  assert (Ht : str_truthy (k +:+ "=" +:+ v)%string = true) by (by destruct k).
  assert (Hh : startswith "#" (k +:+ "=" +:+ v)%string = false) by (destruct k as [|a k0]; [done|exact Hkh]).
  rewrite Ht, Hh. cbn [negb orb]. change ("=" +:+ v)%string with (String "=" v). rewrite py_split1_app by done. by rewrite Hk, Hv.
Qed.

Lemma fold_printed_options l d :
  Forall option_ok l -> NoDup (dict_keys d ++ map fst l) ->
  fold_left grub_option_line (map print_option l) d = d ++ l.
Proof.
  intros Hl. revert d. induction Hl as [|[k v] l Hkv Hl IH]; intros d Hnd; [by rewrite app_nil_r|].
  cbn [map fold_left]. rewrite read_printed_option by done.
  assert (Hnew : k ∉ dict_keys d).
  { apply NoDup_app in Hnd as (_ & H & _). intros Hin. apply (H _ Hin). by left. }
  rewrite dict_set_new by done. rewrite IH; [by rewrite <- app_assoc|].
  unfold dict_keys in *. rewrite map_app, <- app_assoc. done.
Qed.

Lemma print_option_one_line kv : option_ok kv -> one_line (print_option kv).
Proof. destruct kv as [k v]. intros (Hk & _ & _ & _ & Hv & _). unfold print_option. cbn. apply one_line_app. split; [done|]. by apply one_line_app. Qed.

Lemma parse_printed_options d :
  options_ok d -> parse_grub_options (OTA_MANAGED_CFG_HEADER +:+ unlines (map print_option d))%string = d.
Proof.
  intros [Hwf Hd]. unfold parse_grub_options, OTA_MANAGED_CFG_HEADER. rewrite !str_app_assoc.
  rewrite !splitlines_cons by (vm_compute; reflexivity). rewrite splitlines_unlines.
  - change (fold_left grub_option_line (?a :: ?b :: ?l) []) with (fold_left grub_option_line l []).
    by rewrite fold_printed_options.
  - apply Forall_fmap. eapply Forall_impl; [exact Hd|]. intros kv. apply print_option_one_line.
Qed.

Lemma dict_get_update {V} k (d e : pydict V) :
  dict_wf e -> dict_get k (dict_update d e) = match dict_get k e with Some v => Some v | None => dict_get k d end.
Proof.
  unfold dict_update. revert d. induction e as [|[k' v'] e IH]; intros d He; [done|].
  inversion He as [|? ? Hk He']; subst. cbn [fold_left fst snd dict_get]. rewrite IH by done.
  rewrite dict_get_set. destruct (String.eqb_spec k k') as [->|Hne].
  - rewrite (proj2 (dict_get_None k' e)) by done. by rewrite String.eqb_refl.
  - destruct (dict_get k e); [done|]. by rewrite (proj2 (String.eqb_neq k' k)) by done.
Qed.

Lemma dict_get_merged k d :
  dict_get k (merge_grub_options d) =
  if bool_decide (k ∈ GRUB_BLACKLIST_OPTIONS) then None
  else match dict_get k GRUB_DEFAULT_OPTIONS with Some v => Some v | None => dict_get k d end.
Proof.
  unfold merge_grub_options, GRUB_BLACKLIST_OPTIONS. cbn [fold_left]. rewrite dict_get_del.
  destruct (String.eqb_spec "GRUB_SAVEDEFAULT" k) as [<-|Hne]; [by rewrite bool_decide_eq_true_2 by (by left)|].
  rewrite bool_decide_eq_false_2 by (by intros H%list_elem_of_singleton). apply dict_get_update.
  apply (bool_decide_unpack (NoDup _)). vm_compute. exact I.
Qed.

Lemma dict_set_same {V} k (v : V) d : dict_get k d = Some v -> dict_set k v d = d.
Proof.
  induction d as [|[k' v'] d IH]; cbn; [done|]. destruct (String.eqb_spec k k') as [->|]; [by intros [= ->]|].
  intros H. by rewrite IH.
Qed.

Lemma dict_del_absent {V} k (d : pydict V) : dict_get k d = None -> dict_del k d = d.
Proof.
  unfold dict_del. induction d as [|[k' v'] d IH]; cbn; [done|].
  destruct (String.eqb_spec k k') as [->|]; [done|]. cbn. intros H. by rewrite IH.
Qed.

Lemma dict_update_same {V} (d e : pydict V) :
  (forall k v, (k, v) ∈ e -> dict_get k d = Some v) -> dict_update d e = d.
Proof.
  unfold dict_update. induction e as [|[k v] e IH]; intros H; [done|]. cbn [fold_left fst snd].
  rewrite dict_set_same by (apply H; by left). apply IH. intros k' v' Hin. apply H. by right.
Qed.

Lemma default_option_merged k v d : (k, v) ∈ GRUB_DEFAULT_OPTIONS -> dict_get k (merge_grub_options d) = Some v.
Proof.
  intros Hkv.
  assert (Hwf : dict_wf GRUB_DEFAULT_OPTIONS) by (apply (bool_decide_unpack (NoDup _)); vm_compute; exact I).
  rewrite dict_get_merged, bool_decide_eq_false_2, (dict_In_get k v _ Hwf Hkv); [done|].
  intros ->%list_elem_of_singleton. apply dict_In_get in Hkv; [|done]. vm_compute in Hkv. discriminate.
Qed.

Lemma merge_idemp d : merge_grub_options (merge_grub_options d) = merge_grub_options d.
Proof.
  unfold merge_grub_options at 1. rewrite dict_update_same by (intros k v; apply default_option_merged).
  unfold GRUB_BLACKLIST_OPTIONS. cbn [fold_left]. apply dict_del_absent.
  rewrite dict_get_merged. by rewrite bool_decide_eq_true_2 by (by left).
Qed.

(** The rewritten [/etc/default/grub] sets what the boot control needs and
    nothing it forbids: every required option has its value, whatever the file
    said, no blacklisted option is left, and every other option keeps its last
    value; doing it again changes nothing. *)
Theorem grub_default_updated text :
  let d := parse_grub_options (update_grub_default text) in
  (forall k v, (k, v) ∈ GRUB_DEFAULT_OPTIONS -> dict_get k d = Some v) /\
  (forall k, k ∈ GRUB_BLACKLIST_OPTIONS -> dict_get k d = None) /\
  (forall k, k ∉ GRUB_BLACKLIST_OPTIONS -> k ∉ dict_keys GRUB_DEFAULT_OPTIONS ->
     dict_get k d = dict_get k (parse_grub_options text)) /\
  update_grub_default (update_grub_default text) = update_grub_default text.
Proof.
  cbn zeta.
  assert (Hp : parse_grub_options (update_grub_default text) = merge_grub_options (parse_grub_options text)).
  { apply parse_printed_options, merged_options_ok, parse_grub_options_ok. }
  rewrite Hp. split_and!.
  - intros k v. apply default_option_merged.
  - intros k Hk. by rewrite dict_get_merged, bool_decide_eq_true_2.
  - intros k Hb Hd. by rewrite dict_get_merged, bool_decide_eq_false_2, (proj2 (dict_get_None k _)).
  - unfold update_grub_default at 1. by rewrite Hp, merge_idemp.
Qed.

(** ** The entry that is found *)

Fixpoint count_char (c : ascii) (s : string) : nat :=
  match s with EmptyString => O | String a s => (if Ascii.eqb a c then 1 else 0) + count_char c s end.

Lemma close_brace_balanced depth s b :
  (0 < depth)%nat -> close_brace depth s = Some b ->
  count_char "}" b = (count_char "{" b + depth)%nat /\ exists r, s = (b +:+ r)%string.
Proof.
  revert depth b. induction s as [|a s IH]; intros depth b Hd H; [done|]. cbn [close_brace] in H.
  destruct (Ascii.eqb_spec a "{") as [->|Ho]; [|destruct (Ascii.eqb_spec a "}") as [->|Hc]].
  - cbn [Ascii.eqb Bool.eqb andb] in H. destruct (close_brace (S depth) s) as [b'|] eqn:E; [|done]. injection H as <-.
    destruct (IH (S depth) b' ltac:(lia) E) as (H1 & r & ->). split; [cbn; lia|]. by exists r.
  - destruct (bool_decide_reflect ((depth - 1)%nat = 0%nat)) as [Hz|Hz]; cbn [Ascii.eqb Bool.eqb andb] in H.
    + injection H as <-. split; [cbn; lia|]. by exists s.
    + destruct (close_brace (depth - 1) s) as [b'|] eqn:E; [|done]. injection H as <-.
      destruct (IH (depth - 1)%nat _ ltac:(lia) E) as (H1 & r & ->). split; [cbn; lia|]. by exists r.
  - cbn [andb] in H. destruct (close_brace depth s) as [b'|] eqn:E; [|done]. injection H as <-.
    destruct (IH _ _ Hd E) as (H1 & r & ->). split; [|by exists r]. cbn.
    by rewrite (proj2 (Ascii.eqb_neq _ _) Ho), (proj2 (Ascii.eqb_neq _ _) Hc).
Qed.

Lemma str_find_split c s n :
  str_find (String c EmptyString) s = Some n ->
  no_char c (str_take n s) = true /\ exists r, str_drop n s = String c r.
Proof.
  revert n. induction s as [|a s IH]; intros n H; [done|]. cbn [str_find startswith] in H. rewrite andb_true_r in H.
  destruct (Ascii.eqb_spec c a) as [->|Hne]; [injection H as <-; split; [done|by exists s]|].
  destruct (str_find _ s) as [m|]; [|done]. injection H as <-. destruct (IH m eq_refl) as [H1 [r H2]].
  split; [|by exists r]. unfold no_char in *. cbn [str_take str_forallb]. by rewrite (proj2 (Ascii.eqb_neq a c)), H1 by done.
Qed.

(** The entry taken from the output of [grub-mkconfig] is a whole one, for the
    requested kernel and not for recovery: its text from the first brace on
    has as many closing as opening braces and ends at the closing one. *)
Theorem found_entry_ok text kernel_ver block :
  find_menuentry text kernel_ver = Some block ->
  entry_kernel_ver block = Some kernel_ver /\
  exists head body, block = (head +:+ String "{" body)%string /\ no_char "{" head = true /\
    count_char "}" body = S (count_char "{" body).
Proof.
  unfold find_menuentry. generalize (menuentry_heads (S (String.length text)) true text) as heads.
  induction heads as [|h heads IH]; cbn [find_in_heads]; [done|].
  destruct (menuentry_block h) as [b|] eqn:E; [|done].
  destruct (bool_decide_reflect (entry_kernel_ver b = Some kernel_ver)) as [Hv|_]; [|done].
  intros [= ->]. split; [done|]. unfold menuentry_block in E. destruct (str_find _ h) as [n|] eqn:En; [|done].
  apply str_find_split in En as [Hn [r Hr]]. rewrite Hr in E. cbn [close_brace Ascii.eqb Bool.eqb andb] in E.
  destruct (close_brace 1 r) as [body|] eqn:Eb; [|done]. injection E as <-.
  apply close_brace_balanced in Eb as [Hb _]; [|lia]. exists (str_take n h), body. split_and!; [done|done|lia].
Qed.

Lemma fixup_fpath_idemp slot p : fixup_fpath slot (fixup_fpath slot p) = fixup_fpath slot p.
Proof.
  unfold fixup_fpath. destruct (startswith _ p) eqn:E; [by rewrite E|].
  rewrite <- (str_app_assoc "/" slot). by rewrite startswith_app.
Qed.

(** ** The kernel that is chosen *)

Lemma str_lt_trans a b c : str_lt a b = true -> str_lt b c = true -> str_lt a c = true.
Proof.
  revert b c. induction a as [|x a IH]; intros [|y b] [|z c]; try done. cbn.
  rewrite !orb_true_iff, !andb_true_iff, !N.ltb_lt. intros [H1|[H1%Ascii.eqb_eq H2]] [H3|[H3%Ascii.eqb_eq H4]]; subst.
  - left. lia.
  - by left.
  - by left.
  - right. split; [apply Ascii.eqb_refl|by eapply IH].
Qed.

Lemma str_lt_neq a b : str_lt a b = true -> a <> b.
Proof.
  revert b. induction a as [|x a IH]; intros [|y b]; cbn; try done. rewrite orb_true_iff, andb_true_iff, N.ltb_lt.
  intros [H|[_ H]] [= -> ->]; [lia|by apply (IH b)].
Qed.

Lemma str_lt_total a b : str_lt a b = true \/ a = b \/ str_lt b a = true.
Proof.
  revert b. induction a as [|x a IH]; intros [|y b]; cbn; auto.
  destruct (N.lt_trichotomy (N_of_ascii x) (N_of_ascii y)) as [H|[H|H]].
  - left. apply N.ltb_lt in H. by rewrite H.
  - assert (x = y) as <- by (rewrite <- (ascii_N_embedding x), <- (ascii_N_embedding y); by rewrite H).
    rewrite N.ltb_irrefl, Ascii.eqb_refl. cbn. destruct (IH b) as [E|[->|E]]; rewrite ?E; auto.
  - right. right. apply N.ltb_lt in H. by rewrite H.
Qed.

Lemma key_gt_trans a b c : key_gt a b = Some true -> key_gt b c = Some true -> key_gt a c = Some true.
Proof.
  revert b c. induction a as [|x a IH]; intros [|y b] [|z c]; try done; cbn [key_gt]; destruct x as [m|s]; try done;
    destruct y as [m'|s']; try done; destruct z as [m''|s'']; try done.
  - destruct (Z.eqb_spec m m'), (Z.eqb_spec m' m''), (Z.eqb_spec m m''); subst; try done; try lia; try apply IH;
      intros [= H1%Z.ltb_lt] [= H2%Z.ltb_lt]; try (f_equal; apply Z.ltb_lt); lia.
  - destruct (String.eqb_spec s s'), (String.eqb_spec s' s''), (String.eqb_spec s s''); subst; try done; try apply IH.
    + intros [= H1] [= H2]. by destruct (str_lt_neq _ _ (str_lt_trans _ _ _ H1 H2)).
    + intros [= H1] [= H2]. f_equal. by eapply str_lt_trans.
Qed.

(** Keys in ascending order can be compared, and are in order. *)
Lemma key_chain a b c : key_gt a b = Some false -> key_gt b c = Some false -> key_gt a c = Some false.
Proof.
  revert b c. induction a as [|x a IH]; intros [|y b] [|z c]; try done; cbn [key_gt]; destruct x as [m|s]; try done;
    destruct y as [m'|s']; try done; destruct z as [m''|s'']; try done.
  - destruct (Z.eqb_spec m m'), (Z.eqb_spec m' m''), (Z.eqb_spec m m''); subst; try done; try lia; try apply IH;
      intros [= H1%Z.ltb_ge] [= H2%Z.ltb_ge]; try (f_equal; apply Z.ltb_ge); lia.
  - destruct (String.eqb_spec s s'), (String.eqb_spec s' s''), (String.eqb_spec s s''); subst; try done; try apply IH.
    + intros [= H1] [= H2]. by destruct (str_lt_total s'' s') as [?|[?|?]]; congruence.
    + intros [= H1] [= H2]. f_equal. destruct (str_lt s'' s) eqn:E; [|done].
      destruct (str_lt_total s s') as [Hs|[Hs|Hs]]; [|congruence|congruence].
      by rewrite (str_lt_trans _ _ _ E Hs) in H2.
Qed.

(** The linear scan for the greatest key finds one that can be compared. *)
Lemma highest_version_total best l : all_comparable (best :: l) = true -> exists v, highest_version best l = KernelVer v.
Proof.
  intros H. assert (Hc : forall a b, a ∈ best :: l -> b ∈ best :: l -> key_gt (parse_kernel_ver_key a) (parse_kernel_ver_key b) <> None).
  { intros a b Ha Hb E. unfold all_comparable in H. rewrite forallb_forall in H. specialize (H a ltac:(by apply list_elem_of_In)).
    rewrite forallb_forall in H. specialize (H b ltac:(by apply list_elem_of_In)). by rewrite E in H. }
  clear H. revert best Hc. induction l as [|c l IH]; intros best Hc; cbn [highest_version]; [by eexists|].
  destruct (key_gt (parse_kernel_ver_key c) (parse_kernel_ver_key best)) as [[]|] eqn:E;
    [apply IH; intros a b ??; apply Hc; set_solver|apply IH; intros a b ??; apply Hc; set_solver|].
  by destruct (Hc c best ltac:(set_solver) ltac:(set_solver)).
Qed.

Lemma highest_version_ok best l v :
  highest_version best l = KernelVer v ->
  v ∈ best :: l /\
  (v = best \/ key_gt (parse_kernel_ver_key v) (parse_kernel_ver_key best) = Some true) /\
  forall c, c ∈ best :: l -> key_gt (parse_kernel_ver_key c) (parse_kernel_ver_key v) <> Some true.
Proof.
  assert (Hirr : forall k, key_gt k k <> Some true).
  { induction k as [|[n|s] k IH]; [done|cbn; by rewrite Z.eqb_refl|cbn; by rewrite String.eqb_refl]. }
  revert best. induction l as [|c l IH]; intros best H; cbn in H.
  { injection H as <-. split_and!; [by left|by left|]. by intros c ->%list_elem_of_singleton. }
  destruct (key_gt (parse_kernel_ver_key c) (parse_kernel_ver_key best)) as [[]|] eqn:E; [| |done];
    destruct (IH _ H) as (Hv & Hgt & Hall); (split; [set_solver|]).
  - split; [right; destruct Hgt as [->|Hgt]; [done|by eapply key_gt_trans]|].
    intros x Hx. apply elem_of_cons in Hx as [->|Hx]; [|by apply Hall]. intros Hb.
    apply (Hall c); [by left|]. by eapply key_gt_trans.
  - split; [done|]. intros x Hx. apply elem_of_cons in Hx as [->|Hx]; [apply Hall; by left|].
    apply elem_of_cons in Hx as [->|Hx]; [|apply Hall; by right]. intros Hc.
    destruct Hgt as [->|Hgt]; [by rewrite E in Hc|]. by rewrite (key_gt_trans _ _ _ Hc Hgt) in E.
Qed.

(** The kernel chosen for a slot is installed with its initramfs, and none of
    the installed ones is newer. *)
Theorem chosen_kernel_ok names v :
  detect_slot_kernel_ver names = KernelVer v ->
  v ∈ kernel_candidates names /\ (VMLINUZ_PREFIX +:+ v)%string ∈ names /\ (INITRD_PREFIX +:+ v)%string ∈ names /\
  forall c, c ∈ kernel_candidates names -> key_gt (parse_kernel_ver_key c) (parse_kernel_ver_key v) <> Some true.
Proof.
  unfold detect_slot_kernel_ver. destruct (kernel_candidates names) as [|c l] eqn:E; [done|].
  destruct (all_comparable (c :: l)); [|done]. intros (Hv & _ & Hall)%highest_version_ok. split; [done|]. rewrite <- E in Hv.
  apply list_elem_of_omap in Hv as (n & Hn & Hm). destruct (startswith VMLINUZ_PREFIX n) eqn:Es; [|done].
  cbv zeta in Hm. case_bool_decide as Hi; [|done].
  apply (inj Some) in Hm. rewrite <- Hm in *. split_and!; [|done|done].
  assert (Hsplit : forall p t, startswith p t = true -> (p +:+ str_drop (String.length p) t)%string = t).
  { clear. induction p as [|a p IH]; intros [|b t]; try done. cbn. intros [->%Ascii.eqb_eq H]%andb_true_iff.
    change (String b (p +:+ str_drop (String.length p) t) = String b t)%string. by rewrite IH. }
  by rewrite Hsplit.
Qed.

(** Two installed kernels one of which has a number where the other has a name
    cannot be compared: the selection ends in a [TypeError], and no kernel is
    found for the slot. *)
Example kernels_not_comparable :
  detect_slot_kernel_ver ["vmlinuz-5.15.0-1-generic"; "initrd.img-5.15.0-1-generic";
                          "vmlinuz-5.15.0-rt"; "initrd.img-5.15.0-rt"]%string = KernelTypeError.
Proof. vm_compute. reflexivity. Qed.
