(* ===== verification/GrubBoot.v ===== *)
(** * The GRUB boot controller

    Models [_GrubBootControl] and [GrubBootController] of
    [src/src/otaclient/boot_control/_grub_new.py] over the file system of
    [FileSystem] and the texts of [GrubCfg] and [GrubMenu].  A mounted slot is
    a subtree of the file system at its mount point; a bind mount of the
    running root file system is that root itself.  The external commands are
    parameters: [grub-mkconfig] and [grub-editenv] with what they read and
    print, [mount], [uname].  The OTA status files of a slot, which share its
    boot directory, are those of [OTAStatusControl]. *)

From stdpp Require Import base gmap strings list option sets.
From Stdlib Require Import ZArith Ascii String Lia.
From S2P Require Import Prelude Types Errors OTAStatusControl BootController FileSystem StatusFiles CopyTree OTAConfigFiles TextLines CertStore GrubCfg GrubMenu.

#[local] Set Default Proof Using "Type*".

(** The file system, and the bind mounts made for [chroot]. *)
Record grub : Type := mkGrub {
  g_fs : fsys;
  g_mounts : list path;
}.

#[export] Instance eta_grub : Eta grub := fun r => mkGrub (g_fs r) (g_mounts r).

Definition BOOT : path := ["boot"]%string.
Definition GRUB_DIR : path := ["boot"; "grub"]%string.
Definition GRUB_CFG_FPATH : path := ["boot"; "grub"; "grub.cfg"]%string.
Definition GRUBENV_FPATH : path := ["boot"; "grub"; "grubenv"]%string.
Definition FSTAB_FILE_PATH : path := ["etc"; "fstab"]%string.
Definition DEFAULT_GRUB_PATH : path := ["etc"; "default"; "grub"]%string.
Definition GRUB_HOOKS_DPATH : path := ["etc"; "grub.d"]%string.
Definition OTA_GRUB_HOOK_FNAME : string := "30_ota".
Definition UEFI_FIRMWARE_GRUB_HOOK_FNAME : string := "30_uefi-firmware".

(** The hooks that are written: texts of the configuration. *)
Definition OTA_GRUB_HOOK : string := unlines
  ["\"; "#!/bin/sh"; "cat <<EOF"; "if [ -f \${config_directory}/ota-slot_a.cfg ]; then";
   "    source \${config_directory}/ota-slot_a.cfg"; "fi"; "";
   "if [ -f \${config_directory}/ota-slot_b.cfg ]; then";
   "    source \${config_directory}/ota-slot_b.cfg"; "fi"; "EOF"]%string.
Definition UEFI_FIRMWARE_GRUB_HOOK_DISABLED : string := unlines
  ["#!/bin/sh"; "# This file has been replaced by otaclient to prevent the";
   "# " +:+ String double_quote ("UEFI Firmware Settings" +:+
     String double_quote " menuentry from being added to grub.cfg.");
   "# The file is also non-executable; this exit 0 is a belt-and-suspenders";
   "# guard in case something re-marks it executable."; "exit 0"]%string.

(** The hook does not start with the interpreter's line. *)
Example hook_shebang_not_first : splitlines OTA_GRUB_HOOK !! O = Some "\"%string /\ splitlines OTA_GRUB_HOOK !! 1%nat = Some "#!/bin/sh"%string.
Proof. by vm_compute. Qed.

Definition grub_exn (msg : string) (cause : option pyexn) : pyexn :=
  PyExn (XOther "GrubBootControllerError") [AStr msg] cause cause.
Definition value_error : pyexn := PyExn XValueError [] None None.

Definition get_boot_slot_dir (i : OTASlotBootID) : path := BOOT ++ [slot_id_str i].
Definition get_boot_cfg_fpath (i : OTASlotBootID) : path := GRUB_DIR ++ [(slot_id_str i +:+ ".cfg")%string].
Definition legacy_compat_dir_for_slot (ab : ABPartition) (i : OTASlotBootID) : path :=
  BOOT ++ [ab_old_slot_id_mapping ab i].

Section Grub.
Context (fault : path -> bool).
Context (hash_new : string -> option (string -> string)).
Context (release_tuple : string -> option (list Z)) (running_version : string).
(** [grub-mkconfig] with [chroot] to the mount point and [/boot] bound to the
    boot source; [grub-mkconfig --version]: what is printed, unless it fails. *)
Context (grub_mkconfig : fsys -> path -> path -> option string).
Context (mkconfig_version : fsys -> path -> option string).
(** [grub-editenv <tmp> set ...]: the file it writes; [grub-editenv <tmp> list]. *)
Context (editenv_set : list string -> option string) (editenv_list : string -> option string).
(** [mount -o bind] at the path, or [umount] of it, fails. *)
Context (mount_fails umount_fails : path -> bool).
(** [uname -r] *)
Context (uname_r : option string).

Abbreviation GR := (PyM grub pyexn).

Definition on_fs {A} (m : PyM fsys pyexn A) : GR A := fun g =>
  let '(s, r) := m (g_fs g) in (g <| g_fs := s |>, r).
Definition fs_gets {A} (f : fsys -> A) : GR A := gets (fun g => f (g_fs g)).

(** ** Start-up *)

Definition grub_cfg_file_of (s : fsys) : grub_cfg_file :=
  if is_symlink s GRUB_CFG_FPATH then GLink
  else if negb (exists_at s GRUB_CFG_FPATH) then GMissing
  else if fault GRUB_CFG_FPATH then GUnreadable
  else match read_file s GRUB_CFG_FPATH with Some t => GText t | None => GUnreadable end.

Definition setup_case : GR GrubBootControlSetupCase :=
  fs_gets (fun s => detect_boot_control_setup_case hash_new release_tuple running_version (grub_cfg_file_of s)).

(** ** Commands *)

(** The version in [(GRUB) <version>]: [\(GRUB\)\s+(?P<ver>[\w.\-]+)]. *)
Definition is_ver_char (a : ascii) : bool := is_word a || Ascii.eqb a "." || Ascii.eqb a "-".
Definition match_grub_version (s : string) : option string :=
  let rest := str_drop (String.length "(GRUB)") s in
  match rest with
  | String a _ =>
      if startswith "(GRUB)" s && is_space a then
        match fst (str_span is_ver_char (lstrip_by is_space rest)) with EmptyString => None | v => Some v end
      else None
  | EmptyString => None
  end.
Fixpoint search_grub_version (s : string) : option string :=
  match match_grub_version s with
  | Some v => Some v
  | None => match s with String _ s => search_grub_version s | EmptyString => None end
  end.

Definition detect_grub_version (stdout : option string) : string :=
  match stdout with
  | None | Some EmptyString => "unknown_grub_version"
  | Some out => default out (search_grub_version out)
  end.

(** [prepare_chroot_env]: whatever happens inside, all of its mounts are
    undone, as far as [umount] can. *)
Definition chroot_mounts (slot_mp : path) : list path :=
  map (fun d => slot_mp ++ [d]) ["proc"; "sys"; "dev"; "boot"]%string.

Fixpoint mount_binds (l : list path) : GR unit :=
  match l with
  | [] => mret tt
  | mp :: l =>
      if mount_fails mp then raise (PyExn (XOther "CalledProcessError") [] None None)
      else _ ← modify (fun g => g <| g_mounts := mp :: g_mounts g |>); mount_binds l
  end.

Definition umount_binds (l : list path) : GR unit :=
  modify (fun g => g <| g_mounts := List.filter (fun m => negb (bool_decide (m ∈ l)) || umount_fails m) (g_mounts g) |>).

Definition prepare_chroot_env {A} (slot_mp : path) (body : GR A) : GR A :=
  try_finally (_ ← mount_binds (chroot_mounts slot_mp); body) (umount_binds (chroot_mounts slot_mp)).

Definition grub_mkconfig_on_mp (slot_mp boot_source : path) : GR string :=
  prepare_chroot_env slot_mp
    (out ← fs_gets (fun s => grub_mkconfig s slot_mp boot_source);
     match out with
     | Some t => mret t
     | None => raise (grub_exn "grub-mkconfig failed" (Some (PyExn (XOther "CalledProcessError") [] None None)))
     end).

Definition env_options (stdout : string) : list string :=
  List.filter str_truthy (map strip (splitlines stdout)).

(** [_write_grubenv_atomic]: the new file replaces [grubenv] only when it
    lists exactly the options. *)
Definition write_grubenv_atomic (options : list string) : GR unit :=
  match editenv_set options with
  | None => raise (PyExn (XOther "CalledProcessError") [] None None)
  | Some content =>
      match editenv_list content with
      | None => raise (PyExn (XOther "CalledProcessError") [] None None)
      | Some stdout =>
          if bool_decide (list_to_set (env_options stdout) =@{gset string} list_to_set options)
          then on_fs (replace_by_new fault GRUBENV_FPATH (mkIFile content DEFAULT_FILE_MODE))
          else raise value_error
      end
  end.

Definition as_grub_error {A} (msg : string) (m : GR A) : GR A :=
  try_except m (fun e => if is_exception e then raise (grub_exn msg (Some e)) else raise e).

Definition grub_set_default_atomic (i : OTASlotBootID) : GR unit :=
  as_grub_error "failed to configure default boot slot"
    (write_grubenv_atomic [("saved_entry=" +:+ slot_id_str i)%string]).

Definition grub_reboot (next_slot current_slot : OTASlotBootID) : GR unit :=
  as_grub_error "failed to configure default boot slot"
    (write_grubenv_atomic ["saved_entry=" +:+ slot_id_str current_slot; "next_entry=" +:+ slot_id_str next_slot]%string).

Context (ab : ABPartition).

Definition grub_reboot_to_standby : GR unit := grub_reboot (ab_standby_slot ab) (ab_current_slot ab).

Definition finalize_update_switch_boot : GR bool :=
  as_grub_error "failed to finalize switch boot" (_ ← grub_set_default_atomic (ab_current_slot ab); mret true).

(** ** Preparing a slot *)

Definition boot_file_names (ver : string) : list string := [VMLINUZ_PREFIX +:+ ver; INITRD_PREFIX +:+ ver]%string.

Fixpoint for_each {A} (f : A -> GR unit) (l : list A) : GR unit :=
  match l with [] => mret tt | x :: l => _ ← f x; for_each f l end.

(** A boot file is exposed at the root of [/boot] by a hard link. *)
Definition expose_at_boot (slot_file : path) (name : string) : GR unit :=
  _ ← on_fs (remove_file fault (BOOT ++ [name]));
  on_fs (os_link fault slot_file (BOOT ++ [name])).

Definition setup_boot_slot_dir (kernel_ver : string) (i : OTASlotBootID) (slot_mp : path) : GR unit :=
  for_each (fun name =>
    let f := slot_mp ++ ["boot"; name]%string in
    ok ← fs_gets (fun s => is_file s f && negb (is_symlink s f));
    if ok : bool then
      _ ← on_fs (copyfile_atomic fault f (get_boot_slot_dir i ++ [name]) true);
      expose_at_boot (get_boot_slot_dir i ++ [name]) name
    else mret tt) (boot_file_names kernel_ver).

(** The version a file of [/boot] belongs to. *)
Definition boot_file_ver (name : string) : option string :=
  if startswith VMLINUZ_PREFIX name then Some (str_drop (String.length VMLINUZ_PREFIX) name)
  else if startswith INITRD_PREFIX name then Some (str_drop (String.length INITRD_PREFIX) name)
  else None.

Definition cleanup_old_boot_root_files (active_kernel_ver standby_kernel_ver : string) : GR unit :=
  names ← fs_gets (fun s => dir_names s BOOT);
  for_each (fun name =>
    ok ← fs_gets (fun s => is_file s (BOOT ++ [name]) && negb (is_symlink s (BOOT ++ [name])));
    match boot_file_ver name with
    | Some ver =>
        if (ok : bool) && negb (bool_decide (ver = active_kernel_ver \/ ver = standby_kernel_ver))
        then on_fs (remove_file fault (BOOT ++ [name])) else mret tt
    | None => mret tt
    end) names.

Definition disable_uefi_firmware_grub_hook (slot_mp : path) : GR unit :=
  let hook := slot_mp ++ GRUB_HOOKS_DPATH ++ [UEFI_FIRMWARE_GRUB_HOOK_FNAME] in
  there ← fs_gets (fun s => is_symlink s hook || exists_at s hook);
  if there : bool then
    _ ← on_fs (remove_file fault hook);
    _ ← on_fs (write_str_to_file_atomic fault hook UEFI_FIRMWARE_GRUB_HOOK_DISABLED false);
    on_fs (chmod hook 416)
  else mret tt.

Definition setup_slot_rootfs_for_ota_boot (slot_fsuuid : string) (slot_mp : path)
    (reference_fstab : option string) : GR unit :=
  let fstab := slot_mp ++ FSTAB_FILE_PATH in
  base_fstab ← on_fs (read_str_from_file fault fstab None);
  _ ← on_fs (write_str_to_file_atomic fault fstab (generate_fstab ab base_fstab reference_fstab slot_fsuuid) false);
  let grub_default := slot_mp ++ DEFAULT_GRUB_PATH in
  text ← on_fs (read_str_from_file fault grub_default None);
  _ ← on_fs (write_str_to_file_atomic fault grub_default (update_grub_default text) false);
  let hook := slot_mp ++ GRUB_HOOKS_DPATH ++ [OTA_GRUB_HOOK_FNAME] in
  _ ← on_fs (write_str_to_file_atomic fault hook OTA_GRUB_HOOK false);
  _ ← on_fs (chmod hook 488);
  disable_uefi_firmware_grub_hook slot_mp.

Definition setup_ota_boot_cfg_for_slot (kernel_ver : string) (i : OTASlotBootID) (slot_mp : path) : GR unit :=
  raw ← grub_mkconfig_on_mp slot_mp (get_boot_slot_dir i);
  match generate_menuentry raw (slot_id_str i) kernel_ver with
  | None => raise value_error
  | Some entry => on_fs (write_str_to_file_atomic fault (get_boot_cfg_fpath i) entry false)
  end.

(** ** Bootstrapping *)

(** [_bootstrap_retrieve_booted_kernel_initramfs]: the version and the
    directory it is found in. *)
Definition bootstrap_retrieve_booted_kernel_initramfs : GR (string * path) :=
  match uname_r with
  | None | Some EmptyString => raise (grub_exn "failed to detect booted kernel version by uname!" None)
  | Some ver =>
      s ← fs_gets id;
      let has d := forallb (fun n => is_file s (d ++ [n])) (boot_file_names ver) in
      match List.find has [BOOT; get_boot_slot_dir (ab_current_slot ab);
                           legacy_compat_dir_for_slot ab (ab_current_slot ab)] with
      | Some d => mret (ver, d)
      | None => raise (grub_exn "failed to find booted linux image and/or initrd image!" None)
      end
  end.

Definition bootstrap_setup_boot_slot_dir (ver : string) (location : path) : GR unit :=
  let slot_dir := get_boot_slot_dir (ab_current_slot ab) in
  _ ← on_fs (mkdir_parents fault (slot_dir ++ ["grub"%string]));
  _ ← for_each (fun n =>
        if bool_decide (location = slot_dir) then mret tt
        else on_fs (copyfile_atomic fault (location ++ [n]) (slot_dir ++ [n]) true)) (boot_file_names ver);
  for_each (fun n => expose_at_boot (slot_dir ++ [n]) n) (boot_file_names ver).

(** The temporary directory of [_bootstrap_manage_boot_control]. *)
Definition bootstrap_source : path := BOOT ++ ["._ota_bootstrap"%string].

Definition bootstrap_manage_boot_control (slot_mp : path) : GR unit :=
  _ ← on_fs (mkdir_parents fault (bootstrap_source ++ ["grub"%string]));
  try_finally
    (raw ← grub_mkconfig_on_mp slot_mp bootstrap_source;
     version ← fs_gets (fun s => mkconfig_version s slot_mp);
     let managed := new_OTAManagedCfg hash_new (strip raw) (detect_grub_version version) running_version in
     _ ← grub_set_default_atomic (ab_current_slot ab);
     on_fs (write_str_to_file_atomic fault GRUB_CFG_FPATH (export_cfg managed) false))
    (modify (fun g => g <| g_fs := remove_tree bootstrap_source (g_fs g) |>)).

Definition cleanup_old_grub_top_level_artifacts : GR unit :=
  for_each (fun n => on_fs (remove_file fault (BOOT ++ [n])))
    ["vmlinuz-ota"; "initrd.img-ota"; "vmlinuz-ota.standby"; "initrd.img-ota.standby";
     LEGACY_OTA_PARTITION_FNAME]%string.

Definition bootstrap_setup_rootfs_for_ota_boot (slot_mp : path) : GR unit :=
  fstab ← on_fs (read_str_from_file fault (slot_mp ++ FSTAB_FILE_PATH) None);
  setup_slot_rootfs_for_ota_boot (si_uuid (get_slot_info ab (ab_current_slot ab))) slot_mp (Some fstab).

(** The bind mount of the root file system: what is below it is the root. *)
Definition MOUNT_SPACE : path := ["run"; "otaclient"; "mnt"]%string.
Definition bootstrap_mnt : path := MOUNT_SPACE ++ [".ota_bootstrap_mnt"%string].
Definition bootstrap_slot_mp : path := [].

Definition bootstrap_boot_control : GR unit :=
  found ← bootstrap_retrieve_booted_kernel_initramfs;
  let '(ver, location) := found in
  _ ← on_fs (mkdir_parents fault MOUNT_SPACE);
  _ ← bootstrap_setup_boot_slot_dir ver location;
  _ ← mount_binds [bootstrap_mnt];
  _ ← try_finally
        (_ ← bootstrap_setup_rootfs_for_ota_boot bootstrap_slot_mp;
         _ ← setup_ota_boot_cfg_for_slot ver (ab_current_slot ab) bootstrap_slot_mp;
         bootstrap_manage_boot_control bootstrap_slot_mp)
        (umount_binds [bootstrap_mnt]);
  cleanup_old_grub_top_level_artifacts.

(** ** Living with the old controller *)

Definition migrate_from_old_grub_control : GR unit :=
  let active := ab_current_slot ab in
  let src_dir := legacy_compat_dir_for_slot ab active in
  let dst_dir := get_boot_slot_dir active in
  _ ← on_fs (mkdir_parents fault dst_dir);
  _ ← for_each (fun n =>
        ok ← fs_gets (fun s => is_file s (src_dir ++ [n]) && negb (is_symlink s (src_dir ++ [n])));
        if ok : bool then
          _ ← on_fs (remove_file fault (dst_dir ++ [n]));
          on_fs (os_link fault (src_dir ++ [n]) (dst_dir ++ [n]))
        else mret tt) [OTA_STATUS_FNAME; OTA_VERSION_FNAME; OTA_VERSION_DETAIL_FNAME];
  old ← on_fs (read_str_from_file fault (src_dir ++ [SLOT_IN_USE_FNAME]) (Some EmptyString));
  if negb (str_truthy (strip old)) then mret tt
  else
    on_fs (write_str_to_file_atomic fault (dst_dir ++ [SLOT_IN_USE_FNAME])
             (slot_id_str (from_old_slot_id (ab_old_slot_id_mapping ab) active (strip old))) true).

Definition mirror_entry (i : OTASlotBootID) (name : string) : GR unit :=
  let src := get_boot_slot_dir i ++ [name] in
  let dst := legacy_compat_dir_for_slot ab i ++ [name] in
  s ← fs_gets id;
  if String.eqb name SLOT_IN_USE_FNAME then
    new_value ← on_fs (read_str_from_file fault src (Some EmptyString));
    if negb (str_truthy (strip new_value)) then mret tt
    else
      _ ← on_fs (remove_file fault dst);
      on_fs (write_str_to_file_atomic fault dst
               (to_old_slot_id (ab_old_slot_id_mapping ab) (ab_current_slot ab) (strip new_value)) true)
  else
    match lstat s src with
    | Some (FsLink target) => _ ← on_fs (remove_file fault dst); on_fs (symlink_atomic fault dst target)
    | Some (FsDir _ _) => mret tt
    | Some (FsFile _) => _ ← on_fs (remove_file fault dst); on_fs (os_link fault src dst)
    | None => mret tt
    end.

Definition mirror_legacy_compat_for_slot (i : OTASlotBootID) : GR unit :=
  let dst := legacy_compat_dir_for_slot ab i in
  _ ← on_fs (mkdir_parents fault dst);
  seen ← fs_gets (fun s => dir_names s (get_boot_slot_dir i));
  _ ← for_each (mirror_entry i) seen;
  there ← fs_gets (fun s => dir_names s dst);
  for_each (fun n => if bool_decide (n ∈ seen) then mret tt else on_fs (remove_file fault (dst ++ [n]))) there.

Definition wipe_legacy_compat_for_slot (i : OTASlotBootID) : GR unit :=
  on_fs (remove_file fault (legacy_compat_dir_for_slot ab i)).

Definition ensure_legacy_compat_for_current_slot : GR unit :=
  there ← fs_gets (fun s => exists_at s (legacy_compat_dir_for_slot ab (ab_current_slot ab)));
  if there : bool then mret tt else mirror_legacy_compat_for_slot (ab_current_slot ab).

(** [Path(cfg.EFI_DPATH).mkdir(exist_ok=True)] *)
Definition EFI_DIR : path := ["boot"; "efi"]%string.
(** [_GrubBootControl.__init__], after the slots are detected: whether the
    OTA status files are to be reset. *)
Definition init_grub_boot_control : GR bool :=
  _ ← (if ab_is_uefi ab then on_fs (mkdir_exist_ok fault EFI_DIR) else mret tt);
  case ← setup_case;
  match case with
  | MIGRATE_FROM_OLD => _ ← migrate_from_old_grub_control; _ ← bootstrap_boot_control; mret false
  | GRUB_REGENERATE_REQUESTED => _ ← bootstrap_boot_control; mret false
  | FRESH => _ ← bootstrap_boot_control; mret true
  | ALREADY_NEW => mret false
  end.

(** ** [GrubBootController.__init__] *)

(** How the JSON files among the status files are read. *)
Context (parse_version_detail : string -> json_file string) (parse_failure_info : string -> json_file jval).

Definition on_status_files {A} (m : GR A) : PyM (control * grub) pyexn A := fun s =>
  let '(g, r) := m (snd s) in (fst s, g, r).

Definition init_grub_boot_controller (dynamic_app : bool) : PyM (control * grub) pyexn unit :=
  try_except
    (resetup_requested ← on_status_files init_grub_boot_control;
     let dir_of i := get_boot_slot_dir i in
     _ ← modify (fun '(_, g) =>
           (mkControl (slot_id_str (ab_current_slot ab)) (slot_id_str (ab_standby_slot ab))
              (status_dir_at parse_version_detail parse_failure_info (g_fs g) (dir_of (ab_current_slot ab)))
              (status_dir_at parse_version_detail parse_failure_info (g_fs g) (dir_of (ab_standby_slot ab)))
              (Z.of_nat (fs_next (g_fs g))) INITIALIZED, g));
     before ← gets (fun cg => cur_dir (fst cg));
     _ ← init_control_run resetup_requested dynamic_app finalize_update_switch_boot;
     after ← gets (fun cg => cur_dir (fst cg));
     _ ← on_status_files (on_fs (store_status_dir fault (dir_of (ab_current_slot ab)) before after));
     on_status_files ensure_legacy_compat_for_current_slot)
    (fun e =>
       if is_exception e
       then raise (ota_error (Unrec BootControlStartupFailed)
                     ("failed on start grub boot controller: " +:+ exn_repr e)%string grub_new_module (Some e))
       else raise e).

(** ** The hooks of [GrubBootController] *)

Context (standby_mp active_mp : path).
(** [prepare_standby_dev], [mount_standby], [mount_active] of the mount
    helper. *)
Context (prepare_standby_dev : bool -> string -> GR unit) (mount_standby_dev mount_active_dev : GR unit).

Definition grub_pre_update_prepare_standby (erase_standby : bool) : GR unit :=
  prepare_standby_dev erase_standby (si_uuid (get_slot_info ab (ab_standby_slot ab))).

(** The standby slot's boot directory starts over, its status files with it;
    the status file of the old controller is set too, when there is one. *)
Definition grub_pre_update_platform_specific : GR unit :=
  let slot_dir := get_boot_slot_dir (ab_standby_slot ab) in
  _ ← on_fs (remove_file fault slot_dir);
  _ ← on_fs (mkdir_parents fault (slot_dir ++ ["grub"%string]));
  _ ← on_fs (remove_file fault (get_boot_cfg_fpath (ab_standby_slot ab)));
  let legacy := legacy_compat_dir_for_slot ab (ab_current_slot ab) in
  there ← fs_gets (fun s => is_dir s legacy);
  if there : bool then
    try_except (on_fs (write_str_to_file_atomic fault (legacy ++ [OTA_STATUS_FNAME]) (OTAStatus_name FAILURE) true))
      (fun e => if is_exception e then mret tt else raise e)
  else mret tt.

(** What the config files are installed with: failures of writing, reading
    and restoring them, the contents links lead to. *)
Context (write_fails read_fails restore_fails : string -> bool) (link_content : string -> option string).

Definition slot_boot_names (s : fsys) (slot_mp : path) : list string :=
  List.filter (fun n => is_file s (slot_mp ++ ["boot"; n]%string) || startswith VMLINUZ_PREFIX n)
    (dir_names s (slot_mp ++ ["boot"%string])).

Definition on_grub {A} (m : GR A) : PyM (option tree * grub) pyexn A := on_platform m.

Definition grub_post_update_platform_specific (ota_config_files : OTAConfigFiles) :
    PyM (option tree * grub) pyexn unit :=
  names ← on_grub (fs_gets (fun s => slot_boot_names s standby_mp));
  kernel_ver ← (match detect_slot_kernel_ver names with
                | KernelVer v => mret v
                | NoKernel => raise (grub_exn "no kernel installation found" None)
                | KernelTypeError => raise (PyExn (XOther "TypeError") [] None None)
                end);
  match uname_r with
  | None | Some EmptyString => raise (grub_exn "failed to detect active kernel version via uname" None)
  | Some active_kernel_ver =>
      _ ← on_grub (cleanup_old_boot_root_files active_kernel_ver kernel_ver);
      let standby := ab_standby_slot ab in
      _ ← raise_as_ota_error (BootCtl BootControlBootConfigUpdateFailed)
            "failed to setup boot files and boot config for standby slot" grub_new_module
            (on_grub
               (_ ← setup_boot_slot_dir kernel_ver standby standby_mp;
                _ ← wipe_legacy_compat_for_slot standby;
                fstab ← on_fs (read_str_from_file fault (active_mp ++ FSTAB_FILE_PATH) None);
                _ ← setup_slot_rootfs_for_ota_boot (si_uuid (get_slot_info ab standby)) standby_mp (Some fstab);
                setup_ota_boot_cfg_for_slot kernel_ver standby standby_mp));
      install_new_ota_config_files_and_switch_boot write_fails read_fails restore_fails link_content
        grub_reboot_to_standby ota_config_files
  end.

(** The hooks as the interface of the base class has them.  The status files
    of the standby slot are in its boot directory: starting that over drops
    them, and the other hooks do not write them. *)
Context (umount_slots : grub -> grub).

Definition as_hook {A} (m : PyM (option tree * grub) pyexn A) : PyM (option tree * grub * status_dir) pyexn A :=
  fun s => let '(p, r) := m (fst s) in (p, snd s, r).

Definition pre_update_hook : hook (option tree * grub) := fun s =>
  let '(p, r) := on_grub grub_pre_update_platform_specific (fst s) in
  let slot_dir := get_boot_slot_dir (ab_standby_slot ab) in
  (p, (if fault slot_dir then snd s else absent_dir) <| sd_exists := is_dir (g_fs (snd p)) slot_dir |>, r).

Lemma as_hook_keeps_status {A} (m : PyM (option tree * grub) pyexn A) p d : snd (fst (as_hook m (p, d))) = d.
Proof. unfold as_hook. cbn [fst snd]. by destruct (m p). Qed.

Definition grub_hooks : PlatformHooks (option tree * grub) OTAConfigFiles := {|
  hook_module := grub_new_module;
  default_config := no_config_files;
  pre_update_prepare_standby erase_standby := as_hook (on_grub (grub_pre_update_prepare_standby erase_standby));
  mount_standby := as_hook (on_grub mount_standby_dev);
  mount_active := as_hook (on_grub mount_active_dev);
  pre_update_platform_specific _ _ := pre_update_hook;
  post_update_platform_specific _ cfg := as_hook (grub_post_update_platform_specific cfg);
  umount_all p := (fst p, umount_slots (snd p));
  post_hook_keeps_status v cfg p d := as_hook_keeps_status _ p d;
|}.

(** ** Lemmas *)

(** [/boot] and [/boot/grub] are directories. *)
Definition boot_dirs (s : fsys) : Prop :=
  (exists u m, fs_get s BOOT = Some (FsDir u m)) /\ (exists u m, fs_get s GRUB_DIR = Some (FsDir u m)).

Lemma boot_dirs_plain s : boot_dirs s -> plain s GRUB_DIR.
Proof.
  intros [(u & m & H1) (u' & m' & H2)]. split.
  - repeat constructor; done.
  - intros q t Hq. destruct q as [|a [|b [|c q]]]; [done| | |].
    + apply prefix_cons_inv_1 in Hq as ->. fold BOOT. by rewrite H1.
    + pose proof (prefix_cons_inv_1 _ _ _ _ Hq) as ->. apply prefix_cons_inv_2 in Hq.
      apply prefix_cons_inv_1 in Hq as ->. fold GRUB_DIR. by rewrite H2.
    + apply prefix_length in Hq. cbn in Hq. lia.
Qed.

Lemma on_fs_ok {A} (m : PyM fsys pyexn A) g g' a :
  on_fs m g = (g', Ok a) -> exists s', m (g_fs g) = (s', Ok a) /\ g' = g <| g_fs := s' |>.
Proof. unfold on_fs. destruct (m _) as [s' r]. intros [= <- ->]. eauto. Qed.

Lemma replace_by_new_inv p c f s s' :
  replace_by_new fault (p ++ [c]) f s = (s', Ok tt) ->
  exists q, q <> [] /\ located s (p ++ [c]) = Some q /\ fault (p ++ [c]) = false /\ s' = put_new_file q f s.
Proof.
  intros H. unfold replace_by_new in H. apply pym_bind_ok in H as (s1 & q & H1 & H).
  unfold entry_place in H1. apply pym_bind_ok in H1 as (s2 & ? & Hg & H1). injection Hg as <- <-.
  destruct (fault _); [done|]. destruct (located s (p ++ [c])) as [q'|] eqn:El; [|done].
  destruct (fs_get s (removelast q')) as [[| u m |]|]; try done. injection H1 as <- <-.
  apply pym_bind_ok in H as (s2 & ? & Hg & H). injection Hg as <- <-.
  exists q'. split_and!; [|done|done|destruct (fs_get s q') as [[]|]; try done; by injection H as <-].
  unfold located in El. rewrite last_snoc in El. destruct (realpath _ _) as [d|]; [|done].
  injection El as <-. by destruct d.
Qed.

(** A file written in [/boot/grub]; the hypothesis is on the state after it. *)
Lemma replace_in_grub_dir c f s s' :
  replace_by_new fault (GRUB_DIR ++ [c]) f s = (s', Ok tt) -> boot_dirs s' ->
  boot_dirs s /\ fault (GRUB_DIR ++ [c]) = false /\ s' = put_new_file (GRUB_DIR ++ [c]) f s.
Proof.
  intros H Hd. apply replace_by_new_inv in H as (q & Hq & El & Hf & ->).
  assert (boot_dirs s) as Hs.
  { destruct Hd as [(u & m & H1) (u' & m' & H2)]. rewrite fs_get_new in H1, H2 by done.
    destruct (decide _) in H1; [done|]. destruct (decide _) in H2; [done|]. split; eauto. }
  rewrite located_plain in El by (by apply boot_dirs_plain). by simplify_eq.
Qed.

Lemma write_in_grub_dir c text s s' :
  write_str_to_file_atomic fault (GRUB_DIR ++ [c]) text false s = (s', Ok tt) -> boot_dirs s' ->
  boot_dirs s /\ fault (GRUB_DIR ++ [c]) = false /\
  s' = put_new_file (GRUB_DIR ++ [c]) (mkIFile text DEFAULT_FILE_MODE) s.
Proof. apply replace_in_grub_dir. Qed.

Lemma as_grub_error_ok {A} msg (m : GR A) g g' a : as_grub_error msg m g = (g', Ok a) -> m g = (g', Ok a).
Proof. apply try_except_ok. intros e s1 a1. by destruct (is_exception e). Qed.

(** [grubenv] after a write that returned. *)
Lemma write_grubenv_ok options g g' :
  write_grubenv_atomic options g = (g', Ok tt) -> boot_dirs (g_fs g') ->
  exists content stdout,
    boot_dirs (g_fs g) /\
    g' = g <| g_fs := put_new_file GRUBENV_FPATH (mkIFile content DEFAULT_FILE_MODE) (g_fs g) |> /\
    editenv_list content = Some stdout /\ (forall o, o ∈ env_options stdout <-> o ∈ options).
Proof.
  intros H Hd. unfold write_grubenv_atomic in H. destruct (editenv_set options) as [content|]; [|done].
  destruct (editenv_list content) as [stdout|] eqn:El; [|done].
  destruct (bool_decide_reflect (list_to_set (env_options stdout) =@{gset string} list_to_set options)) as [Hs|]; [|done].
  apply on_fs_ok in H as (s' & H & ->). apply (replace_in_grub_dir "grubenv") in H as (Hd' & _ & ->); [|done].
  exists content, stdout. split_and!; [done|done|done|]. intros o.
  rewrite <- (elem_of_list_to_set (C := gset string)), Hs. by rewrite elem_of_list_to_set.
Qed.

Lemma install_and_switch_ok cfg d g d' g' :
  install_new_ota_config_files_and_switch_boot write_fails read_fails restore_fails link_content
    grub_reboot_to_standby cfg (d, g) = (d', g', Ok tt) ->
  grub_reboot_to_standby g = (g', Ok tt).
Proof.
  intros H. unfold install_new_ota_config_files_and_switch_boot in H.
  apply pym_bind_ok in H as ([d1 g1] & ? & H1 & H). injection H1 as <- <- <-.
  apply pym_bind_ok in H as ([d1 g1] & backup & H1 & H). injection H1 as <- <- _.
  apply try_except_ok in H; [|intros e s1 a1; by destruct (negb _)].
  apply pym_bind_ok in H as ([d1 g1] & [] & H1 & H).
  apply raise_as_ok in H1, H. unfold on_ota_dir, on_platform in *. cbn [fst snd] in *.
  destruct (install_ota_config_files _ _ _) as [d2 r]. injection H1 as <- <- ->.
  destruct (grub_reboot_to_standby g) as [g2 r2]. by injection H as <- <- ->.
Qed.

Lemma on_grub_ok {A} (m : GR A) d g d' g' a :
  on_grub m (d, g) = (d', g', Ok a) -> d' = d /\ m g = (g', Ok a).
Proof. unfold on_grub, on_platform. cbn [fst snd]. destruct (m g). by intros [= -> -> ->]. Qed.

Lemma setup_ota_boot_cfg_ok ver i mp g g' :
  setup_ota_boot_cfg_for_slot ver i mp g = (g', Ok tt) -> boot_dirs (g_fs g') ->
  exists g1 raw entry, grub_mkconfig_on_mp mp (get_boot_slot_dir i) g = (g1, Ok raw) /\
    generate_menuentry raw (slot_id_str i) ver = Some entry /\
    g' = g1 <| g_fs := put_new_file (get_boot_cfg_fpath i) (mkIFile entry DEFAULT_FILE_MODE) (g_fs g1) |>.
Proof.
  intros H Hd. apply pym_bind_ok in H as (g1 & raw & H1 & H).
  destruct (generate_menuentry raw _ ver) as [entry|] eqn:Em; [|done].
  apply on_fs_ok in H as (s' & H & ->). apply write_in_grub_dir in H as (_ & _ & ->); [|done].
  by exists g1, raw, entry.
Qed.

Lemma mkconfig_output mp src g g' raw :
  grub_mkconfig_on_mp mp src g = (g', Ok raw) ->
  g_fs g' = g_fs g /\ grub_mkconfig (g_fs g) mp src = Some raw.
Proof.
  unfold grub_mkconfig_on_mp, prepare_chroot_env, umount_binds. rewrite try_finally_ok.
  match goal with |- context [fst (?m g)] => destruct (m g) as [g1 r] eqn:E end.
  intros [= <- ->]. cbn [fst].
  assert (Hm : forall l g g' r, mount_binds l g = (g', r) -> g_fs g' = g_fs g).
  { induction l as [|m l IH]; intros h h' r'; cbn; [by intros [= <-]|].
    destruct (mount_fails m); [by intros [= <-]|]. intros H. by apply IH in H. }
  apply pym_bind_ok in E as (g2 & [] & H1 & E). apply Hm in H1.
  apply pym_bind_ok in E as (g3 & out & H2 & E). injection H2 as <- <-.
  destruct (grub_mkconfig _ _ _) eqn:Eo; [|done]. injection E as <- <-. rewrite <- H1. by split.
Qed.

(** C5. When the post-update hook returns, the next boot is the standby slot,
    once: [grubenv] lists the running slot as the default and the standby slot
    as the next entry and nothing else, and the standby slot's boot
    configuration is the entry [grub-mkconfig] generated in that slot for the
    kernel that was detected there, retitled to the slot. *)
Theorem updated_grub_boots_standby_once cfg d g d' g' :
  grub_post_update_platform_specific cfg (d, g) = (d', g', Ok tt) -> boot_dirs (g_fs g') ->
  (exists content stdout,
     read_at (g_fs g') GRUBENV_FPATH = Some content /\ editenv_list content = Some stdout /\
     forall o, o ∈ env_options stdout <->
       o = ("saved_entry=" +:+ slot_id_str (ab_current_slot ab))%string \/
       o = ("next_entry=" +:+ slot_id_str (ab_standby_slot ab))%string) /\
  (exists ver s raw entry,
     detect_slot_kernel_ver (slot_boot_names (g_fs g) standby_mp) = KernelVer ver /\
     grub_mkconfig s standby_mp (get_boot_slot_dir (ab_standby_slot ab)) = Some raw /\
     generate_menuentry raw (slot_id_str (ab_standby_slot ab)) ver = Some entry /\
     read_at (g_fs g') (get_boot_cfg_fpath (ab_standby_slot ab)) = Some entry).
Proof.
  intros H Hd. unfold grub_post_update_platform_specific in H.
  apply pym_bind_ok in H as ([d1 g1] & names & H1 & H). injection H1 as <- <- <-.
  apply pym_bind_ok in H as ([d1 g1] & ver & H1 & H).
  destruct (detect_slot_kernel_ver _) as [v| |] eqn:Ev; [|done|done]. injection H1 as <- <- <-.
  destruct uname_r as [[|a u]|]; [done| |done].
  apply pym_bind_ok in H as ([d1 g1] & [] & H1 & H). apply on_grub_ok in H1 as [-> H1].
  apply pym_bind_ok in H as ([d2 g2] & [] & H2 & H). apply raise_as_ok, on_grub_ok in H2 as [-> H2].
  apply install_and_switch_ok, as_grub_error_ok, write_grubenv_ok in H as (content & stdout & Hd2 & -> & El & Ho); [|done].
  apply pym_bind_ok in H2 as (? & [] & _ & H2). apply pym_bind_ok in H2 as (? & [] & _ & H2).
  apply pym_bind_ok in H2 as (? & fstab & _ & H2). apply pym_bind_ok in H2 as (g3 & [] & _ & H2).
  apply setup_ota_boot_cfg_ok in H2 as (g4 & raw & entry & Hraw & Hentry & ->); [|done].
  apply mkconfig_output in Hraw as [_ Hraw]. split.
  - exists content, stdout. split_and!; [|done|].
    + unfold read_at. cbn [g_fs upd]. rewrite fs_get_new by done. rewrite decide_True by done.
      cbn. by rewrite lookup_insert_eq.
    + intros o. rewrite Ho. clear. set_solver.
  - exists v, (g_fs g3), raw, entry. split_and!; [done|done|done|].
    unfold read_at. cbn [g_fs upd]. rewrite !fs_get_new by (by destruct (ab_standby_slot ab)).
    rewrite decide_False by (by destruct (ab_standby_slot ab)). rewrite decide_True by done.
    cbn. rewrite lookup_insert_ne by lia. by rewrite lookup_insert_eq.
Qed.

(** ** Start-up *)

Lemma boot_dirs_before s s' p : removed_only s s' p -> boot_dirs s' -> boot_dirs s.
Proof. intros Hr [(u & m & H1) (u' & m' & H2)]. apply (ro_less _ _ _ Hr) in H1, H2. split; eauto. Qed.

Lemma remove_at_boot n s s' :
  remove_file fault (BOOT ++ [n]) s = (s', Ok tt) -> boot_dirs s' -> removed_only s s' (BOOT ++ [n]).
Proof.
  intros H Hd. unfold remove_file in H. apply pym_bind_ok in H as (s1 & ? & Hg & H). injection Hg as <- <-.
  destruct (fault _); [injection H as <-; apply removed_only_refl|].
  destruct (located s (BOOT ++ [n])) as [q|] eqn:El; [|injection H as <-; apply removed_only_refl].
  assert (Hq : q <> []).
  { unfold located in El. rewrite last_snoc in El. destruct (realpath _ _) as [d|]; [|done].
    injection El as <-. by destruct d. }
  assert (Hro : removed_only s s' q).
  { destruct (fs_get s q) as [[]|]; injection H as <-;
      first [apply removed_only_tree|by apply removed_only_node|apply removed_only_refl]. }
  pose proof (boot_dirs_before _ _ _ Hro Hd) as Hs. rewrite located_plain in El; [by simplify_eq|].
  apply (plain_prefix s GRUB_DIR); [by apply boot_dirs_plain|]. by exists ["grub"%string].
Qed.

Lemma ver_char_plain a : is_ver_char a = true -> negb (is_space a) = true /\ negb (Ascii.eqb a "#") = true.
Proof. by destruct a as [[] [] [] [] [] [] [] []]. Qed.

Lemma str_span_prefix_all q s : str_forallb q (fst (str_span q s)) = true.
Proof.
  induction s as [|a s IH]; [done|]. cbn. destruct (q a) eqn:Ea; [|done].
  destruct (str_span q s). cbn in *. by rewrite Ea.
Qed.

Lemma ver_footer_value v : str_forallb is_ver_char v = true -> v <> EmptyString -> footer_value v.
Proof.
  intros Hv Hne.
  assert (Hf : str_forallb (fun a => negb (is_space a)) v = true).
  { revert Hv. apply str_forallb_impl. intros a Ha. by apply ver_char_plain. }
  split_and!; [by apply field_one_line| | |done].
  - unfold strip. rewrite rstrip_by_none by (by apply str_forallb_lstrip).
    destruct v as [|a v]; [done|]. cbn in Hf |- *. by destruct (is_space a).
  - unfold no_char. revert Hv. apply str_forallb_impl. intros a Ha. by apply ver_char_plain.
Qed.

Lemma search_grub_version_value s v : search_grub_version s = Some v -> footer_value v.
Proof.
  assert (Hm : forall t v, match_grub_version t = Some v -> footer_value v).
  { intros t w. unfold match_grub_version. destruct (str_drop _ t) as [|a r]; [done|].
    destruct (_ && _); [|done]. pose proof (str_span_prefix_all is_ver_char (lstrip_by is_space (String a r))) as Hs.
    destruct (fst _) as [|b x] eqn:E; [done|]. intros [= <-]. by apply ver_footer_value. }
  induction s as [|a s IH]; cbn [search_grub_version].
  - destruct (match_grub_version _) eqn:E; [|done]. intros [= <-]. by eapply Hm.
  - destruct (match_grub_version _) eqn:E; [|done]. intros [= <-]. by eapply Hm.
Qed.

Lemma detected_version_value out :
  (forall t, out = Some t -> t = EmptyString \/ is_Some (search_grub_version t)) ->
  footer_value (detect_grub_version out).
Proof.
  intros Ho. destruct out as [[|a t]|].
  - by apply ver_footer_value.
  - destruct (Ho _ eq_refl) as [?|[v Hv]]; [done|]. cbn [detect_grub_version]. rewrite Hv.
    by eapply search_grub_version_value.
  - by apply ver_footer_value.
Qed.

Section Managed.
(** SHA-256 gives a hex digest; the running version is a release and can stand
    in the footer; what [grub-mkconfig] prints holds no footer of ours, and its
    [--version] names a version unless it prints nothing. *)
Context (h : string -> string) (Hsha : hash_new "sha256" = Some h).
Context (Hhex : forall t, str_forallb (fun a => is_digit a || is_lower a) (h t) = true).
Context (r : list Z) (Hr : release_tuple running_version = Some r) (Hne : r <> []).
Context (Hv : footer_value running_version).
Context (Hraw : forall s mp src t, grub_mkconfig s mp src = Some t ->
  str_find FOOTER_HEAD (strip t +:+ newline)%string = None /\ str_find FOOTER_TAIL (strip t +:+ newline)%string = None).
Context (Hver : forall s mp t, mkconfig_version s mp = Some t -> t = EmptyString \/ is_Some (search_grub_version t)).

(** [grub.cfg] is a file that is recognised. *)
Definition managed (s : fsys) : Prop :=
  exists i f, fs_get s GRUB_CFG_FPATH = Some (FsFile i) /\ fs_inodes s !! i = Some f /\
    fault GRUB_CFG_FPATH = false /\
    detect_boot_control_setup_case hash_new release_tuple running_version (GText (if_content f)) = ALREADY_NEW.

Lemma managed_removed s s' n :
  n <> "grub"%string -> removed_only s s' (BOOT ++ [n]) -> managed s -> managed s'.
Proof.
  intros Hn [Hi _ Hb] (i & f & Hc & Hf & Hfa & Hd). exists i, f. split_and!; [|by rewrite Hi|done|done].
  rewrite Hb; [done|]. intros Hp. unfold BOOT, GRUB_CFG_FPATH in Hp. cbn [app] in Hp.
  apply prefix_cons_inv_2 in Hp. apply prefix_cons_inv_1 in Hp. congruence.
Qed.

Lemma managed_detected g : boot_dirs (g_fs g) -> managed (g_fs g) -> setup_case g = (g, Ok ALREADY_NEW).
Proof.
  intros Hd (i & f & Hc & Hf & Hfa & Hdet). pose proof (boot_dirs_plain _ Hd) as Hp.
  assert (Hpl : plain (g_fs g) GRUB_CFG_FPATH).
  { apply (plain_snoc _ GRUB_DIR); [done|done|]. intros t. change (GRUB_DIR ++ _) with GRUB_CFG_FPATH. by rewrite Hc. }
  unfold setup_case, fs_gets, gets, grub_cfg_file_of. f_equal. f_equal.
  unfold is_symlink, exists_at, read_file.
  rewrite (lstat_plain _ GRUB_DIR "grub.cfg" Hp : lstat _ GRUB_CFG_FPATH = _), (stat_plain _ _ Hpl).
  change (GRUB_DIR ++ ["grub.cfg"%string]) with GRUB_CFG_FPATH. rewrite Hc, Hfa. cbn. by rewrite Hf.
Qed.

Lemma for_each_managed (names : list string) g g' :
  Forall (fun n => n <> "grub"%string) names ->
  for_each (fun n => on_fs (remove_file fault (BOOT ++ [n]))) names g = (g', Ok tt) ->
  boot_dirs (g_fs g') -> boot_dirs (g_fs g) /\ (managed (g_fs g) -> managed (g_fs g')).
Proof.
  revert g. induction names as [|n names IH]; intros g Hn H Hd; [by injection H as <-|].
  apply List.Forall_cons_iff in Hn as [Hn Hns]. apply pym_bind_ok in H as (g1 & [] & H1 & H).
  apply on_fs_ok in H1 as (s' & H1 & ->). destruct (IH _ Hns H Hd) as [Hd1 Hm]. cbn [g_fs upd] in *.
  apply remove_at_boot in H1; [|done]. split; [by eapply boot_dirs_before|].
  intros Hg. apply Hm. by eapply managed_removed.
Qed.

Lemma manage_boot_control_managed g g' :
  bootstrap_manage_boot_control bootstrap_slot_mp g = (g', Ok tt) -> boot_dirs (g_fs g') -> managed (g_fs g').
Proof.
  intros H Hd. apply pym_bind_ok in H as (g1 & [] & _ & H). rewrite try_finally_ok in H.
  match type of H with (_ (fst (?m g1)), _) = _ => destruct (m g1) as [g2 res] eqn:E end.
  injection H as <- ->. cbn [fst g_fs upd] in *.
  pose proof (removed_only_tree (g_fs g2) bootstrap_source) as Hro.
  apply (managed_removed (g_fs g2) _ "._ota_bootstrap"); [done|done|].
  apply (boot_dirs_before _ _ _ Hro) in Hd. clear Hro.
  apply pym_bind_ok in E as (g3 & raw & H1 & E). apply mkconfig_output in H1 as [_ H1].
  apply pym_bind_ok in E as (g4 & version & H2 & E). injection H2 as <- <-.
  apply pym_bind_ok in E as (g5 & [] & H3 & E). apply on_fs_ok in E as (s' & E & ->).
  apply (write_in_grub_dir "grub.cfg") in E as (_ & Hf & ->); [|done]. cbn [g_fs upd].
  eexists (fs_next (g_fs g5)), _. split_and!; [|cbn; by rewrite lookup_insert_eq|done|].
  - rewrite fs_get_new by done. by rewrite decide_True.
  - destruct (Hraw _ _ _ _ H1) as [Hh Ht]. cbn [if_content]. eapply exported_detected; try done.
    + apply detected_version_value. intros t Et. by eapply Hver.
    + by rewrite strip_idemp.
    + by rewrite strip_idemp.
Qed.

Lemma bootstrap_managed g g' :
  bootstrap_boot_control g = (g', Ok tt) -> boot_dirs (g_fs g') -> managed (g_fs g').
Proof.
  intros H Hd. apply pym_bind_ok in H as (g1 & [ver location] & _ & H).
  apply pym_bind_ok in H as (g2 & [] & _ & H). apply pym_bind_ok in H as (g3 & [] & _ & H).
  apply pym_bind_ok in H as (g4 & [] & _ & H). apply pym_bind_ok in H as (g5 & [] & H1 & H).
  apply for_each_managed in H as [Hd5 Hm]; [|repeat constructor; done|done]. apply Hm.
  unfold umount_binds in H1. rewrite try_finally_ok in H1.
  match type of H1 with (_ (fst (?m g4)), _) = _ => destruct (m g4) as [g6 res] eqn:E end.
  injection H1 as <- ->. cbn [fst g_fs upd] in *.
  apply pym_bind_ok in E as (g7 & [] & _ & E). apply pym_bind_ok in E as (g8 & [] & _ & E).
  by apply manage_boot_control_managed in E.
Qed.

(** C18. Taking over the boot control happens once.  Whatever the start-up
    found (a fresh system, the old controller's link, an outdated
    configuration, or one of its own), when it returns, [grub.cfg] is a file
    that the next start recognises as managed: that start changes nothing and
    does not reset the OTA status files.  They are reset now exactly when the
    system was fresh.  Of the outside this takes that sha256 is there and gives
    hex digits, that the client's own version has a release number and no
    character that ends the footer's value, that [grub-mkconfig] writes no
    footer of its own, and that what [grub-mkconfig --version] prints has a
    version in it or is empty. *)
Theorem boot_control_taken_over_once g g' resetup :
  init_grub_boot_control g = (g', Ok resetup) -> boot_dirs (g_fs g') ->
  setup_case g' = (g', Ok ALREADY_NEW) /\
  ((ab_is_uefi ab = true -> is_dir (g_fs g') EFI_DIR = true) -> init_grub_boot_control g' = (g', Ok false)) /\
  (resetup = true <-> exists g1, snd (setup_case g1) = Ok FRESH /\
     (if ab_is_uefi ab then on_fs (mkdir_exist_ok fault EFI_DIR) else mret tt) g = (g1, Ok tt)).
Proof.
  intros H Hd. apply pym_bind_ok in H as (g1 & [] & H1 & H).
  apply pym_bind_ok in H as (g2 & case & H2 & H). assert (g2 = g1) as -> by (by injection H2 as <-).
  assert (Hnew : setup_case g' = (g', Ok ALREADY_NEW)).
  { destruct case; [|apply pym_bind_ok in H as (g3 & [] & _ & H)|by injection H as <-|];
      apply pym_bind_ok in H as (g4 & [] & Hb & H); injection H as <- _;
      apply managed_detected; [done|by eapply bootstrap_managed|done|by eapply bootstrap_managed|done|by eapply bootstrap_managed]. }
  split_and!; [done| |].
  - intros He. unfold init_grub_boot_control, mbind, pym_bind.
    destruct (ab_is_uefi ab); [|cbn -[setup_case]; by rewrite Hnew].
    unfold on_fs at 1, mkdir_exist_ok, mbind, pym_bind, get. rewrite He by done. cbn -[setup_case].
    destruct g'. cbn -[setup_case] in *. by rewrite Hnew.
  - split.
    + intros ->. exists g1. rewrite H2. split; [|by rewrite H1]. by destruct case;
        repeat (apply pym_bind_ok in H as (? & [] & _ & H)).
    + intros (g1' & Hf & H1'). rewrite H1 in H1'. injection H1' as <-. rewrite H2 in Hf. injection Hf as ->.
      apply pym_bind_ok in H as (? & [] & _ & H). by injection H as _ <-.
Qed.
End Managed.
End Grub.

(** ** Examples *)

Definition grub_dir_at (p : path) (s : fsys) : fsys := put_node p (FsDir 0 493) s.
Definition grub_file_at (kv : path * string) (s : fsys) : fsys := put_new_file (fst kv) (mkIFile (snd kv) 420) s.
Definition example_slot_files (mp : path) : list (path * string) :=
  map (fun kv => (mp ++ fst kv, snd kv))
    [(["etc"; "fstab"], "UUID=old / ext4 defaults 0 1"); (["etc"; "default"; "grub"], "GRUB_TIMEOUT=10");
     (["boot"; "vmlinuz-5.19.0-50-generic"], "kernel");
     (["boot"; "initrd.img-5.19.0-50-generic"], "initrd")]%string.
Definition example_slot_dirs (mp : path) : list path :=
  map (app mp) [["etc"]; ["etc"; "default"]; ["etc"; "grub.d"]; ["boot"]]%string.
Definition example_grub_mp : path := ["mnt"%string].
Definition example_grub : grub := mkGrub
  (fold_right grub_file_at
     (fold_right grub_dir_at (mkFsys ∅ ∅ 0)
        (example_slot_dirs [] ++ [GRUB_DIR; ["mnt"%string]; get_boot_slot_dir slot_b] ++ example_slot_dirs example_grub_mp))
     (example_slot_files [] ++ example_slot_files example_grub_mp)) [].

Definition grub_slot_info (dev uuid : string) (i : option OTASlotBootID) : SlotInfo := mkSlotInfo dev uuid i.
Definition example_ab : ABPartition := mkABPartition false
  (grub_slot_info "/dev/sda1" "bbb" None) (grub_slot_info "/dev/sda2" "aaa" (Some slot_a))
  (grub_slot_info "/dev/sda3" "ccc" (Some slot_b)) slot_a slot_b
  (fun i => match i with slot_a => "ota-partition.sda2" | slot_b => "ota-partition.sda3" end)%string None.

Definition example_hash (alg : string) : option (string -> string) :=
  if String.eqb alg "sha256" then Some (fun _ => "0a1b"%string) else None.
Definition example_mkconfig_run (s : fsys) (mp src : path) : option string := Some example_mkconfig.
Definition example_editenv_set (o : list string) : option string := Some (unlines o).
Definition no_fault {A} (_ : A) : bool := false.

Definition example_post_update := grub_post_update_platform_specific (fun _ => false) example_mkconfig_run
  example_editenv_set Some no_fault no_fault (Some "5.19.0-50-generic"%string) example_ab example_grub_mp []
  no_fault no_fault no_fault (fun _ => None) no_config_files (None, example_grub).


Lemma updated_grub_boots_standby_once_witness :
  exists content stdout, read_at (g_fs (snd (fst example_post_update))) GRUBENV_FPATH = Some content /\
    Some content = Some stdout /\
    forall o, o ∈ env_options stdout <-> o = "saved_entry=ota-slot_a"%string \/ o = "next_entry=ota-slot_b"%string.
Proof.
  assert (Hd : boot_dirs (g_fs (snd (fst example_post_update)))).
  { split; eexists _, _; vm_compute; reflexivity. }
  assert (He : example_post_update = (fst (fst example_post_update), snd (fst example_post_update), Ok tt)).
  { vm_compute. reflexivity. }
  destruct (updated_grub_boots_standby_once (fun _ => false) example_mkconfig_run example_editenv_set Some
              no_fault no_fault (Some "5.19.0-50-generic"%string) example_ab example_grub_mp []
              no_fault no_fault no_fault (fun _ => None) no_config_files None example_grub _ _ He Hd) as [H _].
  exact H.
Defined.

#[local] Abbreviation start_example := (init_grub_boot_control (fun _ => false) example_hash (fun _ => Some [3; 14; 2])
  "3.14.2" example_mkconfig_run (fun _ _ => Some "grub-mkconfig (GRUB) 2.12-1ubuntu7.3"%string)
  example_editenv_set Some no_fault no_fault (Some "5.19.0-50-generic"%string) example_ab).
Definition example_started : grub := fst (start_example example_grub).

Lemma boot_control_taken_over_once_witness :
  snd (start_example example_grub) = Ok true /\ start_example example_started = (example_started, Ok false).
Proof.
  assert (Hd : boot_dirs (g_fs example_started)).
  { split; eexists _, _; vm_compute; reflexivity. }
  assert (He : start_example example_grub = (example_started, Ok true)).
  { vm_compute. reflexivity. }
  split; [vm_compute; reflexivity|].
  refine (proj1 (proj2 (boot_control_taken_over_once _ _ _ _ _ _ _ _ _ _ _ _
    (fun _ => "0a1b"%string) eq_refl (fun _ => eq_refl) [3; 14; 2] eq_refl _ _ _ _ example_grub _ true He Hd)) _).
  - done.
  - split_and!; [reflexivity|vm_compute; reflexivity|vm_compute; reflexivity|done].
  - intros s mp src t Ht. apply (inj Some) in Ht. subst t. split; vm_compute; reflexivity.
  - intros s mp t Ht. apply (inj Some) in Ht. subst t. right. eexists. vm_compute. reflexivity.
  - done.
Defined.
