(* ===== verification/PersistFiles.v ===== *)
(** * Persistent files

    Models [PersistFilesHandler] of
    [src/src/otaclient_common/persist_file_handling.py], which carries the
    persistent files from the active slot to the standby slot, and the user
    and group databases of [src/src/otaclient_common/linux.py] it maps owners
    with.  The whole running system is one tree, in which both slots are
    mounted; a path is resolved through symbolic links as the kernel does, an
    absolute link from the root of the running system.  [fault] marks the
    paths at which the environment fails. *)

From stdpp Require Import base strings list option sets.
From Stdlib Require Import ZArith Ascii String Lia.
#[local] Set Warnings "-register-all".
From S2P Require Import Prelude Errors FileSystem CopyTree.

(** ** Users and groups *)

Definition value_exn : pyexn := PyExn XValueError [] None None.

(** [{v: k for k, v in _by_name.items()}] *)
Definition by_id (by_name : pydict Z) (id : Z) : option string :=
  fold_left (fun res kv => if Z.eqb (snd kv) id then Some (fst kv) else res) by_name None.

(** One line of [/etc/passwd] or [/etc/group]; [None]: [IndexError] or
    [ValueError]. *)
Definition parse_id_line (by_name : pydict Z) (line : string) : option (pydict Z) :=
  match py_split ":" (strip line) with
  | name :: _ :: id :: _ => (fun n => dict_set name n by_name) <$> py_int id
  | _ => None
  end.

Fixpoint parse_id_lines (lines : list string) (by_name : pydict Z) : option (pydict Z) :=
  match lines with
  | [] => Some by_name
  | l :: lines => parse_id_line by_name l ≫= parse_id_lines lines
  end.

(** The lines of a text file. *)
Definition file_lines (text : string) : list string :=
  let l := py_split "010" text in
  match list.last l with Some EmptyString => removelast l | _ => l end.

(** [ParsedPasswd.__init__] and [ParsedGroup.__init__]: the text of the file,
    or nothing. *)
Definition ParsedPasswd (text : option string) : result pyexn (pydict Z) :=
  match text ≫= (fun t => parse_id_lines (file_lines t) []) with
  | Some d => Ok d
  | None => Raise value_exn
  end.
Definition ParsedGroup : option string -> result pyexn (pydict Z) := ParsedPasswd.

(** [None] is the [ValueError] of a missing mapping. *)
Definition map_uid_by_pwnam (src_db dst_db : pydict Z) (uid : Z) : option Z :=
  by_id src_db uid ≫= (fun name => dict_get name dst_db).
Definition map_gid_by_grpnam : pydict Z -> pydict Z -> Z -> option Z := map_uid_by_pwnam.

(** ** The tree of the running system *)

Inductive pnode : Type :=
| PFile (content : string) (st : fstat)
| PLink (target : string) (uid gid : Z)
| PDir (st : fstat) (entries : list (string * pnode))
| PSpecial (st : fstat).

Definition LINK_MODE : Z := 511.
Definition node_stat (n : pnode) : fstat :=
  match n with PFile _ st | PDir st _ | PSpecial st => st | PLink _ u g => mkFStat u g LINK_MODE end.

(** What [chown] leaves of the mode of a file: the set-user-id bit is cleared,
    and the set-group-id bit of a file that its group may execute. *)
Definition S_ISUID : Z := 2048.
Definition S_ISGID : Z := 1024.
Definition S_IXGRP : Z := 8.
Definition chown_mode (mode : Z) : Z :=
  let mode := Z.ldiff mode S_ISUID in
  if Z.land mode S_IXGRP =? 0 then mode else Z.ldiff mode S_ISGID.

Fixpoint tget (w : pnode) (p : path) : option pnode :=
  match p with
  | [] => Some w
  | n :: p => match w with PDir _ d => dict_get n d ≫= (fun s => tget s p) | _ => None end
  end.

(** [t] in place of what is at [p]; the parent has to be a directory. *)
Fixpoint tput (w : pnode) (p : path) (t : pnode) : pnode :=
  match p with
  | [] => t
  | n :: p =>
      match w with
      | PDir st d =>
          match dict_get n d, p with
          | Some s, _ => PDir st (dict_set n (tput s p t) d)
          | None, [] => PDir st (dict_set n t d)
          | None, _ => w
          end
      | _ => w
      end
  end.

Fixpoint tdel (w : pnode) (p : path) : pnode :=
  match p with
  | [] => w
  | n :: p =>
      match w with
      | PDir st d =>
          match p, dict_get n d with
          | [], _ => PDir st (dict_del n d)
          | _, Some s => PDir st (dict_set n (tdel s p) d)
          | _, None => w
          end
      | _ => w
      end
  end.

Definition tlink_at (w : pnode) (p : path) : option string :=
  match tget w p with Some (PLink t _ _) => Some t | _ => None end.
Definition trealpath (w : pnode) (p : path) : option path := realpath_go MAXSYMLINKS (tlink_at w) [] p.
Definition tlocated (w : pnode) (p : path) : option path :=
  match list.last p with
  | Some c => (fun d => d ++ [c]) <$> trealpath w (removelast p)
  | None => Some []
  end.
Definition tlstat (w : pnode) (p : path) : option pnode := tlocated w p ≫= tget w.
Definition tstat (w : pnode) (p : path) : option pnode := trealpath w p ≫= tget w.

(** [is_file_or_symlink] and [is_dir], which follows links. *)
Definition p_file_or_symlink (n : option pnode) : bool :=
  match n with Some (PFile _ _) | Some (PLink _ _ _) => true | _ => false end.
Definition p_dir (n : option pnode) : bool := match n with Some (PDir _ _) => true | _ => false end.

Section Persist.
Context (fault : path -> bool).
Abbreviation PF := (PyM pnode pyexn).

(** Where an entry at [p] is: its parent has to be a directory. *)
Definition p_place (p : path) : PF path :=
  w ← get;
  if fault p then raise (os_exn EIO)
  else
    match tlocated w p with
    | None => raise (os_exn ELOOP)
    | Some q =>
        match tget w (removelast q) with
        | Some (PDir _ _) => mret q
        | Some _ => raise (os_exn ENOTDIR)
        | None => raise (os_exn ENOENT)
        end
    end.

Definition unlink (p : path) : PF unit := q ← p_place p; modify (fun w => tdel w q).

Definition rm_target (p : path) : PF unit :=
  w ← get;
  if p_file_or_symlink (tlstat w p) then unlink p
  else if p_dir (tstat w p) then
    match tlocated w p with
    | Some q => if fault p then mret tt else modify (fun w => tdel w q)
    | None => mret tt
    end
  else
    match tstat w p with
    | None => mret tt
    | Some _ => raise value_exn
    end.

Context (src_passwd dst_passwd src_group dst_group : pydict Z).

(** [_chown_with_mapping]: the owner and group the destination gets. *)
Definition mapped_uid (uid : Z) : Z := default uid (map_uid_by_pwnam src_passwd dst_passwd uid).
Definition mapped_gid (gid : Z) : Z := default gid (map_gid_by_grpnam src_group dst_group gid).
Definition mapped (st : fstat) : fstat := mkFStat (mapped_uid (fst_uid st)) (mapped_gid (fst_gid st)) (fst_mode st).

(** [os.chmod] and [os.chown] on what is at the destination; [chown] takes the
    bits of [chown_mode] from all but directories. *)
Definition chmod_node (mode : Z) (n : pnode) : pnode :=
  let st' st := mkFStat (fst_uid st) (fst_gid st) mode in
  match n with
  | PFile c st => PFile c (st' st)
  | PDir st d => PDir (st' st) d
  | PSpecial st => PSpecial (st' st)
  | PLink _ _ _ => n
  end.
Definition chown_with_mapping (src_stat : fstat) (n : pnode) : pnode :=
  let u := mapped_uid (fst_uid src_stat) in
  let g := mapped_gid (fst_gid src_stat) in
  match n with
  | PFile c st => PFile c (mkFStat u g (chown_mode (fst_mode st)))
  | PDir st d => PDir (mkFStat u g (fst_mode st)) d
  | PSpecial st => PSpecial (mkFStat u g (chown_mode (fst_mode st)))
  | PLink t _ _ => PLink t u g
  end.

(** What is at [src], which has to be there. *)
Definition p_lstat (p : path) : PF pnode :=
  w ← get;
  match tlstat w p with Some n => mret n | None => raise (os_exn ENOENT) end.

Definition EINVAL : Z := 22.

Definition prepare_symlink (src dst : path) : PF unit :=
  n ← p_lstat src;
  match n with
  | PLink target u g =>
      w ← get;
      q ← p_place dst;
      match tget w q with
      | Some _ => raise (os_exn EEXIST)
      | None => modify (fun w => tput w q (chown_with_mapping (node_stat n) (PLink target 0 0)))
      end
  | _ => raise (os_exn EINVAL)
  end.

(** [mkdir(exist_ok=True)], then the mode and the owner of the source. *)
Definition prepare_pdir (src dst : path) : PF unit :=
  w ← get;
  q ← p_place dst;
  _ ← (match tget w q with
       | None => modify (fun w => tput w q (PDir (mkFStat 0 0 493) []))
       | Some _ => if p_dir (tstat w dst) then mret tt else raise (os_exn EEXIST)
       end);
  n ← p_lstat src;
  modify (fun w => match tget w q with
                   | Some (PDir st d) =>
                       tput w q (chown_with_mapping (node_stat n) (chmod_node (fst_mode (node_stat n)) (PDir st d)))
                   | _ => w
                   end).

Definition copied (content : string) (st st0 : fstat) : pnode :=
  chown_with_mapping st (chmod_node (fst_mode st) (PFile content (mkFStat (fst_uid st0) (fst_gid st0) (fst_mode st)))).

(** [shutil.copy] takes the content and the mode; then come [chmod] and, last,
    [chown]. *)
Definition prepare_file (src dst : path) : PF unit :=
  n ← p_lstat src;
  match n with
  | PFile content st =>
      w ← get;
      q ← p_place dst;
      match tget w q with
      | Some (PFile _ st0) => modify (fun w => tput w q (copied content st st0))
      | None => modify (fun w => tput w q (copied content st (mkFStat 0 0 420)))
      | Some _ => raise (os_exn EISDIR)
      end
  | _ => raise (os_exn EINVAL)
  end.

Context (src_root dst_root : path).

(** The parents of an entry, from the root of the slot down. *)
Fixpoint prepare_parents (seen rest : path) : PF unit :=
  let dst := dst_root ++ seen in
  _ ← (w ← get;
       if p_file_or_symlink (tlstat w dst) then _ ← unlink dst; prepare_pdir (src_root ++ seen) dst
       else if p_dir (tstat w dst) then mret tt
       else match tstat w dst with
            | None => prepare_pdir (src_root ++ seen) dst
            | Some _ => raise value_exn
            end);
  match rest with
  | [] => mret tt
  | c :: rest => prepare_parents (seen ++ [c]) rest
  end.
Definition prepare_parent (rel : path) : PF unit :=
  match rel with [] => mret tt | _ => prepare_parents [] (removelast rel) end.

Definition is_os_error (e : pyexn) : bool :=
  match exn_cls e with XOSError _ => true | _ => false end.

Fixpoint p_for_each {A} (f : A -> PF unit) (l : list A) : PF unit :=
  match l with [] => mret tt | x :: l => _ ← f x; p_for_each f l end.

(** An entry among the [fnames] of a directory; [leads] tells the links that
    [os.walk] has listed among the [dnames]. *)
Definition prepare_fname (leads : string -> bool) (rel : path) (e : string * pnode) : PF unit :=
  let '(name, n) := e in
  let src := src_root ++ rel ++ [name] in
  let dst := dst_root ++ rel ++ [name] in
  let skip_os_error m := try_except m (fun e => if is_os_error e then mret tt else raise e) in
  match n with
  | PDir _ _ => mret tt
  | PLink _ _ _ =>
      if leads name then mret tt
      else _ ← rm_target dst; skip_os_error (prepare_symlink src dst)
  | PFile _ _ => _ ← rm_target dst; skip_os_error (prepare_file src dst)
  | PSpecial _ => rm_target dst
  end.

(** A link among the [dnames]. *)
Definition prepare_dname (leads : string -> bool) (rel : path) (e : string * pnode) : PF unit :=
  let '(name, n) := e in
  let src := src_root ++ rel ++ [name] in
  let dst := dst_root ++ rel ++ [name] in
  match n with
  | PLink _ _ _ => if leads name then _ ← rm_target dst; prepare_symlink src dst else mret tt
  | _ => mret tt
  end.

(** [os.walk], over the directory [n] at [rel] below the root of the slot. *)
Fixpoint recursively_prepare_dir (rel : path) (n : pnode) : PF unit :=
  match n with
  | PDir _ entries =>
      w ← get;
      let leads name := p_dir (tstat w (src_root ++ rel ++ [name])) in
      _ ← rm_target (dst_root ++ rel);
      _ ← prepare_pdir (src_root ++ rel) (dst_root ++ rel);
      _ ← p_for_each (prepare_fname leads rel) entries;
      _ ← p_for_each (prepare_dname leads rel) entries;
      (fix subdirs (l : list (string * pnode)) : PF unit :=
         match l with
         | [] => mret tt
         | (name, sub) :: l => _ ← recursively_prepare_dir (rel ++ [name]) sub; subdirs l
         end) entries
  | _ => mret tt
  end.

Definition preserve_persist_entry (rel : path) : PF unit :=
  let src := src_root ++ rel in
  let dst := dst_root ++ rel in
  done ← try_except
    (n ← p_lstat src;
     match n with
     | PLink _ _ _ => _ ← rm_target dst; _ ← prepare_parent rel; _ ← prepare_symlink src dst; mret true
     | PFile _ _ => _ ← rm_target dst; _ ← prepare_parent rel; _ ← prepare_file src dst; mret true
     | PDir _ _ => _ ← prepare_parent rel; _ ← recursively_prepare_dir rel n; mret true
     | PSpecial _ => mret false
     end)
    (fun e => if is_os_error e then mret false else raise e);
  if done : bool then mret tt else raise value_exn.
End Persist.

(** ** What is at the paths of a tree *)

Inductive attr : Type :=
| AFile (content : string) (st : fstat)
| ALink (target : string) (uid gid : Z)
| ADir (st : fstat)
| ASpecial (st : fstat).

Definition attr_of (n : pnode) : attr :=
  match n with
  | PFile c st => AFile c st
  | PLink t u g => ALink t u g
  | PDir st _ => ADir st
  | PSpecial st => ASpecial st
  end.
Definition obs (w : pnode) (p : path) : option attr := attr_of <$> tget w p.
Definition dir_at (w : pnode) (p : path) : Prop := exists st, obs w p = Some (ADir st).

Lemma obs_cons w n p : obs w (n :: p) = match w with PDir _ d => dict_get n d ≫= (fun s => obs s p) | _ => None end.
Proof. unfold obs. destruct w as [| |st d|]; try done. cbn. by destruct (dict_get n d). Qed.

Lemma tget_app w p q : tget w (p ++ q) = tget w p ≫= (fun s => tget s q).
Proof.
  revert w. induction p as [|n p IH]; intros w; [done|]. cbn. destruct w as [| |st d|]; try done.
  destruct (dict_get n d); [|done]. cbn. apply IH.
Qed.

Lemma obs_app w p q : obs w (p ++ q) = tget w p ≫= (fun s => obs s q).
Proof. unfold obs. rewrite tget_app. by destruct (tget w p). Qed.

Lemma dir_at_tget w p : dir_at w p -> exists st d, tget w p = Some (PDir st d).
Proof. unfold dir_at, obs. intros [st H]. destruct (tget w p) as [[]|]; try done; eauto. Qed.

Lemma prefix_cons_iff {A} `{!EqDecision A} (x y : A) p q :
  bool_decide (x :: p `prefix_of` y :: q) = bool_decide (x = y) && bool_decide (p `prefix_of` q).
Proof.
  case_bool_decide as H; case_bool_decide as Hx; case_bool_decide as Hp; try done.
  - destruct Hp. by eapply prefix_cons_inv_2.
  - destruct Hx. by eapply prefix_cons_inv_1.
  - destruct Hx. by eapply prefix_cons_inv_1.
  - subst. destruct H. by apply prefix_cons.
Qed.

Lemma obs_tput w p t q :
  p <> [] -> dir_at w (removelast p) ->
  obs (tput w p t) q = if bool_decide (p `prefix_of` q) then obs t (drop (List.length p) q) else obs w q.
Proof.
  revert w q. induction p as [|n p IH]; intros w q Hp Hd; [done|]. clear Hp.
  assert (Hw : exists st d, w = PDir st d).
  { destruct p as [|n' p]; destruct Hd as [st Hd]; [|cbn [removelast] in Hd; rewrite obs_cons in Hd];
      destruct w; try done; eauto. }
  destruct Hw as (st & d & ->).
  destruct q as [|m q].
  { rewrite bool_decide_eq_false_2 by (intros H; by apply prefix_nil_not in H).
    cbn [tput]. destruct (dict_get n d), p; done. }
  rewrite prefix_cons_iff. destruct p as [|n' p].
  - assert (E : tput (PDir st d) [n] t = PDir st (dict_set n t d)) by (cbn; by destruct (dict_get n d)).
    rewrite E, !obs_cons, dict_get_set. cbn [List.length drop]. rewrite drop_0.
    destruct (String.eqb_spec n m) as [->|Hne].
    + rewrite bool_decide_eq_true_2, bool_decide_eq_true_2; [done|apply prefix_nil|done].
    + by rewrite bool_decide_eq_false_2.
  - cbn [removelast] in Hd. unfold dir_at in Hd. rewrite obs_cons in Hd.
    destruct (dict_get n d) as [s|] eqn:Es; [|by destruct Hd].
    change (tput (PDir st d) (n :: n' :: p) t) with
      (match dict_get n d with Some s => PDir st (dict_set n (tput s (n' :: p) t) d) | None => PDir st d end).
    rewrite Es, !obs_cons, dict_get_set.
    destruct (String.eqb_spec n m) as [->|Hne].
    + rewrite bool_decide_eq_true_2 by done. cbn [andb mbind option_bind]. rewrite IH by done. by rewrite Es.
    + by rewrite bool_decide_eq_false_2.
Qed.

Lemma obs_tdel w p q :
  p <> [] -> obs (tdel w p) q = if bool_decide (p `prefix_of` q) then None else obs w q.
Proof.
  revert w q. induction p as [|n p IH]; intros w q Hp; [done|]. clear Hp.
  destruct q as [|m q].
  { rewrite bool_decide_eq_false_2 by (intros H; by apply prefix_nil_not in H).
    cbn [tdel]. destruct w as [| |st d|]; try done. by destruct p, (dict_get n d). }
  rewrite prefix_cons_iff. destruct w as [| |st d|]; try (rewrite !obs_cons; by destruct (_ && _)).
  destruct p as [|n' p].
  - cbn [tdel]. rewrite !obs_cons, dict_get_del. destruct (String.eqb_spec n m) as [->|Hne].
    + rewrite bool_decide_eq_true_2, bool_decide_eq_true_2; [done|apply prefix_nil|done].
    + by rewrite bool_decide_eq_false_2.
  - change (tdel (PDir st d) (n :: n' :: p)) with
      (match dict_get n d with Some s => PDir st (dict_set n (tdel s (n' :: p)) d) | None => PDir st d end).
    destruct (dict_get n d) as [s|] eqn:Es.
    + rewrite !obs_cons, dict_get_set. destruct (String.eqb_spec n m) as [->|Hne].
      * rewrite bool_decide_eq_true_2 by done. cbn [andb mbind option_bind]. rewrite IH by done. by rewrite Es.
      * by rewrite bool_decide_eq_false_2.
    + rewrite !obs_cons. destruct (bool_decide_reflect (n = m)) as [<-|]; [|done]. rewrite Es. by destruct (_ && _).
Qed.

(** ** Paths without links *)

Definition pplain (w : pnode) (p : path) : Prop :=
  Forall is_name p /\ forall q t u g, q `prefix_of` p -> obs w q <> Some (ALink t u g).

Lemma trealpath_plain w p : pplain w p -> trealpath w p = Some p.
Proof.
  intros [Hn Hl]. apply realpath_go_plain; [done|]. intros q Hq _. cbn. unfold tlink_at.
  destruct (tget w q) as [[]|] eqn:E; try done. destruct (Hl q target uid gid Hq). unfold obs. by rewrite E.
Qed.

Lemma tlocated_plain w d c : pplain w d -> tlocated w (d ++ [c]) = Some (d ++ [c]).
Proof. intros H. unfold tlocated. rewrite last_snoc, removelast_last. by rewrite trealpath_plain. Qed.

Lemma tlstat_plain w d c : pplain w d -> tlstat w (d ++ [c]) = tget w (d ++ [c]).
Proof. intros H. unfold tlstat. by rewrite tlocated_plain. Qed.

Lemma tstat_plain w p : pplain w p -> tstat w p = tget w p.
Proof. intros H. unfold tstat. by rewrite trealpath_plain. Qed.

Lemma pplain_snoc w d c :
  pplain w d -> is_name c -> (forall t u g, obs w (d ++ [c]) <> Some (ALink t u g)) -> pplain w (d ++ [c]).
Proof.
  intros [Hn Hl] Hc Ht. split; [apply Forall_app; split; [done|by constructor]|].
  intros q t u g [Hq | ->]%prefix_snoc_cases; [by apply Hl|apply Ht].
Qed.

(** The world with [f] at the path [p], whose parent is a directory. *)
Definition changed (w : pnode) (p : path) (f : path -> option attr) (w' : pnode) : Prop :=
  forall q, obs w' q = if bool_decide (p `prefix_of` q) then f (drop (List.length p) q) else obs w q.

Definition only (a : attr) (q : path) : option attr := match q with [] => Some a | _ => None end.
Definition nothing (q : path) : option attr := None.

Lemma obs_none_below w p q : obs w p = None -> p `prefix_of` q -> obs w q = None.
Proof. intros H [r ->]. rewrite obs_app. unfold obs in H. by destruct (tget w p). Qed.

Lemma changed_pplain w p f w' d :
  changed w p f w' -> (forall q t u g, f q <> Some (ALink t u g)) -> pplain w d -> pplain w' d.
Proof.
  intros Hc Hf [Hn Hl]. split; [done|]. intros q t u g Hq. rewrite Hc. case_bool_decide; [apply Hf|by apply Hl].
Qed.

Lemma changed_away w p f w' q : changed w p f w' -> ~ p `prefix_of` q -> obs w' q = obs w q.
Proof. intros Hc Hq. rewrite Hc. by rewrite bool_decide_eq_false_2. Qed.

Lemma changed_at w p f w' q : changed w p f w' -> obs w' (p ++ q) = f q.
Proof. intros Hc. rewrite Hc, bool_decide_eq_true_2 by (by exists q). by rewrite drop_app_length. Qed.

Lemma changed_pplain_above w p f w' d :
  changed w p f w' -> ~ p `prefix_of` d -> pplain w d -> pplain w' d.
Proof.
  intros Hc Hd [Hn Hl]. split; [done|]. intros q t u g Hq. rewrite (changed_away _ _ _ _ _ Hc); [by apply Hl|].
  intros H. apply Hd. by trans q.
Qed.

Lemma changed_dir_above w p f w' d : changed w p f w' -> ~ p `prefix_of` d -> dir_at w d -> dir_at w' d.
Proof. intros Hc Hd [st H]. exists st. by rewrite (changed_away _ _ _ _ _ Hc). Qed.

Lemma changed_twice w p f w1 g w2 : changed w p f w1 -> changed w1 p g w2 -> changed w p g w2.
Proof. intros H1 H2 q. rewrite H2. case_bool_decide; [done|]. by rewrite H1, bool_decide_eq_false_2. Qed.

Lemma changed_tput w d c t :
  dir_at w d -> changed w (d ++ [c]) (obs t) (tput w (d ++ [c]) t).
Proof. intros H q. apply obs_tput; [by destruct d|by rewrite removelast_last]. Qed.

Lemma obs_leaf n : (forall st d, n <> PDir st d) -> forall q, obs n q = only (attr_of n) q.
Proof. intros Hn [|c q]; [done|]. rewrite obs_cons. destruct n; try done. by destruct (Hn st entries). Qed.

Section Runs.
Context (fault : path -> bool) (Hfault : forall p, fault p = false).
Context (src_passwd dst_passwd src_group dst_group : pydict Z).
#[local] Abbreviation owner := (mapped src_passwd dst_passwd src_group dst_group).
#[local] Abbreviation owner_uid := (mapped_uid src_passwd dst_passwd).
#[local] Abbreviation owner_gid := (mapped_gid src_group dst_group).

Lemma p_place_run w d c : pplain w d -> dir_at w d -> p_place fault (d ++ [c]) w = (w, Ok (d ++ [c])).
Proof.
  intros Hp Hd. unfold p_place, mbind, pym_bind, get. rewrite Hfault, (tlocated_plain _ _ _ Hp), removelast_last.
  by destruct (dir_at_tget _ _ Hd) as (st & es & ->).
Qed.

Lemma dir_of_entry w d c : is_Some (obs w (d ++ [c])) -> dir_at w d.
Proof.
  intros [a H]. rewrite obs_app in H. destruct (tget w d) as [n|] eqn:E; [|done]. cbn [mbind option_bind] in H.
  rewrite obs_cons in H. destruct n as [| |st es|]; try done. exists st. unfold obs. by rewrite E.
Qed.

Lemma unlink_run w d c :
  pplain w d -> dir_at w d -> exists w', unlink fault (d ++ [c]) w = (w', Ok tt) /\ changed w (d ++ [c]) nothing w'.
Proof.
  intros Hp Hd. exists (tdel w (d ++ [c])). split.
  - unfold unlink, mbind, pym_bind. by rewrite p_place_run.
  - intros q. apply obs_tdel. by destruct d.
Qed.

Lemma rm_target_run w d c :
  pplain w d -> is_name c -> (forall st, obs w (d ++ [c]) <> Some (ASpecial st)) ->
  exists w', rm_target fault (d ++ [c]) w = (w', Ok tt) /\ changed w (d ++ [c]) nothing w'.
Proof.
  intros Hp Hc Hs. unfold rm_target. unfold mbind at 1, pym_bind at 1, get. rewrite tlstat_plain by done.
  assert (Hdel : changed w (d ++ [c]) nothing (tdel w (d ++ [c]))) by (intros q; apply obs_tdel; by destruct d).
  destruct (tget w (d ++ [c])) as [n|] eqn:E.
  - assert (Ho : obs w (d ++ [c]) = Some (attr_of n)) by (unfold obs; by rewrite E).
    assert (Hd : dir_at w d) by (apply (dir_of_entry _ _ c); by rewrite Ho).
    destruct n as [ct st|t u g|st es|st]; cbn [p_file_or_symlink]; [by apply unlink_run|by apply unlink_run| |by destruct (Hs st)].
    rewrite tstat_plain by (apply pplain_snoc; [done|done|by rewrite Ho]). rewrite E. cbn [p_dir].
    rewrite tlocated_plain, Hfault by done. eauto.
  - assert (Ho : obs w (d ++ [c]) = None) by (unfold obs; by rewrite E).
    cbn [p_file_or_symlink]. rewrite tstat_plain, E by (apply pplain_snoc; [done|done|by rewrite Ho]).
    exists w. split; [done|]. intros q. case_bool_decide as Hq; [|done]. by apply (obs_none_below w (d ++ [c])).
Qed.

Lemma p_lstat_run w d c n : pplain w d -> tget w (d ++ [c]) = Some n -> p_lstat (d ++ [c]) w = (w, Ok n).
Proof. intros Hp Hn. unfold p_lstat, mbind, pym_bind, get. by rewrite tlstat_plain, Hn. Qed.

Lemma obs_tget w p a : obs w p = Some a -> exists n, tget w p = Some n /\ attr_of n = a.
Proof. unfold obs. destruct (tget w p); [|done]. intros [= <-]. eauto. Qed.

Lemma obs_none w p : obs w p = None -> tget w p = None.
Proof. unfold obs. by destruct (tget w p). Qed.

Lemma prepare_symlink_run w s n d c t u g :
  pplain w s -> obs w (s ++ [n]) = Some (ALink t u g) ->
  pplain w d -> dir_at w d -> obs w (d ++ [c]) = None ->
  exists w', prepare_symlink fault src_passwd dst_passwd src_group dst_group (s ++ [n]) (d ++ [c]) w = (w', Ok tt) /\
    changed w (d ++ [c]) (only (ALink t (owner_uid u) (owner_gid g))) w'.
Proof.
  intros Hs Hl Hp Hd Hn. apply obs_tget in Hl as (x & Hx & Hl). destruct x; try done. injection Hl as -> -> ->.
  eexists. split.
  - unfold prepare_symlink, mbind, pym_bind. rewrite (p_lstat_run _ _ _ _ Hs Hx). cbn.
    rewrite p_place_run by done. rewrite (obs_none _ _ Hn). reflexivity.
  - intros q. rewrite (changed_tput _ _ _ _ Hd). case_bool_decide; [|done]. by apply obs_leaf.
Qed.

Lemma prepare_file_run w s n d c t st :
  pplain w s -> obs w (s ++ [n]) = Some (AFile t st) ->
  pplain w d -> dir_at w d -> obs w (d ++ [c]) = None ->
  exists w', prepare_file fault src_passwd dst_passwd src_group dst_group (s ++ [n]) (d ++ [c]) w = (w', Ok tt) /\
    changed w (d ++ [c]) (only (AFile t (mkFStat (owner_uid (fst_uid st)) (owner_gid (fst_gid st)) (chown_mode (fst_mode st))))) w'.
Proof.
  intros Hs Hl Hp Hd Hn. apply obs_tget in Hl as (x & Hx & Hl). destruct x; try done. injection Hl as -> ->.
  eexists. split.
  - unfold prepare_file, mbind, pym_bind. rewrite (p_lstat_run _ _ _ _ Hs Hx). cbn.
    rewrite p_place_run by done. rewrite (obs_none _ _ Hn). reflexivity.
  - intros q. rewrite (changed_tput _ _ _ _ Hd). case_bool_decide; [|done]. by apply obs_leaf.
Qed.

Lemma prepare_pdir_run w s n d c x :
  pplain w s -> tget w (s ++ [n]) = Some x -> ~ d ++ [c] `prefix_of` s ++ [n] ->
  pplain w d -> dir_at w d -> obs w (d ++ [c]) = None ->
  exists w', prepare_pdir fault src_passwd dst_passwd src_group dst_group (s ++ [n]) (d ++ [c]) w = (w', Ok tt) /\
    changed w (d ++ [c]) (only (ADir (owner (node_stat x)))) w'.
Proof.
  intros Hs Hx Hds Hp Hd Hn.
  set (w1 := tput w (d ++ [c]) (PDir (mkFStat 0 0 493) [])).
  assert (Hc1 : changed w (d ++ [c]) (only (ADir (mkFStat 0 0 493))) w1).
  { intros q. unfold w1. rewrite (changed_tput _ _ _ _ Hd). case_bool_decide; [|done]. by destruct (drop _ q). }
  assert (Hnl : forall st q t u g, only (ADir st) q <> Some (ALink t u g)) by (by intros st [|] t u g).
  assert (Hx1 : exists x', tget w1 (s ++ [n]) = Some x' /\ node_stat x' = node_stat x).
  { pose proof (changed_away _ _ _ _ _ Hc1 Hds) as Ho. unfold obs in Ho. rewrite Hx in Ho.
    destruct (tget w1 (s ++ [n])) as [x'|]; [|done]. injection Ho as Ho. exists x'. split; [done|].
    destruct x', x; simplify_eq; done. }
  destruct Hx1 as (x' & Hx1 & Hst).
  assert (Ht1 : exists st es, tget w1 (d ++ [c]) = Some (PDir st es) /\ forall q, q <> [] -> obs (PDir st es) q = None).
  { pose proof (changed_at _ _ _ _ [] Hc1) as Ho. rewrite app_nil_r in Ho. apply obs_tget in Ho as (y & Hy & Ha).
    destruct y as [| |st es|]; try done. exists st, es. split; [done|]. intros [|m q] Hq; [done|].
    pose proof (changed_at _ _ _ _ (m :: q) Hc1) as Ho. rewrite obs_app, Hy in Ho. by cbn [mbind option_bind] in Ho. }
  destruct Ht1 as (st & es & Ht1 & Hes).
  assert (Hd1 : dir_at w1 d).
  { eapply changed_dir_above; [exact Hc1| |done]. intros H. apply prefix_length in H. rewrite length_app in H. cbn in H. lia. }
  exists (tput w1 (d ++ [c]) (PDir (owner (node_stat x)) es)). split.
  - unfold prepare_pdir, mbind, pym_bind, get. rewrite p_place_run by done. rewrite (obs_none _ _ Hn).
    unfold modify at 1. fold w1. rewrite (p_lstat_run w1 s n x') by (done || by eapply changed_pplain).
    unfold modify. by rewrite Ht1, Hst.
  - eapply changed_twice; [exact Hc1|]. intros q. rewrite (changed_tput _ _ _ _ Hd1). case_bool_decide; [|done].
    destruct (drop _ q) as [|m r]; [done|]. change (obs (PDir st es) (m :: r) = None). by apply Hes.
Qed.

(** ** Directories *)

(** What an entry of the source becomes. *)
Definition pers (a : attr) : option attr :=
  match a with
  | AFile c st => Some (AFile c (mkFStat (owner_uid (fst_uid st)) (owner_gid (fst_gid st)) (chown_mode (fst_mode st))))
  | ALink t u g => Some (ALink t (owner_uid u) (owner_gid g))
  | ADir st => Some (ADir (owner st))
  | ASpecial _ => None
  end.
Definition persisted (n : pnode) (q : path) : option attr := obs n q ≫= pers.

Context (src_root dst_root : path).
Context (Hdisj1 : ~ dst_root `prefix_of` src_root) (Hdisj2 : ~ src_root `prefix_of` dst_root).

Lemma prefix_comparable {A} (p q r : list A) : p `prefix_of` r -> q `prefix_of` r -> p `prefix_of` q \/ q `prefix_of` p.
Proof. intros H1 H2. by apply (prefix_weak_total p q r). Qed.

Lemma dst_not_src rel q : ~ dst_root ++ rel `prefix_of` src_root ++ q.
Proof.
  intros H. assert (H1 : dst_root `prefix_of` src_root ++ q) by (trans (dst_root ++ rel); [by exists rel|done]).
  destruct (prefix_comparable _ _ _ H1 (prefix_app_r _ _ q (reflexivity src_root))) as [?|?]; [by apply Hdisj1|by apply Hdisj2].
Qed.

(** Some entries of the directory [n] are at [D] already. *)
Definition walked (w0 : pnode) (D : path) (n : pnode) (P : string -> bool) (w : pnode) : Prop :=
  changed w0 D (fun q => match q with
                         | [] => persisted n []
                         | name :: _ => if P name then persisted n q else None
                         end) w.

Lemma walked_ext w0 D n P P' w : (forall m, P m = P' m) -> walked w0 D n P w -> walked w0 D n P' w.
Proof. intros HP H q. rewrite H. case_bool_decide; [|done]. destruct (drop _ q); [done|]. by rewrite HP. Qed.

Lemma walked_add w0 D n P w name f w' :
  walked w0 D n P w -> changed w (D ++ [name]) f w' -> (forall q, f q = persisted n (name :: q)) ->
  walked w0 D n (fun m => P m || String.eqb name m) w'.
Proof.
  intros H Hc Hf q. destruct (decide (D `prefix_of` q)) as [[r ->]|Hq].
  - rewrite bool_decide_eq_true_2 by (by exists r). rewrite drop_app_length.
    destruct r as [|m r].
    + rewrite app_nil_r. rewrite (changed_away _ _ _ _ _ Hc).
      * pose proof (changed_at _ _ _ _ [] H) as H0. by rewrite app_nil_r in H0.
      * intros Hp%prefix_length. rewrite length_app in Hp. cbn in Hp. lia.
    + destruct (String.eqb_spec name m) as [->|Hne].
      * rewrite orb_true_r. change (m :: r) with ([m] ++ r). rewrite app_assoc, (changed_at _ _ _ _ _ Hc). apply Hf.
      * rewrite orb_false_r, (changed_away _ _ _ _ _ Hc); [by rewrite (changed_at _ _ _ _ _ H)|].
        intros Hp%prefix_app_inv. by apply prefix_cons_inv_1 in Hp.
  - rewrite bool_decide_eq_false_2 by done. rewrite (changed_away _ _ _ _ _ Hc).
    + by rewrite (changed_away _ _ _ _ _ H).
    + intros Hp. apply Hq. trans (D ++ [name]); [by exists [name]|done].
Qed.

Lemma each_run w0 D n (f : string * pnode -> PyM pnode pyexn unit) (k : string * pnode -> bool) l P w :
  (forall e w P, e ∈ l -> k e = true -> P (fst e) = false -> walked w0 D n P w ->
     exists w', f e w = (w', Ok tt) /\ walked w0 D n (fun m => P m || String.eqb (fst e) m) w') ->
  (forall e w, e ∈ l -> k e = false -> f e w = (w, Ok tt)) ->
  NoDup (map fst l) -> (forall e, e ∈ l -> k e = true -> P (fst e) = false) -> walked w0 D n P w ->
  exists w', p_for_each f l w = (w', Ok tt) /\
    walked w0 D n (fun m => P m || existsb (fun e => String.eqb (fst e) m && k e) l) w'.
Proof.
  intros Hrun Hskip. revert P w. induction l as [|e l IH]; intros P w Hnd HP Hw.
  { exists w. split; [done|]. eapply walked_ext; [|exact Hw]. intros m. cbn. by rewrite orb_false_r. }
  cbn in Hnd. apply NoDup_cons in Hnd as [Hn Hnd].
  assert (Hrest : forall P w, (forall e, e ∈ l -> k e = true -> P (fst e) = false) -> walked w0 D n P w ->
    exists w', p_for_each f l w = (w', Ok tt) /\
      walked w0 D n (fun m => P m || existsb (fun e => String.eqb (fst e) m && k e) l) w').
  { intros P1 w1 HP1 Hw1. apply IH; try done.
    - intros e' w' P' He'. apply Hrun. by right.
    - intros e' w' He'. apply Hskip. by right. }
  cbn [p_for_each]. unfold mbind, pym_bind. destruct (k e) eqn:Ek.
  - destruct (Hrun e w P) as (w1 & -> & Hw1); [by left|done|apply HP; [by left|done]|done|].
    destruct (Hrest (fun m => P m || String.eqb (fst e) m) w1) as (w2 & -> & Hw2); [|done|].
    { intros e' He' Hk'. rewrite HP by (done || by right). cbn. apply String.eqb_neq. intros E. apply Hn.
      rewrite E. apply list_elem_of_fmap. by exists e'. }
    exists w2. split; [done|]. eapply walked_ext; [|exact Hw2]. intros m. cbn. rewrite Ek, andb_true_r. by rewrite orb_assoc.
  - rewrite Hskip by (done || by left). destruct (Hrest P w) as (w2 & -> & Hw2); [|done|].
    { intros e' He'. apply HP. by right. }
    exists w2. split; [done|]. eapply walked_ext; [|exact Hw2]. intros m. cbn. by rewrite Ek, andb_false_r.
Qed.

(** No directory has a name twice, and no entry a name that is none. *)
Fixpoint pwf (n : pnode) : Prop :=
  match n with
  | PDir _ d => dict_wf d /\ (fix go (l : list (string * pnode)) : Prop :=
                                match l with [] => True | nt :: l => (is_name (fst nt) /\ pwf (snd nt)) /\ go l end) d
  | _ => True
  end.

Lemma pwf_dir st d : pwf (PDir st d) -> NoDup (map fst d) /\ forall e, e ∈ d -> is_name (fst e) /\ pwf (snd e).
Proof.
  cbn [pwf]. intros [Hd H]. split; [exact Hd|]. clear Hd.
  induction d as [|e d IH]; [intros e' He'; by apply not_elem_of_nil in He'|].
  destruct H as [H1 H2]. intros e' [->|He']%elem_of_cons; [done|]. by apply IH.
Qed.

Lemma dict_get_of_in (d : list (string * pnode)) e : NoDup (map fst d) -> e ∈ d -> dict_get (fst e) d = Some (snd e).
Proof.
  induction d as [|[k v] d IH]; intros Hnd He; [by apply not_elem_of_nil in He|].
  cbn in Hnd. apply NoDup_cons in Hnd as [Hk Hnd]. apply elem_of_cons in He as [->|He]; cbn.
  - by rewrite String.eqb_refl.
  - destruct (String.eqb_spec (fst e) k) as [<-|]; [|by apply IH].
    destruct Hk. apply list_elem_of_fmap. by exists e.
Qed.

Lemma subdirs_for_each rel l w :
  (fix subdirs (l : list (string * pnode)) : PyM pnode pyexn unit :=
     match l with
     | [] => mret tt
     | (name, sub) :: l =>
         _ ← recursively_prepare_dir fault src_passwd dst_passwd src_group dst_group src_root dst_root (rel ++ [name]) sub; subdirs l
     end) l w =
  p_for_each (fun e => recursively_prepare_dir fault src_passwd dst_passwd src_group dst_group src_root dst_root
                         (rel ++ [fst e]) (snd e)) l w.
Proof.
  revert w. induction l as [|[name sub] l IH]; intros w; [done|]. cbn [p_for_each fst snd].
  unfold mbind, pym_bind. destruct (recursively_prepare_dir _ _ _ _ _ _ _ _ _ w) as [w1 [a|e]]; [|done]. apply IH.
Qed.

(** What the walk needs of the world, at [rel ++ [c]] below the two roots. *)
Record walkable (rel : path) (c : string) (n : pnode) (w : pnode) : Prop := mkWalkable {
  wk_src : forall q, obs w (src_root ++ rel ++ c :: q) = obs n q;
  wk_src_plain : pplain w (src_root ++ rel);
  wk_dst_plain : pplain w (dst_root ++ rel);
  wk_dst_dir : dir_at w (dst_root ++ rel);
  wk_name : is_name c;
}.

(** Nothing below the destination's [rel ++ [c]] matters for it. *)
Lemma walkable_changed rel c n w f w' d :
  walkable rel c n w -> changed w (dst_root ++ d) f w' -> ~ d `prefix_of` rel -> walkable rel c n w'.
Proof.
  intros [H1 H2 H3 H4 H5] Hc Hd. assert (Hd' : ~ dst_root ++ d `prefix_of` dst_root ++ rel).
  { intros H%prefix_app_inv. done. }
  split; [|by eapply changed_pplain_above; [done|apply dst_not_src|]|by eapply changed_pplain_above
          |by eapply changed_dir_above|done].
  intros q. rewrite (changed_away _ _ _ _ _ Hc) by apply dst_not_src. apply H1.
Qed.

Lemma snoc_not_prefix {A} (p : list A) c : ~ p ++ [c] `prefix_of` p.
Proof. intros H%prefix_length. rewrite length_app in H. cbn in H. lia. Qed.

Lemma walked_entry rel c st es w0 P w e :
  pwf (PDir st es) -> walkable rel c (PDir st es) w0 -> walked w0 (dst_root ++ rel ++ [c]) (PDir st es) P w -> e ∈ es ->
  walkable (rel ++ [c]) (fst e) (snd e) w /\
  (P (fst e) = false -> obs w ((dst_root ++ rel ++ [c]) ++ [fst e]) = None).
Proof.
  intros Hwf [H1 H2 H3 H4 H5] Hw He. destruct (pwf_dir _ _ Hwf) as [Hnd Hes].
  assert (HD : forall r, obs w ((dst_root ++ rel ++ [c]) ++ r) = match r with [] => Some (ADir (owner st))
                 | name :: _ => if P name then persisted (PDir st es) r else None end).
  { intros r. by rewrite (changed_at _ _ _ _ _ Hw); destruct r. }
  assert (HDd : dir_at w (dst_root ++ rel ++ [c])).
  { exists (owner st). specialize (HD []). by rewrite app_nil_r in HD. }
  split; [split|].
  - intros q. rewrite (changed_away _ _ _ _ _ Hw) by apply dst_not_src. rewrite <- app_assoc. cbn [app].
    rewrite H1, obs_cons, (dict_get_of_in _ _ Hnd He). done.
  - eapply changed_pplain_above; [exact Hw|apply dst_not_src|]. rewrite app_assoc. apply pplain_snoc; [done|done|].
    intros t u g. rewrite <- app_assoc. by rewrite (H1 []).
  - rewrite app_assoc. apply pplain_snoc; [|done|].
    + eapply changed_pplain_above; [exact Hw| |done]. rewrite app_assoc. apply snoc_not_prefix.
    + intros t u g. rewrite <- app_assoc. specialize (HD []). rewrite app_nil_r in HD. by rewrite HD.
  - done.
  - by apply Hes.
  - intros HP. by rewrite HD, HP.
Qed.

(** One entry that is no directory. *)
Lemma leaf_run rel c st es w0 P w name x (m : PyM pnode pyexn unit) :
  pwf (PDir st es) -> walkable rel c (PDir st es) w0 -> walked w0 (dst_root ++ rel ++ [c]) (PDir st es) P w ->
  (name, x) ∈ es -> P name = false -> (forall st d, x <> PDir st d) ->
  (forall w1, walkable (rel ++ [c]) name x w1 -> obs w1 ((dst_root ++ rel ++ [c]) ++ [name]) = None ->
     exists w', m w1 = (w', Ok tt) /\ changed w1 ((dst_root ++ rel ++ [c]) ++ [name]) (persisted x) w') ->
  exists w', (_ ← rm_target fault (dst_root ++ (rel ++ [c]) ++ [name]); m) w = (w', Ok tt) /\
    walked w0 (dst_root ++ rel ++ [c]) (PDir st es) (fun n => P n || String.eqb name n) w'.
Proof.
  intros Hwf Hk Hw He HP Hx Hm. destruct (pwf_dir _ _ Hwf) as [Hnd _].
  destruct (walked_entry _ _ _ _ _ _ _ _ Hwf Hk Hw He) as [Hke Hnone]. cbn [fst snd] in *. specialize (Hnone HP).
  destruct (rm_target_run w (dst_root ++ rel ++ [c]) name) as (w1 & Hrm & Hc1); [apply Hke|apply Hke|by rewrite Hnone|].
  destruct (Hm w1) as (w2 & Hm2 & Hc2).
  { eapply (walkable_changed _ _ _ _ _ _ ((rel ++ [c]) ++ [name])); [exact Hke| |apply snoc_not_prefix].
    by rewrite app_assoc. }
  { pose proof (changed_at _ _ _ _ [] Hc1) as H. by rewrite app_nil_r in H. }
  exists w2. split.
  - unfold mbind, pym_bind. rewrite (app_assoc dst_root), Hrm. done.
  - eapply walked_add; [exact Hw|eapply changed_twice; [exact Hc1|exact Hc2]|].
    intros q. unfold persisted. by rewrite obs_cons, (dict_get_of_in _ _ Hnd He : dict_get name es = Some x).
Qed.

Lemma persisted_leaf x : (forall st d, x <> PDir st d) -> forall q, persisted x q = only (attr_of x) q ≫= pers.
Proof. intros Hx q. unfold persisted. by rewrite obs_leaf. Qed.

Lemma symlink_leaf rel name t u g w :
  walkable rel name (PLink t u g) w -> obs w ((dst_root ++ rel) ++ [name]) = None ->
  exists w', prepare_symlink fault src_passwd dst_passwd src_group dst_group
               (src_root ++ rel ++ [name]) (dst_root ++ rel ++ [name]) w = (w', Ok tt) /\
    changed w ((dst_root ++ rel) ++ [name]) (persisted (PLink t u g)) w'.
Proof.
  intros [H1 H2 H3 H4 H5] Hn.
  destruct (prepare_symlink_run w (src_root ++ rel) name (dst_root ++ rel) name t u g) as (w' & Hr & Hc); try done.
  { rewrite <- app_assoc. apply (H1 []). }
  exists w'. split; [by rewrite !app_assoc|]. intros q. rewrite Hc. case_bool_decide; [|done].
  rewrite persisted_leaf by done. by destruct (drop _ q).
Qed.

Lemma file_leaf rel name t st w :
  walkable rel name (PFile t st) w -> obs w ((dst_root ++ rel) ++ [name]) = None ->
  exists w', prepare_file fault src_passwd dst_passwd src_group dst_group
               (src_root ++ rel ++ [name]) (dst_root ++ rel ++ [name]) w = (w', Ok tt) /\
    changed w ((dst_root ++ rel) ++ [name]) (persisted (PFile t st)) w'.
Proof.
  intros [H1 H2 H3 H4 H5] Hn.
  destruct (prepare_file_run w (src_root ++ rel) name (dst_root ++ rel) name t st) as (w' & Hr & Hc); try done.
  { rewrite <- app_assoc. apply (H1 []). }
  exists w'. split; [by rewrite !app_assoc|]. intros q. rewrite Hc. case_bool_decide; [|done].
  rewrite persisted_leaf by done. by destruct (drop _ q).
Qed.

Lemma pym_bind_run {S A B} (m : PyM S pyexn A) s s' a (k : A -> PyM S pyexn B) : m s = (s', Ok a) -> (m ≫= k) s = k a s'.
Proof. intros H. unfold mbind, pym_bind. by rewrite H. Qed.

Lemma try_except_run {S A} (m : PyM S pyexn A) (h : pyexn -> PyM S pyexn A) s s' a : m s = (s', Ok a) -> try_except m h s = (s', Ok a).
Proof. unfold try_except. by intros ->. Qed.

(** The passes over the entries of a directory: which of them each handles. *)
Definition is_fname (leads : string -> bool) (e : string * pnode) : bool :=
  match snd e with PDir _ _ => false | PLink _ _ _ => negb (leads (fst e)) | _ => true end.
Definition is_dname_link (leads : string -> bool) (e : string * pnode) : bool :=
  match snd e with PLink _ _ _ => leads (fst e) | _ => false end.
Definition is_subdir (e : string * pnode) : bool := match snd e with PDir _ _ => true | _ => false end.

Lemma fname_run leads rel c st es w0 P w e :
  pwf (PDir st es) -> walkable rel c (PDir st es) w0 -> walked w0 (dst_root ++ rel ++ [c]) (PDir st es) P w ->
  e ∈ es -> P (fst e) = false -> is_fname leads e = true ->
  exists w', prepare_fname fault src_passwd dst_passwd src_group dst_group src_root dst_root leads (rel ++ [c]) e w = (w', Ok tt) /\
    walked w0 (dst_root ++ rel ++ [c]) (PDir st es) (fun n => P n || String.eqb (fst e) n) w'.
Proof.
  intros Hwf Hk Hw He HP Hkind. destruct e as [name x]. cbn [fst snd] in *. unfold is_fname in Hkind. cbn [fst snd] in Hkind.
  destruct x as [t fst|t u g|fst d|fst]; cbn [prepare_fname]; [| |done|].
  - eapply leaf_run; try done. intros w1 Hk1 Hn1. destruct (file_leaf _ _ _ _ _ Hk1 Hn1) as (w' & Hr & Hc).
    exists w'. split; [by apply try_except_run|done].
  - apply negb_true_iff in Hkind. rewrite Hkind.
    eapply leaf_run; try done. intros w1 Hk1 Hn1. destruct (symlink_leaf _ _ _ _ _ _ Hk1 Hn1) as (w' & Hr & Hc).
    exists w'. split; [by apply try_except_run|done].
  - destruct (leaf_run rel c st es w0 P w name (PSpecial fst) (mret tt)) as (w' & Hr & Hw'); try done.
    + intros w1 Hk1 Hn1. exists w1. split; [done|]. intros q. case_bool_decide as Hq; [|done].
      rewrite persisted_leaf by done. rewrite (obs_none_below _ _ _ Hn1 Hq). by destruct (drop _ q).
    + exists w'. split; [|done]. unfold mbind, pym_bind in Hr. destruct (rm_target _ _ w) as [w1 [[]|]]; [|done].
      by injection Hr as <-.
Qed.

Lemma dname_run leads rel c st es w0 P w e :
  pwf (PDir st es) -> walkable rel c (PDir st es) w0 -> walked w0 (dst_root ++ rel ++ [c]) (PDir st es) P w ->
  e ∈ es -> P (fst e) = false -> is_dname_link leads e = true ->
  exists w', prepare_dname fault src_passwd dst_passwd src_group dst_group src_root dst_root leads (rel ++ [c]) e w = (w', Ok tt) /\
    walked w0 (dst_root ++ rel ++ [c]) (PDir st es) (fun n => P n || String.eqb (fst e) n) w'.
Proof.
  intros Hwf Hk Hw He HP Hkind. destruct e as [name x]. cbn [fst snd] in *. unfold is_dname_link in Hkind. cbn [fst snd] in Hkind.
  destruct x as [t fst|t u g|fst d|fst]; try done. cbn [prepare_dname]. rewrite Hkind.
  eapply leaf_run; try done. intros w1 Hk1 Hn1. destruct (symlink_leaf _ _ _ _ _ _ Hk1 Hn1) as (w' & Hr & Hc). eauto.
Qed.

Section PnodeInd.
Context (Q : pnode -> Prop).
Context (Hfile : forall c st, Q (PFile c st)) (Hlink : forall t u g, Q (PLink t u g)) (Hspec : forall st, Q (PSpecial st)).
Context (Hdir : forall st d, (forall e, e ∈ d -> Q (snd e)) -> Q (PDir st d)).

Fixpoint pnode_ind' (n : pnode) : Q n :=
  match n with
  | PFile c st => Hfile c st
  | PLink t u g => Hlink t u g
  | PSpecial st => Hspec st
  | PDir st d =>
      Hdir st d ((fix go (l : list (string * pnode)) : forall e, e ∈ l -> Q (snd e) :=
                    match l with
                    | [] => fun e He => False_ind _ (not_elem_of_nil e He)
                    | nt :: l => fun e He =>
                        match proj1 (elem_of_cons _ _ _) He with
                        | or_introl E => eq_ind_r (fun e => Q (snd e)) (pnode_ind' (snd nt)) E
                        | or_intror H => go l e H
                        end
                    end) d)
  end.
End PnodeInd.

Lemma existsb_other (k1 k2 : string * pnode -> bool) l e :
  NoDup (map fst l) -> e ∈ l -> k1 e = false -> existsb (fun x => String.eqb (fst x) (fst e) && k1 x) l = false.
Proof.
  intros Hnd He Hk. apply not_true_iff_false. intros Hex. apply existsb_exists in Hex as (x & Hx & Hb).
  apply andb_true_iff in Hb as [Hb Hkx]. apply String.eqb_eq in Hb. apply list_elem_of_In in Hx.
  pose proof (dict_get_of_in _ _ Hnd Hx) as G1. pose proof (dict_get_of_in _ _ Hnd He) as G2.
  rewrite Hb, G2 in G1. destruct x, e; cbn in *; simplify_eq. congruence.
Qed.

Lemma start_dir_run rel c st es w :
  walkable rel c (PDir st es) w -> (forall s, obs w (dst_root ++ rel ++ [c]) <> Some (ASpecial s)) ->
  exists w', (_ ← rm_target fault (dst_root ++ rel ++ [c]);
              prepare_pdir fault src_passwd dst_passwd src_group dst_group (src_root ++ rel ++ [c]) (dst_root ++ rel ++ [c])) w
             = (w', Ok tt) /\ walked w (dst_root ++ rel ++ [c]) (PDir st es) (fun _ => false) w'.
Proof.
  intros [H1 H2 H3 H4 H5] Hs. rewrite !(app_assoc _ rel) in *.
  destruct (rm_target_run w (dst_root ++ rel) c) as (w1 & Hr1 & Hc1); try done.
  assert (Ho : obs w1 ((src_root ++ rel) ++ [c]) = Some (ADir st)).
  { rewrite <- app_assoc. rewrite (changed_away _ _ _ _ _ Hc1); [apply (H1 [])|]. rewrite <- app_assoc. apply dst_not_src. }
  apply obs_tget in Ho as (x & Hx & Hax).
  destruct (prepare_pdir_run w1 (src_root ++ rel) c (dst_root ++ rel) c x) as (w2 & Hr2 & Hc2).
  - eapply changed_pplain_above; [exact Hc1| |done]. rewrite <- app_assoc. apply dst_not_src.
  - done.
  - rewrite <- !app_assoc. apply dst_not_src.
  - eapply changed_pplain_above; [exact Hc1|apply snoc_not_prefix|done].
  - eapply changed_dir_above; [exact Hc1|apply snoc_not_prefix|done].
  - pose proof (changed_at _ _ _ _ [] Hc1) as H. by rewrite app_nil_r in H.
  - exists w2. split; [unfold mbind, pym_bind; by rewrite Hr1|].
    intros q. rewrite (changed_twice _ _ _ _ _ _ Hc1 Hc2). case_bool_decide; [|done].
    destruct x; try done. injection Hax as ->. by destruct (drop _ q).
Qed.

Lemma walk_run n : pwf n -> is_subdir (EmptyString, n) = true -> forall rel c w,
  walkable rel c n w -> (forall s, obs w (dst_root ++ rel ++ [c]) <> Some (ASpecial s)) ->
  exists w', recursively_prepare_dir fault src_passwd dst_passwd src_group dst_group src_root dst_root (rel ++ [c]) n w = (w', Ok tt) /\
    changed w (dst_root ++ rel ++ [c]) (persisted n) w'.
Proof.
  induction n as [| | |st es IH] using pnode_ind'; try done. intros Hwf _ rel c w Hk Hs.
  destruct (pwf_dir _ _ Hwf) as [Hnd Hes].
  destruct (start_dir_run _ _ _ _ _ Hk Hs) as (w1 & Hr1 & Hw1).
  set (leads := fun name => p_dir (tstat w (src_root ++ (rel ++ [c]) ++ [name]))).
  destruct (each_run w (dst_root ++ rel ++ [c]) (PDir st es)
              (prepare_fname fault src_passwd dst_passwd src_group dst_group src_root dst_root leads (rel ++ [c]))
              (is_fname leads) es (fun _ => false) w1) as (w2 & Hr2 & Hw2); try done.
  { intros e w' P He Hke HP Hw'. by eapply fname_run. }
  { intros [name x] w' He Hke. unfold is_fname in Hke. cbn in Hke. destruct x; try done.
    apply negb_false_iff in Hke. cbn [prepare_fname]. by rewrite Hke. }
  set (P1 := fun m => false || existsb (fun e => String.eqb (fst e) m && is_fname leads e) es) in Hw2.
  destruct (each_run w (dst_root ++ rel ++ [c]) (PDir st es)
              (prepare_dname fault src_passwd dst_passwd src_group dst_group src_root dst_root leads (rel ++ [c]))
              (is_dname_link leads) es P1 w2) as (w3 & Hr3 & Hw3); try done.
  { intros e w' P He Hke HP Hw'. by eapply dname_run. }
  { intros [name x] w' He Hke. unfold is_dname_link in Hke. cbn in Hke. destruct x; try done. cbn [prepare_dname]. by rewrite Hke. }
  { intros e He Hke. unfold P1. cbn [orb]. apply (existsb_other _ (fun _ => true)); [done|done|].
    unfold is_dname_link, is_fname in *. destruct (snd e); try done. by rewrite Hke. }
  set (P2 := fun m => P1 m || existsb (fun e => String.eqb (fst e) m && is_dname_link leads e) es) in Hw3.
  destruct (each_run w (dst_root ++ rel ++ [c]) (PDir st es)
              (fun e => recursively_prepare_dir fault src_passwd dst_passwd src_group dst_group src_root dst_root
                          ((rel ++ [c]) ++ [fst e]) (snd e))
              is_subdir es P2 w3) as (w4 & Hr4 & Hw4); try done.
  { intros e w' P He Hke HP Hw'. destruct (walked_entry _ _ _ _ _ _ _ _ Hwf Hk Hw' He) as [Hke' Hnone].
    specialize (Hnone HP). destruct (Hes e He) as [_ Hwfe].
    destruct (IH e He Hwfe Hke (rel ++ [c]) (fst e) w' Hke') as (w'' & Hr & Hc); [by rewrite app_assoc, Hnone|].
    exists w''. split; [done|]. eapply walked_add; [exact Hw'|rewrite app_assoc in Hc; exact Hc|].
    intros q. unfold persisted. by rewrite obs_cons, (dict_get_of_in _ _ Hnd He). }
  { intros [name x] w' He Hke. unfold is_subdir in Hke. cbn in Hke. by destruct x. }
  { intros e He Hke. unfold P2, P1. cbn [orb]. rewrite !(existsb_other _ (fun _ => true)); try done;
      unfold is_subdir, is_dname_link, is_fname in *; by destruct (snd e). }
  exists w4. split.
  - cbn [recursively_prepare_dir]. etrans; [apply (pym_bind_run get w w w); done|]. cbv beta zeta. fold leads.
    apply pym_bind_ok in Hr1 as (wa & [] & Hr0 & Hr1).
    do 4 (etrans; [by eapply pym_bind_run|]). by rewrite subdirs_for_each.
  - intros q. rewrite Hw4. case_bool_decide; [|done]. destruct (drop _ q) as [|m r]; [done|]. unfold P2, P1. cbn [orb].
    destruct (_ || _ || _) eqn:EP; [done|]. unfold persisted. rewrite obs_cons.
    destruct (dict_get m es) as [x|] eqn:Em; [|done]. exfalso. apply dict_get_In in Em.
    apply orb_false_iff in EP as [EP E3]. apply orb_false_iff in EP as [E1 E2].
    assert (Hin : forall k, existsb (fun e => String.eqb (fst e) m && k e) es = false -> k (m, x) = false).
    { intros k Hk'. apply not_true_iff_false. intros Hkx. apply not_true_iff_false in Hk'. apply Hk'.
      apply existsb_exists. exists (m, x). split; [by apply list_elem_of_In|]. cbn. by rewrite String.eqb_refl, Hkx. }
    apply Hin in E1, E2, E3. unfold is_fname, is_dname_link, is_subdir in *. cbn in *. destruct x; try done.
    by rewrite E2 in E1.
Qed.

(** ** The parents of an entry *)

(** The parents can be made at the destination: no link or special file is
    among them, and the source has them as directories. *)
Record parents_ok (rel : path) (w : pnode) : Prop := mkParentsOk {
  po_names : Forall is_name rel;
  po_src : forall s, s `prefix_of` rel -> dir_at w (src_root ++ s);
  po_src_plain : pplain w src_root;
  po_dst : forall s a, s `prefix_of` rel -> obs w (dst_root ++ s) = Some a ->
    match a with ALink _ _ _ | ASpecial _ => False | _ => True end;
  po_dst_plain : pplain w dst_root;
  po_dst_dir : dir_at w dst_root;
}.

Lemma pplain_prefix_of w p q : pplain w p -> q `prefix_of` p -> pplain w q.
Proof.
  intros [Hn Hl] Hq. split; [|intros r t u g Hr; apply Hl; by trans q].
  destruct Hq as [k ->]. by apply Forall_app in Hn as [? _].
Qed.

Lemma tlstat_plain_self w p : pplain w p -> tlstat w p = tget w p.
Proof.
  destruct p as [|c p _] using rev_ind; [done|]. intros Hp. apply tlstat_plain.
  eapply pplain_prefix_of; [exact Hp|by exists [c]].
Qed.

Lemma pplain_below w root rel :
  pplain w root -> Forall is_name rel ->
  (forall s t u g, s `prefix_of` rel -> obs w (root ++ s) <> Some (ALink t u g)) -> pplain w (root ++ rel).
Proof.
  intros Hr Hn Hl. induction rel as [|c rel IH] using rev_ind; [by rewrite app_nil_r|].
  apply Forall_app in Hn as [Hn Hc]. inversion Hc; subst. rewrite app_assoc. apply pplain_snoc; [|done|].
  - apply IH; [done|]. intros s t u g Hs. apply Hl. by apply prefix_app_r.
  - intros t u g. rewrite <- app_assoc. by apply Hl.
Qed.

Lemma parents_ok_src_plain rel w s : parents_ok rel w -> s `prefix_of` rel -> pplain w (src_root ++ s).
Proof.
  intros H Hs. apply pplain_below; [apply H| |].
  - destruct Hs as [k ->]. apply po_names in H. by apply Forall_app in H as [? _].
  - intros s' t u g Hs'. destruct (po_src _ _ H s') as [st ->]; [by trans s|done].
Qed.

Lemma parents_ok_dst_plain rel w s : parents_ok rel w -> s `prefix_of` rel -> pplain w (dst_root ++ s).
Proof.
  intros H Hs. apply pplain_below; [apply H| |].
  - destruct Hs as [k ->]. apply po_names in H. by apply Forall_app in H as [? _].
  - intros s' t u g Hs' Ho. by apply (po_dst _ _ H s') in Ho; [|by trans s].
Qed.

Lemma src_not_dst q s : ~ src_root ++ q `prefix_of` dst_root ++ s.
Proof.
  intros H. assert (H1 : src_root `prefix_of` dst_root ++ s) by (trans (src_root ++ q); [by exists q|done]).
  destruct (prefix_comparable _ _ _ H1 (prefix_app_r _ _ s (reflexivity dst_root))) as [?|?]; [by apply Hdisj2|by apply Hdisj1].
Qed.

(** What making the parents does. *)
Record parents_made (rel : path) (w w' : pnode) : Prop := mkParentsMade {
  pm_ok : parents_ok rel w';
  pm_frame : forall q, ~ q `prefix_of` dst_root ++ rel -> obs w' q = obs w q;
  pm_dirs : forall s, s `prefix_of` rel -> dir_at w' (dst_root ++ s);
  pm_kept : forall s st, obs w (dst_root ++ s) = Some (ADir st) -> obs w' (dst_root ++ s) = Some (ADir st);
}.

(** One parent: the destination has a directory, a file or nothing there. *)
Lemma parent_step rel s c w :
  parents_ok rel w -> s ++ [c] `prefix_of` rel -> dir_at w (dst_root ++ s) ->
  exists w', (w0 ← get;
    if p_file_or_symlink (tlstat w0 (dst_root ++ s ++ [c]))
    then _ ← unlink fault (dst_root ++ s ++ [c]);
         prepare_pdir fault src_passwd dst_passwd src_group dst_group (src_root ++ s ++ [c]) (dst_root ++ s ++ [c])
    else if p_dir (tstat w0 (dst_root ++ s ++ [c])) then mret tt
    else match tstat w0 (dst_root ++ s ++ [c]) with
         | None => prepare_pdir fault src_passwd dst_passwd src_group dst_group (src_root ++ s ++ [c]) (dst_root ++ s ++ [c])
         | Some _ => raise value_exn
         end) w = (w', Ok tt) /\
    (w' = w /\ dir_at w (dst_root ++ s ++ [c]) \/
     (exists st, changed w (dst_root ++ s ++ [c]) (only (ADir st)) w') /\ ~ dir_at w (dst_root ++ s ++ [c])).
Proof.
  intros Hok Hs Hd. assert (Hs' : s `prefix_of` rel) by (trans (s ++ [c]); [by exists [c]|done]).
  pose proof (parents_ok_dst_plain _ _ _ Hok Hs') as Hpd. pose proof (parents_ok_dst_plain _ _ _ Hok Hs) as Hpdc.
  pose proof (parents_ok_src_plain _ _ _ Hok Hs') as Hps.
  pose proof (fun a => po_dst _ _ Hok _ a Hs) as Hobs. destruct (po_src _ _ Hok _ Hs) as [st Hsrc].
  assert (Hns : forall q, ~ (dst_root ++ s) ++ [c] `prefix_of` (src_root ++ s) ++ q).
  { intros q. rewrite <- !app_assoc. apply dst_not_src. }
  rewrite !app_assoc in *.
  assert (Hmake : forall w1 f, changed w ((dst_root ++ s) ++ [c]) f w1 -> (forall q, f q = None) ->
    exists w', prepare_pdir fault src_passwd dst_passwd src_group dst_group ((src_root ++ s) ++ [c]) ((dst_root ++ s) ++ [c]) w1
                 = (w', Ok tt) /\ exists st, changed w ((dst_root ++ s) ++ [c]) (only (ADir st)) w').
  { intros w1 f Hc Hf. rewrite <- (changed_away _ _ _ _ _ Hc (Hns [c])) in Hsrc. apply obs_tget in Hsrc as (x & Hx & _).
    destruct (prepare_pdir_run w1 (src_root ++ s) c (dst_root ++ s) c x) as (w2 & Hr2 & Hc2).
    - eapply changed_pplain_above; [exact Hc| |done]. specialize (Hns []). by rewrite app_nil_r in Hns.
    - done.
    - apply Hns.
    - eapply changed_pplain_above; [exact Hc|apply snoc_not_prefix|done].
    - eapply changed_dir_above; [exact Hc|apply snoc_not_prefix|done].
    - pose proof (changed_at _ _ _ _ [] Hc) as H. rewrite app_nil_r in H. by rewrite H, Hf.
    - exists w2. split; [done|]. eexists. eapply changed_twice; [exact Hc|exact Hc2]. }
  unfold mbind at 1, pym_bind at 1, get. rewrite tlstat_plain, tstat_plain by done. unfold dir_at, obs in Hobs |- *.
  destruct (tget w ((dst_root ++ s) ++ [c])) as [n|] eqn:E.
  - specialize (Hobs _ eq_refl). destruct n as [t fst|t u g|fst es|fst]; cbn [p_file_or_symlink p_dir]; try done.
    + destruct (unlink_run w (dst_root ++ s) c) as (w1 & Hr1 & Hc1); [done|done|].
      destruct (Hmake _ _ Hc1) as (w2 & Hr2 & Hc2); [done|]. exists w2. split; [|right; split; [done|by intros [? ?]]].
      etrans; [by eapply pym_bind_run|done].
    + exists w. split; [done|]. left. split; [done|]. by exists fst.
  - destruct (Hmake w nothing) as (w2 & Hr2 & Hc2); [|done|].
    + intros q. case_bool_decide as Hq; [|done]. apply (obs_none_below w ((dst_root ++ s) ++ [c])); [|done].
      unfold obs. by rewrite E.
    + exists w2. split; [done|right; split; [done|by intros [? ?]]].
Qed.

Lemma parents_ok_changed rel w s c st w' :
  parents_ok rel w -> s ++ [c] `prefix_of` rel -> changed w (dst_root ++ s ++ [c]) (only (ADir st)) w' -> parents_ok rel w'.
Proof.
  intros [H1 H2 H3 H4 H5 H6] Hs Hc. split; try done.
  - intros r Hr. destruct (H2 r Hr) as [sr Hsr]. exists sr. rewrite (changed_away _ _ _ _ _ Hc); [done|apply dst_not_src].
  - eapply changed_pplain_above; [exact Hc| |done]. pose proof (dst_not_src (s ++ [c]) []) as H. by rewrite app_nil_r in H.
  - intros r a Hr. rewrite Hc. case_bool_decide as Hp; [|by apply H4].
    destruct (drop _ _); [|done]. by intros [= <-].
  - eapply changed_pplain_above; [exact Hc| |done]. rewrite app_assoc. intros H%prefix_length. rewrite !length_app in H. cbn in H. lia.
  - eapply changed_dir_above; [exact Hc| |done]. rewrite app_assoc. intros H%prefix_length. rewrite !length_app in H. cbn in H. lia.
Qed.

Lemma changed_frame w p st w' q :
  changed w p (only (ADir st)) w' -> ~ dir_at w p -> q <> p -> obs w' q = obs w q.
Proof.
  intros Hc Hd Hq. rewrite Hc. case_bool_decide as Hp; [|done]. destruct Hp as [k ->]. rewrite drop_app_length.
  destruct k as [|m k]; [by rewrite app_nil_r in Hq|]. cbn [only]. rewrite obs_app.
  destruct (tget w p) as [n|] eqn:E; [|done]. cbn [mbind option_bind]. rewrite obs_cons.
  destruct n as [| |st' es|]; try done. destruct Hd. exists st'. unfold obs. by rewrite E.
Qed.

Lemma prepare_parents_run seen rest w :
  parents_ok (seen ++ rest) w -> (forall s, s `prefix_of` seen -> dir_at w (dst_root ++ s)) ->
  exists w', (match rest with
              | [] => mret tt
              | c :: rest => prepare_parents fault src_passwd dst_passwd src_group dst_group src_root dst_root (seen ++ [c]) rest
              end) w = (w', Ok tt) /\ parents_made (seen ++ rest) w w'.
Proof.
  revert seen w. induction rest as [|c rest IH]; intros seen w Hok Hdirs.
  { exists w. split; [done|]. rewrite app_nil_r in *. by split. }
  replace (seen ++ c :: rest) with ((seen ++ [c]) ++ rest) in * by (by rewrite <- app_assoc).
  assert (Hpre : seen ++ [c] `prefix_of` (seen ++ [c]) ++ rest) by (by exists rest).
  destruct (parent_step _ seen c w Hok Hpre) as (w1 & Hr1 & Hcase); [by apply Hdirs|].
  assert (Hok1 : parents_ok ((seen ++ [c]) ++ rest) w1 /\
                 (forall q, q <> dst_root ++ seen ++ [c] -> obs w1 q = obs w q) /\
                 dir_at w1 (dst_root ++ seen ++ [c]) /\
                 (forall st, obs w (dst_root ++ seen ++ [c]) = Some (ADir st) -> w1 = w)).
  { destruct Hcase as [[-> Hd]|[[st Hc] Hd]]; [done|]. split_and!.
    - by eapply parents_ok_changed.
    - intros q Hq. by eapply changed_frame.
    - exists st. pose proof (changed_at _ _ _ _ [] Hc) as H. by rewrite app_nil_r in H.
    - intros st' H. destruct Hd. by exists st'. }
  destruct Hok1 as (Hok1 & Hf1 & Hd1 & Hk1).
  destruct (IH (seen ++ [c]) w1) as (w2 & Hr2 & [Hm1 Hm2 Hm3 Hm4]); [done| |].
  { intros s [Hs | ->]%prefix_snoc_cases; [|done]. destruct (Hdirs s Hs) as [st H]. exists st. rewrite Hf1; [done|].
    intros E%app_inv_head. apply prefix_length in Hs. rewrite E, length_app in Hs. cbn in Hs. lia. }
  exists w2. split.
  - destruct rest; cbn [prepare_parents]; (etrans; [eapply pym_bind_run, Hr1|]); exact Hr2.
  - split; [done| |done|].
    + intros q Hq. rewrite Hm2 by done. apply Hf1. intros ->. apply Hq. by apply prefix_app.
    + intros s st Hst. apply Hm4. destruct (decide (s = seen ++ [c])) as [->|Hne]; [by rewrite (Hk1 st)|].
      rewrite Hf1; [done|]. by intros ?%app_inv_head.
Qed.


Lemma prepare_parent_run rel c w :
  parents_ok rel w ->
  exists w', prepare_parent fault src_passwd dst_passwd src_group dst_group src_root dst_root (rel ++ [c]) w = (w', Ok tt) /\
    parents_made rel w w'.
Proof.
  intros Hok. destruct (prepare_parents_run [] rel w Hok) as (w' & Hr & Hm).
  { intros s ->%prefix_nil_inv. rewrite app_nil_r. apply Hok. }
  exists w'. split; [|done].
  assert (E : forall x, prepare_parent fault src_passwd dst_passwd src_group dst_group src_root dst_root (rel ++ [c]) x =
              prepare_parents fault src_passwd dst_passwd src_group dst_group src_root dst_root [] (removelast (rel ++ [c])) x).
  { intros x. by destruct rel. }
  rewrite E, removelast_last.
  assert (Hroot : tlstat w dst_root = tget w dst_root /\ tstat w dst_root = tget w dst_root).
  { split; [apply tlstat_plain_self, Hok|apply tstat_plain, Hok]. }
  destruct (dir_at_tget _ _ (po_dst_dir _ _ Hok)) as (st & es & Hd). destruct Hroot as [Hl Hs].
  destruct rel; cbn [prepare_parents]; (etrans; [eapply pym_bind_run|exact Hr]);
    rewrite app_nil_r; unfold mbind, pym_bind, get; by rewrite Hl, Hs, Hd.
Qed.

Lemma parents_made_walkable rel c n w w' :
  parents_made rel w w' -> is_name c -> (forall q, obs w (src_root ++ rel ++ c :: q) = obs n q) ->
  walkable rel c n w'.
Proof.
  intros [Hok Hf Hd _] Hc Hn. split; [|by apply (parents_ok_src_plain rel)|by apply (parents_ok_dst_plain rel)|by apply Hd|done].
  intros q. rewrite Hf; [done|]. apply src_not_dst.
Qed.

(** What the theorem says of the world after an entry was preserved. *)
Record entry_preserved (rel : path) (c : string) (n : pnode) (w w' : pnode) : Prop := mkPreserved {
  ep_entry : forall q, obs w' (dst_root ++ rel ++ c :: q) = persisted n q;
  ep_parents : forall s, s `prefix_of` rel -> dir_at w' (dst_root ++ s);
  ep_parents_kept : forall s st, s `prefix_of` rel ->
    obs w (dst_root ++ s) = Some (ADir st) -> obs w' (dst_root ++ s) = Some (ADir st);
  ep_others : forall q, ~ dst_root ++ rel ++ [c] `prefix_of` q -> ~ q `prefix_of` dst_root ++ rel -> obs w' q = obs w q;
}.

Lemma parents_ok_removed rel c w w' :
  parents_ok rel w -> changed w (dst_root ++ rel ++ [c]) nothing w' -> parents_ok rel w'.
Proof.
  intros [H1 H2 H3 H4 H5 H6] Hc.
  assert (Hno : forall s, s `prefix_of` rel -> ~ dst_root ++ rel ++ [c] `prefix_of` dst_root ++ s).
  { intros s Hs H%prefix_app_inv. apply (snoc_not_prefix rel c). by trans s. }
  specialize (Hno []) as Hno0. rewrite app_nil_r in Hno0. split; try done.
  - intros s Hs. destruct (H2 s Hs) as [st E]. exists st. rewrite (changed_away _ _ _ _ _ Hc); [done|apply dst_not_src].
  - eapply changed_pplain_above; [exact Hc| |done]. pose proof (dst_not_src (rel ++ [c]) []) as H. by rewrite app_nil_r in H.
  - intros s a Hs. rewrite (changed_away _ _ _ _ _ Hc) by (by apply Hno). by apply H4.
  - eapply changed_pplain_above; [exact Hc|apply Hno0, prefix_nil|done].
  - eapply changed_dir_above; [exact Hc|apply Hno0, prefix_nil|done].
Qed.

(** The three ways an entry is preserved end alike. *)
Lemma preserved_at rel c n w w1 w2 w3 f :
  changed w (dst_root ++ rel ++ [c]) f w1 \/ w1 = w -> parents_made rel w1 w2 ->
  changed w2 (dst_root ++ rel ++ [c]) (persisted n) w3 -> entry_preserved rel c n w w3.
Proof.
  intros H1 [Hok Hf Hd Hk] H3.
  assert (Hno : forall s, s `prefix_of` rel -> ~ dst_root ++ rel ++ [c] `prefix_of` dst_root ++ s).
  { intros s Hs H%prefix_app_inv. apply (snoc_not_prefix rel c). by trans s. }
  assert (Haway : forall q, ~ dst_root ++ rel ++ [c] `prefix_of` q -> obs w1 q = obs w q).
  { intros q Hq. destruct H1 as [H1| ->]; [|done]. by rewrite (changed_away _ _ _ _ _ H1). }
  split.
  - intros q. replace (dst_root ++ rel ++ c :: q) with ((dst_root ++ rel ++ [c]) ++ q) by (by rewrite <- !app_assoc).
    by rewrite (changed_at _ _ _ _ _ H3).
  - intros s Hs. eapply changed_dir_above; [exact H3|by apply Hno|by apply Hd].
  - intros s st Hs E. rewrite (changed_away _ _ _ _ _ H3) by (by apply Hno). apply Hk.
    by rewrite Haway by (by apply Hno).
  - intros q Hq1 Hq2. rewrite (changed_away _ _ _ _ _ H3), Hf, Haway by done. done.
Qed.

(** Without the two bits a mode stays. *)
Lemma chown_mode_plain mode : Z.testbit mode 11 = false -> Z.testbit mode 10 = false -> chown_mode mode = mode.
Proof.
  intros Hu Hg. assert (H : forall k, 0 <= k -> Z.testbit mode k = false -> Z.ldiff mode (2 ^ k) = mode).
  { intros k Hk Hb. apply Z.bits_inj'. intros m Hm. rewrite Z.ldiff_spec, Z.pow2_bits_eqb by lia.
    destruct (Z.eqb_spec k m) as [->|]; [by rewrite Hb|by rewrite andb_true_r]. }
  unfold chown_mode. change S_ISUID with (2 ^ 11). change S_ISGID with (2 ^ 10). rewrite !H by done.
  destruct (_ =? 0); reflexivity.
Qed.

(** C28. Preserving an entry of the active slot always succeeds when the
    environment does and the destination has no link or special file in its
    way, and leaves exactly what it promises: the standby slot has the entry
    (a file, a link, or a directory with all below it, special files left
    out) with the same content and target and the owner of the same name, and
    nothing else at that place; directories, and files that have no set-user-id
    or set-group-id bit, have the same mode, while the [chown] after the [chmod]
    takes those bits from the others ([chown_mode]); all parents are
    directories, those that were there keep their owner and mode; and nothing
    else changes anywhere, the active slot included. *)
Theorem persist_entry_preserved rel c n w :
  tget w (src_root ++ rel ++ [c]) = Some n -> pwf n -> (forall st, n <> PSpecial st) -> is_name c ->
  parents_ok rel w -> (forall st, obs w (dst_root ++ rel ++ [c]) <> Some (ASpecial st)) ->
  exists w',
    preserve_persist_entry fault src_passwd dst_passwd src_group dst_group src_root dst_root (rel ++ [c]) w = (w', Ok tt) /\
    entry_preserved rel c n w w' /\
    (forall q content st, obs n q = Some (AFile content st) ->
     Z.testbit (fst_mode st) 11 = false -> Z.testbit (fst_mode st) 10 = false ->
     obs w' (dst_root ++ rel ++ c :: q) = Some (AFile content (owner st))).
Proof.
  intros Hn Hwf Hsp Hc Hok Hdst.
  enough (He : exists w', preserve_persist_entry fault src_passwd dst_passwd src_group dst_group src_root dst_root (rel ++ [c]) w = (w', Ok tt) /\
    entry_preserved rel c n w w').
  { destruct He as (w' & Hr & Hp). exists w'. split_and!; [done|done|]. intros q content st Hq Hu Hg.
    rewrite (ep_entry _ _ _ _ _ Hp q). unfold persisted. rewrite Hq. cbn. by rewrite chown_mode_plain. }
  assert (Hsrc : forall q, obs w (src_root ++ rel ++ c :: q) = obs n q).
  { intros q. replace (src_root ++ rel ++ c :: q) with ((src_root ++ rel ++ [c]) ++ q) by (by rewrite <- !app_assoc).
    by rewrite obs_app, Hn. }
  pose proof (parents_ok_src_plain rel w rel Hok (reflexivity _)) as Hps.
  pose proof (parents_ok_dst_plain rel w rel Hok (reflexivity _)) as Hpd.
  assert (Hl : p_lstat (src_root ++ rel ++ [c]) w = (w, Ok n)).
  { rewrite app_assoc in *. by apply p_lstat_run. }
  assert (Hrm : exists w1, rm_target fault (dst_root ++ rel ++ [c]) w = (w1, Ok tt) /\ changed w (dst_root ++ rel ++ [c]) nothing w1).
  { rewrite app_assoc in *. by apply rm_target_run. }
  destruct Hrm as (w1 & Hr1 & Hc1).
  destruct (prepare_parent_run rel c w1) as (w2 & Hr2 & Hm2); [by eapply parents_ok_removed|].
  assert (Hk2 : walkable rel c n w2).
  { eapply parents_made_walkable; [exact Hm2|done|]. intros q.
    rewrite (changed_away _ _ _ _ _ Hc1); [done|apply dst_not_src]. }
  assert (Hnone : obs w2 ((dst_root ++ rel) ++ [c]) = None).
  { rewrite (pm_frame _ _ _ Hm2) by apply snoc_not_prefix. rewrite <- app_assoc.
    pose proof (changed_at _ _ _ _ [] Hc1) as H. by rewrite app_nil_r in H. }
  unfold preserve_persist_entry, try_except. unfold mbind, pym_bind. rewrite Hl.
  destruct n as [t st|t u g|st es|st]; [| | |by destruct (Hsp st)].
  - destruct (file_leaf _ _ _ _ _ Hk2 Hnone) as (w3 & Hr3 & Hc3). rewrite Hr1, Hr2, Hr3.
    exists w3. split; [done|]. rewrite <- app_assoc in Hc3. eapply preserved_at; [by left|done|done].
  - destruct (symlink_leaf _ _ _ _ _ _ Hk2 Hnone) as (w3 & Hr3 & Hc3). rewrite Hr1, Hr2, Hr3.
    exists w3. split; [done|]. rewrite <- app_assoc in Hc3. eapply preserved_at; [by left|done|done].
  - clear w1 w2 Hr1 Hc1 Hr2 Hm2 Hk2 Hnone. destruct (prepare_parent_run rel c w Hok) as (w2 & Hr2 & Hm2).
    pose proof (parents_made_walkable _ _ _ _ _ Hm2 Hc Hsrc) as Hk2.
    destruct (walk_run (PDir st es) Hwf eq_refl rel c w2 Hk2) as (w3 & Hr3 & Hc3).
    { intros s. rewrite (pm_frame _ _ _ Hm2); [done|]. rewrite app_assoc. apply snoc_not_prefix. }
    rewrite Hr2, Hr3. exists w3. split; [done|]. eapply (preserved_at _ _ _ _ w _ _ nothing); [by right|done|done].
Qed.
End Runs.

(** ** Owners *)

Lemma by_id_in d id name : by_id d id = Some name -> (name, id) ∈ d.
Proof.
  unfold by_id. assert (H : forall l acc, (forall n, acc = Some n -> (n, id) ∈ d) -> (forall e, e ∈ l -> e ∈ d) ->
    forall n, fold_left (fun res kv => if Z.eqb (snd kv) id then Some (fst kv) else res) l acc = Some n -> (n, id) ∈ d).
  { induction l as [|[k v] l IH]; intros acc Ha Hl n Hf; [by apply Ha|]. cbn in Hf.
    eapply IH; [| |exact Hf]; [|intros e He; apply Hl; by right].
    intros m. destruct (Z.eqb_spec v id) as [->|]; [|apply Ha]. intros [= <-]. apply Hl. by left. }
  by apply H.
Qed.

(** A mapped owner has the name the owner has on the active slot. *)
Theorem mapped_owner_same_name src_db dst_db uid u :
  NoDup (map fst src_db) -> map_uid_by_pwnam src_db dst_db uid = Some u ->
  exists name, dict_get name src_db = Some uid /\ dict_get name dst_db = Some u.
Proof.
  unfold map_uid_by_pwnam. intros Hnd H. destruct (by_id src_db uid) as [name|] eqn:E; [|done].
  exists name. split; [|done]. apply by_id_in in E. clear H. induction src_db as [|[k v] d IH]; [by apply not_elem_of_nil in E|].
  cbn in Hnd. apply NoDup_cons in Hnd as [Hk Hnd]. apply elem_of_cons in E as [[= <- <-]|E]; cbn.
  - by rewrite String.eqb_refl.
  - destruct (String.eqb_spec name k) as [->|]; [|by apply IH]. destruct Hk. apply list_elem_of_fmap. by exists (k, uid).
Qed.

(** ** Examples *)

Definition example_stat : fstat := mkFStat 0 0 493.
Definition example_pdir (d : list (string * pnode)) : pnode := PDir example_stat d.
Definition example_conf : pnode := PFile "conf" (mkFStat 1000 1000 384).
Definition example_active : pnode :=
  example_pdir [("etc", example_pdir [("foo", example_pdir [("bar", example_conf); ("pipe", PSpecial example_stat)])])]%string.
Definition example_src_passwd : option (pydict Z) :=
  match ParsedPasswd (Some "root:x:0:0::/root:/bin/sh
autoware:x:1000:1000::/home/autoware:/bin/sh
"%string) with Ok d => Some d | Raise _ => None end.
Definition example_ids (uid : Z) : pydict Z := [("root", 0); ("autoware", uid)]%string.

Example passwd_parsed : example_src_passwd = Some (example_ids 1000).
Proof. vm_compute. reflexivity. Qed.

(** The running system has both slots mounted. *)
Definition example_world (standby_etc : list (string * pnode)) : pnode :=
  example_pdir [("active", example_active); ("standby", example_pdir [("etc", example_pdir standby_etc)]);
                ("opt", example_pdir [("foo", example_pdir [("bar", example_conf)])])]%string.
#[local] Abbreviation preserve_example := (preserve_persist_entry (fun _ => false) (example_ids 1000) (example_ids 1001)
  (example_ids 1000) (example_ids 1001) ["active"%string] ["standby"%string]).

Lemma persist_entry_preserved_witness :
  exists w', preserve_example ["etc"; "foo"]%string (example_world []) = (w', Ok tt) /\
    obs w' ["standby"; "etc"; "foo"; "bar"]%string = Some (AFile "conf" (mkFStat 1001 1001 384)) /\
    obs w' ["standby"; "etc"; "foo"; "pipe"]%string = None.
Proof.
  destruct (persist_entry_preserved (fun _ => false) (fun _ => eq_refl) (example_ids 1000) (example_ids 1001)
    (example_ids 1000) (example_ids 1001) ["active"%string] ["standby"%string]) with
    (rel := ["etc"%string]) (c := "foo"%string)
    (n := example_pdir [("bar", example_conf); ("pipe", PSpecial example_stat)]%string)
    (w := example_world []) as (w' & Hr & Hp & _).
  - by intros H%prefix_cons_inv_1.
  - by intros H%prefix_cons_inv_1.
  - reflexivity.
  - cbn. split; [|done]. by repeat (apply NoDup_cons; split; [set_solver|]); apply NoDup_nil.
  - done.
  - done.
  - split.
    + by repeat constructor.
    + intros s Hs. destruct s as [|a [|b s]]; [by eexists| |by apply prefix_length in Hs; cbn in Hs; lia].
      apply prefix_cons_inv_1 in Hs as ->. by eexists.
    + split; [by repeat constructor|]. intros q t u g Hq. destruct q as [|a [|b q]]; [done| |by apply prefix_length in Hq; cbn in Hq; lia].
      by apply prefix_cons_inv_1 in Hq as ->.
    + intros s a Hs. destruct s as [|x [|y s]]; [by intros [= <-]| |by apply prefix_length in Hs; cbn in Hs; lia].
      apply prefix_cons_inv_1 in Hs as ->. by intros [= <-].
    + split; [by repeat constructor|]. intros q t u g Hq. destruct q as [|a [|b q]]; [done| |by apply prefix_length in Hq; cbn in Hq; lia].
      by apply prefix_cons_inv_1 in Hq as ->.
    + by eexists.
  - done.
  - exists w'. split; [exact Hr|]. split; [exact (ep_entry _ _ _ _ _ _ _ _ _ _ Hp ["bar"%string])|].
    exact (ep_entry _ _ _ _ _ _ _ _ _ _ Hp ["pipe"%string]).
Defined.

(** A file that runs as its owner no longer does on the standby slot: the owner
    is set after the mode. *)
Example setuid_bit_lost :
  let w := example_pdir [("active", example_pdir [("sudo", PFile "elf" (mkFStat 0 0 2541))]); ("standby", example_pdir [])]%string in
  let '(w', r) := preserve_example ["sudo"]%string w in
  r = Ok tt /\ obs w' ["standby"; "sudo"]%string = Some (AFile "elf" (mkFStat 0 0 493)).
Proof. vm_compute. done. Qed.

(** The entry is removed from the destination before its parents are checked:
    a link among them, absolute as in the new image's root, is followed into
    the running system, whose file is deleted. *)
Example removal_follows_parent_link :
  let w := example_world [("foo", PLink "/opt/foo" 0 0)]%string in
  let '(w', r) := preserve_example ["etc"; "foo"; "bar"]%string w in
  r = Ok tt /\ obs w ["opt"; "foo"; "bar"]%string = Some (attr_of example_conf) /\
  obs w' ["opt"; "foo"; "bar"]%string = None.
Proof. vm_compute. done. Qed.

(** A parent that is a link on the active slot is made as a directory that
    everybody can write. *)
Example linked_parent_world_writable :
  let w := example_pdir [("active", example_pdir [("data", PLink "opt" 0 0); ("opt", example_pdir [("bar", example_conf)])]);
                         ("standby", example_pdir [])]%string in
  let '(w', r) := preserve_example ["data"; "bar"]%string w in
  r = Ok tt /\ obs w' ["standby"; "data"]%string = Some (ADir (mkFStat 0 0 511)).
Proof. vm_compute. done. Qed.
