(* ===== verification/CmdHelper.v ===== *)
(** * External commands, mounts and the slot mount helper

    Models [src/src/otaclient_common/cmdhelper.py], the wrappers
    [subprocess_call] and [subprocess_check_output] of
    [src/src/otaclient_common/common.py] and [SlotMountHelper] of
    [src/src/otaclient/boot_control/_slot_mnt_helper.py].  Running a command
    is an operation of the environment; what the mount commands do to the
    table of mounts is the law of the interface [MountEnv]. *)

From stdpp Require Import base gmap strings list option sets.
From Stdlib Require Import ZArith Ascii String Lia.
From S2P Require Import Prelude Errors FileSystem TextLines.

Abbreviation argv := (list string).

(** How a command ends: its output, a non-zero code, or another exception. *)
Inductive cmd_result : Type :=
| CmdOk (stdout : string)
| CmdFailed (returncode : Z)
| CmdRaises (e : pyexn).

Class CmdEnv (W : Type) : Type := exec : argv -> W -> W * cmd_result.

Definition called_process_error (returncode : Z) : pyexn := PyExn (XOther "CalledProcessError") [AInt returncode] None None.
Definition is_called_process_error (e : pyexn) : bool :=
  match exn_cls e with XOther c => String.eqb c "CalledProcessError" | _ => false end.

Section Commands.
Context {W : Type} `{HW : !CmdEnv W}.
Abbreviation CM := (PyM W pyexn).

Definition init_pid : string := "1".

(** [subprocess_run_wrapper] with [check=True]. *)
Definition subprocess_run_wrapper (cmd : argv) (chroot : option string) (set_host_mnt_ns : bool) : CM string := fun w =>
  let base := match chroot with Some c => if str_truthy c then ["chroot"; c]%string else [] | None => [] end in
  let base := if set_host_mnt_ns then base ++ ["nsenter"; "-t"; init_pid; "-m"]%string else base in
  match exec (base ++ cmd) w with
  | (w', CmdOk out) => (w', Ok out)
  | (w', CmdFailed c) => (w', Raise (called_process_error c))
  | (w', CmdRaises e) => (w', Raise e)
  end.

Definition on_called_process_error {A} (m : CM A) (h : pyexn -> CM A) : CM A :=
  try_except m (fun e => if is_called_process_error e then h e else raise e).

Definition subprocess_check_output (cmd : argv) (raise_exception : bool) (default_out : string) (chroot : option string) : CM string :=
  on_called_process_error (out ← subprocess_run_wrapper cmd chroot false; mret (strip out))
    (fun e => if raise_exception then raise e else mret default_out).

Definition subprocess_call (cmd : argv) (raise_exception : bool) (chroot : option string) : CM unit :=
  on_called_process_error (_ ← subprocess_run_wrapper cmd chroot false; mret tt)
    (fun e => if raise_exception then raise e else mret tt).

(** ** Devices *)

Definition get_attrs_by_dev (attr dev : string) (raise_exception : bool) : CM string :=
  subprocess_check_output ["lsblk"; "-ino"; attr; dev]%string raise_exception EmptyString None.

Definition get_dev_by_token (token value : string) (raise_exception : bool) : CM (option (list string)) :=
  res ← subprocess_check_output ["blkid"; "-o"; "device"; "-t"; token +:+ "=" +:+ value]%string raise_exception EmptyString None;
  mret (if str_truthy res then Some (splitlines res) else None).

Definition get_current_rootfs_dev (active_root : string) (raise_exception : bool) (chroot : option string) : CM string :=
  subprocess_check_output ["findmnt"; "-nfco"; "SOURCE"; active_root]%string raise_exception EmptyString chroot.

Definition get_mount_point_by_dev (dev : string) (raise_exception : bool) : CM string :=
  subprocess_check_output ["findmnt"; "-nfo"; "TARGET"; dev]%string raise_exception EmptyString None.

Definition get_dev_by_mount_point (mount_point : string) (raise_exception : bool) : CM string :=
  subprocess_check_output ["findmnt"; "-no"; "SOURCE"; mount_point]%string raise_exception EmptyString None.

Definition get_parent_dev (child_device : string) (raise_exception : bool) : CM string :=
  subprocess_check_output ["lsblk"; "-idpno"; "PKNAME"; child_device]%string raise_exception EmptyString None.

Definition get_device_tree (parent_dev : string) (raise_exception : bool) : CM (list string) :=
  res ← subprocess_check_output ["lsblk"; "-lnpo"; "NAME"; parent_dev]%string raise_exception EmptyString None;
  mret (splitlines res).

Definition get_kernel_version_via_uname : CM (option string) :=
  try_except (v ← subprocess_check_output ["uname"; "-r"]%string true EmptyString None; mret (Some (strip v)))
    (fun e => if is_exception e then mret None else raise e).

(** [Path(p).name] *)
Definition path_name (p : string) : string :=
  default EmptyString (list.last (List.filter str_truthy (py_split "/" p))).

(** [rotational]: what [/sys/block/<dev>/queue/rotational] holds. *)
Definition detect_storage_device_type (rotational : string -> option string) (rootfs_devpath : string) : CM string :=
  parent ← try_except (p ← get_parent_dev rootfs_devpath true; mret (Some (strip p)))
             (fun e => if is_exception e then mret None else raise e);
  mret (match parent with
        | None => "L3"
        | Some parent_devpath =>
            let name := path_name parent_devpath in
            if startswith "nvme" name then "L1"
            else if startswith "mmcblk" name then "L3"
            else if startswith "sd" name then
              match rotational name with
              | None => "L3"
              | Some t => if String.eqb (strip t) "1" then "L3" else "L2"
              end
            else "L3"
        end%string).

Definition set_ext4_fslabel (dev fslabel : string) (raise_exception : bool) : CM unit :=
  subprocess_call ["e2label"; dev; fslabel]%string raise_exception None.

(** The attribute a formatting keeps when none is given. *)
Definition previous_attr (attr dev : string) (given : option string) : CM (option string) :=
  match given with
  | Some (String _ _) => mret given
  | _ =>
      try_except (v ← get_attrs_by_dev attr dev true; if str_truthy v then mret (Some v) else raise (PyExn (XOther "AssertionError") [] None None))
        (fun e => if is_exception e then mret None else raise e)
  end.

Definition mkfs_cmd (dev : string) (fsuuid fslabel : option string) : argv :=
  ["mkfs.ext4"; "-F"]%string ++ match fsuuid with Some u => ["-U"; u]%string | None => [] end
  ++ match fslabel with Some l => ["-L"; l]%string | None => [] end ++ [dev].

Definition mkfs_ext4 (dev : string) (fslabel fsuuid : option string) (raise_exception : bool) : CM unit :=
  fsuuid ← previous_attr "UUID" dev fsuuid;
  fslabel ← previous_attr "LABEL" dev fslabel;
  subprocess_call (mkfs_cmd dev fsuuid fslabel) raise_exception None.

(** [sys.exit(1)] *)
Definition system_exit : pyexn := PyExn (XSystemExit 1) [AInt 1] None None.

(** [wait_for_reboot], when the system does not go down within the timeout:
    what is left of the process then. *)
Definition wait_for_reboot : CM unit := raise system_exit.

Definition reboot (args : list string) (chroot : option string) : CM unit :=
  _ ← try_except (subprocess_call ("reboot"%string :: args) false chroot)
        (fun e => if is_exception e then raise system_exit else raise e);
  wait_for_reboot.

(** ** Mounting *)

Definition MAX_RETRY_COUNT : nat := 6.

Definition is_target_mounted (target : string) (raise_exception : bool) : CM bool :=
  if negb (str_truthy target) then mret false
  else on_called_process_error (_ ← subprocess_call ["findmnt"; target]%string true None; mret true)
         (fun e => if raise_exception then raise e else mret false).

Definition private_flags (set_unbindable : bool) : argv :=
  "--make-private"%string :: if set_unbindable then ["--make-unbindable"%string] else [].

Definition mount (target mount_point : string) (options params : list string) (raise_exception : bool) : CM unit :=
  subprocess_call ("mount"%string :: (match options with [] => [] | _ => ["-o"; str_join "," options]%string end)
                   ++ params ++ [target; mount_point]) raise_exception None.

Definition mount_with (args : argv) (target mount_point : string) (raise_exception set_unbindable : bool) : CM unit :=
  subprocess_call ("mount"%string :: (args ++ private_flags set_unbindable) ++ [target; mount_point]) raise_exception None.

Definition bind_mount_rw := mount_with ["-o"; "bind,rw"]%string.
Definition bind_mount_ro := mount_with ["-o"; "bind,ro,noatime"]%string.
Definition rbind_mount_ro := mount_with ["--rbind"]%string.
Definition mount_squashfs := mount_with ["-o"; "ro"; "-t"; "squashfs"]%string.
Definition mount_rw (enable_optimization : bool) :=
  mount_with ["-o"; str_join "," ("rw" :: if enable_optimization
                                          then ["noatime"; "commit=20"; "data=writeback,journal_async_commit"] else [])]%string.

Definition mount_ro (target mount_point : string) (raise_exception set_unbindable : bool) : CM unit :=
  active_mount_point ← get_mount_point_by_dev target false;
  if str_truthy active_mount_point then bind_mount_ro active_mount_point mount_point raise_exception set_unbindable
  else mount_with ["-o"; "ro,noatime"]%string target mount_point raise_exception set_unbindable.

Definition mount_tmpfs (mount_point : string) (size_in_mb : string) (raise_exception : bool) : CM unit :=
  subprocess_call ["mount"; "-t"; "tmpfs"; "-o"; "size=" +:+ size_in_mb +:+ "M"; "tmpfs"; mount_point]%string raise_exception None.

Definition umount (target : string) (raise_exception : bool) : CM unit :=
  mounted ← is_target_mounted target false;
  if mounted : bool then subprocess_call ["umount"; target]%string raise_exception None else mret tt.

(** [ensure_mount]: [retries] are left after this one. *)
Fixpoint ensure_mount_loop (retries : nat) (mount_once : CM unit) (mnt_point : string) (raise_exception : bool) : CM unit :=
  on_called_process_error (_ ← mount_once; _ ← is_target_mounted mnt_point true; mret tt)
    (fun e =>
       match retries with
       | O => if raise_exception then raise e else mret tt
       | S retries => ensure_mount_loop retries mount_once mnt_point raise_exception
       end).

Definition ensure_mount (target mnt_point : string) (mount_func : string -> string -> bool -> bool -> CM unit)
    (raise_exception set_unbindable : bool) (max_retry : nat) : CM unit :=
  ensure_mount_loop max_retry (mount_func target mnt_point true set_unbindable) mnt_point raise_exception.

(** One round of the loops that unmount, given how to look and to unmount. *)
Fixpoint ensure_umount_loop (retries : nat) (is_mounted : CM bool) (do_umount : CM unit)
    (ignore_error swallow : bool) : CM unit :=
  mounted ← is_mounted;
  if negb mounted then mret tt
  else
    failed ← try_except (_ ← do_umount; mret None)
               (fun e => if is_called_process_error e then mret (Some e)
                         else if swallow && is_exception e then mret None else raise e);
    match failed with
    | None =>
        match retries with
        | O => mret tt
        | S retries => ensure_umount_loop retries is_mounted do_umount ignore_error swallow
        end
    | Some e =>
        match retries with
        | O => if ignore_error then mret tt else raise e
        | S retries => ensure_umount_loop retries is_mounted do_umount ignore_error swallow
        end
    end.

Definition ensure_umount (mnt_point : string) (ignore_error : bool) (max_retry : nat) : CM unit :=
  ensure_umount_loop max_retry (is_target_mounted mnt_point false) (umount mnt_point true) ignore_error true.

Definition ensure_umount_from_host (mnt_point : string) (ignore_error : bool) (max_retry : nat) : CM unit :=
  ensure_umount_loop max_retry
    (on_called_process_error (_ ← subprocess_run_wrapper ["findmnt"; mnt_point]%string None true; mret true) (fun _ => mret false))
    (_ ← subprocess_run_wrapper ["umount"; mnt_point]%string None true; mret tt) ignore_error false.
End Commands.

(** ** Mount points and the slot mount helper *)

(** An environment that holds the files, which commands may change as well. *)
Class FileEnv (W : Type) : Type := {
  files : W -> fsys;
  set_files : fsys -> W -> W;
  files_set : forall f w, files (set_files f w) = f;
}.

Section Helper.
Context {W : Type} `{HW : !CmdEnv W} `{HF : !FileEnv W}.
Context (fault : path -> bool).
Abbreviation MH := (PyM W pyexn).

Definition on_files {A} (m : PyM fsys pyexn A) : MH A := fun w => let '(f, r) := m (files w) in (set_files f w, r).

(** The path a mount point names. *)
Definition path_of (p : string) : path := List.filter str_truthy (py_split "/" p).
(** [dir / name] *)
Definition path_join (dir : path) (name : string) : path :=
  if startswith "/" name then path_of name else dir ++ path_of name.

(** [Path.unlink(missing_ok=True)] *)
Definition unlink_missing_ok (p : path) : PyM fsys pyexn unit :=
  s ← get;
  match located s p ≫= fs_get s with
  | None => mret tt
  | Some (FsDir _ _) => raise (os_exn EISDIR)
  | Some _ => q ← entry_place fault p; modify (remove_node q)
  end.

Definition ensure_mount_point (mnt_point : string) (ignore_error : bool) : MH unit :=
  let p := path_of mnt_point in
  s ← gets files;
  _ ← (if is_symlink s p || negb (is_dir s p) then on_files (unlink_missing_ok p) else mret tt);
  s ← gets files;
  if negb (exists_at s p) then on_files (mkdir_parents fault p)
  else
    try_except (ensure_umount mnt_point false MAX_RETRY_COUNT)
      (fun e => if is_exception e && ignore_error then mret tt else raise e).

Record SlotMountHelper : Type := mkSlotMountHelper {
  standby_slot_dev : string;
  standby_slot_mount_point : string;
  active_rootfs : string;
  active_slot_mount_point : string;
}.

(** [_env.is_dynamic_client_running()] *)
Context (dynamic_client : bool) (h : SlotMountHelper).

Definition helper_mount_standby : MH unit :=
  _ ← ensure_mount_point (standby_slot_mount_point h) true;
  _ ← ensure_umount (standby_slot_dev h) false MAX_RETRY_COUNT;
  ensure_mount (standby_slot_dev h) (standby_slot_mount_point h) (mount_rw true) true true MAX_RETRY_COUNT.

Definition helper_mount_active : MH unit :=
  if dynamic_client then mret tt
  else
    _ ← ensure_mount_point (active_slot_mount_point h) true;
    ensure_mount (active_rootfs h) (active_slot_mount_point h) bind_mount_ro true true MAX_RETRY_COUNT.

Definition helper_prepare_standby_dev (erase_standby : bool) (fslabel fsuuid : option string) : MH unit :=
  _ ← ensure_umount (standby_slot_dev h) true MAX_RETRY_COUNT;
  _ ← (if dynamic_client then ensure_umount_from_host (standby_slot_dev h) false MAX_RETRY_COUNT else mret tt);
  if erase_standby then mkfs_ext4 (standby_slot_dev h) fslabel fsuuid true
  else match fslabel with
       | Some (String _ _ as l) => set_ext4_fslabel (standby_slot_dev h) l true
       | _ => mret tt
       end.

Definition helper_umount_all (ignore_error : bool) : MH unit :=
  _ ← (if dynamic_client then mret tt else ensure_umount (active_slot_mount_point h) ignore_error MAX_RETRY_COUNT);
  ensure_umount (standby_slot_mount_point h) ignore_error MAX_RETRY_COUNT.
End Helper.

(** ** The table of mounts *)

(** A mount: what is mounted, and where. *)
Abbreviation mount_entry := (string * string)%type.
Definition concerns (x : string) (e : mount_entry) : bool := String.eqb (fst e) x || String.eqb (snd e) x.
Definition mounted (x : string) (l : list mount_entry) : bool := existsb (concerns x) l.
Definition mount_count (x : string) (l : list mount_entry) : nat := List.length (List.filter (concerns x) l).

(** The newest mount of [x] is undone; the newest is the last. *)
Fixpoint unmount_last (x : string) (l : list mount_entry) : list mount_entry :=
  match l with
  | [] => []
  | e :: l => if mounted x l then e :: unmount_last x l else if concerns x e then l else e :: l
  end.

(** What [findmnt], [umount] and [mount] do. *)
Class MountEnv (W : Type) `{!CmdEnv W} : Type := {
  mount_table : W -> list mount_entry;
  findmnt_law : forall x w w' r, exec ["findmnt"; x]%string w = (w', r) ->
    mount_table w' = mount_table w /\
    if mounted x (mount_table w) then exists out, r = CmdOk out else exists c, r = CmdFailed c;
  umount_law : forall x w w' r, exec ["umount"; x]%string w = (w', r) ->
    (exists c, r = CmdFailed c) /\ mount_table w' = mount_table w \/
    exists out, r = CmdOk out /\ mount_table w' = unmount_last x (mount_table w);
  mount_law : forall args t mp w w' r, exec ("mount"%string :: args ++ [t; mp]) w = (w', r) ->
    (exists c, r = CmdFailed c) /\ mount_table w' = mount_table w \/
    exists out, r = CmdOk out /\ mount_table w' = mount_table w ++ [(t, mp)];
}.

Section MountProperties.
Context {W : Type} `{HC : !CmdEnv W} `{HM : !MountEnv W}.

Lemma subprocess_call_run cmd w w' r :
  subprocess_call cmd true None w = (w', r) ->
  exists res, exec cmd w = (w', res) /\
    match res with CmdOk _ => r = Ok tt | CmdFailed c => r = Raise (called_process_error c) | CmdRaises _ => exists e, r = Raise e end.
Proof.
  unfold subprocess_call, on_called_process_error, try_except, subprocess_run_wrapper, mbind, pym_bind. cbn [app].
  destruct (exec cmd w) as [w1 [out| |e]]; intros H.
  - injection H as <- <-. by eexists.
  - injection H as <- <-. by eexists.
  - destruct (is_called_process_error e); injection H as <- <-; (eexists; split; [done|by exists e]).
Qed.

Lemma is_target_mounted_run x re w w' r :
  str_truthy x = true -> is_target_mounted x re w = (w', r) ->
  mount_table w' = mount_table w /\
  if mounted x (mount_table w) then r = Ok true else if re then exists c, r = Raise (called_process_error c) else r = Ok false.
Proof.
  intros Hx H. unfold is_target_mounted in H. rewrite Hx in H. cbn [negb] in H.
  unfold on_called_process_error, try_except, mbind, pym_bind in H.
  destruct (subprocess_call _ true None w) as [w1 r1] eqn:E.
  apply subprocess_call_run in E as (res & E & Hres). destruct (findmnt_law _ _ _ _ E) as [Ht Hm].
  destruct (mounted x (mount_table w)).
  - destruct Hm as [out ->]. subst r1. by injection H as <- <-.
  - destruct Hm as [c ->]. subst r1. destruct re; injection H as <- <-; [by eauto|done].
Qed.

Lemma mounted_count x l : mounted x l = true <-> mount_count x l <> O.
Proof.
  unfold mounted, mount_count. induction l as [|e l IH]; cbn; [done|]. by destruct (concerns x e).
Qed.

Lemma unmount_last_count x l : mounted x l = true -> S (mount_count x (unmount_last x l)) = mount_count x l.
Proof.
  unfold mount_count. induction l as [|e l IH]; [done|]. cbn [unmount_last mounted existsb List.filter].
  fold (mounted x l). destruct (mounted x l) eqn:E.
  - intros _. cbn [List.filter]. destruct (concerns x e); cbn; rewrite <- IH by done; done.
  - rewrite orb_false_r. intros ->. cbn. done.
Qed.

Lemma unmount_last_other x l e : concerns x e = false -> e ∈ unmount_last x l <-> e ∈ l.
Proof.
  intros He. induction l as [|a l IH]; [done|]. cbn. destruct (mounted x l).
  - rewrite !elem_of_cons, IH. done.
  - destruct (concerns x a) eqn:Ea; [|done]. rewrite elem_of_cons. split; [by right|]. intros [->|?]; [congruence|done].
Qed.

Lemma unmount_last_sublist x l : unmount_last x l `sublist_of` l.
Proof.
  induction l as [|a l IH]; [done|]. cbn. destruct (mounted x l); [by constructor|]. destruct (concerns x a); by constructor.
Qed.

Lemma sublist_count y l k : l `sublist_of` k -> (mount_count y l <= mount_count y k)%nat.
Proof.
  unfold mount_count. induction 1 as [|e l k _ IH|e l k _ IH]; [done| |]; cbn; destruct (concerns y e); cbn; lia.
Qed.

Lemma umount_run x w w' r :
  str_truthy x = true -> mounted x (mount_table w) = true -> umount x true w = (w', r) ->
  (exists c, r = Raise (called_process_error c)) /\ mount_table w' = mount_table w \/
  r = Ok tt /\ mount_table w' = unmount_last x (mount_table w).
Proof.
  intros Hx Hm H. unfold umount, mbind, pym_bind in H.
  destruct (is_target_mounted x false w) as [w1 r1] eqn:E1.
  apply is_target_mounted_run in E1 as [Ht Hr]; [|done]. rewrite Hm in Hr. subst r1.
  apply subprocess_call_run in H as (res & E & Hres). destruct (umount_law _ _ _ _ E) as [[[c ->] Hu]|(out & -> & Hu)].
  - left. split; [by eauto|congruence].
  - right. split; [done|congruence].
Qed.

(** What [ensure_umount] guarantees: only mounts of [x] go, one by one, and it
    returns with [x] still mounted only when the retries are used up. *)
Lemma ensure_umount_loop_run n x ig w w' r :
  str_truthy x = true ->
  ensure_umount_loop n (is_target_mounted x false) (umount x true) ig true w = (w', r) ->
  (forall e, concerns x e = false -> e ∈ mount_table w' <-> e ∈ mount_table w) /\
  mount_table w' `sublist_of` mount_table w /\
  (r = Ok tt \/ (exists c, r = Raise (called_process_error c)) /\ ig = false) /\
  (r = Ok tt -> ig = false -> (mount_count x (mount_table w) <= 1)%nat -> mounted x (mount_table w') = false).
Proof.
  intros Hx. revert w. induction n as [|n IH]; intros w H; cbn [ensure_umount_loop] in H; unfold mbind at 1, pym_bind at 1 in H;
    destruct (is_target_mounted x false w) as [w1 r1] eqn:E1; apply is_target_mounted_run in E1 as [Ht1 Hr1]; try done;
    destruct (mounted x (mount_table w)) eqn:Em; subst r1; cbn [negb] in H;
    try (injection H as <- <-; rewrite Ht1; split_and!; [done|done|by left|done]);
    unfold mbind at 1, pym_bind at 1, try_except at 1, mbind at 1, pym_bind at 1 in H;
    destruct (umount x true w1) as [w2 r2] eqn:E2; apply umount_run in E2 as [[[c ->] Ht2]|[-> Ht2]]; try done; try congruence;
    cbn in H; rewrite Ht1 in Ht2.
  - assert (w' = w2 /\ r = if ig then Ok tt else Raise (called_process_error c)) as [-> ->] by (by destruct ig; injection H as <- <-).
    rewrite Ht2. split_and!; [done|done|destruct ig; [by left|right; by eauto]|by intros ? ->].
  - injection H as <- <-. rewrite Ht2. split_and!; [apply unmount_last_other|apply unmount_last_sublist|by left|].
    intros _ _ Hc. apply not_true_iff_false. rewrite mounted_count. pose proof (unmount_last_count x _ Em). lia.
  - apply IH in H as (H1 & H2 & H3 & H4). rewrite Ht2 in *. done.
  - apply IH in H as (H1 & H2 & H3 & H4). rewrite Ht2 in *. split_and!; [|..|done|].
    + intros e He. by rewrite H1, unmount_last_other.
    + etrans; [exact H2|apply unmount_last_sublist].
    + intros Hr Hi Hc. apply H4; [done|done|]. pose proof (unmount_last_count x _ Em). lia.
Qed.

Lemma ensure_mount_loop_run n args t mp w w' r :
  str_truthy mp = true ->
  ensure_mount_loop n (mount_with args t mp true true) mp true w = (w', r) ->
  r = Ok tt /\ mount_table w' = mount_table w ++ [(t, mp)] \/
  (exists c, r = Raise (called_process_error c)) /\ mount_table w' = mount_table w.
Proof.
  intros Hmp. revert w.
  assert (Honce : forall w w1 r1, (_ ← mount_with args t mp true true; _ ← is_target_mounted mp true; mret tt) w = (w1, r1) ->
    r1 = Ok tt /\ mount_table w1 = mount_table w ++ [(t, mp)] \/
    (exists c, r1 = Raise (called_process_error c)) /\ mount_table w1 = mount_table w).
  { intros w w1 r1 H. unfold mbind, pym_bind in H. destruct (mount_with args t mp true true w) as [wa ra] eqn:E.
    apply subprocess_call_run in E as (res & E & Hres).
    destruct (mount_law _ _ _ _ _ _ E) as [[[c ->] Ht]|(out & -> & Ht)]; subst ra; [injection H as <- <-; right; by eauto|].
    destruct (is_target_mounted mp true wa) as [wb rb] eqn:Eb. apply is_target_mounted_run in Eb as [Htb Hb]; [|done].
    assert (mounted mp (mount_table wa) = true) as Hm.
    { rewrite Ht. unfold mounted. rewrite existsb_app. cbn. unfold concerns. cbn. by rewrite String.eqb_refl, !orb_true_r. }
    rewrite Hm in Hb. subst rb. injection H as <- <-. left. split; [done|congruence]. }
  induction n as [|n IH]; intros w H; cbn [ensure_mount_loop] in H; unfold on_called_process_error, try_except at 1 in H;
    match type of H with (let '(_, _) := ?m w in _) = _ => destruct (m w) as [w1 r1] eqn:E end;
    apply Honce in E as [[-> Ht]|[[c ->] Ht]].
  - injection H as <- <-. by left.
  - cbn in H. injection H as <- <-. right. by eauto.
  - injection H as <- <-. by left.
  - cbn in H. apply IH in H. by rewrite Ht in H.
Qed.

Context `{HF : !FileEnv W} (Hfiles : forall f w, mount_table (set_files f w) = mount_table w).

Lemma on_files_table {A} (m : PyM fsys pyexn A) w : mount_table (fst (on_files m w)) = mount_table w.
Proof using Hfiles. unfold on_files. destruct (m (files w)). apply Hfiles. Qed.

Lemma ensure_mount_point_run fault mp s s' r :
  str_truthy mp = true -> ensure_mount_point fault mp true s = (s', r) ->
  (forall e, concerns mp e = false -> e ∈ mount_table s' <-> e ∈ mount_table s) /\
  mount_table s' `sublist_of` mount_table s.
Proof using HM Hfiles.
  intros Hmp H. unfold ensure_mount_point in H. unfold mbind at 1, pym_bind at 1, gets at 1 in H.
  unfold mbind at 1, pym_bind at 1 in H.
  match type of H with (let '(_, _) := ?m s in _) = _ => destruct (m s) as [s1 r1] eqn:E end.
  assert (Hs1 : mount_table s1 = mount_table s).
  { destruct (_ || _); [|by injection E as <-]. pose proof (on_files_table (unlink_missing_ok fault (path_of mp)) s) as Hs.
    by rewrite E in Hs. }
  rewrite <- Hs1. destruct r1 as [[]|e]; [|by injection H as <- <-].
  unfold mbind at 1, pym_bind at 1, gets at 1 in H.
  destruct (negb (exists_at (files s1) (path_of mp))).
  - pose proof (on_files_table (mkdir_parents fault (path_of mp)) s1) as Hs. rewrite H in Hs. cbn in Hs. by rewrite Hs.
  - unfold try_except in H. destruct (ensure_umount mp false MAX_RETRY_COUNT s1) as [w1 r1] eqn:Eu.
    apply ensure_umount_loop_run in Eu as (H1 & H2 & _); [|done].
    assert (s' = w1) as -> by (destruct r1; [by injection H as <- _|destruct (_ && _); by injection H as <- _]).
    done.
Qed.

(** When mounting the standby slot returns, its device is mounted at the
    mount point and nowhere else: the newest mount is that one, no other mount
    is of the device, and all mounts that concern neither of them are as
    before.  (The device was
    mounted at most once before.) *)
Theorem standby_slot_mounted fault h s s' :
  str_truthy (standby_slot_dev h) = true -> str_truthy (standby_slot_mount_point h) = true ->
  (mount_count (standby_slot_dev h) (mount_table s) <= 1)%nat ->
  helper_mount_standby fault h s = (s', Ok tt) ->
  exists l, mount_table s' = l ++ [(standby_slot_dev h, standby_slot_mount_point h)] /\
    mounted (standby_slot_dev h) l = false /\
    forall e, concerns (standby_slot_dev h) e = false -> concerns (standby_slot_mount_point h) e = false ->
      e ∈ l <-> e ∈ mount_table s.
Proof using HM Hfiles.
  intros Hd Hmp Hc H. unfold helper_mount_standby in H.
  apply pym_bind_ok in H as (s1 & [] & H1 & H). apply ensure_mount_point_run in H1 as [Ho1 Hs1]; [|done].
  apply pym_bind_ok in H as (w2 & [] & H2 & H).
  apply ensure_umount_loop_run in H2 as (Ho2 & _ & _ & Hun); [|done].
  apply ensure_mount_loop_run in H as [[_ Ht]|[[? ?] _]]; [|done|done].
  exists (mount_table w2). split_and!; [done| |].
  - apply Hun; [done|done|]. pose proof (sublist_count (standby_slot_dev h) _ _ Hs1). lia.
  - intros e He1 He2. by rewrite Ho2, Ho1.
Qed.
End MountProperties.

(** ** A concrete environment *)

(** The table, and for each command that changes it whether it fails. *)
Record mount_world : Type := mkMountWorld { mw_table : list mount_entry; mw_fails : list bool }.

Definition next_fails (w : mount_world) : bool * mount_world :=
  match mw_fails w with
  | [] => (false, w)
  | b :: l => (b, mkMountWorld (mw_table w) l)
  end.

#[export] Instance mount_world_cmds : CmdEnv mount_world := fun cmd w =>
  match cmd with
  | ["findmnt"; x]%string => (w, if mounted x (mw_table w) then CmdOk EmptyString else CmdFailed 1)
  | ["umount"; x]%string =>
      let '(b, w) := next_fails w in
      if b then (w, CmdFailed 1) else (mkMountWorld (unmount_last x (mw_table w)) (mw_fails w), CmdOk EmptyString)
  | "mount"%string :: args =>
      let '(b, w) := next_fails w in
      match list.last args, list.last (removelast args) with
      | Some mp, Some t =>
          if b then (w, CmdFailed 1) else (mkMountWorld (mw_table w ++ [(t, mp)]) (mw_fails w), CmdOk EmptyString)
      | _, _ => (w, CmdFailed 1)
      end
  | _ => (w, CmdFailed 1)
  end.

Lemma next_fails_table w b w' : next_fails w = (b, w') -> mw_table w' = mw_table w.
Proof. unfold next_fails. destruct (mw_fails w); by intros [= <- <-]. Qed.

#[export] Instance mount_world_mounts : MountEnv mount_world.
Proof.
  refine {| mount_table := mw_table |}.
  - intros x w w' r [= <- <-]. split; [done|]. destruct (mounted x _); by eexists.
  - intros x w w' r H. cbn in H. destruct (next_fails w) as [[] w1] eqn:E; apply next_fails_table in E; injection H as <- <-.
    + left. by eauto.
    + right. eexists. split; [done|]. cbn. by rewrite E.
  - intros args t mp w w' r H. unfold exec, mount_world_cmds in H. cbn in H.
    destruct (next_fails w) as [b w1] eqn:E; apply next_fails_table in E.
    rewrite last_app in H. cbn in H.
    replace (removelast (args ++ [t; mp])) with (args ++ [t]) in H
      by (by change [t; mp] with ([t] ++ [mp]); rewrite app_assoc, removelast_last). rewrite last_snoc in H.
    destruct b; injection H as <- <-; [left; by eauto|]. right. eexists. split; [done|]. cbn. by rewrite E.
Defined.

(** The files beside it, which its commands leave alone. *)
#[export] Instance files_and_mounts_cmds : CmdEnv (fsys * mount_world) := fun cmd s =>
  let '(w, r) := exec cmd (snd s) in (fst s, w, r).

#[export] Instance files_and_mounts_files {X} : FileEnv (fsys * X) := {|
  files := fst;
  set_files f s := (f, snd s);
  files_set f s := eq_refl;
|}.

#[export] Instance files_and_mounts : MountEnv (fsys * mount_world).
Proof.
  refine {| mount_table s := mount_table (snd s) |};
    [intros x [f w] s' r H|intros x [f w] s' r H|intros args t mp [f w] s' r H]; unfold exec, files_and_mounts_cmds in H;
    match type of H with (let '(_, _) := exec ?c ?v in _) = _ => destruct (exec c v) as [w' r'] eqn:E end;
    injection H as <- <-; cbn [snd] in *.
  - exact (findmnt_law _ _ _ _ E).
  - exact (umount_law _ _ _ _ E).
  - exact (mount_law _ _ _ _ _ _ E).
Defined.

Definition example_helper : SlotMountHelper :=
  mkSlotMountHelper "/dev/sda3" "/mnt/standby" "/" "/mnt/active".
Definition example_fsys : fsys := mkFsys ∅ ∅ 0.

(** The device is mounted elsewhere, and two commands fail before they work. *)
Definition example_mounts : mount_world :=
  mkMountWorld [("/dev/sda1", "/boot"); ("/dev/sda3", "/media/usb")]%string [true; false; true].

Lemma standby_slot_mounted_witness :
  exists s', helper_mount_standby (fun _ => false) example_helper (example_fsys, example_mounts) = (s', Ok tt) /\
    exists l, mount_table s' = l ++ [("/dev/sda3", "/mnt/standby")]%string /\ mounted "/dev/sda3" l = false.
Proof.
  destruct (helper_mount_standby (fun _ => false) example_helper (example_fsys, example_mounts)) as [s' r] eqn:E.
  assert (Hr : r = Ok tt) by (change r with (snd (s', r)); rewrite <- E; vm_compute; reflexivity). subst r.
  exists s'. split; [reflexivity|].
  assert (files_stay : forall f (w : fsys * mount_world), mount_table (set_files f w) = mount_table w) by reflexivity.
  destruct (standby_slot_mounted files_stay (fun _ => false) example_helper (example_fsys, example_mounts) s') as (l & H1 & H2 & _).
  - reflexivity.
  - reflexivity.
  - vm_compute. lia.
  - exact E.
  - exists l. split; [exact H1|exact H2].
Defined.

(** With several mounts on one another, [ensure_umount] can return without an
    error while one is left. *)
Example stacked_mount_left :
  let w := mkMountWorld [("/dev/sda3", "/mnt"); ("/dev/sda3", "/mnt")]%string [true; true; true; true; true; true] in
  let '(w', r) := ensure_umount "/mnt" false MAX_RETRY_COUNT w in
  r = Ok tt /\ mounted "/mnt" (mw_table w') = true.
Proof. vm_compute. done. Qed.
