(* ===== verification/SlotHooks.v ===== *)
(** * Boot controllers whose status files are in the slots

    What the Raspberry Pi and Jetson controllers have in common: the OTA
    status files are in [/boot/ota-status] of each slot's root file system,
    those of the standby slot are seen once it is mounted, and the hooks of
    [BootControllerBase] use the slot mount helper.  [slot_hooks] makes an
    instance of [PlatformHooks] of the platform's own parts. *)

From stdpp Require Import base gmap strings list option.
From Stdlib Require Import ZArith Ascii String Lia.
From S2P Require Import Prelude Types Errors OTAStatusControl BootController FileSystem StatusFiles CopyTree OTAConfigFiles CmdHelper.

Definition OTA_STATUS_DIR : path := ["boot"; "ota-status"]%string.

Section Hooks.
Context {W : Type} `{HC : !CmdEnv W} `{HF : !FileEnv W}.
Context (fault : path -> bool).
(** How the JSON files among the status files are read. *)
Context (parse_version_detail : string -> json_file string) (parse_failure_info : string -> json_file jval).

Definition slot_status_dir (root : string) (w : W) : status_dir :=
  status_dir_at parse_version_detail parse_failure_info (files w) (path_of root ++ OTA_STATUS_DIR).

(** An operation that may mount or unmount the standby slot. *)
Definition seen_by_status {A} (standby_mnt : string) (m : PyM W pyexn A) : PyM (option tree * W * status_dir) pyexn A :=
  fun '(o, w, _) => let '(w', r) := m w in (o, w', slot_status_dir standby_mnt w', r).
(** ... that does not touch the status files. *)
Definition beside_status {A} (m : PyM (option tree * W) pyexn A) : PyM (option tree * W * status_dir) pyexn A := fun s =>
  let '(p, r) := m (fst s) in (p, snd s, r).

Lemma beside_status_keeps {A} (m : PyM (option tree * W) pyexn A) p d : snd (fst (beside_status m (p, d))) = d.
Proof. unfold beside_status. cbn [fst snd]. by destruct (m p). Qed.

(** The platform's state is the standby slot's [/boot/ota] and the machine. *)
Definition slot_hooks (module : string) (dynamic_client : bool) (h : SlotMountHelper)
    (prepare : bool -> PyM W pyexn unit) (pre_update_specific : PyM W pyexn unit)
    (post_update_specific : OTAConfigFiles -> PyM (option tree * W) pyexn unit) :
    PlatformHooks (option tree * W) OTAConfigFiles := {|
  hook_module := module;
  default_config := no_config_files;
  pre_update_prepare_standby erase_standby := seen_by_status (standby_slot_mount_point h) (prepare erase_standby);
  mount_standby := seen_by_status (standby_slot_mount_point h) (helper_mount_standby fault h);
  mount_active := seen_by_status (standby_slot_mount_point h) (helper_mount_active fault dynamic_client h);
  pre_update_platform_specific _ _ := beside_status (on_platform pre_update_specific);
  post_update_platform_specific _ cfg := beside_status (post_update_specific cfg);
  umount_all p := (fst p, fst (helper_umount_all dynamic_client h true (snd p)));
  post_hook_keeps_status v cfg p d := beside_status_keeps _ p d;
|}.

Definition on_env {A} (m : PyM W pyexn A) : PyM (control * W) pyexn A := fun s =>
  let '(w, r) := m (snd s) in (fst s, w, r).

(** [OTAStatusFilesControl(...)] at start-up, with the platform's
    [finalize_switching_boot]. *)
Definition start_status_control (active_slot standby_slot active_root standby_mnt : string) (dynamic_app : bool)
    (finalize : PyM W pyexn bool) : PyM (control * W) pyexn unit :=
  _ ← modify (fun '(_, w) =>
        (mkControl active_slot standby_slot (slot_status_dir active_root w) (slot_status_dir standby_mnt w)
           (Z.of_nat (fs_next (files w))) INITIALIZED, w));
  before ← gets (fun cw => cur_dir (fst cw));
  _ ← init_control_run false dynamic_app finalize;
  after ← gets (fun cw => cur_dir (fst cw));
  on_env (on_files (store_status_dir fault (path_of active_root ++ OTA_STATUS_DIR) before after)).

(** The except clause of a controller's [__init__]. *)
Definition as_startup_failed {S A} (what module : string) (m : PyM S pyexn A) : PyM S pyexn A :=
  try_except m (fun e =>
    if is_exception e
    then raise (ota_error (Unrec BootControlStartupFailed) (what +:+ exn_repr e)%string module (Some e))
    else raise e).
End Hooks.
