(* ===== verification/RpiBoot.v ===== *)
(** * The Raspberry Pi boot controller

    Models [src/src/otaclient/boot_control/_rpi_boot.py]: [_RPIBootControl] and
    [RPIBootController].  The state is an environment that holds the files and
    runs commands ([FileEnv], [CmdEnv] of [CmdHelper]); [flash-kernel] and the
    mounts are commands and may change the files.  The firmware boots
    [config.txt], or [tryboot.txt] once after a reboot with the tryboot flag. *)

From stdpp Require Import base gmap strings list option sets.
From Stdlib Require Import ZArith Ascii String Lia.
From S2P Require Import Prelude Types Errors OTAStatusControl BootController FileSystem StatusFiles CopyTree OTAConfigFiles TextLines CertStore CmdHelper SlotHooks.


(** ** Slots and boot files *)

Inductive SlotID : Type := SLOT_A | SLOT_B.

#[export] Instance SlotID_eq_dec : EqDecision SlotID.
Proof. solve_decision. Defined.

Definition slot_str (i : SlotID) : string := match i with SLOT_A => "slot_a" | SLOT_B => "slot_b" end.

(** [SlotID.__new__] *)
Definition new_SlotID (s : string) : result pyexn SlotID :=
  if String.eqb s "slot_a" then Ok SLOT_A
  else if String.eqb s "slot_b" then Ok SLOT_B
  else Raise (PyExn XValueError [] None None).

Definition AB_FLIPS (i : SlotID) : SlotID := match i with SLOT_A => SLOT_B | SLOT_B => SLOT_A end.

Definition CONFIG_TXT : string := "config.txt".
Definition TRYBOOT_TXT : string := "tryboot.txt".
Definition VMLINUZ : string := "vmlinuz".
Definition INITRD_IMG : string := "initrd.img".
Definition CMDLINE_TXT : string := "cmdline.txt".

Definition RPI_MODEL_FILE : path := ["proc"; "device-tree"; "model"]%string.
Definition SYSTEM_BOOT_MOUNT_POINT : string := "/boot/firmware".
Definition SYSTEM_BOOT : path := ["boot"; "firmware"]%string.
Definition SWITCH_BOOT_FLAG_FILE : path := SYSTEM_BOOT ++ ["._ota_switch_boot_finalized"%string].

Definition get_sysboot_files_fpath (boot_fname : string) (slot : SlotID) : path :=
  SYSTEM_BOOT ++ [(boot_fname +:+ "_" +:+ slot_str slot)%string].

(** [_FSTAB_TEMPLATE_STR] with the label filled in. *)
Definition tab : string := String (ascii_of_nat 9) EmptyString.
Definition FSTAB_TEMPLATE (rootfs_fslabel : string) : string := unlines
  [str_join tab ["LABEL=" +:+ rootfs_fslabel; "/"; "ext4"; "discard,x-systemd.growfs"; "0"; "1"];
   str_join tab ["LABEL=system-boot"; "/boot/firmware"; "vfat"; "defaults"; "0"; "1"]]%string.

Definition rpi_exn (msg : string) (cause : option pyexn) : pyexn :=
  PyExn (XOther "_RPIBootControllerError") [AStr msg] cause cause.
Definition rpi_module : string := "otaclient.boot_control._rpi_boot".

(** What start-up finds out. *)
Record rpi_control : Type := mkRpiControl {
  rb_active_slot : SlotID;
  rb_standby_slot : SlotID;
  rb_active_slot_dev : string;
  rb_standby_slot_dev : string;
}.

Section Rpi.
Context {W : Type} `{HC : !CmdEnv W} `{HF : !FileEnv W}.
Context (fault : path -> bool).
Abbreviation RP := (PyM W pyexn).

(** [except Exception as e: raise _RPIBootControllerError(...)] *)
Definition as_rpi_error {A} (msg : string) (m : RP A) : RP A :=
  try_except m (fun e => if is_exception e then raise (rpi_exn msg (Some e)) else raise e).
Definition on_command_error {A} (msg : string) (m : RP A) : RP A :=
  on_called_process_error m (fun e => raise (rpi_exn msg (Some e))).

(** ** Start-up: [_RPIBootControl.__init__] *)

Definition require_file (p : path) : RP unit :=
  s ← gets files;
  if is_file s p then mret tt else raise (rpi_exn "missing boot file" None).

Definition check_boot_files (active_slot standby_slot : SlotID) : RP unit :=
  _ ← require_file (get_sysboot_files_fpath CONFIG_TXT active_slot);
  _ ← require_file (get_sysboot_files_fpath CMDLINE_TXT active_slot);
  _ ← require_file (get_sysboot_files_fpath CONFIG_TXT standby_slot);
  require_file (get_sysboot_files_fpath CMDLINE_TXT standby_slot).

Definition check_active_slot_id (active_slot : SlotID) (active_slot_dev : string) : RP unit :=
  actual ← get_attrs_by_dev "LABEL" active_slot_dev false;
  if String.eqb actual (slot_str active_slot) then mret tt
  else on_called_process_error (set_ext4_fslabel active_slot_dev (slot_str active_slot) true) (fun _ => mret tt).

(** The slots, from the devices of [lsblk] below the parent of the active
    one: the disk, the boot partition, the slots, others. *)
Definition detect_rpi_slots (device_tree : list string) (active_slot_dev : string) : result pyexn rpi_control :=
  match device_tree with
  | _ :: _ :: a :: b :: _ =>
      if String.eqb a active_slot_dev then Ok (mkRpiControl SLOT_A SLOT_B active_slot_dev b)
      else if String.eqb b active_slot_dev then Ok (mkRpiControl SLOT_B SLOT_A active_slot_dev a)
      else Raise (rpi_exn "active slot dev not found" None)
  | _ => Raise (rpi_exn "failed to detect partition layout" None)
  end.

Definition mount_system_boot (system_boot_partition : string) : RP unit :=
  mounted ← is_target_mounted SYSTEM_BOOT_MOUNT_POINT false;
  if mounted : bool then mret tt
  else on_command_error "failed to mount system-boot partition"
         (mount system_boot_partition SYSTEM_BOOT_MOUNT_POINT ["defaults"%string] [] true).

(** [active_root] is where the running root file system is, [chroot] the one
    of [get_dynamic_client_chroot_path]. *)
Definition init_rpi_boot_control (active_root : string) (chroot : option string) : RP rpi_control :=
  _ ← on_files (mkdir_exist_ok fault SYSTEM_BOOT);
  s ← gets files;
  match read_file s RPI_MODEL_FILE with
  | None => raise (rpi_exn "not running at raspberry pi device" None)
  | Some model_info =>
      if bool_decide (str_find "Pi" model_info = None) then raise (rpi_exn "not running at raspberry pi device" None)
      else
        active_slot_dev ← as_rpi_error "failed to detect current rootfs device"
          (dev ← get_current_rootfs_dev active_root true chroot;
           if str_truthy dev then mret dev else raise (PyExn (XOther "AssertionError") [] None None));
        device_tree ← as_rpi_error "failed to detect partition layout"
          (parent_dev ← get_parent_dev active_slot_dev true;
           device_tree ← get_device_tree parent_dev true;
           if Nat.leb 4 (List.length device_tree) then mret device_tree
           else raise (PyExn (XOther "AssertionError") [] None None));
        _ ← mount_system_boot (nth 1 device_tree EmptyString);
        rb ← from_result (detect_rpi_slots device_tree active_slot_dev);
        _ ← check_boot_files (rb_active_slot rb) (rb_standby_slot rb);
        _ ← check_active_slot_id (rb_active_slot rb) active_slot_dev;
        _ ← on_files (unlink_missing_ok fault SWITCH_BOOT_FLAG_FILE);
        mret rb
  end.

(** ** Switching *)

Context (rb : rpi_control).

(** The mounts [flash-kernel] needs, by mount point. *)
Definition flash_kernel_mounts (target_slot_mp : string) : list (string * string) :=
  [(target_slot_mp +:+ "/boot/firmware", SYSTEM_BOOT_MOUNT_POINT);
   (target_slot_mp +:+ "/proc", "/proc"); (target_slot_mp +:+ "/sys", "/sys")]%string.

Fixpoint mount_all (l : list (string * string)) : RP unit :=
  match l with
  | [] => mret tt
  | (mp, src) :: l => _ ← mount src mp ["bind"%string] ["--make-unbindable"%string] true; mount_all l
  end.

Fixpoint umount_each (l : list (string * string)) : RP unit :=
  match l with
  | [] => mret tt
  | (mp, _) :: l => _ ← umount mp false; umount_each l
  end.

(** [/tmp] of the target slot; a link is resolved, in the running system. *)
Definition ensure_tmp (target_slot_mp : string) : RP unit :=
  let tmp := path_of target_slot_mp ++ ["tmp"%string] in
  s ← gets files;
  match (if is_symlink s tmp then realpath s tmp else Some tmp) with
  | None => raise (PyExn (XOther "RuntimeError") [] None None)
  | Some p => on_files (mkdir_parents fault p)
  end.

(** [with self._prepare_flash_kernel(target_slot_mp): body] *)
Definition prepare_flash_kernel {A} (target_slot_mp : string) (body : RP A) : RP A :=
  let mounts := flash_kernel_mounts target_slot_mp in
  _ ← ensure_tmp target_slot_mp;
  try_finally (_ ← mount_all mounts; body) (umount_each mounts).

Definition replace_if_file (boot_fname : string) (target_slot : SlotID) : RP unit :=
  s ← gets files;
  if is_file s (SYSTEM_BOOT ++ [boot_fname])
  then on_files (os_replace fault (SYSTEM_BOOT ++ [boot_fname]) (get_sysboot_files_fpath boot_fname target_slot))
  else mret tt.

Definition update_firmware (target_slot : SlotID) (target_slot_mp : string) : RP unit :=
  _ ← on_command_error "flash-kernel failed"
        (prepare_flash_kernel target_slot_mp
           (subprocess_run_wrapper ["/usr/sbin/flash-kernel"%string] (Some target_slot_mp) false));
  as_rpi_error "failed to apply new kernel,initrd.img"
    (_ ← replace_if_file VMLINUZ target_slot;
     _ ← replace_if_file INITRD_IMG target_slot;
     on_files (write_text fault SWITCH_BOOT_FLAG_FILE EmptyString)).

(** [glob("**/*.bak")] below the boot partition. *)
Definition bak_files (s : fsys) : list path :=
  match realpath s SYSTEM_BOOT with
  | None => []
  | Some d =>
      omap (fun kv => match list.last kv.1 with
                      | Some c => if bool_decide (d `prefix_of` removelast kv.1) && endswith ".bak" c then Some kv.1 else None
                      | None => None
                      end) (map_to_list (fs_nodes s))
  end.

Fixpoint unlink_all (l : list path) : PyM fsys pyexn unit :=
  match l with [] => mret tt | p :: l => _ ← unlink_missing_ok fault p; unlink_all l end.

Definition swap_boot_configs : PyM fsys pyexn bool :=
  _ ← copyfile_atomic fault (get_sysboot_files_fpath CONFIG_TXT (rb_active_slot rb)) (SYSTEM_BOOT ++ [CONFIG_TXT]) true;
  _ ← copyfile_atomic fault (get_sysboot_files_fpath CONFIG_TXT (rb_standby_slot rb)) (SYSTEM_BOOT ++ [TRYBOOT_TXT]) true;
  s ← get;
  _ ← unlink_all (bak_files s);
  mret true.

Definition finalize_switching_boot : RP bool :=
  try_except (on_files swap_boot_configs)
    (fun e => if is_exception e then mret false else raise e).

Definition prepare_tryboot_txt : RP unit :=
  as_rpi_error "failed to prepare tryboot.txt"
    (on_files (copyfile_atomic fault (get_sysboot_files_fpath CONFIG_TXT (rb_standby_slot rb)) (SYSTEM_BOOT ++ [TRYBOOT_TXT]) true)).

(** One parameter: the reboot argument and the flag. *)
Definition reboot_tryboot (chroot : option string) : RP unit := reboot ["0 tryboot"%string] chroot.

(** ** [RPIBootController] *)

Context (active_root standby_slot_mnt : string) (active_slot_mnt : string).

Definition rpi_mp_control : SlotMountHelper :=
  mkSlotMountHelper (rb_standby_slot_dev rb) standby_slot_mnt active_root active_slot_mnt.

Definition standby_fstab : path := path_of standby_slot_mnt ++ ["etc"; "fstab"]%string.

Definition write_standby_fstab : RP unit :=
  as_rpi_error "failed to update fstab file for standby slot"
    (on_files (write_str_to_file_atomic fault standby_fstab (FSTAB_TEMPLATE (slot_str (rb_standby_slot rb))) true)).

Definition rpi_pre_update_prepare_standby (dynamic_client erase_standby : bool) : RP unit :=
  helper_prepare_standby_dev dynamic_client rpi_mp_control erase_standby (Some (slot_str (rb_standby_slot rb))) None.

(** The steps after the OTA directory is copied. *)
Definition switch_steps : RP unit :=
  _ ← raise_as_ota_error (BootCtl BootControlBootConfigUpdateFailed)
        "failed to update fstab for standby slot" rpi_module write_standby_fstab;
  _ ← raise_as_ota_error (BootCtl BootControlFirmwareUpdateFailed)
        "failed to update firmware for standby slot" rpi_module (update_firmware (rb_standby_slot rb) standby_slot_mnt);
  raise_as_ota_error (BootCtl BootControlSwitchBootFailed)
    "failed to prepare tryboot.txt for switching boot to standby slot" rpi_module prepare_tryboot_txt.

(** [/boot/ota] of the active slot; which of its links lead to directories,
    on either side; failures of writing a config file. *)
Context (active_ota : option tree) (cenv : copy_env) (write_fails : string -> bool).

Definition rpi_post_update_platform_specific (ota_config_files : OTAConfigFiles) : PyM (option tree * W) pyexn unit :=
  _ ← (fun '(standby_ota, w) =>
         match preserve_ota_dir_and_install_config_files write_fails cenv active_ota standby_ota ota_config_files with
         | Ok d => (d, w, Ok tt)
         | Raise e => (standby_ota, w, Raise e)
         end);
  on_platform switch_steps.

Definition finalizing_update (chroot : option string) : RP unit := reboot_tryboot chroot.

(** The hooks, and [RPIBootController.__init__]. *)
Context (parse_version_detail : string -> json_file string) (parse_failure_info : string -> json_file jval).

Definition rpi_hooks (dynamic_client : bool) : PlatformHooks (option tree * W) OTAConfigFiles :=
  slot_hooks fault parse_version_detail parse_failure_info rpi_module dynamic_client rpi_mp_control
    (rpi_pre_update_prepare_standby dynamic_client) (mret tt) rpi_post_update_platform_specific.
End Rpi.

Section Init.
Context {W : Type} `{HC : !CmdEnv W} `{HF : !FileEnv W}.
Context (fault : path -> bool) (active_root standby_slot_mnt : string) (chroot : option string).
Context (parse_version_detail : string -> json_file string) (parse_failure_info : string -> json_file jval).

Definition init_rpi_boot_controller (dynamic_app : bool) : PyM (control * W) pyexn rpi_control :=
  as_startup_failed "failed to start rpi boot controller: " rpi_module
    (rb ← on_env (init_rpi_boot_control fault active_root chroot);
     _ ← start_status_control fault parse_version_detail parse_failure_info
           (slot_str (rb_active_slot rb)) (slot_str (rb_standby_slot rb)) active_root standby_slot_mnt dynamic_app
           (finalize_switching_boot fault rb);
     mret rb).
End Init.

(** ** What the boot firmware reads *)

Section Sysboot.
Context (standby_slot_mnt : string).
Context (Hmnt : ~ SYSTEM_BOOT `prefix_of` standby_fstab standby_slot_mnt).

Definition config_txt : path := SYSTEM_BOOT ++ [CONFIG_TXT].
Definition tryboot_txt : path := SYSTEM_BOOT ++ [TRYBOOT_TXT].
Definition slot_config (i : SlotID) : path := get_sysboot_files_fpath CONFIG_TXT i.

Definition boot_configs : list path := [config_txt; slot_config SLOT_A; slot_config SLOT_B].
Definition watched : list path := standby_fstab standby_slot_mnt :: boot_configs.

(** The files above are reached without links, and no other name shares
    their inode (the boot partition is FAT, which has neither). *)
Record sysboot_ok (s : fsys) : Prop := mkSysbootOk {
  so_inode : forall p i, fs_get s p = Some (FsFile i) -> (i < fs_next s)%nat /\ is_Some (fs_inodes s !! i);
  so_plain : forall p, p ∈ SWITCH_BOOT_FLAG_FILE :: watched -> plain s p;
  so_alone : forall p q i, p ∈ watched -> fs_get s p = Some (FsFile i) -> fs_get s q = Some (FsFile i) -> q = p;
}.

(** The contents of [l] stay. *)
Definition frame (l : list path) (s s' : fsys) : Prop :=
  sysboot_ok s -> sysboot_ok s' /\ forall p, p ∈ l -> read_at s' p = read_at s p.

#[export] Instance frame_preorder l : PreOrder (frame l).
Proof.
  split; [by intros s Hs|]. intros a b c Hab Hbc Ha.
  destruct (Hab Ha) as [Hb H1]. destruct (Hbc Hb) as [Hc H2]. split; [done|]. intros p Hp. by rewrite H2, H1.
Qed.

Lemma frame_sub l l' s s' : l' ⊆ l -> frame l s s' -> frame l' s s'.
Proof. intros Hl H Hs. destruct (H Hs) as [H1 H2]. split; [done|]. intros p Hp. by apply H2, Hl. Qed.

Lemma frame_intro l s s' : (sysboot_ok s -> frame l s s') -> frame l s s'.
Proof. intros H Hs. by apply H. Qed.

(** Links appear nowhere on the way to a file of interest. *)
Lemma plain_put_node s p q n :
  p <> [] -> (forall t, n = FsLink t -> ~ p `prefix_of` q) -> plain s q -> plain (put_node p n s) q.
Proof.
  intros Hp Hn [Hq Hl]. split; [done|]. intros r t Hr. rewrite fs_get_put by done.
  destruct (decide (r = p)) as [->|]; [|by apply Hl]. intros [= ->]. by eapply Hn.
Qed.

Lemma plain_remove_node s p q : p <> [] -> plain s q -> plain (remove_node p s) q.
Proof.
  intros Hp [Hq Hl]. split; [done|]. intros r t Hr. rewrite remove_node_get by done.
  destruct (decide (r = p)); [done|by apply Hl].
Qed.

Lemma read_at_next s p f q : (forall i, fs_get s q = Some (FsFile i) -> (i < fs_next s)%nat) -> p <> [] -> q <> p ->
  read_at (put_new_file p f s) q = read_at s q.
Proof.
  intros Hi Hp Hq. unfold read_at. rewrite fs_get_new by done. rewrite decide_False by done.
  destruct (fs_get s q) as [[i| |]|] eqn:E; try done. cbn. rewrite lookup_insert_ne; [done|]. specialize (Hi i eq_refl). lia.
Qed.

Lemma frame_new l p f s : l ⊆ watched -> p <> [] -> p ∉ l -> frame l s (put_new_file p f s).
Proof.
  intros Hl Hp Hpl [Hi Hpn Ha]. split.
  - split.
    + intros q i. rewrite fs_get_new by done. destruct (decide (q = p)).
      * intros [= <-]. cbn. rewrite lookup_insert_eq. split; [lia|done].
      * intros Hq. apply Hi in Hq as [Hq Hq']. cbn. rewrite lookup_insert_ne by lia. split; [lia|done].
    + intros q Hq. by apply plain_new, Hpn.
    + intros q r i Hq. rewrite !fs_get_new by done. destruct (decide (q = p)), (decide (r = p)); subst; try done.
      * intros [= <-] Hr. apply Hi in Hr. lia.
      * intros Hqi [= <-]. apply Hi in Hqi. lia.
      * by apply Ha.
  - intros q Hq. apply read_at_next; [intros i Hqi; by apply Hi in Hqi as [? _]|done|]. by intros ->.
Qed.

Lemma frame_mkdir l p u m s : p <> [] -> fs_get s p = None -> frame l s (put_node p (FsDir u m) s).
Proof.
  intros Hp Hnone [Hi Hpn Ha]. split.
  - split.
    + intros q i. rewrite fs_get_put by done. destruct (decide (q = p)); [done|]. apply Hi.
    + intros q Hq. apply plain_put_node; [done|done|by apply Hpn].
    + intros q r i Hq. rewrite !fs_get_put by done. destruct (decide (q = p)); [done|]. destruct (decide (r = p)); [done|by apply Ha].
  - intros q Hq. unfold read_at. rewrite fs_get_put by done. destruct (decide (q = p)) as [->|]; [by rewrite Hnone|done].
Qed.

Lemma frame_remove l p s : p <> [] -> p ∉ l -> frame l s (remove_node p s).
Proof.
  intros Hp Hpl [Hi Hpn Ha]. split.
  - split.
    + intros q i. rewrite remove_node_get by done. destruct (decide (q = p)); [done|]. apply Hi.
    + intros q Hq. apply plain_remove_node; [done|by apply Hpn].
    + intros q r i Hq. rewrite !remove_node_get by done. destruct (decide (q = p)); [done|]. destruct (decide (r = p)); [done|by apply Ha].
  - intros q Hq. unfold read_at. rewrite remove_node_get by done. rewrite decide_False by (by intros ->). done.
Qed.

(** A name of the boot partition that is none of the files of interest. *)
Definition free_name (c : string) : Prop := is_name c /\ SYSTEM_BOOT ++ [c] ∉ SWITCH_BOOT_FLAG_FILE :: watched.

Lemma free_not_prefix c q : free_name c -> q ∈ SWITCH_BOOT_FLAG_FILE :: watched -> ~ SYSTEM_BOOT ++ [c] `prefix_of` q.
Proof using Hmnt.
  intros [_ Hc] Hq Hpre.
  assert (Hin : forall d, q = SYSTEM_BOOT ++ [d] -> False).
  { intros d ->. apply Hc. assert (c = d) as ->; [|done].
    apply prefix_app_inv in Hpre. by apply prefix_cons_inv_1 in Hpre. }
  unfold watched, boot_configs in Hq. rewrite !elem_of_cons in Hq.
  destruct Hq as [->|[->|[->|[->|[->|Hq]]]]]; try (by eapply Hin); [|by apply elem_of_nil in Hq].
  apply Hmnt. etransitivity; [|exact Hpre]. by apply prefix_app_r.
Qed.

Lemma frame_rename c d n s :
  free_name c -> free_name d -> c <> d -> fs_get s (SYSTEM_BOOT ++ [c]) = Some n -> (forall u m, n <> FsDir u m) ->
  frame watched s (put_node (SYSTEM_BOOT ++ [d]) n (remove_node (SYSTEM_BOOT ++ [c]) s)).
Proof using Hmnt.
  intros Hc Hd Hcd Hn Hnd Hs. pose proof Hs as [Hi Hpn Ha].
  assert (Hg : forall q, fs_get (put_node (SYSTEM_BOOT ++ [d]) n (remove_node (SYSTEM_BOOT ++ [c]) s)) q =
    if decide (q = SYSTEM_BOOT ++ [d]) then Some n else if decide (q = SYSTEM_BOOT ++ [c]) then None else fs_get s q).
  { intros q. by rewrite fs_get_put, remove_node_get. }
  assert (Hw : forall q e, q ∈ watched -> free_name e -> q <> SYSTEM_BOOT ++ [e]).
  { intros q e Hq [_ He] ->. apply He. by right. }
  split.
  - split.
    + intros q i. rewrite Hg. destruct (decide _); [intros [= ->]; by apply (Hi _ _ Hn)|]. destruct (decide _); [done|]. apply Hi.
    + intros q Hq. apply plain_put_node; [done| |by apply plain_remove_node, Hpn].
      intros t _. by apply free_not_prefix.
    + intros q r i Hq. rewrite !Hg. rewrite decide_False by (by apply Hw). rewrite decide_False by (by apply Hw).
      intros Hqi. destruct (decide (r = _)) as [->|].
      * intros [= ->]. pose proof (Ha _ _ _ Hq Hqi Hn) as E. subst q. by destruct (Hw _ c Hq Hc).
      * destruct (decide _); [done|]. by apply Ha.
  - intros q Hq. unfold read_at. rewrite Hg. rewrite decide_False by (by apply Hw). by rewrite decide_False by (by apply Hw).
Qed.

(** The flag file is rewritten in place. *)
Lemma frame_rewrite i f s :
  fs_get s SWITCH_BOOT_FLAG_FILE = Some (FsFile i) -> SWITCH_BOOT_FLAG_FILE ∉ watched ->
  frame watched s (s <| fs_inodes := alter f i (fs_inodes s) |>).
Proof.
  intros Hf Hw Hs. pose proof Hs as [Hi Hpn Ha]. split.
  { split; [|done|done]. intros p j Hj. destruct (Hi p j Hj) as [H1 H2]. split; [done|].
    apply lookup_alter_is_Some. done. }
  intros q Hq. unfold read_at. change (fs_get (s <| fs_inodes := alter f i (fs_inodes s) |>) q) with (fs_get s q).
  destruct (fs_get s q) as [[j| |]|] eqn:E; try done. cbn -[alter]. rewrite lookup_alter_ne; [done|].
  intros <-. pose proof (Ha _ _ _ Hq E Hf). by subst.
Qed.

(** *** The file operations *)

Context (fault : path -> bool).

Lemma flag_not_watched : SWITCH_BOOT_FLAG_FILE ∉ watched.
Proof using Hmnt.
  unfold watched, boot_configs. rewrite !not_elem_of_cons. split_and!; try done; [|apply not_elem_of_nil].
  intros E. apply Hmnt. rewrite <- E. by apply prefix_app_r.
Qed.

Lemma sysboot_plain s : sysboot_ok s -> plain s SYSTEM_BOOT.
Proof.
  intros Hs. apply (plain_prefix s SWITCH_BOOT_FLAG_FILE); [|by apply prefix_app_r]. apply (so_plain _ Hs). by left.
Qed.

Lemma entry_place_run p c s :
  plain s p -> fst (entry_place fault (p ++ [c]) s) = s /\
  forall q, snd (entry_place fault (p ++ [c]) s) = Ok q -> q = p ++ [c].
Proof.
  intros Hp. unfold entry_place, mbind, pym_bind, get. destruct (fault _); [by split|].
  rewrite (located_plain s p c Hp). destruct (fs_get s _) as [[]|]; (split; [done|]); try done. by intros q [= <-].
Qed.

Lemma replace_by_new_run p c f s :
  plain s p -> fst (replace_by_new fault (p ++ [c]) f s) = s \/
  fst (replace_by_new fault (p ++ [c]) f s) = put_new_file (p ++ [c]) f s.
Proof.
  intros Hp. destruct (entry_place_run p c s Hp) as [H1 H2].
  destruct (replace_by_new fault (p ++ [c]) f s) as [s' r] eqn:E. cbn [fst].
  unfold replace_by_new, mbind at 1, pym_bind at 1 in E.
  destruct (entry_place _ _ s) as [s1 [q|e]]; cbn in H1; subst s1; [|injection E as <- <-; by left].
  rewrite (H2 q eq_refl) in E. unfold mbind, pym_bind, get in E.
  destruct (fs_get s (p ++ [c])) as [[]|]; injection E as <- <-; first [by left|by right].
Qed.

Lemma frame_replace l p c f s :
  plain s p -> l ⊆ watched -> p ++ [c] ∉ l -> frame l s (fst (replace_by_new fault (p ++ [c]) f s)).
Proof.
  intros Hp Hl Hc. destruct (replace_by_new_run p c f s Hp) as [E|E]; rewrite E; [done|].
  apply frame_new; [done|by destruct p|done].
Qed.

Lemma keeps_write_fstab text : keeps (frame boot_configs) (write_str_to_file_atomic fault (standby_fstab standby_slot_mnt) text true).
Proof using Hmnt.
  intros s; apply frame_intro; intros Hs. unfold write_str_to_file_atomic, mbind at 1, pym_bind at 1, get at 1.
  assert (Hp : plain s (standby_fstab standby_slot_mnt)) by (apply (so_plain _ Hs); right; by left).
  rewrite (realpath_plain _ _ Hp).
  assert (E : standby_fstab standby_slot_mnt = (path_of standby_slot_mnt ++ ["etc"%string]) ++ ["fstab"%string])
    by (unfold standby_fstab; by rewrite <- app_assoc).
  rewrite E in Hp |- *. apply plain_prefix with (q := path_of standby_slot_mnt ++ ["etc"%string]) in Hp; [|by apply prefix_app_r].
  apply frame_replace; [done| |].
  - intros q Hq. by right.
  - intros Hin. rewrite <- E in Hin. apply Hmnt. unfold boot_configs in Hin. rewrite !elem_of_cons in Hin.
    destruct Hin as [->|[->|[->|Hin]]]; try (by apply prefix_app_r). by apply elem_of_nil in Hin.
Qed.

Lemma keeps_copy_to l src c : l ⊆ watched -> SYSTEM_BOOT ++ [c] ∉ l -> keeps (frame l) (copyfile_atomic fault src (SYSTEM_BOOT ++ [c]) true).
Proof.
  intros Hl Hc s; apply frame_intro; intros Hs. unfold copyfile_atomic, mbind at 1, pym_bind at 1, get at 1.
  destruct (fault src); [reflexivity|]. cbn [negb andb]. destruct (stat s src) as [[i| |]|]; try reflexivity.
  apply frame_replace; [by apply sysboot_plain|done|done].
Qed.

Lemma keeps_mkdir_go l seen rest : keeps (frame l) (mkdir_go fault seen rest).
Proof.
  revert seen. induction rest as [|c rest IH]; intros seen s; [reflexivity|]. cbn [mkdir_go].
  unfold mbind at 1, pym_bind at 1, get at 1. destruct (stat s (seen ++ [c])) as [[]|]; [reflexivity|apply IH|reflexivity|].
  unfold entry_place at 1, mbind, pym_bind, get. destruct (fault _); [reflexivity|].
  destruct (located s (seen ++ [c])) as [q|] eqn:El; [|reflexivity].
  assert (Hq : q <> []).
  { unfold located in El. rewrite last_snoc in El. destruct (realpath _ _) as [d|]; [|done]. injection El as <-. by destruct d. }
  destruct (fs_get s (removelast q)) as [[]|]; try reflexivity.
  cbv [mret pym_ret]. destruct (fs_get s q) eqn:Eq; [reflexivity|]. cbn [modify].
  etransitivity; [|apply IH]. by apply frame_mkdir.
Qed.

Lemma keeps_os_replace c d : free_name c -> free_name d -> c <> d ->
  keeps (frame watched) (os_replace fault (SYSTEM_BOOT ++ [c]) (SYSTEM_BOOT ++ [d])).
Proof using Hmnt.
  intros Hc Hd Hcd s; apply frame_intro; intros Hs. unfold os_replace, mbind at 1, pym_bind at 1, get at 1, mbind at 1, pym_bind at 1.
  destruct (entry_place_run SYSTEM_BOOT c s (sysboot_plain _ Hs)) as [H1 H2].
  destruct (entry_place _ _ s) as [s1 [q|e]]; cbn in H1; subst s1; [|reflexivity]. rewrite (H2 q eq_refl).
  assert (Hmove : forall n, fs_get s (SYSTEM_BOOT ++ [c]) = Some n -> (forall u m, n <> FsDir u m) ->
    frame watched s (put_node (SYSTEM_BOOT ++ [d]) n (remove_node (SYSTEM_BOOT ++ [c]) s))) by (intros; by apply frame_rename).
  destruct (fs_get s (SYSTEM_BOOT ++ [c])) as [n|] eqn:En; [|reflexivity].
  specialize (Hmove n eq_refl). unfold mbind, pym_bind.
  destruct (entry_place_run SYSTEM_BOOT d s (sysboot_plain _ Hs)) as [H3 H4].
  destruct n; [|reflexivity|];
    (destruct (entry_place _ _ s) as [s1 [q'|e]]; cbn in H3; subst s1; [|reflexivity]; rewrite (H4 q' eq_refl);
     destruct (fs_get s (SYSTEM_BOOT ++ [d])) as [[j| |]|]; try (destruct (bool_decide _)); try reflexivity; by apply Hmove).
Qed.

Lemma keeps_write_flag text : keeps (frame watched) (write_text fault SWITCH_BOOT_FLAG_FILE text).
Proof using Hmnt.
  intros s; apply frame_intro; intros Hs. unfold write_text, mbind at 1, pym_bind at 1, get at 1.
  rewrite realpath_plain by (apply (so_plain _ Hs); by left).
  unfold SWITCH_BOOT_FLAG_FILE at 1. unfold mbind at 1, pym_bind at 1.
  destruct (entry_place_run SYSTEM_BOOT "._ota_switch_boot_finalized" s (sysboot_plain _ Hs)) as [H1 H2].
  destruct (entry_place _ _ s) as [s1 [q|e]]; cbn in H1; subst s1; [|reflexivity]. rewrite (H2 q eq_refl).
  fold SWITCH_BOOT_FLAG_FILE. destruct (fs_get s SWITCH_BOOT_FLAG_FILE) as [[i| |]|] eqn:E; try reflexivity.
  - apply (frame_rewrite i _ s E), flag_not_watched.
  - by apply frame_new; [|done|apply flag_not_watched].
Qed.

Lemma copy_run src c s s' r :
  sysboot_ok s -> src ∈ watched -> copyfile_atomic fault src (SYSTEM_BOOT ++ [c]) true s = (s', r) ->
  (r = Ok tt /\ exists f, s' = put_new_file (SYSTEM_BOOT ++ [c]) f s /\ read_at s src = Some (if_content f)) \/
  (s' = s /\ exists e, r = Raise e /\ is_exception e = true).
Proof.
  intros Hs Hsrc H. unfold copyfile_atomic, mbind at 1, pym_bind at 1, get at 1 in H.
  destruct (fault src); [injection H as <- <-; right; eauto|]. cbn [negb andb] in H.
  rewrite stat_plain in H by (apply (so_plain _ Hs); by right).
  destruct (fs_get s src) as [[i| |]|] eqn:E; try (injection H as <- <-; right; by eauto).
  destruct (so_inode _ Hs _ _ E) as [_ [f Hf]]. rewrite Hf in H. cbn [default] in H.
  unfold replace_by_new, entry_place, mbind, pym_bind, get in H.
  destruct (fault _); [injection H as <- <-; right; by eauto|].
  rewrite located_plain in H by (by apply sysboot_plain).
  rewrite removelast_last in H.
  destruct (fs_get s SYSTEM_BOOT) as [[]|]; cbv [mret pym_ret] in H; try (injection H as <- <-; right; by eauto).
  assert (Hr : read_at s src = Some (if_content f)) by (unfold read_at; rewrite E; cbn; by rewrite Hf).
  destruct (fs_get s (SYSTEM_BOOT ++ [c])) as [[]|] eqn:E2; cbn in H; injection H as <- <-; first [by right; eauto|left; split; by eauto].
Qed.

(** What a removal of backup files removes is none of the files of interest. *)
Lemma keeps_unlink_all l : (forall p, p ∈ l -> exists c, list.last p = Some c /\ endswith ".bak" c = true) ->
  keeps (frame (tryboot_txt :: watched)) (unlink_all fault l).
Proof.
  induction l as [|p l IH]; intros Hl; cbn [unlink_all]; [apply keeps_ret, _|].
  apply keeps_bind; [apply _| |intros _; apply IH; intros q Hq; apply Hl; by right].
  intros s. unfold unlink_missing_ok, entry_place, mbind, pym_bind, get.
  destruct (located s p) as [q|] eqn:El; cbn [option_bind]; [|reflexivity].
  destruct (Hl p) as (c & Hc & Hb); [by left|].
  assert (Hq : exists d, q = d ++ [c]).
  { unfold located in El. rewrite Hc in El. destruct (realpath s _) as [d|]; [|done]. injection El as <-. eauto. }
  destruct Hq as [d ->].
  assert (Hrem : frame (tryboot_txt :: watched) s (remove_node (d ++ [c]) s)).
  { apply frame_remove; [by destruct d|]. intros Hin. unfold watched, boot_configs, standby_fstab in Hin. rewrite !elem_of_cons in Hin.
    assert (Hlast : forall a b, d ++ [c] = a ++ [b] -> endswith ".bak" b = true).
    { intros a b E. apply app_inj_2 in E as [_ [= ->]]; done. }
    destruct Hin as [E|[E|[E|[E|[E|Hin]]]]]; [..|by apply elem_of_nil in Hin].
    2: change (d ++ [c] = path_of standby_slot_mnt ++ (["etc"%string] ++ ["fstab"%string])) in E; rewrite app_assoc in E.
    all: apply Hlast in E; by vm_compute in E. }
  destruct (fs_get s (d ++ [c])) as [[]|]; try reflexivity;
    (destruct (fault p); [reflexivity|]; rewrite El; destruct (fs_get s (removelast (d ++ [c]))) as [[]|]; try reflexivity; exact Hrem).
Qed.

Lemma unlink_all_raises l : raises_only (fun e => is_exception e = true) (unlink_all fault l).
Proof.
  induction l as [|p l IH]; cbn [unlink_all]; [done|]. apply raises_bind; [|done].
  intros s e. unfold unlink_missing_ok, entry_place, mbind, pym_bind, get.
  destruct (located s p) as [q|] eqn:El; cbn [option_bind]; [|done].
  destruct (fs_get s q) as [[]|]; try done; try (by intros [= <-]);
    (destruct (fault p); [by intros [= <-]|]; try rewrite El; destruct (fs_get s (removelast q)) as [[]|]; cbn; first [done|by intros [= <-]]).
Qed.
End Sysboot.

(** ** Updates keep the running slot bootable *)

Section Update.
Context {W : Type} `{HC : !CmdEnv W} `{HF : !FileEnv W}.
Context (fault : path -> bool) (rb : rpi_control) (standby_slot_mnt : string).
Context (Hmnt : ~ SYSTEM_BOOT `prefix_of` standby_fstab standby_slot_mnt).

Abbreviation Frame := (frame standby_slot_mnt).
Abbreviation Watched := (watched standby_slot_mnt).

(** The commands (mounts, [flash-kernel]) leave the boot configurations of the
    slots alone. *)
Context (Hcmds : forall cmd w, Frame Watched (files w) (files (fst (exec cmd w)))).

Definition wframe (l : list path) (w w' : W) : Prop := Frame l (files w) (files w').

#[export] Instance wframe_preorder l : PreOrder (wframe l).
Proof. split; [intros w; unfold wframe; reflexivity|]. intros a b c. unfold wframe. apply transitivity. Qed.

Lemma keeps_on_files {A} l (m : PyM fsys pyexn A) : keeps (Frame l) m -> keeps (wframe l) (on_files m).
Proof.
  intros H w. unfold wframe, on_files. specialize (H (files w)). destruct (m (files w)). cbn in *. by rewrite files_set.
Qed.

Lemma keeps_run cmd chroot ns : keeps (wframe Watched) (subprocess_run_wrapper cmd chroot ns).
Proof using Hcmds.
  intros w. unfold subprocess_run_wrapper.
  match goal with |- context [exec ?c w] => pose proof (Hcmds c w) as H; destruct (exec c w) as [w' []] end; exact H.
Qed.

Lemma keeps_on_cpe {A} l (m : PyM W pyexn A) h :
  keeps (wframe l) m -> (forall e, keeps (wframe l) (h e)) -> keeps (wframe l) (on_called_process_error m h).
Proof.
  intros Hm Hh. apply keeps_try_except; [apply _|done|]. intros e. destruct (is_called_process_error e); [done|].
  apply keeps_raise, _.
Qed.

Lemma keeps_as_rpi {A} l msg (m : PyM W pyexn A) : keeps (wframe l) m -> keeps (wframe l) (as_rpi_error msg m).
Proof.
  intros Hm. apply keeps_try_except; [apply _|done|]. intros e. destruct (is_exception e); apply keeps_raise, _.
Qed.

Ltac kstep :=
  match goal with
  | |- keeps _ (mbind _ _) => apply keeps_bind; [apply _| |intros ?]
  | |- keeps _ (try_finally _ _) => apply keeps_try_finally; [apply _| |]
  | |- keeps _ (on_called_process_error _ _) => apply keeps_on_cpe; [|intros ?]
  | |- keeps _ (as_rpi_error _ _) => apply keeps_as_rpi
  | |- keeps _ (on_files _) => apply keeps_on_files
  | |- keeps _ (subprocess_run_wrapper _ _ _) => apply keeps_run
  | |- keeps _ (mret _) => apply keeps_ret, _
  | |- keeps _ (raise _) => apply keeps_raise, _
  | |- keeps _ (gets _) => apply keeps_gets, _
  | |- keeps _ (if ?b then _ else _) => destruct b
  | |- keeps _ (match ?x with Some _ => _ | None => _ end) => destruct x
  end.

Lemma keeps_call cmd re c : keeps (wframe Watched) (subprocess_call cmd re c).
Proof using Hcmds. unfold subprocess_call. repeat kstep. Qed.

Lemma keeps_mount_all l : keeps (wframe Watched) (mount_all l).
Proof using Hcmds. induction l as [|[mp src] l IH]; cbn; repeat kstep; [apply keeps_call|done]. Qed.

Lemma keeps_umount_each l : keeps (wframe Watched) (umount_each l).
Proof using Hcmds.
  induction l as [|[mp src] l IH]; cbn; repeat kstep; [|done]. unfold umount, is_target_mounted. repeat kstep; apply keeps_call.
Qed.

Lemma slot_file_free n i : (n = VMLINUZ \/ n = INITRD_IMG) -> free_name standby_slot_mnt (n +:+ "_" +:+ slot_str i)%string.
Proof using Hmnt.
  intros Hn. split; [by destruct Hn as [->| ->], i|]. unfold watched, boot_configs. rewrite !not_elem_of_cons.
  split_and!; try (by destruct Hn as [->| ->], i); [|apply not_elem_of_nil]. intros E. apply Hmnt. rewrite <- E. by apply prefix_app_r.
Qed.

Lemma boot_file_free n : (n = VMLINUZ \/ n = INITRD_IMG \/ n = TRYBOOT_TXT) -> free_name standby_slot_mnt n.
Proof using Hmnt.
  intros Hn. split; [by destruct Hn as [->|[->| ->]]|]. unfold watched, boot_configs. rewrite !not_elem_of_cons.
  split_and!; try (by destruct Hn as [->|[->| ->]]); [|apply not_elem_of_nil]. intros E. apply Hmnt. rewrite <- E. by apply prefix_app_r.
Qed.

Lemma keeps_replace_if_file n i : (n = VMLINUZ \/ n = INITRD_IMG) -> keeps (wframe Watched) (replace_if_file fault n i).
Proof using Hmnt.
  intros Hn. unfold replace_if_file. repeat kstep. apply keeps_os_replace; [done| | |].
  - apply boot_file_free. tauto.
  - by apply slot_file_free.
  - by destruct Hn as [->| ->], i.
Qed.

Lemma keeps_update_firmware i mp : keeps (wframe Watched) (update_firmware fault i mp).
Proof using Hcmds Hmnt.
  unfold update_firmware, on_command_error, prepare_flash_kernel, ensure_tmp.
  repeat kstep; try apply keeps_mkdir_go; try apply keeps_mount_all; try apply keeps_umount_each.
  - apply keeps_replace_if_file. by left.
  - apply keeps_replace_if_file. by right.
  - by apply keeps_write_flag.
Qed.

Lemma keeps_tryboot : keeps (wframe Watched) (prepare_tryboot_txt fault rb).
Proof using Hmnt.
  unfold prepare_tryboot_txt. repeat kstep. apply keeps_copy_to; [done|].
  assert (H : free_name standby_slot_mnt TRYBOOT_TXT) by (apply boot_file_free; tauto).
  intros Hin. apply H. by right.
Qed.

Lemma configs_watched : boot_configs ⊆ Watched.
Proof. intros p Hp. by right. Qed.

Lemma keeps_weaken_configs {A} (m : PyM W pyexn A) : keeps (wframe Watched) m -> keeps (wframe boot_configs) m.
Proof. apply keeps_weaken. intros w w'. apply frame_sub, configs_watched. Qed.

Lemma on_files_run {A} (m : PyM fsys pyexn A) w w' r :
  on_files m w = (w', r) -> m (files w) = (files w', r).
Proof. unfold on_files. destruct (m (files w)) as [s r'] eqn:E. intros [= <- <-]. by rewrite files_set. Qed.

Lemma as_rpi_ok {A} msg (m : PyM W pyexn A) w w' a : as_rpi_error msg m w = (w', Ok a) -> m w = (w', Ok a).
Proof. apply try_except_ok. intros e s1 a1. by destruct (is_exception e). Qed.

Lemma keeps_switch_steps : keeps (wframe boot_configs) (switch_steps fault rb standby_slot_mnt).
Proof using Hcmds Hmnt.
  unfold switch_steps, write_standby_fstab. repeat (kstep || (apply raise_as_keeps; [apply _|])).
  - by apply keeps_write_fstab.
  - by apply keeps_weaken_configs, keeps_update_firmware.
  - by apply keeps_weaken_configs, keeps_tryboot.
Qed.

Lemma write_fstab_ok w w1 :
  sysboot_ok standby_slot_mnt (files w) -> write_standby_fstab fault rb standby_slot_mnt w = (w1, Ok tt) ->
  read_at (files w1) (standby_fstab standby_slot_mnt) = Some (FSTAB_TEMPLATE (slot_str (rb_standby_slot rb))).
Proof.
  intros Hs H. apply as_rpi_ok, on_files_run in H. unfold write_str_to_file_atomic, mbind at 1, pym_bind at 1, get at 1 in H.
  assert (Hp : plain (files w) (standby_fstab standby_slot_mnt)) by (apply (so_plain _ _ Hs); right; by left).
  rewrite (realpath_plain _ _ Hp) in H.
  assert (E : standby_fstab standby_slot_mnt = (path_of standby_slot_mnt ++ ["etc"%string]) ++ ["fstab"%string])
    by (unfold standby_fstab; by rewrite <- app_assoc).
  rewrite E in H, Hp |- *. apply replace_by_new_ok in H as (-> & _ & _); [|by eapply plain_prefix; [exact Hp|apply prefix_app_r]].
  unfold read_at. rewrite fs_get_new by (by destruct (path_of standby_slot_mnt)). rewrite decide_True by done.
  cbn. by rewrite lookup_insert_eq.
Qed.

Lemma switch_steps_ok w w' :
  sysboot_ok standby_slot_mnt (files w) -> switch_steps fault rb standby_slot_mnt w = (w', Ok tt) ->
  (exists t, read_at (files w) (slot_config (rb_standby_slot rb)) = Some t /\ read_at (files w') tryboot_txt = Some t) /\
  read_at (files w') (standby_fstab standby_slot_mnt) = Some (FSTAB_TEMPLATE (slot_str (rb_standby_slot rb))).
Proof using Hcmds Hmnt.
  intros Hs H. apply pym_bind_ok in H as (w1 & [] & H1 & H). apply raise_as_ok in H1.
  apply pym_bind_ok in H as (w2 & [] & H2 & H). apply raise_as_ok in H2, H.
  assert (Hf1 : wframe boot_configs w w1).
  { pose proof (keeps_as_rpi _ "failed to update fstab file for standby slot" _
      (keeps_on_files _ _ (keeps_write_fstab _ Hmnt fault (FSTAB_TEMPLATE (slot_str (rb_standby_slot rb))))) w) as Hk.
    unfold write_standby_fstab in H1. by rewrite H1 in Hk. }
  pose proof (keeps_update_firmware (rb_standby_slot rb) standby_slot_mnt w1) as Hf2. rewrite H2 in Hf2. cbn in Hf2.
  pose proof (keeps_tryboot w2) as Hf3. rewrite H in Hf3. cbn in Hf3.
  destruct (Hf1 Hs) as [Hs1 Hr1]. destruct (Hf2 Hs1) as [Hs2 Hr2]. destruct (Hf3 Hs2) as [Hs3 Hr3].
  assert (Hslot : slot_config (rb_standby_slot rb) ∈ boot_configs) by (destruct (rb_standby_slot rb); set_solver).
  split.
  - apply as_rpi_ok, on_files_run in H. apply (copy_run standby_slot_mnt) in H as [[_ (f & -> & Hread)]|[_ (e & ? & _)]]; [|done|done|by apply configs_watched].
    exists (if_content f). split.
    + rewrite <- Hread. symmetry. rewrite <- Hr1 by done. apply Hr2. by apply configs_watched.
    + unfold read_at. rewrite fs_get_new by done. rewrite decide_True by done. cbn. by rewrite lookup_insert_eq.
  - rewrite Hr3 by (by left). rewrite Hr2 by (by left). by apply write_fstab_ok in H1.
Qed.

(** Whatever happens in the post-update hook, the boot configuration of the
    running slot stays, as long as the commands it runs ([mount], [umount] and
    [flash-kernel], which writes the kernel and the initrd) leave it: [config.txt] and the [config.txt] of both slots
    have the contents they had.  When it returns, [tryboot.txt], which is used
    once, is the standby slot's [config.txt], and the standby slot's fstab
    mounts the root file system by that slot's label. *)
Theorem rpi_update_keeps_running_slot active_ota cenv write_fails cfg d w d' w' r :
  sysboot_ok standby_slot_mnt (files w) ->
  rpi_post_update_platform_specific fault rb standby_slot_mnt active_ota cenv write_fails cfg (d, w) = (d', w', r) ->
  (forall p, p ∈ boot_configs -> read_at (files w') p = read_at (files w) p) /\
  (r = Ok tt ->
   (exists t, read_at (files w) (slot_config (rb_standby_slot rb)) = Some t /\ read_at (files w') tryboot_txt = Some t) /\
   read_at (files w') (standby_fstab standby_slot_mnt) = Some (FSTAB_TEMPLATE (slot_str (rb_standby_slot rb)))).
Proof using Hcmds Hmnt.
  intros Hs H. unfold rpi_post_update_platform_specific, mbind at 1, pym_bind at 1 in H.
  destruct (preserve_ota_dir_and_install_config_files _ _ _ _ _) as [d1|e]; [|injection H as <- <- <-; by split].
  unfold on_platform in H. cbn [fst snd] in H. destruct (switch_steps _ _ _ w) as [w1 r1] eqn:E. injection H as <- <- <-.
  pose proof (keeps_switch_steps w) as Hk. rewrite E in Hk. split; [by apply Hk|]. intros ->. by apply switch_steps_ok in E.
Qed.

Lemma bak_files_named s p : p ∈ bak_files s -> exists c, list.last p = Some c /\ endswith ".bak" c = true.
Proof.
  unfold bak_files. destruct (realpath s SYSTEM_BOOT) as [d|]; [|by rewrite elem_of_nil].
  rewrite list_elem_of_omap. intros ([q n] & _ & H). cbn in H. destruct (list.last q) as [c|] eqn:E; [|done].
  destruct (bool_decide _ && _) eqn:B; [|done]. injection H as <-. apply andb_true_iff in B as [_ B]. eauto.
Qed.

Lemma slot_config_watched i : slot_config i ∈ Watched.
Proof using Type. apply configs_watched. destruct i; [right; by left|right; right; by left]. Qed.

Lemma swap_run s s' r :
  sysboot_ok standby_slot_mnt s -> swap_boot_configs fault rb s = (s', r) ->
  (forall i, read_at s' (slot_config i) = read_at s (slot_config i)) /\
  match r with
  | Ok b => b = true /\ read_at s' config_txt = read_at s (slot_config (rb_active_slot rb)) /\
      read_at s' tryboot_txt = read_at s (slot_config (rb_standby_slot rb))
  | Raise e => is_exception e = true /\ (read_at s' config_txt = read_at s config_txt \/
      read_at s' config_txt = read_at s (slot_config (rb_active_slot rb)))
  end.
Proof using Hmnt.
  intros Hs E. unfold swap_boot_configs, mbind at 1, pym_bind at 1 in E.
  destruct (copyfile_atomic fault _ (SYSTEM_BOOT ++ [CONFIG_TXT]) true s) as [s1 q1] eqn:E1.
  apply (copy_run standby_slot_mnt) in E1 as [(-> & f1 & -> & Hf1)|(-> & e & -> & He)]; [| |done|by apply slot_config_watched].
  2: { injection E as <- <-. split; [done|]. split; [done|by left]. }
  assert (Hfr1 : Frame [slot_config SLOT_A; slot_config SLOT_B] s (put_new_file config_txt f1 s)).
  { apply frame_new; [|done|]; unfold watched, boot_configs; [intros p; rewrite !elem_of_cons; tauto|].
    rewrite !not_elem_of_cons. split_and!; [done|done|apply not_elem_of_nil]. }
  destruct (Hfr1 Hs) as [Hs1 Hr1]. set (s1 := put_new_file config_txt f1 s) in *.
  assert (Hslots : forall i, read_at s1 (slot_config i) = read_at s (slot_config i)).
  { intros i. apply Hr1. destruct i; [by left|by right; left]. }
  assert (Hcfg : read_at s1 config_txt = read_at s (slot_config (rb_active_slot rb))).
  { unfold slot_config. rewrite Hf1. unfold read_at, s1. rewrite fs_get_new by done. rewrite decide_True by done. cbn. by rewrite lookup_insert_eq. }
  unfold mbind at 1, pym_bind at 1 in E. change (put_new_file (SYSTEM_BOOT ++ [CONFIG_TXT]) f1 s) with s1 in E.
  destruct (copyfile_atomic fault _ (SYSTEM_BOOT ++ [TRYBOOT_TXT]) true s1) as [s2 q2] eqn:E2.
  assert (Hfr2 : Frame Watched s1 s2).
  { change s2 with (fst (s2, q2)). rewrite <- E2. apply (keeps_copy_to standby_slot_mnt); [done|].
    intros Hin. apply (boot_file_free TRYBOOT_TXT); [tauto|]. by right. }
  destruct (Hfr2 Hs1) as [Hs2 Hr2].
  assert (Hslots2 : forall i, read_at s2 (slot_config i) = read_at s (slot_config i)).
  { intros i. rewrite Hr2 by apply slot_config_watched. apply Hslots. }
  assert (Hcfg2 : read_at s2 config_txt = read_at s (slot_config (rb_active_slot rb))).
  { rewrite Hr2; [done|]. right. by left. }
  apply (copy_run standby_slot_mnt) in E2 as [(-> & f2 & E2 & Hf2)|(-> & e & -> & He)]; [| |done|by apply slot_config_watched].
  2: { injection E as <- <-. split; [done|]. split; [done|by right]. }
  assert (Htry : read_at s2 tryboot_txt = read_at s (slot_config (rb_standby_slot rb))).
  { rewrite <- Hslots. unfold slot_config at 1. rewrite Hf2. subst s2. unfold read_at. rewrite fs_get_new by done.
    rewrite decide_True by done. cbn. by rewrite lookup_insert_eq. }
  unfold mbind at 1, pym_bind at 1, get at 1 in E. unfold mbind, pym_bind in E.
  pose proof (keeps_unlink_all standby_slot_mnt fault (bak_files s2) (bak_files_named s2) s2) as Hfr3.
  pose proof (unlink_all_raises fault (bak_files s2) s2) as Hex.
  destruct (unlink_all fault (bak_files s2) s2) as [s3 q3]. cbn [fst snd] in *. destruct (Hfr3 Hs2) as [Hs3 Hr3].
  assert (Hkeep : forall p, p ∈ tryboot_txt :: Watched -> read_at s3 p = read_at s2 p) by done.
  destruct q3 as [[]|e]; injection E as <- <-; (split; [intros i; rewrite Hkeep; [done|right; apply slot_config_watched]|]).
  - split; [done|]. rewrite !Hkeep; [done|by left|right; right; by left].
  - split; [by apply Hex|right]. rewrite Hkeep; [done|right; right; by left].
Qed.

(** C29. Finalizing a switched boot raises nothing, whichever of its file
    operations fail.  When it reports success, the running slot is what the
    firmware boots from now on: [config.txt] is the running slot's and
    [tryboot.txt] the other slot's.  When it reports failure, [config.txt] is as
    before or the running slot's.  The two slots' own files stay in both cases,
    whatever backup files are removed.  The files are those of a boot partition
    that has neither links nor two names for a file ([sysboot_ok]), and the
    standby slot is not mounted below it. *)
Theorem rpi_finalize_spec w w' r :
  sysboot_ok standby_slot_mnt (files w) -> finalize_switching_boot fault rb w = (w', r) ->
  exists ok, r = Ok ok /\
    (forall i, read_at (files w') (slot_config i) = read_at (files w) (slot_config i)) /\
    (ok = true ->
     read_at (files w') config_txt = read_at (files w) (slot_config (rb_active_slot rb)) /\
     read_at (files w') tryboot_txt = read_at (files w) (slot_config (rb_standby_slot rb))) /\
    (ok = false ->
     read_at (files w') config_txt = read_at (files w) config_txt \/
     read_at (files w') config_txt = read_at (files w) (slot_config (rb_active_slot rb))).
Proof using Hmnt.
  intros Hs H. unfold finalize_switching_boot, try_except in H.
  destruct (on_files (swap_boot_configs fault rb) w) as [w1 r1] eqn:E. apply on_files_run, swap_run in E as [Hsl E]; [|done].
  destruct r1 as [b|e].
  - destruct E as (-> & E). injection H as <- <-. exists true. by split_and!.
  - destruct E as (He & E). rewrite He in H. injection H as <- <-. exists false. by split_and!.
Qed.
End Update.

(** ** Start-up *)

(** A control that start-up returns is for a disk whose second and third
    partitions are the slots: the running root device is the one of the
    active slot, the standby slot is the other one, on another partition, and
    at that time the boot files of both slots were there. *)
Theorem rpi_slots_detected {W} `{!CmdEnv W} `{!FileEnv W} fault active_root chroot w w' rb :
  init_rpi_boot_control fault active_root chroot w = (w', Ok rb) ->
  rb_standby_slot rb = AB_FLIPS (rb_active_slot rb) /\
  (exists disk boot a b others,
     (rb_active_slot rb, rb_active_slot_dev rb, rb_standby_slot_dev rb) ∈ [(SLOT_A, a, b); (SLOT_B, b, a)] /\
     (exists w1 w2 parent, get_parent_dev (rb_active_slot_dev rb) true w1 = (w2, Ok parent) /\
        snd (get_device_tree parent true w2) = Ok (disk :: boot :: a :: b :: others)) /\
     (rb_active_slot rb = SLOT_B -> a <> b)) /\
  (exists w1, forall i n, n = CONFIG_TXT \/ n = CMDLINE_TXT -> is_file (files w1) (get_sysboot_files_fpath n i) = true).
Proof.
  intros H. unfold init_rpi_boot_control in H. apply pym_bind_ok in H as (w1 & [] & _ & H).
  apply pym_bind_ok in H as (w2 & s & H1 & H). injection H1 as <- <-.
  destruct (read_file _ _) as [model|]; [|done]. destruct (bool_decide _); [done|].
  apply pym_bind_ok in H as (w3 & dev & _ & H). apply pym_bind_ok in H as (w4 & tree & Ht & H).
  apply pym_bind_ok in H as (w5 & [] & _ & H). apply pym_bind_ok in H as (w6 & rb' & Hrb & H).
  apply pym_bind_ok in H as (w7 & [] & Hf & H). apply pym_bind_ok in H as (w8 & [] & _ & H).
  apply pym_bind_ok in H as (w9 & [] & _ & H). injection H as <- <-. injection Hrb as <- Hrb.
  assert (Htree : exists wa wb parent, get_parent_dev dev true wa = (wb, Ok parent) /\ snd (get_device_tree parent true wb) = Ok tree).
  { apply try_except_ok in Ht; [|intros e s1 a1; by destruct (is_exception e)].
    apply pym_bind_ok in Ht as (wb & parent & Hp & Ht). apply pym_bind_ok in Ht as (wc & tree' & Ht' & Ht).
    destruct (Nat.leb _ _); [|done]. injection Ht as <- <-. exists w3, wb, parent. by rewrite Ht'. }
  destruct tree as [|disk [|boot [|a [|b others]]]]; try done. cbn in Hrb.
  assert (Hrb' : rb_active_slot_dev rb' = dev /\ rb_standby_slot rb' = AB_FLIPS (rb_active_slot rb') /\
    (rb_active_slot rb', rb_active_slot_dev rb', rb_standby_slot_dev rb') ∈ [(SLOT_A, a, b); (SLOT_B, b, a)] /\
    (rb_active_slot rb' = SLOT_B -> a <> b)).
  { destruct (String.eqb_spec a dev) as [->|Ha]; [injection Hrb as <-; split_and!; try done; by left|].
    destruct (String.eqb_spec b dev) as [->|]; [|done]. injection Hrb as <-. split_and!; try done. right. by left. }
  destruct Hrb' as (Hd & Hflip & Hin & Hne). split; [done|]. split.
  - rewrite <- Hd in Htree. exists disk, boot, a, b, others. done.
  - exists w5. apply pym_bind_ok in Hf as (x1 & [] & F1 & Hf). apply pym_bind_ok in Hf as (x2 & [] & F2 & Hf).
    apply pym_bind_ok in Hf as (x3 & [] & F3 & F4).
    assert (Hreq : forall p (x y : W), require_file p x = (y, Ok tt) -> y = x /\ is_file (files x) p = true).
    { intros p x y. unfold require_file, mbind, pym_bind, gets. by destruct (is_file _ p) eqn:E; intros [= <-]. }
    apply Hreq in F1 as [-> F1], F2 as [-> F2], F3 as [-> F3], F4 as [-> F4]. rewrite Hflip in F3, F4.
    intros i n Hn. destruct (rb_active_slot rb'), i, Hn as [->| ->]; done.
Qed.

(** ** A concrete machine *)

(** [flash-kernel] installs a kernel and an initrd, mounts succeed. *)
Record rpi_machine : Type := mkRpiMachine { rm_files : fsys }.

#[export] Instance rpi_machine_files : FileEnv rpi_machine := {|
  files := rm_files;
  set_files f _ := mkRpiMachine f;
  files_set f w := eq_refl;
|}.

Definition flash_kernel (s : fsys) : fsys :=
  put_new_file (SYSTEM_BOOT ++ [INITRD_IMG]) (mkIFile "initrd" 420)
    (put_new_file (SYSTEM_BOOT ++ [VMLINUZ]) (mkIFile "kernel" 420) s).

Definition rpi_output (cmd : argv) : string :=
  match cmd with
  | "findmnt"%string :: "-nfco"%string :: _ => "/dev/sda2"
  | "lsblk"%string :: "-idpno"%string :: _ => "/dev/sda"
  | "lsblk"%string :: "-lnpo"%string :: _ => unlines ["/dev/sda"; "/dev/sda1"; "/dev/sda2"; "/dev/sda3"]%string
  | "lsblk"%string :: _ => "slot_a"
  | _ => EmptyString
  end.

#[export] Instance rpi_machine_cmds : CmdEnv rpi_machine := fun cmd w =>
  (if bool_decide (list.last cmd = Some "/usr/sbin/flash-kernel"%string) then mkRpiMachine (flash_kernel (rm_files w)) else w,
   CmdOk (rpi_output cmd)).

Definition example_standby_mnt : string := "/mnt/standby".
Definition example_rb : rpi_control := mkRpiControl SLOT_A SLOT_B "/dev/sda2" "/dev/sda3".

Definition example_rpi_dirs : list path :=
  [["boot"]; ["boot"; "firmware"]; ["mnt"]; ["mnt"; "standby"]; ["mnt"; "standby"; "etc"]; ["proc"]; ["proc"; "device-tree"]]%string.
Definition example_boot_files : list (path * string) :=
  [(RPI_MODEL_FILE, "Raspberry Pi 4 Model B"%string);
   (config_txt, "boot a"%string); (slot_config SLOT_A, "boot a"%string); (slot_config SLOT_B, "boot b"%string);
   (get_sysboot_files_fpath CMDLINE_TXT SLOT_A, "root=slot_a"%string);
   (get_sysboot_files_fpath CMDLINE_TXT SLOT_B, "root=slot_b"%string)].
Definition example_machine : rpi_machine :=
  mkRpiMachine (put_files example_boot_files (put_dirs example_rpi_dirs (mkFsys ∅ ∅ 0))).

Lemma example_mnt_apart : ~ SYSTEM_BOOT `prefix_of` standby_fstab example_standby_mnt.
Proof. intros H. by apply prefix_cons_inv_1 in H. Qed.

Lemma put_files_ok l s : sysboot_ok example_standby_mnt s -> Forall (fun pt => fst pt <> []) l ->
  sysboot_ok example_standby_mnt (put_files l s).
Proof.
  intros Hs Hl. revert s Hs. induction Hl as [|[p t] l Hp _ IH]; intros s Hs; [done|]. cbn. apply IH.
  apply (frame_new example_standby_mnt [] p (mkIFile t 420) s); [apply list_subseteq_nil|done|apply not_elem_of_nil|done].
Qed.

Lemma example_sysboot_ok : sysboot_ok example_standby_mnt (files example_machine).
Proof.
  apply put_files_ok; [|by repeat constructor].
  assert (Hempty : sysboot_ok example_standby_mnt (mkFsys ∅ ∅ 0)).
  { split.
    - intros p i. destruct p; cbn; [done|by rewrite lookup_empty].
    - intros p Hp. split.
      + unfold watched, boot_configs in Hp. rewrite !elem_of_cons in Hp.
        destruct Hp as [->|[->|[->|[->|[->|Hp]]]]]; [by repeat constructor..|by apply elem_of_nil in Hp].
      + intros q t _. destruct q; cbn; [done|by rewrite lookup_empty].
    - intros p q i _ H. destruct p; cbn in H; [done|by rewrite lookup_empty in H]. }
  unfold put_dirs, example_rpi_dirs. cbn [fold_left].
  repeat (eapply (frame_mkdir _ []); [done|by vm_compute|]). done.
Qed.

Lemma example_cmds_frame cmd w :
  frame example_standby_mnt (watched example_standby_mnt) (files w) (files (fst (exec cmd w))).
Proof.
  unfold exec, rpi_machine_cmds. cbn [fst]. destruct (bool_decide _); [|reflexivity]. cbn [files rpi_machine_files rm_files].
  assert (Hfree : forall n, n = VMLINUZ \/ n = INITRD_IMG \/ n = TRYBOOT_TXT -> SYSTEM_BOOT ++ [n] ∉ watched example_standby_mnt).
  { intros n Hn Hin. apply (proj2 (boot_file_free _ example_mnt_apart n Hn)). by right. }
  transitivity (put_new_file (SYSTEM_BOOT ++ [VMLINUZ]) (mkIFile "kernel" 420) (rm_files w));
    (apply frame_new; [reflexivity|done|apply Hfree; tauto]).
Qed.

#[local] Abbreviation example_post_update_run :=
  (rpi_post_update_platform_specific (fun _ => false) example_rb example_standby_mnt None no_links_env (fun _ => false) no_config_files (None, example_machine)).

Lemma rpi_update_keeps_running_slot_witness :
  exists d' w', example_post_update_run = (d', w', Ok tt) /\
    read_at (files w') config_txt = Some "boot a"%string /\ read_at (files w') tryboot_txt = Some "boot b"%string.
Proof.
  destruct example_post_update_run as [[d' w'] r] eqn:E.
  assert (Hr : r = Ok tt) by (change r with (snd (d', w', r)); rewrite <- E; vm_compute; reflexivity). subst r.
  exists d', w'. split; [reflexivity|].
  destruct (rpi_update_keeps_running_slot (fun _ => false) example_rb example_standby_mnt example_mnt_apart example_cmds_frame
              None no_links_env (fun _ => false) no_config_files None example_machine d' w' (Ok tt)
              example_sysboot_ok E) as [H1 H2].
  destruct (H2 eq_refl) as [(t & Ht & Htry) _]. split.
  - rewrite H1 by (left; reflexivity). vm_compute. reflexivity.
  - rewrite Htry. rewrite <- Ht. vm_compute. reflexivity.
Defined.

(** The next boot is of slot B: finalizing there makes it permanent. *)
Lemma rpi_finalize_spec_witness :
  exists w', finalize_switching_boot (fun _ => false) (mkRpiControl SLOT_B SLOT_A "/dev/sda3" "/dev/sda2") example_machine = (w', Ok true) /\
    read_at (files w') config_txt = Some "boot b"%string /\ read_at (files w') tryboot_txt = Some "boot a"%string.
Proof.
  destruct (finalize_switching_boot (fun _ => false) (mkRpiControl SLOT_B SLOT_A "/dev/sda3" "/dev/sda2") example_machine) as [w' r] eqn:E.
  assert (Hr : r = Ok true) by (change r with (snd (w', r)); rewrite <- E; vm_compute; reflexivity). subst r.
  exists w'. split; [reflexivity|].
  destruct (rpi_finalize_spec (fun _ => false) (mkRpiControl SLOT_B SLOT_A "/dev/sda3" "/dev/sda2") example_standby_mnt example_mnt_apart
              example_machine w' (Ok true) example_sysboot_ok E) as (ok & Hok & _ & H & _).
  injection Hok as <-. destruct (H eq_refl) as [H1 H2]. rewrite H1, H2. split; vm_compute; reflexivity.
Defined.

Lemma rpi_slots_detected_witness :
  exists w', init_rpi_boot_control (fun _ => false) "/" None example_machine = (w', Ok example_rb) /\
    rb_standby_slot example_rb = AB_FLIPS (rb_active_slot example_rb).
Proof.
  destruct (init_rpi_boot_control (fun _ => false) "/" None example_machine) as [w' r] eqn:E.
  assert (Hr : r = Ok example_rb) by (change r with (snd (w', r)); rewrite <- E; vm_compute; reflexivity). subst r.
  exists w'. split; [reflexivity|]. exact (proj1 (rpi_slots_detected (fun _ => false) "/" None example_machine w' example_rb E)).
Defined.

(** A [/tmp] of the new image that is an absolute link is resolved in the
    running system: the directory is made there and not on the standby slot. *)
Definition linked_tmp_machine : rpi_machine :=
  mkRpiMachine (put_node ["mnt"; "standby"; "tmp"]%string (FsLink "/var/tmp") (put_dirs [["var"]]%string (rm_files example_machine))).

Example linked_tmp_made_in_running_system :
  let '(w', r) := ensure_tmp (fun _ => false) example_standby_mnt linked_tmp_machine in
  r = Ok tt /\ is_dir (files w') ["var"; "tmp"]%string = true /\ fs_get (files w') ["mnt"; "standby"; "var"; "tmp"]%string = None.
Proof. vm_compute. done. Qed.
