(* ===== verification/JetsonText.v ===== *)
(** * Versions, firmware packages and texts of the Jetson controllers

    Models [src/src/otaclient/boot_control/_firmware_package.py] and the pure
    functions of [src/src/otaclient/boot_control/_jetson_common.py] and
    [_jetson_uefi.py]: slot ids, BSP versions, the texts of [nvbootctrl],
    [nv_tegra_release], [nv_boot_control.conf] and [extlinux.conf].  Regular
    expressions are matchers; [\w] and [\d] are those of ASCII. *)

From stdpp Require Import base gmap strings list option sets pretty.
From Stdlib Require Import ZArith Ascii String Lia.
From S2P Require Import Prelude Errors TextLines CertStore LegacyCSV.

(** ** Slots *)

Inductive JetsonSlot : Type := JSLOT_A | JSLOT_B.

#[export] Instance JetsonSlot_eq_dec : EqDecision JetsonSlot.
Proof. solve_decision. Defined.

Definition jslot_str (i : JetsonSlot) : string := match i with JSLOT_A => "0" | JSLOT_B => "1" end.

Definition jetson_value_error : pyexn := PyExn XValueError [] None None.

(** [SlotID.__new__]: the number or the letter. *)
Definition parse_jslot (s : string) : result pyexn JetsonSlot :=
  if bool_decide (s = "0" \/ s = "A")%string then Ok JSLOT_A
  else if bool_decide (s = "1" \/ s = "B")%string then Ok JSLOT_B
  else Raise jetson_value_error.

Definition SLOT_FLIP (i : JetsonSlot) : JetsonSlot := match i with JSLOT_A => JSLOT_B | JSLOT_B => JSLOT_A end.
Definition SLOT_PAR_MAP (i : JetsonSlot) : Z := match i with JSLOT_A => 1 | JSLOT_B => 2 end.

(** ** Matching *)

(** A literal, and a non-empty run of characters of a class. *)
Definition match_lit (lit s : string) : option string :=
  if startswith lit s then Some (str_drop (String.length lit) s) else None.
Definition match_run (p : ascii -> bool) (s : string) : option (string * string) :=
  let '(x, r) := str_span p s in if str_truthy x then Some (x, r) else None.
Definition match_digits (s : string) : option (Z * string) :=
  '(x, r) ← match_run is_digit s; Some (dec_value 0 x, r).

Definition is_word_char (a : ascii) : bool :=
  let n := N_of_ascii a in
  is_digit a || ((65 <=? n) && (n <=? 90) || (97 <=? n) && (n <=? 122) || (n =? 95))%N.

(** [re.search]: the first position at which [m] matches. *)
Fixpoint search {A} (m : string -> option A) (s : string) : option A :=
  match m s with
  | Some x => Some x
  | None => match s with EmptyString => None | String _ s => search m s end
  end.

(** ** BSP versions *)

Record BSPVersion : Type := mkBSPVersion { major_ver : Z; major_rev : Z; minor_rev : Z }.

#[export] Instance BSPVersion_eq_dec : EqDecision BSPVersion.
Proof. solve_decision. Defined.

(** [BSP_VERSION_STR_PA.match] *)
Definition match_bsp_version (s : string) : option BSPVersion :=
  let s := match s with String a r => if Ascii.eqb a "r" || Ascii.eqb a "R" then r else s | _ => s end in
  '(a, s) ← match_digits s; s ← match_lit "." s;
  '(b, s) ← match_digits s; s ← match_lit "." s;
  '(c, _) ← match_digits s; Some (mkBSPVersion a b c).

Definition parse_bsp_version (s : string) : result pyexn BSPVersion :=
  match match_bsp_version s with Some v => Ok v | None => Raise jetson_value_error end.

Definition dump_bsp_version (v : BSPVersion) : string :=
  ("R" +:+ pretty (major_ver v) +:+ "." +:+ pretty (major_rev v) +:+ "." +:+ pretty (minor_rev v))%string.

(** The order of named tuples. *)
Definition bsp_lt (v w : BSPVersion) : bool :=
  (major_ver v <? major_ver w) ||
  (major_ver v =? major_ver w) &&
    ((major_rev v <? major_rev w) || (major_rev v =? major_rev w) && (minor_rev v <? minor_rev w)).
Definition bsp_ge (v w : BSPVersion) : bool := negb (bsp_lt v w).

(** [NV_TEGRA_RELEASE_PA.match] and [parse_nv_tegra_release] *)
Definition match_nv_tegra_release (s : string) : option BSPVersion :=
  s ← match_lit "# R" s; '(a, s) ← match_digits s;
  s ← match_lit " (" s; '(_, s) ← match_run is_word_char s;
  s ← match_lit "), REVISION: " s; '(b, s) ← match_digits s;
  s ← match_lit "." s; '(c, s) ← match_digits s;
  s ← match_lit ", GCID: " s; '(_, s) ← match_digits s;
  s ← match_lit ", BOARD: " s; '(_, s) ← match_run is_word_char s;
  s ← match_lit ", EABI: " s; '(_, _) ← match_run is_word_char s;
  Some (mkBSPVersion a b c).
Definition parse_nv_tegra_release (s : string) : result pyexn BSPVersion :=
  match match_nv_tegra_release s with
  | Some v => Ok v
  | None => Raise (PyExn (XOther "AssertionError") [] None None)
  end.

(** ** [nv_boot_control.conf] *)

(** The value of the first line that starts with [field], [None] without such
    a line; [line.split(" ", maxsplit=1)] has to give two parts. *)
Fixpoint conf_field (field : string) (lines : list string) : result pyexn (option string) :=
  match lines with
  | [] => Ok None
  | line :: lines =>
      if startswith field (strip line) then
        match py_split1 " " line with
        | (_, Some v) => Ok (Some (strip v))
        | (_, None) => Raise jetson_value_error
        end
      else conf_field field lines
  end.

Definition get_nvbootctrl_conf_tnspec (nvbootctrl_conf : string) : result pyexn (option string) :=
  conf_field "TNSPEC" (splitlines nvbootctrl_conf).

(** Whether the OTA boot device is QSPI flash: [None] when it is not known. *)
Definition detect_ota_bootdev_is_qspi (nvboot_ctrl_conf : string) : result pyexn (option bool) :=
  match conf_field "TEGRA_OTA_BOOT_DEVICE" (splitlines nvboot_ctrl_conf) with
  | Raise e => Raise e
  | Ok None => Ok None
  | Ok (Some dev) =>
      Ok (if startswith "/dev/mmcblk0" dev then Some false
          else if startswith "/dev/mtdblock0" dev then Some true else None)
  end.

(** ** The output of [nvbootctrl dump-slots-info] *)

Definition is_version_char (a : ascii) : bool := is_digit a || Ascii.eqb a ".".
Definition match_current_version (s : string) : option string :=
  s ← match_lit "Current version:" s; fst <$> match_run is_version_char (lstrip_by is_space s).
Definition match_active_slot (s : string) : option string :=
  s ← match_lit "Active bootloader slot:" s;
  match lstrip_by is_space s with
  | String a _ => if Ascii.eqb a "A" || Ascii.eqb a "B" then Some (String a EmptyString) else None
  | EmptyString => None
  end.

(** ** [extlinux.conf] *)

(** [re.sub(r"root=[^\s]*", repl, s)] with the number of replacements. *)
Fixpoint subn_root (repl s : string) (skip : bool) : string * nat :=
  match s with
  | EmptyString => (EmptyString, O)
  | String a r =>
      if skip && negb (is_space a) then subn_root repl r true
      else if startswith "root=" s then let '(t, n) := subn_root repl r true in ((repl +:+ t)%string, S n)
      else let '(t, n) := subn_root repl r false in (String a t, n)
  end.

Definition replace_append (repl append_l : string) : string :=
  if startswith "#" append_l then append_l
  else
    let '(res, n) := subn_root repl append_l false in
    if bool_decide (n = O) then (append_l +:+ " " +:+ repl)%string else res.

Definition is_newline (a : ascii) : bool := Ascii.eqb a "010".

(** What [\n\s*APPEND.*] matches at the start of [s], and the rest. *)
Definition match_append (s : string) : option (string * string) :=
  match s with
  | String a r =>
      if is_newline a then
        let '(sp, r') := str_span is_space r in
        if startswith "APPEND" r' then
          let '(line, rest) := str_span (fun a => negb (is_newline a)) r' in
          Some (String a (sp +:+ line)%string, rest)
        else None
      else None
  | EmptyString => None
  end.

Fixpoint sub_append (fuel : nat) (repl s : string) : string :=
  match fuel with
  | O => s
  | S fuel =>
      match match_append s with
      | Some (m, rest) => (replace_append repl m +:+ sub_append fuel repl rest)%string
      | None => match s with EmptyString => EmptyString | String a r => String a (sub_append fuel repl r) end
      end
  end.

Definition update_extlinux_cfg (text partuuid : string) : string :=
  sub_append (S (String.length text)) ("root=PARTUUID=" +:+ partuuid)%string text.

(** ** Devices *)

Definition INTERNAL_EMMC_DEVNAME : string := "mmcblk0".

(** The last component of a device path. *)
Definition dev_name (p : string) : string := default EmptyString (list.last (List.filter str_truthy (py_split "/" p))).

Definition detect_external_rootdev (parent_devpath : string) : bool :=
  negb (startswith INTERNAL_EMMC_DEVNAME (dev_name parent_devpath)).

Definition get_partition_devpath (parent_devpath : string) (partition_id : Z) : string :=
  let p := rstrip_by (fun a => Ascii.eqb a "/") (strip parent_devpath) in
  if startswith "mmcblk" (dev_name p) || startswith "nvme" (dev_name p)
  then (p +:+ "p" +:+ pretty partition_id)%string
  else (p +:+ pretty partition_id)%string.

Definition detect_esp_dev (esp_parts : option (list string)) (boot_parent_devpath : string) : option string :=
  match esp_parts with
  | None => None
  | Some l => List.find (fun p => startswith boot_parent_devpath (strip p)) l
  end.

(** ** BSP versions round-trip *)

Lemma match_lit_app lit s : match_lit lit (lit +:+ s)%string = Some s.
Proof. unfold match_lit. by rewrite startswith_app, str_drop_app. Qed.

Lemma match_digits_pretty z r :
  0 <= z -> match r with String a _ => is_digit a = false | EmptyString => True end ->
  match_digits (pretty z +:+ r)%string = Some (z, r).
Proof.
  intros Hz Hr. destruct (pretty_Z_digits z Hz) as (Hd & Hv & Hne).
  unfold match_digits, match_run. rewrite str_span_app by done. destruct (pretty z) eqn:E; [done|]. cbn. by rewrite <- Hv.
Qed.

(** A BSP version of non-negative numbers is parsed back from its dump, also
    with text after it that does not start with a digit. *)
Lemma bsp_version_roundtrip v rest :
  0 <= major_ver v -> 0 <= major_rev v -> 0 <= minor_rev v ->
  match rest with String a _ => is_digit a = false | EmptyString => True end ->
  match_bsp_version (dump_bsp_version v +:+ rest)%string = Some v.
Proof.
  intros H1 H2 H3 Hr. unfold match_bsp_version, dump_bsp_version. rewrite !str_app_assoc.
  match goal with |- context [("R" +:+ ?x)%string] => change ("R" +:+ x)%string with (String "R" x) end. cbn [Ascii.eqb Bool.eqb orb].
  rewrite match_digits_pretty by done. cbn [mbind option_bind].
  rewrite match_lit_app. cbn [mbind option_bind]. rewrite match_digits_pretty by done. cbn [mbind option_bind].
  rewrite match_lit_app. cbn [mbind option_bind]. rewrite match_digits_pretty by done. by destruct v.
Qed.

(** ** What an update of [extlinux.conf] changes *)

Definition nl : ascii := "010".

(** The update of one line. *)
Definition fix_append (repl l : string) : string :=
  let '(res, n) := subn_root repl l false in
  if bool_decide (n = O) then (l +:+ " " +:+ repl)%string else res.
Definition is_append (l : string) : bool := startswith "APPEND" (lstrip_by is_space l).
Definition fix_line (repl l : string) : string := if is_append l then fix_append repl l else l.

Definition fix_lines (repl s : string) : string := str_join newline (map (fix_line repl) (py_split nl s)).
(** ... of all lines but the first. *)
Definition fix_tail (repl s : string) : string :=
  match py_split nl s with
  | [] => EmptyString
  | f :: l => str_join newline (f :: map (fix_line repl) l)
  end.

Lemma py_split_cons c s : exists f l, py_split c s = f :: l.
Proof. destruct s as [|a s]; cbn; [eauto|]. destruct (Ascii.eqb a c); [eauto|]. destruct (py_split c s); eauto. Qed.

Lemma join_head a f l : str_join newline (String a f :: l) = String a (str_join newline (f :: l)).
Proof. by destruct l. Qed.

Lemma join_nil_head l : l <> [] -> str_join newline (EmptyString :: l) = String nl (str_join newline l).
Proof. by destruct l. Qed.

Lemma fix_tail_char repl a s : Ascii.eqb a nl = false -> fix_tail repl (String a s) = String a (fix_tail repl s).
Proof.
  intros Ha. unfold fix_tail. cbn [py_split]. rewrite Ha. destruct (py_split_cons nl s) as (f & l & ->). apply join_head.
Qed.

Lemma fix_tail_newline repl s : fix_tail repl (String nl s) = String nl (fix_lines repl s).
Proof.
  unfold fix_tail, fix_lines. cbn [py_split]. rewrite Ascii.eqb_refl. destruct (py_split_cons nl s) as (f & l & ->). by rewrite join_nil_head.
Qed.

Lemma fix_append_space repl a l : is_space a = true -> fix_append repl (String a l) = String a (fix_append repl l).
Proof.
  intros Ha. unfold fix_append. cbn [subn_root andb].
  assert (startswith "root=" (String a l) = false) as ->.
  { cbn [startswith]. destruct (Ascii.eqb_spec "r" a) as [<-|]; [done|done]. }
  destruct (subn_root repl l false) as [res n]. by destruct (bool_decide (n = O)).
Qed.

Lemma fix_line_space repl a l : is_space a = true -> fix_line repl (String a l) = String a (fix_line repl l).
Proof.
  intros Ha. unfold fix_line, is_append. cbn [lstrip_by]. rewrite Ha. destruct (startswith _ _); [by apply fix_append_space|done].
Qed.

Lemma fix_lines_space repl a s : is_space a = true -> fix_lines repl (String a s) = String a (fix_lines repl s).
Proof.
  intros Ha. unfold fix_lines. cbn [py_split]. destruct (py_split_cons nl s) as (f & l & ->).
  destruct (Ascii.eqb_spec a nl) as [->|Hne]; cbn [map]; [by rewrite join_nil_head|]. rewrite fix_line_space by done. apply join_head.
Qed.

Lemma fix_lines_spaces repl sp s : str_forallb is_space sp = true -> fix_lines repl (sp +:+ s)%string = (sp +:+ fix_lines repl s)%string.
Proof.
  induction sp as [|a sp IH]; [done|]. cbn [str_forallb]. rewrite andb_true_iff. intros [Ha Hsp].
  change (String a sp +:+ s)%string with (String a (sp +:+ s))%string. rewrite fix_lines_space by done. by rewrite IH.
Qed.

Lemma fix_append_spaces repl sp l : str_forallb is_space sp = true -> fix_append repl (sp +:+ l)%string = (sp +:+ fix_append repl l)%string.
Proof.
  induction sp as [|a sp IH]; [done|]. cbn [str_forallb]. rewrite andb_true_iff. intros [Ha Hsp].
  change (String a sp +:+ l)%string with (String a (sp +:+ l))%string. rewrite fix_append_space by done. by rewrite IH.
Qed.

(** A line, then the end of the text or a newline. *)
Lemma py_split_line line rest :
  str_forallb (fun a => negb (is_newline a)) line = true ->
  match rest with String a _ => is_newline a = true | EmptyString => True end ->
  py_split nl (line +:+ rest)%string = line :: match rest with String _ r => py_split nl r | EmptyString => [] end.
Proof.
  intros Hl Hr. induction line as [|a line IH].
  - change (EmptyString +:+ rest)%string with rest. destruct rest as [|b rest]; [done|]. cbn [py_split].
    unfold is_newline in Hr. unfold nl. by rewrite Hr.
  - cbn [str_forallb] in Hl. apply andb_true_iff in Hl as [Ha Hl]. change (String a line +:+ rest)%string with (String a (line +:+ rest))%string.
    cbn [py_split]. apply negb_true_iff in Ha. unfold is_newline in Ha. fold nl in Ha. rewrite Ha. by rewrite IH.
Qed.

Lemma fix_lines_append repl line rest :
  startswith "APPEND" line = true -> str_forallb (fun a => negb (is_newline a)) line = true ->
  match rest with String a _ => is_newline a = true | EmptyString => True end ->
  fix_lines repl (line +:+ rest)%string = (fix_append repl line +:+ fix_tail repl rest)%string.
Proof.
  intros Hs Hl Hr. unfold fix_lines. rewrite py_split_line by done. cbn [map].
  assert (fix_line repl line = fix_append repl line) as ->.
  { unfold fix_line, is_append. destruct line as [|a line]; [done|]. cbn [lstrip_by]. cbn [startswith] in Hs.
    apply andb_true_iff in Hs as [Ha Hs]. apply Ascii.eqb_eq in Ha. subst a. cbn [is_space]. change (is_space "A") with false.
    cbn [startswith]. by rewrite Hs. }
  destruct rest as [|b rest].
  - cbn. by rewrite str_app_nil_r.
  - unfold is_newline in Hr. apply Ascii.eqb_eq in Hr. subst b. change "010"%char with nl. rewrite fix_tail_newline. cbn [map].
    destruct (py_split_cons nl rest) as (f & l & E). unfold fix_lines. rewrite E. done.
Qed.

Lemma startswith_first_line p s f l : py_split nl s = f :: l -> startswith p f = true -> startswith p s = true.
Proof.
  revert s f l. induction p as [|c p IH]; intros s f l H Hf; [by destruct s|].
  destruct s as [|a s]; cbn [py_split] in H; [injection H as <- <-; done|].
  destruct (Ascii.eqb a nl); [injection H as <- <-; done|]. destruct (py_split_cons nl s) as (f1 & l1 & E). rewrite E in H.
  injection H as <- <-. cbn [startswith] in *. apply andb_true_iff in Hf as [-> Hf]. by apply (IH _ _ _ E).
Qed.

Lemma append_first_line s f l : py_split nl s = f :: l -> is_append f = true -> startswith "APPEND" (snd (str_span is_space s)) = true.
Proof.
  revert f l. induction s as [|a s IH]; intros f l H Hf; cbn [py_split] in H; [injection H as <- <-; done|].
  destruct (py_split_cons nl s) as (f1 & l1 & E). rewrite E in H. cbn [str_span].
  destruct (is_space a) eqn:Ha.
  - destruct (str_span is_space s) as [sp r] eqn:Es. cbn [snd].
    destruct (Ascii.eqb a nl); [injection H as <- <-; done|]. injection H as <- <-.
    apply (IH _ _ E). unfold is_append in *. cbn [lstrip_by] in Hf. by rewrite Ha in Hf.
  - cbn [snd]. destruct (Ascii.eqb_spec a nl) as [->|Hne]; [done|]. injection H as <- <-.
    unfold is_append in Hf. cbn [lstrip_by] in Hf. rewrite Ha in Hf.
    apply (startswith_first_line _ _ (String a f1) l1); [|done]. cbn [py_split]. rewrite E.
    by apply Ascii.eqb_neq in Hne as ->.
Qed.

Lemma fix_lines_no_append repl s :
  startswith "APPEND" (snd (str_span is_space s)) = false -> fix_lines repl s = fix_tail repl s.
Proof.
  intros H. unfold fix_lines, fix_tail. destruct (py_split_cons nl s) as (f & l & E). rewrite E. cbn [map].
  unfold fix_line at 1. destruct (is_append f) eqn:Hf; [|done]. apply (append_first_line _ _ _ E) in Hf. congruence.
Qed.

Lemma str_span_split p s : exists x r, str_span p s = (x, r) /\ s = (x +:+ r)%string /\ str_forallb p x = true /\
  match r with String a _ => p a = false | EmptyString => True end.
Proof.
  induction s as [|a s (x & r & E & -> & Hx & Hr)]; [by exists EmptyString, EmptyString|]. cbn [str_span].
  destruct (p a) eqn:Ha; rewrite ?E.
  - exists (String a x), r. split_and!; [done|done| |done]. cbn. by rewrite Ha.
  - by exists EmptyString, (String a (x +:+ r)%string).
Qed.

Lemma startswith_span p q s : str_forallb q p = true -> startswith p s = true -> startswith p (fst (str_span q s)) = true.
Proof.
  revert s. induction p as [|c p IH]; intros s Hp Hs; [by destruct (fst _)|]. destruct s as [|a s]; [done|].
  cbn [str_forallb startswith] in *. apply andb_true_iff in Hp as [Hc Hp], Hs as [Ha Hs]. apply Ascii.eqb_eq in Ha. subst a.
  cbn [str_span]. rewrite Hc. specialize (IH s Hp Hs). destruct (str_span q s). cbn in *. by rewrite Ascii.eqb_refl.
Qed.

(** The substitution with the pattern is the update of every line but the
    first. *)
Lemma sub_append_lines repl fuel s : (String.length s < fuel)%nat -> sub_append fuel repl s = fix_tail repl s.
Proof.
  revert s. induction fuel as [|fuel IH]; intros s Hf; [lia|]. cbn [sub_append].
  destruct s as [|a r]; [done|]. cbn [match_append String.length] in *.
  destruct (is_newline a) eqn:Ha.
  2: { rewrite fix_tail_char by done. rewrite IH by lia. done. }
  unfold is_newline in Ha. apply Ascii.eqb_eq in Ha. subst a. change "010"%char with nl. rewrite fix_tail_newline.
  destruct (str_span_split is_space r) as (sp & r' & E & -> & Hsp & _). rewrite E.
  destruct (startswith "APPEND" r') eqn:Hap.
  2: { rewrite IH by lia. f_equal. symmetry. apply fix_lines_no_append. by rewrite E. }
  destruct (str_span_split (fun a => negb (is_newline a)) r') as (line & rest & E' & -> & Hl & Hr). rewrite E'.
  apply (startswith_span _ (fun a => negb (is_newline a))) in Hap; [|done]. rewrite E' in Hap. cbn [fst] in Hap.
  assert (Hr' : match rest with String a _ => is_newline a = true | EmptyString => True end).
  { destruct rest; [done|]. by apply negb_false_iff in Hr. }
  rewrite fix_lines_spaces, fix_lines_append by done. rewrite IH by (rewrite !length_str_app in Hf; lia).
  unfold replace_append. cbn [startswith]. change (Ascii.eqb "#" nl) with false. cbn [andb].
  change (fix_append repl (String nl (sp +:+ line)) +:+ fix_tail repl rest = String nl (sp +:+ fix_append repl line +:+ fix_tail repl rest))%string.
  rewrite fix_append_space by done. rewrite fix_append_spaces by done. rewrite <- str_app_assoc. done.
Qed.

(** What [root=[^\s]*] finds in a line. *)
Fixpoint roots_go (s : string) (skip : bool) : list string :=
  match s with
  | EmptyString => []
  | String a r =>
      if skip && negb (is_space a) then roots_go r true
      else if startswith "root=" s then fst (str_span (fun a => negb (is_space a)) s) :: roots_go r true
      else roots_go r false
  end.
Definition roots (l : string) : list string := roots_go l false.

Lemma root_head r : startswith "root=" r = true -> exists t, r = String "r" t.
Proof.
  destruct r as [|a t]; [done|]. cbn [startswith]. rewrite andb_true_iff. intros [Ha _]. apply Ascii.eqb_eq in Ha as <-. eauto.
Qed.

Lemma startswith_app_r p x t : startswith p x = true -> startswith p (x +:+ t)%string = true.
Proof.
  revert x. induction p as [|c p IH]; intros x Hx; [by destruct (x +:+ t)%string|]. destruct x as [|b x]; [done|].
  cbn [startswith] in Hx. apply andb_true_iff in Hx as [Hc Hx].
  change (String b x +:+ t)%string with (String b (x +:+ t))%string. cbn [startswith]. by rewrite Hc, IH.
Qed.

Lemma startswith_app_space p x y :
  no_char " " p = true -> startswith p (x +:+ String " " y)%string = startswith p x.
Proof.
  revert x. induction p as [|c p IH]; intros x Hp; [by destruct x|].
  unfold no_char in Hp. cbn [str_forallb] in Hp. apply andb_true_iff in Hp as [Hc Hp]. destruct x as [|a x].
  - change (EmptyString +:+ String " " y)%string with (String " " y). cbn [startswith]. apply negb_true_iff in Hc. by rewrite Hc.
  - change (String a x +:+ String " " y)%string with (String a (x +:+ String " " y))%string. cbn [startswith]. by rewrite IH.
Qed.

Section Roots.
Context (repl : string) (Hrepl : startswith "root=" repl = true)
  (Hns : str_forallb (fun a => negb (is_space a)) repl = true).

Lemma subn_root_prefix pat s : no_char "r" pat = true -> startswith pat (fst (subn_root repl s false)) = startswith pat s.
Proof using Hrepl.
  revert s. induction pat as [|c pat IH]; intros s Hp; [by destruct (fst _), s|]. destruct s as [|a s]; [done|].
  unfold no_char in Hp. cbn [str_forallb] in Hp. apply andb_true_iff in Hp as [Hc Hp]. cbn [subn_root andb].
  destruct (startswith "root=" (String a s)) eqn:E.
  - destruct (subn_root repl s true) as [t n]. cbn [fst]. destruct (root_head repl Hrepl) as [u Hu]. rewrite Hu.
    change (String "r" u +:+ t)%string with (String "r" (u +:+ t))%string. cbn [startswith] in *.
    apply andb_true_iff in E as [Ha _]. apply Ascii.eqb_eq in Ha. subst a.
    apply negb_true_iff in Hc. by rewrite Hc.
  - specialize (IH s Hp). destruct (subn_root repl s false) as [t n]. cbn in *. by rewrite IH.
Qed.

Lemma roots_skip x t : str_forallb (fun a => negb (is_space a)) x = true -> roots_go (x +:+ t)%string true = roots_go t true.
Proof using Type.
  induction x as [|a x IH]; [done|]. cbn [str_forallb]. rewrite andb_true_iff. intros [Ha Hx].
  change (String a x +:+ t)%string with (String a (x +:+ t))%string. cbn [roots_go]. rewrite Ha. by apply IH.
Qed.

Definition space_head (t : string) : Prop := match t with String a _ => is_space a = true | EmptyString => True end.

Lemma roots_space_head t : space_head t -> roots_go t true = roots_go t false.
Proof using Type. destruct t as [|a t]; [done|]. cbn [space_head roots_go]. by intros ->. Qed.

Lemma subn_root_roots s skip :
  roots (fst (subn_root repl s skip)) = repeat repl (snd (subn_root repl s skip)) /\
  (skip = true -> space_head (fst (subn_root repl s skip))).
Proof using Hrepl Hns.
  revert skip. induction s as [|a s IH]; intros skip; [done|]. cbn [subn_root].
  destruct (skip && negb (is_space a)) eqn:Hskip; [apply andb_true_iff in Hskip as [-> _]; apply (IH true)|].
  destruct (startswith "root=" (String a s)) eqn:E.
  - assert (skip = false) as ->.
    { destruct skip; [|done]. cbn [startswith] in E. apply andb_true_iff in E as [Ha _]. apply Ascii.eqb_eq in Ha. by subst a. }
    destruct (IH true) as [H1 H2]. destruct (subn_root repl s true) as [t n]. cbn [fst snd] in *. specialize (H2 eq_refl).
    split; [|done]. destruct (root_head repl Hrepl) as [u Hu].
    assert (Hx : exists y, (repl +:+ t)%string = String "r" y /\ roots_go y true = roots_go t true).
    { rewrite Hu in Hns |- *. eexists. split; [done|]. apply roots_skip. cbn [str_forallb] in Hns. by apply andb_true_iff in Hns as [_ ?]. }
    destruct Hx as (y & Hy & Hr).
    assert (Hspan : str_span (fun a => negb (is_space a)) (repl +:+ t)%string = (repl, t)).
    { apply str_span_app; [done|]. destruct t; [done|]. cbn in H2. by rewrite H2. }
    assert (Hst : startswith "root=" (repl +:+ t)%string = true).
    { by apply startswith_app_r. }
    unfold roots. rewrite Hy in Hspan, Hst |- *. cbn [roots_go andb]. rewrite Hst, Hspan, Hr.
    rewrite roots_space_head by done. cbn [fst repeat]. f_equal. exact H1.
  - destruct (IH false) as [H1 _]. pose proof (subn_root_prefix "oot=" s eq_refl) as Hp.
    destruct (subn_root repl s false) as [t n]. cbn [fst snd] in *. split.
    + unfold roots. cbn [roots_go andb].
      assert (startswith "root=" (String a t) = startswith "root=" (String a s)) as ->.
      { cbn [startswith] in *. by rewrite Hp. }
      rewrite E. exact H1.
    + intros ->. cbn. by destruct (is_space a).
Qed.

Lemma subn_root_none s : snd (subn_root repl s false) = O -> roots s = [] /\ fst (subn_root repl s false) = s.
Proof using Type.
  induction s as [|a s IH]; [done|]. cbn [subn_root andb]. unfold roots. cbn [roots_go andb].
  destruct (startswith "root=" (String a s)); [by destruct (subn_root repl s true)|].
  destruct (subn_root repl s false) as [t n]. cbn [fst snd] in *. intros H. destruct (IH H) as [H1 H2]. split; [done|by rewrite H2].
Qed.

Lemma roots_added l : roots l = [] -> roots (l +:+ String " " repl)%string = [repl].
Proof using Hrepl Hns.
  unfold roots. induction l as [|a l IH].
  - intros _. change (EmptyString +:+ String " " repl)%string with (String " " repl). cbn [roots_go andb startswith].
    change (Ascii.eqb "r" " ") with false. cbn [andb]. pose proof Hrepl as H. destruct (root_head repl Hrepl) as [u Hu].
    rewrite Hu at 1. cbn [roots_go andb]. rewrite <- Hu, Hrepl. rewrite str_span_all by done. cbn [fst]. f_equal.
    rewrite Hu in Hns. cbn [str_forallb] in Hns. apply andb_true_iff in Hns as [_ Hu'].
    rewrite <- (str_app_nil_r u). by rewrite roots_skip.
  - cbn [roots_go andb]. change (String a l +:+ String " " repl)%string with (String a (l +:+ String " " repl))%string.
    cbn [roots_go andb].
    change (startswith "root=" (String a (l +:+ String " " repl))) with (startswith "root=" (String a l +:+ String " " repl)%string).
    rewrite startswith_app_space by done. by destruct (startswith "root=" (String a l)).
Qed.

Lemma fix_append_roots l : roots (fix_append repl l) <> [] /\ Forall (eq repl) (roots (fix_append repl l)).
Proof using Hrepl Hns.
  unfold fix_append. destruct (subn_root_roots l false) as [H _]. pose proof (subn_root_none l) as H0.
  destruct (subn_root repl l false) as [res n]. cbn [fst snd] in *. case_bool_decide as Hn.
  - destruct (H0 Hn) as [Hl _]. change (l +:+ " " +:+ repl)%string with (l +:+ String " " repl)%string.
    rewrite roots_added by done. split; [done|]. by repeat constructor.
  - rewrite H. split; [by destruct n|]. clear. induction n; by constructor.
Qed.
End Roots.

(** An update of [extlinux.conf] sets the root device of every boot entry
    and changes nothing else: of the lines after the first, each [APPEND] line
    comes out with at least one [root=] word, all of them naming the given
    partition, and every other line is as before. *)
Theorem extlinux_root_updated text partuuid :
  str_forallb (fun a => negb (is_space a)) partuuid = true ->
  exists first rest fixed,
    py_split nl text = first :: rest /\
    update_extlinux_cfg text partuuid = str_join newline (first :: fixed) /\
    Forall2 (fun l l' =>
      if is_append l
      then roots l' <> [] /\ Forall (eq ("root=PARTUUID=" +:+ partuuid)%string) (roots l')
      else l' = l) rest fixed.
Proof.
  intros Hu. destruct (py_split_cons nl text) as (first & rest & E).
  set (repl := ("root=PARTUUID=" +:+ partuuid)%string).
  exists first, rest, (map (fix_line repl) rest). split_and!; [done| |].
  - unfold update_extlinux_cfg. fold repl. rewrite sub_append_lines by lia. unfold fix_tail. by rewrite E.
  - clear E. induction rest as [|l rest IH]; constructor; [|done]. unfold fix_line. destruct (is_append l); [|done].
    apply fix_append_roots; [done|]. exact Hu.
Qed.

Lemma extlinux_root_updated_witness :
  exists first rest fixed,
    py_split nl (unlines ["LABEL primary"; "  LINUX /boot/Image"; "  APPEND root=/dev/mmcblk0p1 rw"; "  # APPEND x"]%string) = first :: rest /\
    update_extlinux_cfg (unlines ["LABEL primary"; "  LINUX /boot/Image"; "  APPEND root=/dev/mmcblk0p1 rw"; "  # APPEND x"]%string) "1-2"
    = str_join newline (first :: fixed) /\
    fixed !! 1%nat = Some "  APPEND root=PARTUUID=1-2 rw"%string.
Proof.
  destruct (extlinux_root_updated (unlines ["LABEL primary"; "  LINUX /boot/Image"; "  APPEND root=/dev/mmcblk0p1 rw"; "  # APPEND x"]%string) "1-2")
    as (first & rest & fixed & H1 & H2 & _); [reflexivity|].
  exists first, rest, (List.tl (py_split nl (update_extlinux_cfg (unlines ["LABEL primary"; "  LINUX /boot/Image"; "  APPEND root=/dev/mmcblk0p1 rw"; "  # APPEND x"]%string) "1-2"))).
  split; [exact H1|]. split; [|reflexivity]. vm_compute in H1. injection H1 as <- <-. reflexivity.
Defined.
