(* ===== verification/FirmwarePackage.v ===== *)
(** * Firmware packages of the Jetson devices

    Models [src/src/otaclient/boot_control/_firmware_package.py]: the manifest
    and the request of a firmware update, with the validators of the fields.
    What YAML and the checks of the field types make of the files is a
    parameter; digests are computed by [hash_new], as [hashlib.new]. *)

From stdpp Require Import base gmap strings list option sets.
From Stdlib Require Import ZArith Ascii String Lia.
From S2P Require Import Prelude Errors FileSystem TextLines CertStore JetsonText OTAConfigFiles.

Inductive PayloadType : Type := UEFI_CAPSULE | UEFI_BOOT_APP | BUP.

#[export] Instance PayloadType_eq_dec : EqDecision PayloadType.
Proof. solve_decision. Defined.

Definition parse_payload_type (s : string) : option PayloadType :=
  if String.eqb s "UEFI-CAPSULE" then Some UEFI_CAPSULE
  else if String.eqb s "UEFI-BOOT-APP" then Some UEFI_BOOT_APP
  else if String.eqb s "BUP" then Some BUP
  else None.

Record DigestValue : Type := mkDigestValue { dv_algorithm : string; dv_digest : string }.

Definition is_alg_char (a : ascii) : bool := is_word_char a || Ascii.eqb a "-" || Ascii.eqb a "+" || Ascii.eqb a " ".
Definition is_alnum (a : ascii) : bool := is_word_char a && negb (Ascii.eqb a "_").

(** [DigestValue.parse]: [<algorithm>:<digest>]. *)
Definition parse_digest_value (s : string) : option DigestValue :=
  '(alg, r) ← match_run is_alg_char (strip s);
  r ← match_lit ":" r;
  if str_truthy r && str_forallb is_alnum r then Some (mkDigestValue alg r) else None.

Record NVIDIAFirmwareCompat : Type := mkCompat {
  board_id : string;
  board_sku : string;
  board_rev : string;
  fab_id : string;
  board_conf : string;
}.

Definition compat_check (c : NVIDIAFirmwareCompat) (tnspec : string) : bool :=
  forallb (fun f => bool_decide (is_Some (str_find f tnspec)))
    [board_id c; board_sku c; board_rev c; fab_id c; board_conf c].

Record NVIDIAFirmwareSpec : Type := mkFirmwareSpec {
  fs_bsp_version : string;
  fs_firmware_compat : NVIDIAFirmwareCompat;
}.

(** A file of the image, or a blob of the image by its digest. *)
Inductive PayloadFileLocation : Type :=
| LocFile (location_path : string)
| LocBlob (location_digest : DigestValue).

(** [PayloadFileLocation.parse] *)
Definition parse_file_location (s : string) : option PayloadFileLocation :=
  match match_lit "file://" s with
  | Some p => Some (LocFile p)
  | None => LocBlob <$> parse_digest_value s
  end.

Record FirmwarePackage : Type := mkFirmwarePackage {
  payload_name : string;
  file_location : PayloadFileLocation;
  payload_type : PayloadType;
  payload_digest : DigestValue;
}.

(** The fields as they are written in the manifest. *)
Record raw_package : Type := mkRawPackage {
  raw_payload_name : string;
  raw_file_location : string;
  raw_type : string;
  raw_digest : string;
}.

Definition build_package (r : raw_package) : option FirmwarePackage :=
  loc ← parse_file_location (raw_file_location r);
  ty ← parse_payload_type (raw_type r);
  d ← parse_digest_value (raw_digest r);
  Some (mkFirmwarePackage (raw_payload_name r) loc ty d).

Record FirmwareManifest : Type := mkFirmwareManifest {
  hardware_type : string;
  hardware_series : string;
  hardware_model : string;
  firmware_spec : NVIDIAFirmwareSpec;
  firmware_packages : list FirmwarePackage;
}.

Record raw_manifest : Type := mkRawManifest {
  raw_hardware_type : string;
  raw_hardware_series : string;
  raw_hardware_model : string;
  raw_firmware_spec : NVIDIAFirmwareSpec;
  raw_firmware_packages : list raw_package;
}.

Definition build_manifest (r : raw_manifest) : option FirmwareManifest :=
  if String.eqb (raw_hardware_type r) "nvidia_jetson" then
    pkgs ← mapM build_package (raw_firmware_packages r);
    Some (mkFirmwareManifest (raw_hardware_type r) (raw_hardware_series r) (raw_hardware_model r) (raw_firmware_spec r) pkgs)
  else None.

(** The list of the request: the names of the payloads. *)
Abbreviation FirmwareUpdateRequest := (list string).

Definition manifest_check_compat (m : FirmwareManifest) (tnspec : string) : bool :=
  compat_check (fs_firmware_compat (firmware_spec m)) tnspec.

Definition get_firmware_packages (m : FirmwareManifest) (update_request : FirmwareUpdateRequest) : list FirmwarePackage :=
  List.filter (fun p => bool_decide (payload_name p ∈ update_request)) (firmware_packages m).

Section Load.
(** [model_validate(yaml.safe_load(...))], up to the validators above. *)
Context (yaml_request : string -> option FirmwareUpdateRequest) (yaml_manifest : string -> option raw_manifest).

(** The texts of the two files, when they can be read. *)
Definition load_firmware_package (request manifest : option string) : option (FirmwareUpdateRequest * FirmwareManifest) :=
  match option_bind _ _ yaml_request request with
  | None => None
  | Some r =>
      match option_bind _ _ build_manifest (option_bind _ _ yaml_manifest manifest) with
      | None => None
      | Some m => Some (r, m)
      end
  end.
End Load.

(** ** Files of the image *)

(** [replace_root(path, "/", root)]: [None] for a path that is not absolute. *)
Definition replace_root_at (p : string) (root : path) : option path :=
  match p with
  | String "/" r => Some (root ++ fold_left norm_step (py_split "/" r) [])
  | _ => None
  end.

Section Digest.
Context (hash_new : string -> option (string -> string)).

(** [cal_file_digest]: the file has to be readable and the algorithm known. *)
Definition cal_file_digest (s : fsys) (p : path) (algorithm : string) : result pyexn string :=
  match read_file s p with
  | None => Raise (os_exn ENOENT)
  | Some t => match hash_new algorithm with Some h => Ok (h t) | None => Raise jetson_value_error end
  end.
End Digest.

(** A payload that validates has a known type, and its digest an algorithm
    and a digest of letters and digits. *)
Lemma parsed_digest_shape s d : parse_digest_value s = Some d ->
  str_truthy (dv_algorithm d) = true /\ str_truthy (dv_digest d) = true /\ str_forallb is_alnum (dv_digest d) = true.
Proof.
  unfold parse_digest_value, match_run. destruct (str_span is_alg_char (strip s)) as [x r].
  destruct (str_truthy x) eqn:Ex; [|done]. cbn [mbind option_bind]. destruct (match_lit ":" r) as [r'|]; [|done]. cbn [mbind option_bind].
  destruct (str_truthy r' && str_forallb is_alnum r') eqn:E; [|done]. intros [= <-]. by apply andb_true_iff in E as [? ?].
Qed.
