(* ===== verification/JetsonCommon.v ===== *)
(** * Operations shared by the Jetson boot controllers

    Models the operations of [src/src/otaclient/boot_control/_jetson_common.py]
    on the machine: [nvbootctrl], the BSP version of a root file system, the
    standby slot's [extlinux.conf] and the copy of [/boot] to the internal
    storage.  The machine is an environment that holds the files and runs
    commands, as in [CmdHelper]; [NvBootEnv] states what [nvbootctrl] does. *)

From stdpp Require Import base gmap strings list option sets.
From Stdlib Require Import ZArith Ascii String Lia.
From S2P Require Import Prelude Errors OTAStatusControl BootController FileSystem CopyTree OTAConfigFiles TextLines CmdHelper JetsonText FirmwarePackage.

Definition EXTLINUX_FILE : path := ["boot"; "extlinux"; "extlinux.conf"]%string.
Definition NV_TEGRA_RELEASE_FPATH : path := ["etc"; "nv_tegra_release"]%string.
Definition NVBOOTCTRL_CONF_FPATH : path := ["etc"; "nv_boot_control.conf"]%string.
Definition SEPARATE_BOOT_MOUNT_POINT : string := "/mnt/standby_boot".
Definition FIRMWARE_UPDATE_REQUEST_FPATH : path := ["opt"; "ota"; "firmware"; "firmware_update.yaml"]%string.
Definition FIRMWARE_MANIFEST_FPATH : path := ["opt"; "ota"; "firmware"; "firmware_manifest.yaml"]%string.

Definition nvbootctrl_exec_error (cause : option pyexn) : pyexn := PyExn (XOther "NVBootctrlExecError") [] cause cause.
Definition is_nvbootctrl_exec_error (e : pyexn) : bool :=
  match exn_cls e with XOther c => String.eqb c "NVBootctrlExecError" | _ => false end.
Definition assertion_error : pyexn := PyExn (XOther "AssertionError") [] None None.

(** The command line of [nvbootctrl]. *)
Definition nvbootctrl_cmd (target : option string) (cmd : string) (slot : option JetsonSlot) : argv :=
  "nvbootctrl"%string :: (match target with Some t => ["-t"%string; t] | None => [] end) ++ cmd
    :: match slot with Some i => [jslot_str i] | None => [] end.

Section Jetson.
Context {W : Type} `{HC : !CmdEnv W} `{HF : !FileEnv W}.
Context (fault : path -> bool) (chroot : option string).
Abbreviation JM := (PyM W pyexn).

Definition nvbootctrl (target : option string) (cmd : string) (slot : option JetsonSlot) : JM string :=
  subprocess_run_wrapper (nvbootctrl_cmd target cmd slot) chroot false.

Definition except_exception {A} (m : JM A) (h : pyexn -> pyexn) : JM A :=
  try_except m (fun e => if is_exception e then raise (h e) else raise e).

Definition get_current_slot (target : option string) : JM JetsonSlot :=
  except_exception
    (res ← nvbootctrl target "get-current-slot" None; from_result (parse_jslot (strip res)))
    (fun e => nvbootctrl_exec_error (Some e)).

Definition get_standby_slot (target : option string) : JM JetsonSlot :=
  i ← get_current_slot target; mret (SLOT_FLIP i).

Definition set_active_boot_slot (slot : JetsonSlot) (target : option string) : JM unit :=
  on_called_process_error (_ ← nvbootctrl target "set-active-boot-slot" (Some slot); mret tt)
    (fun e => raise (nvbootctrl_exec_error (Some e))).

Definition dump_slots_info (target : option string) : JM string :=
  on_called_process_error (nvbootctrl target "dump-slots-info" None) (fun e => raise (nvbootctrl_exec_error (Some e))).

Definition detect_rootfs_bsp_version (rootfs : path) : JM BSPVersion :=
  s ← gets files;
  except_exception
    (match read_file s (rootfs ++ NV_TEGRA_RELEASE_FPATH) with
     | None => raise (os_exn ENOENT)
     | Some t => from_result (parse_nv_tegra_release t)
     end)
    (fun e => PyExn XValueError [] (Some e) (Some e)).

(** [copytree_identical] between two directories of the machine. *)
Context (copytree : path -> path -> PyM fsys pyexn unit).

Definition copy_standby_slot_boot_to_internal_emmc (internal_emmc_mp internal_emmc_devpath : string)
    (standby_slot_boot_dirpath : path) : JM unit :=
  let value_error e := PyExn XValueError [] (Some e) (Some e) in
  _ ← on_files (mkdir_parents fault (path_of internal_emmc_mp));
  _ ← except_exception
        (_ ← umount internal_emmc_devpath false; mount_rw true internal_emmc_devpath internal_emmc_mp true true) value_error;
  try_finally
    (except_exception (on_files (copytree standby_slot_boot_dirpath (path_of internal_emmc_mp ++ ["boot"%string]))) value_error)
    (umount internal_emmc_mp false).

Definition update_standby_slot_extlinux_cfg (active_slot_extlinux_fpath standby_slot_extlinux_fpath : path)
    (standby_slot_partuuid : string) : JM unit :=
  s ← gets files;
  let src := if is_file s standby_slot_extlinux_fpath then standby_slot_extlinux_fpath else active_slot_extlinux_fpath in
  _ ← on_files (mkdir_parents fault (removelast standby_slot_extlinux_fpath));
  s ← gets files;
  match read_file s src with
  | None => raise (os_exn ENOENT)
  | Some t => on_files (write_str_to_file_atomic fault standby_slot_extlinux_fpath (update_extlinux_cfg t standby_slot_partuuid) true)
  end.
End Jetson.

(** [preserve_ota_dir_and_install_config_files], on the standby slot's
    [/boot/ota]. *)
Definition jetson_preserve_ota {W} (active_ota : option tree) (cenv : copy_env) (write_fails : string -> bool)
    (ota_config_files : OTAConfigFiles) : PyM (option tree * W) pyexn unit := fun '(standby_ota, w) =>
  match preserve_ota_dir_and_install_config_files write_fails cenv active_ota standby_ota ota_config_files with
  | Ok d => (d, w, Ok tt)
  | Raise e => (standby_ota, w, Raise e)
  end.

(** ** What the commands leave alone *)

(** What [subprocess_run_wrapper] puts before a command. *)
Definition cmd_prefix (chroot : option string) (host_mnt_ns : bool) : argv :=
  let base := match chroot with Some c => if str_truthy c then ["chroot"; c]%string else [] | None => [] end in
  if host_mnt_ns then base ++ ["nsenter"; "-t"; init_pid; "-m"]%string else base.

(** A relation that holds over every command that does not name
    [set-active-boot-slot] and, unless [engine], does not run
    [nv_update_engine], and over every change of the files. *)
Class CmdFrame {W : Type} `{!CmdEnv W} `{!FileEnv W} (R : relation W) (engine : bool) : Prop := {
  cf_preorder : PreOrder R;
  cf_exec : forall chroot ns prog args w, "set-active-boot-slot"%string ∉ cmd_prefix chroot ns ++ prog :: args ->
    engine = true \/ prog <> "nv_update_engine"%string -> R w (fst (exec (cmd_prefix chroot ns ++ prog :: args) w));
  cf_files : forall f w, R w (set_files f w);
}.
#[export] Existing Instance cf_preorder.

(** [nv_active t]: the slot the next boot of the target [t] ([None] is the
    bootloader) takes, as [nvbootctrl] sets it.  Nothing is said of what
    [nv_update_engine] does to the slots, nor of the other target, which
    [set-active-boot-slot] also changes with unified A/B. *)
Class NvBootEnv (W : Type) `{!CmdEnv W} `{!FileEnv W} : Type := {
  nv_active : option string -> W -> JetsonSlot;
  nv_set_active : forall pre target slot w w' out,
    pre = [] \/ (exists c, pre = ["chroot"%string; c]) ->
    exec (pre ++ nvbootctrl_cmd target "set-active-boot-slot" (Some slot)) w = (w', CmdOk out) -> nv_active target w' = slot;
  nv_others : forall chroot ns prog args w, "set-active-boot-slot"%string ∉ cmd_prefix chroot ns ++ prog :: args ->
    prog <> "nv_update_engine"%string -> forall t, nv_active t (fst (exec (cmd_prefix chroot ns ++ prog :: args) w)) = nv_active t w;
  nv_files : forall f w t, nv_active t (set_files f w) = nv_active t w;
}.

(** The slots of the next boot stay. *)
Definition same_slots {W} `{!CmdEnv W} `{!FileEnv W} `{!NvBootEnv W} (w w' : W) : Prop := forall t, nv_active t w' = nv_active t w.

#[export] Instance same_slots_frame {W} `{HC : !CmdEnv W} `{HF : !FileEnv W} `{HN : !NvBootEnv W} : CmdFrame (W:=W) same_slots false.
Proof.
  split.
  - split; [done|]. intros a b c H1 H2 t. by rewrite H2, H1.
  - intros chroot ns prog args w Hc [?|Hp] t; [done|]. by apply nv_others.
  - intros f w t. apply nv_files.
Qed.

Section Frame.
Context {W : Type} `{HC : !CmdEnv W} `{HF : !FileEnv W} {R : relation W} {engine : bool} `{HR : !CmdFrame R engine}.

Lemma frame_on_files {A} (m : PyM fsys pyexn A) : keeps R (on_files m).
Proof using HR. intros w. unfold on_files. destruct (m (files w)). apply cf_files. Qed.

Lemma frame_run prog args chroot ns :
  "set-active-boot-slot"%string ∉ prog :: args -> engine = true \/ prog <> "nv_update_engine"%string ->
  chroot <> Some "set-active-boot-slot"%string -> keeps R (subprocess_run_wrapper (prog :: args) chroot ns).
Proof using HR.
  intros Hc Hp Hch w. unfold subprocess_run_wrapper. fold (cmd_prefix chroot ns).
  assert (H : R w (fst (exec (cmd_prefix chroot ns ++ prog :: args) w))).
  { apply cf_exec; [|done]. rewrite elem_of_app. intros [Hin|Hin]; [|done]. revert Hin. unfold cmd_prefix.
    assert (Hb : "set-active-boot-slot"%string ∉ match chroot with Some c => if str_truthy c then ["chroot"%string; c] else [] | None => [] end).
    { destruct chroot as [c|]; [|apply not_elem_of_nil]. destruct (str_truthy c); [|apply not_elem_of_nil].
      rewrite !not_elem_of_cons. split_and!; [done|by intros <-|apply not_elem_of_nil]. }
    destruct ns; [|done]. rewrite elem_of_app. intros [?|Hin]; [done|].
    rewrite !elem_of_cons in Hin. destruct Hin as [?|[?|[?|[?|Hin]]]]; [done..|by apply elem_of_nil in Hin]. }
  destruct (exec _ w) as [w' []]; exact H.
Qed.

Lemma frame_on_cpe {A} (m : PyM W pyexn A) h :
  keeps R m -> (forall e, keeps R (h e)) -> keeps R (on_called_process_error m h).
Proof using HR.
  intros Hm Hh. apply keeps_try_except; [apply _|done|]. intros e. destruct (is_called_process_error e); [done|]. apply keeps_raise, _.
Qed.

Lemma frame_except {A} (m : PyM W pyexn A) h : keeps R m -> keeps R (except_exception m h).
Proof using HR. intros Hm. apply keeps_try_except; [apply _|done|]. intros e. destruct (is_exception e); apply keeps_raise, _. Qed.

Lemma frame_call prog args re :
  "set-active-boot-slot"%string ∉ prog :: args -> engine = true \/ prog <> "nv_update_engine"%string ->
  keeps R (subprocess_call (prog :: args) re None).
Proof using HR.
  intros Hc Hp. unfold subprocess_call. apply frame_on_cpe.
  - apply keeps_bind; [apply _|by apply frame_run|intros _; apply keeps_ret, _].
  - intros e. destruct re; [apply keeps_raise, _|apply keeps_ret, _].
Qed.

(** Beside the standby slot's [/boot/ota]. *)
Definition beside {T} (p p' : T * W) : Prop := R (snd p) (snd p').

#[export] Instance beside_preorder {T} : PreOrder (@beside T).
Proof using HR. split; [intros p; unfold beside; reflexivity|]. intros a b c. unfold beside. apply transitivity. Qed.

Lemma frame_on_platform {A} (m : PyM W pyexn A) : keeps R m -> keeps (beside (T:=option tree)) (on_platform m).
Proof. intros H [d w]. specialize (H w). unfold on_platform, beside. cbn [fst snd]. by destruct (m w). Qed.

Lemma frame_preserve_ota active_ota cenv wf cfg : keeps beside (jetson_preserve_ota (W:=W) active_ota cenv wf cfg).
Proof using HR.
  intros [d w]. unfold jetson_preserve_ota, beside.
  destruct (preserve_ota_dir_and_install_config_files _ _ _ _ _); cbn; reflexivity.
Qed.

Lemma frame_umount dev re : dev <> "set-active-boot-slot"%string -> keeps R (umount dev re).
Proof using HR.
  intros Hd. unfold umount, is_target_mounted. apply keeps_bind; [apply _| |intros b].
  - destruct (negb _); [apply keeps_ret, _|]. apply frame_on_cpe.
    + apply keeps_bind; [apply _| |intros _; apply keeps_ret, _]. apply frame_call; [|by right].
      rewrite !not_elem_of_cons. split_and!; [done|congruence|apply not_elem_of_nil].
    + intros e. apply keeps_ret, _.
  - destruct b; [|apply keeps_ret, _]. apply frame_call; [|by right].
    rewrite !not_elem_of_cons. split_and!; [done|congruence|apply not_elem_of_nil].
Qed.

Lemma frame_mount_rw re dev mp p u :
  dev <> "set-active-boot-slot"%string -> mp <> "set-active-boot-slot"%string -> keeps R (mount_rw re dev mp p u).
Proof using HR.
  intros Hd Hm. unfold mount_rw. apply frame_call; [|by right]. destruct re, p, u; cbn [app private_flags];
    rewrite !not_elem_of_cons; split_and!; try done; try congruence; apply not_elem_of_nil.
Qed.

Lemma frame_copy_boot fault copytree mp dev p :
  mp <> "set-active-boot-slot"%string -> dev <> "set-active-boot-slot"%string ->
  keeps R (copy_standby_slot_boot_to_internal_emmc fault copytree mp dev p).
Proof using HR.
  intros Hmp Hdev. unfold copy_standby_slot_boot_to_internal_emmc. apply keeps_bind; [apply _|apply frame_on_files|intros _].
  apply keeps_bind; [apply _| |intros _].
  - apply frame_except, keeps_bind; [apply _|by apply frame_umount|intros _]. by apply frame_mount_rw.
  - apply keeps_try_finally; [apply _|apply frame_except, frame_on_files|by apply frame_umount].
Qed.

Lemma frame_extlinux fault a b u : keeps R (update_standby_slot_extlinux_cfg fault a b u).
Proof using HR.
  unfold update_standby_slot_extlinux_cfg. apply keeps_bind; [apply _|apply keeps_gets, _|intros s].
  apply keeps_bind; [apply _|apply frame_on_files|intros _]. apply keeps_bind; [apply _|apply keeps_gets, _|intros s'].
  destruct (read_file s' _); [apply frame_on_files|apply keeps_raise, _].
Qed.
End Frame.
#[global] Arguments beside {W} R {T} p p'.

Lemma set_active_ok {W} `{HC : !CmdEnv W} `{HF : !FileEnv W} `{HN : !NvBootEnv W} chroot slot target (w w' : W) :
  set_active_boot_slot chroot slot target w = (w', Ok tt) -> nv_active target w' = slot.
Proof.
  intros H. apply try_except_ok in H; [|intros e s1 a1; by destruct (is_called_process_error e)].
  apply pym_bind_ok in H as (w1 & out & H & Hr). injection Hr as <-.
  unfold nvbootctrl, subprocess_run_wrapper in H.
  match type of H with context [exec (?pre ++ _) w] => destruct (exec (pre ++ nvbootctrl_cmd target "set-active-boot-slot" (Some slot)) w) as [w2 r2] eqn:E end.
  destruct r2; [|done|done]. injection H as <- <-. apply nv_set_active in E; [done|].
  destruct chroot as [c|]; [destruct (str_truthy c)|]; eauto.
Qed.

(** Steps that run no command of the two. *)
Ltac not_set := unfold nvbootctrl_cmd; cbn [app]; rewrite ?not_elem_of_cons; repeat split; try done; try apply not_elem_of_nil.

Ltac sstep :=
  match goal with
  | |- keeps _ (mbind _ _) => apply keeps_bind; [apply _| |intros ?]
  | |- keeps _ (try_finally _ _) => apply keeps_try_finally; [apply _| |]
  | |- keeps _ (on_called_process_error _ _) => apply frame_on_cpe; [|intros ?]
  | |- keeps _ (except_exception _ _) => apply frame_except
  | |- keeps _ (raise_as_ota_error _ _ _ _) => apply raise_as_keeps; [apply _|]
  | |- keeps _ (on_files _) => apply frame_on_files
  | |- keeps _ (subprocess_call _ _ None) => apply frame_call; [not_set|first [by left|by right]]
  | |- keeps _ (subprocess_run_wrapper _ _ _) => apply frame_run; [not_set|first [by left|by right]|try done]
  | |- keeps _ (from_result _) => apply keeps_from_result, _
  | |- keeps _ (mret _) => apply keeps_ret, _
  | |- keeps _ (raise _) => apply keeps_raise, _
  | |- keeps _ (gets _) => apply keeps_gets, _
  | |- keeps _ (if ?b then _ else _) => destruct b
  | |- keeps _ (match ?x with Ok _ => _ | Raise _ => _ end) => destruct x
  | |- keeps _ (match ?x with Some _ => _ | None => _ end) => destruct x
  end.

(** ** The commands that were run *)

(** An environment with the commands run in it, in order. *)
Record logged (W : Type) : Type := mkLogged { lg_env : W; lg_cmds : list argv }.
#[global] Arguments mkLogged {W} lg_env lg_cmds.
#[global] Arguments lg_env {W} l.
#[global] Arguments lg_cmds {W} l.

#[export] Instance logged_cmds {W} `{!CmdEnv W} : CmdEnv (logged W) := fun cmd s =>
  let '(w, r) := exec cmd (lg_env s) in (mkLogged w (lg_cmds s ++ [cmd]), r).
#[export] Instance logged_files {W} `{!FileEnv W} : FileEnv (logged W) := {|
  files s := files (lg_env s);
  set_files f s := mkLogged (set_files f (lg_env s)) (lg_cmds s);
  files_set f s := files_set f (lg_env s);
|}.

(** Commands were run, and none of them sets the active slot. *)
Definition runs_no_switch {W} (s s' : logged W) : Prop :=
  exists l, lg_cmds s' = lg_cmds s ++ l /\ Forall (fun cmd => "set-active-boot-slot"%string ∉ cmd) l.

#[export] Instance runs_no_switch_frame {W} `{!CmdEnv W} `{!FileEnv W} : CmdFrame (runs_no_switch (W:=W)) true.
Proof.
  split.
  - split; [intros s; exists []; by rewrite app_nil_r|]. intros a b c (l1 & H1 & F1) (l2 & H2 & F2). exists (l1 ++ l2).
    rewrite H2, H1, app_assoc. split; [done|by apply Forall_app].
  - intros chroot ns prog args s Hc _. exists [cmd_prefix chroot ns ++ prog :: args].
    unfold exec at 1, logged_cmds. destruct (exec _ (lg_env s)). split; [done|by constructor].
  - intros f s. exists []. by rewrite app_nil_r.
Qed.

(** ** A concrete machine *)

(** The files, the slots of the next boot, which commands fail, and what the
    others print. *)
Record jetson_machine : Type := mkJetsonMachine {
  jm_files : fsys;
  jm_active : option string -> JetsonSlot;
  jm_fails : argv -> bool;
  jm_output : argv -> string;
}.

#[export] Instance jetson_machine_files : FileEnv jetson_machine := {|
  files := jm_files;
  set_files f w := mkJetsonMachine f (jm_active w) (jm_fails w) (jm_output w);
  files_set f w := eq_refl;
|}.

(** The target and the slot of a command that sets the active slot. *)
Definition read_set_active (cmd : argv) : option (option string * JetsonSlot) :=
  match rev cmd with
  | slot :: set :: rest =>
      if String.eqb set "set-active-boot-slot" then
        match parse_jslot slot, rest with
        | Ok i, t :: o :: n :: _ => Some (if String.eqb o "-t" && String.eqb n "nvbootctrl" then Some t else None, i)
        | Ok i, _ => Some (None, i)
        | Raise _, _ => None
        end
      else None
  | _ => None
  end.

#[export] Instance jetson_machine_cmds : CmdEnv jetson_machine := fun cmd w =>
  if jm_fails w cmd then (w, CmdFailed 1)
  else
    (match read_set_active cmd with
     | Some (t, i) => mkJetsonMachine (jm_files w) (fun t' => if bool_decide (t' = t) then i else jm_active w t') (jm_fails w) (jm_output w)
     | None => w
     end, CmdOk (jm_output w cmd)).

Lemma read_set_active_cmd pre target slot :
  pre = [] \/ (exists c, pre = ["chroot"%string; c]) ->
  read_set_active (pre ++ nvbootctrl_cmd target "set-active-boot-slot" (Some slot)) = Some (target, slot).
Proof. intros [->|[c ->]]; destruct target, slot; unfold read_set_active; cbn; rewrite ?andb_false_r; done. Qed.

Lemma read_set_active_none cmd : "set-active-boot-slot"%string ∉ cmd -> read_set_active cmd = None.
Proof.
  intros H. unfold read_set_active. destruct (rev cmd) as [|slot [|set rest]] eqn:E; [done..|].
  destruct (String.eqb_spec set "set-active-boot-slot") as [->|]; [|done]. destruct H.
  apply list_elem_of_In, in_rev. rewrite E. right. by left.
Qed.

#[export] Instance jetson_machine_slots : NvBootEnv jetson_machine.
Proof.
  refine {| nv_active t w := jm_active w t |}.
  - intros pre target slot w w' out Hpre H. unfold exec, jetson_machine_cmds in H. destruct (jm_fails w _); [done|].
    rewrite read_set_active_cmd in H by done. injection H as <- <-. cbn. by rewrite bool_decide_true.
  - intros chroot ns prog args w Hc _ t. unfold exec, jetson_machine_cmds. destruct (jm_fails w _); [done|]. by rewrite read_set_active_none.
  - done.
Defined.
