(* ===== verification/JetsonCboot.v ===== *)
(** * The Jetson boot controller for cboot

    Models [src/src/otaclient/boot_control/_jetson_cboot.py]: [_CBootControl],
    [NVUpdateEngine] and [JetsonCBootControl], for BSP versions before R34. *)

From stdpp Require Import base gmap strings list option sets.
From Stdlib Require Import ZArith Ascii String Lia.
From S2P Require Import Prelude Types Errors OTAStatusControl BootController FileSystem StatusFiles CopyTree OTAConfigFiles TextLines CmdHelper SlotHooks JetsonText FirmwarePackage JetsonCommon.

Definition MAXIMUM_SUPPORTED_BSP_VERSION_EXCLUDE : BSPVersion := mkBSPVersion 34 0 0.

Definition cboot_exn (msg : string) (cause : option pyexn) : pyexn :=
  PyExn (XOther "JetsonCBootContrlError") [AStr msg] cause cause.
Definition cboot_module : string := "otaclient.boot_control._jetson_cboot".

Record cboot_control : Type := mkCbootControl {
  cb_rootfs_bsp_version : BSPVersion;
  cb_nvbootctrl_conf : string;
  cb_unified_ab_enabled : bool;
  cb_current_bootloader_slot : JetsonSlot;
  cb_standby_bootloader_slot : JetsonSlot;
  cb_current_rootfs_slot : JetsonSlot;
  cb_standby_rootfs_slot : JetsonSlot;
  cb_parent_devpath : string;
  cb_external_rootfs : bool;
  cb_standby_rootfs_devpath : string;
  cb_standby_rootfs_dev_partuuid : string;
  cb_standby_internal_emmc_devpath : string;
}.

Section Cboot.
Context {W : Type} `{HC : !CmdEnv W} `{HF : !FileEnv W}.
Context (fault : path -> bool) (chroot : option string).
Abbreviation CB := (PyM W pyexn).

(** ** [NVBootctrlJetsonCBOOT] *)

Definition mark_boot_successful (slot : JetsonSlot) (target : option string) : CB unit :=
  on_called_process_error (_ ← nvbootctrl chroot target "mark-boot-successful" (Some slot); mret tt) (fun _ => mret tt).

Definition set_slot_as_unbootable (slot : JetsonSlot) (target : option string) : CB unit :=
  on_called_process_error (_ ← nvbootctrl chroot target "set-slot-as-unbootable" (Some slot); mret tt) (fun _ => mret tt).

(** [e.returncode] *)
Definition returncode (e : pyexn) : option Z := match e with PyExn _ (AInt c :: _) _ _ => Some c | _ => None end.

(** [None] when neither unified A/B nor rootfs A/B is enabled. *)
Definition is_unified_enabled : CB (option bool) :=
  on_called_process_error (_ ← nvbootctrl chroot None "is-unified-enabled" None; mret (Some true))
    (fun e => mret (if bool_decide (returncode e = Some 70) then Some false else None)).

(** ** [_CBootControl.__init__] *)

(** The slots of the bootloader and of the root file system. *)
Definition cboot_slots (unified : bool) : CB (JetsonSlot * JetsonSlot * (JetsonSlot * JetsonSlot)) :=
  current_bl ← get_current_slot chroot None;
  standby_bl ← get_standby_slot chroot None;
  if unified then mret (current_bl, standby_bl, (current_bl, standby_bl))
  else
    current_rootfs ← get_current_slot chroot (Some "rootfs"%string);
    standby_rootfs ← get_standby_slot chroot (Some "rootfs"%string);
    mret (current_bl, standby_bl, (current_rootfs, standby_rootfs)).

Definition init_cboot_control (active_root : string) : CB cboot_control :=
  bsp ← except_exception (detect_rootfs_bsp_version (path_of active_root)) (fun e => cboot_exn "failed to detect BSP version" None);
  if bsp_ge bsp MAXIMUM_SUPPORTED_BSP_VERSION_EXCLUDE then raise (cboot_exn "jetson-cboot only supports BSP version < R34" None)
  else
    s ← gets files;
    match read_file s NVBOOTCTRL_CONF_FPATH with
    | None => raise (cboot_exn "nv_boot_ctrl.conf is missing!" None)
    | Some conf =>
        unified ← (if bsp_ge bsp (mkBSPVersion 32 6 1) then is_unified_enabled else mret (Some false));
        let unified := bool_decide (unified = Some true) in
        slots ← try_except (cboot_slots unified)
                  (fun e => if is_nvbootctrl_exec_error e then raise (cboot_exn "failed to detect slot info" (Some e)) else raise e);
        let '(current_bl, standby_bl, (current_rootfs, standby_rootfs)) := slots in
        devs ← except_exception
                 (dev ← get_current_rootfs_dev active_root true chroot; parent ← get_parent_dev dev true; mret (dev, parent))
                 (fun e => cboot_exn "failed to detect rootfs" (Some e));
        let '(dev, parent) := devs in
        let standby_dev := get_partition_devpath parent (SLOT_PAR_MAP standby_rootfs) in
        partuuid ← except_exception
                     (standby_uuid ← get_attrs_by_dev "PARTUUID" standby_dev true;
                      _ ← get_attrs_by_dev "PARTUUID" dev true; mret (strip standby_uuid))
                     (fun e => cboot_exn "failed to detect rootfs dev partuuid" (Some e));
        _ ← dump_slots_info chroot None;
        _ ← (if unified then mret EmptyString else dump_slots_info chroot (Some "rootfs"%string));
        mret (mkCbootControl bsp conf unified current_bl standby_bl current_rootfs standby_rootfs parent
                (detect_external_rootdev parent) standby_dev partuuid
                (get_partition_devpath ("/dev/" +:+ INTERNAL_EMMC_DEVNAME)%string (SLOT_PAR_MAP standby_rootfs)))
    end.

Context (cb : cboot_control).

Definition set_standby_rootfs_unbootable : CB unit :=
  set_slot_as_unbootable (cb_standby_rootfs_slot cb) (Some "rootfs"%string).

Definition cboot_switch_boot_to_standby : CB unit :=
  _ ← (if cb_unified_ab_enabled cb then mret tt
       else set_active_boot_slot chroot (cb_standby_rootfs_slot cb) (Some "rootfs"%string));
  set_active_boot_slot chroot (cb_standby_rootfs_slot cb) None.

(** ** [NVUpdateEngine] *)

Definition nv_update_engine (payload : string) : CB unit :=
  _ ← subprocess_run_wrapper ["nv_update_engine"; "-i"; "bl"; "--payload"; payload; "--no-reboot"]%string chroot false; mret tt.
Definition nv_update_engine_unified_ab (payload : string) : CB unit :=
  _ ← subprocess_run_wrapper ["nv_update_engine"; "-i"; "bl-only"; "--payload"; payload]%string chroot false; mret tt.

(** With [check=False]: the return code. *)
Definition verify_update : CB Z := fun w =>
  match exec ["nv_update_engine"; "--verify"]%string w with
  | (w', CmdOk _) => (w', Ok 0)
  | (w', CmdFailed c) => (w', Ok c)
  | (w', CmdRaises e) => (w', Raise e)
  end.

Context (hash_new : string -> option (string -> string)).
Context (standby_slot_mnt : string).

Definition path_str (p : path) : string := ("/" +:+ str_join "/" p)%string.

(** The loop over the requested payloads: what is no BUP, not on the image or
    does not have the expected digest is skipped. *)
Fixpoint apply_payloads (l : list FirmwarePackage) (executed : bool) : CB bool :=
  match l with
  | [] => mret executed
  | p :: l =>
      if negb (bool_decide (payload_type p = BUP)) then apply_payloads l executed
      else
        match file_location p with
        | LocBlob _ => raise assertion_error
        | LocFile loc =>
            match replace_root_at loc (path_of standby_slot_mnt) with
            | None => raise jetson_value_error
            | Some bup =>
                s ← gets files;
                if negb (is_file s bup) then apply_payloads l executed
                else
                  digest ← from_result (cal_file_digest hash_new s bup (dv_algorithm (payload_digest p)));
                  if negb (String.eqb digest (dv_digest (payload_digest p))) then apply_payloads l executed
                  else
                    _ ← (if cb_unified_ab_enabled cb then nv_update_engine_unified_ab (path_str bup)
                         else nv_update_engine (path_str bup));
                    apply_payloads l true
            end
        end
  end.

Definition nv_firmware_update (tnspec : string) (request : FirmwareUpdateRequest) (manifest : FirmwareManifest) : CB bool :=
  ver ← from_result (parse_bsp_version (fs_bsp_version (firmware_spec manifest)));
  if bsp_ge ver MAXIMUM_SUPPORTED_BSP_VERSION_EXCLUDE then mret false
  else if negb (manifest_check_compat manifest tnspec) then mret false
  else apply_payloads (get_firmware_packages manifest request) false.

(** ** [JetsonCBootControl] *)

Context (yaml_request : string -> option FirmwareUpdateRequest) (yaml_manifest : string -> option raw_manifest).

(** [None] for no firmware update, [Some false] for a failed one. *)
Definition cboot_firmware_update : CB (option bool) :=
  tnspec ← from_result (get_nvbootctrl_conf_tnspec (cb_nvbootctrl_conf cb));
  match tnspec with
  | None | Some EmptyString => mret None
  | Some tnspec =>
      s ← gets files;
      let text p := read_file s (path_of standby_slot_mnt ++ p) in
      match load_firmware_package yaml_request yaml_manifest (text FIRMWARE_UPDATE_REQUEST_FPATH) (text FIRMWARE_MANIFEST_FPATH) with
      | None => mret None
      | Some (request, manifest) =>
          _ ← from_result (parse_bsp_version (fs_bsp_version (firmware_spec manifest)));
          r ← nv_firmware_update tnspec request manifest;
          mret (Some r)
      end
  end.

Definition cboot_finalize_switching_boot : CB bool :=
  retcode ← verify_update;
  if negb (retcode =? 0) then mret false
  else
    _ ← (if cb_unified_ab_enabled cb then mret tt else mark_boot_successful (cb_current_rootfs_slot cb) (Some "rootfs"%string));
    mret true.

Definition cboot_pre_update_platform_specific : CB unit :=
  if cb_unified_ab_enabled cb then mret tt else set_standby_rootfs_unbootable.

(** The firmware step of the post-update hook. *)
Definition cboot_firmware_step : CB unit :=
  res ← cboot_firmware_update;
  match res with
  | Some false => raise (cboot_exn "firmware update failed" None)
  | _ => mret tt
  end.

Context (active_ota : option tree) (cenv : copy_env) (write_fails : string -> bool).
Context (copytree : path -> path -> PyM fsys pyexn unit).

Definition cboot_copy_boot : CB unit :=
  if cb_external_rootfs cb then
    raise_as_ota_error (BootCtl BootControlBootConfigUpdateFailed)
      "failed to copy standby slot's /boot to internal emmc" cboot_module
      (copy_standby_slot_boot_to_internal_emmc fault copytree SEPARATE_BOOT_MOUNT_POINT (cb_standby_internal_emmc_devpath cb)
         (path_of standby_slot_mnt ++ ["boot"%string]))
  else mret tt.

(** The steps before the switch of the boot slot. *)
Definition cboot_prepare_switch (ota_config_files : OTAConfigFiles) : PyM (option tree * W) pyexn unit :=
  _ ← on_platform
        (_ ← raise_as_ota_error (BootCtl BootControlBootConfigUpdateFailed)
               "failed to update extlinux.conf for standby slot" cboot_module
               (update_standby_slot_extlinux_cfg fault EXTLINUX_FILE (path_of standby_slot_mnt ++ EXTLINUX_FILE)
                  (cb_standby_rootfs_dev_partuuid cb));
         raise_as_ota_error (BootCtl BootControlFirmwareUpdateFailed) "firmware update failed" cboot_module cboot_firmware_step);
  _ ← jetson_preserve_ota active_ota cenv write_fails ota_config_files;
  on_platform cboot_copy_boot.

(** ... ends with the slots' information in a log message. *)
Definition cboot_post_update_platform_specific (ota_config_files : OTAConfigFiles) : PyM (option tree * W) pyexn unit :=
  _ ← cboot_prepare_switch ota_config_files;
  on_platform
    (_ ← raise_as_ota_error (BootCtl BootControlSwitchBootFailed) "failed to switch boot to standby slot" cboot_module
           cboot_switch_boot_to_standby;
     _ ← dump_slots_info chroot None;
     mret tt).

Definition cboot_finalizing_update (reboot_chroot : option string) : CB unit := reboot [] reboot_chroot.

Context (active_root active_slot_mnt : string).
Context (parse_version_detail : string -> json_file string) (parse_failure_info : string -> json_file jval).

Definition cboot_mp_control : SlotMountHelper :=
  mkSlotMountHelper (cb_standby_rootfs_devpath cb) standby_slot_mnt active_root active_slot_mnt.

Definition cboot_hooks (dynamic_client : bool) : PlatformHooks (option tree * W) OTAConfigFiles :=
  slot_hooks fault parse_version_detail parse_failure_info cboot_module dynamic_client cboot_mp_control
    (fun erase_standby => helper_prepare_standby_dev dynamic_client cboot_mp_control erase_standby None None)
    cboot_pre_update_platform_specific cboot_post_update_platform_specific.
End Cboot.

(** [JetsonCBootControl.__init__]: the status files of the running system are
    at [/boot/ota-status]. *)
Definition init_cboot_controller {W} `{!CmdEnv W} `{!FileEnv W} (fault : path -> bool) (chroot : option string)
    (parse_version_detail : string -> json_file string) (parse_failure_info : string -> json_file jval)
    (active_root standby_slot_mnt : string) (dynamic_app : bool) : PyM (control * W) pyexn cboot_control :=
  as_startup_failed "failed to start jetson-cboot controller: " cboot_module
    (cb ← on_env (init_cboot_control chroot active_root);
     _ ← start_status_control fault parse_version_detail parse_failure_info
           (jslot_str (cb_current_rootfs_slot cb)) (jslot_str (cb_standby_rootfs_slot cb)) "/" standby_slot_mnt dynamic_app
           (cboot_finalize_switching_boot chroot cb);
     mret cb).

(** ** The boot slots are switched last *)

(** The commands that switch the boot: of the root file system first, where it
    has slots of its own, then of the bootloader. *)
Definition switch_cmds (chroot : option string) (unified : bool) (slot : JetsonSlot) : list argv :=
  map (app (cmd_prefix chroot false))
    ((if unified then [] else [["nvbootctrl"; "-t"; "rootfs"; "set-active-boot-slot"; jslot_str slot]%string]) ++
     [["nvbootctrl"; "set-active-boot-slot"; jslot_str slot]%string; ["nvbootctrl"; "dump-slots-info"]%string]).

Section Switch.
Context {W : Type} `{HC : !CmdEnv W} `{HF : !FileEnv W}.
Context (fault : path -> bool) (chroot : option string) (cb : cboot_control).
Context (Hchroot : chroot <> Some "set-active-boot-slot"%string)
  (Hdev : cb_standby_internal_emmc_devpath cb <> "set-active-boot-slot"%string).
Context (hash_new : string -> option (string -> string)) (mnt : string).
Context (yaml_request : string -> option FirmwareUpdateRequest) (yaml_manifest : string -> option raw_manifest).
Context (active_ota : option tree) (cenv : copy_env) (write_fails : string -> bool).
Context (copytree : path -> path -> PyM fsys pyexn unit).
#[local] Abbreviation no_switch := (runs_no_switch (W:=W)).

Lemma no_switch_apply_payloads l b : keeps no_switch (apply_payloads chroot cb hash_new mnt l b).
Proof using Hchroot.
  revert b. induction l as [|p l IH]; intros b; cbn [apply_payloads]; [sstep|].
  destruct (negb _); [apply IH|]. destruct (file_location p); [|sstep].
  unfold nv_update_engine, nv_update_engine_unified_ab. repeat (sstep || apply IH).
Qed.

Lemma no_switch_firmware_step : keeps no_switch (cboot_firmware_step chroot cb hash_new mnt yaml_request yaml_manifest).
Proof using Hchroot.
  unfold cboot_firmware_step, cboot_firmware_update, nv_firmware_update. sstep.
  - sstep; [sstep|]. destruct a as [[|c tnspec]|]; [sstep| |sstep]. sstep; [sstep|].
    destruct (load_firmware_package _ _ _ _) as [[request manifest]|]; [|sstep].
    repeat sstep. apply no_switch_apply_payloads.
  - destruct a as [[]|]; sstep.
Qed.

#[local] Abbreviation prepare_switch :=
  (cboot_prepare_switch (W:=logged W) fault chroot cb hash_new mnt yaml_request yaml_manifest active_ota cenv write_fails copytree).

Lemma no_switch_prepare cfg : keeps (beside no_switch) (prepare_switch cfg).
Proof using Hchroot Hdev.
  unfold cboot_prepare_switch. apply keeps_bind; [apply _| |intros _].
  - apply frame_on_platform. repeat sstep; [apply frame_extlinux|apply no_switch_firmware_step].
  - apply keeps_bind; [apply _| |intros _].
    + apply frame_preserve_ota.
    + apply frame_on_platform. unfold cboot_copy_boot. repeat sstep. by apply frame_copy_boot.
Qed.

(** A call of [nvbootctrl] runs one command. *)
Lemma nvbootctrl_logged target cmd slot (s s' : logged W) r :
  nvbootctrl chroot target cmd slot s = (s', r) ->
  lg_cmds s' = lg_cmds s ++ [cmd_prefix chroot false ++ nvbootctrl_cmd target cmd slot].
Proof.
  unfold nvbootctrl, subprocess_run_wrapper. fold (cmd_prefix chroot false). unfold exec at 1, logged_cmds.
  destruct (exec _ (lg_env s)) as [w []]; by intros [= <- _].
Qed.

Lemma set_active_logged slot target (s s' : logged W) r :
  set_active_boot_slot chroot slot target s = (s', r) ->
  lg_cmds s' = lg_cmds s ++ [cmd_prefix chroot false ++ nvbootctrl_cmd target "set-active-boot-slot" (Some slot)].
Proof.
  unfold set_active_boot_slot, on_called_process_error, try_except, mbind, pym_bind.
  destruct (nvbootctrl chroot target "set-active-boot-slot" (Some slot) s) as [s1 [out|e]] eqn:E; apply nvbootctrl_logged in E; rewrite <- E.
  - by intros [= <- _].
  - cbn. by destruct (is_called_process_error e); intros [= <- _].
Qed.

Lemma dump_logged target (s s' : logged W) r :
  dump_slots_info chroot target s = (s', r) ->
  lg_cmds s' = lg_cmds s ++ [cmd_prefix chroot false ++ nvbootctrl_cmd target "dump-slots-info" None].
Proof.
  unfold dump_slots_info, on_called_process_error, try_except.
  destruct (nvbootctrl chroot target "dump-slots-info" None s) as [s1 [out|e]] eqn:E; apply nvbootctrl_logged in E; rewrite <- E.
  - by intros [= <- _].
  - cbn. by destruct (is_called_process_error e); intros [= <- _].
Qed.

(** The switch runs its commands in order, up to one that fails. *)
Lemma switch_logged (s s' : logged W) r :
  cboot_switch_boot_to_standby chroot cb s = (s', r) ->
  exists l, lg_cmds s' = lg_cmds s ++ l /\
    match r with
    | Ok _ => l ++ [cmd_prefix chroot false ++ nvbootctrl_cmd None "dump-slots-info" None] = switch_cmds chroot (cb_unified_ab_enabled cb) (cb_standby_rootfs_slot cb)
    | Raise _ => l `prefix_of` switch_cmds chroot (cb_unified_ab_enabled cb) (cb_standby_rootfs_slot cb)
    end.
Proof.
  intros H. unfold cboot_switch_boot_to_standby, mbind, pym_bind in H. unfold switch_cmds. destruct (cb_unified_ab_enabled cb); cbn in H.
  - apply set_active_logged in H. eexists. split; [exact H|]. destruct r; [done|]. by eexists.
  - destruct (set_active_boot_slot _ _ (Some _) s) as [s1 [[]|e]] eqn:E; apply set_active_logged in E.
    + apply set_active_logged in H. rewrite E, <- app_assoc in H. eexists. split; [exact H|]. destruct r; [done|]. by eexists.
    + injection H as <- <-. eexists. split; [exact E|]. by eexists.
Qed.

(** C31. The boot is switched last: the post-update hook runs no
    [set-active-boot-slot] before the boot configuration, the firmware, the OTA
    files and [/boot] were all written; from there on it runs nothing but the
    commands of the switch, in their order (the root file system's slot first,
    without unified A/B, then the bootloader's, each to the standby slot, then
    the dump for the log), up to the first that fails, and all of them when it
    returns.  What the commands do to the slots is theirs; that neither the
    [chroot] nor the name of the device reads [set-active-boot-slot] is all
    that is assumed. *)
Theorem cboot_switches_last cfg d s d' s' r :
  cboot_post_update_platform_specific (W:=logged W) fault chroot cb hash_new mnt yaml_request yaml_manifest active_ota cenv write_fails
    copytree cfg (d, s) = (d', s', r) ->
  (runs_no_switch s s' /\ exists e, r = Raise e) \/
  exists d1 s1 l, prepare_switch cfg (d, s) = (d1, s1, Ok tt) /\ runs_no_switch s s1 /\ lg_cmds s' = lg_cmds s1 ++ l /\
    l `prefix_of` switch_cmds chroot (cb_unified_ab_enabled cb) (cb_standby_rootfs_slot cb) /\
    (r = Ok tt -> l = switch_cmds chroot (cb_unified_ab_enabled cb) (cb_standby_rootfs_slot cb)).
Proof using Hchroot Hdev.
  intros H. pose proof (no_switch_prepare cfg (d, s)) as Hk. unfold cboot_post_update_platform_specific in H.
  unfold mbind at 1, pym_bind at 1 in H. destruct (prepare_switch cfg (d, s)) as [[d1 s1] [[]|e]] eqn:E.
  2: { injection H as <- <- <-. left. split; [exact Hk|by exists e]. }
  unfold beside in Hk. cbn [fst snd] in Hk. right. unfold on_platform in H. cbn [fst snd] in H.
  match type of H with (let '(_, _) := ?m s1 in _) = _ => destruct (m s1) as [s2 r2] eqn:Es end. injection H as <- <- <-.
  unfold raise_as_ota_error, mbind, pym_bind, try_except in Es. destruct (cboot_switch_boot_to_standby chroot cb s1) as [s3 [[]|e]] eqn:E3.
  - apply switch_logged in E3 as (l & Hl & Hall). destruct (dump_slots_info chroot None s3) as [s4 r4] eqn:E4.
    apply dump_logged in E4. rewrite Hl, <- app_assoc, Hall in E4.
    eexists d1, s1, _. split_and!; [done|done| |reflexivity|done]. by destruct r4; injection Es as <- <-.
  - apply switch_logged in E3 as (l & Hl & Hpre). exists d1, s1, l.
    assert (s2 = s3 /\ r2 <> Ok tt) as [-> Hr] by (destruct (is_ota_error e || negb (is_exception e)); by injection Es as <- <-). done.
Qed.
End Switch.

(** ** Examples *)

(** A device on internal storage with unified A/B off, booted from slot A. *)
Definition example_cb : cboot_control :=
  mkCbootControl (mkBSPVersion 32 6 1) (unlines ["TNSPEC 2888-400-0004-M.0"; "TEGRA_OTA_BOOT_DEVICE /dev/mmcblk0boot0"]%string)
    false JSLOT_A JSLOT_B JSLOT_A JSLOT_B "/dev/mmcblk0" false "/dev/mmcblk0p2" "1111-22" "/dev/mmcblk0p2".
Definition example_jetson_mnt : string := "/mnt/standby".

Definition example_jetson_files (fw : list (path * string)) : fsys :=
  put_files
    ((["boot"; "extlinux"; "extlinux.conf"], unlines ["LABEL primary"; "  APPEND root=/dev/mmcblk0p1 rw"]) :: fw)%string
    (put_dirs [["boot"]; ["boot"; "extlinux"]; ["mnt"]; ["mnt"; "standby"]; ["mnt"; "standby"; "opt"]; ["mnt"; "standby"; "opt"; "ota"];
                      ["mnt"; "standby"; "opt"; "ota"; "firmware"]]%string (mkFsys ∅ ∅ 0)).
Definition example_jetson (fw : list (path * string)) (fails : argv -> bool) : jetson_machine :=
  mkJetsonMachine (example_jetson_files fw) (fun _ => JSLOT_A) fails (fun _ => EmptyString).

Definition no_copytree (src dst : path) : PyM fsys pyexn unit := raise (os_exn ENOENT).
Definition no_raw_manifest (s : string) : option raw_manifest := None.
#[local] Abbreviation run_example_hook yaml_manifest :=
  (cboot_post_update_platform_specific (fun _ => false) None example_cb (fun _ => None) example_jetson_mnt
     (fun _ => Some ["bl"]%string) yaml_manifest None no_links_env (fun _ => false) no_copytree no_config_files).

Lemma cboot_switches_last_witness :
  exists d' s', run_example_hook no_raw_manifest (None, mkLogged (example_jetson [] (fun _ => false)) []) = (d', s', Ok tt) /\
    exists l, lg_cmds s' = l ++ [["nvbootctrl"; "-t"; "rootfs"; "set-active-boot-slot"; "1"]; ["nvbootctrl"; "set-active-boot-slot"; "1"];
                                 ["nvbootctrl"; "dump-slots-info"]]%string.
Proof.
  destruct (run_example_hook no_raw_manifest (None, mkLogged (example_jetson [] (fun _ => false)) [])) as [[d' s'] r] eqn:E.
  assert (Hr : r = Ok tt) by (change r with (snd (d', s', r)); rewrite <- E; vm_compute; reflexivity). subst r.
  exists d', s'. split; [reflexivity|].
  assert (Hc : @None string <> Some "set-active-boot-slot"%string) by discriminate.
  assert (Hd : cb_standby_internal_emmc_devpath example_cb <> "set-active-boot-slot"%string) by discriminate.
  destruct (cboot_switches_last (fun _ => false) None example_cb Hc Hd (fun _ => None) example_jetson_mnt
     (fun _ => Some ["bl"]%string) no_raw_manifest None no_links_env (fun _ => false) no_copytree no_config_files
     None (mkLogged (example_jetson [] (fun _ => false)) []) d' s' (Ok tt) E) as [[_ [e He]]|(d1 & s1 & l & _ & _ & Hl & _ & Hall)].
  - discriminate He.
  - exists (lg_cmds s1). rewrite Hl, (Hall eq_refl). reflexivity.
Defined.

(** A request for firmware of R35: it is to be skipped (the update engine
    returns that there is no firmware update), and yet the update fails. *)
Definition example_r35_manifest (s : string) : option raw_manifest :=
  Some (mkRawManifest "nvidia_jetson" "xavier" "agx"
          (mkFirmwareSpec "R35.4.1" (mkCompat "2888" "400" "0004" "M" "0")) []).
Definition firmware_request_files : list (path * string) :=
  [(["mnt"; "standby"; "opt"; "ota"; "firmware"; "firmware_update.yaml"], "request");
   (["mnt"; "standby"; "opt"; "ota"; "firmware"; "firmware_manifest.yaml"], "manifest")]%string.

Example skipped_firmware_fails_update :
  let w := example_jetson firmware_request_files (fun _ => false) in
  snd (nv_firmware_update (HC:=jetson_machine_cmds) None example_cb (fun _ => None) example_jetson_mnt "2888-400-0004-M.0" ["bl"%string]
         (mkFirmwareManifest "nvidia_jetson" "xavier" "agx"
            (mkFirmwareSpec "R35.4.1" (mkCompat "2888" "400" "0004" "M" "0")) []) w) = Ok false /\
  exists e, snd (run_example_hook example_r35_manifest (None, w)) = Raise e /\ is_ota_error e = true.
Proof. split; [by vm_compute|]. eexists. split; [by vm_compute|by vm_compute]. Qed.

(** The log message at the end runs [nvbootctrl]: when only that fails, the
    hook fails with the boot already switched. *)
Example log_message_fails_switched_update :
  let w := example_jetson [] (fun cmd => bool_decide (list.last cmd = Some "dump-slots-info"%string)) in
  exists e, snd (run_example_hook no_raw_manifest (None, w)) = Raise e /\
    nv_active None (snd (fst (run_example_hook no_raw_manifest (None, w)))) = JSLOT_B.
Proof. eexists. split; [by vm_compute|by vm_compute]. Qed.

(** An indented [TNSPEC] line is accepted, and its value comes with the name. *)
Example indented_tnspec_misread :
  get_nvbootctrl_conf_tnspec " TNSPEC 2888-400" = Ok (Some "TNSPEC 2888-400"%string).
Proof. by vm_compute. Qed.
