(* ===== verification/JetsonUefi.v ===== *)
(** * The Jetson boot controller for UEFI

    Models [src/src/otaclient/boot_control/_jetson_uefi.py]: the firmware
    update by UEFI capsules ([UEFIFirmwareUpdater]), the version control of the
    L4T launcher, [_UEFIBootControl] and [JetsonUEFIBootControl], for BSP
    versions from R34 on. *)

From stdpp Require Import base gmap strings list option sets.
From Stdlib Require Import ZArith Ascii String Lia.
From S2P Require Import Prelude Types Errors OTAStatusControl BootController FileSystem StatusFiles CopyTree OTAConfigFiles TextLines CmdHelper SlotHooks LegacyCSV JetsonText FirmwarePackage JetsonCommon.

Definition MINIMUM_SUPPORTED_BSP_VERSION : BSPVersion := mkBSPVersion 34 0 0.
Definition FIRMWARE_UPDATE_MINIMUM_SUPPORTED_BSP_VERSION : BSPVersion := mkBSPVersion 35 2 0.

Definition L4TLAUNCHER_BSP_VER_SHA256_MAP : pydict BSPVersion :=
  [("c9b54649f7a05fc326d1bf82fc68fa234d6e5a915cb56f8030874fdb21514d32"%string, mkBSPVersion 39 2 0);
   ("b14fa3623f4078d05573d9dcf2a0b46ea2ae07d6b75d9843f9da6ff24db13718"%string, mkBSPVersion 36 3 0);
   ("3928e0feb84e37db87dc6705a02eec95a6fca2dccd3467b61fa66ed8e1046b67"%string, mkBSPVersion 35 5 0);
   ("ac17457772666351154a5952e3b87851a6398da2afcf3a38bedfc0925760bb0e"%string, mkBSPVersion 35 4 1)].

Definition TEGRA_COMPAT_PATH : path := ["sys"; "firmware"; "devicetree"; "base"; "compatible"]%string.
Definition ESP_MOUNTPOINT : string := "/mnt/esp".
Definition UPDATE_TRIGGER_EFIVAR : string := "OsIndications-8be4df61-93ca-11d2-aa0d-00e098032b8c".
Definition ESP_BOOT_DIR : path := ["mnt"; "esp"; "EFI"; "BOOT"]%string.
Definition L4TLAUNCHER_VER_FPATH : path := ESP_BOOT_DIR ++ ["l4tlauncher_version"%string].
Definition BOOTAA64_AT_ESP : path := ESP_BOOT_DIR ++ ["BOOTAA64.efi"%string].
Definition BOOTAA64_AT_ESP_BAK : path := ESP_BOOT_DIR ++ ["BOOTAA64.efi_bak"%string].
Definition CAPSULE_DIR_AT_ESP : path := ["mnt"; "esp"; "EFI"; "UpdateCapsule"]%string.
Definition EFIVARS_SYS_MOUNT_POINT : string := "/sys/firmware/efi/efivars/".

(** The bytes [07 00 00 00 04 00 00 00 00 00 00 00]. *)
Definition MAGIC_BYTES : string :=
  fold_right (fun n s => String (ascii_of_nat n) s) EmptyString [7; 0; 0; 0; 4; 0; 0; 0; 0; 0; 0; 0]%nat.

Definition uefi_exn (msg : string) (cause : option pyexn) : pyexn :=
  PyExn (XOther "JetsonUEFIBootControlError") [AStr msg] cause cause.
Definition uefi_module : string := "otaclient.boot_control._jetson_uefi".

(** ** Copying files *)

Section Copy.
Context (fault : path -> bool).

(** [shutil.copy]: content and mode, into [dst] when that is a directory. *)
Definition shutil_copy (src dst : path) : PyM fsys pyexn unit :=
  s ← get;
  let dst := if is_dir s dst then dst ++ [default EmptyString (list.last src)] else dst in
  match stat s src with
  | Some (FsFile i) =>
      if fault src then raise (os_exn EIO)
      else if bool_decide (stat s dst = Some (FsFile i)) then raise (PyExn (XOther "SameFileError") [] None None)
      else
        let f := default (mkIFile EmptyString DEFAULT_FILE_MODE) (fs_inodes s !! i) in
        _ ← write_text fault dst (if_content f);
        chmod dst (if_mode f)
  | Some _ => raise (os_exn EISDIR)
  | None => raise (os_exn ENOENT)
  end.
End Copy.

(** ** The version of the L4T launcher: [<version>:<sha256>] *)

Record L4TLauncherBSPVersionControl : Type := mkL4TVer { l4t_bsp_ver : BSPVersion; l4t_sha256_digest : string }.

Definition parse_l4t_ver (s : string) : result pyexn L4TLauncherBSPVersionControl :=
  match py_split ":" (strip s) with
  | [ver; digest] => match parse_bsp_version ver with Ok v => Ok (mkL4TVer v digest) | Raise e => Raise e end
  | _ => Raise jetson_value_error
  end.

Definition dump_l4t_ver (v : L4TLauncherBSPVersionControl) : string :=
  (dump_bsp_version (l4t_bsp_ver v) +:+ ":" +:+ l4t_sha256_digest v)%string.

Section Uefi.
Context {W : Type} `{HC : !CmdEnv W} `{HF : !FileEnv W}.
Context (fault : path -> bool) (chroot : option string).
Context (hash_new : string -> option (string -> string)).
Abbreviation UE := (PyM W pyexn).

Definition l4tlauncher_version_control (ver_fpath launcher : path) (current_slot_bsp_ver : BSPVersion) : PyM fsys pyexn BSPVersion :=
  s ← get;
  digest ← from_result (cal_file_digest hash_new s launcher "sha256");
  known ← try_except
            (match read_file s ver_fpath with
             | None => raise (os_exn ENOENT)
             | Some t =>
                 v ← from_result (parse_l4t_ver t);
                 if String.eqb digest (l4t_sha256_digest v) then mret (Some (l4t_bsp_ver v)) else raise jetson_value_error
             end)
            (fun e => if is_exception e then _ ← unlink_missing_ok fault ver_fpath; mret None else raise e);
  match known with
  | Some v => mret v
  | None =>
      let v := default current_slot_bsp_ver (dict_get digest L4TLAUNCHER_BSP_VER_SHA256_MAP) in
      _ ← write_str_to_file_atomic fault ver_fpath (dump_l4t_ver (mkL4TVer v digest)) true;
      mret v
  end.

(** ** Mounts of the ESP and of efivarfs *)

(** [with _ensure_esp_mounted(esp_dev, mount_point): body] *)
Definition ensure_esp_mounted {A} (esp_dev mount_point : string) (body : UE A) : UE A :=
  _ ← on_files (mkdir_parents fault (path_of mount_point));
  except_exception
    (_ ← mount_rw true esp_dev mount_point true true;
     r ← body;
     _ ← umount mount_point false;
     mret r)
    (fun e => uefi_exn "failed to mount esp" (Some e)).

Definition ensure_efivarfs_mounted {A} (body : UE A) : UE A :=
  mounted ← is_target_mounted EFIVARS_SYS_MOUNT_POINT false;
  let options := (if mounted : bool then "remount,rw,nosuid,nodev,noexec,relatime" else "rw,nosuid,nodev,noexec,relatime")%string in
  except_exception
    (_ ← subprocess_call ["mount"; "-t"; "efivarfs"; "-o"; options; "efivarfs"; EFIVARS_SYS_MOUNT_POINT]%string true None;
     body)
    (fun e => uefi_exn "failed to mount efivarfs" (Some e)).

(** [except Exception: return False] *)
Definition or_false (m : UE bool) : UE bool :=
  try_except m (fun e => if is_exception e then mret false else raise e).

Definition trigger_capsule_update_qspi_ota_bootdev : UE bool :=
  ensure_efivarfs_mounted
    (or_false
       (_ ← on_files (write_text fault (path_of EFIVARS_SYS_MOUNT_POINT ++ [UPDATE_TRIGGER_EFIVAR]) MAGIC_BYTES); mret true)).

Definition find_esp_dev (boot_parent_devpath : string) : UE string :=
  esp_parts ← get_dev_by_token "PARTLABEL" "esp" true;
  match detect_esp_dev esp_parts boot_parent_devpath with
  | Some p => mret p
  | None => raise (uefi_exn "failed to find esp partition" None)
  end.

Definition trigger_capsule_update_non_qspi_ota_bootdev (esp_mp : string) : UE bool :=
  or_false
    (esp ← find_esp_dev ("/dev/" +:+ INTERNAL_EMMC_DEVNAME)%string;
     _ ← ensure_esp_mounted esp esp_mp
           (on_files (write_text fault (path_of esp_mp ++ ["EFI"; "NVDA"; "Variables"; UPDATE_TRIGGER_EFIVAR]%string) MAGIC_BYTES));
     mret true).

(** ** [UEFIFirmwareUpdater] *)

Context (standby_slot_mnt : string).

(** The file of a payload on the image; only files are supported. *)
Definition payload_file (p : FirmwarePackage) : result pyexn path :=
  match file_location p with
  | LocBlob _ => Raise assertion_error
  | LocFile loc =>
      match replace_root_at loc (path_of standby_slot_mnt) with
      | Some f => Ok f
      | None => Raise jetson_value_error
      end
  end.

Definition check_digest (f : path) (d : DigestValue) : PyM fsys pyexn unit :=
  s ← get;
  digest ← from_result (cal_file_digest hash_new s f (dv_algorithm d));
  if String.eqb digest (dv_digest d) then mret tt else raise assertion_error.

Fixpoint copy_capsules (l : list FirmwarePackage) (configured : bool) : PyM fsys pyexn bool :=
  match l with
  | [] => mret configured
  | p :: l =>
      if negb (bool_decide (payload_type p = UEFI_CAPSULE)) then copy_capsules l configured
      else
        f ← from_result (payload_file p);
        copied ← try_except
          (_ ← check_digest f (payload_digest p);
           _ ← shutil_copy fault f (path_join CAPSULE_DIR_AT_ESP (payload_name p)); mret true)
          (fun e => if is_exception e then mret false else raise e);
        copy_capsules l (configured || copied)
  end.

Definition prepare_fwupdate_capsule (l : list FirmwarePackage) : PyM fsys pyexn bool :=
  _ ← mkdir_parents fault CAPSULE_DIR_AT_ESP;
  copy_capsules l false.

Fixpoint update_l4tlauncher (l : list FirmwarePackage) (bsp_ver : BSPVersion) : PyM fsys pyexn bool :=
  match l with
  | [] => mret false
  | p :: l =>
      if negb (bool_decide (payload_type p = UEFI_BOOT_APP)) then update_l4tlauncher l bsp_ver
      else
        f ← from_result (payload_file p);
        done ← try_except
          (_ ← check_digest f (payload_digest p);
           _ ← shutil_copy fault BOOTAA64_AT_ESP BOOTAA64_AT_ESP_BAK;
           _ ← shutil_copy fault f BOOTAA64_AT_ESP;
           _ ← write_str_to_file_atomic fault L4TLAUNCHER_VER_FPATH (dump_l4t_ver (mkL4TVer bsp_ver (dv_digest (payload_digest p)))) true;
           mret true)
          (fun e => if is_exception e then mret false else raise e);
        if done : bool then mret true else update_l4tlauncher l bsp_ver
  end.

(** What is done on the ESP; [false] when no capsule could be prepared. *)
Definition prepare_esp (packages : list FirmwarePackage) (current_slot_bsp_ver package_bsp_ver : BSPVersion) : PyM fsys pyexn bool :=
  prepared ← prepare_fwupdate_capsule packages;
  if negb prepared then mret false
  else
    launcher ← l4tlauncher_version_control L4TLAUNCHER_VER_FPATH BOOTAA64_AT_ESP current_slot_bsp_ver;
    _ ← (if bsp_ge launcher package_bsp_ver then mret false else update_l4tlauncher packages package_bsp_ver);
    mret true.

Definition capsule_firmware_update (esp_part nvbootctrl_conf : string) (current_slot_bsp_ver package_bsp_ver : BSPVersion)
    (request : FirmwareUpdateRequest) (manifest : FirmwareManifest) : UE bool :=
  if bsp_lt current_slot_bsp_ver FIRMWARE_UPDATE_MINIMUM_SUPPORTED_BSP_VERSION then mret false
  else if bsp_lt package_bsp_ver FIRMWARE_UPDATE_MINIMUM_SUPPORTED_BSP_VERSION then mret false
  else if bsp_lt package_bsp_ver current_slot_bsp_ver then mret false
  else
    tnspec ← from_result (get_nvbootctrl_conf_tnspec nvbootctrl_conf);
    match tnspec with
    | None | Some EmptyString => mret false
    | Some tnspec =>
        if negb (manifest_check_compat manifest tnspec) then mret false
        else
          prepared ← ensure_esp_mounted esp_part ESP_MOUNTPOINT
                       (on_files (prepare_esp (get_firmware_packages manifest request) current_slot_bsp_ver package_bsp_ver));
          if negb prepared then mret false
          else
            qspi ← from_result (detect_ota_bootdev_is_qspi nvbootctrl_conf);
            match qspi with
            | None => mret false
            | Some true => trigger_capsule_update_qspi_ota_bootdev
            | Some false => trigger_capsule_update_non_qspi_ota_bootdev ESP_MOUNTPOINT
            end
    end.
End Uefi.

(** ** [NVBootctrlJetsonUEFI] and [_UEFIBootControl] *)

Record uefi_control : Type := mkUefiControl {
  uc_nvbootctrl_conf : string;
  uc_fw_bsp_version : BSPVersion;
  uc_rootfs_bsp_version : option BSPVersion;
  uc_current_slot : JetsonSlot;
  uc_standby_slot : JetsonSlot;
  uc_parent_devpath : string;
  uc_external_rootfs : bool;
  uc_standby_rootfs_devpath : string;
  uc_standby_rootfs_dev_partuuid : string;
  uc_standby_internal_emmc_devpath : string;
}.

(** The machine beside the one field of the controller that is set again
    after start-up, [active_bootloader_slot]. *)
Record uefi_state (W : Type) : Type := mkUefiState { us_active_bootloader_slot : option JetsonSlot; us_env : W }.
Arguments mkUefiState {W}.
Arguments us_active_bootloader_slot {W}.
Arguments us_env {W}.

#[export] Instance uefi_state_cmds {W} `{!CmdEnv W} : CmdEnv (uefi_state W) := fun cmd s =>
  let '(w, r) := exec cmd (us_env s) in (mkUefiState (us_active_bootloader_slot s) w, r).

#[export] Instance uefi_state_files {W} `{!CmdEnv W} `{!FileEnv W} : FileEnv (uefi_state W).
Proof.
  refine {| files s := files (us_env s); set_files f s := mkUefiState (us_active_bootloader_slot s) (set_files f (us_env s)) |}.
  intros f s. cbn. apply files_set.
Defined.

Section UefiStart.
Context {W : Type} `{HC : !CmdEnv W} `{HF : !FileEnv W} (chroot : option string).
Abbreviation UE := (PyM W pyexn).

Definition get_current_fw_bsp_version : UE BSPVersion :=
  raw ← dump_slots_info chroot None;
  match search match_current_version raw with
  | None => raise (nvbootctrl_exec_error None)
  | Some ver =>
      v ← from_result (match parse_bsp_version ver with Ok v => Ok v | Raise e => Raise (nvbootctrl_exec_error (Some e)) end);
      if major_rev v =? 0 then raise (nvbootctrl_exec_error None) else mret v
  end.

Definition get_active_bootloader_slot : UE (option JetsonSlot) :=
  raw ← dump_slots_info chroot None;
  mret (match search match_active_slot raw with
        | None => None
        | Some c => match parse_jslot c with Ok i => Some i | Raise _ => None end
        end).

Definition nvbootctrl_verify : UE (option string) :=
  on_called_process_error (out ← nvbootctrl chroot None "verify" None; mret (Some out)) (fun _ => mret None).

(** The slots, and [active_bootloader_slot]. *)
Definition uefi_slots : UE (JetsonSlot * JetsonSlot * option JetsonSlot) :=
  current ← get_current_slot chroot None;
  standby ← get_standby_slot chroot None;
  active ← get_active_bootloader_slot;
  mret (current, standby, active).

(** The checks of the device: what [nv_boot_control.conf] says. *)
Definition check_jetson_device (s : fsys) : result pyexn string :=
  match read_file s TEGRA_COMPAT_PATH with
  | None => Raise (uefi_exn "not a jetson device" None)
  | Some compat_info =>
      match str_find "tegra" compat_info with
      | None => Raise (uefi_exn "uncompatible device" None)
      | Some _ =>
          match read_file s NVBOOTCTRL_CONF_FPATH with
          | None => Raise (uefi_exn "nv_boot_ctrl.conf is missing!" None)
          | Some conf => Ok conf
          end
      end
  end.

Definition init_uefi_control (active_root : string) : UE (uefi_control * option JetsonSlot) :=
  s ← gets files;
  conf ← from_result (check_jetson_device s);
  fw ← except_exception get_current_fw_bsp_version (fun _ => uefi_exn "failed to detect BSP version" None);
  rootfs ← try_except (v ← detect_rootfs_bsp_version (path_of active_root); mret (Some v))
             (fun e => if is_exception e then mret None else raise e);
  if bsp_lt fw MINIMUM_SUPPORTED_BSP_VERSION then raise (uefi_exn "jetson-uefi only supports BSP version >= R34" None)
  else
    slots ← try_except uefi_slots
              (fun e => if is_nvbootctrl_exec_error e then raise (uefi_exn "failed to get slot info" (Some e)) else raise e);
    let '(current, standby, active) := slots in
    devs ← except_exception
             (dev ← get_current_rootfs_dev active_root true chroot; parent ← get_parent_dev dev true; mret (dev, parent))
             (fun e => uefi_exn "failed to detect rootfs dev" (Some e));
    let '(dev, parent) := devs in
    let standby_dev := get_partition_devpath parent (SLOT_PAR_MAP standby) in
    partuuid ← except_exception
                 (standby_uuid ← get_attrs_by_dev "PARTUUID" standby_dev true;
                  _ ← get_attrs_by_dev "PARTUUID" dev true; mret (strip standby_uuid))
                 (fun e => uefi_exn "failed to detect rootfs PARTUUID" (Some e));
    _ ← dump_slots_info chroot None;
    mret (mkUefiControl conf fw rootfs current standby parent (detect_external_rootdev parent) standby_dev partuuid
            (get_partition_devpath ("/dev/" +:+ INTERNAL_EMMC_DEVNAME)%string (SLOT_PAR_MAP standby)), active).
End UefiStart.

(** ** [JetsonUEFIBootControl] *)

Section UefiController.
Context {W : Type} `{HC : !CmdEnv W} `{HF : !FileEnv W}.
Context (fault : path -> bool) (chroot : option string) (uc : uefi_control).
Context (hash_new : string -> option (string -> string)) (standby_slot_mnt : string).
Context (yaml_request : string -> option FirmwareUpdateRequest) (yaml_manifest : string -> option raw_manifest).
Abbreviation US := (PyM (uefi_state W) pyexn).

Definition uefi_switch_boot_to_standby : US unit := set_active_boot_slot chroot (uc_standby_slot uc) None.

Definition uefi_finalize_switching_boot : PyM W pyexn bool := _ ← nvbootctrl_verify chroot; mret true.

(** [UEFIFirmwareUpdater(...)], then [firmware_update()]. *)
Definition run_firmware_updater (request : FirmwareUpdateRequest) (manifest : FirmwareManifest) : US bool :=
  package_bsp_ver ← from_result (parse_bsp_version (fs_bsp_version (firmware_spec manifest)));
  esp_part ← find_esp_dev (uc_parent_devpath uc);
  _ ← on_files (mkdir_exist_ok fault (path_of ESP_MOUNTPOINT));
  capsule_firmware_update fault hash_new standby_slot_mnt esp_part (uc_nvbootctrl_conf uc) (uc_fw_bsp_version uc)
    package_bsp_ver request manifest.

Definition uefi_firmware_update : US bool :=
  s ← gets files;
  let text p := read_file s (path_of standby_slot_mnt ++ p) in
  match load_firmware_package yaml_request yaml_manifest (text FIRMWARE_UPDATE_REQUEST_FPATH) (text FIRMWARE_MANIFEST_FPATH) with
  | None => mret false
  | Some (request, manifest) =>
      _ ← from_result (parse_bsp_version (fs_bsp_version (firmware_spec manifest)));
      run_firmware_updater request manifest
  end.

(** [bsp_ver] is what the OTA image was built for. *)
Definition current_slot_bsp_ver_check (bsp_ver : string) : bool * option (option BSPVersion * BSPVersion) :=
  match parse_bsp_version bsp_ver with
  | Raise _ => (false, Some (None, uc_fw_bsp_version uc))
  | Ok v => if bool_decide (uc_fw_bsp_version uc = v) then (true, None) else (false, Some (Some v, uc_fw_bsp_version uc))
  end.

(** A mismatch of the active bootloader slot and the running one is
    corrected: it would cancel the firmware update. *)
Definition correct_active_slot : US unit :=
  active ← gets us_active_bootloader_slot;
  match active with
  | None => mret tt
  | Some i =>
      if bool_decide (uc_current_slot uc = i) then mret tt
      else
        _ ← set_active_boot_slot chroot (uc_current_slot uc) None;
        i' ← get_active_bootloader_slot chroot;
        modify (fun s => mkUefiState i' (us_env s))
  end.

Context (active_ota : option tree) (cenv : copy_env) (write_fails : string -> bool).
Context (copytree : path -> path -> PyM fsys pyexn unit).

(** What comes before the firmware update. *)
Definition uefi_prepare (ota_config_files : OTAConfigFiles) : PyM (option tree * uefi_state W) pyexn unit :=
  _ ← on_platform
        (raise_as_ota_error (BootCtl BootControlBootConfigUpdateFailed)
           "failed to update extlinux.conf for standby slot" uefi_module
           (update_standby_slot_extlinux_cfg fault EXTLINUX_FILE (path_of standby_slot_mnt ++ EXTLINUX_FILE)
              (uc_standby_rootfs_dev_partuuid uc)));
  _ ← jetson_preserve_ota active_ota cenv write_fails ota_config_files;
  on_platform correct_active_slot.

Definition uefi_firmware_step : US bool :=
  raise_as_ota_error (BootCtl BootControlFirmwareUpdateFailed) "failed to prepare firmware update" uefi_module uefi_firmware_update.

Definition uefi_switch_step (firmware_update_triggered : bool) : US unit :=
  if firmware_update_triggered then mret tt
  else
    _ ← raise_as_ota_error (BootCtl BootControlSwitchBootFailed) "failed to switch boot to standby slot" uefi_module
          uefi_switch_boot_to_standby;
    _ ← dump_slots_info chroot None;
    mret tt.

Definition uefi_copy_boot : US unit :=
  if uc_external_rootfs uc then
    raise_as_ota_error (BootCtl BootControlBootConfigUpdateFailed)
      "failed to copy standby slot's /boot to internal emmc" uefi_module
      (copy_standby_slot_boot_to_internal_emmc fault copytree SEPARATE_BOOT_MOUNT_POINT (uc_standby_internal_emmc_devpath uc)
         (path_of standby_slot_mnt ++ ["boot"%string]))
  else mret tt.

Definition uefi_post_update_platform_specific (ota_config_files : OTAConfigFiles) : PyM (option tree * uefi_state W) pyexn unit :=
  _ ← uefi_prepare ota_config_files;
  triggered ← on_platform uefi_firmware_step;
  _ ← on_platform (uefi_switch_step triggered);
  on_platform uefi_copy_boot.

Definition uefi_finalizing_update (reboot_chroot : option string) : US unit := reboot [] reboot_chroot.

Context (active_root active_slot_mnt : string).
Context (parse_version_detail : string -> json_file string) (parse_failure_info : string -> json_file jval).

Definition uefi_mp_control : SlotMountHelper :=
  mkSlotMountHelper (uc_standby_rootfs_devpath uc) standby_slot_mnt active_root active_slot_mnt.

Definition uefi_hooks (dynamic_client : bool) : PlatformHooks (option tree * uefi_state W) OTAConfigFiles :=
  slot_hooks fault parse_version_detail parse_failure_info uefi_module dynamic_client uefi_mp_control
    (fun erase_standby => helper_prepare_standby_dev dynamic_client uefi_mp_control erase_standby None None)
    (mret tt) uefi_post_update_platform_specific.
End UefiController.

(** [JetsonUEFIBootControl.__init__]; also the value of
    [active_bootloader_slot]. *)
Definition init_uefi_controller {W} `{!CmdEnv W} `{!FileEnv W} (fault : path -> bool) (chroot : option string)
    (parse_version_detail : string -> json_file string) (parse_failure_info : string -> json_file jval)
    (active_root standby_slot_mnt : string) (dynamic_app : bool) : PyM (control * W) pyexn (uefi_control * option JetsonSlot) :=
  as_startup_failed "failed to start jetson-uefi controller: " uefi_module
    (r ← on_env (init_uefi_control chroot active_root);
     _ ← start_status_control fault parse_version_detail parse_failure_info
           (jslot_str (uc_current_slot (fst r))) (jslot_str (uc_standby_slot (fst r))) "/" standby_slot_mnt dynamic_app
           (uefi_finalize_switching_boot chroot);
     mret r).

(** ** Firmware is updated only when it may be *)

Section Gated.
Context {W : Type} `{HC : !CmdEnv W} `{HF : !FileEnv W}.
Context (fault : path -> bool) (hash_new : string -> option (string -> string)) (mnt : string).

(** A capsule whose file had the digest of the manifest when it was copied. *)
Definition capsule_verified (p : FirmwarePackage) : Prop :=
  payload_type p = UEFI_CAPSULE /\
  exists f s, payload_file mnt p = Ok f /\ cal_file_digest hash_new s f (dv_algorithm (payload_digest p)) = Ok (dv_digest (payload_digest p)).

Lemma check_digest_ok f d s s' :
  check_digest hash_new f d s = (s', Ok tt) -> cal_file_digest hash_new s f (dv_algorithm d) = Ok (dv_digest d).
Proof.
  unfold check_digest. intros H. apply pym_bind_ok in H as (s1 & s2 & Hg & H). injection Hg as <- <-.
  apply pym_bind_ok in H as (s1 & x & Hx & H). apply from_result_ok in Hx as [Hx ->].
  by destruct (String.eqb_spec x (dv_digest d)) as [<-|].
Qed.

Lemma copy_capsules_ok l b s s' :
  copy_capsules fault hash_new mnt l b s = (s', Ok true) -> b = true \/ exists p, p ∈ l /\ capsule_verified p.
Proof.
  revert b s. induction l as [|p l IH]; intros b s H; cbn [copy_capsules] in H.
  { injection H as <- ->. by left. }
  assert (Hlater : (exists p', p' ∈ l /\ capsule_verified p') -> exists p', p' ∈ p :: l /\ capsule_verified p')
    by (intros (p' & Hin & Hv); exists p'; split; [by right|done]).
  destruct (negb _) eqn:Et; [destruct (IH _ _ H); eauto|].
  apply negb_false_iff, bool_decide_eq_true in Et.
  apply pym_bind_ok in H as (s1 & f & Hf & H). apply from_result_ok in Hf as [Hf ->].
  apply pym_bind_ok in H as (s1 & copied & Hc & H). destruct (IH _ _ H) as [Hb|Hv]; [|eauto].
  apply orb_true_iff in Hb as [Hb| ->]; [by left|]. right. exists p. split; [by left|]. split; [done|].
  unfold try_except in Hc. match type of Hc with context [(?m ≫= ?k) s] => destruct ((m ≫= k) s) as [s2 [a|e]] eqn:E end.
  2: { destruct (is_exception e); by simplify_eq/=. }
  apply pym_bind_ok in E as (s3 & [] & E & _). apply check_digest_ok in E. eauto.
Qed.

(** A firmware update is triggered only when it is allowed: the running
    firmware and the package are R35.2 or newer, the package is not older than
    the running firmware, the device's specification is defined and the
    package is made for it, the OTA boot device is a known one, and at least
    one requested capsule with the digest of the manifest was copied. *)
Theorem uefi_firmware_update_gated esp conf cur pkg request manifest (w w' : W) :
  capsule_firmware_update fault hash_new mnt esp conf cur pkg request manifest w = (w', Ok true) ->
  bsp_ge cur FIRMWARE_UPDATE_MINIMUM_SUPPORTED_BSP_VERSION = true /\
  bsp_ge pkg FIRMWARE_UPDATE_MINIMUM_SUPPORTED_BSP_VERSION = true /\ bsp_ge pkg cur = true /\
  (exists tnspec, get_nvbootctrl_conf_tnspec conf = Ok (Some tnspec) /\ tnspec <> EmptyString /\ manifest_check_compat manifest tnspec = true) /\
  (exists qspi, detect_ota_bootdev_is_qspi conf = Ok (Some qspi)) /\
  exists p, p ∈ get_firmware_packages manifest request /\ capsule_verified p.
Proof.
  unfold capsule_firmware_update, bsp_ge. intros H.
  destruct (bsp_lt cur _); [done|]. destruct (bsp_lt pkg _); [done|]. destruct (bsp_lt pkg cur); [done|].
  apply pym_bind_ok in H as (w1 & t & Ht & H). apply from_result_ok in Ht as [Ht ->].
  destruct t as [[|c tnspec]|]; [done| |done]. destruct (manifest_check_compat manifest _) eqn:Ec; [|done]. cbn [negb] in H.
  apply pym_bind_ok in H as (w2 & prepared & Hp & H). destruct prepared; [|done]. cbn [negb] in H.
  apply pym_bind_ok in H as (w3 & q & Hq & H). apply from_result_ok in Hq as [Hq ->]. destruct q as [qspi|]; [|done].
  split_and!; [done..|by exists (String c tnspec)|eauto|].
  unfold ensure_esp_mounted in Hp. apply pym_bind_ok in Hp as (w4 & [] & _ & Hp).
  apply try_except_ok in Hp; [|intros e s1 a1; by destruct (is_exception e)].
  apply pym_bind_ok in Hp as (w5 & [] & _ & Hp). apply pym_bind_ok in Hp as (w6 & r & Hp & Hr).
  apply pym_bind_ok in Hr as (w7 & [] & _ & Hr). injection Hr as <- ->.
  unfold on_files in Hp. destruct (prepare_esp _ _ _ _ _ _ _) as [s1 r1] eqn:E. injection Hp as <- ->.
  apply pym_bind_ok in E as (s2 & prepared & Hc & E). destruct prepared; [|done].
  apply pym_bind_ok in Hc as (s3 & [] & _ & Hc). apply copy_capsules_ok in Hc as [?|?]; [done|done].
Qed.
End Gated.

(** ** The version file of the L4T launcher *)

Definition bsp_nonneg (v : BSPVersion) : Prop := 0 <= major_ver v /\ 0 <= major_rev v /\ 0 <= minor_rev v.
Definition is_hex_char (a : ascii) : bool := bool_decide (is_Some (hex_value a)).
Definition hex_digest (s : string) : Prop := str_forallb is_hex_char s = true.

Lemma hex_solid a : is_hex_char a = true -> is_space a = false /\ Ascii.eqb a ":" = false.
Proof. intros H. destruct a as [[] [] [] [] [] [] [] []]; (vm_compute in H; discriminate H) || by vm_compute. Qed.

Lemma digits_solid c s : is_digit c = false -> str_forallb is_digit s = true -> no_char c s = true.
Proof.
  intros Hc. apply str_forallb_impl. intros a Ha. apply negb_true_iff. by destruct (Ascii.eqb_spec a c) as [->|]; [congruence|].
Qed.

Lemma dump_bsp_solid v : bsp_nonneg v -> no_char ":" (dump_bsp_version v) = true.
Proof.
  intros (H1 & H2 & H3). unfold dump_bsp_version, no_char.
  destruct (pretty_Z_digits _ H1) as (D1 & _), (pretty_Z_digits _ H2) as (D2 & _), (pretty_Z_digits _ H3) as (D3 & _).
  rewrite !str_forallb_app. repeat (apply andb_true_iff; split); try done; by apply (digits_solid ":").
Qed.

Lemma dump_bsp_no_space v : bsp_nonneg v -> str_forallb (fun a => negb (is_space a)) (dump_bsp_version v) = true.
Proof.
  intros (H1 & H2 & H3). unfold dump_bsp_version.
  destruct (pretty_Z_digits _ H1) as (D1 & _), (pretty_Z_digits _ H2) as (D2 & _), (pretty_Z_digits _ H3) as (D3 & _).
  rewrite !str_forallb_app. repeat (apply andb_true_iff; split); try done;
    (eapply str_forallb_impl; [|eassumption]; intros a Ha; apply negb_true_iff; by apply is_digit_not_space).
Qed.

Lemma l4t_ver_roundtrip v d : bsp_nonneg v -> hex_digest d -> parse_l4t_ver (dump_l4t_ver (mkL4TVer v d)) = Ok (mkL4TVer v d).
Proof.
  intros Hv Hd. unfold parse_l4t_ver, dump_l4t_ver. cbn [l4t_bsp_ver l4t_sha256_digest].
  rewrite strip_no_space.
  - change (":" +:+ d)%string with (String ":" d). rewrite py_split_app by by apply dump_bsp_solid. rewrite py_split_no_char.
    + unfold parse_bsp_version. rewrite <- (str_app_nil_r (dump_bsp_version v)).
      destruct Hv as (? & ? & ?). by rewrite bsp_version_roundtrip.
    + eapply str_forallb_impl; [|exact Hd]. intros a Ha. cbn. by destruct (hex_solid a Ha) as [_ ->].
  - rewrite !str_forallb_app, dump_bsp_no_space by done. cbn. eapply str_forallb_impl; [|exact Hd].
    intros a Ha. cbn. by destruct (hex_solid a Ha) as [-> _].
Qed.

Section VersionFile.
Context (fault : path -> bool) (hash_new : string -> option (string -> string)).
Context (d : path) (c : string) (launcher : path).
Context (Hhex : forall h t, hash_new "sha256" = Some h -> hex_digest (h t)).
Context (Hne : launcher <> d ++ [c]).
#[local] Abbreviation control_version := (l4tlauncher_version_control fault hash_new (d ++ [c]) launcher).

(** The launcher and what is seen of it. *)
Record launcher_seen (digest : string) (s : fsys) : Prop := mkSeen {
  seen_wf : fs_wf s;
  seen_plain : plain s d;
  seen_ver_plain : plain s (d ++ [c]);
  seen_launcher_plain : plain s launcher;
  seen_digest : cal_file_digest hash_new s launcher "sha256" = Ok digest;
}.

Lemma digest_same s s' : plain s launcher -> plain s' launcher -> read_at s' launcher = read_at s launcher ->
  cal_file_digest hash_new s' launcher "sha256" = cal_file_digest hash_new s launcher "sha256".
Proof. intros H1 H2 H. unfold cal_file_digest, read_file. rewrite !stat_plain by done. unfold read_at in H. by rewrite H. Qed.

Lemma seen_after_unlink digest s s' :
  launcher_seen digest s -> unlink_missing_ok fault (d ++ [c]) s = (s', Ok tt) -> launcher_seen digest s'.
Proof using Hne.
  intros [Hwf Hd Hv Hl Hdig] H. assert (Hnil : d ++ [c] <> []) by (by destruct d).
  unfold unlink_missing_ok in H. apply pym_bind_ok in H as (s1 & s2 & Hg & H). injection Hg as <- <-.
  rewrite located_plain in H by done. cbn [mbind option_bind] in H.
  destruct (fs_get s (d ++ [c])) as [n|] eqn:En; [|by injection H as <-].
  assert (Hx : (forall u m, n <> FsDir u m) /\ s' = remove_node (d ++ [c]) s).
  { destruct n as [i|u m|t]; [|done|].
    all: apply pym_bind_ok in H as (s3 & q & H1 & H); unfold entry_place in H1;
      apply pym_bind_ok in H1 as (s4 & s5 & Hg & H1); injection Hg as <- <-;
      destruct (fault _); [done|]; rewrite located_plain in H1 by done; rewrite removelast_last in H1;
      destruct (fs_get s d) as [[]|]; try done; injection H1 as <- <-; injection H as <-; done. }
  destruct Hx as [Hnd ->].
  assert (Hp : forall p, plain s p -> plain (remove_node (d ++ [c]) s) p).
  { intros p Hp. apply (no_link_plain s); [done|]. intros q t. rewrite remove_node_get by done. by destruct (decide _). }
  split; [by eapply remove_node_wf|by apply Hp..|].
  rewrite <- Hdig. apply digest_same; [done|by apply Hp|]. unfold read_at. rewrite remove_node_get by done.
  by rewrite decide_False.
Qed.

Lemma seen_after_write digest text s s' :
  launcher_seen digest s -> write_str_to_file_atomic fault (d ++ [c]) text true s = (s', Ok tt) ->
  launcher_seen digest s' /\ read_file s' (d ++ [c]) = Some text.
Proof using Hne.
  intros [Hwf Hd Hv Hl Hdig] H. assert (Hnil : d ++ [c] <> []) by (by destruct d).
  unfold write_str_to_file_atomic in H. apply pym_bind_ok in H as (s1 & s2 & Hg & H). injection Hg as <- <-.
  rewrite realpath_plain in H by done. apply replace_by_new_ok in H as (-> & (u & m & Hp) & Hnd); [|done].
  assert (Hp' : forall p, plain s p -> plain (put_new_file (d ++ [c]) (mkIFile text DEFAULT_FILE_MODE) s) p) by (intros p; by apply plain_new).
  split.
  - split; [apply put_new_file_wf; rewrite ?removelast_last; eauto|by apply Hp'..|]. rewrite <- Hdig. apply digest_same; [done|by apply Hp'|].
    rewrite read_at_new by done. by rewrite decide_False.
  - unfold read_file. rewrite stat_plain by by apply Hp'. fold (read_at (put_new_file (d ++ [c]) (mkIFile text DEFAULT_FILE_MODE) s) (d ++ [c])).
    rewrite read_at_new by done. by rewrite decide_True.
Qed.

(** With a good version file the answer is that of the file. *)
Lemma version_from_file digest v cur s :
  launcher_seen digest s -> hex_digest digest -> bsp_nonneg v ->
  read_file s (d ++ [c]) = Some (dump_l4t_ver (mkL4TVer v digest)) -> control_version cur s = (s, Ok v).
Proof.
  intros Hs Hx Hv Hr. unfold l4tlauncher_version_control. unfold mbind at 1, pym_bind at 1, get.
  unfold mbind at 1, pym_bind at 1, from_result. rewrite (seen_digest _ _ Hs). unfold mbind at 1, pym_bind at 1, try_except.
  rewrite Hr. unfold mbind at 1, pym_bind at 1, from_result. rewrite l4t_ver_roundtrip by done. cbn [l4t_sha256_digest].
  by rewrite String.eqb_refl.
Qed.

Lemma known_version_nonneg digest v : dict_get digest L4TLAUNCHER_BSP_VER_SHA256_MAP = Some v -> bsp_nonneg v.
Proof. unfold L4TLAUNCHER_BSP_VER_SHA256_MAP. cbn. intros H. unfold bsp_nonneg. repeat case_match; simplify_eq; cbn; lia. Qed.

(** The version of the installed launcher is found once: what a call
    answers, from the version file, the table of known launchers or the
    version of the running firmware, every later call answers too, whatever
    firmware runs then, and it changes nothing. *)
Theorem l4tlauncher_version_stable cur cur' s s' v :
  fs_wf s -> plain s (d ++ [c]) -> plain s launcher -> bsp_nonneg cur ->
  control_version cur s = (s', Ok v) -> control_version cur' s' = (s', Ok v).
Proof using Hhex Hne.
  intros Hwf Hp Hl Hcur H. assert (Hd : plain s d) by (eapply plain_prefix; [exact Hp|by exists [c]]).
  unfold l4tlauncher_version_control in H. apply pym_bind_ok in H as (s1 & s2 & Hg & H). injection Hg as <- <-.
  apply pym_bind_ok in H as (s1 & digest & Hdig & H). apply from_result_ok in Hdig as [Hdig ->].
  assert (Hs : launcher_seen digest s) by done.
  assert (Hx : hex_digest digest).
  { unfold cal_file_digest in Hdig. destruct (read_file s launcher); [|done]. destruct (hash_new "sha256") eqn:E; [|done].
    injection Hdig as <-. by apply Hhex. }
  apply pym_bind_ok in H as (s1 & known & Hk & H). unfold try_except in Hk.
  match type of Hk with (match ?m s with _ => _ end) = _ => destruct (m s) as [s2 [k|e]] eqn:E end.
  - (* the version file was good *)
    injection Hk as <- <-. assert (Hsame : s2 = s /\ k <> None).
    { destruct (read_file s (d ++ [c])); [|done]. apply pym_bind_ok in E as (s3 & w & Hw & E).
      apply from_result_ok in Hw as [_ ->]. destruct (String.eqb digest _); [|done]. by injection E as <- <-. }
    destruct Hsame as [-> Hsome]. destruct k as [k|]; [|done]. injection H as <- <-.
    unfold l4tlauncher_version_control. unfold mbind at 1, pym_bind at 1, get.
    unfold mbind at 1, pym_bind at 1, from_result at 1. rewrite Hdig. unfold mbind at 1, pym_bind at 1, try_except. by rewrite E.
  - (* it is written again *)
    destruct (is_exception e); [|done]. apply pym_bind_ok in Hk as (s3 & [] & Hu & Hk). injection Hk as <- <-.
    assert (s2 = s) as ->.
    { clear -E. destruct (read_file s (d ++ [c])); [|by injection E]. unfold mbind, pym_bind, from_result in E.
      destruct (parse_l4t_ver _); [|by injection E]. destruct (String.eqb digest _); by injection E. }
    apply pym_bind_ok in H as (s4 & [] & Hw & H). injection H as <- <-.
    assert (Hv : bsp_nonneg (default cur (dict_get digest L4TLAUNCHER_BSP_VER_SHA256_MAP))).
    { destruct (dict_get digest _) eqn:Ek; [by apply known_version_nonneg in Ek|done]. }
    apply seen_after_write with (digest := digest) in Hw as [Hs' Hr]; [|by eapply seen_after_unlink].
    by eapply version_from_file.
Qed.
End VersionFile.

(** ** The slot of the next boot *)

#[export] Instance uefi_state_slots {W} `{!CmdEnv W} `{!FileEnv W} `{!NvBootEnv W} : NvBootEnv (uefi_state W).
Proof.
  refine {| nv_active t s := nv_active t (us_env s) |}.
  - intros pre target slot s s' out Hpre H. unfold exec, uefi_state_cmds in H.
    destruct (exec _ (us_env s)) as [w r] eqn:E. injection H as <- ->. by eapply nv_set_active.
  - intros ch ns prog args s Hc Hp t. unfold exec, uefi_state_cmds. pose proof (nv_others ch ns prog args (us_env s) Hc Hp t) as H.
    by destruct (exec _ (us_env s)).
  - intros f s t. apply nv_files.
Defined.

Section Slots.
Context {W : Type} `{HC : !CmdEnv W} `{HF : !FileEnv W} `{HN : !NvBootEnv W}.
Context (fault : path -> bool) (chroot : option string) (hash_new : string -> option (string -> string)) (mnt : string).

Lemma slots_or_false (m : PyM W pyexn bool) : keeps same_slots m -> keeps same_slots (or_false m).
Proof.
  intros Hm. apply keeps_try_except; [apply _|done|]. intros e. destruct (is_exception e); [apply keeps_ret, _|apply keeps_raise, _].
Qed.

Lemma slots_esp {A} esp mp (body : PyM W pyexn A) :
  esp <> "set-active-boot-slot"%string -> mp <> "set-active-boot-slot"%string ->
  keeps same_slots body -> keeps same_slots (ensure_esp_mounted fault esp mp body).
Proof.
  intros He Hm Hb. unfold ensure_esp_mounted. repeat sstep; [|done|by apply frame_umount].
  by apply frame_mount_rw.
Qed.

Lemma slots_qspi : keeps same_slots (trigger_capsule_update_qspi_ota_bootdev (HC:=HC) fault).
Proof.
  unfold trigger_capsule_update_qspi_ota_bootdev, ensure_efivarfs_mounted, is_target_mounted.
  sstep; [|repeat sstep].
  - repeat (sstep || destruct (negb _)).
  - destruct a; not_set.
  - apply slots_or_false. repeat sstep.
Qed.

(** The device found is one of the given parent. *)
Lemma find_esp_other parent (w w' : W) esp :
  startswith parent "set-active-boot-slot" = false -> find_esp_dev parent w = (w', Ok esp) -> esp <> "set-active-boot-slot"%string.
Proof.
  intros Hp H. apply pym_bind_ok in H as (w1 & parts & _ & H). unfold detect_esp_dev in H. destruct parts as [l|]; [|done].
  destruct (List.find _ l) as [p|] eqn:E; [|done]. injection H as <- <-. apply List.find_some in E as [_ E]. intros ->.
  change (strip "set-active-boot-slot") with "set-active-boot-slot"%string in E. congruence.
Qed.

Lemma slots_find_esp parent : keeps same_slots (find_esp_dev (W:=W) parent).
Proof. unfold find_esp_dev, get_dev_by_token, subprocess_check_output. repeat sstep. Qed.

Lemma slots_non_qspi mp :
  mp <> "set-active-boot-slot"%string -> keeps same_slots (trigger_capsule_update_non_qspi_ota_bootdev (HC:=HC) fault mp).
Proof.
  intros Hmp. apply slots_or_false, keeps_bind_when; [apply _|apply slots_find_esp|]. intros w w' esp H.
  apply find_esp_other in H; [|done]. revert w'. match goal with |- forall w', same_slots w' (fst (?m w')) => change (keeps same_slots m) end.
  sstep; [|sstep]. apply slots_esp; [done|done|sstep].
Qed.

Lemma slots_capsule_update esp conf cur pkg request manifest :
  esp <> "set-active-boot-slot"%string ->
  keeps same_slots (capsule_firmware_update (HC:=HC) fault hash_new mnt esp conf cur pkg request manifest).
Proof.
  intros He. unfold capsule_firmware_update. do 3 (sstep; [sstep|]). sstep; [sstep|]. destruct a as [[|c tnspec]|]; [sstep| |sstep].
  sstep; [sstep|]. sstep; [apply slots_esp; [done|done|sstep]|]. sstep; [sstep|]. sstep; [sstep|].
  destruct a0 as [[]|]; [apply slots_qspi|by apply slots_non_qspi|sstep].
Qed.
End Slots.

Section SwitchOrFirmware.
Context {W : Type} `{HC : !CmdEnv W} `{HF : !FileEnv W} `{HN : !NvBootEnv W}.
Context (fault : path -> bool) (chroot : option string) (uc : uefi_control).
Context (hash_new : string -> option (string -> string)) (mnt : string).
Context (yaml_request : string -> option FirmwareUpdateRequest) (yaml_manifest : string -> option raw_manifest).
Context (active_ota : option tree) (cenv : copy_env) (write_fails : string -> bool).
Context (copytree : path -> path -> PyM fsys pyexn unit).
Context (Hchroot : chroot <> Some "set-active-boot-slot"%string)
  (Hparent : startswith (uc_parent_devpath uc) "set-active-boot-slot" = false)
  (Hdev : uc_standby_internal_emmc_devpath uc <> "set-active-boot-slot"%string).

#[local] Abbreviation prepare :=
  (uefi_prepare (HC:=HC) fault chroot uc mnt active_ota cenv write_fails).
#[local] Abbreviation firmware_step := (uefi_firmware_step (HC:=HC) fault uc hash_new mnt yaml_request yaml_manifest).
#[local] Abbreviation post_update_hook :=
  (uefi_post_update_platform_specific (HC:=HC) fault chroot uc hash_new mnt yaml_request yaml_manifest active_ota cenv write_fails copytree).

Lemma slots_uefi_firmware : keeps same_slots firmware_step.
Proof using HN Hparent.
  unfold uefi_firmware_step, uefi_firmware_update, run_firmware_updater. sstep. sstep; [sstep|].
  destruct (load_firmware_package _ _ _ _) as [[request manifest]|]; [|sstep]. sstep; [sstep|]. sstep; [sstep|].
  apply keeps_bind_when; [apply _|apply slots_find_esp|]. intros w w' esp H. apply find_esp_other in H; [|done].
  revert w'. match goal with |- forall w', same_slots w' (fst (?m w')) => change (keeps same_slots m) end.
  sstep; [sstep|]. by apply slots_capsule_update.
Qed.

Lemma slots_dump : keeps same_slots (dump_slots_info (W:=uefi_state W) chroot None).
Proof using HN Hchroot. unfold dump_slots_info, nvbootctrl. repeat sstep. Qed.

Lemma slots_uefi_copy : keeps same_slots (uefi_copy_boot (HC:=HC) fault uc mnt copytree).
Proof using HN Hdev. unfold uefi_copy_boot. repeat sstep. by apply frame_copy_boot. Qed.

Lemma on_files_field {A} (m : PyM fsys pyexn A) (s s' : uefi_state W) r :
  on_files m s = (s', r) -> us_active_bootloader_slot s' = us_active_bootloader_slot s.
Proof. unfold on_files. destruct (m (files s)). by intros [= <- _]. Qed.

Lemma extlinux_field a b u (s s' : uefi_state W) :
  update_standby_slot_extlinux_cfg fault a b u s = (s', Ok tt) -> us_active_bootloader_slot s' = us_active_bootloader_slot s.
Proof.
  intros H. apply pym_bind_ok in H as (s1 & x & Hg & H). injection Hg as <- <-. apply pym_bind_ok in H as (s2 & [] & H1 & H).
  apply pym_bind_ok in H as (s3 & y & Hg & H). injection Hg as <- <-. destruct (read_file _ _); [|done].
  apply on_files_field in H. apply on_files_field in H1. congruence.
Qed.

(** The slot of the next boot when the hook does not switch. *)
Definition unswitched (s s' : uefi_state W) : Prop :=
  match us_active_bootloader_slot s with
  | Some i => nv_active None (us_env s') = if bool_decide (uc_current_slot uc = i) then nv_active None (us_env s) else uc_current_slot uc
  | None => nv_active None (us_env s') = nv_active None (us_env s)
  end.

Lemma correct_active_ok s s' : correct_active_slot (HC:=HC) chroot uc s = (s', Ok tt) -> unswitched s s'.
Proof using HN Hchroot.
  unfold correct_active_slot, unswitched. intros H. apply pym_bind_ok in H as (s1 & a & Hg & H). injection Hg as <- <-.
  destruct (us_active_bootloader_slot s) as [i|]; [|by injection H as <-]. destruct (bool_decide _); [by injection H as <-|].
  apply pym_bind_ok in H as (s2 & [] & Hs & H). apply set_active_ok in Hs.
  apply pym_bind_ok in H as (s3 & i' & Ha & H). injection H as <-. cbn [us_env].
  assert (Hk : keeps same_slots (get_active_bootloader_slot (W:=uefi_state W) chroot))
    by (unfold get_active_bootloader_slot; sstep; [apply slots_dump|sstep]).
  specialize (Hk s2 None). rewrite Ha in Hk. cbn in Hk, Hs. congruence.
Qed.

Lemma prepare_ok cfg d s d1 s1 : prepare cfg (d, s) = (d1, s1, Ok tt) -> unswitched s s1.
Proof using HN Hchroot.
  intros H. apply pym_bind_ok in H as ([d2 s2] & [] & H1 & H). apply pym_bind_ok in H as ([d3 s3] & [] & H2 & H).
  unfold on_platform in H1, H. cbn [fst snd] in H1, H.
  destruct (raise_as_ota_error _ _ _ _ s) as [s4 r4] eqn:E1 in H1. injection H1 as <- <- ->.
  destruct (correct_active_slot _ _ s3) as [s5 r5] eqn:E3. injection H as <- <- ->.
  assert (Hk1 : us_active_bootloader_slot s4 = us_active_bootloader_slot s /\ same_slots s s4).
  { apply raise_as_ok in E1. split; [by eapply extlinux_field|]. pose proof (frame_extlinux fault EXTLINUX_FILE (path_of mnt ++ EXTLINUX_FILE) (uc_standby_rootfs_dev_partuuid uc) s) as Hk.
    by rewrite E1 in Hk. }
  assert (s3 = s4) as ->.
  { unfold jetson_preserve_ota in H2. destruct (preserve_ota_dir_and_install_config_files _ _ _ _ _); by injection H2. }
  destruct Hk1 as [Hf Hk1]. apply correct_active_ok in E3. unfold unswitched in *. rewrite Hf in E3.
  specialize (Hk1 None). cbn in Hk1. destruct (us_active_bootloader_slot s); [|congruence]. destruct (bool_decide _); congruence.
Qed.

(** A firmware update and a switch of the slots exclude each other: a
    switch after the capsule is prepared would cancel the update.  Once the
    configuration of the standby slot is written and the firmware step has
    run, the next boot is the standby slot's when no firmware update was
    triggered and the hook returns; otherwise, also when a later step fails,
    it is as it was, or the running slot if the active slot had been another
    one.  The hook returns only when the firmware step did. *)
Theorem uefi_switch_excludes_firmware cfg d s d1 s1 s2 x d' s' r :
  prepare cfg (d, s) = (d1, s1, Ok tt) -> firmware_step s1 = (s2, x) -> post_update_hook cfg (d, s) = (d', s', r) ->
  (x <> Ok false -> unswitched s s') /\
  (x = Ok false -> r = Ok tt -> nv_active None (us_env s') = uc_standby_slot uc) /\
  (r = Ok tt -> exists triggered, x = Ok triggered).
Proof using HN Hchroot Hparent Hdev.
  intros Hp Hf H. pose proof (prepare_ok _ _ _ _ _ Hp) as Hu. pose proof (slots_uefi_firmware s1) as Hk. rewrite Hf in Hk. cbn [fst] in Hk.
  unfold uefi_post_update_platform_specific in H. unfold mbind at 1, pym_bind at 1 in H. rewrite Hp in H.
  unfold mbind at 1, pym_bind at 1, on_platform at 1 in H. cbn [fst snd] in H. rewrite Hf in H.
  assert (Hmono : forall s3, same_slots s1 s3 -> unswitched s s3).
  { intros s3 Hs. specialize (Hs None). cbn in Hs. unfold unswitched in *. destruct (us_active_bootloader_slot s); congruence. }
  destruct x as [triggered|e].
  2: { injection H as <- <- <-. split_and!; [intros _; by apply Hmono|done|done]. }
  unfold mbind at 1, pym_bind at 1, on_platform at 1 in H. cbn [fst snd] in H.
  destruct (uefi_switch_step chroot uc triggered s2) as [s3 r3] eqn:Es. pose proof (slots_uefi_copy s3) as Hk3. destruct triggered.
  - injection Es as <- <-. unfold on_platform in H. cbn [fst snd] in H. destruct (uefi_copy_boot _ _ _ _ s2) as [s4 r4]. injection H as <- <- <-.
    split_and!; [intros _; apply Hmono; by etransitivity|done|eauto].
  - destruct r3 as [[]|e]; [|injection H as <- <- <-; split_and!; [done|done|eauto]].
    unfold on_platform in H. cbn [fst snd] in H. destruct (uefi_copy_boot _ _ _ _ s3) as [s4 r4]. injection H as <- <- <-.
    split_and!; [done| |eauto]. intros _ _. apply pym_bind_ok in Es as (s5 & [] & Hs & Es). apply raise_as_ok, set_active_ok in Hs.
    apply pym_bind_ok in Es as (s6 & out & Hd & Es). injection Es as <-.
    pose proof (slots_dump s5 None) as Hk5. rewrite Hd in Hk5. specialize (Hk3 None). cbn in *. congruence.
Qed.
End SwitchOrFirmware.

(** ** Examples *)

Definition example_sha256 (alg : string) : option (string -> string) :=
  if String.eqb alg "sha256" then Some (fun t => if String.eqb t "capsule" then "c0de" else "abcd")%string else None.

Lemma example_sha256_hex h t : example_sha256 "sha256" = Some h -> hex_digest (h t).
Proof. intros [= <-]. by destruct (String.eqb t "capsule"). Qed.

(** A device that boots from NVMe storage, with QSPI flash. *)
Definition example_uc (external : bool) : uefi_control :=
  mkUefiControl (unlines ["TNSPEC 3701-500-0005-G.0"; "TEGRA_OTA_BOOT_DEVICE /dev/mtdblock0"]%string)
    (mkBSPVersion 35 4 1) None JSLOT_A JSLOT_B "/dev/nvme0n1" external "/dev/nvme0n1p2" "1111-22" "/dev/mmcblk0p2".

Definition example_capsule : FirmwarePackage :=
  mkFirmwarePackage "bl_capsule" (LocFile "/opt/ota/firmware/TEGRA_BL.Cap") UEFI_CAPSULE (mkDigestValue "sha256" "c0de").
Definition example_capsule_manifest : FirmwareManifest :=
  mkFirmwareManifest "nvidia_jetson" "orin" "agx"
    (mkFirmwareSpec "R35.5.0" (mkCompat "3701" "500" "0005" "G" "0")) [example_capsule].
Definition example_raw_manifest (s : string) : option raw_manifest :=
  Some (mkRawManifest "nvidia_jetson" "orin" "agx" (mkFirmwareSpec "R35.5.0" (mkCompat "3701" "500" "0005" "G" "0"))
          [mkRawPackage "bl_capsule" "file:///opt/ota/firmware/TEGRA_BL.Cap" "UEFI-CAPSULE" "sha256:c0de"]).

Definition example_uefi_files : fsys :=
  put_files
    [(["boot"; "extlinux"; "extlinux.conf"], unlines ["LABEL primary"; "  APPEND root=/dev/nvme0n1p1 rw"]);
     (["mnt"; "standby"; "opt"; "ota"; "firmware"; "firmware_update.yaml"], "request");
     (["mnt"; "standby"; "opt"; "ota"; "firmware"; "firmware_manifest.yaml"], "manifest");
     (["mnt"; "standby"; "opt"; "ota"; "firmware"; "TEGRA_BL.Cap"], "capsule");
     (["mnt"; "esp"; "EFI"; "BOOT"; "BOOTAA64.efi"], "launcher")]%string
    (put_dirs [["boot"]; ["boot"; "extlinux"]; ["mnt"]; ["mnt"; "standby"]; ["mnt"; "standby"; "opt"]; ["mnt"; "standby"; "opt"; "ota"];
               ["mnt"; "standby"; "opt"; "ota"; "firmware"]; ["mnt"; "esp"]; ["mnt"; "esp"; "EFI"]; ["mnt"; "esp"; "EFI"; "BOOT"];
               ["sys"]; ["sys"; "firmware"]; ["sys"; "firmware"; "efi"]; ["sys"; "firmware"; "efi"; "efivars"]]%string (mkFsys ∅ ∅ 0)).
Definition example_output (cmd : argv) : string :=
  if bool_decide (head cmd = Some "blkid"%string) then unlines ["/dev/mmcblk0p10"; "/dev/nvme0n1p3"]%string else EmptyString.
Definition example_uefi (next : JetsonSlot) : jetson_machine :=
  mkJetsonMachine example_uefi_files (fun _ => next) (fun _ => false) example_output.
Definition no_boot_copy (src dst : path) : PyM fsys pyexn unit := raise (os_exn ENOENT).

Lemma uefi_firmware_update_gated_witness :
  exists w', capsule_firmware_update (fun _ => false) example_sha256 "/mnt/standby" "/dev/nvme0n1p3" (uc_nvbootctrl_conf (example_uc false))
    (mkBSPVersion 35 4 1) (mkBSPVersion 35 5 0) ["bl_capsule"%string] example_capsule_manifest (example_uefi JSLOT_A) = (w', Ok true) /\
    exists p, p ∈ get_firmware_packages example_capsule_manifest ["bl_capsule"%string] /\ capsule_verified example_sha256 "/mnt/standby" p.
Proof.
  destruct (capsule_firmware_update (fun _ => false) example_sha256 "/mnt/standby" "/dev/nvme0n1p3" (uc_nvbootctrl_conf (example_uc false))
    (mkBSPVersion 35 4 1) (mkBSPVersion 35 5 0) ["bl_capsule"%string] example_capsule_manifest (example_uefi JSLOT_A)) as [w' r] eqn:E.
  assert (Hr : r = Ok true) by (change r with (snd (w', r)); rewrite <- E; vm_compute; reflexivity). subst r.
  exists w'. split; [reflexivity|].
  exact (proj2 (proj2 (proj2 (proj2 (proj2 (uefi_firmware_update_gated (fun _ => false) example_sha256 "/mnt/standby" "/dev/nvme0n1p3"
    (uc_nvbootctrl_conf (example_uc false)) (mkBSPVersion 35 4 1) (mkBSPVersion 35 5 0) ["bl_capsule"%string] example_capsule_manifest
    (example_uefi JSLOT_A) w' E)))))).
Defined.

(** The launcher is not in the table: it counts as R35.4.1, also later. *)
Lemma l4tlauncher_version_stable_witness :
  exists s', l4tlauncher_version_control (fun _ => false) example_sha256 L4TLAUNCHER_VER_FPATH BOOTAA64_AT_ESP (mkBSPVersion 35 4 1) example_uefi_files
      = (s', Ok (mkBSPVersion 35 4 1)) /\
    l4tlauncher_version_control (fun _ => false) example_sha256 L4TLAUNCHER_VER_FPATH BOOTAA64_AT_ESP (mkBSPVersion 36 3 0) s'
      = (s', Ok (mkBSPVersion 35 4 1)).
Proof.
  destruct (l4tlauncher_version_control (fun _ => false) example_sha256 L4TLAUNCHER_VER_FPATH BOOTAA64_AT_ESP (mkBSPVersion 35 4 1) example_uefi_files)
    as [s' r] eqn:E.
  assert (Hr : r = Ok (mkBSPVersion 35 4 1)) by (change r with (snd (s', r)); rewrite <- E; vm_compute; reflexivity). subst r.
  exists s'. split; [reflexivity|].
  apply (l4tlauncher_version_stable (fun _ => false) example_sha256 ESP_BOOT_DIR "l4tlauncher_version" BOOTAA64_AT_ESP
    example_sha256_hex ltac:(discriminate) (mkBSPVersion 35 4 1) (mkBSPVersion 36 3 0) example_uefi_files s' (mkBSPVersion 35 4 1)).
  - apply fs_wfb_ok. vm_compute. reflexivity.
  - apply plainb_ok. vm_compute. reflexivity.
  - apply plainb_ok. vm_compute. reflexivity.
  - unfold bsp_nonneg. cbn. lia.
  - exact E.
Defined.

#[local] Abbreviation run_uefi_hook external request s :=
  (uefi_post_update_platform_specific (fun _ => false) None (example_uc external) example_sha256 "/mnt/standby" (fun _ => request) example_raw_manifest
     None no_links_env (fun _ => false) no_boot_copy no_config_files (None, s)).

(** The active slot had been the standby one: with a firmware update the next
    boot is the running slot's. *)
Lemma uefi_switch_excludes_firmware_witness :
  exists d' s', run_uefi_hook false (Some ["bl_capsule"%string]) (mkUefiState (Some JSLOT_B) (example_uefi JSLOT_B)) = (d', s', Ok tt) /\
    nv_active None (us_env s') = JSLOT_A.
Proof.
  destruct (uefi_prepare (fun _ => false) None (example_uc false) "/mnt/standby" None no_links_env (fun _ => false)
    no_config_files (None, mkUefiState (Some JSLOT_B) (example_uefi JSLOT_B))) as [[d1 s1] r1] eqn:E1.
  assert (Hr : r1 = Ok tt) by (change r1 with (snd (d1, s1, r1)); rewrite <- E1; vm_compute; reflexivity). subst r1.
  destruct (uefi_firmware_step (fun _ => false) (example_uc false) example_sha256 "/mnt/standby" (fun _ => Some ["bl_capsule"%string])
    example_raw_manifest s1) as [s2 x] eqn:E2.
  assert (Hx : x = Ok true).
  { change x with (snd (s2, x)). rewrite <- E2. change s1 with (snd (fst (d1, s1, @Ok pyexn unit tt))). rewrite <- E1. vm_compute. reflexivity. }
  destruct (run_uefi_hook false (Some ["bl_capsule"%string]) (mkUefiState (Some JSLOT_B) (example_uefi JSLOT_B))) as [[d' s'] r] eqn:E.
  assert (Hr : r = Ok tt) by (change r with (snd (d', s', r)); rewrite <- E; vm_compute; reflexivity). subst r.
  exists d', s'. split; [reflexivity|].
  destruct (uefi_switch_excludes_firmware (fun _ => false) None (example_uc false) example_sha256 "/mnt/standby"
    (fun _ => Some ["bl_capsule"%string]) example_raw_manifest None no_links_env (fun _ => false) no_boot_copy
    ltac:(discriminate) eq_refl ltac:(discriminate) no_config_files None (mkUefiState (Some JSLOT_B) (example_uefi JSLOT_B))
    d1 s1 s2 x d' s' (Ok tt) E1 E2 E) as [H _].
  apply H. rewrite Hx. discriminate.
Defined.

(** The copy of [/boot] comes after the switch: when it fails, so does the
    update, and the next boot is still the standby slot's. *)
Example failed_boot_copy_leaves_switched :
  exists e, snd (run_uefi_hook true None (mkUefiState (Some JSLOT_A) (example_uefi JSLOT_A))) = Raise e /\ is_ota_error e = true /\
    nv_active None (us_env (snd (fst (run_uefi_hook true None (mkUefiState (Some JSLOT_A) (example_uefi JSLOT_A)))))) = JSLOT_B.
Proof. eexists. split_and!; by vm_compute. Qed.

(** The ESP stays mounted when what is done on it fails, here for a missing
    launcher. *)
Example esp_left_mounted :
  let run := capsule_firmware_update (fun _ => false) example_sha256 "/mnt/standby" "/dev/nvme0n1p3" (uc_nvbootctrl_conf (example_uc false))
      (mkBSPVersion 35 4 1) (mkBSPVersion 35 5 0) ["bl_capsule"%string] example_capsule_manifest
      (remove_node BOOTAA64_AT_ESP example_uefi_files, mkMountWorld [] []) in
  mounted ESP_MOUNTPOINT (mount_table (fst run)) = true /\ exists e, snd run = Raise e.
Proof. split; [by vm_compute|]. eexists. by vm_compute. Qed.
