(* ===== verification/Dpi.v ===== *)
(** * Driving the DPI

    Models [src/src/otaclient/boot_control/_dpi.py]: one run of the platform's
    installer (the DPI) with the protocol on its standard output, its log on
    the standard error, its time limit and its verbs.

    The process is an environment: [dpi_spawn] runs a command line under a time
    limit to its end and gives what it printed; [dpi_killed] is what killing it
    in the middle does.  The other thread only reads the log, so that the log
    is read as a whole.  [json.loads] is a parameter. *)

From stdpp Require Import base gmap strings list option sets pretty.
From Stdlib Require Import ZArith Ascii String Lia.
From S2P Require Import Prelude Errors TextLines CertStore LegacyCSV JetsonText CmdHelper.

(** What [json.loads] gives, as far as it is looked at. *)
Inductive jvalue : Type :=
| JVStr (s : string)
| JVObj (o : list (string * jvalue))
| JVOther.

Definition DEFAULT_TIMEOUT : Z := 60.
Definition INSTALL_TIMEOUT : Z := 3600.
Definition RESUME_TIMEOUT : Z := 1800.
Definition REBOOT_TIMEOUT : Z := 600.
Definition SOURCE_DIGEST_MIN_RATE : Z := Z.shiftl 32 20.

(** [DPIError] is a [PartitionInstallError]. *)
Definition dpi_error (msg : string) (cause : option pyexn) : pyexn := PyExn (XOther "DPIError") [AStr msg] cause cause.
Definition is_dpi_error (e : pyexn) : bool := match exn_cls e with XOther c => String.eqb c "DPIError" | _ => false end.
(** [str(e)] *)
Definition dpi_reason (e : pyexn) : string := match e with PyExn _ (AStr m :: _) _ _ => m | _ => EmptyString end.

(** ** The log of the DPI *)

(** [\d{n}] *)
Fixpoint match_n_digits (n : nat) (s : string) : option string :=
  match n with
  | O => Some s
  | S n => match s with String a s => if is_digit a then match_n_digits n s else None | EmptyString => None end
  end.

Definition is_upper_char (a : ascii) : bool := let n := N_of_ascii a in ((65 <=? n) && (n <=? 90))%N.

(** [_LOG_LINE_PREFIX]: the time, the level and the name of the logger. *)
Definition match_log_time (s : string) : option string :=
  s ← match_n_digits 4 s; s ← match_lit "-" s; s ← match_n_digits 2 s; s ← match_lit "-" s; s ← match_n_digits 2 s;
  s ← match_lit " " s; s ← match_n_digits 2 s; s ← match_lit ":" s; s ← match_n_digits 2 s; s ← match_lit ":" s; s ← match_n_digits 2 s;
  let s := match match_lit "," s ≫= match_n_digits 3 with Some r => r | None => s end in
  match_lit " " s.

(** [\S+: ]: the run of characters that are no white space ends with the colon. *)
Definition match_logger_name (s : string) : option (string * string) :=
  let '(run, rest) := str_span (fun a => negb (is_space a)) s in
  let name := str_take (String.length run - 1) run in
  if String.eqb run (name +:+ ":") && str_truthy name then rest ← match_lit " " rest; Some (name, rest) else None.

Definition match_log_prefix (s : string) : option (string * string * string) :=
  s ← match_log_time s;
  '(level, s) ← match_run is_upper_char s; s ← match_lit " " s;
  '(name, msg) ← match_logger_name s;
  Some (level, name, msg).

Definition split_log_line (line : string) : option string * option string * string :=
  match match_log_prefix line with
  | None => (None, None, line)
  | Some (level, name, msg) => (Some level, Some name, msg)
  end.

(** ** One run *)

Record DPIResult : Type := mkDPIResult {
  res_returncode : Z;
  res_version : option string;
  reboot_required : bool;
  res_output : string;
  last_error : string;
  last_line : string;
}.

#[export] Instance eta_DPIResult : Eta DPIResult := fun r =>
  mkDPIResult (res_returncode r) (res_version r) (reboot_required r) (res_output r) (last_error r) (last_line r).

Definition res_reason (r : DPIResult) : string := if str_truthy (last_error r) then last_error r else last_line r.

(** What a process that ran to its end, or until its time limit, left. *)
Record dpi_run : Type := mkDpiRun {
  run_stdout : list string;
  run_stderr : list string;
  run_returncode : Z;
  run_timed_out : bool;
}.

(** [dpi_spawn] fails as [Popen] does, with an [OSError]. *)
Class DpiEnv (W : Type) : Type := {
  dpi_spawn : argv -> Z -> W -> W * result pyexn dpi_run;
  dpi_killed : W -> W;
}.

(** [_drain_stderr] *)
Definition drain_line (r : DPIResult) (line : string) : DPIResult :=
  let line := strip line in
  if negb (str_truthy line) then r
  else
    let '(level, _, msg) := split_log_line line in
    let r := r <| last_line := msg |> in
    if bool_decide (level = None \/ level = Some "ERROR"%string \/ level = Some "CRITICAL"%string) then r <| last_error := msg |> else r.
Definition drain_stderr (lines : list string) (r : DPIResult) : DPIResult := fold_left drain_line lines r.

Section Client.
Context {W : Type} `{HD : !DpiEnv W}.
Context (json_loads : string -> option jvalue).
Context (executable : string) (chroot : option string).
Abbreviation DM := (PyM W pyexn).

Definition is_value_error (e : pyexn) : bool := match exn_cls e with XValueError => true | _ => false end.

(** [on_progress(int(...))] in its try block. *)
Definition progress_line (on_progress : option (Z -> DM unit)) (arg : string) : DM unit :=
  match on_progress with
  | None => mret tt
  | Some f =>
      try_except (match py_int arg with Some n => f n | None => raise (PyExn XValueError [] None None) end)
        (fun e => if is_value_error e then mret tt else raise e)
  end.

(** One line of the output; [captured] are the lines that are not protocol. *)
Definition stdout_line (on_progress : option (Z -> DM unit)) (capture : bool) (acc : DPIResult * list string) (line : string) :
    DM (DPIResult * list string) :=
  let '(r, captured) := acc in
  let line := strip line in
  if negb (str_truthy line) then mret (r, captured)
  else if startswith "PROGRESS " line then _ ← progress_line on_progress (str_drop 9 line); mret (r, captured)
  else if startswith "VERSION " line then mret (r <| res_version := Some (strip (str_drop 8 line)) |>, captured)
  else if String.eqb line "REBOOT" then mret (r <| reboot_required := true |>, captured)
  else if capture then mret (r, captured ++ [line])
  else mret (r, captured).

Fixpoint stdout_loop (on_progress : option (Z -> DM unit)) (capture : bool) (lines : list string) (acc : DPIResult * list string) :
    DM (DPIResult * list string) :=
  match lines with
  | [] => mret acc
  | line :: lines => acc ← stdout_line on_progress capture acc line; stdout_loop on_progress capture lines acc
  end.

Definition dpi_cmd (args : list string) : argv :=
  match chroot with
  | Some c => if str_truthy c then "chroot"%string :: c :: executable :: args else executable :: args
  | None => executable :: args
  end.

Definition verb (args : list string) : string := default EmptyString (head args).

(** [_run]: a verb, until its end or its time limit. *)
Definition run_dpi (args : list string) (timeout : Z) (on_progress : option (Z -> DM unit)) (check capture : bool) : DM DPIResult := fun w =>
  match dpi_spawn (dpi_cmd args) timeout w with
  | (w, Raise e) => (w, Raise (dpi_error ("cannot run the DPI at " +:+ executable +:+ ": " +:+ exn_repr e)%string (Some e)))
  | (w, Ok p) =>
      match stdout_loop on_progress capture (run_stdout p) (mkDPIResult (-1) None false EmptyString EmptyString EmptyString, []) w with
      | (w, Raise e) => (dpi_killed w, Raise e)
      | (w, Ok (r, captured)) =>
          let r := drain_stderr (run_stderr p) (r <| res_returncode := run_returncode p |>) in
          let failed := negb (res_returncode r =? 0) in
          if run_timed_out p && failed then
            (w, Raise (dpi_error ("the DPI did not finish " +:+ verb args +:+ " within " +:+ pretty timeout +:+ "s")%string None))
          else
            let r := r <| res_output := str_join newline captured |> in
            if check && failed then
              (w, Raise (dpi_error ("the DPI failed " +:+ verb args +:+ " with exit " +:+ pretty (res_returncode r) +:+
                          (if str_truthy (res_reason r) then ": " +:+ res_reason r else EmptyString))%string None))
            else (w, Ok r)
      end
  end.

(** ** The verbs *)

Definition get_version (name : option string) : DM string :=
  res ← run_dpi ("get-version"%string :: match name with Some n => ["--name"%string; n] | None => [] end) DEFAULT_TIMEOUT None true false;
  match res_version res with
  | Some v => mret v
  | None => raise (dpi_error "the DPI answered get-version without a version" None)
  end.

(** Every field has to be there; [standby_dev] has to be an absolute path. *)
Record SlotLayout : Type := mkSlotLayout {
  layout_active_slot : jvalue;
  layout_standby_slot : jvalue;
  layout_active_dev : jvalue;
  layout_standby_dev : string;
  layout_platform : jvalue;
}.

Definition layout_unreadable : pyexn := dpi_error "the DPI reported a layout we cannot read" None.

Definition layout_from_json (raw : string) : result pyexn SlotLayout :=
  match json_loads raw with
  | Some (JVObj o) =>
      match dict_get "active_slot" o, dict_get "standby_slot" o, dict_get "active_dev" o, dict_get "standby_dev" o, dict_get "platform" o with
      | Some a, Some s, Some ad, Some sd, Some p =>
          match sd with
          | JVStr dev => if startswith "/" dev then Ok (mkSlotLayout a s ad dev p)
                         else Raise (dpi_error "the DPI reported a layout whose standby device otaclient cannot use" None)
          | _ => Raise (dpi_error "the DPI reported a layout whose standby device otaclient cannot use" None)
          end
      | _, _, _, _, _ => Raise layout_unreadable
      end
  | _ => Raise layout_unreadable
  end.

Definition layout : DM SlotLayout :=
  res ← run_dpi ["layout"; "--json"]%string DEFAULT_TIMEOUT None true true;
  from_result (layout_from_json (res_output res)).

(** [str(json.loads(output)["digest"])]; how another value than a string is
    written is not looked at. *)
Definition digest_from_json (str_of : jvalue -> string) (raw : string) : result pyexn string :=
  match json_loads raw with
  | Some (JVObj o) =>
      match dict_get "digest" o with
      | Some (JVStr d) => Ok d
      | Some v => Ok (str_of v)
      | None => Raise (dpi_error "the DPI reported a digest we cannot read" None)
      end
  | _ => Raise (dpi_error "the DPI reported a digest we cannot read" None)
  end.

Definition source_digest (str_of : jvalue -> string) (size : Z) (data_image : option string) : DM string :=
  res ← run_dpi (["source-digest"; "--size"; pretty size]%string ++ match data_image with Some d => ["--data-image"%string; d] | None => [] end)
          (Z.max DEFAULT_TIMEOUT (size / SOURCE_DIGEST_MIN_RATE)) None true true;
  from_result (digest_from_json str_of (res_output res)).

Definition install (package version ecu_id release_key : string) (on_progress : option (Z -> DM unit)) (timeout : Z) : DM unit :=
  _ ← run_dpi ["install"; "--package"; package; "--version"; version; "--ecu-id"; ecu_id; "--release-key"; release_key]%string
        timeout on_progress true false;
  mret tt.

Definition dpi_do_reboot : DM unit := _ ← run_dpi ["reboot"; "--delay"; "0"]%string REBOOT_TIMEOUT None true false; mret tt.

Definition resume : DM (option string) :=
  res ← run_dpi ["resume"%string] RESUME_TIMEOUT None false false;
  if negb (res_returncode res =? 0) then
    raise (dpi_error (if str_truthy (res_reason res) then res_reason res
                      else "the DPI could not conclude the update (exit " +:+ pretty (res_returncode res) +:+ ")")%string None)
  else mret (res_version res).
End Client.

(** [dpi_from_ecu_info]: the path in [ecu_info.yaml]. *)
Definition dpi_from_ecu_info (dpi_executable : option string) : result pyexn string :=
  match dpi_executable with
  | Some p => if str_truthy p then Ok p else Raise (dpi_error "ecu_info.yaml names no dpi_executable" None)
  | None => Raise (dpi_error "ecu_info.yaml names no dpi_executable" None)
  end.

(** ** What a run reports *)

(** The lines that count, without the white space around them. *)
Definition said (lines : list string) : list string := List.filter str_truthy (map strip lines).

Definition progress_of (l : string) : option Z := if startswith "PROGRESS " l then py_int (str_drop 9 l) else None.
Definition version_of (l : string) : option string := if startswith "VERSION " l then Some (strip (str_drop 8 l)) else None.
Definition is_protocol (l : string) : bool := startswith "PROGRESS " l || startswith "VERSION " l || String.eqb l "REBOOT".
Definition error_of (l : string) : option string :=
  let '(level, _, msg) := split_log_line l in
  if bool_decide (level = None \/ level = Some "ERROR"%string \/ level = Some "CRITICAL"%string) then Some msg else None.
Definition message_of (l : string) : string := snd (split_log_line l).

Definition last_or {A} (d : A) (l : list A) : A := default d (list.last l).

Definition reported (stdout stderr : list string) (capture : bool) (rc : Z) : DPIResult :=
  mkDPIResult rc (list.last (omap version_of (said stdout))) (existsb (String.eqb "REBOOT") (said stdout))
    (if capture then str_join newline (List.filter (fun l => negb (is_protocol l)) (said stdout)) else EmptyString)
    (last_or EmptyString (omap error_of (said stderr))) (last_or EmptyString (map message_of (said stderr))).

Lemma last_or_cons {A} (d x : A) l : last_or d (x :: l) = last_or x l.
Proof. unfold last_or. rewrite last_cons. by destruct (list.last l). Qed.

Lemma drain_stderr_spec lines r :
  drain_stderr lines r = r <| last_error := last_or (last_error r) (omap error_of (said lines)) |>
                           <| last_line := last_or (last_line r) (map message_of (said lines)) |>.
Proof.
  unfold drain_stderr. revert r. induction lines as [|l lines IH]; intros r; [by destruct r|].
  cbn [fold_left]. rewrite IH. unfold drain_line, said. cbn [map List.filter].
  destruct (str_truthy (strip l)) eqn:Ht; cbn [negb]; [|done]. cbn [map omap list_omap].
  set (errs := omap error_of _). set (msgs := map message_of (List.filter _ _)).
  assert (Ee : error_of (strip l) = let '(level, _, msg) := split_log_line (strip l) in
    if bool_decide (level = None \/ level = Some "ERROR"%string \/ level = Some "CRITICAL"%string) then Some msg else None) by done.
  rewrite Ee. unfold message_of. destruct (split_log_line (strip l)) as [[level name] msg]. cbn [snd]. rewrite last_or_cons.
  destruct r, (bool_decide _); rewrite ?last_or_cons; done.
Qed.

Section Reported.
Context {W : Type} `{HD : !DpiEnv W} (executable : string) (chroot : option string).

(** A progress callback that always returns. *)
Context (report : Z -> W -> W).
Definition callback (n : Z) : PyM W pyexn unit := fun w => (report n w, Ok tt).

Lemma starts_apart l : startswith "VERSION " l = true -> startswith "PROGRESS " l = false.
Proof.
  destruct l as [|a l]; [done|]. cbn [startswith]. intros H. destruct (Ascii.eqb_spec "V" a) as [<-|]; [done|]. by rewrite andb_false_l in H.
Qed.

Lemma stdout_loop_spec capture lines r captured w :
  stdout_loop (Some callback) capture lines (r, captured) w =
  (fold_left (fun w n => report n w) (omap progress_of (said lines)) w,
   Ok (r <| res_version := match list.last (omap version_of (said lines)) with Some v => Some v | None => res_version r end |>
         <| reboot_required := reboot_required r || existsb (String.eqb "REBOOT") (said lines) |>,
       captured ++ if capture then List.filter (fun l => negb (is_protocol l)) (said lines) else [])).
Proof.
  revert r captured w. induction lines as [|l lines IH]; intros r captured w.
  { cbn. rewrite orb_false_r. destruct r, capture; by rewrite app_nil_r. }
  cbn [stdout_loop]. unfold mbind at 1, pym_bind at 1, stdout_line. unfold said. cbn [map List.filter].
  destruct (str_truthy (strip l)) eqn:Ht; cbn [negb]; [|apply IH].
  set (x := strip l) in *. cbn [omap list_omap existsb List.filter].
  unfold is_protocol, progress_of at 1, version_of at 1, progress_line.
  destruct (startswith "PROGRESS " x) eqn:Ep.
  { assert (Ev : startswith "VERSION " x = false)
      by (destruct (startswith "VERSION " x) eqn:Ev; [|done]; apply starts_apart in Ev; congruence).
    assert (Er : String.eqb "REBOOT" x = false) by (destruct (String.eqb_spec "REBOOT" x) as [<-|]; done). rewrite Ev, Er. cbn [orb negb].
    unfold mbind, pym_bind, try_except. destruct (py_int (str_drop 9 x)); cbn; apply IH. }
  destruct (startswith "VERSION " x) eqn:Ev.
  { assert (Er : String.eqb "REBOOT" x = false) by (destruct (String.eqb_spec "REBOOT" x) as [<-|]; done). rewrite Er. cbn [orb negb].
    etransitivity; [apply IH|]. rewrite last_cons. cbn. by destruct (list.last _). }
  rewrite (String.eqb_sym "REBOOT" x). destruct (String.eqb x "REBOOT"); cbn [orb negb].
  { etransitivity; [apply IH|]. cbn. by rewrite orb_true_r. }
  destruct capture; (etransitivity; [apply IH|]); [|done]. by rewrite <- app_assoc.
Qed.

(** The verdict on a run that ended. *)
Definition run_fails (p : dpi_run) (check : bool) : bool := negb (run_returncode p =? 0) && (check || run_timed_out p).

(** A run of the DPI is read as the protocol says: the numbers of the
    progress lines reach the callback in their order, the version is that of
    the last version line, a reboot is asked for by any line [REBOOT], lines
    that are no protocol are the captured output, and the reason is the last
    error of the log, or else its last message.  The run fails exactly when
    its exit code is not zero and either this is checked or the time ran out,
    and then with a [DPIError]; an executable that cannot be started is one
    too. *)
Theorem dpi_run_reported args timeout check capture w w1 x :
  dpi_spawn (dpi_cmd executable chroot args) timeout w = (w1, x) ->
  match x with
  | Raise _ => exists e, run_dpi executable chroot args timeout (Some callback) check capture w = (w1, Raise e) /\ is_dpi_error e = true
  | Ok p =>
      let w2 := fold_left (fun w n => report n w) (omap progress_of (said (run_stdout p))) w1 in
      if run_fails p check
      then exists e, run_dpi executable chroot args timeout (Some callback) check capture w = (w2, Raise e) /\ is_dpi_error e = true
      else run_dpi executable chroot args timeout (Some callback) check capture w =
             (w2, Ok (reported (run_stdout p) (run_stderr p) capture (run_returncode p)))
  end.
Proof.
  intros E. unfold run_dpi. rewrite E. destruct x as [p|e]; [|eexists; split; reflexivity]. cbv zeta. rewrite stdout_loop_spec. cbv beta iota.
  match goal with |- context [drain_stderr ?l ?r] => assert (Er : drain_stderr l r =
    mkDPIResult (run_returncode p) (list.last (omap version_of (said (run_stdout p)))) (existsb (String.eqb "REBOOT") (said (run_stdout p)))
      EmptyString (last_or EmptyString (omap error_of (said (run_stderr p)))) (last_or EmptyString (map message_of (said (run_stderr p))))) end.
  { rewrite drain_stderr_spec. by destruct (list.last (omap version_of _)). }
  rewrite Er. cbn [res_returncode]. unfold run_fails.
  assert (Hout : str_join newline ([] ++ if capture then List.filter (fun l => negb (is_protocol l)) (said (run_stdout p)) else []) =
    if capture then str_join newline (List.filter (fun l => negb (is_protocol l)) (said (run_stdout p))) else EmptyString) by (by destruct capture).
  rewrite Hout. destruct (negb (run_returncode p =? 0)); cbn [andb]; rewrite ?andb_false_r, ?andb_true_r; [|reflexivity].
  destruct (run_timed_out p); [rewrite orb_true_r; eexists; split; reflexivity|].
  destruct check; [eexists; split; reflexivity|reflexivity].
Qed.
End Reported.

(** A DPI that installs with progress, a message that is no protocol and a
    warning in its log. *)
#[export] Instance example_dpi_env : DpiEnv (list Z) := {|
  dpi_spawn cmd timeout w :=
    (w, Ok (mkDpiRun ["PROGRESS 40"; "writing"; "PROGRESS 100"; "VERSION 2.0 "; "REBOOT"]%string
              ["2026-01-02 03:04:05,678 WARNING dpi.writer: slow storage"]%string 0 false));
  dpi_killed w := w;
|}.

Lemma dpi_run_reported_witness :
  run_dpi "/usr/bin/dpi" None ["install"%string] INSTALL_TIMEOUT (Some (callback (fun n w => w ++ [n]))) true false [] =
    ([40; 100], Ok (mkDPIResult 0 (Some "2.0"%string) true EmptyString EmptyString "slow storage")).
Proof.
  exact (dpi_run_reported "/usr/bin/dpi" None (fun n w => w ++ [n]) ["install"%string] INSTALL_TIMEOUT true false [] []
    (Ok (mkDpiRun ["PROGRESS 40"; "writing"; "PROGRESS 100"; "VERSION 2.0 "; "REBOOT"]%string
              ["2026-01-02 03:04:05,678 WARNING dpi.writer: slow storage"]%string 0 false)) eq_refl).
Defined.
