(* ===== verification/PartitionBoot.v ===== *)
(** * Boot control of partition images

    Models [src/src/otaclient/boot_control/_partition_image.py]: the boot
    controller of layouts whose slots are written as images by the DPI, and
    [selecter.py], which chooses a boot controller.

    The status files of the slots are outside the slots, in a directory per
    slot ([ps_dirs]); the file [staged-in-boot], the boot id and the checks of
    [ensure_private_dir] are on the file system.  The DPI is an interface, the
    class [DPIProtocol]; [dpi_client] is its instance by the processes of
    [Dpi].  The names of the two slots are different. *)

From stdpp Require Import base gmap strings list option sets.
From Stdlib Require Import ZArith Ascii String Lia.
From S2P Require Import Prelude Types Errors OTAStatusControl FileSystem TextLines CmdHelper Dpi.

Inductive BootloaderType : Type :=
| AUTO_DETECT | GRUB | CBOOT | JETSON_CBOOT | JETSON_UEFI | RPI_BOOT | GRUB_VERITY | JETSON_DPI | DRIVEOS_DPI.

#[export] Instance BootloaderType_eq_dec : EqDecision BootloaderType.
Proof. solve_decision. Defined.

(** ** The interface of the DPI *)

Class DPIProtocol (W : Type) : Type := {
  p_layout : PyM W pyexn SlotLayout;
  p_get_version : option string -> PyM W pyexn string;
  p_reboot : PyM W pyexn unit;
  p_resume : PyM W pyexn (option string);
  p_source_digest : Z -> option string -> PyM W pyexn string;
  p_install : path -> string -> string -> string -> option (Z -> PyM W pyexn unit) -> PyM W pyexn unit;
}.

Definition path_text (p : path) : string := ("/" +:+ str_join "/" p)%string.

Definition dpi_client {W} `{!DpiEnv W} (json_loads : string -> option jvalue) (str_of : jvalue -> string)
    (executable : string) (chroot : option string) : DPIProtocol W := {|
  p_layout := layout json_loads executable chroot;
  p_get_version := get_version executable chroot;
  p_reboot := dpi_do_reboot executable chroot;
  p_resume := resume executable chroot;
  p_source_digest := source_digest json_loads executable chroot str_of;
  p_install package version ecu_id release_key on_progress :=
    install executable chroot (path_text package) version ecu_id release_key on_progress INSTALL_TIMEOUT;
|}.

(** ** The platforms *)

Record Platform : Type := mkPlatform { bootloader : BootloaderType; state_dir : path; staging_dir : path }.

Definition PLATFORMS (name : string) : option Platform :=
  let staging := ["opt"; "data"; "otaclient"]%string in
  if String.eqb name "grub" then Some (mkPlatform GRUB_VERITY ["boot"%string] staging)
  else if String.eqb name "l4t" then Some (mkPlatform JETSON_DPI ["opt"; "data"]%string staging)
  else if String.eqb name "driveos" then Some (mkPlatform DRIVEOS_DPI ["opt"; "data"]%string staging)
  else None.

Definition OTA_STATUS_DNAME : string := "ota-status".
Definition BOOT_ID_FPATH : path := ["proc"; "sys"; "kernel"; "random"; "boot_id"]%string.
Definition STAGED_IN_BOOT_FNAME : string := "staged-in-boot".
Definition partition_boot_module : string := "otaclient.boot_control._partition_image".

Definition type_error : pyexn := PyExn (XOther "TypeError") [] None None.
Definition as_str (v : jvalue) : result pyexn string := match v with JVStr s => Ok s | _ => Raise type_error end.

(** ** State *)

(** What is on the disk, and the device with its DPI. *)
Record pstate (W : Type) : Type := mkPState {
  ps_dirs : string -> status_dir;
  ps_stamp : Z;
  ps_files : fsys;
  ps_env : W;
}.
Arguments mkPState {W}.
Arguments ps_dirs {W}.
Arguments ps_stamp {W}.
Arguments ps_files {W}.
Arguments ps_env {W}.

#[export] Instance eta_pstate {W} : Eta (pstate W) := fun r => mkPState (ps_dirs r) (ps_stamp r) (ps_files r) (ps_env r).

(** The fields of the controller. *)
Record pcontroller : Type := mkPController {
  pc_active_slot : string;
  pc_standby_slot : string;
  pc_standby_dev : string;
  pc_bootloader_type : BootloaderType;
  pc_staging_dir : path;
  pc_status_root : path;
  pc_booted : OTAStatus;
}.

Section Controller.
Context {W : Type} `{HD : !DPIProtocol W}.
Context (fault : path -> bool) (ismount : path -> bool) (euid umask : Z).
Abbreviation PB := (PyM (pstate W) pyexn).

Definition on_dpi {A} (m : PyM W pyexn A) : PB A := fun s =>
  let '(w, r) := m (ps_env s) in (s <| ps_env := w |>, r).
Definition on_disk {A} (m : PyM fsys pyexn A) : PB A := fun s =>
  let '(f, r) := m (ps_files s) in (s <| ps_files := f |>, r).

(** The status control of two slots, on their directories. *)
Definition control_on (a b : string) (booted : OTAStatus) (s : pstate W) : control :=
  mkControl a b (ps_dirs s a) (ps_dirs s b) (ps_stamp s) booted.
Definition store_control (c : control) (s : pstate W) : pstate W :=
  s <| ps_dirs := fun x => if String.eqb x (active_slot c) then cur_dir c
                           else if String.eqb x (standby_slot c) then stb_dir c else ps_dirs s x |>
    <| ps_stamp := next_stamp c |>.

Definition control_of (pc : pcontroller) (s : pstate W) : control := control_on (pc_active_slot pc) (pc_standby_slot pc) (pc_booted pc) s.
Definition update_control (pc : pcontroller) (f : control -> control) : PB unit :=
  modify (fun s => store_control (f (control_of pc s)) s).

(** ** The boot an update was staged in *)

Definition staged_in_boot_fpath (status_root : path) : path := status_root ++ [STAGED_IN_BOOT_FNAME].

(** [read_text().strip()] *)
Definition read_stripped (p : path) (s : fsys) : result pyexn string :=
  if fault p then Raise (os_exn EIO)
  else
    match stat s p with
    | None => Raise (os_exn ENOENT)
    | Some (FsFile i) => Ok (strip (default EmptyString (if_content <$> fs_inodes s !! i)))
    | Some _ => Raise (os_exn EISDIR)
    end.

Definition current_boot_id (s : fsys) : result pyexn string := read_stripped BOOT_ID_FPATH s.

(** The standby's directory is made, then the boot is recorded. *)
Definition remember_the_staging_boot (pc : pcontroller) : PB unit :=
  _ ← on_disk (ensure_private_dir ismount euid umask (path_join (pc_status_root pc) (pc_standby_slot pc)) 493 true);
  _ ← modify (fun s => s <| ps_dirs := fun x => if String.eqb x (pc_standby_slot pc) then (ps_dirs s x) <| sd_exists := true |> else ps_dirs s x |>);
  s ← gets ps_files;
  boot_id ← from_result (current_boot_id s);
  on_disk (write_str_to_file_atomic fault (staged_in_boot_fpath (pc_status_root pc)) boot_id true).

Definition forget_the_staging_boot (status_root : path) : PB unit :=
  on_disk (remove_file fault (staged_in_boot_fpath status_root)).

Definition is_not_found (e : pyexn) : bool := match exn_cls e with XOSError (Some n) => n =? ENOENT | _ => false end.

Definition a_reboot_followed_the_staging (status_root : path) : PB bool :=
  s ← gets ps_files;
  match read_stripped (staged_in_boot_fpath status_root) s with
  | Raise e => if is_not_found e then mret false else raise e
  | Ok staged_in =>
      match current_boot_id s with
      | Ok boot_id => mret (negb (String.eqb staged_in boot_id))
      | Raise _ => mret true
      end
  end.

(** ** What the DPI decides *)

(** The fields set at start-up: [_switch_concluded] and [_not_committed]. *)
Record istate : Type := mkIState { is_concluded : bool; is_not_committed : option string; is_env : W }.

Definition resume_staged : PyM istate pyexn bool := fun i =>
  match p_resume (is_env i) with
  | (w, Ok _) => (mkIState (is_concluded i) (is_not_committed i) w, Ok true)
  | (w, Raise e) =>
      if is_dpi_error e then (mkIState (is_concluded i) (Some (dpi_reason e)) w, Ok false)
      else (mkIState (is_concluded i) (is_not_committed i) w, Raise e)
  end.

Definition pb_finalize_switching_boot : PyM istate pyexn bool := fun i =>
  resume_staged (mkIState true (is_not_committed i) (is_env i)).

Definition switch_failed_reason (detail : string) : string :=
  get_failure_reason (BootCtl BootControlSwitchBootFailed) [AStr detail].
Definition switch_failed_type : FailureType := class_failure_type (BootCtl BootControlSwitchBootFailed).

Definition record_why_the_trial_was_not_committed (pc : pcontroller) (not_committed : option string) : PB unit :=
  match not_committed with
  | None => mret tt
  | Some why =>
      s ← get;
      if negb (bool_decide (pc_booted pc ∈ [FAILURE; ROLLBACK_FAILURE])) then mret tt
      else match load_booted_failure_info (control_of pc s) with
           | Some _ => mret tt
           | None => update_control pc (store_failure_info switch_failed_type
                       (switch_failed_reason ("the DPI did not commit the trial boot: " +:+ why)%string))
           end
  end.

(** ** Start-up *)

Definition check_that_the_state_is_ours (status_root staging : path) (active standby : string) : PB unit :=
  _ ← on_disk (ensure_private_dir ismount euid umask (path_join status_root active) 493 true);
  _ ← on_disk (ensure_private_dir ismount euid umask (path_join status_root standby) 448 false);
  _ ← on_disk (ensure_private_dir ismount euid umask staging 448 false);
  mret tt.

(** What the DPI reports, and where the state is. *)
Definition locate_state (state_dir_arg staging_dir_arg : option path) : PB pcontroller :=
  lay ← on_dpi p_layout;
  name ← (match layout_platform lay with JVStr n => mret n | JVObj _ => raise type_error | JVOther => raise (dpi_error "unknown platform" None) end);
  match PLATFORMS name with
  | None => raise (dpi_error "unknown platform" None)
  | Some p =>
      let status_root := default (state_dir p) state_dir_arg ++ [OTA_STATUS_DNAME] in
      let staging := default (staging_dir p) staging_dir_arg in
      active ← from_result (as_str (layout_active_slot lay));
      standby ← from_result (as_str (layout_standby_slot lay));
      _ ← check_that_the_state_is_ours status_root staging active standby;
      mret (mkPController active standby (layout_standby_dev lay) (bootloader p) staging status_root INITIALIZED)
  end.

(** [OTAStatusFilesControl(...)] of the two slots. *)
Definition start_status (dynamic_app : bool) (pc : pcontroller) : PB (pcontroller * istate) := fun s =>
  let '(c, i, r) := init_control_run false dynamic_app pb_finalize_switching_boot (control_of pc s, mkIState false None (ps_env s)) in
  ((store_control c s) <| ps_env := is_env i |>,
   match r with
   | Ok _ => Ok (mkPController (pc_active_slot pc) (pc_standby_slot pc) (pc_standby_dev pc) (pc_bootloader_type pc)
                   (pc_staging_dir pc) (pc_status_root pc) (booted_status c), i)
   | Raise e => Raise e
   end).

Definition resume_on_state (i : istate) : PB istate := fun s =>
  let '(i', r) := resume_staged (mkIState (is_concluded i) (is_not_committed i) (ps_env s)) in
  (s <| ps_env := is_env i' |>, match r with Ok _ => Ok i' | Raise e => Raise e end).

(** A staged update is concluded once. *)
Definition conclude (pc : pcontroller) (i : istate) : PB istate :=
  if is_concluded i then _ ← forget_the_staging_boot (pc_status_root pc); mret i
  else
    rebooted ← a_reboot_followed_the_staging (pc_status_root pc);
    if rebooted : bool then
      i ← resume_on_state i;
      _ ← forget_the_staging_boot (pc_status_root pc);
      mret i
    else mret i.

Definition init_partition_controller (state_dir_arg staging_dir_arg : option path) (dynamic_app : bool) : PB pcontroller :=
  try_except
    (pc ← locate_state state_dir_arg staging_dir_arg;
     '(pc, i) ← start_status dynamic_app pc;
     i ← conclude pc i;
     _ ← record_why_the_trial_was_not_committed pc (is_not_committed i);
     mret pc)
    (fun e => if is_ota_error e || negb (is_exception e) then raise e
              else raise (ota_error (Unrec BootControlStartupFailed)
                     ("partition-image boot control failed to start: " +:+ exn_repr e)%string partition_boot_module (Some e))).

(** ** The operations *)

Definition load_active_slot_image_version : PB string :=
  try_except (on_dpi (p_get_version None)) (fun e => if is_dpi_error e then mret EmptyString else raise e).

Definition load_version (pc : pcontroller) : PB string :=
  recorded ← gets (fun s => load_active_slot_version (control_of pc s));
  if str_truthy recorded && negb (String.eqb recorded DEFAULT_VERSION_STR) then mret recorded
  else
    from_image ← load_active_slot_image_version;
    if str_truthy from_image then mret from_image else mret recorded.

Definition pb_load_standby_slot_version (pc : pcontroller) (s : pstate W) : string := load_standby_slot_version (control_of pc s).
Definition pb_on_operation_failure (pc : pcontroller) : PB unit := update_control pc on_failure.
Definition pb_on_abort (pc : pcontroller) : PB unit := update_control pc on_abort.
Definition pb_store_failure_info (pc : pcontroller) (ft : FailureType) (reason : string) : PB unit :=
  update_control pc (store_failure_info ft reason).
Definition pb_get_booted_failure_info (pc : pcontroller) (s : pstate W) : option (FailureType * string) :=
  load_booted_failure_info (control_of pc s).

Definition as_failed_on {A} (cls : OTAErrorClass) (what : string) (m : PB A) : PB A :=
  try_except m (fun e => if is_exception e then raise (ota_error cls (what +:+ exn_repr e)%string partition_boot_module (Some e)) else raise e).

Definition pb_pre_update (pc : pcontroller) : PB unit :=
  as_failed_on (Unrec BootControlPreUpdateFailed) "failed on pre_update: "
    (_ ← remember_the_staging_boot pc;
     _ ← update_control pc pre_update_current;
     update_control pc (post_update_standby DEFAULT_VERSION_STR None)).

Definition pb_post_update (pc : pcontroller) (version : string) (detail : option VersionDetail) : PB unit :=
  as_failed_on (Unrec BootControlPostUpdateFailed) "failed on post_update: " (update_control pc (post_update_standby version detail)).

Definition record_why_the_reboot_did_not_happen (pc : pcontroller) (e : pyexn) : PB unit :=
  let text := exn_str e in
  update_control pc (store_failure_info switch_failed_type
    (switch_failed_reason ("the reboot into the staged slot did not happen: " +:+ (if str_truthy text then text else exn_repr e))%string)).

(** It never returns: it ends with [SystemExit]. *)
Definition pb_finalizing_update (pc : pcontroller) : PB unit :=
  _ ← try_except (on_dpi p_reboot)
        (fun e => if is_exception e then _ ← record_why_the_reboot_did_not_happen pc e; raise system_exit else raise e);
  raise system_exit.
End Controller.

(** ** [selecter.py] *)

(** The evidence: [platform.machine()], [platform.processor()] and the files. *)
Definition TEGRA_CHIP_ID_PATH : path := ["sys"; "module"; "tegra_fuse"; "parameters"; "tegra_chip_id"]%string.
Definition RPI_MODEL_PATH : path := ["proc"; "device-tree"; "model"]%string.
Definition RPI_MODEL_HINT : string := "Raspberry Pi 4 Model B".

Definition detect_bootloader (machine arch : string) (s : fsys) : result pyexn BootloaderType :=
  let is_machine m := String.eqb machine m || String.eqb arch m in
  let unsupported := Raise (PyExn XValueError [] None None) in
  if is_machine "x86_64"%string then Ok GRUB
  else if is_machine "aarch64"%string then
    if is_file s TEGRA_CHIP_ID_PATH then Ok CBOOT
    else match read_file s RPI_MODEL_PATH with
         | Some m => match str_find RPI_MODEL_HINT (strip m) with Some _ => Ok RPI_BOOT | None => unsupported end
         | None => unsupported
         end
  else unsupported.

Inductive boot_controller_class : Type :=
| GrubBootController | JetsonCBootControl | JetsonUEFIBootControl | RPIBootController | PartitionImageBootController.

Definition get_boot_controller (bootloader_type : BootloaderType) (machine arch : string) (s : fsys) : result pyexn boot_controller_class :=
  match (if bool_decide (bootloader_type = AUTO_DETECT) then detect_bootloader machine arch s else Ok bootloader_type) with
  | Raise e => Raise e
  | Ok GRUB => Ok GrubBootController
  | Ok (CBOOT | JETSON_CBOOT) => Ok JetsonCBootControl
  | Ok JETSON_UEFI => Ok JetsonUEFIBootControl
  | Ok RPI_BOOT => Ok RPIBootController
  | Ok (GRUB_VERITY | JETSON_DPI | DRIVEOS_DPI) => Ok PartitionImageBootController
  | Ok AUTO_DETECT => Raise (PyExn (XOther "NotImplementedError") [] None None)
  end.

(** ** What the checks of the directories leave *)

(** Only directories are added. *)
Record dirs_added (s s' : fsys) : Prop := mkDirsAdded {
  da_inodes : fs_inodes s' = fs_inodes s;
  da_next : fs_next s' = fs_next s;
  da_nodes : forall q, fs_get s' q = fs_get s q \/ (fs_get s q = None /\ exists u m, fs_get s' q = Some (FsDir u m));
}.

#[export] Instance dirs_added_preorder : PreOrder dirs_added.
Proof.
  split; [by split; [| |left]|]. intros a b c [H1 Hn1 H2] [G1 Gn1 G2]. split; [congruence..|]. intros q.
  destruct (H2 q) as [Hq|(Hn & u & m & Hq)], (G2 q) as [Gq|(Gn & u' & m' & Gq)]; [left; congruence|right|right|]; [|split; [done|]|congruence].
  - split; [congruence|eauto].
  - exists u, m. congruence.
Qed.

Lemma dirs_added_link s s' q : dirs_added s s' -> link_at s' q = link_at s q.
Proof. intros [_ _ H]. unfold link_at. destruct (H q) as [->|(-> & u & m & ->)]; done. Qed.

Lemma realpath_go_ext links la la' : (forall q, la' q = la q) -> forall seen rest, realpath_go links la' seen rest = realpath_go links la seen rest.
Proof.
  intros H. induction links as [|links IH]; intros seen rest; revert seen; induction rest as [|c rest IHr]; intros seen; cbn; try done;
    (destruct (bool_decide _); [apply IHr|]; destruct (bool_decide _); [apply IHr|]; rewrite H; destruct (la (seen ++ [c])); [|apply IHr]).
  - done.
  - apply IH.
Qed.

Lemma dirs_added_stat s s' p n : dirs_added s s' -> stat s p = Some n -> stat s' p = Some n.
Proof.
  intros H. unfold stat, realpath. rewrite (realpath_go_ext _ (link_at s) (link_at s')) by (intros q; by apply dirs_added_link).
  destruct (realpath_go _ _ _ _) as [q|]; cbn; [|done]. intros Hq. destruct H as [_ _ H]. destruct (H q) as [->|(Hn & _)]; [done|congruence].
Qed.

Lemma dirs_added_read fault s s' p t : dirs_added s s' -> read_stripped fault p s = Ok t -> read_stripped fault p s' = Ok t.
Proof.
  intros H. unfold read_stripped. destruct (fault p); [done|]. destruct (stat s p) as [n|] eqn:E; [|done].
  rewrite (dirs_added_stat _ _ _ _ H E). by rewrite (da_inodes _ _ H).
Qed.

Lemma dirs_added_plain s s' p : dirs_added s s' -> plain s p -> plain s' p.
Proof.
  intros [_ _ H] Hp. apply (no_link_plain s); [done|]. intros q t. destruct (H q) as [->|(_ & u & m & ->)]; done.
Qed.

Lemma check_components_dirs euid umask fuel n p mode create : keeps dirs_added (check_components euid umask fuel n p mode create).
Proof.
  revert n. induction fuel as [|fuel IH]; intros n; cbn [check_components]; [apply keeps_ret, _|].
  intros s. unfold mbind at 1, pym_bind at 1, get. destruct (fs_get s (take n p)) as [[i|u m|t]|] eqn:E; try done.
  - destruct (is_private _ _ _); [apply IH|done].
  - destruct create; [|done]. unfold mbind, pym_bind, modify. etransitivity; [|apply IH].
    assert (Hne : take n p <> []) by (intros Hn; rewrite Hn in E; done).
    split; [done|done|]. intros q. rewrite fs_get_put by done. destruct (decide _) as [->|]; [right|by left]. split; [done|eauto].
Qed.

Lemma ensure_private_dirs ismount euid umask p mode create : keeps dirs_added (ensure_private_dir ismount euid umask p mode create).
Proof.
  unfold ensure_private_dir. destruct (negb _); [apply keeps_raise, _|].
  apply keeps_bind; [apply _|by apply check_components_dirs|intros _; apply keeps_ret, _].
Qed.

(** ** When the DPI is asked to conclude *)

(** Operations of a running controller. *)
Inductive pb_op : Type :=
| OpPostUpdate (version : string) (detail : option VersionDetail)
| OpFailure
| OpAbort
| OpFailureInfo (ft : FailureType) (reason : string).

Section Conclude.
Context {W : Type} `{HD : !DPIProtocol W}.
Context (fault : path -> bool) (ismount : path -> bool) (euid umask : Z).
#[local] Abbreviation start := (init_partition_controller fault ismount euid umask).

Definition run_pb_op (pc : pcontroller) (o : pb_op) (s : pstate W) : pstate W :=
  fst (match o with
       | OpPostUpdate v d => pb_post_update pc v d
       | OpFailure => pb_on_operation_failure pc
       | OpAbort => pb_on_abort pc
       | OpFailureInfo ft r => pb_store_failure_info pc ft r
       end s).
Definition run_pb_ops (pc : pcontroller) (l : list pb_op) (s : pstate W) : pstate W := fold_left (fun s o => run_pb_op pc o s) l s.

(** The layout the DPI reports. *)
Definition boots_as (a b plat : string) (w w1 : W) : Prop :=
  exists ad dev, p_layout w = (w1, Ok (mkSlotLayout (JVStr a) (JVStr b) ad dev (JVStr plat))).

Definition status_root_of (P : Platform) (arg : option path) : path := default (state_dir P) arg ++ [OTA_STATUS_DNAME].

(** The slot is in no update: its start-up does not finalize anything. *)
Definition status_in (d : status_dir) : option OTAStatus :=
  load_current_status (mkControl EmptyString EmptyString d absent_dir 0 INITIALIZED).
Definition not_updating (d : status_dir) : Prop := status_in d <> Some UPDATING /\ status_in d <> Some ROLLBACKING.

Lemma status_in_dir c : load_current_status c = status_in (cur_dir c).
Proof. by apply load_current_status_dir. Qed.

Lemma named_not_updating d st : sd_status d = Some (OTAStatus_name st) -> st <> UPDATING -> st <> ROLLBACKING -> not_updating d.
Proof. intros H H1 H2. unfold not_updating, status_in. rewrite (load_status_of_dir _ _ _ _ _ st _ H). split; congruence. Qed.

(** An update was staged in the boot that is running. *)
Record staged_here (root : path) (a : string) (s : pstate W) : Prop := mkStagedHere {
  sh_boot : exists id, read_stripped fault (staged_in_boot_fpath root) (ps_files s) = Ok id /\ current_boot_id fault (ps_files s) = Ok id;
  sh_status : not_updating (ps_dirs s a);
}.

(** The disk after the checks. *)
Record checked_only (s s' : pstate W) : Prop := mkCheckedOnly {
  co_dirs : ps_dirs s' = ps_dirs s;
  co_stamp : ps_stamp s' = ps_stamp s;
  co_env : ps_env s' = ps_env s;
  co_files : dirs_added (ps_files s) (ps_files s');
}.

#[export] Instance checked_only_preorder : PreOrder checked_only.
Proof. split; [by split|]. intros x y z [] []. split; [congruence..|by etransitivity]. Qed.

Lemma on_disk_checked p mode create : keeps checked_only (on_disk (ensure_private_dir ismount euid umask p mode create) : PyM (pstate W) pyexn path).
Proof.
  intros s. pose proof (ensure_private_dirs ismount euid umask p mode create (ps_files s)) as H. unfold on_disk.
  destruct (ensure_private_dir _ _ _ _ _ _ _) as [f r]. by split.
Qed.

Lemma locate_state_run sa st (s : pstate W) a b plat w1 s' r :
  boots_as a b plat (ps_env s) w1 -> locate_state ismount euid umask sa st s = (s', r) ->
  checked_only (s <| ps_env := w1 |>) s' /\
  forall pc, r = Ok pc -> exists P, PLATFORMS plat = Some P /\
    pc_active_slot pc = a /\ pc_standby_slot pc = b /\ pc_status_root pc = status_root_of P sa.
Proof.
  intros (ad & dev & Hl) H. unfold locate_state in H. unfold mbind at 1, pym_bind at 1, on_dpi at 1 in H. rewrite Hl in H.
  cbn [layout_platform layout_active_slot layout_standby_slot] in H. unfold mbind at 1, pym_bind at 1 in H. cbn in H.
  destruct (PLATFORMS plat) as [P|] eqn:EP; [|injection H as <- <-; by split].
  unfold mbind at 1, pym_bind at 1, from_result at 1 in H. cbn [as_str] in H. unfold mbind at 1, pym_bind at 1, from_result at 1 in H.
  cbn [as_str] in H. unfold mbind at 1, pym_bind at 1 in H.
  change {| ps_dirs := ps_dirs s; ps_stamp := ps_stamp s; ps_files := ps_files s; ps_env := w1 |} with (s <| ps_env := w1 |>) in H.
  set (s1 := s <| ps_env := w1 |>) in *.
  match type of H with context [check_that_the_state_is_ours ?i ?e ?u ?x ?y ?z ?v s1] =>
    assert (Hk : keeps checked_only (check_that_the_state_is_ours (W:=W) i e u x y z v)) end.
  { unfold check_that_the_state_is_ours. repeat (apply keeps_bind; [apply _|apply on_disk_checked|intros _]). apply keeps_ret, _. }
  specialize (Hk s1). destruct (check_that_the_state_is_ours _ _ _ _ _ _ _ s1) as [s2 [[]|e]]; cbn [fst] in Hk; injection H as <- <-.
  - split; [done|]. intros pc [= <-]. by exists P.
  - by split.
Qed.

Lemma not_updating_no_finalize dyn a b stb n d booted :
  not_updating d -> calls_finalize false dyn (load_slot_in_use_file false (mkControl a b (d <| sd_exists := true |>) stb n booted)) = false.
Proof.
  intros H. set (c := mkControl a b (d <| sd_exists := true |>) stb n booted).
  destruct (load_slot_in_use_file_status false c) as (E & _). unfold calls_finalize. rewrite E, status_in_dir.
  change (status_in (cur_dir c)) with (status_in d). destruct H as [H1 H2]. destruct (status_in d) as [[]|]; by destruct dyn.
Qed.

Lemma start_status_settled dyn pc (s : pstate W) :
  not_updating (ps_dirs s (pc_active_slot pc)) ->
  exists s' pc', start_status dyn pc s = (s', Ok (pc', mkIState false None (ps_env s))) /\
    ps_env s' = ps_env s /\ ps_files s' = ps_files s /\ pc_status_root pc' = pc_status_root pc.
Proof.
  intros H. unfold start_status, init_control_run. cbn [control_of control_on active_slot standby_slot cur_dir stb_dir next_stamp].
  match goal with |- context [calls_finalize ?x ?y ?z] => assert (calls_finalize x y z = false) as -> by (by apply not_updating_no_finalize) end.
  eexists _, _. split; [reflexivity|]. done.
Qed.

(** No update was staged in an earlier boot, also after the checks. *)
Definition nothing_to_conclude (root : path) (s : pstate W) : Prop :=
  forall s' : pstate W, dirs_added (ps_files s) (ps_files s') -> exists r, a_reboot_followed_the_staging fault root s' = (s', r) /\ r <> Ok true.

(** Then only the layout is asked for. *)
Lemma quiet_start sa st dyn (s : pstate W) a b plat P w1 s' r :
  boots_as a b plat (ps_env s) w1 -> PLATFORMS plat = Some P -> nothing_to_conclude (status_root_of P sa) s ->
  not_updating (ps_dirs s a) -> start sa st dyn s = (s', r) -> ps_env s' = w1.
Proof.
  intros Hl HP Hno Hst H. unfold init_partition_controller, try_except in H.
  unfold mbind at 1, pym_bind at 1 in H. destruct (locate_state _ _ _ _ _ s) as [s1 r1] eqn:E1.
  destruct (locate_state_run _ _ _ _ _ _ _ _ _ Hl E1) as [[Hd Hn He Hf] Hpc].
  assert (Henv : ps_env s1 = w1) by done.
  destruct r1 as [pc|e]; [|by destruct (_ || _) in H; injection H as <- <-].
  destruct (Hpc pc eq_refl) as (P' & HP' & Ha & _ & Hroot). assert (P' = P) as -> by congruence.
  unfold mbind at 1, pym_bind at 1 in H. destruct (start_status_settled dyn pc s1) as (s2 & pc' & E2 & H2e & H2f & H2r).
  { rewrite Ha, Hd. exact Hst. }
  rewrite E2 in H. unfold mbind at 1, pym_bind at 1, conclude in H. cbn [is_concluded] in H.
  unfold mbind at 1, pym_bind at 1 in H. rewrite H2r, Hroot in H.
  destruct (Hno s2) as (x & Hx & Hnt); [by rewrite H2f|]. rewrite Hx in H.
  destruct x as [[]|e]; [done| |by destruct (_ || _) in H; injection H as <- <-; congruence]. cbn in H. injection H as <- <-. congruence.
Qed.

Lemma staged_here_quiet root a (s : pstate W) : staged_here root a s -> nothing_to_conclude root s.
Proof.
  intros [(id & Hs & Hb) _] s' Hf. exists (Ok false). split; [|done].
  unfold a_reboot_followed_the_staging, mbind, pym_bind, gets. rewrite (dirs_added_read fault _ _ _ _ Hf Hs).
  unfold current_boot_id in *. by rewrite (dirs_added_read fault _ _ _ _ Hf Hb), String.eqb_refl.
Qed.

(** A plain file is read at its place. *)
Lemma read_stripped_plain p (f : fsys) :
  plain f p -> fault p = false ->
  read_stripped fault p f = match fs_get f p with
    | None => Raise (os_exn ENOENT)
    | Some (FsFile i) => Ok (strip (default EmptyString (if_content <$> fs_inodes f !! i)))
    | Some _ => Raise (os_exn EISDIR)
    end.
Proof. intros Hp Hf. unfold read_stripped. by rewrite Hf, stat_plain. Qed.

Lemma read_stripped_ok p f t : read_stripped fault p f = Ok t -> fault p = false.
Proof. unfold read_stripped. by destruct (fault p). Qed.

Lemma written_read d c q f f' text t :
  plain f (d ++ [c]) -> plain f q -> q <> d ++ [c] -> (forall i, fs_get f q = Some (FsFile i) -> (i < fs_next f)%nat) ->
  write_str_to_file_atomic fault (d ++ [c]) text true f = (f', Ok tt) -> read_stripped fault q f = Ok t ->
  read_stripped fault (d ++ [c]) f' = Ok (strip text) /\ read_stripped fault q f' = Ok t.
Proof.
  intros Hp Hq Hne Hi H Ht. assert (Hnil : d ++ [c] <> []) by (by destruct d).
  assert (Hfault : fault (d ++ [c]) = false).
  { unfold write_str_to_file_atomic, replace_by_new, entry_place, mbind, pym_bind, get in H. rewrite realpath_plain in H by done.
    by destruct (fault (d ++ [c])). }
  unfold write_str_to_file_atomic in H. apply pym_bind_ok in H as (s1 & s2 & Hg & H). injection Hg as <- <-.
  rewrite realpath_plain in H by done. assert (Hd : plain f d) by (eapply plain_prefix; [exact Hp|by exists [c]]).
  apply replace_by_new_ok in H as (-> & _ & _); [|done].
  rewrite !read_stripped_plain, !fs_get_new by eauto using plain_new, read_stripped_ok.
  rewrite decide_True by done. rewrite decide_False by done. split.
  - cbn. by rewrite lookup_insert_eq.
  - rewrite read_stripped_plain in Ht by eauto using read_stripped_ok. destruct (fs_get f q) as [[i| |]|] eqn:E; try done.
    cbn. rewrite lookup_insert_ne; [done|]. specialize (Hi i eq_refl). lia.
Qed.

(** What is assumed of the places the marker and the boot id are at. *)
Record marker_places (root : path) (f : fsys) : Prop := mkMarkerPlaces {
  mp_wf : fs_wf f;
  mp_staged : plain f (staged_in_boot_fpath root);
  mp_boot_id : plain f BOOT_ID_FPATH;
  mp_apart : BOOT_ID_FPATH <> staged_in_boot_fpath root;
}.

(** After [pre_update] the update counts as staged in this boot. *)
Lemma pre_update_stages pc (s s1 : pstate W) :
  pc_active_slot pc <> pc_standby_slot pc -> marker_places (pc_status_root pc) (ps_files s) ->
  pb_pre_update fault ismount euid umask pc s = (s1, Ok tt) ->
  staged_here (pc_status_root pc) (pc_active_slot pc) s1.
Proof.
  intros Hab [Hwf Hps Hpb Hne] H. apply try_except_ok in H; [|intros e x y; by destruct (is_exception e)].
  apply pym_bind_ok in H as (s2 & [] & Hr & H). apply pym_bind_ok in H as (s3 & [] & Hu & H). injection Hu as <-. injection H as <-.
  unfold remember_the_staging_boot in Hr. apply pym_bind_ok in Hr as (s4 & p & He & Hr).
  pose proof (on_disk_checked (path_join (pc_status_root pc) (pc_standby_slot pc)) 493 true s) as [_ _ _ Hf]. rewrite He in Hf. cbn [fst] in Hf.
  apply pym_bind_ok in Hr as (s5 & [] & Hm & Hr). injection Hm as <-.
  apply pym_bind_ok in Hr as (s6 & f & Hg & Hr). injection Hg as <- <-.
  apply pym_bind_ok in Hr as (s7 & id & Hid & Hr). apply from_result_ok in Hid as [Hid ->].
  unfold on_disk in Hr. destruct (write_str_to_file_atomic _ _ _ _ _) as [f' r'] eqn:Ew. injection Hr as <- ->.
  cbn in Hid, Ew. unfold staged_in_boot_fpath in *.
  destruct (written_read (pc_status_root pc) STAGED_IN_BOOT_FNAME BOOT_ID_FPATH (ps_files s4) f' id id) as [R1 R2]; try done.
  - by eapply dirs_added_plain.
  - by eapply dirs_added_plain.
  - intros i Hi. destruct Hf as [_ -> Hn]. destruct (Hn BOOT_ID_FPATH) as [E|(_ & u & m & E)]; [|congruence].
    rewrite E in Hi. rewrite fs_get_cons in Hi by done. by destruct (wf_inode _ Hwf _ _ Hi).
  - assert (Hs : strip id = id).
    { unfold current_boot_id, read_stripped in Hid. destruct (fault _); [done|]. destruct (stat _ _) as [[]|]; try done.
      injection Hid as <-. apply strip_idemp. }
    split.
    + exists id. rewrite Hs in R1. done.
    + apply (named_not_updating _ FAILURE); [|done|done]. cbn. by rewrite String.eqb_refl.
Qed.

Lemma store_control_cur c (s : pstate W) a : active_slot c = a -> ps_dirs (store_control c s) a = cur_dir c.
Proof. intros <-. cbn. by rewrite String.eqb_refl. Qed.

Lemma store_control_stb c (s : pstate W) b : standby_slot c = b -> active_slot c <> b -> ps_dirs (store_control c s) b = stb_dir c.
Proof. intros <- H. cbn. assert (String.eqb (standby_slot c) (active_slot c) = false) as -> by (apply String.eqb_neq; congruence). by rewrite String.eqb_refl. Qed.

(** The operations of the running controller keep it so. *)
Lemma pb_op_keeps pc o (s : pstate W) :
  staged_here (pc_status_root pc) (pc_active_slot pc) s -> staged_here (pc_status_root pc) (pc_active_slot pc) (run_pb_op pc o s).
Proof.
  intros [Hb Hs]. split; [by destruct o|].
  destruct o; unfold run_pb_op, pb_post_update, pb_on_operation_failure, pb_on_abort, pb_store_failure_info, update_control, modify,
    as_failed_on, try_except; cbn [fst]; rewrite store_control_cur by (by try destruct detail; try (unfold on_failure; destruct (sd_exists _))).
  - by destruct detail.
  - apply (named_not_updating _ FAILURE); [|done|done]. unfold on_failure. by destruct (sd_exists _).
  - by apply (named_not_updating _ ABORTED).
  - by apply (named_not_updating _ FAILURE).
Qed.

(** Before the reboot the DPI is not asked to conclude: once [pre_update]
    has returned, whatever the running controller records afterwards and
    whatever the device does, a restart of otaclient in the same boot asks the
    DPI for its layout and for nothing else (asking it to conclude would
    consume the staged update). *)
Theorem staged_update_left_alone pc (s s1 s' : pstate W) l w w1 sa st dyn plat P r :
  pc_active_slot pc <> pc_standby_slot pc -> marker_places (pc_status_root pc) (ps_files s) ->
  PLATFORMS plat = Some P -> pc_status_root pc = status_root_of P sa ->
  pb_pre_update fault ismount euid umask pc s = (s1, Ok tt) ->
  boots_as (pc_active_slot pc) (pc_standby_slot pc) plat w w1 ->
  start sa st dyn ((run_pb_ops pc l s1) <| ps_env := w |>) = (s', r) ->
  ps_env s' = w1.
Proof.
  intros Hab Hm HP Hroot Hpre Hl H. apply pre_update_stages in Hpre; [|done..].
  assert (Hs : staged_here (pc_status_root pc) (pc_active_slot pc) (run_pb_ops pc l s1)).
  { clear -Hpre. unfold run_pb_ops. revert s1 Hpre. induction l as [|o l IH]; intros s1 Hpre; [done|]. by apply IH, pb_op_keeps. }
  eapply (quiet_start sa st dyn ((run_pb_ops pc l s1) <| ps_env := w |>)); [exact Hl|exact HP| | |exact H].
  - rewrite <- Hroot. exact (staged_here_quiet _ _ _ Hs).
  - by destruct Hs.
Qed.

(** ** A staged update is concluded once *)

Lemma init_control_slots fi dyn fin a b cur stb n :
  active_slot (init_control fi dyn fin a b cur stb n) = a /\ standby_slot (init_control fi dyn fin a b cur stb n) = b.
Proof.
  unfold init_control. set (c := load_slot_in_use_file fi _).
  assert (Hc : active_slot c = a /\ standby_slot c = b) by (unfold c, load_slot_in_use_file; by case_match).
  unfold load_status_file. repeat (case_match; try done).
Qed.

Lemma start_status_run pc (s s' : pstate W) pc' i :
  start_status false pc s = (s', Ok (pc', i)) ->
  (if is_concluded i then ps_env s' = fst (p_resume (ps_env s)) else ps_env s' = ps_env s /\ is_not_committed i = None) /\
  ps_files s' = ps_files s /\ not_updating (ps_dirs s' (pc_active_slot pc)) /\
  pc_active_slot pc' = pc_active_slot pc /\ pc_standby_slot pc' = pc_standby_slot pc /\ pc_status_root pc' = pc_status_root pc.
Proof.
  intros H. unfold start_status, init_control_run in H. cbn [control_of control_on active_slot standby_slot cur_dir stb_dir next_stamp] in H.
  assert (Hq : forall fin (s1 : pstate W), fin <> FinalizeReboots -> not_updating (ps_dirs (store_control (init_control false false fin (pc_active_slot pc)
    (pc_standby_slot pc) (ps_dirs s (pc_active_slot pc)) (ps_dirs s (pc_standby_slot pc)) (ps_stamp s)) s1) (pc_active_slot pc))).
  { intros fin s1 Hfin. match goal with |- context [store_control ?x s1] => set (c := x) end.
    destruct (boot_leaves fin (pc_active_slot pc) (pc_standby_slot pc) (ps_dirs s (pc_active_slot pc)) (ps_dirs s (pc_standby_slot pc))
      (ps_stamp s) Hfin) as [Hl Hn]. fold c in Hl, Hn.
    assert (Ha : active_slot c = pc_active_slot pc) by apply init_control_slots.
    rewrite store_control_cur by done. unfold not_updating. rewrite <- status_in_dir, Hl.
    rewrite !not_elem_of_cons in Hn. destruct Hn as (H1 & H2 & _). destruct (booted_status c) eqn:?; cbn; split; congruence. }
  destruct (calls_finalize _ _ _) eqn:Ec.
  - unfold pb_finalize_switching_boot, resume_staged in H. cbn [is_env is_concluded is_not_committed] in H.
    destruct (p_resume (ps_env s)) as [w [v|e]]; [|destruct (is_dpi_error e); [|done]]; injection H as <- <- <-; split_and!; try done; by apply Hq.
  - injection H as <- <- <-. split_and!; try done. by apply Hq.
Qed.

(** The marker is gone, and no directory added later is read as one. *)
Definition no_marker (root : path) (f : fsys) : Prop := forall x, read_stripped fault (staged_in_boot_fpath root) f <> Ok x.

Lemma no_marker_dirs root f f' : dirs_added f f' -> no_marker root f -> no_marker root f'.
Proof.
  intros H Hn x Hx. unfold read_stripped in Hx. specialize (Hn x). unfold read_stripped in Hn. destruct (fault _); [done|].
  unfold stat, realpath in Hx, Hn. rewrite (realpath_go_ext _ (link_at f) (link_at f')) in Hx by (intros q; by apply dirs_added_link).
  destruct (realpath_go _ _ _ _) as [q|]; cbn in Hx, Hn; [|done]. rewrite (da_inodes _ _ H) in Hx.
  destruct (da_nodes _ _ H q) as [E|(_ & u & m & E)]; rewrite E in Hx; done.
Qed.

Lemma forget_marker root (s : pstate W) :
  plain (ps_files s) (staged_in_boot_fpath root) -> fault (staged_in_boot_fpath root) = false ->
  exists s', forget_the_staging_boot fault root s = (s', Ok tt) /\ no_marker root (ps_files s') /\
    ps_env s' = ps_env s /\ ps_dirs s' = ps_dirs s /\ ps_stamp s' = ps_stamp s.
Proof.
  intros Hp Hf. assert (Hd : plain (ps_files s) root) by (eapply plain_prefix; [exact Hp|by exists [STAGED_IN_BOOT_FNAME]]).
  assert (Hnil : staged_in_boot_fpath root <> []) by (by destruct root).
  unfold forget_the_staging_boot, on_disk, remove_file, mbind, pym_bind, get. rewrite Hf. unfold staged_in_boot_fpath at 1. rewrite located_plain by done.
  fold (staged_in_boot_fpath root). set (p := staged_in_boot_fpath root) in *.
  assert (Hgone : forall f, plain f p -> fs_get f p = None -> no_marker root f).
  { intros f Hpf Hg x Hx. fold p in Hx. unfold no_marker in *. rewrite read_stripped_plain, Hg in Hx by done. done. }
  destruct (fs_get (ps_files s) p) as [[i|u m|t]|] eqn:E; (eexists; split; [reflexivity|]); split_and!; try done.
  - change (no_marker root (remove_node p (ps_files s))). apply Hgone; [|rewrite remove_node_get by done; by rewrite decide_True]. apply (no_link_plain (ps_files s)); [done|]. intros q t.
    rewrite remove_node_get by done. by destruct (decide _).
  - change (no_marker root (remove_tree p (ps_files s))). apply Hgone; [|rewrite remove_tree_get; by rewrite bool_decide_true]. apply (no_link_plain (ps_files s)); [done|]. intros q t.
    rewrite remove_tree_get. by destruct (bool_decide _).
  - change (no_marker root (remove_node p (ps_files s))). apply Hgone; [|rewrite remove_node_get by done; by rewrite decide_True]. apply (no_link_plain (ps_files s)); [done|]. intros q t'.
    rewrite remove_node_get by done. by destruct (decide _).
  - by apply Hgone.
Qed.

Lemma no_marker_quiet root (s : pstate W) : no_marker root (ps_files s) -> nothing_to_conclude root s.
Proof.
  intros Hn s' Hf. pose proof (no_marker_dirs _ _ _ Hf Hn) as Hn'.
  unfold a_reboot_followed_the_staging, mbind, pym_bind, gets. unfold no_marker in Hn'. destruct (read_stripped _ _ _) as [x|e]; [by destruct (Hn' x)|].
  destruct (is_not_found e); eauto.
Qed.

Lemma record_why_run pc why (s s' : pstate W) :
  record_why_the_trial_was_not_committed pc why s = (s', Ok tt) ->
  ps_env s' = ps_env s /\ ps_files s' = ps_files s /\ (not_updating (ps_dirs s (pc_active_slot pc)) -> not_updating (ps_dirs s' (pc_active_slot pc))).
Proof.
  intros H. destruct why as [why|]; [|by injection H as <-]. apply pym_bind_ok in H as (s1 & s2 & Hg & H). injection Hg as <- <-.
  destruct (negb _); [by injection H as <-|]. destruct (load_booted_failure_info _); [by injection H as <-|].
  injection H as <-. split_and!; [done..|]. intros _. rewrite store_control_cur by done. by apply (named_not_updating _ FAILURE).
Qed.

(** A staged update is concluded once: when otaclient starts in a boot
    after the one the update was staged in, whether this is the trial boot or
    the platform came back to the old slot, the DPI is asked to conclude it
    exactly once, and no later start in that boot asks again. *)
Theorem staged_update_concluded_once (s s1 : pstate W) a b plat P w1 sa st staged id pc :
  PLATFORMS plat = Some P -> marker_places (status_root_of P sa) (ps_files s) ->
  read_stripped fault (staged_in_boot_fpath (status_root_of P sa)) (ps_files s) = Ok staged ->
  current_boot_id fault (ps_files s) = Ok id -> staged <> id ->
  boots_as a b plat (ps_env s) w1 -> start sa st false s = (s1, Ok pc) ->
  ps_env s1 = fst (p_resume w1) /\
  forall w w2 s2 r dyn, boots_as a b plat w w2 -> start sa st dyn (s1 <| ps_env := w |>) = (s2, r) -> ps_env s2 = w2.
Proof.
  intros HP [Hwf Hpl _ _] Hm Hid Hne Hl H. pose proof (read_stripped_ok _ _ _ Hm) as Hfault.
  apply try_except_ok in H; [|intros e x y; by destruct (_ || _)].
  apply pym_bind_ok in H as (s2 & pc0 & E1 & H). destruct (locate_state_run _ _ _ _ _ _ _ _ _ Hl E1) as [[Hd Hn He Hf] Hpc].
  destruct (Hpc pc0 eq_refl) as (P' & HP' & Ha & _ & Hroot). assert (P' = P) as -> by congruence.
  apply pym_bind_ok in H as (s3 & [pc1 i] & E2 & H). apply start_status_run in E2 as (Hi & H3f & Hq & Ha1 & _ & Hr1).
  apply pym_bind_ok in H as (s4 & i' & E3 & H). apply pym_bind_ok in H as (s5 & [] & E4 & H). injection H as <- <-.
  destruct (record_why_run _ _ _ _ E4) as (H5e & H5f & H5d).
  assert (Hpl3 : plain (ps_files s3) (staged_in_boot_fpath (status_root_of P sa))) by (rewrite H3f; by eapply dirs_added_plain).
  assert (H4 : ps_env s4 = fst (p_resume w1) /\ no_marker (status_root_of P sa) (ps_files s4) /\ ps_dirs s4 = ps_dirs s3).
  { unfold conclude in E3. rewrite Hr1, Hroot in E3. destruct (is_concluded i).
    - apply pym_bind_ok in E3 as (s6 & [] & E & E3). injection E3 as <- <-.
      destruct (forget_marker _ _ Hpl3 Hfault) as (s7 & E' & Hnm & Hev & Hdir & _). rewrite E in E'. injection E' as ->.
      split_and!; [|done|done]. rewrite Hev, Hi, He. done.
    - destruct Hi as [Hi _]. apply pym_bind_ok in E3 as (s6 & rebooted & E & E3).
      unfold a_reboot_followed_the_staging in E. unfold mbind, pym_bind, gets in E. rewrite H3f in E.
      rewrite (dirs_added_read fault _ _ _ _ Hf Hm) in E. unfold current_boot_id in E, Hid. rewrite (dirs_added_read fault _ _ _ _ Hf Hid) in E.
      destruct (String.eqb_spec staged id) as [->|_]; [done|]. injection E as <- <-.
      apply pym_bind_ok in E3 as (s7 & i2 & E & E3). apply pym_bind_ok in E3 as (s8 & [] & E' & E3). injection E3 as <- <-.
      unfold resume_on_state, resume_staged in E. cbn [is_env] in E. rewrite Hi, He in E. cbn in E.
      assert (H7 : ps_env s7 = fst (p_resume w1) /\ ps_files s7 = ps_files s3 /\ ps_dirs s7 = ps_dirs s3).
      { destruct (p_resume w1) as [w [v|e]]; [|destruct (is_dpi_error e); [|done]]; by injection E as <- <-. }
      destruct H7 as (H7e & H7f & H7d). rewrite <- H7f in Hpl3.
      destruct (forget_marker _ _ Hpl3 Hfault) as (s9 & E9 & Hnm & Hev & Hdir & _). rewrite E' in E9. injection E9 as ->.
      split_and!; [|done|]; congruence. }
  destruct H4 as (H4e & H4n & H4d). split; [congruence|].
  intros w w2 s6 r dyn Hl2 H2. eapply (quiet_start sa st dyn (s5 <| ps_env := w |>)); [exact Hl2|exact HP| | |exact H2].
  - apply no_marker_quiet. cbn. by rewrite H5f.
  - cbn. rewrite <- Ha, <- Ha1. apply H5d. rewrite H4d, Ha1. exact Hq.
Qed.

(** ** The trial boot *)

(** The files of a slot an update was staged for. *)
Record staged_for (a : string) (d : status_dir) : Prop := mkStagedFor {
  sf_status : sd_status d = Some (OTAStatus_name UPDATING);
  sf_slot : sd_slot_in_use d = Some a;
  sf_info : sd_failure_info d = None;
}.

Lemma staged_finalizes a b d stb n booted :
  staged_for a d -> names_slot a ->
  calls_finalize false false (load_slot_in_use_file false (mkControl a b (d <| sd_exists := true |>) stb n booted)) = true.
Proof.
  intros [Hs Hu _] [Hn Ht]. set (c := mkControl a b (d <| sd_exists := true |>) stb n booted).
  assert (Hc : load_current_slot_in_use c = Some a) by (unfold load_current_slot_in_use; cbn; rewrite Hu; cbn; by rewrite Hn, Ht).
  assert (Hl : load_current_status c = Some UPDATING) by (by apply load_status_of_dir).
  unfold load_slot_in_use_file. rewrite Hc. unfold calls_finalize, is_switching_boot. rewrite Hl, Hc. cbn [negb andb].
  rewrite (bool_decide_true (UPDATING ∈ _)) by (by left). cbn. by rewrite bool_decide_true.
Qed.

(** The trial boot's start-up, by what the DPI decides. *)
Lemma start_status_trial pc (s s' : pstate W) pc' i :
  staged_for (pc_active_slot pc) (ps_dirs s (pc_active_slot pc)) -> names_slot (pc_active_slot pc) ->
  start_status false pc s = (s', Ok (pc', i)) ->
  let d := ps_dirs s' (pc_active_slot pc) in
  is_concluded i = true /\ pc_active_slot pc' = pc_active_slot pc /\ sd_version d = sd_version (ps_dirs s (pc_active_slot pc)) /\ sd_failure_info d = None /\
  match snd (p_resume (ps_env s)) with
  | Ok _ => pc_booted pc' = SUCCESS
  | Raise e => pc_booted pc' = FAILURE /\ is_not_committed i = Some (dpi_reason e)
  end.
Proof.
  intros Hst Hn H. unfold start_status, init_control_run in H. cbn [control_of control_on active_slot standby_slot cur_dir stb_dir next_stamp] in H.
  match type of H with context [calls_finalize ?x ?y ?z] => assert (calls_finalize x y z = true) as Ec by (by apply staged_finalizes) end.
  rewrite Ec in H. unfold pb_finalize_switching_boot, resume_staged in H. cbn [is_env is_concluded is_not_committed] in H.
  pose proof Hst as [Hs Hu Hf]. destruct Hn as [Hn Ht].
  pose proof (fun fin => boot_switching fin (pc_active_slot pc) (pc_standby_slot pc) (ps_dirs s (pc_active_slot pc)) (ps_dirs s (pc_standby_slot pc))
    (ps_stamp s) UPDATING ltac:(by apply load_status_of_dir) ltac:(by left) Hu Hn Ht) as Hb.
  destruct (p_resume (ps_env s)) as [w [v|e]]; [|destruct (is_dpi_error e); [|done]]; rewrite Hb in H; injection H as <- <- <-;
    cbn; rewrite String.eqb_refl; by split_and!.
Qed.

(** What is read back of a recorded failure. *)
Lemma stored_failure_read ft reason c booted :
  booted = FAILURE -> load_booted_failure_info ((store_failure_info ft reason c) <| booted_status := booted |>) = Some (ft, reason).
Proof.
  intros ->. unfold load_booted_failure_info. cbn [booted_status]. rewrite bool_decide_true by (by left). cbn [negb]. cbn.
  rewrite Z.eqb_refl. cbn. by destruct ft.
Qed.

(** C30. The update is what the DPI decides in the trial boot: after
    [post_update], the first start in the staged slot reports [SUCCESS] with the version of the update when the DPI commits it;
    when the DPI does not, it reports [FAILURE] with the DPI's reason. *)
Theorem trial_boot_decides pc (s1 s2 s4 : pstate W) version detail files w w1 plat sa st pc' :
  names_slot (pc_standby_slot pc) -> pc_active_slot pc <> pc_standby_slot pc ->
  pb_post_update pc version detail s1 = (s2, Ok tt) ->
  boots_as (pc_standby_slot pc) (pc_active_slot pc) plat w w1 ->
  start sa st false (mkPState (ps_dirs s2) (ps_stamp s2) files w) = (s4, Ok pc') ->
  match snd (p_resume w1) with
  | Ok _ => pc_booted pc' = SUCCESS /\ load_active_slot_version (control_of pc' s4) = str_take MAX_VERSION_STRING_LEN (strip version)
  | Raise e => pc_booted pc' = FAILURE /\
      pb_get_booted_failure_info pc' s4 =
        Some (switch_failed_type, switch_failed_reason ("the DPI did not commit the trial boot: " +:+ dpi_reason e)%string)
  end.
Proof.
  intros Hn Hab Hpost Hl H.
  assert (Hd : staged_for (pc_standby_slot pc) (ps_dirs s2 (pc_standby_slot pc)) /\ sd_version (ps_dirs s2 (pc_standby_slot pc)) = Some version).
  { unfold pb_post_update, as_failed_on, try_except, update_control, modify in Hpost. injection Hpost as <-.
    rewrite store_control_stb by (by destruct detail). split; [split|]; by destruct detail. }
  destruct Hd as [Hd Hv]. apply try_except_ok in H; [|intros e x y; by destruct (_ || _)].
  apply pym_bind_ok in H as (s5 & pc0 & E1 & H). destruct (locate_state_run sa st (mkPState (ps_dirs s2) (ps_stamp s2) files w) _ _ _ _ _ _ Hl E1) as [[Hdirs Hst He Hf] Hpc].
  cbn in Hdirs, He.
  destruct (Hpc pc0 eq_refl) as (P & _ & Ha & _ & _). apply pym_bind_ok in H as (s6 & [pc1 i] & E2 & H).
  apply start_status_trial in E2 as (Hc & Ha1 & Hver & Hinfo & Hr); [|by rewrite Ha, Hdirs|by rewrite Ha].
  apply pym_bind_ok in H as (s7 & i' & E3 & H). apply pym_bind_ok in H as (s8 & [] & E4 & H). injection H as <- <-.
  unfold conclude in E3. rewrite Hc in E3. apply pym_bind_ok in E3 as (s9 & [] & E & E3). injection E3 as <- <-.
  assert (H9 : ps_dirs s9 = ps_dirs s6).
  { unfold forget_the_staging_boot, on_disk in E. destruct (remove_file _ _ _) as [f r]. by injection E as <- _. }
  rewrite He in Hr. destruct (p_resume w1) as [w2 [v|e]]; cbn [snd] in *.
  - assert (H8 : s8 = s9).
    { unfold record_why_the_trial_was_not_committed in E4. destruct (is_not_committed i); [|by injection E4 as <-].
      apply pym_bind_ok in E4 as (s10 & s11 & Hg & E4). injection Hg as <- <-. rewrite Hr in E4. cbn in E4. by injection E4 as <-. }
    split; [done|]. unfold load_active_slot_version, load_version_from. cbn. rewrite H8, H9, Ha1, Hver, Ha, Hdirs, Hv. done.
  - destruct Hr as [Hbt Hnc]. split; [done|]. rewrite Hnc in E4. unfold record_why_the_trial_was_not_committed in E4.
    apply pym_bind_ok in E4 as (s10 & s11 & Hg & E4). injection Hg as <- <-. rewrite Hbt in E4.
    rewrite bool_decide_true in E4 by (by left). cbn [negb] in E4.
    assert (Hnone : load_booted_failure_info (control_of pc1 s9) = None).
    { unfold load_booted_failure_info. destruct (negb _); [done|]. cbn. rewrite H9, Ha1, Hinfo. done. }
    rewrite Hnone in E4. injection E4 as <-. unfold pb_get_booted_failure_info.
    rewrite <- (stored_failure_read switch_failed_type (switch_failed_reason ("the DPI did not commit the trial boot: " +:+ dpi_reason e)%string)
      (control_of pc1 s9) (pc_booted pc1) Hbt).
    unfold load_booted_failure_info. unfold control_of at 1 2 3 4 5, control_on. cbn. by rewrite String.eqb_refl.
Qed.
End Conclude.

(** ** Examples *)

(** A device: its slots, what the DPI decides, and the verbs it was asked. *)
Record toy_dpi : Type := mkToyDpi { td_active : string; td_standby : string; td_commits : bool; td_asked : list string }.

Definition asked (verb : string) (w : toy_dpi) : toy_dpi :=
  mkToyDpi (td_active w) (td_standby w) (td_commits w) (td_asked w ++ [verb]).

#[export] Instance toy_dpi_protocol : DPIProtocol toy_dpi := {|
  p_layout w := (asked "layout" w, Ok (mkSlotLayout (JVStr (td_active w)) (JVStr (td_standby w)) (JVStr EmptyString) "/dev/standby" (JVStr "grub")));
  p_get_version _ w := (asked "get-version" w, Ok "1.0"%string);
  p_reboot w := (asked "reboot" w, Ok tt);
  p_resume w := (asked "resume" w, if td_commits w then Ok (Some "2.0"%string) else Raise (dpi_error "the health check failed" None));
  p_source_digest _ _ w := (asked "source-digest" w, Ok "abcd"%string);
  p_install _ _ _ _ _ w := (asked "install" w, Ok tt);
|}.

Definition example_pb_files (boot_id : string) : fsys :=
  put_files [(BOOT_ID_FPATH, boot_id)]
    (put_dirs [["boot"]; ["proc"]; ["proc"; "sys"]; ["proc"; "sys"; "kernel"]; ["proc"; "sys"; "kernel"; "random"]]%string (mkFsys ∅ ∅ 0)).
Definition example_mount (p : path) : bool := bool_decide (p = ["boot"%string]) || bool_decide (p = []).
Definition example_pstate (boot_id : string) (w : toy_dpi) : pstate toy_dpi := mkPState (fun _ => absent_dir) 1 (example_pb_files boot_id) w.
Definition example_pc : pcontroller :=
  mkPController "slot_a" "slot_b" "/dev/standby" GRUB_VERITY ["opt"; "data"; "otaclient"]%string ["boot"; "ota-status"]%string INITIALIZED.

#[local] Abbreviation example_start s := (init_partition_controller (fun _ => false) example_mount 0 18 None None false s).
#[local] Abbreviation example_pre_update s := (pb_pre_update (fun _ => false) example_mount 0 18 example_pc s).
Definition example_device (commits : bool) : toy_dpi := mkToyDpi "slot_a" "slot_b" commits [].
Definition example_trial (commits : bool) : toy_dpi := mkToyDpi "slot_b" "slot_a" commits [].

Lemma example_marker_places id : id = "boot-1"%string -> marker_places (pc_status_root example_pc) (example_pb_files id).
Proof.
  intros ->. split; [apply fs_wfb_ok; vm_compute; reflexivity|apply plainb_ok; vm_compute; reflexivity
    |apply plainb_ok; vm_compute; reflexivity|discriminate].
Defined.

Lemma staged_update_left_alone_witness :
  exists s1 s', example_pre_update (example_pstate "boot-1" (example_device true)) = (s1, Ok tt) /\
    fst (example_start ((run_pb_ops example_pc [OpPostUpdate "2.0" None] s1) <| ps_env := example_device true |>)) = s' /\
    td_asked (ps_env s') = ["layout"%string].
Proof.
  destruct (example_pre_update (example_pstate "boot-1" (example_device true))) as [s1 r1] eqn:E1.
  assert (Hr : r1 = Ok tt) by (change r1 with (snd (s1, r1)); rewrite <- E1; vm_compute; reflexivity). subst r1.
  destruct (example_start ((run_pb_ops example_pc [OpPostUpdate "2.0" None] s1) <| ps_env := example_device true |>)) as [s' r] eqn:E.
  exists s1, s'. split; [reflexivity|]. split; [rewrite E; reflexivity|].
  rewrite (staged_update_left_alone (fun _ => false) example_mount 0 18 example_pc (example_pstate "boot-1" (example_device true)) s1 s'
    [OpPostUpdate "2.0" None] (example_device true) (asked "layout" (example_device true)) None None false "grub"
    (mkPlatform GRUB_VERITY ["boot"%string] ["opt"; "data"; "otaclient"]%string) r).
  - reflexivity.
  - discriminate.
  - apply example_marker_places. reflexivity.
  - reflexivity.
  - reflexivity.
  - exact E1.
  - eexists _, _. reflexivity.
  - exact E.
Defined.

(** The trial boot, after the platform came up in the staged slot. *)
Definition example_staged (boot_id : string) (commits : bool) : pstate toy_dpi :=
  let s1 := fst (example_pre_update (example_pstate "boot-1" (example_device commits))) in
  let s2 := fst (pb_post_update example_pc "2.0" None s1) in
  mkPState (ps_dirs s2) (ps_stamp s2) (put_files [(BOOT_ID_FPATH, boot_id)] (ps_files s2)) (example_trial commits).

Lemma staged_update_concluded_once_witness :
  exists s1 pc, example_start (example_staged "boot-2" true) = (s1, Ok pc) /\ td_asked (ps_env s1) = ["layout"; "resume"]%string.
Proof.
  destruct (example_start (example_staged "boot-2" true)) as [s1 r1] eqn:E1.
  destruct r1 as [pc|e]; [|exfalso; apply (f_equal snd) in E1; vm_compute in E1; discriminate E1].
  exists s1, pc. split; [reflexivity|].
  destruct (staged_update_concluded_once (fun _ => false) example_mount 0 18 (example_staged "boot-2" true) s1 "slot_b" "slot_a" "grub"
    (mkPlatform GRUB_VERITY ["boot"%string] ["opt"; "data"; "otaclient"]%string) (asked "layout" (example_trial true)) None None "boot-1" "boot-2" pc)
    as [H _].
  - reflexivity.
  - split; [apply fs_wfb_ok; vm_compute; reflexivity|apply plainb_ok; vm_compute; reflexivity|apply plainb_ok; vm_compute; reflexivity|discriminate].
  - vm_compute. reflexivity.
  - vm_compute. reflexivity.
  - discriminate.
  - eexists _, _. reflexivity.
  - exact E1.
  - rewrite H. reflexivity.
Defined.

Lemma trial_boot_decides_witness :
  exists s4 pc, example_start (example_staged "boot-2" false) = (s4, Ok pc) /\ pc_booted pc = FAILURE.
Proof.
  destruct (example_start (example_staged "boot-2" false)) as [s4 r4] eqn:E.
  destruct r4 as [pc|e]; [|exfalso; apply (f_equal snd) in E; vm_compute in E; discriminate E].
  exists s4, pc. split; [reflexivity|].
  destruct (trial_boot_decides (fun _ => false) example_mount 0 18 example_pc
    (fst (example_pre_update (example_pstate "boot-1" (example_device false))))
    (fst (pb_post_update example_pc "2.0" None (fst (example_pre_update (example_pstate "boot-1" (example_device false)))))) s4
    "2.0" None
    (put_files [(BOOT_ID_FPATH, "boot-2"%string)] (ps_files (fst (pb_post_update example_pc "2.0" None
      (fst (example_pre_update (example_pstate "boot-1" (example_device false))))))))
    (example_trial false) (asked "layout" (example_trial false)) "grub" None None pc) as [H _].
  - split; reflexivity.
  - discriminate.
  - reflexivity.
  - eexists _, _. reflexivity.
  - exact E.
  - exact H.
Defined.

(** After [on_operation_failure] the trial boot of a slot that was armed is no
    switching boot: the standby's record is overwritten with [FAILURE], and
    the boot is reported as a failure although the DPI commits it. *)
Example failed_update_trial_not_switching :
  let s1 := fst (example_pre_update (example_pstate "boot-1" (example_device true))) in
  let s2 := fst (pb_on_operation_failure example_pc s1) in
  let s3 := mkPState (ps_dirs s2) (ps_stamp s2) (put_files [(BOOT_ID_FPATH, "boot-2"%string)] (ps_files s2)) (example_trial true) in
  let '(s4, r) := example_start s3 in
  td_asked (ps_env s4) = ["layout"; "resume"]%string /\ match r with Ok pc => pc_booted pc = FAILURE | Raise _ => False end.
Proof. vm_compute. split; reflexivity. Qed.
