(* ===== verification/DownloadResources.v ===== *)
(** * Downloading the resources of an image

    Models [src/src/otaclient/ota_core/_download_resources.py]: the resumable
    download of a blob, the batches of metafiles, the [.part] files shared by
    the download threads, the slices of a sliced resource and the generator
    that dispatches them next to the other resources.  The files of the
    download directory are a map from names to contents; one download is
    [Downloader.download], and the [n]th call of it meets the [n]th answers of
    the server.  The resource table and the preparation of a resource belong to
    the ota-image-libs package and are parameters. *)

From stdpp Require Import base gmap strings list option sets fin_maps relations pretty.
From Stdlib Require Import ZArith Ascii String Lia Strings.Byte Permutation.
From S2P Require Import Prelude Errors CacheStreaming Downloader LegacyCSV LegacyMetadata.

Abbreviation digest := (list N).

Definition DEFAULT_SHUFFLE_BATCH_SIZE : nat := 256.
Definition RESUMABLE_BLOB_MIN_SIZE : Z := 1024 ^ 2.
Definition PARTIAL_SUFFIX : string := ".part".

(** ** The download directory *)

Record dl_store : Type := mkDlStore {
  ds_files : gmap string bytes;
  ds_downloaded : Z;
  ds_calls : nat;
}.

#[export] Instance eta_dl_store : Eta dl_store := fun r =>
  mkDlStore (ds_files r) (ds_downloaded r) (ds_calls r).

Definition unlink (name : string) (s : dl_store) : dl_store :=
  s <| ds_files := delete name (ds_files s) |>.

(** [os.replace] of one file by another. *)
Definition move_file (src dst : string) : PyM dl_store pyexn unit := fun s =>
  match ds_files s !! src with
  | Some f => (s <| ds_files := <[dst := f]> (delete src (ds_files s)) |>, Ok tt)
  | None => (s, Raise (PyExn (XOSError (Some 2)) [] None None))
  end.

Definition is_hash_error (e : pyexn) : bool := is_named "HashVerificationError" e.

(** ** Shuffled digests *)

(** [_iter_digests_with_shuffle]: [shuffle n] is what [random.shuffle] does
    to the [n]th batch. *)
Section Shuffle.
Context (shuffle : nat -> list digest -> list digest) (batch_size : nat).

Fixpoint shuffle_loop (n : nat) (cur ds : list digest) : list digest :=
  match ds with
  | [] => match cur with [] => [] | _ => shuffle n cur end
  | d :: ds =>
      let cur := cur ++ [d] in
      if (batch_size <=? List.length cur)%nat then shuffle n cur ++ shuffle_loop (S n) [] ds
      else shuffle_loop n cur ds
  end.

Definition iter_digests_with_shuffle (ds : list digest) : list digest := shuffle_loop 0 [] ds.

Lemma shuffle_loop_permutes n cur ds :
  (forall n l, shuffle n l ≡ₚ l) -> shuffle_loop n cur ds ≡ₚ cur ++ ds.
Proof.
  intros Hs. revert n cur. induction ds as [|d ds IH]; intros n cur; simpl.
  - destruct cur; [done|]. by rewrite Hs, app_nil_r.
  - case_match.
    + rewrite Hs, IH. by rewrite <- app_assoc.
    + rewrite IH. by rewrite <- app_assoc.
Qed.
End Shuffle.

(** ** One download *)

Section Download.
Context (hexdigest : bytes -> string) (chunk_size : nat) (proxies force_http : bool).
Context (http_get : nat -> nat -> string -> option (pydict string) -> result pyexn http_response).
Context (decompress : http_response -> list (bytes * Z) * option zstd_failure).
Abbreviation DS := (PyM dl_store pyexn).

(** [downloader.download(dst=dst, ...)] *)
Definition download_to (dst : string) (a : dl_args) : DS DownloadResult := fun s =>
  let '(d, r) := download hexdigest chunk_size proxies force_http (http_get (ds_calls s)) decompress a
                   (mkDlState (ds_files s !! dst) (ds_downloaded s)) in
  (mkDlStore (partial_alter (fun _ => dl_dst d) dst (ds_files s)) (dl_downloaded_bytes d) (S (ds_calls s)), r).

(** [download_resumable] *)
Definition download_resumable (url part digest : string) (size : Z) : DS DownloadResult :=
  f ← gets (fun s => ds_files s !! part);
  let have := resumable_bytes f size in
  _ ← (if z_truthy have then mret tt else modify (unlink part));
  try_except (download_to part (mkDlArgs url (Some size) (Some digest) None None have))
    (fun e => if is_hash_error e then _ ← modify (unlink part); raise e else raise e).

(** [_download_one] *)
Definition download_one (i : DownloadInfo) : DS DownloadResult :=
  if di_resume i then
    if opt_str_truthy (di_digest i) && z_truthy (di_original_size i) then
      download_resumable (di_url i) (di_dst i) (default EmptyString (di_digest i)) (di_original_size i)
    else raise (PyExn (XOther "AssertionError") [] None None)
  else download_to (di_dst i)
         (mkDlArgs (di_url i) (Some (di_original_size i)) (di_digest i) None (di_compression_alg i) 0).

(** [_download_one_at_batch_thread]; [spare]: whether the pool has an idle
    downloader for the thread. *)
Definition download_one_at_batch_thread (spare : bool) (i : DownloadInfo) : DS (option DownloadResult) :=
  if spare then r ← download_one i; mret (Some r) else mret None.

(** The threads of the other files: all of them end, whatever the outcome of
    each, before the block is left. *)
Fixpoint run_others (spare : list bool) (infos : list DownloadInfo) (s : dl_store) :
    dl_store * list (result pyexn (option DownloadResult)) :=
  match infos with
  | [] => (s, [])
  | i :: infos =>
      let '(s, r) := download_one_at_batch_thread (default false (head spare)) i s in
      let '(s, rs) := run_others (tail spare) infos s in
      (s, r :: rs)
  end.

(** The results in order, or the first failure. *)
Fixpoint results_of {A} (rs : list (result pyexn A)) : result pyexn (list A) :=
  match rs with
  | [] => Ok []
  | Ok a :: rs => match results_of rs with Ok l => Ok (a :: l) | Raise e => Raise e end
  | Raise e :: _ => Raise e
  end.

(** The files that got no spare downloader, by this worker. *)
Fixpoint fill_missing (res : list (option DownloadResult)) (infos : list DownloadInfo) : DS (list DownloadResult) :=
  match res, infos with
  | Some r :: res, _ :: infos => l ← fill_missing res infos; mret (r :: l)
  | None :: res, i :: infos => r ← download_one i; l ← fill_missing res infos; mret (r :: l)
  | _, _ => mret []
  end.

Fixpoint download_each (infos : list DownloadInfo) : DS (list DownloadResult) :=
  match infos with
  | [] => mret []
  | i :: infos => r ← download_one i; l ← download_each infos; mret (r :: l)
  end.

(** [_download_with_condition_at_thread].  The downloads of a batch go to
    different files, so their order does not matter: the worker's own file
    comes first here. *)
Definition download_with_condition_at_thread (spare : list bool) (infos : list DownloadInfo) :
    DS (list DownloadResult) :=
  match infos with
  | i :: ((_ :: _) as others) => fun s =>
      let '(s, r0) := download_one i s in
      let '(s, rs) := run_others spare others s in
      match results_of ((match r0 with Ok r => Ok (Some r) | Raise e => Raise e end) :: rs) with
      | Ok res => fill_missing res infos s
      | Raise e => (s, Raise e)
      end
  | _ => download_each infos
  end.

(** [DownloadHelperForLegacyOTAImage._download_single_resource_at_thread] *)
Definition EMPTY_FILE_SHA256_BYTE : digest :=
  match fromhex "e3b0c44298fc1c149afbf4c8996fb92427ae41e4649b934ca495991b7852b855" with Ok d => d | Raise _ => [] end.

Definition legacy_download_single_resource_at_thread (get_info : digest -> result pyexn DownloadInfo) (d : digest) :
    DS DownloadResult :=
  if bool_decide (d = EMPTY_FILE_SHA256_BYTE) then mret (mkDownloadResult 0 0 0)
  else
    i ← from_result (get_info d);
    download_to (di_dst i)
      (mkDlArgs (di_url i) (Some (di_original_size i)) (Some (hex_of d)) None (di_compression_alg i) 0).
End Download.

(** ** The [.part] files *)

(** [_PartialDownloads.use], on entering: the file to download through. *)
Definition use_part (d : digest) (size : Z) (in_use : gset digest) : gset digest * option string :=
  if size <? RESUMABLE_BLOB_MIN_SIZE then (in_use, None)
  else if bool_decide (d ∈ in_use) then (in_use, None)
  else ({[d]} ∪ in_use, Some (hex_of d +:+ PARTIAL_SUFFIX)%string).

(** ... and on leaving. *)
Definition release_part (d : digest) (part : option string) (in_use : gset digest) : gset digest :=
  match part with Some _ => in_use ∖ {[d]} | None => in_use end.

(** ** The slices of a resource *)

(** The filters of an entry of the resource table, with the ids they list. *)
Inductive resource_filter : Type :=
| CompressFilter (resource_id : Z)
| SliceFilter (slices : list Z)
| OtherFilter.

Record rs_entry : Type := mkRsEntry {
  rse_resource_id : Z;
  rse_digest : digest;
  rse_size : Z;
  rse_filter : resource_filter;
}.

Section Slices.
Context (select_by_digest : digest -> result pyexn (option rs_entry)).
Context (select_by_id : Z -> result pyexn (option rs_entry)).
Context (is_file : string -> bool).

(** Where [PrepareResourceHelper] keeps a slice of an entry. *)
Definition slice_save_dst (slice entry : rs_entry) : string :=
  (hex_of (rse_digest slice) +:+ "_" +:+ pretty (rse_resource_id entry))%string.

(** The loop over the slices; [None]: a slice is missing from the table. *)
Fixpoint collect_slices (entry : rs_entry) (ids : list Z) (acc : list (digest * Z * string)) :
    result pyexn (option (list (digest * Z * string))) :=
  match ids with
  | [] => Ok (Some acc)
  | id :: ids =>
      match select_by_id id with
      | Raise e => Raise e
      | Ok None => Ok None
      | Ok (Some slice) =>
          let dst := slice_save_dst slice entry in
          if bool_decide (dst ∈ map snd acc) || is_file dst then collect_slices entry ids acc
          else collect_slices entry ids (acc ++ [(rse_digest slice, rse_size slice, dst)])
      end
  end.

(** The entry whose slices are kept; [None]: nothing is left to download. *)
Definition sliced_entry (d : digest) : result pyexn (option rs_entry) :=
  match select_by_digest d with
  | Ok (Some (mkRsEntry _ _ _ (CompressFilter id))) =>
      match select_by_id id with
      | Ok (Some e) => if is_file (hex_of (rse_digest e)) then Ok None else Ok (Some e)
      | r => r
      end
  | r => r
  end.

(** [_slices_to_download] *)
Definition slices_to_download (d : digest) : result pyexn (list (digest * Z * string)) :=
  match sliced_entry d with
  | Raise e => Raise e
  | Ok (Some (mkRsEntry _ _ _ (SliceFilter ids) as entry)) =>
      match collect_slices entry ids [] with
      | Ok (Some l) => Ok l
      | Ok None => Ok []
      | Raise e => Raise e
      end
  | Ok _ => Ok []
  end.
End Slices.

(** ** Groups of slices *)

(** [_SlicesGroup]; a group is known by its index in the list of all groups. *)
Record slices_group : Type := mkSlicesGroup {
  sg_resource : digest;
  sg_not_tried : gset string;
}.

(** [_SliceToDownload] *)
Record slice_to_download : Type := mkSliceToDownload {
  sl_digest : digest;
  sl_size : Z;
  sl_save_dst : string;
  sl_group : nat;
}.

Inductive download_task : Type :=
| TResource (d : digest)
| TSlice (s : slice_to_download).

#[export] Instance slice_to_download_eq_dec : EqDecision slice_to_download.
Proof. solve_decision. Defined.
#[export] Instance download_task_eq_dec : EqDecision download_task.
Proof. solve_decision. Defined.

Definition group_tried (dst : string) (g : slices_group) : bool := negb (bool_decide (dst ∈ sg_not_tried g)).

(** [_SlicesGroup.slice_tried], the part under the lock: the group after it,
    and whether the resource is ready now. *)
Definition mark_tried (dst : string) (g : slices_group) : slices_group * bool :=
  if group_tried dst g then (g, false)
  else
    let left := sg_not_tried g ∖ {[dst]} in
    (mkSlicesGroup (sg_resource g) left, bool_decide (left = ∅)).

Definition task_tried (s : slice_to_download) (gs : list slices_group) : bool :=
  match gs !! sl_group s with Some g => group_tried (sl_save_dst s) g | None => true end.

Definition mark_task (s : slice_to_download) (gs : list slices_group) : list slices_group * option digest :=
  match gs !! sl_group s with
  | Some g =>
      let '(g', last) := mark_tried (sl_save_dst s) g in
      (<[sl_group s := g']> gs, if last then Some (sg_resource g) else None)
  | None => (gs, None)
  end.

(** ** The worker threads *)

(** The state the tasks of one download run share. *)
Record dl_run : Type := mkDlRun {
  rn_store : dl_store;
  rn_in_use : gset digest;
  rn_groups : list slices_group;
  rn_ready : list digest;
}.

#[export] Instance eta_dl_run : Eta dl_run := fun r =>
  mkDlRun (rn_store r) (rn_in_use r) (rn_groups r) (rn_ready r).

(** What a task returns: a slice is not a resource of its own. *)
Inductive task_result : Type :=
| ResourceResult (r : DownloadResult)
| SliceDownloadResult (r : DownloadResult).

(** A blob that [PrepareResourceHelper] asks for. *)
Record resource_dl_info : Type := mkResourceDlInfo {
  rd_digest : digest;
  rd_size : Z;
  rd_save_dst : string;
  rd_compression_alg : option string;
  rd_compressed_origin_digest : option digest;
  rd_compressed_origin_size : option Z;
}.

Section Workers.
Context (hexdigest : bytes -> string) (chunk_size : nat) (proxies force_http : bool).
Context (http_get : nat -> nat -> string -> option (pydict string) -> result pyexn http_response).
Context (decompress : http_response -> list (bytes * Z) * option zstd_failure).
Context (urljoin : string -> string -> string) (base_url : string).
(** [tmp_fname]: a name of its own for each call. *)
Context (tmp_fname : nat -> string -> string).
(** [prepare_resource_at_thread]: the size of the resource, the blobs the
    generator asks for, each computed when it is asked, and what it does
    after the last one. *)
Context (prepare_resource :
  digest -> result pyexn (Z * list (PyM dl_store pyexn resource_dl_info) * PyM dl_store pyexn unit)).
Abbreviation DR := (PyM dl_run pyexn).

Definition on_store {A} (m : PyM dl_store pyexn A) : DR A := fun s =>
  let '(st, r) := m (rn_store s) in (s <| rn_store := st |>, r).

(** [with _partials.use(digest, size) as _part: body] *)
Definition with_part {A} (d : digest) (size : Z) (body : option string -> DR A) : DR A := fun s =>
  let '(in_use, part) := use_part d size (rn_in_use s) in
  try_finally (body part) (modify (fun s => s <| rn_in_use := release_part d part (rn_in_use s) |>))
    (s <| rn_in_use := in_use |>).

(** [_download_blob] *)
Definition download_blob (url : string) (d : digest) (size : Z) (save_dst : string) : DR DownloadResult :=
  with_part d size (fun part =>
    match part with
    | None =>
        on_store (download_to hexdigest chunk_size proxies force_http http_get decompress save_dst
          (mkDlArgs url (Some size) (Some (hex_of d)) None None 0))
    | Some part =>
        r ← on_store (download_resumable hexdigest chunk_size proxies force_http http_get decompress
              url part (hex_of d) size);
        _ ← on_store (move_file part save_dst);
        mret r
    end).

(** [_SlicesGroup.slice_tried] *)
Definition slice_tried (s : slice_to_download) : DR unit := fun st =>
  let '(gs, ready) := mark_task s (rn_groups st) in
  (st <| rn_groups := gs |> <| rn_ready := rn_ready st ++ option_list ready |>, Ok tt).

(** [_download_slice_at_thread] *)
Definition download_slice_at_thread (s : slice_to_download) : DR task_result :=
  st ← get;
  if task_tried s (rn_groups st) then mret (SliceDownloadResult (mkDownloadResult 0 0 0))
  else
    let tmp := tmp_fname (ds_calls (rn_store st)) (sl_save_dst s) in
    r ← try_finally
          (r ← download_blob (urljoin base_url (hex_of (sl_digest s))) (sl_digest s) (sl_size s) tmp;
           _ ← on_store (move_file tmp (sl_save_dst s));
           mret r)
          (_ ← on_store (modify (unlink tmp)); slice_tried s);
    mret (SliceDownloadResult (mkDownloadResult (dr_retry_count r) 0 (dr_traffic_on_wire r))).

(** One blob of a resource. *)
Definition download_resource_blob (i : resource_dl_info) : DR DownloadResult :=
  let url := urljoin base_url (hex_of (rd_digest i)) in
  if opt_str_truthy (rd_compression_alg i) then
    match rd_compressed_origin_digest i with
    | Some ((_ :: _) as origin) =>
        on_store (download_to hexdigest chunk_size proxies force_http http_get decompress (rd_save_dst i)
          (mkDlArgs url (rd_compressed_origin_size i) (Some (hex_of origin)) None (rd_compression_alg i) 0))
    | _ => raise (PyExn (XOther "AssertionError") [] None None)
    end
  else download_blob url (rd_digest i) (rd_size i) (rd_save_dst i).

Fixpoint download_blobs (gen : list (PyM dl_store pyexn resource_dl_info)) (res : DownloadResult) : DR DownloadResult :=
  match gen with
  | [] => mret res
  | next :: gen =>
      i ← on_store next;
      r ← download_resource_blob i;
      download_blobs gen (mkDownloadResult (dr_retry_count res + dr_retry_count r) (dr_download_size res)
                            (dr_traffic_on_wire res + dr_traffic_on_wire r))
  end.

(** [DownloadHelperForOTAImageV1._download_single_resource_at_thread] *)
Definition download_single_resource_at_thread (d : digest) : DR task_result :=
  prepared ← from_result (prepare_resource d);
  let '(size, gen, finish) := prepared in
  r ← download_blobs gen (mkDownloadResult 0 size 0);
  _ ← on_store finish;
  mret (ResourceResult r).

(** [_download_task_at_thread] *)
Definition download_task_at_thread (t : download_task) : DR task_result :=
  match t with
  | TSlice s => download_slice_at_thread s
  | TResource d => download_single_resource_at_thread d
  end.
End Workers.

(** ** The generator of the tasks *)

(** Where [_iter_download_tasks] is: before the next digest, yielding the
    slices of one, draining the queue of the ready resources, or in the loop
    after the last digest. *)
Inductive iter_at : Type :=
| INext (rest : list digest)
| ISlices (pending : list slice_to_download) (rest : list digest)
| IDrain (rest : list digest)
| IWait
| IReturned
| IKeyError.

(** The generator, next to what it shares with the workers: the groups, the
    queue of the ready resources, the resources a worker is about to put
    there, the files of the download directory and the stop event. *)
Record iter_state : Type := mkIterState {
  it_at : iter_at;
  it_waiting : list digest;            (** the keys of [_waiting] *)
  it_yielded : list download_task;
  it_groups : list slices_group;
  it_ready : list digest;
  it_putting : list digest;
  it_files : gset string;
  it_stop : bool;
}.

#[export] Instance eta_iter_state : Eta iter_state := fun r =>
  mkIterState (it_at r) (it_waiting r) (it_yielded r) (it_groups r) (it_ready r) (it_putting r) (it_files r) (it_stop r).

(** [del l[x]] on a list of keys. *)
Fixpoint remove_key (x : digest) (l : list digest) : option (list digest) :=
  match l with
  | [] => None
  | y :: l => if bool_decide (x = y) then Some l else (fun l => y :: l) <$> remove_key x l
  end.

Section Dispatch.
Context (select_by_digest : digest -> result pyexn (option rs_entry)).
Context (select_by_id : Z -> result pyexn (option rs_entry)).

Definition slices_of (files : gset string) (d : digest) : list (digest * Z * string) :=
  match slices_to_download select_by_digest select_by_id (fun n => bool_decide (n ∈ files)) d with
  | Ok l => l
  | Raise _ => []
  end.

(** A resource whose slices were all tried: [del _waiting[d]], yield it. *)
Definition yield_ready (d : digest) (ready : list digest) (st : iter_state) : iter_state :=
  match remove_key d (it_waiting st) with
  | Some w => st <| it_waiting := w |> <| it_ready := ready |> <| it_yielded := it_yielded st ++ [TResource d] |>
  | None => st <| it_ready := ready |> <| it_at := IKeyError |>
  end.

(** The tasks of the slices of one resource, of a new group. *)
Definition slice_tasks (g : nat) (l : list (digest * Z * string)) : list slice_to_download :=
  map (fun '(d, size, dst) => mkSliceToDownload d size dst g) l.

(** One step of [_iter_download_tasks]. *)
Definition iter_step (st : iter_state) : iter_state :=
  match it_at st with
  | INext [] => st <| it_at := IWait |>
  | INext (d :: rest) =>
      match slices_of (it_files st) d with
      | [] => st <| it_yielded := it_yielded st ++ [TResource d] |> <| it_at := IDrain rest |>
      | l =>
          st <| it_groups := it_groups st ++ [mkSlicesGroup d (list_to_set (map snd l))] |>
             <| it_waiting := if bool_decide (d ∈ it_waiting st) then it_waiting st else it_waiting st ++ [d] |>
             <| it_at := ISlices (slice_tasks (List.length (it_groups st)) l) rest |>
      end
  | ISlices (s :: pending) rest =>
      st <| it_yielded := it_yielded st ++ [TSlice s] |> <| it_at := ISlices pending rest |>
  | ISlices [] rest => st <| it_at := IDrain rest |>
  | IDrain rest =>
      match it_ready st with
      | [] => st <| it_at := INext rest |>
      | d :: ready => yield_ready d ready st
      end
  | IWait =>
      match it_waiting st with
      | [] => st <| it_at := IReturned |>
      | _ =>
          match it_ready st with
          | d :: ready => yield_ready d ready st
          | [] => if it_stop st then st <| it_at := IReturned |> else st
          end
      end
  | IReturned | IKeyError => st
  end.

(** The generator and the workers: a dispatched slice is tried (again and
    again, when it is retried), a resource that became ready is put into the
    queue, files come and go, and the caller may set the stop event. *)
Inductive run_step : iter_state -> iter_state -> Prop :=
| run_iter st : run_step st (iter_step st)
| run_tried st s gs ready :
    TSlice s ∈ it_yielded st ->
    mark_task s (it_groups st) = (gs, ready) ->
    run_step st (st <| it_groups := gs |> <| it_putting := it_putting st ++ option_list ready |>)
| run_put st l1 d l2 :
    it_putting st = l1 ++ d :: l2 ->
    run_step st (st <| it_putting := l1 ++ l2 |> <| it_ready := it_ready st ++ [d] |>)
| run_files st files : run_step st (st <| it_files := files |>)
| run_stop st : run_step st (st <| it_stop := true |>).

Definition iter_start (files : gset string) (ds : list digest) : iter_state :=
  mkIterState (INext ds) [] [] [] [] [] files false.
End Dispatch.

(** ** Properties of the dispatched tasks *)

Definition resource_of (t : download_task) : option digest := match t with TResource d => Some d | TSlice _ => None end.
Definition yielded_resources (l : list download_task) : list digest := omap resource_of l.

Definition rest_of (a : iter_at) : list digest :=
  match a with INext l | ISlices _ l | IDrain l => l | _ => [] end.
Definition pending_of (a : iter_at) : list slice_to_download := match a with ISlices l _ => l | _ => [] end.

(** The resources with slices that were not tried yet. *)
Definition open_resources (gs : list slices_group) : list digest :=
  omap (fun g => if bool_decide (sg_not_tried g = ∅) then None else Some (sg_resource g)) gs.

Lemma remove_key_ok x l l' : remove_key x l = Some l' -> l ≡ₚ x :: l'.
Proof.
  revert l'. induction l as [|y l IH]; intros l'; simpl; [done|].
  case_bool_decide as He; [intros [= <-]; by subst|].
  destruct (remove_key x l) as [l1|]; [|done]. intros [= <-]. rewrite (IH l1) by done. constructor.
Qed.

Lemma remove_key_some x l : x ∈ l -> is_Some (remove_key x l).
Proof.
  induction l as [|y l IH]; intros Hx; [by apply elem_of_nil in Hx|]. simpl. case_bool_decide; [eauto|].
  apply elem_of_cons in Hx as [Hx|Hx]; [done|]. destruct (IH Hx) as [l' ->]. eauto.
Qed.

Lemma yielded_app_resource l d : yielded_resources (l ++ [TResource d]) = yielded_resources l ++ [d].
Proof. unfold yielded_resources. by rewrite omap_app. Qed.
Lemma yielded_app_slice l s : yielded_resources (l ++ [TSlice s]) = yielded_resources l.
Proof. unfold yielded_resources. rewrite omap_app. simpl. apply app_nil_r. Qed.

(** Trying a slice closes its group exactly when it becomes ready. *)
Lemma mark_task_open s gs gs' ready :
  mark_task s gs = (gs', ready) -> open_resources gs ≡ₚ option_list ready ++ open_resources gs'.
Proof.
  unfold mark_task. destruct (gs !! sl_group s) as [g|] eqn:Eg; [|by intros [= <- <-]].
  unfold mark_tried. destruct (group_tried (sl_save_dst s) g) eqn:Et; intros [= <- <-].
  - by rewrite list_insert_id by done.
  - unfold group_tried in Et. apply negb_false_iff in Et. apply bool_decide_eq_true in Et.
    assert (Hlt : (sl_group s < List.length gs)%nat) by (by eapply lookup_lt_Some).
    rewrite insert_take_drop by done. rewrite <- (take_drop_middle gs (sl_group s) g) at 1 by done.
    unfold open_resources. rewrite !omap_app. simpl.
    rewrite (bool_decide_false (sg_not_tried g = ∅)) by set_solver.
    case_bool_decide; simpl; [|done]. symmetry. apply Permutation_middle.
Qed.

Lemma mark_task_shape s gs gs' ready i g' :
  mark_task s gs = (gs', ready) -> gs' !! i = Some g' ->
  exists g, gs !! i = Some g /\ sg_resource g' = sg_resource g /\ sg_not_tried g' ⊆ sg_not_tried g.
Proof.
  unfold mark_task. destruct (gs !! sl_group s) as [g|] eqn:Eg; [|intros [= <- <-]; by exists g'].
  destruct (mark_tried (sl_save_dst s) g) as [g1 last] eqn:Em. intros [= <- <-].
  destruct (decide (i = sl_group s)) as [->|Hne].
  - rewrite list_lookup_insert_eq by (by eapply lookup_lt_Some). intros [= <-]. exists g. split; [done|].
    unfold mark_tried in Em. destruct (group_tried _ _); injection Em as <- <-; [done|]. simpl. set_solver.
  - rewrite list_lookup_insert_ne by done. intros Hi. by exists g'.
Qed.

(** A slice that was marked is tried from then on. *)
Lemma mark_task_tried s gs : task_tried s (fst (mark_task s gs)) = true.
Proof.
  unfold mark_task, task_tried. destruct (gs !! sl_group s) as [g|] eqn:Eg; simpl; [|by rewrite Eg].
  unfold mark_tried. destruct (group_tried (sl_save_dst s) g) eqn:Et; simpl;
    rewrite list_lookup_insert_eq by (by eapply lookup_lt_Some); [done|].
  unfold group_tried. simpl. rewrite bool_decide_false; [done|]. set_solver.
Qed.

Section DispatchProperties.
Context (select_by_digest : digest -> result pyexn (option rs_entry)).
Context (select_by_id : Z -> result pyexn (option rs_entry)).
Abbreviation step := (run_step select_by_digest select_by_id).

Record iter_inv (ds : list digest) (st : iter_state) : Prop := mkIterInv {
  ii_all : ds ≡ₚ yielded_resources (it_yielded st) ++ it_waiting st ++ rest_of (it_at st);
  ii_waiting : it_waiting st ≡ₚ open_resources (it_groups st) ++ it_putting st ++ it_ready st;
  ii_dispatched : forall i g dst, it_groups st !! i = Some g -> dst ∈ sg_not_tried g ->
    exists s, sl_group s = i /\ sl_save_dst s = dst /\ (TSlice s ∈ it_yielded st \/ s ∈ pending_of (it_at st));
  ii_returned : it_at st = IReturned -> it_stop st = true \/ it_waiting st = [];
  ii_no_key_error : it_at st <> IKeyError;
}.

Lemma yield_ready_inv ds d ready st :
  it_ready st = d :: ready -> pending_of (it_at st) = [] -> it_at st <> IReturned ->
  iter_inv ds st -> iter_inv ds (yield_ready d ready st).
Proof.
  intros Hr Hp Hnr [Ha Hw Hd Hret Hk]. unfold yield_ready.
  assert (Hin : d ∈ it_waiting st) by (rewrite Hw, Hr; set_solver).
  destruct (remove_key_some _ _ Hin) as [w Hk']. rewrite Hk'. pose proof (remove_key_ok _ _ _ Hk') as Hperm.
  constructor; simpl; [| | |done|done].
  - rewrite Ha, Hperm, yielded_app_resource, <- !app_assoc. simpl. done.
  - rewrite Hperm, Hr in Hw. apply (Permutation_cons_inv (a := d)). rewrite Hw.
    rewrite !app_assoc. symmetry. apply Permutation_middle.
  - intros i g dst Hg Hdst. destruct (Hd i g dst Hg Hdst) as (s & ? & ? & Hs). exists s. split_and!; [done..|].
    destruct Hs as [Hs|Hs]; [left; set_solver|]. rewrite Hp in Hs. by apply elem_of_nil in Hs.
Qed.

(** A new group: its resource waits, and its slices are about to be yielded. *)
Lemma new_group_inv ds d rest l st :
  NoDup ds -> it_at st = INext (d :: rest) -> l <> [] -> iter_inv ds st ->
  iter_inv ds (st <| it_groups := it_groups st ++ [mkSlicesGroup d (list_to_set (map snd l))] |>
                  <| it_waiting := if bool_decide (d ∈ it_waiting st) then it_waiting st else it_waiting st ++ [d] |>
                  <| it_at := ISlices (slice_tasks (List.length (it_groups st)) l) rest |>).
Proof.
  intros Hnd Hat Hl [Ha Hw Hd Hret Hk]. rewrite Hat in Ha, Hd. simpl in Ha, Hd.
  rewrite bool_decide_false.
  2: { rewrite Ha in Hnd. apply NoDup_app in Hnd as (_ & _ & Hnd). apply NoDup_app in Hnd as (_ & Hnd & _).
       intros Hin. apply (Hnd d Hin). set_solver. }
  constructor; simpl; [| | |done|done].
  - rewrite Ha, <- !app_assoc. done.
  - rewrite Hw. unfold open_resources. rewrite omap_app. simpl. rewrite bool_decide_false.
    + rewrite <- !app_assoc. apply Permutation_app_head. rewrite app_assoc. apply Permutation_app_comm.
    + destruct l as [|[[x z] y] l]; [done|]. simpl. set_solver.
  - intros i g dst Hg Hdst. apply lookup_app_Some in Hg as [Hg|[Hge Hg]].
    + destruct (Hd i g dst Hg Hdst) as (s & ? & ? & Hs). exists s. split_and!; [done..|]. set_solver.
    + apply list_lookup_singleton_Some in Hg as [Hi <-]. simpl in Hdst.
      apply elem_of_list_to_set, list_elem_of_fmap in Hdst as ([[x z] y] & -> & Hin).
      exists (mkSliceToDownload x z y (List.length (it_groups st))). simpl. split_and!; [lia|done|right].
      unfold slice_tasks. apply list_elem_of_fmap. by exists (x, z, y).
Qed.

Lemma iter_step_inv ds st :
  NoDup ds -> iter_inv ds st -> iter_inv ds (iter_step select_by_digest select_by_id st).
Proof.
  intros Hnd Hinv. unfold iter_step. destruct (it_at st) as [[|d rest]|[|s pending] rest|rest| | |] eqn:Hat.
  - destruct Hinv as [Ha Hw Hd Hret Hk]. rewrite Hat in Ha, Hd. by constructor.
  - destruct (slices_of select_by_digest select_by_id (it_files st) d) as [|x l] eqn:El.
    + destruct Hinv as [Ha Hw Hd Hret Hk]. rewrite Hat in Ha, Hd. constructor; simpl; [|done| |done|done].
      * rewrite Ha, yielded_app_resource, <- app_assoc. simpl. apply Permutation_app_head.
        rewrite Permutation_app_comm. simpl. constructor. apply Permutation_app_comm.
      * intros i g dst Hg Hdst. destruct (Hd i g dst Hg Hdst) as (s & ? & ? & Hs). exists s. simpl in Hs. set_solver.
    + by apply new_group_inv.
  - destruct Hinv as [Ha Hw Hd Hret Hk]. rewrite Hat in Ha, Hd. by constructor.
  - destruct Hinv as [Ha Hw Hd Hret Hk]. rewrite Hat in Ha, Hd. constructor; simpl; [|done| |done|done].
    + by rewrite yielded_app_slice.
    + intros i g dst Hg Hdst. destruct (Hd i g dst Hg Hdst) as (s' & ? & ? & Hs). exists s'. simpl in Hs. set_solver.
  - destruct (it_ready st) as [|d ready] eqn:Hr.
    + destruct Hinv as [Ha Hw Hd Hret Hk]. rewrite Hat in Ha, Hd. by constructor.
    + apply yield_ready_inv; [done|by rewrite Hat|by rewrite Hat|done].
  - destruct (it_waiting st) as [|w ws] eqn:Ew.
    + destruct Hinv as [Ha Hw Hd Hret Hk]. rewrite Hat in Ha, Hd. constructor; simpl; [done|done|done|by right|done].
    + destruct (it_ready st) as [|d ready] eqn:Hr.
      * destruct (it_stop st) eqn:Es; [|done]. destruct Hinv as [Ha Hw Hd Hret Hk]. rewrite Hat in Ha, Hd.
        constructor; simpl; [done|done|done|by left|done].
      * apply yield_ready_inv; [done|by rewrite Hat|by rewrite Hat|done].
  - done.
  - done.
Qed.

Lemma run_step_inv ds st st' : NoDup ds -> iter_inv ds st -> step st st' -> iter_inv ds st'.
Proof.
  intros Hnd Hinv Hs. destruct Hs as [st|st s gs ready Hin Hm|st l1 d l2 Hp|st files|st].
  - by apply iter_step_inv.
  - destruct Hinv as [Ha Hw Hd Hret Hk]. constructor; simpl; [done| | |done|done].
    + rewrite Hw, (mark_task_open _ _ _ _ Hm), <- !app_assoc. rewrite (Permutation_app_comm (option_list ready)).
      rewrite <- !app_assoc. apply Permutation_app_head, Permutation_app_head, Permutation_app_comm.
    + intros i g' dst Hg' Hdst. destruct (mark_task_shape _ _ _ _ _ _ Hm Hg') as (g & Hg & _ & Hsub). eauto.
  - destruct Hinv as [Ha Hw Hd Hret Hk]. constructor; simpl; [done| |done|done|done].
    rewrite Hw, Hp. apply Permutation_app_head. rewrite <- !app_assoc. simpl. apply Permutation_app_head.
    rewrite (app_comm_cons l2). rewrite app_assoc. by rewrite (Permutation_cons_append (l2 ++ it_ready st) d).
  - by destruct Hinv.
  - destruct Hinv as [Ha Hw Hd Hret Hk]. constructor; simpl; [done|done|done|by left|done].
Qed.

Lemma run_inv ds files st :
  NoDup ds -> rtc step (iter_start files ds) st -> iter_inv ds st.
Proof.
  intros Hnd Hr. apply rtc_ind_r with (P := iter_inv ds) in Hr; [done| |].
  - constructor; simpl; [done|done| |done|done]. intros i g dst Hg. by rewrite lookup_nil in Hg.
  - intros x y _ Hs Hx. by eapply run_step_inv.
Qed.

(** C24. However the generator, the workers and their retries interleave,
    whatever the other downloads do to the files of the directory: every
    resource is dispatched at most once, a sliced one only after each of its
    slices was tried, [del _waiting[...]] never fails, and a generator that
    returns without having been stopped has dispatched exactly the resources
    it was given. *)
Theorem resources_dispatched_once shuffle batch_size resources files st :
  NoDup resources -> (forall n l, shuffle n l ≡ₚ l) ->
  rtc step (iter_start files (iter_digests_with_shuffle shuffle batch_size resources)) st ->
  it_at st <> IKeyError /\ NoDup (yielded_resources (it_yielded st)) /\
  (forall d, TResource d ∈ it_yielded st -> d ∈ resources /\
     forall g, g ∈ it_groups st -> sg_resource g = d -> sg_not_tried g = ∅) /\
  (it_at st = IReturned -> it_stop st = false -> yielded_resources (it_yielded st) ≡ₚ resources).
Proof.
  intros Hnd Hs Hr. assert (Hp : iter_digests_with_shuffle shuffle batch_size resources ≡ₚ resources)
    by (by apply shuffle_loop_permutes).
  apply run_inv in Hr as [Ha Hw Hd Hret Hk]; [|by rewrite Hp]. rewrite Hp in Ha.
  pose proof Hnd as Hnd'. rewrite Ha in Hnd'. apply NoDup_app in Hnd' as (Hny & Hdisj & _).
  split_and!; [done|done| |].
  - intros d Hin. assert (Hy : d ∈ yielded_resources (it_yielded st)) by (apply list_elem_of_omap; by exists (TResource d)).
    split; [rewrite Ha; set_solver|]. intros g Hg <-. destruct (decide (sg_not_tried g = ∅)) as [|Hne]; [done|].
    exfalso. apply (Hdisj _ Hy). apply elem_of_app. left. rewrite Hw. apply elem_of_app. left.
    apply list_elem_of_omap. exists g. by rewrite bool_decide_false.
  - intros Hat Hstop. rewrite Ha, Hat. destruct (Hret Hat) as [| ->]; [congruence|]. simpl. by rewrite app_nil_r.
Qed.

(** The generator never waits in vain: when it is in its last loop with
    resources waiting, nothing ready and the stop event not set, then a slice
    that it has dispatched was not tried yet, or a worker is about to put a
    resource into the queue; trying that last slice makes a waiting resource
    ready, and the generator's next step then dispatches it. *)
Theorem dispatcher_waits_for_slices ds files st :
  NoDup ds -> rtc step (iter_start files ds) st ->
  it_at st = IWait -> it_waiting st <> [] -> it_ready st = [] ->
  it_putting st <> [] \/
  exists s, TSlice s ∈ it_yielded st /\ task_tried s (it_groups st) = false /\
    forall gs d, mark_task s (it_groups st) = (gs, Some d) -> d ∈ it_waiting st /\
      forall st', it_at st' = IWait -> it_waiting st' = it_waiting st -> it_ready st' = [d] ->
        it_yielded (iter_step select_by_digest select_by_id st') = it_yielded st' ++ [TResource d].
Proof.
  intros Hnd Hr Hat Hne Hre. apply run_inv in Hr as [Ha Hw Hd Hret Hk]; [|done].
  destruct (it_putting st) as [|p ps] eqn:Hp; [right|by left]. rewrite Hre, app_nil_r in Hw. simpl in Hw.
  assert (Hopen : open_resources (it_groups st) <> []).
  { intros He. rewrite He in Hw. apply Permutation_nil_r in Hw. done. }
  destruct (open_resources (it_groups st)) as [|d0 os] eqn:Ho; [done|].
  assert (Hin : d0 ∈ open_resources (it_groups st)) by (rewrite Ho; set_solver).
  apply list_elem_of_omap in Hin as (g & Hg & Hopen'). case_bool_decide as Hnt; [done|]. injection Hopen' as Hres.
  apply set_choose_L in Hnt as [dst Hdst]. apply list_elem_of_lookup in Hg as [i Hi].
  destruct (Hd i g dst Hi Hdst) as (s & Hsi & Hsd & Hs). rewrite Hat in Hs. simpl in Hs. exists s.
  split_and!; [set_solver| |].
  - unfold task_tried, group_tried. rewrite Hsi, Hi, Hsd. by rewrite bool_decide_true.
  - intros gs d Hm. unfold mark_task in Hm. rewrite Hsi, Hi in Hm. destruct (mark_tried _ g) as [g' []]; [|done].
    injection Hm as _ <-. assert (Hwt : sg_resource g ∈ it_waiting st) by (rewrite Hw, Hres; set_solver).
    split; [done|]. intros st' Hat' Hw' Hr'. unfold iter_step. rewrite Hat', Hr', Hw'.
    destruct (it_waiting st) as [|w ws] eqn:Ew; [done|]. unfold yield_ready. rewrite Hw', <- Ew.
    rewrite <- Ew in Hwt. destruct (remove_key_some _ _ Hwt) as [l ->]. done.
Qed.
End DispatchProperties.

(** ** Properties of the downloads *)

Section DownloadSpecs.
Context (hexdigest : bytes -> string) (chunk_size : nat) (proxies force_http : bool).
Context (http_get : nat -> nat -> string -> option (pydict string) -> result pyexn http_response).
Context (decompress : http_response -> list (bytes * Z) * option zstd_failure).
Context (Hchunk : (0 < chunk_size)%nat).
Abbreviation dl_to := (download_to hexdigest chunk_size proxies force_http http_get decompress).
Abbreviation dl_resumable := (download_resumable hexdigest chunk_size proxies force_http http_get decompress).
Abbreviation dl_one := (download_one hexdigest chunk_size proxies force_http http_get decompress).

(** A content of the size and the digest that were asked for; a size of 0 or
    an empty digest asks for nothing. *)
Definition verified (size : Z) (hex : string) (f : bytes) : Prop :=
  (size <> 0 -> Z.of_nat (List.length f) = size) /\ (hex <> EmptyString -> hexdigest f = hex).

(** No file but [dst] was touched. *)
Definition only_file (dst : string) (s s' : dl_store) : Prop :=
  forall n, n <> dst -> ds_files s' !! n = ds_files s !! n.

Lemma only_file_trans dst s1 s2 s3 : only_file dst s1 s2 -> only_file dst s2 s3 -> only_file dst s1 s3.
Proof. intros H1 H2 n Hn. by rewrite (H2 n Hn), (H1 n Hn). Qed.

Lemma download_to_only dst a s : only_file dst s (fst (dl_to dst a s)).
Proof. unfold download_to. destruct (download _ _ _ _ _ _ _ _) as [d r]. intros n Hn. simpl. by rewrite lookup_partial_alter_ne. Qed.

Lemma download_to_ok dst a s s' r :
  dl_to dst a s = (s', Ok r) ->
  exists f, ds_files s' !! dst = Some f /\ dr_download_size r = Z.of_nat (List.length f) /\
    (forall size, da_size a = Some size -> size <> 0 -> Z.of_nat (List.length f) = size) /\
    (forall hex, da_digest a = Some hex -> hex <> EmptyString -> hexdigest f = hex).
Proof.
  unfold download_to. destruct (download _ _ _ _ _ _ _ _) as [d r1] eqn:E. intros [= <- ->].
  apply download_ok in E as (n & a' & s1 & <- & <- & E); [|done].
  apply download_once_ok in E as (f & Hf & Hr & Hs & Hd); [|done]. exists f. simpl. rewrite lookup_partial_alter_eq.
  split_and!; [done|done| |].
  - intros size Hsz Hne. rewrite Hsz in Hs. simpl in Hs. unfold z_truthy in Hs.
    destruct (Z.eqb_spec size 0); [done|]. specialize (Hs eq_refl). congruence.
  - intros hex Hh Hne. rewrite Hh in Hd. specialize (Hd ltac:(by destruct hex)). congruence.
Qed.

Lemma unlink_only dst s : only_file dst s (unlink dst s).
Proof. intros n Hn. simpl. by rewrite lookup_delete_ne. Qed.

Lemma download_resumable_run url part d size s :
  exists s1 a, only_file part s s1 /\ da_size a = Some size /\ da_digest a = Some d /\
    dl_resumable url part d size s =
      try_except (dl_to part a) (fun e => if is_hash_error e then _ ← modify (unlink part); raise e else raise e) s1.
Proof.
  set (have := resumable_bytes (ds_files s !! part) size).
  exists (if z_truthy have then s else unlink part s), (mkDlArgs url (Some size) (Some d) None None have).
  split_and!; [destruct (z_truthy have); [done|apply unlink_only]|done|done|].
  unfold download_resumable. unfold mbind at 1, pym_bind at 1, gets at 1. unfold mbind at 1, pym_bind at 1.
  unfold have. by destruct (z_truthy _).
Qed.

Lemma download_resumable_only url part d size s : only_file part s (fst (dl_resumable url part d size s)).
Proof.
  destruct (download_resumable_run url part d size s) as (s1 & a & H1 & _ & _ & ->). eapply only_file_trans; [exact H1|].
  unfold try_except. pose proof (download_to_only part a s1) as H2. destruct (dl_to part a s1) as [s2 [r|e]]; [done|].
  destruct (is_hash_error e); [|done]. eapply only_file_trans; [exact H2|]. apply unlink_only.
Qed.

Lemma download_resumable_ok url part d size s s' r :
  dl_resumable url part d size s = (s', Ok r) -> exists f, ds_files s' !! part = Some f /\ verified size d f.
Proof.
  destruct (download_resumable_run url part d size s) as (s1 & a & _ & Hs & Hd & ->). intros H.
  apply try_except_ok in H; [|intros e s2 r2; by destruct (is_hash_error e)].
  apply download_to_ok in H as (f & Hf & _ & Hs' & Hd'). exists f. split; [done|]. split; eauto.
Qed.

(** Bytes that hashed wrong are gone. *)
Lemma download_resumable_hash_error url part d size s s' e :
  dl_resumable url part d size s = (s', Raise e) -> is_hash_error e = true -> ds_files s' !! part = None.
Proof.
  destruct (download_resumable_run url part d size s) as (s1 & a & _ & _ & _ & ->). unfold try_except.
  destruct (dl_to part a s1) as [s2 [r|e']]; [done|]. destruct (is_hash_error e') eqn:Ee.
  - intros [= <- <-] _. simpl. apply lookup_delete_eq.
  - intros [= <- <-]. congruence.
Qed.

(** The file that was asked for is there. *)
Definition is_downloaded (i : DownloadInfo) (s : dl_store) : Prop :=
  exists f, ds_files s !! di_dst i = Some f /\ verified (di_original_size i) (default EmptyString (di_digest i)) f.

Lemma is_downloaded_stays dst i s s' :
  only_file dst s s' -> di_dst i <> dst -> is_downloaded i s -> is_downloaded i s'.
Proof. intros Ho Hne (f & Hf & Hv). exists f. by rewrite (Ho _ Hne). Qed.

Lemma download_one_only i s : only_file (di_dst i) s (fst (dl_one i s)).
Proof.
  unfold download_one. destruct (di_resume i); [|apply download_to_only].
  destruct (_ && _); [apply download_resumable_only|by intros n Hn].
Qed.

Lemma download_one_ok i s s' r :
  dl_one i s = (s', Ok r) ->
  only_file (di_dst i) s s' /\ is_downloaded i s'.
Proof.
  unfold download_one, is_downloaded. destruct (di_resume i).
  - destruct (_ && _); [|done]. intros H. split; [|by eapply download_resumable_ok].
    pose proof (download_resumable_only (di_url i) (di_dst i) (default EmptyString (di_digest i)) (di_original_size i) s) as Ho.
    by rewrite H in Ho.
  - intros H. split; [change s' with (fst (s', Ok (E := pyexn) r)); rewrite <- H; apply download_to_only|].
    apply download_to_ok in H as (f & Hf & _ & Hs & Hd). exists f. split; [done|]. split; [eauto|].
    destruct (di_digest i); simpl; [eauto|done].
Qed.

Abbreviation others_of := (run_others hexdigest chunk_size proxies force_http http_get decompress).
Abbreviation fill := (fill_missing hexdigest chunk_size proxies force_http http_get decompress).

(** The files of the results that are there. *)
Definition results_downloaded (s : dl_store) : list (option DownloadResult) -> list DownloadInfo -> Prop :=
  Forall2 (fun o i => is_Some o -> is_downloaded i s).

Lemma results_downloaded_stays dst s s' res infos :
  only_file dst s s' -> dst ∉ map di_dst infos -> results_downloaded s res infos -> results_downloaded s' res infos.
Proof.
  intros Ho Hn H. induction H as [|o i res infos Hi _ IH]; [constructor|]. simpl in Hn. apply not_elem_of_cons in Hn as [Hn1 Hn2].
  constructor; [|by apply IH]. intros Hs. eapply is_downloaded_stays; [exact Ho|congruence|auto].
Qed.

Lemma download_each_ok infos s s' l :
  NoDup (map di_dst infos) -> download_each hexdigest chunk_size proxies force_http http_get decompress infos s = (s', Ok l) ->
  List.length l = List.length infos /\ Forall (fun i => is_downloaded i s') infos /\
  forall n, n ∉ map di_dst infos -> ds_files s' !! n = ds_files s !! n.
Proof.
  revert s l. induction infos as [|i infos IH]; intros s l Hnd H; simpl in *; [by injection H as <- <-|].
  apply NoDup_cons in Hnd as [Hni Hnd]. apply pym_bind_ok in H as (s1 & r & E1 & H).
  apply pym_bind_ok in H as (s2 & l2 & E2 & H). injection H as <- <-.
  apply download_one_ok in E1 as [Ho Hd]. apply IH in E2 as (Hl & Hf & Hn); [|done]. split_and!; [simpl; lia| |].
  - constructor; [|done]. destruct Hd as (f & Hf' & Hv). exists f. by rewrite Hn.
  - intros n Hn'. apply not_elem_of_cons in Hn' as [Hn1 Hn2]. by rewrite Hn, Ho.
Qed.

Lemma run_others_ok spare infos s s' rs res :
  NoDup (map di_dst infos) -> others_of spare infos s = (s', rs) -> results_of rs = Ok res ->
  results_downloaded s' res infos /\ forall n, n ∉ map di_dst infos -> ds_files s' !! n = ds_files s !! n.
Proof.
  revert spare s s' rs res. induction infos as [|i infos IH]; intros spare s s' rs res Hnd H Hres; simpl in H.
  - injection H as <- <-. injection Hres as <-. by split; [constructor|].
  - apply NoDup_cons in Hnd as [Hni Hnd]. destruct (download_one_at_batch_thread _ _ _ _ _ _ _ i s) as [s1 r] eqn:E1.
    destruct (others_of (tail spare) infos s1) as [s2 rs2] eqn:E2. injection H as <- <-. simpl in Hres.
    destruct r as [o|e]; [|done]. destruct (results_of rs2) as [l|] eqn:Er; [|done]. injection Hres as <-.
    destruct (IH _ _ _ _ _ Hnd E2 Er) as [Hd Hn].
    assert (H1 : only_file (di_dst i) s s1 /\ (is_Some o -> is_downloaded i s1)).
    { unfold download_one_at_batch_thread in E1. destruct (default false (head spare)).
      - apply pym_bind_ok in E1 as (s1' & r & E1 & H). injection H as <- <-. by apply download_one_ok in E1 as [??].
      - injection E1 as <- <-. split; [done|]. intros [? ?]; done. }
    destruct H1 as [Ho Hi]. split.
    + constructor; [|done]. intros Hs. destruct (Hi Hs) as (f & Hf & Hv). exists f. by rewrite Hn.
    + intros n Hn'. apply not_elem_of_cons in Hn' as [Hn1 Hn2]. by rewrite Hn, Ho.
Qed.

Lemma fill_missing_ok res infos s s' l :
  NoDup (map di_dst infos) -> results_downloaded s res infos -> fill res infos s = (s', Ok l) ->
  List.length l = List.length infos /\ Forall (fun i => is_downloaded i s') infos /\
  forall n, n ∉ map di_dst infos -> ds_files s' !! n = ds_files s !! n.
Proof.
  intros Hnd Hd. revert s s' l Hnd Hd. revert res. induction infos as [|i infos IH]; intros res s s' l Hnd Hd H.
  - apply Forall2_nil_inv_r in Hd as ->. by injection H as <- <-.
  - apply Forall2_cons_inv_r in Hd as (o & res' & Hi & Hd & ->). simpl in Hnd. apply NoDup_cons in Hnd as [Hni Hnd].
    destruct o as [r|]; simpl in H.
    + apply pym_bind_ok in H as (s1 & l1 & E1 & H). injection H as <- <-.
      apply IH in E1 as (Hl & Hf & Hn); [|done..]. split_and!; [simpl; lia| |].
      * constructor; [|done]. destruct (Hi ltac:(eauto)) as (f & Hf' & Hv). exists f. by rewrite Hn.
      * intros n Hn'. apply not_elem_of_cons in Hn' as [Hn1 Hn2]. by rewrite Hn.
    + apply pym_bind_ok in H as (s1 & r & E1 & H). apply pym_bind_ok in H as (s2 & l1 & E2 & H). injection H as <- <-.
      apply download_one_ok in E1 as [Ho Hi']. apply IH in E2 as (Hl & Hf & Hn); [|done|by eapply results_downloaded_stays].
      split_and!; [simpl; lia| |].
      * constructor; [|done]. destruct Hi' as (f & Hf' & Hv). exists f. by rewrite Hn.
      * intros n Hn'. apply not_elem_of_cons in Hn' as [Hn1 Hn2]. by rewrite Hn, Ho.
Qed.

(** A batch that the worker returns from is complete, however many of
    its files found a spare downloader: there is one result per file, in
    order, and every file of the batch is on disk with the size and the digest
    that were asked for; no other file was touched. *)
Theorem batch_downloaded spare infos s s' l :
  NoDup (map di_dst infos) ->
  download_with_condition_at_thread hexdigest chunk_size proxies force_http http_get decompress spare infos s = (s', Ok l) ->
  List.length l = List.length infos /\ Forall (fun i => is_downloaded i s') infos /\
  forall n, n ∉ map di_dst infos -> ds_files s' !! n = ds_files s !! n.
Proof.
  intros Hnd. destruct infos as [|i [|j infos]]; [by apply download_each_ok..|].
  unfold download_with_condition_at_thread.
  destruct (dl_one i s) as [s1 r0] eqn:E1. destruct (others_of spare (j :: infos) s1) as [s2 rs] eqn:E2.
  destruct r0 as [r|e]; [|done]. simpl results_of. destruct (results_of rs) as [res|] eqn:Er; [|done]. intros H.
  pose proof Hnd as Hnd'. rewrite (map_cons di_dst i) in Hnd'. apply NoDup_cons in Hnd' as [Hni Hnd'].
  apply download_one_ok in E1 as [Ho (f & Hf & Hv)]. destruct (run_others_ok _ _ _ _ _ _ Hnd' E2 Er) as [Hd Hn].
  apply fill_missing_ok in H as (Hl & Hall & Hn2); [|done|].
  - split_and!; [done|done|]. intros n Hn'. rewrite Hn2 by done. rewrite map_cons in Hn'. apply not_elem_of_cons in Hn' as [Hne Hn'].
    by rewrite Hn, Ho.
  - constructor; [|done]. intros _. exists f. by rewrite Hn.
Qed.

(** ** The slices and the [.part] files *)

Context (urljoin : string -> string -> string) (base_url : string) (tmp_fname : nat -> string -> string).
Context (tmp_fname_differs : forall n x, tmp_fname n x <> x).
Abbreviation blob := (download_blob hexdigest chunk_size proxies force_http http_get decompress).
Abbreviation slice_at_thread :=
  (download_slice_at_thread hexdigest chunk_size proxies force_http http_get decompress urljoin base_url tmp_fname).

Lemma use_release_part d size in_use in_use' part :
  use_part d size in_use = (in_use', part) -> release_part d part in_use' = in_use.
Proof.
  unfold use_part. destruct (size <? RESUMABLE_BLOB_MIN_SIZE); [by intros [= <- <-]|].
  case_bool_decide; intros [= <- <-]; [done|]. simpl. set_solver.
Qed.

(** The store is all that the body of [on_store] changes. *)
Definition same_run (st st' : dl_run) : Prop :=
  rn_in_use st' = rn_in_use st /\ rn_groups st' = rn_groups st /\ rn_ready st' = rn_ready st.

Lemma move_file_ok src dst s s' u :
  move_file src dst s = (s', Ok u) -> ds_files s' !! dst = ds_files s !! src /\
    forall n, n <> src -> n <> dst -> ds_files s' !! n = ds_files s !! n.
Proof.
  unfold move_file. destruct (ds_files s !! src) as [f|] eqn:E; [|done]. intros [= <- _]. simpl.
  split; [by rewrite lookup_insert_eq|]. intros n H1 H2. by rewrite lookup_insert_ne, lookup_delete_ne.
Qed.

Lemma download_blob_spec url d size dst st st' r :
  blob url d size dst st = (st', r) ->
  same_run st st' /\
  (is_ok r = true -> exists f, ds_files (rn_store st') !! dst = Some f /\ verified size (hex_of d) f).
Proof.
  unfold download_blob, with_part. destruct (use_part d size (rn_in_use st)) as [iu part] eqn:Eu.
  pose proof (use_release_part _ _ _ _ _ Eu) as Hrel. unfold try_finally, modify.
  set (body := match part with Some _ => _ | None => _ end).
  destruct (body (st <| rn_in_use := iu |>)) as [s0 r0] eqn:E0. intros [= <- <-]. subst body. destruct part as [part|].
  - unfold mbind, pym_bind, on_store in E0. simpl rn_store in E0.
    destruct (dl_resumable url part (hex_of d) size (rn_store st)) as [s1 [res|e]] eqn:E1; [|by injection E0 as <- <-].
    simpl rn_store in E0. destruct (move_file part dst s1) as [s2 [u|e]] eqn:E2; injection E0 as <- <-; (split; [done|]); [|done].
    intros _. apply download_resumable_ok in E1 as (f & Hf & Hv). apply move_file_ok in E2 as [Hd _].
    exists f. simpl. by rewrite Hd.
  - unfold on_store in E0. simpl rn_store in E0. destruct (dl_to dst _ (rn_store st)) as [s1 res] eqn:E1.
    injection E0 as <- <-. split; [done|]. destruct res as [res|]; [|done]. intros _.
    apply download_to_ok in E1 as (f & Hf & _ & Hs & Hd). exists f. split; [done|]. split; eauto.
Qed.

(** The task of a slice, whether it returns or raises, leaves the slice
    tried and the [.part] files as free as they were; a retry of it changes
    nothing at all, and the first try that returns has put the slice where the
    resource is joined from, with the size and the digest of the slice, and
    left no temporary file behind. *)
Theorem slice_tried_once s st st' r :
  slice_at_thread s st = (st', r) ->
  task_tried s (rn_groups st') = true /\ rn_in_use st' = rn_in_use st /\
  (task_tried s (rn_groups st) = true -> st' = st) /\
  (task_tried s (rn_groups st) = false ->
     ds_files (rn_store st') !! tmp_fname (ds_calls (rn_store st)) (sl_save_dst s) = None /\
     (is_ok r = true -> exists f, ds_files (rn_store st') !! sl_save_dst s = Some f /\
        verified (sl_size s) (hex_of (sl_digest s)) f)).
Proof.
  unfold download_slice_at_thread. unfold mbind at 1, pym_bind at 1, get at 1.
  destruct (task_tried s (rn_groups st)) eqn:Et; [intros [= <- <-]; by split_and!|].
  set (tmp := tmp_fname _ _). unfold mbind at 1, pym_bind at 1. unfold try_finally.
  destruct (mbind _ (blob _ _ _ tmp) st) as [s1 r1] eqn:E1.
  assert (H1 : rn_in_use s1 = rn_in_use st /\ rn_groups s1 = rn_groups st /\
    (is_ok r1 = true -> exists f, ds_files (rn_store s1) !! sl_save_dst s = Some f /\
       verified (sl_size s) (hex_of (sl_digest s)) f)).
  { unfold mbind, pym_bind in E1. destruct (blob _ _ _ tmp st) as [s0 r0] eqn:E0.
    apply download_blob_spec in E0 as [(Hu & Hg & _) Hv]. destruct r0 as [r0|]; [|by injection E1 as <- <-].
    destruct (Hv eq_refl) as (f & Hf & Hver). unfold on_store in E1.
    destruct (move_file tmp (sl_save_dst s) (rn_store s0)) as [s2 [u|e]] eqn:E2; injection E1 as <- <-; simpl; split_and!; try done.
    intros _. exists f. apply move_file_ok in E2 as [Hd _]. by rewrite Hd. }
  destruct H1 as (Hu & Hg & Hv). unfold mbind at 1, pym_bind at 1, slice_tried, on_store at 1, modify.
  simpl rn_groups. rewrite Hg. pose proof (mark_task_tried s (rn_groups st)) as Hm.
  destruct (mark_task s (rn_groups st)) as [gs rdy]. simpl in Hm. cbn [fst snd].
  destruct r1 as [r1|e1]; intros [= <- <-]; simpl; split_and!; try done; intros _; (split; [apply lookup_delete_eq|]); [|done].
  intros _. destruct (Hv eq_refl) as (f & Hf & Hver). exists f. split; [|done].
  rewrite lookup_delete_ne; [done|]. apply tmp_fname_differs.
Qed.
End DownloadSpecs.

(** ** Threads that share the [.part] files *)

(** A thread inside [with _partials.use(...)]: the blob, where it goes and the
    file it is downloaded through. *)
Record blob_thread : Type := mkBlobThread {
  bt_digest : digest;
  bt_save_dst : string;
  bt_part : option string;
}.

Record blob_sys : Type := mkBlobSys {
  bs_threads : gmap nat blob_thread;
  bs_in_use : gset digest;
  bs_files : gmap string bytes;
}.

Definition written_file (b : blob_thread) : string := default (bt_save_dst b) (bt_part b).

(** A step of the thread [t]: it begins a blob, writes (or removes) the file
    it downloads to, or leaves the block, after moving the [.part] in place or
    after a failure. *)
Inductive blob_step (t : nat) : blob_sys -> blob_sys -> Prop :=
| blob_begin st d size dst in_use part :
    bs_threads st !! t = None ->
    use_part d size (bs_in_use st) = (in_use, part) ->
    blob_step t st (mkBlobSys (<[t := mkBlobThread d dst part]> (bs_threads st)) in_use (bs_files st))
| blob_write st b f :
    bs_threads st !! t = Some b ->
    blob_step t st (mkBlobSys (bs_threads st) (bs_in_use st)
                      (partial_alter (fun _ => f) (written_file b) (bs_files st)))
| blob_done st b part f :
    bs_threads st !! t = Some b -> bt_part b = Some part -> bs_files st !! part = Some f ->
    blob_step t st (mkBlobSys (delete t (bs_threads st)) (release_part (bt_digest b) (bt_part b) (bs_in_use st))
                      (<[bt_save_dst b := f]> (delete part (bs_files st))))
| blob_left st b :
    bs_threads st !! t = Some b ->
    blob_step t st (mkBlobSys (delete t (bs_threads st)) (release_part (bt_digest b) (bt_part b) (bs_in_use st))
                      (bs_files st)).

Definition blob_any_step (st st' : blob_sys) : Prop := exists t, blob_step t st st'.

(** A digest is in use exactly while one thread downloads through its file. *)
Record blob_inv (st : blob_sys) : Prop := mkBlobInv {
  bi_part : forall t b p, bs_threads st !! t = Some b -> bt_part b = Some p ->
    p = (hex_of (bt_digest b) +:+ PARTIAL_SUFFIX)%string /\ bt_digest b ∈ bs_in_use st;
  bi_one : forall t1 t2 b1 b2, bs_threads st !! t1 = Some b1 -> bs_threads st !! t2 = Some b2 ->
    is_Some (bt_part b1) -> is_Some (bt_part b2) -> bt_digest b1 = bt_digest b2 -> t1 = t2;
}.

Lemma str_app_inj_tail a b c : (a +:+ c = b +:+ c)%string -> a = b.
Proof.
  assert (Hl : forall u v : string, String.length (u +:+ v) = (String.length u + String.length v)%nat)
    by (intros u v; induction u as [|z u IHu]; [done|];
        change (S (String.length (u +:+ v)) = S (String.length u + String.length v)); by rewrite IHu).
  revert b. induction a as [|x a IH]; intros [|y b] H; [done| | |].
  - apply (f_equal String.length) in H. rewrite !Hl in H. simpl in H. lia.
  - apply (f_equal String.length) in H. rewrite !Hl in H. simpl in H. lia.
  - change (String x (a +:+ c) = String y (b +:+ c)) in H. injection H as -> H. f_equal. auto.
Qed.

Lemma use_part_some d size in_use in_use' p :
  use_part d size in_use = (in_use', Some p) ->
  (d ∉ in_use) /\ in_use' = ({[d]} ∪ in_use) /\ p = (hex_of d +:+ PARTIAL_SUFFIX)%string.
Proof.
  unfold use_part. destruct (size <? RESUMABLE_BLOB_MIN_SIZE); [done|]. by case_bool_decide; intros [= <- <-].
Qed.

Lemma use_part_mono d size in_use in_use' p : use_part d size in_use = (in_use', p) -> in_use ⊆ in_use'.
Proof. unfold use_part. destruct (_ <? _); [by intros [= <- _]|]. case_bool_decide; intros [= <- _]; set_solver. Qed.

Lemma blob_leave_inv st t b files :
  bs_threads st !! t = Some b -> blob_inv st ->
  blob_inv (mkBlobSys (delete t (bs_threads st)) (release_part (bt_digest b) (bt_part b) (bs_in_use st)) files).
Proof.
  intros Hb [Hp Ho]. constructor; simpl.
  - intros t' b' p Hb' Hpart. apply lookup_delete_Some in Hb' as [Hne Hb']. destruct (Hp _ _ _ Hb' Hpart) as [-> Hin].
    split; [done|]. destruct (bt_part b) as [q|] eqn:Eq; [|done]. simpl. apply elem_of_difference. split; [done|].
    intros He%elem_of_singleton. apply Hne. eapply (Ho t t'); eauto.
  - intros t1 t2 b1 b2 [_ H1]%lookup_delete_Some [_ H2]%lookup_delete_Some. eauto.
Qed.

Lemma blob_step_inv t st st' : blob_inv st -> blob_step t st st' -> blob_inv st'.
Proof.
  intros Hinv Hs. destruct Hs as [st d size dst iu part Hn Hu|st b f Hb|st b part f Hb _ _|st b Hb];
    [|by destruct Hinv|by apply blob_leave_inv|by apply blob_leave_inv].
  destruct Hinv as [Hp Ho]. pose proof (use_part_mono _ _ _ _ _ Hu) as Hsub. constructor; simpl.
  - intros t' b' p [[<- <-]|[Hne Hb']]%lookup_insert_Some Hpart; simpl in *.
    + subst part. apply use_part_some in Hu as (_ & -> & ->). split; [done|]. set_solver.
    + destruct (Hp _ _ _ Hb' Hpart). split; [done|]. set_solver.
  - assert (Hnew : forall t' b', bs_threads st !! t' = Some b' -> is_Some (bt_part b') -> is_Some part -> bt_digest b' <> d).
    { intros t' b' Hb' [p' Hp'] [p ->] <-. apply use_part_some in Hu as (Hnin & _). destruct (Hp _ _ _ Hb' Hp'). done. }
    intros t1 t2 b1 b2 [[<- <-]|[Hne1 H1]]%lookup_insert_Some [[<- <-]|[Hne2 H2]]%lookup_insert_Some Hs1 Hs2 He; simpl in *.
    + done.
    + exfalso. by apply (Hnew t2 b2 H2).
    + exfalso. by apply (Hnew t1 b1 H1).
    + eauto.
Qed.

(** Each [.part] file is written by one thread only, however many
    threads need the same blob: while a thread downloads through one, no other
    thread has it, and no step of another thread touches it (the files that
    blobs go to are not [.part] files). *)
Theorem part_file_exclusive files st t b p :
  rtc blob_any_step (mkBlobSys ∅ ∅ files) st ->
  bs_threads st !! t = Some b -> bt_part b = Some p ->
  (forall t' b', bs_threads st !! t' = Some b' -> Forall (fun n => n < 256)%N (bt_digest b')) ->
  (forall t' b', bs_threads st !! t' = Some b' -> bt_save_dst b' <> p) ->
  (forall t' b', bs_threads st !! t' = Some b' -> bt_part b' = Some p -> t' = t) /\
  (forall t' st', t' <> t -> blob_step t' st st' ->
     bs_files st' !! p = bs_files st !! p /\ bs_threads st' !! t = Some b).
Proof.
  intros Hr Hb Hpart Hbytes Hdst.
  assert (Hinv : blob_inv st).
  { apply rtc_ind_r with (P := blob_inv) in Hr; [done|by constructor|]. intros x y _ [u Hs] Hx. by eapply blob_step_inv. }
  assert (Hone : forall t' b', bs_threads st !! t' = Some b' -> bt_part b' = Some p -> t' = t).
  { intros t' b' Hb' Hp'. destruct (bi_part _ Hinv _ _ _ Hb' Hp') as [He _]. destruct (bi_part _ Hinv _ _ _ Hb Hpart) as [He' _].
    rewrite He' in He. apply str_app_inj_tail in He. symmetry in He. apply hex_of_inj in He; [|by eapply Hbytes..].
    eapply (bi_one _ Hinv); eauto. }
  split; [done|]. intros t' st' Hne Hs.
  destruct Hs as [st d size dst iu part Hn Hu|st b' f Hb'|st b' part f Hb' Hp' Hf|st b' Hb']; simpl.
  - split; [done|]. by rewrite lookup_insert_ne.
  - split; [|done]. rewrite lookup_partial_alter_ne; [done|]. unfold written_file. destruct (bt_part b') as [q|] eqn:Eq; simpl.
    + intros ->. apply Hne. eauto.
    + by eapply Hdst.
  - rewrite lookup_delete_ne by done. split; [|done]. rewrite lookup_insert_ne by (by eapply Hdst).
    apply lookup_delete_ne. intros ->. apply Hne. eauto.
  - by rewrite lookup_delete_ne.
Qed.

(** ** Witnesses *)

Definition example_slice (n : N) : slice_to_download :=
  mkSliceToDownload [n] 4 (hex_of [n] +:+ "_10")%string 0.
Definition example_by_digest (d : digest) : result pyexn (option rs_entry) :=
  Ok (if bool_decide (d = [1%N]) then Some (mkRsEntry 10 [1%N] 8 (SliceFilter [11; 12; 11])) else None).
Definition example_by_id (i : Z) : result pyexn (option rs_entry) :=
  Ok (if i =? 11 then Some (mkRsEntry 11 [17%N] 4 OtherFilter)
      else if i =? 12 then Some (mkRsEntry 12 [18%N] 4 OtherFilter) else None).
Definition example_iter (n : nat) : iter_state -> iter_state := Nat.iter n (iter_step example_by_digest example_by_id).
Definition example_tried (s : slice_to_download) (st : iter_state) : iter_state :=
  st <| it_groups := fst (mark_task s (it_groups st)) |>
     <| it_putting := it_putting st ++ option_list (snd (mark_task s (it_groups st))) |>.
Definition example_waits : iter_state := example_iter 8 (iter_start ∅ [[1%N]; [2%N]]).
Definition example_tried_all : iter_state := example_tried (example_slice 18) (example_tried (example_slice 17) example_waits).
Definition example_returned : iter_state :=
  example_iter 2 (example_tried_all <| it_putting := [] |> <| it_ready := [[1%N]] |>).

Lemma example_iter_run n st : rtc (run_step example_by_digest example_by_id) st (example_iter n st).
Proof. induction n as [|n IH]; [apply rtc_refl|]. eapply rtc_r; [exact IH|]. apply run_iter. Qed.

Lemma example_tried_run s st :
  TSlice s ∈ it_yielded st -> rtc (run_step example_by_digest example_by_id) st (example_tried s st).
Proof. intros H. apply rtc_once. apply (run_tried _ _ st s); [done|]. by destruct (mark_task s (it_groups st)). Qed.

Lemma example_returned_run :
  rtc (run_step example_by_digest example_by_id)
    (iter_start ∅ (iter_digests_with_shuffle (fun _ l => l) 256 [[1%N]; [2%N]])) example_returned.
Proof.
  transitivity example_waits; [apply (example_iter_run 8)|].
  transitivity example_tried_all.
  - transitivity (example_tried (example_slice 17) example_waits); [|unfold example_tried_all];
      apply example_tried_run; apply (bool_decide_eq_true_1 _); vm_compute; reflexivity.
  - eapply rtc_l; [|apply example_iter_run].
    refine (run_put _ _ example_tried_all [] [1%N] [] _). vm_compute. reflexivity.
Qed.

Lemma resources_dispatched_once_witness :
  yielded_resources (it_yielded example_returned) ≡ₚ [[1%N]; [2%N]] /\ it_at example_returned = IReturned.
Proof.
  assert (Hat : it_at example_returned = IReturned) by (vm_compute; reflexivity).
  split; [|exact Hat].
  refine (proj2 (proj2 (proj2 (resources_dispatched_once example_by_digest example_by_id (fun _ l => l) 256 [[1%N]; [2%N]] ∅
    example_returned _ _ example_returned_run))) Hat _).
  - apply (bool_decide_eq_true_1 _). vm_compute. reflexivity.
  - done.
  - vm_compute. reflexivity.
Defined.

Lemma dispatcher_waits_for_slices_witness :
  it_at example_waits = IWait /\
  (it_putting example_waits <> [] \/
   exists s, TSlice s ∈ it_yielded example_waits /\ task_tried s (it_groups example_waits) = false).
Proof.
  split; [vm_compute; reflexivity|].
  destruct (dispatcher_waits_for_slices example_by_digest example_by_id [[1%N]; [2%N]] ∅ example_waits) as [H|(s & H1 & H2 & _)].
  - apply (bool_decide_eq_true_1 _). vm_compute. reflexivity.
  - apply example_iter_run.
  - vm_compute. reflexivity.
  - vm_compute. discriminate.
  - vm_compute. reflexivity.
  - left. exact H.
  - right. exists s. split; assumption.
Defined.

Definition example_info (dst : string) : DownloadInfo :=
  mkDownloadInfo "http://ecu/abcd" dst 4 None (Some "abcd"%string) None true.
Definition example_batch (spare : list bool) : dl_store * result pyexn (list DownloadResult) :=
  download_with_condition_at_thread example_hexdigest 1 false false (fun _ => example_get) (fun _ => ([], None))
    spare [example_info "a"; example_info "b"; example_info "c"] (mkDlStore ∅ 0 0).

Lemma batch_downloaded_witness :
  exists l, snd (example_batch [true; false]) = Ok l /\ List.length l = 3%nat /\
    is_downloaded example_hexdigest (example_info "c") (fst (example_batch [true; false])).
Proof.
  destruct (example_batch [true; false]) as [s' [l|e]] eqn:E; [|vm_compute in E; discriminate].
  exists l. split; [reflexivity|].
  destruct (batch_downloaded example_hexdigest 1 false false (fun _ => example_get) (fun _ => ([], None)) ltac:(lia)
    [true; false] [example_info "a"; example_info "b"; example_info "c"] (mkDlStore ∅ 0 0) s' l) as (Hl & Hf & _).
  - apply (bool_decide_eq_true_1 _). vm_compute. reflexivity.
  - exact E.
  - split; [exact Hl|]. rewrite !Forall_cons in Hf. exact (proj1 (proj2 (proj2 Hf))).
Defined.

Definition example_run : dl_run := mkDlRun (mkDlStore ∅ 0 0) ∅ [mkSlicesGroup [1%N] {["abcd_10"%string]}] [].
Definition example_abcd : slice_to_download := mkSliceToDownload [171%N; 205%N] 4 "abcd_10" 0.
Definition example_slice_run : dl_run * result pyexn task_result :=
  download_slice_at_thread example_hexdigest 1 false false (fun _ => example_get) (fun _ => ([], None))
    (fun b u => (b +:+ u)%string) "http://ecu/" (fun _ n => String "t" n) example_abcd example_run.

Lemma slice_tried_once_witness :
  is_ok (snd example_slice_run) = true /\ task_tried example_abcd (rn_groups (fst example_slice_run)) = true /\
  exists f, ds_files (rn_store (fst example_slice_run)) !! "abcd_10"%string = Some f /\
    verified example_hexdigest 4 "abcd" f.
Proof.
  assert (Hok : is_ok (snd example_slice_run) = true) by (vm_compute; reflexivity).
  split; [exact Hok|].
  destruct (slice_tried_once example_hexdigest 1 false false (fun _ => example_get) (fun _ => ([], None)) ltac:(lia)
    (fun b u => (b +:+ u)%string) "http://ecu/" (fun _ n => String "t" n)
    ltac:(intros _ x E; apply (f_equal String.length) in E; simpl in E; lia) example_abcd example_run
    (fst example_slice_run) (snd example_slice_run)) as (Ht & _ & _ & Hv); [reflexivity|].
  split; [exact Ht|]. destruct Hv as [_ Hv]; [vm_compute; reflexivity|]. exact (Hv Hok).
Defined.

Definition example_blobs : blob_sys :=
  mkBlobSys {[1%nat := mkBlobThread [171%N; 205%N] "blob" (Some "abcd.part"%string)]} {[ [171%N; 205%N] ]} ∅.

Lemma part_file_exclusive_witness :
  forall t' b', bs_threads example_blobs !! t' = Some b' -> bt_part b' = Some "abcd.part"%string -> t' = 1%nat.
Proof.
  refine (proj1 (part_file_exclusive ∅ example_blobs 1 (mkBlobThread [171%N; 205%N] "blob" (Some "abcd.part"%string)) "abcd.part"
    _ _ eq_refl _ _)).
  - apply rtc_once. exists 1%nat.
    replace example_blobs with (mkBlobSys (<[1%nat := mkBlobThread [171%N; 205%N] "blob" (Some "abcd.part"%string)]> ∅)
      {[ [171%N; 205%N] ]} ∅) by (unfold example_blobs; f_equal).
    apply (blob_begin 1 (mkBlobSys ∅ ∅ ∅) [171%N; 205%N] 2097152 "blob"); [reflexivity|vm_compute; reflexivity].
  - reflexivity.
  - intros t' b' H. unfold example_blobs in H. cbn [bs_threads] in H. apply lookup_singleton_Some in H as [<- <-]. repeat constructor.
  - intros t' b' H. unfold example_blobs in H. cbn [bs_threads] in H. apply lookup_singleton_Some in H as [<- <-]. discriminate.
Defined.
