(* ===== verification/UpdateLibs.v ===== *)
(** * The shared steps of an update

    Models [src/src/otaclient/ota_core/_update_libs.py] and the two mixins of
    [src/src/otaclient/ota_core/_updater_base.py]: the translation of the
    failures of a download, the reports about the downloads, the calculation of
    the delta in both modes with what an interrupted session left behind, the
    persistent files, and the download of the resources with its clean-up.
    The generators of the delta are those of [DeltaGen]; a saved file table is
    a parameter ([find_saved_fstable] reads SQLite files). *)

From stdpp Require Import base gmap strings list option sets fin_maps relations pretty.
From Stdlib Require Import ZArith Ascii String Lia Strings.Byte.
From S2P Require Import Prelude Types Errors StatusMonitor CacheStreaming Downloader LegacyCSV LegacyMetadata ShardedDict DeltaGen DownloadResources.

Definition update_libs_module : string := "otaclient.ota_core._update_libs".

Definition DOWNLOAD_INACTIVE_TIMEOUT : Z := 10 * 60.

(** ** Failures of the downloads *)

(** [TasksEnsureFailed] and its subclass [WatchdogFailed]. *)
Definition tasks_ensure_failed (msg : string) (cause : option pyexn) : pyexn :=
  PyExn (XOther "TasksEnsureFailed") [AStr msg] cause None.
Definition watchdog_failed (msg : string) (cause : option pyexn) : pyexn :=
  PyExn (XOther "WatchdogFailed") [AStr msg] cause None.
Definition is_tasks_ensure_failed (e : pyexn) : bool := is_named "TasksEnsureFailed" e || is_named "WatchdogFailed" e.

(** [except TasksEnsureFailed as e: if e.cause: raise e.cause from None; raise],
    in [download_meta_files] and in the legacy [download_resources]. *)
Definition raise_the_cause {S A} (m : PyM S pyexn A) : PyM S pyexn A :=
  try_except m (fun e =>
    if is_tasks_ensure_failed e then match exn_cause e with Some c => raise c | None => raise e end else raise e).

Definition is_inactive_timeout (e : pyexn) : bool := is_named "DownloadInactiveTimeout" e.

(** [metadata_download_err_handler] *)
Definition metadata_download_err (e : pyexn) : pyexn :=
  if is_named "SignCertInvalid" e || is_named "NoCAStoreAvailable" e then
    ota_error (Unrec MetadataJWTVerficationFailed) ("failed to verify sign certificate: " +:+ exn_str e)%string
      update_libs_module (Some e)
  else if is_named "ImageMetadataInvalid" e then
    ota_error (Rec OTAImageInvalid) ("image metadata invalid: " +:+ exn_str e)%string update_libs_module (Some e)
  else if is_inactive_timeout e then
    ota_error (Net DownloadStalled)
      ("OTA image metadata downloading made no progress for " +:+ pretty DOWNLOAD_INACTIVE_TIMEOUT +:+ "s, abort OTA")%string
      update_libs_module (Some e)
  else
    ota_error (Net OTAMetaDownloadFailed) ("failed to prepare ota metafiles: " +:+ exn_repr e)%string
      update_libs_module (Some e).

Definition metadata_download_err_handler {S A} (body : PyM S pyexn A) : PyM S pyexn A :=
  try_except body (fun e =>
    if is_ota_error e || negb (is_exception e) then raise e else raise (metadata_download_err e)).

(** [raise_on_download_resources_failed] *)
Definition raise_on_download_resources_failed (e : pyexn) : pyexn :=
  if is_ota_error e then e
  else if is_inactive_timeout e then
    ota_error (Net DownloadStalled)
      ("OTA resources downloading made no progress for " +:+ pretty DOWNLOAD_INACTIVE_TIMEOUT +:+ "s, abort OTA")%string
      update_libs_module (Some e)
  else
    ota_error (Net OTAResourceDownloadFailed) ("OTA resources downloading interrupted: " +:+ exn_repr e)%string
      update_libs_module (Some e).

(** ** The reports about the downloads *)

Definition DOWNLOAD_STATS_REPORT_BATCH : Z := 300.
Definition DOWNLOAD_REPORT_INTERVAL : Z := 1.

Definition new_download_payload : UpdateProgressReport := mkUpdateProgressReport DOWNLOAD_REMOTE_COPY 0 0 0 0.

(** A finished future: its exception or its result. *)
Definition add_future (p : UpdateProgressReport) (f : result pyexn task_result) : result pyexn UpdateProgressReport :=
  match f with
  | Ok r =>
      let '(num, res) := match r with ResourceResult r => (1, r) | SliceDownloadResult r => (0, r) end in
      Ok (mkUpdateProgressReport (operation p) (processed_file_num p + num)
            (processed_file_size p + dr_download_size res) (rep_downloaded_bytes p + dr_traffic_on_wire res)
            (rep_errors p + Z.of_nat (dr_retry_count res)))
  | Raise e =>
      match download_exception_handler (Some e) with
      | Raise e => Raise e
      | Ok _ => Ok (mkUpdateProgressReport (operation p) (processed_file_num p) (processed_file_size p)
                      (rep_downloaded_bytes p) (rep_errors p + 1))
      end
  end.

Record handler_state : Type := mkHandlerState {
  hs_reports : list UpdateProgressReport;
  hs_metrics_bytes : Z;
  hs_metrics_errors : Z;
}.

(** The loop of [download_resources_handler] over the futures that finish,
    each with the time it is seen; [failure]: raised by the downloader after
    the last of them. *)
Fixpoint handler_loop (futs : list (Z * result pyexn task_result)) (failure : option pyexn)
    (done_count next_commit batch_cnt : Z) (p : UpdateProgressReport) (h : handler_state) :
    handler_state * result pyexn UpdateProgressReport :=
  match futs with
  | [] => (h, match failure with Some e => Raise e | None => Ok p end)
  | (now, f) :: futs =>
      match add_future p f with
      | Raise e => (h, Raise e)
      | Ok p =>
          let this_batch := done_count / DOWNLOAD_STATS_REPORT_BATCH in
          if (batch_cnt <? this_batch) || (next_commit <? now) then
            handler_loop futs failure (done_count + 1) (now + DOWNLOAD_REPORT_INTERVAL) this_batch new_download_payload
              (mkHandlerState (hs_reports h ++ [p]) (hs_metrics_bytes h + rep_downloaded_bytes p)
                 (hs_metrics_errors h + rep_errors p))
          else handler_loop futs failure (done_count + 1) next_commit batch_cnt p h
      end
  end.

(** [download_resources_handler] *)
Definition download_resources_handler (futs : list (Z * result pyexn task_result)) (failure : option pyexn)
    (h : handler_state) : handler_state * result pyexn unit :=
  let '(h, r) := handler_loop futs failure 1 0 0 new_download_payload h in
  match r with
  | Raise e => (h, Raise e)
  | Ok p => (mkHandlerState (hs_reports h ++ [p]) (hs_metrics_bytes h) (hs_metrics_errors h), Ok tt)
  end.

(** ** Persistent files *)

Definition SWAPFILES : list string := ["/swapfile"; "/swap.img"]%string.

(** [process_persistents]; [preserve]: the handler of one entry. *)
Fixpoint process_persistents {S} (preserve : string -> PyM S pyexn unit) (entries : list string) : PyM S pyexn unit :=
  match entries with
  | [] => mret tt
  | e :: entries =>
      _ ← (if bool_decide (e ∈ SWAPFILES) then mret tt
           else try_except (preserve e) (fun exn => if is_exception exn then mret tt else raise exn));
      process_persistents preserve entries
  end.

(** ** The delta *)

Definition SHA256DIGEST_HEX_LEN : nat := 64.
Definition OTA_TMP_STORE : string := "/.ota-tmp".
Definition OTA_DOWNLOAD_DIR : string := "/.ota-download".

Section Delta.
Context (sha256 : bytes -> list N).
Context {D : Type} `{!ThreadSafeDict D (list N) Z}.
Context (read_fails replace_fails : string -> bool) (in_table : string -> bool) (in_image : cpath -> bool).
(** The saved file table of a directory: for each digest, the paths that had it. *)
Context {M : Type} (find_saved_fstable : M -> option (list (list N * list string))).
(** The active slot: the files of its resource directory and its saved image metadata. *)
Context (active_resources : option (gmap string bytes)) (active_meta : option M).
(** The slot that is scanned, when the scan starts. *)
Context (slot : node).

(** The directories of the standby slot, the files of the delta source and
    the resource directory ([None]: not there) with the digests to collect. *)
Record calc_state : Type := mkCalcState {
  cs_ota_tmp : option (list (string * bytes));
  cs_resource_dir : bool;
  cs_base_meta : option M;
  cs_image_meta : option M;
  cs_delta : @delta_state D;
}.

#[export] Instance eta_calc_state : Eta calc_state := fun r =>
  mkCalcState (cs_ota_tmp r) (cs_resource_dir r) (cs_base_meta r) (cs_image_meta r) (cs_delta r).
Abbreviation CS := (PyM calc_state pyexn).

Definition on_delta (f : @delta_state D -> @delta_state D) : CS unit := modify (fun s => s <| cs_delta := f (cs_delta s) |>).

(** Whether an entry of [.ota-tmp] is named like a resource. *)
Definition is_resource_name (name : string) : bool :=
  Nat.eqb (String.length name) SHA256DIGEST_HEX_LEN && bool_decide (is_Some (from_hex name)).

Definition put_resource (name : string) (content : bytes) (st : @delta_state D) : @delta_state D :=
  st <| dg_dst := <[name := content]> (dg_dst st) |>.

Fixpoint migrate_entries (entries : list (string * bytes)) : CS unit :=
  match entries with
  | [] => mret tt
  | (name, content) :: entries =>
      _ ← (if is_resource_name name then
             if replace_fails name then raise (PyExn (XOSError (Some 5)) [] None None)
             else on_delta (put_resource name content)
           else mret tt);
      migrate_entries entries
  end.

(** [_backward_compat_for_ota_tmp_at_delta_cal] *)
Definition backward_compat_for_ota_tmp : CS unit :=
  s ← get;
  match cs_ota_tmp s with
  | None => mret tt
  | Some entries =>
      if cs_resource_dir s then
        _ ← migrate_entries entries;
        modify (fun s => s <| cs_ota_tmp := None |>)
      else
        modify (fun s => s <| cs_ota_tmp := None |> <| cs_resource_dir := true |>
                           <| cs_delta := (cs_delta s) <| dg_dst := list_to_map entries |> |>)
  end.

(** [_resume_ota_for_inplace_mode_at_delta_cal] *)
Definition resume_ota_for_inplace_mode : CS unit :=
  s ← get;
  if cs_resource_dir s then on_delta (fun st => resume_ota sha256 read_fails (map_to_list (dg_dst st)).*1 st)
  else mret tt.

Definition ensure_resource_dir : CS unit := modify (fun s => s <| cs_resource_dir := true |>).

(** [_find_base_filetable_for_inplace_mode_at_delta_cal] *)
Definition find_base_filetable_for_inplace_mode : CS (option (list (list N * list string))) :=
  s ← get;
  match cs_base_meta s ≫= find_saved_fstable with
  | Some t => mret (Some t)
  | None =>
      _ ← modify (fun s => s <| cs_base_meta := None |>);
      match cs_image_meta s with
      | Some m =>
          _ ← modify (fun s => s <| cs_base_meta := Some m |> <| cs_image_meta := None |>);
          mret (find_saved_fstable m)
      | None => mret None
      end
  end.

(** [_copy_from_active_slot_at_delta_cal] *)
Definition copy_from_active_slot : CS unit :=
  match active_resources with
  | Some src => on_delta (fun st =>
      stream_ota sha256 read_fails replace_fails (fun d => td_contains d (dg_check st)) src (map_to_list src).*1 st)
  | None => mret tt
  end.

(** The items of a full scan. *)
Definition queued (l : list action) : list (string * bool) :=
  omap (fun a => match a with AQueue p full => Some (path_str p, full) | _ => None end) l.

(** [process_slot] of the four generators: the items in the order they are
    queued. *)
Definition process_slot_inplace (base : option (list (list N * list string))) (st : @delta_state D) : @delta_state D :=
  match base with
  | Some t =>
      fold_left (fun st it => process_inplace_base sha256 read_fails replace_fails it st) (base_items t (dg_check st)) st
  | None =>
      fold_left (fun st it => process_inplace sha256 read_fails replace_fails in_table it st)
        (queued (calculate_delta_inplace in_image slot)) st
  end.
Definition process_slot_rebuild (base : option (list (list N * list string))) (st : @delta_state D) : @delta_state D :=
  match base with
  | Some t =>
      fold_left (fun st it => process_rebuild_base sha256 read_fails replace_fails it st) (base_items t (dg_check st)) st
  | None =>
      fold_left (fun st it => process_rebuild sha256 read_fails replace_fails in_table it st)
        (queued (calculate_delta_rebuild in_image slot)) st
  end.

(** The two branches of [calculate_delta]; [slot_failure]: raised by the generator. *)
Definition raise_failure (slot_failure : option pyexn) : CS unit :=
  match slot_failure with Some e => raise e | None => mret tt end.

Definition inplace_delta (slot_failure : option pyexn) : CS unit :=
  _ ← resume_ota_for_inplace_mode;
  _ ← ensure_resource_dir;
  base ← find_base_filetable_for_inplace_mode;
  _ ← on_delta (process_slot_inplace base);
  _ ← raise_failure slot_failure;
  copy_from_active_slot.

Definition rebuild_delta (slot_failure : option pyexn) : CS unit :=
  _ ← ensure_resource_dir;
  _ ← copy_from_active_slot;
  _ ← on_delta (process_slot_rebuild (active_meta ≫= find_saved_fstable));
  raise_failure slot_failure.

(** The body of [calculate_delta]. *)
Definition calculate_delta_body (use_inplace_mode : bool) (slot_failure : option pyexn) : CS unit :=
  _ ← backward_compat_for_ota_tmp;
  if use_inplace_mode then inplace_delta slot_failure else rebuild_delta slot_failure.

(** [calculate_delta] *)
Definition calculate_delta (use_inplace_mode : bool) (slot_failure : option pyexn) : CS D :=
  _ ← try_except (calculate_delta_body use_inplace_mode slot_failure) (fun e =>
        if is_exception e then
          raise (ota_error (Unrec UpdateDeltaGenerationFailed) ("failed to generate delta: " +:+ exn_repr e)%string
                   update_libs_module (Some e))
        else raise e);
  gets (fun s => dg_check (cs_delta s)).
End Delta.

(** ** Downloading the resources *)

(** What is at the download directory of the standby slot. *)
Inductive tmp_entry : Type :=
| TmpDir (files : gmap string bytes)
| TmpOther.

Record v1_session : Type := mkV1Session {
  vs_tmp : option tmp_entry;
  vs_handler : handler_state;
  vs_pool_shutdown : bool;
}.

#[export] Instance eta_v1_session : Eta v1_session := fun r => mkV1Session (vs_tmp r) (vs_handler r) (vs_pool_shutdown r).

(** A download run: the files of the directory after it, the futures that
    finished, and what the pool raised. *)
Record run_outcome : Type := mkRunOutcome {
  ro_files : gmap string bytes;
  ro_futures : list (Z * result pyexn task_result);
  ro_failure : option pyexn;
}.

Section Resources.
(** [ResumeOTADownloadHelper.check_download_dir] keeps the files it can verify. *)
Context (check_download_dir : gmap string bytes -> result pyexn (gmap string bytes)).
Context (run : gmap string bytes -> run_outcome).
Abbreviation VS := (PyM v1_session pyexn).

Definition set_tmp (t : option tmp_entry) : VS unit := modify (fun s => s <| vs_tmp := t |>).
Definition shutdown_pool : VS unit := modify (fun s => s <| vs_pool_shutdown := true |>).

Definition report_downloads (futs : list (Z * result pyexn task_result)) (failure : option pyexn) : VS unit := fun s =>
  let '(h, r) := download_resources_handler futs failure (vs_handler s) in (s <| vs_handler := h |>, r).

Definition as_download_failure {S A} (m : PyM S pyexn A) : PyM S pyexn A :=
  try_except m (fun e => if is_exception e then raise (raise_on_download_resources_failed e) else raise e).

(** The left-overs of an interrupted session are checked, or removed. *)
Definition recover_download_dir : VS unit :=
  s ← get;
  match vs_tmp s with
  | Some (TmpDir files) =>
      match check_download_dir files with
      | Ok files => set_tmp (Some (TmpDir files))
      | Raise e => if is_exception e then set_tmp None else raise e
      end
  | _ => set_tmp None
  end.

(** [OTAImageV1SupportMixin._download_delta_resources] *)
Definition v1_download_delta_resources : VS unit :=
  _ ← recover_download_dir;
  try_finally
    (as_download_failure
       (s ← get;
        let files := match vs_tmp s with Some (TmpDir f) => f | _ => ∅ end in
        let out := run files in
        _ ← set_tmp (Some (TmpDir (ro_files out)));
        _ ← report_downloads (ro_futures out) (ro_failure out);
        set_tmp None))
    shutdown_pool.

(** [LegacyOTAImageSupportMixin._download_delta_resources]: the resources go
    to their directory at once. *)
Definition legacy_download_delta_resources (futs : list (Z * result pyexn task_result)) (failure : option pyexn) : VS unit :=
  try_finally (as_download_failure (raise_the_cause (report_downloads futs failure))) shutdown_pool.
End Resources.

(** ** Properties of the reports *)

Definition sum_of (f : UpdateProgressReport -> Z) (l : list UpdateProgressReport) : Z := foldr (fun p acc => f p + acc) 0 l.

Lemma sum_of_app f l l' : sum_of f (l ++ l') = sum_of f l + sum_of f l'.
Proof. induction l as [|p l IH]; simpl; lia. Qed.

(** What one finished future counts for. *)
Definition fut_files (f : result pyexn task_result) : Z := match f with Ok (ResourceResult _) => 1 | _ => 0 end.
Definition fut_result (f : result pyexn task_result) : DownloadResult :=
  match f with Ok (ResourceResult r) | Ok (SliceDownloadResult r) => r | Raise _ => mkDownloadResult 1 0 0 end.
Definition sum_futs (g : result pyexn task_result -> Z) (futs : list (Z * result pyexn task_result)) : Z :=
  foldr (fun f acc => g (snd f) + acc) 0 futs.

Lemma add_future_ok p f p' :
  add_future p f = Ok p' ->
  operation p' = operation p /\ processed_file_num p' = processed_file_num p + fut_files f /\
  processed_file_size p' = processed_file_size p + dr_download_size (fut_result f) /\
  rep_downloaded_bytes p' = rep_downloaded_bytes p + dr_traffic_on_wire (fut_result f) /\
  rep_errors p' = rep_errors p + Z.of_nat (dr_retry_count (fut_result f)).
Proof.
  unfold add_future. destruct f as [[r|r]|e].
  - by intros [= <-].
  - by intros [= <-].
  - destruct (download_exception_handler (Some e)); intros [= <-]. simpl. split_and!; try done; lia.
Qed.

(** The open report, with the reports that were sent, carries all futures. *)
Lemma handler_loop_accounts futs failure done next batch p h h' p' :
  handler_loop futs failure done next batch p h = (h', Ok p') ->
  failure = None /\ exists sent, hs_reports h' = hs_reports h ++ sent /\
    (operation p = DOWNLOAD_REMOTE_COPY -> Forall (fun q => operation q = DOWNLOAD_REMOTE_COPY) (sent ++ [p'])) /\
    sum_of processed_file_num (sent ++ [p']) = processed_file_num p + sum_futs fut_files futs /\
    sum_of processed_file_size (sent ++ [p']) =
      processed_file_size p + sum_futs (fun f => dr_download_size (fut_result f)) futs /\
    sum_of rep_downloaded_bytes (sent ++ [p']) =
      rep_downloaded_bytes p + sum_futs (fun f => dr_traffic_on_wire (fut_result f)) futs /\
    sum_of rep_errors (sent ++ [p']) =
      rep_errors p + sum_futs (fun f => Z.of_nat (dr_retry_count (fut_result f))) futs.
Proof.
  revert done next batch p h. induction futs as [|[now f] futs IH]; intros done next batch p h; simpl.
  - destruct failure; [done|]. intros [= <- <-]. split; [done|]. exists []. simpl. rewrite app_nil_r.
    split_and!; [done| |lia..]. intros Ho. by constructor.
  - destruct (add_future p f) as [q|e] eqn:Ea; [|done]. apply add_future_ok in Ea as (Ho & Hn & Hs & Hb & He).
    destruct (_ || _).
    + intros H. apply IH in H as (Hf & sent & Hr & Hop & H1 & H2 & H3 & H4). split; [done|]. exists (q :: sent). simpl in *.
      rewrite Hr, <- app_assoc. split_and!; [done| |lia..]. intros Hp. constructor; [congruence|]. by apply Hop.
    + intros H. apply IH in H as (Hf & sent & Hr & Hop & H1 & H2 & H3 & H4). split; [done|]. exists sent.
      split_and!; [done| |lia..]. intros Hp. apply Hop. congruence.
Qed.

(** The reports of a download add up: whatever the batches and the times
    at which they are sent, the reports sent by a run that returns count each
    finished resource once and no slice as a file, and together they carry the
    bytes on disk, the bytes on the wire and the retries and failures of all
    finished downloads. *)
Theorem download_reports_add_up futs failure h h' :
  download_resources_handler futs failure h = (h', Ok tt) ->
  failure = None /\
  exists sent, hs_reports h' = hs_reports h ++ sent /\
    Forall (fun q => operation q = DOWNLOAD_REMOTE_COPY) sent /\
    sum_of processed_file_num sent = sum_futs fut_files futs /\
    sum_of processed_file_size sent = sum_futs (fun f => dr_download_size (fut_result f)) futs /\
    sum_of rep_downloaded_bytes sent = sum_futs (fun f => dr_traffic_on_wire (fut_result f)) futs /\
    sum_of rep_errors sent = sum_futs (fun f => Z.of_nat (dr_retry_count (fut_result f))) futs.
Proof.
  unfold download_resources_handler.
  destruct (handler_loop futs failure 1 0 0 new_download_payload h) as [h1 [p|e]] eqn:E; [|done]. intros [= <-].
  apply handler_loop_accounts in E as (Hf & sent & Hr & Hop & H1 & H2 & H3 & H4). split; [done|]. exists (sent ++ [p]).
  simpl. rewrite Hr, <- app_assoc. split_and!; [done|by apply Hop|exact H1|exact H2|exact H3|exact H4].
Qed.

(** ** Properties of the delta calculation *)

Section DeltaProperties.
Context (sha256 : bytes -> list N) (Hsha : forall c, Forall (fun n => n < 256)%N (sha256 c)).
Context {D : Type} `{!ThreadSafeDict D (list N) Z}.
Context (read_fails replace_fails : string -> bool).
Context (in_table : string -> bool) (in_image : cpath -> bool).
Context {M : Type} (find_saved_fstable : M -> option (list (list N * list string))).
Context (active_resources : option (gmap string bytes)) (active_meta : option M) (slot : node).
Context (needed : gset (list N)).
(** The files of the slot that is scanned and of the active slot's resource
    directory. *)
Context (src0 : gmap string bytes).
Definition file_at (p : string) (c : bytes) : Prop :=
  src0 !! p = Some c \/ exists src, active_resources = Some src /\ src !! p = Some c.
Abbreviation state := (@delta_state D).
Abbreviation ok := (accounted sha256 replace_fails needed file_at).

(** Names of resources in lower case, as they are written. *)
Definition canonical (names : list string) : Prop :=
  forall name d, name ∈ names -> from_hex name = Some d -> name = hex_of d.

(** Every file of the resource directory has the digest it is named after. *)
Definition dst_sound (st : state) : Prop := forall name c, dg_dst st !! name = Some c -> name = hex_of (sha256 c).

Lemma fold_keeps {A S} (P : S -> Prop) (f : S -> A -> S) l s :
  (forall s x, x ∈ l -> P s -> P (f s x)) -> P s -> P (fold_left f l s).
Proof.
  revert s. induction l as [|x l IH]; intros s Hf Hs; simpl; [done|].
  apply IH; [|apply Hf; [left|done]]. intros s' y Hy. apply Hf. by right.
Qed.

Lemma collect_sound p content moved (st : state) :
  dst_sound st -> dst_sound (collect (sha256 content) p content moved st).
Proof.
  intros Hs. unfold collect. destruct (td_pop _ _) as [check [v|]]; [|done]. destruct moved; [|done]. intros name c Hn. simpl in Hn.
  apply lookup_insert_Some in Hn as [[<- <-]|[_ Hn]]; [done|]. by apply Hs.
Qed.

Lemma stream_sound all src name (st : state) :
  (forall d, from_hex name = Some d -> name = hex_of d) -> dst_sound st ->
  dst_sound (stream_entry sha256 read_fails replace_fails all src name st).
Proof.
  intros Hn Hs. unfold stream_entry. destruct (String.eqb _ _); [done|]. destruct (from_hex name) as [d|]; [|done].
  destruct (negb _); [done|]. destruct (src !! name) as [c|]; [|done]. destruct (read_fails name); [done|].
  case_bool_decide as Hd; [|done]. destruct (td_pop _ _) as [check [v|]]; [|done]. destruct (replace_fails name); [done|].
  intros name' c' Hn'. simpl in Hn'. apply lookup_insert_Some in Hn' as [[<- <-]|[_ Hn']]; [|by apply Hs].
  rewrite Hd. by apply Hn.
Qed.

(** The two generators for the standby slot itself. *)
Lemma process_slot_inplace_ok base (st : state) :
  ok st -> ok (process_slot_inplace sha256 read_fails replace_fails in_table in_image slot base st).
Proof.
  intros Ha. unfold process_slot_inplace. destruct base as [t|]; apply fold_keeps; try done.
  - intros s [d paths] _. apply (delta_step_accounted sha256 Hsha read_fails replace_fails in_table needed file_at). by constructor.
  - intros s [p full] _. apply (delta_step_accounted sha256 Hsha read_fails replace_fails in_table needed file_at). by constructor.
Qed.

(** ... and for the active slot: a resource that is there already is right. *)
Lemma process_slot_rebuild_ok base (st : state) :
  ok st -> dst_sound st ->
  ok (process_slot_rebuild sha256 read_fails replace_fails in_table in_image slot base st).
Proof.
  intros Ha Hs. unfold process_slot_rebuild. destruct base as [t|].
  - apply fold_keeps; [|done]. intros s [d paths] _.
    apply (delta_step_accounted sha256 Hsha read_fails replace_fails in_table needed file_at). by constructor.
  - apply (fold_keeps (fun s => ok s /\ dst_sound s)); [|done]. intros s [p full] _ [Ha' Hs']. split.
    + apply (delta_step_accounted sha256 Hsha read_fails replace_fails in_table needed file_at s); [|done]. constructor.
      intros c _ [c' Hc']. exists c'. split; [done|]. apply Hs' in Hc'. apply hex_of_inj in Hc'; [done|apply Hsha..].
    + unfold process_rebuild. destruct (dg_src s !! p) as [c|]; [|done]. destruct (_ && _); [done|].
      destruct (read_fails p); [done|]. destruct (dg_dst s !! _); [done|]. by apply collect_sound.
Qed.

Lemma stream_all_ok src (st : state) :
  active_resources = Some src -> canonical (map_to_list src).*1 ->
  let st' := stream_ota sha256 read_fails replace_fails (fun d => td_contains d (dg_check st)) src (map_to_list src).*1 st in
  (ok st -> ok st') /\ (dst_sound st -> dst_sound st').
Proof.
  intros Hact Hc. simpl. unfold stream_ota. set (all := fun d => td_contains d (dg_check st)). clearbody all. split; intros H.
  - apply fold_keeps; [|done]. intros s n Hn Hs.
    apply (delta_step_accounted sha256 Hsha read_fails replace_fails in_table needed file_at s); [|done].
    constructor; [intros d; by apply Hc|]. intros c Hs'. right. eauto.
  - apply fold_keeps; [|done]. intros s n Hn. apply stream_sound. intros d. by apply Hc.
Qed.

Abbreviation cstate := (@calc_state D M).

(** [.ota-tmp] only adds files that it had. *)
Lemma migrate_entries_ok entries (s s' : cstate) u :
  migrate_entries replace_fails entries s = (s', Ok u) ->
  (dg_check (cs_delta s') = dg_check (cs_delta s) /\ dg_src (cs_delta s') = dg_src (cs_delta s)) /\
  forall name, is_Some (dg_dst (cs_delta s') !! name) -> is_Some (dg_dst (cs_delta s) !! name) \/ name ∈ entries.*1.
Proof.
  revert s. induction entries as [|[n c] entries IH]; intros s H; simpl in H; [injection H as <- _; auto|].
  apply pym_bind_ok in H as (s1 & [] & E1 & H). apply IH in H as [Hc Hd].
  assert (H1 : (dg_check (cs_delta s1) = dg_check (cs_delta s) /\ dg_src (cs_delta s1) = dg_src (cs_delta s)) /\
    forall name, is_Some (dg_dst (cs_delta s1) !! name) -> is_Some (dg_dst (cs_delta s) !! name) \/ name = n).
  { destruct (is_resource_name n); [|injection E1 as <-; auto]. destruct (replace_fails n); [done|]. injection E1 as <-. simpl.
    split; [done|]. intros name. destruct (decide (n = name)) as [->|Hne]; [auto|]. rewrite lookup_insert_ne by done. auto. }
  destruct H1 as [[Hc1 Hs1] Hd1]. destruct Hc as [Hc Hs]. split; [split; congruence|]. intros name Hn. simpl. destruct (Hd name Hn) as [Hn'|]; [|set_solver].
  destruct (Hd1 name Hn') as [|]; set_solver.
Qed.

Definition tmp_names (s : cstate) : list string := (default [] (cs_ota_tmp s)).*1.

Lemma backward_compat_ok (s s' : cstate) u :
  backward_compat_for_ota_tmp replace_fails s = (s', Ok u) ->
  (dg_check (cs_delta s') = dg_check (cs_delta s) /\ dg_src (cs_delta s') = dg_src (cs_delta s)) /\
  (forall name, is_Some (dg_dst (cs_delta s') !! name) -> is_Some (dg_dst (cs_delta s) !! name) \/ name ∈ tmp_names s) /\
  (cs_resource_dir s' = false -> s' = s).
Proof.
  unfold backward_compat_for_ota_tmp, tmp_names. unfold mbind at 1, pym_bind at 1, get at 1.
  destruct (cs_ota_tmp s) as [entries|]; [|intros [= <- _]; auto]. destruct (cs_resource_dir s) eqn:Er.
  - intros H. apply pym_bind_ok in H as (s1 & v & E1 & H). injection H as <- _.
    assert (Hr : cs_resource_dir s1 = true).
    { rewrite <- Er. clear Er. revert s E1. induction entries as [|[n c] l IH]; intros s E1; simpl in E1; [by injection E1 as <- _|].
      apply pym_bind_ok in E1 as (s2 & [] & E2 & E1). rewrite (IH _ E1).
      destruct (is_resource_name n); [destruct (replace_fails n); [done|]|]; by injection E2 as <-. }
    apply migrate_entries_ok in E1 as [[Hc Hsr] Hd]. simpl. split_and!; [done|done|done|congruence].
  - intros [= <- _]. simpl. split_and!; [done|done| |done]. intros name [c Hc]. right.
    apply elem_of_list_to_map_2 in Hc. apply list_elem_of_fmap. by exists (name, c).
Qed.

(** Nothing is collected yet. *)
Definition all_needed (st : state) : Prop :=
  td_ok (dg_check st) /\ dg_src st = src0 /\ forall d, d ∈ needed -> still_needed d st.

Lemma all_needed_ok st : all_needed st -> ok st.
Proof. intros (Ho & Hs & Ha). split; [done|rewrite Hs; by left|]. intros d Hd. left. auto. Qed.

Lemma resume_inplace_ok (s s' : cstate) u :
  all_needed (cs_delta s) -> canonical (map_to_list (dg_dst (cs_delta s))).*1 ->
  resume_ota_for_inplace_mode sha256 read_fails s = (s', Ok u) -> ok (cs_delta s').
Proof.
  intros Ha Hcan E. unfold resume_ota_for_inplace_mode in E. unfold mbind at 1, pym_bind at 1, get at 1 in E.
  destruct (cs_resource_dir s); injection E as <- _; [|by apply all_needed_ok]. destruct Ha as (Ho & Hs & Ha). simpl.
  apply resume_accounted; try done; [rewrite Hs; by left|apply NoDup_fst_map_to_list].
Qed.

Lemma find_base_delta (s s' : cstate) base :
  find_base_filetable_for_inplace_mode find_saved_fstable s = (s', Ok base) -> cs_delta s' = cs_delta s.
Proof.
  unfold find_base_filetable_for_inplace_mode. unfold mbind at 1, pym_bind at 1, get at 1.
  destruct (cs_base_meta s ≫= find_saved_fstable); [by intros [= <- _]|]. unfold mbind at 1, pym_bind at 1, modify at 1.
  destruct (cs_image_meta s); by intros [= <- _].
Qed.

Lemma inplace_delta_ok slot_failure (s s' : cstate) :
  all_needed (cs_delta s) -> canonical (map_to_list (dg_dst (cs_delta s))).*1 ->
  (forall src, active_resources = Some src -> canonical (map_to_list src).*1) ->
  inplace_delta sha256 read_fails replace_fails in_table in_image find_saved_fstable active_resources slot
    slot_failure s = (s', Ok tt) -> ok (cs_delta s').
Proof.
  intros Ha Hcan Hact H. unfold inplace_delta in H. apply pym_bind_ok in H as (s3 & [] & E3 & H).
  apply resume_inplace_ok in E3; [|done..]. apply pym_bind_ok in H as (s4 & [] & E4 & H). injection E4 as <-.
  apply pym_bind_ok in H as (s5 & base & E5 & H). apply find_base_delta in E5. simpl in E5. rewrite <- E5 in E3.
  apply pym_bind_ok in H as (s6 & [] & E6 & H). injection E6 as <-. apply pym_bind_ok in H as (s7 & [] & E7 & H).
  destruct slot_failure; [done|]. injection E7 as <-. apply (process_slot_inplace_ok base) in E3.
  unfold copy_from_active_slot in H. destruct active_resources as [src|] eqn:Eact; [|by injection H as <-]. injection H as <-. simpl.
  apply (stream_all_ok src); auto.
Qed.

Lemma rebuild_delta_ok slot_failure (s s' : cstate) :
  all_needed (cs_delta s) -> dst_sound (cs_delta s) ->
  (forall src, active_resources = Some src -> canonical (map_to_list src).*1) ->
  rebuild_delta sha256 read_fails replace_fails in_table in_image find_saved_fstable active_resources active_meta slot
    slot_failure s = (s', Ok tt) -> ok (cs_delta s').
Proof.
  intros Ha Hs Hact H. apply all_needed_ok in Ha. unfold rebuild_delta in H.
  apply pym_bind_ok in H as (s3 & [] & E3 & H). injection E3 as <-. apply pym_bind_ok in H as (s4 & [] & E4 & H).
  assert (H4 : ok (cs_delta s4) /\ dst_sound (cs_delta s4)).
  { unfold copy_from_active_slot in E4. destruct active_resources as [src|] eqn:Eact; injection E4 as <-; [|done]. simpl.
    destruct (stream_all_ok src (cs_delta s) Eact ltac:(auto)) as [H1 H2]. auto. }
  apply pym_bind_ok in H as (s5 & [] & E5 & H). injection E5 as <-. destruct slot_failure; [done|]. injection H as <-.
  simpl. destruct H4. by apply process_slot_rebuild_ok.
Qed.

(** C8. No resource of the new image is forgotten by the delta calculation,
    in either mode and whatever an interrupted session left on the standby
    slot (a half-filled resource directory, a [.ota-tmp] of an older client, a
    base file table), except where the file system fails: when it returns,
    every digest of the image is still to be downloaded, or the resource
    directory holds a file with that digest under its name, or a file with
    that digest, of the scanned slot or of the active slot's resource
    directory, could not be moved there.  (The rebuild mode starts on an erased
    slot; file names that are digests are in lower case.) *)
Theorem delta_accounts_for_image use_inplace slot_failure (s s' : cstate) check :
  dg_src (cs_delta s) = src0 ->
  td_ok (dg_check (cs_delta s)) -> (forall d, d ∈ needed -> still_needed d (cs_delta s)) ->
  canonical ((map_to_list (dg_dst (cs_delta s))).*1 ++ tmp_names s) ->
  (forall src, active_resources = Some src -> canonical (map_to_list src).*1) ->
  (use_inplace = false -> dg_dst (cs_delta s) = ∅ /\ cs_ota_tmp s = None) ->
  calculate_delta sha256 read_fails replace_fails in_table in_image find_saved_fstable active_resources active_meta slot
    use_inplace slot_failure s = (s', Ok check) ->
  check = dg_check (cs_delta s') /\
  forall d, d ∈ needed -> is_Some (td_view check !! d) \/ has_resource sha256 d (cs_delta s') \/
    exists p c, file_at p c /\ sha256 c = d /\ replace_fails p = true.
Proof.
  intros Hsrc Hok Hall Hcan Hact Hreb H. unfold calculate_delta in H. apply pym_bind_ok in H as (s1 & [] & E1 & H).
  injection H as <- <-. split; [done|]. apply try_except_ok in E1; [|intros e s2 a2; by destruct (is_exception e)].
  assert (Hacc : ok (cs_delta s1)); [|intros d Hd; exact (ac_digests _ _ _ _ _ Hacc d Hd)].
  unfold calculate_delta_body in E1. apply pym_bind_ok in E1 as (s2 & [] & E2 & H).
  pose proof (backward_compat_ok _ _ _ E2) as ([Hc2 Hs2] & Hd2 & _).
  assert (Hacc2 : all_needed (cs_delta s2))
    by (split_and!; [by rewrite Hc2|congruence|]; intros d Hd; unfold still_needed; rewrite Hc2; exact (Hall d Hd)).
  destruct use_inplace.
  - apply (inplace_delta_ok slot_failure s2); [done| |done|done].
    intros name d Hin. apply Hcan. apply list_elem_of_fmap in Hin as ([n c] & -> & Hin). apply elem_of_map_to_list in Hin.
    apply elem_of_app. destruct (Hd2 n ltac:(eauto)) as [[c' Hc']|]; [left|by right].
    apply list_elem_of_fmap. exists (n, c'). split; [done|]. by apply elem_of_map_to_list.
  - apply (rebuild_delta_ok slot_failure s2); [done| |done|done].
    destruct (Hreb eq_refl) as [Hemp Htmp]. intros name c Hn. destruct (Hd2 name ltac:(eauto)) as [[c' Hc']|Hin].
    + by rewrite Hemp, lookup_empty in Hc'.
    + unfold tmp_names in Hin. rewrite Htmp in Hin. by apply elem_of_nil in Hin.
Qed.
End DeltaProperties.

(** ** Properties of the sessions *)

Lemma download_failure_is_ota e : is_ota_error (raise_on_download_resources_failed e) = true.
Proof.
  unfold raise_on_download_resources_failed. destruct (is_ota_error e) eqn:E; [done|]. by destruct (is_inactive_timeout e).
Qed.

Lemma download_exception_handler_exn x e : download_exception_handler x = Raise e -> is_exception e = true.
Proof.
  unfold download_exception_handler. destruct x as [x|]; [|done].
  destruct (exn_cls x); repeat case_match; try done; by intros [= <-].
Qed.

Lemma handler_loop_raises futs failure done next batch p h h' e :
  (forall e, failure = Some e -> is_exception e = true) ->
  handler_loop futs failure done next batch p h = (h', Raise e) -> is_exception e = true.
Proof.
  intros Hf. revert done next batch p h. induction futs as [|[now f] futs IH]; intros done next batch p h; simpl.
  - destruct failure as [e0|]; [|done]. intros [= <- <-]. auto.
  - destruct (add_future p f) as [q|e0] eqn:Ea; [destruct (_ || _); apply IH|]. intros [= <- <-].
    unfold add_future in Ea. destruct f as [[]|e']; [done..|].
    destruct (download_exception_handler (Some e')) as [|e''] eqn:Ed; [done|]. injection Ea as <-.
    by apply download_exception_handler_exn in Ed.
Qed.

Section SessionProperties.
Context (check_download_dir : gmap string bytes -> result pyexn (gmap string bytes)).
Context (run : gmap string bytes -> run_outcome).

(** The directory the download starts in. *)
Definition recovered_files (s : v1_session) : gmap string bytes :=
  match vs_tmp s with
  | Some (TmpDir files) => match check_download_dir files with Ok files => files | Raise _ => ∅ end
  | _ => ∅
  end.

Lemma recover_download_dir_ok s :
  (forall files e, check_download_dir files = Raise e -> is_exception e = true) ->
  exists t, recover_download_dir check_download_dir s = (s <| vs_tmp := t |>, Ok tt) /\
    match t with Some (TmpDir f) => f | _ => ∅ end = recovered_files s.
Proof.
  intros Hexn. unfold recover_download_dir, recovered_files. unfold mbind at 1, pym_bind at 1, get at 1.
  destruct (vs_tmp s) as [[files|]|]; [|by exists None..].
  destruct (check_download_dir files) as [f|e] eqn:E; [by exists (Some (TmpDir f))|]. rewrite (Hexn _ _ E). by exists None.
Qed.

(** The download of the resources of a version 1 image: it starts from
    what the check of the left-overs kept; it returns only when the pool raised
    nothing, and then the download directory is gone; and when it fails, the
    error is one of the OTA errors and the directory holds what this run had
    downloaded, for the next session to resume.  In every case the downloaders
    are shut down. *)
Theorem v1_download_resumable s s' r :
  (forall files e, check_download_dir files = Raise e -> is_exception e = true) ->
  (forall e, ro_failure (run (recovered_files s)) = Some e -> is_exception e = true) ->
  v1_download_delta_resources check_download_dir run s = (s', r) ->
  let out := run (recovered_files s) in
  vs_pool_shutdown s' = true /\
  match r with
  | Ok _ => ro_failure out = None /\ vs_tmp s' = None
  | Raise e => is_ota_error e = true /\ vs_tmp s' = Some (TmpDir (ro_files out))
  end.
Proof.
  intros Hchk Hrun. destruct (recover_download_dir_ok s Hchk) as (t & Er & Ef).
  unfold v1_download_delta_resources. unfold mbind at 1, pym_bind at 1. rewrite Er. simpl. set (out := run (recovered_files s)) in *.
  unfold try_finally, shutdown_pool, modify, as_download_failure, try_except.
  unfold mbind at 1, pym_bind at 1, get at 1. simpl vs_tmp. rewrite Ef. fold out.
  unfold mbind at 1, pym_bind at 1, set_tmp at 1, modify at 1. unfold mbind at 1, pym_bind at 1, report_downloads. simpl vs_handler.
  destruct (download_resources_handler (ro_futures out) (ro_failure out) (vs_handler s)) as [h [[]|e]] eqn:E.
  - intros [= <- <-]. simpl. split_and!; [done| |done]. unfold download_resources_handler in E.
    destruct (handler_loop _ _ _ _ _ _ _) as [h1 [p|]] eqn:El; [|done]. by apply handler_loop_accounts in El as [-> _].
  - assert (He : is_exception e = true).
    { unfold download_resources_handler in E. destruct (handler_loop _ _ _ _ _ _ _) as [h1 [p|e1]] eqn:El; [done|].
      injection E as <- <-. by apply handler_loop_raises in El. }
    rewrite He. intros [= <- <-]. simpl. split_and!; [done|apply download_failure_is_ota|done].
Qed.
End SessionProperties.

(** Persistent files are kept as far as possible: an entry that fails does not
    stop the others, and swap files are left alone. *)
Lemma persistents_best_effort {S} (preserve : string -> PyM S pyexn unit) entries s :
  (forall e s s' x, preserve e s = (s', Raise x) -> is_exception x = true) ->
  process_persistents preserve entries s =
    (fold_left (fun s e => if bool_decide (e ∈ SWAPFILES) then s else fst (preserve e s)) entries s, Ok tt).
Proof.
  intros Hx. revert s. induction entries as [|e entries IH]; intros s; [done|]. cbn [process_persistents fold_left].
  unfold mbind at 1, pym_bind at 1. case_bool_decide; [by rewrite <- IH|]. unfold try_except.
  destruct (preserve e s) as [s' [[]|x]] eqn:E; [by rewrite <- IH|]. rewrite (Hx _ _ _ _ E). by rewrite <- IH.
Qed.

(** ** What the code does not do *)

Definition stalled : pyexn := PyExn (XOther "DownloadInactiveTimeout") [] None None.
Definition stalled_run (files : gmap string bytes) : run_outcome :=
  mkRunOutcome files [] (Some (watchdog_failed "watchdog failed" (Some stalled))).
Definition fresh_session : v1_session := mkV1Session None (mkHandlerState [] 0 0) false.

(** A download that stalls is reported as such for a legacy image, but as
    interrupted for a version 1 image: its helper does not raise the cause of
    the pool's failure. *)
Example v1_stall_reported_as_interrupted :
  (match snd (v1_download_delta_resources (fun f => Ok f) stalled_run fresh_session) with
   | Raise e => ota_class e | Ok _ => None end) = Some (Net OTAResourceDownloadFailed) /\
  (match snd (legacy_download_delta_resources [] (ro_failure (stalled_run ∅)) fresh_session) with
   | Raise e => ota_class e | Ok _ => None end) = Some (Net DownloadStalled).
Proof. by split. Qed.

Definition two_downloads : list (Z * result pyexn task_result) :=
  [(100, Ok (ResourceResult (mkDownloadResult 0 10 10))); (100, Ok (ResourceResult (mkDownloadResult 0 20 20)))].

(** The downloads of the last report are missing from the metrics. *)
Example metrics_miss_last_report :
  let h := fst (download_resources_handler two_downloads None (mkHandlerState [] 0 0)) in
  sum_of rep_downloaded_bytes (hs_reports h) = 30 /\ hs_metrics_bytes h = 10.
Proof. by vm_compute. Qed.

(** In-place delta generation, which runs before the download, removes the
    download directory that the download would resume from: it is in no image
    and is not one of the working directories. *)
Example download_dir_removed_before_resume :
  let slot := NDirOf [(".ota-download"%string, NDirOf [("part"%string, NFileOf [x61]%byte)])] in
  is_ota_working_dir [".ota-download"%string] = false /\
  bool_decide ([".ota-download"%string] ∈ cleanup_base (calculate_delta_inplace (fun _ => false) slot)) = true /\
  removed_dirs (cleanup_base_by_table (fun _ => false) slot) = [[".ota-download"%string]].
Proof. vm_compute. by split_and!. Qed.

(** ** Witnesses *)

Lemma download_reports_add_up_witness :
  exists sent, hs_reports (fst (download_resources_handler two_downloads None (mkHandlerState [] 0 0))) = sent /\
    sum_of processed_file_num sent = 2 /\ sum_of rep_downloaded_bytes sent = 30.
Proof.
  destruct (download_reports_add_up two_downloads None (mkHandlerState [] 0 0)
    (fst (download_resources_handler two_downloads None (mkHandlerState [] 0 0))) eq_refl) as (_ & sent & Hr & _ & Hn & _ & Hb & _).
  exists sent. split; [exact Hr|]. split; [rewrite Hn|rewrite Hb]; reflexivity.
Defined.

Definition example_v1_run (files : gmap string bytes) : run_outcome :=
  mkRunOutcome (<["part"%string := [x61]%byte]> files) two_downloads (Some stalled).

Lemma v1_download_resumable_witness :
  vs_pool_shutdown (fst (v1_download_delta_resources (fun f => Ok f) example_v1_run fresh_session)) = true /\
  exists files, vs_tmp (fst (v1_download_delta_resources (fun f => Ok f) example_v1_run fresh_session)) = Some (TmpDir files).
Proof.
  destruct (v1_download_resumable (fun f => Ok f) example_v1_run fresh_session
    (fst (v1_download_delta_resources (fun f => Ok f) example_v1_run fresh_session))
    (snd (v1_download_delta_resources (fun f => Ok f) example_v1_run fresh_session))) as [Hs Hr].
  - discriminate.
  - intros e [= <-]. reflexivity.
  - reflexivity.
  - split; [exact Hs|]. eexists. exact (proj2 Hr).
Defined.

Definition example_calc : @calc_state (list (gmap (list N) Z)) unit :=
  mkCalcState (Some [("old"%string, [x62]%byte)]) true None None example_delta.
Definition example_calculated :=
  @calculate_delta example_sha _ example_dict_class (fun _ => false) (fun _ => false) (fun _ => true) (fun _ => true) unit
    (fun _ => None) None None (NDirOf [("a"%string, NFileOf [x61; x62]%byte)]) true None example_calc.

Lemma delta_accounts_for_image_witness :
  match snd example_calculated with
  | Ok check =>
      is_Some (@td_view _ _ _ _ _ example_dict_class check !! [2]%N) \/
      has_resource example_sha [2]%N (cs_delta (fst example_calculated)) \/
      exists p c, file_at None (dg_src example_delta) p c /\ example_sha c = [2]%N /\ false = true
  | Raise _ => False
  end.
Proof.
  destruct example_calculated as [s' [check|e]] eqn:E; [|vm_compute in E; discriminate]. cbn [fst snd].
  apply (@delta_accounts_for_image example_sha example_sha_bytes _ example_dict_class (fun _ => false) (fun _ => false)
    (fun _ => true) (fun _ => true) unit (fun _ => None) None None
    (NDirOf [("a"%string, NFileOf [x61; x62]%byte)]) example_needed (dg_src example_delta) true None example_calc s' check).
  - reflexivity.
  - exact example_check_ok.
  - exact example_all_needed.
  - clear E. intros name d Hn Hd.
    assert (El : (map_to_list (dg_dst (cs_delta example_calc))).*1 ++ tmp_names example_calc = ["old"; "01"; "old"]%string)
      by (vm_compute; reflexivity).
    rewrite El in Hn. clear El. revert Hd.
    repeat (apply elem_of_cons in Hn as [->|Hn]; [|]); [| | |by apply not_elem_of_nil in Hn];
      vm_compute; [discriminate|intros [= <-]; reflexivity|discriminate].
  - discriminate.
  - discriminate.
  - exact E.
  - set_solver.
Defined.
