(* ===== verification/PartitionImage.v ===== *)
(** * Applying a partition-based image

    Models [src/src/otaclient/ota_core/_partition_image.py]: which blobs of a
    payload this device needs, fetching them into the unpacked image, handing
    the image to the installer, and the updater that runs these phases between
    the records of the boot controller.

    The schema of the image (ota-image-libs) appears as records of the fields
    that are used, and its parsers are parameters; so is the verification of the
    image index, which a version 1 image shares.  The staged blobs are files of
    the session's directory below the staging root, by name.  [yield [info];
    condition.wait()] is a call of the consumer, which downloads the batch with
    the retries of its pool ([ensure_batch]) or ends the generator. *)

From stdpp Require Import base gmap strings list option sets fin_maps pretty.
From Stdlib Require Import ZArith Ascii String Lia Strings.Byte.
From S2P Require Import Prelude Types Errors StatusMonitor AbortHandler OTAStatusControl CacheStreaming Downloader LegacyMetadata FileSystem DownloadResources UpdateLibs Dpi PartitionBoot.

Definition partition_image_module : string := "otaclient.ota_core._partition_image".
Definition STAGING_SUBDIR : string := "staged".

(** ** The payload *)

(** [OCIDescriptor]; [image_size] for a compressed blob. *)
Record OCIDescriptor : Type := mkOCIDescriptor {
  oci_digest_hex : string;
  oci_size : Z;
  oci_image_size : option Z;
}.

(** A delta, with the annotations that name its source. *)
Record DeltaDescriptor : Type := mkDeltaDescriptor {
  dd_descriptor : OCIDescriptor;
  dd_source_size : Z;
  dd_source_digest : string;
}.

Inductive PartitionAction : Type := ActWrite | ActMkfs | ActKeep.
Inductive DeliveryMode : Type := DeliveryDirect | DeliveryVendorPackage.

#[export] Instance PartitionAction_eq_dec : EqDecision PartitionAction.
Proof. solve_decision. Defined.
#[export] Instance DeliveryMode_eq_dec : EqDecision DeliveryMode.
Proof. solve_decision. Defined.
#[export] Instance OCIDescriptor_eq_dec : EqDecision OCIDescriptor.
Proof. solve_decision. Defined.

Record PartitionEntry : Type := mkPartitionEntry {
  pe_name : string;
  pe_action : PartitionAction;
  pe_image : option OCIDescriptor;
  pe_delta : option DeltaDescriptor;
}.

Record DataImageEntry : Type := mkDataImageEntry {
  de_name : string;
  de_image : OCIDescriptor;
  de_delta : option DeltaDescriptor;
}.

Record PartitionImageConfig : Type := mkPartitionImageConfig {
  cf_image_version : string;
  cf_delivery : DeliveryMode;
  cf_partitions : list PartitionEntry;
  cf_data_images : list DataImageEntry;
  cf_firmware : option OCIDescriptor;
  cf_package : option OCIDescriptor;
}.

(** [PlannedBlob] and [DownloadPlan]; the labels of the log are left out. *)
Record PlannedBlob : Type := mkPlannedBlob { pb_descriptor : OCIDescriptor }.
Definition DownloadPlan : Type := list PlannedBlob.
Definition blob_digest (b : PlannedBlob) : string := oci_digest_hex (pb_descriptor b).
Definition blob_size (b : PlannedBlob) : Z := oci_size (pb_descriptor b).
Definition total_size (plan : DownloadPlan) : Z := foldr (fun b acc => blob_size b + acc) 0 plan.

(** [PartitionInstallerProtocol], with the percents that [on_progress] was
    called with. *)
Class PartitionInstaller (W : Type) : Type := {
  in_source_digest : Z -> option string -> PyM W pyexn string;
  in_install : path -> string -> string -> string -> W -> W * list Z * result pyexn unit;
}.

(** [OSError] and its subclass for connections. *)
Definition is_oserror (e : pyexn) : bool := match exn_cls e with XOSError _ | XConnectionError _ => true | _ => false end.
Definition is_install_error (e : pyexn) : bool := is_named "PartitionInstallError" e || is_dpi_error e.

(** The DPI as the installer: its client on a device that also collects the
    percents. *)
#[export] Instance collecting_env {W} `{!DpiEnv W} : DpiEnv (W * list Z) := {|
  dpi_spawn cmd timeout wl := let '(w, r) := dpi_spawn cmd timeout (fst wl) in ((w, snd wl), r);
  dpi_killed wl := (dpi_killed (fst wl), snd wl);
|}.

Definition dpi_installer {W} `{!DpiEnv W} (json_loads : string -> option jvalue) (str_of : jvalue -> string)
    (executable : string) (chroot : option string) : PartitionInstaller W := {|
  in_source_digest := source_digest json_loads executable chroot str_of;
  in_install package version ecu_id release_key w :=
    let '(w, l, r) := install executable chroot (path_text package) version ecu_id release_key
                        (Some (fun n => modify (fun wl => (fst wl, snd wl ++ [n])))) INSTALL_TIMEOUT (w, []) in
    (w, l, r);
|}.

(** ** What to fetch *)

Definition assertion_failed : pyexn := PyExn (XOther "AssertionError") [] None None.
Definition apply_failed (msg : string) (cause : option pyexn) : pyexn :=
  ota_error (Unrec ApplyOTAUpdateFailed) msg partition_image_module cause.
Definition image_invalid (msg : string) (cause : option pyexn) : pyexn :=
  ota_error (Rec OTAImageInvalid) msg partition_image_module cause.

(** [s.split(":")[-1]] *)
Definition after_last_colon (s : string) : string := default EmptyString (list.last (py_split ":" s)).

Section Plan.
Context {W : Type} `{HI : !PartitionInstaller W}.
Abbreviation PW := (PyM W pyexn).

(** [_delta_fits] *)
Definition delta_fits (delta : DeltaDescriptor) (data_image : option string) : PW bool :=
  try_except
    (on_device ← in_source_digest (dd_source_size delta) data_image;
     mret (String.eqb on_device (after_last_colon (dd_source_digest delta))))
    (fun e => if is_install_error e then mret false else raise e).

(** [_image_or_delta] *)
Definition image_or_delta (image : OCIDescriptor) (delta : option DeltaDescriptor) (what : string)
    (data_image : option string) : PW PlannedBlob :=
  match delta with
  | None => mret (mkPlannedBlob image)
  | Some delta =>
      fits ← delta_fits delta data_image;
      if fits : bool then mret (mkPlannedBlob (dd_descriptor delta))
      else raise (apply_failed (what +:+ " delta does not apply to this device: it does not hold the bytes the delta was built from")%string None)
  end.

Fixpoint plan_partitions (ps : list PartitionEntry) : PW DownloadPlan :=
  match ps with
  | [] => mret []
  | p :: ps =>
      if bool_decide (pe_action p = ActWrite) then
        match pe_image p with
        | Some image =>
            b ← image_or_delta image (pe_delta p) ("the " +:+ pe_name p)%string None;
            l ← plan_partitions ps; mret (b :: l)
        | None => raise assertion_failed
        end
      else plan_partitions ps
  end.

Fixpoint plan_data_images (ds : list DataImageEntry) : PW DownloadPlan :=
  match ds with
  | [] => mret []
  | d :: ds =>
      b ← image_or_delta (de_image d) (de_delta d) ("the " +:+ de_name d +:+ " data image")%string (Some (de_name d));
      l ← plan_data_images ds; mret (b :: l)
  end.

(** [plan]; [agent]: the layers of the update agent package. *)
Definition make_plan (config : option PartitionImageConfig) (agent : option (list OCIDescriptor)) : PW DownloadPlan :=
  match config with
  | None => raise (PyExn XValueError [AStr "download_metadata() has not run"] None None)
  | Some c =>
      parts ← (if bool_decide (cf_delivery c = DeliveryDirect) then plan_partitions (cf_partitions c) else mret []);
      datas ← plan_data_images (cf_data_images c);
      package ← (if bool_decide (cf_delivery c = DeliveryVendorPackage) then
                   match cf_package c with Some p => mret [mkPlannedBlob p] | None => raise assertion_failed end
                 else mret []);
      mret (parts ++ datas ++ map mkPlannedBlob (option_list (cf_firmware c)) ++ package ++
            map mkPlannedBlob (default [] agent))
  end.
End Plan.

(** ** The unpacked image *)

(** The files of the image: [index.jwt] and [index.json] once copied, and the
    blobs; and the queue of the status reports. *)
Record image_dir : Type := mkImageDir {
  im_index : option (bytes * bytes);
  im_blobs : dl_store;
  im_reports : list StatusReport;
}.

#[export] Instance eta_image_dir : Eta image_dir := fun r => mkImageDir (im_index r) (im_blobs r) (im_reports r).

Definition part_of (digest_hex : string) : string := (digest_hex +:+ PARTIAL_SUFFIX)%string.

(** [_refuse_what_this_boot_control_cannot_try] *)
Definition refuse_what_this_boot_control_cannot_try (c : PartitionImageConfig) : result pyexn unit :=
  if forallb (fun p => bool_decide (pe_action p = ActKeep)) (cf_partitions c) then
    Raise (image_invalid "the payload writes no slot (data images or firmware alone), which is applied by a trial boot of the running slot; this client tries a slot switch only" None)
  else Ok tt.

Definition decoded_size (d : OCIDescriptor) : Z := default (oci_size d) (oci_image_size d).
Definition sum_sizes (l : list Z) : Z := foldr Z.add 0 l.

(** [_bytes_to_write] *)
Definition bytes_to_write (c : PartitionImageConfig) : Z :=
  sum_sizes (omap (fun p => if bool_decide (pe_action p = ActWrite) then decoded_size <$> pe_image p else None) (cf_partitions c)) +
  sum_sizes (map (fun d => decoded_size (de_image d)) (cf_data_images c)) +
  match cf_package c with Some p => decoded_size p | None => 0 end.

Section Fetch.
Context (hexdigest : bytes -> string) (chunk_size : nat) (proxies force_http : bool).
Context (http_get : nat -> nat -> string -> option (pydict string) -> result pyexn http_response).
Context (decompress : http_response -> list (bytes * Z) * option zstd_failure).
Context (urljoin : string -> string -> string) (blob_base_url : string).
(** How often the pool tries a batch before its watchdog stops it, and what it raises then. *)
Context (attempts : nat) (pool_failure : pyexn) (spare : list bool).
(** [free]: what [shutil.disk_usage] reports. *)
Context (free : Z).
Abbreviation IM := (PyM image_dir pyexn).

Definition on_blobs {A} (m : PyM dl_store pyexn A) : IM A := fun s =>
  let '(st, r) := m (im_blobs s) in (s <| im_blobs := st |>, r).

(** A batch of [download_meta_files], with the loop of its caller over the
    futures: a failed one is retried unless the handler raises. *)
Fixpoint ensure_batch (n : nat) (infos : list DownloadInfo) : PyM dl_store pyexn unit :=
  match n with
  | O => raise pool_failure
  | S n => fun s =>
      match download_with_condition_at_thread hexdigest chunk_size proxies force_http http_get decompress spare infos s with
      | (s, Ok _) => (s, Ok tt)
      | (s, Raise e) =>
          match download_exception_handler (Some e) with
          | Raise e => (s, Raise e)
          | Ok _ => ensure_batch n infos s
          end
      end
  end.

(** [_blob_is_here] *)
Definition blob_is_here (d : OCIDescriptor) : PyM dl_store pyexn bool :=
  f ← gets (fun s => ds_files s !! oci_digest_hex d);
  match f with
  | None => mret false
  | Some f =>
      if (Z.of_nat (List.length f) =? oci_size d) && String.eqb (hexdigest f) (oci_digest_hex d) then mret true
      else _ ← modify (unlink (oci_digest_hex d)); mret false
  end.

Definition blob_info (d : OCIDescriptor) : DownloadInfo :=
  mkDownloadInfo (urljoin_ensure_base urljoin blob_base_url (oci_digest_hex d)) (part_of (oci_digest_hex d))
    (oci_size d) None (Some (oci_digest_hex d)) None true.

(** [_fetch_blob]: whether the blob was downloaded. *)
Definition fetch_blob (d : OCIDescriptor) : IM bool :=
  here ← on_blobs (blob_is_here d);
  if here : bool then mret false
  else
    _ ← on_blobs (ensure_batch attempts [blob_info d]);
    _ ← on_blobs (move_file (part_of (oci_digest_hex d)) (oci_digest_hex d));
    mret true.

(** [(self._blob_dir / digest).read_text()] *)
Definition read_blob (d : OCIDescriptor) : IM bytes := fun s =>
  match ds_files (im_blobs s) !! oci_digest_hex d with
  | Some f => (s, Ok f)
  | None => (s, Raise (PyExn (XOSError (Some 2)) [] None None))
  end.

Definition as_invalid {A} (what : string) (m : IM A) : IM A :=
  try_except m (fun e => if is_exception e then raise (image_invalid (what +:+ exn_repr e)%string (Some e)) else raise e).

(** The verified image index: the payload manifest of this ECU and the update
    agent package, and the bytes of its two files. *)
Record image_index : Type := mkImageIndex {
  ix_partition_image : option OCIDescriptor;
  ix_update_agent : option OCIDescriptor;
  ix_jwt : bytes;
  ix_json : bytes;
}.

Context (parse_manifest : bytes -> result pyexn OCIDescriptor).
Context (parse_config : bytes -> result pyexn PartitionImageConfig).
Context (parse_agent : bytes -> result pyexn (list OCIDescriptor)).

(** A metafile of the payload: fetched, then parsed. *)
Definition fetch_and_parse {A} (d : OCIDescriptor) (what : string) (parse : bytes -> result pyexn A) : IM A :=
  _ ← fetch_blob d;
  as_invalid what (f ← read_blob d; from_result (parse f)).

(** [download_metadata]: the config and the layers of the agent package. *)
Definition download_metadata (ix : image_index) : IM (PartitionImageConfig * option (list OCIDescriptor)) :=
  _ ← modify (fun s => s <| im_index := Some (ix_jwt ix, ix_json ix) |>);
  match ix_partition_image ix with
  | None => raise (image_invalid "the OTA image carries no partition-based payload" None)
  | Some md =>
      cd ← fetch_and_parse md "the payload manifest is invalid: " parse_manifest;
      config ← fetch_and_parse cd "the payload config is invalid: " parse_config;
      match ix_update_agent ix with
      | None => mret (config, None)
      | Some ad => layers ← fetch_and_parse ad "the update agent package is invalid: " parse_agent; mret (config, Some layers)
      end
  end.

(** What a planned blob has on disk already. *)
Definition staged_bytes (b : PlannedBlob) (s : dl_store) : Z :=
  match ds_files s !! blob_digest b with
  | Some f => if Z.of_nat (List.length f) =? blob_size b then blob_size b
              else resumable_bytes (ds_files s !! part_of (blob_digest b)) (blob_size b)
  | None => resumable_bytes (ds_files s !! part_of (blob_digest b)) (blob_size b)
  end.

Definition needed_bytes (plan : DownloadPlan) (s : dl_store) : Z :=
  total_size plan - sum_sizes (map (fun b => staged_bytes b s) plan).

(** [_check_there_is_room_for] *)
Definition check_there_is_room_for (plan : DownloadPlan) : IM unit :=
  s ← get;
  if free <? needed_bytes plan (im_blobs s) then
    raise (ota_error (Unrec StandbySlotInsufficientSpace) "the payload does not fit the staging directory" partition_image_module None)
  else mret tt.

(** [_on_blob_done] *)
Definition on_blob_done (sid : string) (b : PlannedBlob) (downloaded : bool) : IM unit :=
  modify (fun s => s <| im_reports := im_reports s ++
    [mkStatusReport (PUpdateProgress (mkUpdateProgressReport DOWNLOAD_REMOTE_COPY 1 (blob_size b)
       (if downloaded then blob_size b else 0) 0)) sid] |>).

(** [download_payload] *)
Fixpoint fetch_all (sid : string) (plan : DownloadPlan) : IM unit :=
  match plan with
  | [] => mret tt
  | b :: plan =>
      downloaded ← fetch_blob (pb_descriptor b);
      _ ← on_blob_done sid b downloaded;
      fetch_all sid plan
  end.
Definition download_payload (sid : string) (plan : DownloadPlan) : IM unit :=
  _ ← check_there_is_room_for plan;
  fetch_all sid plan.
End Fetch.

(** ** Names of directories *)

(** [_illegal_chars_pattern] and [safe_dir_name] *)
Definition is_illegal_char (a : ascii) : bool :=
  (N_of_ascii a <? 32)%N || existsb (Ascii.eqb a) ["."; "/"; "<"; ">"; ":"; "034"; "\"; "|"; "?"; "*"]%char.
Fixpoint sub_illegal (s : string) : string :=
  match s with
  | EmptyString => EmptyString
  | String a s => String (if is_illegal_char a then "_"%char else a) (sub_illegal s)
  end.
Definition safe_dir_name (value : string) : string :=
  let s := sub_illegal value in if str_truthy s then s else "_"%string.

(** ** The updater *)

(** An entry of the staging root: a staged payload, by the blobs of its image,
    or a file. *)
Inductive staged_entry : Type := StagedDir (blobs : gmap string bytes) | StagedFile.

Definition is_staged_dir (e : staged_entry) : bool := match e with StagedDir _ => true | StagedFile => false end.

Record pi_state (W : Type) : Type := mkPiState {
  pi_boot : pstate W;
  pi_image : image_dir;                      (** the session's directory *)
  pi_staged : gmap string staged_entry;      (** the staging root *)
  pi_abort : AbortHandler;
  pi_written_bytes_reported : Z;
  pi_pool_shutdown : bool;
  pi_workdir : bool;
}.
Arguments mkPiState {W}.
Arguments pi_boot {W}.
Arguments pi_image {W}.
Arguments pi_staged {W}.
Arguments pi_abort {W}.
Arguments pi_written_bytes_reported {W}.
Arguments pi_pool_shutdown {W}.
Arguments pi_workdir {W}.

#[export] Instance eta_pi_state {W} : Eta (pi_state W) := fun r =>
  mkPiState (pi_boot r) (pi_image r) (pi_staged r) (pi_abort r) (pi_written_bytes_reported r) (pi_pool_shutdown r) (pi_workdir r).

(** [_prune_staging] *)
Definition prune_staging (keep : string) (m : gmap string staged_entry) : gmap string staged_entry :=
  filter (fun e => fst e = keep \/ is_staged_dir (snd e) = false) m.

(** The fields of the request and the image identifier. *)
Record pi_args : Type := mkPiArgs {
  pa_version : string;
  pa_session_id : string;
  pa_version_detail : option VersionDetail;
  pa_ecu_id : string;
  pa_release_key : string;
}.

Section Updater.
Context {W : Type} `{HD : !DPIProtocol W} `{HI : !PartitionInstaller W}.
Context (fault : path -> bool) (ismount : path -> bool) (euid umask : Z) (pc : pcontroller).
Context (hexdigest : bytes -> string) (chunk_size : nat) (proxies force_http : bool).
Context (http_get : nat -> nat -> string -> option (pydict string) -> result pyexn http_response).
Context (decompress : http_response -> list (bytes * Z) * option zstd_failure).
Context (urljoin : string -> string -> string) (blob_base_url : string).
Context (attempts : nat) (pool_failure : pyexn) (spare : list bool) (free : Z).
Context (parse_manifest : bytes -> result pyexn OCIDescriptor).
Context (parse_config : bytes -> result pyexn PartitionImageConfig).
Context (parse_agent : bytes -> result pyexn (list OCIDescriptor)).
(** The verified index of a version 1 image, with the bytes downloaded for it. *)
Context (verify_image_index : result pyexn image_index) (metadata_bytes : Z).
(** The time, and what the thread of the abort handler did meanwhile. *)
Context (now : UpdatePhase -> Z) (handler_ran : UpdatePhase -> AbortHandler -> AbortHandler).
Abbreviation PI := (PyM (pi_state W) pyexn).

Definition on_pboot {A} (m : PyM (pstate W) pyexn A) : PI A := fun s =>
  let '(b, r) := m (pi_boot s) in (s <| pi_boot := b |>, r).
Definition on_image {A} (m : PyM image_dir pyexn A) : PI A := fun s =>
  let '(b, r) := m (pi_image s) in (s <| pi_image := b |>, r).
Definition on_abort_of {A} (m : PyM AbortHandler pyexn A) : PI A := fun s =>
  let '(h, r) := m (pi_abort s) in (s <| pi_abort := h |>, r).
Definition put_pi_report (sid : string) (p : report_payload) : PI unit :=
  on_image (modify (fun s => s <| im_reports := im_reports s ++ [mkStatusReport p sid] |>)).

(** A phase begins; by its end the abort handler may have run. *)
Definition pi_report_phase (sid : string) (p : UpdatePhase) : PI unit :=
  _ ← put_pi_report sid (PPhaseChange (mkOTAUpdatePhaseChangeReport p (now p)));
  modify (fun s => s <| pi_abort := handler_ran p (pi_abort s) |>).

(** [_on_write_progress] *)
Definition on_write_progress (sid : string) (total_bytes percent : Z) : PI unit :=
  s ← get;
  let so_far := total_bytes * Z.max 0 (Z.min 100 percent) / 100 in
  let delta := so_far - pi_written_bytes_reported s in
  if delta <=? 0 then mret tt
  else
    _ ← modify (fun s => s <| pi_written_bytes_reported := so_far |>);
    put_pi_report sid (PUpdateProgress (mkUpdateProgressReport APPLY_DELTA 0 delta 0 0)).

Fixpoint write_progress (sid : string) (total_bytes : Z) (percents : list Z) : PI unit :=
  match percents with
  | [] => mret tt
  | p :: ps => _ ← on_write_progress sid total_bytes p; write_progress sid total_bytes ps
  end.

(** The staging root of the controller's directory, and the image of a session. *)
Definition staging_root : path := pc_staging_dir pc ++ [STAGING_SUBDIR].
Definition image_path (version : string) : path := staging_root ++ [safe_dir_name version; "image"%string].

(** [_ensure_the_staging_root_is_ours] *)
Definition ensure_the_staging_root_is_ours : PI unit :=
  try_except (_ ← on_pboot (on_disk (ensure_private_dir ismount euid umask staging_root 448 true)); mret tt)
    (fun e => if is_named "PermissionError" e || is_oserror e then
                raise (apply_failed ("the staging root is not ours to stage in, refusing: " +:+ exn_str e)%string (Some e))
              else raise e).

(** [_session_staging.mkdir(exist_ok=True)] *)
Definition open_session (version : string) : PI unit :=
  s ← get;
  match pi_staged s !! safe_dir_name version with
  | Some StagedFile => raise (os_exn EEXIST)
  | e =>
      let blobs := match e with Some (StagedDir b) => b | _ => ∅ end in
      modify (fun s => s <| pi_image := (pi_image s) <| im_blobs := (im_blobs (pi_image s)) <| ds_files := blobs |> |> |>
                         <| pi_staged := <[safe_dir_name version := StagedDir blobs]> (pi_staged s) |>)
  end.

(** What is in the session's directory is on disk. *)
Definition close_session (version : string) (s : pi_state W) : pi_state W :=
  match pi_staged s !! safe_dir_name version with
  | Some (StagedDir _) => s <| pi_staged := <[safe_dir_name version := StagedDir (ds_files (im_blobs (pi_image s)))]> (pi_staged s) |>
  | _ => s
  end.

(** [apply] *)
Definition apply_payload (a : pi_args) (config : PartitionImageConfig) (total_write : Z) : PI unit := fun s =>
  let '(w, percents, r) := in_install (image_path (pa_version a)) (cf_image_version config) (pa_ecu_id a) (pa_release_key a)
                             (ps_env (pi_boot s)) in
  let '(s, _) := write_progress (pa_session_id a) total_write percents (s <| pi_boot := (pi_boot s) <| ps_env := w |> |>) in
  match r with
  | Ok _ => (s, Ok tt)
  | Raise e =>
      (s, Raise (if is_install_error e then apply_failed ("the installer did not apply the payload: " +:+ exn_repr e)%string (Some e) else e))
  end.

(** The phases before the write: the staging, the metadata, the plan and the downloads. *)
Definition prepare_payload (a : pi_args) : PI (PartitionImageConfig * DownloadPlan) :=
  let sid := pa_session_id a in
  _ ← ensure_the_staging_root_is_ours;
  _ ← modify (fun s => s <| pi_staged := prune_staging (safe_dir_name (pa_version a)) (pi_staged s) |>);
  _ ← open_session (pa_version a);
  _ ← pi_report_phase sid PROCESSING_METADATA;
  meta ← metadata_download_err_handler
           (ix ← from_result verify_image_index;
            on_image (download_metadata hexdigest chunk_size proxies force_http http_get decompress urljoin blob_base_url
                        attempts pool_failure spare parse_manifest parse_config parse_agent ix));
  let '(config, agent) := meta in
  _ ← from_result (refuse_what_this_boot_control_cannot_try config);
  plan ← on_pboot (on_dpi (make_plan (Some config) agent));
  _ ← put_pi_report sid (PSetUpdateMeta (mkSetUpdateMetaReport
        (new_UpdateMeta <| total_download_files_num := Z.of_nat (List.length plan) |>
                        <| total_download_files_size := total_size plan |>) metadata_bytes));
  _ ← pi_report_phase sid DOWNLOADING_OTA_FILES;
  _ ← try_except
        (on_image (download_payload hexdigest chunk_size proxies force_http http_get decompress urljoin blob_base_url
                     attempts pool_failure spare free sid plan))
        (fun e => if is_exception e then raise (raise_on_download_resources_failed e) else raise e);
  mret (config, plan).

(** The write, in the critical zone. *)
Definition write_payload (a : pi_args) (config : PartitionImageConfig) : PI unit :=
  _ ← on_abort_of enter_critical_zone;
  try_finally
    (_ ← raise_as_ota_error (Unrec PreUpdateFailed) "pre-update failed" partition_image_module
           (on_pboot (pb_pre_update fault ismount euid umask pc));
     _ ← pi_report_phase (pa_session_id a) APPLYING_UPDATE;
     apply_payload a config (bytes_to_write config))
    (on_abort_of exit_critical_zone).

(** [_finalize]; it does not return. *)
Definition pi_finalize (a : pi_args) : PI unit :=
  _ ← modify (fun s => s <| pi_staged := delete (safe_dir_name (pa_version a)) (pi_staged s) |>);
  _ ← pi_report_phase (pa_session_id a) FINALIZING_UPDATE;
  on_pboot (pb_finalizing_update pc).

Definition pi_is_abort_signal (e : pyexn) : bool := bool_decide (ota_class e = Some (Rec OTAAbortSignal)).

(** The [except] clauses of [execute]. *)
Definition pi_execute_except (e : pyexn) : PI unit :=
  if pi_is_abort_signal e || negb (is_exception e) then raise e
  else
    s ← get;
    if abort_in_progress (ah_state (pi_abort s)) then
      raise (ota_error (Rec OTAAbortSignal) "abort in progress" partition_image_module (Some e))
    else
      _ ← on_pboot (pb_on_operation_failure pc);
      if is_ota_error e then raise e
      else raise (apply_failed ("unspecific error, update failed: " +:+ exn_repr e)%string (Some e)).

(** [OTAUpdaterForPartitionImage.execute] *)
Definition pi_execute (a : pi_args) : PI unit :=
  try_finally
    (try_except
       (payload ← prepare_payload a;
        _ ← write_payload a (fst payload);
        _ ← on_abort_of enter_final_phase;
        _ ← pi_report_phase (pa_session_id a) PROCESSING_POSTUPDATE;
        _ ← raise_as_ota_error (Unrec PostUpdateFailed) "post-update failed" partition_image_module
              (on_pboot (pb_post_update pc (pa_version a) (pa_version_detail a)));
        pi_finalize a)
       pi_execute_except)
    (modify (fun s => (close_session (pa_version a) s) <| pi_pool_shutdown := true |> <| pi_workdir := false |>)).
End Updater.

(** ** Properties of the plan *)

Section PlanProperties.
Context {W : Type} `{HI : !PartitionInstaller W}.

(** The blob planned for an entry: its image, or its delta after the device
    answered with the digest of the source the delta was built from. *)
Definition chosen (image : OCIDescriptor) (delta : option DeltaDescriptor) (data_image : option string) (b : PlannedBlob) : Prop :=
  match delta with
  | None => b = mkPlannedBlob image
  | Some dl => b = mkPlannedBlob (dd_descriptor dl) /\
      exists w w', in_source_digest (dd_source_size dl) data_image w = (w', Ok (after_last_colon (dd_source_digest dl)))
  end.

Lemma delta_fits_true dl data_image (w w' : W) :
  delta_fits dl data_image w = (w', Ok true) ->
  exists w1, in_source_digest (dd_source_size dl) data_image w = (w1, Ok (after_last_colon (dd_source_digest dl))).
Proof.
  unfold delta_fits, try_except, mbind, pym_bind.
  destruct (in_source_digest (dd_source_size dl) data_image w) as [w1 [d|e]].
  - intros [= <- He]. apply String.eqb_eq in He as ->. eauto.
  - by destruct (is_install_error e).
Qed.

Lemma image_or_delta_ok image delta what data_image (w w' : W) b :
  image_or_delta image delta what data_image w = (w', Ok b) -> chosen image delta data_image b.
Proof.
  unfold image_or_delta, chosen. destruct delta as [dl|]; [|by intros [= _ <-]]. intros H.
  apply pym_bind_ok in H as (w1 & fits & E & H). destruct fits; [|done]. injection H as _ <-.
  split; [done|]. apply delta_fits_true in E as [w2 E]. eauto.
Qed.

Definition write_partitions (c : PartitionImageConfig) : list PartitionEntry :=
  List.filter (fun p => bool_decide (pe_action p = ActWrite)) (cf_partitions c).

Lemma plan_partitions_ok ps (w w' : W) l :
  plan_partitions ps w = (w', Ok l) ->
  Forall2 (fun p b => exists image, pe_image p = Some image /\ chosen image (pe_delta p) None b)
    (List.filter (fun p => bool_decide (pe_action p = ActWrite)) ps) l.
Proof.
  revert w l. induction ps as [|p ps IH]; intros w l H; simpl in *; [injection H as <- <-; constructor|].
  case_bool_decide; [|by eapply IH]. destruct (pe_image p) as [image|] eqn:Ei; [|done].
  apply pym_bind_ok in H as (w1 & b & E & H). apply pym_bind_ok in H as (w2 & l2 & E2 & H). injection H as <- <-.
  apply image_or_delta_ok in E. constructor; [by exists image|by eapply IH].
Qed.

Lemma plan_data_images_ok ds (w w' : W) l :
  plan_data_images ds w = (w', Ok l) -> Forall2 (fun d b => chosen (de_image d) (de_delta d) (Some (de_name d)) b) ds l.
Proof.
  revert w l. induction ds as [|d ds IH]; intros w l H; simpl in *; [injection H as <- <-; constructor|].
  apply pym_bind_ok in H as (w1 & b & E & H). apply pym_bind_ok in H as (w2 & l2 & E2 & H). injection H as <- <-.
  apply image_or_delta_ok in E. constructor; [done|by eapply IH].
Qed.

(** The plan is what the payload ships and the device can use: for every
    partition that is written (under direct delivery) and every data image it
    has the image, or the delta if the entry ships one, and then the device
    has answered with the digest of the bytes the delta was built from; beside
    these only the firmware package, the vendor package (under that delivery)
    and the bundles of the update agent. *)
Theorem plan_fits_device c agent (w w' : W) plan :
  make_plan (Some c) agent w = (w', Ok plan) ->
  exists parts datas,
    plan = parts ++ datas ++ map mkPlannedBlob (option_list (cf_firmware c)) ++
           (if bool_decide (cf_delivery c = DeliveryVendorPackage) then map mkPlannedBlob (option_list (cf_package c)) else []) ++
           map mkPlannedBlob (default [] agent) /\
    Forall2 (fun p b => exists image, pe_image p = Some image /\ chosen image (pe_delta p) None b)
      (if bool_decide (cf_delivery c = DeliveryDirect) then write_partitions c else []) parts /\
    Forall2 (fun d b => chosen (de_image d) (de_delta d) (Some (de_name d)) b) (cf_data_images c) datas /\
    (cf_delivery c = DeliveryVendorPackage -> is_Some (cf_package c)).
Proof.
  unfold make_plan. intros H. apply pym_bind_ok in H as (w1 & parts & E1 & H). apply pym_bind_ok in H as (w2 & datas & E2 & H).
  apply pym_bind_ok in H as (w3 & package & E3 & H). injection H as _ <-. exists parts, datas.
  assert (Hp : package = (if bool_decide (cf_delivery c = DeliveryVendorPackage) then map mkPlannedBlob (option_list (cf_package c)) else []) /\
    (cf_delivery c = DeliveryVendorPackage -> is_Some (cf_package c))).
  { case_bool_decide; [|by injection E3 as _ <-]. destruct (cf_package c); [|done]. injection E3 as _ <-. split; [done|eauto]. }
  destruct Hp as [-> Hp]. split_and!; [done| |by eapply plan_data_images_ok|done].
  destruct (bool_decide (cf_delivery c = DeliveryDirect)); [by eapply plan_partitions_ok|injection E1 as _ <-; constructor].
Qed.
End PlanProperties.

(** ** Properties of the staged image *)

Section FetchProperties.
Context (hexdigest : bytes -> string) (chunk_size : nat) (proxies force_http : bool).
Context (http_get : nat -> nat -> string -> option (pydict string) -> result pyexn http_response).
Context (decompress : http_response -> list (bytes * Z) * option zstd_failure).
Context (urljoin : string -> string -> string) (blob_base_url : string).
Context (attempts : nat) (pool_failure : pyexn) (spare : list bool) (free : Z).
Context (Hchunk : (0 < chunk_size)%nat).
Abbreviation fetch := (fetch_blob hexdigest chunk_size proxies force_http http_get decompress urljoin blob_base_url attempts pool_failure spare).

(** The blob is staged, whole and verified. *)
Definition staged (d : OCIDescriptor) (s : dl_store) : Prop :=
  exists f, ds_files s !! oci_digest_hex d = Some f /\ Z.of_nat (List.length f) = oci_size d /\ hexdigest f = oci_digest_hex d.

Lemma ensure_one_ok n i s s' u :
  ensure_batch hexdigest chunk_size proxies force_http http_get decompress pool_failure spare n [i] s = (s', Ok u) ->
  only_file (di_dst i) s s' /\
  exists s1 r, only_file (di_dst i) s s1 /\ download_one hexdigest chunk_size proxies force_http http_get decompress i s1 = (s', Ok r).
Proof.
  revert s. induction n as [|n IH]; intros s H; [done|]. cbn [ensure_batch] in H.
  unfold download_with_condition_at_thread in H. cbn [download_each] in H. unfold mbind, pym_bind in H.
  pose proof (download_one_only hexdigest chunk_size proxies force_http http_get decompress i s) as Ho.
  destruct (download_one hexdigest chunk_size proxies force_http http_get decompress i s) as [s1 [r|e]] eqn:E; simpl in Ho.
  - injection H as <- _. split; [done|]. exists s, r. split; [by intros n' Hn|done].
  - destruct (download_exception_handler (Some e)); [|done]. apply IH in H as [H1 (s2 & r & H2 & H3)].
    split; [by eapply only_file_trans|]. exists s2, r. split; [by eapply only_file_trans|done].
Qed.

Lemma blob_is_here_ok d s s' b :
  blob_is_here hexdigest d s = (s', Ok b) ->
  if b then s' = s /\ staged d s else only_file (oci_digest_hex d) s s' /\ ~ staged d s.
Proof.
  unfold blob_is_here, staged. unfold mbind at 1, pym_bind at 1, gets. destruct (ds_files s !! oci_digest_hex d) as [f|].
  - destruct (_ && _) eqn:E; intros [= <- <-].
    + apply andb_true_iff in E as [E1%Z.eqb_eq E2%String.eqb_eq]. split; [done|]. by exists f.
    + split; [apply unlink_only|]. intros (f' & [= <-] & H1 & H2). rewrite H1, H2, Z.eqb_refl, String.eqb_refl in E. done.
  - intros [= <- <-]. split; [by intros n Hn|]. intros (f' & ? & _). done.
Qed.

Lemma fetch_blob_ok d s s' b :
  fetch d s = (s', Ok b) ->
  staged d (im_blobs s') /\ im_index s' = im_index s /\
  (forall n, n <> oci_digest_hex d -> n <> part_of (oci_digest_hex d) -> ds_files (im_blobs s') !! n = ds_files (im_blobs s) !! n) /\
  (staged d (im_blobs s) -> s' = s).
Proof.
  unfold fetch_blob. intros H. apply pym_bind_ok in H as (s1 & here & E1 & H). unfold on_blobs in E1.
  destruct (blob_is_here hexdigest d (im_blobs s)) as [b1 r1] eqn:Eb. injection E1 as <- ->. apply blob_is_here_ok in Eb.
  destruct here.
  - destruct Eb as [-> Hs]. injection H as <- <-. destruct s. by split_and!.
  - destruct Eb as [Ho Hns]. apply pym_bind_ok in H as (s2 & [] & E2 & H). unfold on_blobs in E2. simpl in E2.
    destruct (ensure_batch _ _ _ _ _ _ _ _ attempts [blob_info urljoin blob_base_url d] b1) as [b2 r2] eqn:Ee. injection E2 as <- ->.
    apply ensure_one_ok in Ee as [Ho2 (b3 & r & _ & Hd)].
    assert (Hz : oci_digest_hex d <> EmptyString /\ oci_size d <> 0).
    { unfold download_one in Hd. simpl in Hd. destruct (str_truthy (oci_digest_hex d)) eqn:Et; [|done].
      split; [by intros Hx; rewrite Hx in Et|]. intros Hx. by rewrite Hx in Hd. }
    apply download_one_ok in Hd as [_ (f & Hf & Hv)]; [|done]. simpl in Hf, Hv. destruct Hv as [Hv1 Hv2].
    apply pym_bind_ok in H as (s3 & [] & E3 & H). injection H as <- <-. unfold on_blobs in E3. simpl in E3.
    destruct (move_file _ _ b2) as [b4 r4] eqn:Em. injection E3 as <- ->. apply move_file_ok in Em as [Hm1 Hm2]. simpl.
    destruct Hz as [Hz1 Hz2]. split_and!; [|done| |done].
    + exists f. rewrite Hm1. split_and!; [done|by apply Hv1|by apply Hv2].
    + intros n H1 H2. rewrite Hm2 by done. simpl in Ho2. rewrite (Ho2 n) by done. by apply Ho.
Qed.

(** The descriptors of an image: hex digests of SHA-256, and one size for a digest. *)
Record image_descriptors (good : OCIDescriptor -> Prop) : Prop := mkImageDescriptors {
  gd_sha256 : forall d, good d -> String.length (oci_digest_hex d) = 64%nat;
  gd_size : forall d d', good d -> good d' -> oci_digest_hex d = oci_digest_hex d' -> oci_size d = oci_size d';
}.

Section Good.
Context (good : OCIDescriptor -> Prop) (Hgood : image_descriptors good).

Lemma part_of_length s : String.length (part_of s) = (String.length s + 5)%nat.
Proof.
  unfold part_of, PARTIAL_SUFFIX. induction s as [|a s IH]; [done|].
  change (S (String.length (s +:+ ".part")) = S (String.length s + 5)). by rewrite IH.
Qed.

(** What was staged stays, byte for byte, whatever is fetched after it. *)
Lemma fetch_blob_keeps d d' s s' b :
  good d -> good d' -> fetch d s = (s', Ok b) -> staged d' (im_blobs s) ->
  ds_files (im_blobs s') !! oci_digest_hex d' = ds_files (im_blobs s) !! oci_digest_hex d'.
Proof.
  intros Hd Hd' H (f & Hf & Hl & Hh). apply fetch_blob_ok in H as (_ & _ & Hother & Hsame).
  destruct (decide (oci_digest_hex d' = oci_digest_hex d)) as [He|Hne].
  - rewrite Hsame; [done|]. exists f. rewrite <- He. split_and!; [done| |done]. rewrite Hl. by apply (gd_size _ Hgood).
  - apply Hother; [done|]. intros He. apply (f_equal String.length) in He. rewrite part_of_length in He.
    rewrite !(gd_sha256 _ Hgood) in He by done. lia.
Qed.

(** The files that were staged are the same. *)
Definition keeps_staged (s s' : image_dir) : Prop :=
  im_index s' = im_index s /\
  forall d f, good d -> staged d (im_blobs s) -> ds_files (im_blobs s) !! oci_digest_hex d = Some f ->
    ds_files (im_blobs s') !! oci_digest_hex d = Some f /\ staged d (im_blobs s').

Lemma keeps_staged_refl s : keeps_staged s s.
Proof. split; [done|]. by intros d f _ Hs Hf. Qed.

Lemma keeps_staged_trans s1 s2 s3 : keeps_staged s1 s2 -> keeps_staged s2 s3 -> keeps_staged s1 s3.
Proof. intros [H1 H1'] [H2 H2']. split; [congruence|]. intros d f Hd Hs Hf. destruct (H1' d f Hd Hs Hf). by apply H2'. Qed.

Lemma keeps_staged_get s s' d : keeps_staged s s' -> good d -> staged d (im_blobs s) -> staged d (im_blobs s').
Proof. intros [_ H] Hd (f & Hf & Hx). apply (H d f); [done|by exists f|done]. Qed.

Lemma fetch_keeps_staged d s s' b : good d -> fetch d s = (s', Ok b) -> keeps_staged s s' /\ staged d (im_blobs s').
Proof.
  intros Hd H. pose proof H as H'. apply fetch_blob_ok in H' as (Hs & Hi & _). split; [|done]. split; [done|].
  intros d' f Hd' Hst Hf. pose proof (fetch_blob_keeps d d' s s' b Hd Hd' H Hst) as He. rewrite Hf in He. split; [done|].
  destruct Hst as (f' & Hf' & Hl & Hh). rewrite Hf in Hf'. injection Hf' as <-. by exists f.
Qed.

Lemma fetch_all_ok sid plan s s' u :
  Forall (fun b => good (pb_descriptor b)) plan ->
  fetch_all hexdigest chunk_size proxies force_http http_get decompress urljoin blob_base_url attempts pool_failure spare sid plan s = (s', Ok u) ->
  keeps_staged s s' /\ Forall (fun b => staged (pb_descriptor b) (im_blobs s')) plan.
Proof.
  revert s. induction plan as [|b plan IH]; intros s Hg H; simpl in H; [injection H as <- _; by split; [apply keeps_staged_refl|]|].
  inversion_clear Hg as [|? ? Hb Hg']. apply pym_bind_ok in H as (s1 & x & E1 & H).
  apply fetch_keeps_staged in E1 as [Hk Hs]; [|done]. apply pym_bind_ok in H as (s2 & [] & E2 & H). injection E2 as <-.
  apply IH in H as [Hk2 Hall]; [|done].
  assert (Hk' : keeps_staged s1 s') by exact Hk2.
  split; [by eapply keeps_staged_trans|]. constructor; [|done]. by eapply keeps_staged_get.
Qed.
End Good.

Lemma fetch_and_parse_ok {A} d what (parse : bytes -> result pyexn A) s s' x :
  fetch_and_parse hexdigest chunk_size proxies force_http http_get decompress urljoin blob_base_url attempts pool_failure spare
    d what parse s = (s', Ok x) ->
  (forall good, image_descriptors good -> good d -> keeps_staged good s s') /\ staged d (im_blobs s') /\
  exists f, ds_files (im_blobs s') !! oci_digest_hex d = Some f /\ parse f = Ok x.
Proof.
  intros H. unfold fetch_and_parse in H. apply pym_bind_ok in H as (s1 & b & E1 & H).
  assert (Hk : forall good, image_descriptors good -> good d -> keeps_staged good s s1)
    by (intros good Hg Hd; exact (proj1 (fetch_keeps_staged good Hg d s s1 b Hd E1))).
  apply fetch_blob_ok in E1 as (Hs & _).
  apply try_except_ok in H; [|intros e s2 a2; by destruct (is_exception e)].
  apply pym_bind_ok in H as (s2 & f & E2 & H). unfold read_blob in E2.
  destruct (ds_files (im_blobs s1) !! oci_digest_hex d) as [f'|] eqn:Ef; [|done]. injection E2 as <- <-.
  apply from_result_ok in H as [Hp ->]. split_and!; [done|done|]. by exists f'.
Qed.
End FetchProperties.

(** The descriptors that a config names. *)
Definition config_descriptors (c : PartitionImageConfig) : list OCIDescriptor :=
  flat_map (fun p => option_list (pe_image p) ++ map dd_descriptor (option_list (pe_delta p))) (cf_partitions c) ++
  flat_map (fun d => de_image d :: map dd_descriptor (option_list (de_delta d))) (cf_data_images c) ++
  option_list (cf_firmware c) ++ option_list (cf_package c).

Section PlanDescriptors.
Context {W : Type} `{HI : !PartitionInstaller W}.

Lemma chosen_descriptor image delta data_image b :
  chosen image delta data_image b -> pb_descriptor b ∈ image :: map dd_descriptor (option_list delta).
Proof. unfold chosen. destruct delta as [dl|]; [intros [-> _]|intros ->]; set_solver. Qed.

(** Only descriptors of the config and the agent bundles are planned. *)
Lemma make_plan_descriptors c agent (w w' : W) plan (good : OCIDescriptor -> Prop) :
  make_plan (Some c) agent w = (w', Ok plan) -> Forall good (config_descriptors c) -> Forall good (default [] agent) ->
  Forall (fun b => good (pb_descriptor b)) plan.
Proof.
  intros H Hc Ha. unfold make_plan in H. apply pym_bind_ok in H as (w1 & parts & E1 & H).
  apply pym_bind_ok in H as (w2 & datas & E2 & H). apply pym_bind_ok in H as (w3 & package & E3 & H). injection H as _ <-.
  unfold config_descriptors in Hc. rewrite !Forall_app in Hc. destruct Hc as (Hps & Hds & Hf & Hpk).
  rewrite !Forall_app. split_and!.
  - destruct (bool_decide (cf_delivery c = DeliveryDirect)); [|injection E1 as _ <-; constructor]. apply plan_partitions_ok in E1.
    apply Forall_forall. intros b Hb. apply list_elem_of_lookup in Hb as [i Hi].
    destruct (Forall2_lookup_r _ _ _ _ _ E1 Hi) as (p & Hp & image & Him & Hch).
    apply list_elem_of_lookup_2, list_elem_of_In, filter_In in Hp as [Hp _].
    rewrite Forall_forall in Hps. apply Hps. apply list_elem_of_In, in_flat_map. exists p. split; [done|].
    rewrite Him. apply list_elem_of_In. by eapply chosen_descriptor.
  - apply plan_data_images_ok in E2. apply Forall_forall. intros b Hb. apply list_elem_of_lookup in Hb as [i Hi].
    destruct (Forall2_lookup_r _ _ _ _ _ E2 Hi) as (d & Hd & Hch). rewrite Forall_forall in Hds. apply Hds.
    apply list_elem_of_In, in_flat_map. exists d. split; [by apply list_elem_of_In, (list_elem_of_lookup_2 _ i)|].
    apply list_elem_of_In. by eapply chosen_descriptor.
  - apply Forall_map. by apply Hf.
  - destruct (bool_decide (cf_delivery c = DeliveryVendorPackage)); [|injection E3 as _ <-; constructor]. destruct (cf_package c); [|done]. injection E3 as _ <-.
    inversion_clear Hpk. by constructor.
  - by apply Forall_map.
Qed.
End PlanDescriptors.

#[local] Arguments make_plan : simpl never.

Section UpdaterProperties.
Context {W : Type} `{HD : !DPIProtocol W} `{HI : !PartitionInstaller W}.
Context (fault : path -> bool) (ismount : path -> bool) (euid umask : Z) (pc : pcontroller).
Context (hexdigest : bytes -> string) (chunk_size : nat) (proxies force_http : bool).
Context (http_get : nat -> nat -> string -> option (pydict string) -> result pyexn http_response).
Context (decompress : http_response -> list (bytes * Z) * option zstd_failure).
Context (urljoin : string -> string -> string) (blob_base_url : string).
Context (attempts : nat) (pool_failure : pyexn) (spare : list bool) (free : Z).
Context (parse_manifest : bytes -> result pyexn OCIDescriptor).
Context (parse_config : bytes -> result pyexn PartitionImageConfig).
Context (parse_agent : bytes -> result pyexn (list OCIDescriptor)).
Context (verify_image_index : result pyexn image_index) (metadata_bytes : Z).
Context (now : UpdatePhase -> Z) (handler_ran : UpdatePhase -> AbortHandler -> AbortHandler).
Abbreviation prepare := (prepare_payload ismount euid umask pc hexdigest chunk_size proxies force_http http_get decompress
  urljoin blob_base_url attempts pool_failure spare free parse_manifest parse_config parse_agent verify_image_index
  metadata_bytes now handler_ran).
Abbreviation metadata := (download_metadata hexdigest chunk_size proxies force_http http_get decompress urljoin blob_base_url
  attempts pool_failure spare parse_manifest parse_config parse_agent).

(** The descriptors of an image: those of the index, of the manifest that the
    index names, of the config and of the agent package. *)
Definition image_of (ix : image_index) (cd : OCIDescriptor) (config : PartitionImageConfig) (agent : option (list OCIDescriptor)) :
    list OCIDescriptor :=
  option_list (ix_partition_image ix) ++ option_list (ix_update_agent ix) ++ [cd] ++ config_descriptors config ++ default [] agent.

(** A blob with the size and the digest of its descriptor. *)
Definition blob_of (d : OCIDescriptor) (f : bytes) : Prop :=
  Z.of_nat (List.length f) = oci_size d /\ hexdigest f = oci_digest_hex d.

(** The manifest, the config and the agent package are what the index leads to. *)
Record metadata_read (ix : image_index) (cd : OCIDescriptor) (config : PartitionImageConfig) (agent : option (list OCIDescriptor)) : Prop :=
  mkMetadataRead {
  mr_manifest : exists md f, ix_partition_image ix = Some md /\ blob_of md f /\ parse_manifest f = Ok cd;
  mr_config : exists f, blob_of cd f /\ parse_config f = Ok config;
  mr_agent : match ix_update_agent ix with
             | None => agent = None
             | Some ad => exists f l, agent = Some l /\ blob_of ad f /\ parse_agent f = Ok l
             end;
}.

(** The image that the installer is given: the files of the index as verified,
    the manifest and the config that the index leads to. *)
Record metadata_staged (ix : image_index) (cd : OCIDescriptor) (config : PartitionImageConfig) (agent : option (list OCIDescriptor))
    (s : image_dir) : Prop := mkMetadataStaged {
  ms_index : im_index s = Some (ix_jwt ix, ix_json ix);
  ms_config : exists md fm fc, ix_partition_image ix = Some md /\
    staged hexdigest md (im_blobs s) /\ ds_files (im_blobs s) !! oci_digest_hex md = Some fm /\ parse_manifest fm = Ok cd /\
    staged hexdigest cd (im_blobs s) /\ ds_files (im_blobs s) !! oci_digest_hex cd = Some fc /\ parse_config fc = Ok config;
  ms_agent : match ix_update_agent ix with
             | None => agent = None
             | Some ad => exists f l, agent = Some l /\ staged hexdigest ad (im_blobs s) /\
                 ds_files (im_blobs s) !! oci_digest_hex ad = Some f /\ parse_agent f = Ok l
             end;
}.

Lemma metadata_staged_keeps good ix cd config agent s s' :
  Forall good (option_list (ix_partition_image ix) ++ option_list (ix_update_agent ix)) -> good cd -> keeps_staged hexdigest good s s' ->
  metadata_staged ix cd config agent s -> metadata_staged ix cd config agent s'.
Proof.
  intros Hg Hgc [Hi Hk] [Hidx (md & fm & fc & Hmd & Hs1 & Hf1 & Hp1 & Hs2 & Hf2 & Hp2) Hag].
  rewrite Hmd in Hg. simpl in Hg. inversion_clear Hg as [|? ? Hgm Hga].
  destruct (Hk md fm Hgm Hs1 Hf1) as [Hf1' Hs1']. destruct (Hk cd fc Hgc Hs2 Hf2) as [Hf2' Hs2'].
  constructor; [congruence|by exists md, fm, fc|]. destruct (ix_update_agent ix) as [ad|]; [|done].
  destruct Hag as (f & l & -> & Hs3 & Hf3 & Hp3). simpl in Hga. inversion_clear Hga as [|? ? Hgd _].
  destruct (Hk ad f Hgd Hs3 Hf3) as [Hf3' Hs3']. by exists f, l.
Qed.

Lemma staged_blob_of d f s : staged hexdigest d s -> ds_files s !! oci_digest_hex d = Some f -> blob_of d f.
Proof. intros (f' & Hf' & Hl & Hh) Hf. rewrite Hf in Hf'. injection Hf' as <-. by split. Qed.

Lemma download_metadata_ok ix s s' config agent :
  (0 < chunk_size)%nat -> metadata ix s = (s', Ok (config, agent)) ->
  exists cd, metadata_read ix cd config agent /\
    forall good, image_descriptors good ->
      Forall good (option_list (ix_partition_image ix) ++ option_list (ix_update_agent ix)) -> good cd ->
      metadata_staged ix cd config agent s'.
Proof.
  intros Hchunk H. unfold download_metadata in H.
  apply pym_bind_ok in H as (s1 & [] & E1 & H). injection E1 as <-. destruct (ix_partition_image ix) as [md|] eqn:Emd; [|done].
  apply pym_bind_ok in H as (s2 & cd & E2 & H). pose proof (fetch_and_parse_ok _ _ _ _ _ _ _ _ _ _ _ Hchunk _ _ _ _ _ _ E2) as (Hk2 & Hs2 & fm & Hf2 & Hp2).
  apply pym_bind_ok in H as (s3 & cfg & E3 & H). pose proof (fetch_and_parse_ok _ _ _ _ _ _ _ _ _ _ _ Hchunk _ _ _ _ _ _ E3) as (Hk3 & Hs3 & fc & Hf3 & Hp3).
  assert (H3 : forall good, image_descriptors good -> good md -> good cd -> im_index s3 = Some (ix_jwt ix, ix_json ix) /\
    staged hexdigest md (im_blobs s3) /\ ds_files (im_blobs s3) !! oci_digest_hex md = Some fm).
  { intros good Hdesc Hgm Hgc. destruct (Hk2 good Hdesc Hgm) as [Hi2 _], (Hk3 good Hdesc Hgc) as [Hi3 Hk3'].
    destruct (Hk3' md fm Hgm Hs2 Hf2) as [? ?]. split_and!; [|done|done]. by rewrite Hi3, Hi2. }
  exists cd. assert (Hread : forall ag, match ix_update_agent ix with None => ag = None
      | Some ad => exists f l, ag = Some l /\ blob_of ad f /\ parse_agent f = Ok l end -> metadata_read ix cd cfg ag).
  { intros ag Hag. constructor; [|exists fc|done].
    - exists md, fm. split_and!; [done|by eapply staged_blob_of|done].
    - split; [by eapply staged_blob_of|done]. }
  destruct (ix_update_agent ix) as [ad|] eqn:Ead.
  - apply pym_bind_ok in H as (s4 & layers & E4 & H). injection H as <- <- <-.
    pose proof (fetch_and_parse_ok _ _ _ _ _ _ _ _ _ _ _ Hchunk _ _ _ _ _ _ E4) as (Hk4 & Hs4 & f & Hf4 & Hp4).
    split; [apply Hread; exists f, layers; split_and!; [done|by eapply staged_blob_of|done]|].
    intros good Hdesc Hg Hgc. simpl in Hg. inversion_clear Hg as [|? ? Hgm Hga]. inversion_clear Hga as [|? ? Hgd _].
    destruct (H3 good Hdesc Hgm Hgc) as (Hi & Hsm & Hfm). destruct (Hk4 good Hdesc Hgd) as [Hi4 Hk4'].
    destruct (Hk4' md fm Hgm Hsm Hfm) as [Hfm' Hsm']. destruct (Hk4' cd fc Hgc Hs3 Hf3) as [Hfc' Hsc'].
    constructor; [congruence|by exists md, fm, fc|]. rewrite Ead. by exists f, layers.
  - injection H as <- <- <-. split; [by apply Hread|]. intros good Hdesc Hg Hgc. simpl in Hg. inversion_clear Hg as [|? ? Hgm _].
    destruct (H3 good Hdesc Hgm Hgc) as (Hi & Hsm & Hfm). constructor; [done|by exists md, fm, fc|by rewrite Ead].
Qed.

(** Reports and the abort handler do not touch the image. *)
Lemma put_pi_report_image sid p (s s' : pi_state W) u :
  put_pi_report sid p s = (s', Ok u) -> im_index (pi_image s') = im_index (pi_image s) /\ im_blobs (pi_image s') = im_blobs (pi_image s).
Proof. by intros [= <- _]. Qed.

Lemma pi_report_phase_image sid p (s s' : pi_state W) u :
  pi_report_phase now handler_ran sid p s = (s', Ok u) ->
  im_index (pi_image s') = im_index (pi_image s) /\ im_blobs (pi_image s') = im_blobs (pi_image s).
Proof. by intros [= <- _]. Qed.

(** C9. When the phases before the write have returned, the directory that
    the installer is handed is a complete image of what was published: the two
    files of the verified index, the manifest and the config that the index
    leads to (and the manifest of the update agent, when there is one), and
    every planned blob, each whole and of its digest, whether it was downloaded
    now or found from an earlier session.  What was read of the image, the
    manifest, the config and the agent package, has the size and the digest
    that lead to it; that all of it is in the directory in the end is given
    when the descriptors of this image are those of blobs: SHA-256 digests in
    hex, and one size for one digest. *)
Theorem staged_image_complete a (s s' : pi_state W) config plan :
  (0 < chunk_size)%nat -> prepare a s = (s', Ok (config, plan)) ->
  exists ix cd agent w w', verify_image_index = Ok ix /\ metadata_read ix cd config agent /\
    make_plan (Some config) agent w = (w', Ok plan) /\
    (image_descriptors (fun d => d ∈ image_of ix cd config agent) ->
     metadata_staged ix cd config agent (pi_image s') /\
     Forall (fun b => staged hexdigest (pb_descriptor b) (im_blobs (pi_image s'))) plan).
Proof.
  intros Hchunk H. unfold prepare_payload in H. apply pym_bind_ok in H as (s1 & [] & _ & H).
  apply pym_bind_ok in H as (s2 & [] & _ & H). apply pym_bind_ok in H as (s3 & [] & _ & H). apply pym_bind_ok in H as (s4 & [] & _ & H).
  apply pym_bind_ok in H as (s5 & [cfg agent] & E5 & H).
  apply try_except_ok in E5; [|intros e x y; by destruct (_ || _)].
  apply pym_bind_ok in E5 as (s6 & ix & E6 & E5). apply from_result_ok in E6 as [Hix ->]. unfold on_image in E5.
  destruct (metadata ix (pi_image s4)) as [im r] eqn:Em. injection E5 as <- ->.
  apply download_metadata_ok in Em as (cd & Hread & Hms); [|done].
  apply pym_bind_ok in H as (s6 & [] & E6 & H). apply from_result_ok in E6 as [_ ->].
  apply pym_bind_ok in H as (s7 & pl & E7 & H). unfold on_pboot, on_dpi in E7. simpl in E7.
  destruct (make_plan (Some cfg) agent (ps_env (pi_boot s4))) as [w' r] eqn:Ep. injection E7 as <- ->.
  apply pym_bind_ok in H as (s8 & [] & E8 & H). apply put_pi_report_image in E8 as [Hi8 Hb8]. simpl in Hi8, Hb8.
  apply pym_bind_ok in H as (s9 & [] & E9 & H). apply pi_report_phase_image in E9 as [Hi9 Hb9].
  apply pym_bind_ok in H as (s10 & [] & E10 & H). injection H as <- <- <-.
  apply try_except_ok in E10; [|intros e x y; by destruct (is_exception e)]. unfold on_image in E10.
  destruct (download_payload _ _ _ _ _ _ _ _ _ _ _ _ _ pl (pi_image s9)) as [im2 r] eqn:Ed. injection E10 as <- ->.
  unfold download_payload in Ed. apply pym_bind_ok in Ed as (im3 & [] & Er & Ed).
  assert (im3 = pi_image s9) as ->.
  { unfold check_there_is_room_for in Er. unfold mbind, pym_bind, get in Er. destruct (free <? _); [done|by injection Er as <-]. }
  exists ix, cd, agent, (ps_env (pi_boot s4)), w'. split_and!; [done..|]. intros Hdesc.
  set (good := fun d => d ∈ image_of ix cd cfg agent) in *.
  assert (Hg12 : Forall good (option_list (ix_partition_image ix) ++ option_list (ix_update_agent ix)))
    by (apply Forall_forall; intros d Hd; unfold good, image_of; set_solver).
  assert (Hg3 : good cd) by (unfold good, image_of; set_solver).
  assert (Hgc : Forall good (config_descriptors cfg)) by (apply Forall_forall; intros d Hd; unfold good, image_of; set_solver).
  assert (Hga : Forall good (default [] agent)) by (apply Forall_forall; intros d Hd; unfold good, image_of; set_solver).
  specialize (Hms good Hdesc Hg12 Hg3).
  pose proof (make_plan_descriptors _ _ _ _ _ good Ep Hgc Hga) as Hgp.
  apply (fetch_all_ok _ _ _ _ _ _ _ _ _ _ _ Hchunk good Hdesc) in Ed as [Hk Hall]; [|done].
  split; [|done]. simpl. eapply (metadata_staged_keeps good); [done|done|exact Hk|].
  destruct Hms as [Ha Hb Hc]. rewrite <- Hb8, <- Hb9 in Hb. constructor; [congruence|exact Hb|].
  destruct (ix_update_agent ix); [|done]. by rewrite Hb9, Hb8.
Qed.

(** ** The write *)

(** The boot controller's records leave the device alone. *)
Definition same_device (s s' : pstate W) : Prop := ps_env s' = ps_env s.
#[local] Instance same_device_preorder : PreOrder same_device.
Proof. split; [done|]. intros x y z. unfold same_device. congruence. Qed.

Lemma pb_pre_update_device : keeps same_device (pb_pre_update fault ismount euid umask pc : PyM (pstate W) pyexn unit).
Proof.
  assert (Hd : forall A (m : PyM fsys pyexn A), keeps same_device (on_disk m : PyM (pstate W) pyexn A))
    by (intros A m s; unfold on_disk; by destruct (m (ps_files s))).
  apply keeps_try_except; [apply _| |intros e; destruct (is_exception e); apply keeps_raise, _].
  repeat (apply keeps_bind; [apply _| |intros ?]); match goal with
    | |- keeps _ (on_disk _) => apply Hd
    | |- keeps _ (gets _) => apply keeps_gets, _
    | |- keeps _ (from_result _) => apply keeps_from_result, _
    | _ => intros s; reflexivity
    end.
Qed.

Lemma pb_pre_update_records (b b1 : pstate W) :
  pc_active_slot pc <> pc_standby_slot pc -> pb_pre_update fault ismount euid umask pc b = (b1, Ok tt) ->
  staged_for (pc_standby_slot pc) (ps_dirs b1 (pc_standby_slot pc)) /\
  sd_status (ps_dirs b1 (pc_active_slot pc)) = Some (OTAStatus_name FAILURE).
Proof.
  intros Hab H. apply try_except_ok in H; [|intros e x y; by destruct (is_exception e)].
  apply pym_bind_ok in H as (s2 & [] & _ & H). apply pym_bind_ok in H as (s3 & [] & Hu & H). injection Hu as <-. injection H as <-.
  rewrite store_control_stb, store_control_cur by done. cbn. split; [constructor|]; cbn; rewrite ?String.eqb_refl; done.
Qed.

(** The percents only change the reports. *)
Lemma write_progress_boot sid total percents (s s' : pi_state W) r :
  write_progress sid total percents s = (s', r) -> pi_boot s' = pi_boot s /\ r = Ok tt.
Proof.
  revert s. induction percents as [|p ps IH]; intros s H; simpl in H; [by injection H as <- <-|].
  unfold mbind at 1, pym_bind at 1 in H. destruct (on_write_progress sid total p s) as [s1 r1] eqn:E.
  assert (H1 : pi_boot s1 = pi_boot s /\ r1 = Ok tt).
  { unfold on_write_progress in E. unfold mbind, pym_bind, get in E. destruct (_ <=? 0); by injection E as <- <-. }
  destruct H1 as [Hb ->]. rewrite <- Hb. by apply IH.
Qed.

(** The installer is the only one to change the device, and changes no record. *)
Lemma reported_apply_boot a config total (s s' : pi_state W) r :
  (_ ← pi_report_phase now handler_ran (pa_session_id a) APPLYING_UPDATE; apply_payload pc a config total) s = (s', r) ->
  ps_dirs (pi_boot s') = ps_dirs (pi_boot s) /\
  ps_env (pi_boot s') = fst (fst (in_install (image_path pc (pa_version a)) (cf_image_version config) (pa_ecu_id a) (pa_release_key a)
                                    (ps_env (pi_boot s)))).
Proof.
  unfold mbind, pym_bind. destruct (pi_report_phase now handler_ran (pa_session_id a) APPLYING_UPDATE s) as [s0 r0] eqn:E0.
  injection E0 as <- <-. unfold apply_payload. cbn.
  destruct (in_install _ _ _ _ (ps_env (pi_boot s))) as [[w percents] ri].
  destruct (write_progress _ _ percents _) as [s2 r2] eqn:Ew. apply write_progress_boot in Ew as [Hb _].
  destruct ri; intros [= <- _]; by rewrite Hb.
Qed.

Abbreviation write := (write_payload fault ismount euid umask pc now handler_ran).

(** C10. The device is only written after the update is recorded: either the
    write phase left the device as it was, or the installer ran on the image of
    this session with the payload's version and this ECU's identity, no abort
    was in progress when the zone was entered, and the status files say by then
    that the running slot is no longer good and that an update was staged for
    the standby slot, so that the boot of an armed slot is recognised. *)
Theorem written_only_after_record a config (s s' : pi_state W) r :
  pc_active_slot pc <> pc_standby_slot pc -> write a config s = (s', r) ->
  ps_env (pi_boot s') = ps_env (pi_boot s) \/
  (abort_in_progress (ah_state (pi_abort s)) = false /\
   staged_for (pc_standby_slot pc) (ps_dirs (pi_boot s') (pc_standby_slot pc)) /\
   sd_status (ps_dirs (pi_boot s') (pc_active_slot pc)) = Some (OTAStatus_name FAILURE) /\
   ps_env (pi_boot s') = fst (fst (in_install (image_path pc (pa_version a)) (cf_image_version config) (pa_ecu_id a) (pa_release_key a)
                                     (ps_env (pi_boot s))))).
Proof.
  intros Hab. unfold write_payload. unfold mbind at 1, pym_bind at 1. unfold on_abort_of at 1.
  unfold enter_critical_zone. unfold mbind at 1, pym_bind at 1, get at 1.
  destruct (abort_in_progress (ah_state (pi_abort s))) eqn:Ea; [intros [= <- _]; by left|]. cbn [modify].
  set (s0 := s <| pi_abort := _ |>). unfold try_finally.
  destruct (mbind _ (raise_as_ota_error _ _ _ _) s0) as [s1 r1] eqn:E1.
  assert (H1 : ps_env (pi_boot s1) = ps_env (pi_boot s) \/
    (staged_for (pc_standby_slot pc) (ps_dirs (pi_boot s1) (pc_standby_slot pc)) /\
     sd_status (ps_dirs (pi_boot s1) (pc_active_slot pc)) = Some (OTAStatus_name FAILURE) /\
     ps_env (pi_boot s1) = fst (fst (in_install (image_path pc (pa_version a)) (cf_image_version config) (pa_ecu_id a) (pa_release_key a)
                                     (ps_env (pi_boot s)))))).
  { unfold mbind at 1, pym_bind at 1, raise_as_ota_error, try_except, on_pboot in E1. cbn [pi_boot] in E1.
    pose proof (pb_pre_update_device (pi_boot s)) as Hdev. unfold same_device in Hdev.
    change (pi_boot s0) with (pi_boot s) in E1.
    destruct (pb_pre_update fault ismount euid umask pc (pi_boot s)) as [b1 [[]|e]] eqn:Ep; cbn [fst] in Hdev.
    - right. apply pb_pre_update_records in Ep as [Hst Hf]; [|done].
      apply reported_apply_boot in E1 as [Hd He]. cbn in Hd, He. rewrite Hd, He, Hdev. by split_and!.
    - left. destruct (_ || _); injection E1 as <- _; exact Hdev. }
  unfold on_abort_of. destruct (exit_critical_zone (pi_abort s1)) as [h [u|e]]; intros [= <- _]; simpl; (destruct H1 as [H1|H1]; [by left|by right]).
Qed.

(** ** The outcome of an update *)

Lemma pi_finalize_never_ok a (s : pi_state W) : is_ok (snd (pi_finalize pc now handler_ran a s)) = false.
Proof.
  unfold pi_finalize. unfold mbind at 1, pym_bind at 1, modify at 1. unfold mbind at 1, pym_bind at 1.
  unfold pi_report_phase. cbn. unfold on_pboot, pb_finalizing_update, mbind, pym_bind. cbn.
  destruct (try_except _ _ _) as [b [u|e]]; done.
Qed.

Lemma bind_not_ok {A B} (m : PyM (pi_state W) pyexn A) (k : A -> PyM (pi_state W) pyexn B) s :
  (forall a s', is_ok (snd (k a s')) = false) -> is_ok (snd ((m ≫= k) s)) = false.
Proof. intros Hk. unfold mbind, pym_bind. by destruct (m s) as [s' [a|e]]. Qed.

Abbreviation run := (pi_execute fault ismount euid umask pc hexdigest chunk_size proxies force_http http_get decompress
  urljoin blob_base_url attempts pool_failure spare free parse_manifest parse_config parse_agent verify_image_index
  metadata_bytes now handler_ran).

(** The status of the running slot. *)
Definition running_status (s : pi_state W) : option string := sd_status (ps_dirs (pi_boot s) (pc_active_slot pc)).

Lemma pi_execute_except_settles e (s s' : pi_state W) r :
  pi_execute_except pc e s = (s', r) ->
  exists e', r = Raise e' /\ (is_exception e' = false \/ is_ota_error e' = true) /\
    (is_exception e' = true -> pi_is_abort_signal e' = false -> running_status s' = Some (OTAStatus_name FAILURE)).
Proof.
  unfold pi_execute_except. destruct (pi_is_abort_signal e) eqn:Ea; cbn [orb].
  - intros [= <- <-]. exists e. split_and!; [done| |congruence]. right. unfold pi_is_abort_signal in Ea. apply bool_decide_eq_true in Ea.
    unfold is_ota_error. rewrite Ea. by apply bool_decide_eq_true.
  - destruct (is_exception e) eqn:Ex; cbn [negb].
    2: { intros [= <- <-]. exists e. split_and!; [done|by left|congruence]. }
    unfold mbind at 1, pym_bind at 1, get at 1. destruct (abort_in_progress _).
    { intros [= <- <-]. eexists. split_and!; [done|by right|done]. }
    unfold mbind at 1, pym_bind at 1, on_pboot, pb_on_operation_failure, update_control, modify.
    assert (Hst : forall b : pstate W, sd_status (ps_dirs (store_control (on_failure (control_of pc b)) b) (pc_active_slot pc)) =
      Some (OTAStatus_name FAILURE)).
    { intros b. rewrite store_control_cur by (unfold on_failure; by destruct (sd_exists _)). unfold on_failure. by destruct (sd_exists _). }
    destruct (is_ota_error e) eqn:Eo; intros [= <- <-]; eexists; (split_and!; [done|by right|intros _ _; apply Hst]).
Qed.

(** C25. Every update settles: it never returns, the downloaders are shut down
    and the session directory is removed whatever happens; and unless the
    process ends (the reboot) or an abort is reported, the error is an OTA
    error and the status file of the running slot says [FAILURE] (the write of
    that file itself succeeds here). *)
Theorem partition_update_settles a (s s' : pi_state W) r :
  run a s = (s', r) ->
  pi_pool_shutdown s' = true /\ pi_workdir s' = false /\
  exists e, r = Raise e /\ (is_exception e = false \/ is_ota_error e = true) /\
    (is_exception e = true -> pi_is_abort_signal e = false -> running_status s' = Some (OTAStatus_name FAILURE)).
Proof.
  unfold pi_execute, try_finally, modify. destruct (try_except _ _ s) as [s1 r1] eqn:E. intros [= <- <-].
  assert (Hb : forall x : pi_state W, pi_boot (close_session (pa_version a) x) = pi_boot x)
    by (intros x; unfold close_session; by destruct (pi_staged x !! _) as [[]|]).
  split_and!; [done|done|]. unfold running_status. cbn. rewrite Hb. fold (running_status s1). unfold try_except in E.
  destruct (mbind _ (prepare a) s) as [s0 [u|e]] eqn:Eb.
  - exfalso. assert (Hn : is_ok (snd (s0, Ok (E := pyexn) u)) = false); [|done]. rewrite <- Eb.
    do 5 (apply bind_not_ok; intros ? ?). apply pi_finalize_never_ok.
  - by apply pi_execute_except_settles in E.
Qed.

(** ** The reported progress *)

(** What [APPLY_DELTA] reports of a session say in bytes. *)
Definition written_of (r : StatusReport) : Z :=
  match payload r with PUpdateProgress (mkUpdateProgressReport APPLY_DELTA _ size _ _) => size | _ => 0 end.
Definition written_bytes (l : list StatusReport) : Z := foldr (fun r acc => written_of r + acc) 0 l.

Lemma written_bytes_app l l' : written_bytes (l ++ l') = written_bytes l + written_bytes l'.
Proof. induction l as [|r l IH]; simpl; lia. Qed.

Lemma on_write_progress_ok sid total p (s : pi_state W) :
  0 <= total -> let s' := fst (on_write_progress sid total p s) in
  let so_far := total * Z.max 0 (Z.min 100 p) / 100 in
  pi_written_bytes_reported s' = Z.max (pi_written_bytes_reported s) so_far /\ 0 <= so_far <= total /\
  written_bytes (im_reports (pi_image s')) - pi_written_bytes_reported s' =
    written_bytes (im_reports (pi_image s)) - pi_written_bytes_reported s.
Proof.
  intros Ht. cbn zeta. unfold on_write_progress. unfold mbind, pym_bind, get. set (q := Z.max 0 (Z.min 100 p)). assert (Hq : 0 <= q <= 100) by (unfold q; lia). clearbody q.
  assert (Hs : 0 <= total * q / 100 <= total).
  { split; [apply Z.div_pos; nia|]. apply Z.div_le_upper_bound; nia. }
  destruct (Z.leb_spec (total * q / 100 - pi_written_bytes_reported s) 0); cbn.
  - split_and!; lia.
  - rewrite written_bytes_app. cbn. unfold written_of. cbn. split_and!; lia.
Qed.

Lemma write_progress_cons sid total p ps (s : pi_state W) :
  fst (write_progress sid total (p :: ps) s) = fst (write_progress sid total ps (fst (on_write_progress sid total p s))).
Proof. cbn [write_progress]. unfold on_write_progress, mbind, pym_bind, get. by destruct (_ <=? 0). Qed.

(** The bytes reported for the write climb with the installer's percents
    and never pass the total, whatever percents it calls back with (repeated,
    decreasing, negative or above 100): the reports sum up to the most that was
    reached, and to the whole total once the installer reported 100. *)
Theorem written_bytes_climb sid total percents (s : pi_state W) :
  0 <= total -> 0 <= pi_written_bytes_reported s <= total ->
  let s' := fst (write_progress sid total percents s) in
  pi_written_bytes_reported s <= pi_written_bytes_reported s' <= total /\
  written_bytes (im_reports (pi_image s')) =
    written_bytes (im_reports (pi_image s)) + (pi_written_bytes_reported s' - pi_written_bytes_reported s) /\
  (100 ∈ percents -> pi_written_bytes_reported s' = total).
Proof.
  intros Ht. revert s. induction percents as [|p ps IH]; intros s Hs; cbn zeta.
  - split_and!; [done|cbn; lia|cbn; lia|]. intros H. by apply elem_of_nil in H.
  - pose proof (on_write_progress_ok sid total p s Ht) as (H1 & H2 & H3). rewrite write_progress_cons.
    set (s1 := fst (on_write_progress sid total p s)) in *. clearbody s1.
    destruct (IH s1 ltac:(lia)) as (H4 & H5 & H6). split_and!; [lia|lia|lia|].
    intros [<-|Hin]%elem_of_cons; [|auto]. change (Z.max 0 (Z.min 100 100)) with 100 in H1, H2. rewrite Z.div_mul in H1, H2 by done. lia.
Qed.
End UpdaterProperties.

(** ** Directories of the sessions *)

Lemma sub_illegal_legal s : str_forallb (fun a => negb (is_illegal_char a)) (sub_illegal s) = true.
Proof. induction s as [|a s IH]; [done|]. simpl. rewrite IH. by destruct (is_illegal_char a) eqn:E; simpl; [|rewrite E]. Qed.

(** A version of the request names a child of the staging root and nothing
    else: no separator, no [..], never empty. *)
Lemma safe_dir_name_is_child version :
  is_name (safe_dir_name version) /\ str_forallb (fun a => negb (Ascii.eqb a "/")) (safe_dir_name version) = true.
Proof.
  unfold safe_dir_name. destruct (sub_illegal version) as [|a s] eqn:E; simpl; [done|].
  pose proof (sub_illegal_legal version) as H. rewrite E in H. split.
  - unfold is_name. split_and!; [done| |]; intros He; rewrite He in H; vm_compute in H; done.
  - change (str_forallb (fun a => negb (Ascii.eqb a "/")) (String a s) = true). revert H. generalize (String a s). clear E a s.
    induction s as [|a s IH]; [done|]. simpl. intros [H1 H2]%andb_true_iff. rewrite IH by done. rewrite andb_true_r.
    destruct (Ascii.eqb_spec a "/") as [->|]; [vm_compute in H1; done|done].
Qed.

(** Pruning keeps the session's directory and every file, and no other
    directory. *)
Lemma prune_staging_spec keep m name :
  prune_staging keep m !! name =
    (e ← m !! name; if bool_decide (name = keep \/ is_staged_dir e = false) then Some e else None).
Proof.
  unfold prune_staging. destruct (m !! name) as [e|] eqn:E; simpl.
  - case_bool_decide; [by apply map_lookup_filter_Some_2|]. apply map_lookup_filter_None. right. intros x Hx. simpl. congruence.
  - apply map_lookup_filter_None. by left.
Qed.

(** The room that is checked is what the downloads still add: never more than
    the plan's size, and nothing for what is there. *)
Lemma staged_bytes_bounds b s : 0 <= blob_size b -> 0 <= staged_bytes b s <= blob_size b.
Proof.
  intros Hb. assert (Hr : forall f, 0 <= resumable_bytes f (blob_size b) <= blob_size b).
  { intros [f|]; simpl; [|lia]. destruct (Z.ltb_spec 0 (Z.of_nat (List.length f))), (Z.ltb_spec (Z.of_nat (List.length f)) (blob_size b)); simpl; lia. }
  unfold staged_bytes. destruct (ds_files s !! blob_digest b) as [f|]; [|apply Hr]. destruct (_ =? _); [lia|apply Hr].
Qed.

(** ** Witnesses *)

(** A device that installs with two percents. *)
#[export] Instance toy_installer : PartitionInstaller toy_dpi := {|
  in_source_digest _ _ w := (asked "source-digest" w, Ok "abcd"%string);
  in_install _ _ _ _ w := (asked "install" w, [40; 100], Ok tt);
|}.

Fixpoint pad (n : nat) (s : string) : string :=
  match n, s with
  | O, s => s
  | S n, EmptyString => String "0" (pad n EmptyString)
  | S n, String a s => String a (pad n s)
  end.
(** A digest of 64 characters. *)
Definition example_hex64 (b : bytes) : string := pad 64 (string_of_list_byte b).
Definition example_desc (b : bytes) : OCIDescriptor := mkOCIDescriptor (example_hex64 b) (Z.of_nat (List.length b)) None.

Definition manifest_bytes : bytes := [x6d]%byte.
Definition config_bytes : bytes := [x63; x63]%byte.
Definition delta_bytes : bytes := [x69; x69; x69]%byte.
Definition example_config : PartitionImageConfig :=
  mkPartitionImageConfig "2.0" DeliveryDirect
    [mkPartitionEntry "rootfs" ActWrite (Some (example_desc [])) (Some (mkDeltaDescriptor (example_desc delta_bytes) 4096 "sha256:abcd"));
     mkPartitionEntry "data" ActKeep None None] [] None None.
Definition example_index : image_index := mkImageIndex (Some (example_desc manifest_bytes)) None manifest_bytes config_bytes.
Definition example_manifest (f : bytes) : result pyexn OCIDescriptor :=
  if String.eqb (string_of_list_byte f) "m" then Ok (example_desc config_bytes) else Raise assertion_failed.
Definition example_parse_config (f : bytes) : result pyexn PartitionImageConfig :=
  if String.eqb (string_of_list_byte f) "cc" then Ok example_config else Raise assertion_failed.
Definition example_agent (f : bytes) : result pyexn (list OCIDescriptor) := Raise assertion_failed.
Definition example_server (n k : nat) (url : string) (headers : option (pydict string)) : result pyexn http_response :=
  let at_url b := String.eqb url ("http://ecu/" +:+ example_hex64 b)%string in
  Ok (mkHttpResponse 200 [] 0 [if at_url manifest_bytes then manifest_bytes else if at_url config_bytes then config_bytes else delta_bytes] None).

Definition example_args : pi_args := mkPiArgs "2.0" "session" None "autoware" "dev".
Definition example_pi (st : AbortState) : pi_state toy_dpi :=
  mkPiState (example_pstate "boot-1" (example_device true)) (mkImageDir None (mkDlStore ∅ 0 0) []) ∅
    (mkAbortHandler st "session" [] []) 0 false true.

#[local] Abbreviation example_prepare := (prepare_payload example_mount 0 18 example_pc example_hex64 1 false false example_server
  (fun _ => ([], None)) (fun b u => (b +:+ u)%string) "http://ecu" 3 assertion_failed [] 1000 example_manifest example_parse_config
  example_agent (Ok example_index) 0 (fun _ => 0) (fun _ h => h) example_args (example_pi AS_NONE)).

Definition example_good (d : OCIDescriptor) : Prop := d ∈ [example_desc manifest_bytes; example_desc config_bytes; example_desc delta_bytes; example_desc []].

Lemma example_descriptors : image_descriptors example_good.
Proof.
  assert (H : forall P : OCIDescriptor -> Prop, P (example_desc manifest_bytes) -> P (example_desc config_bytes) -> P (example_desc delta_bytes) -> P (example_desc []) ->
    forall d, example_good d -> P d).
  { intros P H1 H2 H3 H4 d Hd. unfold example_good in Hd. rewrite !elem_of_cons in Hd. destruct Hd as [->|[->|[->|[->|Hd]]]]; try done.
    by apply elem_of_nil in Hd. }
  split.
  - refine (H (fun d => String.length (oci_digest_hex d) = 64%nat) _ _ _ _); vm_compute; reflexivity.
  - intros d d' Hd Hd'. revert d' Hd'. revert d Hd.
    refine (H (fun d => forall d', example_good d' -> oci_digest_hex d = oci_digest_hex d' -> oci_size d = oci_size d') _ _ _ _);
      refine (H (fun d' => oci_digest_hex _ = oci_digest_hex d' -> oci_size _ = oci_size d') _ _ _ _);
      intros E; vm_compute in E; try discriminate E; vm_compute; reflexivity.
Defined.

Lemma image_descriptors_subset (good good' : OCIDescriptor -> Prop) :
  (forall d, good' d -> good d) -> image_descriptors good -> image_descriptors good'.
Proof. intros Hsub [Hl Hs]. split; [intros d Hd; exact (Hl d (Hsub d Hd))|]. intros d d' Hd Hd'. exact (Hs d d' (Hsub d Hd) (Hsub d' Hd')). Defined.

Lemma staged_image_complete_witness :
  exists config plan, snd example_prepare = Ok (config, plan) /\ plan = [mkPlannedBlob (example_desc delta_bytes)] /\
    Forall (fun b => staged example_hex64 (pb_descriptor b) (im_blobs (pi_image (fst example_prepare)))) plan.
Proof.
  destruct example_prepare as [s' [[config plan]|e]] eqn:E.
  - exists config, plan. split; [reflexivity|].
    assert (Hp : plan = [mkPlannedBlob (example_desc delta_bytes)]).
    { apply (f_equal (fun x => match snd x with Ok (_, p) => p | Raise _ => [] end)) in E. vm_compute in E. rewrite <- E. vm_compute. reflexivity. }
    split; [exact Hp|].
    destruct (staged_image_complete example_mount 0 18 example_pc example_hex64 1 false false example_server (fun _ => ([], None))
      (fun b u => (b +:+ u)%string) "http://ecu" 3 assertion_failed [] 1000 example_manifest example_parse_config example_agent
      (Ok example_index) 0 (fun _ => 0) (fun _ h => h) example_args (example_pi AS_NONE) s' config plan
      ltac:(lia) E) as (ix & cd & agent & w & w' & Hix & [(md & fm & _ & _ & Hm) (fc & _ & Hc) Ha] & _ & H).
    apply H. injection Hix as <-. simpl in Ha. subst agent.
    unfold example_manifest in Hm. destruct (String.eqb _ _); [|discriminate Hm]. injection Hm as <-.
    unfold example_parse_config in Hc. destruct (String.eqb _ _); [|discriminate Hc]. injection Hc as <-.
    refine (image_descriptors_subset _ _ _ example_descriptors). intros d Hd.
    assert (El : image_of example_index (example_desc config_bytes) example_config None =
      [example_desc manifest_bytes; example_desc config_bytes; example_desc []; example_desc delta_bytes]) by (vm_compute; reflexivity).
    rewrite El in Hd. unfold example_good. rewrite !elem_of_cons in Hd. rewrite !elem_of_cons. tauto.
  - exfalso. apply (f_equal (fun x => is_ok (snd x))) in E. vm_compute in E. discriminate E.
Defined.

Lemma plan_fits_device_witness :
  exists plan, snd (make_plan (Some example_config) None (example_device true)) = Ok plan /\
    exists parts datas, plan = parts ++ datas ++ [] ++ [] ++ [] /\ List.length parts = 1%nat.
Proof.
  destruct (make_plan (Some example_config) None (example_device true)) as [w' r] eqn:E.
  destruct r as [plan|e]; [|vm_compute in E; discriminate E]. exists plan. split; [reflexivity|].
  destruct (plan_fits_device example_config None (example_device true) w' plan E) as (parts & datas & Hp & Hf & _ & _).
  exists parts, datas. split; [exact Hp|]. apply Forall2_length in Hf. rewrite <- Hf. reflexivity.
Defined.

#[local] Abbreviation example_write st :=
  (write_payload (fun _ => false) example_mount 0 18 example_pc (fun _ => 0) (fun _ h => h) example_args example_config (example_pi st)).

Lemma written_only_after_record_witness :
  td_asked (ps_env (pi_boot (fst (example_write AS_NONE)))) = ["install"%string] /\
  staged_for "slot_b" (ps_dirs (pi_boot (fst (example_write AS_NONE))) "slot_b"%string).
Proof.
  assert (Hi : td_asked (ps_env (pi_boot (fst (example_write AS_NONE)))) = ["install"%string]) by (vm_compute; reflexivity).
  split; [exact Hi|]. destruct (example_write AS_NONE) as [s' r] eqn:E. cbn [fst] in *.
  destruct (written_only_after_record (fun _ => false) example_mount 0 18 example_pc (fun _ => 0) (fun _ h => h) example_args example_config
    (example_pi AS_NONE) s' r ltac:(discriminate) E) as [H|(_ & H & _)].
  - exfalso. rewrite H in Hi. vm_compute in Hi. discriminate Hi.
  - exact H.
Defined.

#[local] Abbreviation example_execute server := (pi_execute (fun _ => false) example_mount 0 18 example_pc example_hex64 1 false false server
  (fun _ => ([], None)) (fun b u => (b +:+ u)%string) "http://ecu" 3 assertion_failed [] 1000 example_manifest example_parse_config
  example_agent (Ok example_index) 0 (fun _ => 0) (fun _ h => h) example_args (example_pi AS_NONE)).
Definition not_found_server (n k : nat) (url : string) (headers : option (pydict string)) : result pyexn http_response :=
  Raise (PyExn (XHTTPError (Some 404)) [] None None).

(** An image that is not there: the update fails and is recorded. *)
Lemma partition_update_settles_witness :
  exists e, snd (example_execute not_found_server) = Raise e /\ ota_class e = Some (Rec OTAImageNotFound) /\
    running_status example_pc (fst (example_execute not_found_server)) = Some (OTAStatus_name FAILURE).
Proof.
  destruct (partition_update_settles (fun _ => false) example_mount 0 18 example_pc example_hex64 1 false false not_found_server
    (fun _ => ([], None)) (fun b u => (b +:+ u)%string) "http://ecu" 3 assertion_failed [] 1000 example_manifest example_parse_config
    example_agent (Ok example_index) 0 (fun _ => 0) (fun _ h => h) example_args (example_pi AS_NONE)
    (fst (example_execute not_found_server)) (snd (example_execute not_found_server))) as (_ & _ & e & He & _ & Hf).
  - destruct (example_execute not_found_server). reflexivity.
  - exists e. split; [exact He|].
    assert (Hc : ota_class e = Some (Rec OTAImageNotFound)).
    { apply (f_equal (fun r => match r with Raise e => ota_class e | Ok _ => None end)) in He. rewrite <- He. vm_compute. reflexivity. }
    assert (Hx : is_exception e = true).
    { apply (f_equal (fun r => match r with Raise e => is_exception e | Ok _ => false end)) in He. rewrite <- He. vm_compute. reflexivity. }
    split; [exact Hc|]. apply Hf; [exact Hx|]. unfold pi_is_abort_signal. rewrite Hc. reflexivity.
Defined.

Lemma written_bytes_climb_witness :
  pi_written_bytes_reported (fst (write_progress "session" 7 [40; 10; 100; 250] (example_pi AS_NONE))) = 7 /\
  written_bytes (im_reports (pi_image (fst (write_progress "session" 7 [40; 10; 100; 250] (example_pi AS_NONE))))) = 7.
Proof.
  destruct (written_bytes_climb "session" 7 [40; 10; 100; 250] (example_pi AS_NONE) ltac:(lia) ltac:(cbn; lia)) as (_ & Hs & H).
  assert (H' := H ltac:(set_solver)). split; [exact H'|]. rewrite Hs, H'. reflexivity.
Defined.

(** A whole update: the device is asked about the delta, written and rebooted. *)
Example example_update_runs :
  td_asked (ps_env (pi_boot (fst (example_execute example_server)))) = ["source-digest"; "install"; "reboot"]%string /\
  is_exception (match snd (example_execute example_server) with Raise e => e | Ok _ => assertion_failed end) = false /\
  pi_staged (fst (example_execute example_server)) = ∅.
Proof. vm_compute. by split_and!. Qed.
