(* ===== verification/ProxyPools.v ===== *)
(** * The thread pools of the OTA proxy

    Models the rest of [src/src/ota_proxy/cache_streaming.py]: the write pool
    and the read pool with the semaphores that bound their backlogs, the
    writers dropped because no thread took them in time, the reading of a
    cached file in a thread and the stream that hands it to the server, and
    what a subscriber of a caching gets; and the reading and URL helpers of
    [src/src/ota_proxy/utils.py].

    The event loop runs one coroutine at a time up to its next [await], so a
    dispatcher is one step; the threads of an executor and the callbacks that
    they schedule on the loop interleave with it. *)

From stdpp Require Import base list option strings sets gmap.
From Stdlib Require Import ZArith String Ascii Lia Strings.Byte.
From S2P Require Import Prelude CacheControlHeader Errors CacheIndex CacheStreaming.

(** ** [asyncio.Semaphore] *)

Record Semaphore : Type := mkSemaphore { se_value : nat; se_waiters : nat }.

Definition new_semaphore (n : nat) : Semaphore := mkSemaphore n 0.

Definition se_locked (s : Semaphore) : bool := (se_value s =? 0)%nat || (0 <? se_waiters s)%nat.

(** [acquire] up to its first suspension: a coroutine that finds the
    semaphore locked joins the waiters. *)
Definition se_acquire (s : Semaphore) : Semaphore :=
  if se_locked s then mkSemaphore (se_value s) (S (se_waiters s))
  else mkSemaphore (pred (se_value s)) (se_waiters s).

(** [release], which hands the slot to a waiter if there is one. *)
Definition se_release (s : Semaphore) : Semaphore :=
  match se_waiters s with
  | O => mkSemaphore (S (se_value s)) 0
  | S w => mkSemaphore (se_value s) w
  end.

(** ** The pools *)

Module Pool.

(** The tasks of an executor are the numbers of its futures, in the order of
    their submission; for the write pool a task stands for its tracker too. *)
Record pool : Type := mkPool {
  po_se : Semaphore;
  po_queue : list nat;       (** submitted, without a thread *)
  po_running : list nat;
  po_finished : list nat;
  po_timers : list nat;      (** pending [call_later] of the write pool *)
  po_dropped : list nat;     (** cancelled while they waited for a thread *)
  po_refused : list nat;     (** never submitted: the backlog was full *)
  po_releases : nat;         (** [_se.release] scheduled on the loop *)
  po_shutdown : bool;
  po_leaked : nat;           (** acquired for a submission that raised *)
}.

#[export] Instance eta_pool : Eta pool := fun p =>
  mkPool (po_se p) (po_queue p) (po_running p) (po_finished p) (po_timers p) (po_dropped p)
    (po_refused p) (po_releases p) (po_shutdown p) (po_leaked p).

Definition new_io_pool (max_pending : nat) : pool :=
  mkPool (new_semaphore max_pending) [] [] [] [] [] [] 0 false 0.

Inductive dispatched : Type :=
| Submitted
| Busy           (** the backlog is full *)
| SubmitRaised.  (** [RuntimeError]: the executor was shut down *)

(** The semaphore and the submission that the two dispatchers share. *)
Definition acquire_and_submit (t : nat) (p : pool) : pool * dispatched :=
  if se_locked (po_se p) then (p, Busy)
  else
    let p := p <| po_se := se_acquire (po_se p) |> in
    if po_shutdown p then (p <| po_leaked := S (po_leaked p) |>, SubmitRaised)
    else (p <| po_queue := po_queue p ++ [t] |>, Submitted).

(** [CacheReaderPool._read_dispatcher]: a full backlog is [ReaderPoolBusy]. *)
Definition read_dispatcher (t : nat) (p : pool) : pool * dispatched :=
  let '(p, d) := acquire_and_submit t p in
  (match d with Busy => p <| po_refused := t :: po_refused p |> | _ => p end, d).

(** [CacheWriterPool._write_dispatcher]: a full backlog fails the tracker
    ([po_refused]); a submitted writer gets a timer. *)
Definition write_dispatcher (t : nat) (p : pool) : pool * dispatched :=
  let '(p, d) := acquire_and_submit t p in
  (match d with
   | Busy => p <| po_refused := t :: po_refused p |>
   | Submitted => p <| po_timers := t :: po_timers p |>
   | SubmitRaised => p
   end, d).

Definition remove_task (t : nat) (l : list nat) : list nat := filter (fun u => u <> t) l.

#[global] Arguments remove_task : simpl never.

(** [_drop_writer_not_started] as its timer fires: [Future.cancel] succeeds
    for a task in the queue only, and runs the done callback. *)
Definition drop_writer_not_started (t : nat) (p : pool) : pool :=
  let p := p <| po_timers := remove_task t (po_timers p) |> in
  if bool_decide (t ∈ po_queue p)
  then p <| po_queue := remove_task t (po_queue p) |>
         <| po_dropped := t :: po_dropped p |>
         <| po_releases := S (po_releases p) |>
  else p.

(** [_tracker_events.set_writer_failed] was called by the pool. *)
Definition pool_failed (t : nat) (p : pool) : bool :=
  bool_decide (t ∈ po_dropped p) || bool_decide (t ∈ po_refused p).

(** [_release_se_cb], run by the loop. *)
Definition run_release (p : pool) : pool :=
  match po_releases p with
  | O => p
  | S n => p <| po_releases := n |> <| po_se := se_release (po_se p) |>
  end.

(** A thread takes the oldest task; a task ends and its done callback
    schedules the release; [close] waits for the tasks. *)
Definition thread_takes (p : pool) : pool :=
  match po_queue p with
  | [] => p
  | t :: q => p <| po_queue := q |> <| po_running := t :: po_running p |>
  end.

Definition task_ends (t : nat) (p : pool) : pool :=
  p <| po_running := remove_task t (po_running p) |>
    <| po_finished := t :: po_finished p |>
    <| po_releases := S (po_releases p) |>.

Definition close_pool (p : pool) : pool := p <| po_shutdown := true |>.

Definition known (p : pool) : list nat :=
  po_queue p ++ po_running p ++ po_finished p ++ po_dropped p ++ po_refused p.

Inductive io_pool_step (max_workers : nat) (writer : bool) : pool -> pool -> Prop :=
| PS_dispatch t p : t ∉ known p -> t ∉ po_timers p ->
    io_pool_step max_workers writer p
      (fst ((if writer then write_dispatcher else read_dispatcher) t p))
| PS_take p : (List.length (po_running p) < max_workers)%nat ->
    io_pool_step max_workers writer p (thread_takes p)
| PS_end t p : t ∈ po_running p -> io_pool_step max_workers writer p (task_ends t p)
| PS_timer t p : t ∈ po_timers p -> io_pool_step max_workers writer p (drop_writer_not_started t p)
| PS_release p : io_pool_step max_workers writer p (run_release p)
| PS_close p : io_pool_step max_workers writer p (close_pool p).

(** ** The invariant *)

Record io_pool_inv (max_workers max_pending : nat) (writer : bool) (p : pool) : Prop := {
  (** no coroutine ever waits at the semaphore, and its slots are accounted for *)
  pinv_waiters : se_waiters (po_se p) = 0%nat;
  pinv_slots : (se_value (po_se p) + List.length (po_queue p) + List.length (po_running p)
                + po_releases p + po_leaked p = max_pending)%nat;
  pinv_workers : (List.length (po_running p) <= max_workers)%nat;
  pinv_leaked : po_shutdown p = false -> po_leaked p = 0%nat;
  (** a task is in one place *)
  pinv_nodup : NoDup (known p);
  (** a writer without a thread has its timer *)
  pinv_timers : writer = true -> forall t, t ∈ po_queue p -> t ∈ po_timers p;
  pinv_timed : forall t, t ∈ po_timers p -> t ∈ known p;
}.

Lemma remove_task_perm t l : NoDup l -> t ∈ l -> l ≡ₚ t :: remove_task t l.
Proof.
  induction 1 as [|u l Hu Hl IH]; [by intros H%not_elem_of_nil|].
  intros [->|Ht]%elem_of_cons; unfold remove_task; rewrite filter_cons.
  - rewrite decide_False by auto. f_equiv. clear Hl IH. induction l as [|v l IH]; [done|].
    apply not_elem_of_cons in Hu as [Hne Hu]. rewrite filter_cons, decide_True by auto.
    f_equiv. by apply IH.
  - rewrite decide_True by (intros ->; done). rewrite perm_swap. f_equiv. by apply IH.
Qed.

Lemma elem_of_remove_task t u l : u ∈ remove_task t l <-> u <> t /\ u ∈ l.
Proof. unfold remove_task. by rewrite list_elem_of_filter. Qed.

(** Each step moves the known tasks between their places, or adds one. *)
Lemma acquire_and_submit_cases t p :
  se_waiters (po_se p) = 0%nat ->
  match acquire_and_submit t p with
  | (p', Busy) => p' = p /\ se_value (po_se p) = 0%nat
  | (p', d) =>
      exists n, se_value (po_se p) = S n /\ po_se p' = mkSemaphore n 0 /\
        p' = (match d with
              | Submitted => p <| po_se := mkSemaphore n 0 |> <| po_queue := po_queue p ++ [t] |>
              | _ => p <| po_se := mkSemaphore n 0 |> <| po_leaked := S (po_leaked p) |>
              end) /\ po_shutdown p = match d with Submitted => false | _ => true end
  end.
Proof.
  intros Hw. unfold acquire_and_submit, se_acquire, se_locked. rewrite Hw, orb_false_r.
  destruct (se_value (po_se p)) as [|n] eqn:Hv; [done|]. cbn.
  destruct (po_shutdown p) eqn:Hs; cbn; eauto 10.
Qed.

Lemma dispatch_known (writer : bool) t p :
  se_waiters (po_se p) = 0%nat ->
  let p' := fst ((if writer then write_dispatcher else read_dispatcher) t p) in
  known p' ≡ₚ t :: known p \/
  known p' = known p /\ po_queue p' = po_queue p /\ po_timers p' = po_timers p.
Proof.
  intros Hw. pose proof (acquire_and_submit_cases t p Hw) as Hc.
  destruct writer; cbn; unfold write_dispatcher, read_dispatcher;
    destruct (acquire_and_submit t p) as [p1 []]; cbn in *.
  all: first [destruct Hc as [-> _] | destruct Hc as (n & _ & _ & -> & _)]; unfold known; cbn; auto.
  all: left; solve_Permutation.
Qed.

Lemma dispatch_inv mw mp writer t p :
  io_pool_inv mw mp writer p -> t ∉ known p ->
  io_pool_inv mw mp writer (fst ((if writer then write_dispatcher else read_dispatcher) t p)).
Proof.
  intros [Hw Hs Hr Hl Hn Ht Hk] Hf.
  pose proof (dispatch_known writer t p Hw) as Hkn. cbn in Hkn.
  pose proof (acquire_and_submit_cases t p Hw) as Hc.
  assert (Hnk : NoDup (known (fst ((if writer then write_dispatcher else read_dispatcher) t p)))).
  { destruct Hkn as [->|(-> & _)]; [by constructor|done]. }
  destruct writer; cbn in *; unfold write_dispatcher, read_dispatcher in *;
    destruct (acquire_and_submit t p) as [p1 []]; cbn in *.
  all: first [destruct Hc as [-> Hv] | destruct Hc as (n & Hv & _ & -> & Hsh)];
    split; cbn in *; auto.
  all: rewrite ?length_app; cbn; try lia; try (intros; congruence).
  all: try (intros u Hu; specialize (Hk u)); try (intros _ u Hu; specialize (Ht eq_refl u)).
  all: unfold known in *; cbn; rewrite ?elem_of_app, ?elem_of_cons, ?elem_of_nil in *; clear - Hk Ht Hu; tauto.
Qed.

Lemma take_inv mw mp writer p :
  io_pool_inv mw mp writer p -> (List.length (po_running p) < mw)%nat ->
  io_pool_inv mw mp writer (thread_takes p).
Proof.
  intros [Hw Hs Hr Hl Hn Ht Hk] Hlt. unfold thread_takes.
  destruct (po_queue p) as [|t q] eqn:Hq; [by split; rewrite ?Hq|].
  assert (Hp : known (p <| po_queue := q |> <| po_running := t :: po_running p |>) ≡ₚ known p)
    by (unfold known; cbn; rewrite Hq; solve_Permutation).
  split; cbn in *; try (done || lia).
  - by rewrite Hp.
  - intros Hwr u Hu. apply Ht; [done|]. by right.
  - intros u Hu. rewrite Hp. by apply Hk.
Qed.

Lemma end_inv mw mp writer t p :
  io_pool_inv mw mp writer p -> t ∈ po_running p -> io_pool_inv mw mp writer (task_ends t p).
Proof.
  intros [Hw Hs Hr Hl Hn Ht Hk] Hin.
  assert (Hnr : NoDup (po_running p)) by (unfold known in Hn; apply NoDup_app in Hn as (_ & _ & Hn);
    by apply NoDup_app in Hn as (Hn & _)).
  pose proof (remove_task_perm t _ Hnr Hin) as Hp. pose proof (Permutation_length Hp) as Hlen.
  assert (Hkp : known (task_ends t p) ≡ₚ known p)
    by (unfold known, task_ends; cbn; rewrite Hp at 2; solve_Permutation).
  split; cbn in *; try (done || lia).
  - by rewrite Hkp.
  - intros u Hu. rewrite Hkp. by apply Hk.
Qed.

Lemma timer_inv mw mp writer t p :
  io_pool_inv mw mp writer p -> io_pool_inv mw mp writer (drop_writer_not_started t p).
Proof.
  intros [Hw Hs Hr Hl Hn Ht Hk]. unfold drop_writer_not_started.
  case_bool_decide as Hin; cbn in *.
  - assert (Hnq : NoDup (po_queue p)) by (unfold known in Hn; by apply NoDup_app in Hn as (Hn & _)).
    pose proof (remove_task_perm t _ Hnq Hin) as Hp. pose proof (Permutation_length Hp) as Hlen.
    assert (Hkp : known (drop_writer_not_started t p) ≡ₚ known p).
    { unfold known, drop_writer_not_started. cbn. rewrite bool_decide_true by done. cbn.
      rewrite Hp at 2. solve_Permutation. }
    unfold drop_writer_not_started in Hkp. cbn in Hkp. rewrite bool_decide_true in Hkp by done.
    split; cbn in *; try (done || lia).
    + unfold known in *. cbn in *. by rewrite Hkp.
    + intros Hwr u [Hne Hu]%elem_of_remove_task. apply elem_of_remove_task. auto.
    + intros u [Hne Hu]%elem_of_remove_task. rewrite Hkp. by apply Hk.
  - split; cbn in *; try done.
    + intros Hwr u Hu. apply elem_of_remove_task. split; [by intros ->|auto].
    + intros u [Hne Hu]%elem_of_remove_task. by apply Hk.
Qed.

Lemma release_inv mw mp writer p : io_pool_inv mw mp writer p -> io_pool_inv mw mp writer (run_release p).
Proof.
  intros [Hw Hs Hr Hl Hn Ht Hk]. unfold run_release.
  destruct (po_releases p) as [|n] eqn:Hrel; [by split; rewrite ?Hrel|].
  split; cbn in *; unfold se_release; rewrite ?Hw; cbn; try done. lia.
Qed.

#[local] Hint Resolve dispatch_inv take_inv end_inv timer_inv release_inv : ota.

Lemma pool_step_inv mw mp writer p p' :
  io_pool_step mw writer p p' -> io_pool_inv mw mp writer p -> io_pool_inv mw mp writer p'.
Proof.
  destruct 1; auto with ota. intros []. split; cbn; auto. done.
Qed.

Lemma pool_reachable mw mp writer p :
  rtc (io_pool_step mw writer) (new_io_pool mp) p -> io_pool_inv mw mp writer p.
Proof.
  intros H. apply (rtc_ind_r (fun p => io_pool_inv mw mp writer p) (new_io_pool mp)) in H; eauto using pool_step_inv.
  split; cbn; auto; try lia; try constructor; by intros ? ?%not_elem_of_nil.
Qed.

Lemma dropped_mono mw writer p p' t :
  rtc (io_pool_step mw writer) p p' -> pool_failed t p = true -> pool_failed t p' = true.
Proof.
  unfold pool_failed. induction 1 as [|p q r Hs _ IH]; [done|]. intros Hf. apply IH. clear IH.
  rewrite orb_true_iff, !bool_decide_eq_true in *. destruct Hs; cbn in *; try done.
  - destruct writer; cbn; unfold write_dispatcher, read_dispatcher, acquire_and_submit;
      destruct (se_locked (po_se p)); cbn; try destruct (po_shutdown p); cbn; set_solver.
  - unfold thread_takes. by destruct (po_queue p).
  - unfold drop_writer_not_started. case_bool_decide; cbn; set_solver.
  - unfold run_release. by destruct (po_releases p).
Qed.

(** At any time, the write pool and the read pool of the proxy hold at
    most [max_pending] tasks, of which at most [max_workers] run; no request
    ever waits at the semaphore of a pool (a full pool refuses it at once);
    and a pool that has nothing left to do has all its slots back, unless a
    task was submitted to it after [close]. *)
Theorem pool_backlog_bounded mw mp writer p :
  rtc (io_pool_step mw writer) (new_io_pool mp) p ->
  (List.length (po_queue p) + List.length (po_running p) <= mp)%nat /\
  (List.length (po_running p) <= mw)%nat /\
  se_waiters (po_se p) = 0%nat /\
  (se_locked (po_se p) = true <->
     List.length (po_queue p) + List.length (po_running p) + po_releases p + po_leaked p = mp)%nat /\
  (po_queue p = [] -> po_running p = [] -> po_releases p = 0%nat -> po_shutdown p = false ->
   se_value (po_se p) = mp).
Proof.
  intros [Hw Hs Hr Hl Hn Ht Hk]%(pool_reachable mw mp writer). unfold se_locked. rewrite Hw, orb_false_r.
  split_and!; try lia.
  - rewrite Nat.eqb_eq. lia.
  - intros Hq Hrun Hrel Hsh. rewrite Hq, Hrun, Hrel, Hl in Hs by done. cbn in Hs. lia.
Qed.

(** A writer that the write pool gave up (the backlog was full, or no
    thread took it within the start timeout) never runs, then or later, so
    that its tracker is failed once and for all; and a writer that still
    waits for a thread has its timer pending, so that its subscribers never
    wait longer than the timeout for a writer that got no thread. *)
Theorem dropped_writer_never_runs mw mp p p' t :
  rtc (io_pool_step mw true) (new_io_pool mp) p -> rtc (io_pool_step mw true) p p' ->
  (pool_failed t p = true -> (t ∉ po_running p') /\ (t ∉ po_finished p') /\ (t ∉ po_queue p')) /\
  (t ∈ po_queue p -> t ∈ po_timers p /\
     pool_failed t (drop_writer_not_started t p) = true).
Proof.
  intros H1 H2. pose proof (pool_reachable _ _ _ _ H1) as Hinv.
  pose proof (pool_reachable _ _ _ _ (transitivity H1 H2)) as [_ _ _ _ Hn _ _].
  split.
  - intros Hf%(dropped_mono _ _ _ _ _ H2). unfold pool_failed in Hf.
    rewrite orb_true_iff, !bool_decide_eq_true in Hf. unfold known in Hn.
    rewrite !NoDup_app in Hn. set_solver.
  - intros Hq. split; [by apply (pinv_timers _ _ _ _ Hinv)|].
    unfold pool_failed, drop_writer_not_started. cbn. rewrite (bool_decide_true (t ∈ po_queue p)) by done.
    cbn. rewrite bool_decide_true; [done|]. by left.
Qed.

(** Two writers and one thread: the second gets no thread in time. *)
Definition example_pool : pool :=
  thread_takes (fst (write_dispatcher 2 (fst (write_dispatcher 1 (new_io_pool 4))))).

Lemma example_pool_reachable : rtc (io_pool_step 1 true) (new_io_pool 4) example_pool.
Proof.
  eapply rtc_l; [apply (PS_dispatch 1 true 1); cbn; apply not_elem_of_nil|].
  eapply rtc_l; [apply (PS_dispatch 1 true 2); (apply (bool_decide_unpack _); vm_compute; exact I)|].
  apply rtc_once. apply PS_take. vm_compute. lia.
Qed.

Lemma dropped_writer_never_runs_witness :
  pool_failed 2 (drop_writer_not_started 2 example_pool) = true /\
  2%nat ∉ po_running (drop_writer_not_started 2 example_pool).
Proof.
  assert (Hq : 2%nat ∈ po_queue example_pool) by (vm_compute; constructor).
  assert (Ht : 2%nat ∈ po_timers example_pool) by (vm_compute; constructor).
  pose proof (proj2 (dropped_writer_never_runs 1 4 example_pool example_pool 2
    example_pool_reachable (rtc_refl _ _)) Hq) as [_ Hf].
  split; [exact Hf|].
  assert (Hr : rtc (io_pool_step 1 true) (new_io_pool 4) (drop_writer_not_started 2 example_pool))
    by (eapply rtc_r; [exact example_pool_reachable|by apply PS_timer]).
  exact (proj1 (proj1 (dropped_writer_never_runs 1 4 _ _ 2 Hr (rtc_refl _ _)) Hf)).
Defined.

End Pool.

(** ** Reading a cached file *)

Definition REMOTE_READ_CHUNK_SIZE : nat := 512 * 1024.
Definition LOCAL_READ_SIZE : nat := 2 * 1024 * 1024.

(** What the reading thread puts in the queue. *)
Inductive read_item : Type :=
| RData (data : bytes)
| RFailed                 (** [_reader_failed_sentinel] *)
| REnd.                   (** [None] *)

(** The loop of [_read_file_in_thread] from the file position on: [stop i] is
    the event [interrupt_thread_worker] at its [i]-th test, [fails i] an
    exception of the [i]-th [read].  A file of [n] bytes takes at most [n + 1]
    rounds, as every chunk but the empty one has a byte. *)
Fixpoint read_file_loop (chunk_size : nat) (stop fails : nat -> bool) (fuel i : nat) (rest : bytes) :
    list read_item :=
  match fuel with
  | O => []
  | S fuel =>
      if stop i then []
      else if fails i then [RFailed]
      else match take chunk_size rest with
           | [] => []
           | data => RData data :: read_file_loop chunk_size stop fails fuel (S i) (drop chunk_size rest)
           end
  end.

(** [_read_file_in_thread]; [None]: the file cannot be opened.  [seek] past
    the end reads nothing. *)
Definition read_file_in_thread (chunk_size : nat) (stop fails : nat -> bool) (offset : nat)
    (file : option bytes) : list read_item :=
  match file with
  | None => [RFailed]
  | Some f =>
      let rest := drop offset f in
      read_file_loop chunk_size stop fails (S (List.length rest)) 0 rest
  end ++ [REnd].

(** A stream as its consumer sees it: the chunks, then its normal end or an
    exception. *)
Definition stream : Type := list bytes * option pyexn.

Definition cache_streaming_interrupt : pyexn :=
  PyExn (XOther "CacheStreamingInterrupt") [AStr "reader failed"] None None.

(** [_stream_from_que], run to its end on what the thread puts in the queue;
    it ends at [None] (and at an empty chunk, which no reader puts). *)
Fixpoint stream_from_que (q : list read_item) : stream :=
  match q with
  | [] | REnd :: _ => ([], None)
  | RFailed :: _ => ([], Some cache_streaming_interrupt)
  | RData [] :: _ => ([], None)
  | RData d :: q => let '(ds, e) := stream_from_que q in (d :: ds, e)
  end.

(** What a request gets to send: a whole body or a stream. *)
Inductive file_body : Type :=
| FBytes (data : bytes)
| FStream (s : stream).

Definition reader_pool_busy : pyexn := PyExn (XOther "ReaderPoolBusy") [] None None.
Definition cache_provider_not_ready : pyexn := PyExn (XOther "CacheProviderNotReady") [] None None.
Definition file_not_found : pyexn := PyExn (XOSError (Some 2)) [] None None.

(** [CacheReaderPool.stream_read_file] and [read_file_once], as the pool
    accepts the task ([busy]: it does not) and its thread runs it. *)
Definition stream_read_file (busy : bool) (fails : nat -> bool) (offset : nat) (file : option bytes) :
    result pyexn file_body :=
  if busy then Raise reader_pool_busy
  else Ok (FStream (stream_from_que
             (read_file_in_thread LOCAL_READ_SIZE (fun _ => false) fails offset file))).

Definition read_file_once (busy : bool) (file : option bytes) : result pyexn file_body :=
  if busy then Raise reader_pool_busy
  else match file with Some f => Ok (FBytes f) | None => Raise file_not_found end.

(** [subscribe_tracker]: [wait] is the outcome of [subscriber_wait_for_provider],
    [follow] the queue that [subscriber_stream_cache_in_thread] fills. *)
Definition subscribe_tracker (busy : bool) (wait : option bool) (t : CacheTracker)
    (follow : list read_item) : result pyexn file_body :=
  match wait with
  | None => Raise cache_provider_not_ready
  | Some finished =>
      let size := cm_cache_size (tk_cache_meta t) in
      let follow_stream :=
        if busy then Raise reader_pool_busy else Ok (FStream (stream_from_que follow)) in
      if finished then
        if size =? 0 then Ok (FBytes [])
        else if size <=? Z.of_nat REMOTE_READ_CHUNK_SIZE then read_file_once busy (tk_file t)
        else follow_stream
      else follow_stream
  end.

Definition body_bytes (b : file_body) : bytes :=
  match b with FBytes d => d | FStream (ds, _) => List.concat ds end.

Definition body_error (b : file_body) : option pyexn :=
  match b with FBytes _ => None | FStream (_, e) => e end.

Section ReadLoop.
Context (chunk_size : nat) (Hpos : (0 < chunk_size)%nat).

Lemma read_loop_ok fuel i rest :
  (List.length rest < fuel)%nat ->
  exists ds, stream_from_que (read_file_loop chunk_size (fun _ => false) (fun _ => false) fuel i rest ++ [REnd])
             = (ds, None) /\ List.concat ds = rest /\
    Forall (fun d => 0 < List.length d <= chunk_size)%nat ds.
Proof using Hpos.
  revert i rest. induction fuel as [|fuel IH]; [lia|]. intros i rest Hl. cbn.
  destruct (take chunk_size rest) as [|b d] eqn:Ht.
  - exists []. cbn. destruct rest as [|c rest]; [done|]. by destruct chunk_size; [lia|].
  - assert (Hd : (List.length (drop chunk_size rest) < fuel)%nat).
    { rewrite length_drop. destruct rest; [by rewrite take_nil in Ht|]. cbn in *. lia. }
    destruct (IH (S i) _ Hd) as (ds & Hq & Hc & Hf). exists ((b :: d) :: ds). cbn in *. rewrite Hq.
    split_and!; [done| |].
    + rewrite Hc. change (b :: d ++ drop chunk_size rest) with ((b :: d) ++ drop chunk_size rest).
      by rewrite <-Ht, take_drop.
    + constructor; [|done]. rewrite <-Ht, length_take.
      apply (f_equal (@List.length _)) in Ht. rewrite length_take in Ht. cbn in Ht. lia.
Qed.

Lemma read_loop_prefix stop fails fuel i rest :
  (List.length rest < fuel)%nat ->
  let s := stream_from_que (read_file_loop chunk_size stop fails fuel i rest ++ [REnd]) in
  (List.concat (fst s)) `prefix_of` rest /\
  ((forall j, stop j = false) -> snd s = None -> List.concat (fst s) = rest) /\
  (snd s <> None -> snd s = Some cache_streaming_interrupt /\ exists j, fails j = true).
Proof using Hpos.
  revert i rest. induction fuel as [|fuel IH]; [lia|]. intros i rest Hl. cbn.
  destruct (stop i) eqn:Hs.
  { cbn. split_and!; [apply prefix_nil| |done]. intros H. by rewrite H in Hs. }
  destruct (fails i) eqn:Hf; [cbn; split_and!; [apply prefix_nil|done|eauto]|].
  destruct (take chunk_size rest) as [|b d] eqn:Ht.
  - cbn. split_and!; [apply prefix_nil| |done]. intros _ _.
    destruct rest as [|c rest]; [done|]. by destruct chunk_size; [lia|].
  - assert (Hd : (List.length (drop chunk_size rest) < fuel)%nat).
    { rewrite length_drop. destruct rest; [by rewrite take_nil in Ht|]. cbn in *. lia. }
    specialize (IH (S i) _ Hd). cbn in *.
    destruct (stream_from_que _) as [ds e]. cbn in *. destruct IH as (Hp & Hc & He).
    change (b :: d ++ List.concat ds) with ((b :: d) ++ List.concat ds). rewrite <-Ht.
    split_and!; [|by intros Hs' He'; rewrite (Hc Hs' He'), take_drop|done].
    rewrite <-(take_drop chunk_size rest) at 2. by apply prefix_app.
Qed.
End ReadLoop.

(** Streaming a cached file from an offset through the read pool: a
    stream that ends normally delivered exactly the rest of the file, in
    chunks of at most the local read size; whatever read fails, what was
    delivered is a prefix of the rest of the file and the stream ends with
    [CacheStreamingInterrupt], never as if it were complete. *)
Theorem cached_file_streamed fails offset f b :
  stream_read_file false fails offset (Some f) = Ok b ->
  body_bytes b `prefix_of` drop offset f /\
  (body_error b = None -> body_bytes b = drop offset f) /\
  (body_error b <> None -> body_error b = Some cache_streaming_interrupt) /\
  ((forall i, fails i = false) -> body_error b = None).
Proof.
  unfold stream_read_file, read_file_in_thread. intros [= <-]. cbn [body_bytes body_error].
  pose proof (read_loop_prefix LOCAL_READ_SIZE ltac:(unfold LOCAL_READ_SIZE; lia) (fun _ => false) fails
    (S (List.length (drop offset f))) 0 (drop offset f) ltac:(lia)) as (Hp & Hc & He).
  destruct (stream_from_que _) as [ds e]. cbn in *. split_and!; auto.
  - intros H. by apply He.
  - intros Hf. destruct e as [e|]; [|done]. destruct He as (_ & j & Hj); [done|]. by rewrite Hf in Hj.
Qed.
