(* ===== verification/ProxyServer.v ===== *)
(** * The OTA proxy server

    Models [src/src/ota_proxy/server_app.py]: the ASGI application between
    uvicorn and [OTACache], with the messages it sends for every request, the
    error answers, the bound on concurrent requests and the lifespan
    protocol; [process_raw_url] of [src/src/ota_proxy/utils.py]; [__init__],
    [start] and [close] of [OTACache]; and the mount of the external cache
    ([src/src/ota_proxy/external_cache.py]).

    A coroutine is the sequence of its effects; the requests that are served
    at the same time are interleaved at the end of the file.  The exception
    classes of aiohttp and what the remote answers are parameters. *)

From stdpp Require Import base list option strings gmap sets pretty.
From Stdlib Require Import ZArith String Ascii Lia Strings.Byte.
From S2P Require Import Prelude TextLines CacheControlHeader Errors CacheIndex CacheStreaming FileSystem CmdHelper OTACache ProxyPools.

(** ** Texts and bytes *)

Definition byte_of (n : N) : byte := default x00 (Byte.of_N n).

(** UTF-8 of the code points below 256. *)
Definition utf8_char (a : ascii) : bytes :=
  let n := N_of_ascii a in
  if (n <? 128)%N then [byte_of n] else [byte_of (192 + n / 64); byte_of (128 + n mod 64)]%N.

Fixpoint utf8 (s : string) : bytes :=
  match s with
  | EmptyString => []
  | String a s => utf8_char a ++ utf8 s
  end.

(** [bytes.strip]: the ASCII white space only. *)
Definition is_bspace (a : ascii) : bool :=
  let n := N_of_ascii a in ((9 <=? n) && (n <=? 13) || (n =? 32))%N.
Definition bstrip (s : string) : string := rstrip_by is_bspace (lstrip_by is_bspace s).
Definition is_ascii (a : ascii) : bool := (N_of_ascii a <? 128)%N.

(** [urllib.parse.quote] with its default [safe] characters. *)
Definition is_unreserved (a : ascii) : bool :=
  let n := N_of_ascii a in
  ((48 <=? n) && (n <=? 57) || (65 <=? n) && (n <=? 90) || (97 <=? n) && (n <=? 122)
   || (n =? 95) || (n =? 46) || (n =? 45) || (n =? 126) || (n =? 47))%N.

Definition upper_hex (n : N) : ascii := ascii_of_N (if (n <? 10)%N then 48 + n else 55 + n)%N.

Definition quote_byte (b : byte) : string :=
  let a := ascii_of_byte b in
  let n := N_of_ascii a in
  if is_unreserved a then String a EmptyString
  else String "%" (String (upper_hex (n / 16)) (String (upper_hex (n mod 16)) EmptyString)).

Definition quote_bytes (l : bytes) : string := foldr (fun b s => quote_byte b +:+ s)%string EmptyString l.
Definition quote (s : string) : string := quote_bytes (utf8 s).

(** What a server reads from a quoted path. *)
Definition hex_value (a : ascii) : option N :=
  let n := N_of_ascii a in
  if ((48 <=? n) && (n <=? 57))%N then Some (n - 48)%N
  else if ((65 <=? n) && (n <=? 70))%N then Some (n - 55)%N
  else if ((97 <=? n) && (n <=? 102))%N then Some (n - 87)%N else None.

Fixpoint unquote (s : string) : bytes :=
  match s with
  | EmptyString => []
  | String a s' =>
      if Ascii.eqb a "%" then
        match s' with
        | String x (String y s'') =>
            match hex_value x, hex_value y with
            | Some x, Some y => byte_of (16 * x + y) :: unquote s''
            | _, _ => byte_of 37 :: unquote s'
            end
        | _ => byte_of 37 :: unquote s'
        end
      else byte_of (N_of_ascii a) :: unquote s'
  end.

(** ** [process_raw_url]

    The parts handed to [yarl.URL] and its [with_path]. *)
Record remote_url : Type := mkRemoteUrl { ru_scheme : string; ru_netloc : string; ru_path : string }.

Definition value_error_substring : pyexn := PyExn XValueError [AStr "substring not found"] None None.

Definition process_raw_url (raw_url : string) (enable_https : bool) : result pyexn remote_url :=
  match str_find "://" raw_url with
  | None => Raise value_error_substring
  | Some i =>
      let rest := str_drop (i + 3) raw_url in
      let slash := default (String.length rest) (str_find "/" rest) in
      Ok (mkRemoteUrl (if enable_https then "https" else "http") (str_take slash rest)
            (quote (str_drop slash rest)))
  end.

(** ** Headers *)

Definition HEADER_AUTHORIZATION : string := "authorization".
Definition HEADER_COOKIE : string := "cookie".
Definition HEADER_CONTENT_TYPE : string := "content-type".

Abbreviation raw_headers := (list (string * string)).

(** [parse_raw_headers]: the names are lower case, a later header replaces an
    earlier one.  Header values are ASCII texts, on which decoding and
    encoding do nothing. *)
Definition parse_raw_header (headers : pydict string) (h : string * string) : pydict string :=
  let '(bname, bvalue) := h in
  if String.eqb bname HEADER_AUTHORIZATION then dict_set HEADER_AUTHORIZATION (bstrip bvalue) headers
  else if String.eqb bname HEADER_COOKIE then dict_set HEADER_COOKIE (bstrip bvalue) headers
  else if String.eqb bname HEADER_LOWERCASE then dict_set HEADER_LOWERCASE bvalue headers
  else if String.eqb bname HEADER_RANGE then dict_set HEADER_RANGE (bstrip bvalue) headers
  else headers.

Definition parse_raw_headers (hs : raw_headers) : pydict string := foldl parse_raw_header [] hs.

Definition encode_header (name : string) (headers : pydict string) : raw_headers :=
  match dict_get name headers with
  | Some v => if str_truthy v then [(name, v)] else []
  | None => []
  end.

Definition encode_headers (headers : pydict string) : raw_headers :=
  encode_header HEADER_CONTENT_ENCODING headers ++ encode_header HEADER_CONTENT_TYPE headers ++
  encode_header HEADER_LOWERCASE headers ++ encode_header HEADER_CONTENT_RANGE headers.

(** ** Messages and the application *)

Inductive asgi_msg : Type :=
| RespStart (status : Z) (headers : raw_headers)
| RespBody (body : bytes) (more_body : bool)
| Lifespan (type : string).

Record Scope : Type := mkScope {
  sc_type : string;
  sc_method : string;
  sc_path : string;
  sc_headers : raw_headers;
  sc_server : option (string * Z);
  sc_scheme : option string;
}.

(** [app_sent]: the messages of the request that is handled, oldest first. *)
Record App : Type := mkApp {
  app_closed : bool;
  app_cache : OTACache;
  app_se : Semaphore;
  app_sent : list asgi_msg;
}.

#[export] Instance eta_App : Eta App := fun r =>
  mkApp (app_closed r) (app_cache r) (app_se r) (app_sent r).

Definition MAX_CONCURRENT_REQUESTS : nat := 1024.

Definition new_app (c : OTACache) (max_concurrent_requests : nat) : App :=
  mkApp true c (new_semaphore max_concurrent_requests) [].

(** [except Exception]: what is left of the classes that derive from
    [BaseException] only. *)
Definition caught (e : pyexn) : bool :=
  is_exception e &&
  match exn_cls e with
  | XOther n => negb (bool_decide (n ∈ ["CancelledError"; "GeneratorExit"; "KeyboardInterrupt"]%string))
  | _ => true
  end.

Definition is_class (names : list string) (e : pyexn) : bool :=
  match exn_cls e with XOther n => bool_decide (n ∈ names) | _ => false end.

Definition is_ota_cache_error : pyexn -> bool :=
  is_class ["BaseOTACacheError"; "CacheStreamingFailed"; "StorageReachHardLimit";
            "CacheStreamingInterrupt"; "StopAsyncIteration"]%string.
Definition is_busy_error : pyexn -> bool := is_class ["ReaderPoolBusy"; "CacheProviderNotReady"]%string.

Definition OK : Z := 200.
Definition PARTIAL_CONTENT : Z := 206.
Definition BAD_REQUEST : Z := 400.
Definition TOO_MANY_REQUESTS : Z := 429.
Definition INTERNAL_SERVER_ERROR : Z := 500.
Definition BAD_GATEWAY : Z := 502.
Definition SERVICE_UNAVAILABLE : Z := 503.

(** The exception classes of aiohttp; [exc_status] is the attribute of a
    [ClientResponseError]. *)
Class AioHttp : Type := {
  is_client_error : pyexn -> bool;
  is_response_error : pyexn -> bool;
  is_connection_error : pyexn -> bool;
  exc_status : pyexn -> Z;
}.

Section Server.
Context `{AH : !AioHttp}.
(** What [OTACache.retrieve_file] does and returns; the exception of the
    server's [send], given what was sent before. *)
Context (retrieve : string -> pydict string -> PyM OTACache pyexn (option (file_body * pydict string))).
Context (send_error : list asgi_msg -> asgi_msg -> option pyexn).

Abbreviation AM := (PyM App pyexn).

Definition send (m : asgi_msg) : AM unit :=
  a ← get;
  match send_error (app_sent a) m with
  | Some e => raise e
  | None => modify (fun a => a <| app_sent := app_sent a ++ [m] |>)
  end.

Definition on_cache {A} (m : PyM OTACache pyexn A) : AM A := fun a =>
  let '(c, r) := m (app_cache a) in (a <| app_cache := c |>, r).

Definition respond_with_error (status : Z) (msg : string) : AM unit :=
  _ ← send (RespStart status [("content-type", "text/html;charset=UTF-8")]%string);
  send (RespBody (utf8 msg) false).

Definition stream_send_chunk (data : bytes) : AM unit := send (RespBody data true).
Definition send_chunk_one (data : bytes) : AM unit := send (RespBody data false).
Definition init_response (status : Z) (headers : raw_headers) : AM unit := send (RespStart status headers).

(** [_error_handling_for_cache_retrieving]: the answer to an exception. *)
Definition error_answer (e : pyexn) : Z * string :=
  if is_busy_error e then (SERVICE_UNAVAILABLE, "otaproxy internal busy"%string)
  else if is_response_error e
  then (exc_status e, "HTTP status from remote: " +:+ pretty (exc_status e))%string
  else if is_connection_error e then (BAD_GATEWAY, "Failed to connect to remote"%string)
  else if is_client_error e then (SERVICE_UNAVAILABLE, "HTTP client error"%string)
  else if is_ota_cache_error e then (INTERNAL_SERVER_ERROR, "otaproxy internal error"%string)
  else (INTERNAL_SERVER_ERROR, "unhandled internal server error"%string).

Definition error_handling_for_cache_retrieving (e : pyexn) : AM unit :=
  respond_with_error (fst (error_answer e)) (snd (error_answer e)).

(** [_error_handling_during_transferring]: both branches send the same. *)
Definition error_handling_during_transferring (e : pyexn) : AM unit :=
  if is_ota_cache_error e then send_chunk_one [] else send_chunk_one [].

(** [async for chunk in fp]: sending, until the stream ends or raises. *)
Fixpoint send_stream (chunks : list bytes) (ends : option pyexn) : AM unit :=
  match chunks with
  | [] => match ends with Some e => raise e | None => mret tt end
  | c :: cs => _ ← stream_send_chunk c; send_stream cs ends
  end.

Definition send_body (fp : file_body) : AM unit :=
  match fp with
  | FBytes data => send_chunk_one data
  | FStream (chunks, ends) => _ ← send_stream chunks ends; send_chunk_one []
  end.

Definition except_exception {A} (m : AM A) (h : pyexn -> AM A) : AM A :=
  try_except m (fun e => if caught e then h e else raise e).

Definition pull_data_and_send (url : string) (sc : Scope) : AM unit :=
  let headers_from_client := parse_raw_headers (sc_headers sc) in
  retrieved ← except_exception (r ← on_cache (retrieve url headers_from_client); mret (Some r))
    (fun e => _ ← error_handling_for_cache_retrieving e; mret None);
  match retrieved with
  | None => mret tt
  | Some None =>
      respond_with_error INTERNAL_SERVER_ERROR
        ("failed to retrieve fd for " +:+ url +:+ " from ota cache")%string
  | Some (Some (fp, headers_to_client)) =>
      let status := if dict_mem HEADER_CONTENT_RANGE headers_to_client then PARTIAL_CONTENT else OK in
      _ ← init_response status (encode_headers headers_to_client);
      except_exception (send_body fp) error_handling_during_transferring
  end.

Definition METHOD_GET : string := "GET".

Inductive checked : Type :=
| Refuse (status : Z) (msg : string)
| CheckRaised (e : pyexn)
| Accept (url : string).

Definition unicode_decode_error : pyexn := PyExn (XOther "UnicodeDecodeError") [] None None.

(** [http_handler] up to the semaphore. *)
Definition http_check (sc : Scope) : checked :=
  if negb (String.eqb (sc_method sc) METHOD_GET) then Refuse BAD_REQUEST "ONLY SUPPORT GET METHOD."
  else
    match dict_get "host" (sc_headers sc) with
    | None => Refuse BAD_REQUEST "missing `host` header"
    | Some host =>
        if negb (str_forallb is_ascii host) then CheckRaised unicode_decode_error
        else if startswith "/" (sc_path sc) then
          let own := match sc_server sc with
                     | Some (h, p) => String.eqb host (h +:+ ":" +:+ pretty p)%string
                     | None => false
                     end in
          if own then Refuse BAD_REQUEST "We are not HTTP server but a proxy server."
          else Accept (default "http" (sc_scheme sc) +:+ "://" +:+ host +:+ sc_path sc)%string
        else Accept (sc_path sc)
    end.

(** [if self._se.locked(): ...; await self._se.acquire()]: no [await]
    suspends between the two. *)
Definition admit_request (se : Semaphore) : option Semaphore :=
  if se_locked se then None else Some (se_acquire se).

Definition http_handler (sc : Scope) : AM unit :=
  match http_check sc with
  | Refuse status msg => respond_with_error status msg
  | CheckRaised e => raise e
  | Accept url =>
      a ← get;
      match admit_request (app_se a) with
      | None => respond_with_error TOO_MANY_REQUESTS EmptyString
      | Some se =>
          _ ← modify (fun a => a <| app_se := se |>);
          try_finally (pull_data_and_send url sc)
            (modify (fun a => a <| app_se := se_release (app_se a) |>))
      end
  end.

(** *** The lifespan protocol *)

(** [OTACache.start] and [OTACache.close]. *)
Context (cache_start cache_close : PyM OTACache pyexn unit).

Definition app_start : AM unit :=
  a ← get;
  if app_closed a then _ ← modify (fun a => a <| app_closed := false |>); on_cache cache_start
  else mret tt.

Definition app_stop : AM unit :=
  a ← get;
  if negb (app_closed a) then _ ← modify (fun a => a <| app_closed := true |>); on_cache cache_close
  else mret tt.

(** The loop of [__call__] over the messages received; without another one
    it waits. *)
Fixpoint lifespan (received : list string) : AM unit :=
  match received with
  | [] => mret tt
  | t :: received =>
      if String.eqb t "lifespan.startup" then
        _ ← app_start; _ ← send (Lifespan "lifespan.startup.complete"); lifespan received
      else if String.eqb t "lifespan.shutdown" then
        _ ← app_stop; send (Lifespan "lifespan.shutdown.complete")
      else lifespan received
  end.

Definition app_call (sc : Scope) (received : list string) : AM unit :=
  if String.eqb (sc_type sc) "lifespan" then lifespan received
  else if String.eqb (sc_type sc) "http" then http_handler sc
  else mret tt.
End Server.

(** ** The URL sent on *)

Lemma unquote_app_byte b s :
  unquote (quote_byte b +:+ s)%string = b :: unquote s.
Proof. destruct b; reflexivity. Qed.

Lemma unquote_quote_bytes l : unquote (quote_bytes l) = l.
Proof. induction l as [|b l IH]; [done|]. cbn [quote_bytes foldr]. rewrite unquote_app_byte. f_equal. exact IH. Qed.

Lemma str_find_here sub s : startswith sub s = true -> str_find sub s = Some 0%nat.
Proof. intros H. by destruct s; cbn [str_find]; rewrite H. Qed.

Lemma str_find_app_no (c : ascii) s t r :
  no_char c s = true -> str_find (String c r) t = Some 0%nat ->
  str_find (String c r) (s +:+ t)%string = Some (String.length s).
Proof.
  intros Hs Ht. induction s as [|a s IH]; [exact Ht|].
  unfold no_char in *. cbn in Hs. apply andb_true_iff in Hs as [Ha Hs].
  apply negb_true_iff, Ascii.eqb_neq in Ha.
  change (String a s +:+ t)%string with (String a (s +:+ t))%string. cbn.
  rewrite (proj2 (Ascii.eqb_neq c a)) by congruence. cbn. by rewrite IH.
Qed.

Lemma process_raw_url_split scheme host path https :
  no_char ":" scheme = true -> no_char "/" host = true -> startswith "/" path = true ->
  process_raw_url (scheme +:+ "://" +:+ host +:+ path)%string https =
    Ok (mkRemoteUrl (if https then "https" else "http") host (quote path)).
Proof.
  intros Hs Hh Hp. unfold process_raw_url.
  rewrite (str_find_app_no ":" scheme _ "//") by done.
  replace (String.length scheme + 3)%nat with (String.length (scheme +:+ "://")) by (by rewrite length_str_app).
  rewrite <-str_app_assoc, str_drop_app.
  assert (Hf : str_find "/" (host +:+ path)%string = Some (String.length host)).
  { apply str_find_app_no; [done|by apply str_find_here]. }
  rewrite Hf. change (default _ (Some ?n)) with n. by rewrite str_take_app, str_drop_app.
Qed.

(** A proxied request reaches the server it names: for a request whose
    URL httptools stripped to its path, the URL that the proxy sends on is
    the one of the [host] header, with the scheme the proxy is configured
    for, and a path from which the server reads back exactly the bytes of the
    requested path. *)
Theorem proxied_url_kept sc host url https :
  startswith "/" (sc_path sc) = true ->
  dict_get "host" (sc_headers sc) = Some host -> no_char "/" host = true ->
  (forall s, sc_scheme sc = Some s -> no_char ":" s = true) ->
  http_check sc = Accept url ->
  exists u, process_raw_url url https = Ok u /\
    ru_scheme u = (if https then "https" else "http")%string /\ ru_netloc u = host /\
    unquote (ru_path u) = utf8 (sc_path sc).
Proof.
  intros Hp Hh Hno Hsch. unfold http_check. destruct (negb _); [done|]. rewrite Hh.
  destruct (negb _); [done|]. rewrite Hp.
  destruct (match sc_server sc with Some _ => _ | None => _ end); [done|]. intros [= <-].
  assert (Hs : no_char ":" (default "http" (sc_scheme sc)) = true).
  { destruct (sc_scheme sc) as [s|]; [by apply Hsch|done]. }
  eexists. split; [by apply process_raw_url_split|]. cbn. split_and!; [done..|].
  apply unquote_quote_bytes.
Qed.

Definition never_fails : list asgi_msg -> asgi_msg -> option pyexn := fun _ _ => None.

(** ** The messages of a request

    The HTTP part of the ASGI protocol: one start, then body parts, of which
    exactly the last says that there is no more. *)

Inductive resp_phase : Type := NotStarted | Streaming | Complete.

Definition asgi_next (p : option resp_phase) (m : asgi_msg) : option resp_phase :=
  match p, m with
  | Some NotStarted, RespStart _ _ => Some Streaming
  | Some Streaming, RespBody _ more => Some (if more then Streaming else Complete)
  | _, _ => None
  end.

Definition asgi_run (l : list asgi_msg) : option resp_phase := foldl asgi_next (Some NotStarted) l.

Section Protocol.
Context `{AH : !AioHttp}.
Context (retrieve : string -> pydict string -> PyM OTACache pyexn (option (file_body * pydict string))).
Context (send_error : list asgi_msg -> asgi_msg -> option pyexn).
Abbreviation AM := (PyM App pyexn).

(** From phase [p], the messages sent by [m] follow the protocol, up to a
    phase that fits the result of [m]. *)
Definition speaks {A} (p : resp_phase) (m : AM A) (post : result pyexn A -> resp_phase -> Prop) : Prop :=
  forall a, asgi_run (app_sent a) = Some p ->
    let '(a', r) := m a in exists p', asgi_run (app_sent a') = Some p' /\ post r p'.

Lemma speaks_weaken {A} p (m : AM A) (post post' : result pyexn A -> resp_phase -> Prop) :
  speaks p m post -> (forall r q, post r q -> post' r q) -> speaks p m post'.
Proof. intros H Hp a Ha. specialize (H a Ha). destruct (m a) as [a' r]. naive_solver. Qed.

Lemma speaks_ret {A} p (x : A) (post : result pyexn A -> resp_phase -> Prop) :
  post (Ok x) p -> speaks p (mret x) post.
Proof. intros H a Ha. by exists p. Qed.

Lemma speaks_raise {A} p e (post : result pyexn A -> resp_phase -> Prop) :
  post (Raise e) p -> speaks p (raise e) post.
Proof. intros H a Ha. by exists p. Qed.

Lemma speaks_bind {A B} p (m : AM A) (k : A -> AM B) (mid : A -> resp_phase -> Prop)
    (post : result pyexn B -> resp_phase -> Prop) :
  speaks p m (fun r q => match r with Ok x => mid x q | Raise e => post (Raise e) q end) ->
  (forall x q, mid x q -> speaks q (k x) post) -> speaks p (m ≫= k) post.
Proof.
  intros Hm Hk a Ha. unfold mbind, pym_bind. specialize (Hm a Ha). destruct (m a) as [a1 [x|e]].
  - destruct Hm as (q & Hq & Hx). by apply (Hk x q Hx a1).
  - exact Hm.
Qed.

Lemma speaks_except {A} p (m : AM A) (h : pyexn -> AM A) (mid post : result pyexn A -> resp_phase -> Prop) :
  speaks p m mid ->
  (forall x q, mid (Ok x) q -> post (Ok x) q) ->
  (forall e q, mid (Raise e) q -> caught e = false -> post (Raise e) q) ->
  (forall e q, mid (Raise e) q -> caught e = true -> speaks q (h e) post) ->
  speaks p (except_exception m h) post.
Proof.
  intros Hm Hok Hno Hh a Ha. unfold except_exception, try_except. specialize (Hm a Ha).
  destruct (m a) as [a1 [x|e]]; destruct Hm as (q & Hq & Hx); [by exists q; eauto|].
  destruct (caught e) eqn:Hc; [by apply (Hh e q Hx Hc a1)|]. exists q. eauto.
Qed.

Lemma speaks_send p m q :
  asgi_next (Some p) m = Some q ->
  speaks p (send send_error m) (fun r p' => match r with Ok _ => p' = q | Raise _ => p' = p end).
Proof.
  intros Hn a Ha. unfold send, mbind, pym_bind, get. destruct (send_error _ _) as [e|].
  - by exists p.
  - exists q. split; [|done]. cbn. unfold asgi_run in *. by rewrite foldl_app, Ha.
Qed.

Lemma speaks_on_cache {A} p (m : PyM OTACache pyexn A) :
  speaks p (on_cache m) (fun _ q => q = p).
Proof. intros a Ha. unfold on_cache. destruct (m (app_cache a)) as [c r]. by exists p. Qed.

(** A request answered as a whole; an exception leaves it unfinished. *)
Definition answered (r : result pyexn unit) (p : resp_phase) : Prop :=
  match r with Ok _ => p = Complete | Raise _ => p <> Complete end.

Lemma respond_with_error_speaks status msg :
  speaks NotStarted (respond_with_error send_error status msg) answered.
Proof.
  eapply (speaks_bind _ _ _ (fun _ q => q = Streaming)).
  - eapply speaks_weaken; [by apply speaks_send|]. intros [] q; [done|by intros ->].
  - intros _ q ->. eapply speaks_weaken; [by apply (speaks_send Streaming _ Complete)|].
    intros [] q; [done|by intros ->].
Qed.

Lemma send_chunk_one_speaks data :
  speaks Streaming (send_chunk_one send_error data)
    (fun r p => match r with Ok _ => p = Complete | Raise _ => p = Streaming end).
Proof. eapply speaks_weaken; [by apply (speaks_send Streaming _ Complete)|]. by intros [] q. Qed.

Lemma send_stream_speaks chunks ends :
  speaks Streaming (send_stream send_error chunks ends) (fun _ p => p = Streaming).
Proof.
  induction chunks as [|c cs IH]; cbn.
  - destruct ends; [by apply speaks_raise|by apply speaks_ret].
  - eapply (speaks_bind _ _ _ (fun _ q => q = Streaming)).
    + eapply speaks_weaken; [by apply (speaks_send Streaming _ Streaming)|]. by intros [] q.
    + by intros _ q ->.
Qed.

Lemma send_body_speaks fp :
  speaks Streaming (send_body send_error fp)
    (fun r p => match r with Ok _ => p = Complete | Raise _ => p = Streaming end).
Proof.
  destruct fp as [d|[ds e]]; [apply send_chunk_one_speaks|].
  eapply (speaks_bind _ _ _ (fun _ q => q = Streaming)).
  - eapply speaks_weaken; [apply send_stream_speaks|]. by intros [] q.
  - intros _ q ->. apply send_chunk_one_speaks.
Qed.

Lemma pull_data_and_send_speaks url sc :
  speaks NotStarted (pull_data_and_send retrieve send_error url sc) answered.
Proof.
  eapply (speaks_bind _ _ _ (fun x q => match x with Some _ => q = NotStarted | None => q = Complete end)).
  - eapply speaks_except with (mid := fun r q => q = NotStarted /\ r <> Ok None).
    + eapply (speaks_bind _ _ _ (fun _ q => q = NotStarted)).
      * eapply speaks_weaken; [apply speaks_on_cache|]. intros [] q ->; by cbn.
      * intros x q ->. by apply speaks_ret.
    + intros [x|] q [-> Hx]; [done|]. by destruct Hx.
    + by intros e q [-> _] _.
    + intros e q [-> _] _. eapply (speaks_bind _ _ _ (fun _ q => q = Complete)).
      * eapply speaks_weaken; [apply respond_with_error_speaks|]. by intros [] q.
      * intros _ q ->. by apply speaks_ret.
  - intros [[[fp hs]|]|] q ->; [| |by apply speaks_ret].
    + eapply (speaks_bind _ _ _ (fun _ q => q = Streaming)).
      * eapply speaks_weaken; [by apply (speaks_send NotStarted _ Streaming)|]. intros [] q; [done|by intros ->].
      * intros _ q ->. eapply speaks_except; [apply send_body_speaks|done|by intros e q ->|].
        intros e q -> _. unfold error_handling_during_transferring.
        destruct (is_ota_cache_error e); (eapply speaks_weaken; [apply send_chunk_one_speaks|]);
          (intros [] q; [done|by intros ->]).
    + apply respond_with_error_speaks.
Qed.

Lemma speaks_finally_release {A} p (m : AM A) post :
  speaks p m post ->
  speaks p (try_finally m (modify (fun a => a <| app_se := se_release (app_se a) |>))) post.
Proof.
  intros H a Ha. specialize (H a Ha). unfold try_finally. destruct (m a) as [a1 r]. exact H.
Qed.

(** Every request that the proxy handles is answered by the rules of
    ASGI, whatever the cache returns or raises and whichever [send] fails:
    one start, then body parts, and nothing after the one that is marked as
    the last.  The handler returns only when that last part was sent, so no
    client is left waiting by a handler that finished. *)
Theorem every_request_answered sc a a' r :
  app_sent a = [] -> http_handler retrieve send_error sc a = (a', r) ->
  exists p, asgi_run (app_sent a') = Some p /\ (r = Ok tt <-> p = Complete).
Proof.
  intros Ha Hr.
  assert (H : speaks NotStarted (http_handler retrieve send_error sc) answered).
  { unfold http_handler. destruct (http_check sc); [apply respond_with_error_speaks|by apply speaks_raise|].
    intros s Hs. unfold mbind, pym_bind, get. destruct (admit_request (app_se s)); [|by apply respond_with_error_speaks].
    cbn [modify].
    by apply (speaks_finally_release _ _ _ (pull_data_and_send_speaks url sc) (s <| app_se := s0 |>)). }
  specialize (H a). rewrite Ha, Hr in H. destruct H as (p & Hp & Hans); [done|]. exists p. split; [done|].
  destruct r as [[]|e]; cbn in Hans; [by rewrite Hans|]. by split.
Qed.
End Protocol.

(** ** The answer that the client reads *)

Record response : Type := mkResponse { rs_status : Z; rs_headers : raw_headers; rs_body : bytes }.

Fixpoint read_body (l : list asgi_msg) : option bytes :=
  match l with
  | [RespBody b false] => Some b
  | RespBody b true :: l => app b <$> read_body l
  | _ => None
  end.

(** [None]: no complete response. *)
Definition read_response (l : list asgi_msg) : option response :=
  match l with
  | RespStart status headers :: l => mkResponse status headers <$> read_body l
  | _ => None
  end.

Definition error_response `{!AioHttp} (status : Z) (msg : string) : response :=
  mkResponse status [("content-type", "text/html;charset=UTF-8")]%string (utf8 msg).

(** The answer when nothing fails, as a function of what the cache returned. *)
Definition proxy_answer `{!AioHttp} (url : string)
    (r : result pyexn (option (file_body * pydict string))) : response :=
  match r with
  | Ok (Some (fp, headers)) =>
      mkResponse (if dict_mem HEADER_CONTENT_RANGE headers then PARTIAL_CONTENT else OK)
        (encode_headers headers) (body_bytes fp)
  | Ok None =>
      error_response INTERNAL_SERVER_ERROR ("failed to retrieve fd for " +:+ url +:+ " from ota cache")
  | Raise e => error_response (fst (error_answer e)) (snd (error_answer e))
  end.

(** ** What the proxy promises

    The abstract specification of an answer, as a relation with the statuses,
    messages and names written out. *)

(** The rows are tried in order: what the exception is, the status and the text. *)
Definition error_table `{!AioHttp} (e : pyexn) : list (Prop * Z * string) :=
  [(exn_cls e = XOther "ReaderPoolBusy" \/ exn_cls e = XOther "CacheProviderNotReady", 503, "otaproxy internal busy");
   (is_response_error e = true, exc_status e, "HTTP status from remote: " +:+ pretty (exc_status e));
   (is_connection_error e = true, 502, "Failed to connect to remote");
   (is_client_error e = true, 503, "HTTP client error");
   (exn_cls e ∈ map XOther ["BaseOTACacheError"; "CacheStreamingFailed"; "StorageReachHardLimit"; "CacheStreamingInterrupt";
                            "StopAsyncIteration"], 500, "otaproxy internal error");
   (True, 500, "unhandled internal server error")]%string.

(** The first row that applies. *)
Inductive first_row {A} : list (Prop * A * string) -> A -> string -> Prop :=
| FR_here (P : Prop) x msg l : P -> first_row ((P, x, msg) :: l) x msg
| FR_later (P : Prop) y m l x msg : ~ P -> first_row l x msg -> first_row ((P, y, m) :: l) x msg.

(** The headers that reach the client: of these four, each once, those that
    the cache's answer has with a value. *)
Definition headers_sent (headers : pydict string) (raw : raw_headers) : Prop :=
  NoDup (map fst raw) /\
  forall n v, (n, v) ∈ raw <->
    n ∈ ["content-encoding"; "content-type"; "ota-file-cache-control"; "content-range"]%string /\
    dict_get n headers = Some v /\ v <> EmptyString.

Definition error_page (status : Z) (msg : string) : response :=
  mkResponse status [("content-type", "text/html;charset=UTF-8")]%string (utf8 msg).

Inductive proxy_answers `{!AioHttp} (url : string) : result pyexn (option (file_body * pydict string)) -> response -> Prop :=
| PA_range fp headers raw v : dict_get "content-range" headers = Some v -> headers_sent headers raw ->
    proxy_answers url (Ok (Some (fp, headers))) (mkResponse 206 raw (body_bytes fp))
| PA_whole fp headers raw : dict_get "content-range" headers = None -> headers_sent headers raw ->
    proxy_answers url (Ok (Some (fp, headers))) (mkResponse 200 raw (body_bytes fp))
| PA_nothing :
    proxy_answers url (Ok None) (error_page 500 ("failed to retrieve fd for " +:+ url +:+ " from ota cache")%string)
| PA_error e status msg : first_row (error_table e) status msg -> proxy_answers url (Raise e) (error_page status msg).

Lemma is_class_spec names e : is_class names e = true <-> exn_cls e ∈ map XOther names.
Proof.
  unfold is_class. rewrite list_elem_of_fmap. destruct (exn_cls e) as [| | | | | | |n];
    try (split; [done|by intros (y & [=] & _)]).
  all: try (rewrite bool_decide_eq_true; split; [by eexists|by intros (y & [= ->] & ?)]).
Qed.

Lemma error_answer_table `{!AioHttp} e : first_row (error_table e) (fst (error_answer e)) (snd (error_answer e)).
Proof.
  unfold error_answer, error_table, SERVICE_UNAVAILABLE, BAD_GATEWAY, INTERNAL_SERVER_ERROR.
  assert (Hbusy : is_busy_error e = true <-> exn_cls e = XOther "ReaderPoolBusy" \/ exn_cls e = XOther "CacheProviderNotReady").
  { unfold is_busy_error. rewrite is_class_spec. cbn. rewrite !elem_of_cons, elem_of_nil. tauto. }
  destruct (is_busy_error e) eqn:E1; [apply FR_here; by apply Hbusy|apply FR_later; [by intros ?%Hbusy|]].
  destruct (is_response_error e) eqn:E2; [by apply FR_here|apply FR_later; [done|]].
  destruct (is_connection_error e) eqn:E3; [by apply FR_here|apply FR_later; [done|]].
  destruct (is_client_error e) eqn:E4; [by apply FR_here|apply FR_later; [done|]].
  destruct (is_ota_cache_error e) eqn:E5.
  - apply FR_here. by apply is_class_spec.
  - apply FR_later; [|by apply FR_here]. intros Hx%is_class_spec. unfold is_ota_cache_error in E5. congruence.
Qed.

Lemma encode_header_elem name headers n v :
  (n, v) ∈ encode_header name headers <-> n = name /\ dict_get n headers = Some v /\ v <> EmptyString.
Proof.
  unfold encode_header. destruct (dict_get name headers) as [u|] eqn:E.
  - assert (Hu : str_truthy u = true <-> u <> EmptyString) by (by destruct u).
    destruct (str_truthy u); split.
    + rewrite list_elem_of_singleton. intros [= -> ->]. split_and!; [done|done|by apply Hu].
    + intros (-> & Hv & Hne). rewrite E in Hv. injection Hv as ->. by left.
    + by rewrite elem_of_nil.
    + intros (-> & Hv & Hne). rewrite E in Hv. injection Hv as ->. apply Hu in Hne. done.
  - split; [by rewrite elem_of_nil|]. intros (-> & Hv & _). congruence.
Qed.

Lemma encode_header_names name headers : map fst (encode_header name headers) = [] \/ map fst (encode_header name headers) = [name].
Proof. unfold encode_header. destruct (dict_get name headers) as [u|]; [destruct (str_truthy u)|]; auto. Qed.

Lemma encode_headers_sent headers : headers_sent headers (encode_headers headers).
Proof.
  split.
  - unfold encode_headers. rewrite !map_app.
    destruct (encode_header_names HEADER_CONTENT_ENCODING headers) as [-> | ->], (encode_header_names HEADER_CONTENT_TYPE headers) as [-> | ->],
      (encode_header_names HEADER_LOWERCASE headers) as [-> | ->], (encode_header_names HEADER_CONTENT_RANGE headers) as [-> | ->];
      apply (bool_decide_unpack (NoDup _)); vm_compute; exact I.
  - intros n v. unfold encode_headers. rewrite !elem_of_app, !encode_header_elem, !elem_of_cons, elem_of_nil.
    unfold HEADER_CONTENT_ENCODING, HEADER_CONTENT_TYPE, HEADER_LOWERCASE, HEADER_CONTENT_RANGE. tauto.
Qed.

Lemma proxy_answer_allowed `{!AioHttp} url r : proxy_answers url r (proxy_answer url r).
Proof.
  destruct r as [[[fp headers]|]|e]; cbn.
  - unfold dict_mem. change HEADER_CONTENT_RANGE with "content-range"%string.
    destruct (dict_get "content-range" headers) as [v|] eqn:E.
    + eapply PA_range; [exact E|apply encode_headers_sent].
    + apply PA_whole; [exact E|apply encode_headers_sent].
  - apply PA_nothing.
  - apply PA_error, error_answer_table.
Qed.

(** What is in the body parts among the messages. *)
Definition payload (l : list asgi_msg) : bytes :=
  List.concat (map (fun m => match m with RespBody b _ => b | _ => [] end) l).

(** Nothing was sent, or the start of the answer and a beginning of its body. *)
Definition partly_sent (resp : response) (l : list asgi_msg) : Prop :=
  l = [] \/ exists rest, l = RespStart (rs_status resp) (rs_headers resp) :: rest /\ payload rest `prefix_of` rs_body resp.

Section Faulty.
Context `{AH : !AioHttp}.
Context (retrieve : string -> pydict string -> PyM OTACache pyexn (option (file_body * pydict string))).
Context (send_error : list asgi_msg -> asgi_msg -> option pyexn).

(** [l] was sent, and nothing else changed. *)
Definition sent_more (a a' : App) (l : list asgi_msg) : Prop := a' = a <| app_sent := app_sent a ++ l |>.

Lemma sent_more_nil a : sent_more a a [].
Proof. unfold sent_more. cbn. rewrite app_nil_r. by destruct a. Qed.

Lemma sent_more_app a a' a'' l l' : sent_more a a' l -> sent_more a' a'' l' -> sent_more a a'' (l ++ l').
Proof. unfold sent_more. intros -> ->. cbn. by rewrite <- app_assoc. Qed.

Lemma payload_app l l' : payload (l ++ l') = payload l ++ payload l'.
Proof. unfold payload. by rewrite map_app, concat_app. Qed.

Lemma send_cases m a a' r :
  send send_error m a = (a', r) -> (r = Ok tt /\ sent_more a a' [m]) \/ ((exists e, r = Raise e) /\ sent_more a a' []).
Proof.
  unfold send, mbind, pym_bind, get. destruct (send_error (app_sent a) m) as [e|]; intros [= <- <-].
  - right. split; [by exists e|apply sent_more_nil].
  - by left.
Qed.

Lemma respond_cases status msg a a' r :
  respond_with_error send_error status msg a = (a', r) ->
  sent_more a a' [] \/ exists l, sent_more a a' (RespStart status [("content-type", "text/html;charset=UTF-8")]%string :: l) /\
    payload l `prefix_of` utf8 msg.
Proof.
  unfold respond_with_error, mbind, pym_bind.
  destruct (send send_error (RespStart _ _) a) as [a1 [[]|e]] eqn:E1; apply send_cases in E1 as [[Hr1 H1]|[[e1 Hr1] H1]]; try done.
  - intros H. apply send_cases in H as [[_ H]|[_ H]]; right; eexists; (split; [eapply (sent_more_app _ _ _ _ _ H1 H)|]).
    + unfold payload. cbn. by rewrite app_nil_r.
    + apply prefix_nil.
  - intros [= <- <-]. by left.
Qed.

Lemma send_stream_cases chunks ends a a' r :
  send_stream send_error chunks ends a = (a', r) -> exists l, sent_more a a' l /\ payload l `prefix_of` List.concat chunks /\
    (r = Ok tt -> payload l = List.concat chunks).
Proof.
  revert a. induction chunks as [|c cs IH]; intros a; cbn.
  - destruct ends; intros [= <- <-]; exists []; (split_and!; [apply sent_more_nil|done|done]).
  - unfold mbind, pym_bind, stream_send_chunk.
    destruct (send send_error (RespBody c true) a) as [a1 [[]|e]] eqn:E1; apply send_cases in E1 as [[Hr1 H1]|[[e1 Hr1] H1]]; try done.
    + intros H. apply IH in H as (l & Hl & Hp & Hw). exists ([RespBody c true] ++ l). split_and!.
      * by eapply sent_more_app.
      * rewrite payload_app. unfold payload at 1. cbn. rewrite app_nil_r. by apply prefix_app.
      * intros Hr. rewrite payload_app, (Hw Hr). unfold payload. cbn. by rewrite app_nil_r.
    + intros [= <- <-]. exists []. split_and!; [done|apply prefix_nil|done].
Qed.

Lemma send_one_cases data a a' r :
  send_chunk_one send_error data a = (a', r) -> exists l, sent_more a a' l /\ payload l `prefix_of` data.
Proof.
  intros H. apply send_cases in H as [[_ H]|[_ H]]; eexists; (split; [exact H|]); unfold payload; cbn; rewrite ?app_nil_r; [done|apply prefix_nil].
Qed.

Lemma send_body_cases fp a a' r :
  except_exception (send_body send_error fp) (error_handling_during_transferring send_error) a = (a', r) ->
  exists l, sent_more a a' l /\ payload l `prefix_of` body_bytes fp.
Proof.
  unfold except_exception, try_except. destruct (send_body send_error fp a) as [a1 r1] eqn:E.
  assert (H1 : exists l, sent_more a a1 l /\ payload l `prefix_of` body_bytes fp).
  { destruct fp as [d|[ds e]]; [by eapply send_one_cases|]. cbn in E. unfold mbind, pym_bind in E.
    destruct (send_stream send_error ds e a) as [a2 [[]|e2]] eqn:E2; apply send_stream_cases in E2 as (l & Hl & Hp & Hw).
    - apply send_one_cases in E as (l' & Hl' & Hp'). apply prefix_nil_inv in Hp'. exists (l ++ l').
      split; [by eapply sent_more_app|]. by rewrite payload_app, Hp', app_nil_r.
    - injection E as <- <-. by exists l. }
  destruct H1 as (l & Hl & Hp). destruct r1 as [[]|e]; [intros [= <- <-]; by exists l|].
  destruct (caught e); [|intros [= <- <-]; by exists l]. intros H.
  assert (Hs : send_chunk_one send_error [] a1 = (a', r)) by (revert H; unfold error_handling_during_transferring; by destruct (is_ota_cache_error e)).
  apply send_one_cases in Hs as (l' & Hl' & Hp'). apply prefix_nil_inv in Hp'. exists (l ++ l').
  split; [by eapply sent_more_app|]. by rewrite payload_app, Hp', app_nil_r.
Qed.

Lemma pull_cases url sc a a' r c res :
  retrieve url (parse_raw_headers (sc_headers sc)) (app_cache a) = (c, res) -> app_sent a = [] ->
  pull_data_and_send retrieve send_error url sc a = (a', r) ->
  app_se a' = app_se a /\ app_cache a' = c /\ partly_sent (proxy_answer url res) (app_sent a').
Proof.
  intros Hr Hs. unfold pull_data_and_send. unfold mbind at 1, pym_bind at 1.
  unfold except_exception at 1, try_except at 1, on_cache. unfold mbind at 1, pym_bind at 1. rewrite Hr.
  assert (Hdone : forall b l, sent_more (a <| app_cache := c |>) b l -> partly_sent (proxy_answer url res) l ->
    app_se b = app_se a /\ app_cache b = c /\ partly_sent (proxy_answer url res) (app_sent b)).
  { intros b l -> Hl. cbn. by rewrite Hs. }
  assert (Hpage : forall status msg b r', respond_with_error send_error status msg (a <| app_cache := c |>) = (b, r') ->
    proxy_answer url res = error_page status msg -> app_se b = app_se a /\ app_cache b = c /\ partly_sent (proxy_answer url res) (app_sent b)).
  { intros status msg b r' H He. apply respond_cases in H as [H|(l & H & Hp)]; eapply Hdone; try exact H; [by left|].
    right. exists l. by rewrite He. }
  destruct res as [[[fp hs]|]|e].
  - cbn. unfold mbind, pym_bind, init_response.
    match goal with |- context [send send_error ?m ?b] => destruct (send send_error m b) as [a1 [[]|e1]] eqn:E1 end;
      apply send_cases in E1 as [[Hr1 H1]|[[e1' Hr1] H1]]; try done.
    + intros H. apply send_body_cases in H as (l & Hl & Hp). eapply Hdone; [by eapply sent_more_app|]. right. by exists l.
    + intros [= <- <-]. eapply Hdone; [exact H1|by left].
  - cbn. intros H. by eapply Hpage.
  - cbn. destruct (caught e).
    + unfold error_handling_for_cache_retrieving, mbind, pym_bind.
      destruct (respond_with_error send_error _ _ _) as [a1 [[]|e1]] eqn:E1; intros [= <- <-]; by eapply Hpage.
    + intros [= <- <-]. eapply (Hdone _ []); [apply sent_more_nil|by left].
Qed.
End Faulty.

(** No [BaseException] ends the request. *)
Definition not_cancelled (r : result pyexn (option (file_body * pydict string))) : bool :=
  match r with
  | Ok (Some (fp, _)) => match body_error fp with Some e => caught e | None => true end
  | Ok None => true
  | Raise e => caught e
  end.

Section Answers.
Context `{AH : !AioHttp}.
Context (retrieve : string -> pydict string -> PyM OTACache pyexn (option (file_body * pydict string))).
Context (send_error : list asgi_msg -> asgi_msg -> option pyexn).


Lemma http_handler_admitted sc url a :
  http_check sc = Accept url -> se_locked (app_se a) = false ->
  http_handler retrieve send_error sc a =
    let '(a', r) := pull_data_and_send retrieve send_error url sc (a <| app_se := se_acquire (app_se a) |>) in
    (a' <| app_se := se_release (app_se a') |>, r).
Proof.
  intros Hc Hl. unfold http_handler, admit_request. rewrite Hc. unfold mbind, pym_bind, get. rewrite Hl.
  unfold try_finally, modify. by destruct (pull_data_and_send _ _ _ _ _).
Qed.

Context (Hnf : forall l m, send_error l m = None).

Lemma send_ok m a : send send_error m a = (a <| app_sent := app_sent a ++ [m] |>, Ok tt).
Proof using Hnf. unfold send, mbind, pym_bind, get. by rewrite Hnf. Qed.

Lemma respond_with_error_run status msg a :
  respond_with_error send_error status msg a =
    (a <| app_sent := app_sent a ++ [RespStart status [("content-type", "text/html;charset=UTF-8")]%string;
                                     RespBody (utf8 msg) false] |>, Ok tt).
Proof using Hnf.
  unfold respond_with_error, mbind, pym_bind. rewrite send_ok, send_ok. cbn. by rewrite <-app_assoc.
Qed.

Lemma send_stream_run chunks ends a :
  send_stream send_error chunks ends a =
    (a <| app_sent := app_sent a ++ map (fun c => RespBody c true) chunks |>,
     match ends with Some e => Raise e | None => Ok tt end).
Proof using Hnf.
  revert a. induction chunks as [|c cs IH]; intros a; cbn.
  - rewrite app_nil_r. destruct ends; by destruct a.
  - unfold mbind, pym_bind, stream_send_chunk. rewrite send_ok, IH. cbn. by rewrite <-app_assoc.
Qed.

Lemma read_body_chunks chunks : read_body (map (fun c => RespBody c true) chunks ++ [RespBody [] false])
  = Some (List.concat chunks).
Proof. induction chunks as [|c cs IH]; [done|]. cbn. by rewrite IH. Qed.

Definition body_msgs (fp : file_body) : list asgi_msg :=
  match fp with
  | FBytes d => [RespBody d false]
  | FStream (ds, _) => map (fun c => RespBody c true) ds ++ [RespBody [] false]
  end.

Lemma read_body_msgs fp : read_body (body_msgs fp) = Some (body_bytes fp).
Proof. destruct fp as [d|[ds e]]; [done|]. apply read_body_chunks. Qed.

(** A body is sent to its end even if its stream fails. *)
Lemma send_body_run fp a :
  match body_error fp with Some e => caught e | None => true end = true ->
  except_exception (send_body send_error fp) (error_handling_during_transferring send_error) a =
    (a <| app_sent := app_sent a ++ body_msgs fp |>, Ok tt).
Proof using Hnf.
  unfold except_exception, try_except. destruct fp as [d|[ds e]]; [cbn; unfold send_chunk_one; by rewrite send_ok|]. cbn.
  unfold mbind, pym_bind. rewrite send_stream_run. destruct e as [e|]; intros Hc.
  - rewrite Hc. unfold error_handling_during_transferring, send_chunk_one.
    destruct (is_ota_cache_error e); rewrite send_ok; cbn; by rewrite <-app_assoc.
  - unfold send_chunk_one. rewrite send_ok. cbn. by rewrite <-app_assoc.
Qed.

Lemma pull_data_and_send_run url sc a c r :
  retrieve url (parse_raw_headers (sc_headers sc)) (app_cache a) = (c, r) -> not_cancelled r = true ->
  exists l, pull_data_and_send retrieve send_error url sc a =
      (a <| app_cache := c |> <| app_sent := app_sent a ++ l |>, Ok tt) /\
    read_response l = Some (proxy_answer url r).
Proof using Hnf.
  intros Hr Hn. unfold pull_data_and_send. unfold mbind at 1, pym_bind at 1.
  unfold except_exception at 1, try_except at 1, on_cache. unfold mbind at 1, pym_bind at 1. rewrite Hr.
  destruct r as [[[fp hs]|]|e].
  - cbn. unfold mbind, pym_bind, init_response. rewrite send_ok.
    rewrite send_body_run by exact Hn. cbn. rewrite <-app_assoc.
    eexists. split; [reflexivity|]. cbn. by rewrite read_body_msgs.
  - cbn. rewrite respond_with_error_run. eexists. split; [reflexivity|]. done.
  - cbn in Hn. rewrite Hn. unfold error_handling_for_cache_retrieving, mbind, pym_bind.
    rewrite respond_with_error_run. eexists. split; [reflexivity|]. done.
Qed.
End Answers.

Section Refines.
Context `{AH : !AioHttp}.
Context (retrieve : string -> pydict string -> PyM OTACache pyexn (option (file_body * pydict string))).

Lemma asgi_none l : foldl asgi_next None l = None.
Proof. by induction l. Qed.

Lemma complete_body rest : foldl asgi_next (Some Streaming) rest = Some Complete -> read_body rest = Some (payload rest).
Proof.
  induction rest as [|m rest IH]; [done|]. destruct m as [| b [] |]; cbn [foldl asgi_next]; [by rewrite asgi_none| | |by rewrite asgi_none].
  - intros H. cbn. by rewrite (IH H).
  - destruct rest as [|m' rest]; [intros _; cbn; unfold payload; cbn; by rewrite app_nil_r|]. cbn. by rewrite asgi_none.
Qed.

(** C34. Whatever [send] does, failing at any message with any exception, and
    even when the request is cancelled, an accepted request gives its slot back
    and leaves the cache as [retrieve_file] did; and what was sent is a
    beginning of the answer that the specification gives for the result of
    [retrieve_file]: the status 206 exactly with a content-range, the four
    headers and the bytes of the file, or the status and the text of the error
    table.  When the handler returns, the client has read a complete response
    with that status, those headers and a beginning of that body; and when no
    [send] fails and nothing is cancelled, it does return, and the response is
    the specified one. *)
Theorem request_answer_refines send_error sc url a a' r :
  app_sent a = [] -> se_waiters (app_se a) = 0%nat -> (0 < se_value (app_se a))%nat ->
  http_check sc = Accept url -> http_handler retrieve send_error sc a = (a', r) ->
  let res := snd (retrieve url (parse_raw_headers (sc_headers sc)) (app_cache a)) in
  app_se a' = app_se a /\
  app_cache a' = fst (retrieve url (parse_raw_headers (sc_headers sc)) (app_cache a)) /\
  exists resp, proxy_answers url res resp /\ partly_sent resp (app_sent a') /\
    (r = Ok tt -> exists body, read_response (app_sent a') = Some (mkResponse (rs_status resp) (rs_headers resp) body) /\
                               body `prefix_of` rs_body resp) /\
    ((forall l m, send_error l m = None) -> not_cancelled res = true -> r = Ok tt /\ read_response (app_sent a') = Some resp).
Proof.
  intros Hs Hw Hv Hc. rewrite (http_handler_admitted _ _ _ _ _ Hc) by (unfold se_locked; rewrite Hw; by destruct (se_value (app_se a)); [lia|]).
  destruct (retrieve url _ (app_cache a)) as [c res] eqn:Hret. cbn [fst snd].
  set (a0 := a <| app_se := se_acquire (app_se a) |>).
  destruct (pull_data_and_send retrieve send_error url sc a0) as [a1 r1] eqn:E. intros [= <- <-].
  destruct (pull_cases retrieve send_error url sc a0 a1 r1 c res Hret Hs E) as (Hse & Hca & Hp).
  assert (Hrel : se_release (app_se a1) = app_se a).
  { rewrite Hse. cbn. unfold se_acquire, se_release, se_locked. destruct (app_se a) as [v w]. cbn in *. subst w.
    destruct v; [lia|]. cbn. f_equal. }
  split_and!; [exact Hrel|exact Hca|]. exists (proxy_answer url res). split_and!; [apply proxy_answer_allowed|exact Hp| |].
  - intros ->. pose proof (pull_data_and_send_speaks retrieve send_error url sc a0) as H. rewrite E in H. cbn in H. rewrite Hs in H.
    destruct (H eq_refl) as (p & Hrun & Hans). cbn in Hans. subst p.
    destruct Hp as [Hp|(rest & Hp & Hpre)]; rewrite Hp in Hrun; [done|]. exists (payload rest). split; [|done].
    cbn. rewrite Hp. cbn. by rewrite complete_body.
  - intros Hnf Hn. destruct (pull_data_and_send_run retrieve send_error Hnf url sc a0 c res Hret Hn) as (l & Hrun & Hl).
    rewrite E in Hrun. injection Hrun as -> ->. split; [done|]. cbn. rewrite Hs. exact Hl.
Qed.

(** A transfer that fails after its start ends like a complete one: the
    client reads a regular response whose body is cut, and nothing in it says
    so (the length of the file is not among the headers). *)
Theorem failed_transfer_looks_complete sc url a c ds e hs :
  app_sent a = [] -> caught e = true ->
  retrieve url (parse_raw_headers (sc_headers sc)) (app_cache a) = (c, Ok (Some (FStream (ds, Some e), hs))) ->
  let '(a', r) := pull_data_and_send retrieve never_fails url sc a in
  r = Ok tt /\ read_response (app_sent a') =
    Some (proxy_answer url (Ok (Some (FStream (ds, None), hs)))).
Proof.
  intros Hs He Hr. destruct (pull_data_and_send_run retrieve never_fails (fun _ _ => eq_refl) url sc a c _ Hr He) as (l & -> & Hl).
  cbn. rewrite Hs. split; [done|]. exact Hl.
Qed.
End Refines.

(** ** Requests served at the same time *)

Record server : Type := mkServer {
  sv_se : Semaphore;
  sv_active : list nat;               (** inside [_pull_data_and_send] *)
  sv_answered : list (nat * Z);       (** refused, with the status *)
}.

#[export] Instance eta_server : Eta server := fun s =>
  mkServer (sv_se s) (sv_active s) (sv_answered s).

(** [http_handler] of request [q] up to its first suspension. *)
Definition arrive (q : nat) (sc : Scope) (s : server) : server :=
  match http_check sc with
  | Refuse status _ => s <| sv_answered := (q, status) :: sv_answered s |>
  | CheckRaised _ => s
  | Accept _ =>
      match admit_request (sv_se s) with
      | None => s <| sv_answered := (q, TOO_MANY_REQUESTS) :: sv_answered s |>
      | Some se => s <| sv_se := se |> <| sv_active := q :: sv_active s |>
      end
  end.

(** The [finally] of [http_handler]. *)
Definition leave (q : nat) (s : server) : server :=
  s <| sv_se := se_release (sv_se s) |> <| sv_active := Pool.remove_task q (sv_active s) |>.

Inductive server_step : server -> server -> Prop :=
| SS_arrive q sc s : q ∉ sv_active s -> server_step s (arrive q sc s)
| SS_leave q s : q ∈ sv_active s -> server_step s (leave q s).

Record server_inv (max : nat) (s : server) : Prop := {
  svi_waiters : se_waiters (sv_se s) = 0%nat;
  svi_slots : (se_value (sv_se s) + List.length (sv_active s) = max)%nat;
  svi_nodup : NoDup (sv_active s);
}.

Lemma admit_cases se :
  se_waiters se = 0%nat ->
  match admit_request se with
  | None => se_value se = 0%nat
  | Some se' => se' = mkSemaphore (pred (se_value se)) 0 /\ (0 < se_value se)%nat
  end.
Proof.
  intros Hw. unfold admit_request, se_acquire, se_locked. rewrite Hw, orb_false_r.
  destruct (se_value se) eqn:E; cbn; [done|]. split; [done|lia].
Qed.

Lemma server_step_inv max s s' : server_step s s' -> server_inv max s -> server_inv max s'.
Proof.
  intros [q sc s0 Hq|q s0 Hq] [Hw Hs Hn].
  - unfold arrive. destruct (http_check sc); [by split|by split|].
    pose proof (admit_cases _ Hw) as Ha. destruct (admit_request (sv_se s0)) as [se|]; [|by split].
    destruct Ha as [-> Hv]. split; cbn; [done|lia|by constructor].
  - pose proof (Pool.remove_task_perm q _ Hn Hq) as Hp. pose proof (Permutation_length Hp) as Hlen.
    split; cbn in *; unfold se_release; rewrite ?Hw; cbn; [done|lia|].
    rewrite Hp in Hn. by apply NoDup_cons in Hn as [_ Hn].
Qed.

Lemma server_reachable max s :
  rtc server_step (mkServer (new_semaphore max) [] []) s -> server_inv max s.
Proof.
  intros H. apply (rtc_ind_r (server_inv max) (mkServer (new_semaphore max) [] [])) in H;
    eauto using server_step_inv. split; cbn; [done|lia|constructor].
Qed.

(** C35. At most [max_concurrent_requests] requests are served at any time;
    a further valid request is refused with 429 exactly while that many are
    served, and no request ever waits for a slot; when the last one left, all
    slots are free. *)
Theorem concurrent_requests_bounded max s q sc url :
  rtc server_step (mkServer (new_semaphore max) [] []) s -> http_check sc = Accept url ->
  (List.length (sv_active s) <= max)%nat /\ se_waiters (sv_se s) = 0%nat /\
  (sv_answered (arrive q sc s) = (q, TOO_MANY_REQUESTS) :: sv_answered s <->
     List.length (sv_active s) = max) /\
  (sv_active (arrive q sc s) = q :: sv_active s <-> (List.length (sv_active s) < max)%nat) /\
  (sv_active s = [] -> se_value (sv_se s) = max).
Proof.
  intros [Hw Hs Hn]%server_reachable Hc. unfold arrive. rewrite Hc.
  pose proof (admit_cases _ Hw) as Ha.
  assert (Hne : forall A (x : A) l, l <> x :: l).
  { intros A x l H%(f_equal (@List.length A)). cbn in H. lia. }
  destruct (admit_request (sv_se s)) as [se|]; cbn.
  - destruct Ha as [_ Hv]. split_and!; [lia|done| | |].
    + split; [by intros H%Hne|lia].
    + split; [lia|done].
    + intros He. rewrite He in Hs. cbn in Hs. lia.
  - split_and!; [lia|done| | |].
    + split; [lia|done].
    + split; [by intros H%Hne|lia].
    + intros He. rewrite He in Hs. cbn in Hs. lia.
Qed.

(** ** Start and end of the cache *)

Definition TMP_FILE_PREFIX : string := "tmp".

(** [_preload_cleanup_cache_files], for the rows that the preload drops. *)
Definition preload_cleanup_cache_files (exceed : list string) (files : gmap string fs_node) :
    gmap string fs_node := foldl (fun fs k => delete k fs) files exceed.

#[global] Arguments preload_cleanup_cache_files : simpl never.

Definition preload_exceed (force_init_db : bool) (file_exists : string -> bool) (f : db_file) : list string :=
  match f with
  | DBOk _ rows => if force_init_db then [] else snd (preload_from_db file_exists rows)
  | _ => []
  end.

(** A forced init purges the folder; otherwise the files [tmp*] go. *)
Definition clean_cache_dir (init_cache : bool) (files : gmap string fs_node) : gmap string fs_node :=
  if init_cache then ∅ else filter (fun kv => startswith TMP_FILE_PREFIX (fst kv) = false) files.
#[global] Arguments clean_cache_dir : simpl never.

(** [OTACache.start]; [db] is the DB file it finds.  A purged cache folder is
    made again, empty, by the index. *)
Definition ota_cache_start (init_cache : bool) (db : db_file) : PyM OTACache pyexn unit :=
  o ← get;
  if negb (oca_closed o) then mret tt
  else
    _ ← modify (fun o => o <| oca_closed := false |>);
    if negb (oca_cache_enabled o) then mret tt
    else
      _ ← modify (fun o =>
            o <| oca_files := clean_cache_dir init_cache (oca_files o) |>);
      o ← get;
      let exists_ k := bool_decide (is_Some (oca_files o !! k)) in
      modify (fun o =>
        o <| oca_index := init_index init_cache exists_ db |>
          <| oca_files := preload_cleanup_cache_files (preload_exceed init_cache exists_ db) (oca_files o) |>
          <| oca_trackers := ∅ |>).

(** [OTACache.close]: the index gets its stop mark, the external cache is
    unmounted. *)
Definition ota_cache_close : PyM OTACache pyexn unit :=
  o ← get;
  if oca_closed o then mret tt
  else
    _ ← modify (fun o => o <| oca_closed := true |>);
    _ ← (if oca_cache_enabled o then modify (fun o => o <| oca_index := close_index (oca_index o) |>)
         else mret tt);
    mret tt.

Lemma preload_cleanup_lookup exceed fs k :
  preload_cleanup_cache_files exceed fs !! k =
    if bool_decide (k ∈ exceed) then None else fs !! k.
Proof.
  unfold preload_cleanup_cache_files. revert fs. induction exceed as [|x l IH]; intros fs; cbn.
  - rewrite bool_decide_false; [done|]. by apply not_elem_of_nil.
  - rewrite IH. repeat case_bool_decide; try done.
    + exfalso. set_solver.
    + apply elem_of_cons in H0 as [->|?]; [|done]. apply lookup_delete_eq.
    + apply lookup_delete_ne. set_solver.
Qed.

(** Right after the start-up of the proxy, every entry of the cache
    index that is not an empty file has its cache file, so that no lookup
    waits for a file that never comes; and no half-written temporary file of
    an earlier run is left. *)
Theorem started_index_backed init_cache table rows o o' r :
  selects table rows -> oca_closed o = true -> oca_cache_enabled o = true ->
  ota_cache_start init_cache (DBOk table rows) o = (o', r) ->
  r = Ok tt /\ oca_closed o' = false /\
  (forall k e, lookup_entry k (oca_index o') = Some e ->
     ie_cache_size e = 0 \/ is_Some (oca_files o' !! k)) /\
  (forall k, startswith TMP_FILE_PREFIX k = true -> oca_files o' !! k = None).
Proof.
  intros [Hnd Hsel] Hc He. unfold ota_cache_start, mbind, pym_bind, get, modify. rewrite Hc, He. cbn.
  set (fs := clean_cache_dir init_cache _). intros [= <- <-]. cbn.
  split_and!; [done|done| |].
  - unfold lookup_entry, init_index, preload_exceed. destruct init_cache; [done|]. intros k e Hk.
    pose proof (preload_rows_split MAX_INDEX_ENTRIES (fun k => bool_decide (is_Some (fs !! k))) rows 0 ∅ [] Hnd) as H.
    unfold preload_from_db in *.
    destruct (preload_rows _ _ _ _ _ _) as [res exceed]. cbn in *.
    destruct H as (_ & H2 & H3); [intros x _; split; [set_solver|apply not_elem_of_nil]|].
    destruct (H3 k e Hk) as [Hx|(row & _ & <- & -> & Hrow)]; [by rewrite lookup_empty in Hx|].
    cbn. destruct Hrow as [Hz|Hz]; [by left|]. right. apply bool_decide_eq_true in Hz.
    rewrite preload_cleanup_lookup. case_bool_decide as Hin; [|done].
    exfalso. destruct (H2 (cm_file_sha256 row)) as [Hd _]; [by apply elem_of_dom|done|]. set_solver.
  - intros k Hk. rewrite preload_cleanup_lookup. case_bool_decide; [done|]. subst fs.
    unfold clean_cache_dir. destruct init_cache; [apply lookup_empty|].
    rewrite map_lookup_filter. destruct (oca_files o !! k); [|done]. cbn.
    case_guard as Hg; [|done]. cbn in Hg. congruence.
Qed.

(** ** The external cache sources *)

Definition EXTERNAL_CACHE_DEV_FSLABEL : string := "ota_cache_src".
Definition EXTERNAL_CACHE_DATA_DNAME : string := "data".

Lemma try_except_inv {S E E' A} (m : PyM S E A) (h : E -> PyM S E' A) s s' a :
  try_except m h s = (s', Ok a) ->
  m s = (s', Ok a) \/ exists s1 e, m s = (s1, Raise e) /\ h e s1 = (s', Ok a).
Proof. unfold try_except. destruct (m s) as [s1 [x|e]]; [intros [= -> ->]; by left|right; eauto]. Qed.

Lemma try_except_inv_raise {S E E' A} (m : PyM S E A) (h : E -> PyM S E' A) s s' e' :
  try_except m h s = (s', Raise e') -> exists s1 e, m s = (s1, Raise e) /\ h e s1 = (s', Raise e').
Proof. unfold try_except. destruct (m s) as [s1 [x|e]]; [done|eauto]. Qed.

Section ExternalCache.
Context {W : Type} `{HC : !CmdEnv W} `{HF : !FileEnv W}.
Context (fault : path -> bool).
Abbreviation EM := (PyM W pyexn).

Definition mount_external_cache (mnt_point cache_dev_fslabel : string) : EM (option string) :=
  devs ← get_dev_by_token "LABEL" cache_dev_fslabel false;
  match devs with
  | None | Some [] => mret None
  | Some (cache_dev :: _) =>
      try_except
        (_ ← ensure_mount_point fault mnt_point true;
         _ ← ensure_mount cache_dev mnt_point mount_ro true true 3;
         mret (Some mnt_point))
        (fun e => if caught e then mret None else raise e)
  end.

Definition umount_external_cache (mnt_point : string) : EM unit :=
  try_except (ensure_umount mnt_point false MAX_RETRY_COUNT)
    (fun e => if caught e then mret tt else raise e).

(** The data folders of [OTACache.__init__]: the mounted device and the NFS
    mount that is already there. *)
Definition external_data_dir (external_cache_mnt_point : option string) : EM (option string) :=
  match external_cache_mnt_point with
  | Some mp =>
      if str_truthy mp then
        r ← mount_external_cache mp EXTERNAL_CACHE_DEV_FSLABEL;
        mret (match r with
              | Some m => if str_truthy m then Some (mp +:+ "/" +:+ EXTERNAL_CACHE_DATA_DNAME)%string else None
              | None => None
              end)
      else mret None
  | None => mret None
  end.

Definition external_nfs_data_dir (external_nfs_cache_mnt_point : option string) : EM (option string) :=
  match external_nfs_cache_mnt_point with
  | Some mp =>
      if str_truthy mp then
        m ← is_target_mounted mp false;
        mret (if m : bool then Some (mp +:+ "/" +:+ EXTERNAL_CACHE_DATA_DNAME)%string else None)
      else mret None
  | None => mret None
  end.

(** [OTACache.__init__], with what the two folders hold. *)
Definition ota_cache_init (cache_enabled : bool) (upper_proxy : string) (read_dir : W -> string -> gmap string fs_node)
    (base_files : gmap string fs_node) (ext nfs : option string) : EM OTACache :=
  e ← external_data_dir ext;
  n ← external_nfs_data_dir nfs;
  w ← get;
  mret (mkOTACache true cache_enabled upper_proxy (mkCacheIndex ∅ false None) base_files
          (read_dir w <$> e) (read_dir w <$> n) ∅ false false).

Context `{HM : !MountEnv W}.

Lemma ensure_mount_loop_mounted n (m : EM unit) mp w w' :
  str_truthy mp = true -> ensure_mount_loop n m mp true w = (w', Ok tt) ->
  mounted mp (mount_table w') = true.
Proof using HM.
  intros Hmp. revert w. induction n as [|n IH]; intros w; cbn [ensure_mount_loop];
    unfold on_called_process_error, try_except at 1;
    match goal with |- (let '(_, _) := ?x w in _) = _ -> _ => destruct (x w) as [w1 [[]|e]] eqn:E end.
  all: try (destruct (is_called_process_error e); [|done]; first [apply IH|done]).
  all: try done.
  all: intros [= <-]; apply pym_bind_ok in E as (wa & [] & _ & E);
    apply pym_bind_ok in E as (wb & b & Eb & E); injection E as <-;
    apply is_target_mounted_run in Eb as [Ht Hb]; [|done]; rewrite Ht;
    destruct (mounted mp (mount_table wa)); [done|]; by destruct Hb.
Qed.

(** The proxy uses an external cache device or an NFS cache only when
    something is mounted at its mount point; a device that cannot be mounted
    is left out and never keeps the proxy from starting. *)
Theorem external_cache_mounted mp w w' r :
  external_data_dir (Some mp) w = (w', r) ->
  (forall d, r = Ok (Some d) -> d = (mp +:+ "/data")%string /\ mounted mp (mount_table w') = true) /\
  (forall w1 w2 d, external_nfs_data_dir (Some mp) w1 = (w2, Ok (Some d)) ->
     mounted mp (mount_table w2) = true) /\
  (forall e, r = Raise e -> caught e = false \/
     snd (get_dev_by_token "LABEL" EXTERNAL_CACHE_DEV_FSLABEL false w) = Raise e).
Proof using HM.
  intros H. split_and!.
  - intros d ->. unfold external_data_dir in H. destruct (str_truthy mp) eqn:Hmp; [|done].
    apply pym_bind_ok in H as (w1 & m & Hm & H). injection H as <- H.
    destruct m as [m|]; [|done]. destruct (str_truthy m) eqn:Hm'; [|done]. injection H as <-. split; [done|].
    unfold mount_external_cache in Hm. apply pym_bind_ok in Hm as (w2 & devs & _ & Hm).
    destruct devs as [[|dev devs]|]; [done| |done].
    apply try_except_inv in Hm as [Et|(w3 & e & _ & Hm)]; [|by destruct (caught e)].
    apply pym_bind_ok in Et as (w4 & [] & _ & Et). apply pym_bind_ok in Et as (w5 & [] & Et & Hr).
    injection Hr as -> ->. by eapply ensure_mount_loop_mounted.
  - intros w1 w2 d. unfold external_nfs_data_dir. destruct (str_truthy mp) eqn:Hmp; [|done]. intros Hn.
    apply pym_bind_ok in Hn as (w3 & b & Hb & Hn). injection Hn as <- Hn.
    apply is_target_mounted_run in Hb as [Ht Hb]; [|done]. rewrite Ht.
    destruct (mounted mp (mount_table w1)); [done|]. by injection Hb as ->.
  - intros e ->. unfold external_data_dir in H. destruct (str_truthy mp); [|done].
    unfold mbind, pym_bind in H. unfold mount_external_cache, mbind at 1, pym_bind at 1 in H.
    destruct (get_dev_by_token _ _ _ w) as [w1 [devs|e1]]; [|right; by injection H as _ ->].
    left. destruct devs as [[|dev devs]|]; [done| |done].
    destruct (try_except _ _ w1) as [w2 [x|e1]] eqn:Et; [done|]. injection H as _ ->.
    apply try_except_inv_raise in Et as (w3 & e1 & _ & Hm). destruct (caught e1) eqn:Hc; [done|].
    by injection Hm as _ <-.
Qed.
End ExternalCache.

(** ** The server on top of the cache *)

Section Composed.
Context `{AH : !AioHttp}.
Context (sha256_hex : string -> string).
Context (remote : pydict string -> result pyexn (bytes * pydict string)).
Context (subscribe : CacheTracker -> result pyexn bytes).
(** How the file of an answer is handed over: whole, or as a stream that
    delivers it or fails on the way. *)
Context (as_body : answer -> file_body).
Context (Hprefix : forall ans, body_bytes (as_body ans) `prefix_of` an_body ans).
Context (Hwhole : forall ans, body_error (as_body ans) = None -> body_bytes (as_body ans) = an_body ans).
Context (Hcaught : forall ans e, body_error (as_body ans) = Some e -> caught e = true).

Definition cache_retrieve (url : string) (headers : pydict string) :
    PyM OTACache pyexn (option (file_body * pydict string)) :=
  a ← retrieve_file sha256_hex remote subscribe url headers;
  mret (Some (as_body a, an_headers a)).

(** A client that continues a download through the proxy gets the rest
    of the file: when it asks for the bytes from [n] on and the proxy has a
    copy, the response is a 206 with the content-range of that copy, whose
    body completes the first [n] bytes to exactly the copy unless reading it
    failed, in which case the body is a prefix of the rest; or it is a 200
    with a whole compressed copy. *)
Theorem resumed_download_completes sc url a a' r range ans :
  app_sent a = [] -> se_waiters (app_se a) = 0%nat -> (0 < se_value (app_se a))%nat ->
  http_check sc = Accept url -> oca_closed (app_cache a) = false ->
  let headers := parse_raw_headers (sc_headers sc) in
  let pol := parse_header (default EmptyString (dict_get HEADER_LOWERCASE headers)) in
  dict_get HEADER_RANGE headers = Some range -> truthy (retry_caching pol) = false ->
  retrieve_range_by_cache sha256_hex url pol range (app_cache a) = Some ans ->
  http_handler cache_retrieve never_fails sc a = (a', r) ->
  exists n resp, range_start range = Some n /\ r = Ok tt /\ read_response (app_sent a') = Some resp /\
    rs_body resp `prefix_of` an_body ans /\
    (body_error (as_body ans) = None -> rs_body resp = an_body ans) /\
    ((rs_status resp = PARTIAL_CONTENT /\ exists f, take (Z.to_nat n) f ++ an_body ans = f /\
        (HEADER_CONTENT_RANGE, content_range n (Z.of_nat (List.length f))) ∈ rs_headers resp) \/
     rs_status resp = OK).
Proof using Hprefix Hwhole Hcaught.
  intros Hs Hw Hv Hc Hcl headers pol Hr Hretry Hans Hrun.
  assert (Hret : cache_retrieve url headers (app_cache a) = (app_cache a, Ok (Some (as_body ans, an_headers ans)))).
  { unfold cache_retrieve, retrieve_file, mbind, pym_bind, get. rewrite Hcl. fold pol.
    assert (Hrg : dict_get HEADER_RANGE (if str_truthy (oca_upper_proxy (app_cache a)) then headers
              else dict_del HEADER_LOWERCASE headers) = Some range).
    { destruct (str_truthy _); [done|]. by rewrite dict_get_del. }
    rewrite Hrg, Hretry, Hans. done. }
  assert (Hl : se_locked (app_se a) = false).
  { unfold se_locked. rewrite Hw. by destruct (se_value (app_se a)); [lia|]. }
  rewrite (http_handler_admitted _ _ sc url a Hc Hl) in Hrun.
  match type of Hrun with context [pull_data_and_send _ _ _ _ ?b] =>
    destruct (pull_data_and_send_run cache_retrieve never_fails (fun _ _ => eq_refl) url sc b _ _ Hret) as (l & Hp & Hl') end.
  { cbn. destruct (body_error (as_body ans)) eqn:He; [by eapply Hcaught|done]. }
  rewrite Hp in Hrun. injection Hrun as <- <-.
  destruct (range_answer_completes_file sha256_hex url pol range (app_cache a) ans Hans) as (n & Hn & Hcase).
  exists n. eexists. split_and!; [done|done|cbn; rewrite Hs; exact Hl'|apply Hprefix|apply Hwhole|]. cbn.
  assert (Hrest : forall f, is_rest n f ans ->
    (if dict_mem HEADER_CONTENT_RANGE (an_headers ans) then PARTIAL_CONTENT else OK) = PARTIAL_CONTENT /\
    exists f, take (Z.to_nat n) f ++ an_body ans = f /\
      (HEADER_CONTENT_RANGE, content_range n (Z.of_nat (List.length f))) ∈ encode_headers (an_headers ans)).
  { intros f (_ & Hf & Hcr). unfold dict_mem. rewrite Hcr. split; [done|]. exists f. split; [done|].
    unfold encode_headers, encode_header at 4. rewrite Hcr. rewrite !elem_of_app. do 3 right.
    cbn. by left. }
  destruct Hcase as [(f & e & _ & _ & _ & Hf)|(dir & _ & [(f & _ & Hf)|(_ & Hno)])].
  - left. by apply (Hrest f).
  - left. by apply (Hrest f).
  - right. unfold dict_mem. by rewrite Hno.
Qed.
End Composed.

(** The streams of the read pool are such bodies. *)
Definition serve_file (fails : nat -> bool) (ans : answer) : file_body :=
  FStream (stream_from_que (read_file_in_thread LOCAL_READ_SIZE (fun _ => false) fails 0 (Some (an_body ans)))).

Lemma serve_file_body fails ans :
  body_bytes (serve_file fails ans) `prefix_of` an_body ans /\
  (body_error (serve_file fails ans) = None -> body_bytes (serve_file fails ans) = an_body ans) /\
  (forall e, body_error (serve_file fails ans) = Some e -> caught e = true).
Proof.
  unfold serve_file, read_file_in_thread. rewrite drop_0.
  pose proof (read_loop_prefix LOCAL_READ_SIZE ltac:(unfold LOCAL_READ_SIZE; lia) (fun _ => false) fails
    (S (List.length (an_body ans))) 0 (an_body ans) ltac:(lia)) as (Hp & Hc & He).
  destruct (stream_from_que _) as [ds e]. cbn in *. split_and!; auto.
  intros x ->. destruct He as [[= ->] _]; done.
Qed.

(** ** The lifespan of the server *)

(** uvicorn's lifespan messages start and stop the cache: once
    [startup.complete] is sent the cache accepts requests, a repeated
    start-up does not start it again, and after [shutdown.complete] the cache
    is closed; the application and the cache never disagree. *)
Theorem lifespan_starts_and_stops init_cache db c max received a' r :
  oca_closed c = true ->
  lifespan never_fails (ota_cache_start init_cache db) ota_cache_close received (new_app c max) = (a', r) ->
  r = Ok tt /\ app_closed a' = oca_closed (app_cache a') /\
  (List.last (app_sent a') (Lifespan EmptyString) = Lifespan "lifespan.startup.complete" ->
   app_closed a' = false) /\
  (List.last (app_sent a') (Lifespan EmptyString) = Lifespan "lifespan.shutdown.complete" ->
   app_closed a' = true).
Proof.
  intros Hc.
  assert (Hstart : forall a, app_closed a = oca_closed (app_cache a) ->
    exists a1, app_start (ota_cache_start init_cache db) a = (a1, Ok tt) /\
      app_closed a1 = false /\ oca_closed (app_cache a1) = false /\ app_sent a1 = app_sent a).
  { intros a Ha. unfold app_start, mbind, pym_bind, get. destruct (app_closed a) eqn:E.
    - unfold modify, on_cache, ota_cache_start, mbind, pym_bind, get, modify. cbn. rewrite <-Ha. cbn.
      destruct (oca_cache_enabled (app_cache a)); cbn; eexists; split_and!; reflexivity || done.
    - exists a. by rewrite <-Ha. }
  assert (Hstop : forall a, app_closed a = oca_closed (app_cache a) ->
    exists a1, app_stop ota_cache_close a = (a1, Ok tt) /\
      app_closed a1 = true /\ oca_closed (app_cache a1) = true /\ app_sent a1 = app_sent a).
  { intros a Ha. unfold app_stop, mbind, pym_bind, get. destruct (app_closed a) eqn:E.
    - exists a. by rewrite <-Ha.
    - unfold modify, on_cache, ota_cache_close, mbind, pym_bind, get, modify. cbn. rewrite <-Ha. cbn.
      destruct (oca_cache_enabled (app_cache a)); cbn; eexists; split_and!; reflexivity || done. }
  assert (Hi : app_closed (new_app c max) = oca_closed (app_cache (new_app c max)) /\
    (List.last (app_sent (new_app c max)) (Lifespan EmptyString) = Lifespan "lifespan.startup.complete" ->
       app_closed (new_app c max) = false) /\
    (List.last (app_sent (new_app c max)) (Lifespan EmptyString) = Lifespan "lifespan.shutdown.complete" ->
       app_closed (new_app c max) = true)) by (cbn; by rewrite Hc).
  revert Hi. generalize (new_app c max) as a. induction received as [|t ts IH]; intros a (Ha & Hi1 & Hi2); cbn.
  { by intros [= <- <-]. }
  destruct (String.eqb t "lifespan.startup").
  { unfold mbind, pym_bind. destruct (Hstart a Ha) as (a1 & -> & H1 & H2 & H3). rewrite (send_ok never_fails (fun _ _ => eq_refl)).
    apply IH. cbn. rewrite H1, H2, List.last_last. done. }
  destruct (String.eqb t "lifespan.shutdown"); [|by apply IH].
  unfold mbind, pym_bind. destruct (Hstop a Ha) as (a1 & -> & H1 & H2 & H3). rewrite (send_ok never_fails (fun _ _ => eq_refl)).
  intros [= <- <-]. cbn. rewrite H1, H2, List.last_last. done.
Qed.

(** ** Witnesses *)

(** A request for the file of [OTACache]'s example, of which the client has
    the first byte. *)
Definition example_scope : Scope :=
  mkScope "http" "GET" "/images/a b"
    [("host", "ota.example:80"); (HEADER_LOWERCASE, example_policy); (HEADER_RANGE, " bytes=1- ")]%string
    (Some ("10.0.0.1"%string, 8082)) (Some "http"%string).

Definition example_url : string := "http://ota.example:80/images/a b".

#[local] Instance example_aiohttp : AioHttp := {|
  is_client_error e := is_class ["ClientError"; "ClientResponseError"; "ClientConnectionError"]%string e;
  is_response_error e := is_class ["ClientResponseError"]%string e;
  is_connection_error e := is_class ["ClientConnectionError"]%string e;
  exc_status e := match exn_args e with AInt n :: _ => n | _ => 0 end;
|}.

(** The remote answers 404. *)
Definition example_not_found : pyexn := PyExn (XOther "ClientResponseError") [AInt 404] None None.
Definition example_no_remote (_ : pydict string) : result pyexn (bytes * pydict string) :=
  Raise example_not_found.

Definition example_as_body : answer -> file_body := fun a => FBytes (an_body a).

Definition example_app : App := mkApp false example_cache (new_semaphore 2) [].

Lemma proxied_url_kept_witness :
  exists u, process_raw_url example_url true = Ok u /\ ru_netloc u = "ota.example:80"%string /\
    ru_path u = "/images/a%20b"%string.
Proof.
  destruct (proxied_url_kept example_scope "ota.example:80" example_url true eq_refl eq_refl eq_refl
    ltac:(by intros s [= <-]) ltac:(vm_compute; reflexivity)) as (u & Hu & _ & Hn & _).
  exists u. split; [exact Hu|]. split; [exact Hn|].
  vm_compute in Hu. injection Hu as <-. reflexivity.
Defined.

Lemma every_request_answered_witness :
  asgi_run (app_sent (fst (http_handler (cache_retrieve id example_no_remote (fun _ => Ok []) example_as_body)
    never_fails example_scope example_app))) = Some Complete.
Proof.
  set (run := http_handler _ _ _ _).
  assert (Hr : run = (fst run, Ok tt)) by (vm_compute; reflexivity).
  destruct (every_request_answered _ _ example_scope example_app _ _ eq_refl Hr) as (p & Hp & Hc).
  rewrite Hp. f_equal. by apply Hc.
Defined.

(** Without the range, the remote's error reaches the client; the connection
    breaks when the answer has started. *)
Lemma request_answer_refines_witness :
  let a := example_app <| app_cache := example_cache <| oca_cache_enabled := false |> |> in
  let sc := mkScope "http" "GET" "/f" [("host", "h")]%string None None in
  let broken := fun (sent : list asgi_msg) (_ : asgi_msg) => match sent with [] => None | _ => Some (os_exn 32) end in
  let run := http_handler (cache_retrieve id example_no_remote (fun _ => Ok []) example_as_body) broken sc a in
  app_se (fst run) = app_se a /\ snd run <> Ok tt /\
  exists resp, rs_status resp = 404 /\ partly_sent resp (app_sent (fst run)).
Proof.
  intros a sc broken run.
  assert (Hr : run = (fst run, snd run)) by (destruct run; reflexivity).
  destruct (request_answer_refines (cache_retrieve id example_no_remote (fun _ => Ok []) example_as_body) broken sc "http://h/f" a (fst run) (snd run)
    eq_refl eq_refl ltac:(vm_compute; lia) ltac:(vm_compute; reflexivity) Hr) as (Hse & _ & resp & Hresp & Hp & _).
  split; [exact Hse|]. split; [vm_compute; discriminate|]. exists resp. split; [|exact Hp].
  destruct Hp as [Hp|(rest & Hp & _)]; vm_compute in Hp; [discriminate Hp|]. injection Hp as Hst _ _. symmetry. exact Hst.
Defined.

Lemma resumed_download_completes_witness :
  exists resp, read_response (app_sent (fst (http_handler
      (cache_retrieve id example_no_remote (fun _ => Ok []) example_as_body)
      never_fails example_scope example_app))) = Some resp /\
    take 1 example_file ++ rs_body resp = example_file.
Proof.
  set (run := http_handler _ _ _ _).
  assert (Hr : run = (fst run, Ok tt)) by (vm_compute; reflexivity).
  destruct (resumed_download_completes id example_no_remote (fun _ => Ok []) example_as_body
    (fun a => reflexivity _) (fun a _ => eq_refl) ltac:(done) example_scope example_url example_app
    (fst run) (Ok tt) "bytes=1-" (mkAnswer FromLocal [x62; x63; x64]%byte [(HEADER_CONTENT_RANGE, "bytes 1-3/4"%string)])
    eq_refl eq_refl ltac:(vm_compute; lia) ltac:(vm_compute; reflexivity) eq_refl
    ltac:(vm_compute; reflexivity) ltac:(vm_compute; reflexivity) ltac:(vm_compute; reflexivity) Hr)
    as (n & resp & _ & _ & Hresp & _ & Hb & _).
  exists resp. split; [exact Hresp|]. rewrite (Hb eq_refl). reflexivity.
Defined.

(** One slot: the second request is refused while the first is served. *)
Lemma concurrent_requests_bounded_witness :
  let s := arrive 1 example_scope (mkServer (new_semaphore 1) [] []) in
  List.length (sv_active s) = 1%nat /\
  sv_answered (arrive 2 example_scope s) = [(2%nat, TOO_MANY_REQUESTS)].
Proof.
  intros s.
  assert (Hs : rtc server_step (mkServer (new_semaphore 1) [] []) s)
    by (apply rtc_once, SS_arrive, not_elem_of_nil).
  destruct (concurrent_requests_bounded 1 s 2 example_scope example_url Hs ltac:(vm_compute; reflexivity))
    as (_ & _ & H & _).
  split; [vm_compute; reflexivity|]. rewrite (proj2 H); vm_compute; reflexivity.
Defined.

Definition example_started : OTACache :=
  mkOTACache true true EmptyString (mkCacheIndex ∅ false None)
    {["k1"%string := Regular example_file; "tmp_k2_1"%string := Regular []]} None None ∅ false false.

Lemma started_index_backed_witness :
  let o := fst (ota_cache_start false (DBOk example_table example_rows) example_started) in
  is_Some (lookup_entry "k1" (oca_index o)) /\ is_Some (oca_files o !! "k1"%string) /\
  oca_files o !! "tmp_k2_1"%string = None.
Proof.
  intros o.
  destruct (started_index_backed false example_table example_rows example_started o (Ok tt)
    example_selects eq_refl eq_refl ltac:(vm_compute; reflexivity)) as (_ & _ & H & Ht).
  split; [vm_compute; by eexists|]. split; [vm_compute; by eexists|]. apply Ht. reflexivity.
Defined.
