(* ===== verification/ClientUpdate.v ===== *)
(** * Updating the OTA client itself

    Models [src/src/otaclient/client_package.py] (the manifest of the client
    packages, the choice of one, its download and the squashfs file made of
    it), [src/src/otaclient/ota_core/_client_updater.py] (the client update of
    one session), [_process_metadata] and [_finalize_update_and_reboot]'s wait
    of [src/src/otaclient/ota_core/_updater_base.py] for the legacy image, and
    [wait_and_log] of [src/src/otaclient/_utils.py].

    What a download delivers, the validation of the manifest by pydantic and
    the program [zstd] are parameters; files are texts by their path. *)

From stdpp Require Import base list option strings gmap sets pretty.
From Stdlib Require Import ZArith String Ascii Lia.
From S2P Require Import Prelude TextLines Types Errors StatusMonitor Downloader LegacyCSV CertStore LegacyMetadata UpdateLibs CmdHelper.

Definition client_updater_module : string := "otaclient.ota_core._client_updater".

(** ** Waiting with a timeout

    [wait_and_log]: [check n] is what the flag reads in round [n], [fuel] the
    rounds looked at; [None]: it still waits. *)
Fixpoint wait_and_log_from (seconds : Z) (check : nat -> bool) (check_for : bool) (check_interval : Z)
    (timeout : option Z) (fuel n : nat) : option bool :=
  match fuel with
  | O => None
  | S fuel =>
      if Bool.eqb (check n) check_for then Some true
      else
        match timeout with
        | Some t =>
            if t <=? seconds then Some false
            else wait_and_log_from (seconds + check_interval) check check_for check_interval timeout fuel (S n)
        | None => wait_and_log_from (seconds + check_interval) check check_for check_interval timeout fuel (S n)
        end
  end.

Definition CHECK_INTERVAL : Z := 2.
Definition wait_and_log (check : nat -> bool) (check_for : bool) (timeout : option Z) (fuel : nat) : option bool :=
  wait_and_log_from 0 check check_for CHECK_INTERVAL timeout fuel 0.

Definition CLIENT_UPDATE_TIMEOUT : Z := 5 * 60.

Lemma wait_and_log_from_result seconds check check_for t fuel n :
  t <= seconds + CHECK_INTERVAL * (Z.of_nat fuel - 1) -> (0 < fuel)%nat ->
  exists b, wait_and_log_from seconds check check_for CHECK_INTERVAL (Some t) fuel n = Some b /\
    (b = true <-> exists k, check (n + k)%nat = check_for /\
       (k = 0%nat \/ seconds + CHECK_INTERVAL * (Z.of_nat k - 1) < t)).
Proof.
  unfold CHECK_INTERVAL. revert seconds n. induction fuel as [|fuel IH]; [lia|]. intros seconds n Hb _. cbn.
  destruct (Bool.eqb (check n) check_for) eqn:E.
  { apply eqb_prop in E. exists true. split; [done|]. split; [|done]. intros _. exists 0%nat.
    rewrite Nat.add_0_r. auto. }
  apply eqb_false_iff in E. destruct (Z.leb_spec t seconds) as [Ht|Ht].
  { exists false. split; [done|]. split; [done|]. intros (k & Hk & [->|Hs]); [by rewrite Nat.add_0_r in Hk|].
    destruct k; [by rewrite Nat.add_0_r in Hk|]. lia. }
  destruct (IH (seconds + 2) (S n)) as (b & -> & Hbb); [lia|lia|]. exists b. split; [done|].
  rewrite Hbb. split.
  - intros (k & Hk & Hs). exists (S k). rewrite <-Nat.add_succ_comm. split; [done|]. right. lia.
  - intros (k & Hk & Hs). destruct k as [|k]; [by rewrite Nat.add_0_r in Hk|].
    exists k. rewrite Nat.add_succ_comm. split; [done|]. destruct k; [by left|right; lia].
Qed.

(** A wait with a timeout ends: within [timeout / 2 + 1] rounds (two
    seconds apart) [wait_and_log] returns, with [True] exactly when the flag
    had the awaited value in one of the rounds that begin before the timeout
    is over or, at the latest, in the first one after it. *)
Theorem wait_bounded check check_for t fuel :
  0 <= t -> t + 1 < CHECK_INTERVAL * Z.of_nat fuel ->
  exists b, wait_and_log check check_for (Some t) fuel = Some b /\
    (b = true <-> exists k, check k = check_for /\ Z.of_nat k <= (t + 1) / CHECK_INTERVAL).
Proof.
  unfold CHECK_INTERVAL. intros Ht Hf.
  destruct (wait_and_log_from_result 0 check check_for t fuel 0) as (b & Hb & Hiff);
    [unfold CHECK_INTERVAL; lia|lia|].
  exists b. split; [done|]. rewrite Hiff. unfold CHECK_INTERVAL. cbn [Nat.add].
  split; intros (k & Hk & Hs); exists k; (split; [done|]).
  - apply Z.div_le_lower_bound; [lia|]. destruct Hs as [->|Hs]; [cbn; lia|lia].
  - destruct k; [by left|]. right. pose proof (Z.mul_div_le (t + 1) 2). lia.
Qed.

Lemma wait_bounded_witness :
  wait_and_log (fun n => (n <? 3)%nat) false (Some CLIENT_UPDATE_TIMEOUT) 152 = Some true.
Proof.
  destruct (wait_bounded (fun n => (n <? 3)%nat) false CLIENT_UPDATE_TIMEOUT 152) as (b & Hb & Hiff);
    [unfold CLIENT_UPDATE_TIMEOUT; lia|unfold CLIENT_UPDATE_TIMEOUT, CHECK_INTERVAL; lia|].
  rewrite Hb. f_equal. apply Hiff. exists 3%nat. split; [reflexivity|]. vm_compute. discriminate.
Defined.

(** ** The manifest *)

Inductive package_type : Type := PACKAGE_TYPE_SQUASHFS | PACKAGE_TYPE_PATCH.
Inductive package_arch : Type := ARCHITECTURE_X86_64 | ARCHITECTURE_ARM64.

Definition arch_str (a : package_arch) : string :=
  match a with ARCHITECTURE_X86_64 => "x86_64" | ARCHITECTURE_ARM64 => "arm64" end.

#[export] Instance package_type_eq_dec : EqDecision package_type.
Proof. solve_decision. Defined.
#[export] Instance package_arch_eq_dec : EqDecision package_arch.
Proof. solve_decision. Defined.

(** [pk_patch_base]: [metadata.patch_base_version], where there is one. *)
Record ReleasePackage : Type := mkReleasePackage {
  pk_filename : string;
  pk_version : string;
  pk_type : package_type;
  pk_architecture : package_arch;
  pk_size : Z;
  pk_checksum : string;
  pk_patch_base : option string;
}.

Record Manifest : Type := mkManifest {
  mn_schema_version : string;
  mn_date : string;
  mn_packages : list ReleasePackage;
}.

Definition ENTRY_POINT_FILE_NAME : string := "manifest.json".

Definition value_error (msg : string) : pyexn := PyExn XValueError [AStr msg] None None.

(** [Path(dir) / name] *)
Definition pjoin (dir name : string) : string :=
  if startswith "/" name then name else (dir +:+ "/" +:+ name)%string.

(** [s.partition(":")] *)
Definition partition_colon (s : string) : string * string :=
  let '(a, b) := py_split1 ":" s in (a, default EmptyString b).

(** [str.isalnum] on one character. *)
Definition is_alnum_char (a : ascii) : bool :=
  let n := N_of_ascii a in
  ((48 <=? n) && (n <=? 57) || (65 <=? n) && (n <=? 90) || (97 <=? n) && (n <=? 122)
   || bool_decide (n ∈ [170; 178; 179; 181; 185; 186; 188; 189; 190]%N)
   || (192 <=? n) && negb (n =? 215) && negb (n =? 247))%N.

Definition isalnum (s : string) : bool := str_truthy s && str_forallb is_alnum_char s.

(** [s.replace(c, EmptyString)] for the dot. *)
Fixpoint drop_dots (s : string) : string :=
  match s with
  | EmptyString => EmptyString
  | String a s => if Ascii.eqb a "." then drop_dots s else String a (drop_dots s)
  end.

(** ** The session *)

Record cu_state : Type := mkCuState {
  cu_meta : OTAMetadata;
  cu_manifest : option Manifest;
  cu_package : option ReleasePackage;
  cu_downloaded : string;                (** [downloaded_package_path] *)
  cu_files : gmap string string;
  cu_asked : list DownloadInfo;
  cu_cmds : list (list string);
  cu_reports : list report_payload;      (** newest first *)
  cu_pool_shutdown : bool;
  cu_data_ready : bool;                  (** [notify_data_ready_event] *)
  cu_workdir : bool;                     (** the session folder is there *)
}.

#[export] Instance eta_cu_state : Eta cu_state := fun s =>
  mkCuState (cu_meta s) (cu_manifest s) (cu_package s) (cu_downloaded s) (cu_files s) (cu_asked s)
    (cu_cmds s) (cu_reports s) (cu_pool_shutdown s) (cu_data_ready s) (cu_workdir s).

Section ClientUpdate.
(** The device: [__version__], [platform.machine()], [platform.processor()],
    [shutil.which("zstd")]. *)
Context (client_version machine processor : string) (has_zstd : bool).
(** [zstd -d --patch-from=base patch], [None] for an exit code that is not 0. *)
Context (zstd : string -> string -> option string).
Context (urljoin : string -> string -> string) (base_url session_dir download_dir install_dir squashfs_file : string).
Context (validate_manifest : string -> result pyexn Manifest).
Context (fetch : DownloadInfo -> result pyexn string).

Abbreviation CU := (PyM cu_state pyexn).

(** The property [_rootfs_url]. *)
Definition rootfs_url_of (jwt : claims) : string :=
  urljoin_ensure_base urljoin base_url (strip_char "/" (cl_rootfs_directory jwt) +:+ "/")%string.

Definition rootfs_url : CU string :=
  s ← get;
  match om_metadata_jwt (cu_meta s) with
  | None => raise (value_error "metadata_jwt is not ready yet!")
  | Some jwt => mret (rootfs_url_of jwt)
  end.

(** One [yield] of the generators: the caller downloads the file. *)
Definition fetch_file (i : DownloadInfo) : CU unit :=
  _ ← modify (fun s => s <| cu_asked := cu_asked s ++ [i] |>);
  content ← from_result (fetch i);
  modify (fun s => s <| cu_files := <[di_dst i := content]> (cu_files s) |>).

Definition file_not_found (p : string) : pyexn := PyExn (XOSError (Some 2)) [AStr p] None None.

Definition read_file (p : string) : CU string :=
  s ← get;
  match cu_files s !! p with Some c => mret c | None => raise (file_not_found p) end.

(** What is asked for, below the URL of the root file system. *)
Definition manifest_info (url : string) : DownloadInfo :=
  let entry := pjoin install_dir ENTRY_POINT_FILE_NAME in
  mkDownloadInfo (urljoin_ensure_base urljoin url (lstrip_by (Ascii.eqb "/") entry))
    (pjoin download_dir (path_name entry)) 0 None None None false.

Definition package_info (url : string) (p : ReleasePackage) (alg digest : string) : DownloadInfo :=
  mkDownloadInfo (urljoin_ensure_base urljoin url (lstrip_by (Ascii.eqb "/") (pjoin install_dir (pk_filename p))))
    (pjoin download_dir (pk_filename p)) (pk_size p) (Some alg) (Some digest) None false.

Definition prepare_manifest : CU unit :=
  url ← rootfs_url;
  _ ← fetch_file (manifest_info url);
  text ← read_file (di_dst (manifest_info url));
  m ← from_result (validate_manifest text);
  modify (fun s => s <| cu_manifest := Some m |>).

Definition is_same_client_package_version (s : cu_state) : bool :=
  match cu_manifest s with
  | None => false
  | Some m => existsb (fun p => String.eqb (pk_version p) client_version) (mn_packages m)
  end.

Definition architecture : option package_arch :=
  if String.eqb machine "x86_64" || String.eqb processor "x86_64" then Some ARCHITECTURE_X86_64
  else if String.eqb machine "aarch64" || String.eqb processor "aarch64" then Some ARCHITECTURE_ARM64
  else None.

Definition current_squashfs_path : string := pjoin install_dir (path_name squashfs_file).

Definition is_patch_for (arch : package_arch) (p : ReleasePackage) : bool :=
  bool_decide (pk_architecture p = arch) && bool_decide (pk_type p = PACKAGE_TYPE_PATCH) &&
  match pk_patch_base p with
  | Some v => str_truthy v && String.eqb v client_version
  | None => false
  end.

Definition is_squashfs_for (arch : package_arch) (p : ReleasePackage) : bool :=
  bool_decide (pk_architecture p = arch) && bool_decide (pk_type p = PACKAGE_TYPE_SQUASHFS).

Definition get_available_package_metadata : CU ReleasePackage :=
  s ← get;
  match cu_manifest s with
  | None => raise (value_error "manifest.json is not loaded yet, abort")
  | Some m =>
      match architecture with
      | None => raise (value_error ("unsupported platform(_machine=" +:+ str_repr machine +:+ ", _arch="
                                  +:+ str_repr processor +:+ ") detected, abort"))
      | Some arch =>
          let patch :=
            if bool_decide (is_Some (cu_files s !! current_squashfs_path)) && has_zstd
            then List.find (is_patch_for arch) (mn_packages m) else None in
          match patch with
          | Some p => mret p
          | None =>
              match List.find (is_squashfs_for arch) (mn_packages m) with
              | Some p => mret p
              | None => raise (value_error ("No suitable package found for architecture " +:+ arch_str arch
                                        +:+ " and version " +:+ client_version))
              end
          end
      end
  end.

Definition prepare_client_package : CU unit :=
  p ← get_available_package_metadata;
  let dst := pjoin download_dir (pk_filename p) in
  let '(alg, digest) := partition_colon (pk_checksum p) in
  if negb (str_truthy alg) || negb (str_truthy digest)
  then raise (value_error ("invalid checksum format: " +:+ str_repr (pk_checksum p)
                            +:+ ", expected '<algorithm>:<hex_digest>'"))
  else
    url ← rootfs_url;
    _ ← fetch_file (package_info url p alg digest);
    modify (fun s => s <| cu_package := Some p |> <| cu_downloaded := dst |>).

Definition download_client_package : CU unit :=
  _ ← prepare_manifest;
  same ← gets is_same_client_package_version;
  if same : bool then mret tt else prepare_client_package.

Definition patch_cmd (target patch : string) : list string :=
  ["zstd"; "-d"; "--patch-from=" +:+ current_squashfs_path; patch; "-o"; target]%string.

Definition create_squashfs_from_patch (target : string) : CU unit :=
  s ← get;
  match cu_package s with
  | None => raise (value_error "OTA client package is not downloaded yet, abort")
  | Some p =>
      if negb has_zstd then raise (value_error "zstd is not installed, abort")
      else if negb (isalnum (drop_dots (pk_version p))) then raise (value_error ("Invalid version string: " +:+ pk_version p))
      else
        let patch := cu_downloaded s in
        _ ← modify (fun s => s <| cu_cmds := patch_cmd target patch :: cu_cmds s |>);
        match cu_files s !! current_squashfs_path, cu_files s !! patch with
        | Some base, Some delta =>
            match zstd base delta with
            | Some out => modify (fun s => s <| cu_files := <[target := out]> (cu_files s) |>)
            | None => raise (called_process_error 1)
            end
        | _, _ => raise (called_process_error 1)
        end
  end.

Definition get_target_squashfs_path : CU string :=
  s ← get;
  match cu_package s with
  | None => raise (value_error "OTA client package is not downloaded yet, abort")
  | Some p =>
      if bool_decide (pk_type p = PACKAGE_TYPE_PATCH) then
        let target := pjoin session_dir (path_name squashfs_file) in
        _ ← (if bool_decide (is_Some (cu_files s !! target)) then mret tt
             else create_squashfs_from_patch target);
        mret target
      else mret (cu_downloaded s)
  end.

Definition copy_client_package : CU unit :=
  src ← get_target_squashfs_path;
  content ← read_file src;
  modify (fun s => s <| cu_files := <[squashfs_file := content]> (cu_files s) |>).

(** ** The client update of one session *)

(** [OTAMetadata.download_metafiles] of [LegacyMetadata], on the session. *)
Context (download_metafiles : bool -> PyM OTAMetadata pyexn unit).
Context (session_id : string) (now downloaded_bytes : Z).
(** What [any_child_ecu_in_update] reads in each round, and the outcome of the
    two unmounts of the standby device. *)
Context (child_in_update : nat -> bool) (dynamic_client : bool) (umount umount_from_host : result pyexn unit).

Definition report (p : report_payload) : CU unit := modify (fun s => s <| cu_reports := p :: cu_reports s |>).
Definition client_report_phase (p : UpdatePhase) : CU unit := report (PPhaseChange (mkOTAUpdatePhaseChangeReport p now)).

Definition on_meta {A} (m : PyM OTAMetadata pyexn A) : CU A := fun s =>
  let '(st, r) := m (cu_meta s) in (s <| cu_meta := st |>, r).

(** [LegacyOTAImageSupportMixin._process_metadata] *)
Definition process_metadata (only_metadata_verification : bool) : CU unit :=
  _ ← client_report_phase PROCESSING_METADATA;
  _ ← metadata_download_err_handler (on_meta (download_metafiles only_metadata_verification));
  s ← get;
  match om_metadata_jwt (cu_meta s) with
  | None => raise (value_error "metadata_jwt is not ready yet!")
  | Some jwt =>
      report (PSetUpdateMeta (mkSetUpdateMetaReport
        (mkUpdateMeta EmptyString (cl_total_regular_size jwt) (om_total_regulars_num (cu_meta s)) 0 0 0)
        downloaded_bytes))
  end.

Definition shutdown_pool : CU unit := modify (fun s => s <| cu_pool_shutdown := true |>).

Definition download_client_package_resources : CU unit :=
  _ ← client_report_phase DOWNLOADING_OTA_CLIENT;
  try_finally
    (try_except download_client_package
       (fun e => if is_exception e
                 then raise (PyExn (XOTA (Net OTAClientPackageDownloadFailed) client_updater_module) [] (Some e) (Some e))
                 else raise e))
    shutdown_pool.

(** [_wait_sub_ecus]: at most [CLIENT_UPDATE_TIMEOUT / 2 + 1] rounds; both
    outcomes go on. *)
Definition wait_sub_ecus : CU unit :=
  match wait_and_log child_in_update false (Some CLIENT_UPDATE_TIMEOUT) 152 with
  | Some _ => mret tt
  | None => raise (PyExn (XOther "OutOfFuel") [] None None)
  end.

Definition notify_data_ready : CU unit :=
  _ ← from_result umount;
  _ ← (if dynamic_client then from_result umount_from_host else mret tt);
  modify (fun s => s <| cu_data_ready := true |>).

Definition is_same_versions_error (e : pyexn) : bool :=
  bool_decide (ota_class e = Some (Rec ClientUpdateSameVersions)).

Definition execute_client_update : CU unit :=
  try_except
    (_ ← process_metadata true;
     _ ← download_client_package_resources;
     _ ← wait_sub_ecus;
     same ← gets is_same_client_package_version;
     if same : bool then
       raise (ota_error (Rec ClientUpdateSameVersions) "client package version is the same, skip client update"
                client_updater_module None)
     else _ ← copy_client_package; notify_data_ready)
    (fun e =>
       if is_same_versions_error e then raise e
       else if is_exception e
       then raise (ota_error (Rec ClientUpdateFailed) ("client update failed: " +:+ exn_repr e)%string
                     client_updater_module (Some e))
       else raise e).

(** The folder of the session goes, with what is below it. *)
Definition below (dir p : string) : bool := startswith (dir +:+ "/")%string p.

Definition client_execute : CU unit :=
  try_finally execute_client_update
    (modify (fun s => s <| cu_workdir := false |>
                        <| cu_files := filter (fun kv => below session_dir (fst kv) = false) (cu_files s) |>)).

(** ** Lemmas *)

(** What happens before the notification leaves the event and the folder. *)
Definition silent (s s' : cu_state) : Prop :=
  cu_data_ready s' = cu_data_ready s /\ cu_workdir s' = cu_workdir s.

#[local] Instance silent_preorder : PreOrder silent.
Proof. split; [done|]. intros x y z [] []. split; congruence. Qed.

Ltac keeps_step :=
  first [ apply keeps_bind; [exact _| |intros] | apply keeps_from_result; exact _
        | apply keeps_gets; exact _ | apply keeps_get; exact _
        | apply keeps_modify; intros; split; reflexivity | apply keeps_ret; exact _
        | apply keeps_raise; exact _
        | apply keeps_try_except; [exact _| |intros]
        | apply keeps_try_finally; [exact _| |]
        | match goal with |- keeps _ (match ?x with _ => _ end) => destruct x end
        | match goal with |- keeps _ (if ?x then _ else _) => destruct x end ].

Lemma on_meta_silent {A} (m : PyM OTAMetadata pyexn A) : keeps silent (on_meta m).
Proof. intros s. unfold on_meta. by destruct (m (cu_meta s)). Qed.

Lemma download_package_silent : keeps silent download_client_package.
Proof.
  unfold download_client_package, prepare_manifest, prepare_client_package, get_available_package_metadata,
    rootfs_url, fetch_file, read_file. repeat keeps_step.
Qed.

Lemma copy_package_silent : keeps silent copy_client_package.
Proof.
  unfold copy_client_package, get_target_squashfs_path, create_squashfs_from_patch, read_file. repeat keeps_step.
Qed.

Lemma process_metadata_silent only : keeps silent (process_metadata only).
Proof.
  unfold process_metadata, metadata_download_err_handler, client_report_phase, report.
  repeat first [apply on_meta_silent | keeps_step].
Qed.

Lemma resources_silent : keeps silent download_client_package_resources.
Proof.
  unfold download_client_package_resources, client_report_phase, report, shutdown_pool.
  repeat first [apply download_package_silent | keeps_step].
Qed.

Lemma wait_sub_ecus_ok s : wait_sub_ecus s = (s, Ok tt).
Proof.
  unfold wait_sub_ecus, wait_and_log.
  by destruct (wait_and_log_from_result 0 child_in_update false CLIENT_UPDATE_TIMEOUT 152 0) as (b & -> & _);
    [unfold CHECK_INTERVAL, CLIENT_UPDATE_TIMEOUT; lia|lia|].
Qed.

(** The phases before the notification, as one program. *)
Definition prepared : CU unit :=
  _ ← process_metadata true;
  _ ← download_client_package_resources;
  _ ← wait_sub_ecus;
  same ← gets is_same_client_package_version;
  if same : bool then
    raise (ota_error (Rec ClientUpdateSameVersions) "client package version is the same, skip client update"
             client_updater_module None)
  else copy_client_package.

Lemma prepared_silent : keeps silent prepared.
Proof.
  unfold prepared. repeat first [ apply process_metadata_silent | apply resources_silent | apply copy_package_silent
    | (intros s; rewrite wait_sub_ecus_ok; reflexivity) | keeps_step ].
Qed.

Lemma client_body_split s :
  (_ ← process_metadata true;
   _ ← download_client_package_resources;
   _ ← wait_sub_ecus;
   same ← gets is_same_client_package_version;
   if same : bool then
     raise (ota_error (Rec ClientUpdateSameVersions) "client package version is the same, skip client update"
              client_updater_module None)
   else _ ← copy_client_package; notify_data_ready) s = (prepared ≫= fun _ => notify_data_ready) s.
Proof.
  unfold prepared, mbind, pym_bind. destruct (process_metadata true s) as [s1 [[]|e]]; [|done].
  destruct (download_client_package_resources s1) as [s2 [[]|e]]; [|done]. rewrite wait_sub_ecus_ok.
  unfold gets. destruct (is_same_client_package_version s2); [done|].
  by destruct (copy_client_package s2) as [s3 [[]|e]].
Qed.

(** What the update may end with. *)
Definition client_update_error (e : pyexn) : Prop :=
  is_same_versions_error e = true \/ is_exception e = false \/
  exists c, ota_class e = Some (Rec ClientUpdateFailed) /\ exn_cause e = Some c /\ is_exception c = true.

Definition client_failure (e : pyexn) : pyexn :=
  if is_same_versions_error e then e
  else if is_exception e
  then ota_error (Rec ClientUpdateFailed) ("client update failed: " +:+ exn_repr e)%string
         client_updater_module (Some e)
  else e.

Lemma client_failure_error e : client_update_error (client_failure e).
Proof.
  unfold client_failure, client_update_error. destruct (is_same_versions_error e) eqn:E; [by left|].
  right. destruct (is_exception e) eqn:Ex; [|by left]. right. by exists e.
Qed.

Lemma execute_client_update_run s :
  execute_client_update s =
    let '(s1, r) := (prepared ≫= fun _ => notify_data_ready) s in
    (s1, match r with Ok x => Ok x | Raise e => Raise (client_failure e) end).
Proof.
  unfold execute_client_update, try_except. rewrite client_body_split.
  destruct ((prepared ≫= _) s) as [s1 [[]|e]]; [done|]. unfold client_failure.
  destruct (is_same_versions_error e); [done|]. by destruct (is_exception e).
Qed.

Lemma notified_iff s s' r :
  cu_data_ready s = false -> (prepared ≫= fun _ => notify_data_ready) s = (s', r) ->
  r = Ok tt <-> cu_data_ready s' = true.
Proof.
  intros Hd. unfold mbind, pym_bind. pose proof (prepared_silent s) as Hk.
  destruct (prepared s) as [s1 [[]|e]]; cbn in Hk; destruct Hk as [Hk _]; rewrite Hd in Hk.
  - unfold notify_data_ready, mbind, pym_bind, from_result.
    destruct umount as [[]|e]; [destruct dynamic_client; [destruct umount_from_host as [[]|e]|]|]; cbn;
      intros [= <- <-]; cbn; rewrite ?Hk; done.
  - intros [= <- <-]. by rewrite Hk.
Qed.

(** The client update of a session ends in one of three ways, and its
    folder is removed in each: it notified the main process and returned; it
    found the same version and raised that; or it raised
    [ClientUpdateFailed] caused by what went wrong (or an exit of the
    process).  The main process is never notified by an update that failed. *)
Theorem client_update_settles s s' r :
  cu_data_ready s = false -> client_execute s = (s', r) ->
  cu_workdir s' = false /\
  (r = Ok tt <-> cu_data_ready s' = true) /\
  (forall e, r = Raise e -> client_update_error e).
Proof.
  intros Hd. unfold client_execute. rewrite try_finally_ok, execute_client_update_run.
  destruct ((prepared ≫= _) s) as [s1 r1] eqn:E. pose proof (notified_iff _ _ _ Hd E) as Hn.
  cbn. intros [= <- <-]. cbn. split; [done|]. rewrite <-Hn. split.
  - destruct r1 as [[]|e]; by split.
  - intros e He. destruct r1 as [[]|e1]; [done|]. injection He as <-. apply client_failure_error.
Qed.

(** *** Successful runs *)

Lemma path_name_rel p : startswith "/" (path_name p) = false.
Proof.
  unfold path_name. destruct (list.last _) as [x|] eqn:E; [|done].
  change (default EmptyString (Some x)) with x.
  apply last_Some in E as [l E].
  assert (Hx : In x (List.filter str_truthy (py_split "/" p))) by (rewrite E; apply in_app_iff; right; by left).
  apply filter_In in Hx as [Hx _]. pose proof (py_split_elems "/" p) as Hf.
  rewrite Forall_forall in Hf. apply list_elem_of_In in Hx. specialize (Hf x Hx).
  destruct x as [|a x]; [done|]. unfold no_char in Hf. cbn in Hf. apply andb_true_iff in Hf as [Ha _].
  apply negb_true_iff in Ha. change (startswith "/" (String a x)) with (Ascii.eqb "/" a && startswith EmptyString x).
  by rewrite Ascii.eqb_sym, Ha.
Qed.

Lemma below_pjoin d n : startswith "/" n = false -> below d (pjoin d n) = true.
Proof.
  intros H. unfold below, pjoin. rewrite H. rewrite <-str_app_assoc. apply startswith_app.
Qed.

Lemma fetch_file_ok i s s' :
  fetch_file i s = (s', Ok tt) ->
  exists c, fetch i = Ok c /\
    s' = s <| cu_asked := cu_asked s ++ [i] |> <| cu_files := <[di_dst i := c]> (cu_files s) |>.
Proof.
  unfold fetch_file. intros H. apply pym_bind_ok in H as (s1 & [] & H1 & H). injection H1 as <-.
  apply pym_bind_ok in H as (s2 & c & H2 & H). apply from_result_ok in H2 as [Hc ->].
  injection H as <-. eauto.
Qed.

Lemma rootfs_url_ok s s' u :
  rootfs_url s = (s', Ok u) -> s' = s /\ exists jwt, om_metadata_jwt (cu_meta s) = Some jwt /\ u = rootfs_url_of jwt.
Proof.
  unfold rootfs_url, mbind, pym_bind, get. destruct (om_metadata_jwt (cu_meta s)); [intros [= <- <-]; eauto|done].
Qed.

Lemma read_file_ok q s s' c : read_file q s = (s', Ok c) -> s' = s /\ cu_files s !! q = Some c.
Proof.
  unfold read_file, mbind, pym_bind, get. destruct (cu_files s !! q) eqn:E; [|done].
  by intros [= <- <-].
Qed.

(** The files that the session writes below its download folder. *)
Definition downloads_only (f f' : gmap string string) : Prop :=
  forall q, below download_dir q = false -> f' !! q = f !! q.

Lemma prepare_manifest_ok s s' :
  prepare_manifest s = (s', Ok tt) ->
  exists jwt text m, om_metadata_jwt (cu_meta s) = Some jwt /\ fetch (manifest_info (rootfs_url_of jwt)) = Ok text /\
    validate_manifest text = Ok m /\
    cu_manifest s' = Some m /\ cu_meta s' = cu_meta s /\ downloads_only (cu_files s) (cu_files s').
Proof.
  unfold prepare_manifest. intros H. apply pym_bind_ok in H as (s1 & u & H1 & H). apply rootfs_url_ok in H1 as (-> & jwt & Hj & ->).
  apply pym_bind_ok in H as (s2 & [] & H2 & H). apply fetch_file_ok in H2 as (c & Hc & ->).
  apply pym_bind_ok in H as (s3 & t & H3 & H).
  apply read_file_ok in H3 as [-> Ht]. cbn in Ht. rewrite lookup_insert_eq in Ht. injection Ht as <-.
  apply pym_bind_ok in H as (s4 & m & H4 & H). apply from_result_ok in H4 as [Hv ->]. injection H as <-.
  exists jwt, c, m. cbn. split_and!; [done..|]. intros q Hq. apply lookup_insert_ne. intros <-.
  by rewrite below_pjoin in Hq by apply path_name_rel.
Qed.

(** The package that a manifest offers to this device: a patch for the running
    version when it can be applied, else a full package. *)
Definition offered (m : Manifest) (files : gmap string string) (p : ReleasePackage) : Prop :=
  p ∈ mn_packages m /\ architecture = Some (pk_architecture p) /\
  let patch q := pk_architecture q = pk_architecture p /\ pk_type q = PACKAGE_TYPE_PATCH /\
                 pk_patch_base q = Some client_version /\ client_version <> EmptyString in
  let can_patch := has_zstd = true /\ is_Some (files !! current_squashfs_path) in
  (can_patch /\ patch p) \/
  (pk_type p = PACKAGE_TYPE_SQUASHFS /\ (can_patch -> forall q, q ∈ mn_packages m -> ~ patch q)).

Lemma is_patch_for_spec arch q :
  is_patch_for arch q = true <->
  pk_architecture q = arch /\ pk_type q = PACKAGE_TYPE_PATCH /\ pk_patch_base q = Some client_version /\
    client_version <> EmptyString.
Proof.
  unfold is_patch_for. rewrite !andb_true_iff, !bool_decide_eq_true. destruct (pk_patch_base q) as [v|].
  - rewrite andb_true_iff, String.eqb_eq. split.
    + intros ([H1 H2] & H3 & ->). split_and!; try done. by destruct client_version.
    + intros (H1 & H2 & [= ->] & H4). split_and!; try done. by destruct client_version.
  - split; [by intros [_ ?]|by intros (_ & _ & ? & _)].
Qed.

Lemma available_package_ok s s' p :
  get_available_package_metadata s = (s', Ok p) ->
  s' = s /\ exists m, cu_manifest s = Some m /\ offered m (cu_files s) p.
Proof.
  unfold get_available_package_metadata, mbind, pym_bind, get.
  destruct (cu_manifest s) as [m|]; [|done]. destruct architecture as [arch|] eqn:Ea; [|done]. unfold offered. rewrite Ea.
  destruct (bool_decide (is_Some (cu_files s !! current_squashfs_path)) && has_zstd) eqn:Ec.
  - apply andb_true_iff in Ec as [Hb%bool_decide_eq_true Hz].
    destruct (List.find (is_patch_for arch) (mn_packages m)) as [q|] eqn:Ep.
    + intros [= <- <-]. split; [done|]. exists m. apply find_some in Ep as [Hin Hq]. apply list_elem_of_In in Hin.
      apply is_patch_for_spec in Hq as (H1 & H2 & H3 & H4). split_and!; [done..|congruence|]. left. by split_and!.
    + destruct (List.find (is_squashfs_for arch) _) as [q|] eqn:Eq; [|done]. intros [= <- <-]. split; [done|]. exists m.
      apply find_some in Eq as [Hin Hq]. apply list_elem_of_In in Hin.
      apply andb_true_iff in Hq as [H1%bool_decide_eq_true H2%bool_decide_eq_true].
      split_and!; [done..|congruence|]. right. split; [done|]. intros _ x Hx (X1 & X2 & X3 & X4).
      apply list_elem_of_In in Hx. pose proof (find_none _ _ Ep x Hx) as Hn.
      rewrite (proj2 (is_patch_for_spec arch x)) in Hn by (by split_and!; [congruence|..]). done.
  - destruct (List.find (is_squashfs_for arch) _) as [q|] eqn:Eq; [|done]. intros [= <- <-]. split; [done|]. exists m.
    apply find_some in Eq as [Hin Hq]. apply list_elem_of_In in Hin.
    apply andb_true_iff in Hq as [H1%bool_decide_eq_true H2%bool_decide_eq_true].
    split_and!; [done..|congruence|]. right. split; [done|]. intros [Hz Hb]. rewrite Hz, bool_decide_true in Ec by done. done.
Qed.

Lemma prepare_package_ok s s' :
  prepare_client_package s = (s', Ok tt) ->
  exists jwt m p c alg d, om_metadata_jwt (cu_meta s) = Some jwt /\
    cu_manifest s = Some m /\ cu_manifest s' = Some m /\ offered m (cu_files s) p /\
    partition_colon (pk_checksum p) = (alg, d) /\ str_truthy d = true /\
    fetch (package_info (rootfs_url_of jwt) p alg d) = Ok c /\
    cu_meta s' = cu_meta s /\ cu_package s' = Some p /\
    cu_downloaded s' = pjoin download_dir (pk_filename p) /\ cu_files s' !! cu_downloaded s' = Some c /\
    (startswith "/" (pk_filename p) = false -> downloads_only (cu_files s) (cu_files s')).
Proof.
  unfold prepare_client_package. intros H. apply pym_bind_ok in H as (s1 & p & H1 & H).
  apply available_package_ok in H1 as (-> & m & Hm & Ho).
  destruct (partition_colon (pk_checksum p)) as [alg d] eqn:Ec.
  destruct (negb (str_truthy alg) || negb (str_truthy d)) eqn:Et; [done|].
  apply orb_false_iff in Et as [_ Et%negb_false_iff].
  apply pym_bind_ok in H as (s1 & u & H1 & H). apply rootfs_url_ok in H1 as (-> & jwt & Hj & ->).
  apply pym_bind_ok in H as (s2 & [] & H2 & H). apply fetch_file_ok in H2 as (c & Hc & ->).
  injection H as <-. exists jwt, m, p, c, alg, d. cbn.
  split_and!; try done; cbn; [apply lookup_insert_eq|].
  intros Hrel q Hq. apply lookup_insert_ne. intros <-. by rewrite below_pjoin in Hq.
Qed.

Lemma process_metadata_ok only s s' :
  process_metadata only s = (s', Ok tt) ->
  download_metafiles only (cu_meta s) = (cu_meta s', Ok tt) /\ is_Some (om_metadata_jwt (cu_meta s')) /\
  cu_files s' = cu_files s.
Proof.
  unfold process_metadata. intros H. apply pym_bind_ok in H as (s1 & [] & H1 & H). injection H1 as <-.
  apply pym_bind_ok in H as (s2 & [] & H2 & H). unfold metadata_download_err_handler in H2.
  apply try_except_ok in H2; [|intros e s3 []; by destruct (_ || _)].
  unfold on_meta in H2. cbn in H2. destruct (download_metafiles only (cu_meta s)) as [ms r] eqn:E.
  injection H2 as <- ->. unfold mbind, pym_bind, get in H. cbn in H.
  destruct (om_metadata_jwt ms) as [jwt|] eqn:Ej; [|done]. injection H as <-. cbn. rewrite Ej. eauto.
Qed.

Lemma resources_ok s s' :
  download_client_package_resources s = (s', Ok tt) ->
  exists s1 s2, download_client_package s1 = (s2, Ok tt) /\ cu_meta s1 = cu_meta s /\ cu_files s1 = cu_files s /\
    s' = s2 <| cu_pool_shutdown := true |>.
Proof.
  unfold download_client_package_resources. intros H. apply pym_bind_ok in H as (s1 & [] & H1 & H).
  injection H1 as <-. unfold shutdown_pool in H. rewrite try_finally_ok in H. injection H as <- H.
  match type of H with snd (?m ?x) = _ => destruct (m x) as [s2 r] eqn:E end. cbn in H. subst r.
  apply try_except_ok in E; [|intros e s3 []; by destruct (is_exception e)].
  eexists _, s2. by split_and!.
Qed.

Lemma patch_ok target s s' :
  create_squashfs_from_patch target s = (s', Ok tt) ->
  exists base delta out, cu_files s !! current_squashfs_path = Some base /\
    cu_files s !! cu_downloaded s = Some delta /\ zstd base delta = Some out /\
    cu_files s' !! target = Some out.
Proof.
  unfold create_squashfs_from_patch, mbind, pym_bind, get.
  destruct (cu_package s) as [p|]; [|done]. destruct (negb has_zstd); [done|].
  destruct (negb (isalnum _)); [done|]. cbn.
  destruct (cu_files s !! current_squashfs_path) as [base|]; [|done].
  destruct (cu_files s !! cu_downloaded s) as [delta|]; [|done].
  destruct (zstd base delta) as [out|] eqn:Ez; [|done]. intros [= <-]. cbn.
  exists base, delta, out. split_and!; try done. apply lookup_insert_eq.
Qed.

(** The file that the main process is told to launch. *)
Lemma copy_ok s s' p :
  cu_package s = Some p -> copy_client_package s = (s', Ok tt) ->
  exists content, cu_files s' !! squashfs_file = Some content /\ cu_manifest s' = cu_manifest s /\
    (pk_type p = PACKAGE_TYPE_SQUASHFS -> cu_files s !! cu_downloaded s = Some content) /\
    (pk_type p = PACKAGE_TYPE_PATCH -> cu_files s !! pjoin session_dir (path_name squashfs_file) = None ->
     exists base delta, cu_files s !! current_squashfs_path = Some base /\
       cu_files s !! cu_downloaded s = Some delta /\ zstd base delta = Some content).
Proof.
  intros Hp. unfold copy_client_package. intros H. apply pym_bind_ok in H as (s1 & src & H1 & H).
  apply pym_bind_ok in H as (s2 & content & H2 & H). apply read_file_ok in H2 as [-> Hc]. injection H as <-.
  exists content. unfold get_target_squashfs_path in H1. unfold mbind at 1, pym_bind at 1, get at 1 in H1.
  rewrite Hp in H1. cbn -[create_squashfs_from_patch]. rewrite lookup_insert_eq. split; [done|].
  case_bool_decide as Ht; [|injection H1 as <- <-; split_and!; by rewrite ?Ht].
  apply pym_bind_ok in H1 as (s3 & [] & H3 & H1). injection H1 as <- <-.
  case_bool_decide as Hex.
  - injection H3 as <-. split_and!; [done|congruence|]. intros _ Hn. rewrite Hn in Hex. by destruct Hex.
  - split_and!.
    + assert (Hk : keeps (fun x y => cu_manifest y = cu_manifest x)
        (create_squashfs_from_patch (pjoin session_dir (path_name squashfs_file)))).
      { assert (PreOrder (fun x y : cu_state => cu_manifest y = cu_manifest x))
          by (split; [done|intros x y z ? ?; congruence]).
        unfold create_squashfs_from_patch. repeat first [apply keeps_modify; intros; reflexivity | keeps_step]. }
      specialize (Hk s). by rewrite H3 in Hk.
    + congruence.
    + intros _ _. apply patch_ok in H3 as (base & delta & out & Hb & Hd & Hz & Ho). exists base, delta.
      rewrite Ho in Hc. injection Hc as <-. by split_and!.
Qed.

Context (hexdigest : string -> string) `{Hverified : !VerifiedFetch hexdigest fetch}.

(** C33. The client that the main process is told to launch is one the session
    verified: the image's metadata was verified first; the manifest was read
    from the place below the root file system that the verified claims name;
    no package of it has the running version; the launched squashfs file comes
    from the package that this manifest offers to the device (of its
    architecture; a patch for the running version when there is one and the
    device can apply it, else a full package), whose download has the
    manifest's checksum, read as SHA-256.  A full package is installed as it
    is; a patch is applied to the squashfs file installed before the session,
    given that its file name and the folders of the session do not collide
    with that file.  (A download that returns has the digest it was asked
    for.) *)
Theorem launched_client_verified s s' r :
  cu_data_ready s = false -> below session_dir squashfs_file = false ->
  below download_dir current_squashfs_path = false ->
  client_execute s = (s', r) -> cu_data_ready s' = true ->
  exists ms jwt text m p alg c content,
    download_metafiles true (cu_meta s) = (ms, Ok tt) /\ om_metadata_jwt ms = Some jwt /\
    fetch (manifest_info (rootfs_url_of jwt)) = Ok text /\ validate_manifest text = Ok m /\
    (forall q, q ∈ mn_packages m -> pk_version q <> client_version) /\
    offered m (cu_files s) p /\
    partition_colon (pk_checksum p) = (alg, hexdigest c) /\
    fetch (package_info (rootfs_url_of jwt) p alg (hexdigest c)) = Ok c /\
    cu_files s' !! squashfs_file = Some content /\
    (pk_type p = PACKAGE_TYPE_SQUASHFS -> content = c) /\
    (pk_type p = PACKAGE_TYPE_PATCH ->
       startswith "/" (pk_filename p) = false ->
       below download_dir (pjoin session_dir (path_name squashfs_file)) = false ->
       cu_files s !! pjoin session_dir (path_name squashfs_file) = None ->
       exists base, cu_files s !! current_squashfs_path = Some base /\ zstd base c = Some content).
Proof using Hverified.
  intros Hd Hsq Hcur. unfold client_execute. rewrite try_finally_ok, execute_client_update_run.
  destruct ((prepared ≫= _) s) as [s1 r1] eqn:E. pose proof (notified_iff _ _ _ Hd E) as Hn.
  cbn. intros [= <- <-]. cbn. intros Hr%Hn. subst r1.
  apply pym_bind_ok in E as (s2 & [] & E & En).
  assert (Hfs : cu_files s1 = cu_files s2).
  { unfold notify_data_ready, mbind, pym_bind, from_result in En. destruct umount as [[]|]; [|done].
    destruct dynamic_client; [destruct umount_from_host as [[]|]; [|done]|]; by injection En as <-. }
  unfold prepared in E. apply pym_bind_ok in E as (t1 & [] & E1 & E).
  apply process_metadata_ok in E1 as (Hm1 & Hj & Hf1).
  apply pym_bind_ok in E as (t2 & [] & E2 & E). apply resources_ok in E2 as (u1 & u2 & E2 & Hmu & Hfu & ->).
  apply pym_bind_ok in E as (t3 & [] & E3 & E). rewrite wait_sub_ecus_ok in E3. injection E3 as <-.
  apply pym_bind_ok in E as (t3 & same & E3 & E). injection E3 as <- <-.
  unfold download_client_package in E2. apply pym_bind_ok in E2 as (v1 & [] & F1 & E2).
  apply prepare_manifest_ok in F1 as (jwt & text & m & Hjw & Hft & Hvm & Hm & Hmv & Hfm).
  apply pym_bind_ok in E2 as (v2 & same & F2 & E2). injection F2 as <- <-.
  destruct (is_same_client_package_version _) eqn:Esame in E; [done|].
  destruct (is_same_client_package_version v1) eqn:Es1.
  { injection E2 as ->. unfold is_same_client_package_version in *. cbn in Esame. congruence. }
  apply prepare_package_ok in E2 as (jwt' & m' & p & c & alg & d & Hj' & Hm' & Hmu2 & Hof & Hcs & Hdt & Hfe & _ & Hpk & Hdl & Hdc & Hrel).
  rewrite Hm in Hm'. injection Hm' as <-. rewrite Hmv, Hjw in Hj'. injection Hj' as <-.
  assert (hexdigest c = d) as Hhash by (eapply (fetch_verified _ _ _ Hfe); [done|by destruct d]). subst d.
  apply (copy_ok _ _ p) in E as (content & Hc & _ & Hsqc & Hpat); [|done]. cbn in Hsqc, Hpat.
  assert (Hbase0 : cu_files v1 !! current_squashfs_path = cu_files s !! current_squashfs_path)
    by (rewrite Hfm, Hfu, Hf1 by done; done).
  exists (cu_meta t1), jwt, text, m, p, alg, c, content. rewrite Hm1, <- Hmu. split_and!; try done.
  - intros q Hq Hv. unfold is_same_client_package_version in Es1. rewrite Hm in Es1.
    apply list_elem_of_In in Hq. assert (existsb (fun p => String.eqb (pk_version p) client_version) (mn_packages m) = true)
      by (apply existsb_exists; exists q; split; [done|by apply String.eqb_eq]). congruence.
  - unfold offered in *. by rewrite Hbase0 in Hof.
  - rewrite map_lookup_filter, Hfs, Hc. cbn. by rewrite option_guard_True.
  - intros Ht. rewrite (Hsqc Ht) in Hdc. by injection Hdc as ->.
  - intros Ht Hrp Hb2 Hnone.
    destruct (Hpat Ht) as (base & delta & Hbase & Hdelta & Hz).
    + rewrite (Hrel Hrp) by done. rewrite Hfm, Hfu, Hf1 by done. done.
    + exists base. rewrite (Hrel Hrp), Hbase0 in Hbase by done. split; [done|].
      rewrite Hdelta in Hdc. by injection Hdc as ->.
Qed.

(** The manifest itself is taken as it comes: its download asks for no
    digest, so the claims that were verified say nothing about the packages
    it lists. *)
Theorem manifest_unverified s s' r :
  is_Some (om_metadata_jwt (cu_meta s)) -> prepare_manifest s = (s', r) ->
  exists i, cu_asked s' = cu_asked s ++ [i] /\ di_digest i = None /\ di_original_size i = 0 /\
    (forall text, fetch i = Ok text -> forall m, validate_manifest text = Ok m -> cu_manifest s' = Some m).
Proof using.
  clear Hverified. intros [jwt Hj]. unfold prepare_manifest, rootfs_url, fetch_file, read_file, mbind, pym_bind, get, from_result, modify.
  rewrite Hj. cbn [mret pym_ret]. destruct (fetch _) as [text|e] eqn:Ef.
  - cbn. rewrite lookup_insert_eq. cbn. destruct (validate_manifest text) as [m|e] eqn:Ev; intros Hrun;
      apply (f_equal fst) in Hrun; cbn in Hrun; subst s'; cbn;
      (eexists; split_and!; [reflexivity|done|done|]); intros t Ht m' Hm; pose proof (eq_trans (eq_sym Ht) Ef) as Hx; injection Hx as ->;
      rewrite Ev in Hm; congruence.
  - intros [= <- <-]. eexists. split_and!; [reflexivity|done|done|]. intros t Ht. discriminate (eq_trans (eq_sym Ht) Ef).
Qed.

(** A file name of the manifest that is an absolute path leaves the download
    folder: the package is written to that path of the running system. *)
Theorem manifest_filename_escapes s p alg d :
  get_available_package_metadata s = (s, Ok p) -> is_Some (om_metadata_jwt (cu_meta s)) ->
  startswith "/" (pk_filename p) = true -> partition_colon (pk_checksum p) = (alg, d) ->
  str_truthy alg = true -> str_truthy d = true ->
  exists i, cu_asked (fst (prepare_client_package s)) = cu_asked s ++ [i] /\ di_dst i = pk_filename p.
Proof using.
  clear Hverified. intros Hp [jwt Hj] Hf Hc Ha Hd. unfold prepare_client_package. unfold mbind at 1, pym_bind at 1. rewrite Hp, Hc, Ha, Hd.
  cbn [negb orb]. unfold rootfs_url, fetch_file, mbind, pym_bind, get, from_result, modify. rewrite Hj. cbn [mret pym_ret].
  destruct (fetch _); cbn; (eexists; split; [reflexivity|]); unfold package_info, pjoin; cbn [di_dst]; by rewrite Hf.
Qed.
End ClientUpdate.

(** ** Witnesses *)

Definition example_package : ReleasePackage :=
  mkReleasePackage "otaclient.squashfs" "3.10.0" PACKAGE_TYPE_SQUASHFS ARCHITECTURE_X86_64 3 "sha256:d0" None.
Definition example_patch : ReleasePackage :=
  mkReleasePackage "otaclient.patch" "3.10.0" PACKAGE_TYPE_PATCH ARCHITECTURE_X86_64 3 "sha256:d0" (Some "3.9.0"%string).
Definition example_manifest : Manifest := mkManifest "1" "2025-01-01" [example_package; example_patch].

Definition example_client_fetch (i : DownloadInfo) : result pyexn string :=
  match di_digest i with
  | None => Ok "manifest"%string
  | Some d => if String.eqb d "d0" then Ok "patch"%string else Raise (PyExn (XOther "VerificationFailed") [] None None)
  end.
Definition example_client_hash (_ : string) : string := "d0".
Definition example_zstd (base delta : string) : option string := Some (base +:+ delta)%string.

Definition example_claims : claims :=
  let f := mkMetaFile "f" "h" in mkClaims 1 10 "data" EmptyString f f f f f.
Definition example_metafiles (_ : bool) : PyM OTAMetadata pyexn unit :=
  modify (fun m => m <| om_metadata_jwt := Some example_claims |>).

Definition example_client_state : cu_state :=
  mkCuState example_start None None EmptyString
    {["/opt/ota/otaclient_release/.otaclient.squashfs"%string := "old+"%string]} [] [] [] false false true.

Definition example_client_run : cu_state * result pyexn unit :=
  client_execute "3.9.0" "x86_64" "x86_64" true example_zstd (fun b u => (b +:+ u)%string) "http://ecu"
    "/run/s" "/run/s/.download_1" "/opt/ota/otaclient_release" "/.otaclient.squashfs"
    (fun _ => Ok example_manifest) example_client_fetch example_metafiles 5 7 (fun n => (n <? 2)%nat) true
    (Ok tt) (Ok tt) example_client_state.

Lemma launched_client_verified_witness :
  exists s', example_client_run = (s', Ok tt) /\
    exists content, cu_files s' !! "/.otaclient.squashfs"%string = Some content /\ content = "old+patch"%string.
Proof.
  exists (fst example_client_run). split; [vm_compute; reflexivity|].
  assert (Hv : VerifiedFetch example_client_hash example_client_fetch).
  { intros i c d. unfold example_client_fetch. intros H Hd _. rewrite Hd in H.
    destruct (String.eqb_spec d "d0"); [by subst|done]. }
  destruct (launched_client_verified "3.9.0" "x86_64" "x86_64" true example_zstd (fun b u => (b +:+ u)%string) "http://ecu"
    "/run/s" "/run/s/.download_1" "/opt/ota/otaclient_release" "/.otaclient.squashfs"
    (fun _ => Ok example_manifest) example_client_fetch example_metafiles 5 7 (fun n => (n <? 2)%nat) true
    (Ok tt) (Ok tt) example_client_hash example_client_state (fst example_client_run) (Ok tt)
    eq_refl eq_refl eq_refl ltac:(vm_compute; reflexivity) ltac:(vm_compute; reflexivity))
    as (ms & jwt & text & m & p & alg & c & content & _ & _ & _ & _ & _ & _ & _ & _ & Hc & _).
  exists content. split; [exact Hc|]. vm_compute in Hc. by injection Hc as <-.
Defined.

Lemma client_update_settles_witness :
  cu_workdir (fst example_client_run) = false /\ cu_data_ready (fst example_client_run) = true.
Proof.
  destruct (client_update_settles "3.9.0" "x86_64" "x86_64" true example_zstd (fun b u => (b +:+ u)%string) "http://ecu"
    "/run/s" "/run/s/.download_1" "/opt/ota/otaclient_release" "/.otaclient.squashfs"
    (fun _ => Ok example_manifest) example_client_fetch example_metafiles 5 7 (fun n => (n <? 2)%nat) true
    (Ok tt) (Ok tt) example_client_state (fst example_client_run) (Ok tt) eq_refl ltac:(vm_compute; reflexivity))
    as (H1 & H2 & _).
  split; [exact H1|]. by apply H2.
Defined.
