(* ===== verification/Configs.v ===== *)
(** * Configuration of the OTA client

    Models [src/src/otaclient/configs/_proxy_info.py] and [_ecu_info.py] (the
    two configuration files of a device, their defaults and what is derived
    from them), [_cfg_consts.py] and [_cfg_configurable.py] (the constants and
    the settings), [cfg.py] (the lookup of a setting), and the arguments that
    [otaproxy_process] of [src/src/otaclient/_otaproxy_ctx.py] passes to the
    proxy.  Reading YAML and the validation by pydantic are parameters. *)

From stdpp Require Import base list option strings sets pretty.
From Stdlib Require Import ZArith String Ascii Lia.
From S2P Require Import Prelude Errors LegacyMetadata Servicer PartitionBoot.

(** ** The configuration files *)

(** The addresses are their texts. *)
Record ProxyInfo : Type := mkProxyInfo {
  pri_format_version : Z;
  upper_ota_proxy : option string;
  enable_local_ota_proxy : bool;
  local_ota_proxy_listen_addr : string;
  local_ota_proxy_listen_port : Z;
  enable_local_ota_proxy_cache : bool;
  logging_server : option string;
  logging_server_grpc : option string;
  external_nfs_cache_mnt_point : option string;
}.

Definition LOGGING_SERVER_PORT : Z := 8083.
Definition LOGGING_SERVER_GRPC_PORT : Z := 8084.

Definition DEFAULT_PROXY_INFO : ProxyInfo :=
  mkProxyInfo 1 None true "0.0.0.0" 8082 true
    (Some ("http://127.0.0.1:" +:+ pretty LOGGING_SERVER_PORT +:+ "/")%string)
    (Some ("http://127.0.0.1:" +:+ pretty LOGGING_SERVER_GRPC_PORT +:+ "/")%string) None.

Definition get_proxy_for_local_ota (p : ProxyInfo) : option string :=
  if enable_local_ota_proxy p
  then Some ("http://" +:+ local_ota_proxy_listen_addr p +:+ ":" +:+ pretty (local_ota_proxy_listen_port p))%string
  else upper_ota_proxy p.

Definition gateway_otaproxy (p : ProxyInfo) : bool := negb (bool_decide (is_Some (upper_ota_proxy p))).

Record ECUInfo : Type := mkECUInfo {
  ei_format_version : Z;
  ei_ecu_id : string;
  ei_ip_addr : string;
  ei_bootloader : BootloaderType;
  ei_available_ecu_ids : list string;
  ei_secondaries : list ECUContact;
  ei_dpi_executable : option string;
}.

Definition DEFAULT_ECU_INFO : ECUInfo := mkECUInfo 1 "autoware" "127.0.0.1" AUTO_DETECT [] [] None.

Definition get_available_ecu_ids (e : ECUInfo) : list string :=
  match ei_available_ecu_ids e with [] => [ei_ecu_id e] | l => l end.

Section Load.
Context {A : Type} (default_info : A).
(** [yaml.safe_load] and [model_validate(_, strict=True)]. *)
Context (safe_load : string -> result pyexn json) (model_validate : list (string * json) -> result pyexn A).

(** [load_proxy_info] and [load_ecu_info] *)
Definition load_info (raw_yaml : string) : result pyexn A :=
  match safe_load raw_yaml with
  | Raise e => Raise e
  | Ok (JObject d) => model_validate d
  | Ok _ => Raise (PyExn (XOther "AssertionError") [AStr "not a valid yaml file"] None None)
  end.

Definition is_file_not_found (e : pyexn) : bool := bool_decide (oserror_errno e = Some (Some 2)).

(** [parse_proxy_info] and [parse_ecu_info]: [file] is what [read_text] of the
    file does. *)
Definition parse_info (file : result pyexn string) : result pyexn (bool * A) :=
  match file with
  | Raise e => if is_file_not_found e then Ok (false, default_info) else Raise e
  | Ok raw =>
      match load_info raw with
      | Ok info => Ok (true, info)
      | Raise e => if is_exception e then Ok (false, default_info) else Raise e
      end
  end.
End Load.

Definition parse_proxy_info := parse_info DEFAULT_PROXY_INFO.
Definition parse_ecu_info := parse_info DEFAULT_ECU_INFO.

(** ** Settings *)

Inductive StorageDeviceType : Type := StorageL1 | StorageL2 | StorageL3.

(** [map_to_download_threads]; [cpu_count or 4]. *)
Definition map_to_download_threads (t : StorageDeviceType) (cpu_count : Z) : Z :=
  let factor := (if cpu_count =? 0 then 4 else cpu_count) + 4 in
  match t with
  | StorageL1 => Z.min 24 (Z.max 16 factor)
  | StorageL2 => Z.min 20 (Z.max 16 factor)
  | StorageL3 => Z.min 14 (Z.max 8 factor)
  end.

(** [cfg.<name>]: the constants come before the settings. *)
Definition cfg_getattr {V} (consts settings : pydict V) (name : string) : result pyexn V :=
  match dict_get name consts with
  | Some v => Ok v
  | None =>
      match dict_get name settings with
      | Some v => Ok v
      | None => Raise (PyExn XAttributeError [AStr ("no such config field: name=" +:+ str_repr name)%string] None None)
      end
  end.

(** [set_configs]: [parsed] is what pydantic reads from the environment. *)
Definition set_configs {S} (defaults : S) (parsed : result pyexn S) : result pyexn S :=
  match parsed with
  | Ok s => Ok s
  | Raise e => if is_exception e then Ok defaults else Raise e
  end.

(** ** The proxy that is launched *)

Record otaproxy_args : Type := mkOtaproxyArgs {
  oa_host : string;
  oa_port : Z;
  oa_init_cache : bool;
  oa_upper_proxy : string;
  oa_enable_cache : bool;
  oa_enable_https : bool;
  oa_external_cache_mnt_point : option string;
  oa_external_nfs_cache_mnt_point : option string;
}.

(** [otaproxy_process] up to [run_otaproxy]; with an upper proxy it waits for
    that one first. *)
Definition otaproxy_process_args (enable_external_cache : bool) (external_mnt : string) (init_cache : bool)
    (p : ProxyInfo) : otaproxy_args :=
  mkOtaproxyArgs (local_ota_proxy_listen_addr p) (local_ota_proxy_listen_port p) init_cache
    (opt_str_or (upper_ota_proxy p) EmptyString)
    (enable_local_ota_proxy_cache p && negb (bool_decide (is_Some (upper_ota_proxy p))))
    (gateway_otaproxy p)
    (if enable_external_cache then Some external_mnt else None)
    (match external_nfs_cache_mnt_point p with
     | Some mp => if str_truthy mp then Some mp else None
     | None => None
     end).

(** ** Properties *)

(** The number of download threads stays in the range of the device's tier,
    whatever number of CPUs is reported, and a faster tier never gets fewer. *)
Theorem download_threads_bounds t n :
  (match t with StorageL1 => 16 <= map_to_download_threads t n <= 24
              | StorageL2 => 16 <= map_to_download_threads t n <= 20
              | StorageL3 => 8 <= map_to_download_threads t n <= 14 end) /\
  map_to_download_threads StorageL3 n <= map_to_download_threads StorageL2 n <=
  map_to_download_threads StorageL1 n.
Proof. unfold map_to_download_threads. destruct (n =? 0), t; lia. Qed.

(** A configuration file never keeps the client from starting when it is
    missing or invalid: parsing then yields the default, marked as such, and
    a valid file yields exactly its content.  Only a file that is there and
    cannot be read stops it. *)
Theorem config_file_settles {A} (d : A) safe_load validate file :
  match parse_info d safe_load validate file with
  | Ok (true, info) => exists raw, file = Ok raw /\ load_info safe_load validate raw = Ok info
  | Ok (false, info) => info = d /\
      ((exists e, file = Raise e /\ is_file_not_found e = true) \/
       exists raw e, file = Ok raw /\ load_info safe_load validate raw = Raise e)
  | Raise e => (file = Raise e /\ is_file_not_found e = false) \/ is_exception e = false
  end.
Proof.
  unfold parse_info. destruct file as [raw|e].
  - destruct (load_info safe_load validate raw) as [info|e] eqn:El; [eauto|].
    destruct (is_exception e) eqn:Ee; [|by right]. split; [done|]. right. eauto.
  - destruct (is_file_not_found e) eqn:Ee; [|by left]. split; [done|]. left. eauto.
Qed.

(** The docstring of [parse_proxy_info] has it return the default when the
    file is not loaded; a file without read permission raises instead. *)
Example unreadable_config_raises :
  parse_proxy_info (fun _ => Ok JNull) (fun _ => Ok DEFAULT_PROXY_INFO)
    (Raise (PyExn (XOSError (Some 13)) [] None None)) = Raise (PyExn (XOSError (Some 13)) [] None None).
Proof. reflexivity. Qed.

(** In a chain of proxies only the last one, which has no upper proxy,
    talks HTTPS to the remote and keeps a cache; every other one relays plain
    HTTP to its upper proxy and caches nothing.  The local client uses its
    own proxy whenever there is one, and the upper proxy otherwise. *)
Theorem only_gateway_caches ext mnt init p :
  let a := otaproxy_process_args ext mnt init p in
  (upper_ota_proxy p <> None -> oa_enable_cache a = false /\ oa_enable_https a = false) /\
  (upper_ota_proxy p = None -> oa_upper_proxy a = EmptyString /\ oa_enable_https a = true /\
     oa_enable_cache a = enable_local_ota_proxy_cache p) /\
  (enable_local_ota_proxy p = true ->
   get_proxy_for_local_ota p = Some ("http://" +:+ oa_host a +:+ ":" +:+ pretty (oa_port a))%string) /\
  (enable_local_ota_proxy p = false -> get_proxy_for_local_ota p = upper_ota_proxy p).
Proof.
  unfold otaproxy_process_args, get_proxy_for_local_ota, gateway_otaproxy. cbn.
  destruct (upper_ota_proxy p) as [u|]; (split_and!; [intros H|intros H|by intros ->|by intros ->]); try done.
  - by rewrite bool_decide_true, andb_false_r by eauto.
  - rewrite bool_decide_false by (intros []; discriminate). by rewrite andb_true_r.
Qed.
