(* ===== verification/Processes.v ===== *)
(** * The processes of the OTA client

    Models [src/src/otaclient/main.py] (the main process: its health checks,
    the shutdown that happens once, the launch of the downloaded client) and
    [src/src/otaclient/_otaproxy_ctx.py] (the thread that starts and stops the
    proxy process), and [check_other_otaclient] of
    [src/src/otaclient/_utils.py].

    Waiting is left out; the thread of the proxy and the main thread are
    interleaved where they share state, a section under
    [_global_process_lock] being one step. *)

From stdpp Require Import base list option strings sets relations pretty.
From Stdlib Require Import ZArith String Ascii Lia.
From S2P Require Import Prelude Errors FileSystem CmdHelper.

(** ** The proxy process *)

Definition OTAPROXY_MIN_STARTUP_TIME : Z := 120.
Definition OTA_CACHE_DIR_CHECK_INTERVAL : Z := 60.

Inductive proxy_event : Type :=
| EvSpawn (t : Z)
| EvStop (t : Z)           (** terminated by the control thread *)
| EvCleanup (t : Z).       (** the cache folder removed *)

(** A round of [otaproxy_control_thread]: at the loop test; the process looked
    at; the flags read. *)
Inductive ctl_pc : Type :=
| CtlLoop
| CtlLooked (now : Z) (running : bool)
| CtlDecided (now : Z) (running should_run all_success : bool)
| CtlDone.

(** [otaproxy_on_global_shutdown] on the main thread. *)
Inductive stop_pc : Type := StopIdle | StopSet | StopDone.

Record proxy_ctx : Type := mkProxyCtx {
  px_process : option bool;      (** [_otaproxy_p], and whether it is alive *)
  px_orphans : nat;              (** alive and no longer referred to *)
  px_shutdown : bool;            (** [_global_shutdown] *)
  px_next_check : Z;             (** [next_ota_cache_dir_checkpoint] *)
  px_min_alive : Z;              (** [otaproxy_min_alive_until] *)
  px_cache_dir : bool;           (** the cache folder is there and not empty *)
  px_ctl : ctl_pc;
  px_stop : stop_pc;
  px_log : list proxy_event;     (** newest first *)
}.

#[export] Instance eta_proxy_ctx : Eta proxy_ctx := fun s =>
  mkProxyCtx (px_process s) (px_orphans s) (px_shutdown s) (px_next_check s) (px_min_alive s)
    (px_cache_dir s) (px_ctl s) (px_stop s) (px_log s).

Definition new_proxy_ctx (cache_dir : bool) : proxy_ctx :=
  mkProxyCtx None 0 false 0 0 cache_dir CtlLoop StopIdle [].

Definition alive (p : option bool) : bool := default false p.

(** [_shutdown_otaproxy] *)
Definition shutdown_otaproxy (s : proxy_ctx) : proxy_ctx :=
  match px_process s with Some _ => s <| px_process := None |> | None => s end.

(** The start under the lock. *)
Definition start_otaproxy (now : Z) (s : proxy_ctx) : proxy_ctx :=
  if px_shutdown s then s
  else s <| px_orphans := if alive (px_process s) then S (px_orphans s) else px_orphans s |>
         <| px_process := Some true |>
         <| px_next_check := now + OTAPROXY_MIN_STARTUP_TIME |>
         <| px_min_alive := now + OTAPROXY_MIN_STARTUP_TIME |>
         <| px_log := EvSpawn now :: px_log s |>.

(** The branches of a round. *)
Definition ctl_branch (now : Z) (running should_run all_success : bool) (s : proxy_ctx) : proxy_ctx :=
  if negb should_run && negb running then
    if (px_next_check s <? now) && all_success && px_cache_dir s
    then s <| px_next_check := now + OTA_CACHE_DIR_CHECK_INTERVAL |> <| px_cache_dir := false |>
           <| px_log := EvCleanup now :: px_log s |>
    else s
  else if should_run && negb running then start_otaproxy now s
  else if bool_decide (is_Some (px_process s)) && running && negb should_run then
    if px_min_alive s <? now
    then (shutdown_otaproxy s) <| px_log := EvStop now :: px_log s |>
    else s
  else s.

Inductive proxy_step : proxy_ctx -> proxy_ctx -> Prop :=
| PX_leave s : px_ctl s = CtlLoop -> px_shutdown s = true -> proxy_step s (s <| px_ctl := CtlDone |>)
| PX_look now s : px_ctl s = CtlLoop -> px_shutdown s = false ->
    proxy_step s (s <| px_ctl := CtlLooked now (alive (px_process s)) |>)
| PX_flags now running should all s : px_ctl s = CtlLooked now running ->
    proxy_step s (s <| px_ctl := CtlDecided now running should all |>)
| PX_branch now running should all s : px_ctl s = CtlDecided now running should all ->
    proxy_step s ((ctl_branch now running should all s) <| px_ctl := CtlLoop |>)
| PX_dies s : px_process s = Some true -> proxy_step s (s <| px_process := Some false |>)
| PX_fills s : alive (px_process s) = true -> proxy_step s (s <| px_cache_dir := true |>)
| PX_stop_set s : px_stop s = StopIdle -> proxy_step s (s <| px_shutdown := true |> <| px_stop := StopSet |>)
| PX_stop_kill s : px_stop s = StopSet ->
    proxy_step s ((shutdown_otaproxy s) <| px_stop := StopDone |>)
(** a second call of [otaproxy_on_global_shutdown] finds the event set and
    returns at once, also while the first one is in progress *)
| PX_stop_again s : px_shutdown s = true -> proxy_step s s.

Fixpoint last_spawn (l : list proxy_event) : option Z :=
  match l with
  | [] => None
  | EvSpawn t :: _ => Some t
  | _ :: l => last_spawn l
  end.

Record proxy_inv (s : proxy_ctx) : Prop := {
  pxi_orphans : px_orphans s = 0%nat;
  pxi_set : px_stop s <> StopIdle -> px_shutdown s = true;
  pxi_done : px_stop s = StopDone -> px_process s = None;
  pxi_looked : forall now, px_ctl s = CtlLooked now false -> alive (px_process s) = false;
  pxi_decided : forall now sh al, px_ctl s = CtlDecided now false sh al -> alive (px_process s) = false;
  pxi_spawned : is_Some (px_process s) ->
    exists t, last_spawn (px_log s) = Some t /\ px_min_alive s = t + OTAPROXY_MIN_STARTUP_TIME;
  (** every stop in the log is later than the minimal time of its process *)
  pxi_stops : forall l1 t l2, px_log s = l1 ++ EvStop t :: l2 ->
    exists t0, last_spawn l2 = Some t0 /\ t0 + OTAPROXY_MIN_STARTUP_TIME < t;
}.

Lemma stops_cons e l :
  (forall l1 t l2, l = l1 ++ EvStop t :: l2 ->
     exists t0, last_spawn l2 = Some t0 /\ t0 + OTAPROXY_MIN_STARTUP_TIME < t) ->
  (forall t, e = EvStop t -> exists t0, last_spawn l = Some t0 /\ t0 + OTAPROXY_MIN_STARTUP_TIME < t) ->
  forall l1 t l2, e :: l = l1 ++ EvStop t :: l2 ->
    exists t0, last_spawn l2 = Some t0 /\ t0 + OTAPROXY_MIN_STARTUP_TIME < t.
Proof.
  intros Hl He l1 t l2 H. destruct l1 as [|x l1]; cbn in H; injection H as -> H; [subst; by apply He|].
  by eapply Hl.
Qed.

Lemma shutdown_otaproxy_process s : px_process (shutdown_otaproxy s) = None.
Proof. unfold shutdown_otaproxy. by destruct (px_process s) eqn:E. Qed.

Lemma shutdown_otaproxy_eq s : shutdown_otaproxy s = s <| px_process := None |>.
Proof. unfold shutdown_otaproxy. destruct s as [p]; by destruct p. Qed.

Lemma start_otaproxy_inv now s :
  proxy_inv s -> alive (px_process s) = false -> proxy_inv ((start_otaproxy now s) <| px_ctl := CtlLoop |>).
Proof.
  intros [Ho Hs Hd Hl Hdec Hsp Hst] Ha. unfold start_otaproxy.
  destruct (px_shutdown s) eqn:Esh; [split; cbn; try done|]. rewrite Ha.
  split; cbn; try done.
  - intros H. discriminate (Hs H).
  - intros H. discriminate Hs. by rewrite H.
  - intros _. by exists now.
  - by apply stops_cons.
Qed.

Lemma ctl_branch_inv now running should all s :
  proxy_inv s -> px_ctl s = CtlDecided now running should all ->
  proxy_inv ((ctl_branch now running should all s) <| px_ctl := CtlLoop |>).
Proof.
  intros Hinv Hc. pose proof Hinv as [Ho Hs Hd Hl Hdec Hsp Hst]. unfold ctl_branch.
  assert (Hsame : proxy_inv (s <| px_ctl := CtlLoop |>)) by (split; cbn; done).
  destruct running.
  - rewrite !andb_false_r, andb_true_r. destruct (bool_decide (is_Some (px_process s))) eqn:Ep; [|done].
    apply bool_decide_eq_true in Ep. destruct should; [done|]. cbn.
    destruct (Z.ltb_spec (px_min_alive s) now) as [Ht|]; [|done].
    rewrite shutdown_otaproxy_eq. split; cbn; try done.
    apply stops_cons; [done|]. intros t [= <-]. destruct (Hsp Ep) as (t0 & Hl0 & Hm). exists t0. split; [done|lia].
  - rewrite !andb_true_r. destruct should; cbn; [by apply start_otaproxy_inv; [|eapply Hdec]|].
    destruct (_ && _); [|done]. split; cbn; try done. by apply stops_cons.
Qed.

Lemma proxy_step_inv s s' : proxy_step s s' -> proxy_inv s -> proxy_inv s'.
Proof.
  intros Hstep Hinv. pose proof Hinv as [Ho Hs Hd Hl Hdec Hsp Hst].
  destruct Hstep as [s Hc Hsh|now s Hc Hsh|now running should all s Hc|now running should all s Hc|s Hp|s Hp|s Hp|s Hp|s Hp].
  - by split; cbn.
  - split; cbn -[alive]; try done. intros t [= _ H]. exact H.
  - split; cbn; try done. intros t sh al [= -> -> -> ->]. by eapply Hl.
  - by apply ctl_branch_inv.
  - split; cbn; try done.
    + intros Hx%Hd. congruence.
    + intros _. apply Hsp. rewrite Hp. eauto.
  - by split; cbn.
  - split; cbn; done.
  - rewrite shutdown_otaproxy_eq. split; cbn; try done.
    intros _. apply Hs. by rewrite Hp.
  - done.
Qed.

Lemma proxy_reachable dir s : rtc proxy_step (new_proxy_ctx dir) s -> proxy_inv s.
Proof.
  intros H. apply (rtc_ind_r proxy_inv (new_proxy_ctx dir)) in H; eauto using proxy_step_inv.
  split; cbn; try done. intros [|x l1] t l2; done.
Qed.

Lemma cleanup_only now running should all s :
  px_cache_dir s = true -> px_cache_dir (ctl_branch now running should all s) = false ->
  running = false /\ should = false /\ all = true.
Proof.
  intros Hd. unfold ctl_branch, start_otaproxy. rewrite shutdown_otaproxy_eq, Hd, andb_true_r.
  destruct running, should; cbn; try (repeat case_match; cbn; congruence).
  destruct all; [done|]. rewrite andb_false_r. congruence.
Qed.

(** C36. The proxy process is under control at any time: never two run, one
    is stopped by its control thread only after it ran for its minimal time,
    and once the first call of [otaproxy_on_global_shutdown] returned no proxy
    process is left and none is ever started again, whatever the control
    thread was doing (a second call returns at once and promises nothing).
    The cache folder is removed only while no proxy process runs, none is
    asked for and all ECUs are in SUCCESS. *)
Theorem otaproxy_controlled dir s s' :
  rtc proxy_step (new_proxy_ctx dir) s -> rtc proxy_step s s' ->
  px_orphans s = 0%nat /\
  (forall s2, proxy_step s s2 -> px_cache_dir s = true -> px_cache_dir s2 = false ->
     alive (px_process s) = false /\ exists now, px_ctl s = CtlDecided now false false true) /\
  (forall l1 t l2, px_log s = l1 ++ EvStop t :: l2 ->
     exists t0, last_spawn l2 = Some t0 /\ t0 + OTAPROXY_MIN_STARTUP_TIME < t) /\
  (px_stop s = StopDone -> px_process s' = None /\ px_shutdown s' = true).
Proof.
  intros H1 H2. pose proof (proxy_reachable _ _ H1) as [Ho _ _ _ Hdec _ Hst].
  split_and!; [done| |done|].
  { intros s2 Hstep Hd1 Hd2. destruct Hstep; cbn in Hd2; try congruence.
    - destruct (cleanup_only _ _ _ _ _ Hd1 Hd2) as (-> & -> & ->). split; [by eapply Hdec|eauto].
    - rewrite shutdown_otaproxy_eq in Hd2. cbn in Hd2. congruence. }
  pose proof (proxy_reachable _ _ (transitivity H1 H2)) as [_ Hs Hd _ _ _ _].
  intros Hdone. assert (Hmono : px_stop s' = StopDone).
  { clear - H2 Hdone. induction H2 as [|x y z Hxy _ IH]; [done|]. apply IH.
    destruct Hxy; cbn; try done; try congruence.
    - unfold ctl_branch, start_otaproxy. rewrite shutdown_otaproxy_eq. repeat case_match; cbn; done. }
  split; [by apply Hd|]. apply Hs. by rewrite Hmono.
Qed.

(** ** The main process *)

Inductive child : Type := Running | Exited (code : Z).

(** The children, the shared memories, the guard of the shutdown, the control
    thread of the proxy and the PID file; [mp_unmounted]: what the shutdown
    unmounted. *)
Record main_process : Type := mkMainProcess {
  mp_core : option child;
  mp_grpc : option child;
  mp_shm : bool;
  mp_shm_metrics : bool;
  mp_shutdown_lock : bool;
  mp_proxy_thread : bool;
  mp_unmounted : list string;
  mp_pid_file : bool;
  mp_data_ready : bool;
  mp_request_shutdown : bool;
}.

#[export] Instance eta_main_process : Eta main_process := fun s =>
  mkMainProcess (mp_core s) (mp_grpc s) (mp_shm s) (mp_shm_metrics s) (mp_shutdown_lock s)
    (mp_proxy_thread s) (mp_unmounted s) (mp_pid_file s) (mp_data_ready s) (mp_request_shutdown s).

Definition RUNTIME_OTA_SESSION : string := "/run/otaclient/update-session".
Definition ACTIVE_SLOT_MNT : string := "/run/otaclient/mnt/active_slot".
Definition STANDBY_SLOT_MNT : string := "/run/otaclient/mnt/standby_slot".

(** The argument [sys_exit] and what [sys.exit] makes of it ([True] is an
    [int]). *)
Inductive exit_arg : Type := NoExit | ExitTrue | ExitCode (code : Z).

(** How a round ends: the process goes on, exits, or is replaced. *)
Inductive outcome : Type :=
| Continue
| Exit (code : Z)
| Exec (argv : list string).

(** [_on_shutdown]; the lock is never released. *)
Definition on_shutdown (a : exit_arg) (s : main_process) : main_process * outcome :=
  if mp_shutdown_lock s then (s, Continue)
  else
    let s := s <| mp_shutdown_lock := true |> <| mp_core := None |> <| mp_grpc := None |>
               <| mp_shm := false |> <| mp_shm_metrics := false |>
               <| mp_unmounted := mp_unmounted s ++ [RUNTIME_OTA_SESSION; ACTIVE_SLOT_MNT; STANDBY_SLOT_MNT] |> in
    (s, match a with NoExit => Continue | ExitTrue => Exit 1 | ExitCode c => Exit c end).

(** [return _on_shutdown(...)] from [main]: the interpreter then ends with 0. *)
Definition return_on_shutdown (a : exit_arg) (s : main_process) : main_process * outcome :=
  let '(s, o) := on_shutdown a s in (s, match o with Continue => Exit 0 | o => o end).

Definition DYNAMIC_CLIENT_SQUASHFS_FILE : string := "/.otaclient.squashfs".

(** [_dynamic_otaclient_cmd] *)
Definition dynamic_otaclient_cmd (unit tmpfs_mb : string) : list string :=
  ["systemd-run"; "--unit=" +:+ unit; "-G"; "--wait"; "-t";
   "--setenv=RUNNING_DOWNLOADED_DYNAMIC_OTA_CLIENT=yes"; "--setenv=RUNNING_AS_APP_IMAGE=";
   "-p"; "Restart=no"; "-p"; "Description=" +:+ unit; "-p"; "Type=simple"; "-p"; "RefuseManualStop=true";
   "-p"; "RootImage=" +:+ DYNAMIC_CLIENT_SQUASHFS_FILE;
   "-p"; "ExecStartPre=/bin/mkdir -p /run/otaclient/mnt/active_slot";
   "-p"; "ExecStartPre=/bin/mkdir -p /host_root/ota-cache";
   "-p"; "BindPaths=/boot:/boot:rbind"; "-p"; "BindPaths=/dev:/dev"; "-p"; "BindPaths=/dev/shm:/dev/shm";
   "-p"; "BindPaths=/etc:/etc"; "-p"; "BindPaths=/opt:/opt"; "-p"; "BindPaths=/proc:/proc";
   "-p"; "BindPaths=/root:/root"; "-p"; "BindPaths=/sys:/sys:rbind"; "-p"; "BindPaths=/run:/run";
   "-p"; "BindReadOnlyPaths=-/usr/share/ca-certificates:/usr/share/ca-certificates";
   "-p"; "BindReadOnlyPaths=-/usr/local/share/ca-certificates:/usr/local/share/ca-certificates";
   "-p"; "BindReadOnlyPaths=-/usr/share/zoneinfo:/usr/share/zoneinfo";
   "-p"; "BindPaths=/:/host_root:rbind";
   "/bin/bash"; "-c";
   "mount -o bind /host_root/ota-cache /ota-cache && " +:+
   "mount -o bind,ro /host_root /run/otaclient/mnt/active_slot && " +:+
   "mount -t tmpfs -o size=" +:+ tmpfs_mb +:+ "M tmpfs /tmp && " +:+
   "/otaclient/venv/bin/python3 -m otaclient"]%string.

(** [_dynamic_otaclient_launch]; [execs]: [os.execvpe] succeeds. *)
Definition dynamic_otaclient_launch (chroot : option string) (unit tmpfs_mb : string) (execs : bool)
    (s : main_process) : main_process * result pyexn (list string) :=
  let s := s <| mp_pid_file := false |> in
  let cmd := dynamic_otaclient_cmd unit tmpfs_mb in
  let argv := match chroot with Some d => if str_truthy d then "chroot"%string :: d :: cmd else cmd | None => cmd end in
  (s, if execs then Ok argv else Raise (PyExn (XOSError (Some 2)) [] None None)).

Definition EXIT_CODE_OTA_ABORTED : Z := 79.

(** One round of the loop of [main]; [proxy_stop] is the exception of
    [otaproxy_on_global_shutdown], if it raises. *)
Definition main_loop_round (chroot : option string) (unit tmpfs_mb : string) (execs : bool) (proxy_stop : option pyexn)
    (s : main_process) : main_process * outcome :=
  match mp_core s with
  | Some (Exited code) =>
      if code =? 0 then return_on_shutdown (ExitCode 0) s
      else if code =? EXIT_CODE_OTA_ABORTED then return_on_shutdown ExitTrue s
      else return_on_shutdown ExitTrue s
  | _ =>
      match mp_grpc s with
      | Some (Exited _) => return_on_shutdown ExitTrue s
      | _ =>
          if mp_data_ready s then
            match (if mp_proxy_thread s then proxy_stop else None) with
            | Some e =>
                if is_exception e
                then let '(s, o) := on_shutdown ExitTrue s in (s, match o with Continue => Exit 1 | o => o end)
                else (s, Exit 1)
            | None =>
                let s := s <| mp_proxy_thread := false |> in
                let '(s, _) := on_shutdown NoExit s in
                let '(s, r) := dynamic_otaclient_launch chroot unit tmpfs_mb execs s in
                match r with
                | Ok argv => (s, Exec argv)
                | Raise _ =>
                    let '(s, o) := on_shutdown ExitTrue s in
                    (s, match o with Continue => Exit 1 | o => o end)
                end
            end
          else if mp_request_shutdown s then return_on_shutdown ExitTrue s
          else (s, Continue)
      end
  end.

(** The main process after [main] started its children. *)
Definition started (s : main_process) : Prop :=
  mp_shutdown_lock s = false /\ is_Some (mp_core s) /\ is_Some (mp_grpc s).

(** The main process never leaves children behind: a round that ends it
    or replaces it terminated the core and the API server and removed both
    shared memories first.  The downloaded client is launched only when the
    core announced it while both children were alive, with the proxy's
    control thread ended and the PID file removed; the exit code is 0 exactly
    when the core exited with 0; and a dead child always ends it. *)
Theorem main_process_ends_clean chroot unit mb execs s s' o :
  started s -> main_loop_round chroot unit mb execs None s = (s', o) ->
  (o <> Continue -> mp_core s' = None /\ mp_grpc s' = None /\ mp_shm s' = false /\ mp_shm_metrics s' = false /\
     mp_shutdown_lock s' = true) /\
  (forall argv, o = Exec argv -> mp_data_ready s = true /\ mp_core s = Some Running /\ mp_grpc s = Some Running /\
     mp_proxy_thread s' = false /\ mp_pid_file s' = false /\
     ("RootImage=" +:+ DYNAMIC_CLIENT_SQUASHFS_FILE)%string ∈ argv) /\
  (o = Exit 0 <-> mp_core s = Some (Exited 0)) /\
  (o = Continue <-> mp_core s = Some Running /\ mp_grpc s = Some Running /\
     mp_data_ready s = false /\ mp_request_shutdown s = false).
Proof.
  intros (Hl & [core Hc] & [grpc Hg]). unfold main_loop_round, return_on_shutdown, on_shutdown. rewrite Hc, Hg, Hl.
  destruct core as [|code].
  - destruct grpc as [|gc].
    + destruct (mp_data_ready s) eqn:Er.
      * assert (Hp : (if mp_proxy_thread s then None else None : option pyexn) = None) by (by destruct (mp_proxy_thread s)).
        rewrite Hp. cbn. rewrite Hl. cbn. destruct execs; intros [= <- <-]; cbn.
        -- split; [done|]. split; [|naive_solver].
           intros argv [= <-]. split_and!; try done.
           destruct chroot as [d|]; [destruct (str_truthy d)|]; set_solver.
        -- naive_solver.
      * destruct (mp_request_shutdown s) eqn:Eq; intros [= <- <-]; cbn; naive_solver.
    + intros [= <- <-]. cbn. naive_solver.
  - destruct (Z.eqb_spec code 0) as [->|E0]; [|destruct (code =? EXIT_CODE_OTA_ABORTED)]; intros [= <- <-]; cbn;
      naive_solver.
Qed.

(** The total shutdown runs once: after it, further calls change nothing and
    do not exit. *)
Theorem shutdown_runs_once a b s :
  on_shutdown b (fst (on_shutdown a s)) = (fst (on_shutdown a s), Continue).
Proof. unfold on_shutdown. destruct (mp_shutdown_lock s) eqn:E; cbn; by rewrite ?E. Qed.

(** ** Start-up *)

(** [check_other_otaclient]: the text of the PID file, stripped, or the
    default; [sys.exit()] exits with 0.  The result is the new content. *)
Definition check_other_otaclient (pid_file : option string) (proc_is_dir : string -> bool) (own_pid : string) :
    result pyexn string :=
  let pid := strip (default EmptyString pid_file) in
  if str_truthy pid && proc_is_dir pid then Raise (PyExn (XSystemExit 0) [] None None) else Ok own_pid.

Definition DYNAMIC_CLIENT_MNT_HOST_ROOT : string := "/host_root".
Definition OTAPROXY_CACHE_DIR : string := "/ota-cache".

Section Startup.
Context {W : Type} `{HC : !CmdEnv W} `{HF : !FileEnv W}.
Context (fault : path -> bool) (tmpfs_mb : string).
Abbreviation MM := (PyM W pyexn).

(** [_dynamic_otaclient_init] *)
Definition dynamic_otaclient_init : MM unit :=
  let host_ota_cache := (DYNAMIC_CLIENT_MNT_HOST_ROOT +:+ OTAPROXY_CACHE_DIR)%string in
  _ ← on_files (mkdir_parents fault (path_of host_ota_cache));
  _ ← on_files (mkdir_parents fault (path_of ACTIVE_SLOT_MNT));
  _ ← ensure_mount host_ota_cache OTAPROXY_CACHE_DIR bind_mount_rw true true MAX_RETRY_COUNT;
  _ ← ensure_mount DYNAMIC_CLIENT_MNT_HOST_ROOT ACTIVE_SLOT_MNT bind_mount_ro true true MAX_RETRY_COUNT;
  ensure_mount "tmpfs" "/tmp" (fun _ mp raise_exception _ => mount_tmpfs mp tmpfs_mb raise_exception)
    true true MAX_RETRY_COUNT.

(** [_bind_external_nfs_cache], for an absolute mount point. *)
Definition bind_external_nfs_cache (mnt_point : option string) : MM unit :=
  match mnt_point with
  | Some mp =>
      if str_truthy mp then
        let host_dir := (DYNAMIC_CLIENT_MNT_HOST_ROOT +:+ mp)%string in
        s ← gets files;
        if negb (is_dir s (path_of host_dir)) then mret tt
        else ensure_mount host_dir mp bind_mount_ro false true MAX_RETRY_COUNT
      else mret tt
  | None => mret tt
  end.
End Startup.

(** The mounts of a client that runs as an APP image, on an empty table, the
    second command failing once. *)
Example dynamic_init_mounts :
  mount_table (fst (dynamic_otaclient_init (fun _ => false) "700"
    (example_fsys, mkMountWorld [] [false; true]))) =
  [("/host_root/ota-cache", "/ota-cache"); ("/host_root", "/run/otaclient/mnt/active_slot"); ("tmpfs", "/tmp")]%string.
Proof. vm_compute. reflexivity. Qed.

(** Another client that is alive is never replaced in the PID file. *)
Theorem pid_file_exclusive pid_file proc own r :
  check_other_otaclient pid_file proc own = Ok r ->
  r = own /\ (forall pid, pid_file = Some pid -> str_truthy (strip pid) = true -> proc (strip pid) = false).
Proof.
  unfold check_other_otaclient. destruct (_ && _) eqn:E; [done|]. intros [= <-]. split; [done|].
  intros pid -> Hp. change (default EmptyString (Some pid)) with pid in E. rewrite Hp in E. by apply andb_false_iff in E as [?|?].
Qed.

(** ** Witnesses *)

Definition example_main : main_process :=
  mkMainProcess (Some Running) (Some Running) true true false true [] true true false.

Lemma main_process_ends_clean_witness :
  mp_core (fst (main_loop_round None "u" "700" true None example_main)) = None /\
  mp_pid_file (fst (main_loop_round None "u" "700" true None example_main)) = false.
Proof.
  destruct (main_process_ends_clean None "u" "700" true example_main
    (fst (main_loop_round None "u" "700" true None example_main)) (Exec (dynamic_otaclient_cmd "u" "700"))
    ltac:(split; [reflexivity|split; by eexists]) ltac:(vm_compute; reflexivity)) as (H1 & H2 & _).
  split; [apply H1; discriminate|]. exact (proj1 (proj2 (proj2 (proj2 (proj2 (H2 _ eq_refl)))))).
Defined.

(** The main thread shuts down while the control thread is about to start the
    proxy. *)
Lemma otaproxy_controlled_witness :
  exists s, rtc proxy_step (new_proxy_ctx false) s /\ px_stop s = StopDone /\
    px_process ((ctl_branch 200 false true false s) <| px_ctl := CtlLoop |>) = None.
Proof.
  set (s0 := new_proxy_ctx false).
  set (s1 := s0 <| px_ctl := CtlLooked 200 false |>).
  set (s2 := s1 <| px_ctl := CtlDecided 200 false true false |>).
  set (s3 := s2 <| px_shutdown := true |> <| px_stop := StopSet |>).
  set (s4 := (shutdown_otaproxy s3) <| px_stop := StopDone |>).
  set (s5 := (ctl_branch 200 false true false s4) <| px_ctl := CtlLoop |>).
  assert (H4 : rtc proxy_step s0 s4).
  { eapply rtc_l; [exact (PX_look 200 s0 eq_refl eq_refl)|].
    eapply rtc_l; [exact (PX_flags 200 false true false s1 eq_refl)|].
    eapply rtc_l; [exact (PX_stop_set s2 eq_refl)|]. apply rtc_once. exact (PX_stop_kill s3 eq_refl). }
  assert (H5 : rtc proxy_step s4 s5) by (apply rtc_once; exact (PX_branch 200 false true false s4 eq_refl)).
  exists s4. split; [exact H4|]. split; [reflexivity|].
  exact (proj1 (proj2 (proj2 (proj2 (otaproxy_controlled false s4 s5 H4 H5))) eq_refl)).
Defined.
