(* ===== verification/ProtoWrapper.v ===== *)
(** * The wrappers of protobuf messages

    Models [src/src/otaclient_common/proto_wrapper.py]: the field descriptors
    and their type checks, [MessageWrapper] with [convert], [export_pb],
    [deepcopy] and the redacted text, the repeated and mapping containers,
    [EnumWrapper] and [Duration]; and the message classes of
    [src/src/otaclient_api/v2/_types.py] (module [V2]).

    A message type is given by the two class names (the wrapper's and the
    protobuf class's) and its annotated fields in order, which is what
    [__init_subclass__] collects.  Python objects are one type, tagged by
    their class, so that [isinstance] and [type(x) is] are tests on it.  What
    protobuf stores for an assigned value is the parameter [PbLib].  The
    comparison of wrappers ([__eq__]) is not modelled. *)

From stdpp Require Import base list option strings sets pretty.
From Stdlib Require Import ZArith String Ascii Lia.
From S2P Require Import Prelude Errors TextLines.

(** ** Python objects and field types *)

Inductive sctype : Type := TFloat | TInt | TStr | TBytes | TBool.

#[export] Instance sctype_eq_dec : EqDecision sctype.
Proof. solve_decision. Defined.

#[local] Set Warnings "-register-all".
Inductive obj : Type :=
| OFloat (text : string)
| OInt (n : Z)
| OStr (s : string)
| OBytes (s : string)
| OBool (b : bool)
| OEnum (cls : string) (n : Z)
| OMsg (cls : string) (fields : list (string * obj))   (** a wrapper or a protobuf message *)
| OList (l : list obj)
| ODict (l : list (obj * obj))
| ONone.

Inductive ftype : Type :=
| FScalar (t : sctype)
| FEnum (cls : string) (members : list (string * Z))
| FMessage (wrapper proto : string) (fields : list (string * ftype))
| FRepeatedMsg (wrapper proto : string) (fields : list (string * ftype))
| FRepeatedScalar (t : sctype)
| FScalarMap (k v : sctype)
| FMessageMap (k : sctype) (wrapper proto : string) (fields : list (string * ftype)).

Definition type_error : pyexn := PyExn (XOther "TypeError") [] None None.
Definition attribute_error : pyexn := PyExn XAttributeError [] None None.
Definition key_error : pyexn := PyExn (XOther "KeyError") [] None None.

(** [type(o) is t] *)
Definition is_exactly (t : sctype) (o : obj) : bool :=
  match t, o with
  | TFloat, OFloat _ | TInt, OInt _ | TStr, OStr _ | TBytes, OBytes _ | TBool, OBool _ => true
  | _, _ => false
  end.

(** [isinstance(o, t)]: a [bool] and a member of an [IntEnum] are [int]s. *)
Definition is_instance (t : sctype) (o : obj) : bool :=
  is_exactly t o ||
  match t, o with TInt, OBool _ | TInt, OEnum _ _ => true | _, _ => false end.

(** [t()] *)
Definition scalar_default (t : sctype) : obj :=
  match t with
  | TFloat => OFloat "0.0" | TInt => OInt 0 | TStr => OStr EmptyString
  | TBytes => OBytes EmptyString | TBool => OBool false
  end.

(** The value of an [int]. *)
Definition as_int (o : obj) : option Z :=
  match o with
  | OInt n => Some n
  | OBool b => Some (if b then 1 else 0)
  | OEnum _ n => Some n
  | _ => None
  end.

(** ** [EnumWrapper] *)

(** [cls()] is the first member. *)
Definition enum_default (cls : string) (members : list (string * Z)) : result pyexn obj :=
  match members with
  | (_, n) :: _ => Ok (OEnum cls n)
  | [] => Raise (PyExn (XOther "StopIteration") [] None None)
  end.

Definition enum_convert (cls : string) (members : list (string * Z)) (o : obj) : result pyexn obj :=
  match as_int o with
  | Some n =>
      if bool_decide (n ∈ map snd members) then Ok (OEnum cls n) else Raise (PyExn XValueError [AInt n] None None)
  | None =>
      match o with
      | OStr s => match dict_get s members with Some n => Ok (OEnum cls n) | None => Raise key_error end
      | _ => Raise type_error
      end
  end.

(** ** The descriptors: [__set__] with a value, or with [_DEFAULT_VALUE] *)

Definition bind_r {A B} (r : result pyexn A) (k : A -> result pyexn B) : result pyexn B :=
  match r with Ok a => k a | Raise e => Raise e end.

Fixpoint map_r {A B} (f : A -> result pyexn B) (l : list A) : result pyexn (list B) :=
  match l with
  | [] => Ok []
  | x :: l => bind_r (f x) (fun y => bind_r (map_r f l) (fun ys => Ok (y :: ys)))
  end.

Definition as_items (o : obj) : result pyexn (list (obj * obj)) :=
  match o with ODict l => Ok l | _ => Raise attribute_error end.
Definition as_elements (o : obj) : result pyexn (list obj) :=
  match o with OList l => Ok l | _ => Raise type_error end.

(** The keyword arguments of [cls(mapping)]. *)
Definition as_kwargs (l : list (obj * obj)) : result pyexn (list (string * obj)) :=
  map_r (fun kv => match fst kv with OStr k => Ok (k, snd kv) | _ => Raise type_error end) l.

(** [MessageWrapper.convert], given how the instance is built from its keyword
    arguments ([build]) and the names of the fields. *)
Definition convert_with (wrapper proto : string) (names : list string)
    (build : list (string * obj) -> result pyexn obj) (o : obj) : result pyexn obj :=
  match o with
  | OMsg cls fs =>
      if String.eqb cls wrapper then Ok o
      else if String.eqb cls proto then
        bind_r (map_r (fun n => match dict_get n fs with Some v => Ok (n, v) | None => Raise attribute_error end) names)
          build
      else Raise type_error
  | ODict l => bind_r (as_kwargs l) build
  | _ => Raise type_error
  end.

(** [f] on every annotated field, in order, with the value of that name in
    [kw] if there is one. *)
Definition fields_r (f : string -> ftype -> option obj -> result pyexn obj) :
    list (string * ftype) -> list (string * obj) -> result pyexn (list (string * obj)) :=
  fix go fields kw :=
    match fields with
    | [] => Ok []
    | (n, t) :: fields =>
        bind_r (f n t (dict_get n kw)) (fun x => bind_r (go fields kw) (fun xs => Ok ((n, x) :: xs)))
    end.

(** [isinstance(o, wrapper)] or [isinstance(o, proto)] *)
Definition is_message (wrapper proto : string) (o : obj) : bool :=
  match o with OMsg cls _ => String.eqb cls wrapper || String.eqb cls proto | _ => false end.

(** The containers' [convert]; [conv] is the element class's. *)
Definition repeated_composite_convert (wrapper proto : string) (conv : obj -> result pyexn obj) (o : obj) :
    result pyexn obj :=
  bind_r (as_elements o) (fun l =>
  bind_r (map_r (fun e => if is_message wrapper proto e then conv e else Raise type_error) l)
    (fun l => Ok (OList l))).

Definition repeated_scalar_convert (st : sctype) (o : obj) : result pyexn obj :=
  bind_r (as_elements o) (fun l =>
  bind_r (map_r (fun e => if is_exactly st e then Ok e else Raise type_error) l) (fun l => Ok (OList l))).

Definition scalar_map_convert (kt vt : sctype) (o : obj) : result pyexn obj :=
  bind_r (as_items o) (fun l =>
  bind_r (map_r (fun kv => if is_exactly kt (fst kv) && is_instance vt (snd kv)
                           then Ok kv else Raise type_error) l) (fun l => Ok (ODict l))).

Definition message_map_convert (kt : sctype) (wrapper proto : string) (conv : obj -> result pyexn obj) (o : obj) :
    result pyexn obj :=
  bind_r (as_items o) (fun l =>
  bind_r (map_r (fun kv =>
      if negb (is_exactly kt (fst kv)) then Raise type_error
      else if is_message wrapper proto (snd kv) then bind_r (conv (snd kv)) (fun x => Ok (fst kv, x))
      else Raise type_error) l) (fun l => Ok (ODict l))).

(** [__set__] of each descriptor; [None] is [_DEFAULT_VALUE]. *)
Definition set_scalar (st : sctype) (v : option obj) : result pyexn obj :=
  let o := default (scalar_default st) v in
  if is_instance st o then Ok o else Raise type_error.
Definition set_enum (cls : string) (members : list (string * Z)) (v : option obj) : result pyexn obj :=
  match v with None => enum_default cls members | Some o => enum_convert cls members o end.
Definition set_message (new : list (string * obj) -> result pyexn obj) (conv : obj -> result pyexn obj)
    (v : option obj) : result pyexn obj :=
  match v with None => new [] | Some o => conv o end.
Definition set_repeated_composite (wrapper proto : string) (conv : obj -> result pyexn obj) (v : option obj) :
    result pyexn obj :=
  match v with None => Ok (OList []) | Some o => repeated_composite_convert wrapper proto conv o end.
Definition set_repeated_scalar (st : sctype) (v : option obj) : result pyexn obj :=
  match v with None => Ok (OList []) | Some o => repeated_scalar_convert st o end.
Definition set_scalar_map (kt vt : sctype) (v : option obj) : result pyexn obj :=
  match v with None => Ok (ODict []) | Some o => scalar_map_convert kt vt o end.
Definition set_message_map (kt : sctype) (wrapper proto : string) (conv : obj -> result pyexn obj)
    (v : option obj) : result pyexn obj :=
  match v with None => Ok (ODict []) | Some o => message_map_convert kt wrapper proto conv o end.

(** The value the descriptor of a field of type [t] stores for [v]. *)
Fixpoint set_field (t : ftype) (v : option obj) : result pyexn obj :=
  let new wrapper fields kw :=
    bind_r (fields_r (fun _ t v => set_field t v) fields kw) (fun fs => Ok (OMsg wrapper fs)) in
  let convert wrapper proto fields := convert_with wrapper proto (map fst fields) (new wrapper fields) in
  match t with
  | FScalar st => set_scalar st v
  | FEnum cls members => set_enum cls members v
  | FMessage wrapper proto fields => set_message (new wrapper fields) (convert wrapper proto fields) v
  | FRepeatedMsg wrapper proto fields => set_repeated_composite wrapper proto (convert wrapper proto fields) v
  | FRepeatedScalar st => set_repeated_scalar st v
  | FScalarMap kt vt => set_scalar_map kt vt v
  | FMessageMap kt wrapper proto fields => set_message_map kt wrapper proto (convert wrapper proto fields) v
  end.

(** [cls( **kw)] and [cls.convert(o)] of a message class. *)
Definition new_message (wrapper : string) (fields : list (string * ftype)) (kw : list (string * obj)) :
    result pyexn obj :=
  bind_r (fields_r (fun _ t v => set_field t v) fields kw) (fun fs => Ok (OMsg wrapper fs)).

Definition convert (wrapper proto : string) (fields : list (string * ftype)) (o : obj) : result pyexn obj :=
  convert_with wrapper proto (map fst fields) (new_message wrapper fields) o.

(** ** The containers' checked [append] and [extend] *)

Definition append_message (wrapper proto : string) (fields : list (string * ftype)) (l : list obj) (o : obj) :
    result pyexn (list obj) :=
  if is_message wrapper proto o then bind_r (convert wrapper proto fields o) (fun x => Ok (l ++ [x]))
  else Raise type_error.

Fixpoint extend_messages (wrapper proto : string) (fields : list (string * ftype)) (l es : list obj) :
    result pyexn (list obj) :=
  match es with
  | [] => Ok l
  | e :: es => bind_r (append_message wrapper proto fields l e) (fun l => extend_messages wrapper proto fields l es)
  end.

Definition append_scalar (st : sctype) (l : list obj) (o : obj) : result pyexn (list obj) :=
  if is_instance st o then Ok (l ++ [o]) else Raise type_error.

Fixpoint extend_scalars (st : sctype) (l es : list obj) : result pyexn (list obj) :=
  match es with
  | [] => Ok l
  | e :: es => bind_r (append_scalar st l e) (fun l => extend_scalars st l es)
  end.

(** ** [export_pb]

    What protobuf does with an assigned value is a parameter: [pb_new proto] is
    what the fields of a new message of the class read as, of which there can
    be more than the wrapper annotates; [pb_set proto name v] is what the field
    reads as once [v] was assigned (for a repeated or mapping field, after
    [extend] or [update] of the empty container), [pb_key] the key under which
    a mapping of messages keeps an entry.  Whether an unset message field counts
    as present is not part of what a message reads as. *)
Class PbLib : Type := {
  pb_new : string -> list (string * obj);
  pb_set : string -> string -> obj -> result pyexn obj;
  pb_key : string -> string -> obj -> result pyexn obj;
}.

Section Exporting.
Context `{PbLib}.

(** [export_to_pb] of the wrapper types, into the field [n] of a message of
    class [p]; [exp] is the element class's [export_pb]. *)
Definition enum_export_to_pb (p n : string) (x : obj) : result pyexn obj :=
  match x with OEnum _ k => pb_set p n (OInt k) | _ => Raise attribute_error end.
Definition repeated_composite_export_to_pb (exp : obj -> result pyexn obj) (x : obj) : result pyexn obj :=
  match x with
  | OList l => bind_r (map_r exp l) (fun l => Ok (OList l))
  | _ => Raise attribute_error
  end.
Definition repeated_scalar_export_to_pb (p n : string) (x : obj) : result pyexn obj :=
  match x with OList _ => pb_set p n x | _ => Raise attribute_error end.
Definition scalar_map_export_to_pb (p n : string) (x : obj) : result pyexn obj :=
  match x with ODict _ => pb_set p n x | _ => Raise attribute_error end.
Definition message_map_export_to_pb (p n : string) (exp : obj -> result pyexn obj) (x : obj) : result pyexn obj :=
  match x with
  | ODict l =>
      bind_r (map_r (fun kv => bind_r (pb_key p n (fst kv)) (fun k =>
                               bind_r (exp (snd kv)) (fun m => Ok (k, m)))) l) (fun l => Ok (ODict l))
  | _ => Raise attribute_error
  end.

(** [_res = self._proto_class()] with the annotated fields set. *)
Definition overlay (fs d : list (string * obj)) : list (string * obj) :=
  fold_left (fun d nv => dict_set (fst nv) (snd nv) d) fs d.

(** The field [n] of the exported message of class [p]. *)
Fixpoint export_to_pb (p n : string) (t : ftype) (x : obj) : result pyexn obj :=
  let export_pb proto fields x :=
    match x with
    | OMsg _ xs =>
        bind_r (fields_r (fun n t v => match v with
                                       | Some x => export_to_pb proto n t x
                                       | None => Raise attribute_error
                                       end) fields xs) (fun fs => Ok (OMsg proto (overlay fs (pb_new proto))))
    | _ => Raise attribute_error
    end in
  match t with
  | FScalar _ => pb_set p n x
  | FEnum _ _ => enum_export_to_pb p n x
  | FMessage _ proto fields => export_pb proto fields x
  | FRepeatedMsg _ proto fields => repeated_composite_export_to_pb (export_pb proto fields) x
  | FRepeatedScalar _ => repeated_scalar_export_to_pb p n x
  | FScalarMap _ _ => scalar_map_export_to_pb p n x
  | FMessageMap _ _ proto fields => message_map_export_to_pb p n (export_pb proto fields) x
  end.

(** [self.export_pb()] *)
Definition export_pb (proto : string) (fields : list (string * ftype)) (x : obj) : result pyexn obj :=
  match x with
  | OMsg _ xs =>
      bind_r (fields_r (fun n t v => match v with
                                     | Some x => export_to_pb proto n t x
                                     | None => Raise attribute_error
                                     end) fields xs) (fun fs => Ok (OMsg proto (overlay fs (pb_new proto))))
  | _ => Raise attribute_error
  end.
End Exporting.

(** ** Induction on message types *)

Section ftype_ind.
Variable P : ftype -> Prop.
Let all (fields : list (string * ftype)) : Prop := Forall (fun nt => P (snd nt)) fields.
Hypothesis Hscalar : forall t, P (FScalar t).
Hypothesis Henum : forall c ms, P (FEnum c ms).
Hypothesis Hmsg : forall w p fs, all fs -> P (FMessage w p fs).
Hypothesis Hrep : forall w p fs, all fs -> P (FRepeatedMsg w p fs).
Hypothesis Hreps : forall t, P (FRepeatedScalar t).
Hypothesis Hmap : forall k v, P (FScalarMap k v).
Hypothesis Hmapm : forall k w p fs, all fs -> P (FMessageMap k w p fs).

Lemma ftype_nested_ind : forall t, P t.
Proof.
  fix IH 1. intros t.
  assert (Hall : forall fs, all fs).
  { fix go 1. intros [|[n t'] fs]; [constructor|]. constructor; [apply IH|apply go]. }
  destruct t; [apply Hscalar|apply Henum|apply Hmsg, Hall|apply Hrep, Hall|apply Hreps|apply Hmap|apply Hmapm, Hall].
Qed.
End ftype_ind.

(** ** Values of a type *)

(** [Q] on the values of the annotated fields, which are all there in order. *)
Definition fields_ok (Q : string -> ftype -> obj -> Prop) : list (string * ftype) -> list (string * obj) -> Prop :=
  fix go fields vs :=
    match fields, vs with
    | [], [] => True
    | (n, t) :: fields, (n', v) :: vs => n' = n /\ Q n t v /\ go fields vs
    | _, _ => False
    end.

(** [Q] on the values of the annotated fields, which are all there. *)
Definition fields_at (Q : string -> ftype -> obj -> Prop) (fs : list (string * obj)) : list (string * ftype) -> Prop :=
  fix go fields :=
    match fields with
    | [] => True
    | (n, t) :: fields => (exists v, dict_get n fs = Some v /\ Q n t v) /\ go fields
    end.

(** Two protobuf values read the same, as far as the wrapper annotates them. *)
Fixpoint reads_same (t : ftype) (v v' : obj) : Prop :=
  let message proto fields o o' := exists fs fs', o = OMsg proto fs /\ o' = OMsg proto fs' /\
    fields_at (fun n t v => exists v', dict_get n fs' = Some v' /\ reads_same t v v') fs fields in
  match t with
  | FScalar _ | FEnum _ _ | FRepeatedScalar _ | FScalarMap _ _ => v' = v
  | FMessage _ proto fields => message proto fields v v'
  | FRepeatedMsg _ proto fields => exists l l', v = OList l /\ v' = OList l' /\ Forall2 (message proto fields) l l'
  | FMessageMap _ _ proto fields =>
      exists l l', v = ODict l /\ v' = ODict l' /\
        Forall2 (fun kv kv' => fst kv' = fst kv /\ message proto fields (snd kv) (snd kv')) l l'
  end.

(** A message class has distinct fields and is no protobuf class. *)
Fixpoint good_type (t : ftype) : bool :=
  let good w p fields :=
    negb (String.eqb w p) && bool_decide (NoDup (map fst fields)) && forallb (fun nt => good_type (snd nt)) fields in
  match t with
  | FMessage w p fields | FRepeatedMsg w p fields | FMessageMap _ w p fields => good w p fields
  | _ => true
  end.

Definition items_are (kt : sctype) (Q : obj -> Prop) (kv : obj * obj) : Prop :=
  is_exactly kt (fst kv) = true /\ Q (snd kv).

Section Values.
Context `{PbLib}.

(** What the field [n] of a protobuf message of class [p] reads as: a value of
    its type, which the field accepts again; of an enum, the number of a
    member the wrapper knows; of a message, whatever its other fields are. *)
Fixpoint pb_value (p n : string) (t : ftype) (o : obj) : Prop :=
  let message proto fields o := exists fs, o = OMsg proto fs /\ fields_at (fun n t v => pb_value proto n t v) fs fields in
  match t with
  | FScalar st => is_exactly st o = true /\ pb_set p n o = Ok o
  | FEnum _ ms => exists k, o = OInt k /\ k ∈ map snd ms /\ pb_set p n o = Ok o
  | FMessage _ proto fields => message proto fields o
  | FRepeatedMsg _ proto fields => exists l, o = OList l /\ Forall (message proto fields) l
  | FRepeatedScalar st => exists l, o = OList l /\ Forall (fun e => is_exactly st e = true) l /\ pb_set p n o = Ok o
  | FScalarMap kt vt =>
      exists l, o = ODict l /\ Forall (items_are kt (fun v => is_exactly vt v = true)) l /\ pb_set p n o = Ok o
  | FMessageMap kt _ proto fields =>
      exists l, o = ODict l /\
        Forall (fun kv => items_are kt (message proto fields) kv /\ pb_key p n (fst kv) = Ok (fst kv)) l
  end.

(** What the field of a wrapper holds when the protobuf field can hold it. *)
Fixpoint wrapped_value (p n : string) (t : ftype) (x : obj) : Prop :=
  let message w proto fields x :=
    exists xs, x = OMsg w xs /\ fields_ok (fun n t v => wrapped_value proto n t v) fields xs in
  match t with
  | FScalar st => is_exactly st x = true /\ pb_set p n x = Ok x
  | FEnum cls ms => exists k, x = OEnum cls k /\ k ∈ map snd ms /\ pb_set p n (OInt k) = Ok (OInt k)
  | FMessage w proto fields => message w proto fields x
  | FRepeatedMsg w proto fields => exists l, x = OList l /\ Forall (message w proto fields) l
  | FRepeatedScalar st => exists l, x = OList l /\ Forall (fun e => is_exactly st e = true) l /\ pb_set p n x = Ok x
  | FScalarMap kt vt =>
      exists l, x = ODict l /\ Forall (items_are kt (fun v => is_exactly vt v = true)) l /\ pb_set p n x = Ok x
  | FMessageMap kt w proto fields =>
      exists l, x = ODict l /\
        Forall (fun kv => items_are kt (message w proto fields) kv /\ pb_key p n (fst kv) = Ok (fst kv)) l
  end.
End Values.

(** ** Inverse conversions, element by element *)

(** [f] takes [x] to what [g] takes back. *)
Definition inverts {A B} (f : A -> result pyexn B) (g : B -> result pyexn A) (x : A) : Prop :=
  exists y, f x = Ok y /\ g y = Ok x.

Lemma map_r_inverts {A B} (f : A -> result pyexn B) g l :
  Forall (inverts f g) l -> inverts (map_r f) (map_r g) l.
Proof.
  induction 1 as [|x l (y & Hf & Hg) _ (ys & Hfs & Hgs)]; [by exists []|].
  exists (y :: ys). cbn. by rewrite Hf, Hfs, Hg, Hgs.
Qed.

(** [f] takes [x] to what [g] takes to something [R]-related to [x]. *)
Definition recovers {A B} (f : A -> result pyexn B) (g : B -> result pyexn A) (R : A -> A -> Prop) (x : A) : Prop :=
  exists y x', f x = Ok y /\ g y = Ok x' /\ R x x'.

Lemma map_r_recovers {A B} (f : A -> result pyexn B) g R l :
  Forall (recovers f g R) l -> recovers (map_r f) (map_r g) (Forall2 R) l.
Proof.
  induction 1 as [|x l (y & x' & Hf & Hg & Hr) _ (ys & xs & Hfs & Hgs & Hrs)]; [by exists [], []|].
  exists (y :: ys), (x' :: xs). cbn. rewrite Hf, Hfs, Hg, Hgs. cbn. auto.
Qed.

Lemma fields_at_elem Q fs fields n t : fields_at Q fs fields -> (n, t) ∈ fields -> exists v, dict_get n fs = Some v /\ Q n t v.
Proof.
  induction fields as [|[n' t'] fields IH]; cbn; [set_solver|]. intros [Hv Hok] [E|Hin]%elem_of_cons; [by injection E as -> ->|by apply IH].
Qed.

Lemma fields_at_all Q fs fields : (forall n t, (n, t) ∈ fields -> exists v, dict_get n fs = Some v /\ Q n t v) -> fields_at Q fs fields.
Proof. induction fields as [|[n t] fields IH]; intros H; cbn; [done|]. split; [apply H; by left|apply IH; intros; apply H; by right]. Qed.

(** What a new message reads as once some fields are set. *)
Lemma overlay_get fs d n : NoDup (map fst fs) -> dict_get n (overlay fs d) = match dict_get n fs with Some v => Some v | None => dict_get n d end.
Proof.
  revert d. induction fs as [|[m v] fs IH]; intros d; cbn [overlay fold_left map fst snd]; [done|]. intros [Hm Hnd]%NoDup_cons.
  fold (overlay fs (dict_set m v d)). rewrite IH by done. cbn [dict_get].
  destruct (String.eqb_spec n m) as [->|Hne].
  - destruct (dict_get m fs) eqn:E; [by apply dict_get_Some_mem in E|]. apply dict_get_set_eq.
  - destruct (dict_get n fs); [done|]. by apply dict_get_set_ne.
Qed.

Lemma map_r_same {A} (f : A -> result pyexn A) l : Forall (fun x => f x = Ok x) l -> map_r f l = Ok l.
Proof. induction 1 as [|x l Hx _ IH]; [done|]. cbn. by rewrite Hx, IH. Qed.

Lemma dict_get_mem {V} n (v : V) d : NoDup (map fst d) -> (n, v) ∈ d -> dict_get n d = Some v.
Proof.
  induction d as [|[n' v'] d IH]; cbn; [set_solver|]. intros [Hn Hd]%NoDup_cons [?|Hin]%elem_of_cons.
  - simplify_eq. by rewrite String.eqb_refl.
  - destruct (String.eqb_spec n n') as [->|]; [|by apply IH].
    destruct Hn. apply list_elem_of_fmap. by exists (n', v).
Qed.

Lemma fields_ok_names Q fields vs : fields_ok Q fields vs -> map fst vs = map fst fields.
Proof.
  revert vs. induction fields as [|[n t] fields IH]; intros [|[n' v] vs]; cbn; try done.
  intros (-> & _ & Hok). by rewrite (IH _ Hok).
Qed.

(** The fields of a message are converted back and forth when each one is. *)
Lemma fields_r_inverts f g Q fields vs :
  Forall (fun nt => forall v, Q (fst nt) (snd nt) v ->
            exists w, f (fst nt) (snd nt) (Some v) = Ok w /\ g (fst nt) (snd nt) (Some w) = Ok v) fields ->
  NoDup (map fst fields) -> fields_ok Q fields vs -> inverts (fields_r f fields) (fields_r g fields) vs.
Proof.
  intros Hf Hnd Hok.
  enough (exists ws, map fst ws = map fst fields /\
    (forall kw, (forall n v, (n, v) ∈ vs -> dict_get n kw = Some v) -> fields_r f fields kw = Ok ws) /\
    (forall kw, (forall n w, (n, w) ∈ ws -> dict_get n kw = Some w) -> fields_r g fields kw = Ok vs))
    as (ws & Hws & Hfw & Hgw).
  { exists ws. split; [apply Hfw|apply Hgw]; intros; apply dict_get_mem; try done; [|by rewrite Hws].
    by rewrite (fields_ok_names _ _ _ Hok). }
  clear Hnd. revert vs Hok. induction Hf as [|[n t] fields Ht _ IH]; intros [|[n' v] vs]; cbn; try done.
  - intros _. by exists [].
  - intros (-> & Hv & Hok). destruct (Ht _ Hv) as (w & Hfn & Hgn), (IH _ Hok) as (ws & Hws & Hfw & Hgw).
    exists ((n, w) :: ws). cbn in *. rewrite Hws. split_and!; [done|..]; intros kw Hkw.
    + rewrite (Hkw n v), Hfn by set_solver. cbn. by rewrite Hfw by set_solver.
    + rewrite (Hkw n w), Hgn by set_solver. cbn. by rewrite Hgw by set_solver.
Qed.

(** The fields that are there are read, converted and exported when each one is. *)
Lemma fields_r_recovers f g Q (R : ftype -> obj -> obj -> Prop) fields kw :
  Forall (fun nt => forall v, Q (fst nt) (snd nt) v ->
            exists w v', f (fst nt) (snd nt) (Some v) = Ok w /\ g (fst nt) (snd nt) (Some w) = Ok v' /\ R (snd nt) v v') fields ->
  NoDup (map fst fields) -> fields_at Q kw fields ->
  exists ws vs, fields_r f fields kw = Ok ws /\ fields_r g fields ws = Ok vs /\ map fst vs = map fst fields /\
    fields_at (fun n t v => exists v', dict_get n vs = Some v' /\ R t v v') kw fields.
Proof.
  intros Hf Hnd Hok.
  enough (exists ws vs, map fst ws = map fst fields /\ map fst vs = map fst fields /\ fields_r f fields kw = Ok ws /\
    (forall kw', (forall n w, (n, w) ∈ ws -> dict_get n kw' = Some w) -> fields_r g fields kw' = Ok vs) /\
    fields_at (fun n t v => exists v', (n, v') ∈ vs /\ R t v v') kw fields)
    as (ws & vs & Hws & Hvs & Hfw & Hgw & Hat).
  { exists ws, vs. split_and!; [done| |done|].
    - apply Hgw. intros; apply dict_get_mem; [by rewrite Hws|done].
    - apply fields_at_all. intros n t Hin. destruct (fields_at_elem _ _ _ _ _ Hat Hin) as (v & Hv & v' & Hin' & Hr).
      exists v. split; [done|]. exists v'. split; [|done]. apply dict_get_mem; [by rewrite Hvs|done]. }
  clear Hnd. induction Hf as [|[n t] fields Ht _ IH]; [by exists [], []|]. destruct Hok as [(v & Hv & Hq) Hok].
  destruct (Ht v Hq) as (w & v' & Hfn & Hgn & Hr), (IH Hok) as (ws & vs & Hws & Hvs & Hfw & Hgw & Hat). cbn [fst snd] in *.
  exists ((n, w) :: ws), ((n, v') :: vs). cbn [map fst fields_r]. rewrite Hws, Hvs, Hv, Hfn. cbn. rewrite Hfw. cbn. split_and!; [done..| | |].
  - intros kw' Hkw. rewrite (Hkw n w), Hgn by set_solver. cbn. by rewrite Hgw by set_solver.
  - exists v. split; [done|]. exists v'. split; [by left|done].
  - apply fields_at_all. intros m u Hin. destruct (fields_at_elem _ _ _ _ _ Hat Hin) as (x & Hx & x' & Hin' & Hr').
    exists x. split; [done|]. exists x'. split; [by right|done].
Qed.

(** ** Reading a message and exporting it again *)

Section RoundTrip.
Context `{PbLib}.

Lemma exactly_instance st o : is_exactly st o = true -> is_instance st o = true.
Proof. unfold is_instance. by intros ->. Qed.

Lemma enum_of_number cls ms k : k ∈ map snd ms -> enum_convert cls ms (OInt k) = Ok (OEnum cls k).
Proof. intros Hk. unfold enum_convert. cbn. by rewrite bool_decide_true. Qed.

Lemma fields_r_ext f fields kw kw' :
  (forall n, n ∈ map fst fields -> dict_get n kw = dict_get n kw') -> fields_r f fields kw = fields_r f fields kw'.
Proof.
  induction fields as [|[n t] fields IH]; intros Hall; cbn; [done|]. cbn in Hall.
  rewrite (Hall n) by set_solver. by rewrite IH by set_solver.
Qed.

(** [convert] of a protobuf message builds the wrapper from all of its
    annotated fields. *)
Lemma convert_pb w p fields fs :
  w <> p -> (forall n, n ∈ map fst fields -> is_Some (dict_get n fs)) ->
  convert w p fields (OMsg p fs) = new_message w fields fs.
Proof.
  intros Hw Hn. unfold convert, convert_with.
  destruct (String.eqb_spec p w) as [->|_]; [done|]. rewrite String.eqb_refl.
  assert (Hread : forall names, (forall n, n ∈ names -> is_Some (dict_get n fs)) -> exists kw,
    map_r (fun n => match dict_get n fs with Some v => Ok (n, v) | None => Raise attribute_error end) names = Ok kw /\
    forall n, n ∈ names -> dict_get n kw = dict_get n fs).
  { induction names as [|n names IH]; intros Hall; [exists []; split; [done|set_solver]|].
    destruct (Hall n ltac:(by left)) as [v Hv]. destruct IH as (kw & Hkw & Hget); [intros; apply Hall; by right|].
    exists ((n, v) :: kw). cbn. rewrite Hv. cbn. rewrite Hkw. split; [done|]. intros m Hm. cbn.
    destruct (String.eqb_spec m n) as [->|]; [done|]. apply Hget. set_solver. }
  destruct (Hread (map fst fields) Hn) as (kw & -> & Hget). cbn. unfold new_message. by rewrite (fields_r_ext _ _ _ _ Hget).
Qed.

(** The elements of the containers, as [set_field] and [export_to_pb] treat
    them. *)
Definition export_field (proto n : string) (t : ftype) (v : option obj) : result pyexn obj :=
  match v with Some x => export_to_pb proto n t x | None => Raise attribute_error end.
Definition convert_element (w p : string) (fields : list (string * ftype)) (e : obj) : result pyexn obj :=
  if is_message w p e then convert w p fields e else Raise type_error.
Definition convert_item (kt : sctype) (w p : string) (fields : list (string * ftype)) (kv : obj * obj) :
    result pyexn (obj * obj) :=
  if negb (is_exactly kt (fst kv)) then Raise type_error
  else if is_message w p (snd kv) then bind_r (convert w p fields (snd kv)) (fun x => Ok (fst kv, x))
  else Raise type_error.
Definition export_item (p n q : string) (fields : list (string * ftype)) (kv : obj * obj) : result pyexn (obj * obj) :=
  bind_r (pb_key p n (fst kv)) (fun k => bind_r (export_pb q fields (snd kv)) (fun m => Ok (k, m))).

Lemma set_repeated w q fields l :
  set_field (FRepeatedMsg w q fields) (Some (OList l)) =
  bind_r (map_r (convert_element w q fields) l) (fun l => Ok (OList l)).
Proof. reflexivity. Qed.
Lemma set_map kt w q fields l :
  set_field (FMessageMap kt w q fields) (Some (ODict l)) =
  bind_r (map_r (convert_item kt w q fields) l) (fun l => Ok (ODict l)).
Proof. reflexivity. Qed.
Lemma export_repeated p n w q fields l :
  export_to_pb p n (FRepeatedMsg w q fields) (OList l) =
  bind_r (map_r (export_pb q fields) l) (fun l => Ok (OList l)).
Proof. reflexivity. Qed.
Lemma export_map p n kt w q fields l :
  export_to_pb p n (FMessageMap kt w q fields) (ODict l) =
  bind_r (map_r (export_item p n q fields) l) (fun l => Ok (ODict l)).
Proof. reflexivity. Qed.

(** An entry of a mapping is converted and exported back when its message is. *)
Lemma item_reads_back kt p n w q fields R kv :
  is_exactly kt (fst kv) = true -> pb_key p n (fst kv) = Ok (fst kv) ->
  recovers (convert_element w q fields) (export_pb q fields) R (snd kv) ->
  recovers (convert_item kt w q fields) (export_item p n q fields) (fun kv kv' => fst kv' = fst kv /\ R (snd kv) (snd kv')) kv.
Proof.
  destruct kv as [k m]. cbn. intros Hk Hp (x & m' & Hc & Hx & Hr). exists (k, x), (k, m').
  unfold convert_item, export_item, convert_element in *. cbn. rewrite Hk, Hp. cbn.
  destruct (is_message w q m); [|done]. by rewrite Hc, Hx.
Qed.

Lemma item_writes_back kt p n w q fields kv :
  is_exactly kt (fst kv) = true -> pb_key p n (fst kv) = Ok (fst kv) ->
  inverts (export_pb q fields) (convert_element w q fields) (snd kv) ->
  inverts (export_item p n q fields) (convert_item kt w q fields) kv.
Proof.
  destruct kv as [k m]. cbn. intros Hk Hp (x & Hx & Hc). exists (k, x).
  unfold convert_item, export_item, convert_element in *. cbn. rewrite Hk, Hp. cbn.
  destruct (is_message w q x); [|done]. by rewrite Hx, Hc.
Qed.

(** A field of the type is read and exported back; and the other way round. *)
Definition reads_back (t : ftype) : Prop :=
  forall p n v, pb_value p n t v -> recovers (fun o => set_field t (Some o)) (export_to_pb p n t) (reads_same t) v.
Definition writes_back (t : ftype) : Prop :=
  forall p n x, wrapped_value p n t x -> inverts (export_to_pb p n t) (fun o => set_field t (Some o)) x.

Definition message_fields (R : ftype -> Prop) (w p : string) (fields : list (string * ftype)) : Prop :=
  w <> p /\ NoDup (map fst fields) /\ Forall (fun nt => R (snd nt)) fields.

(** A protobuf message read and exported reads the same. *)
Definition same_message (p : string) (fields : list (string * ftype)) (o o' : obj) : Prop :=
  exists fs fs', o = OMsg p fs /\ o' = OMsg p fs' /\
    fields_at (fun n t v => exists v', dict_get n fs' = Some v' /\ reads_same t v v') fs fields.

Lemma message_reads_back w p fields o :
  message_fields reads_back w p fields ->
  (exists fs, o = OMsg p fs /\ fields_at (fun n t v => pb_value p n t v) fs fields) ->
  recovers (convert_element w p fields) (export_pb p fields) (same_message p fields) o /\
  recovers (convert w p fields) (export_pb p fields) (same_message p fields) o.
Proof.
  intros (Hw & Hnd & Hf) (fs & -> & Hok).
  destruct (fields_r_recovers (fun _ t v => set_field t v) (export_field p) (fun n t v => pb_value p n t v) reads_same fields fs)
    as (ws & vs & Hr & Hx & Hvs & Hsame); [|done..|].
  { eapply Forall_impl; [exact Hf|]. intros nt Hnt v. apply Hnt. }
  enough (Hi : recovers (convert w p fields) (export_pb p fields) (same_message p fields) (OMsg p fs)).
  { split; [|done]. unfold recovers. replace (convert_element w p fields (OMsg p fs)) with (convert w p fields (OMsg p fs)); [done|].
    unfold convert_element, is_message. by rewrite String.eqb_refl, orb_true_r. }
  exists (OMsg w ws), (OMsg p (overlay vs (pb_new p))). split_and!.
  - rewrite convert_pb; [unfold new_message; by rewrite Hr|done|].
    intros n Hn. apply list_elem_of_fmap in Hn as ([m t] & -> & Hin). cbn [fst]. destruct (fields_at_elem _ _ _ _ _ Hok Hin) as (v & -> & _). by eexists.
  - unfold export_field in Hx. cbn. by rewrite Hx.
  - exists fs, (overlay vs (pb_new p)). split_and!; [done..|]. apply fields_at_all. intros n t Hin.
    destruct (fields_at_elem _ _ _ _ _ Hsame Hin) as (v & Hv & v' & Hv' & Hr'). exists v. split; [done|]. exists v'. split; [|done].
    rewrite overlay_get by (by rewrite Hvs). by rewrite Hv'.
Qed.

Lemma message_writes_back w p fields x :
  message_fields writes_back w p fields ->
  (exists xs, x = OMsg w xs /\ fields_ok (fun n t v => wrapped_value p n t v) fields xs) ->
  inverts (export_pb p fields) (convert_element w p fields) x /\
  inverts (export_pb p fields) (convert w p fields) x.
Proof.
  intros (Hw & Hnd & Hf) (xs & -> & Hok).
  destruct (fields_r_inverts (export_field p) (fun _ t v => set_field t v)
    (fun n t v => wrapped_value p n t v) fields xs) as (fs & Hx & Hr); [|done..|].
  { eapply Forall_impl; [exact Hf|]. intros nt Hnt v. apply Hnt. }
  assert (Hn : map fst fs = map fst fields).
  { revert Hx. clear. generalize (export_field p). intros g. revert fs.
    induction fields as [|[n t] fields IH]; cbn; intros fs Hx; [by injection Hx as <-|].
    destruct (g n t _); [|done]. cbn in Hx. destruct (fields_r g fields xs); [|done].
    injection Hx as <-. cbn. by rewrite IH with (fs := a0). }
  assert (Hi : exists m, export_pb p fields (OMsg w xs) = Ok (OMsg p m) /\
    convert w p fields (OMsg p m) = Ok (OMsg w xs)).
  { assert (Hget : forall n, n ∈ map fst fields -> dict_get n (overlay fs (pb_new p)) = dict_get n fs /\ is_Some (dict_get n fs)).
    { intros n Hin. rewrite overlay_get by (by rewrite Hn). rewrite <- Hn in Hin. apply list_elem_of_fmap in Hin as ([m v] & -> & Hin).
      cbn. rewrite (dict_get_mem m v) by (by rewrite ?Hn). by split; [|eexists]. }
    exists (overlay fs (pb_new p)). unfold export_field in Hx. cbn [export_pb]. rewrite Hx. split; [done|].
    rewrite convert_pb; [|done|intros n Hin; destruct (Hget n Hin) as [-> ?]; done].
    unfold new_message. rewrite (fields_r_ext _ _ _ fs) by (intros n Hin; by apply Hget). by rewrite Hr. }
  destruct Hi as (m & He & Hc). split; exists (OMsg p m); split; try done.
  unfold convert_element, is_message. by rewrite String.eqb_refl, orb_true_r.
Qed.

Lemma good_message (R : ftype -> Prop) t w p fields :
  t = FMessage w p fields \/ t = FRepeatedMsg w p fields \/ (exists k, t = FMessageMap k w p fields) ->
  Forall (fun nt => good_type (snd nt) = true -> R (snd nt)) fields ->
  good_type t = true -> message_fields R w p fields.
Proof.
  intros Ht Hf Hg. assert (Hg' : negb (String.eqb w p) && bool_decide (NoDup (map fst fields))
    && forallb (fun nt => good_type (snd nt)) fields = true) by (destruct Ht as [->|[->|[k ->]]]; exact Hg).
  apply andb_prop in Hg' as [[Hw Hnd]%andb_prop Hfs]. split_and!.
  - intros ->. by rewrite String.eqb_refl in Hw.
  - by apply bool_decide_eq_true in Hnd.
  - rewrite Forall_forall in Hf |- *. intros nt Hnt. apply (Hf _ Hnt), (proj1 (forallb_forall _ _) Hfs).
    by apply list_elem_of_In.
Qed.

Lemma every_type_reads_back t : good_type t = true -> reads_back t.
Proof.
  induction t as [st|cls ms|w q fields IH|w q fields IH|st|kt vt|kt w q fields IH] using ftype_nested_ind;
    intros Hg p n v Hv.
  - destruct Hv as [Hv Hs]. exists v, v. cbn. unfold set_scalar. cbn. by rewrite exactly_instance.
  - destruct Hv as (k & -> & Hk & Hs). exists (OEnum cls k), (OInt k).
    cbn [set_field export_to_pb set_enum enum_export_to_pb]. by rewrite enum_of_number.
  - by destruct (message_reads_back w q fields v (good_message _ _ _ _ _ (or_introl eq_refl) IH Hg) Hv).
  - destruct Hv as (l & -> & Hl). pose proof (good_message _ _ _ _ _ (or_intror (or_introl eq_refl)) IH Hg) as Hm.
    destruct (map_r_recovers (convert_element w q fields) (export_pb q fields) (same_message q fields) l) as (ws & l' & Hr & Hx & Hs).
    { eapply Forall_impl; [exact Hl|]. intros e He. by apply message_reads_back. }
    exists (OList ws), (OList l'). rewrite set_repeated, export_repeated. rewrite Hr, Hx. split_and!; [done..|]. by exists l, l'.
  - destruct Hv as (l & -> & Hl & Hs). exists (OList l), (OList l). cbn. unfold repeated_scalar_convert. cbn. rewrite map_r_same; [done|].
    eapply Forall_impl; [exact Hl|]. by intros e ->.
  - destruct Hv as (l & -> & Hl & Hs). exists (ODict l), (ODict l). cbn. unfold scalar_map_convert. cbn. rewrite map_r_same; [done|].
    eapply Forall_impl; [exact Hl|]. intros kv [Hk Hv]. by rewrite Hk, exactly_instance.
  - destruct Hv as (l & -> & Hl).
    pose proof (good_message _ _ _ _ _ (or_intror (or_intror (ex_intro _ kt eq_refl))) IH Hg) as Hm.
    destruct (map_r_recovers (convert_item kt w q fields) (export_item p n q fields)
      (fun kv kv' => fst kv' = fst kv /\ same_message q fields (snd kv) (snd kv')) l) as (ws & l' & Hr & Hx & Hs).
    { eapply Forall_impl; [exact Hl|]. intros kv [[Hk He] Hp]. apply item_reads_back; [done..|].
      by apply message_reads_back. }
    exists (ODict ws), (ODict l'). rewrite set_map, export_map. rewrite Hr, Hx. split_and!; [done..|]. by exists l, l'.
Qed.

Lemma every_type_writes_back t : good_type t = true -> writes_back t.
Proof.
  induction t as [st|cls ms|w q fields IH|w q fields IH|st|kt vt|kt w q fields IH] using ftype_nested_ind;
    intros Hg p n x Hv.
  - destruct Hv as [Hv Hs]. exists x. cbn. unfold set_scalar. cbn. by rewrite exactly_instance.
  - destruct Hv as (k & -> & Hk & Hs). exists (OInt k). cbn [set_field export_to_pb set_enum enum_export_to_pb]. by rewrite enum_of_number.
  - by destruct (message_writes_back w q fields x (good_message _ _ _ _ _ (or_introl eq_refl) IH Hg) Hv).
  - destruct Hv as (l & -> & Hl). pose proof (good_message _ _ _ _ _ (or_intror (or_introl eq_refl)) IH Hg) as Hm.
    destruct (map_r_inverts (export_pb q fields) (convert_element w q fields) l) as (ws & Hx & Hr).
    { eapply Forall_impl; [exact Hl|]. intros e He. by apply message_writes_back. }
    exists (OList ws). rewrite set_repeated, export_repeated. by rewrite Hr, Hx.
  - destruct Hv as (l & -> & Hl & Hs). exists (OList l). cbn. unfold repeated_scalar_convert. cbn. rewrite map_r_same; [done|].
    eapply Forall_impl; [exact Hl|]. by intros e ->.
  - destruct Hv as (l & -> & Hl & Hs). exists (ODict l). cbn. unfold scalar_map_convert. cbn. rewrite map_r_same; [done|].
    eapply Forall_impl; [exact Hl|]. intros kv [Hk Hv]. by rewrite Hk, exactly_instance.
  - destruct Hv as (l & -> & Hl).
    pose proof (good_message _ _ _ _ _ (or_intror (or_intror (ex_intro _ kt eq_refl))) IH Hg) as Hm.
    destruct (map_r_inverts (export_item p n q fields) (convert_item kt w q fields) l) as (ws & Hx & Hr).
    { eapply Forall_impl; [exact Hl|]. intros kv [[Hk He] Hp]. apply item_writes_back; [done..|].
      by apply message_writes_back. }
    exists (ODict ws). rewrite set_map, export_map. by rewrite Hr, Hx.
Qed.

End RoundTrip.

(** ** Attributes, copies and merging *)

Definition get_attr (o : obj) (n : string) : result pyexn obj :=
  match o with
  | OMsg _ xs => match dict_get n xs with Some x => Ok x | None => Raise attribute_error end
  | _ => Raise attribute_error
  end.

(** [setattr(o, n, v)]: the descriptor of the field checks and converts; a
    name that is no field is kept beside the message. *)
Definition set_attr (fields : list (string * ftype)) (o : obj) (n : string) (v : obj) : result pyexn obj :=
  match o, dict_get n fields with
  | OMsg cls xs, Some t => bind_r (set_field t (Some v)) (fun x => Ok (OMsg cls (dict_set n x xs)))
  | _, _ => Ok o
  end.

Definition deepcopy_message (fields : list (string * ftype)) (o : obj) : result pyexn obj :=
  match o with OMsg cls xs => new_message cls fields xs | _ => Ok o end.

(** [merge_from] of the responses: the protobuf response is converted first,
    then its elements are appended to [self]'s container [n]. *)
Definition merge_response (n w p : string) (fields : list (string * ftype)) (ew ep : string)
    (efields : list (string * ftype)) (self resp : obj) : result pyexn obj :=
  bind_r (match resp with
          | OMsg cls _ => if String.eqb cls p then convert w p fields resp else Ok resp
          | _ => Ok resp
          end) (fun resp =>
  bind_r (bind_r (get_attr self n) as_elements) (fun l =>
  bind_r (bind_r (get_attr resp n) as_elements) (fun es =>
  bind_r (extend_messages ew ep efields l es) (fun l =>
  match self with OMsg cls xs => Ok (OMsg cls (dict_set n (OList l) xs)) | _ => Raise attribute_error end)))).

(** ** [Duration] *)

Definition s2ns : Z := 1000000000.
Definition Duration_fields : list (string * ftype) := [("seconds", FScalar TInt); ("nanos", FScalar TInt)]%string.

Definition from_nanoseconds (ns : Z) : result pyexn obj :=
  new_message "Duration" Duration_fields [("seconds", OInt (ns / s2ns)); ("nanos", OInt (ns mod s2ns))]%string.

Definition attr_int (o : obj) (n : string) : result pyexn Z :=
  bind_r (get_attr o n) (fun v => match as_int v with Some k => Ok k | None => Raise type_error end).

Definition add_nanoseconds (self : obj) (ns : Z) : result pyexn obj :=
  bind_r (attr_int self "nanos") (fun nanos =>
  let add_seconds := (nanos + ns) / s2ns in
  let new_nanos := (nanos + ns) mod s2ns in
  bind_r (attr_int self "seconds") (fun seconds =>
  bind_r (set_attr Duration_fields self "seconds" (OInt (seconds + add_seconds))) (fun self =>
  set_attr Duration_fields self "nanos" (OInt new_nanos)))).

Fixpoint add_all (self : obj) (l : list Z) : result pyexn obj :=
  match l with
  | [] => Ok self
  | ns :: l => bind_r (add_nanoseconds self ns) (fun self => add_all self l)
  end.

Lemma from_nanoseconds_eq ns :
  from_nanoseconds ns = Ok (OMsg "Duration" [("seconds", OInt (ns / s2ns)); ("nanos", OInt (ns mod s2ns))]%string).
Proof. reflexivity. Qed.

Lemma add_nanoseconds_eq s n ns :
  add_nanoseconds (OMsg "Duration" [("seconds", OInt s); ("nanos", OInt n)]%string) ns =
  Ok (OMsg "Duration" [("seconds", OInt (s + (n + ns) / s2ns)); ("nanos", OInt ((n + ns) mod s2ns))]%string).
Proof. reflexivity. Qed.

(** Adding times to a duration one by one loses nothing: the duration
    built from [ns] nanoseconds, after any additions, is the one built from
    the total, whose parts are in range. *)
Theorem duration_adds_up ns l :
  let total := ns + foldr Z.add 0 l in
  bind_r (from_nanoseconds ns) (fun d => add_all d l) = from_nanoseconds total /\
  total = total / s2ns * s2ns + total mod s2ns /\ 0 <= total mod s2ns < s2ns.
Proof.
  cbn zeta. split; [|unfold s2ns; split; [|apply Z.mod_pos_bound; lia];
    rewrite Z.mul_comm; apply Z.div_mod; lia].
  revert ns. induction l as [|k l IH]; intros ns; [cbn; by rewrite Z.add_0_r|].
  rewrite from_nanoseconds_eq. unfold bind_r. cbn [add_all foldr]. rewrite add_nanoseconds_eq.
  unfold bind_r. specialize (IH (ns + k)). rewrite from_nanoseconds_eq in IH. unfold bind_r in IH.
  replace (ns + (k + foldr Z.add 0 l)) with (ns + k + foldr Z.add 0 l) by lia. rewrite <- IH.
  rewrite Zplus_mod_idemp_l. do 6 f_equal. rewrite (Z.div_mod ns s2ns) at 3 by done.
  by rewrite <- Z.add_assoc, (Z.mul_comm s2ns), Z.div_add_l.
Qed.

(** ** Copies *)

(** A value a wrapper holds is kept as it is when it is assigned again. *)
Lemma wrapped_kept `{PbLib} p n t x : wrapped_value p n t x -> set_field t (Some x) = Ok x.
Proof.
  assert (Hmsg : forall w q fields (Q : list (string * obj) -> Prop) y,
    (exists xs, y = OMsg w xs /\ Q xs) -> is_message w q y = true /\ convert w q fields y = Ok y).
  { intros w q fields Q y (xs & -> & _). unfold is_message, convert, convert_with. by rewrite String.eqb_refl. }
  destruct t as [st|cls ms|w q fields|w q fields|st|kt vt|kt w q fields]; intros Hv.
  - destruct Hv as [Hv _]. cbn. unfold set_scalar. cbn. by rewrite exactly_instance.
  - destruct Hv as (k & -> & Hk & _). cbn. unfold enum_convert. cbn. by rewrite bool_decide_true.
  - by apply (Hmsg w q fields _ x) in Hv as [_ Hv].
  - destruct Hv as (l & -> & Hl). rewrite set_repeated, map_r_same; [done|].
    eapply Forall_impl; [exact Hl|]. intros e He. apply (Hmsg w q fields) in He as [Hm He].
    unfold convert_element. by rewrite Hm.
  - destruct Hv as (l & -> & Hl & _). cbn. unfold repeated_scalar_convert, scalar_map_convert. cbn. rewrite map_r_same; [done|].
    eapply Forall_impl; [exact Hl|]. by intros e ->.
  - destruct Hv as (l & -> & Hl & _). cbn. unfold repeated_scalar_convert, scalar_map_convert. cbn. rewrite map_r_same; [done|].
    eapply Forall_impl; [exact Hl|]. intros kv [Hk Hv]. by rewrite Hk, exactly_instance.
  - destruct Hv as (l & -> & Hl). rewrite set_map, map_r_same; [done|].
    eapply Forall_impl; [exact Hl|]. intros [k m] [[Hk Hm] _]. apply (Hmsg w q fields) in Hm as [Hm Hc].
    unfold convert_item. cbn in *. by rewrite Hk, Hm, Hc.
Qed.

(** [deepcopy] of a message is equal to it. *)
Theorem deepcopy_equal `{PbLib} w p fields xs :
  NoDup (map fst fields) -> fields_ok (fun n t v => wrapped_value p n t v) fields xs ->
  deepcopy_message fields (OMsg w xs) = Ok (OMsg w xs).
Proof.
  intros Hnd Hok. cbn. unfold new_message.
  destruct (fields_r_inverts (fun _ t v => set_field t v) (fun _ t v => set_field t v)
    (fun n t v => wrapped_value p n t v) fields xs) as (ys & Hf & Hg); [|done..|].
  { apply Forall_forall. intros nt _ v Hv. exists v. by rewrite (wrapped_kept p (fst nt)). }
  enough (Hsame : fields_r (fun _ t v => set_field t v) fields xs = Ok xs) by by rewrite Hsame.
  assert (Hall : forall n v, (n, v) ∈ xs -> dict_get n xs = Some v).
  { intros n v. apply dict_get_mem. by rewrite (fields_ok_names _ _ _ Hok). }
  clear - Hok Hall. revert Hall. generalize xs at 2 3. intros kw Hall. revert xs Hok Hall.
  induction fields as [|[n t] fields IH]; intros [|[n' v] xs]; cbn; try done.
  intros (-> & Hv & Hok) Hall. rewrite (Hall n v), (wrapped_kept p n) by set_solver.
  cbn. rewrite (IH xs); [done|done|set_solver].
Qed.

(** ** The text of a message *)

Definition REDACTED_STR : string := "<redacted>".

(** [_redacted_fields] of the classes. *)
Definition redacted_fields (cls : string) : list string :=
  if String.eqb cls "UpdateRequestEcu" || String.eqb cls "ClientUpdateRequestEcu" then ["cookies"%string] else [].

(** [s.splitlines(keepends=True)] *)
Fixpoint splitlines_keepends (s : string) : list string :=
  match s with
  | EmptyString => []
  | String "013" (String "010" r) => String "013" newline :: splitlines_keepends r
  | String a r =>
      if is_linebreak a then String a EmptyString :: splitlines_keepends r
      else match splitlines_keepends r with
           | [] => [String a EmptyString]
           | l :: ls => String a l :: ls
           end
  end.

Definition concat_str (l : list string) : string := foldr String.append EmptyString l.

(** One field of the text: the first line as it is, the others indented. *)
Definition field_text (n text : string) : string :=
  (" " +:+ n +:+ " :" +:+
   match splitlines_keepends text with
   | [] => EmptyString
   | l :: ls => l +:+ concat_str (map (fun l => String "009" " " +:+ l) ls)
   end +:+ "," +:+ newline)%string.

Definition entry_text (text : string) : string :=
  (concat_str (map (String "009") (splitlines_keepends text)) +:+ "," +:+ String "009" newline)%string.

Section Text.
(** [str] of the built-in values whose text the model does not spell out:
    bytes, and the members of an [IntEnum], which print differently between
    versions of Python. *)
Variable bytes_str : string -> string.
Variable enum_str : string -> Z -> string.

Fixpoint str_obj (o : obj) : string :=
  let repr o := match o with OStr s => str_repr s | _ => str_obj o end in
  match o with
  | OFloat text => text
  | OInt n => pretty n
  | OStr s => s
  | OBytes s => bytes_str s
  | OBool b => if b then "True" else "False"
  | OEnum cls n => enum_str cls n
  | OMsg cls fields =>
      ("{" +:+ newline +:+
       concat_str (map (fun nv =>
         match nv with
         | (n, v) => field_text n (if bool_decide (n ∈ redacted_fields cls) then REDACTED_STR else str_obj v)
         end) fields) +:+ "}")%string
  | OList l => ("[" +:+ newline +:+ concat_str (map (fun e => entry_text (str_obj e)) l) +:+ "]")%string
  | ODict l =>
      ("{" +:+ str_join ", " (map (fun kv => match kv with (k, v) => (repr k +:+ ": " +:+ repr v)%string end) l)
       +:+ "}")%string
  | ONone => "None"
  end.

(** The object with its redacted fields emptied, at every depth. *)
Fixpoint scrub (o : obj) : obj :=
  match o with
  | OMsg cls fields =>
      OMsg cls (map (fun nv => match nv with
                               | (n, v) => (n, if bool_decide (n ∈ redacted_fields cls) then ONone else scrub v)
                               end) fields)
  | OList l => OList (map scrub l)
  | ODict l => ODict (map (fun kv => match kv with (k, v) => (k, scrub v) end) l)
  | o => o
  end.

Section obj_ind.
Variable P : obj -> Prop.
Hypothesis Hatom : forall o, match o with OMsg _ _ | OList _ | ODict _ => False | _ => True end -> P o.
Hypothesis Hmsg : forall c fs, Forall (fun nv => P (snd nv)) fs -> P (OMsg c fs).
Hypothesis Hlist : forall l, Forall P l -> P (OList l).
Hypothesis Hdict : forall l, Forall (fun kv => P (snd kv)) l -> P (ODict l).

Lemma obj_nested_ind : forall o, P o.
Proof.
  fix IH 1. intros [].
  all: try (apply Hatom; exact I).
  - apply Hmsg. induction fields as [|[n v] fs IHfs]; constructor; [apply IH|exact IHfs].
  - apply Hlist. induction l as [|e l IHl]; constructor; [apply IH|exact IHl].
  - apply Hdict. induction l as [|[k v] l IHl]; constructor; [apply IH|exact IHl].
Qed.
End obj_ind.

(** The text of a message does not depend on its redacted fields, at any
    depth: what a log line shows of a request is the same whatever the
    cookies are. *)
Theorem redacted_never_shown o : str_obj (scrub o) = str_obj o.
Proof.
  induction o as [o Ho|cls fs IH|l IH|l IH] using obj_nested_ind.
  - by destruct o.
  - cbn [scrub str_obj]. do 3 f_equal. rewrite map_map. f_equal. apply map_ext_Forall.
    eapply Forall_impl; [exact IH|]. intros [n v] Hv. cbn in *. by case_bool_decide; rewrite ?Hv.
  - cbn [scrub str_obj]. do 3 f_equal. rewrite map_map. f_equal. apply map_ext_Forall.
    eapply Forall_impl; [exact IH|]. intros e He. cbn in *. by rewrite He.
  - cbn [scrub str_obj]. do 2 f_equal. rewrite map_map. f_equal. apply map_ext_Forall.
    eapply Forall_impl; [exact IH|]. intros [k v] Hv. cbn [snd] in *. do 2 f_equal.
    destruct v; cbn [scrub] in *; by rewrite ?Hv.
Qed.
End Text.

(** ** The messages of API version 2

    [src/src/otaclient_api/v2/_types.py]; the numbers of the enums' members
    are those of the generated protobuf module, a parameter.  Fields declared
    by a protocol a class inherits come first, as [get_type_hints] lists
    them. *)
Module V2.
Section Messages.
Variable pb2 : string -> Z.

Definition members (l : list string) : list (string * Z) := map (fun n => (n, pb2 n)) l.

Definition FailureType_t : ftype := FEnum "FailureType" (members ["NO_FAILURE"; "RECOVERABLE"; "UNRECOVERABLE"]%string).
Definition AbortFailureType_t : ftype :=
  FEnum "AbortFailureType" (members ["ABORT_NO_FAILURE"; "ABORT_FAILURE"]%string).
Definition StatusOta_t : ftype :=
  FEnum "StatusOta" (members ["INITIALIZED"; "SUCCESS"; "FAILURE"; "UPDATING"; "ROLLBACKING"; "ROLLBACK_FAILURE";
    "CLIENT_UPDATING"; "ABORTING"; "ABORTED"]%string).
Definition UpdatePhase_t : ftype :=
  FEnum "UpdatePhase" (members ["INITIALIZING"; "PROCESSING_METADATA"; "CALCULATING_DELTA"; "DOWNLOADING_OTA_FILES";
    "APPLYING_UPDATE"; "PROCESSING_POSTUPDATE"; "FINALIZING_UPDATE"; "DOWNLOADING_OTA_CLIENT"]%string).

Definition str : ftype := FScalar TStr.
Definition int : ftype := FScalar TInt.
Definition Duration : ftype := FMessage "Duration" "google.Duration" Duration_fields.

Definition RollbackRequestEcu_fields : list (string * ftype) := [("ecu_id", str)]%string.
Definition RollbackRequest_fields : list (string * ftype) :=
  [("ecu", FRepeatedMsg "RollbackRequestEcu" "pb2.RollbackRequestEcu" RollbackRequestEcu_fields);
   ("request_id", str)]%string.
Definition RollbackResponseEcu_fields : list (string * ftype) :=
  [("ecu_id", str); ("result", FailureType_t); ("message", str)]%string.
Definition RollbackResponse_fields : list (string * ftype) :=
  [("ecu", FRepeatedMsg "RollbackResponseEcu" "pb2.RollbackResponseEcu" RollbackResponseEcu_fields)]%string.

Definition StatusRequest_fields : list (string * ftype) := [].
Definition UpdateStatus_fields : list (string * ftype) :=
  [("delta_generating_elapsed_time", Duration); ("downloaded_bytes", int); ("downloaded_files_num", int);
   ("downloaded_files_size", int); ("downloading_elapsed_time", Duration); ("downloading_errors", int);
   ("phase", UpdatePhase_t); ("processed_files_num", int); ("processed_files_size", int);
   ("removed_files_num", int); ("total_download_files_num", int); ("total_download_files_size", int);
   ("total_elapsed_time", Duration); ("total_files_num", int); ("total_files_size_uncompressed", int);
   ("total_remove_files_num", int); ("update_applying_elapsed_time", Duration);
   ("update_firmware_version", str); ("update_start_timestamp", int)]%string.
Definition StatusResponseEcuV2_fields : list (string * ftype) :=
  [("ecu_id", str); ("failure_reason", str); ("failure_traceback", str); ("failure_type", FailureType_t);
   ("firmware_version", str); ("ota_status", StatusOta_t); ("otaclient_version", str);
   ("update_status", FMessage "UpdateStatus" "pb2.UpdateStatus" UpdateStatus_fields);
   ("release_name", str); ("release_id", str); ("image_id", str)]%string.
Definition StatusResponse_fields : list (string * ftype) :=
  [("ecu_v2", FRepeatedMsg "StatusResponseEcuV2" "pb2.StatusResponseEcuV2" StatusResponseEcuV2_fields);
   ("available_ecu_ids", FRepeatedScalar TStr)]%string.

Definition UpdateRequestEcu_fields : list (string * ftype) :=
  [("cookies", str); ("ecu_id", str); ("url", str); ("version", str); ("release_name", str); ("release_id", str);
   ("image_id", str)]%string.
Definition UpdateRequest_fields : list (string * ftype) :=
  [("ecu", FRepeatedMsg "UpdateRequestEcu" "pb2.UpdateRequestEcu" UpdateRequestEcu_fields); ("request_id", str)]%string.
Definition UpdateResponseEcu_fields : list (string * ftype) :=
  [("ecu_id", str); ("result", FailureType_t); ("message", str)]%string.
Definition UpdateResponse_fields : list (string * ftype) :=
  [("ecu", FRepeatedMsg "UpdateResponseEcu" "pb2.UpdateResponseEcu" UpdateResponseEcu_fields)]%string.

Definition ClientUpdateRequestEcu_fields : list (string * ftype) :=
  [("cookies", str); ("ecu_id", str); ("url", str); ("version", str); ("release_name", str); ("release_id", str);
   ("image_id", str)]%string.
Definition ClientUpdateRequest_fields : list (string * ftype) :=
  [("ecu", FRepeatedMsg "ClientUpdateRequestEcu" "pb2.UpdateRequestEcu" ClientUpdateRequestEcu_fields);
   ("request_id", str)]%string.
Definition ClientUpdateResponseEcu_fields : list (string * ftype) :=
  [("ecu_id", str); ("result", FailureType_t); ("message", str)]%string.
Definition ClientUpdateResponse_fields : list (string * ftype) :=
  [("ecu", FRepeatedMsg "ClientUpdateResponseEcu" "pb2.UpdateResponseEcu" ClientUpdateResponseEcu_fields)]%string.

Definition AbortRequestEcu_fields : list (string * ftype) := [("ecu_id", str)]%string.
Definition AbortRequest_fields : list (string * ftype) :=
  [("ecu", FRepeatedMsg "AbortRequestEcu" "pb2.AbortRequestEcu" AbortRequestEcu_fields); ("request_id", str)]%string.
Definition AbortResponseEcu_fields : list (string * ftype) :=
  [("ecu_id", str); ("result", AbortFailureType_t); ("message", str)]%string.
Definition AbortResponse_fields : list (string * ftype) :=
  [("ecu", FRepeatedMsg "AbortResponseEcu" "pb2.AbortResponseEcu" AbortResponseEcu_fields)]%string.

(** [merge_from] of the responses. *)
Definition rollback_merge_from : obj -> obj -> result pyexn obj :=
  merge_response "ecu" "RollbackResponse" "pb2.RollbackResponse" RollbackResponse_fields
    "RollbackResponseEcu" "pb2.RollbackResponseEcu" RollbackResponseEcu_fields.
Definition client_update_merge_from : obj -> obj -> result pyexn obj :=
  merge_response "ecu" "ClientUpdateResponse" "pb2.UpdateResponse" ClientUpdateResponse_fields
    "ClientUpdateResponseEcu" "pb2.UpdateResponseEcu" ClientUpdateResponseEcu_fields.
Definition abort_merge_from : obj -> obj -> result pyexn obj :=
  merge_response "ecu" "AbortResponse" "pb2.AbortResponse" AbortResponse_fields
    "AbortResponseEcu" "pb2.AbortResponseEcu" AbortResponseEcu_fields.

Definition messages : list ftype :=
  [FMessage "RollbackRequest" "pb2.RollbackRequest" RollbackRequest_fields;
   FMessage "RollbackResponse" "pb2.RollbackResponse" RollbackResponse_fields;
   FMessage "StatusRequest" "pb2.StatusRequest" StatusRequest_fields;
   FMessage "StatusResponse" "pb2.StatusResponse" StatusResponse_fields;
   FMessage "UpdateRequest" "pb2.UpdateRequest" UpdateRequest_fields;
   FMessage "UpdateResponse" "pb2.UpdateResponse" UpdateResponse_fields;
   FMessage "ClientUpdateRequest" "pb2.UpdateRequest" ClientUpdateRequest_fields;
   FMessage "ClientUpdateResponse" "pb2.UpdateResponse" ClientUpdateResponse_fields;
   FMessage "AbortRequest" "pb2.AbortRequest" AbortRequest_fields;
   FMessage "AbortResponse" "pb2.AbortResponse" AbortResponse_fields]%string.
End Messages.
End V2.

(** Every message of the API can be read and exported back. *)
Theorem api_messages_good pb2 : forallb good_type (V2.messages pb2) = true.
Proof. vm_compute. reflexivity. Qed.

(** ** A message of the API, there and back *)

(** Protobuf fields that take what they are given, and text keys. *)
Definition sample_new (proto : string) : list (string * obj) :=
  if String.eqb proto "pb2.StatusResponse" then [("ecu", OList []); ("available_ecu_ids", OList []); ("ecu_v2", OList [])]%string
  else if String.eqb proto "pb2.UpdateResponse" then [("ecu", OList [])]%string
  else if String.eqb proto "pb2.UpdateResponseEcu" then [("ecu_id", OStr ""); ("result", OInt 0); ("message", OStr "")]%string
  else [].
#[local] Instance sample_pb : PbLib := {| pb_new := sample_new; pb_set := fun _ _ o => Ok o; pb_key := fun _ _ o => Ok o |}.

Definition sample_numbers (n : string) : Z :=
  if String.eqb n "RECOVERABLE" then 1 else if String.eqb n "UNRECOVERABLE" then 2 else 0.

Definition sample_response (ecu_cls cls : string) (result : obj) : obj :=
  OMsg cls [("ecu", OList [OMsg ecu_cls [("ecu_id", OStr "main"); ("result", result); ("message", OStr "busy")]])]%string.


(** The list of the first API version in a status response has no field in
    the wrapper: it is not in the exported response. *)
Example unannotated_field_dropped :
  let t := FMessage "StatusResponse" "pb2.StatusResponse" (V2.StatusResponse_fields sample_numbers) in
  let response ecu := OMsg "pb2.StatusResponse" [("ecu", OList ecu); ("available_ecu_ids", OList [OStr "main"]); ("ecu_v2", OList [])]%string in
  exists x, set_field t (Some (response [OMsg "pb2.StatusResponseEcu" []])) = Ok x /\
    export_to_pb "top" "resp" t x = Ok (response []).
Proof. eexists. split; vm_compute; reflexivity. Qed.

(** An answer with a failure the wrapper does not know is refused. *)
Example unknown_number_refused :
  set_field (FMessage "UpdateResponse" "pb2.UpdateResponse" (V2.UpdateResponse_fields sample_numbers))
    (Some (sample_response "pb2.UpdateResponseEcu" "pb2.UpdateResponse" (OInt 7))) = Raise (PyExn XValueError [AInt 7] None None).
Proof. vm_compute. reflexivity. Qed.

(** ** Merging responses *)

Lemma extend_wrappers w p fields l es :
  Forall (fun e => exists xs, e = OMsg w xs) es -> extend_messages w p fields l es = Ok (l ++ es).
Proof.
  intros Hes. revert l. induction Hes as [|e es (xs & ->) _ IH]; intros l; cbn; [by rewrite app_nil_r|].
  unfold append_message, convert, convert_with, is_message. rewrite String.eqb_refl. cbn. by rewrite IH, <- app_assoc.
Qed.

(** The merged response holds the elements of both, in order, and its other
    fields are untouched. *)
Theorem merge_appends n w p fields ew ep efields xs ys l es :
  w <> p -> dict_get n xs = Some (OList l) -> dict_get n ys = Some (OList es) ->
  Forall (fun e => exists zs, e = OMsg ew zs) es ->
  merge_response n w p fields ew ep efields (OMsg w xs) (OMsg w ys) = Ok (OMsg w (dict_set n (OList (l ++ es)) xs)).
Proof.
  intros Hw Hx Hy Hes. unfold merge_response, get_attr. destruct (String.eqb_spec w p) as [|_]; [done|].
  unfold bind_r. rewrite Hx, Hy. cbn. rewrite extend_wrappers by done. done.
Qed.
