(* ===== verification/ProtoStreamer.v ===== *)
(** * Streams of length-delimited messages

    Models [src/src/otaclient_common/proto_streamer.py]: a stream holds, for
    each message, its length in four bytes, most significant first, and its
    serialized bytes.  Serializing and parsing a message are parameters; a
    stream is the bytes that are still to be read, or that were written. *)

From stdpp Require Import base list option strings.
From Stdlib Require Import ZArith NArith Lia String.
From S2P Require Import Prelude Errors SharedMemory.

#[local] Abbreviation length := List.length.

Definition UINT32_LEN : nat := 4.

(** [read1_data]: what is left of the stream, and the data, or [None] at the
    end or when the stream is cut off. *)
Definition read1_data (stream : bytes) : bytes * option bytes :=
  let data_len := N.to_nat (from_bytes (take UINT32_LEN stream)) in
  let stream := drop UINT32_LEN stream in
  if (data_len =? 0)%nat then (stream, None)
  else
    let bin := take data_len stream in
    (drop data_len stream, if (length bin =? data_len)%nat then Some bin else None).

(** [write1_data]: the stream afterwards and the number of bytes written. *)
Definition write1_data (data stream : bytes) : bytes * nat :=
  match to_bytes UINT32_LEN (N.of_nat (length data)) with
  | Some len => (stream ++ len ++ data, (length len + length data)%nat)
  | None => (stream, O)
  end.

Section Messages.
Context {M : Type} (serialize_to_bytes : M -> bytes) (converted_from_deserialized : bytes -> result pyexn M).
Context (is_wrapper : M -> bool).

Definition failed_to_read (e : pyexn) : pyexn :=
  PyExn XValueError [AStr ("failed to read message: " +:+ exn_str e)%string] (Some e) None.

(** [iter_msg]: the messages yielded, and the exception that ends the
    generator, if one does. *)
Fixpoint iter_msg_from (fuel : nat) (stream : bytes) : list M * option pyexn :=
  match fuel with
  | O => ([], None)
  | S fuel =>
      match read1_data stream with
      | (stream, Some bin) =>
          match converted_from_deserialized bin with
          | Ok m => let '(ms, e) := iter_msg_from fuel stream in (m :: ms, e)
          | Raise e => ([], Some (failed_to_read e))
          end
      | (_, None) => ([], None)
      end
  end.
Definition iter_msg (stream : bytes) : list M * option pyexn := iter_msg_from (S (length stream)) stream.

Definition write1_msg (m : M) (stream : bytes) : result pyexn (bytes * nat) :=
  if is_wrapper m then Ok (write1_data (serialize_to_bytes m) stream)
  else Raise (PyExn XValueError [AStr "expect input wrapper to be of the type of the stream"] None None).

Fixpoint write_msgs (ms : list M) (stream : bytes) : result pyexn bytes :=
  match ms with
  | [] => Ok stream
  | m :: ms => match write1_msg m stream with Ok (stream, _) => write_msgs ms stream | Raise e => Raise e end
  end.

(** ** Lemmas *)

(** One message of the stream. *)
Definition frame (data : bytes) : bytes := be_bytes UINT32_LEN (N.of_nat (length data)) ++ data.

(** A message that can be written and read again. *)
Definition streamable (m : M) : Prop :=
  is_wrapper m = true /\ (N.of_nat (length (serialize_to_bytes m)) < 2 ^ 32)%N /\
  converted_from_deserialized (serialize_to_bytes m) = Ok m.

Lemma write1_frame data stream :
  (N.of_nat (length data) < 2 ^ 32)%N -> write1_data data stream = (stream ++ frame data, length (frame data)).
Proof.
  intros Hl. unfold write1_data, to_bytes, frame. rewrite (proj2 (N.ltb_lt _ _)) by done. by rewrite length_app.
Qed.

Lemma write_msgs_frames ms stream :
  Forall streamable ms -> write_msgs ms stream = Ok (stream ++ List.concat (map (fun m => frame (serialize_to_bytes m)) ms)).
Proof.
  intros Hms. revert stream. induction Hms as [|m ms (Hw & Hl & _) _ IH]; intros stream; cbn; [by rewrite app_nil_r|].
  unfold write1_msg. rewrite Hw, write1_frame by done. by rewrite IH, <- app_assoc.
Qed.

Lemma length_header n : length (be_bytes UINT32_LEN n) = UINT32_LEN.
Proof. apply be_bytes_length. Qed.

(** What is left of a frame and the stream after it when only [k] bytes of
    both are there: the whole frame is read, or nothing. *)
Lemma read1_cut k data rest :
  data <> [] -> (N.of_nat (length data) < 2 ^ 32)%N ->
  let cut := take k (frame data ++ rest) in
  if (k <? UINT32_LEN + length data)%nat then snd (read1_data cut) = None
  else read1_data cut = (take (k - (UINT32_LEN + length data)) rest, Some data).
Proof.
  intros Hd Hl cut. assert (Hlen : (0 < length data)%nat) by (destruct data; [done|cbn; lia]).
  assert (Hread : (UINT32_LEN <= k)%nat -> from_bytes (take UINT32_LEN cut) = N.of_nat (length data) /\
    drop UINT32_LEN cut = take (k - UINT32_LEN) (data ++ rest)).
  { intros Hk. unfold cut, frame. rewrite <- app_assoc, take_app, length_header.
    rewrite (take_ge (be_bytes _ _)) by (rewrite length_header; lia). split.
    - rewrite take_app_length' by (symmetry; apply length_header). by apply from_be_bytes.
    - by rewrite drop_app_length' by (symmetry; apply length_header). }
  destruct (Nat.ltb_spec k (UINT32_LEN + length data)) as [Hk|Hk].
  - unfold read1_data. destruct (decide (UINT32_LEN <= k)%nat) as [H4|H4].
    + destruct (Hread H4) as [-> ->]. rewrite Nat2N.id. destruct (Nat.eqb_spec (length data) 0); [done|].
      cbn. rewrite length_take, length_take, length_app.
      destruct (Nat.eqb_spec (length data `min` ((k - UINT32_LEN) `min` (length data + length rest))) (length data)); [lia|done].
    + assert (Hnil : drop UINT32_LEN cut = []).
      { apply drop_ge. unfold cut. rewrite length_take. lia. }
      rewrite Hnil. destruct (Nat.eqb_spec (N.to_nat (from_bytes (take UINT32_LEN cut))) 0) as [|Hn]; [done|].
      cbn. rewrite take_nil. cbn. destruct (N.to_nat _); [done|]. done.
  - destruct (Hread ltac:(lia)) as [Hn Hdr]. unfold read1_data. rewrite Hn, Hdr, Nat2N.id.
    destruct (Nat.eqb_spec (length data) 0); [lia|].
    rewrite take_take, (Nat.min_l (length data)), take_app_length, Nat.eqb_refl by lia.
    rewrite take_app, (take_ge data), drop_app_length by lia. by rewrite Nat.sub_add_distr.
Qed.
Lemma length_frame data : length (frame data) = (UINT32_LEN + length data)%nat.
Proof. unfold frame. by rewrite length_app, length_header. Qed.

Definition framed (ms : list M) : bytes := List.concat (map (fun m => frame (serialize_to_bytes m)) ms).

Lemma iter_msg_cut ms k fuel :
  Forall streamable ms -> Forall (fun m => serialize_to_bytes m <> []) ms -> (length (take k (framed ms)) < fuel)%nat ->
  exists j, iter_msg_from fuel (take k (framed ms)) = (take j ms, None) /\
    ((length (framed ms) <= k)%nat -> (length ms <= j)%nat).
Proof.
  intros Hms. revert k fuel. induction Hms as [|m ms (_ & Hl & Hp) _ IH]; intros k fuel Hne Hf.
  { exists O. unfold framed. cbn [map List.concat]. rewrite take_nil. by destruct fuel. }
  apply Forall_cons in Hne as [Hm Hne]. set (data := serialize_to_bytes m) in *.
  change (framed (m :: ms)) with (frame data ++ framed ms) in *.
  destruct fuel as [|fuel]; [cbn in Hf; lia|]. pose proof (read1_cut k data (framed ms) Hm Hl) as Hr. cbn [iter_msg_from].
  rewrite length_app, length_frame. cbn zeta in Hr. destruct (Nat.ltb_spec k (UINT32_LEN + length data)) as [Hk|Hk].
  - exists O. destruct (read1_data _) as [st o]. cbn in Hr. subst o. split; [done|lia].
  - rewrite Hr, Hp. destruct (IH (k - (UINT32_LEN + length data))%nat fuel Hne) as (j & Hj & Hall).
    { rewrite length_take, length_app, length_frame in Hf. rewrite length_take. unfold UINT32_LEN in *. lia. }
    exists (S j). rewrite Hj. split; [done|]. intros H. cbn. apply le_n_S, Hall. lia.
Qed.

(** Messages written to a stream are read back: all of them from the
    whole stream, and from a stream that was cut off anywhere the ones before
    the cut, without an error.  No message may serialize to nothing. *)
Theorem stream_read_back ms stream k :
  Forall streamable ms -> Forall (fun m => serialize_to_bytes m <> []) ms ->
  write_msgs ms [] = Ok stream ->
  iter_msg stream = (ms, None) /\ exists j, iter_msg (take k stream) = (take j ms, None).
Proof.
  intros Hms Hne Hw. rewrite write_msgs_frames in Hw by done. injection Hw as <-.
  change (List.concat _) with (framed ms). unfold iter_msg. split.
  - destruct (iter_msg_cut ms (length (framed ms)) (S (length (framed ms))) Hms Hne) as (j & Hj & Hall).
    { rewrite take_ge by lia. lia. }
    rewrite take_ge in Hj by lia. rewrite Hj, take_ge; [done|]. by apply Hall.
  - destruct (iter_msg_cut ms k (S (length (take k (framed ms)))) Hms Hne) as (j & Hj & _); [lia|]. by exists j.
Qed.

(** A message that serializes to no bytes ends the stream for its reader: the
    messages after it are lost. *)
Theorem empty_message_ends_stream ms m rest stream :
  Forall streamable (ms ++ m :: rest) -> Forall (fun m => serialize_to_bytes m <> []) ms ->
  serialize_to_bytes m = [] -> write_msgs (ms ++ m :: rest) [] = Ok stream -> iter_msg stream = (ms, None).
Proof.
  intros Hms Hne Hm Hw. rewrite write_msgs_frames in Hw by done. injection Hw as <-.
  unfold iter_msg. rewrite map_app, List.concat_app. cbn [map List.concat]. rewrite Hm.
  change (List.concat (map _ ms)) with (framed ms).
  set (tail := frame [] ++ List.concat (map (fun m => frame (serialize_to_bytes m)) rest)). assert (Htail : read1_data tail = (List.concat (map (fun m => frame (serialize_to_bytes m)) rest), None)).
  { unfold read1_data, tail, frame. rewrite app_nil_r, take_app_length', drop_app_length' by (symmetry; apply length_header).
    by rewrite from_be_bytes. }
  assert (Hfuel : (length (framed ms) + 1 <= S (length (framed ms ++ tail)))%nat) by (rewrite length_app; lia).
  revert Hfuel. generalize (S (length (framed ms ++ tail))). apply Forall_app in Hms as [Hms _]. clear Hm.
  induction Hms as [|x ms (_ & Hl & Hp) _ IH]; intros fuel Hf; (destruct fuel as [|fuel]; [lia|]).
  - cbn [iter_msg_from framed map List.concat app]. by rewrite Htail.
  - apply Forall_cons in Hne as [Hx Hne]. change (framed (x :: ms)) with (frame (serialize_to_bytes x) ++ framed ms) in *.
    rewrite <- app_assoc. cbn [iter_msg_from].
    pose proof (read1_cut (length (frame (serialize_to_bytes x) ++ framed ms ++ tail)) (serialize_to_bytes x)
      (framed ms ++ tail) Hx Hl) as Hr.
    cbn zeta in Hr. rewrite (take_ge (frame _ ++ _)) in Hr by lia. rewrite length_app, length_frame in *.
    destruct (Nat.ltb_spec (UINT32_LEN + length (serialize_to_bytes x) + length (framed ms ++ tail))
      (UINT32_LEN + length (serialize_to_bytes x))); [lia|].
    rewrite Hr, Hp, take_ge by lia. rewrite IH; [done|done|unfold UINT32_LEN in *; lia].
Qed.
End Messages.

(** ** A stream of two messages *)

Definition example_parse (b : bytes) : result pyexn bytes := Ok b.
Definition example_messages : list bytes := [[Byte.x01; Byte.x02]; [Byte.x03]].

Example stream_read_back_witness :
  iter_msg example_parse (fst (write1_data [Byte.x03] (fst (write1_data [Byte.x01; Byte.x02] [])))) = (example_messages, None)
  /\ exists j, iter_msg example_parse (take 8 (fst (write1_data [Byte.x03] (fst (write1_data [Byte.x01; Byte.x02] []))))) = (take j example_messages, None).
Proof.
  apply (stream_read_back (fun b => b) example_parse (fun _ => true)); [| |reflexivity];
    repeat constructor; vm_compute; congruence.
Defined.
