(* ===== verification/ScanPool.v ===== *)
(** * The worker threads of the delta generators

    Models [process_slot] of
    [src/src/otaclient/create_standby/delta_gen.py] (the same in
    [DeltaGenFullDiskScan] and [DeltaWithBaseFileTable]): the scanning thread
    submits items under a semaphore, the worker threads take them from a queue,
    and the [None] that ends a worker is put back for the next one.

    What processing an item does to the resources is [DeltaGen]; here it is a
    function on a shared state, each call atomic as there.  A worker removes the
    scanned file (in-place mode) or its temporary file (rebuild mode) in a
    [finally] clause: an exception of the removal ends the thread. *)

From stdpp Require Import base list option relations.
From Stdlib Require Import Lia.
From S2P Require Import Prelude.

Inductive scanner : Type :=
| Scanning
| Joining (failed : bool)   (** [None] is put, the workers are joined *)
| Ended (failed : bool).    (** [process_slot] cleaned up, or raised *)

(** The scanning thread and the threads of the workers, which are anonymous:
    [sp_idle] wait for an item, [sp_waking] took the [None] and did not put it
    back yet, [sp_stopped] have put it back, [sp_dead] raised. *)
Record scan_pool (A S : Type) : Type := mkScanPool {
  sp_scanner : scanner;
  sp_todo : list A;
  sp_queue : list (option A);
  sp_sem : nat;
  sp_idle : nat;
  sp_busy : list A;
  sp_waking : nat;
  sp_stopped : nat;
  sp_dead : nat;
  sp_done : list A;
  sp_shared : S;
}.
Arguments mkScanPool {A S}.
Arguments sp_scanner {A S}.
Arguments sp_todo {A S}.
Arguments sp_queue {A S}.
Arguments sp_sem {A S}.
Arguments sp_idle {A S}.
Arguments sp_busy {A S}.
Arguments sp_waking {A S}.
Arguments sp_stopped {A S}.
Arguments sp_dead {A S}.
Arguments sp_done {A S}.
Arguments sp_shared {A S}.

#[local] Open Scope nat_scope.

Section Pool.
Context {A S : Type} (process : A -> S -> S) (removal_may_raise : bool).

(** [process_slot] after the workers are started. *)
Definition scan_start (worker_num max_pending : nat) (items : list A) (st : S) : scan_pool A S :=
  mkScanPool Scanning items [] max_pending worker_num [] 0 0 0 [] st.

Inductive scan_step : scan_pool A S -> scan_pool A S -> Prop :=
| StepSubmit x todo q sem idle busy wk stp dd dn st :
    (** [acquire] and [put_nowait] *)
    scan_step (mkScanPool Scanning (x :: todo) q (1 + sem) idle busy wk stp dd dn st)
      (mkScanPool Scanning todo (q ++ [Some x]) sem idle busy wk stp dd dn st)
| StepScanned q sem idle busy wk stp dd dn st :
    scan_step (mkScanPool Scanning [] q sem idle busy wk stp dd dn st)
      (mkScanPool (Joining false) [] (q ++ [None]) sem idle busy wk stp dd dn st)
| StepScanFails todo q sem idle busy wk stp dd dn st :
    (** [_calculate_delta] raises *)
    scan_step (mkScanPool Scanning todo q sem idle busy wk stp dd dn st)
      (mkScanPool (Joining true) todo (q ++ [None]) sem idle busy wk stp dd dn st)
| StepTake sc todo x q sem idle busy wk stp dd dn st :
    scan_step (mkScanPool sc todo (Some x :: q) sem (1 + idle) busy wk stp dd dn st)
      (mkScanPool sc todo q sem idle (x :: busy) wk stp dd dn st)
| StepFinish sc todo x q sem idle b1 b2 wk stp dd dn st :
    scan_step (mkScanPool sc todo q sem idle (b1 ++ x :: b2) wk stp dd dn st)
      (mkScanPool sc todo q (1 + sem) (1 + idle) (b1 ++ b2) wk stp dd (dn ++ [x]) (process x st))
| StepDie sc todo x q sem idle b1 b2 wk stp dd dn st :
    removal_may_raise = true ->
    scan_step (mkScanPool sc todo q sem idle (b1 ++ x :: b2) wk stp dd dn st)
      (mkScanPool sc todo q (1 + sem) idle (b1 ++ b2) wk stp (1 + dd) (dn ++ [x]) (process x st))
| StepTakeNone sc todo q sem idle busy wk stp dd dn st :
    scan_step (mkScanPool sc todo (None :: q) sem (1 + idle) busy wk stp dd dn st)
      (mkScanPool sc todo q sem idle busy (1 + wk) stp dd dn st)
| StepWakeNext sc todo q sem idle busy wk stp dd dn st :
    scan_step (mkScanPool sc todo q sem idle busy (1 + wk) stp dd dn st)
      (mkScanPool sc todo (q ++ [None]) sem idle busy wk (1 + stp) dd dn st)
| StepJoined failed todo q sem stp dd dn st :
    (** all workers ended *)
    scan_step (mkScanPool (Joining failed) todo q sem 0 [] 0 stp dd dn st)
      (mkScanPool (Ended failed) todo q sem 0 [] 0 stp dd dn st).

(** ** Invariant *)

Definition pending (q : list (option A)) : list A := omap id q.

Lemma queued_app q q' : pending (q ++ q') = pending q ++ pending q'.
Proof. apply omap_app. Qed.

Lemma pending_some l : pending (Some <$> l) = l.
Proof. induction l as [|x l IH]; [done|]. cbn. unfold pending in IH. by rewrite IH. Qed.

(** What is counted: the items, the semaphore, the threads and the calls. *)
Definition counts (worker_num max_pending : nat) (items : list A) (st0 : S) (s : scan_pool A S) : Prop :=
  sp_done s ++ sp_busy s ++ pending (sp_queue s) ++ sp_todo s ≡ₚ items /\
  sp_sem s + List.length (sp_busy s) + List.length (pending (sp_queue s)) = max_pending /\
  sp_idle s + List.length (sp_busy s) + sp_waking s + sp_stopped s + sp_dead s = worker_num /\
  sp_shared s = foldl (fun st x => process x st) st0 (sp_done s).

Lemma scan_step_counts wn mp items st0 s s' :
  scan_step s s' -> counts wn mp items st0 s -> counts wn mp items st0 s'.
Proof.
  intros Hstep (Hi & Hm & Hw & Hsh). unfold counts.
  destruct Hstep; cbn in *; unfold pending in *; cbn in *;
    rewrite ?omap_app, ?foldl_snoc, ?length_app, ?app_nil_r in *; cbn in *;
    (split; [rewrite <- Hi; try solve_Permutation|split_and!; try lia; try congruence]).
Qed.

(** The shape of the queue and who can have ended. *)
Definition shape (s : scan_pool A S) : Prop :=
  match sp_scanner s with
  | Scanning => (exists l, sp_queue s = Some <$> l) /\ sp_waking s = 0 /\ sp_stopped s = 0
  | Joining failed | Ended failed =>
      ((exists l, sp_queue s = (Some <$> l) ++ [None]) /\ sp_waking s = 0 \/ sp_queue s = [] /\ sp_waking s = 1) /\
      (failed = false -> sp_todo s = []) /\ (0 < sp_stopped s -> pending (sp_queue s) = [])
  end /\
  match sp_scanner s with Ended _ => sp_idle s = 0 /\ sp_busy s = [] /\ sp_waking s = 0 | _ => True end.

Lemma head_item l x q (tail : list (option A)) :
  Some x :: q = (Some <$> l) ++ tail -> (exists l', l = x :: l' /\ q = (Some <$> l') ++ tail) \/ l = [] /\ tail = Some x :: q.
Proof. destruct l as [|y l]; cbn; intros H; [by right|]. simplify_eq. left. by exists l. Qed.

Lemma scan_step_shape s s' : scan_step s s' -> shape s -> shape s'.
Proof.
  unfold shape. intros Hstep. destruct Hstep as [| | |sc| sc | sc | sc | sc |]; cbn; unfold pending; cbn.
  - intros (((l & ->) & ?) & _). split; [|done]. split; [|done]. exists (l ++ [x]). by rewrite fmap_app.
  - intros (((l & ->) & -> & ->) & _). split; [|done]. split; [left; split; [by exists l|done]|]. split; [done|lia].
  - intros (((l & ->) & -> & ->) & _). split; [|done]. split; [left; split; [by exists l|done]|]. split; [done|lia].
  - destruct sc; intros [Hq He].
    + destruct Hq as ((l & Hl) & ?). split; [|done]. split; [|done]. destruct l; cbn in Hl; simplify_eq. eauto.
    + destruct Hq as ([((l & Hl) & ?)|[? _]] & ? & Hs); [|done]. split; [|done]. split; [|split; [done|naive_solver]].
      apply head_item in Hl as [(l' & -> & ->)|[? ?]]; [|done]. eauto.
    + destruct He as [? _]. lia.
  - destruct sc; intros [Hq He]; [done..|]. destruct He as (_ & Hb & _). by destruct b1.
  - destruct sc; intros [Hq He]; [done..|]. destruct He as (_ & Hb & _). by destruct b1.
  - destruct sc; intros [Hq He].
    + destruct Hq as ((l & Hl) & _). by destruct l.
    + destruct Hq as ([((l & Hl) & ->)|[? _]] & ? & Hs); [|done]. split; [|done]. destruct l; cbn in Hl; simplify_eq.
      split; [by right|done].
    + destruct He as [? _]. lia.
  - destruct sc; intros [Hq He].
    + destruct Hq as (_ & ? & _). lia.
    + destruct Hq as ([(_ & ?)|[-> ?]] & ? & Hs); [lia|]. split; [|done]. split; [|done]. left. split; [by exists []|lia].
    + destruct He as (_ & _ & ?). lia.
  - intros [Hq _]. split; [exact Hq|done].
Qed.

Definition scan_inv (worker_num max_pending : nat) (items : list A) (st0 : S) (s : scan_pool A S) : Prop :=
  counts worker_num max_pending items st0 s /\ shape s.

Lemma scan_reachable wn mp items st0 s :
  rtc scan_step (scan_start wn mp items st0) s -> scan_inv wn mp items st0 s.
Proof.
  intros Hr. assert (H0 : scan_inv wn mp items st0 (scan_start wn mp items st0)).
  { split; [unfold counts; cbn; split_and!; [done|lia|lia|done]|split; cbn; [|done]; split; [by exists []|done]]. }
  revert H0. induction Hr as [|s1 s2 s3 Hstep _ IH]; [done|]. intros [Hc Hs].
  apply IH. split; [by eapply scan_step_counts|by eapply scan_step_shape].
Qed.

(** ** What a scan does *)

(** C32. When the scan of a slot ends with a worker left, every file it found
    was processed exactly once, in some order, and what the workers share is
    what processing them in that order gives (processing one file is one step
    here); the files that wait for a worker never exceed the limit. *)
Theorem scan_processes_all worker_num max_pending items st0 s :
  rtc scan_step (scan_start worker_num max_pending items st0) s ->
  (List.length (sp_busy s) + List.length (pending (sp_queue s)) <= max_pending) /\
  (sp_scanner s = Ended false -> sp_dead s < worker_num ->
   sp_done s ≡ₚ items /\ sp_shared s = foldl (fun st x => process x st) st0 (sp_done s)).
Proof.
  intros [(Hi & Hm & Hw & Hsh) [Hs He]]%scan_reachable. split; [lia|]. intros Hend Hdead.
  rewrite Hend in *. destruct He as (Hidle & Hbusy & Hwk), Hs as (_ & Htodo & Hstop).
  rewrite Hbusy, Htodo, Hstop in Hi by (done || cbn in *; rewrite Hbusy in *; cbn in *; lia).
  split; [|done]. by rewrite app_nil_r in Hi.
Qed.

(** Every run of the threads is finite. *)
Definition scan_work (s : scan_pool A S) : nat :=
  5 * List.length (sp_todo s) + 4 * List.length (pending (sp_queue s)) + 3 * List.length (sp_busy s) +
  2 * sp_idle s + sp_waking s + match sp_scanner s with Scanning => 2 | Joining _ => 1 | Ended _ => 0 end.

Lemma scan_step_work s s' : scan_step s s' -> scan_work s' < scan_work s.
Proof.
  destruct 1; unfold scan_work; cbn; unfold pending; cbn;
    rewrite ?omap_app, ?length_app; cbn; try lia.
Qed.

(** Some thread can go on, without dying, as long as a worker is left. *)
Lemma scan_progress wn mp items st0 s :
  scan_inv wn mp items st0 s -> 0 < mp -> sp_dead s < wn -> (forall failed, sp_scanner s <> Ended failed) ->
  exists s', scan_step s s' /\ sp_dead s' = sp_dead s.
Proof.
  intros [(Hi & Hm & Hw & _) [Hs He]] Hmp Hd Hne. destruct s as [sc todo q sem idle busy wk stp dd dn st]; cbn in *.
  destruct busy as [|x busy]; [|eexists; split; [apply (StepFinish sc todo x q sem idle [] busy)|done]].
  destruct wk as [|wk]; [|eexists; split; [apply (StepWakeNext sc todo q sem idle [] wk)|done]].
  destruct sc as [|failed|failed]; [| |by destruct (Hne failed)].
  - destruct todo as [|x todo]; [eexists; split; [apply StepScanned|done]|].
    destruct sem as [|sem]; [|eexists; split; [apply StepSubmit|done]].
    destruct Hs as ((l & ->) & _ & ->). destruct l as [|y l]; [cbn in *; lia|].
    destruct idle as [|idle]; [cbn in *; lia|]. eexists. split; [apply StepTake|done].
  - destruct idle as [|idle]; [eexists; split; [apply StepJoined|done]|].
    destruct Hs as ([((l & ->) & _)|[_ ?]] & _); [|lia]. destruct l as [|y l].
    + eexists. split; [apply StepTakeNone|done].
    + eexists. split; [apply StepTake|done].
Qed.

(** As long as a worker is left the scan can end, and whatever the threads do
    in between, they end after finitely many steps. *)
Theorem scan_ends worker_num max_pending items st0 s :
  rtc scan_step (scan_start worker_num max_pending items st0) s -> 0 < max_pending -> sp_dead s < worker_num ->
  (exists s' failed, rtc scan_step s s' /\ sp_scanner s' = Ended failed /\ sp_dead s' = sp_dead s) /\
  (forall s1 s2, scan_step s1 s2 -> scan_work s2 < scan_work s1).
Proof.
  intros Hr Hmp Hd. split; [|exact scan_step_work]. revert Hr Hmp Hd. intros Hinv%scan_reachable Hmp Hd. revert Hinv Hd.
  induction s as [s IH] using (well_founded_induction (Wf_nat.well_founded_ltof _ scan_work)). intros Hinv Hd.
  destruct (sp_scanner s) as [|f|f] eqn:Esc; [| |by exists s, f].
  all: destruct (scan_progress _ _ _ _ s Hinv Hmp Hd) as (s1 & H1 & Hd1); [by rewrite Esc|].
  all: destruct (IH s1) as (s2 & f2 & H2 & He & Hd2); [by apply scan_step_work| |by rewrite Hd1|].
  all: try (destruct Hinv; split; [by eapply scan_step_counts|by eapply scan_step_shape]).
  all: exists s2, f2; split; [by eapply rtc_l|split; [done|by rewrite Hd2]].
Qed.

End Pool.

(** ** A scan of two files *)

Definition count_file (_ : nat) (n : nat) : nat := 1 + n.

Definition example_scan_end : scan_pool nat nat := mkScanPool (Ended false) [] [None] 1 0 [] 0 1 0 [7; 8] 2.

Lemma example_scan_run : rtc (scan_step count_file false) (scan_start 1 1 [7; 8] 0) example_scan_end.
Proof.
  eapply rtc_l; [apply StepSubmit|]. eapply rtc_l; [apply StepTake|].
  eapply rtc_l; [apply (StepFinish _ _ _ _ 7 _ _ _ [] [])|].
  eapply rtc_l; [apply StepSubmit|]. eapply rtc_l; [apply StepTake|].
  eapply rtc_l; [apply (StepFinish _ _ _ _ 8 _ _ _ [] [])|].
  eapply rtc_l; [apply StepScanned|]. eapply rtc_l; [apply StepTakeNone|].
  eapply rtc_l; [apply StepWakeNext|]. eapply rtc_l; [apply StepJoined|]. apply rtc_refl.
Qed.

Example scan_processes_all_witness :
  sp_done example_scan_end ≡ₚ [7; 8] /\ sp_shared example_scan_end = 2.
Proof.
  apply (scan_processes_all count_file false 1 1 [7; 8] 0 example_scan_end); [exact example_scan_run|reflexivity|].
  cbn. lia.
Defined.

Example scan_ends_witness :
  exists s' failed, rtc (scan_step count_file false) (scan_start 1 1 [7; 8] 0) s' /\ sp_scanner s' = Ended failed /\ sp_dead s' = 0.
Proof. apply (scan_ends count_file false 1 1 [7; 8] 0 (scan_start 1 1 [7; 8] 0)); [apply rtc_refl|cbn; lia..]. Defined.

(** When the removals of as many files fail as there are workers, all of them
    are gone and the scanning thread waits for the semaphore for ever. *)
Theorem dead_workers_block_scan :
  exists s, rtc (scan_step count_file true) (scan_start 1 1 [7; 8; 9] 0) s /\
    sp_scanner s = Scanning /\ sp_todo s = [9] /\ sp_sem s = 0 /\
    forall s', scan_step count_file true s s' -> sp_scanner s' = Joining true.
Proof.
  exists (mkScanPool Scanning [9] [Some 8] 0 0 [] 0 0 1 [7] 1). split_and!; try reflexivity.
  - eapply rtc_l; [apply StepSubmit|]. eapply rtc_l; [apply StepTake|].
    eapply rtc_l; [apply (StepDie _ _ _ _ 7 _ _ _ [] []); reflexivity|].
    eapply rtc_l; [apply StepSubmit|]. apply rtc_refl.
  - intros s' Hs. inversion Hs; subst; try done; by destruct b1.
Qed.
