(* ===== verification/LogFilter.v ===== *)
(** * Suppressing bursts of log lines

    Models [src/src/otaclient_common/_logging.py]: [BurstSuppressFilter], which
    the proxy and the updater put before the loggers of repeating failures,
    and the choice of the logger that its warnings go to.  The clock is the
    argument of each call. *)

From stdpp Require Import base list option strings.
From Stdlib Require Import ZArith Ascii String Lia.
From S2P Require Import Prelude Errors TextLines.

#[local] Open Scope Z_scope.

(** The limits, and of the current round: the next value of the counter, its
    start, and whether its warning was given.  [_round_reach_burst_limit] is
    written and never read. *)
Record burst_filter : Type := mkBurstFilter {
  bf_burst_max : Z;
  bf_round_length : Z;
  bf_count : Z;
  bf_round_start : Z;
  bf_warned : bool;
}.

#[export] Instance eta_burst_filter : Eta burst_filter := fun f =>
  mkBurstFilter (bf_burst_max f) (bf_round_length f) (bf_count f) (bf_round_start f) (bf_warned f).

(** What goes to the upper logger. *)
Inductive burst_warning : Type :=
| LinesSuppressed (n from until : Z)
| SuppressedUntil (until : Z).

Definition new_burst_filter (burst_max round_length : Z) : burst_filter :=
  mkBurstFilter burst_max round_length 0 0 false.

(** [filter] at the time [now]: whether the line is logged, and the warnings. *)
Definition filter_line (now : Z) (f : burst_filter) : burst_filter * bool * list burst_warning :=
  let until := bf_round_start f + bf_round_length f in
  if until <? now then
    (f <| bf_round_start := now |> <| bf_warned := false |> <| bf_count := 2 |>, true,
     if bf_warned f then [LinesSuppressed (bf_count f - 1) (bf_round_start f) until] else [])
  else
    let n := bf_count f in
    let f := f <| bf_count := n + 1 |> in
    if n <=? bf_burst_max f then (f, true, [])
    else if bf_warned f then (f, false, [])
    else (f <| bf_warned := true |>, false, [SuppressedUntil until]).

Fixpoint filter_lines (times : list Z) (f : burst_filter) : burst_filter * list bool * list burst_warning :=
  match times with
  | [] => (f, [], [])
  | now :: times =>
      let '(f, b, w) := filter_line now f in
      let '(f, bs, ws) := filter_lines times f in
      (f, b :: bs, w ++ ws)
  end.

(** The name of the logger the warnings go to; [None] is the root logger. *)
Definition upper_logger_of (name : string) (given : option string) : option string :=
  match given with
  | Some n => Some n
  | None =>
      match removelast (py_split "."%char name) with
      | [] => None
      | parents => Some (str_join "." parents)
      end
  end.

Definition DEFAULT_BURST_MAX : Z := 6.
Definition DEFAULT_BURST_ROUND_LENGTH : Z := 16.

(** ** Rounds *)

Definition logged (bs : list bool) : Z := Z.of_nat (List.length (List.filter (fun b => b) bs)).
Definition lines (times : list Z) : Z := Z.of_nat (List.length times).

(** The rest of a round: lines pass until the counter reaches the limit. *)
Lemma round_rest times f :
  Forall (fun t => t <= bf_round_start f + bf_round_length f) times -> bf_warned f = (bf_burst_max f + 1 <? bf_count f) ->
  let '(f', bs, ws) := filter_lines times f in
  f' = f <| bf_count := bf_count f + lines times |> <| bf_warned := bf_burst_max f + 1 <? bf_count f + lines times |> /\
  logged bs = Z.max 0 (Z.min (lines times) (bf_burst_max f + 1 - bf_count f)) /\
  ws = (if (bf_burst_max f + 1 <? bf_count f + lines times) && negb (bf_warned f)
        then [SuppressedUntil (bf_round_start f + bf_round_length f)] else []).
Proof.
  revert f. induction times as [|t times IH]; intros f Ht Hw.
  { unfold lines, logged. cbn. rewrite Z.add_0_r, <- Hw. destruct f as [m l c r w]; cbn in *.
    split; [done|]. split; [lia|]. by destruct w. }
  apply Forall_cons in Ht as [Ht1 Ht]. cbn [filter_lines]. unfold filter_line at 1.
  destruct (Z.ltb_spec (bf_round_start f + bf_round_length f) t); [lia|].
  assert (Hl : lines (t :: times) = 1 + lines times) by (unfold lines; cbn; lia). rewrite Hl.
  pose proof (Nat2Z.is_nonneg (List.length times)) as Hpos. fold (lines times) in Hpos.
  destruct f as [m l c r w]; cbn in *. destruct (Z.leb_spec c m) as [Hc|Hc].
  - specialize (IH (mkBurstFilter m l (c + 1) r w)). cbn in IH. destruct (filter_lines times _) as [[f' bs] ws].
    destruct IH as (-> & Hlog & ->); [done|rewrite Hw; lia|].
    cbn. unfold logged in *. cbn. rewrite Z.add_assoc. split; [done|]. split; [lia|done].
  - destruct w.
    + specialize (IH (mkBurstFilter m l (c + 1) r true)). cbn in IH. destruct (filter_lines times _) as [[f' bs] ws].
      destruct IH as (-> & Hlog & ->); [done|lia|]. cbn. unfold logged in *. cbn. rewrite Z.add_assoc. split; [done|]. split; [lia|done].
    + specialize (IH (mkBurstFilter m l (c + 1) r true)). cbn in IH. destruct (filter_lines times _) as [[f' bs] ws].
      destruct IH as (-> & Hlog & ->); [done|lia|]. cbn. unfold logged in *. cbn. rewrite Z.add_assoc, andb_false_r, andb_true_r.
      split; [done|]. split; [lia|]. by rewrite (proj2 (Z.ltb_lt _ _)) by lia.
Qed.

(** A round that starts with one line lets exactly [burst_max] lines
    through, whatever else comes before its end, and warns once when it
    suppresses any. *)
Theorem round_bounded start rest f :
  1 <= bf_burst_max f -> bf_round_start f + bf_round_length f < start ->
  Forall (fun t => t <= start + bf_round_length f) rest ->
  let '(f', bs, ws) := filter_lines (start :: rest) f in
  logged bs = Z.min (lines (start :: rest)) (bf_burst_max f) /\
  drop (List.length (snd (filter_line start f))) ws =
    (if bf_burst_max f <? lines (start :: rest) then [SuppressedUntil (start + bf_round_length f)] else []) /\
  bf_warned f' = (bf_burst_max f <? lines (start :: rest)).
Proof.
  intros Hmax Hstart Hrest. cbn [filter_lines]. destruct (filter_line start f) as [[f1 b] w] eqn:Ef.
  unfold filter_line in Ef. rewrite (proj2 (Z.ltb_lt _ _)) in Ef by done. injection Ef as <- <- <-.
  destruct f as [m l c r wd]; cbn in *.
  pose proof (round_rest rest (mkBurstFilter m l 2 start false)) as Hr. cbn in Hr.
  destruct (filter_lines rest _) as [[f' bs] ws]. destruct Hr as (-> & Hlog & ->); [done|lia|].
  assert (Hl : lines (start :: rest) = 1 + lines rest) by (unfold lines; cbn; lia). rewrite Hl.
  unfold logged, lines in *. cbn. rewrite drop_app_length, andb_true_r. split; [lia|].
  replace (m + 1 <? 2 + Z.of_nat (List.length rest)) with (m <? 1 + Z.of_nat (List.length rest)); [done|].
  destruct (Z.ltb_spec m (1 + Z.of_nat (List.length rest))), (Z.ltb_spec (m + 1) (2 + Z.of_nat (List.length rest))); lia || done.
Qed.

Example round_bounded_witness :
  let '(f', bs, ws) := filter_lines [100; 101; 102; 110] (new_burst_filter 2 16) in
  logged bs = 2 /\ ws = [SuppressedUntil 116] /\ bf_warned f' = true.
Proof. apply (round_bounded 100 [101; 102; 110] (new_burst_filter 2 16)); [done|done|repeat constructor; done]. Defined.

(** The number in the warning of the next round counts all the lines of the
    round, those that were logged too. *)
Theorem suppressed_lines_overcounted start rest next f :
  1 <= bf_burst_max f -> bf_round_start f + bf_round_length f < start ->
  Forall (fun t => t <= start + bf_round_length f) rest -> start + bf_round_length f < next ->
  bf_burst_max f < lines (start :: rest) ->
  snd (filter_line next (fst (fst (filter_lines (start :: rest) f)))) =
    [LinesSuppressed (lines (start :: rest)) start (start + bf_round_length f)].
Proof.
  intros Hmax Hstart Hrest Hnext Hmany. cbn [filter_lines]. unfold filter_line at 2.
  rewrite (proj2 (Z.ltb_lt _ _)) by done. destruct f as [m l c r wd]; cbn in *.
  pose proof (round_rest rest (mkBurstFilter m l 2 start false)) as Hr. cbn in Hr.
  destruct (filter_lines rest _) as [[f' bs] ws]. destruct Hr as (-> & _ & _); [done|lia|].
  unfold lines in *. cbn in *. unfold filter_line. cbn. rewrite (proj2 (Z.ltb_lt _ _)) by done.
  rewrite (proj2 (Z.ltb_lt _ _)) by lia. cbn. do 2 f_equal. lia.
Qed.
