(* ===== verification/SlotMeta.v ===== *)
(** * The in-place mode, the saved file tables and the BSP check

    Models [src/src/otaclient/create_standby/utils.py] (whether the standby
    slot can be updated in place), the saved file tables of
    [src/src/ota_metadata/file_table/utils.py], what
    [src/src/otaclient/ota_core/_updater.py] keeps of an update for the next
    one ([_preserve_ota_image_meta_at_post_update],
    [_preserve_client_squashfs_at_post_update]) and its check of the BSP
    version on Jetson devices, with
    [src/src/otaclient/ota_core/_download_bsp_version_file.py].

    Commands are those of [CmdHelper]; [os.statvfs], SQLite and the HTTP
    session are parameters.  A directory is the map of the files below it, by
    their relative paths; copying and moving them succeeds. *)

From stdpp Require Import base gmap strings list option.
From Stdlib Require Import ZArith Ascii String Lia.
From S2P Require Import Prelude Errors TextLines FileSystem CmdHelper JetsonText.

(** ** The in-place mode *)

Section InPlace.
Context {W : Type} `{HW : !CmdEnv W}.
Context (statvfs : W -> string -> result pyexn (Z * Z * Z)).
Abbreviation CM := (PyM W pyexn).

Definition check_if_ext4 (dev : string) : CM bool :=
  fstype ← get_attrs_by_dev "FSTYPE" dev true; mret (String.eqb fstype "ext4").

(** [subprocess_run_wrapper] with [check=False]. *)
Definition run_unchecked (cmd : argv) : CM Z := fun w =>
  match exec cmd w with
  | (w', CmdOk _) => (w', Ok 0)
  | (w', CmdFailed c) => (w', Ok c)
  | (w', CmdRaises e) => (w', Raise e)
  end.

Definition check_if_fs_healthy (dev : string) : CM bool :=
  returncode ← run_unchecked ["e2fsck"; "-n"; dev]%string; mret (returncode =? 0).

Definition get_fs_used_size (mnt_point : string) : CM Z :=
  w ← get;
  stats ← from_result (statvfs w mnt_point);
  let '(f_blocks, f_bfree, f_frsize) := stats in
  mret ((f_blocks - f_bfree) * f_frsize).

Definition check_fs_used_size_reach_threshold (dev mnt_point : string) (threshold_in_bytes : Z) : CM bool :=
  try_finally
    (try_except
      (_ ← ensure_mount dev mnt_point mount_ro true true MAX_RETRY_COUNT;
       used ← get_fs_used_size mnt_point;
       mret (threshold_in_bytes <=? used))
      (fun e => if is_exception e then mret false else raise e))
    (ensure_umount mnt_point true MAX_RETRY_COUNT).

Definition can_use_in_place_mode (dev mnt_point : string) (threshold_in_bytes : option Z) : CM bool :=
  ext4 ← check_if_ext4 dev;
  healthy ← (if ext4 : bool then check_if_fs_healthy dev else mret false);
  if negb healthy then mret false
  else
    match threshold_in_bytes with
    | Some t => check_fs_used_size_reach_threshold dev mnt_point t
    | None => mret true
    end.

(** [int(total_regulars_size * 0.8)], computed exactly; no threshold when
    resources of an earlier session are on the active slot. *)
Definition in_place_threshold (total_regulars_size : Z) (ota_resources_dir_presented : bool) : option Z :=
  if ota_resources_dir_presented then None else Some (total_regulars_size * 8 / 10).

(** The in-place mode is only used on a slot whose file system is ext4 and
    clean, and which, if a threshold is given, holds at least that much; the
    slot is unmounted again whatever the check meets. *)
Theorem in_place_checked dev mnt_point threshold w w' :
  can_use_in_place_mode dev mnt_point threshold w = (w', Ok true) ->
  exists w1 w2, get_attrs_by_dev "FSTYPE" dev true w = (w1, Ok "ext4"%string) /\
    run_unchecked ["e2fsck"; "-n"; dev]%string w1 = (w2, Ok 0) /\
    match threshold with
    | None => w' = w2
    | Some t => exists w3 b f s, statvfs w3 mnt_point = Ok (b, f, s) /\ t <= (b - f) * s /\
                  ensure_umount mnt_point true MAX_RETRY_COUNT w3 = (w', Ok tt)
    end.
Proof.
  intros Hc. unfold can_use_in_place_mode in Hc. apply pym_bind_ok in Hc as (w1 & ext4 & H1 & Hc).
  unfold check_if_ext4 in H1. apply pym_bind_ok in H1 as (w1' & fstype & H1 & Hf). injection Hf as <- <-.
  destruct (String.eqb_spec fstype "ext4") as [->|]; [|by injection Hc].
  apply pym_bind_ok in Hc as (w2 & healthy & H2 & Hc). unfold check_if_fs_healthy in H2.
  apply pym_bind_ok in H2 as (w2' & rc & H2 & Hh). injection Hh as <- <-.
  destruct (Z.eqb_spec rc 0) as [->|]; [|by injection Hc]. exists w1', w2'. split; [done|]. split; [done|].
  destruct threshold as [t|]; [|by injection Hc]. cbn in Hc.
  unfold check_fs_used_size_reach_threshold, try_finally, try_except in Hc.
  remember (ensure_umount mnt_point true MAX_RETRY_COUNT) as um eqn:Hum.
  match type of Hc with context [(mbind ?k ?m w2')] => destruct ((mbind k m) w2') as [w3 r3] eqn:Em end.
  assert (r3 = Ok true /\ um w3 = (w', Ok tt)) as [-> Hu'].
  { destruct r3 as [b|e]; cbn in Hc; [|destruct (is_exception e); cbn in Hc];
      destruct (um w3) as [w4 [[]|]]; simplify_eq/=; done. }
  apply pym_bind_ok in Em as (w3a & [] & _ & Em). apply pym_bind_ok in Em as (w3b & used & Hu & Em).
  injection Em as -> Ht. unfold get_fs_used_size in Hu. apply pym_bind_ok in Hu as (w5 & v & Hg & Hu).
  injection Hg as -> ->. apply pym_bind_ok in Hu as (w6 & [[b f] s] & Hs & Hu).
  apply from_result_ok in Hs as [Hs ->]. injection Hu as <- <-.
  exists v, b, f, s. split; [done|]. split; [by apply Z.leb_le|done].
Qed.
End InPlace.

(** ** Saved file tables *)

Definition FILE_TABLE_MEDIA_TYPE : string := "application/vnd.tier4.ota.file-based-ota-image.file_table.v1.sqlite3".
Definition FILE_TABLE_FNAME : string := "file_table.sqlite3".
Definition MEDIA_TYPE_FNAME : string := "mediaType".
Definition FT_REGULAR_TABLE_NAME : string := "ft_regular".
Definition FT_RESOURCE_TABLE_NAME : string := "ft_resource".

Abbreviation dirmap := (gmap (list string) string).

(** SQLite on the content of a database file. *)
Class SqliteDb : Type := {
  check_db_integrity : string -> result pyexn bool;
  lookup_table : string -> string -> result pyexn bool;
  attaches : string -> bool;
  backup : string -> string;
  backup_valid : forall db,
    check_db_integrity (backup db) = check_db_integrity db /\
    (forall t, lookup_table (backup db) t = lookup_table db t) /\ attaches (backup db) = attaches db;
}.

Section Tables.
Context `{SqliteDb}.

(** The checks under [contextlib.suppress(Exception)]: [Some false] returns,
    [None] is an exception, after which the function goes on. *)
Definition table_checks (db : string) : option bool :=
  match check_db_integrity db with
  | Raise _ => None
  | Ok false => Some false
  | Ok true =>
      match lookup_table db FT_REGULAR_TABLE_NAME with
      | Raise _ => None
      | Ok false => Some false
      | Ok true => match lookup_table db FT_RESOURCE_TABLE_NAME with Raise _ => None | Ok b => Some b end
      end
  end.

Definition check_base_filetable (db : string) : option string :=
  match table_checks db with
  | Some false => None
  | _ => if attaches db then Some db else None
  end.

(** The database that is found, by its content. *)
Definition find_saved_fstable (image_meta_dir : dirmap) : option string :=
  match image_meta_dir !! [MEDIA_TYPE_FNAME] with
  | Some media_type =>
      if String.eqb media_type FILE_TABLE_MEDIA_TYPE then image_meta_dir !! [FILE_TABLE_FNAME] ≫= check_base_filetable
      else None
  | None => None
  end.

Definition save_fstable (db : string) (dst : dirmap) : dirmap :=
  <[ [MEDIA_TYPE_FNAME] := FILE_TABLE_MEDIA_TYPE ]> (<[ [FILE_TABLE_FNAME] := backup db ]> dst).

(** ** What an update keeps for the next one *)

(** [/.ota-meta] without and its subdirectory [base], and
    [/opt/ota/image-meta], of the standby slot. *)
Record meta_dirs : Type := mkMetaDirs { md_store : dirmap; md_base : dirmap; md_image_meta : dirmap }.

#[export] Instance eta_meta_dirs : Eta meta_dirs := fun d => mkMetaDirs (md_store d) (md_base d) (md_image_meta d).

(** All of [/.ota-meta]. *)
Definition whole_store (d : meta_dirs) : dirmap := md_store d ∪ kmap (cons "base"%string) (md_base d).

(** An entry of [iterdir] that is a file. *)
Definition top_level (kv : list string * string) : Prop := List.length (fst kv) = 1%nat.
#[export] Instance top_level_dec kv : Decision (top_level kv) := decide (List.length (fst kv) = 1%nat).

Definition preserve_ota_image_meta (d : meta_dirs) : meta_dirs :=
  let d := d <| md_base := ∅ |> in
  let d := d <| md_image_meta := whole_store d |> in
  d <| md_base := filter top_level (md_store d) |> <| md_store := filter (fun kv => ~ top_level kv) (md_store d) |>.

(** [_preserve_client_squashfs_at_post_update]: the file of the running
    client, if there is one, goes into the release folder of the standby
    slot. *)
Definition preserve_client_squashfs (dynamic_client : bool) (src : option string) (release_dir : gmap string string) :
    gmap string string :=
  if negb dynamic_client then release_dir
  else match src with Some content => <[ ".otaclient.squashfs"%string := content ]> release_dir | None => release_dir end.

(** ** Properties *)

(** The file table that an update saves is found by the next update of
    the slot, in the base directory and in the image meta directory, and
    nothing of the tables of earlier updates is left. *)
Theorem next_update_finds_table db d :
  table_checks db = Some true -> attaches db = true ->
  let d' := preserve_ota_image_meta (d <| md_store := save_fstable db (md_store d) |>) in
  find_saved_fstable (md_base d') = Some (backup db) /\ find_saved_fstable (md_image_meta d') = Some (backup db) /\
  (forall k, List.length k = 1%nat -> md_base d' !! k = md_image_meta d' !! k /\ md_store d' !! k = None).
Proof.
  intros Hc Ha. cbn zeta. destruct d as [store base meta]. cbn.
  assert (Hb : check_base_filetable (backup db) = Some (backup db)).
  { unfold check_base_filetable, table_checks in *. destruct (backup_valid db) as (-> & Ht & ->). rewrite !Ht, Hc.
    by rewrite Ha. }
  unfold whole_store. cbn. rewrite kmap_empty, (right_id_L ∅ (∪)). split_and!.
  - unfold find_saved_fstable, save_fstable. rewrite !map_lookup_filter, lookup_insert_eq. cbn.
    rewrite lookup_insert_ne, lookup_insert_eq by done. cbn. done.
  - unfold find_saved_fstable, save_fstable. rewrite lookup_insert_eq. cbn.
    by rewrite lookup_insert_ne, lookup_insert_eq by done.
  - intros k Hk. split.
    + rewrite map_lookup_filter. destruct (save_fstable db store !! k) as [c|] eqn:Ek; cbn; [|done].
      by case_guard.
    + apply map_lookup_filter_None. right. intros c _ Hn. by apply Hn.
Qed.

(** A table whose checks raise is used all the same when it can be attached. *)
Theorem unchecked_table_accepted db dir :
  table_checks db = None -> attaches db = true ->
  find_saved_fstable (save_fstable db dir) = Some (backup db).
Proof.
  intros Hc Ha. unfold find_saved_fstable, save_fstable. rewrite lookup_insert_eq. cbn.
  rewrite lookup_insert_ne, lookup_insert_eq by done. cbn.
  unfold check_base_filetable, table_checks in *. destruct (backup_valid db) as (-> & Ht & ->). by rewrite !Ht, Hc, Ha.
Qed.
End Tables.

(** ** The BSP version check of Jetson devices *)

Definition updater_module : string := "otaclient.ota_core._updater".
Definition BSP_VERSION_PATH : string := "data/etc/nv_tegra_release".
Definition RETRY_TIMES : nat := 12.

Section Bsp.
(** The [i]th request of the session to [url]: a response with its status and
    text, or an exception. *)
Context (http_get : nat -> string -> result pyexn (Z * string)).
Context (with_http_scheme : string -> string).

(** The loop of [download]: [None] is no version file. *)
Fixpoint bsp_attempts (n i : nat) (url : string) : result pyexn (option string) :=
  match n with
  | O => Ok None
  | S n =>
      match http_get i url with
      | Ok (status, text) =>
          if status =? 200 then Ok (Some (strip text))
          else if (status =? 401) || (status =? 403) || (status =? 404) then Ok None
          else bsp_attempts n (S i) url
      | Raise e => if is_exception e then bsp_attempts n (S i) url else Raise e
      end
  end.

Definition download_bsp_version_file (base_url : string) (force_http : bool) : result pyexn (option string) :=
  let url := (rstrip_by (Ascii.eqb "/") base_url +:+ "/" +:+ BSP_VERSION_PATH)%string in
  bsp_attempts RETRY_TIMES 0 (if force_http then with_http_scheme url else url).

Definition bsp_incompatible : pyexn :=
  ota_error (Rec BootControlBSPVersionCompatibilityFailed)
    "OTA image's BSP version doesn't match ECU current slot's firmware BSP version, reject OTA!" updater_module None.

(** [_nvidia_jetson_check_bsp_legacy], for the firmware's version. *)
Definition check_bsp_legacy (fw_bsp_ver : BSPVersion) (base_url : string) (force_http : bool) : result pyexn unit :=
  match download_bsp_version_file base_url force_http with
  | Raise e => Raise e
  | Ok None => Ok tt
  | Ok (Some raw) =>
      if negb (str_truthy raw) then Ok tt
      else
        match parse_nv_tegra_release raw with
        | Raise e => Raise e
        | Ok v => if bool_decide (fw_bsp_ver = v) then Ok tt else Raise bsp_incompatible
        end
  end.

(** [_nvidia_jetson_check_bsp], for the version that the image config states. *)
Definition check_bsp (fw_bsp_ver : BSPVersion) (bsp_ver_str : string) : result pyexn unit :=
  match parse_bsp_version bsp_ver_str with
  | Ok v => if bool_decide (fw_bsp_ver = v) then Ok tt else Raise bsp_incompatible
  | Raise _ => Raise bsp_incompatible
  end.

(** [_process_metadata] of the two updaters: the check follows the metadata of
    the mixin, and only on a Jetson UEFI device. *)
Definition process_metadata_then_check {St} (process_metadata : PyM St pyexn unit) (fw_bsp_ver : option BSPVersion)
    (check : BSPVersion -> result pyexn unit) : PyM St pyexn unit :=
  _ ← process_metadata;
  match fw_bsp_ver with Some v => from_result (check v) | None => mret tt end.

Lemma bsp_attempts_found n i url raw :
  bsp_attempts n i url = Ok (Some raw) ->
  exists j text, (i <= j < i + n)%nat /\ http_get j url = Ok (200, text) /\ raw = strip text.
Proof.
  revert i. induction n as [|n IH]; intros i; cbn; [done|].
  assert (Hnext : bsp_attempts n (S i) url = Ok (Some raw) ->
    exists j text, (i <= j < i + S n)%nat /\ http_get j url = Ok (200, text) /\ raw = strip text).
  { intros (j & text & Hj & Hg)%IH. exists j, text. split; [lia|done]. }
  destruct (http_get i url) as [[status text]|e] eqn:Eg; [|by destruct (is_exception e)].
  destruct (Z.eqb_spec status 200) as [->|]; [|by destruct (_ || _)].
  intros [= <-]. exists i, text. split; [lia|done].
Qed.

(** An update goes on past the metadata on a UEFI device only when the
    image's BSP version is the firmware's, or when no version file was
    obtained within the retries. *)
Theorem bsp_mismatch_rejected {St} (m : PyM St pyexn unit) fw base_url force_http s s' :
  process_metadata_then_check m (Some fw) (fun v => check_bsp_legacy v base_url force_http) s = (s', Ok tt) ->
  m s = (s', Ok tt) /\
  ((exists raw, download_bsp_version_file base_url force_http = Ok (Some raw) /\
     (raw = EmptyString \/ parse_nv_tegra_release raw = Ok fw)) \/
   download_bsp_version_file base_url force_http = Ok None).
Proof.
  intros (s1 & [] & Hm & Hc)%pym_bind_ok. apply from_result_ok in Hc as [Hc ->]. split; [done|].
  unfold check_bsp_legacy in Hc. destruct (download_bsp_version_file base_url force_http) as [[raw|]|e]; [left|by right|done].
  exists raw. split; [done|]. destruct raw as [|a raw]; [by left|right]. cbn [str_truthy negb] in Hc.
  destruct (parse_nv_tegra_release _) as [v|]; [|done]. by case_bool_decide; subst.
Qed.
End Bsp.

(** A server that answers every request with an error switches the check off. *)
Example failing_server_skips_check fw :
  check_bsp_legacy (fun _ _ => Ok (503, "unavailable"%string)) id fw "http://ota.example" false = Ok tt.
Proof. vm_compute. reflexivity. Qed.

(** ** Instances *)

Definition no_exn : pyexn := PyExn (XOther "DatabaseError") [] None None.
#[local] Instance sample_sqlite : SqliteDb := {|
  check_db_integrity := fun db => if String.eqb db "damaged" then Raise no_exn else Ok true;
  lookup_table := fun _ _ => Ok true;
  attaches := fun _ => true;
  backup := id;
  backup_valid := fun _ => conj eq_refl (conj (fun _ => eq_refl) eq_refl);
|}.

Definition example_dirs : meta_dirs :=
  mkMetaDirs ∅ {[ [FILE_TABLE_FNAME] := "old table"%string ]} {[ [FILE_TABLE_FNAME] := "old table"%string ]}.

Example next_update_finds_table_witness :
  find_saved_fstable (md_base (preserve_ota_image_meta (example_dirs <| md_store := save_fstable "table" (md_store example_dirs) |>))) =
  Some "table"%string.
Proof. exact (proj1 (next_update_finds_table "table" example_dirs eq_refl eq_refl)). Defined.

Example unchecked_table_accepted_witness :
  find_saved_fstable (save_fstable "damaged" ∅) = Some "damaged"%string.
Proof. exact (unchecked_table_accepted "damaged" ∅ eq_refl eq_refl). Defined.
