(* ===== verification/ApiCaller.v ===== *)
(** * Calling the API of another ECU

    Models [src/src/otaclient_api/v2/api_caller.py]: the request is exported as
    a protobuf message, sent, and the response converted to its wrapper
    ([ProtoWrapper]); every failure is raised as [ECUNoResponse].  The remote
    call itself is a parameter. *)

From stdpp Require Import base list option strings.
From Stdlib Require Import ZArith String Lia.
From S2P Require Import Prelude Errors ProtoWrapper.

Definition ecu_no_response (msg : string) (e : pyexn) : pyexn := PyExn (XOther "ECUNoResponse") [AStr msg] (Some e) (Some e).
Definition ecu_abort_not_supported (msg : string) (e : pyexn) : pyexn :=
  PyExn (XOther "ECUAbortNotSupported") [AStr msg] (Some e) (Some e).

(** [grpc.aio.AioRpcError] and its [code()]. *)
Definition rpc_error_code (e : pyexn) : option string :=
  match exn_cls e, exn_args e with XOther "AioRpcError", [AStr code] => Some code | _, _ => None end.

Section Calls.
Context `{PbLib}.
(** The endpoint of the stub, called with a protobuf message. *)
Context (rpc : string -> obj -> result pyexn obj).

(** A message class: the wrapper's name, the protobuf class's, the fields. *)
Definition msg_class : Type := string * string * list (string * ftype).

Definition raised_as (r : result pyexn obj) (h : pyexn -> pyexn) : result pyexn obj :=
  match r with Ok o => Ok o | Raise e => Raise (if is_exception e then h e else e) end.

(** [stub.<endpoint>(request.export_pb())], then [<response>.convert(resp)] *)
Definition call_endpoint (endpoint : string) (request response : msg_class) (req : obj) : result pyexn obj :=
  let '(_, pq, fq) := request in
  let '(wr, pr, fr) := response in
  bind_r (export_pb pq fq req) (fun pb => bind_r (rpc endpoint pb) (convert wr pr fr)).

Definition no_response_msg (ecu_id what : string) (e : pyexn) : string :=
  ("ecu_id=" +:+ str_repr ecu_id +:+ " failed to respond to " +:+ what +:+ " request on-time: " +:+ exn_repr e)%string.

Definition simple_call (endpoint what : string) (request response : msg_class) (ecu_id : string) (req : obj) :
    result pyexn obj :=
  raised_as (call_endpoint endpoint request response req)
    (fun e => ecu_no_response (no_response_msg ecu_id what e) e).

Section V2.
Variable pb2 : string -> Z.

Definition StatusRequest_c : msg_class := ("StatusRequest", "pb2.StatusRequest", V2.StatusRequest_fields)%string.
Definition StatusResponse_c : msg_class := ("StatusResponse", "pb2.StatusResponse", V2.StatusResponse_fields pb2)%string.
Definition UpdateRequest_c : msg_class := ("UpdateRequest", "pb2.UpdateRequest", V2.UpdateRequest_fields)%string.
Definition UpdateResponse_c : msg_class := ("UpdateResponse", "pb2.UpdateResponse", V2.UpdateResponse_fields pb2)%string.
Definition AbortRequest_c : msg_class := ("AbortRequest", "pb2.AbortRequest", V2.AbortRequest_fields)%string.
Definition AbortResponse_c : msg_class := ("AbortResponse", "pb2.AbortResponse", V2.AbortResponse_fields pb2)%string.
Definition RollbackRequest_c : msg_class := ("RollbackRequest", "pb2.RollbackRequest", V2.RollbackRequest_fields)%string.
Definition RollbackResponse_c : msg_class :=
  ("RollbackResponse", "pb2.RollbackResponse", V2.RollbackResponse_fields pb2)%string.
Definition ClientUpdateRequest_c : msg_class :=
  ("ClientUpdateRequest", "pb2.UpdateRequest", V2.ClientUpdateRequest_fields)%string.
Definition ClientUpdateResponse_c : msg_class :=
  ("ClientUpdateResponse", "pb2.UpdateResponse", V2.ClientUpdateResponse_fields pb2)%string.

Definition status_call : string -> obj -> result pyexn obj := simple_call "Status" "status" StatusRequest_c StatusResponse_c.
Definition update_call : string -> obj -> result pyexn obj := simple_call "Update" "update" UpdateRequest_c UpdateResponse_c.
Definition rollback_call : string -> obj -> result pyexn obj :=
  simple_call "Rollback" "rollback" RollbackRequest_c RollbackResponse_c.
Definition client_update_call : string -> obj -> result pyexn obj :=
  simple_call "ClientUpdate" "client update" ClientUpdateRequest_c ClientUpdateResponse_c.

(** [abort_call]: an ECU without the endpoint is told apart. *)
Definition abort_call (ecu_id : string) (req : obj) : result pyexn obj :=
  raised_as (call_endpoint "Abort" AbortRequest_c AbortResponse_c req) (fun e =>
    match rpc_error_code e with
    | Some code =>
        if String.eqb code "UNIMPLEMENTED" then
          ecu_abort_not_supported ("ecu_id=" +:+ str_repr ecu_id +:+
            " does not support the abort endpoint (older OTA Client version): " +:+ exn_repr e)%string e
        else if String.eqb code "DEADLINE_EXCEEDED" then
          ecu_no_response ("ecu_id=" +:+ str_repr ecu_id +:+ " failed to respond to abort request on-time (gRPC code=" +:+
            code +:+ "): " +:+ exn_repr e)%string e
        else
          ecu_no_response ("ecu_id=" +:+ str_repr ecu_id +:+ " abort request failed with gRPC error code " +:+ code +:+
            ": " +:+ exn_repr e)%string e
    | None => ecu_no_response (no_response_msg ecu_id "abort" e) e
    end).
End V2.

(** ** Properties *)

(** [ECUNoResponse] or its subclass. *)
Definition is_no_response (e : pyexn) : bool :=
  match exn_cls e with
  | XOther c => String.eqb c "ECUNoResponse" || String.eqb c "ECUAbortNotSupported"
  | _ => false
  end.

(** The only exceptions a caller has to handle are [ECUNoResponse]. *)
Theorem calls_raise_no_response pb2 ecu_id req r e :
  (r = status_call pb2 ecu_id req \/ r = update_call pb2 ecu_id req \/ r = abort_call pb2 ecu_id req \/
   r = rollback_call pb2 ecu_id req \/ r = client_update_call pb2 ecu_id req) ->
  r = Raise e -> is_exception e = true -> is_no_response e = true.
Proof.
  assert (Hon : forall r0 h, (forall e0, is_no_response (h e0) = true) -> raised_as r0 h = Raise e ->
    is_exception e = true -> is_no_response e = true).
  { intros r0 h Hh H1 H2. destruct r0 as [o|e0]; [done|]. cbn in H1. destruct (is_exception e0) eqn:Ee; injection H1 as <-;
      [apply Hh|congruence]. }
  intros Hr -> He. destruct Hr as [Hr|[Hr|[Hr|[Hr|Hr]]]]; symmetry in Hr; revert He; (eapply Hon; [|exact Hr]); intros e0; try done.
  cbn beta. destruct (rpc_error_code e0) as [code|]; [|done]. by repeat destruct (String.eqb _ _).
Qed.

(** A request arrives at the other ECU as the message the caller built,
    and its answer arrives as the message the other ECU built, when the
    handler there reads the request and exports its answer with the same
    classes. *)
Theorem call_carries_messages endpoint request response handler ecu_id what req resp :
  let '(wq, pq, fq) := request in
  let '(wr, pr, fr) := response in
  good_type (FMessage wq pq fq) = true -> good_type (FMessage wr pr fr) = true ->
  wrapped_value "" "" (FMessage wq pq fq) req -> wrapped_value "" "" (FMessage wr pr fr) resp ->
  handler req = Ok resp ->
  (forall pb, rpc endpoint pb = bind_r (convert wq pq fq pb) (fun q => bind_r (handler q) (export_pb pr fr))) ->
  simple_call endpoint what request response ecu_id req = Ok resp.
Proof.
  destruct request as [[wq pq] fq], response as [[wr pr] fr]. intros Hgq Hgr Hq Hr Hh Hrpc.
  destruct (every_type_writes_back _ Hgq "" "" req Hq) as (pbq & Eq & Cq).
  destruct (every_type_writes_back _ Hgr "" "" resp Hr) as (pbr & Er & Cr).
  unfold simple_call, call_endpoint. change (export_pb pq fq req) with (export_to_pb "" "" (FMessage wq pq fq) req).
  rewrite Eq. unfold bind_r at 1. rewrite Hrpc. change (convert wq pq fq pbq) with (set_field (FMessage wq pq fq) (Some pbq)).
  rewrite Cq. unfold bind_r at 2. rewrite Hh. unfold bind_r at 2.
  change (export_pb pr fr resp) with (export_to_pb "" "" (FMessage wr pr fr) resp). rewrite Er.
  unfold bind_r. change (convert wr pr fr pbr) with (set_field (FMessage wr pr fr) (Some pbr)). by rewrite Cr.
Qed.
End Calls.

(** ** An update request between two ECUs *)

#[local] Existing Instance sample_pb.

Definition example_update_request : obj :=
  OMsg "UpdateRequest" [("ecu", OList [OMsg "UpdateRequestEcu"
    [("cookies", OStr "{}"); ("ecu_id", OStr "sub"); ("url", OStr "http://ota.example"); ("version", OStr "2");
     ("release_name", OStr EmptyString); ("release_id", OStr EmptyString); ("image_id", OStr EmptyString)]]);
    ("request_id", OStr "17-ab")]%string.

Definition example_handler (_ : obj) : result pyexn obj :=
  Ok (sample_response "UpdateResponseEcu" "UpdateResponse" (OEnum "FailureType" 1)).

Definition example_rpc (_ : string) (pb : obj) : result pyexn obj :=
  bind_r (convert "UpdateRequest" "pb2.UpdateRequest" V2.UpdateRequest_fields pb) (fun q =>
  bind_r (example_handler q) (export_pb "pb2.UpdateResponse" (V2.UpdateResponse_fields sample_numbers))).

Lemma example_request_ok :
  wrapped_value "" "" (FMessage "UpdateRequest" "pb2.UpdateRequest" V2.UpdateRequest_fields) example_update_request.
Proof.
  eexists. split; [reflexivity|]. split; [reflexivity|]. split; [|repeat split; reflexivity].
  eexists. split; [reflexivity|]. constructor; [|constructor]. eexists. split; [reflexivity|]. repeat split; reflexivity.
Qed.

Lemma example_response_ok :
  wrapped_value "" "" (FMessage "UpdateResponse" "pb2.UpdateResponse" (V2.UpdateResponse_fields sample_numbers))
    (sample_response "UpdateResponseEcu" "UpdateResponse" (OEnum "FailureType" 1)).
Proof.
  eexists. split; [reflexivity|]. split; [reflexivity|]. split; [|exact I].
  eexists. split; [reflexivity|]. constructor; [|constructor]. eexists. split; [reflexivity|].
  repeat split; try reflexivity. exists 1. split; [reflexivity|]. split; [|reflexivity]. vm_compute. right. left.
Qed.

Example call_carries_messages_witness :
  update_call example_rpc sample_numbers "sub" example_update_request =
  Ok (sample_response "UpdateResponseEcu" "UpdateResponse" (OEnum "FailureType" 1)).
Proof.
  exact (call_carries_messages example_rpc "Update" UpdateRequest_c (UpdateResponse_c sample_numbers) example_handler
    "sub" "update" example_update_request (sample_response "UpdateResponseEcu" "UpdateResponse" (OEnum "FailureType" 1))
    eq_refl eq_refl example_request_ok example_response_ok eq_refl (fun _ => eq_refl)).
Defined.
