(* ===== verification/LinuxHelpers.v ===== *)
(** * Helpers of the system

    Models the rest of [src/src/otaclient_common/linux.py] (the environment of
    child processes, the copy of a file, fstrim), the file digests of
    [src/src/otaclient_common/_io.py] and the ids of
    [src/src/otaclient/_utils.py]. *)

From stdpp Require Import base gmap strings list option pretty.
From Stdlib Require Import ZArith NArith Ascii String Lia.
From S2P Require Import Prelude Errors TextLines SharedMemory ShardedDict DeltaGen LegacyCSV CmdHelper PartitionImage.

(** ** Child processes *)

Definition lp_key : string := "LD_LIBRARY_PATH".
Definition lp_orig_key : string := "LD_LIBRARY_PATH_ORIG".

(** The environment [pyinstaller_aware_subprocess_run] passes on. *)
Definition child_env (env : pydict string) : pydict string :=
  let parsed := dict_del lp_orig_key env in
  match dict_get lp_orig_key env with
  | Some lp_orig => dict_set lp_key lp_orig parsed
  | None => dict_del lp_key parsed
  end.

(** A child never sees the library path of the bundle: it gets the original
    one, or none, and all other variables as they are. *)
Theorem child_env_restored env k :
  dict_get k (child_env env) =
    if String.eqb k lp_key then dict_get lp_orig_key env
    else if String.eqb k lp_orig_key then None else dict_get k env.
Proof.
  unfold child_env. destruct (dict_get lp_orig_key env) as [lp|] eqn:E.
  - rewrite dict_get_set, dict_get_del, (String.eqb_sym lp_key k), (String.eqb_sym lp_orig_key k). by destruct (String.eqb k lp_key).
  - rewrite !dict_get_del, (String.eqb_sym lp_key k), (String.eqb_sym lp_orig_key k). by destruct (String.eqb k lp_key).
Qed.

(** ** Copying a file *)

(** [_copyfileobj]: what is written for the rest of the source. *)
Fixpoint copyfileobj (fuel length : nat) (rest written : bytes) : option bytes :=
  match take length rest with
  | [] => Some written
  | buf => match fuel with O => None | S fuel => copyfileobj fuel length (drop (List.length buf) rest) (written ++ buf) end
  end.

Definition COPY_LENGTH : nat := 8 * N.to_nat 1048576.

(** [copyfile_nocache]: the destination afterwards, and the result.
    [sendfile] is what [_fastcopy_sendfile] does with the empty destination,
    [None] when the platform has none; it raises something that is no
    [OSError] only before it wrote anything. *)
Definition copyfile_nocache (src : option bytes) (sendfile : option (bytes -> bytes * result pyexn unit)) (dst : option bytes) :
    option bytes * result pyexn unit :=
  match src with
  | None => (dst, Raise (PyExn (XOSError (Some 2)) [] None None))
  | Some content =>
      let slow :=
        match copyfileobj (List.length content) COPY_LENGTH content [] with
        | Some written => (Some written, Ok tt)
        | None => (Some [], Ok tt)
        end in
      match sendfile with
      | None => slow
      | Some send =>
          match send content with
          | (written, Ok _) => (Some written, Ok tt)
          | (written, Raise e) =>
              match exn_cls e with
              | XOSError _ | XConnectionError _ => (Some written, Raise e)
              | _ => if is_exception e then slow else (Some written, Raise e)
              end
          end
      end
  end.

Lemma copyfileobj_spec fuel length rest written :
  (0 < length)%nat -> (List.length rest <= fuel)%nat -> copyfileobj fuel length rest written = Some (written ++ rest).
Proof.
  intros Hl. revert rest written. induction fuel as [|fuel IH]; intros [|b rest] written Hf; cbn [List.length] in Hf; try lia.
  - cbn [copyfileobj]. by rewrite take_nil, app_nil_r.
  - cbn [copyfileobj]. by rewrite take_nil, app_nil_r.
  - cbn [copyfileobj]. destruct length as [|length]; [lia|]. cbn [take List.length drop app].
    rewrite IH by (rewrite length_drop; lia). f_equal. rewrite <- app_assoc. cbn. do 2 f_equal.
    rewrite length_take. destruct (Nat.min_spec length (List.length rest)) as [[_ ->]|[Hm ->]]; [apply take_drop|].
    rewrite take_ge, drop_ge by lia. by rewrite app_nil_r.
Qed.

(** A copy that returns has the bytes of the source, whether the kernel
    copied the file or the loop did. *)
Theorem copy_is_complete src sendfile dst dst' :
  (forall c w, match sendfile with Some send => send c = (w, Ok tt) -> w = c | None => True end) ->
  copyfile_nocache src sendfile dst = (dst', Ok tt) -> dst' = src /\ is_Some src.
Proof.
  unfold copyfile_nocache. intros Hs. destruct src as [content|]; [|done].
  rewrite copyfileobj_spec by (unfold COPY_LENGTH; lia). cbn [app]. intros H.
  enough (dst' = Some content) by (by split; [|eexists]).
  destruct sendfile as [send|]; [|by injection H as <-].
  destruct (send content) as [w [[]|e]] eqn:Es; [apply Hs in Es as ->; by injection H as <-|].
  destruct (exn_cls e); try done; destruct (is_exception e); try done; by injection H as <-.
Qed.

Example copy_is_complete_witness :
  copyfile_nocache (Some [Byte.x01]) (Some (fun _ => ([], Raise (PyExn (XOther "_GiveupOnFastCopy") [] None None)))) None
    = (Some [Byte.x01], Ok tt) /\ (Some [Byte.x01] : option bytes) = Some [Byte.x01] /\ is_Some (Some Byte.x01).
Proof.
  split; [unfold copyfile_nocache; rewrite copyfileobj_spec by (unfold COPY_LENGTH; lia); reflexivity|].
  split; [|by eexists].
  refine (proj1 (copy_is_complete (Some [Byte.x01])
    (Some (fun _ => ([], Raise (PyExn (XOther "_GiveupOnFastCopy") [] None None)))) None (Some [Byte.x01]) _ _)); [done|].
  unfold copyfile_nocache. rewrite copyfileobj_spec by (unfold COPY_LENGTH; lia). reflexivity.
Defined.

(** ** fstrim *)

(** The characters [shlex.quote] leaves as they are. *)
Definition shell_safe (a : ascii) : bool :=
  let n := N_of_ascii a in
  ((48 <=? n) && (n <=? 57) || (65 <=? n) && (n <=? 90) || (97 <=? n) && (n <=? 122))%N
  || existsb (Ascii.eqb a) ["_"; "@"; "%"; "+"; "="; ":"; ","; "."; "/"; "-"]%char.

Definition single_quote : string := String "'" EmptyString.
Definition quoted_quote : string :=
  String "'" (String double_quote (String "'" (String double_quote (String "'" EmptyString)))).

(** [shlex.quote] and [shlex.join], for ASCII texts. *)
Definition shlex_quote (s : string) : string :=
  if negb (str_truthy s) then (single_quote +:+ single_quote)%string
  else if str_forallb shell_safe s then s
  else (single_quote +:+ str_concat_map (fun a => if Ascii.eqb a "'" then quoted_quote else String a EmptyString) s
        +:+ single_quote)%string.
Definition shlex_join (l : list string) : string := str_join " " (map shlex_quote l).

(** [fstrim_at_subprocess]: the command line, run directly or by a shell. *)
Inductive fstrim_call : Type :=
| RunFor (timeout : Z) (cmd : argv)
| RunShell (text : string).

Definition fstrim_at_subprocess (target_mountpoint : string) (wait : bool) (timeout : Z) : fstrim_call :=
  let cmd := ["fstrim"; target_mountpoint]%string in
  if wait then RunFor timeout cmd
  else RunShell (shlex_join (["nohup"; "timeout"; pretty timeout]%string ++ cmd) +:+ " &")%string.

(** What a POSIX shell makes of one word: quoted parts are taken as they are. *)
Inductive quoting : Type := Bare | Single | Double.
Fixpoint shell_word (q : quoting) (s : string) : option (string * string) :=
  match s with
  | EmptyString => match q with Bare => Some (EmptyString, EmptyString) | _ => None end
  | String a r =>
      match q with
      | Bare =>
          if Ascii.eqb a "'" then shell_word Single r
          else if Ascii.eqb a double_quote then shell_word Double r
          else if shell_safe a then '(w, rest) ← shell_word Bare r; Some (String a w, rest)
          else Some (EmptyString, s)
      | Single =>
          if Ascii.eqb a "'" then shell_word Bare r else '(w, rest) ← shell_word Single r; Some (String a w, rest)
      | Double =>
          if Ascii.eqb a double_quote then shell_word Bare r
          else if Ascii.eqb a "'" then '(w, rest) ← shell_word Double r; Some (String a w, rest)
          else None
      end
  end.

Lemma shell_word_stop rest :
  match rest with EmptyString => True | String a _ => shell_safe a = false /\ a <> "'"%char /\ a <> double_quote end ->
  shell_word Bare rest = Some (EmptyString, rest).
Proof.
  destruct rest as [|a rest]; [done|]. intros (Hs & H1 & H2). cbn [shell_word].
  destruct (Ascii.eqb_spec a "'") as [->|_]; [done|]. destruct (Ascii.eqb_spec a double_quote) as [->|_]; [done|]. by rewrite Hs.
Qed.

Lemma shell_word_safe s rest :
  str_forallb shell_safe s = true -> shell_word Bare rest = Some (EmptyString, rest) ->
  shell_word Bare (s +:+ rest) = Some (s, rest).
Proof.
  intros Hs Hr. induction s as [|a s IH]; [done|]. cbn in Hs. apply andb_prop in Hs as [Ha Hs].
  change (String a s +:+ rest)%string with (String a (s +:+ rest)). cbn [shell_word].
  destruct (Ascii.eqb_spec a "'") as [->|_]; [done|]. destruct (Ascii.eqb_spec a double_quote) as [->|_]; [done|].
  rewrite Ha, IH by done. done.
Qed.

Lemma shell_word_single s rest :
  shell_word Bare rest = Some (EmptyString, rest) ->
  shell_word Single (str_concat_map (fun a => if Ascii.eqb a "'" then quoted_quote else String a EmptyString) s
    +:+ single_quote +:+ rest) = Some (s, rest).
Proof.
  intros Hr. induction s as [|a s IH]; [exact Hr|]. cbn [str_concat_map]. rewrite str_app_assoc.
  destruct (Ascii.eqb_spec a "'") as [->|Ha].
  - change (quoted_quote +:+ ?x)%string with (String "'" (String double_quote (String "'" (String double_quote (String "'" x))))).
    cbn [shell_word Ascii.eqb double_quote]. change (Ascii.eqb "'" "'") with true. cbn iota.
    change (Ascii.eqb double_quote "'") with false. change (Ascii.eqb double_quote double_quote) with true.
    change (Ascii.eqb "'" double_quote) with false. cbn iota. by rewrite IH.
  - change (String a EmptyString +:+ ?x)%string with (String a x). cbn [shell_word].
    destruct (Ascii.eqb_spec a "'"); [done|]. by rewrite IH.
Qed.

(** A quoted word is read by the shell as the text it was made of, whatever
    the text is: the mount point cannot add words or commands. *)
Theorem quoted_word_kept s rest :
  match rest with EmptyString => True | String a _ => shell_safe a = false /\ a <> "'"%char /\ a <> double_quote end ->
  shell_word Bare (shlex_quote s +:+ rest) = Some (s, rest).
Proof.
  intros Hr%shell_word_stop. unfold shlex_quote. destruct s as [|a s]; [done|]. cbn [str_truthy negb].
  destruct (str_forallb shell_safe (String a s)) eqn:Es; [by apply shell_word_safe|].
  rewrite !str_app_assoc. change (single_quote +:+ ?x)%string with (String "'" x). cbn [shell_word].
  apply (shell_word_single (String a s) rest Hr).
Qed.

(** ** Ids *)

(** [gen_session_id] and [gen_request_id], for the time and the random part. *)
Definition gen_session_id (update_version : string) (now : Z) (random : list N) : string :=
  (pretty now +:+ "-" +:+ sub_illegal update_version +:+ "-" +:+ hex_of random)%string.
Definition gen_request_id (now : Z) (random : list N) : string := (pretty now +:+ "-" +:+ hex_of random)%string.

Lemma hex_digit_legal n : (n < 16)%N -> is_illegal_char (hex_digit n) = false.
Proof.
  intros Hn. assert (Hall : forallb (fun k => negb (is_illegal_char (hex_digit k))) (map N.of_nat (seq 0 16)) = true)
    by (vm_compute; reflexivity).
  apply (proj1 (forallb_forall _ _)) with (x := n) in Hall; [by apply negb_true_iff in Hall|].
  apply in_map_iff. exists (N.to_nat n). split; [lia|]. apply in_seq. lia.
Qed.

(** A session id is one path element, whatever version is asked for. *)
Theorem session_id_is_one_element version now random :
  0 <= now -> Forall (fun n => n < 256)%N random ->
  str_forallb (fun a => negb (is_illegal_char a)) (gen_session_id version now random) = true.
Proof.
  intros Hn Hr. assert (Hd : str_forallb (fun a => negb (is_illegal_char a)) (pretty now) = true).
  { eapply str_forallb_impl; [|apply (pretty_Z_digits now Hn)]. intros a Ha. unfold is_digit in Ha.
    revert Ha. destruct a as [[] [] [] [] [] [] [] []]; vm_compute; congruence. }
  assert (Hh : str_forallb (fun a => negb (is_illegal_char a)) (hex_of random) = true).
  { induction Hr as [|n l Hb _ IH]; [done|]. cbn. rewrite IH, !andb_true_r.
    rewrite !hex_digit_legal; [done|apply N.mod_lt; done|apply N.Div0.div_lt_upper_bound; lia]. }
  unfold gen_session_id. rewrite !str_forallb_app, Hd, Hh, sub_illegal_legal. done.
Qed.

(** ** File digests *)

Definition DEFAULT_FILE_CHUNK_SIZE : nat := N.to_nat 1048576.

(** [cal_file_digest]: the file is hashed chunk by chunk ([_file_digest]);
    [hexdigest] is the digest of the bytes the hash object was fed. *)
Definition chunked_file_digest (hexdigest : bytes -> string) (chunk_size : nat) (file : option bytes) : result pyexn string :=
  match file with
  | None => Raise (PyExn (XOSError (Some 2)) [] None None)
  | Some content =>
      match read_loop (List.length content) chunk_size content [] 0 with
      | Some (hashed, _) => Ok (hexdigest hashed)
      | None => Raise (PyExn XValueError [] None None)
      end
  end.

(** The chunks do not matter: the digest is that of the whole file. *)
Theorem file_digest_whole hexdigest chunk_size content :
  (0 < chunk_size)%nat -> chunked_file_digest hexdigest chunk_size (Some content) = Ok (hexdigest content).
Proof. intros Hc. unfold chunked_file_digest. by rewrite read_loop_spec. Qed.
