(* ===== verification/ImageV1.v ===== *)
(** * The metadata of an OTA image of version 1

    Models [src/src/ota_metadata/v1.py] (the signed index, the choice of the
    payload and the metafiles reached from it), [_process_metadata] of
    [OTAImageV1SupportMixin] in [src/src/otaclient/ota_core/_updater_base.py] and
    of [OTAUpdaterForOTAImageV1] in [_updater.py], [_verify_image_index] of
    [_partition_image.py], and the probe of the image's version in
    [src/src/ota_metadata/utils/detect_ota_image_ver.py].

    The package ota-image-libs is the interface [OtaImageLibs]: the signature
    of [index.jwt], the parsers (which take the bytes of a file, the decoding
    included), the queries on an index and the export of a blob.  As in
    [LegacyMetadata], a generator is written as the sequence of what it does
    between its [yield]s, and [fetch] is the caller that downloads what it asks
    for.  The metrics are left out. *)

From stdpp Require Import base gmap strings list option sets.
From Stdlib Require Import ZArith String Ascii Lia.
From S2P Require Import Prelude Types Errors StatusMonitor CacheStreaming Downloader CertStore LegacyMetadata UpdateLibs JetsonText SlotMeta ClientUpdate PartitionImage.

(** ** The schema, by the fields that are used *)

Record sign_cert_chain : Type := mkSignCertChain { scc_ee : Certificate; scc_interms : list Certificate }.

Record ImageManifest : Type := mkImageManifest {
  man_config : OCIDescriptor;
  man_nvidia_jetson_bsp_version : option string;
}.

Record ImageConfig : Type := mkImageConfig {
  ic_file_table : OCIDescriptor;
  ic_sys_config : option OCIDescriptor;
  ic_nvidia_jetson_bsp_version : option string;
  ic_sys_image_size : option Z;
  ic_sys_image_regular_files_count : Z;
}.

Record SysConfig : Type := mkSysConfig { sc_persist_files : option (list string) }.

(** What the code uses of ota-image-libs. *)
Class OtaImageLibs (ImageIndex ImageIdentifier CACertStore : Type) : Type := {
  INDEX_JWT_FNAME : string;
  IMAGE_INDEX_FNAME : string;
  RESOURCE_DIR : string;
  SUPPORTED_HASH_ALG : string;
  get_index_jwt_sign_cert_chain : string -> result pyexn sign_cert_chain;
  (** The descriptor of [index.json] in the verified claims. *)
  decode_index_jwt_with_verification : string -> sign_cert_chain -> result pyexn OCIDescriptor;
  ca_store_accepts : CACertStore -> Certificate -> list Certificate -> bool;
  parse_index : string -> result pyexn ImageIndex;
  find_image : ImageIndex -> ImageIdentifier -> option OCIDescriptor;
  find_partition_image : ImageIndex -> ImageIdentifier -> option OCIDescriptor;
  find_otaclient_package : ImageIndex -> list OCIDescriptor;
  image_resource_table : ImageIndex -> option OCIDescriptor;
  identifier_str : ImageIdentifier -> string;
  parse_image_manifest : string -> result pyexn ImageManifest;
  parse_image_config : string -> result pyexn ImageConfig;
  parse_sys_config : string -> result pyexn SysConfig;
  (** [OTAClientPackageManifest.parse_metafile], then [find_package] by version and architecture. *)
  parse_package_manifest : string -> result pyexn (string -> string -> option OCIDescriptor);
  (** [export_blob_from_resource_dir] with [auto_decompress], from the files of a directory. *)
  export_blob : OCIDescriptor -> gmap string string -> result pyexn string;
}.

Definition IMAGE_MANIFEST_SAVE_FNAME : string := "image_manifest.json".
Definition IMAGE_CONFIG_SAVE_FNAME : string := "image_config.json".
Definition SYS_CONFIG_SAVE_FNAME : string := "sys_config.json".

(** [_get_arch] *)
Definition get_arch (machine : string) : option string :=
  if bool_decide (machine ∈ ["x86_64"; "amd64"]%string) then Some "x86_64"%string
  else if bool_decide (machine ∈ ["aarch64"; "arm64"]%string) then Some "arm64"%string
  else None.

(** [OTAImageHelper]; the two databases are those of the session directory. *)
Record OTAImageHelper (ImageIndex : Type) : Type := mkOTAImageHelper {
  ih_image_index : option ImageIndex;
  ih_image_manifest : option ImageManifest;
  ih_image_config : option ImageConfig;
  ih_sys_config : option SysConfig;
  ih_file_table_dbf : option string;
  ih_resource_table_dbf : option string;
  ih_asked : list DownloadInfo;           (** what was yielded so far *)
  ih_reports : list report_payload;
}.
Arguments mkOTAImageHelper {_}.
Arguments ih_image_index {_}.
Arguments ih_image_manifest {_}.
Arguments ih_image_config {_}.
Arguments ih_sys_config {_}.
Arguments ih_file_table_dbf {_}.
Arguments ih_resource_table_dbf {_}.
Arguments ih_asked {_}.
Arguments ih_reports {_}.

#[export] Instance eta_OTAImageHelper {I} : Eta (OTAImageHelper I) := fun r =>
  mkOTAImageHelper (ih_image_index r) (ih_image_manifest r) (ih_image_config r) (ih_sys_config r)
    (ih_file_table_dbf r) (ih_resource_table_dbf r) (ih_asked r) (ih_reports r).

Definition new_OTAImageHelper {I} : OTAImageHelper I := mkOTAImageHelper None None None None None None [] [].

(** The property [bsp_version_str]. *)
Definition bsp_version_str {I} (s : OTAImageHelper I) : option string :=
  match ih_image_manifest s, ih_image_config s with
  | Some m, Some c =>
      match ic_nvidia_jetson_bsp_version c with
      | Some (String _ _ as v) => Some v
      | _ => man_nvidia_jetson_bsp_version m
      end
  | _, _ => None
  end.

Definition get_persistents_list {I} (s : OTAImageHelper I) : option (list string) :=
  match ih_sys_config s with
  | Some sc => match sc_persist_files sc with Some ((_ :: _) as l) => Some l | _ => None end
  | None => None
  end.

Section Helper.
Context {ImageIndex ImageIdentifier CACertStore : Type}.
Context `{HL : !OtaImageLibs ImageIndex ImageIdentifier CACertStore}.
Context (urljoin : string -> string -> string) (session_dir base_url : string).
Context (ca_store : pydict CACertStore).
(** The caller: downloads what is asked for. *)
Context (fetch : DownloadInfo -> result pyexn string).
Abbreviation IHM := (PyM (OTAImageHelper ImageIndex) pyexn).

Definition blob_storage_url : string := urljoin_ensure_base urljoin base_url RESOURCE_DIR.
Definition in_session (fname : string) : string := pjoin session_dir fname.

Definition get_resource_url (digest_hex : string) : string := urljoin_ensure_base urljoin blob_storage_url digest_hex.

Definition download_from_descriptor (save_dst : string) (d : OCIDescriptor) : DownloadInfo :=
  mkDownloadInfo (urljoin_ensure_base urljoin blob_storage_url (oci_digest_hex d)) save_dst (oci_size d)
    (Some SUPPORTED_HASH_ALG) (Some (oci_digest_hex d)) None false.

(** [yield [...]; condition.wait()], for one file that is read then. *)
Definition obtain (i : DownloadInfo) : IHM string :=
  _ ← modify (fun s => s <| ih_asked := ih_asked s ++ [i] |>);
  from_result (fetch i).

(** [except Exception as e: raise ImageMetadataInvalid(...)] *)
Definition as_metadata_invalid {A} (msg : string) (r : result pyexn A) : IHM A :=
  match r with
  | Ok a => mret a
  | Raise e => raise (if is_exception e then image_metadata_invalid (msg +:+ exn_str e)%string else e)
  end.

Definition index_jwt_info : DownloadInfo :=
  mkDownloadInfo (urljoin_ensure_base urljoin base_url INDEX_JWT_FNAME) (in_session INDEX_JWT_FNAME) 0 None None None false.

Definition index_json_info (d : OCIDescriptor) : DownloadInfo :=
  mkDownloadInfo (urljoin_ensure_base urljoin base_url IMAGE_INDEX_FNAME) (in_session IMAGE_INDEX_FNAME) (oci_size d)
    (Some SUPPORTED_HASH_ALG) (Some (oci_digest_hex d)) None false.

Definition download_and_verify_image_index : IHM unit :=
  index_jwt ← obtain index_jwt_info;
  chain ← as_metadata_invalid "index.jwt header is invalid: " (get_index_jwt_sign_cert_chain index_jwt);
  match ca_store_map_verify ca_store_accepts ca_store (scc_ee chain) (Some (scc_interms chain)) with
  | None => raise sign_cert_invalid
  | Some _ =>
      d ← as_metadata_invalid "claims in index.jwt is invalid: " (decode_index_jwt_with_verification index_jwt chain);
      text ← obtain (index_json_info d);
      ix ← as_metadata_invalid "image index is invalid: " (parse_index text);
      modify (fun s => s <| ih_image_index := Some ix |>)
  end.

(** A metafile of the payload: downloaded by its descriptor, then parsed. *)
Definition obtain_and_parse {A} (fname : string) (d : OCIDescriptor) (msg : string)
    (parse : string -> result pyexn A) : IHM A :=
  text ← obtain (download_from_descriptor (in_session fname) d);
  as_metadata_invalid msg (parse text).

(** The two tables, into a temporary directory, and from there. *)
Definition obtain_tables (tmp_dir : string) (ft rst : OCIDescriptor) : IHM (gmap string string) :=
  let ft_info := download_from_descriptor (pjoin tmp_dir (oci_digest_hex ft)) ft in
  let rst_info := download_from_descriptor (pjoin tmp_dir (oci_digest_hex rst)) rst in
  _ ← modify (fun s => s <| ih_asked := ih_asked s ++ [ft_info; rst_info] |>);
  ft_blob ← from_result (fetch ft_info);
  rst_blob ← from_result (fetch rst_info);
  mret (<[oci_digest_hex rst := rst_blob]> {[oci_digest_hex ft := ft_blob]}).

Definition download_tables (tmp_dir : string) (ft rst : OCIDescriptor) : IHM unit :=
  dir ← obtain_tables tmp_dir ft rst;
  ft_db ← as_metadata_invalid "file_table and/or resource_table are invalid: " (export_blob ft dir);
  _ ← modify (fun s => s <| ih_file_table_dbf := Some ft_db |>);
  rst_db ← as_metadata_invalid "file_table and/or resource_table are invalid: " (export_blob rst dir);
  modify (fun s => s <| ih_resource_table_dbf := Some rst_db |>).

(** [tmp_dir]: the name that [TemporaryDirectory] takes. *)
Definition select_image_payload (tmp_dir : string) (id : ImageIdentifier) : IHM unit :=
  index ← gets ih_image_index;
  match index with
  | None => raise assertion_failed
  | Some ix =>
      match find_image ix id with
      | None =>
          match find_partition_image ix id with
          | Some _ =>
              raise (image_metadata_invalid ("the payload for " +:+ identifier_str id +:+
                " is partition-based, which this ECU, updated file by file, does not apply")%string)
          | None =>
              raise (image_metadata_invalid ("image indicated by " +:+ identifier_str id +:+
                " cannot be found in OTA image!")%string)
          end
      | Some md =>
          manifest ← obtain_and_parse IMAGE_MANIFEST_SAVE_FNAME md
            ("image manifest for " +:+ identifier_str id +:+ " is invalid: ")%string parse_image_manifest;
          _ ← modify (fun s => s <| ih_image_manifest := Some manifest |>);
          config ← obtain_and_parse IMAGE_CONFIG_SAVE_FNAME (man_config manifest)
            ("image config for " +:+ identifier_str id +:+ " is invalid: ")%string parse_image_config;
          _ ← modify (fun s => s <| ih_image_config := Some config |>);
          _ ← match ic_sys_config config with
              | None => mret tt
              | Some sd =>
                  sys ← obtain_and_parse SYS_CONFIG_SAVE_FNAME sd
                    ("sys config for " +:+ identifier_str id +:+ " is invalid: ")%string parse_sys_config;
                  modify (fun s => s <| ih_sys_config := Some sys |>)
              end;
          match image_resource_table ix with
          | None => raise assertion_failed
          | Some rst => download_tables tmp_dir (ic_file_table config) rst
          end
      end
  end.

(** ** The metadata phase *)

Context (tmp_dir : string) (now downloaded_bytes : Z).
Definition v1_put_report (p : report_payload) : IHM unit := modify (fun s => s <| ih_reports := ih_reports s ++ [p] |>).

(** [OTAImageV1SupportMixin._process_metadata] *)
Definition v1_process_metadata (id : ImageIdentifier) (only_metadata_verification : bool) : IHM unit :=
  _ ← v1_put_report (PPhaseChange (mkOTAUpdatePhaseChangeReport PROCESSING_METADATA now));
  _ ← metadata_download_err_handler
        (_ ← download_and_verify_image_index;
         if only_metadata_verification then mret tt else select_image_payload tmp_dir id);
  if only_metadata_verification then mret tt
  else
    config ← gets ih_image_config;
    match config with
    | None => raise assertion_failed
    | Some c =>
        v1_put_report (PSetUpdateMeta (mkSetUpdateMetaReport
          (mkUpdateMeta EmptyString (default 0 (ic_sys_image_size c)) (ic_sys_image_regular_files_count c) 0 0 0)
          downloaded_bytes))
    end.

(** [OTAUpdaterForOTAImageV1._process_metadata]; [fw_bsp_ver] on a Jetson UEFI device. *)
Definition v1_process_metadata_and_check (fw_bsp_ver : option BSPVersion) (id : ImageIdentifier)
    (only_metadata_verification : bool) : IHM unit :=
  _ ← v1_process_metadata id only_metadata_verification;
  s ← get;
  match ih_image_config s with
  | None => raise assertion_failed
  | Some _ =>
      match fw_bsp_ver, bsp_version_str s with
      | Some fw, Some (String _ _ as v) => from_result (check_bsp fw v)
      | _, _ => mret tt
      end
  end.

(** [OTAUpdaterForPartitionImage._verify_image_index] *)
Definition verify_image_index : IHM ImageIndex :=
  _ ← download_and_verify_image_index;
  index ← gets ih_image_index;
  match index with
  | Some ix => mret ix
  | None => raise (image_invalid "the OTA image index was not read" None)
  end.

(** [select_otaclient_package]: what it leaves at [save_dst].  It yields each
    [DownloadInfo] itself and not in a list; nothing calls it. *)
Definition select_otaclient_package (machine save_dst version : string) : IHM (option string) :=
  index ← gets ih_image_index;
  match index with
  | None => raise assertion_failed
  | Some ix =>
      match get_arch machine, find_otaclient_package ix with
      | Some arch, d :: _ =>
          text ← obtain (download_from_descriptor (in_session "otaclient_release_manifest.json") d);
          find_package ← from_result (parse_package_manifest text);
          match find_package version arch with
          | Some artifact => package ← obtain (download_from_descriptor save_dst artifact); mret (Some package)
          | None => mret None
          end
      | _, _ => mret None
      end
  end.
End Helper.

(** ** The probe of the image's version *)

Definition OTA_IMAGE_V1_HINT : string := "oci-layout".
Definition PROBE_RETRY_TIMES : nat := 12.

Section Probe.
(** The status of the answer to the [i]-th request, or an exception; and the
    replacement of the scheme of a URL, which [urlsplit] may refuse. *)
Context (http_status : nat -> string -> result pyexn Z) (replace_scheme : string -> result pyexn string).

(** The loop over the attempts. *)
Fixpoint probe_attempts (n i : nat) (url : string) : result pyexn bool :=
  match n with
  | O => Ok false
  | S n =>
      match http_status i url with
      | Ok status =>
          if status =? 200 then Ok true
          else if (status =? 401) || (status =? 403) || (status =? 404) then Ok false
          else probe_attempts n (S i) url
      | Raise e => if is_exception e then probe_attempts n (S i) url else Raise e
      end
  end.

Definition hint_url (base_url : string) (force_http : bool) : result pyexn string :=
  let url := (rstrip_by (Ascii.eqb "/") base_url +:+ "/" +:+ OTA_IMAGE_V1_HINT)%string in
  if force_http then replace_scheme url else Ok url.

(** The [try] of [check_if_ota_image_v1]. *)
Definition probe (base_url : string) (force_http : bool) : result pyexn bool :=
  let r := match hint_url base_url force_http with
           | Ok url => probe_attempts PROBE_RETRY_TIMES 0 url
           | Raise e => Raise e
           end in
  match r with
  | Raise e => if is_exception e then Ok false else Raise e
  | _ => r
  end.

(** [check_if_ota_image_v1], called by the thread [tid]. *)
Definition check_if_ota_image_v1 (tid : Z) (base_url : string) (force_http : bool) (p : dl_pool) :
    dl_pool * result pyexn bool :=
  match get_instance tid p with
  | (p, Raise _) => (p, Raise (PyExn XValueError [] None None))
  | (p, Ok _) => (release_instance tid p, probe base_url force_http)
  end.

(** An answer after which the probe goes on. *)
Definition inconclusive (r : result pyexn Z) : Prop :=
  match r with
  | Ok status => status <> 200 /\ status <> 401 /\ status <> 403 /\ status <> 404
  | Raise e => is_exception e = true
  end.

Lemma probe_attempts_found n i url :
  probe_attempts n i url = Ok true <->
  exists j, (i <= j < i + n)%nat /\ http_status j url = Ok 200 /\
    forall k, (i <= k < j)%nat -> inconclusive (http_status k url).
Proof.
  revert i. induction n as [|n IH]; intros i; cbn [probe_attempts].
  { split; [done|]. intros (j & Hj & _). lia. }
  assert (Hnext : inconclusive (http_status i url) ->
    probe_attempts n (S i) url = Ok true <->
    exists j, (i <= j < i + S n)%nat /\ http_status j url = Ok 200 /\
      forall k, (i <= k < j)%nat -> inconclusive (http_status k url)).
  { intros Hi. rewrite IH. split; intros (j & Hj & Hs & Hk).
    - exists j. split_and!; [lia|lia|done|]. intros k Hik. destruct (decide (k = i)) as [->|]; [done|]. apply Hk. lia.
    - destruct (decide (j = i)) as [->|]; [by rewrite Hs in Hi; destruct Hi|].
      exists j. split_and!; [lia|lia|done|]. intros k Hik. apply Hk. lia. }
  assert (Hstop : http_status i url <> Ok 200 -> ~ inconclusive (http_status i url) ->
    ~ exists j, (i <= j < i + S n)%nat /\ http_status j url = Ok 200 /\
      forall k, (i <= k < j)%nat -> inconclusive (http_status k url)).
  { intros Hn Hc (j & Hj & Hs & Hk). destruct (decide (j = i)) as [->|]; [done|]. apply Hc, Hk. lia. }
  destruct (http_status i url) as [status|e] eqn:Eg.
  - destruct (Z.eqb_spec status 200) as [->|Hn].
    { split; [|done]. intros _. exists i. split_and!; [lia|lia|done|lia]. }
    destruct (_ || _) eqn:Ec; [|apply Hnext; cbn; lia].
    split; [done|]. intros H. exfalso. revert H. apply Hstop; [congruence|]. cbn. lia.
  - destruct (is_exception e) eqn:Ee; [by apply Hnext|].
    split; [done|]. intros H. exfalso. revert H. apply Hstop; [done|]. cbn. by rewrite Ee.
Qed.

(** A host is taken for a version 1 image exactly when one of the twelve
    requests is answered with 200 and all before it were inconclusive: a
    refused or missing hint file ends the probe. *)
Theorem image_v1_detected base_url url :
  hint_url base_url false = Ok url ->
  probe base_url false = Ok true <->
  exists j, (j < 12)%nat /\ http_status j url = Ok 200 /\ forall k, (k < j)%nat -> inconclusive (http_status k url).
Proof.
  unfold probe. intros ->.
  assert (probe_attempts PROBE_RETRY_TIMES 0 url = Ok true <->
    exists j, (j < 12)%nat /\ http_status j url = Ok 200 /\ forall k, (k < j)%nat -> inconclusive (http_status k url)) as <-.
  { rewrite probe_attempts_found. split; intros (j & Hj & Hs & Hk);
      (exists j; split_and!; [unfold PROBE_RETRY_TIMES in *; lia..|done|intros k Hkj; apply Hk; lia]). }
  destruct (probe_attempts _ _ _) as [b|e]; [done|]. by destruct (is_exception e).
Qed.

(** The probe gives back the downloader instance it took: a pool in which the
    thread held none is as before. *)
Theorem probe_keeps_pool tid base_url force_http p :
  dp_thread_idx p !! tid = None -> fst (check_if_ota_image_v1 tid base_url force_http p) = p \/
  snd (check_if_ota_image_v1 tid base_url force_http p) = Raise (PyExn XValueError [] None None).
Proof.
  intros Ht. unfold check_if_ota_image_v1, get_instance. rewrite Ht.
  pose proof (first_available_spec (dp_idx_thread p)) as Hf.
  destruct (first_available (dp_idx_thread p)) as [i|]; [|by right].
  destruct (instance_at i p); [left|by right]. unfold release_instance. cbn. rewrite lookup_insert_eq.
  destruct p as [ins idx thr tot]. cbn in *. f_equal.
  - by rewrite list_insert_insert_eq, list_insert_id.
  - by rewrite delete_insert_eq, delete_id.
Qed.
End Probe.

(** A host that fails on every request is taken for a legacy image. *)
Example failing_host_taken_for_legacy :
  probe (fun _ _ => Ok 503) Ok "http://ota.example" false = Ok false.
Proof. vm_compute. reflexivity. Qed.

(** ** Reasoning on both outcomes

    [run_spec m s Q X]: from [s], [m] returns as [Q] says or raises as [X] says. *)

Definition run_spec {S A} (m : PyM S pyexn A) (s : S) (Q : A -> S -> Prop) (X : pyexn -> S -> Prop) : Prop :=
  match m s with (s', Ok a) => Q a s' | (s', Raise e) => X e s' end.

Section Outcome.
Context {S : Type}.

Lemma run_spec_bind {A B} (m : PyM S pyexn A) (k : A -> PyM S pyexn B) s Q X :
  run_spec m s (fun a s' => run_spec (k a) s' Q X) X -> run_spec (m ≫= k) s Q X.
Proof. unfold run_spec, mbind, pym_bind. by destruct (m s) as [s' [a|e]]. Qed.

Lemma run_spec_modify (f : S -> S) s Q X : Q tt (f s) -> run_spec (modify f : PyM S pyexn unit) s Q X.
Proof. done. Qed.

Lemma run_spec_gets {A} (f : S -> A) s Q X : Q (f s) s -> run_spec (gets f : PyM S pyexn A) s Q X.
Proof. done. Qed.

Lemma run_spec_ret {A} (a : A) s Q X : Q a s -> run_spec (mret a : PyM S pyexn A) s Q X.
Proof. done. Qed.

Lemma run_spec_raise {A} e s (Q : A -> S -> Prop) X : X e s -> run_spec (raise e : PyM S pyexn A) s Q X.
Proof. done. Qed.

Lemma run_spec_from_result {A} (r : result pyexn A) s Q X :
  (forall a, r = Ok a -> Q a s) -> (forall e, r = Raise e -> X e s) -> run_spec (from_result r : PyM S pyexn A) s Q X.
Proof. unfold run_spec, from_result. destruct r; eauto. Qed.

Lemma run_spec_weaken {A} (m : PyM S pyexn A) s Q Q' (X X' : pyexn -> S -> Prop) :
  run_spec m s Q X -> (forall a s', Q a s' -> Q' a s') -> (forall e s', X e s' -> X' e s') -> run_spec m s Q' X'.
Proof. unfold run_spec. destruct (m s) as [s' [a|e]]; auto. Qed.

Lemma run_spec_try_except {A} (m : PyM S pyexn A) h s Q X :
  run_spec m s Q (fun e s' => run_spec (h e) s' Q X) -> run_spec (try_except m h) s Q X.
Proof. unfold run_spec, try_except. by destruct (m s) as [s' [a|e]]. Qed.
End Outcome.

(** ** Properties *)

Section Properties.
Context {ImageIndex ImageIdentifier CACertStore : Type}.
Context `{HL : !OtaImageLibs ImageIndex ImageIdentifier CACertStore}.
Context (urljoin : string -> string -> string) (session_dir base_url : string).
Context (ca_store : pydict CACertStore) (fetch : DownloadInfo -> result pyexn string).
Context (hexdigest : string -> string) `{HF : !VerifiedFetch hexdigest fetch}.
Context (tmp_dir : string) (now downloaded_bytes : Z).

Local Abbreviation helper := (OTAImageHelper ImageIndex).
Local Abbreviation get_index := (download_and_verify_image_index urljoin session_dir base_url ca_store fetch).
Local Abbreviation get_payload := (select_image_payload urljoin session_dir base_url fetch tmp_dir).
Local Abbreviation process :=
  (v1_process_metadata urljoin session_dir base_url ca_store fetch tmp_dir now downloaded_bytes).

Definition has_digest (d : OCIDescriptor) (content : string) : Prop :=
  oci_digest_hex d <> EmptyString -> hexdigest content = oci_digest_hex d.

(** [a] is what parsing a file with the digest of [d] gives. *)
Definition reached_by {A} (d : OCIDescriptor) (parse : string -> result pyexn A) (a : A) : Prop :=
  exists text, has_digest d text /\ parse text = Ok a.

(** A directory whose files are named by their digests. *)
Definition named_by_digest (dir : gmap string string) : Prop :=
  forall n content, dir !! n = Some content -> n <> EmptyString -> hexdigest content = n.

(** The index that the claims of a verified [index.jwt] name, signed by a
    certificate that the CA store accepts. *)
Definition trusted_index (ix : ImageIndex) : Prop :=
  exists jwt chain ca d,
    get_index_jwt_sign_cert_chain jwt = Ok chain /\
    ca_store_map_verify ca_store_accepts ca_store (scc_ee chain) (Some (scc_interms chain)) = Some ca /\
    decode_index_jwt_with_verification jwt chain = Ok d /\ reached_by d parse_index ix.

(** Whatever the helper holds is reached from a trusted index by digests. *)
Record chain_of_trust (id : ImageIdentifier) (s : helper) : Prop := mkChainOfTrust {
  ct_index : forall ix, ih_image_index s = Some ix -> trusted_index ix;
  ct_manifest : forall m, ih_image_manifest s = Some m ->
    exists ix d, ih_image_index s = Some ix /\ find_image ix id = Some d /\ reached_by d parse_image_manifest m;
  ct_config : forall c, ih_image_config s = Some c ->
    exists m, ih_image_manifest s = Some m /\ reached_by (man_config m) parse_image_config c;
  ct_sys_config : forall sc, ih_sys_config s = Some sc ->
    exists c d, ih_image_config s = Some c /\ ic_sys_config c = Some d /\ reached_by d parse_sys_config sc;
  ct_file_table : forall db, ih_file_table_dbf s = Some db ->
    exists c dir, ih_image_config s = Some c /\ named_by_digest dir /\ export_blob (ic_file_table c) dir = Ok db;
  ct_resource_table : forall db, ih_resource_table_dbf s = Some db ->
    exists ix d dir, ih_image_index s = Some ix /\ image_resource_table ix = Some d /\ named_by_digest dir /\
      export_blob d dir = Ok db;
}.

(** The payload is there as a whole. *)
Definition image_complete (s : helper) : Prop :=
  exists ix m c,
    ih_image_index s = Some ix /\ ih_image_manifest s = Some m /\ ih_image_config s = Some c /\
    (is_Some (ih_sys_config s) <-> is_Some (ic_sys_config c)) /\
    is_Some (ih_file_table_dbf s) /\ is_Some (ih_resource_table_dbf s).

(** Only the requests and the reports differ. *)
Definition same_image (s s' : helper) : Prop :=
  s' = s <| ih_asked := ih_asked s' |> <| ih_reports := ih_reports s' |>.

Lemma run_spec_obtain i (s : helper) Q X :
  (forall text, fetch i = Ok text -> Q text (s <| ih_asked := ih_asked s ++ [i] |>)) ->
  (forall e, X e (s <| ih_asked := ih_asked s ++ [i] |>)) -> run_spec (obtain fetch i) s Q X.
Proof. intros HQ HX. apply run_spec_bind, run_spec_modify, run_spec_from_result; auto. Qed.

Lemma run_spec_as_invalid {A} msg (r : result pyexn A) (s : helper) Q X :
  (forall a, r = Ok a -> Q a s) -> (forall e, X e s) -> run_spec (as_metadata_invalid msg r) s Q X.
Proof. intros HQ HX. unfold run_spec, as_metadata_invalid. destruct r; [by apply HQ|apply HX]. Qed.

Lemma fetched_has_digest i d text :
  di_digest i = Some (oci_digest_hex d) -> fetch i = Ok text -> has_digest d text.
Proof using HF. intros Hi Hf Hne. by eapply fetch_verified. Qed.

Lemma run_spec_obtain_and_parse {A} fname d msg (parse : string -> result pyexn A) s Q X :
  let s' := s <| ih_asked := ih_asked s ++ [download_from_descriptor urljoin base_url (in_session session_dir fname) d] |> in
  (forall a, reached_by d parse a -> Q a s') -> (forall e, X e s') ->
  run_spec (obtain_and_parse urljoin session_dir base_url fetch fname d msg parse) s Q X.
Proof using HF.
  intros s' HQ HX. apply run_spec_bind, run_spec_obtain; [|done]. intros text Hf.
  apply run_spec_as_invalid; [|done]. intros a Ha. apply HQ. exists text. split; [|done].
  by eapply fetched_has_digest; [|eassumption].
Qed.

Lemma run_spec_obtain_tables ft rst s Q X :
  (forall dir s', named_by_digest dir -> same_image s s' -> Q dir s') ->
  (forall e s', same_image s s' -> X e s') ->
  run_spec (obtain_tables urljoin base_url fetch tmp_dir ft rst) s Q X.
Proof using HF.
  intros HQ HX. apply run_spec_bind, run_spec_modify, run_spec_bind, run_spec_from_result; [|intros; by apply HX].
  intros b1 H1. apply run_spec_bind, run_spec_from_result; [|intros; by apply HX].
  intros b2 H2. apply run_spec_ret, HQ; [|done]. intros n content Hl Hne.
  apply lookup_insert_Some in Hl as [[<- <-]|[_ Hl]]; [by eapply (fetch_verified _ _ _ H2)|].
  apply lookup_singleton_Some in Hl as [<- <-]. by eapply (fetch_verified _ _ _ H1).
Qed.

(** The index: trusted, or not there. *)
Lemma index_outcome (s : helper) (X : pyexn -> helper -> Prop) (Q : unit -> helper -> Prop) :
  (forall ix s', trusted_index ix -> same_image (s <| ih_image_index := Some ix |>) s' -> Q tt s') ->
  (forall e s', same_image s s' -> X e s') ->
  run_spec get_index s Q X.
Proof using HF.
  intros HQ HX. apply run_spec_bind, run_spec_obtain; [|intros; by apply HX]. intros jwt _.
  apply run_spec_bind, run_spec_as_invalid; [|intros; by apply HX]. intros chain Hc.
  destruct (ca_store_map_verify _ _ _ _) as [ca|] eqn:Eca; [|by apply run_spec_raise, HX].
  apply run_spec_bind, run_spec_as_invalid; [|intros; by apply HX]. intros d Hd.
  apply run_spec_bind, run_spec_obtain; [|intros; by apply HX]. intros text Ht.
  apply run_spec_bind, run_spec_as_invalid; [|intros; by apply HX]. intros ix Hix.
  apply run_spec_modify, (HQ ix); [|done]. exists jwt, chain, ca, d. split_and!; [done..|].
  exists text. split; [|done]. by eapply fetched_has_digest; [|eassumption].
Qed.

(** Nothing but the index is there yet. *)
Definition only_index (s : helper) : Prop :=
  ih_image_manifest s = None /\ ih_image_config s = None /\ ih_sys_config s = None /\
  ih_file_table_dbf s = None /\ ih_resource_table_dbf s = None.

Lemma only_index_trusted id s :
  (forall ix, ih_image_index s = Some ix -> trusted_index ix) -> only_index s -> chain_of_trust id s.
Proof. intros Hi (H1 & H2 & H3 & H4 & H5). split; [done|congruence..]. Qed.

Lemma tables_outcome id ix c rst s :
  chain_of_trust id s -> ih_image_index s = Some ix -> ih_image_config s = Some c -> image_resource_table ix = Some rst ->
  run_spec (download_tables urljoin base_url fetch tmp_dir (ic_file_table c) rst) s
    (fun _ s' => chain_of_trust id s' /\ is_Some (ih_file_table_dbf s') /\ is_Some (ih_resource_table_dbf s') /\
       same_image (s <| ih_file_table_dbf := ih_file_table_dbf s' |> <| ih_resource_table_dbf := ih_resource_table_dbf s' |>) s')
    (fun _ => chain_of_trust id).
Proof using HF.
  intros [Ht1 Ht2 Ht3 Ht4 Ht5 Ht6] Hix Hc Hr.
  assert (Hsame : forall s', same_image s s' -> chain_of_trust id s') by (intros s' ->; by split).
  apply run_spec_bind, run_spec_obtain_tables; [|by intros _; exact Hsame]. intros dir s1 Hd ->.
  apply run_spec_bind, run_spec_as_invalid; [|by intros; split]. intros db1 H1.
  apply run_spec_bind, run_spec_modify, run_spec_bind.
  assert (Hft : forall db, Some db1 = Some db ->
    exists c dir, ih_image_config s = Some c /\ named_by_digest dir /\ export_blob (ic_file_table c) dir = Ok db)
    by (intros ? [= <-]; eauto).
  apply run_spec_as_invalid; [|by intros; split]. intros db2 H2. apply run_spec_modify. split_and!; [|done|done|done].
  split; [done..|]. intros ? [= <-]. eauto 10.
Qed.

(** Before the tables are exported. *)
Lemma config_trusted id ix md m c :
  trusted_index ix -> find_image ix id = Some md -> reached_by md parse_image_manifest m ->
  reached_by (man_config m) parse_image_config c -> forall s,
  ih_image_index s = Some ix -> ih_image_manifest s = Some m -> ih_image_config s = Some c ->
  (forall sc, ih_sys_config s = Some sc -> exists d, ic_sys_config c = Some d /\ reached_by d parse_sys_config sc) ->
  ih_file_table_dbf s = None -> ih_resource_table_dbf s = None -> chain_of_trust id s.
Proof.
  intros Hi Hmd Hm Hc s H1 H2 H3 H4 H5 H6. split.
  - intros ? H. congruence.
  - intros ? H. rewrite H2 in H. injection H as <-. eauto.
  - intros ? H. rewrite H3 in H. injection H as <-. eauto.
  - intros sc H. destruct (H4 _ H) as (d & Hd & Hr). eauto.
  - intros ? H. congruence.
  - intros ? H. congruence.
Qed.

Lemma payload_outcome id s :
  (forall ix, ih_image_index s = Some ix -> trusted_index ix) -> only_index s ->
  run_spec (get_payload id) s (fun _ s' => chain_of_trust id s' /\ image_complete s') (fun _ => chain_of_trust id).
Proof using HF.
  intros Hi Hn. pose proof (only_index_trusted id s Hi Hn) as Ht. destruct Hn as (N1 & N2 & N3 & N4 & N5).
  assert (Hsame : forall s', same_image s s' -> chain_of_trust id s') by (intros s' ->; by destruct Ht).
  apply run_spec_bind, run_spec_gets. destruct (ih_image_index s) as [ix|] eqn:Eix; [|by apply run_spec_raise].
  destruct (find_image ix id) as [md|] eqn:Emd; [|by destruct (find_partition_image ix id); apply run_spec_raise].
  apply run_spec_bind, run_spec_obtain_and_parse; [intros m Hm|intros; by apply Hsame].
  apply run_spec_bind, run_spec_modify, run_spec_bind, run_spec_obtain_and_parse.
  2:{ intros _. split; cbn; [by rewrite Eix| |congruence..]. intros ? [= <-]. eauto. }
  intros c Hc. apply run_spec_bind, run_spec_modify. cbn. apply run_spec_bind.
  apply (run_spec_weaken _ _ (fun _ s' => chain_of_trust id s' /\ ih_image_index s' = Some ix /\
    ih_image_manifest s' = Some m /\ ih_image_config s' = Some c /\ (is_Some (ih_sys_config s') <-> is_Some (ic_sys_config c)))
    _ (fun _ => chain_of_trust id)); [|intros [] s' (Ht' & Hx' & Hm' & Hc' & Hs')|done].
  - pose proof (config_trusted id ix md m c (Hi _ eq_refl) Emd Hm Hc) as Hct.
    destruct (ic_sys_config c) as [sd|] eqn:Esd.
    + apply run_spec_bind, run_spec_obtain_and_parse; [intros sc Hsc; apply run_spec_modify|intros _].
      * split_and!; [|done..]. apply Hct; try done. cbn. intros ? [= <-]. eauto.
      * apply Hct; try done. cbn. congruence.
    + apply run_spec_ret. split_and!; [|done..|].
      * apply Hct; try done. cbn. congruence.
      * cbn. rewrite N3. split; by intros [? ?].
  - destruct (image_resource_table ix) as [rst|] eqn:Er; [|by apply run_spec_raise].
    eapply run_spec_weaken; [by apply (tables_outcome id ix c rst s')| |done]. cbn.
    intros [] s2 (Ht2 & Hf2 & Hr2 & He). split; [done|]. exists ix, m, c. rewrite He. cbn. by split_and!.
Qed.

Lemma err_handler_outcome {A} (m : PyM helper pyexn A) s Q (X : helper -> Prop) :
  run_spec m s Q (fun _ => X) -> run_spec (metadata_download_err_handler m) s Q (fun _ => X).
Proof.
  intros H. apply run_spec_try_except. eapply run_spec_weaken; [exact H|done|]. intros e s' Hx.
  by destruct (is_ota_error e || negb (is_exception e)).
Qed.

(** C21. The metadata of a version 1 image is trusted before it is used: however
    the metadata phase ends, whatever index, manifest, configuration, system
    configuration and tables the helper holds are reached, by the digests of
    their descriptors, from an index that a verified [index.jwt] names whose
    certificate the CA store accepts; and when the phase returns, the payload
    of this ECU is there as a whole. *)
Theorem v1_metadata_chain_of_trust id only s' r :
  process id only new_OTAImageHelper = (s', r) ->
  chain_of_trust id s' /\ (only = false -> r = Ok tt -> image_complete s').
Proof using HF.
  intros H. assert (run_spec (process id only) new_OTAImageHelper
    (fun _ s => chain_of_trust id s /\ (only = false -> image_complete s)) (fun _ => chain_of_trust id)) as Ho.
  2:{ unfold run_spec in Ho. rewrite H in Ho. destruct r as [[]|e]; [|by split]. split; [apply Ho|]. intros E _. by apply Ho. }
  apply run_spec_bind, run_spec_modify, run_spec_bind. eapply run_spec_weaken.
  - apply (err_handler_outcome _ _ (fun _ s => chain_of_trust id s /\ (only = false -> image_complete s)) (chain_of_trust id)).
    apply run_spec_bind, index_outcome; [|intros e s ->; by apply only_index_trusted].
    intros ix s Hix ->. assert (Hi : forall ix', Some ix = Some ix' -> trusted_index ix') by (by intros ? [= <-]).
    destruct only; [apply run_spec_ret; split; [by apply only_index_trusted|done]|].
    eapply run_spec_weaken; [by apply payload_outcome|by intros ? ? []|done].
  - intros [] s [Ht Hcomp]. destruct only; [by apply run_spec_ret|]. apply run_spec_bind, run_spec_gets.
    destruct (ih_image_config s) as [c|] eqn:Ec; [|by apply run_spec_raise].
    apply run_spec_modify. destruct (Hcomp eq_refl) as (ix & m & c' & Hx). split; [|intros _; by exists ix, m, c'].
    destruct Ht as [T1 T2 T3 T4 T5 T6]. by split.
  - done.
Qed.

(** ** Which downloads are pinned *)

Definition pinned (i : DownloadInfo) : Prop :=
  i = index_jwt_info urljoin session_dir base_url \/ is_Some (di_digest i).

Definition asks_pinned (s s' : helper) : Prop := Forall pinned (ih_asked s) -> Forall pinned (ih_asked s').

#[local] Instance asks_pinned_preorder : PreOrder asks_pinned.
Proof. split; unfold asks_pinned; [by intros s|]. intros x y z H1 H2 H. auto. Qed.

Lemma ask_pinned l (f : helper -> helper) :
  Forall pinned l -> (forall s, ih_asked (f s) = ih_asked s ++ l) -> forall s, asks_pinned s (f s).
Proof. intros Hl Hf s Hs. rewrite Hf. by apply Forall_app. Qed.

Lemma obtain_pinned i : pinned i -> keeps asks_pinned (obtain fetch i).
Proof.
  intros Hi. apply keeps_bind; [exact _| |intros; apply keeps_from_result; exact _].
  apply keeps_modify, (ask_pinned [i]); [by constructor|done].
Qed.

Lemma from_descriptor_pinned dst d : pinned (download_from_descriptor urljoin base_url dst d).
Proof. right. by eexists. Qed.

Lemma as_invalid_pinned {A} msg (r : result pyexn A) : keeps asks_pinned (as_metadata_invalid (ImageIndex := ImageIndex) msg r).
Proof. destruct r; [apply keeps_ret|apply keeps_raise]; exact _. Qed.

Ltac pinned_step :=
  first [ apply keeps_bind; [exact _| |intros] | apply obtain_pinned | apply from_descriptor_pinned
        | apply as_invalid_pinned | apply keeps_from_result; exact _ | apply keeps_gets; exact _
        | apply keeps_ret; exact _ | apply keeps_raise; exact _ | apply keeps_try_except; [exact _| |intros]
        | apply keeps_modify; intros ?; exact (fun H => H)
        | match goal with |- keeps _ (match ?x with _ => _ end) => destruct x end ].

Lemma index_pinned : keeps asks_pinned get_index.
Proof. unfold download_and_verify_image_index. repeat pinned_step; [by left|by right]. Qed.

Lemma payload_pinned id : keeps asks_pinned (get_payload id).
Proof.
  unfold select_image_payload, obtain_and_parse, download_tables, obtain_tables. repeat pinned_step.
  apply keeps_modify. eapply ask_pinned; [|intros; reflexivity]. 
  apply Forall_cons; split; [apply from_descriptor_pinned|]. apply Forall_singleton, from_descriptor_pinned.
Qed.

(** The one file that the metadata phase downloads without a digest is
    [index.jwt], which carries its own signature. *)
Theorem v1_downloads_pinned id only : Forall pinned (ih_asked (fst (process id only new_OTAImageHelper))).
Proof.
  assert (keeps asks_pinned (process id only)) as Hk; [|by apply Hk].
  unfold v1_process_metadata, metadata_download_err_handler, v1_put_report.
  repeat first [apply index_pinned | apply payload_pinned | pinned_step].
Qed.

(** ** Refusals *)

Lemma process_raises id only s' e :
  (_ ← get_index; if only : bool then mret tt else get_payload id)
    (new_OTAImageHelper <| ih_reports := [PPhaseChange (mkOTAUpdatePhaseChangeReport PROCESSING_METADATA now)] |>) =
    (s', Raise e) ->
  is_exception e = true -> is_ota_error e = false ->
  process id only new_OTAImageHelper = (s', Raise (metadata_download_err e)).
Proof.
  intros H He Ho. unfold v1_process_metadata, v1_put_report, metadata_download_err_handler, try_except.
  unfold mbind at 1, pym_bind at 1, modify at 1. cbn [app ih_reports new_OTAImageHelper].
  unfold mbind at 1, pym_bind at 1. rewrite H, He, Ho. reflexivity.
Qed.

(** An [index.jwt] whose certificate no CA store accepts ends the update with
    the error of a failed verification; nothing but [index.jwt] has been
    asked for, and no index is kept. *)
Theorem v1_untrusted_signer_rejected id only jwt chain :
  fetch (index_jwt_info urljoin session_dir base_url) = Ok jwt ->
  get_index_jwt_sign_cert_chain jwt = Ok chain ->
  ca_store_map_verify ca_store_accepts ca_store (scc_ee chain) (Some (scc_interms chain)) = None ->
  exists s' e, process id only new_OTAImageHelper = (s', Raise e) /\
    ota_class e = Some (Unrec MetadataJWTVerficationFailed) /\
    ih_asked s' = [index_jwt_info urljoin session_dir base_url] /\ ih_image_index s' = None.
Proof.
  intros Hf Hc Hv. eexists _, _. split.
  - eapply (process_raises id only _ sign_cert_invalid); [|reflexivity|reflexivity].
    unfold download_and_verify_image_index, obtain, mbind, pym_bind, modify, from_result. rewrite Hf. cbn.
    rewrite Hc. cbn. rewrite Hv. reflexivity.
  - by split_and!.
Qed.

(** A payload made for a partition-based layout is not taken for a root file
    system: selecting it raises before anything is downloaded. *)
Theorem v1_partition_payload_refused id ix d s :
  ih_image_index s = Some ix -> find_image ix id = None -> find_partition_image ix id = Some d ->
  exists e, get_payload id s = (s, Raise e) /\
    ota_class (metadata_download_err e) = Some (Rec OTAImageInvalid).
Proof.
  intros Hi Hn Hp. unfold select_image_payload, mbind, pym_bind, gets. rewrite Hi, Hn, Hp. by eexists.
Qed.

(** The index that a partition-based update uses is trusted as well. *)
Theorem partition_index_trusted s s' ix :
  verify_image_index urljoin session_dir base_url ca_store fetch s = (s', Ok ix) -> trusted_index ix.
Proof using HF.
  intros H. assert (run_spec (verify_image_index urljoin session_dir base_url ca_store fetch) s
    (fun ix _ => trusted_index ix) (fun _ _ => True)) as Ho; [|by unfold run_spec in Ho; rewrite H in Ho].
  apply run_spec_bind, index_outcome; [|done]. intros ix' s1 Hix ->. apply run_spec_bind, run_spec_gets. cbn.
  exact Hix.
Qed.

(** On a Jetson UEFI device, an update goes on past the metadata only when the
    image states no BSP version or states the firmware's. *)
Theorem v1_bsp_mismatch_rejected fw id only s s' :
  v1_process_metadata_and_check urljoin session_dir base_url ca_store fetch tmp_dir now downloaded_bytes (Some fw) id only s
    = (s', Ok tt) ->
  match bsp_version_str s' with
  | Some v => v = EmptyString \/ parse_bsp_version v = Ok fw
  | None => True
  end.
Proof.
  intros (s1 & [] & _ & H)%pym_bind_ok. apply pym_bind_ok in H as (s2 & a & [= <- <-] & H).
  destruct (ih_image_config s1); [|done]. destruct (bsp_version_str s1) as [[|x v]|] eqn:Eb.
  - injection H as <-. rewrite Eb. by left.
  - apply from_result_ok in H as [H ->]. rewrite Eb. right. unfold check_bsp in H.
    destruct (parse_bsp_version (String x v)) as [w|]; [|done]. by case_bool_decide; subst.
  - injection H as <-. by rewrite Eb.
Qed.
End Properties.

(** ** A concrete session

    A file is its own digest, so that the server can answer by it; an index is
    the text of its file. *)

Definition blob (text : string) : OCIDescriptor := mkOCIDescriptor text 1 None.

#[local] Instance sample_libs : OtaImageLibs string string bool := {|
  INDEX_JWT_FNAME := "index.jwt";
  IMAGE_INDEX_FNAME := "index.json";
  RESOURCE_DIR := "blobs/sha256";
  SUPPORTED_HASH_ALG := "sha256";
  get_index_jwt_sign_cert_chain := fun _ => Ok (mkSignCertChain example_leaf []);
  decode_index_jwt_with_verification := fun _ _ => Ok (blob "index");
  ca_store_accepts := fun st _ _ => st;
  parse_index := fun t => Ok t;
  find_image := fun _ id => if String.eqb id "main" then Some (blob "manifest") else None;
  find_partition_image := fun _ id => if String.eqb id "sub" then Some (blob "payload") else None;
  find_otaclient_package := fun _ => [];
  image_resource_table := fun _ => Some (blob "resources");
  identifier_str := id;
  parse_image_manifest := fun _ => Ok (mkImageManifest (blob "config") (Some "R35.4.1"%string));
  parse_image_config := fun _ => Ok (mkImageConfig (blob "files") (Some (blob "sys")) None (Some 9) 3);
  parse_sys_config := fun _ => Ok (mkSysConfig (Some ["/etc/hosts"%string]));
  parse_package_manifest := fun _ => Ok (fun _ _ => None);
  export_blob := fun d dir => match dir !! oci_digest_hex d with Some t => Ok t | None => Raise assertion_failed end;
|}.

Local Abbreviation sample_run ca id :=
  (v1_process_metadata String.append "/session" "http://image" [("ca"%string, ca)] example_fetch "/session/tmp" 7 100
     id false new_OTAImageHelper).
Definition sample_helper : OTAImageHelper string := fst (sample_run true "main"%string).

Lemma sample_run_ok : sample_run true "main"%string = (sample_helper, Ok tt).
Proof. vm_compute. reflexivity. Qed.

Lemma v1_metadata_chain_of_trust_witness :
  (exists ix, ih_image_index sample_helper = Some ix /\ trusted_index [("ca"%string, true)] id ix) /\
  ih_file_table_dbf sample_helper = Some "files"%string /\ get_persistents_list sample_helper = Some ["/etc/hosts"%string].
Proof.
  destruct (v1_metadata_chain_of_trust String.append "/session" "http://image" [("ca"%string, true)] example_fetch id
    "/session/tmp" 7 100 "main"%string false sample_helper (Ok tt) sample_run_ok) as [Ht Hc].
  destruct (Hc eq_refl eq_refl) as (ix & m & c & Hx & _). split; [|split; vm_compute; reflexivity].
  exists ix. split; [exact Hx|]. exact (ct_index _ _ _ _ Ht ix Hx).
Defined.

Lemma v1_untrusted_signer_rejected_witness :
  exists s' e, sample_run false "main"%string = (s', Raise e) /\
    ota_class e = Some (Unrec MetadataJWTVerficationFailed) /\ List.length (ih_asked s') = 1%nat.
Proof.
  destruct (v1_untrusted_signer_rejected (HL := sample_libs) String.append "/session" "http://image" [("ca"%string, false)] example_fetch
    "/session/tmp" 7 100 "main"%string false "header.payload.signature" (mkSignCertChain example_leaf [])
    eq_refl eq_refl eq_refl) as (s' & e & H & He & Ha & _).
  exists s', e. split_and!; [exact H|exact He|]. rewrite Ha. reflexivity.
Defined.

Example partition_payload_in_session :
  match snd (sample_run true "sub"%string) with Raise e => ota_class e = Some (Rec OTAImageInvalid) | Ok _ => False end.
Proof. vm_compute. reflexivity. Qed.

(** With [only_metadata_verification], the updater of a version 1 image would
    fail on its assertion: the configuration is not read then. *)
Example v1_verification_only_asserts :
  snd (v1_process_metadata_and_check String.append "/session" "http://image" [("ca"%string, true)] example_fetch
         "/session/tmp" 7 100 None "main"%string true new_OTAImageHelper) = Raise assertion_failed.
Proof. vm_compute. reflexivity. Qed.
